(* ===== verification/_CoqProject ===== *)
-Q . S2P
Prelude.v
SnaList.v
TnxBuffer.v
TnxRecord.v
TnxConf.v
TnxTransmaps.v
TnxLib.v
TnxStream.v
TnxTelnet.v
Wildcard.v
Filemode.v
Cpic.v
AsuiteRecord.v
CpicSession.v
Tn3270Server.v
Tn3270Host.v
Tn3270Lua.v
GetSense.v
Tdb.v
TdbMem.v
TdbInv.v
TdbMap.v
TdbStore.v
TdbSpec.v
Anamed.v
Posix.v
Aftp.v
Aftpd.v
AftpTransfer.v
AftpRequests.v
AftpTypes.v
AftpClient.v
AftpCommands.v
AftpProgram.v
SnaUtility.v
SnaNof.v
Xml.v
SnaConfig.v
SnaLoad.v
Tn3270Config.v
Attach.v
Snatch.v
SnaShow.v
SnaControl.v
Aping.v
Getopt.v
Arexec.v
Atell.v
Libcpic.v
Acopy.v
AftpListing.v
