(* ===== verification/Prelude.v ===== *)
(** * linux-sna: a verification development of its user-space programs

    linux-sna is the user-space part of an SNA protocol stack: a TN3270/TN5250
    server ([tn3270d]) with its telnet library ([libtnX]), the APPC application
    suite ([libasuite], [asuite]), the node configuration tools ([snaconfig],
    [snatchd], [sense]) and the libraries that wrap the kernel's calls
    ([libsna]).  The kernel side, the LUA (RUI) library, libxml and glib are not
    in the repository.

    ** The parts and how they interact

    A terminal connects to [tn3270d].  The server process accepts it
    ([Tn3270Server], tn3270d/tn3270_daemon.c), negotiates telnet over a stream
    ([TnxStream], libtnX/tnX_stream.c), whose input becomes records
    ([TnxRecord], libtnX/tnX_record.c) held in growable buffers ([TnxBuffer],
    libtnX/tnX_buffer.c), and whose settings are a configuration ([TnxConf],
    libtnX/tnX_conf.c).  The host side of the client ([Tn3270Host],
    tn3270d/tn3270_host.c) builds 3270 and 5250 data streams with the character
    tables ([TnxTransmaps], libtnX/transmaps.h; [TnxLib], libtnX/libtnX.c) and
    reads the records back; client filters are also in [TnxLib].  Towards the
    SNA host the daemon uses RUI verbs ([Tn3270Lua], tn3270d/tn3270_daemon.c).
    Which servers there are is read from a file ([Tn3270Config],
    tn3270d/tn3270_xml.c), and each is given a process.  The daemons and tools keep
    what they know in circular lists ([SnaList], tn3270d/tn3270_list.c).

    The APPC suite's programs talk over CPI-C conversations, whose interface is
    the class [Cpic.Cpic].  [CpicSession] (libasuite/cpicsession.c) opens them
    and exchanges versions; [AsuiteRecord] (libasuite/asuitecommon.c) is the
    record format, its transmission, and directory listings, which use
    [Wildcard] (libasuite/wildcard.c); [Filemode] (libasuite/filemode.c) is the
    text of file modes; [Tdb] (libasuite/tdb.c) is the hash database in which
    the name server [Anamed] (asuite/anamed.c), which answers records over a
    conversation, keeps its registrations.

    File transfer has two halves over the same records.  [Aftp]
    (libasuite/libaftp.c) is the client library: a table of sessions, each with
    a record and a conversation, and a function per request.  [Aftpd]
    (asuite/aftpd.c) is the server: a record that arrives is dispatched on its
    major code and carried out on the files.  The file system of either is an
    instance of [Posix.Posix]; the two meet over conversations whose messages
    are seen by [Cpic.Delivers].  [AftpClient] (asuite/aftp.c) is the program a
    user types commands to, which calls the library; [Acopy] (asuite/acopy.c) copies
    one file with it.

    Small programs and their servers talk over one conversation each: [Aping]
    (asuite/aping.c, asuite/apingd.c) sends packets that come back, [Arexec]
    (asuite/arexec.c, asuite/arexecd.c) has a command executed, [Atell]
    (asuite/atell.c, asuite/atelld.c) shows a message to a user.  [Getopt] is the scan of
    options of the GNU library, which [Arexec] runs over its own words.  Servers are started by
    [Snatch] (snatchd/snatchd.c) when the attach manager of the kernel, reached through
    [Attach] (libsna/libattach.c), hands over an attach.  The calls of CPI-C themselves
    are [Libcpic] (libsna/libcpic.c), with the dispatcher on the other side of the system
    call.  [GetSense] (sense/getsense.c) displays what a sense code means.

    The node is configured from a file.  [SnaConfig] (snaconfig/sna_load.c) turns
    the tree libxml makes of it, whose interface is [Xml.Xml], into structures,
    with the words of [Xml] (snaconfig/sna_xwords.c) and the addresses of
    [SnaUtility] (snaconfig/sna_utility.c), and these into requests of the node
    operator facility [SnaNof] (libsna/libnof.c), whose kernel is [SnaNof.Nof].
    [SnaShow] (snaconfig/sna_show.c) puts together and prints what it answers, and
    [SnaControl] (snaconfig/sna_ctrl.c, snaconfig/snaconfig.c) has the commands and
    the program.

    ** How C is modelled

    A definition has the name of the C function it translates.  Integers are
    [Z], with the conversions to narrower types written out ([u8], [u16],
    [u32], [s16]); characters and bytes are [Z]; a C string is the list of its
    characters before the NUL, and where reading or writing past an object
    matters ([Wildcard], [CpicSession], [TnxBuffer]) the object is the list of
    its cells, an unassigned cell being [None].  Objects that are linked or
    shared (records, configuration lists) live in stores indexed by addresses.
    Stateful code is in the monad [M] below: a result is a value, the end of the
    process ([Exit]), a failed assertion ([Abort]), undefined behaviour
    ([Undef]) or, for a loop written with fuel, no result ([NoFuel]).  Code that
    never leaves the process returns an [option], [None] being undefined
    behaviour.  Output to logs and the console is left out.

    The environment is explicit: a socket is the script of what its calls give
    and the bytes sent ([TnxStream.sock]); a round of the server's loop is an
    event ([Tn3270Server.select_event]); the CPI-C and RUI libraries are classes
    of operations over a state of their own, with scripted instances used to run
    concrete conversations: the script of a conversation has what arrives and the log of
    the calls made with their arguments ([Cpic.cpic_call]), so that a theorem on a script
    says when the turn is handed over, a message confirmed or the conversation ended;
    the attach manager has a view ([Attach.attach_view]) of the names registered and the
    correlations taken; the files are the class [Posix.Posix], with a disk in
    memory whose reads and writes can be short; [inet_aton], the byte order of
    the machine, the time, the names of users and, in [Aping], the width of a [long] are
    parameters.  [getopt] moves the words it passes over or, in the other mode of the
    library, does not: [Getopt] takes this as an argument.

    ** The files, and what their theorems show

    - [TnxBuffer]: a buffer refines a list of bytes ([buf_rep]): appending is
      list append and in bounds across every reallocation, below the limit of
      the [int] length.
    - [TnxRecord]: the ring of records refines a sequence ([ring],
      [rec_queue]): adding appends, removing removes exactly the one record,
      destroying frees each record once and ends.
    - [TnxConf]: set and get; a printed file loads into exactly its variables;
      promotion ends although it appends to the list it walks; the two faults
      of list values (an unterminated one is read for ever, a promoted one is
      freed twice).
    - [TnxTransmaps], [TnxLib]: each map's two directions undo each other; the
      client filter accepts exactly the addresses that agree with an entry on
      its prefix.
    - [TnxStream]: the definitions of the stream.  [TnxTelnet]: its
      specification [decode], a machine on byte strings, and the refinement
      ([rel]): receiving computes [decode], ends, and does not depend on how
      input is cut (except inside a negotiation, where the code is undefined);
      non-empty records sent by the code over any such socket are received as the same
      records, or as a first part of them when the sender exits; sending ends under any
      partial writes with everything on the wire; records are handed out first
      in, first out; an empty record corrupts the next one.
    - [Tn3270Host]: [render] is a 3270 display; the test screen is what it
      shows; what serving a test client returns for any bytes.
    - [Tn3270Server]: the invariant [wf] of descriptors, client list and counts
      over every sequence of rounds, whatever setting up and serving a client do (each
      is an outcome of the event, which can also end the process); the state a failed
      setup leaves ([leaked]); the client limit is never given back; a client whose
      setup fails stops the server.
    - [Tn3270Lua]: a verb sent is waited for and its outcome reported; writes
      follow the bracket protocol and carry the data of a record, up to the sixteen bits of
      its length; reinitialisation is tried a bounded number of
      times.
    - [Cpic]: the interface of a client ([Cpic]) and of a server that accepts
      conversations ([CpicServer]), their laws and the scripted instances.
      [AsuiteRecord]: messages round trip through a conversation; the exact
      bytes of a status response; a listing is the sorted list of the matching
      names; what [safe_get_cwd] returns, and when it does not.
      [CpicSession]: the setters keep to their members and a conversation opens
      with what was set, except that a symbolic name erases the user name; both
      sides of the version exchange agree.
    - [Wildcard]: the matcher decides the meaning [glob] of a pattern; its two
      departures are stated.  [Filemode]: the text determines the mode.
    - [Tdb]: the definitions of the database, over a store of bytes.  [TdbMem]:
      blocks and linked lists in the store ([node_at], [lseg]), unlinking and
      splitting.  [TdbInv]: the invariant [inv] (the free list and the chains
      lie apart, each record is in the chain of its hash, no key twice), the
      map it holds ([db_map], [tdb_refines]) and the steps that keep it.
      [TdbMap], [TdbStore]: each operation is the one of the map.  [TdbSpec]:
      any sequence of operations answers as the map, opening gives the empty
      map, a traversal visits each record once, integers are read back;
      [tdb_nextkey] never reaches the last chain.
    - [Anamed]: a registration, a query or a deletion that arrives in a record
      is carried out on the map of the database and answered with one record; a
      parameter of length zero makes the server loop for ever, and the first
      partner of a conversation is read before it is known.
    - [Posix]: the calls on files, what is assumed of them ([PosixLaws]) and a
      disk that satisfies it.  [Aftp], [Aftpd]: the definitions of the client
      library and of the server, with the lemmas that step them.
      [AftpTransfer]: a file the client sends is stored by the server and
      answered, a file it asks for is stored by the client, in both cases for
      any pieces in which it is read and written, and nothing else changes (what
      is left of a longer old file stays).  [AftpRequests]: a request on files
      or directories is carried out by the server once, and what the client
      reports is stated, also where it is not the outcome (a failed deletion, a
      failed change of directory).  [AftpTypes]: after any calls that
      returned the table of sessions is well formed, and each function that exchanges
      nothing with the server is undefined in just the cases stated ([local_function]).
    - [AftpClient]: the client program: its tables, the words of a line, each
      command, the questions put to the user and the loop over lines.
      [AftpCommands]: the binary search for a command is the linear search of its
      table (for record formats only up to the last), and a line is broken into
      its words except where a terminator falls outside its block.
      [AftpProgram]: the program's variables agree with the table of sessions at
      every prompt; a connected program's session has a conversation.
    - [AftpListing]: the command [ls] prints the names of the files a server has that
      the matcher takes for the pattern, in order; when the matcher or the client's
      buffers run over, the behaviour is undefined.
    - [Acopy]: a file it is given arrives at a server; how it ends does not depend on
      whether a file it asked for came.
    - [Aping]: the server sends back the packets the program sent, and the program
      takes them for these and ends.  [Arexec]: the words of a command arrive as one
      line, and what the command prints is printed; where [getopt] moves words the
      destination is in the line too.  [Atell]: a message is shown on the user's terminal
      and confirmed; called with an option the program loses it.  For these three every
      call of either side is listed.
    - [Libcpic]: each function of the library reaches the function of the kernel that is
      named after it, with its arguments in their order, and the code comes back.
    - [Attach]: the functions of the attach manager and what is assumed of it.
      [Snatch]: the daemon registers the programs of its file, starts the right one for
      each attach and tells the kernel, which keeps this for the control blocks it has; how many attempts it lets through.
    - [SnaList]: the circular lists refine the sequence of their entries.
    - [GetSense]: the program prints what the data file means for a code
      ([lookup]), and ends on every file although it seeks backwards; for the code 0835
      [lookup] goes on into the codes behind it.

    - [SnaUtility]: identifiers of networks and Ethernet addresses read back
      from their text, the first when the names have less than eight characters.
      [SnaNof]: a query ends with all records, after exactly the calls stated
      ([NofAsked] is a kernel that keeps what it was asked).  [Xml]: trees, words, and what it
      means that an element says something ([reads]).  [SnaConfig]: the
      definitions.  [SnaLoad]: a configuration as text, the requests it stands
      for ([requests]), and that loading makes exactly these.  [SnaShow]: the
      display is given the kernel's tables, but not all link stations.
      [SnaControl]: a command sends one request.
    - [Tn3270Config]: a file that says servers starts a process for each, with what
      it says; allowed addresses are read as [TnxLib] reads them.

    ** Bounds and fuel

    [TnxBuffer.BUF_MAX] is the largest length from which a further append, with
    the growth it may cause, stays an [int]; theorems about buffers and streams
    assume their data below it.  Loops over input carry fuel computed from the
    input itself: [promote_fuel] (each promotion shortens a name), [write_fuel]
    (each turn uses an event of the script or writes a byte), [rx_fuel] (each
    turn uses a received event), [dispatch_fuel] (a turn per descriptor); the
    theorems show these are enough, since they give a result without
    [NoFuel].  Loops that wait for the outside ([Tn3270Lua.do_select]) or that
    the code may not end ([read_list], [safe_get_cwd], [send_reinit]) take fuel
    as an argument, and theorems say how much is enough or that none is.  The
    loops over the parameters of a record have a turn for each of its bytes;
    those over the records of a file ([Aftp.send_records], [Aftp.receive_records],
    [Aftpd.send_records]) and of a conversation take the number of records, and
    the theorems on transfers say how many a file needs.  The client program has a
    turn for each character of its input, and one behind it.  A query takes its
    number of calls, which its theorem states.

    ** Not modelled

    Calls to the operating system ([fork], signals, making sockets, daemon
    setup), log and console output, freeing functions with no other effect.
    What the kernel does for a call is the parameter of [Libcpic] and, as a contract to the
    suite, [Cpic]; of the attach manager [AttachLaws] says what it keeps and that it hands
    over what arrives, though the structure is not filled in the kernel patch (the lines
    that do it are compiled out); libsna/libappc.c hands one call on and libsna/liblua.c is empty.  The
    signal masks and the handler of [snatchd], which only logs, and asuite/atest.c, which
    prints the codes of two verbs, are left out.  libasuite/libaname.c holds declarations only;
    include/tn5250 and docs hold no code of these programs, and patch-o-matic
    is a patch of the kernel.

    ** Order of work

    The telnet and record path came first, then the configuration and client
    filters, the server, the suite's records and sessions, the sense display and
    the hash database, the name server over it, file transfer and its program, the
    node configuration tool and the configuration of tn3270d, the small programs of the
    suite, the attach daemon, the calls of CPI-C, and directory listings from the server
    to the terminal. *)
From stdpp Require Export base tactics option list gmap strings.
From Stdlib Require Export ZArith Lia Bool.

#[global] Open Scope Z_scope.

(** ** Machine integers

    C integers are [Z]; the width is written where a conversion happens.  *)

Definition INT_MAX : Z := 2147483647.

Definition u8 (x : Z) : Z := x mod 256.
Definition u16 (x : Z) : Z := x mod 65536.
Definition u32 (x : Z) : Z := x mod 4294967296.

(** Conversion to a signed 16-bit [short] (two's complement). *)
Definition s16 (x : Z) : Z :=
  let y := x mod 65536 in if decide (y < 32768) then y else y - 65536.

(** A value an [unsigned char] can hold. *)
Definition is_byte (b : Z) : Prop := 0 <= b < 256.

#[export] Instance is_byte_dec b : Decision (is_byte b).
Proof. unfold is_byte. apply _. Defined.

Abbreviation is_bytes := (Forall is_byte).

(** ** C strings

    A C string is the list of its characters without the terminating NUL. *)

Definition str (s : string) : list Z :=
  (fun a => Z.of_N (Stdlib.Strings.Ascii.N_of_ascii a)) <$>
    Stdlib.Strings.String.list_ascii_of_string s.

(** The part of a memory block up to its first NUL, which is what the string
    functions see. *)
Fixpoint c_str (l : list Z) : list Z :=
  match l with
  | [] => []
  | c :: t => if decide (c = 0) then [] else c :: c_str t
  end.

(** The C string at the start of a stretch of memory with unassigned bytes. *)
Fixpoint mem_string (m : list (option Z)) : option (list Z) :=
  match m with
  | Some c :: m => if decide (c = 0) then Some [] else cons c <$> mem_string m
  | _ => None
  end.

(** What [strchr] splits: what stands before the first [c], and behind it. *)
Definition split_at (c : Z) (s : list Z) : option (list Z * list Z) :=
  match list_find (fun x => x = c) s with
  | Some (i, _) => Some (take i s, drop (S i) s)
  | None => None
  end.

(** Characters a C string can hold. *)
Definition no_nul (s : list Z) : Prop := Forall (fun c => c <> 0) s.

#[export] Instance no_nul_dec s : Decision (no_nul s).
Proof. unfold no_nul. apply _. Defined.

Lemma split_at_app c a b : c ∉ a -> split_at c (a ++ c :: b) = Some (a, b).
Proof.
  intros Ha. unfold split_at. assert (list_find (fun x => x = c) (a ++ c :: b) = Some (length a, c)) as ->.
  { apply list_find_Some. split_and!; [by rewrite list_lookup_middle|done|]. intros j y Hj Hl. rewrite lookup_app_l in Hj by done.
    intros ->. by apply list_elem_of_lookup_2 in Hj. }
  f_equal. f_equal; [by rewrite take_app_length|]. by rewrite (cons_middle c), app_assoc, drop_app_length' by (rewrite length_app; cbn; lia).
Qed.

Lemma split_at_none c a : c ∉ a -> split_at c a = None.
Proof.
  intros Ha. unfold split_at. destruct (list_find _ a) as [[i x]|] eqn:E; [|done].
  apply list_find_Some in E as (Hi & -> & _). by apply list_elem_of_lookup_2 in Hi.
Qed.

Lemma c_str_whole s : no_nul s -> c_str s = s.
Proof. induction 1 as [|c s Hc _ IH]; [done|]. cbn. by rewrite decide_False, IH by done. Qed.

Lemma c_str_app_nul s x : no_nul s -> c_str (s ++ 0 :: x) = s.
Proof. induction 1 as [|c s Hc _ IH]; [done|]. cbn. by rewrite decide_False, IH by done. Qed.

Lemma c_str_string s : no_nul s -> c_str (s ++ [0]) = s.
Proof. apply c_str_app_nul. Qed.

Lemma mem_string_cells a x : no_nul a -> mem_string ((Some <$> a) ++ Some 0 :: x) = Some a.
Proof. induction 1 as [|c a Hc _ IH]; [done|]. cbn. rewrite decide_False by done. cbn in IH. by rewrite IH. Qed.

(** [<ctype.h>] in the C locale. *)
Definition isspace (c : Z) : bool :=
  bool_decide (c = 32 \/ 9 <= c <= 13).
Definition isdigit (c : Z) : bool := bool_decide (48 <= c <= 57).
Definition islower (c : Z) : bool := bool_decide (97 <= c <= 122).
Definition isupper (c : Z) : bool := bool_decide (65 <= c <= 90).
Definition isprint (c : Z) : bool := bool_decide (32 <= c <= 126).
Definition isxdigit (c : Z) : bool :=
  isdigit c || bool_decide (97 <= c <= 102) || bool_decide (65 <= c <= 70).
Definition toupper (c : Z) : Z := if islower c then c - 32 else c.

(** [strupr], in place in the code: every character through [toupper]. *)
Definition strupr (s : list Z) : list Z := toupper <$> s.

Lemma toupper_nul c : c <> 0 -> toupper c <> 0.
Proof. unfold toupper, islower. case_bool_decide; lia. Qed.

Lemma strupr_no_nul s : no_nul s -> no_nul (strupr s).
Proof. intros H. apply Forall_fmap. eapply Forall_impl; [exact H|]. intros c. apply toupper_nul. Qed.

(** [strcmp], on characters as [unsigned char]. *)
Fixpoint strcmp (a b : list Z) : Z :=
  match a, b with
  | [], [] => 0
  | [], _ => -1
  | _, [] => 1
  | x :: a, y :: b => if decide (x = y) then strcmp a b else x - y
  end.

(** ** Numbers in text

    [strtol]: the value, and what follows the number; without digits it is 0 and
    follows the whole string.  A [long] has 32 bits. *)
Fixpoint skip_blanks (s : list Z) : list Z :=
  match s with
  | c :: t => if isspace c then skip_blanks t else s
  | [] => []
  end.

Definition digit_value (c : Z) : option Z :=
  if isdigit c then Some (c - 48) else if islower c then Some (c - 87) else if isupper c then Some (c - 55) else None.

Definition digit_in (base c : Z) : option Z :=
  match digit_value c with Some d => if decide (d < base) then Some d else None | None => None end.

Fixpoint digits (base : Z) (s : list Z) (n : Z) : Z * list Z :=
  match s with
  | c :: t => match digit_in base c with Some d => digits base t (n * base + d) | None => (n, s) end
  | [] => (n, [])
  end.

Definition long_clamp (n : Z) : Z := Z.max (-2147483648) (Z.min 2147483647 n).

(** The base, and what is left behind its prefix, which has to have a digit behind it. *)
Definition base_prefix (base : Z) (s : list Z) : Z * list Z :=
  match s with
  | 48 :: x :: ((d :: _) as t) =>
      if bool_decide ((x = 120 \/ x = 88) /\ (base = 0 \/ base = 16) /\ is_Some (digit_in 16 d)) then (16, t)
      else (if decide (base = 0) then 8 else base, s)
  | 48 :: _ => (if decide (base = 0) then 8 else base, s)
  | _ => (if decide (base = 0) then 10 else base, s)
  end.

Definition strtol (base : Z) (s : list Z) : Z * list Z :=
  let '(neg, t) := match skip_blanks s with
    | 45 :: t => (true, t)
    | 43 :: t => (false, t)
    | t => (false, t)
    end in
  let '(base, t) := base_prefix base t in
  match t with
  | c :: _ =>
      match digit_in base c with
      | Some _ => let '(n, rest) := digits base t 0 in (long_clamp (if (neg : bool) then - n else n), rest)
      | None => (0, s)
      end
  | [] => (0, s)
  end.

(** ["%d"] of a number that is not negative. *)
Fixpoint decimal_digits (fuel : nat) (n : Z) : list Z :=
  match fuel with
  | O => []
  | S fuel => (if decide (n < 10) then [] else decimal_digits fuel (n / 10)) ++ [48 + n mod 10]
  end.

Definition decimal (n : Z) : list Z := decimal_digits 10 n.

(** [printf]'s [%3u], [%-8s] and the like. *)
Definition pad_left (n : nat) (s : list Z) : list Z := replicate (n - length s) 32 ++ s.
Definition pad_right (n : nat) (s : list Z) : list Z := s ++ replicate (n - length s) 32.

(** ** Streams

    What [fgets] with room for [n] characters takes of the rest [f] of a file,
    and what it leaves: up to the newline, included, or [n] characters. *)
Fixpoint fgets (n : nat) (f : list Z) : list Z * list Z :=
  match n, f with
  | S n, c :: f' => if decide (c = 10) then ([c], f')
                    else let '(l, r) := fgets n f' in (c :: l, r)
  | _, _ => ([], f)
  end.

(** ** Outcomes of stateful C code

    A computation over a state [S] returns a value, leaves the process through
    [exit], is stopped by [tnX_assert] ([abort]), meets behaviour the C
    standard leaves undefined (an indeterminate value used, a pointer outside
    its object), or, in a loop written with fuel, runs out of it. *)

Inductive outcome (S A : Type) : Type :=
| Ret (a : A) (s : S)
| Exit (code : Z) (s : S)
| Abort (s : S)
| Undef (s : S)
| NoFuel (s : S).

Arguments Ret {S A} a s.
Arguments Exit {S A} code s.
Arguments Abort {S A} s.
Arguments Undef {S A} s.
Arguments NoFuel {S A} s.

Definition M (S A : Type) : Type := S -> outcome S A.

#[export] Instance M_ret S : MRet (M S) := fun A a s => Ret a s.
#[export] Instance M_bind S : MBind (M S) := fun A B k m s =>
  match m s with
  | Ret a s' => k a s'
  | Exit c s' => Exit c s'
  | Abort s' => Abort s'
  | Undef s' => Undef s'
  | NoFuel s' => NoFuel s'
  end.

Section MonadOps.
Context {S : Type}.

Definition get_st : M S S := fun s => Ret s s.
Definition put_st (s' : S) : M S unit := fun _ => Ret tt s'.
Definition modify (f : S -> S) : M S unit := fun s => Ret tt (f s).
Definition gets {A} (f : S -> A) : M S A := fun s => Ret (f s) s.
Definition c_exit {A} (code : Z) : M S A := fun s => Exit code s.
Definition undef {A} : M S A := fun s => Undef s.
Definition no_fuel {A} : M S A := fun s => NoFuel s.
Definition tnX_assert (b : bool) : M S unit :=
  fun s => if b then Ret tt s else Abort s.
(** A partial memory operation: [None] is an access outside an object. *)
Definition of_opt {A} (o : option A) : M S A :=
  match o with Some a => mret a | None => undef end.
End MonadOps.

(** A computation over a part of the state. *)
Definition zoom {S T A} (get : S -> T) (set : T -> S -> S) (m : M T A) : M S A := fun s =>
  match m (get s) with
  | Ret a t => Ret a (set t s)
  | Exit c t => Exit c (set t s)
  | Abort t => Abort (set t s)
  | Undef t => Undef (set t s)
  | NoFuel t => NoFuel (set t s)
  end.

Lemma zoom_Ret {S T A} (get : S -> T) set (m : M T A) s a t : m (get s) = Ret a t -> zoom get set m s = Ret a (set t s).
Proof. unfold zoom. by intros ->. Qed.

(** Monad laws, used to normalise programs. *)
Lemma M_ret_bind {S A B} (a : A) (k : A -> M S B) : mret a ≫= k = k a.
Proof. reflexivity. Qed.

Lemma M_bind_Ret {S A B} (m : M S A) (k : A -> M S B) s a s' :
  m s = Ret a s' -> (m ≫= k) s = k a s'.
Proof. intros H. unfold mbind, M_bind. by rewrite H. Qed.

(** *** Computations that meet undefined behaviour *)

Definition undefined {S A} (o : outcome S A) : Prop := exists s, o = Undef s.

Lemma undefined_bind {S A B} (m : M S A) (k : A -> M S B) s : undefined (m s) -> undefined ((m ≫= k) s).
Proof. intros [s' E]. exists s'. unfold mbind, M_bind. by rewrite E. Qed.

Lemma undefined_zoom {S T A} (get : S -> T) set (m : M T A) s : undefined (m (get s)) -> undefined (zoom get set m s).
Proof. intros [t E]. exists (set t s). unfold zoom. by rewrite E. Qed.

Lemma M_bind_assoc {S A B C} (m : M S A) (f : A -> M S B) (g : B -> M S C) s :
  ((m ≫= f) ≫= g) s = (m ≫= (fun a => f a ≫= g)) s.
Proof. unfold mbind, M_bind. by destruct (m s). Qed.

Lemma get_st_bind {S B} (k : S -> M S B) s : (get_st ≫= k) s = k s s.
Proof. reflexivity. Qed.

Lemma put_st_bind {S B} s' (k : unit -> M S B) s : (put_st s' ≫= k) s = k tt s'.
Proof. reflexivity. Qed.

Lemma modify_bind {S B} f (k : unit -> M S B) s : (modify f ≫= k) s = k tt (f s).
Proof. reflexivity. Qed.

Lemma of_opt_Some_bind {S A B} (a : A) (k : A -> M S B) : of_opt (Some a) ≫= k = k a.
Proof. reflexivity. Qed.

(** ** Automation *)

Create HintDb sna discriminated.

(** Split every [decide] and [match] in the context and the goal, and close
    arithmetic. *)
Ltac case_all :=
  repeat (case_decide || case_match || case_bool_decide);
  simplify_eq/=; try done; try lia.

(** Step a monadic program whose first operation's result is known. *)
Ltac mstep H := erewrite (M_bind_Ret _ _ _ _ _ H); cbn beta.

(** ** Lists *)

Section ListLemmas.
Context {A : Type}.
Implicit Types l : list A.

Lemma take_insert_app l n x y k :
  take n l = k -> length k = n -> l !! n = Some y ->
  take (S n) (<[n := x]> l) = k ++ [x].
Proof.
  intros Hk Hlen Hy. apply lookup_lt_Some in Hy.
  erewrite take_S_r; [|by apply list_lookup_insert_eq].
  by rewrite take_insert_ge, Hk by lia.
Qed.

Lemma Forall_snoc (P : A -> Prop) l x : Forall P l -> P x -> Forall P (l ++ [x]).
Proof. intros. apply Forall_app_2; auto. Qed.
End ListLemmas.

(** ** Lines *)

Lemma fgets_incl k f x : (x ∈ (fgets k f).1 -> x ∈ f) /\ (x ∈ (fgets k f).2 -> x ∈ f).
Proof.
  revert f. induction k as [|k IH]; intros [|c f]; cbn; try (by split).
  - by split; [intros ?%elem_of_nil|].
  - case_decide; cbn; [set_solver|]. specialize (IH f). destruct (fgets k f). cbn in *. set_solver.
Qed.

Lemma fgets_progress n c f : (0 < n)%nat -> (0 < length (fgets n (c :: f)).1 <= length (c :: f))%nat.
Proof.
  enough (forall n f, length (fgets n f).1 <= length f)%nat as H.
  { destruct n; [lia|]. cbn. case_decide; cbn; [lia|]. specialize (H n f). destruct (fgets n f). cbn in *. lia. }
  clear. induction n as [|n IH]; intros [|c f]; cbn; try lia. case_decide; cbn; [lia|].
  specialize (IH f). destruct (fgets n f). cbn in *. lia.
Qed.

Lemma fgets_line k l r :
  10 ∉ l -> (length l < k)%nat -> fgets k (l ++ 10 :: r) = (l ++ [10], r).
Proof.
  revert l. induction k as [|k IH]; intros l Hl Hk; [lia|].
  destruct l as [|c l]; cbn; [done|]. rewrite decide_False by set_solver.
  rewrite IH; [done|set_solver|cbn in Hk; lia].
Qed.

(** ** Bytes *)

Lemma u8_byte x : is_byte (u8 x).
Proof. unfold is_byte, u8. apply Z.mod_pos_bound. lia. Qed.

Lemma u8_id b : is_byte b -> u8 b = b.
Proof. unfold is_byte, u8. intros. apply Z.mod_small. lia. Qed.

Lemma u8_fmap_id bs : is_bytes bs -> u8 <$> bs = bs.
Proof.
  induction 1 as [|b bs Hb Hbs IH]; [done|]. cbn. by rewrite IH, u8_id.
Qed.

#[export] Hint Resolve u8_byte Forall_snoc : sna.
#[export] Hint Rewrite @M_ret_bind : sna.
