(* ===== verification/SnaList.v ===== *)
(** * Circular lists

    tn3270d/tn3270_list.c, snaconfig/sna_list.c and snatchd/snatch_list.c, which are the
    same code, with the macros of their headers.  A list head is an object in a store
    of objects with two pointers; NULL and what was freed are not in the store.  The
    other components take a list for the sequence of its entries; here this is shown
    of the code. *)
From S2P Require Import Prelude.
From stdpp Require Import gmap.

Module SnaList.
Abbreviation ptr := nat.

Record list_head : Type := MkHead { next : ptr; prev : ptr }.
Abbreviation store := (gmap ptr list_head).

(** Assignments through a pointer. *)
Definition set_next (p v : ptr) (s : store) : option store := e ← s !! p; Some (<[p := MkHead v (prev e)]> s).
Definition set_prev (p v : ptr) (s : store) : option store := e ← s !! p; Some (<[p := MkHead (next e) v]> s).

Definition list_init_head (p : ptr) (s : store) : option store := s ← set_next p p s; set_prev p p s.

Definition list_add (new prev next : ptr) (s : store) : option store :=
  s ← set_prev next new s;
  s ← set_next new next s;
  s ← set_prev new prev s;
  set_next prev new s.

Definition list_add_tail (new head : ptr) (s : store) : option store :=
  e ← s !! head;
  list_add new (prev e) head s.

Definition list_del' (prev next : ptr) (s : store) : option store :=
  s ← set_prev next prev s;
  set_next prev next s.

Definition list_del (entry : ptr) (s : store) : option store :=
  e ← s !! entry;
  list_del' (prev e) (next e) s.

Definition list_empty (head : ptr) (s : store) : option bool := e ← s !! head; Some (bool_decide (next e = head)).

(** [list_for_each]: the entries that are visited, from [pos]; a turn for each. *)
Fixpoint for_each (fuel : nat) (pos head : ptr) (s : store) : option (list ptr) :=
  match fuel with
  | O => None
  | S fuel =>
      e ← s !! pos;
      if decide (pos = head) then Some [] else cons pos <$> for_each fuel (next e) head s
  end.

Definition list_for_each (fuel : nat) (head : ptr) (s : store) : option (list ptr) := e ← s !! head; for_each fuel (next e) head s.

(** [list_for_each_safe] with its body: the entry behind is read before the body. *)
Fixpoint for_each_safe (body : ptr -> store -> option store) (fuel : nat) (pos n head : ptr) (s : store) : option store :=
  match fuel with
  | O => None
  | S fuel =>
      if decide (pos = head) then Some s else
      s ← body pos s;
      e ← s !! n;
      for_each_safe body fuel n (next e) head s
  end.

Definition list_for_each_safe (body : ptr -> store -> option store) (fuel : nat) (head : ptr) (s : store) : option store :=
  e ← s !! head;
  e' ← s !! next e;
  for_each_safe body fuel (next e) (next e') head s.

(** The body of the loops that empty a list: [list_del] and [free]. *)
Definition del_free (p : ptr) (s : store) : option store := s ← list_del p s; _ ← s !! p; Some (delete p s).

(** ** A list as a sequence *)

Definition nxt (s : store) (p : ptr) : option ptr := next <$> s !! p.
Definition prv (s : store) (p : ptr) : option ptr := prev <$> s !! p.

Fixpoint chain (s : store) (l : list ptr) : Prop :=
  match l with
  | p :: ((q :: _) as t) => nxt s p = Some q /\ prv s q = Some p /\ chain s t
  | _ => True
  end.

(** From the head through the entries back to the head. *)
Definition ring (s : store) (head : ptr) (l : list ptr) : Prop := NoDup (head :: l) /\ chain s (head :: l ++ [head]).

Lemma links_app s l1 p l2 : chain s (l1 ++ p :: l2) <-> chain s (l1 ++ [p]) /\ chain s (p :: l2).
Proof.
  induction l1 as [|a [|b l1] IH]; cbn [app].
  - cbn. tauto.
  - cbn. tauto.
  - cbn [app chain] in IH |- *. tauto.
Qed.

(** Looked at are the first pointers of all but the last, and the second of all but
    the first. *)
Lemma links_frame s s' l z p : Forall (fun a => nxt s' a = nxt s a) (p :: l) -> Forall (fun b => prv s' b = prv s b) (l ++ [z]) ->
  chain s (p :: l ++ [z]) -> chain s' (p :: l ++ [z]).
Proof.
  revert p. induction l as [|q l IH]; intros p Hn Hp Hc; apply Forall_cons in Hn as [Hn Hn']; apply Forall_cons in Hp as [Hp Hp'];
    destruct Hc as (E1 & E2 & Hc); cbn [app chain]; rewrite Hn, Hp; split_and!; [done..|]. by apply IH.
Qed.

Lemma next_insert s p e a : nxt (<[p := e]> s) a = if decide (p = a) then Some (next e) else nxt s a.
Proof. unfold nxt. rewrite lookup_insert. by case_decide. Qed.
Lemma prev_insert s p e a : prv (<[p := e]> s) a = if decide (p = a) then Some (prev e) else prv s a.
Proof. unfold prv. rewrite lookup_insert. by case_decide. Qed.

(** An assignment changes one pointer, and no object comes or goes. *)
Lemma set_next_spec p v s : is_Some (s !! p) -> exists s', set_next p v s = Some s' /\ dom s' = dom s /\
  (forall a, nxt s' a = if decide (p = a) then Some v else nxt s a) /\ (forall a, prv s' a = prv s a).
Proof.
  intros [e He]. unfold set_next. rewrite He. eexists. split; [done|]. split; [by apply dom_insert_lookup_L|]. split; intros a.
  - by rewrite next_insert.
  - rewrite prev_insert. case_decide; [subst|done]. unfold prv. by rewrite He.
Qed.

Lemma set_prev_spec p v s : is_Some (s !! p) -> exists s', set_prev p v s = Some s' /\ dom s' = dom s /\
  (forall a, prv s' a = if decide (p = a) then Some v else prv s a) /\ (forall a, nxt s' a = nxt s a).
Proof.
  intros [e He]. unfold set_prev. rewrite He. eexists. split; [done|]. split; [by apply dom_insert_lookup_L|]. split; intros a.
  - by rewrite prev_insert.
  - rewrite next_insert. case_decide; [subst|done]. unfold nxt. by rewrite He.
Qed.

Lemma live_dom (s s' : store) p : dom s' = dom s -> is_Some (s !! p) -> is_Some (s' !! p).
Proof. rewrite <- !elem_of_dom. by intros ->. Qed.

Lemma list_add_spec new p q s : is_Some (s !! new) -> is_Some (s !! p) -> is_Some (s !! q) -> new <> p -> new <> q ->
  exists s', list_add new p q s = Some s' /\ dom s' = dom s /\
    (forall a, nxt s' a = if decide (p = a) then Some new else if decide (new = a) then Some q else nxt s a) /\
    (forall a, prv s' a = if decide (q = a) then Some new else if decide (new = a) then Some p else prv s a).
Proof.
  intros Hnew Hp Hq Hnp Hnq. unfold list_add.
  destruct (set_prev_spec q new s Hq) as (s1 & -> & D1 & P1 & N1). cbn [mbind option_bind].
  destruct (set_next_spec new q s1) as (s2 & -> & D2 & N2 & P2); [by apply (live_dom s)|]. cbn [mbind option_bind].
  destruct (set_prev_spec new p s2) as (s3 & -> & D3 & P3 & N3); [apply (live_dom s); [congruence|done]|]. cbn [mbind option_bind].
  destruct (set_next_spec p new s3) as (s4 & -> & D4 & N4 & P4); [apply (live_dom s); [congruence|done]|].
  exists s4. split; [done|]. split; [congruence|]. split; intros a.
  - by rewrite N4, N3, N2, N1.
  - rewrite P4, P3, P2, P1. repeat case_decide; congruence.
Qed.

Lemma list_del_spec p x q s : nxt s x = Some q -> prv s x = Some p -> is_Some (s !! p) -> is_Some (s !! q) ->
  exists s', list_del x s = Some s' /\ dom s' = dom s /\
    (forall a, nxt s' a = if decide (p = a) then Some q else nxt s a) /\ (forall a, prv s' a = if decide (q = a) then Some p else prv s a).
Proof.
  intros Hn Hv Hp Hq. unfold nxt in Hn. unfold prv in Hv. unfold list_del. destruct (s !! x) as [e|] eqn:Ex; [|done]. injection Hn as <-. injection Hv as <-.
  cbn [mbind option_bind]. unfold list_del'. destruct (set_prev_spec (next e) (prev e) s Hq) as (s1 & -> & D1 & P1 & N1). cbn [mbind option_bind].
  destruct (set_next_spec (prev e) (next e) s1) as (s2 & -> & D2 & N2 & P2); [by apply (live_dom s)|].
  exists s2. split; [done|]. split; [congruence|]. split; intros a; [by rewrite N2, N1|by rewrite P2, P1].
Qed.

(** *** Insertion and removal *)

Lemma chain_live s p l z a : chain s (p :: l ++ [z]) -> a ∈ p :: l ++ [z] -> p = z \/ a <> p -> is_Some (s !! a).
Proof.
  revert p. induction l as [|q l IH]; intros p Hc Ha Hz; cbn [app] in Hc, Ha; destruct Hc as (Hn & Hp & Hc).
  - assert (a = z) as ->; [apply elem_of_cons in Ha as [->|Ha]; [by destruct Hz|by apply list_elem_of_singleton in Ha]|].
    unfold prv in Hp. by destruct (s !! z).
  - apply elem_of_cons in Ha as [->|Ha]; [by unfold nxt in Hn; destruct (s !! p)|].
    destruct (decide (a = q)) as [->|Hq]; [unfold prv in Hp; by destruct (s !! q)|]. apply (IH q); [done|done|by right].
Qed.

Lemma ring_object s h l a : ring s h l -> a ∈ h :: l -> is_Some (s !! a).
Proof. intros [_ Hc] Ha. apply (chain_live s h l h); [done|set_solver|by left]. Qed.

(** A place in a ring: before and behind it. *)
Lemma ring_split s h l1 l2 : ring s h (l1 ++ l2) ->
  exists u p q v, h :: l1 = u ++ [p] /\ l2 ++ [h] = q :: v /\ chain s (u ++ [p]) /\ nxt s p = Some q /\ prv s q = Some p /\ chain s (q :: v).
Proof.
  intros [_ Hc]. destruct (exists_last (l := h :: l1) ltac:(done)) as (u & p & Hu). destruct (l2 ++ [h]) as [|q v] eqn:Hv; [by destruct l2|].
  exists u, p, q, v. rewrite <- app_assoc, Hv in Hc. change (h :: l1 ++ q :: v) with ((h :: l1) ++ q :: v) in Hc. rewrite Hu, <- app_assoc in Hc.
  cbn [app] in Hc. apply links_app in Hc as (H1 & H2 & H3 & H4). done.
Qed.

(** Assignments to the first pointer of [p] and the second of [q], and to an object that
    is not in the ring, leave the parts before and behind the place. *)
Lemma ring_parts s s' h l1 l2 u p q v (other : ptr -> Prop) : NoDup (h :: l1 ++ l2) -> h :: l1 = u ++ [p] -> l2 ++ [h] = q :: v ->
  chain s (u ++ [p]) -> chain s (q :: v) -> (forall a, other a -> a ∉ h :: l1 ++ l2) ->
  (forall a, p <> a -> ~ other a -> nxt s' a = nxt s a) -> (forall a, q <> a -> ~ other a -> prv s' a = prv s a) ->
  chain s' (u ++ [p]) /\ chain s' (q :: v).
Proof.
  intros Hnd Hu Hv H1 H2 Ho Hn Hp.
  assert (p ∈ h :: l1) as Hin by (rewrite Hu; set_solver). assert (forall a, a ∈ h :: l1 ++ l2 -> ~ other a) as Ho' by (intros a Ha Hx; by apply (Ho a)).
  rewrite app_comm_cons in Hnd. apply NoDup_app in Hnd as (Hnd1 & Hd & Hnd2). split.
  - assert (q ∉ l1) as Hq.
    { apply NoDup_cons in Hnd1 as [Hh _]. destruct l2 as [|x l2]; injection Hv as <- <-; [done|]. intros Hx. apply (Hd x); set_solver. }
    rewrite Hu in Hnd1. apply NoDup_app in Hnd1 as (_ & Hpu & _).
    destruct u as [|x u]; [done|]. injection Hu as <- ->. apply (links_frame s); [| |exact H1]; apply Forall_forall; intros a Ha.
    + apply Hn; [intros <-; apply (Hpu p); set_solver|apply Ho'; set_solver].
    + apply Hp; [intros <-; set_solver|apply Ho'; set_solver].
  - destruct l2 as [|x l2]; injection Hv as <- <-; [done|]. apply NoDup_cons in Hnd2 as [Hx _].
    apply (links_frame s); [| |exact H2]; apply Forall_forall; intros a Ha.
    + apply Hn; [intros <-; apply (Hd p); set_solver|apply Ho'; set_solver].
    + apply Hp; [intros <-; apply elem_of_app in Ha as [Ha|Ha%list_elem_of_singleton]; [done|subst; apply (Hd h); set_solver]|apply Ho'; set_solver].
Qed.

Lemma ring_add s h l1 l2 new : ring s h (l1 ++ l2) -> is_Some (s !! new) -> new ∉ h :: l1 ++ l2 ->
  exists p q s', last (h :: l1) = Some p /\ head (l2 ++ [h]) = Some q /\ list_add new p q s = Some s' /\ dom s' = dom s /\ ring s' h (l1 ++ new :: l2).
Proof.
  intros Hr Hnew Hnin. destruct (ring_split s h l1 l2 Hr) as (u & p & q & v & Hu & Hv & H1 & Hn & Hp & H2).
  assert (p ∈ h :: l1) as Hp' by (rewrite Hu; set_solver). assert (q ∈ l2 ++ [h]) as Hq' by (rewrite Hv; set_solver).
  destruct (list_add_spec new p q s) as (s' & E & Hd & N & P); [done| | |set_solver|set_solver|].
  { apply (ring_object s h (l1 ++ l2)); [done|set_solver]. } { apply (ring_object s h (l1 ++ l2)); [done|set_solver]. }
  exists p, q, s'. rewrite Hu, last_snoc, Hv. split_and!; [done..|]. destruct Hr as [Hnd _]. split.
  - rewrite app_comm_cons in Hnd |- *. rewrite <- Permutation_middle. by apply NoDup_cons.
  - change (h :: (l1 ++ new :: l2) ++ [h]) with (((h :: l1) ++ new :: l2) ++ [h]). rewrite Hu, <- !app_assoc. cbn [app]. rewrite Hv.
    destruct (ring_parts s s' h l1 l2 u p q v (eq new)) as [? ?]; try done.
    { by intros a <-. } { intros a Ha Hx. by rewrite N, !decide_False. } { intros a Ha Hx. by rewrite P, !decide_False. }
    assert (nxt s' p = Some new) by (by rewrite N, decide_True). assert (prv s' q = Some new) by (by rewrite P, decide_True).
    assert (nxt s' new = Some q) by (rewrite N, decide_False, decide_True by set_solver; done).
    assert (prv s' new = Some p) by (rewrite P, decide_False, decide_True by set_solver; done).
    apply links_app. split; [done|]. by split_and!.
Qed.

Lemma ring_del s h l1 x l2 : ring s h (l1 ++ x :: l2) -> exists s', list_del x s = Some s' /\ dom s' = dom s /\ ring s' h (l1 ++ l2).
Proof.
  intros Hr. destruct (ring_split s h l1 (x :: l2) Hr) as (u & p & x' & w & Hu & [= <- <-] & H1 & Hxp & Hpx & H2).
  destruct (l2 ++ [h]) as [|q v] eqn:Hv; [by destruct l2|]. cbn [chain] in H2. destruct H2 as (Hxq & Hqx & H2).
  assert (p ∈ h :: l1) as Hp' by (rewrite Hu; set_solver). assert (q ∈ l2 ++ [h]) as Hq' by (rewrite Hv; set_solver).
  destruct (list_del_spec p x q s) as (s' & E & Hd & N & P); [done|done| | |].
  { apply (ring_object s h (l1 ++ x :: l2)); [done|set_solver]. } { apply (ring_object s h (l1 ++ x :: l2)); [done|set_solver]. }
  exists s'. split_and!; [done..|]. destruct Hr as [Hnd _]. rewrite app_comm_cons, <- Permutation_middle in Hnd. apply NoDup_cons in Hnd as [Hx Hnd].
  split; [exact Hnd|]. change (h :: (l1 ++ l2) ++ [h]) with (((h :: l1) ++ l2) ++ [h]). rewrite Hu, <- !app_assoc, Hv. cbn [app].
  destruct (ring_parts s s' h l1 l2 u p q v (eq x)) as [? ?]; try done.
  { by intros a <-. } { intros a Ha Ho. by rewrite N, decide_False. } { intros a Ha Ho. by rewrite P, decide_False. }
  apply links_app. split; [done|]. split_and!; [by rewrite N, decide_True|by rewrite P, decide_True|done].
Qed.

Lemma ring_init s h : is_Some (s !! h) -> exists s', list_init_head h s = Some s' /\ dom s' = dom s /\ ring s' h [].
Proof.
  intros Hh. unfold list_init_head. destruct (set_next_spec h h s Hh) as (s1 & -> & D1 & N1 & P1). cbn [mbind option_bind].
  destruct (set_prev_spec h h s1) as (s2 & -> & D2 & P2 & N2); [by apply (live_dom s)|]. exists s2. split; [done|]. split; [congruence|].
  split; [apply NoDup_singleton|]. cbn [app chain]. by rewrite P2, N2, N1, !decide_True.
Qed.

(** *** Loops *)

Lemma for_each_entries s h p l fuel : chain s (p :: l ++ [h]) -> h ∉ l -> (length l < fuel)%nat ->
  exists q, nxt s p = Some q /\ for_each fuel q h s = Some l.
Proof.
  revert p fuel. induction l as [|q l IH]; intros p [|fuel] Hc Hh Hf; try (cbn in Hf; lia); destruct Hc as (Hn & Hp & Hc).
  - exists h. split; [done|]. cbn [for_each]. unfold prv in Hp. destruct (s !! h); [|done]. cbn [mbind option_bind]. by rewrite decide_True.
  - exists q. split; [done|]. cbn [for_each]. destruct (IH q fuel) as (q' & Hq & E); [done|set_solver|cbn in Hf; lia|].
    unfold nxt in Hq. destruct (s !! q) as [e|]; [|done]. injection Hq as <-. cbn [mbind option_bind]. rewrite decide_False by set_solver. by rewrite E.
Qed.

Lemma ring_for_each s h l fuel : ring s h l -> (length l < fuel)%nat -> list_for_each fuel h s = Some l.
Proof.
  intros [Hnd Hc] Hf. apply NoDup_cons in Hnd as [Hh _]. destruct (for_each_entries s h h l fuel Hc Hh Hf) as (q & Hq & E).
  unfold list_for_each. unfold nxt in Hq. destruct (s !! h); [|done]. by injection Hq as <-.
Qed.

Lemma ring_delete s h l x : ring s h l -> x ∉ h :: l -> ring (delete x s) h l.
Proof.
  intros [Hnd Hc] Hx. split; [done|]. apply (links_frame s); [| |exact Hc]; apply Forall_forall; intros a Ha; unfold nxt, prv;
    rewrite lookup_delete_ne; set_solver.
Qed.

(** The next of an object with a ring behind it. *)
Lemma ring_first s h l : ring s h l -> exists q, nxt s h = Some q /\ head (l ++ [h]) = Some q /\ is_Some (nxt s q).
Proof.
  intros Hr. destruct (ring_split s h [] l Hr) as (u & p & q & v & Hu & Hv & _ & Hn & _ & _). destruct u as [|? [|??]]; [|done..].
  injection Hu as <-. exists q. rewrite Hv. split_and!; [done..|]. unfold nxt. apply fmap_is_Some. eapply ring_object; [done|]. destruct l; set_solver.
Qed.

Lemma ring_del_free s h x l : ring s h (x :: l) -> exists s', del_free x s = Some s' /\ dom s' = dom s ∖ {[x]} /\ ring s' h l.
Proof.
  intros Hr. destruct (ring_del s h [] x l Hr) as (s1 & E & Hd & Hr1). unfold del_free. rewrite E. cbn [mbind option_bind].
  destruct (live_dom s s1 x Hd) as [e ->]; [apply (ring_object s h (x :: l)); [done|set_solver]|]. cbn [mbind option_bind].
  exists (delete x s1). split; [done|]. split; [by rewrite dom_delete_L, Hd|]. apply ring_delete; [done|].
  destruct Hr as [Hnd _]. apply NoDup_cons in Hnd as [? Hnd]. apply NoDup_cons in Hnd as [? _]. set_solver.
Qed.

Lemma safe_clears fuel l s h pos n : ring s h l -> head (l ++ [h]) = Some pos -> nxt s pos = Some n -> (length l < fuel)%nat ->
  exists s', for_each_safe del_free fuel pos n h s = Some s' /\ dom s' = dom s ∖ list_to_set l /\ ring s' h [].
Proof.
  revert s pos n fuel. induction l as [|x l IH]; intros s pos n [|fuel] Hr Hp Hn Hf; try (cbn in Hf; lia); injection Hp as <-; cbn [for_each_safe].
  - rewrite decide_True by done. exists s. split_and!; [done| |done]. cbn. set_solver.
  - assert (x <> h) as Hx by (destruct Hr as [Hnd _]; apply NoDup_cons in Hnd; set_solver). rewrite decide_False by done.
    assert (head (l ++ [h]) = Some n) as Hl.
    { destruct Hr as [_ Hc]. cbn [app] in Hc. destruct Hc as (_ & _ & Hc). destruct l as [|y l]; destruct Hc as [Hc _]; rewrite Hn in Hc; by injection Hc as ->. }
    destruct (ring_del_free s h x l Hr) as (s1 & -> & Hd & Hr1). cbn [mbind option_bind].
    destruct (ring_first s1 h l Hr1) as (q & _ & Hq & [n' Hn']). rewrite Hl in Hq. injection Hq as <-.
    destruct (IH s1 n n' fuel Hr1 Hl Hn') as (s' & E & Hd' & Hr'); [cbn in Hf; lia|].
    unfold nxt in Hn'. destruct (s1 !! n) as [e|]; [|done]. injection Hn' as <-. cbn [mbind option_bind].
    exists s'. split_and!; [done| |done]. rewrite Hd', Hd. cbn. set_solver.
Qed.

Lemma ring_clear s h l fuel : ring s h l -> (length l < fuel)%nat ->
  exists s', list_for_each_safe del_free fuel h s = Some s' /\ dom s' = dom s ∖ list_to_set l /\ ring s' h [].
Proof.
  intros Hr Hf. destruct (ring_first s h l Hr) as (q & Hq & Hl & [n Hn]). destruct (safe_clears fuel l s h q n Hr Hl Hn Hf) as (s' & E & H').
  exists s'. split; [|exact H']. unfold list_for_each_safe. unfold nxt in Hq, Hn. destruct (s !! h); [|done]. injection Hq as <-. cbn [mbind option_bind].
  destruct (s !! next _); [|done]. by injection Hn as <-.
Qed.

Lemma ring_size s h l : ring s h l -> (length l < S (size s))%nat.
Proof.
  intros Hr. assert (length l <= size (dom s))%nat as Hl; [|rewrite size_dom in Hl; lia].
  pose proof Hr as [Hnd _]. apply NoDup_cons in Hnd as [_ Hnd]. rewrite <- (size_list_to_set (C := gset ptr) l Hnd). apply subseteq_size.
  intros a Ha%elem_of_list_to_set. apply elem_of_dom, (ring_object s h l); [done|by right].
Qed.

(** ** Sequences of operations *)

Inductive op : Type := AddTail (x : ptr) | Del (x : ptr) | Entries | Empty | Clear.
Inductive answer : Type := Done | Visited (l : list ptr) | IsEmpty (b : bool).

Definition run_op (h : ptr) (o : op) (s : store) : option (answer * store) :=
  match o with
  | AddTail x => s ← list_add_tail x h s; Some (Done, s)
  | Del x => s ← list_del x s; Some (Done, s)
  | Entries => l ← list_for_each (S (size s)) h s; Some (Visited l, s)
  | Empty => b ← list_empty h s; Some (IsEmpty b, s)
  | Clear => s ← list_for_each_safe del_free (S (size s)) h s; Some (Done, s)
  end.

(** On the objects there are and the sequence: an entry is put in when it is no entry,
    and taken out when it is one. *)
Definition spec_op (h : ptr) (o : op) (s : gset ptr * list ptr) : option (answer * (gset ptr * list ptr)) :=
  let '(live, l) := s in
  match o with
  | AddTail x => if decide (x ∈ live /\ x ∉ h :: l) then Some (Done, (live, l ++ [x])) else None
  | Del x => if decide (x ∈ l) then Some (Done, (live, filter (fun y => y <> x) l)) else None
  | Entries => Some (Visited l, s)
  | Empty => Some (IsEmpty (bool_decide (l = [])), s)
  | Clear => Some (Done, (live ∖ list_to_set l, []))
  end.

Fixpoint run_ops {S} (step : op -> S -> option (answer * S)) (os : list op) (s : S) : option (list answer * S) :=
  match os with
  | [] => Some ([], s)
  | o :: os => '(a, s) ← step o s; '(l, s) ← run_ops step os s; Some (a :: l, s)
  end.

(** The store holds the sequence. *)
Definition holds (h : ptr) (s : store) (a : gset ptr * list ptr) : Prop := dom s = a.1 /\ ring s h a.2.

Lemma filter_others (x : ptr) (l : list ptr) : x ∉ l -> filter (fun y => y <> x) l = l.
Proof. induction l as [|y l IH]; intros Hx; [done|]. rewrite filter_cons_True by set_solver. rewrite IH by set_solver. done. Qed.

Lemma op_refines h o s a x a' : holds h s a -> spec_op h o a = Some (x, a') -> exists s', run_op h o s = Some (x, s') /\ holds h s' a'.
Proof.
  destruct a as [live l]. intros [Hd Hr] Ho. cbn [fst snd] in Hd, Hr. pose proof (ring_size s h l Hr) as Hf.
  destruct o as [y|y| | |]; cbn [spec_op run_op] in Ho |- *.
  - case_decide as Hy; [|done]. injection Ho as <- <-. destruct Hy as [Hy Hn].
    destruct (ring_add s h l [] y) as (p & q & s' & Hp & [= <-] & E & Hd' & Hr'); [by rewrite app_nil_r|apply elem_of_dom; by rewrite Hd|by rewrite app_nil_r|].
    exists s'. split; [|split; [by rewrite Hd'|done]]. unfold list_add_tail. destruct (ring_split s h l []) as (u & p' & q & v & Hu & [= <- <-] & _ & _ & Hp' & _); [by rewrite app_nil_r|].
    rewrite Hu, last_snoc in Hp. injection Hp as ->. unfold prv in Hp'. destruct (s !! h) as [e|]; [|done]. injection Hp' as <-. cbn [mbind option_bind]. by rewrite E.
  - case_decide as Hy; [|done]. injection Ho as <- <-. apply list_elem_of_split in Hy as (l1 & l2 & ->).
    destruct (ring_del s h l1 y l2 Hr) as (s' & E & Hd' & Hr'). exists s'. rewrite E. split; [done|]. split; [by rewrite Hd'|].
    cbn [snd]. destruct Hr as [Hnd _]. apply NoDup_cons in Hnd as [_ Hnd]. rewrite filter_app, filter_cons_False by (intros Hx; by apply Hx).
    apply NoDup_app in Hnd as (_ & Hx & Hnd). apply NoDup_cons in Hnd as [Hy _].
    rewrite !filter_others; [done|done|]. intros Ha. apply (Hx y); set_solver.
  - injection Ho as <- <-. exists s. rewrite (ring_for_each s h l) by done. done.
  - injection Ho as <- <-. exists s. split; [|done]. destruct (ring_first s h l Hr) as (q & Hq & Hl & _). unfold list_empty. unfold nxt in Hq.
    destruct (s !! h) as [e|]; [|done]. injection Hq as <-. cbn [mbind option_bind]. f_equal. f_equal. f_equal. apply bool_decide_ext.
    destruct l as [|z l]; injection Hl as Hl; [done|]. split; [|done]. intros Hz. destruct Hr as [Hnd _]. apply NoDup_cons in Hnd as [Hnd _].
    exfalso. apply Hnd. rewrite <- Hz, <- Hl. left.
  - injection Ho as <- <-. destruct (ring_clear s h l (S (size s)) Hr Hf) as (s' & E & Hd' & Hr'). exists s'. rewrite E. split; [done|].
    split; [cbn; by rewrite Hd', Hd|done].
Qed.

Lemma ops_refine h os s a answers a' : holds h s a -> run_ops (spec_op h) os a = Some (answers, a') ->
  exists s', run_ops (run_op h) os s = Some (answers, s') /\ holds h s' a'.
Proof.
  revert s a answers. induction os as [|o os IH]; intros s a answers Hs Ho; cbn [run_ops] in Ho |- *; [injection Ho as <- <-; by exists s|].
  destruct (spec_op h o a) as [[x a1]|] eqn:Ex; [|done]. cbn [mbind option_bind] in Ho. destruct (run_ops (spec_op h) os a1) as [[l a2]|] eqn:El; [|done].
  injection Ho as <- <-. destruct (op_refines h o s a x a1 Hs Ex) as (s1 & -> & Hs1). cbn [mbind option_bind].
  destruct (IH s1 a1 l Hs1 El) as (s2 & -> & Hs2). by exists s2.
Qed.

(** C34 (refinement).  A list is the sequence of its entries.  From a head that was
    initialised, for every sequence of operations that puts in only objects that are
    there and no entries, and takes out only entries, no pointer that is not valid is
    followed, every question is answered as the sequence answers it, and the loop that
    takes out and frees each entry frees these and no others. *)
Theorem list_ops_refine h os s answers live l :
  is_Some (s !! h) -> run_ops (spec_op h) os (dom s, []) = Some (answers, (live, l)) ->
  exists s0 s', list_init_head h s = Some s0 /\ run_ops (run_op h) os s0 = Some (answers, s') /\ dom s' = live /\ ring s' h l.
Proof.
  intros Hh Ho. destruct (ring_init s h Hh) as (s0 & E & Hd & Hr). rewrite <- Hd in Ho.
  destruct (ops_refine h os s0 (dom s0, []) answers (live, l)) as (s' & Es & Hs & Hl); [done|done|]. by exists s0, s'.
Qed.

Definition demo_store : store := list_to_map ((fun p => (p, MkHead 0 0)) <$> [1; 2; 3; 4]%nat).

Lemma list_ops_refine_witness : exists s0 s',
  list_init_head 1 demo_store = Some s0 /\
  run_ops (run_op 1) [Empty; AddTail 2; AddTail 3; AddTail 4; Entries; Del 3; Entries; AddTail 3; Entries; Clear; Empty]%nat s0 =
    Some ([IsEmpty true; Done; Done; Done; Visited [2; 3; 4]; Done; Visited [2; 4]; Done; Visited [2; 4; 3]; Done; IsEmpty true]%nat, s') /\
  dom s' = {[1%nat]}.
Proof.
  destruct (list_ops_refine 1 [Empty; AddTail 2; AddTail 3; AddTail 4; Entries; Del 3; Entries; AddTail 3; Entries; Clear; Empty]%nat demo_store
    [IsEmpty true; Done; Done; Done; Visited [2; 3; 4]; Done; Visited [2; 4]; Done; Visited [2; 4; 3]; Done; IsEmpty true]%nat {[1%nat]} [])
    as (s0 & s' & E0 & E & Hd & _); [by eexists|by vm_compute|]. by exists s0, s'.
Defined.
End SnaList.
