(* ===== verification/TnxBuffer.v ===== *)
(** * libtnX/tnX_buffer.c: the growable byte buffer

    A [tnXbuff] owns a block of [allocated] cells of which the first [len] are
    written.  A cell that was never written holds an indeterminate value, so
    the block is a list of optional bytes.  [buf_rep] is the abstract view of
    a buffer, a list of bytes; every operation refines the list operation it
    is meant to be, and never writes outside its block. *)
From S2P Require Import Prelude.

Definition BUFFER_DELTA : Z := 128.

Record tnXbuff : Type := MkBuff {
  data : option (list (option Z));
  len : Z;
  allocated : Z
}.

Definition tnX_buffer_init : tnXbuff := MkBuff None 0 0.

(** [g_free] of the block, then the same fields as [tnX_buffer_init]. *)
Definition tnX_buffer_free (buff : tnXbuff) : tnXbuff := MkBuff None 0 0.

(** [g_realloc]: the old contents up to the new size, then indeterminate
    cells. *)
Definition g_realloc (d : list (option Z)) (n : Z) : list (option Z) :=
  take (Z.to_nat n) d ++ replicate (Z.to_nat n - length d) None.

(** [None] is a fault: a failed [tnX_assert], signed overflow of [len] or
    [allocated], or a store outside the block. *)
Definition tnX_buffer_append_byte (buff : tnXbuff) (b : Z) : option tnXbuff :=
  if decide (INT_MAX < len buff + 1) then None
  else
    grown ← (if decide (allocated buff <= len buff + 1) then
               match data buff with
               | None => Some (replicate (Z.to_nat BUFFER_DELTA) None, BUFFER_DELTA)
               | Some d =>
                   let n := allocated buff + BUFFER_DELTA in
                   if decide (INT_MAX < n) then None else Some (g_realloc d n, n)
               end
             else d ← data buff; Some (d, allocated buff));
    let '(d, n) := grown in
    if decide (0 <= len buff < Z.of_nat (length d)) then
      Some (MkBuff (Some (<[Z.to_nat (len buff) := Some (u8 b)]> d)) (len buff + 1) n)
    else None.

(** [while (len--) append_byte( *data++ )]; the caller's array is a list of
    bytes of the given length. *)
Fixpoint tnX_buffer_append_data (buff : tnXbuff) (bs : list Z) : option tnXbuff :=
  match bs with
  | [] => Some buff
  | b :: bs' => buff' ← tnX_buffer_append_byte buff b; tnX_buffer_append_data buff' bs'
  end.

(** The macros [tnX_buffer_length] and [tnX_buffer_data(b)[n]]: an unallocated
    buffer reads as the literal [""]. *)
Definition tnX_buffer_length (buff : tnXbuff) : Z := len buff.

Definition tnX_buffer_at (buff : tnXbuff) (n : Z) : option Z :=
  if decide (n < 0) then None
  else match data buff with
       | None => if decide (n = 0) then Some 0 else None
       | Some d => mjoin (d !! Z.to_nat n)
       end.

(** The written bytes, as an executable view. *)
Definition buf_bytes (buff : tnXbuff) : list Z :=
  match data buff with
  | None => []
  | Some d => omap id (take (Z.to_nat (len buff)) d)
  end.

(** ** Abstract view *)

Definition buf_rep (buff : tnXbuff) (bs : list Z) : Prop :=
  len buff = Z.of_nat (length bs) /\ is_bytes bs /\
  match data buff with
  | None => bs = [] /\ allocated buff = 0
  | Some d =>
      allocated buff = Z.of_nat (length d) /\ len buff <= allocated buff /\
      take (length bs) d = Some <$> bs
  end.

(** The longest contents that can still grow without overflowing an [int]. *)
Definition BUF_MAX : Z := INT_MAX - 129.

Lemma buf_rep_init : buf_rep tnX_buffer_init [].
Proof. by repeat split. Qed.

Lemma buf_rep_free buff : buf_rep (tnX_buffer_free buff) [].
Proof. apply buf_rep_init. Qed.

Lemma buf_rep_len buff bs : buf_rep buff bs -> tnX_buffer_length buff = Z.of_nat (length bs).
Proof. by intros [H _]. Qed.

Lemma buf_rep_bytes buff bs : buf_rep buff bs -> is_bytes bs.
Proof. by intros (_ & H & _). Qed.

Lemma omap_id_Some (bs : list Z) : omap id (Some <$> bs) = bs.
Proof. induction bs as [|b bs IH]; [done|]. cbn. by f_equal. Qed.

Lemma buf_rep_buf_bytes buff bs : buf_rep buff bs -> buf_bytes buff = bs.
Proof.
  intros (Hlen & _ & H). unfold buf_bytes. destruct (data buff) as [d|].
  - destruct H as (_ & _ & H). by rewrite Hlen, Nat2Z.id, H, omap_id_Some.
  - by destruct H as [-> _].
Qed.

Lemma buf_rep_inj buff bs bs' : buf_rep buff bs -> buf_rep buff bs' -> bs = bs'.
Proof. intros ?%buf_rep_buf_bytes ?%buf_rep_buf_bytes. congruence. Qed.

(** The store at [len] of a block with room turns contents [bs] into
    [bs ++ [b]]. *)
Lemma store_rep d n bs b :
  take (length bs) d = Some <$> bs -> is_bytes bs ->
  n = Z.of_nat (length d) -> (length bs < length d)%nat ->
  buf_rep (MkBuff (Some (<[length bs := Some (u8 b)]> d)) (Z.of_nat (length bs) + 1) n)
          (bs ++ [u8 b]).
Proof.
  intros Hd Hbs -> Hlt. destruct (lookup_lt_is_Some_2 d _ Hlt) as [y Hy].
  split; [|split; [|split; [|split]]]; cbn.
  - rewrite length_app. cbn. lia.
  - auto with sna.
  - by rewrite length_insert.
  - lia.
  - rewrite length_app, Nat.add_1_r, fmap_app.
    eapply take_insert_app; [exact Hd | by rewrite length_fmap | exact Hy].
Qed.

Lemma length_g_realloc d n :
  Z.of_nat (length d) <= n -> Z.of_nat (length (g_realloc d n)) = n.
Proof.
  intros H. unfold g_realloc. rewrite length_app, length_take, length_replicate. lia.
Qed.

Lemma take_g_realloc d n k :
  (k <= length d)%nat -> Z.of_nat (length d) <= n -> take k (g_realloc d n) = take k d.
Proof.
  intros Hk Hn. unfold g_realloc. rewrite (take_ge d) by lia. by apply take_app_le.
Qed.

Lemma append_byte_rep buff bs b :
  buf_rep buff bs -> Z.of_nat (length bs) <= BUF_MAX ->
  exists buff', tnX_buffer_append_byte buff b = Some buff' /\ buf_rep buff' (bs ++ [u8 b]).
Proof.
  intros (Hlen & Hbs & H) Hmax. unfold BUF_MAX, tnX_buffer_append_byte in *.
  rewrite decide_False by lia. rewrite Hlen, Nat2Z.id.
  destruct (data buff) as [d|].
  - destruct H as (Hal & Hle & Hd).
    assert (length bs <= length d)%nat by lia.
    case_decide as Hgrow; cbn; unfold BUFFER_DELTA in *.
    + rewrite decide_False by lia. cbn.
      assert (Hl := length_g_realloc d (allocated buff + 128) ltac:(lia)).
      rewrite decide_True by lia. eexists; split; [done|].
      apply store_rep; try done; try lia. rewrite take_g_realloc by lia. done.
    + rewrite decide_True by lia. eexists; split; [done|].
      apply store_rep; try done; try lia.
  - destruct H as [-> Hal]. cbn in *. rewrite decide_True by lia. cbn.
    eexists; split; [done|]. apply (store_rep (replicate 128 None) 128 [] b); cbn; [done..|lia].
Qed.

Lemma append_data_rep bs : forall buff bs0,
  buf_rep buff bs0 -> Z.of_nat (length bs0 + length bs) <= BUF_MAX + 1 ->
  exists buff', tnX_buffer_append_data buff bs = Some buff' /\
                buf_rep buff' (bs0 ++ (u8 <$> bs)).
Proof.
  induction bs as [|b bs IH]; intros buff bs0 Hrep Hmax; cbn in *.
  - exists buff. rewrite app_nil_r. done.
  - destruct (append_byte_rep buff bs0 b Hrep ltac:(lia)) as (buff1 & -> & H1). cbn.
    destruct (IH buff1 _ H1) as (buff2 & -> & H2).
    { rewrite length_app. cbn. lia. }
    exists buff2. split; [done|]. by rewrite <- app_assoc in H2.
Qed.

Lemma buf_rep_at buff bs n :
  buf_rep buff bs -> 0 <= n < Z.of_nat (length bs) ->
  tnX_buffer_at buff n = bs !! Z.to_nat n.
Proof.
  intros (Hlen & _ & H) Hn. unfold tnX_buffer_at. rewrite decide_False by lia.
  destruct (data buff) as [d|]; [|destruct H as [-> _]; cbn in Hn; lia].
  destruct H as (_ & _ & Hd).
  rewrite <- (lookup_take_lt d (length bs)), Hd, list_lookup_fmap by lia.
  by destruct (bs !! Z.to_nat n).
Qed.

#[export] Hint Resolve buf_rep_init buf_rep_free buf_rep_len buf_rep_bytes : sna.

(** ** Properties *)

(** C19: appending a byte refines list append and stays in bounds: from any
    buffer holding [bs] below the [int] limit, [tnX_buffer_append_byte] does
    not fault, and the buffer then holds [bs] followed by the byte, whether or
    not the block had to grow. *)
Theorem tnX_buffer_append_byte_refines buff bs b :
  buf_rep buff bs -> Z.of_nat (length bs) <= BUF_MAX ->
  exists buff', tnX_buffer_append_byte buff b = Some buff' /\
    buf_rep buff' (bs ++ [u8 b]) /\
    len buff' = len buff + 1 /\ len buff' <= allocated buff'.
Proof.
  intros Hrep Hmax.
  destruct (append_byte_rep buff bs b Hrep Hmax) as (buff' & E & Hrep').
  exists buff'. split; [done|]. split; [done|].
  destruct Hrep as (-> & _ & _), Hrep' as (-> & _ & H').
  rewrite length_app in *. cbn in *. split; [lia|].
  destruct (data buff'); [|by destruct H' as [[_ ?]%app_eq_nil _]].
  destruct H' as (-> & ? & _). lia.
Qed.

Lemma tnX_buffer_append_byte_refines_witness :
  exists buff', tnX_buffer_append_byte tnX_buffer_init 193 = Some buff' /\
    buf_rep buff' [193] /\ len buff' = 1 /\ len buff' <= allocated buff'.
Proof.
  apply (tnX_buffer_append_byte_refines tnX_buffer_init [] 193);
    [apply buf_rep_init | vm_compute; discriminate].
Defined.

(** [tnX_buffer_append_data] is append: any number of bytes below the
    [int] limit, across any number of reallocations. *)
Theorem tnX_buffer_append_data_refines buff bs0 bs :
  buf_rep buff bs0 -> is_bytes bs -> Z.of_nat (length bs0 + length bs) <= BUF_MAX + 1 ->
  exists buff', tnX_buffer_append_data buff bs = Some buff' /\
    buf_bytes buff' = bs0 ++ bs.
Proof.
  intros Hrep Hbs Hmax.
  destruct (append_data_rep bs buff bs0 Hrep Hmax) as (buff' & E & Hrep').
  rewrite u8_fmap_id in Hrep' by done.
  exists buff'. eauto using buf_rep_buf_bytes.
Qed.

Lemma tnX_buffer_append_data_refines_witness :
  exists buff', tnX_buffer_append_data tnX_buffer_init (replicate 300 7) = Some buff' /\
    buf_bytes buff' = replicate 300 7.
Proof.
  apply (tnX_buffer_append_data_refines tnX_buffer_init [] (replicate 300 7));
    [apply buf_rep_init | | vm_compute; discriminate].
  apply Forall_replicate. unfold is_byte. lia.
Defined.
