(* ===== verification/TnxRecord.v ===== *)
(** * libtnX/tnX_record.c: records and the circular list of records

    Records live in a heap and are linked both ways into a ring; a list is the
    pointer to its first record, [None] being NULL.  [ring] relates a list
    pointer to the sequence of records reached by following [next], and every
    list operation is shown to be the sequence operation it stands for.  *)
From S2P Require Import Prelude TnxBuffer.

Abbreviation ptr := positive.

Record tnXrec : Type := MkRec {
  rec_prev : option ptr;
  rec_next : option ptr;
  rec_data : tnXbuff;
  rec_cur_pos : Z
}.

(** The store: allocated records, the next unused address, and whether
    [malloc] is out of memory. *)
Record rheap : Type := MkHeap {
  cells : gmap ptr tnXrec;
  brk : ptr;
  oom : bool
}.

(** Reading or writing through a pointer: [None] when it does not point to a
    live record. *)
Definition rec_at (h : rheap) (p : ptr) : option tnXrec := cells h !! p.

Definition rec_upd (h : rheap) (p : ptr) (f : tnXrec -> tnXrec) : option rheap :=
  r ← cells h !! p; Some (MkHeap (<[p := f r]> (cells h)) (brk h) (oom h)).

Definition set_next (q : option ptr) (r : tnXrec) : tnXrec :=
  MkRec (rec_prev r) q (rec_data r) (rec_cur_pos r).
Definition set_prev (q : option ptr) (r : tnXrec) : tnXrec :=
  MkRec q (rec_next r) (rec_data r) (rec_cur_pos r).
Definition set_data (b : tnXbuff) (r : tnXrec) : tnXrec :=
  MkRec (rec_prev r) (rec_next r) b (rec_cur_pos r).
Definition set_cur_pos (n : Z) (r : tnXrec) : tnXrec :=
  MkRec (rec_prev r) (rec_next r) (rec_data r) n.

Definition tnX_record_new (h : rheap) : option ptr * rheap :=
  if oom h then (None, h)
  else (Some (brk h),
        MkHeap (<[brk h := MkRec None None tnX_buffer_init 0]> (cells h))
               (Pos.succ (brk h)) (oom h)).

(** [free] of a pointer that is not live is a fault; NULL is ignored. *)
Definition tnX_record_destroy (h : rheap) (This : option ptr) : option rheap :=
  match This with
  | None => Some h
  | Some p => _ ← cells h !! p; Some (MkHeap (delete p (cells h)) (brk h) (oom h))
  end.

(** The macros over the record's buffer. *)
Definition tnX_record_length (r : tnXrec) : Z := tnX_buffer_length (rec_data r).

Definition tnX_record_append_byte (h : rheap) (p : ptr) (c : Z) : option rheap :=
  r ← rec_at h p;
  b ← tnX_buffer_append_byte (rec_data r) c;
  rec_upd h p (set_data b).

Definition tnX_record_set_cur_pos (h : rheap) (p : ptr) (n : Z) : option rheap :=
  rec_upd h p (set_cur_pos n).

(** [cur_pos++], the assertion [cur_pos <= length], then the byte before the
    cursor.  The failed assertion aborts; a byte that cannot be read is
    undefined behaviour. *)
Definition tnX_record_get_byte (p : ptr) : M rheap Z :=
  r ← gets (fun h => rec_at h p) ≫= of_opt;
  h ← gets (fun h => rec_upd h p (set_cur_pos (rec_cur_pos r + 1))) ≫= of_opt;
  put_st h;;
  tnX_assert (bool_decide (rec_cur_pos r + 1 <= tnX_record_length r));;
  of_opt (tnX_buffer_at (rec_data r) (rec_cur_pos r)).

Definition tnX_record_list_add (h : rheap) (list : option ptr) (record : ptr) :
    option (option ptr * rheap) :=
  match list with
  | None =>
      h ← rec_upd h record (set_prev (Some record));
      h ← rec_upd h record (set_next (Some record));
      Some (Some record, h)
  | Some l =>
      h ← rec_upd h record (set_next (Some l));
      rl ← rec_at h l;
      h ← rec_upd h record (set_prev (rec_prev rl));
      rr ← rec_at h record;
      pr ← rec_prev rr;
      h ← rec_upd h pr (set_next (Some record));
      rr ← rec_at h record;
      nx ← rec_next rr;
      h ← rec_upd h nx (set_prev (Some record));
      Some (Some l, h)
  end.

Definition tnX_record_list_remove (h : rheap) (list : option ptr) (record : ptr) :
    option (option ptr * rheap) :=
  match list with
  | None => Some (None, h)
  | Some l =>
      rl ← rec_at h l;
      if decide (rec_next rl = Some l) then
        h ← rec_upd h record (set_next None);
        h ← rec_upd h record (set_prev None);
        Some (None, h)
      else
        let list' := if decide (l = record) then rec_next rl else Some l in
        rr ← rec_at h record;
        nx ← rec_next rr;
        h ← rec_upd h nx (set_prev (rec_prev rr));
        rr ← rec_at h record;
        pr ← rec_prev rr;
        h ← rec_upd h pr (set_next (rec_next rr));
        h ← rec_upd h record (set_prev None);
        h ← rec_upd h record (set_next None);
        Some (list', h)
  end.

(** [do { next = iter->next; destroy(iter); iter = next } while (iter != list)]:
    [None] as a result is a fault or exhausted fuel. *)
Fixpoint list_destroy_loop (fuel : nat) (h : rheap) (list iter : ptr) : option rheap :=
  match fuel with
  | O => None
  | S fuel =>
      r ← rec_at h iter;
      h ← tnX_record_destroy h (Some iter);
      next ← rec_next r;
      if decide (next = list) then Some h else list_destroy_loop fuel h list next
  end.

Definition tnX_record_list_destroy (h : rheap) (list : option ptr) :
    option (option ptr * rheap) :=
  match list with
  | None => Some (None, h)
  | Some l => h ← list_destroy_loop (size (cells h)) h l l; Some (None, h)
  end.

(** ** The ring invariant *)

Definition nxt (c : gmap ptr tnXrec) (p : ptr) : option ptr := c !! p ≫= rec_next.
Definition prv (c : gmap ptr tnXrec) (p : ptr) : option ptr := c !! p ≫= rec_prev.

Definition link (c : gmap ptr tnXrec) (p q : ptr) : Prop :=
  nxt c p = Some q /\ prv c q = Some p.

(** Consecutive records of a segment are linked both ways. *)
Fixpoint chain (c : gmap ptr tnXrec) (l : list ptr) : Prop :=
  match l with
  | p :: ((q :: _) as t) => link c p q /\ chain c t
  | _ => True
  end.

(** The list pointer [hd] denotes the sequence [l]. *)
Definition ring (c : gmap ptr tnXrec) (hd : option ptr) (l : list ptr) : Prop :=
  hd = head l /\ NoDup l /\
  match l with [] => True | h :: _ => chain c (l ++ [h]) end.

(** Each record of the sequence holds the bytes of the list at its place. *)
Definition holds (c : gmap ptr tnXrec) (l : list ptr) (bss : list (list Z)) : Prop :=
  Forall2 (fun p bs => exists r, c !! p = Some r /\ buf_rep (rec_data r) bs) l bss.

Lemma chain_cons c p q t : chain c (p :: q :: t) <-> link c p q /\ chain c (q :: t).
Proof. done. Qed.

Lemma chain_app c l1 p l2 :
  chain c (l1 ++ p :: l2) <-> chain c (l1 ++ [p]) /\ chain c (p :: l2).
Proof.
  induction l1 as [|a [|b l1] IH]; cbn [app].
  - cbn. tauto.
  - rewrite !chain_cons. cbn [app] in IH. cbn. tauto.
  - rewrite !chain_cons. cbn [app] in IH. rewrite IH. tauto.
Qed.

(** A segment depends on [next] of all but its last record and on [prev] of
    all but its first. *)
Lemma chain_frame c c' l : forall p,
  (forall a, In a (removelast (p :: l)) -> nxt c' a = nxt c a) ->
  (forall a, In a l -> prv c' a = prv c a) ->
  chain c (p :: l) -> chain c' (p :: l).
Proof.
  induction l as [|q l IH]; intros p Hn Hp H; [done|].
  rewrite chain_cons in *. destruct H as [[H1 H2] H3]. repeat split.
  - rewrite Hn; [done|]. by left.
  - rewrite Hp; [done|]. by left.
  - apply IH; [| |done]; intros a Ha; [apply Hn | apply Hp]; by right.
Qed.

Lemma holds_frame c c' l bss :
  (forall p, In p l -> rec_data <$> c' !! p = rec_data <$> c !! p) ->
  holds c l bss -> holds c' l bss.
Proof.
  intros Hf H. induction H as [|p bs l bss (r & Hr & Hrep) H IH]; [constructor|].
  constructor.
  - specialize (Hf p (or_introl eq_refl)). rewrite Hr in Hf.
    destruct (c' !! p) as [r'|]; [|done]. cbn in Hf. simplify_eq.
    exists r'. by rewrite Hf.
  - apply IH. intros q Hq. apply Hf. by right.
Qed.

(** ** Reading through updates *)

Lemma nxt_insert c p r a : nxt (<[p := r]> c) a = if decide (p = a) then rec_next r else nxt c a.
Proof. unfold nxt. rewrite lookup_insert. by case_decide. Qed.

Lemma prv_insert c p r a : prv (<[p := r]> c) a = if decide (p = a) then rec_prev r else prv c a.
Proof. unfold prv. rewrite lookup_insert. by case_decide. Qed.

Lemma data_insert (c : gmap ptr tnXrec) (p : ptr) r r0 (a : ptr) :
  c !! p = Some r0 -> rec_data r = rec_data r0 ->
  rec_data <$> <[p := r]> c !! a = rec_data <$> c !! a.
Proof.
  intros Hp Hr. rewrite lookup_insert. case_decide; [|done]. subst. rewrite Hp. cbn. congruence.
Qed.

Lemma rec_upd_Some h p f r :
  cells h !! p = Some r -> rec_upd h p f = Some (MkHeap (<[p := f r]> (cells h)) (brk h) (oom h)).
Proof. intros H. unfold rec_upd. by rewrite H. Qed.

Lemma nxt_Some c p q : nxt c p = Some q -> exists r, c !! p = Some r /\ rec_next r = Some q.
Proof. unfold nxt. destruct (c !! p) as [r|]; [|done]. cbn. eauto. Qed.

Lemma prv_Some c p q : prv c p = Some q -> exists r, c !! p = Some r /\ rec_prev r = Some q.
Proof. unfold prv. destruct (c !! p) as [r|]; [|done]. cbn. eauto. Qed.

(** Only links changed between two stores. *)
Definition same_but_links (h h' : rheap) : Prop :=
  brk h' = brk h /\ oom h' = oom h /\
  forall a, rec_data <$> cells h' !! a = rec_data <$> cells h !! a.

Lemma same_but_links_live h h' a :
  same_but_links h h' -> is_Some (cells h !! a) -> is_Some (cells h' !! a).
Proof.
  intros (_ & _ & H) [r Hr]. specialize (H a). rewrite Hr in H.
  destruct (cells h' !! a); [eauto|done].
Qed.

(** The last record of a non-empty ring is the one before its head. *)
Lemma ring_last c hd h l' z :
  ring c hd (l' ++ [z]) -> head (l' ++ [z]) = Some h ->
  chain c (l' ++ [z]) /\ link c z h.
Proof.
  intros (-> & _ & Hc) Hh. destruct l' as [|a l']; cbn in Hh, Hc; simplify_eq.
  - split; [done|]. by destruct Hc.
  - rewrite <- app_assoc in Hc. cbn in Hc.
    apply (chain_app c (h :: l') z [h]) in Hc as [H1 [H2 _]]. done.
Qed.

Lemma in_removelast_snoc {A} (l : list A) z : removelast (l ++ [z]) = l.
Proof. rewrite removelast_app by done. by rewrite app_nil_r. Qed.

(** The effect of linking [record] between [z] and [hd], as pointer
    equations. *)
Definition linked_between (h h' : rheap) (z record hd : ptr) : Prop :=
  same_but_links h h' /\
  (forall a, nxt (cells h') a = if decide (record = a) then Some hd
                                else if decide (z = a) then Some record else nxt (cells h) a) /\
  (forall a, prv (cells h') a = if decide (record = a) then Some z
                                else if decide (hd = a) then Some record else prv (cells h) a).

Lemma list_add_links h hd z record :
  link (cells h) z hd -> record <> z -> record <> hd -> is_Some (cells h !! record) ->
  exists h', tnX_record_list_add h (Some hd) record = Some (Some hd, h') /\
             linked_between h h' z record hd.
Proof.
  intros [Hn Hp] Hz Hhd [rr Hr].
  apply prv_Some in Hp as (rh & Hrh & Hph). apply nxt_Some in Hn as (rz & Hrz & Hnz).
  unfold tnX_record_list_add.
  rewrite (rec_upd_Some _ _ _ _ Hr). cbn. unfold rec_at; cbn.
  rewrite lookup_insert_ne, Hrh by done. cbn.
  erewrite rec_upd_Some by apply lookup_insert_eq. cbn.
  rewrite lookup_insert_eq. cbn. rewrite Hph. cbn. rewrite insert_insert_eq.
  erewrite rec_upd_Some by (cbn; rewrite lookup_insert_ne by done; exact Hrz). cbn.
  rewrite lookup_insert_ne, lookup_insert_eq by done. cbn.
  set (c3 := <[z := _]> _).
  assert (exists r3, c3 !! hd = Some r3 /\ rec_data r3 = rec_data rh /\
                     rec_next r3 = if decide (z = hd) then Some record else rec_next rh)
    as (r3 & H3 & Hd3 & Hn3).
  { unfold c3. destruct (decide (z = hd)) as [->|].
    - rewrite lookup_insert_eq. eexists. split; [done|]. cbn. split; [congruence|done].
    - rewrite !lookup_insert_ne by done. eauto. }
  erewrite rec_upd_Some by exact H3. eexists. split; [done|].
  split; [split; [done|split; [done|]] | split]; intros a; cbn.
  - rewrite (data_insert _ _ _ r3) by done. unfold c3.
    rewrite (data_insert _ _ _ rz); [|by rewrite lookup_insert_ne|done].
    by rewrite (data_insert _ _ _ rr).
  - rewrite nxt_insert; cbn. unfold c3. rewrite !nxt_insert; cbn.
    assert (nxt (cells h) hd = rec_next rh) by (unfold nxt; by rewrite Hrh).
    repeat case_decide; simplify_eq; congruence.
  - rewrite prv_insert; cbn. unfold c3. rewrite !prv_insert; cbn.
    assert (prv (cells h) z = rec_prev rz) by (unfold prv; by rewrite Hrz).
    repeat case_decide; simplify_eq; congruence.
Qed.

Lemma linked_between_ring h h' hd z record l' :
  ring (cells h) (Some hd) (l' ++ [z]) -> linked_between h h' z record hd ->
  record ∉ l' ++ [z] -> ring (cells h') (Some hd) ((l' ++ [z]) ++ [record]).
Proof.
  intros Hring (_ & Hn & Hp) Hnin. pose proof Hring as (Hhd & Hnd & _).
  destruct (ring_last _ _ _ _ _ Hring (eq_sym Hhd)) as [Hc Hl].
  assert (exists t, l' ++ [z] = hd :: t) as [t Ht].
  { destruct l'; cbn in *; simplify_eq; eauto. }
  assert (record <> hd /\ record <> z) as [Hrh Hrz].
  { split; intros ->; apply Hnin; [rewrite Ht; set_solver | set_solver]. }
  split; [|split].
  - by rewrite Ht.
  - apply NoDup_app; split; [done|split; [|apply NoDup_singleton]].
    intros x Hx ->%list_elem_of_singleton. done.
  - rewrite Ht. change (chain (cells h') (((hd :: t) ++ [record]) ++ [hd])).
    rewrite <- Ht, <- !app_assoc. cbn [app]. apply chain_app. split.
    + rewrite Ht in Hc, Hnd, Hnin |- *. eapply chain_frame; [| |exact Hc].
      * rewrite <- Ht, in_removelast_snoc. intros a Ha. rewrite Hn.
        apply list_elem_of_In in Ha. rewrite !decide_False; [done| |].
        -- intros ->. rewrite <- Ht in Hnd. apply NoDup_app in Hnd as (_ & Hnd & _).
           apply (Hnd a Ha). set_solver.
        -- intros ->. apply Hnin. rewrite <- Ht. set_solver.
      * intros a Ha%list_elem_of_In. rewrite Hp. apply NoDup_cons in Hnd as [Hnd _].
        rewrite !decide_False; [done| |]; intros ->; set_solver.
    + cbn. unfold link. rewrite !Hn, !Hp. repeat case_decide; simplify_eq; done.
Qed.

(** ** Unlinking a record *)

Definition unlinked (h h' : rheap) (p record q : ptr) : Prop :=
  same_but_links h h' /\
  (forall a, nxt (cells h') a = if decide (record = a) then None
                                else if decide (p = a) then Some q else nxt (cells h) a) /\
  (forall a, prv (cells h') a = if decide (record = a) then None
                                else if decide (q = a) then Some p else prv (cells h) a).

Lemma list_remove_links h l p record q :
  link (cells h) p record -> link (cells h) record q -> p <> record -> q <> record ->
  nxt (cells h) l <> Some l -> is_Some (cells h !! l) ->
  exists h', tnX_record_list_remove h (Some l) record =
             Some (if decide (l = record) then Some q else Some l, h') /\
             unlinked h h' p record q.
Proof.
  intros [Hpn Hrp] [Hrn Hqp] Hpr Hqr Hl [rl Hrl].
  apply nxt_Some in Hpn as (rp & Hp & Hpn). apply prv_Some in Hqp as (rq & Hq & Hqp).
  apply nxt_Some in Hrn as (rr & Hr & Hrn).
  unfold prv in Hrp. rewrite Hr in Hrp. cbn in Hrp.
  unfold tnX_record_list_remove, rec_at. rewrite Hrl. cbn.
  unfold nxt in Hl. rewrite Hrl in Hl. cbn in Hl. rewrite decide_False by done.
  rewrite Hr. cbn. rewrite Hrn. cbn.
  rewrite (rec_upd_Some _ _ _ _ Hq). cbn. rewrite lookup_insert_ne, Hr by done. cbn.
  rewrite Hrp. cbn.
  set (c1 := <[q := _]> _).
  assert (exists r1, c1 !! p = Some r1 /\ rec_data r1 = rec_data rp /\
                     rec_prev r1 = if decide (q = p) then Some p else rec_prev rp)
    as (r1 & H1 & Hd1 & Hp1).
  { unfold c1. destruct (decide (q = p)) as [->|].
    - rewrite lookup_insert_eq. eexists. split; [done|]. cbn. split; congruence.
    - rewrite lookup_insert_ne by done. eauto. }
  erewrite rec_upd_Some by exact H1. cbn.
  assert (c1 !! record = Some rr) as Hr1 by (unfold c1; by rewrite lookup_insert_ne).
  erewrite rec_upd_Some by (cbn; rewrite lookup_insert_ne by done; exact Hr1). cbn.
  erewrite rec_upd_Some by (cbn; apply lookup_insert_eq). cbn.
  rewrite insert_insert_eq.
  assert ((if decide (l = record) then rec_next rl else Some l) =
          (if decide (l = record) then Some q else Some l)) as ->
    by (repeat case_decide; simplify_eq; congruence).
  eexists. split; [done|].
  split; [split; [done|split; [done|]] | split]; intros a; cbn.
  - rewrite (data_insert _ _ _ rr); [|by rewrite lookup_insert_ne|done].
    rewrite (data_insert _ _ _ r1) by done. unfold c1. by rewrite (data_insert _ _ _ rq).
  - rewrite !nxt_insert; cbn. unfold c1. rewrite !nxt_insert; cbn.
    assert (nxt (cells h) q = rec_next rq) by (unfold nxt; by rewrite Hq).
    repeat case_decide; simplify_eq; congruence.
  - rewrite !prv_insert; cbn. unfold c1. rewrite !prv_insert; cbn.
    assert (prv (cells h) p = rec_prev rp) by (unfold prv; by rewrite Hp).
    repeat case_decide; simplify_eq; congruence.
Qed.

(** A segment whose first record is not [q] past its head and whose last
    record is [p] survives unlinking [record]. *)
Lemma unlinked_chain h h' p record q x t :
  unlinked h h' p record q ->
  record ∉ x :: t -> p ∉ removelast (x :: t) -> q ∉ t ->
  chain (cells h) (x :: t) -> chain (cells h') (x :: t).
Proof.
  intros (_ & Hn & Hp) Hr Hpn Hq. apply chain_frame; intros a Ha.
  - rewrite Hn. apply list_elem_of_In in Ha. rewrite !decide_False; [done| |].
    + by intros ->.
    + intros ->. apply Hr. apply list_elem_of_In. apply list_elem_of_In in Ha.
      clear -Ha. revert x Ha. induction t as [|y t IH]; intros x Ha; [done|].
      destruct Ha as [->|Ha]; [by left | right; by apply IH].
  - rewrite Hp. apply list_elem_of_In in Ha. rewrite !decide_False; [done| |];
      intros ->; set_solver.
Qed.

Lemma unlinked_link h h' p record q :
  unlinked h h' p record q -> p <> record -> q <> record -> link (cells h') p q.
Proof. intros (_ & Hn & Hp) ??. split; rewrite ?Hn, ?Hp; by repeat case_decide. Qed.

Lemma unlinked_ring_head h h' record x t z :
  x :: t = z -> unlinked h h' (List.last z x) record x ->
  ring (cells h) (Some record) (record :: z) -> ring (cells h') (Some x) z.
Proof.
  intros <- Hu (_ & Hnd & Hc). split; [done|].
  apply NoDup_cons in Hnd as [Hnr Hnd]. split; [done|].
  destruct (exists_last (l := x :: t)) as (t' & y & Ht); [done|].
  cbn [app] in Hc. apply (chain_app _ [record] x (t ++ [record])) in Hc as [_ Hc].
  rewrite app_comm_cons in Hc. rewrite Ht, last_last in *.
  rewrite <- app_assoc in *. cbn [app] in *. apply chain_app in Hc as [Hc [Hl _]].
  apply chain_app. split.
  - rewrite <- Ht in *. eapply unlinked_chain; try done.
    + rewrite Ht, in_removelast_snoc. rewrite Ht in Hnd.
      apply NoDup_app in Hnd as (_ & Hnd & _). intros Hin. apply (Hnd _ Hin). set_solver.
    + by apply NoDup_cons in Hnd as [? _].
  - split; [|done]. eapply unlinked_link; [done| |]; intros ->; apply Hnr; rewrite <- Ht || idtac;
      [rewrite Ht|]; set_solver.
Qed.

(** Removing past the head: [l1 ++ [p]] precedes [record], [l2] follows it. *)
Lemma unlinked_ring_mid h h' hd l1 p record l2 q t :
  l2 ++ [hd] = q :: t -> unlinked h h' p record q ->
  ring (cells h) (Some hd) ((l1 ++ [p]) ++ record :: l2) ->
  ring (cells h') (Some hd) ((l1 ++ [p]) ++ l2).
Proof.
  intros Hq Hu (Hhd & Hnd & Hc).
  assert (exists s, l1 ++ [p] = hd :: s) as [s Hs].
  { destruct l1; cbn in *; simplify_eq; eauto. }
  rewrite Hs in *. cbn [app] in *.
  apply NoDup_cons in Hnd as [Hhd' Hnd']. pose proof Hnd' as Hnd.
  apply NoDup_app in Hnd as (Hnds & Hdis & Hndr). apply NoDup_cons in Hndr as [Hr Hnd2].
  assert (q = hd /\ t = [] /\ l2 = [] \/ exists l2', l2 = q :: l2' /\ t = l2' ++ [hd]) as Hcase.
  { destruct l2; cbn in Hq; simplify_eq; eauto. }
  assert (q ∉ s) as Hqs.
  { destruct Hcase as [(-> & _)|(l2' & -> & _)]; [set_solver|].
    intros Hin. apply (Hdis _ Hin). set_solver. }
  split; [done|split].
  { apply NoDup_cons. split; [set_solver|]. apply NoDup_app. set_solver. }
  change (chain (cells h) (((hd :: s) ++ record :: l2) ++ [hd])) in Hc.
  change (chain (cells h') (((hd :: s) ++ l2) ++ [hd])).
  rewrite <- Hs, <- !app_assoc in *. cbn [app] in *. rewrite Hq in *.
  apply chain_app in Hc as [Hc1 Hc2]. apply chain_app. split.
  - rewrite Hs in *. eapply unlinked_chain; try done; [set_solver|].
    rewrite <- Hs, in_removelast_snoc. intros Hin.
    assert (NoDup (hd :: s)) as Hn by (apply NoDup_cons; set_solver).
    rewrite <- Hs in Hn. apply NoDup_app in Hn as (_ & Hn & _). apply (Hn _ Hin). set_solver.
  - rewrite !chain_cons in *. destruct Hc2 as [[Hpr _] [[Hrq _] Hc2]].
    assert (p ∈ hd :: s) as Hp by (rewrite <- Hs; set_solver).
    split; [eapply unlinked_link; [done| |]|].
    + intros ->. set_solver.
    + intros ->. destruct Hcase as [(-> & _)|(l2' & -> & _)]; set_solver.
    + destruct Hcase as [(-> & -> & ->)|(l2' & -> & ->)]; [done|].
      apply NoDup_cons in Hnd2 as [Hq2 Hnd2].
      eapply unlinked_chain; try done; [set_solver| |set_solver].
      rewrite app_comm_cons, in_removelast_snoc. intros Hin.
      apply list_elem_of_In in Hp. rewrite <- list_elem_of_In in Hp.
      apply elem_of_cons in Hp as [->|Hp]; [set_solver|]. apply (Hdis _ Hp). set_solver.
Qed.

(** ** Destroying a list *)

Lemma chain_delete c l x p :
  p ∉ x :: l -> chain c (x :: l) -> chain (delete p c) (x :: l).
Proof.
  intros Hp. apply chain_frame; intros a Ha; unfold nxt, prv.
  - rewrite lookup_delete_ne; [done|]. intros ->. apply Hp, list_elem_of_In.
    clear -Ha. revert x Ha. induction l as [|y l IH]; intros x Ha; [done|].
    destruct Ha as [->|Ha]; [by left | right; by apply IH].
  - rewrite lookup_delete_ne; [done|]. intros ->. apply Hp, list_elem_of_In. by right.
Qed.

(** The loop frees the records from [iter] to the end of the ring: here [hd]
    was already freed and only its address is still compared. *)
Lemma list_destroy_loop_spec l : forall fuel h hd x,
  NoDup (x :: l) -> hd ∉ l ->
  (forall a, In a (x :: l) -> is_Some (cells h !! a)) ->
  (forall i a b, (x :: l) !! i = Some a -> (l ++ [hd]) !! i = Some b ->
                 nxt (cells h) a = Some b) ->
  (length (x :: l) <= fuel)%nat ->
  exists h', list_destroy_loop fuel h hd x = Some h' /\
    brk h' = brk h /\ oom h' = oom h /\
    forall a, cells h' !! a = if decide (a ∈ x :: l) then None else cells h !! a.
Proof.
  induction l as [|y l IH]; intros fuel h hd x Hnd Hhd Hlive Hn Hf;
    (destruct fuel as [|fuel]; [cbn in Hf; lia|]); cbn [list_destroy_loop];
    destruct (Hlive x (or_introl eq_refl)) as [r Hr];
    (assert (Hnx := Hn 0%nat x _ eq_refl eq_refl); unfold nxt in Hnx);
    unfold rec_at; rewrite Hr in *; cbn in Hnx |- *; rewrite Hr; cbn; rewrite Hnx; cbn.
  - rewrite decide_True by done. eexists. repeat (split; [done|]). intros a. cbn.
    rewrite lookup_delete. repeat case_decide; set_solver.
  - rewrite decide_False by set_solver. apply NoDup_cons in Hnd as [Hx Hnd].
    destruct (IH fuel (MkHeap (delete x (cells h)) (brk h) (oom h)) hd y)
      as (h' & E & Hb & Ho & Hc'); [done|set_solver| | |cbn in *; lia|].
    + intros a Ha. cbn. rewrite lookup_delete_ne; [by apply Hlive; right|].
      intros ->. by apply Hx, list_elem_of_In.
    + intros i a b Ha Hb. unfold nxt. cbn. rewrite lookup_delete_ne.
      * by apply (Hn (S i) a b).
      * intros ->. apply Hx. by apply list_elem_of_lookup_2 in Ha.
    + exists h'. repeat (split; [done|]). intros a. rewrite Hc'. cbn.
      destruct (decide (a ∈ y :: l)) as [Hin|Hin];
        [rewrite decide_True by set_solver; done|].
      rewrite lookup_delete. repeat case_decide; set_solver.
Qed.

Lemma chain_nxt c l : forall x i a b,
  chain c (x :: l) -> (x :: l) !! i = Some a -> l !! i = Some b -> nxt c a = Some b.
Proof.
  induction l as [|y l IH]; intros x [|i] a b Hc Ha Hb; try done.
  - cbn in Ha, Hb. simplify_eq. by destruct Hc as [[? _] _].
  - apply (IH y i); [by apply chain_cons in Hc as [_ ?] | done | done].
Qed.

Lemma length_live (c : gmap ptr tnXrec) l :
  NoDup l -> (forall a, In a l -> is_Some (c !! a)) -> (length l <= size c)%nat.
Proof.
  intros Hnd Hl. rewrite <- size_dom. rewrite <- (size_list_to_set (C := gset ptr) l) by done.
  apply subseteq_size. intros a Ha%elem_of_list_to_set%list_elem_of_In.
  apply elem_of_dom. auto.
Qed.

Lemma ring_nxt c x l i a b :
  ring c (Some x) (x :: l) -> (x :: l) !! i = Some a -> (l ++ [x]) !! i = Some b ->
  nxt c a = Some b.
Proof.
  intros (_ & _ & Hc) Ha Hb. eapply (chain_nxt c (l ++ [x]) x i); [done| |done].
  change ((((x :: l) ++ [x]) !! i) = Some a). by rewrite lookup_app, Ha.
Qed.

Lemma ring_live c x l a : ring c (Some x) (x :: l) -> a ∈ x :: l -> is_Some (c !! a).
Proof.
  intros Hr [i Ha]%list_elem_of_lookup.
  assert (i < length (l ++ [x]))%nat as Hi.
  { apply lookup_lt_Some in Ha. rewrite length_app. cbn in *. lia. }
  apply lookup_lt_is_Some_2 in Hi as [b Hb].
  destruct (nxt_Some c a b) as (r & ? & _); [|by exists r]. by eapply ring_nxt.
Qed.

Lemma tnX_record_list_destroy_spec h hd l :
  ring (cells h) hd l ->
  exists h', tnX_record_list_destroy h hd = Some (None, h') /\
    brk h' = brk h /\ oom h' = oom h /\
    forall a, cells h' !! a = if decide (a ∈ l) then None else cells h !! a.
Proof.
  intros Hring. pose proof Hring as (Hhd & Hnd & _). destruct l as [|x l]; cbn in Hhd; subst hd.
  - exists h. repeat (split; [done|]). intros a. by rewrite decide_False by set_solver.
  - assert (forall a, In a (x :: l) -> is_Some (cells h !! a)) as Hlive.
    { intros a Ha%list_elem_of_In. by eapply ring_live. }
    pose proof Hnd as [Hx _]%NoDup_cons.
    destruct (list_destroy_loop_spec l (size (cells h)) h x x) as (h' & E & Hb & Ho & Hc);
      try done; [by intros; eapply ring_nxt | by apply length_live|].
    exists h'. unfold tnX_record_list_destroy. by rewrite E.
Qed.

(** ** The list as a queue of byte strings *)

(** [hd] is the list of the records [l] whose contents are [bss]. *)
Definition rec_queue (h : rheap) (hd : option ptr) (l : list ptr) (bss : list (list Z)) : Prop :=
  ring (cells h) hd l /\ holds (cells h) l bss.

(** A live record, outside any list, with contents [bs]. *)
Definition rec_holds (h : rheap) (p : ptr) (bs : list Z) : Prop :=
  exists r, cells h !! p = Some r /\ buf_rep (rec_data r) bs.

Lemma rec_queue_nil h : rec_queue h None [] [].
Proof. repeat constructor. Qed.

Lemma same_but_links_holds h h' l bss :
  same_but_links h h' -> holds (cells h) l bss -> holds (cells h') l bss.
Proof. intros (_ & _ & H). by apply holds_frame. Qed.

Lemma same_but_links_rec_holds h h' p bs :
  same_but_links h h' -> rec_holds h p bs -> rec_holds h' p bs.
Proof.
  intros (_ & _ & H) (r & Hr & Hb). specialize (H p). rewrite Hr in H.
  destruct (cells h' !! p) as [r'|] eqn:E; [|done]. cbn in H. simplify_eq.
  exists r'. by rewrite H.
Qed.

Lemma list_add_queue h hd l bss p bs :
  rec_queue h hd l bss -> rec_holds h p bs -> p ∉ l ->
  exists hd' h', tnX_record_list_add h hd p = Some (hd', h') /\
    rec_queue h' hd' (l ++ [p]) (bss ++ [bs]) /\ same_but_links h h'.
Proof.
  intros [Hring Hh] Hp Hnin. pose proof Hring as (Hhd & _ & _).
  destruct l as [|x l]; cbn in Hhd; subst hd.
  - destruct Hp as (r & Hr & Hb). cbn. rewrite (rec_upd_Some _ _ _ _ Hr). cbn.
    erewrite rec_upd_Some by apply lookup_insert_eq. cbn. rewrite insert_insert_eq.
    eexists _, _. split; [done|]. apply Forall2_nil_inv_l in Hh as ->.
    split; [split; [split; [done|split]|]|].
    + apply NoDup_singleton.
    + cbn. unfold link, nxt, prv. by rewrite lookup_insert_eq.
    + constructor; [|constructor]. cbn. rewrite lookup_insert_eq. eauto.
    + split; [done|split; [done|]]. intros a. cbn. by apply (data_insert _ _ _ r).
  - destruct (exists_last (l := x :: l)) as (l' & z & E); [done|].
    rewrite E in *. destruct (ring_last _ _ x _ _ Hring) as [_ Hl]; [by rewrite <- E|].
    assert (x ∈ l' ++ [z]) by (rewrite <- E; set_solver).
    destruct (list_add_links h x z p) as (h' & Eadd & Hlb); [done| | | |].
    + intros ->. set_solver.
    + by intros ->.
    + destruct Hp as (r & -> & _). by eexists.
    + exists (Some x), h'. split; [done|]. split; [split|].
      * by eapply linked_between_ring.
      * destruct Hlb as [Hs _]. apply Forall2_app; [by eapply same_but_links_holds|].
        constructor; [by eapply same_but_links_rec_holds|constructor].
      * by destruct Hlb.
Qed.

Lemma list_remove_head_queue h p l bs bss :
  rec_queue h (Some p) (p :: l) (bs :: bss) ->
  exists h', tnX_record_list_remove h (Some p) p = Some (head l, h') /\
    rec_queue h' (head l) l bss /\ rec_holds h' p bs /\ same_but_links h h'.
Proof.
  intros [Hring Hh]. inversion Hh as [|? ? ? ? Hp Hh' E1 E2]; subst.
  destruct l as [|x l].
  - destruct Hring as (_ & _ & [Hn _] & _). destruct (nxt_Some _ _ _ Hn) as (r & Hr & Hrn).
    unfold tnX_record_list_remove, rec_at. rewrite Hr. cbn. rewrite decide_True by done.
    rewrite (rec_upd_Some _ _ _ _ Hr). cbn.
    erewrite rec_upd_Some by apply lookup_insert_eq. cbn. rewrite insert_insert_eq.
    eexists. split; [done|]. apply Forall2_nil_inv_l in Hh' as ->.
    assert (forall c', same_but_links h (MkHeap c' (brk h) (oom h)) <->
              forall a, rec_data <$> c' !! a = rec_data <$> cells h !! a) as Hs
      by (unfold same_but_links; cbn; intuition auto).
    match goal with |- _ /\ _ /\ same_but_links _ ?h' =>
      assert (same_but_links h h') as Hsame
        by (apply Hs; intros a; by apply (data_insert _ _ _ r)) end.
    split; [apply rec_queue_nil|]. split; [|done].
    by eapply same_but_links_rec_holds.
  - pose proof Hring as (_ & Hnd & Hc).
    destruct (exists_last (l := x :: l)) as (l' & z & E); [done|].
    destruct (ring_last (cells h) (Some p) p (p :: l') z) as [_ Hzp];
      [cbn [app]; by rewrite <- E | done |].
    assert (link (cells h) p x) as Hpx by (by destruct Hc).
    apply NoDup_cons in Hnd as [Hpn _].
    destruct (list_remove_links h p z p x) as (h' & Er & Hu); try done.
    + intros ->. apply Hpn. rewrite E. set_solver.
    + intros ->. set_solver.
    + destruct Hpx as [-> _]. intros [= ->]. set_solver.
    + destruct Hpx as [(r & -> & _)%nxt_Some _]. by eexists.
    + exists h'. rewrite decide_True in Er by done. split; [done|].
      pose proof Hu as [Hs _].
      split; [split|split; [by eapply same_but_links_rec_holds|done]].
      * eapply unlinked_ring_head; [done| |exact Hring]. by rewrite E, last_last.
      * by eapply same_but_links_holds.
Qed.

Lemma list_remove_mid_queue h hd l1 p l2 bss1 bs bss2 :
  length l1 = length bss1 -> l1 <> [] ->
  rec_queue h (Some hd) (l1 ++ p :: l2) (bss1 ++ bs :: bss2) ->
  exists h', tnX_record_list_remove h (Some hd) p = Some (Some hd, h') /\
    rec_queue h' (Some hd) (l1 ++ l2) (bss1 ++ bss2) /\
    rec_holds h' p bs /\ same_but_links h h'.
Proof.
  intros Hlen Hne [Hring Hh]. destruct (exists_last Hne) as (l0 & a & ->).
  apply Forall2_app_inv in Hh as [Hh1 Hh2]; [|done].
  inversion Hh2 as [|? ? ? ? Hp Hh2' E1 E2]; subst.
  pose proof Hring as (Hhd & Hnd & Hc).
  assert (exists s, l0 ++ [a] = hd :: s) as [s Hs].
  { destruct l0; cbn in *; simplify_eq; eauto. }
  assert (exists q t, l2 ++ [hd] = q :: t) as (q & t & Hq) by (destruct l2; cbn; eauto).
  assert (link (cells h) a p /\ link (cells h) p q) as [Hap Hpq].
  { rewrite Hs in Hc. cbn [app] in Hc.
    change (chain (cells h) (((hd :: s) ++ p :: l2) ++ [hd])) in Hc.
    rewrite <- Hs, <- !app_assoc in Hc. cbn [app] in Hc. rewrite Hq in Hc.
    apply chain_app in Hc as [_ Hc]. rewrite !chain_cons in Hc. tauto. }
  assert (hd ∈ l0 ++ [a]) as Hin by (rewrite Hs; set_solver).
  apply NoDup_app in Hnd as (_ & Hdis & Hnd2). apply NoDup_cons in Hnd2 as [Hp2 _].
  destruct (list_remove_links h hd a p q) as (h' & Er & Hu); try done.
  - intros ->. apply (Hdis p); set_solver.
  - intros ->. destruct l2 as [|y l2]; cbn in Hq; simplify_eq; [by apply (Hdis p); set_solver|].
    set_solver.
  - intros Hself. assert (nxt (cells h) hd = (s ++ p :: l2 ++ [hd]) !! 0%nat) as Hn.
    { rewrite Hs in Hring. cbn [app] in Hring.
      destruct ((s ++ p :: l2) ++ [hd]) as [|b w] eqn:Eb; [by destruct s|].
      assert (E := ring_nxt _ _ _ 0%nat hd b Hring eq_refl ltac:(by rewrite Eb)).
      rewrite <- app_assoc in Eb. cbn [app] in Eb. by rewrite Eb. }
    rewrite Hself in Hn. destruct s as [|y s]; cbn in Hn; simplify_eq.
    + by apply (Hdis p); set_solver.
    + destruct Hring as (_ & Hnd & _). rewrite Hs in Hnd. cbn in Hnd.
      apply NoDup_cons in Hnd as [Hnd _]. set_solver.
  - rewrite Hs in Hring. eapply ring_live; [exact Hring|set_solver].
  - exists h'. rewrite decide_False in Er by (intros ->; apply (Hdis p); set_solver).
    split; [done|]. pose proof Hu as [Hsame _].
    split; [split|split; [by eapply same_but_links_rec_holds|done]].
    + by eapply unlinked_ring_mid.
    + eapply same_but_links_holds; [done|]. by apply Forall2_app.
Qed.

(** ** Properties *)

(** the list is a FIFO queue on the append side: adding a live record that
    is not in the list puts it, with its contents, after all the others; the
    ring stays well linked both ways and no record's data changes. *)
Theorem tnX_record_list_add_appends h hd l bss record bs :
  rec_queue h hd l bss -> rec_holds h record bs -> record ∉ l ->
  exists hd' h', tnX_record_list_add h hd record = Some (hd', h') /\
    rec_queue h' hd' (l ++ [record]) (bss ++ [bs]) /\
    (forall a, rec_data <$> cells h' !! a = rec_data <$> cells h !! a).
Proof.
  intros Hq Hr Hnin. destruct (list_add_queue h hd l bss record bs Hq Hr Hnin)
    as (hd' & h' & E & Hq' & (_ & _ & Hd)). eauto.
Qed.

(** A heap with three unlinked records holding one byte each. *)
Definition demo_heap : rheap :=
  let mk b := MkRec None None (MkBuff (Some [Some b; None]) 1 2) 0 in
  MkHeap {[ 1%positive := mk 65; 2%positive := mk 66; 3%positive := mk 67 ]} 4 false.

Lemma demo_heap_holds :
  rec_holds demo_heap 1 [65] /\ rec_holds demo_heap 2 [66] /\ rec_holds demo_heap 3 [67].
Proof.
  repeat split; eexists; (split; [vm_compute; reflexivity|]);
    split_and!; cbn; try lia; repeat constructor; unfold is_byte; lia.
Qed.

(** The list of records 1, 2 and 3, built by the code. *)
Definition demo_list : option (option ptr * rheap) :=
  '(hd, h) ← tnX_record_list_add demo_heap None 1;
  '(hd, h) ← tnX_record_list_add h hd 2;
  tnX_record_list_add h hd 3.

Definition demo_list_heap : rheap := default demo_heap (snd <$> demo_list).

Lemma demo_list_queue : rec_queue demo_list_heap (Some 1%positive) [1; 2; 3]%positive [[65]; [66]; [67]].
Proof.
  assert (NoDup [1; 2; 3]%positive) by (repeat constructor; set_solver).
  split; [split_and!; [done|done|vm_compute; by intuition] |].
  repeat constructor; eexists; (split; [vm_compute; reflexivity|]);
    split_and!; cbn; try lia; repeat constructor; unfold is_byte; lia.
Qed.

Lemma tnX_record_list_add_appends_witness :
  exists hd' h', tnX_record_list_add demo_heap None 1 = Some (hd', h') /\
    rec_queue h' hd' [1%positive] [[65]] /\
    (forall a, rec_data <$> cells h' !! a = rec_data <$> cells demo_heap !! a).
Proof.
  apply (tnX_record_list_add_appends demo_heap None [] [] 1 [65]);
    [apply rec_queue_nil | apply demo_heap_holds | set_solver].
Defined.

(** C18: removing any record of the list leaves exactly the others, in order,
    in a well linked ring whose head pointer the function returns; the removed
    record keeps its data. *)
Theorem tnX_record_list_remove_exact h hd l1 record l2 bss1 bs bss2 :
  length l1 = length bss1 ->
  rec_queue h hd (l1 ++ record :: l2) (bss1 ++ bs :: bss2) ->
  exists h', tnX_record_list_remove h hd record = Some (head (l1 ++ l2), h') /\
    rec_queue h' (head (l1 ++ l2)) (l1 ++ l2) (bss1 ++ bss2) /\
    rec_holds h' record bs.
Proof.
  intros Hlen Hq. pose proof Hq as [(Hhd & _ & _) _]. subst hd.
  destruct l1 as [|x l1], bss1 as [|b bss1]; try done; cbn [app head] in *.
  - destruct (list_remove_head_queue h record l2 bs bss2 Hq) as (h' & ? & ? & ? & _). eauto.
  - destruct (list_remove_mid_queue h x (x :: l1) record l2 (b :: bss1) bs bss2)
      as (h' & ? & ? & ? & _); eauto.
Qed.

Lemma tnX_record_list_remove_exact_witness :
  exists h', tnX_record_list_remove demo_list_heap (Some 1%positive) 2 = Some (Some 1%positive, h') /\
    rec_queue h' (Some 1%positive) [1; 3]%positive [[65]; [67]] /\ rec_holds h' 2 [66].
Proof.
  apply (tnX_record_list_remove_exact demo_list_heap (Some 1%positive) [1%positive] 2 [3%positive]
           [[65]] [66] [[67]]); [reflexivity | exact demo_list_queue].
Defined.

(** destroying a list terminates, frees exactly the records of the ring
    (each once: a second free would fault) and no other, and returns NULL. *)
Theorem tnX_record_list_destroy_frees h hd l :
  ring (cells h) hd l ->
  exists h', tnX_record_list_destroy h hd = Some (None, h') /\
    (forall a, a ∈ l -> cells h' !! a = None) /\
    (forall a, a ∉ l -> cells h' !! a = cells h !! a).
Proof.
  intros Hring. destruct (tnX_record_list_destroy_spec h hd l Hring) as (h' & E & _ & _ & Hc).
  exists h'. split; [done|]. split; intros a Ha; rewrite Hc; by case_decide.
Qed.

Lemma tnX_record_list_destroy_frees_witness :
  exists h', tnX_record_list_destroy demo_list_heap (Some 1%positive) = Some (None, h') /\
    (forall a, a ∈ [1; 2; 3]%positive -> cells h' !! a = None) /\
    (forall a, a ∉ [1; 2; 3]%positive -> cells h' !! a = cells demo_list_heap !! a).
Proof. apply tnX_record_list_destroy_frees, demo_list_queue. Defined.
