(* ===== verification/TnxConf.v ===== *)
(** * libtnX/tnX_conf.c: the configuration store and its file format

    A configuration is an ordered list of named values.  A value is a private
    copy of a string, or a pointer to a [GSList] of strings that lives in the
    store [lists]: list values are not copied by [tnX_config_set], so two
    variables can share one.  The loader is the line-oriented parser of
    [tnX_config_load]. *)
From S2P Require Import Prelude.

Abbreviation lptr := positive.

(** The [type]/[value] pair of the code: [CONFIG_STRING] with a [char *], or
    [CONFIG_LIST] with a [GSList *]. *)
Inductive cval : Type :=
| CStr (s : list Z)
| CList (p : lptr).

#[export] Instance cval_eq_dec : EqDecision cval.
Proof. solve_decision. Defined.

Record tnXconfig_str : Type := MkStr { name : list Z; value : cval }.

Record tnXconfig : Type := MkConf {
  ref : Z;
  vars : list tnXconfig_str;
  lists : gmap lptr (list (list Z));
  lbrk : lptr
}.

Definition tnX_config_new : tnXconfig := MkConf 1 [] ∅ 1.

Definition set_vars (v : list tnXconfig_str) (This : tnXconfig) : tnXconfig :=
  MkConf (ref This) v (lists This) (lbrk This).

Definition tnX_config_ref (This : tnXconfig) : tnXconfig :=
  MkConf (ref This + 1) (vars This) (lists This) (lbrk This).

(** The first variable of that name, with its position. *)
Definition find_var (vs : list tnXconfig_str) (n : list Z) : option (nat * tnXconfig_str) :=
  list_find (fun v => name v = n) vs.

Definition tnX_config_get_str (This : tnXconfig) (n : list Z) : option tnXconfig_str :=
  snd <$> find_var (vars This) n.

Definition tnX_config_get (This : tnXconfig) (n : list Z) : option cval :=
  value <$> tnX_config_get_str This n.

Abbreviation Conf := (M tnXconfig).

(** [tnX_config_set]: an existing string variable is overwritten by copying
    the new value as a string (a list pointer passed there is read as a
    [char *]); anything else appends a new variable. *)
Definition tnX_config_set (n : list Z) (v : cval) : Conf unit :=
  This ← get_st;
  match find_var (vars This) n with
  | Some (i, MkStr _ (CStr _)) =>
      match v with
      | CStr s => put_st (set_vars (<[i := MkStr n (CStr s)]> (vars This)) This)
      | CList _ => undef
      end
  | _ => put_st (set_vars (vars This ++ [MkStr n v]) This)
  end.

(** Destroying a variable frees its string, or every item of its list and the
    list: freeing a list that is already gone is a fault. *)
Definition tnX_config_str_destroy (str : tnXconfig_str) : Conf unit :=
  match value str with
  | CStr _ => mret tt
  | CList p =>
      This ← get_st;
      match lists This !! p with
      | None => undef
      | Some _ => put_st (MkConf (ref This) (vars This) (delete p (lists This)) (lbrk This))
      end
  end.

Definition tnX_config_unset (n : list Z) : Conf unit :=
  This ← get_st;
  match find_var (vars This) n with
  | None => mret tt
  | Some (i, str) =>
      put_st (set_vars (delete i (vars This)) This);;
      tnX_config_str_destroy str
  end.

(** [tnX_config_unref]: at zero, every variable is destroyed and the list
    freed. *)
Fixpoint destroy_vars (vs : list tnXconfig_str) : Conf unit :=
  match vs with
  | [] => mret tt
  | v :: vs' => tnX_config_str_destroy v;; destroy_vars vs'
  end.

Definition tnX_config_unref : Conf unit :=
  This ← get_st;
  let This := MkConf (ref This - 1) (vars This) (lists This) (lbrk This) in
  put_st This;;
  if decide (ref This = 0) then
    destroy_vars (vars This);;
    modify (set_vars [])
  else mret tt.

(** Comparing [n] with [prefix] over [strlen(prefix)] bytes, stopping at the
    first difference, then the ['.'] after it. *)
Definition has_prefix_dot (prefix n : list Z) : bool :=
  bool_decide (length prefix <= length n + 2)%nat &&
  bool_decide (take (length prefix) n = prefix) &&
  bool_decide (n !! length prefix = Some 46).

(** [tnX_config_promote] walks the very list [tnX_config_set] appends to. *)
Fixpoint promote_loop (fuel : nat) (prefix : list Z) (i : nat) : Conf unit :=
  match fuel with
  | O => no_fuel
  | S fuel =>
      This ← get_st;
      match vars This !! i with
      | None => mret tt
      | Some str =>
          (if has_prefix_dot prefix (name str)
           then tnX_config_set (drop (length prefix + 1) (name str)) (value str)
           else mret tt);;
          promote_loop fuel prefix (S i)
      end
  end.

(** Enough fuel: every promotion drops at least one character of a name. *)
Definition promote_fuel (vs : list tnXconfig_str) : nat :=
  S (sum_list_with (fun v => S (length (name v))) vs).

Definition tnX_config_promote (prefix : list Z) : Conf unit :=
  This ← get_st; promote_loop (promote_fuel (vars This)) prefix 0.

(** [tnX_config_get_bool]; a list value is read as a string. *)
Definition tnX_config_get_bool (n : list Z) : Conf bool :=
  This ← get_st;
  match tnX_config_get This n with
  | None => mret false
  | Some (CList _) => undef
  | Some (CStr v) =>
      mret (negb (bool_decide (v = str "off") || bool_decide (v = str "no") ||
                  bool_decide (v = str "0") || bool_decide (v = str "false")))
  end.

(** [atoi] for values an [int] can hold. *)
Fixpoint digits (acc : Z) (s : list Z) : Z :=
  match s with
  | c :: t => if isdigit c then digits (10 * acc + (c - 48)) t else acc
  | [] => acc
  end.

Fixpoint skip_space (s : list Z) : list Z :=
  match s with
  | c :: t => if isspace c then skip_space t else s
  | [] => []
  end.

Definition atoi (s : list Z) : Z :=
  match skip_space s with
  | 45 :: t => - digits 0 t
  | 43 :: t => digits 0 t
  | t => digits 0 t
  end.

Definition tnX_config_get_int (n : list Z) : Conf Z :=
  This ← get_st;
  match tnX_config_get This n with
  | None => mret 0
  | Some (CList _) => undef
  | Some (CStr v) => mret (atoi v)
  end.

(** ** The configuration file *)

(** [fgets(buf, sizeof(buf) - 1, f)] with the 128-byte [buf] reads at most this many
    characters. *)
Definition LINE_MAX : nat := 126.

(** Cutting the line at its newline, as a C string. *)
Fixpoint cut_nl (l : list Z) : list Z :=
  match l with
  | c :: t => if decide (c = 10) then [] else c :: cut_nl t
  | [] => []
  end.

(** [len = strlen(scan) - 1; while (len > 0 && isspace(scan[len]))
    scan[len--] = 0]: never shortens below one character. *)
Fixpoint trim_rev (r : list Z) : list Z :=
  match r with
  | c :: ((_ :: _) as t) => if isspace c then trim_rev t else r
  | _ => r
  end.

Definition trim_tail (s : list Z) : list Z := reverse (trim_rev (reverse s)).

(** The longest prefix without white space and without [stop]. *)
Fixpoint word_until (stop : Z) (s : list Z) : list Z :=
  match s with
  | c :: t => if isspace c || bool_decide (c = stop) then [] else c :: word_until stop t
  | [] => []
  end.

(** [prefix_stack[0] "." prefix_stack[1] "." ... name]. *)
Definition qualify (stack : list (list Z)) (n : list Z) : list Z :=
  foldr (fun p acc => p ++ 46 :: acc) n stack.

Definition MAX_PREFIX_STACK : nat := 50.

(** The lines of a list value up to the one that starts with [']'].  The code
    does not test [fgets] here: at end of file [buf] keeps its last line, which
    is looked at again.  [None] is fuel exhausted. *)
Fixpoint read_list (fuel : nat) (buf f : list Z) : option (list (list Z) * list Z) :=
  match fuel with
  | O => None
  | S fuel =>
      let '(buf', f') := match f with [] => (buf, []) | _ => fgets LINE_MAX f end in
      let scan := skip_space (cut_nl (c_str buf')) in
      match scan with
      | 93 :: _ => Some ([], f')
      | _ => '(items, f'') ← read_list fuel buf' f'; Some (scan :: items, f'')
      end
  end.

Definition new_list (items : list (list Z)) : Conf lptr :=
  This ← get_st;
  put_st (MkConf (ref This) (vars This) (<[lbrk This := items]> (lists This))
                 (Pos.succ (lbrk This)));;
  mret (lbrk This).

(** What one line does to the parse: continue with a new prefix stack and the
    rest of the file, or [goto config_error]. *)
Inductive line_result : Type :=
| LNext (stack : list (list Z)) (f : list Z)
| LError.

Definition strchr (c : Z) (s : list Z) : bool := bool_decide (c ∈ s).

(** The [name = value] line. *)
Definition load_assign (stack : list (list Z)) (line scan f : list Z) : Conf line_result :=
  let w := word_until 61 scan in
  match w with
  | [] => mret LError
  | _ =>
      let n := qualify stack w in
      match skip_space (drop (length w) scan) with
      | 61 :: rest =>
          let scan := skip_space rest in
          match scan with
          | 91 :: _ =>
              match read_list (S (S (length f))) line f with
              | None => no_fuel
              | Some (items, f') =>
                  p ← new_list items;
                  tnX_config_set n (CList p);;
                  mret (LNext stack f')
              end
          | _ => tnX_config_set n (CStr (trim_tail scan));; mret (LNext stack f)
          end
      | _ => mret LError
      end
  end.

(** One line of the [while (fgets(...))] loop; [f] is the rest of the file. *)
Definition load_line (stack : list (list Z)) (line f : list Z) : Conf line_result :=
  let scan := skip_space (cut_nl (c_str line)) in
  match scan with
  | [] => mret (LNext stack f)
  | c :: t =>
      if decide (c = 35) then mret (LNext stack f)
      else if decide (c = 43) then
        tnX_config_set (trim_tail (skip_space t)) (CStr (str "1"));; mret (LNext stack f)
      else if decide (c = 45) then
        tnX_config_set (trim_tail (skip_space t)) (CStr (str "0"));; mret (LNext stack f)
      else if strchr 61 scan then load_assign stack line scan f
      else if strchr 123 scan then
        match word_until 123 scan with
        | [] => mret LError
        | w => tnX_assert (bool_decide (length stack < MAX_PREFIX_STACK)%nat);;
               mret (LNext (stack ++ [w]) f)
        end
      else if decide (c = 125) then
        match skip_space t with
        | [] | 35 :: _ =>
            tnX_assert (bool_decide (0 < length stack)%nat);;
            mret (LNext (removelast stack) f)
        | _ => mret LError
        end
      else mret LError
  end.

Fixpoint load_loop (fuel : nat) (stack : list (list Z)) (f : list Z) : Conf Z :=
  match fuel with
  | O => no_fuel
  | S fuel =>
      match f with
      | [] => mret (if decide (stack = []) then 0 else -1)
      | _ =>
          let '(line, f') := fgets LINE_MAX f in
          r ← load_line stack line f';
          match r with
          | LNext stack' f'' => load_loop fuel stack' f''
          | LError => mret (-1)
          end
      end
  end.

(** [file] is the contents of an opened file, or the outcome of a failed
    [fopen]: [inr true] when [errno] is [ENOENT]. *)
Definition tnX_config_load (file : list Z + bool) : Conf Z :=
  match file with
  | inr true => mret 0
  | inr false => mret (-1)
  | inl f => load_loop (S (length f)) [] f
  end.

(** [tnX_config_load_default]: the system file, then the user's; [passwd] is
    whether [getpwuid] knows the user. *)
Definition tnX_config_load_default (etc home : list Z + bool) (passwd : bool) : Conf Z :=
  ec ← tnX_config_load etc;
  if decide (ec = -1) then mret (-1)
  else if passwd then tnX_config_load home else mret (-1).

(** [tnX_config_parse_argv]: one argument. *)
Definition parse_arg (arg : list Z) : Conf unit :=
  match arg with
  | 43 :: opt => tnX_config_set opt (CStr (str "1"))
  | 45 :: opt => tnX_config_set opt (CStr (str "0"))
  | _ =>
      match list_find (fun c => c = 61) arg with
      | Some (i, _) => tnX_config_set (take i arg) (CStr (drop (S i) arg))
      | None => tnX_config_set (str "host") (CStr arg);; tnX_config_promote arg
      end
  end.

Fixpoint parse_args (args : list (list Z)) : Conf unit :=
  match args with
  | [] => mret tt
  | a :: args' => parse_arg a;; parse_args args'
  end.

Definition tnX_config_parse_argv (argv : list (list Z)) : Conf Z :=
  parse_args (tail argv);; mret 0.

(** ** Setting and getting *)

(** The configuration after a string variable is set. *)
Definition conf_put (n s : list Z) (This : tnXconfig) : tnXconfig :=
  match find_var (vars This) n with
  | Some (i, MkStr _ (CStr _)) => set_vars (<[i := MkStr n (CStr s)]> (vars This)) This
  | _ => set_vars (vars This ++ [MkStr n (CStr s)]) This
  end.

Lemma config_set_str n s c : tnX_config_set n (CStr s) c = Ret tt (conf_put n s c).
Proof.
  unfold tnX_config_set, conf_put, mbind, M_bind, get_st, put_st.
  by destruct (find_var (vars c) n) as [[i [m [?|?]]]|].
Qed.

Lemma find_var_Some vs n i v :
  find_var vs n = Some (i, v) <->
  vs !! i = Some v /\ name v = n /\ forall j w, vs !! j = Some w -> (j < i)%nat -> name w <> n.
Proof. unfold find_var. by rewrite list_find_Some. Qed.

Lemma find_var_None vs n : find_var vs n = None <-> Forall (fun v => name v <> n) vs.
Proof. unfold find_var. by rewrite list_find_None. Qed.

Lemma find_var_app_None vs n v :
  find_var vs n = None -> name v = n -> find_var (vs ++ [v]) n = Some (length vs, v).
Proof.
  rewrite find_var_None. intros Hn Hv. apply find_var_Some. split_and!; [|done|].
  - by rewrite lookup_app_r, Nat.sub_diag.
  - intros j w Hw Hj. rewrite lookup_app_l in Hw by done.
    by eapply (Forall_lookup_1 _ _ _ _ Hn).
Qed.

Lemma find_var_insert vs n i v w :
  find_var vs n = Some (i, v) -> name w = n -> find_var (<[i := w]> vs) n = Some (i, w).
Proof.
  rewrite !find_var_Some. intros (Hi & Hv & Hlt) Hw.
  split_and!; [apply list_lookup_insert_eq; by eapply lookup_lt_Some | done |].
  intros j u Hu Hj. rewrite list_lookup_insert_ne in Hu by lia. eauto.
Qed.

(** A variable of another name is found at the same place, with the same
    value, after an update or an append. *)
Lemma find_var_other vs n m i v w :
  find_var vs n = Some (i, v) -> name w = n -> m <> n ->
  snd <$> find_var (<[i := w]> vs) m = snd <$> find_var vs m.
Proof.
  intros Hf%find_var_Some Hw Hm. destruct Hf as (Hi & Hv & _).
  destruct (find_var vs m) as [[j u]|] eqn:E.
  - apply find_var_Some in E as (Hj & Hu & Hlt).
    assert (find_var (<[i:=w]> vs) m = Some (j, u)) as ->; [|done].
    apply find_var_Some. split_and!; [|done|].
    + rewrite list_lookup_insert_ne; [done|]. intros ->. congruence.
    + intros k x Hx Hk. destruct (decide (k = i)) as [->|].
      * rewrite list_lookup_insert_eq in Hx by (by eapply lookup_lt_Some). congruence.
      * rewrite list_lookup_insert_ne in Hx by done. eauto.
  - assert (find_var (<[i:=w]> vs) m = None) as ->; [|done].
    apply find_var_None. apply find_var_None in E. apply Forall_insert; [done|congruence].
Qed.

Lemma find_var_app_other vs m w :
  m <> name w -> find_var (vs ++ [w]) m = find_var vs m.
Proof.
  intros Hm. destruct (find_var vs m) as [[j u]|] eqn:E.
  - apply find_var_Some in E as (Hj & Hu & Hlt). apply find_var_Some.
    split_and!; [by apply lookup_app_l_Some | done |].
    intros k x Hx Hk. rewrite lookup_app_l in Hx; [eauto|].
    apply lookup_lt_Some in Hj. lia.
  - apply find_var_None. apply find_var_None in E. by apply Forall_app_2; [|constructor].
Qed.

Lemma get_unfold c n : tnX_config_get c n = value <$> (snd <$> find_var (vars c) n).
Proof. done. Qed.

Lemma vars_set_vars vs c : vars (set_vars vs c) = vs.
Proof. done. Qed.

(** set then get.  Setting a string never faults; afterwards the name reads
    as that string and every other name is unchanged.  When the name holds a
    list the string is appended behind it and the list still answers. *)
Theorem tnX_config_set_get n s c :
  exists c', tnX_config_set n (CStr s) c = Ret tt c' /\
    tnX_config_get c' n = match tnX_config_get c n with
                          | Some (CList p) => Some (CList p)
                          | _ => Some (CStr s)
                          end /\
    (forall m, m <> n -> tnX_config_get c' m = tnX_config_get c m).
Proof.
  exists (conf_put n s c). split; [apply config_set_str|].
  rewrite !get_unfold. unfold conf_put.
  destruct (find_var (vars c) n) as [[i [m [t|p]]]|] eqn:E; rewrite vars_set_vars.
  - split; [by erewrite find_var_insert by done|].
    intros m' Hm. by rewrite !get_unfold, vars_set_vars, (find_var_other _ n m' i (MkStr m (CStr t))).
  - split.
    + apply find_var_Some in E as (Hi & Hv & Hlt). cbn in Hv. subst m.
      assert (find_var (vars c ++ [MkStr n (CStr s)]) n = Some (i, MkStr n (CList p))) as ->;
        [|done].
      apply find_var_Some. split_and!; [by apply lookup_app_l_Some | done |].
      intros j w Hw Hj. rewrite lookup_app_l in Hw; [eauto|]. apply lookup_lt_Some in Hi. lia.
    + intros m' Hm. by rewrite !get_unfold, vars_set_vars, find_var_app_other.
  - split; [by rewrite find_var_app_None|].
    intros m' Hm. by rewrite !get_unfold, vars_set_vars, find_var_app_other.
Qed.

(** ** Termination of [tnX_config_promote] *)

Definition name_measure (i : nat) (vs : list tnXconfig_str) : nat :=
  sum_list_with (fun v => S (length (name v))) (drop i vs).

Lemma name_measure_step i vs v :
  vs !! i = Some v -> name_measure i vs = (S (length (name v)) + name_measure (S i) vs)%nat.
Proof. intros H. unfold name_measure. by rewrite (drop_S _ _ _ H). Qed.

Lemma name_measure_app i vs w :
  (i <= length vs)%nat ->
  name_measure i (vs ++ [w]) = (name_measure i vs + S (length (name w)))%nat.
Proof.
  intros H. unfold name_measure. rewrite drop_app_le by done.
  rewrite sum_list_with_app. cbn. lia.
Qed.

Lemma name_measure_insert i j vs v w :
  vs !! j = Some v -> name w = name v -> name_measure i (<[j := w]> vs) = name_measure i vs.
Proof.
  intros Hj Hn. unfold name_measure.
  assert (forall k, name <$> drop k (<[j := w]> vs) = name <$> drop k vs) as Hd.
  { intros k. rewrite !fmap_drop, list_fmap_insert. rewrite list_insert_id; [done|].
    rewrite list_lookup_fmap, Hj. cbn. congruence. }
  specialize (Hd i). revert Hd. generalize (drop i (<[j:=w]> vs)) (drop i vs).
  induction l as [|a l IH]; intros [|b l'] Hd; cbn in *; simplify_eq; [done|].
  rewrite (IH l') by done. congruence.
Qed.

(** What [tnX_config_set] can do to the list of variables. *)
Lemma config_set_cases n v c :
  tnX_config_set n v c = Undef c \/
  exists c', tnX_config_set n v c = Ret tt c' /\
    (vars c' = vars c ++ [MkStr n v] \/
     exists i w, vars c !! i = Some w /\ name w = n /\ vars c' = <[i := MkStr n v]> (vars c)).
Proof.
  unfold tnX_config_set, mbind, M_bind, get_st, put_st, undef.
  destruct (find_var (vars c) n) as [[i [m [t|p]]]|] eqn:E; [|by eauto..].
  destruct v; [|by eauto]. right. eexists. split; [done|]. right.
  apply find_var_Some in E as (Hi & Hm & _). eauto 10.
Qed.

Lemma has_prefix_dot_length prefix n :
  has_prefix_dot prefix n = true -> (length (drop (length prefix + 1) n) < length n)%nat.
Proof.
  unfold has_prefix_dot. intros H. apply andb_true_iff in H as [_ H].
  apply bool_decide_eq_true, lookup_lt_Some in H. rewrite length_drop. lia.
Qed.

Lemma promote_loop_fuel fuel : forall prefix i c,
  (name_measure i (vars c) < fuel)%nat ->
  match promote_loop fuel prefix i c with
  | Ret _ _ | Undef _ => True
  | _ => False
  end.
Proof.
  induction fuel as [|fuel IH]; intros prefix i c Hf; [lia|]. cbn [promote_loop].
  unfold mbind, M_bind, get_st; cbn. destruct (vars c !! i) as [v|] eqn:Hi; [|done].
  rewrite (name_measure_step _ _ _ Hi) in Hf.
  destruct (has_prefix_dot prefix (name v)) eqn:Hp; cbn; [|apply IH; lia].
  apply has_prefix_dot_length in Hp.
  destruct (config_set_cases (drop (length prefix + 1) (name v)) (value v) c)
    as [-> | (c' & -> & Hc)]; [done|]. apply IH. clear IH.
  destruct Hc as [-> | (j & w & Hj & Hw & ->)].
  - rewrite name_measure_app by (apply lookup_lt_Some in Hi; lia). cbn. lia.
  - erewrite name_measure_insert by (done || by symmetry). lia.
Qed.

(** [tnX_config_promote] terminates although it appends to the list it is
    walking: whatever the configuration and the prefix it runs to the end, or
    meets the one fault of [tnX_config_set] (a list copied over a string). *)
Theorem tnX_config_promote_terminates prefix c :
  match tnX_config_promote prefix c with
  | Ret _ _ | Undef _ => True
  | _ => False
  end.
Proof.
  unfold tnX_config_promote, mbind, M_bind, get_st.
  apply promote_loop_fuel. unfold promote_fuel, name_measure. rewrite drop_0. lia.
Qed.

(** ** The file format *)

Lemma scan_incl l x : x ∈ skip_space (cut_nl (c_str l)) -> x ∈ l.
Proof.
  assert (forall l, x ∈ skip_space l -> x ∈ l) as H1.
  { intros l'. induction l' as [|c l' IH]; cbn; [done|]. destruct (isspace c); set_solver. }
  assert (forall l, x ∈ cut_nl l -> x ∈ l) as H2.
  { intros l'. induction l' as [|c l' IH]; cbn; [done|]. case_decide; set_solver. }
  assert (forall l, x ∈ c_str l -> x ∈ l) as H3.
  { intros l'. induction l' as [|c l' IH]; cbn; [done|]. case_decide; set_solver. }
  auto.
Qed.

(** An unterminated list value never ends.  When no [']'] follows, the
    loop that collects the items of [name = \[] goes on past the end of the
    file whatever the number of iterations, re-reading the last line. *)
Theorem read_list_diverges fuel buf f :
  93 ∉ buf -> 93 ∉ f -> read_list fuel buf f = None.
Proof.
  revert buf f. induction fuel as [|fuel IH]; intros buf f Hb Hf; [done|]. cbn [read_list].
  destruct (match f with [] => (buf, []) | _ => fgets LINE_MAX f end) as [buf' f'] eqn:E.
  assert (93 ∉ buf' /\ 93 ∉ f') as [Hb' Hf'].
  { destruct f as [|c f]; [by simplify_eq|].
    destruct (fgets_incl LINE_MAX (c :: f) 93) as [H1 H2]. rewrite E in *. cbn in *. tauto. }
  assert (93 ∉ skip_space (cut_nl (c_str buf'))) as Hs by (intros ?%scan_incl; done).
  destruct (skip_space (cut_nl (c_str buf'))) as [|x t]; [by rewrite IH|].
  assert (x <> 93) by set_solver. destruct x as [|p|p]; rewrite ?IH by done; try done.
  repeat (destruct p as [p|p|]; try done).
Qed.

Lemma read_list_diverges_witness : read_list 1000 (str "allow = [") (str "10.0.0.0/8") = None.
Proof. apply read_list_diverges; apply (bool_decide_unpack _); vm_compute; exact I. Defined.

(** ** Printing and loading *)

Definition plain (c : Z) : Prop := c <> 0 /\ c <> 10.

(** Names and values a line can carry unchanged. *)
Definition good_name (n : list Z) : Prop :=
  Forall (fun c => plain c /\ isspace c = false /\ c <> 61) n /\
  match n with c :: _ => c <> 35 /\ c <> 43 /\ c <> 45 | [] => False end.

Definition good_value (v : list Z) : Prop :=
  Forall plain v /\
  match v with c :: _ => isspace c = false /\ c <> 91 | [] => True end /\
  match last v with Some c => isspace c = false | None => True end.

Definition good_line (kv : list Z * list Z) : Prop :=
  good_name kv.1 /\ good_value kv.2 /\ (length kv.1 + length kv.2 + 4 <= LINE_MAX)%nat.

Definition print_line (kv : list Z * list Z) : list Z := kv.1 ++ str " = " ++ kv.2 ++ [10].
Definition print_conf (kvs : list (list Z * list Z)) : list Z := mjoin (print_line <$> kvs).

Definition conf_of (kvs : list (list Z * list Z)) : list tnXconfig_str :=
  (fun kv => MkStr kv.1 (CStr kv.2)) <$> kvs.

Lemma scan_line l : Forall plain l -> cut_nl (c_str (l ++ [10])) = l.
Proof.
  induction 1 as [|c l [H1 H2] Hl IH]; cbn; [done|].
  rewrite decide_False by done. cbn. rewrite decide_False by done. by rewrite IH.
Qed.

Lemma skip_space_nonspace s :
  match s with c :: _ => isspace c = false | [] => True end -> skip_space s = s.
Proof. destruct s as [|c s]; cbn; [done|]. by intros ->. Qed.

Lemma word_until_app stop w s :
  Forall (fun c => isspace c = false /\ c <> stop) w ->
  match s with c :: _ => isspace c = true \/ c = stop | [] => True end ->
  word_until stop (w ++ s) = w.
Proof.
  intros Hw Hs. induction Hw as [|c w [H1 H2] Hw IH]; cbn.
  - destruct s as [|c s]; cbn; [done|]. destruct Hs as [Hs|Hs]; [by rewrite Hs|]. subst c.
    rewrite bool_decide_true by done. by rewrite orb_true_r.
  - rewrite H1, bool_decide_false by done. cbn. by rewrite IH.
Qed.

Lemma trim_tail_id s :
  match last s with Some c => isspace c = false | None => True end -> trim_tail s = s.
Proof.
  intros H. unfold trim_tail. rewrite <- (reverse_involutive s) in H.
  rewrite last_reverse in H. rewrite <- (reverse_involutive s) at 2. f_equal.
  destruct (reverse s) as [|c [|d t]]; cbn in *; [done|done|]. by rewrite H.
Qed.

Lemma load_assign_print line n v f :
  good_name n -> good_value v ->
  load_assign [] line (n ++ str " = " ++ v) f =
  (tnX_config_set n (CStr v);; mret (LNext [] f)).
Proof.
  intros [Hn Hn1] (Hv & Hv1 & Hv2). unfold load_assign.
  rewrite word_until_app; [| |by left].
  2: { eapply Forall_impl; [exact Hn|]. cbn. tauto. }
  destruct n as [|c n]; [done|]. cbn [qualify foldr]. rewrite drop_app_length.
  change (skip_space (str " = " ++ v)) with (61 :: 32 :: v). cbv iota.
  change (skip_space (32 :: v)) with (skip_space v).
  rewrite skip_space_nonspace by (destruct v; tauto). rewrite trim_tail_id by done.
  destruct v as [|d v]; [done|]. destruct Hv1 as [_ Hd].
  destruct d as [|p|p]; try done. repeat (destruct p as [p|p|]; try done).
Qed.

Lemma load_line_print kv f :
  good_line kv ->
  load_line [] (print_line kv) f = (tnX_config_set kv.1 (CStr kv.2);; mret (LNext [] f)).
Proof.
  destruct kv as [n v]. intros (Hn & Hv & _). unfold load_line, print_line. cbn [fst snd] in *.
  replace (n ++ str " = " ++ v ++ [10]) with ((n ++ str " = " ++ v) ++ [10])
    by (by rewrite <- !app_assoc).
  rewrite scan_line.
  2: { apply Forall_app_2; [|apply Forall_app_2; [|apply Hv]].
       - eapply Forall_impl; [apply Hn|]. cbn. tauto.
       - repeat constructor; done. }
  rewrite <- (load_assign_print ((n ++ str " = " ++ v) ++ [10])) by done.
  destruct Hn as [Hn Hn1]. destruct n as [|c n]; [done|]. inversion Hn as [|? ? Hc Hn']; subst.
  rewrite skip_space_nonspace by (cbn; tauto). cbn [app].
  rewrite !decide_False by tauto. unfold strchr.
  rewrite bool_decide_true; [done|]. change (str " = ") with [32; 61; 32]. set_solver.
Qed.

Lemma load_loop_print kvs : forall fuel c,
  Forall good_line kvs -> (length (print_conf kvs) < fuel)%nat ->
  load_loop fuel [] (print_conf kvs) c =
  Ret 0 (foldl (fun c kv => conf_put kv.1 kv.2 c) c kvs).
Proof.
  induction kvs as [|kv kvs IH]; intros fuel c Hg Hf; (destruct fuel as [|fuel]; [lia|]).
  - done.
  - inversion Hg as [|? ? Hkv Hkvs]; subst. clear Hg.
    assert (print_conf (kv :: kvs) = (kv.1 ++ str " = " ++ kv.2) ++ 10 :: print_conf kvs) as E.
    { unfold print_conf. cbn [fmap list_fmap mjoin list_join]. unfold print_line at 1.
      by rewrite <- !app_assoc. }
    rewrite E in *. cbn [load_loop].
    destruct Hkv as (Hn & Hv & Hlen) eqn:Ekv. clear Ekv.
    assert (10 ∉ kv.1 ++ str " = " ++ kv.2) as Hnl.
    { rewrite !elem_of_app. intros [H|[H|H]].
      - by apply (proj1 (Forall_forall _ _) (proj1 Hn)) in H as [[_ ?] _].
      - cbn in H. set_solver.
      - by apply (proj1 (Forall_forall _ _) (proj1 Hv)) in H as [_ ?]. }
    destruct ((kv.1 ++ str " = " ++ kv.2) ++ 10 :: print_conf kvs) as [|x s] eqn:Es.
    { by destruct (kv.1 ++ str " = " ++ kv.2). }
    rewrite <- Es in *. rewrite fgets_line; [|done|].
    2: { rewrite !length_app. cbn. unfold LINE_MAX in *. lia. }
    replace ((kv.1 ++ str " = " ++ kv.2) ++ [10]) with (print_line kv)
      by (unfold print_line; by rewrite <- !app_assoc).
    rewrite load_line_print by done. unfold mbind, M_bind. rewrite config_set_str.
    cbn. apply IH; [done|]. rewrite length_app in Hf. cbn in Hf. lia.
Qed.

Lemma foldl_conf_put kvs : forall c,
  NoDup kvs.*1 -> (forall n, n ∈ kvs.*1 -> find_var (vars c) n = None) ->
  vars (foldl (fun c kv => conf_put kv.1 kv.2 c) c kvs) = vars c ++ conf_of kvs.
Proof.
  induction kvs as [|[n v] kvs IH]; intros c Hnd Hnew; cbn [foldl].
  - by rewrite app_nil_r.
  - cbn [fst snd]. apply NoDup_cons in Hnd as [Hn Hnd].
    assert (conf_put n v c = set_vars (vars c ++ [MkStr n (CStr v)]) c) as ->.
    { unfold conf_put. rewrite Hnew; [done|]. cbn. set_solver. }
    rewrite IH; [by rewrite vars_set_vars, <- app_assoc|done|].
    intros m Hm. rewrite vars_set_vars, find_var_app_other; [apply Hnew; cbn; set_solver|].
    cbn. intros ->. done.
Qed.

(** C20: round trip.  A file written as [name = value] lines, with distinct
    names and names, values and lines the format can carry, loads with result
    0 into exactly those variables, in order. *)
Theorem tnX_config_load_print kvs :
  Forall good_line kvs -> NoDup kvs.*1 ->
  exists c, tnX_config_load (inl (print_conf kvs)) tnX_config_new = Ret 0 c /\
            vars c = conf_of kvs.
Proof.
  intros Hg Hnd. eexists. split; [apply load_loop_print; [done|lia]|].
  by rewrite foldl_conf_put.
Qed.

Lemma tnX_config_load_print_witness :
  exists c, tnX_config_load (inl (print_conf [(str "host", str "as400 test"); (str "a.port", str "23")]))
              tnX_config_new = Ret 0 c /\
            vars c = conf_of [(str "host", str "as400 test"); (str "a.port", str "23")].
Proof.
  apply tnX_config_load_print; [|apply (bool_decide_unpack _); vm_compute; exact I].
  repeat constructor; cbn; unfold plain, LINE_MAX; try done; lia.
Defined.

(** A promoted list variable is freed twice.  After promoting the section
    [a], [l] and [a.l] hold the same list pointer, and dropping the last
    reference to the configuration frees that list a second time. *)
Theorem promote_list_double_free items :
  let c := MkConf 1 [MkStr (str "a.l") (CList 1)] {[1%positive := items]} 2 in
  exists c1 c2,
    tnX_config_promote (str "a") c = Ret tt c1 /\
    tnX_config_get c1 (str "l") = Some (CList 1) /\
    tnX_config_unref c1 = Undef c2.
Proof. eexists _, _. split_and!; lazy; reflexivity. Qed.
