(* ===== verification/TnxTransmaps.v ===== *)
(** * libtnX/transmaps.h: the character translation tables

    The tables of the header, one list of 256 values each, and the index
    [tnX_transmaps] that [tnX_char_map_new] scans. *)
From S2P Require Import Prelude.

Definition iso_8859_1_to_ibm037 : list Z := [
   0; 1; 2; 3; 55; 45; 46; 47; 22; 5; 37; 11; 12; 13; 14; 15;
   16; 17; 18; 19; 60; 61; 50; 38; 24; 25; 63; 39; 28; 29; 30; 31;
   64; 90; 127; 123; 91; 108; 80; 125; 77; 93; 92; 78; 107; 96; 75; 97;
   240; 241; 242; 243; 244; 245; 246; 247; 248; 249; 122; 94; 76; 126; 110; 111;
   124; 193; 194; 195; 196; 197; 198; 199; 200; 201; 209; 210; 211; 212; 213; 214;
   215; 216; 217; 226; 227; 228; 229; 230; 231; 232; 233; 186; 224; 187; 176; 109;
   121; 129; 130; 131; 132; 133; 134; 135; 136; 137; 145; 146; 147; 148; 149; 150;
   151; 152; 153; 162; 163; 164; 165; 166; 167; 168; 169; 192; 79; 208; 161; 7;
   32; 33; 34; 35; 36; 21; 6; 23; 40; 41; 42; 43; 44; 9; 10; 27;
   48; 49; 26; 51; 52; 53; 54; 8; 56; 57; 58; 59; 4; 20; 62; 255;
   65; 170; 74; 177; 159; 178; 106; 181; 189; 180; 154; 138; 95; 202; 175; 188;
   144; 143; 234; 250; 190; 160; 182; 179; 157; 218; 155; 139; 183; 184; 185; 171;
   100; 101; 98; 102; 99; 103; 158; 104; 116; 113; 114; 115; 120; 117; 118; 119;
   172; 105; 237; 238; 235; 239; 236; 191; 128; 253; 254; 251; 252; 173; 174; 89;
   68; 69; 66; 70; 67; 71; 156; 72; 84; 81; 82; 83; 88; 85; 86; 87;
   140; 73; 205; 206; 203; 207; 204; 225; 112; 221; 222; 219; 220; 141; 142; 223
].

Definition ibm037_to_iso_8859_1 : list Z := [
   0; 1; 2; 3; 156; 9; 134; 127; 151; 141; 142; 11; 12; 13; 14; 15;
   16; 17; 18; 19; 157; 133; 8; 135; 24; 25; 146; 143; 28; 29; 30; 31;
   128; 129; 130; 131; 132; 10; 23; 27; 136; 137; 138; 139; 140; 5; 6; 7;
   144; 145; 22; 147; 148; 149; 150; 4; 152; 153; 154; 155; 20; 21; 158; 26;
   32; 160; 226; 228; 224; 225; 227; 229; 231; 241; 162; 46; 60; 40; 43; 124;
   38; 233; 234; 235; 232; 237; 238; 239; 236; 223; 33; 36; 42; 41; 59; 172;
   45; 47; 194; 196; 192; 193; 195; 197; 199; 209; 166; 44; 37; 95; 62; 63;
   248; 201; 202; 203; 200; 205; 206; 207; 204; 96; 58; 35; 64; 39; 61; 34;
   216; 97; 98; 99; 100; 101; 102; 103; 104; 105; 171; 187; 240; 253; 254; 177;
   176; 106; 107; 108; 109; 110; 111; 112; 113; 114; 170; 186; 230; 184; 198; 164;
   181; 126; 115; 116; 117; 118; 119; 120; 121; 122; 161; 191; 208; 221; 222; 174;
   94; 163; 165; 183; 169; 167; 182; 188; 189; 190; 91; 93; 175; 168; 180; 215;
   123; 65; 66; 67; 68; 69; 70; 71; 72; 73; 173; 244; 246; 242; 243; 245;
   125; 74; 75; 76; 77; 78; 79; 80; 81; 82; 185; 251; 252; 249; 250; 255;
   92; 247; 83; 84; 85; 86; 87; 88; 89; 90; 178; 212; 214; 210; 211; 213;
   48; 49; 50; 51; 52; 53; 54; 55; 56; 57; 179; 219; 220; 217; 218; 159
].

Definition iso_8859_1_to_ibm256 : list Z := [
   0; 1; 2; 3; 55; 45; 46; 47; 22; 5; 37; 11; 12; 13; 14; 15;
   16; 17; 18; 19; 60; 61; 50; 38; 24; 25; 63; 39; 28; 29; 30; 31;
   64; 79; 127; 123; 91; 108; 80; 125; 77; 93; 92; 78; 107; 96; 75; 97;
   240; 241; 242; 243; 244; 245; 246; 247; 248; 249; 122; 94; 76; 126; 110; 111;
   124; 193; 194; 195; 196; 197; 198; 199; 200; 201; 209; 210; 211; 212; 213; 214;
   215; 216; 217; 226; 227; 228; 229; 230; 231; 232; 233; 74; 224; 90; 95; 109;
   121; 129; 130; 131; 132; 133; 134; 135; 136; 137; 145; 146; 147; 148; 149; 150;
   151; 152; 153; 162; 163; 164; 165; 166; 167; 168; 169; 192; 187; 208; 161; 7;
   32; 33; 34; 35; 36; 21; 6; 23; 40; 41; 42; 43; 44; 9; 10; 27;
   48; 49; 26; 51; 52; 53; 54; 8; 56; 57; 58; 59; 4; 20; 62; 255;
   65; 170; 176; 177; 159; 178; 106; 181; 189; 180; 154; 138; 186; 202; 175; 179;
   144; 143; 234; 250; 190; 160; 182; 188; 157; 218; 155; 139; 183; 184; 185; 171;
   100; 101; 98; 102; 99; 103; 158; 104; 116; 113; 114; 115; 120; 117; 118; 119;
   172; 105; 237; 238; 235; 239; 236; 225; 128; 253; 254; 251; 252; 173; 174; 89;
   68; 69; 66; 70; 67; 71; 156; 72; 84; 81; 82; 83; 88; 85; 86; 87;
   140; 73; 205; 206; 203; 207; 204; 191; 112; 221; 222; 219; 220; 141; 142; 223
].

Definition ibm256_to_iso_8859_1 : list Z := [
   0; 1; 2; 3; 156; 9; 134; 127; 151; 141; 142; 11; 12; 13; 14; 15;
   16; 17; 18; 19; 157; 133; 8; 135; 24; 25; 146; 143; 28; 29; 30; 31;
   128; 129; 130; 131; 132; 10; 23; 27; 136; 137; 138; 139; 140; 5; 6; 7;
   144; 145; 22; 147; 148; 149; 150; 4; 152; 153; 154; 155; 20; 21; 158; 26;
   32; 160; 226; 228; 224; 225; 227; 229; 231; 241; 91; 46; 60; 40; 43; 33;
   38; 233; 234; 235; 232; 237; 238; 239; 236; 223; 93; 36; 42; 41; 59; 94;
   45; 47; 194; 196; 192; 193; 195; 197; 199; 209; 166; 44; 37; 95; 62; 63;
   248; 201; 202; 203; 200; 205; 206; 207; 204; 96; 58; 35; 64; 39; 61; 34;
   216; 97; 98; 99; 100; 101; 102; 103; 104; 105; 171; 187; 240; 253; 254; 177;
   176; 106; 107; 108; 109; 110; 111; 112; 113; 114; 170; 186; 230; 184; 198; 164;
   181; 126; 115; 116; 117; 118; 119; 120; 121; 122; 161; 191; 208; 221; 222; 174;
   162; 163; 165; 175; 169; 167; 182; 188; 189; 190; 172; 124; 183; 168; 180; 247;
   123; 65; 66; 67; 68; 69; 70; 71; 72; 73; 173; 244; 246; 242; 243; 245;
   125; 74; 75; 76; 77; 78; 79; 80; 81; 82; 185; 251; 252; 249; 250; 255;
   92; 215; 83; 84; 85; 86; 87; 88; 89; 90; 178; 212; 214; 210; 211; 213;
   48; 49; 50; 51; 52; 53; 54; 55; 56; 57; 179; 219; 220; 217; 218; 159
].

Definition iso_8859_1_to_ibm273 : list Z := [
   0; 1; 2; 3; 55; 45; 46; 47; 22; 5; 37; 11; 12; 13; 14; 15;
   16; 17; 18; 19; 60; 61; 50; 38; 24; 25; 63; 39; 28; 29; 30; 31;
   64; 79; 127; 123; 91; 108; 80; 125; 77; 93; 92; 78; 107; 96; 75; 97;
   240; 241; 242; 243; 244; 245; 246; 247; 248; 249; 122; 94; 76; 126; 110; 111;
   181; 193; 194; 195; 196; 197; 198; 199; 200; 201; 209; 210; 211; 212; 213; 214;
   215; 216; 217; 226; 227; 228; 229; 230; 231; 232; 233; 99; 236; 252; 95; 109;
   121; 129; 130; 131; 132; 133; 134; 135; 136; 137; 145; 146; 147; 148; 149; 150;
   151; 152; 153; 162; 163; 164; 165; 166; 167; 168; 169; 67; 187; 220; 89; 7;
   32; 33; 34; 35; 36; 21; 6; 23; 40; 41; 42; 43; 44; 9; 10; 27;
   48; 49; 26; 51; 52; 53; 54; 8; 56; 57; 58; 59; 4; 20; 62; 255;
   65; 170; 176; 177; 159; 178; 204; 124; 189; 180; 154; 138; 186; 202; 175; 188;
   144; 143; 234; 250; 190; 160; 182; 179; 157; 218; 155; 139; 183; 184; 185; 171;
   100; 101; 98; 102; 74; 103; 158; 104; 116; 113; 114; 115; 120; 117; 118; 119;
   172; 105; 237; 238; 235; 239; 224; 191; 128; 253; 254; 251; 90; 173; 174; 161;
   68; 69; 66; 70; 192; 71; 156; 72; 84; 81; 82; 83; 88; 85; 86; 87;
   140; 73; 205; 206; 203; 207; 106; 225; 112; 221; 222; 219; 208; 141; 142; 223
].

Definition ibm273_to_iso_8859_1 : list Z := [
   0; 1; 2; 3; 156; 9; 134; 127; 151; 141; 142; 11; 12; 13; 14; 15;
   16; 17; 18; 19; 157; 133; 8; 135; 24; 25; 146; 143; 28; 29; 30; 31;
   128; 129; 130; 131; 132; 10; 23; 27; 136; 137; 138; 139; 140; 5; 6; 7;
   144; 145; 22; 147; 148; 149; 150; 4; 152; 153; 154; 155; 20; 21; 158; 26;
   32; 160; 226; 123; 224; 225; 227; 229; 231; 241; 196; 46; 60; 40; 43; 33;
   38; 233; 234; 235; 232; 237; 238; 239; 236; 126; 220; 36; 42; 41; 59; 94;
   45; 47; 194; 91; 192; 193; 195; 197; 199; 209; 246; 44; 37; 95; 62; 63;
   248; 201; 202; 203; 200; 205; 206; 207; 204; 96; 58; 35; 167; 39; 61; 34;
   216; 97; 98; 99; 100; 101; 102; 103; 104; 105; 171; 187; 240; 253; 254; 177;
   176; 106; 107; 108; 109; 110; 111; 112; 113; 114; 170; 186; 230; 184; 198; 164;
   181; 223; 115; 116; 117; 118; 119; 120; 121; 122; 161; 191; 208; 221; 222; 174;
   162; 163; 165; 183; 169; 64; 182; 188; 189; 190; 172; 124; 175; 168; 180; 215;
   228; 65; 66; 67; 68; 69; 70; 71; 72; 73; 173; 244; 166; 242; 243; 245;
   252; 74; 75; 76; 77; 78; 79; 80; 81; 82; 185; 251; 125; 249; 250; 255;
   214; 247; 83; 84; 85; 86; 87; 88; 89; 90; 178; 212; 92; 210; 211; 213;
   48; 49; 50; 51; 52; 53; 54; 55; 56; 57; 179; 219; 93; 217; 218; 159
].

Definition iso_8859_1_to_ibm277 : list Z := [
   0; 1; 2; 3; 55; 45; 46; 47; 22; 5; 37; 11; 12; 13; 14; 15;
   16; 17; 18; 19; 60; 61; 50; 38; 24; 25; 63; 39; 28; 29; 30; 31;
   64; 79; 127; 74; 103; 108; 80; 125; 77; 93; 92; 78; 107; 96; 75; 97;
   240; 241; 242; 243; 244; 245; 246; 247; 248; 249; 122; 94; 76; 126; 110; 111;
   128; 193; 194; 195; 196; 197; 198; 199; 200; 201; 209; 210; 211; 212; 213; 214;
   215; 216; 217; 226; 227; 228; 229; 230; 231; 232; 233; 158; 224; 159; 95; 109;
   121; 129; 130; 131; 132; 133; 134; 135; 136; 137; 145; 146; 147; 148; 149; 150;
   151; 152; 153; 162; 163; 164; 165; 166; 167; 168; 169; 156; 187; 71; 220; 7;
   32; 33; 34; 35; 36; 21; 6; 23; 40; 41; 42; 43; 44; 9; 10; 27;
   48; 49; 26; 51; 52; 53; 54; 8; 56; 57; 58; 59; 4; 20; 62; 255;
   65; 170; 176; 177; 90; 178; 112; 181; 189; 180; 154; 138; 186; 202; 175; 188;
   144; 143; 234; 250; 190; 160; 182; 179; 157; 218; 155; 139; 183; 184; 185; 171;
   100; 101; 98; 102; 99; 91; 123; 104; 116; 113; 114; 115; 120; 117; 118; 119;
   172; 105; 237; 238; 235; 239; 236; 191; 124; 253; 254; 251; 252; 173; 174; 89;
   68; 69; 66; 70; 67; 208; 192; 72; 84; 81; 82; 83; 88; 85; 86; 87;
   140; 73; 205; 206; 203; 207; 204; 225; 106; 221; 222; 219; 161; 141; 142; 223
].

Definition ibm277_to_iso_8859_1 : list Z := [
   0; 1; 2; 3; 156; 9; 134; 127; 151; 141; 142; 11; 12; 13; 14; 15;
   16; 17; 18; 19; 157; 133; 8; 135; 24; 25; 146; 143; 28; 29; 30; 31;
   128; 129; 130; 131; 132; 10; 23; 27; 136; 137; 138; 139; 140; 5; 6; 7;
   144; 145; 22; 147; 148; 149; 150; 4; 152; 153; 154; 155; 20; 21; 158; 26;
   32; 160; 226; 228; 224; 225; 227; 125; 231; 241; 35; 46; 60; 40; 43; 33;
   38; 233; 234; 235; 232; 237; 238; 239; 236; 223; 164; 197; 42; 41; 59; 94;
   45; 47; 194; 196; 192; 193; 195; 36; 199; 209; 248; 44; 37; 95; 62; 63;
   166; 201; 202; 203; 200; 205; 206; 207; 204; 96; 58; 198; 216; 39; 61; 34;
   64; 97; 98; 99; 100; 101; 102; 103; 104; 105; 171; 187; 240; 253; 254; 177;
   176; 106; 107; 108; 109; 110; 111; 112; 113; 114; 170; 186; 123; 184; 91; 93;
   181; 252; 115; 116; 117; 118; 119; 120; 121; 122; 161; 191; 208; 221; 222; 174;
   162; 163; 165; 183; 169; 167; 182; 188; 189; 190; 172; 124; 175; 168; 180; 215;
   230; 65; 66; 67; 68; 69; 70; 71; 72; 73; 173; 244; 246; 242; 243; 245;
   229; 74; 75; 76; 77; 78; 79; 80; 81; 82; 185; 251; 126; 249; 250; 255;
   92; 247; 83; 84; 85; 86; 87; 88; 89; 90; 178; 212; 214; 210; 211; 213;
   48; 49; 50; 51; 52; 53; 54; 55; 56; 57; 179; 219; 220; 217; 218; 159
].

Definition iso_8859_1_to_ibm278 : list Z := [
   0; 1; 2; 3; 55; 45; 46; 47; 22; 5; 37; 11; 12; 13; 14; 15;
   16; 17; 18; 19; 60; 61; 50; 38; 24; 25; 63; 39; 28; 29; 30; 31;
   64; 79; 127; 99; 103; 108; 80; 125; 77; 93; 92; 78; 107; 96; 75; 97;
   240; 241; 242; 243; 244; 245; 246; 247; 248; 249; 122; 94; 76; 126; 110; 111;
   236; 193; 194; 195; 196; 197; 198; 199; 200; 201; 209; 210; 211; 212; 213; 214;
   215; 216; 217; 226; 227; 228; 229; 230; 231; 232; 233; 181; 224; 159; 95; 109;
   81; 129; 130; 131; 132; 133; 134; 135; 136; 137; 145; 146; 147; 148; 149; 150;
   151; 152; 153; 162; 163; 164; 165; 166; 167; 168; 169; 67; 187; 71; 220; 7;
   32; 33; 34; 35; 36; 21; 6; 23; 40; 41; 42; 43; 44; 9; 10; 27;
   48; 49; 26; 51; 52; 53; 54; 8; 56; 57; 58; 59; 4; 20; 62; 255;
   65; 170; 176; 177; 90; 178; 204; 74; 189; 180; 154; 138; 186; 202; 175; 188;
   144; 143; 234; 250; 190; 160; 182; 179; 157; 218; 155; 139; 183; 184; 185; 171;
   100; 101; 98; 102; 123; 91; 158; 104; 116; 113; 114; 115; 120; 117; 118; 119;
   172; 105; 237; 238; 235; 239; 124; 191; 128; 253; 254; 251; 252; 173; 174; 89;
   68; 69; 66; 70; 192; 208; 156; 72; 84; 121; 82; 83; 88; 85; 86; 87;
   140; 73; 205; 206; 203; 207; 106; 225; 112; 221; 222; 219; 161; 141; 142; 223
].

Definition ibm278_to_iso_8859_1 : list Z := [
   0; 1; 2; 3; 156; 9; 134; 127; 151; 141; 142; 11; 12; 13; 14; 15;
   16; 17; 18; 19; 157; 133; 8; 135; 24; 25; 146; 143; 28; 29; 30; 31;
   128; 129; 130; 131; 132; 10; 23; 27; 136; 137; 138; 139; 140; 5; 6; 7;
   144; 145; 22; 147; 148; 149; 150; 4; 152; 153; 154; 155; 20; 21; 158; 26;
   32; 160; 226; 123; 224; 225; 227; 125; 231; 241; 167; 46; 60; 40; 43; 33;
   38; 96; 234; 235; 232; 237; 238; 239; 236; 223; 164; 197; 42; 41; 59; 94;
   45; 47; 194; 35; 192; 193; 195; 36; 199; 209; 246; 44; 37; 95; 62; 63;
   248; 201; 202; 203; 200; 205; 206; 207; 204; 233; 58; 196; 214; 39; 61; 34;
   216; 97; 98; 99; 100; 101; 102; 103; 104; 105; 171; 187; 240; 253; 254; 177;
   176; 106; 107; 108; 109; 110; 111; 112; 113; 114; 170; 186; 230; 184; 198; 93;
   181; 252; 115; 116; 117; 118; 119; 120; 121; 122; 161; 191; 208; 221; 222; 174;
   162; 163; 165; 183; 169; 91; 182; 188; 189; 190; 172; 124; 175; 168; 180; 215;
   228; 65; 66; 67; 68; 69; 70; 71; 72; 73; 173; 244; 166; 242; 243; 245;
   229; 74; 75; 76; 77; 78; 79; 80; 81; 82; 185; 251; 126; 249; 250; 255;
   92; 247; 83; 84; 85; 86; 87; 88; 89; 90; 178; 212; 64; 210; 211; 213;
   48; 49; 50; 51; 52; 53; 54; 55; 56; 57; 179; 219; 220; 217; 218; 159
].

Definition iso_8859_1_to_ibm280 : list Z := [
   0; 1; 2; 3; 55; 45; 46; 47; 22; 5; 37; 11; 12; 13; 14; 15;
   16; 17; 18; 19; 60; 61; 50; 38; 24; 25; 63; 39; 28; 29; 30; 31;
   64; 79; 127; 177; 91; 108; 80; 125; 77; 93; 92; 78; 107; 96; 75; 97;
   240; 241; 242; 243; 244; 245; 246; 247; 248; 249; 122; 94; 76; 126; 110; 111;
   181; 193; 194; 195; 196; 197; 198; 199; 200; 201; 209; 210; 211; 212; 213; 214;
   215; 216; 217; 226; 227; 228; 229; 230; 231; 232; 233; 144; 72; 81; 95; 109;
   221; 129; 130; 131; 132; 133; 134; 135; 136; 137; 145; 146; 147; 148; 149; 150;
   151; 152; 153; 162; 163; 164; 165; 166; 167; 168; 169; 68; 187; 84; 88; 7;
   32; 33; 34; 35; 36; 21; 6; 23; 40; 41; 42; 43; 44; 9; 10; 27;
   48; 49; 26; 51; 52; 53; 54; 8; 56; 57; 58; 59; 4; 20; 62; 255;
   65; 170; 176; 123; 159; 178; 205; 124; 189; 180; 154; 138; 186; 202; 175; 188;
   74; 143; 234; 250; 190; 160; 182; 179; 157; 218; 155; 139; 183; 184; 185; 171;
   100; 101; 98; 102; 99; 103; 158; 104; 116; 113; 114; 115; 120; 117; 118; 119;
   172; 105; 237; 238; 235; 239; 236; 191; 128; 253; 254; 251; 252; 173; 174; 89;
   192; 69; 66; 70; 67; 71; 156; 224; 208; 90; 82; 83; 161; 85; 86; 87;
   140; 73; 106; 206; 203; 207; 204; 225; 112; 121; 222; 219; 220; 141; 142; 223
].

Definition ibm280_to_iso_8859_1 : list Z := [
   0; 1; 2; 3; 156; 9; 134; 127; 151; 141; 142; 11; 12; 13; 14; 15;
   16; 17; 18; 19; 157; 133; 8; 135; 24; 25; 146; 143; 28; 29; 30; 31;
   128; 129; 130; 131; 132; 10; 23; 27; 136; 137; 138; 139; 140; 5; 6; 7;
   144; 145; 22; 147; 148; 149; 150; 4; 152; 153; 154; 155; 20; 21; 158; 26;
   32; 160; 226; 228; 123; 225; 227; 229; 92; 241; 176; 46; 60; 40; 43; 33;
   38; 93; 234; 235; 125; 237; 238; 239; 126; 223; 233; 36; 42; 41; 59; 94;
   45; 47; 194; 196; 192; 193; 195; 197; 199; 209; 242; 44; 37; 95; 62; 63;
   248; 201; 202; 203; 200; 205; 206; 207; 204; 249; 58; 163; 167; 39; 61; 34;
   216; 97; 98; 99; 100; 101; 102; 103; 104; 105; 171; 187; 240; 253; 254; 177;
   91; 106; 107; 108; 109; 110; 111; 112; 113; 114; 170; 186; 230; 184; 198; 164;
   181; 236; 115; 116; 117; 118; 119; 120; 121; 122; 161; 191; 208; 221; 222; 174;
   162; 35; 165; 183; 169; 64; 182; 188; 189; 190; 172; 124; 175; 168; 180; 215;
   224; 65; 66; 67; 68; 69; 70; 71; 72; 73; 173; 244; 246; 166; 243; 245;
   232; 74; 75; 76; 77; 78; 79; 80; 81; 82; 185; 251; 252; 96; 250; 255;
   231; 247; 83; 84; 85; 86; 87; 88; 89; 90; 178; 212; 214; 210; 211; 213;
   48; 49; 50; 51; 52; 53; 54; 55; 56; 57; 179; 219; 220; 217; 218; 159
].

Definition iso_8859_1_to_ibm284 : list Z := [
   0; 1; 2; 3; 55; 45; 46; 47; 22; 5; 37; 11; 12; 13; 14; 15;
   16; 17; 18; 19; 60; 61; 50; 38; 24; 25; 63; 39; 28; 29; 30; 31;
   64; 187; 127; 105; 91; 108; 80; 125; 77; 93; 92; 78; 107; 96; 75; 97;
   240; 241; 242; 243; 244; 245; 246; 247; 248; 249; 122; 94; 76; 126; 110; 111;
   124; 193; 194; 195; 196; 197; 198; 199; 200; 201; 209; 210; 211; 212; 213; 214;
   215; 216; 217; 226; 227; 228; 229; 230; 231; 232; 233; 74; 224; 90; 186; 109;
   121; 129; 130; 131; 132; 133; 134; 135; 136; 137; 145; 146; 147; 148; 149; 150;
   151; 152; 153; 162; 163; 164; 165; 166; 167; 168; 169; 192; 79; 208; 189; 7;
   32; 33; 34; 35; 36; 21; 6; 23; 40; 41; 42; 43; 44; 9; 10; 27;
   48; 49; 26; 51; 52; 53; 54; 8; 56; 57; 58; 59; 4; 20; 62; 255;
   65; 170; 176; 177; 159; 178; 73; 181; 161; 180; 154; 138; 95; 202; 175; 188;
   144; 143; 234; 250; 190; 160; 182; 179; 157; 218; 155; 139; 183; 184; 185; 171;
   100; 101; 98; 102; 99; 103; 158; 104; 116; 113; 114; 115; 120; 117; 118; 119;
   172; 123; 237; 238; 235; 239; 236; 191; 128; 253; 254; 251; 252; 173; 174; 89;
   68; 69; 66; 70; 67; 71; 156; 72; 84; 81; 82; 83; 88; 85; 86; 87;
   140; 106; 205; 206; 203; 207; 204; 225; 112; 221; 222; 219; 220; 141; 142; 223
].

Definition ibm284_to_iso_8859_1 : list Z := [
   0; 1; 2; 3; 156; 9; 134; 127; 151; 141; 142; 11; 12; 13; 14; 15;
   16; 17; 18; 19; 157; 133; 8; 135; 24; 25; 146; 143; 28; 29; 30; 31;
   128; 129; 130; 131; 132; 10; 23; 27; 136; 137; 138; 139; 140; 5; 6; 7;
   144; 145; 22; 147; 148; 149; 150; 4; 152; 153; 154; 155; 20; 21; 158; 26;
   32; 160; 226; 228; 224; 225; 227; 229; 231; 166; 91; 46; 60; 40; 43; 124;
   38; 233; 234; 235; 232; 237; 238; 239; 236; 223; 93; 36; 42; 41; 59; 172;
   45; 47; 194; 196; 192; 193; 195; 197; 199; 35; 241; 44; 37; 95; 62; 63;
   248; 201; 202; 203; 200; 205; 206; 207; 204; 96; 58; 209; 64; 39; 61; 34;
   216; 97; 98; 99; 100; 101; 102; 103; 104; 105; 171; 187; 240; 253; 254; 177;
   176; 106; 107; 108; 109; 110; 111; 112; 113; 114; 170; 186; 230; 184; 198; 164;
   181; 168; 115; 116; 117; 118; 119; 120; 121; 122; 161; 191; 208; 221; 222; 174;
   162; 163; 165; 183; 169; 167; 182; 188; 189; 190; 94; 33; 175; 126; 180; 215;
   123; 65; 66; 67; 68; 69; 70; 71; 72; 73; 173; 244; 246; 242; 243; 245;
   125; 74; 75; 76; 77; 78; 79; 80; 81; 82; 185; 251; 252; 249; 250; 255;
   92; 247; 83; 84; 85; 86; 87; 88; 89; 90; 178; 212; 214; 210; 211; 213;
   48; 49; 50; 51; 52; 53; 54; 55; 56; 57; 179; 219; 220; 217; 218; 159
].

Definition iso_8859_1_to_ibm285 : list Z := [
   0; 1; 2; 3; 55; 45; 46; 47; 22; 5; 37; 11; 12; 13; 14; 15;
   16; 17; 18; 19; 60; 61; 50; 38; 24; 25; 63; 39; 28; 29; 30; 31;
   64; 90; 127; 123; 74; 108; 80; 125; 77; 93; 92; 78; 107; 96; 75; 97;
   240; 241; 242; 243; 244; 245; 246; 247; 248; 249; 122; 94; 76; 126; 110; 111;
   124; 193; 194; 195; 196; 197; 198; 199; 200; 201; 209; 210; 211; 212; 213; 214;
   215; 216; 217; 226; 227; 228; 229; 230; 231; 232; 233; 177; 224; 187; 186; 109;
   121; 129; 130; 131; 132; 133; 134; 135; 136; 137; 145; 146; 147; 148; 149; 150;
   151; 152; 153; 162; 163; 164; 165; 166; 167; 168; 169; 192; 79; 208; 188; 7;
   32; 33; 34; 35; 36; 21; 6; 23; 40; 41; 42; 43; 44; 9; 10; 27;
   48; 49; 26; 51; 52; 53; 54; 8; 56; 57; 58; 59; 4; 20; 62; 255;
   65; 170; 176; 91; 159; 178; 106; 181; 189; 180; 154; 138; 95; 202; 175; 161;
   144; 143; 234; 250; 190; 160; 182; 179; 157; 218; 155; 139; 183; 184; 185; 171;
   100; 101; 98; 102; 99; 103; 158; 104; 116; 113; 114; 115; 120; 117; 118; 119;
   172; 105; 237; 238; 235; 239; 236; 191; 128; 253; 254; 251; 252; 173; 174; 89;
   68; 69; 66; 70; 67; 71; 156; 72; 84; 81; 82; 83; 88; 85; 86; 87;
   140; 73; 205; 206; 203; 207; 204; 225; 112; 221; 222; 219; 220; 141; 142; 223
].

Definition ibm285_to_iso_8859_1 : list Z := [
   0; 1; 2; 3; 156; 9; 134; 127; 151; 141; 142; 11; 12; 13; 14; 15;
   16; 17; 18; 19; 157; 133; 8; 135; 24; 25; 146; 143; 28; 29; 30; 31;
   128; 129; 130; 131; 132; 10; 23; 27; 136; 137; 138; 139; 140; 5; 6; 7;
   144; 145; 22; 147; 148; 149; 150; 4; 152; 153; 154; 155; 20; 21; 158; 26;
   32; 160; 226; 228; 224; 225; 227; 229; 231; 241; 36; 46; 60; 40; 43; 124;
   38; 233; 234; 235; 232; 237; 238; 239; 236; 223; 33; 163; 42; 41; 59; 172;
   45; 47; 194; 196; 192; 193; 195; 197; 199; 209; 166; 44; 37; 95; 62; 63;
   248; 201; 202; 203; 200; 205; 206; 207; 204; 96; 58; 35; 64; 39; 61; 34;
   216; 97; 98; 99; 100; 101; 102; 103; 104; 105; 171; 187; 240; 253; 254; 177;
   176; 106; 107; 108; 109; 110; 111; 112; 113; 114; 170; 186; 230; 184; 198; 164;
   181; 175; 115; 116; 117; 118; 119; 120; 121; 122; 161; 191; 208; 221; 222; 174;
   162; 91; 165; 183; 169; 167; 182; 188; 189; 190; 94; 93; 126; 168; 180; 215;
   123; 65; 66; 67; 68; 69; 70; 71; 72; 73; 173; 244; 246; 242; 243; 245;
   125; 74; 75; 76; 77; 78; 79; 80; 81; 82; 185; 251; 252; 249; 250; 255;
   92; 247; 83; 84; 85; 86; 87; 88; 89; 90; 178; 212; 214; 210; 211; 213;
   48; 49; 50; 51; 52; 53; 54; 55; 56; 57; 179; 219; 220; 217; 218; 159
].

Definition iso_8859_1_to_ibm297 : list Z := [
   0; 1; 2; 3; 55; 45; 46; 47; 22; 5; 37; 11; 12; 13; 14; 15;
   16; 17; 18; 19; 60; 61; 50; 38; 24; 25; 63; 39; 28; 29; 30; 31;
   64; 79; 127; 177; 91; 108; 80; 125; 77; 93; 92; 78; 107; 96; 75; 97;
   240; 241; 242; 243; 244; 245; 246; 247; 248; 249; 122; 94; 76; 126; 110; 111;
   68; 193; 194; 195; 196; 197; 198; 199; 200; 201; 209; 210; 211; 212; 213; 214;
   215; 216; 217; 226; 227; 228; 229; 230; 231; 232; 233; 144; 72; 181; 95; 109;
   160; 129; 130; 131; 132; 133; 134; 135; 136; 137; 145; 146; 147; 148; 149; 150;
   151; 152; 153; 162; 163; 164; 165; 166; 167; 168; 169; 81; 187; 84; 189; 7;
   32; 33; 34; 35; 36; 21; 6; 23; 40; 41; 42; 43; 44; 9; 10; 27;
   48; 49; 26; 51; 52; 53; 54; 8; 56; 57; 58; 59; 4; 20; 62; 255;
   65; 170; 176; 123; 159; 178; 221; 90; 161; 180; 154; 138; 186; 202; 175; 188;
   74; 143; 234; 250; 190; 121; 182; 179; 157; 218; 155; 139; 183; 184; 185; 171;
   100; 101; 98; 102; 99; 103; 158; 104; 116; 113; 114; 115; 120; 117; 118; 119;
   172; 105; 237; 238; 235; 239; 236; 191; 128; 253; 254; 251; 252; 173; 174; 89;
   124; 69; 66; 70; 67; 71; 156; 224; 208; 192; 82; 83; 88; 85; 86; 87;
   140; 73; 205; 206; 203; 207; 204; 225; 112; 106; 222; 219; 220; 141; 142; 223
].

Definition ibm297_to_iso_8859_1 : list Z := [
   0; 1; 2; 3; 156; 9; 134; 127; 151; 141; 142; 11; 12; 13; 14; 15;
   16; 17; 18; 19; 157; 133; 8; 135; 24; 25; 146; 143; 28; 29; 30; 31;
   128; 129; 130; 131; 132; 10; 23; 27; 136; 137; 138; 139; 140; 5; 6; 7;
   144; 145; 22; 147; 148; 149; 150; 4; 152; 153; 154; 155; 20; 21; 158; 26;
   32; 160; 226; 228; 64; 225; 227; 229; 92; 241; 176; 46; 60; 40; 43; 33;
   38; 123; 234; 235; 125; 237; 238; 239; 236; 223; 167; 36; 42; 41; 59; 94;
   45; 47; 194; 196; 192; 193; 195; 197; 199; 209; 249; 44; 37; 95; 62; 63;
   248; 201; 202; 203; 200; 205; 206; 207; 204; 181; 58; 163; 224; 39; 61; 34;
   216; 97; 98; 99; 100; 101; 102; 103; 104; 105; 171; 187; 240; 253; 254; 177;
   91; 106; 107; 108; 109; 110; 111; 112; 113; 114; 170; 186; 230; 184; 198; 164;
   96; 168; 115; 116; 117; 118; 119; 120; 121; 122; 161; 191; 208; 221; 222; 174;
   162; 35; 165; 183; 169; 93; 182; 188; 189; 190; 172; 124; 175; 126; 180; 215;
   233; 65; 66; 67; 68; 69; 70; 71; 72; 73; 173; 244; 246; 242; 243; 245;
   232; 74; 75; 76; 77; 78; 79; 80; 81; 82; 185; 251; 252; 166; 250; 255;
   231; 247; 83; 84; 85; 86; 87; 88; 89; 90; 178; 212; 214; 210; 211; 213;
   48; 49; 50; 51; 52; 53; 54; 55; 56; 57; 179; 219; 220; 217; 218; 159
].

Definition iso_8859_1_to_ibm500 : list Z := [
   0; 1; 2; 3; 55; 45; 46; 47; 22; 5; 37; 11; 12; 13; 14; 15;
   16; 17; 18; 19; 60; 61; 50; 38; 24; 25; 63; 39; 28; 29; 30; 31;
   64; 79; 127; 123; 91; 108; 80; 125; 77; 93; 92; 78; 107; 96; 75; 97;
   240; 241; 242; 243; 244; 245; 246; 247; 248; 249; 122; 94; 76; 126; 110; 111;
   124; 193; 194; 195; 196; 197; 198; 199; 200; 201; 209; 210; 211; 212; 213; 214;
   215; 216; 217; 226; 227; 228; 229; 230; 231; 232; 233; 74; 224; 90; 95; 109;
   121; 129; 130; 131; 132; 133; 134; 135; 136; 137; 145; 146; 147; 148; 149; 150;
   151; 152; 153; 162; 163; 164; 165; 166; 167; 168; 169; 192; 187; 208; 161; 7;
   32; 33; 34; 35; 36; 21; 6; 23; 40; 41; 42; 43; 44; 9; 10; 27;
   48; 49; 26; 51; 52; 53; 54; 8; 56; 57; 58; 59; 4; 20; 62; 255;
   65; 170; 176; 177; 159; 178; 106; 181; 189; 180; 154; 138; 186; 202; 175; 188;
   144; 143; 234; 250; 190; 160; 182; 179; 157; 218; 155; 139; 183; 184; 185; 171;
   100; 101; 98; 102; 99; 103; 158; 104; 116; 113; 114; 115; 120; 117; 118; 119;
   172; 105; 237; 238; 235; 239; 236; 191; 128; 253; 254; 251; 252; 173; 174; 89;
   68; 69; 66; 70; 67; 71; 156; 72; 84; 81; 82; 83; 88; 85; 86; 87;
   140; 73; 205; 206; 203; 207; 204; 225; 112; 221; 222; 219; 220; 141; 142; 223
].

Definition ibm500_to_iso_8859_1 : list Z := [
   0; 1; 2; 3; 156; 9; 134; 127; 151; 141; 142; 11; 12; 13; 14; 15;
   16; 17; 18; 19; 157; 133; 8; 135; 24; 25; 146; 143; 28; 29; 30; 31;
   128; 129; 130; 131; 132; 10; 23; 27; 136; 137; 138; 139; 140; 5; 6; 7;
   144; 145; 22; 147; 148; 149; 150; 4; 152; 153; 154; 155; 20; 21; 158; 26;
   32; 160; 226; 228; 224; 225; 227; 229; 231; 241; 91; 46; 60; 40; 43; 33;
   38; 233; 234; 235; 232; 237; 238; 239; 236; 223; 93; 36; 42; 41; 59; 94;
   45; 47; 194; 196; 192; 193; 195; 197; 199; 209; 166; 44; 37; 95; 62; 63;
   248; 201; 202; 203; 200; 205; 206; 207; 204; 96; 58; 35; 64; 39; 61; 34;
   216; 97; 98; 99; 100; 101; 102; 103; 104; 105; 171; 187; 240; 253; 254; 177;
   176; 106; 107; 108; 109; 110; 111; 112; 113; 114; 170; 186; 230; 184; 198; 164;
   181; 126; 115; 116; 117; 118; 119; 120; 121; 122; 161; 191; 208; 221; 222; 174;
   162; 163; 165; 183; 169; 167; 182; 188; 189; 190; 172; 124; 175; 168; 180; 215;
   123; 65; 66; 67; 68; 69; 70; 71; 72; 73; 173; 244; 246; 242; 243; 245;
   125; 74; 75; 76; 77; 78; 79; 80; 81; 82; 185; 251; 252; 249; 250; 255;
   92; 247; 83; 84; 85; 86; 87; 88; 89; 90; 178; 212; 214; 210; 211; 213;
   48; 49; 50; 51; 52; 53; 54; 55; 56; 57; 179; 219; 220; 217; 218; 159
].

Definition iso_8859_1_to_ibm871 : list Z := [
   0; 1; 2; 3; 55; 45; 46; 47; 22; 5; 37; 11; 12; 13; 14; 15;
   16; 17; 18; 19; 60; 61; 50; 38; 24; 25; 63; 39; 28; 29; 30; 31;
   64; 79; 127; 123; 91; 108; 80; 125; 77; 93; 92; 78; 107; 96; 75; 97;
   240; 241; 242; 243; 244; 245; 246; 247; 248; 249; 122; 94; 76; 126; 110; 111;
   172; 193; 194; 195; 196; 197; 198; 199; 200; 201; 209; 210; 211; 212; 213; 214;
   215; 216; 217; 226; 227; 228; 229; 230; 231; 232; 233; 174; 190; 158; 236; 109;
   140; 129; 130; 131; 132; 133; 134; 135; 136; 137; 145; 146; 147; 148; 149; 150;
   151; 152; 153; 162; 163; 164; 165; 166; 167; 168; 169; 142; 187; 156; 204; 7;
   32; 33; 34; 35; 36; 21; 6; 23; 40; 41; 42; 43; 44; 9; 10; 27;
   48; 49; 26; 51; 52; 53; 54; 8; 56; 57; 58; 59; 4; 20; 62; 255;
   65; 170; 176; 177; 159; 178; 106; 181; 189; 180; 154; 138; 186; 202; 175; 188;
   144; 143; 234; 250; 224; 160; 182; 179; 157; 218; 155; 139; 183; 184; 185; 171;
   100; 101; 98; 102; 99; 103; 90; 104; 116; 113; 114; 115; 120; 117; 118; 119;
   124; 105; 237; 238; 235; 239; 95; 191; 128; 253; 254; 251; 252; 173; 192; 89;
   68; 69; 66; 70; 67; 71; 208; 72; 84; 81; 82; 83; 88; 85; 86; 87;
   121; 73; 205; 206; 203; 207; 161; 225; 112; 221; 222; 219; 220; 141; 74; 223
].

Definition ibm871_to_iso_8859_1 : list Z := [
   0; 1; 2; 3; 156; 9; 134; 127; 151; 141; 142; 11; 12; 13; 14; 15;
   16; 17; 18; 19; 157; 133; 8; 135; 24; 25; 146; 143; 28; 29; 30; 31;
   128; 129; 130; 131; 132; 10; 23; 27; 136; 137; 138; 139; 140; 5; 6; 7;
   144; 145; 22; 147; 148; 149; 150; 4; 152; 153; 154; 155; 20; 21; 158; 26;
   32; 160; 226; 228; 224; 225; 227; 229; 231; 241; 254; 46; 60; 40; 43; 33;
   38; 233; 234; 235; 232; 237; 238; 239; 236; 223; 198; 36; 42; 41; 59; 214;
   45; 47; 194; 196; 192; 193; 195; 197; 199; 209; 166; 44; 37; 95; 62; 63;
   248; 201; 202; 203; 200; 205; 206; 207; 204; 240; 58; 35; 208; 39; 61; 34;
   216; 97; 98; 99; 100; 101; 102; 103; 104; 105; 171; 187; 96; 253; 123; 177;
   176; 106; 107; 108; 109; 110; 111; 112; 113; 114; 170; 186; 125; 184; 93; 164;
   181; 246; 115; 116; 117; 118; 119; 120; 121; 122; 161; 191; 64; 221; 91; 174;
   162; 163; 165; 183; 169; 167; 182; 188; 189; 190; 172; 124; 175; 168; 92; 215;
   222; 65; 66; 67; 68; 69; 70; 71; 72; 73; 173; 244; 126; 242; 243; 245;
   230; 74; 75; 76; 77; 78; 79; 80; 81; 82; 185; 251; 252; 249; 250; 255;
   180; 247; 83; 84; 85; 86; 87; 88; 89; 90; 178; 212; 94; 210; 211; 213;
   48; 49; 50; 51; 52; 53; 54; 55; 56; 57; 179; 219; 220; 217; 218; 159
].

Definition iso_8859_2_to_ibm870 : list Z := [
   0; 1; 2; 3; 55; 45; 46; 47; 22; 5; 37; 11; 12; 13; 14; 15;
   16; 17; 18; 19; 60; 61; 50; 38; 24; 25; 63; 39; 28; 29; 30; 31;
   64; 79; 127; 123; 91; 108; 80; 125; 77; 93; 92; 78; 107; 96; 75; 97;
   240; 241; 242; 243; 244; 245; 246; 247; 248; 249; 122; 94; 76; 126; 110; 111;
   124; 193; 194; 195; 196; 197; 198; 199; 200; 201; 209; 210; 211; 212; 213; 214;
   215; 216; 217; 226; 227; 228; 229; 230; 231; 232; 233; 74; 224; 90; 95; 109;
   121; 129; 130; 131; 132; 133; 134; 135; 136; 137; 145; 146; 147; 148; 149; 150;
   151; 152; 153; 162; 163; 164; 165; 166; 167; 168; 169; 192; 106; 208; 161; 7;
   32; 33; 34; 35; 36; 21; 6; 23; 40; 41; 42; 43; 44; 9; 10; 27;
   48; 49; 26; 51; 52; 53; 54; 8; 56; 57; 58; 59; 4; 20; 62; 255;
   65; 177; 128; 82; 159; 119; 170; 181; 189; 188; 118; 253; 186; 202; 185; 180;
   144; 160; 158; 154; 190; 87; 138; 112; 157; 156; 143; 221; 184; 100; 183; 178;
   237; 101; 66; 68; 99; 120; 105; 104; 103; 113; 102; 115; 218; 117; 114; 250;
   172; 187; 171; 238; 235; 239; 236; 191; 174; 116; 254; 251; 252; 173; 86; 89;
   205; 69; 98; 70; 67; 88; 73; 72; 71; 81; 175; 83; 223; 85; 179; 234;
   140; 155; 139; 206; 203; 207; 204; 225; 142; 84; 222; 219; 220; 141; 176; 182
].

Definition ibm870_to_iso_8859_2 : list Z := [
   0; 1; 2; 3; 156; 9; 134; 127; 151; 141; 142; 11; 12; 13; 14; 15;
   16; 17; 18; 19; 157; 133; 8; 135; 24; 25; 146; 143; 28; 29; 30; 31;
   128; 129; 130; 131; 132; 10; 23; 27; 136; 137; 138; 139; 140; 5; 6; 7;
   144; 145; 22; 147; 148; 149; 150; 4; 152; 153; 154; 155; 20; 21; 158; 26;
   32; 160; 194; 228; 195; 225; 227; 232; 231; 230; 91; 46; 60; 40; 43; 33;
   38; 233; 163; 235; 249; 237; 222; 181; 229; 223; 93; 36; 42; 41; 59; 94;
   45; 47; 226; 196; 189; 193; 202; 200; 199; 198; 124; 44; 37; 95; 62; 63;
   183; 201; 206; 203; 217; 205; 170; 165; 197; 96; 58; 35; 64; 39; 61; 34;
   162; 97; 98; 99; 100; 101; 102; 103; 104; 105; 182; 242; 240; 253; 248; 186;
   176; 106; 107; 108; 109; 110; 111; 112; 113; 114; 179; 241; 185; 184; 178; 164;
   177; 126; 115; 116; 117; 118; 119; 120; 121; 122; 166; 210; 208; 221; 216; 234;
   254; 161; 191; 238; 175; 167; 255; 190; 188; 174; 172; 209; 169; 168; 180; 215;
   123; 65; 66; 67; 68; 69; 70; 71; 72; 73; 173; 244; 246; 224; 243; 245;
   125; 74; 75; 76; 77; 78; 79; 80; 81; 82; 204; 251; 252; 187; 250; 236;
   92; 247; 83; 84; 85; 86; 87; 88; 89; 90; 239; 212; 214; 192; 211; 213;
   48; 49; 50; 51; 52; 53; 54; 55; 56; 57; 207; 219; 220; 171; 218; 159
].

Definition iso_8859_3_to_ibm905 : list Z := [
   0; 1; 2; 3; 55; 45; 46; 47; 22; 5; 37; 11; 12; 13; 14; 15;
   16; 17; 18; 19; 60; 61; 50; 38; 24; 25; 63; 39; 28; 29; 30; 31;
   64; 79; 252; 236; 185; 108; 80; 125; 77; 93; 92; 78; 107; 96; 75; 97;
   240; 241; 242; 243; 244; 245; 246; 247; 248; 249; 122; 94; 76; 126; 110; 111;
   175; 193; 194; 195; 196; 197; 198; 199; 200; 201; 209; 210; 211; 212; 213; 214;
   215; 216; 217; 226; 227; 228; 229; 230; 231; 232; 233; 104; 220; 182; 95; 109;
   218; 129; 130; 131; 132; 133; 134; 135; 136; 137; 145; 146; 147; 148; 149; 150;
   151; 152; 153; 162; 163; 164; 165; 166; 167; 168; 169; 72; 143; 179; 204; 7;
   32; 33; 34; 35; 36; 21; 6; 23; 40; 41; 42; 43; 44; 9; 10; 27;
   48; 49; 26; 51; 52; 53; 54; 8; 56; 57; 58; 59; 4; 20; 62; 255;
   65; 170; 128; 177; 159; 142; 186; 181; 189; 91; 124; 90; 188; 202; 174; 180;
   144; 138; 234; 250; 190; 160; 154; 176; 157; 121; 106; 208; 156; 184; 158; 178;
   100; 101; 98; 102; 99; 103; 171; 74; 116; 113; 114; 115; 120; 117; 118; 119;
   70; 105; 237; 238; 235; 239; 123; 191; 187; 253; 254; 251; 127; 173; 172; 89;
   68; 69; 66; 223; 67; 71; 139; 192; 84; 81; 82; 83; 88; 85; 86; 87;
   183; 73; 205; 206; 203; 207; 161; 225; 155; 221; 222; 219; 224; 141; 140; 112
].

Definition ibm905_to_iso_8859_3 : list Z := [
   0; 1; 2; 3; 156; 9; 134; 127; 151; 141; 142; 11; 12; 13; 14; 15;
   16; 17; 18; 19; 157; 133; 8; 135; 24; 25; 146; 143; 28; 29; 30; 31;
   128; 129; 130; 131; 132; 10; 23; 27; 136; 137; 138; 139; 140; 5; 6; 7;
   144; 145; 22; 147; 148; 149; 150; 4; 152; 153; 154; 155; 20; 21; 158; 26;
   32; 160; 226; 228; 224; 225; 208; 229; 123; 241; 199; 46; 60; 40; 43; 33;
   38; 233; 234; 235; 232; 237; 238; 239; 236; 223; 171; 169; 42; 41; 59; 94;
   45; 47; 194; 196; 192; 193; 195; 197; 91; 209; 186; 44; 37; 95; 62; 63;
   255; 201; 202; 203; 200; 205; 206; 207; 204; 185; 58; 214; 170; 39; 61; 220;
   162; 97; 98; 99; 100; 101; 102; 103; 104; 105; 177; 230; 254; 253; 165; 124;
   176; 106; 107; 108; 109; 110; 111; 112; 113; 114; 182; 248; 188; 184; 190; 164;
   181; 246; 115; 116; 117; 118; 119; 120; 121; 122; 161; 198; 222; 221; 174; 64;
   183; 163; 191; 125; 175; 167; 93; 240; 189; 36; 166; 216; 172; 168; 180; 215;
   231; 65; 66; 67; 68; 69; 70; 71; 72; 73; 173; 244; 126; 242; 243; 245;
   187; 74; 75; 76; 77; 78; 79; 80; 81; 82; 96; 251; 92; 249; 250; 227;
   252; 247; 83; 84; 85; 86; 87; 88; 89; 90; 178; 212; 35; 210; 211; 213;
   48; 49; 50; 51; 52; 53; 54; 55; 56; 57; 179; 219; 34; 217; 218; 159
].

Definition iso_8859_5_to_ibm880 : list Z := [
   0; 1; 2; 3; 55; 45; 46; 47; 22; 5; 37; 11; 12; 13; 14; 15;
   16; 17; 18; 19; 60; 61; 50; 38; 24; 25; 63; 39; 28; 29; 30; 31;
   64; 79; 127; 123; 91; 108; 80; 125; 77; 93; 92; 78; 107; 96; 75; 97;
   240; 241; 242; 243; 244; 245; 246; 247; 248; 249; 122; 94; 76; 126; 110; 111;
   124; 193; 194; 195; 196; 197; 198; 199; 200; 201; 209; 210; 211; 212; 213; 214;
   215; 216; 217; 226; 227; 228; 229; 230; 231; 232; 233; 74; 224; 90; 95; 109;
   100; 129; 130; 131; 132; 133; 134; 135; 136; 137; 145; 146; 147; 148; 149; 150;
   151; 152; 153; 162; 163; 164; 165; 166; 167; 168; 169; 161; 69; 115; 121; 7;
   32; 33; 34; 35; 36; 21; 6; 23; 40; 41; 42; 43; 44; 9; 10; 27;
   48; 49; 26; 51; 52; 53; 54; 8; 56; 57; 58; 59; 4; 20; 62; 255;
   192; 99; 89; 98; 208; 101; 102; 103; 104; 105; 112; 113; 114; 65; 116; 117;
   185; 186; 237; 191; 188; 189; 236; 250; 203; 204; 205; 206; 207; 218; 219; 220;
   222; 223; 234; 235; 190; 202; 187; 254; 251; 253; 87; 239; 238; 252; 184; 221;
   119; 120; 175; 141; 138; 139; 174; 178; 143; 144; 154; 155; 156; 157; 158; 159;
   170; 171; 172; 173; 140; 142; 128; 182; 179; 181; 183; 177; 176; 180; 118; 160;
   88; 68; 66; 67; 106; 70; 71; 72; 73; 81; 82; 83; 84; 225; 85; 86
].

Definition ibm880_to_iso_8859_5 : list Z := [
   0; 1; 2; 3; 156; 9; 134; 127; 151; 141; 142; 11; 12; 13; 14; 15;
   16; 17; 18; 19; 157; 133; 8; 135; 24; 25; 146; 143; 28; 29; 30; 31;
   128; 129; 130; 131; 132; 10; 23; 27; 136; 137; 138; 139; 140; 5; 6; 7;
   144; 145; 22; 147; 148; 149; 150; 4; 152; 153; 154; 155; 20; 21; 158; 26;
   32; 173; 242; 243; 241; 124; 245; 246; 247; 248; 91; 46; 60; 40; 43; 33;
   38; 249; 250; 251; 252; 254; 255; 202; 240; 162; 93; 36; 42; 41; 59; 94;
   45; 47; 163; 161; 96; 165; 166; 167; 168; 169; 244; 44; 37; 95; 62; 63;
   170; 171; 172; 125; 174; 175; 238; 208; 209; 126; 58; 35; 64; 39; 61; 34;
   230; 97; 98; 99; 100; 101; 102; 103; 104; 105; 212; 213; 228; 211; 229; 216;
   217; 106; 107; 108; 109; 110; 111; 112; 113; 114; 218; 219; 220; 221; 222; 223;
   239; 123; 115; 116; 117; 118; 119; 120; 121; 122; 224; 225; 226; 227; 214; 210;
   236; 235; 215; 232; 237; 233; 231; 234; 206; 176; 177; 198; 180; 181; 196; 179;
   160; 65; 66; 67; 68; 69; 70; 71; 72; 73; 197; 184; 185; 186; 187; 188;
   164; 74; 75; 76; 77; 78; 79; 80; 81; 82; 189; 190; 191; 207; 192; 193;
   92; 253; 83; 84; 85; 86; 87; 88; 89; 90; 194; 195; 182; 178; 204; 203;
   48; 49; 50; 51; 52; 53; 54; 55; 56; 57; 183; 200; 205; 201; 199; 159
].

Definition iso_8859_6_to_ibm420 : list Z := [
   0; 1; 2; 3; 55; 45; 46; 47; 22; 5; 37; 11; 12; 13; 14; 15;
   16; 17; 18; 19; 60; 61; 50; 38; 24; 25; 63; 39; 28; 29; 30; 31;
   64; 90; 127; 123; 91; 108; 80; 125; 77; 93; 92; 78; 107; 96; 75; 97;
   240; 241; 242; 243; 244; 245; 246; 247; 248; 249; 122; 94; 76; 126; 110; 111;
   124; 193; 194; 195; 196; 197; 198; 199; 200; 201; 209; 210; 211; 212; 213; 214;
   215; 216; 217; 226; 227; 228; 229; 230; 231; 232; 233; 100; 138; 205; 155; 109;
   104; 129; 130; 131; 132; 133; 134; 135; 136; 137; 145; 146; 147; 148; 149; 150;
   151; 152; 153; 162; 163; 164; 165; 166; 167; 168; 169; 83; 79; 204; 203; 7;
   32; 33; 34; 35; 36; 21; 6; 23; 40; 41; 42; 43; 44; 9; 10; 27;
   48; 49; 26; 51; 52; 53; 54; 8; 56; 57; 58; 59; 4; 20; 62; 255;
   65; 161; 89; 72; 74; 102; 157; 120; 172; 224; 170; 225; 121; 202; 174; 84;
   176; 160; 178; 179; 180; 181; 182; 183; 184; 185; 186; 192; 188; 87; 190; 208;
   106; 70; 71; 73; 82; 69; 85; 86; 88; 98; 99; 101; 103; 105; 113; 115;
   116; 117; 118; 119; 128; 139; 141; 143; 144; 154; 158; 219; 234; 221; 222; 223;
   68; 171; 173; 175; 177; 187; 189; 191; 207; 218; 220; 235; 236; 237; 238; 239;
   81; 66; 112; 142; 95; 67; 140; 156; 206; 114; 250; 251; 252; 253; 254; 159
].

Definition ibm420_to_iso_8859_6 : list Z := [
   0; 1; 2; 3; 156; 9; 134; 127; 151; 141; 142; 11; 12; 13; 14; 15;
   16; 17; 18; 19; 157; 133; 8; 135; 24; 25; 146; 143; 28; 29; 30; 31;
   128; 129; 130; 131; 132; 10; 23; 27; 136; 137; 138; 139; 140; 5; 6; 7;
   144; 145; 22; 147; 148; 149; 150; 4; 152; 153; 154; 155; 20; 21; 158; 26;
   32; 160; 241; 245; 224; 197; 193; 194; 163; 195; 164; 46; 60; 40; 43; 124;
   38; 240; 196; 123; 175; 198; 199; 189; 200; 162; 33; 36; 42; 41; 59; 244;
   45; 47; 201; 202; 91; 203; 165; 204; 96; 205; 192; 44; 37; 95; 62; 63;
   242; 206; 249; 207; 208; 209; 210; 211; 167; 172; 58; 35; 64; 39; 61; 34;
   212; 97; 98; 99; 100; 101; 102; 103; 104; 105; 92; 213; 246; 214; 243; 215;
   216; 106; 107; 108; 109; 110; 111; 112; 113; 114; 217; 94; 247; 166; 218; 255;
   177; 161; 115; 116; 117; 118; 119; 120; 121; 122; 170; 225; 168; 226; 174; 227;
   176; 228; 178; 179; 180; 181; 182; 183; 184; 185; 186; 229; 188; 230; 190; 231;
   187; 65; 66; 67; 68; 69; 70; 71; 72; 73; 173; 126; 125; 93; 248; 232;
   191; 74; 75; 76; 77; 78; 79; 80; 81; 82; 233; 219; 234; 221; 222; 223;
   169; 171; 83; 84; 85; 86; 87; 88; 89; 90; 220; 235; 236; 237; 238; 239;
   48; 49; 50; 51; 52; 53; 54; 55; 56; 57; 250; 251; 252; 253; 254; 159
].

Definition iso_8859_7_to_ibm875 : list Z := [
   0; 1; 2; 3; 55; 45; 46; 47; 22; 5; 37; 11; 12; 13; 14; 15;
   16; 17; 18; 19; 60; 61; 50; 38; 24; 25; 63; 39; 28; 29; 30; 31;
   64; 79; 127; 123; 91; 108; 80; 125; 77; 93; 92; 78; 107; 96; 75; 97;
   240; 241; 242; 243; 244; 245; 246; 247; 248; 249; 122; 94; 76; 126; 110; 111;
   124; 193; 194; 195; 196; 197; 198; 199; 200; 201; 209; 210; 211; 212; 213; 214;
   215; 216; 217; 226; 227; 228; 229; 230; 231; 232; 233; 74; 224; 90; 95; 109;
   121; 129; 130; 131; 132; 133; 134; 135; 136; 137; 145; 146; 147; 148; 149; 150;
   151; 152; 153; 162; 163; 164; 165; 166; 167; 168; 169; 192; 220; 208; 161; 7;
   32; 33; 34; 35; 36; 21; 6; 23; 40; 41; 42; 43; 44; 9; 10; 27;
   48; 49; 26; 51; 52; 53; 54; 8; 56; 57; 58; 59; 4; 20; 62; 255;
   253; 225; 222; 176; 206; 252; 223; 235; 112; 251; 237; 238; 239; 202; 106; 207;
   144; 218; 234; 250; 160; 128; 113; 221; 114; 115; 117; 254; 118; 219; 119; 120;
   180; 65; 66; 67; 68; 69; 70; 71; 72; 73; 81; 82; 83; 84; 85; 86;
   87; 88; 116; 89; 98; 99; 100; 101; 102; 103; 104; 105; 177; 178; 179; 181;
   184; 138; 139; 140; 141; 142; 143; 154; 155; 156; 157; 158; 159; 170; 171; 172;
   173; 174; 186; 175; 187; 188; 189; 190; 191; 203; 204; 205; 182; 183; 185; 236
].

Definition ibm875_to_iso_8859_7 : list Z := [
   0; 1; 2; 3; 156; 9; 134; 127; 151; 141; 142; 11; 12; 13; 14; 15;
   16; 17; 18; 19; 157; 133; 8; 135; 24; 25; 146; 143; 28; 29; 30; 31;
   128; 129; 130; 131; 132; 10; 23; 27; 136; 137; 138; 139; 140; 5; 6; 7;
   144; 145; 22; 147; 148; 149; 150; 4; 152; 153; 154; 155; 20; 21; 158; 26;
   32; 193; 194; 195; 196; 197; 198; 199; 200; 201; 91; 46; 60; 40; 43; 33;
   38; 202; 203; 204; 205; 206; 207; 208; 209; 211; 93; 36; 42; 41; 59; 94;
   45; 47; 212; 213; 214; 215; 216; 217; 218; 219; 174; 44; 37; 95; 62; 63;
   168; 182; 184; 185; 210; 186; 188; 190; 191; 96; 58; 35; 64; 39; 61; 34;
   181; 97; 98; 99; 100; 101; 102; 103; 104; 105; 225; 226; 227; 228; 229; 230;
   176; 106; 107; 108; 109; 110; 111; 112; 113; 114; 231; 232; 233; 234; 235; 236;
   180; 126; 115; 116; 117; 118; 119; 120; 121; 122; 237; 238; 239; 240; 241; 243;
   163; 220; 221; 222; 192; 223; 252; 253; 224; 254; 242; 244; 245; 246; 247; 248;
   123; 65; 66; 67; 68; 69; 70; 71; 72; 73; 173; 249; 250; 251; 164; 175;
   125; 74; 75; 76; 77; 78; 79; 80; 81; 82; 177; 189; 124; 183; 162; 166;
   92; 161; 83; 84; 85; 86; 87; 88; 89; 90; 178; 167; 255; 170; 171; 172;
   48; 49; 50; 51; 52; 53; 54; 55; 56; 57; 179; 169; 165; 160; 187; 159
].

Definition iso_8859_8_to_ibm424 : list Z := [
   0; 1; 2; 3; 55; 45; 46; 47; 22; 5; 37; 11; 12; 13; 14; 15;
   16; 17; 18; 19; 60; 61; 50; 38; 24; 25; 63; 39; 28; 29; 30; 31;
   64; 90; 127; 123; 91; 108; 80; 125; 77; 93; 92; 78; 107; 96; 75; 97;
   240; 241; 242; 243; 244; 245; 246; 247; 248; 249; 122; 94; 76; 126; 110; 111;
   124; 193; 194; 195; 196; 197; 198; 199; 200; 201; 209; 210; 211; 212; 213; 214;
   215; 216; 217; 226; 227; 228; 229; 230; 231; 232; 233; 186; 224; 187; 176; 109;
   121; 129; 130; 131; 132; 133; 134; 135; 136; 137; 145; 146; 147; 148; 149; 150;
   151; 152; 153; 162; 163; 164; 165; 166; 167; 168; 169; 192; 79; 208; 161; 7;
   32; 33; 34; 35; 36; 21; 6; 23; 40; 41; 42; 43; 44; 9; 10; 27;
   48; 49; 26; 51; 52; 53; 54; 8; 56; 57; 58; 59; 4; 20; 62; 255;
   116; 158; 74; 177; 159; 178; 106; 181; 189; 180; 191; 138; 95; 202; 175; 188;
   144; 120; 234; 250; 190; 160; 182; 179; 157; 218; 225; 139; 183; 184; 185; 170;
   142; 171; 172; 235; 236; 237; 238; 239; 155; 119; 173; 203; 204; 205; 206; 207;
   143; 115; 140; 141; 174; 114; 128; 156; 112; 118; 154; 219; 220; 221; 222; 223;
   65; 66; 67; 68; 69; 70; 71; 72; 73; 81; 82; 83; 84; 85; 86; 87;
   88; 89; 98; 99; 100; 101; 102; 103; 104; 105; 113; 251; 252; 253; 254; 117
].

Definition ibm424_to_iso_8859_8 : list Z := [
   0; 1; 2; 3; 156; 9; 134; 127; 151; 141; 142; 11; 12; 13; 14; 15;
   16; 17; 18; 19; 157; 133; 8; 135; 24; 25; 146; 143; 28; 29; 30; 31;
   128; 129; 130; 131; 132; 10; 23; 27; 136; 137; 138; 139; 140; 5; 6; 7;
   144; 145; 22; 147; 148; 149; 150; 4; 152; 153; 154; 155; 20; 21; 158; 26;
   32; 224; 225; 226; 227; 228; 229; 230; 231; 232; 162; 46; 60; 40; 43; 124;
   38; 233; 234; 235; 236; 237; 238; 239; 240; 241; 33; 36; 42; 41; 59; 172;
   45; 47; 242; 243; 244; 245; 246; 247; 248; 249; 166; 44; 37; 95; 62; 63;
   216; 250; 213; 209; 160; 255; 217; 201; 177; 96; 58; 35; 64; 39; 61; 34;
   214; 97; 98; 99; 100; 101; 102; 103; 104; 105; 171; 187; 210; 211; 192; 208;
   176; 106; 107; 108; 109; 110; 111; 112; 113; 114; 218; 200; 215; 184; 161; 164;
   181; 126; 115; 116; 117; 118; 119; 120; 121; 122; 191; 193; 194; 202; 212; 174;
   94; 163; 165; 183; 169; 167; 182; 188; 189; 190; 91; 93; 175; 168; 180; 170;
   123; 65; 66; 67; 68; 69; 70; 71; 72; 73; 173; 203; 204; 205; 206; 207;
   125; 74; 75; 76; 77; 78; 79; 80; 81; 82; 185; 219; 220; 221; 222; 223;
   92; 186; 83; 84; 85; 86; 87; 88; 89; 90; 178; 195; 196; 197; 198; 199;
   48; 49; 50; 51; 52; 53; 54; 55; 56; 57; 179; 251; 252; 253; 254; 159
].

Definition iso_8859_9_to_ibm1026 : list Z := [
   0; 1; 2; 3; 55; 45; 46; 47; 22; 5; 37; 11; 12; 13; 14; 15;
   16; 17; 18; 19; 60; 61; 50; 38; 24; 25; 63; 39; 28; 29; 30; 31;
   64; 79; 252; 236; 173; 108; 80; 125; 77; 93; 92; 78; 107; 96; 75; 97;
   240; 241; 242; 243; 244; 245; 246; 247; 248; 249; 122; 94; 76; 126; 110; 111;
   174; 193; 194; 195; 196; 197; 198; 199; 200; 201; 209; 210; 211; 212; 213; 214;
   215; 216; 217; 226; 227; 228; 229; 230; 231; 232; 233; 104; 220; 172; 95; 109;
   141; 129; 130; 131; 132; 133; 134; 135; 136; 137; 145; 146; 147; 148; 149; 150;
   151; 152; 153; 162; 163; 164; 165; 166; 167; 168; 169; 72; 187; 140; 204; 7;
   32; 33; 34; 35; 36; 21; 6; 23; 40; 41; 42; 43; 44; 9; 10; 27;
   48; 49; 26; 51; 52; 53; 54; 8; 56; 57; 58; 59; 4; 20; 62; 255;
   65; 170; 176; 177; 159; 178; 142; 181; 189; 180; 154; 138; 186; 202; 175; 157;
   144; 143; 234; 250; 190; 160; 182; 179; 82; 218; 155; 139; 183; 184; 185; 171;
   100; 101; 98; 102; 99; 103; 158; 74; 116; 113; 114; 115; 120; 117; 118; 119;
   90; 105; 237; 238; 235; 239; 123; 191; 128; 253; 254; 251; 127; 91; 124; 89;
   68; 69; 66; 70; 67; 71; 156; 192; 84; 81; 87; 83; 88; 85; 86; 188;
   208; 73; 205; 206; 203; 207; 161; 225; 112; 221; 222; 219; 224; 121; 106; 223
].

Definition ibm1026_to_iso_8859_9 : list Z := [
   0; 1; 2; 3; 156; 9; 134; 127; 151; 141; 142; 11; 12; 13; 14; 15;
   16; 17; 18; 19; 157; 133; 8; 135; 24; 25; 146; 143; 28; 29; 30; 31;
   128; 129; 130; 131; 132; 10; 23; 27; 136; 137; 138; 139; 140; 5; 6; 7;
   144; 145; 22; 147; 148; 149; 150; 4; 152; 153; 154; 155; 20; 21; 158; 26;
   32; 160; 226; 228; 224; 225; 227; 229; 123; 241; 199; 46; 60; 40; 43; 33;
   38; 233; 184; 235; 232; 237; 238; 234; 236; 223; 208; 221; 42; 41; 59; 94;
   45; 47; 194; 196; 192; 193; 195; 197; 91; 209; 254; 44; 37; 95; 62; 63;
   248; 201; 202; 203; 200; 205; 206; 207; 204; 253; 58; 214; 222; 39; 61; 220;
   216; 97; 98; 99; 100; 101; 102; 103; 104; 105; 171; 187; 125; 96; 166; 177;
   176; 106; 107; 108; 109; 110; 111; 112; 113; 114; 170; 186; 230; 175; 198; 164;
   181; 246; 115; 116; 117; 118; 119; 120; 121; 122; 161; 191; 93; 36; 64; 174;
   162; 163; 165; 183; 169; 167; 182; 188; 189; 190; 172; 124; 239; 168; 180; 215;
   231; 65; 66; 67; 68; 69; 70; 71; 72; 73; 173; 244; 126; 242; 243; 245;
   240; 74; 75; 76; 77; 78; 79; 80; 81; 82; 185; 251; 92; 249; 250; 255;
   252; 247; 83; 84; 85; 86; 87; 88; 89; 90; 178; 212; 35; 210; 211; 213;
   48; 49; 50; 51; 52; 53; 54; 55; 56; 57; 179; 219; 34; 217; 218; 159
].

Definition jis_x0201_to_ibm290 : list Z := [
   0; 1; 2; 3; 55; 45; 46; 47; 22; 5; 37; 11; 12; 13; 14; 15;
   16; 17; 18; 19; 60; 61; 50; 38; 24; 25; 63; 39; 28; 29; 30; 31;
   64; 90; 127; 123; 224; 108; 80; 125; 77; 93; 92; 78; 107; 96; 75; 97;
   240; 241; 242; 243; 244; 245; 246; 247; 248; 249; 122; 94; 76; 126; 110; 111;
   124; 193; 194; 195; 196; 197; 198; 199; 200; 201; 209; 210; 211; 212; 213; 214;
   215; 216; 217; 226; 227; 228; 229; 230; 231; 232; 233; 218; 91; 185; 155; 109;
   121; 178; 98; 99; 100; 101; 102; 103; 104; 105; 106; 219; 221; 95; 203; 181;
   112; 113; 114; 115; 116; 117; 118; 119; 120; 220; 184; 179; 79; 222; 161; 7;
   32; 33; 34; 35; 36; 21; 6; 23; 40; 41; 42; 43; 44; 9; 10; 27;
   48; 49; 26; 51; 52; 53; 54; 8; 56; 57; 58; 59; 4; 20; 62; 255;
   160; 65; 66; 67; 68; 69; 70; 71; 72; 73; 81; 82; 83; 84; 85; 86;
   88; 129; 130; 131; 132; 133; 134; 135; 136; 137; 138; 140; 141; 142; 143; 144;
   145; 146; 147; 148; 149; 150; 151; 152; 153; 154; 157; 158; 159; 162; 163; 164;
   165; 166; 167; 168; 169; 170; 172; 173; 174; 175; 186; 187; 188; 189; 190; 191;
   180; 225; 128; 183; 139; 171; 87; 176; 89; 177; 234; 235; 236; 237; 238; 239;
   223; 192; 74; 205; 206; 207; 208; 156; 182; 202; 250; 251; 252; 253; 254; 204
].

Definition ibm290_to_jis_x0201 : list Z := [
   0; 1; 2; 3; 156; 9; 134; 127; 151; 141; 142; 11; 12; 13; 14; 15;
   16; 17; 18; 19; 157; 133; 8; 135; 24; 25; 146; 143; 28; 29; 30; 31;
   128; 129; 130; 131; 132; 10; 23; 27; 136; 137; 138; 139; 140; 5; 6; 7;
   144; 145; 22; 147; 148; 149; 150; 4; 152; 153; 154; 155; 20; 21; 158; 26;
   32; 161; 162; 163; 164; 165; 166; 167; 168; 169; 242; 46; 60; 40; 43; 124;
   38; 170; 171; 172; 173; 174; 175; 230; 176; 232; 33; 92; 42; 41; 59; 109;
   45; 47; 98; 99; 100; 101; 102; 103; 104; 105; 106; 44; 37; 95; 62; 63;
   112; 113; 114; 115; 116; 117; 118; 119; 120; 96; 58; 35; 64; 39; 61; 34;
   226; 177; 178; 179; 180; 181; 182; 183; 184; 185; 186; 228; 187; 188; 189; 190;
   191; 192; 193; 194; 195; 196; 197; 198; 199; 200; 201; 94; 247; 202; 203; 204;
   160; 126; 205; 206; 207; 208; 209; 210; 211; 212; 213; 229; 214; 215; 216; 217;
   231; 233; 97; 123; 224; 111; 248; 227; 122; 93; 218; 219; 220; 221; 222; 223;
   241; 65; 66; 67; 68; 69; 70; 71; 72; 73; 249; 110; 255; 243; 244; 245;
   246; 74; 75; 76; 77; 78; 79; 80; 81; 82; 91; 107; 121; 108; 125; 240;
   36; 225; 83; 84; 85; 86; 87; 88; 89; 90; 234; 235; 236; 237; 238; 239;
   48; 49; 50; 51; 52; 53; 54; 55; 56; 57; 250; 251; 252; 253; 254; 159
].

(** [tnXchar_map]: a name and the two tables. *)
Record tnXchar_map : Type := MkMap {
  map_name : list Z;
  to_remote_map : list Z;
  to_local_map : list Z
}.

Definition tnX_transmaps : list tnXchar_map := [
  MkMap (str "37") iso_8859_1_to_ibm037 ibm037_to_iso_8859_1;
  MkMap (str "256") iso_8859_1_to_ibm256 ibm256_to_iso_8859_1;
  MkMap (str "273") iso_8859_1_to_ibm273 ibm273_to_iso_8859_1;
  MkMap (str "277") iso_8859_1_to_ibm277 ibm277_to_iso_8859_1;
  MkMap (str "278") iso_8859_1_to_ibm278 ibm278_to_iso_8859_1;
  MkMap (str "280") iso_8859_1_to_ibm280 ibm280_to_iso_8859_1;
  MkMap (str "284") iso_8859_1_to_ibm284 ibm284_to_iso_8859_1;
  MkMap (str "285") iso_8859_1_to_ibm285 ibm285_to_iso_8859_1;
  MkMap (str "297") iso_8859_1_to_ibm297 ibm297_to_iso_8859_1;
  MkMap (str "500") iso_8859_1_to_ibm500 ibm500_to_iso_8859_1;
  MkMap (str "871") iso_8859_1_to_ibm871 ibm871_to_iso_8859_1;
  MkMap (str "870") iso_8859_2_to_ibm870 ibm870_to_iso_8859_2;
  MkMap (str "905") iso_8859_3_to_ibm905 ibm905_to_iso_8859_3;
  MkMap (str "880") iso_8859_5_to_ibm880 ibm880_to_iso_8859_5;
  MkMap (str "420") iso_8859_6_to_ibm420 ibm420_to_iso_8859_6;
  MkMap (str "875") iso_8859_7_to_ibm875 ibm875_to_iso_8859_7;
  MkMap (str "424") iso_8859_8_to_ibm424 ibm424_to_iso_8859_8;
  MkMap (str "1026") iso_8859_9_to_ibm1026 ibm1026_to_iso_8859_9;
  MkMap (str "290") jis_x0201_to_ibm290 ibm290_to_jis_x0201
].
