(* ===== verification/TnxLib.v ===== *)
(** * libtnX/libtnX.c: character maps and client address lists

    [char_map_*] translate between the local ISO character sets and EBCDIC
    through the tables of [TnxTransmaps].  [tnX_build_addr_list] turns the
    [address/bits] strings of the configuration into address and mask pairs,
    and [tnX_valid_client] tests a client against them.  Addresses are in
    network order as the socket calls give them, on a little-endian host, so
    [htonl] swaps the four bytes. *)
From S2P Require Import Prelude TnxTransmaps.

(** ** Character maps *)

Definition tnX_char_map_to_remote (map : tnXchar_map) (ascii : Z) : option Z :=
  to_remote_map map !! Z.to_nat ascii.

Definition tnX_char_map_to_local (map : tnXchar_map) (ebcdic : Z) : option Z :=
  if decide (ebcdic = 28) then Some 42
  else if decide (ebcdic = 0) then Some 32
  else to_local_map map !! Z.to_nat ebcdic.

Definition tnX_char_map_new (n : list Z) : option tnXchar_map :=
  snd <$> list_find (fun t => map_name t = n) tnX_transmaps.

(** The two tables of a map undo each other and stay within bytes. *)
Definition inverse_tables (m : tnXchar_map) : Prop :=
  length (to_remote_map m) = 256%nat /\ length (to_local_map m) = 256%nat /\
  Forall (fun c => exists e, to_remote_map m !! Z.to_nat c = Some e /\ is_byte e /\
                             to_local_map m !! Z.to_nat e = Some c)
         (seqZ 0 256).

#[local] Instance inverse_tables_at_dec m c :
  Decision (exists e, to_remote_map m !! Z.to_nat c = Some e /\ is_byte e /\
                      to_local_map m !! Z.to_nat e = Some c).
Proof.
  refine (match to_remote_map m !! Z.to_nat c as o
          return (Decision (exists e, o = Some e /\ is_byte e /\
                      to_local_map m !! Z.to_nat e = Some c)) with
          | Some e => cast_if (decide (is_byte e /\ to_local_map m !! Z.to_nat e = Some c))
          | None => right _
          end); [eauto | intros (e' & [= <-] & ?); eauto | by intros (? & ? & _)].
Defined.

#[local] Instance inverse_tables_dec m : Decision (inverse_tables m).
Proof. unfold inverse_tables. apply _. Defined.

Lemma transmaps_inverse : Forall inverse_tables tnX_transmaps.
Proof. apply (bool_decide_unpack _). vm_compute. exact I. Qed.

(** C21: translation round trip.  With every map the library offers, a local
    character translated to EBCDIC is translated back to itself, except the
    two codes [tnX_char_map_to_local] treats apart (NUL and DUP). *)
Theorem tnX_char_map_roundtrip n map c :
  tnX_char_map_new n = Some map -> is_byte c ->
  exists e, tnX_char_map_to_remote map c = Some e /\ is_byte e /\
    (e <> 0 -> e <> 28 -> tnX_char_map_to_local map e = Some c).
Proof.
  unfold tnX_char_map_new, tnX_char_map_to_remote, tnX_char_map_to_local. intros Hm Hc.
  destruct (list_find _ _) as [[i m]|] eqn:E; [|done]. cbn in Hm. simplify_eq.
  apply list_find_Some in E as (Hi & _ & _).
  destruct (Forall_lookup_1 _ _ _ _ transmaps_inverse Hi) as (_ & _ & H).
  rewrite Forall_forall in H. destruct (H c) as (e & ? & ? & ?).
  { apply elem_of_seqZ. unfold is_byte in Hc. lia. }
  exists e. split_and!; [done..|]. intros ??. by rewrite !decide_False.
Qed.

Lemma tnX_char_map_roundtrip_witness :
  exists e, tnX_char_map_to_remote
      (MkMap (str "37") iso_8859_1_to_ibm037 ibm037_to_iso_8859_1) 65 = Some e /\ is_byte e /\
    (e <> 0 -> e <> 28 -> tnX_char_map_to_local
      (MkMap (str "37") iso_8859_1_to_ibm037 ibm037_to_iso_8859_1) e = Some 65).
Proof.
  apply (tnX_char_map_roundtrip (str "37")); [vm_compute; reflexivity | unfold is_byte; lia].
Defined.

(** ** Address lists *)

Definition bswap32 (x : Z) : Z :=
  Z.lor (Z.shiftl (Z.land x 255) 24)
    (Z.lor (Z.shiftl (Z.land (Z.shiftr x 8) 255) 16)
       (Z.lor (Z.shiftl (Z.land (Z.shiftr x 16) 255) 8) (Z.land (Z.shiftr x 24) 255))).

Definition htonl (x : Z) : Z := bswap32 (u32 x).

(** [strtol(s, &tail, 0)] on strings whose value fits a [long]: white space, a
    sign, [0x] or [0] for base 16 or 8, then digits; with no digits the tail
    is the whole string. *)
Definition digit_val (c : Z) : Z :=
  if isdigit c then c - 48
  else if islower c then c - 87 else if isupper c then c - 55 else 99.

Fixpoint strtol_digits (base acc : Z) (s : list Z) : Z * list Z :=
  match s with
  | c :: t => if decide (digit_val c < base)
              then strtol_digits base (acc * base + digit_val c) t else (acc, s)
  | [] => (acc, [])
  end.

Fixpoint skip_blank (s : list Z) : list Z :=
  match s with c :: t => if isspace c then skip_blank t else s | [] => [] end.

Definition strtol0 (s : list Z) : Z * list Z :=
  let '(sign, b) := match skip_blank s with
                    | 45 :: t => (-1, t) | 43 :: t => (1, t) | t => (1, t) end in
  let starts base t := match t with c :: _ => bool_decide (digit_val c < base) | [] => false end in
  match b with
  | 48 :: x :: t =>
      if bool_decide (x = 120 \/ x = 88) && starts 16 t
      then let '(v, r) := strtol_digits 16 0 t in (sign * v, r)
      else let '(v, r) := strtol_digits 8 0 b in (sign * v, r)
  | _ => if starts 10 b then let '(v, r) := strtol_digits 10 0 b in (sign * v, r) else (0, s)
  end.

Record clientaddr : Type := MkAddr { address : Z; mask : Z }.

Section AddrList.
(** [inet_aton]: the address in network order, or [None] when it returns 0. *)
Context (inet_aton : list Z -> option Z).

(** One pass of the loop over the configured strings: [inl] is the new entry,
    [inr] is [goto error_out]; [None] is the undefined shift by 32 or more.
    The code cuts the item at its ['/'] in place; the cut string is what
    [inet_aton] sees here, and the items are not used again. *)
Definition build_addr (item : list Z) : option (clientaddr + unit) :=
  match list_find (fun c => c = 47) item with
  | None => Some (inr tt)
  | Some (i, _) =>
      match inet_aton (take i item) with
      | None => Some (inr tt)
      | Some a =>
          let '(bits, tail) := strtol0 (drop (S i) item) in
          match tail with
          | _ :: _ => Some (inr tt)
          | [] =>
              let k := (32 - bits) mod 2 ^ 64 in
              if decide (32 <= k) then None
              else Some (inl (MkAddr a (htonl (u32 (Z.shiftl 4294967295 k)))))
          end
      end
  end.

Fixpoint build_addrs (addrlist : list (list Z)) (result : list clientaddr) :
    option (list clientaddr) :=
  match addrlist with
  | [] => Some result
  | item :: rest =>
      r ← build_addr item;
      match r with
      | inl a => build_addrs rest (result ++ [a])
      | inr _ => Some []
      end
  end.

(** The [GSList] result is NULL, the empty list, on error. *)
Definition tnX_build_addr_list (addrlist : list (list Z)) : option (list clientaddr) :=
  match addrlist with
  | [] => a ← inet_aton (str "127.0.0.1"); Some [MkAddr a 4294967295]
  | _ => build_addrs addrlist []
  end.
End AddrList.

Fixpoint tnX_valid_client (addrlist : list clientaddr) (client : Z) : bool :=
  match addrlist with
  | [] => false
  | d :: rest =>
      if decide (Z.land (address d) (mask d) = Z.land client (mask d)) then true
      else tnX_valid_client rest client
  end.

(** ** Byte swapping commutes with masking *)

Lemma testbit_255 i : Z.testbit 255 i = bool_decide (0 <= i < 8).
Proof.
  change 255 with (Z.ones 8). rewrite Z.testbit_ones by lia.
  case_bool_decide; destruct (Z.leb_spec 0 i), (Z.ltb_spec i 8); cbn; lia || done.
Qed.

(** Bit [i] of the swapped value is the bit at the mirrored byte. *)
Lemma bswap32_spec x i :
  0 <= i -> Z.testbit (bswap32 x) i =
  if decide (i < 8) then Z.testbit x (i + 24)
  else if decide (i < 16) then Z.testbit x (i + 8)
  else if decide (i < 24) then Z.testbit x (i - 8)
  else if decide (i < 32) then Z.testbit x (i - 24) else false.
Proof.
  intros Hi. unfold bswap32.
  rewrite !Z.lor_spec, !Z.shiftl_spec, !Z.land_spec, !testbit_255 by done.
  repeat match goal with |- context [if decide ?P then _ else _] => destruct (decide P) end;
    repeat match goal with |- context [bool_decide ?P] =>
      first [rewrite (bool_decide_true P) by lia|rewrite (bool_decide_false P) by lia] end;
    rewrite ?andb_false_r, ?andb_true_r, ?orb_false_r; cbn;
    rewrite ?Z.shiftr_spec by lia; try done; f_equal; lia.
Qed.

Lemma bswap32_land x y : Z.land (bswap32 x) (bswap32 y) = bswap32 (Z.land x y).
Proof.
  apply Z.bits_inj'. intros i Hi. rewrite Z.land_spec, !bswap32_spec by done.
  repeat case_decide; by rewrite ?Z.land_spec.
Qed.

Lemma bswap32_involutive x : 0 <= x < 2 ^ 32 -> bswap32 (bswap32 x) = x.
Proof.
  intros Hx. apply Z.bits_inj'. intros i Hi. rewrite bswap32_spec by done.
  repeat case_decide; rewrite ?bswap32_spec by lia; repeat case_decide; try lia;
    try (f_equal; lia).
  symmetry. destruct (decide (x = 0)) as [->|]; [apply Z.bits_0|].
  apply Z.bits_above_log2; [lia|]. apply Z.log2_lt_pow2; [lia|].
  eapply Z.lt_le_trans; [apply Hx|]. apply Z.pow_le_mono_r; lia.
Qed.

Lemma bswap32_inj x y :
  0 <= x < 2 ^ 32 -> 0 <= y < 2 ^ 32 -> bswap32 x = bswap32 y -> x = y.
Proof. intros Hx Hy E. rewrite <- (bswap32_involutive x), E by done. by apply bswap32_involutive. Qed.

(** The mask keeps the high bits. *)
Lemma land_prefix_mask x k :
  0 <= x < 2 ^ 32 -> 0 <= k < 32 ->
  Z.land x (u32 (Z.shiftl 4294967295 k)) = Z.shiftl (Z.shiftr x k) k.
Proof.
  intros Hx Hk. apply Z.bits_inj'. intros i Hi. unfold u32.
  change 4294967296 with (2 ^ 32). rewrite <- Z.land_ones by lia.
  rewrite !Z.land_spec, !Z.shiftl_spec, Z.testbit_ones by lia.
  change 4294967295 with (Z.ones 32).
  destruct (decide (i < k)).
  - rewrite (Z.testbit_neg_r (Z.ones 32)), (Z.testbit_neg_r (Z.shiftr x k)) by lia.
    by rewrite andb_false_r.
  - rewrite Z.shiftr_spec, Z.testbit_ones by lia. replace (i - k + k) with i by lia.
    destruct (decide (i < 32)).
    + rewrite !(proj2 (Z.leb_le _ _)), !(proj2 (Z.ltb_lt _ _)) by lia. by rewrite !andb_true_r.
    + destruct (decide (x = 0)) as [->|]; [by rewrite Z.bits_0|].
      rewrite Z.bits_above_log2; [done|lia|]. apply Z.log2_lt_pow2; [lia|].
      eapply Z.lt_le_trans; [apply Hx|]. apply Z.pow_le_mono_r; lia.
Qed.

Lemma prefix_mask_range k : 0 <= u32 (Z.shiftl 4294967295 k) < 2 ^ 32.
Proof. apply Z.mod_pos_bound. lia. Qed.

Lemma land_range x y : 0 <= x < 2 ^ 32 -> 0 <= y -> 0 <= Z.land x y < 2 ^ 32.
Proof.
  intros Hx Hy. split; [apply Z.land_nonneg; lia|].
  destruct (decide (Z.land x y = 0)) as [->|]; [lia|].
  apply Z.log2_lt_pow2; [assert (0 <= Z.land x y) by (apply Z.land_nonneg; lia); lia|].
  eapply Z.le_lt_trans; [apply Z.log2_land; lia|].
  destruct (decide (x = 0)) as [->|]; [rewrite Z.land_0_l in *; done|].
  eapply Z.le_lt_trans; [apply Z.le_min_l|]. apply Z.log2_lt_pow2; lia.
Qed.

(** One entry matches exactly the addresses with the same prefix. *)
Lemma prefix_match a c k :
  0 <= a < 2 ^ 32 -> 0 <= c < 2 ^ 32 -> 0 <= k < 32 ->
  let m := htonl (u32 (Z.shiftl 4294967295 k)) in
  Z.land (bswap32 a) m = Z.land (bswap32 c) m <-> a / 2 ^ k = c / 2 ^ k.
Proof.
  intros Ha Hc Hk m. subst m. unfold htonl.
  assert (u32 (u32 (Z.shiftl 4294967295 k)) = u32 (Z.shiftl 4294967295 k)) as ->
    by (apply Z.mod_small, prefix_mask_range).
  rewrite !bswap32_land, !land_prefix_mask by done.
  rewrite <- !Z.shiftr_div_pow2 by lia. split; [|congruence].
  intros H. apply bswap32_inj in H.
  - apply (f_equal (fun z => Z.shiftr z k)) in H. rewrite !Z.shiftr_shiftl_l in H by lia.
    by rewrite Z.sub_diag, !Z.shiftl_0_r in H.
  - rewrite <- land_prefix_mask by done. by apply land_range, prefix_mask_range.
  - rewrite <- land_prefix_mask by done. by apply land_range, prefix_mask_range.
Qed.

(** ** The list as a set of prefixes *)

Section Cidr.
Context (inet_aton : list Z -> option Z).

(** An [ip/bits] item, the host-order address it names and its prefix
    length. *)
Record cidr : Type := MkCidr { c_ip : list Z; c_bits_str : list Z; c_addr : Z; c_bits : Z }.

Definition cidr_ok (c : cidr) : Prop :=
  47 ∉ c_ip c /\ inet_aton (c_ip c) = Some (bswap32 (c_addr c)) /\
  strtol0 (c_bits_str c) = (c_bits c, []) /\ 0 <= c_addr c < 2 ^ 32 /\ 1 <= c_bits c <= 32.

Definition cidr_item (c : cidr) : list Z := c_ip c ++ 47 :: c_bits_str c.
Definition cidr_entry (c : cidr) : clientaddr :=
  MkAddr (bswap32 (c_addr c)) (htonl (u32 (Z.shiftl 4294967295 (32 - c_bits c)))).

Lemma cidr_slash c : 47 ∉ c_ip c -> list_find (fun x => x = 47) (cidr_item c) = Some (length (c_ip c), 47).
Proof.
  intros Hs. apply list_find_Some. unfold cidr_item. split_and!; [by rewrite lookup_app_r, Nat.sub_diag|done|].
  intros j y Hy Hj ->. rewrite lookup_app_l in Hy by done. apply Hs. by eapply list_elem_of_lookup_2.
Qed.

Lemma cidr_cut c : take (length (c_ip c)) (cidr_item c) = c_ip c /\ drop (S (length (c_ip c))) (cidr_item c) = c_bits_str c.
Proof. unfold cidr_item. rewrite take_app_length. by rewrite drop_app_ge, Nat.sub_succ_l, Nat.sub_diag by lia. Qed.

Lemma build_addr_cidr c :
  cidr_ok c -> build_addr inet_aton (cidr_item c) = Some (inl (cidr_entry c)).
Proof.
  intros (Hs & Hip & Hb & Ha & Hr). unfold build_addr. rewrite cidr_slash by done. destruct (cidr_cut c) as [-> ->]. rewrite Hip.
  rewrite Hb, Z.mod_small by lia. by rewrite decide_False by lia.
Qed.

Lemma build_addrs_cidr cs : forall acc,
  Forall cidr_ok cs ->
  build_addrs inet_aton (cidr_item <$> cs) acc = Some (acc ++ (cidr_entry <$> cs)).
Proof.
  induction cs as [|c cs IH]; intros acc H; cbn [fmap list_fmap build_addrs].
  - by rewrite app_nil_r.
  - inversion H; subst. rewrite build_addr_cidr by done. cbn. rewrite IH by done.
    by rewrite <- app_assoc.
Qed.

Lemma valid_client_cidr cs c :
  Forall cidr_ok cs -> 0 <= c < 2 ^ 32 ->
  tnX_valid_client (cidr_entry <$> cs) (bswap32 c) = true <->
  Exists (fun p => c_addr p / 2 ^ (32 - c_bits p) = c / 2 ^ (32 - c_bits p)) cs.
Proof.
  intros H Hc. induction H as [|p cs (? & ? & ? & Ha & Hb) Hcs IH]; cbn.
  - split; [done|]. by intros ?%Exists_nil.
  - rewrite Exists_cons, <- IH. pose proof (prefix_match (c_addr p) c (32 - c_bits p)) as Hp.
    specialize (Hp Ha Hc ltac:(lia)). cbn zeta in Hp. cbn [cidr_entry address mask] in *.
    case_decide; tauto.
Qed.
End Cidr.

Arguments cidr_ok inet_aton c : clear implicits.

(** C22: CIDR semantics.  A list of well-formed [address/bits] items, with 1
    to 32 bits, is built without error, and a client is then accepted exactly
    when its address agrees with that of some item on the first [bits] bits. *)
Theorem tnX_valid_client_cidr inet_aton cs c :
  cs <> [] -> Forall (cidr_ok inet_aton) cs -> 0 <= c < 2 ^ 32 ->
  exists l, tnX_build_addr_list inet_aton (cidr_item <$> cs) = Some l /\
    (tnX_valid_client l (bswap32 c) = true <->
     Exists (fun p => c_addr p / 2 ^ (32 - c_bits p) = c / 2 ^ (32 - c_bits p)) cs).
Proof.
  intros Hne H Hc. exists (cidr_entry <$> cs). split; [|by eapply valid_client_cidr].
  destruct cs as [|p cs]; [done|].
  change (build_addrs inet_aton (cidr_item <$> p :: cs) [] = Some (cidr_entry <$> p :: cs)).
  by rewrite build_addrs_cidr.
Qed.

(** An [inet_aton] for the witness: it knows one address, 10.1.0.0. *)
Definition demo_inet_aton (s : list Z) : option Z :=
  if decide (s = str "10.1.0.0") then Some (bswap32 167837696) else None.

Definition demo_cidr : cidr := MkCidr (str "10.1.0.0") (str "16") 167837696 16.

Lemma tnX_valid_client_cidr_witness :
  exists l, tnX_build_addr_list demo_inet_aton (cidr_item <$> [demo_cidr]) = Some l /\
    (tnX_valid_client l (bswap32 167837955) = true <->
     Exists (fun p => c_addr p / 2 ^ (32 - c_bits p) = 167837955 / 2 ^ (32 - c_bits p)) [demo_cidr]).
Proof.
  apply tnX_valid_client_cidr; [done| |lia].
  repeat constructor; try done; try (vm_compute; congruence).
  apply (bool_decide_unpack _). vm_compute. exact I.
Defined.

(** The shortest prefix is not expressible.  An item with 0 bits, which
    is how "any address" is written, shifts a 32-bit value by 32: the code has
    no defined behaviour there. *)
Lemma tnX_build_addr_zero_bits inet_aton a :
  inet_aton (str "0.0.0.0") = Some a ->
  tnX_build_addr_list inet_aton [str "0.0.0.0/0"] = None.
Proof.
  intros H. unfold tnX_build_addr_list, build_addrs, build_addr.
  change (list_find (fun c => c = 47) (str "0.0.0.0/0")) with (Some (7%nat, 47)). cbv beta iota.
  change (take 7 (str "0.0.0.0/0")) with (str "0.0.0.0"). by rewrite H.
Qed.

Lemma tnX_build_addr_zero_bits_witness :
  tnX_build_addr_list (fun _ => Some 0) [str "0.0.0.0/0"] = None.
Proof. by apply (tnX_build_addr_zero_bits _ 0). Defined.
