(* ===== verification/TnxStream.v ===== *)
(** * libtnX/tnX_stream.c: the telnet stream of the TN servers

    A stream reads telnet bytes from its socket, answers option negotiation,
    and collects end-of-record delimited records; outgoing packets are IAC
    escaped.  The world of a stream is the record heap, the stream object and
    its socket.  The socket is a script: what each [recv] and [select] gives,
    how many bytes each [send] takes, and the bytes sent so far. *)
From S2P Require Import Prelude TnxBuffer TnxRecord TnxConf.

(** ** Constants of the protocol and of the code *)

Definition SEND := 1.
Definition IS := 0.
Definition VALUE := 1.
Definition VAR := 0.
Definition USERVAR := 3.
Definition TERMINAL := 1.
Definition HOST := 8.

Definition TRANSMIT_BINARY := 0.
Definition END_OF_RECORD := 25.
Definition TERMINAL_TYPE := 24.
Definition TIMING_MARK := 6.
Definition NEW_ENVIRON := 39.

Definition EOR := 239.
Definition SE := 240.
Definition SB := 250.
Definition WILL := 251.
Definition WONT := 252.
Definition DO := 253.
Definition DONT := 254.
Definition IAC := 255.

Definition STATE_NO_DATA := 0.
Definition STATE_DATA := 1.
Definition STATE_HAVE_IAC := 2.
Definition STATE_HAVE_VERB := 3.
Definition STATE_HAVE_SB := 4.
Definition STATE_HAVE_SB_IAC := 5.

Definition RECV_BINARY := 1.
Definition SEND_BINARY := 2.
Definition RECV_EOR := 4.
Definition SEND_EOR := 8.

Definition TN3270_STREAM := 0.
Definition TN5250_STREAM := 2.

Definition EINTR := 4.
Definition EAGAIN := 11.

Definition SB_Str_NewEnv : list Z :=
  [IAC; SB; NEW_ENVIRON; SEND; USERVAR] ++ str "IBMRSEED" ++ [0; 1; 2; 3; 4; 5; 6; 7]
  ++ [VAR; USERVAR; IAC; SE].
Definition SB_Str_TermType : list Z := [IAC; SB; TERMINAL_TYPE; SEND; IAC; SE].

Definition hostInitStr : list Z := [IAC; DO; NEW_ENVIRON; IAC; DO; TERMINAL_TYPE].
Definition hostDoEOR : list Z := [IAC; DO; END_OF_RECORD].
Definition hostDoBinary : list Z := [IAC; DO; TRANSMIT_BINARY].
Definition hostDoTable : list (list Z) := [hostInitStr; hostDoEOR; hostDoBinary].

(** ** The world *)

(** One answer of the socket to a read: a byte, nothing yet (the [select] times
    out), an error of [recv], or end of file. *)
Inductive rx_event : Type :=
| RxByte (b : Z)
| RxNone
| RxErr (errno : Z)
| RxEof.

(** One answer of [select] for writing. *)
Inductive sel_event : Type :=
| SelReady
| SelNotSet
| SelErr (errno : Z).

(** [tx_ret] scripts [send]: a negative value is minus [errno], a count is the
    number of bytes taken; past the script, [send] takes everything. *)
Record sock : Type := MkSock {
  rx : list rx_event;
  tx : list Z;
  tx_ret : list Z;
  sel_w : list sel_event
}.

Record tnXstream : Type := MkStream {
  config : option tnXconfig;
  records : option ptr;
  current_record : option ptr;
  record_count : Z;
  sb_buf : tnXbuff;
  sockfd : Z;
  status : Z;
  state : Z;
  streamtype : Z;
  msec_wait : Z;
  accept_set : bool;
  disconnect_set : bool
}.

Record world : Type := MkWorld { hp : rheap; st : tnXstream; sk : sock }.

Abbreviation W := (M world).

Definition set_hp (h : rheap) (w : world) : world := MkWorld h (st w) (sk w).
Definition set_st (s : tnXstream) (w : world) : world := MkWorld (hp w) s (sk w).
Definition set_sk (s : sock) (w : world) : world := MkWorld (hp w) (st w) s.

Definition st_config c (s : tnXstream) : tnXstream :=
  MkStream c (records s) (current_record s) (record_count s) (sb_buf s) (sockfd s) (status s)
    (state s) (streamtype s) (msec_wait s) (accept_set s) (disconnect_set s).
Definition st_records r n (s : tnXstream) : tnXstream :=
  MkStream (config s) r (current_record s) n (sb_buf s) (sockfd s) (status s)
    (state s) (streamtype s) (msec_wait s) (accept_set s) (disconnect_set s).
Definition st_current c (s : tnXstream) : tnXstream :=
  MkStream (config s) (records s) c (record_count s) (sb_buf s) (sockfd s) (status s)
    (state s) (streamtype s) (msec_wait s) (accept_set s) (disconnect_set s).
Definition st_sb_buf b (s : tnXstream) : tnXstream :=
  MkStream (config s) (records s) (current_record s) (record_count s) b (sockfd s) (status s)
    (state s) (streamtype s) (msec_wait s) (accept_set s) (disconnect_set s).
Definition st_state x (s : tnXstream) : tnXstream :=
  MkStream (config s) (records s) (current_record s) (record_count s) (sb_buf s) (sockfd s)
    (status s) x (streamtype s) (msec_wait s) (accept_set s) (disconnect_set s).
Definition st_status x (s : tnXstream) : tnXstream :=
  MkStream (config s) (records s) (current_record s) (record_count s) (sb_buf s) (sockfd s)
    x (state s) (streamtype s) (msec_wait s) (accept_set s) (disconnect_set s).
Definition st_sockfd x (s : tnXstream) : tnXstream :=
  MkStream (config s) (records s) (current_record s) (record_count s) (sb_buf s) x
    (status s) (state s) (streamtype s) (msec_wait s) (accept_set s) (disconnect_set s).

Definition on_st (f : tnXstream -> tnXstream) : W unit := modify (fun w => set_st (f (st w)) w).
Definition set_state (x : Z) : W unit := on_st (st_state x).
Definition put_hp (h : rheap) : W unit := modify (set_hp h).

(** A partial operation on the record heap. *)
Definition on_hp {A} (f : rheap -> option (A * rheap)) : W A :=
  w ← get_st;
  '(a, h) ← of_opt (f (hp w));
  put_hp h;; mret a.

(** A configuration operation on the stream's configuration; a NULL
    configuration is dereferenced. *)
Definition on_config {A} (m : Conf A) : W A := fun w =>
  match config (st w) with
  | None => Undef w
  | Some c =>
      let back c' := set_st (st_config (Some c') (st w)) w in
      match m c with
      | Ret a c' => Ret a (back c')
      | Exit n c' => Exit n (back c')
      | Abort c' => Abort (back c')
      | Undef c' => Undef (back c')
      | NoFuel c' => NoFuel (back c')
      end
  end.

(** ** System calls *)

Definition send (d : list Z) : W Z :=
  w ← get_st;
  let s := sk w in
  match tx_ret s with
  | [] => put_st (set_sk (MkSock (rx s) (tx s ++ d) [] (sel_w s)) w);; mret (Z.of_nat (length d))
  | r :: rs =>
      if decide (r < 0)
      then put_st (set_sk (MkSock (rx s) (tx s) rs (sel_w s)) w);; mret r
      else let n := Nat.min (Z.to_nat r) (length d) in
           put_st (set_sk (MkSock (rx s) (tx s ++ take n d) rs (sel_w s)) w);;
           mret (Z.of_nat n)
  end.

Definition select_w : W sel_event :=
  w ← get_st;
  let s := sk w in
  match sel_w s with
  | [] => mret SelReady
  | e :: es => put_st (set_sk (MkSock (rx s) (tx s) (tx_ret s) es) w);; mret e
  end.

(** [select] for reading followed by a one-byte [recv]. *)
Definition recv_event : W rx_event :=
  w ← get_st;
  let s := sk w in
  match rx s with
  | [] => mret RxNone
  | e :: es => put_st (set_sk (MkSock es (tx s) (tx_ret s) (sel_w s)) w);; mret e
  end.

(** ** The environment variables of a session *)

Definition tnX_stream_setenv (n v : list Z) : W unit :=
  w ← get_st;
  (match config (st w) with
   | None => on_st (st_config (Some tnX_config_new))
   | Some _ => mret tt
   end);;
  on_config (tnX_config_set (str "env." ++ n) (CStr v)).

Definition tnX_stream_getenv (n : list Z) : W (option cval) :=
  w ← get_st;
  mret (c ← config (st w); tnX_config_get c (str "env." ++ n)).

(** ** Writing *)

(** The [do ... while] loop of [telnet_stream_write]: [last_error] survives
    from one round to the next. *)
Fixpoint write_loop (fuel : nat) (data : list Z) (last_error : Z) : W unit :=
  match fuel with
  | O => no_fuel
  | S fuel =>
      e ← select_w;
      '(r, last_error, data) ←
        (match e with
         | SelErr errno =>
             if bool_decide (errno = EINTR \/ errno = EAGAIN)
             then mret (0, errno, data) else c_exit 5
         | SelNotSet => mret (0, last_error, data)
         | SelReady =>
             r ← send data;
             if decide (r < 0)
             then if decide (- r = EAGAIN) then mret (r, - r, data) else c_exit 5
             else mret (r, last_error, drop (Z.to_nat r) data)
         end);
      if bool_decide (data <> [] /\ (0 <= r \/ last_error = EAGAIN))
      then write_loop fuel data last_error else mret tt
  end.

Definition write_fuel (s : sock) : nat := S (length (sel_w s) + length (tx_ret s)).

Definition telnet_stream_write (data : list Z) : W unit :=
  w ← get_st; write_loop (write_fuel (sk w)) data 0.

(** ** Reading one byte *)

Definition telnet_stream_get_next : W Z :=
  e ← recv_event;
  match e with
  | RxNone => mret (-1)
  | RxErr errno => if bool_decide (errno <> EAGAIN /\ errno <> EINTR) then mret (-2) else mret (-1)
  | RxEof => mret (-2)
  | RxByte b => mret (u8 b)
  end.

Definition sendWill (what : Z) : W Z := send [IAC; WILL; what].

(** Negotiation when we are the host: the options bits, or a negative
    [send] result. *)
Definition telnet_stream_host_verb (verb what : Z) : W Z :=
  '(option, retval) ←
    (if decide (verb = DO) then
       mret (if decide (what = END_OF_RECORD) then SEND_EOR
             else if decide (what = TRANSMIT_BINARY) then SEND_BINARY else 0, 0)
     else if decide (verb = WILL) then
       if decide (what = NEW_ENVIRON) then r ← send SB_Str_NewEnv; mret (0, r)
       else if decide (what = TERMINAL_TYPE) then r ← send SB_Str_TermType; mret (0, r)
       else if decide (what = END_OF_RECORD) then r ← sendWill what; mret (RECV_EOR, r)
       else if decide (what = TRANSMIT_BINARY) then r ← sendWill what; mret (RECV_BINARY, r)
       else mret (0, 0)
     else mret (0, 0));
  mret (if decide (retval < 0) then retval else option).

(** Negotiation when we are the client.  [reply] has its middle byte assigned
    only for DO and WILL, and is sent in every case. *)
Definition telnet_stream_do_verb (verb what : Z) : W unit :=
  let known := bool_decide (what = TERMINAL_TYPE \/ what = END_OF_RECORD \/
                            what = TRANSMIT_BINARY \/ what = NEW_ENVIRON) in
  let reply1 := if decide (verb = DO) then Some (if known then WILL else WONT)
                else if decide (verb = WILL) then Some (if known then DO else DONT)
                else None in
  r1 ← of_opt reply1;
  ret ← send [IAC; r1; what];
  if decide (ret < 0) then c_exit 5 else mret tt.

(** ** Subnegotiation *)

(** The [for] loop of [telnet_stream_host_sb]: the bytes from position [i] up
    to an IAC or the end. *)
Fixpoint take_until_iac (l : list Z) : list Z :=
  match l with
  | c :: t => if decide (c = IAC) then [] else c :: take_until_iac t
  | [] => []
  end.

Definition telnet_stream_host_sb (sb : list Z) : W unit :=
  match sb with
  | [] => mret tt
  | sbType :: _ =>
      if decide (sbType = TERMINAL_TYPE) then
        tbuf ← of_opt (tnX_buffer_append_data tnX_buffer_init (take_until_iac (drop 2 sb)));
        tbuf ← of_opt (tnX_buffer_append_byte tbuf 0);
        tnX_stream_setenv (str "TERM") (c_str (buf_bytes tbuf))
      else mret tt
  end.

Definition telnet_stream_sb_var_value (buf : tnXbuff) (var value : list Z) : option tnXbuff :=
  b ← tnX_buffer_append_byte buf VAR;
  b ← tnX_buffer_append_data b var;
  b ← tnX_buffer_append_byte b VALUE;
  tnX_buffer_append_data b value.

(** The variables [env.*] of the configuration, appended in order; [None] also
    when a value is a list read as a string. *)
Fixpoint sb_env_vars (buf : tnXbuff) (vs : list tnXconfig_str) : option tnXbuff :=
  match vs with
  | [] => Some buf
  | v :: vs' =>
      buf' ← (if bool_decide (4 < length (name v))%nat &&
                 bool_decide (take 4 (name v) = str "env.")
              then match value v with
                   | CStr s => telnet_stream_sb_var_value buf (drop 4 (name v)) s
                   | CList _ => None
                   end
              else Some buf);
      sb_env_vars buf' vs'
  end.

Definition telnet_stream_sb (sb : list Z) : W unit :=
  match sb with
  | [] => mret tt
  | c0 :: rest =>
      if decide (c0 = TERMINAL_TYPE) then
        c1 ← of_opt (head rest);
        if decide (c1 <> SEND) then mret tt
        else
          termtype ← tnX_stream_getenv (str "TERM");
          match termtype with
          | Some (CStr t) =>
              out ← of_opt (tnX_buffer_append_data tnX_buffer_init
                              ([IAC; SB; TERMINAL_TYPE; IS] ++ t ++ [IAC; SE]));
              ret ← send (buf_bytes out);
              if decide (ret < 0) then c_exit 5
              else on_st (fun s => st_status (Z.lor (status s) TERMINAL) s)
          | _ => undef
          end
      else if decide (c0 = NEW_ENVIRON) then
        w ← get_st;
        out ← of_opt (tnX_buffer_append_data tnX_buffer_init [IAC; SB; NEW_ENVIRON; IS]);
        out ← of_opt (match config (st w) with
                      | None => Some out
                      | Some c => sb_env_vars out (vars c)
                      end);
        out ← of_opt (tnX_buffer_append_data out [IAC; SE]);
        ret ← send (buf_bytes out);
        if decide (ret < 0) then c_exit 5 else mret tt
      else mret tt
  end.

(** ** The telnet state machine *)

(** The body of the [switch] of [telnet_stream_get_byte]: an early [return],
    or the values of [temp] and of the local [verb] after it.  [verb] has no
    value until a verb byte is seen in the same call. *)
Inductive switch_result : Type :=
| SReturn (v : Z)
| SNext (temp : Z) (verb : option Z).

Definition sb_append (b : Z) : W unit :=
  w ← get_st;
  buf ← of_opt (tnX_buffer_append_byte (sb_buf (st w)) b);
  on_st (st_sb_buf buf).

Definition get_byte_switch (verb : option Z) (temp : Z) : W switch_result :=
  w ← get_st;
  let s := st w in
  let is_host := bool_decide (Z.land (status s) HOST <> 0) in
  if decide (state s = STATE_DATA) then
    (if decide (temp = IAC) then set_state STATE_HAVE_IAC else mret tt);;
    mret (SNext temp verb)
  else if decide (state s = STATE_HAVE_IAC) then
    if decide (temp = IAC) then set_state STATE_DATA;; mret (SNext temp verb)
    else if bool_decide (temp = DO \/ temp = DONT \/ temp = WILL \/ temp = WONT) then
      set_state STATE_HAVE_VERB;; mret (SNext temp (Some temp))
    else if decide (temp = SB) then
      set_state STATE_HAVE_SB;;
      on_st (fun s => st_sb_buf (tnX_buffer_free (sb_buf s)) s);;
      mret (SNext temp verb)
    else if decide (temp = EOR) then set_state STATE_DATA;; mret (SReturn (- END_OF_RECORD))
    else set_state STATE_NO_DATA;; mret (SNext temp verb)
  else if decide (state s = STATE_HAVE_VERB) then
    v ← of_opt verb;
    if is_host then
      temp ← telnet_stream_host_verb v (u8 temp);
      if decide (temp < 0) then mret (SReturn (-2))
      else set_state STATE_NO_DATA;; mret (SNext temp verb)
    else
      telnet_stream_do_verb v (u8 temp);;
      set_state STATE_NO_DATA;; mret (SNext temp verb)
  else if decide (state s = STATE_HAVE_SB) then
    (if decide (temp = IAC) then set_state STATE_HAVE_SB_IAC else sb_append (u8 temp));;
    mret (SNext temp verb)
  else if decide (state s = STATE_HAVE_SB_IAC) then
    if decide (temp = IAC) then sb_append IAC;; mret (SNext temp verb)
    else if decide (temp = SE) then
      (if is_host then telnet_stream_host_sb (buf_bytes (sb_buf s))
       else telnet_stream_sb (buf_bytes (sb_buf s)));;
      on_st (fun s => st_sb_buf (tnX_buffer_free (sb_buf s)) s);;
      set_state STATE_NO_DATA;; mret (SNext temp verb)
    else set_state STATE_HAVE_SB;; mret (SNext temp verb)
  else tnX_assert false;; mret (SNext temp verb).

Fixpoint get_byte_loop (fuel : nat) (verb : option Z) : W Z :=
  match fuel with
  | O => no_fuel
  | S fuel =>
      w ← get_st;
      (if decide (state (st w) = STATE_NO_DATA) then set_state STATE_DATA else mret tt);;
      temp ← telnet_stream_get_next;
      if decide (temp < 0) then mret temp
      else
        r ← get_byte_switch verb temp;
        match r with
        | SReturn v => mret v
        | SNext temp verb =>
            w ← get_st;
            if decide (state (st w) = STATE_DATA) then mret temp
            else get_byte_loop fuel verb
        end
  end.

(** Each round reads one event, so one more round than there are events is
    enough. *)
Definition rx_fuel (w : world) : nat := S (length (rx (sk w))).

Definition telnet_stream_get_byte : W Z :=
  w ← get_st; get_byte_loop (rx_fuel w) None.

(** The body of the receive loop for a byte or an end of record. *)
Definition receive_one (c : Z) : W unit :=
  w ← get_st;
  match current_record (st w) with
  | Some cur =>
      if decide (c = - END_OF_RECORD) then
        list ← on_hp (fun h => tnX_record_list_add h (records (st w)) cur);
        on_st (st_records list (record_count (st w) + 1));;
        on_st (st_current None)
      else on_hp (fun h => h ← tnX_record_append_byte h cur (u8 c); Some (tt, h))
  | None =>
      let '(p, h) := tnX_record_new (hp w) in
      put_hp h;;
      on_st (st_current p);;
      p ← of_opt p;
      on_hp (fun h => h ← tnX_record_append_byte h p (u8 c); Some (tt, h))
  end.

Fixpoint handle_receive_loop (fuel : nat) : W Z :=
  match fuel with
  | O => no_fuel
  | S fuel =>
      c ← telnet_stream_get_byte;
      if bool_decide (c <> -1 /\ c <> -2) then receive_one c;; handle_receive_loop fuel
      else mret (if decide (c <> -2) then 1 else 0)
  end.

Definition telnet_stream_handle_receive : W Z :=
  w ← get_st; handle_receive_loop (rx_fuel w).

(** ** Packets *)

(** [telnet_stream_escape]: the buffer [in] replaced by [out]. *)
Fixpoint escape_loop (out : tnXbuff) (cs : list Z) : option tnXbuff :=
  match cs with
  | [] => Some out
  | c :: cs' =>
      out ← tnX_buffer_append_byte out c;
      out ← (if decide (c = IAC) then tnX_buffer_append_byte out IAC else Some out);
      escape_loop out cs'
  end.

Definition telnet_stream_escape (buf : tnXbuff) : option tnXbuff :=
  escape_loop tnX_buffer_init (buf_bytes buf).

Definition tn3270_stream_send_packet (data : list Z) : W unit :=
  out ← of_opt (tnX_buffer_append_data tnX_buffer_init data);
  out ← of_opt (telnet_stream_escape out);
  out ← of_opt (tnX_buffer_append_byte out IAC);
  out ← of_opt (tnX_buffer_append_byte out EOR);
  telnet_stream_write (buf_bytes out).

(** ** Opening and closing *)

(** [select] for reading with the five second timeout: is there something to
    read, an error or an end of file included? *)
Definition sock_readable (s : sock) : bool :=
  match rx s with [] | RxNone :: _ => false | _ => true end.

(** The negotiation of [telnet_stream_accept]; [errno] is what [LAST_ERROR]
    holds after a failed receive. *)
Fixpoint accept_loop (errno : Z) (table : list (list Z)) : W Z :=
  match table with
  | [] => mret 0
  | cmd :: table' =>
      ret ← send cmd;
      if decide (ret < 0) then mret (- ret)
      else
        w ← get_st;
        if sock_readable (sk w) then
          ok ← telnet_stream_handle_receive;
          if decide (ok = 0) then mret (if decide (errno = 0) then -1 else errno)
          else accept_loop errno table'
        else mret (-1)
  end.

Definition telnet_stream_accept (errno masterfd : Z) : W Z :=
  on_st (st_sockfd masterfd);;
  set_state STATE_DATA;;
  on_st (st_status HOST);;
  accept_loop errno hostDoTable.

(** [streamInit] assigns every field but [accept] and [state], which [malloc]
    left indeterminate; the model marks them unset. *)
Definition streamInit (timeout : Z) : tnXstream :=
  MkStream None None None 0 tnX_buffer_init (-1) 0 (-1) TN5250_STREAM timeout false false.

Definition tn5250_telnet_stream_init (s : tnXstream) : tnXstream :=
  MkStream (config s) (records s) (current_record s) (record_count s) (sb_buf s) (sockfd s)
    (status s) (state s) TN5250_STREAM (msec_wait s) (accept_set s) true.

Definition tn3270_telnet_stream_init (s : tnXstream) : tnXstream :=
  MkStream (config s) (records s) (current_record s) (record_count s) (sb_buf s) (sockfd s)
    (status s) (state s) TN3270_STREAM (msec_wait s) true true.

(** The fields [tnX_stream_destroy] frees; the record being collected is not
    one of them. *)
Definition tnX_stream_destroy : W unit :=
  w ← get_st;
  (match config (st w) with None => mret tt | Some _ => on_config tnX_config_unref end);;
  on_st (fun s => st_sb_buf (tnX_buffer_free (sb_buf s)) s);;
  list ← on_hp (fun h => tnX_record_list_destroy h (records (st w)));
  on_st (fun s => st_records list (record_count s) s).

(** [tnX_stream_host]: [true] when a stream is returned, [false] for NULL.
    Calling the [accept] handler that was never set is undefined. *)
Definition tnX_stream_host (errno masterfd timeout type : Z) : W bool :=
  on_st (fun _ => let s := streamInit timeout in
                  if decide (type = TN5250_STREAM) then tn5250_telnet_stream_init s
                  else tn3270_telnet_stream_init s);;
  w ← get_st;
  if accept_set (st w) then
    ret ← telnet_stream_accept errno masterfd;
    if decide (ret = 0) then mret true else tnX_stream_destroy;; mret false
  else undef.

(** The next complete record, with its cursor on the first data byte. *)
Definition tnX_stream_get_record : W ptr :=
  w ← get_st;
  let s := st w in
  tnX_assert (bool_decide (1 <= record_count s));;
  tnX_assert (bool_decide (records s <> None));;
  record ← of_opt (records s);
  list ← on_hp (fun h => tnX_record_list_remove h (records s) record);
  on_st (st_records list (record_count s - 1));;
  w ← get_st;
  r ← of_opt (rec_at (hp w) record);
  offset ←
    (if decide (streamtype s = TN5250_STREAM) then
       tnX_assert (bool_decide (10 <= tnX_record_length r));;
       b ← of_opt (tnX_buffer_at (rec_data r) 6);
       mret (6 + b)
     else mret 0);
  on_hp (fun h => h ← tnX_record_set_cur_pos h record offset; Some (tt, h));;
  mret record.
