(* ===== verification/TnxTelnet.v ===== *)
(** * The telnet codec: specification of [TnxStream] and refinement

    [decode] is the receiver as a machine on byte strings: what the bytes of
    one connection mean, with no buffers, pointers or fuel.  The stream code
    refines it ([handle_receive_refines]); the packet writer is its inverse on
    records. *)
From S2P Require Import Prelude TnxBuffer TnxRecord TnxConf TnxStream.

(** ** Escaping *)

Definition escape (bs : list Z) : list Z :=
  mjoin ((fun c => if decide (c = IAC) then [IAC; IAC] else [c]) <$> bs).

Lemma escape_cons c bs :
  escape (c :: bs) = (if decide (c = IAC) then [IAC; IAC] else [c]) ++ escape bs.
Proof. done. Qed.

Lemma escape_bytes bs : is_bytes bs -> is_bytes (escape bs).
Proof.
  induction 1 as [|c bs Hc Hbs IH]; [constructor|]. rewrite escape_cons.
  apply Forall_app_2; [|done]. unfold is_byte, IAC in *.
  case_decide; repeat constructor; lia.
Qed.

Lemma length_escape bs : (length (escape bs) <= 2 * length bs)%nat.
Proof.
  induction bs as [|c bs IH]; [done|]. rewrite escape_cons, length_app.
  case_decide; cbn; lia.
Qed.

(** The packet on the wire. *)
Definition packet (bs : list Z) : list Z := escape bs ++ [IAC; EOR].

Lemma escape_loop_rep cs : forall out bs0,
  is_bytes cs -> buf_rep out bs0 -> Z.of_nat (length bs0 + 2 * length cs) <= BUF_MAX ->
  exists out', escape_loop out cs = Some out' /\ buf_rep out' (bs0 ++ escape cs).
Proof.
  induction cs as [|c cs IH]; intros out bs0 Hcs Hout Hmax; cbn [escape_loop length] in *.
  - exists out. by rewrite app_nil_r.
  - inversion Hcs as [|? ? Hb Hcs']; subst.
    destruct (append_byte_rep out bs0 c Hout ltac:(lia)) as (out1 & -> & H1).
    rewrite u8_id in H1 by done. rewrite escape_cons. cbn [mbind option_bind].
    case_decide as Hc.
    + destruct (append_byte_rep out1 _ IAC H1) as (out2 & -> & H2).
      { rewrite length_app; cbn; lia. }
      cbn [mbind option_bind]. change (u8 IAC) with IAC in H2. subst c. rewrite <- app_assoc in H2.
      destruct (IH out2 _ ltac:(done) H2) as (out' & -> & H').
      { rewrite !length_app. cbn. lia. }
      exists out'. by rewrite <- app_assoc in H'.
    + cbn [mbind option_bind]. destruct (IH out1 _ ltac:(done) H1) as (out' & -> & H').
      { rewrite !length_app. cbn. lia. }
      exists out'. by rewrite <- app_assoc in H'.
Qed.

(** ** The write loop *)

Definition only_tx (w w' : world) : Prop :=
  hp w' = hp w /\ st w' = st w /\ rx (sk w') = rx (sk w).

Lemma only_tx_refl w : only_tx w w.
Proof. done. Qed.

Lemma only_tx_trans w1 w2 w3 : only_tx w1 w2 -> only_tx w2 w3 -> only_tx w1 w3.
Proof. unfold only_tx. intuition congruence. Qed.

Lemma send_spec d w :
  exists r w', send d w = Ret r w' /\ only_tx w w' /\ sel_w (sk w') = sel_w (sk w) /\
    tx_ret (sk w') = tail (tx_ret (sk w)) /\ r <= Z.of_nat (length d) /\
    tx (sk w') = tx (sk w) ++ take (Z.to_nat r) d /\
    (tx_ret (sk w) = [] -> r = Z.of_nat (length d)).
Proof.
  unfold send, mbind, M_bind, get_st. destruct (tx_ret (sk w)) as [|r rs] eqn:E; cbn.
  - eexists _, _. split; [done|]. split_and!; try done; cbn.
    by rewrite Nat2Z.id, take_ge by lia.
  - case_decide; cbn; (eexists _, _; split; [done|]; split_and!; try done; cbn).
    + lia.
    + replace (Z.to_nat r) with 0%nat by lia. by rewrite take_0, app_nil_r.
    + lia.
    + by rewrite Nat2Z.id.
Qed.

Lemma select_w_spec w :
  exists e w', select_w w = Ret e w' /\ only_tx w w' /\ tx_ret (sk w') = tx_ret (sk w) /\
    tx (sk w') = tx (sk w) /\ sel_w (sk w') = tail (sel_w (sk w)) /\
    (sel_w (sk w) = [] -> e = SelReady).
Proof.
  unfold select_w, mbind, M_bind, get_st.
  destruct (sel_w (sk w)) as [|e es] eqn:E; cbn; eexists _, _; split; try done.
Qed.

Definition write_post (w : world) (data : list Z) (o : outcome world unit) : Prop :=
  match o with
  | Ret _ w' => tx (sk w') = tx (sk w) ++ data /\ only_tx w w'
  | Exit c w' => c = 5 /\ exists k, tx (sk w') = tx (sk w) ++ take k data
  | _ => False
  end.

Lemma write_post_step w w' data k o :
  tx (sk w') = tx (sk w) ++ take k data -> only_tx w w' ->
  write_post w' (drop k data) o -> write_post w data o.
Proof.
  intros Htx Ho. destruct o as [[] w''|c w''|w''|w''|w'']; cbn; try done.
  - intros [H1 H2]. split; [|by eapply only_tx_trans].
    by rewrite H1, Htx, <- app_assoc, take_drop.
  - intros [-> [j Hj]]. split; [done|]. exists (k + j)%nat. rewrite Hj, Htx, <- app_assoc. f_equal.
    rewrite <- (take_drop k (take (k + j) data)). rewrite take_take, Nat.min_l by lia.
    by rewrite skipn_firstn_comm, Nat.add_comm, Nat.add_sub.
Qed.

Lemma write_loop_spec fuel : forall data last w,
  (length (sel_w (sk w)) + length (tx_ret (sk w)) < fuel)%nat ->
  write_post w data (write_loop fuel data last w).
Proof.
  induction fuel as [|fuel IH]; intros data last w Hf; [lia|]. cbn [write_loop].
  destruct (select_w_spec w) as (e & w1 & E & Ho & Hret & Htx & Hsel & Hnil).
  rewrite (M_bind_Ret _ _ _ _ _ E). clear E.
  assert (write_post w data (Exit 5 w1)) as Hexit1.
  { cbn. split; [done|]. exists 0%nat. by rewrite take_0, app_nil_r. }
  assert (forall last', write_post w data
            ((if bool_decide (data <> [] /\ (0 <= 0 \/ last' = EAGAIN))
              then write_loop fuel data last' else mret tt) w1) \/ sel_w (sk w) = []) as Hagain.
  { intros last'. destruct (sel_w (sk w)) as [|e' es] eqn:Esel; [by right|left].
    eapply (write_post_step w w1 data 0); [by rewrite take_0, app_nil_r|done|].
    rewrite drop_0. case_bool_decide as Hd.
    - apply IH. rewrite Hsel, Hret. cbn in *. lia.
    - assert (data = []) as -> by (destruct data; [done|]; exfalso; apply Hd; split; [done|lia]).
      cbn. by rewrite app_nil_r. }
  destruct e as [| |errno].
  - destruct (send_spec data w1) as (r & w2 & E & Ho2 & Hsel2 & Hret2 & Hr & Htx2 & Hfull).
    cbv beta iota. rewrite M_bind_assoc, (M_bind_Ret _ _ _ _ _ E). clear E. cbv beta.
    assert (only_tx w w2) as Ho12 by (by eapply only_tx_trans).
    rewrite Htx in Htx2.
    destruct (decide (r < 0)) as [Hneg|Hpos]; [destruct (decide (- r = EAGAIN)) as [Hag|Hag]|];
      rewrite ?M_ret_bind; cbv beta iota.
    + eapply (write_post_step w w2 data 0); [|done|rewrite drop_0].
      { replace (Z.to_nat r) with 0%nat in Htx2 by lia. done. }
      case_bool_decide as Hd.
      * apply IH. rewrite Hsel2, Hsel, Hret2, Hret.
        destruct (tx_ret (sk w)) as [|x xs]; [|destruct (sel_w (sk w)); cbn in *; lia].
        rewrite Hret in Hfull. specialize (Hfull eq_refl). lia.
      * assert (data = []) as -> by (destruct data; [done|]; exfalso; apply Hd; split; [done|tauto]).
        cbn. by rewrite app_nil_r.
    + split; [done|]. exists 0%nat. replace (Z.to_nat r) with 0%nat in Htx2 by lia. done.
    + eapply (write_post_step w w2 data (Z.to_nat r)); [done|done|].
      case_bool_decide as Hd.
      * apply IH. rewrite Hsel2, Hsel, Hret2, Hret.
        destruct (tx_ret (sk w)) as [|x xs]; [|destruct (sel_w (sk w)); cbn in *; lia].
        rewrite Hret in Hfull. specialize (Hfull eq_refl). destruct Hd as [Hd _].
        exfalso. apply Hd. apply drop_ge. lia.
      * assert (drop (Z.to_nat r) data = []) as ->.
        { destruct (drop _ data); [done|]. exfalso. apply Hd. split; [done|lia]. }
        cbn. by rewrite app_nil_r.
  - destruct (Hagain last) as [H|H]; [exact H|]. by apply Hnil in H.
  - destruct (Hagain errno) as [H|H]; [|by apply Hnil in H].
    destruct (bool_decide (errno = EINTR \/ errno = EAGAIN)); [exact H|exact Hexit1].
Qed.

(** ** The receiver as a machine *)

Inductive tstate : Type :=
| TData
| TIac
| TVerb (v : Z)
| TSb
| TSbIac.

(** The state of a connection: where the parser is, the subnegotiation and the
    record being collected, the complete records, the configuration, and the
    bytes sent back. *)
Record conn : Type := MkConn {
  t : tstate;
  sb : list Z;
  cur : option (list Z);
  recs : list (list Z);
  conf : option tnXconfig;
  out : list Z
}.

Definition with_t x (c : conn) := MkConn x (sb c) (cur c) (recs c) (conf c) (out c).
Definition with_sb x (c : conn) := MkConn (t c) x (cur c) (recs c) (conf c) (out c).

(** A byte for the current record; the byte [231] is what the code stores for
    an end of record met with no record open. *)
Definition deliver (b : Z) (c : conn) : conn :=
  MkConn TData (sb c) (Some (default [] (cur c) ++ [b])) (recs c) (conf c) (out c).

Definition end_record (c : conn) : conn :=
  match cur c with
  | Some bs => MkConn TData (sb c) None (recs c ++ [bs]) (conf c) (out c)
  | None => deliver (u8 (- END_OF_RECORD)) c
  end.

(** What a host answers to an option. *)
Definition host_reply (verb what : Z) : list Z :=
  if decide (verb = WILL) then
    if decide (what = NEW_ENVIRON) then SB_Str_NewEnv
    else if decide (what = TERMINAL_TYPE) then SB_Str_TermType
    else if decide (what = END_OF_RECORD) then [IAC; WILL; what]
    else if decide (what = TRANSMIT_BINARY) then [IAC; WILL; what]
    else []
  else [].

(** The effect of a complete subnegotiation: TERMINAL-TYPE IS sets TERM. *)
Definition end_sb (s : list Z) (c : option tnXconfig) : option tnXconfig :=
  match s with
  | ty :: _ =>
      if decide (ty = TERMINAL_TYPE)
      then Some (conf_put (str "env.TERM") (c_str (take_until_iac (drop 2 s) ++ [0]))
                          (default tnX_config_new c))
      else c
  | [] => c
  end.

Definition is_verb (b : Z) : bool := bool_decide (b = DO \/ b = DONT \/ b = WILL \/ b = WONT).

Definition step (c : conn) (b : Z) : conn :=
  match t c with
  | TData => if decide (b = IAC) then with_t TIac c else deliver b c
  | TIac =>
      if decide (b = IAC) then deliver IAC c
      else if is_verb b then with_t (TVerb b) c
      else if decide (b = SB) then with_t TSb (with_sb [] c)
      else if decide (b = EOR) then end_record c
      else with_t TData c
  | TVerb v => MkConn TData (sb c) (cur c) (recs c) (conf c) (out c ++ host_reply v b)
  | TSb => if decide (b = IAC) then with_t TSbIac c else with_sb (sb c ++ [b]) c
  | TSbIac =>
      if decide (b = IAC) then with_sb (sb c ++ [IAC]) c
      else if decide (b = SE)
           then MkConn TData [] (cur c) (recs c) (end_sb (sb c) (conf c)) (out c)
           else with_t TSb c
  end.

Definition decode (c : conn) (bs : list Z) : conn := foldl step c bs.

(** A bound on the buffers the machine keeps. *)
Definition conn_size (c : conn) : nat := (length (sb c) + length (default [] (cur c)))%nat.

Lemma conn_size_step c b : (conn_size (step c b) <= S (conn_size c))%nat.
Proof.
  unfold conn_size, step, end_record, deliver, with_t, with_sb, end_sb.
  destruct c as [[] s [bs|] ? ? ?]; cbn; repeat (case_decide || case_match); cbn;
    rewrite ?length_app; cbn; lia.
Qed.

(** ** The relation between a stream and the machine *)

Definition heap_fresh (h : rheap) : Prop :=
  oom h = false /\ forall p, is_Some (cells h !! p) -> (p < brk h)%positive.

Definition state_rel (x : Z) (verb : option Z) (s : tstate) : Prop :=
  match s with
  | TData => x = STATE_DATA \/ x = STATE_NO_DATA
  | TIac => x = STATE_HAVE_IAC
  | TVerb v => x = STATE_HAVE_VERB /\ verb = Some v
  | TSb => x = STATE_HAVE_SB
  | TSbIac => x = STATE_HAVE_SB_IAC
  end.

(** [verb] is the local of the [telnet_stream_get_byte] call in progress. *)
Record rel (w : world) (verb : option Z) (c : conn) : Prop := MkRel {
  rel_fresh : heap_fresh (hp w);
  rel_state : state_rel (state (st w)) verb (t c);
  rel_host : Z.land (status (st w)) HOST <> 0;
  rel_sb : buf_rep (sb_buf (st w)) (sb c);
  rel_recs : exists l, rec_queue (hp w) (records (st w)) l (recs c) /\
               record_count (st w) = Z.of_nat (length (recs c)) /\
               match current_record (st w), cur c with
               | None, None => True
               | Some p, Some bs => rec_holds (hp w) p bs /\ p ∉ l
               | _, _ => False
               end;
  rel_conf : config (st w) = conf c;
  rel_out : tx (sk w) = out c;
  rel_send : tx_ret (sk w) = [];
  rel_type : streamtype (st w) = TN3270_STREAM
}.

(** Replacing the unread input and nothing else. *)
Definition set_rx (evs : list rx_event) (w : world) : world :=
  set_sk (MkSock evs (tx (sk w)) (tx_ret (sk w)) (sel_w (sk w))) w.

Lemma rel_set_rx evs w verb c : rel w verb c -> rel (set_rx evs w) verb c.
Proof. intros []. by constructor. Qed.

(** Outside a negotiation the local [verb] does not matter. *)
Lemma rel_verb w verb verb' c :
  (forall v, t c <> TVerb v) -> rel w verb c -> rel w verb' c.
Proof.
  intros Ht [? Hs]. constructor; try done. destruct (t c); try done. by destruct (Ht v).
Qed.

Lemma rec_queue_frame h h' hd l bss :
  (forall a, a ∈ l -> cells h' !! a = cells h !! a) ->
  rec_queue h hd l bss -> rec_queue h' hd l bss.
Proof.
  intros Hf [(Hhd & Hnd & Hc) Hh]. split; [split; [done|split; [done|]]|].
  - destruct l as [|x l]; [done|]. eapply chain_frame; [| |exact Hc].
    + intros a Ha. change (In a (removelast ((x :: l) ++ [x]))) in Ha. rewrite in_removelast_snoc in Ha.
      unfold nxt. rewrite Hf; [done|]. by apply list_elem_of_In.
    + intros a Ha%list_elem_of_In. unfold prv. rewrite Hf; [done|].
      apply elem_of_app in Ha as [Ha|Ha]; set_solver.
  - eapply holds_frame; [|exact Hh]. intros p Hp%list_elem_of_In. by rewrite Hf.
Qed.

Lemma rec_queue_live h hd l bss a : rec_queue h hd l bss -> a ∈ l -> is_Some (cells h !! a).
Proof.
  intros [_ Hh] Ha. induction Hh as [|p bs l bss (r & Hr & _) Hh IH]; [set_solver|].
  apply elem_of_cons in Ha as [->|Ha]; [by exists r | by apply IH].
Qed.

(** Appending to a record outside the queue. *)
Lemma record_append_byte_spec h p bs b :
  rec_holds h p bs -> Z.of_nat (length bs) <= BUF_MAX ->
  exists h', tnX_record_append_byte h p b = Some h' /\ rec_holds h' p (bs ++ [u8 b]) /\
    brk h' = brk h /\ oom h' = oom h /\
    (forall a, a <> p -> cells h' !! a = cells h !! a) /\
    (forall a, is_Some (cells h' !! a) -> is_Some (cells h !! a)).
Proof.
  intros (r & Hr & Hb) Hmax. unfold tnX_record_append_byte, rec_at. rewrite Hr. cbn.
  destruct (append_byte_rep _ _ b Hb Hmax) as (buf & -> & Hb'). cbn.
  rewrite (rec_upd_Some _ _ _ _ Hr). eexists. split; [done|]. cbn. split_and!; try done.
  - exists (set_data buf r). split; [apply lookup_insert_eq|done].
  - intros a Ha. by apply lookup_insert_ne.
  - intros a. rewrite lookup_insert. case_decide; [|done]. subst. by exists r.
Qed.

(** ** One step *)

Lemma on_hp_Ret {A} (f : rheap -> option (A * rheap)) w a h :
  f (hp w) = Some (a, h) -> on_hp f w = Ret a (set_hp h w).
Proof. intros H. unfold on_hp, mbind, M_bind, get_st. by rewrite H. Qed.

(** A byte reaches the record being collected, a new one if there is none. *)
Lemma receive_one_byte w verb c b :
  rel w verb c -> state (st w) = STATE_DATA -> is_byte b ->
  Z.of_nat (conn_size c) <= BUF_MAX ->
  exists w', receive_one b w = Ret tt w' /\ rel w' None (deliver b c) /\ sk w' = sk w.
Proof.
  intros [[Ho Hf] Hs Hh Hsb (l & Hq & Hn & Hcur) Hconf Hout Hsend] Hst Hb Hmax.
  unfold conn_size in Hmax. unfold receive_one.
  rewrite (M_bind_Ret _ _ _ w w) by done.
  destruct (current_record (st w)) as [p|] eqn:Ec, (cur c) as [bs|] eqn:Ecur; try done; cbn in Hmax.
  - rewrite decide_False by (unfold is_byte, END_OF_RECORD in *; lia).
    destruct Hcur as [Hp Hpl].
    destruct (record_append_byte_spec (hp w) p bs (u8 b) Hp ltac:(lia))
      as (h' & E & Hp' & Hbrk & Hoom & Hother & Hlive).
    rewrite !u8_id in * by (try apply u8_byte; done).
    erewrite on_hp_Ret by (by rewrite E). eexists. split; [done|]. split; [|done].
    constructor; cbn; try done; try (by left).
    + split; [by rewrite Hoom|]. intros a Ha. rewrite Hbrk. auto.
    + exists l. rewrite Ec, Ecur. split; [|done].
      eapply rec_queue_frame; [|done]. intros a Ha. apply Hother. by intros ->.
  - unfold tnX_record_new. rewrite Ho. cbn.
    assert (cells (hp w) !! brk (hp w) = None) as Hnew.
    { apply eq_None_not_Some. intros H%Hf. lia. }
    set (h1 := MkHeap _ _ _).
    destruct (record_append_byte_spec h1 (brk (hp w)) [] (u8 b))
      as (h' & E & Hp' & Hbrk & Hoom & Hother & Hlive).
    { eexists. split; [apply lookup_insert_eq | apply buf_rep_init]. }
    { unfold BUF_MAX, INT_MAX. cbn. lia. }
    rewrite !u8_id in * by (try apply u8_byte; done).
    unfold put_hp, on_st, modify, mbind, M_bind. cbn.
    rewrite (on_hp_Ret _ _ tt h') by (cbn; by rewrite E). eexists. split; [done|]. split; [|done].
    constructor; cbn; try done; try (by left).
    + split; [by rewrite Hoom|]. intros a Ha%Hlive. rewrite Hbrk. cbn in *.
      rewrite lookup_insert in Ha. case_decide; [subst; lia|]. apply Hf in Ha. lia.
    + exists l. rewrite Ecur. split_and!; [|done|done|].
      * eapply rec_queue_frame; [|done]. intros a Ha.
        assert (a <> brk (hp w)).
        { intros ->. eapply rec_queue_live in Hq as Hl; [|done]. rewrite Hnew in Hl. by destruct Hl. }
        rewrite Hother by done. cbn. by rewrite lookup_insert_ne.
      * intros Hin. eapply rec_queue_live in Hin; [|done]. rewrite Hnew in Hin. by destruct Hin.
Qed.

(** An end of record closes the record, or starts one with the byte 231. *)
Lemma receive_one_eor w verb c :
  rel w verb c -> state (st w) = STATE_DATA -> Z.of_nat (conn_size c) <= BUF_MAX ->
  exists w', receive_one (- END_OF_RECORD) w = Ret tt w' /\ rel w' None (end_record c) /\
             sk w' = sk w.
Proof.
  intros Hrel Hst Hmax. unfold end_record. destruct (cur c) as [bs|] eqn:Ecur.
  - destruct Hrel as [[Ho Hf] Hs Hh Hsb (l & Hq & Hn & Hcur) Hconf Hout Hsend].
    rewrite Ecur in Hcur. unfold receive_one. rewrite (M_bind_Ret _ _ _ w w) by done.
    destruct (current_record (st w)) as [p|] eqn:Ec; [|done]. destruct Hcur as [Hp Hpl].
    rewrite decide_True by done.
    destruct (list_add_queue _ _ _ _ _ _ Hq Hp Hpl) as (hd' & h' & E & Hq' & (Hbrk & Hoom & Hd)).
    rewrite (M_bind_Ret _ _ _ _ _ (on_hp_Ret _ _ _ _ E)). eexists. split; [done|].
    split; [|done]. constructor; cbn; try done; try (by left).
    + split; [by rewrite Hoom|]. intros a [r Ha]. rewrite Hbrk. apply Hf.
      specialize (Hd a). rewrite Ha in Hd. destruct (cells (hp w) !! a); [by eexists|done].
    + exists (l ++ [p]). split_and!; [done| |done]. rewrite Hn, length_app. cbn. lia.
  - assert (receive_one (- END_OF_RECORD) w = receive_one (u8 (- END_OF_RECORD)) w) as ->.
    { unfold receive_one, mbind, M_bind, get_st.
      destruct Hrel as [_ _ _ _ (l & _ & _ & Hcur) _ _ _]. rewrite Ecur in Hcur.
      by destruct (current_record (st w)). }
    apply (receive_one_byte w verb); [done|done|apply u8_byte|done].
Qed.

Lemma send_all d w :
  tx_ret (sk w) = [] ->
  send d w = Ret (Z.of_nat (length d))
               (set_sk (MkSock (rx (sk w)) (tx (sk w) ++ d) [] (sel_w (sk w))) w).
Proof. intros H. unfold send, mbind, M_bind, get_st. by rewrite H. Qed.

(** The host answers as [host_reply] says, whatever the option. *)
Lemma host_verb_spec v b w :
  tx_ret (sk w) = [] ->
  exists n, 0 <= n /\
    telnet_stream_host_verb v b w =
    Ret n (set_sk (MkSock (rx (sk w)) (tx (sk w) ++ host_reply v b) [] (sel_w (sk w))) w).
Proof.
  intros H. unfold telnet_stream_host_verb, host_reply, sendWill.
  assert (set_sk (MkSock (rx (sk w)) (tx (sk w) ++ []) [] (sel_w (sk w))) w = w) as Hw.
  { rewrite app_nil_r. destruct w as [? ? []]. cbn in *. by rewrite H. }
  destruct (decide (v = DO)) as [->|Hdo].
  { rewrite (decide_False (P := DO = WILL)) by done. rewrite Hw. eexists.
    split; [|reflexivity]. unfold SEND_EOR, SEND_BINARY. repeat case_decide; lia. }
  destruct (decide (v = WILL)) as [->|Hw'];
    [|exists 0; split; [lia|]; by rewrite Hw].
  repeat case_decide; subst; try (exists 0; split; [lia|]; by rewrite Hw);
    rewrite M_bind_assoc, (M_bind_Ret _ _ _ _ _ (send_all _ _ H));
    (eexists; split; [|reflexivity]); unfold RECV_EOR, RECV_BINARY; cbn; case_decide; lia.
Qed.

Lemma take_until_iac_bytes l : is_bytes l -> is_bytes (take_until_iac l).
Proof. induction 1; cbn; [constructor|]. case_decide; by constructor. Qed.

Lemma take_until_iac_length l : (length (take_until_iac l) <= length l)%nat.
Proof. induction l; cbn; [lia|]. case_decide; cbn; lia. Qed.

(** [tnX_stream_setenv] on the stream's configuration. *)
Lemma setenv_spec n v w :
  exists w', tnX_stream_setenv n v w = Ret tt w' /\
    w' = set_st (st_config (Some (conf_put (str "env." ++ n) v
                              (default tnX_config_new (config (st w))))) (st w)) w.
Proof.
  unfold tnX_stream_setenv, mbind, M_bind, get_st.
  destruct (config (st w)) as [c|] eqn:E; cbn.
  - unfold on_config. rewrite E, config_set_str. eexists. split; [done|]. done.
  - unfold on_config. cbn. rewrite config_set_str. eexists. split; [done|]. done.
Qed.

Lemma host_sb_spec s w :
  is_bytes s -> Z.of_nat (length s) <= BUF_MAX ->
  exists w', telnet_stream_host_sb s w = Ret tt w' /\
    hp w' = hp w /\ sk w' = sk w /\
    st w' = st_config (end_sb s (config (st w))) (st w).
Proof.
  intros Hs Hmax. unfold telnet_stream_host_sb, end_sb.
  assert (st w = st_config (config (st w)) (st w)) as Hst by (by destruct (st w)).
  destruct s as [|ty s]; [by exists w|]. case_decide as Hty; [|by exists w].
  assert (length (take_until_iac (drop 2 (ty :: s))) <= length s)%nat as Hlen.
  { etrans; [apply take_until_iac_length|]. rewrite length_drop. cbn. lia. }
  assert (is_bytes (take_until_iac (drop 2 (ty :: s)))) as Hb
    by (by apply take_until_iac_bytes, Forall_drop).
  set (ti := take_until_iac (drop 2 (ty :: s))) in *. cbn [length] in Hmax.
  destruct (append_data_rep ti _ _ buf_rep_init) as (b1 & -> & H1); [cbn [length]; lia|].
  rewrite u8_fmap_id in H1 by done. rewrite of_opt_Some_bind. cbn [app] in H1.
  destruct (append_byte_rep b1 _ 0 H1) as (b2 & -> & H2); [lia|].
  rewrite of_opt_Some_bind, (buf_rep_buf_bytes _ _ H2).
  destruct (setenv_spec (str "TERM") (c_str (ti ++ [0])) w) as (w' & E & ->).
  change (u8 0) with 0. rewrite E. by eexists.
Qed.

(** The outcomes of the [switch] on a byte, as the machine sees them. *)
Inductive switch_ok (c : conn) (b : Z) (w' : world) : switch_result -> Prop :=
| sw_eor :
    step c b = end_record c -> state (st w') = STATE_DATA -> rel w' None (with_t TData c) ->
    switch_ok c b w' (SReturn (- END_OF_RECORD))
| sw_byte verb :
    step c b = deliver b c -> state (st w') = STATE_DATA -> rel w' None (with_t TData c) ->
    switch_ok c b w' (SNext b verb)
| sw_next temp verb :
    state (st w') <> STATE_DATA -> rel w' verb (step c b) ->
    switch_ok c b w' (SNext temp verb).

(** Changing the parser state (and the parsed state with it). *)
Lemma rel_set_state w verb c x verb' ts :
  rel w verb c -> state_rel x verb' ts -> rel (set_st (st_state x (st w)) w) verb' (with_t ts c).
Proof. intros [] Hs. by constructor. Qed.

Lemma rel_set_sb w verb c buf s :
  rel w verb c -> buf_rep buf s -> rel (set_st (st_sb_buf buf (st w)) w) verb (with_sb s c).
Proof. intros [] Hs. by constructor. Qed.

Lemma sb_append_spec w verb c b :
  rel w verb c -> is_byte b -> Z.of_nat (conn_size c) <= BUF_MAX ->
  exists buf, sb_append b w = Ret tt (set_st (st_sb_buf buf (st w)) w) /\
              buf_rep buf (sb c ++ [b]).
Proof.
  intros Hrel Hb Hmax. unfold conn_size in Hmax.
  destruct (append_byte_rep _ _ b (rel_sb _ _ _ Hrel) ltac:(lia)) as (buf & E & H).
  rewrite u8_id in H by done. exists buf. split; [|done].
  unfold sb_append, mbind, M_bind, get_st. by rewrite E.
Qed.

Lemma set_state_Ret x w : set_state x w = Ret tt (set_st (st_state x (st w)) w).
Proof. done. Qed.

(** Solve the equation of a straight-line branch, then pick the outcome. *)
Ltac branch := eexists _, _; split; [reflexivity|]; split; [reflexivity|].

Lemma switch_data w verb c b :
  rel w verb c -> t c = TData -> state (st w) = STATE_DATA ->
  exists r w', get_byte_switch verb b w = Ret r w' /\ rx (sk w') = rx (sk w) /\ switch_ok c b w' r.
Proof.
  intros Hrel Ht Hst. unfold get_byte_switch. rewrite (M_bind_Ret _ _ _ w w) by done.
  cbv zeta. rewrite decide_True by done. destruct (decide (b = IAC)) as [->|Hb].
  - branch. apply sw_next; [done|]. unfold step. rewrite Ht, decide_True by done.
    by apply rel_set_state with verb.
  - branch. apply sw_byte; [unfold step; by rewrite Ht, decide_False|done|].
    destruct Hrel. constructor; try done. by left.
Qed.

Lemma switch_iac w verb c b :
  rel w verb c -> t c = TIac ->
  exists r w', get_byte_switch verb b w = Ret r w' /\ rx (sk w') = rx (sk w) /\ switch_ok c b w' r.
Proof.
  intros Hrel Ht. pose proof (rel_state _ _ _ Hrel) as Hst. rewrite Ht in Hst. cbn in Hst.
  unfold get_byte_switch. rewrite (M_bind_Ret _ _ _ w w) by done. cbv zeta.
  rewrite (decide_False (P := state _ = STATE_DATA)) by (by rewrite Hst).
  rewrite (decide_True (P := state _ = STATE_HAVE_IAC)) by done.
  destruct (decide (b = IAC)) as [->|Hb]; [|destruct (is_verb b) eqn:Ev].
  - branch. apply sw_byte; [unfold step; by rewrite Ht|done|].
    apply rel_set_state with verb; [done|by left].
  - unfold is_verb in Ev. rewrite Ev. branch. apply sw_next; [done|].
    unfold step. rewrite Ht, decide_False by done. unfold is_verb. rewrite Ev.
    by apply rel_set_state with verb.
  - assert (Es : step c b = if decide (b = SB) then with_t TSb (with_sb [] c)
                            else if decide (b = EOR) then end_record c else with_t TData c).
    { unfold step. by rewrite Ht, decide_False, Ev by done. }
    unfold is_verb in Ev. rewrite Ev. destruct (decide (b = SB)); [|destruct (decide (b = EOR))].
    + branch. apply sw_next; [done|]. rewrite Es.
      apply (rel_set_sb (set_st (st_state STATE_HAVE_SB (st w)) w) verb (with_t TSb c));
        [|apply buf_rep_init]. by apply rel_set_state with verb.
    + branch. apply sw_eor; [done|done|]. apply rel_set_state with verb; [done|by left].
    + branch. apply sw_next; [done|]. rewrite Es.
      apply rel_set_state with verb; [done|by right].
Qed.

Lemma switch_verb w verb c b v :
  rel w verb c -> t c = TVerb v -> is_byte b ->
  exists r w', get_byte_switch verb b w = Ret r w' /\ rx (sk w') = rx (sk w) /\ switch_ok c b w' r.
Proof.
  intros Hrel Ht Hb. pose proof (rel_state _ _ _ Hrel) as Hst. rewrite Ht in Hst.
  destruct Hst as [Hst ->]. unfold get_byte_switch. rewrite (M_bind_Ret _ _ _ w w) by done.
  cbv zeta. rewrite !(decide_False (P := state _ = _)) by (by rewrite Hst).
  rewrite (decide_True (P := state _ = STATE_HAVE_VERB)) by done.
  rewrite bool_decide_true by apply (rel_host _ _ _ Hrel). rewrite of_opt_Some_bind, u8_id by done.
  destruct (host_verb_spec v b w (rel_send _ _ _ Hrel)) as (n & Hn & E).
  rewrite (M_bind_Ret _ _ _ _ _ E), decide_False by lia.
  branch. apply sw_next; [done|]. unfold step. rewrite Ht.
  destruct Hrel as [? ? ? ? ? ? <- ?]. constructor; try done. by right.
Qed.

Lemma switch_sb w verb c b :
  rel w verb c -> t c = TSb -> is_byte b -> Z.of_nat (conn_size c) <= BUF_MAX ->
  exists r w', get_byte_switch verb b w = Ret r w' /\ rx (sk w') = rx (sk w) /\ switch_ok c b w' r.
Proof.
  intros Hrel Ht Hb Hmax. pose proof (rel_state _ _ _ Hrel) as Hst. rewrite Ht in Hst. cbn in Hst.
  unfold get_byte_switch. rewrite (M_bind_Ret _ _ _ w w) by done. cbv zeta.
  rewrite !(decide_False (P := state _ = _)) by (by rewrite Hst).
  rewrite (decide_True (P := state _ = STATE_HAVE_SB)) by done.
  destruct (decide (b = IAC)) as [->|Hi].
  - branch. apply sw_next; [done|]. unfold step. rewrite Ht, decide_True by done.
    by apply rel_set_state with verb.
  - rewrite u8_id by done. destruct (sb_append_spec w verb c b Hrel Hb Hmax) as (buf & E & Hbuf).
    rewrite (M_bind_Ret _ _ _ _ _ E). branch. apply sw_next; [by cbn; rewrite Hst|].
    unfold step. rewrite Ht, decide_False by done. by apply rel_set_sb.
Qed.

Lemma switch_sb_iac w verb c b :
  rel w verb c -> t c = TSbIac -> is_byte b -> Z.of_nat (conn_size c) <= BUF_MAX ->
  exists r w', get_byte_switch verb b w = Ret r w' /\ rx (sk w') = rx (sk w) /\ switch_ok c b w' r.
Proof.
  intros Hrel Ht Hb Hmax. pose proof (rel_state _ _ _ Hrel) as Hst. rewrite Ht in Hst. cbn in Hst.
  unfold get_byte_switch. rewrite (M_bind_Ret _ _ _ w w) by done. cbv zeta.
  rewrite !(decide_False (P := state _ = _)) by (by rewrite Hst).
  rewrite (decide_True (P := state _ = STATE_HAVE_SB_IAC)) by done.
  rewrite bool_decide_true by apply (rel_host _ _ _ Hrel).
  destruct (decide (b = IAC)) as [->|Hi]; [|destruct (decide (b = SE)) as [->|Hse]].
  - destruct (sb_append_spec w verb c IAC Hrel Hb Hmax) as (buf & E & Hbuf).
    rewrite (M_bind_Ret _ _ _ _ _ E). branch. apply sw_next; [by cbn; rewrite Hst|].
    unfold step. rewrite Ht, decide_True by done. by apply rel_set_sb.
  - pose proof (rel_sb _ _ _ Hrel) as Hsb. rewrite (buf_rep_buf_bytes _ _ Hsb).
    destruct (host_sb_spec (sb c) w) as (w1 & E & Hhp & Hsk & Hst1).
    { by eapply buf_rep_bytes. } { unfold conn_size in Hmax. lia. }
    rewrite (M_bind_Ret _ _ _ _ _ E). eexists _, _. split; [reflexivity|].
    split; [cbn; by rewrite Hsk|]. apply sw_next; [done|].
    unfold step. rewrite Ht, decide_False, decide_True by done. destruct Hrel as [? ? ? ? ? Hc ? ?].
    constructor; cbn; rewrite ?Hhp, ?Hsk, ?Hst1; cbn; try done; [by right|by rewrite Hc].
  - branch. apply sw_next; [done|]. unfold step. rewrite Ht, !decide_False by done.
    by apply rel_set_state with verb.
Qed.

Lemma switch_spec w verb c b :
  rel w verb c -> state (st w) <> STATE_NO_DATA -> is_byte b ->
  Z.of_nat (conn_size c) <= BUF_MAX ->
  exists r w', get_byte_switch verb b w = Ret r w' /\ rx (sk w') = rx (sk w) /\ switch_ok c b w' r.
Proof.
  intros Hrel Hst Hb Hmax. destruct (t c) eqn:Ht;
    eauto using switch_iac, switch_verb, switch_sb, switch_sb_iac.
  eapply switch_data; try done. pose proof (rel_state _ _ _ Hrel) as H. rewrite Ht in H.
  by destruct H.
Qed.

(** ** The receive loop *)

Definition rx_bytes (bs : list Z) : list rx_event := RxByte <$> bs.

(** The rest of the receive loop from the middle of a [telnet_stream_get_byte]
    call whose local [verb] has the given value. *)
Definition resume (f1 f2 : nat) (verb : option Z) : W Z :=
  c ← get_byte_loop f2 verb;
  if bool_decide (c <> -1 /\ c <> -2) then receive_one c;; handle_receive_loop f1
  else mret (if decide (c <> -2) then 1 else 0).

Lemma handle_receive_loop_S f1 w :
  handle_receive_loop (S f1) w = resume f1 (rx_fuel w) None w.
Proof. done. Qed.

(** [NO_DATA] is [DATA] before a byte is read. *)
Definition norm (w : world) : world :=
  if decide (state (st w) = STATE_NO_DATA) then set_st (st_state STATE_DATA (st w)) w else w.

Lemma norm_rel w verb c : rel w verb c -> rel (norm w) verb c.
Proof.
  unfold norm. intros Hrel. case_decide as Hs; [|done].
  destruct Hrel as [? Hst]. constructor; try done. cbn. rewrite Hs in Hst.
  destruct (t c); cbn in *; try done; [by left | by destruct Hst].
Qed.

Lemma norm_state w : state (st (norm w)) <> STATE_NO_DATA.
Proof. unfold norm. by case_decide. Qed.

Lemma norm_sk w : sk (norm w) = sk w.
Proof. unfold norm. by case_decide. Qed.

Lemma get_byte_loop_nil f verb w :
  rx (sk w) = [] -> get_byte_loop (S f) verb w = Ret (-1) (norm w).
Proof.
  intros H. cbn [get_byte_loop]. rewrite (M_bind_Ret _ _ _ w w) by done.
  rewrite (M_bind_Ret _ _ _ tt (norm w)) by (unfold norm; by case_decide).
  unfold telnet_stream_get_next, recv_event. rewrite M_bind_assoc.
  unfold mbind, M_bind, get_st. by rewrite norm_sk, H.
Qed.

Lemma get_byte_loop_cons f verb w b evs :
  rx (sk w) = RxByte b :: evs -> is_byte b ->
  get_byte_loop (S f) verb w =
  (r ← get_byte_switch verb b;
   match r with
   | SReturn v => mret v
   | SNext temp verb =>
       w ← get_st;
       if decide (state (st w) = STATE_DATA) then mret temp else get_byte_loop f verb
   end) (set_rx evs (norm w)).
Proof.
  intros H Hb. cbn [get_byte_loop]. rewrite (M_bind_Ret _ _ _ w w) by done.
  rewrite (M_bind_Ret _ _ _ tt (norm w)) by (unfold norm; by case_decide).
  rewrite (M_bind_Ret _ _ _ b (set_rx evs (norm w))).
  - rewrite decide_False by (unfold is_byte in Hb; lia). done.
  - unfold telnet_stream_get_next, recv_event, mbind, M_bind, get_st.
    rewrite norm_sk, H. cbn. unfold set_rx. by rewrite u8_id, norm_sk.
Qed.

Lemma is_byte_not_neg b : is_byte b -> b <> -1 /\ b <> -2.
Proof. unfold is_byte. lia. Qed.

Lemma resume_refines bs : forall f1 f2 verb w c,
  rel w verb c -> rx (sk w) = rx_bytes bs -> is_bytes bs ->
  Z.of_nat (conn_size c + length bs) <= BUF_MAX ->
  (length bs <= f1)%nat -> (length bs < f2)%nat ->
  exists w' verb', resume f1 f2 verb w = Ret 1 w' /\ rel w' verb' (decode c bs) /\
    rx (sk w') = [].
Proof.
  induction bs as [|b bs IH]; intros f1 f2 verb w c Hrel Hrx Hbs Hmax Hf1 Hf2;
    (destruct f2 as [|f2]; [lia|]).
  - unfold resume. rewrite (M_bind_Ret _ _ _ _ _ (get_byte_loop_nil f2 verb w Hrx)).
    exists (norm w), verb. split; [reflexivity|]. split; [by apply norm_rel | by rewrite norm_sk].
  - inversion Hbs as [|? ? Hb Hbs']; subst. cbn [length] in *.
    pose proof (conn_size_step c b) as Hsz. change (decode c (b :: bs)) with (decode (step c b) bs).
    assert (Hrel2 := rel_set_rx (rx_bytes bs) _ _ _ (norm_rel _ _ _ Hrel)).
    unfold resume. unfold mbind at 1, M_bind at 1.
    rewrite (get_byte_loop_cons f2 verb w b (rx_bytes bs) Hrx Hb).
    destruct (switch_spec _ _ _ b Hrel2 (norm_state w) Hb ltac:(lia)) as (r & w2 & E & Hrx2 & Hsw).
    rewrite (M_bind_Ret _ _ _ _ _ E). clear E.
    change (rx (sk (set_rx (rx_bytes bs) (norm w)))) with (rx_bytes bs) in Hrx2.
    assert (forall w3, rel w3 None (step c b) -> sk w3 = sk w2 ->
      exists w' verb', handle_receive_loop f1 w3 = Ret 1 w' /\
        rel w' verb' (decode (step c b) bs) /\ rx (sk w') = []) as Hcont.
    { intros w3 Hr3 Hs3. destruct f1 as [|f1]; [lia|]. rewrite handle_receive_loop_S.
      apply IH; try done; try lia; [by rewrite Hs3|].
      unfold rx_fuel. rewrite Hs3, Hrx2. unfold rx_bytes. rewrite length_fmap. lia. }
    inversion Hsw as [Hstep Hst Hr Eq | verb' Hstep Hst Hr Eq | temp verb' Hst Hr Eq]; subst r.
    + destruct (receive_one_eor w2 None _ Hr Hst) as (w3 & E3 & Hr3 & Hs3).
      { unfold conn_size in *. cbn. lia. }
      change ((mret (- END_OF_RECORD) : W Z) w2) with (Ret (- END_OF_RECORD) w2 : outcome world Z).
      cbv beta iota. rewrite bool_decide_true by (unfold END_OF_RECORD; lia).
      rewrite (M_bind_Ret _ _ _ _ _ E3). apply Hcont; [by rewrite Hstep | done].
    + rewrite (M_bind_Ret _ _ _ w2 w2) by done. rewrite decide_True by done.
      destruct (receive_one_byte w2 None _ b Hr Hst Hb) as (w3 & E3 & Hr3 & Hs3).
      { unfold conn_size in *. cbn. lia. }
      change ((mret b : W Z) w2) with (Ret b w2 : outcome world Z). cbv beta iota.
      rewrite bool_decide_true by (by apply is_byte_not_neg).
      rewrite (M_bind_Ret _ _ _ _ _ E3). apply Hcont; [by rewrite Hstep | done].
    + rewrite (M_bind_Ret _ _ _ w2 w2) by done. rewrite decide_False by done.
      change (exists w' verb'0, resume f1 f2 verb' w2 = Ret 1 w' /\
        rel w' verb'0 (decode (step c b) bs) /\ rx (sk w') = []).
      apply IH; try done; lia.
Qed.

(** ** What the machine does on packets *)

Lemma decode_app c bs1 bs2 : decode c (bs1 ++ bs2) = decode (decode c bs1) bs2.
Proof. apply foldl_app. Qed.

Lemma decode_escape bs : forall c,
  t c = TData ->
  decode c (escape bs) =
  MkConn TData (sb c) (match bs with [] => cur c | _ => Some (default [] (cur c) ++ bs) end)
    (recs c) (conf c) (out c).
Proof.
  induction bs as [|b bs IH]; intros c Ht.
  - destruct c. cbn in *. by subst.
  - rewrite escape_cons, decode_app.
    assert (decode c (if decide (b = IAC) then [IAC; IAC] else [b]) = deliver b c) as ->.
    { destruct c as [tt ? ? ? ? ?]. cbn in Ht. subst tt.
      destruct (decide (b = IAC)) as [->|Hb]; [done|]. cbn. by rewrite decide_False. }
    rewrite IH by done. destruct bs; cbn; [done|]. by rewrite <- app_assoc.
Qed.

Lemma decode_packet bs c :
  t c = TData -> bs <> [] -> cur c = None ->
  decode c (packet bs) = MkConn TData (sb c) None (recs c ++ [bs]) (conf c) (out c).
Proof.
  intros Ht Hbs Hcur. unfold packet. rewrite decode_app, decode_escape by done.
  rewrite Hcur. by destruct bs.
Qed.

Lemma decode_packets bss : forall c,
  t c = TData -> Forall (fun bs => bs <> []) bss -> cur c = None ->
  decode c (mjoin (packet <$> bss)) = MkConn TData (sb c) None (recs c ++ bss) (conf c) (out c).
Proof.
  induction bss as [|bs bss IH]; intros c Ht Hne Hcur; cbn [fmap list_fmap mjoin list_join].
  - destruct c. cbn in *. subst. by rewrite app_nil_r.
  - inversion Hne; subst. rewrite decode_app, decode_packet, IH by done. cbn.
    by rewrite <- app_assoc.
Qed.

(** A freshly accepted host stream. *)
Definition host_stream : tnXstream :=
  st_state STATE_DATA (st_status HOST (tn3270_telnet_stream_init (streamInit 0))).

Definition host_world (evs : list rx_event) : world :=
  MkWorld (MkHeap ∅ 1 false) host_stream (MkSock evs [] [] []).

Definition conn0 : conn := MkConn TData [] None [] None [].

Lemma host_world_rel evs : rel (host_world evs) None conn0.
Proof.
  constructor; [| by left | done | apply buf_rep_init | | done | done | done | done].
  { split; [done|]. intros p [r Hr]. done. }
  exists []. split; [apply rec_queue_nil|done].
Qed.

(** The receive loop from the start of a call. *)
Lemma handle_receive_decodes w c bs :
  rel w None c -> rx (sk w) = rx_bytes bs -> is_bytes bs ->
  Z.of_nat (conn_size c + length bs) <= BUF_MAX ->
  exists w' verb', telnet_stream_handle_receive w = Ret 1 w' /\
    rel w' verb' (decode c bs) /\ rx (sk w') = [].
Proof.
  intros Hrel Hrx Hbs Hmax. unfold telnet_stream_handle_receive.
  rewrite (M_bind_Ret _ _ _ w w) by done. unfold rx_fuel at 1. rewrite handle_receive_loop_S.
  unfold rx_fuel. rewrite Hrx. unfold rx_bytes. rewrite length_fmap.
  apply resume_refines; try done; lia.
Qed.

(** Taking the oldest record off a stream. *)
Lemma get_record_head w verb c bs rest :
  rel w verb c -> recs c = bs :: rest ->
  exists p w', tnX_stream_get_record w = Ret p w' /\
    (exists r, cells (hp w') !! p = Some r /\ buf_rep (rec_data r) bs /\ rec_cur_pos r = 0) /\
    rel w' verb (MkConn (t c) (sb c) (cur c) rest (conf c) (out c)).
Proof.
  intros [[Ho Hf] Hs Hh Hsb (l & Hq & Hn & Hcur) Hconf Hout Hsend Htype] Hrecs.
  rewrite Hrecs in *. pose proof Hq as [(Hhd & Hnd & _) Hhold].
  destruct l as [|p l]; [by apply Forall2_nil_inv_l in Hhold|]. cbn in Hhd.
  rewrite Hhd in Hq. destruct (list_remove_head_queue _ _ _ _ _ Hq)
    as (h' & E & Hq' & (r & Hr & Hb) & (Hbrk & Hoom & Hd)).
  unfold tnX_stream_get_record. rewrite (M_bind_Ret _ _ _ w w) by done. cbv zeta.
  rewrite !bool_decide_true by (rewrite ?Hn, ?Hhd; cbn; done || lia).
  rewrite (M_bind_Ret _ _ _ tt w), (M_bind_Ret _ _ _ tt w) by done.
  rewrite Hhd, of_opt_Some_bind, (M_bind_Ret _ _ _ _ _ (on_hp_Ret _ _ _ _ E)).
  rewrite Hn. erewrite (M_bind_Ret (on_st _)) by reflexivity. erewrite (M_bind_Ret get_st) by reflexivity.
  cbv beta. change (rec_at _ p) with (cells h' !! p). rewrite Hr, of_opt_Some_bind.
  rewrite (decide_False (P := streamtype _ = _)) by (cbn; rewrite Htype; done). rewrite M_ret_bind. cbv beta.
  match goal with |- context [on_hp ?f] => erewrite (M_bind_Ret (on_hp f)) end; swap 1 2.
  { apply on_hp_Ret. unfold tnX_record_set_cur_pos, rec_upd, rec_at. cbn. by rewrite Hr. }
  eexists p, _. split; [reflexivity|]. split.
  { eexists. cbn. rewrite lookup_insert_eq. by split. }
  apply NoDup_cons in Hnd as [Hp Hnd]. constructor; cbn; try done.
  - split; [by rewrite Hoom|]. intros a Ha. rewrite Hbrk. apply Hf.
    assert (is_Some (cells h' !! a)) as [ra Hra].
    { cbn in Ha. rewrite lookup_insert in Ha. case_decide; [subst; by eexists|done]. }
    specialize (Hd a). rewrite Hra in Hd. destruct (cells (hp w) !! a); [by eexists|done].
  - exists l. split_and!; [| lia |].
    + eapply rec_queue_frame; [|exact Hq']. intros a Ha. cbn.
      rewrite lookup_insert_ne; [done|]. by intros ->.
    + destruct (current_record (st w)) as [q|], (cur c) as [cs|]; try done.
      destruct Hcur as [(rq & Hrq & Hbq) Hql]. split; [|set_solver].
      specialize (Hd q). rewrite Hrq in Hd. destruct (cells h' !! q) as [rq'|] eqn:Eq; [|done].
      cbn in Hd. simplify_eq. exists rq'. cbn.
      rewrite lookup_insert_ne by set_solver. by rewrite Eq, Hd.
Qed.

(** ** Properties *)

(** C1: the receiver implements the telnet machine.  On any input bytes the
    receive loop of a host stream terminates with 1, without fault, and leaves
    exactly the records, replies, TERM variable, open record and parser state
    that [decode] computes, provided the call does not begin between a
    negotiation verb and its option. *)
Theorem telnet_stream_handle_receive_refines w c bs :
  rel w None c -> rx (sk w) = rx_bytes bs -> is_bytes bs ->
  Z.of_nat (conn_size c + length bs) <= BUF_MAX ->
  exists w' verb', telnet_stream_handle_receive w = Ret 1 w' /\
    rel w' verb' (decode c bs) /\ rx (sk w') = [].
Proof.
  apply handle_receive_decodes.
Qed.

Lemma telnet_stream_handle_receive_refines_witness :
  exists w' verb',
    telnet_stream_handle_receive (host_world (rx_bytes [IAC; WILL; TERMINAL_TYPE; 65])) = Ret 1 w' /\
    rel w' verb' (decode conn0 [IAC; WILL; TERMINAL_TYPE; 65]) /\ rx (sk w') = [].
Proof.
  apply (telnet_stream_handle_receive_refines _ conn0);
    [apply host_world_rel | done | | vm_compute; discriminate].
  apply (bool_decide_unpack _). vm_compute. exact I.
Defined.

Lemma send_packet_post data w :
  is_bytes data -> Z.of_nat (2 * length data + 2) <= BUF_MAX ->
  match tn3270_stream_send_packet data w with
  | Ret _ w' => tx (sk w') = tx (sk w) ++ packet data /\
                hp w' = hp w /\ st w' = st w /\ rx (sk w') = rx (sk w)
  | Exit code w' => code = 5 /\ exists k, tx (sk w') = tx (sk w) ++ take k (packet data)
  | _ => False
  end.
Proof.
  intros Hb Hmax. unfold tn3270_stream_send_packet.
  destruct (append_data_rep data _ _ buf_rep_init) as (b1 & -> & H1); [cbn [length]; lia|].
  rewrite of_opt_Some_bind. rewrite u8_fmap_id in H1 by done. cbn [app] in H1.
  unfold telnet_stream_escape. rewrite (buf_rep_buf_bytes _ _ H1).
  destruct (escape_loop_rep data _ _ Hb buf_rep_init) as (b2 & -> & H2); [cbn [length]; lia|].
  rewrite of_opt_Some_bind. cbn [app] in H2. pose proof (length_escape data).
  destruct (append_byte_rep b2 _ IAC H2) as (b3 & -> & H3); [lia|]. rewrite of_opt_Some_bind.
  destruct (append_byte_rep b3 _ EOR H3) as (b4 & -> & H4); [rewrite length_app; cbn; lia|].
  rewrite of_opt_Some_bind, (buf_rep_buf_bytes _ _ H4), <- app_assoc.
  change (escape data ++ [u8 IAC] ++ [u8 EOR]) with (packet data).
  unfold telnet_stream_write. rewrite (M_bind_Ret _ _ _ w w) by done.
  pose proof (write_loop_spec (write_fuel (sk w)) (packet data) 0 w) as Hw.
  specialize (Hw ltac:(unfold write_fuel; lia)). unfold write_post in Hw.
  destruct (write_loop _ _ _ w); try done.
Qed.

(** C15: sending a packet.  Whatever the socket does (partial writes, [EAGAIN],
    interrupted [select]s), [tn3270_stream_send_packet] ends, and either the
    escaped data followed by IAC EOR is on the wire, whole and in order, or the
    process has left with status 5 after a prefix of it. *)
Theorem tn3270_stream_send_packet_complete data w :
  is_bytes data -> Z.of_nat (2 * length data + 2) <= BUF_MAX ->
  match tn3270_stream_send_packet data w with
  | Ret _ w' => tx (sk w') = tx (sk w) ++ packet data /\
                hp w' = hp w /\ st w' = st w /\ rx (sk w') = rx (sk w)
  | Exit code w' => code = 5 /\ exists k, tx (sk w') = tx (sk w) ++ take k (packet data)
  | _ => False
  end.
Proof. apply send_packet_post. Qed.

Lemma tn3270_stream_send_packet_complete_witness :
  match tn3270_stream_send_packet [1; IAC; 2]
          (MkWorld (MkHeap ∅ 1 false) host_stream
             (MkSock [] [] [2; -11; 1] [SelErr 4; SelReady; SelReady])) with
  | Ret _ w' => tx (sk w') = [] ++ packet [1; IAC; 2] /\
                hp w' = MkHeap ∅ 1 false /\ st w' = host_stream /\ rx (sk w') = []
  | Exit code w' => code = 5 /\ exists k, tx (sk w') = [] ++ take k (packet [1; IAC; 2])
  | _ => False
  end.
Proof.
  apply (tn3270_stream_send_packet_complete [1; IAC; 2]
    (MkWorld (MkHeap ∅ 1 false) host_stream
             (MkSock [] [] [2; -11; 1] [SelErr 4; SelReady; SelReady])));
    [|vm_compute; discriminate]. apply (bool_decide_unpack _). vm_compute. exact I.
Defined.

Lemma packet_bytes bs : is_bytes bs -> is_bytes (packet bs).
Proof.
  intros H. apply Forall_app_2; [by apply escape_bytes|].
  unfold is_byte, IAC, EOR. repeat constructor; lia.
Qed.

Lemma packets_bytes bss : Forall is_bytes bss -> is_bytes (mjoin (packet <$> bss)).
Proof.
  induction 1; cbn; [constructor|]. apply Forall_app_2; [by apply packet_bytes|done].
Qed.

(** Records sent one after the other. *)
Fixpoint send_packets (bss : list (list Z)) : W unit :=
  match bss with
  | [] => mret tt
  | bs :: bss => tn3270_stream_send_packet bs;; send_packets bss
  end.

(** The most bytes they take on the wire. *)
Fixpoint wire_room (bss : list (list Z)) : nat :=
  match bss with
  | [] => 0%nat
  | bs :: bss => (2 * length bs + 2 + wire_room bss)%nat
  end.

Lemma length_packets bss : (length (mjoin (packet <$> bss)) <= wire_room bss)%nat.
Proof.
  induction bss as [|bs bss IH]; [done|]. change (mjoin (packet <$> bs :: bss)) with (packet bs ++ mjoin (packet <$> bss)).
  unfold packet at 1. cbn [wire_room]. rewrite !length_app. pose proof (length_escape bs). cbn [length]. lia.
Qed.

Lemma send_packets_post bss w : Forall is_bytes bss -> Z.of_nat (wire_room bss) <= BUF_MAX ->
  match send_packets bss w with
  | Ret _ w' => tx (sk w') = tx (sk w) ++ mjoin (packet <$> bss)
  | Exit code w' => code = 5 /\ exists k, tx (sk w') = tx (sk w) ++ take k (mjoin (packet <$> bss))
  | _ => False
  end.
Proof.
  intros Hb. revert w. induction Hb as [|bs bss Hb Hbs IH]; intros w Hmax; cbn [send_packets fmap list_fmap mjoin list_join wire_room] in *.
  - by rewrite app_nil_r.
  - pose proof (send_packet_post bs w Hb ltac:(lia)) as Hp. unfold mbind, M_bind.
    destruct (tn3270_stream_send_packet bs w) as [[] w1|code w1|?|?|?]; [|destruct Hp as (-> & k & Hk)|done..].
    + destruct Hp as (Htx & _). specialize (IH w1 ltac:(lia)).
      destruct (send_packets bss w1) as [[] w2|code w2|?|?|?]; [|destruct IH as (-> & k & Hk)|done..].
      * by rewrite IH, Htx, <- app_assoc.
      * split; [done|]. exists (length (packet bs) + k)%nat. by rewrite Hk, Htx, take_app_add, <- app_assoc.
    + split; [done|]. exists (k `min` length (packet bs))%nat. rewrite Hk. f_equal.
      destruct (decide (k <= length (packet bs))%nat); [by rewrite Nat.min_l, take_app_le by lia|].
      rewrite Nat.min_r by lia. by rewrite take_app_length, take_ge by lia.
Qed.

(** Complete records are never taken back. *)
Lemma decode_recs bs c : recs c `prefix_of` recs (decode c bs).
Proof.
  revert c. induction bs as [|b bs IH]; intros c; [done|]. etransitivity; [|apply (IH (step c b))].
  unfold step, end_record, deliver, with_t, with_sb. destruct c as [[] sb0 [cu|] rs cf ou]; cbn; repeat (case_decide || case_match); cbn; try done; by eexists.
Qed.

(** A cut wire holds the first records. *)
Lemma decode_cut k bss c : t c = TData -> Forall (fun bs => bs <> []) bss -> cur c = None ->
  exists j, recs (decode c (take k (mjoin (packet <$> bss)))) = recs c ++ take j bss.
Proof.
  intros Ht Hne Hcur. pose proof (decode_packets bss c Ht Hne Hcur) as Hall. set (wire := mjoin (packet <$> bss)) in *.
  rewrite <- (take_drop k wire), decode_app in Hall. pose proof (decode_recs (drop k wire) (decode c (take k wire))) as [l2 H2].
  rewrite Hall in H2. cbn [recs] in H2. destruct (decode_recs (take k wire) c) as [l1 H1]. rewrite H1 in H2 |- *. rewrite <- app_assoc in H2.
  apply app_inv_head in H2 as ->. exists (length l1). by rewrite take_app_length.
Qed.

(** C12: record round trip.  Non-empty records sent one after the other with
    [tn3270_stream_send_packet], whatever bytes (IAC and EOR codes included) they
    hold and whatever the socket does meanwhile: when every send returns, a receiver
    between records that gets the bytes that were put on the wire has exactly that
    sequence of records behind those already complete, and is between records again;
    when the sender has left with status 5, the receiver gets a first part of the
    sequence, in order and whole.  (Empty records are not received as such: an empty
    record between others corrupts the stream.) *)
Theorem telnet_packets_roundtrip ws bss :
  Forall is_bytes bss -> Forall (fun bs => bs <> []) bss -> Z.of_nat (wire_room bss) <= BUF_MAX ->
  match send_packets bss ws with
  | Ret _ ws' => exists wire, tx (sk ws') = tx (sk ws) ++ wire /\
      forall w c, rel w None c -> t c = TData -> cur c = None -> rx (sk w) = rx_bytes wire ->
        Z.of_nat (conn_size c + wire_room bss) <= BUF_MAX ->
        exists w' verb', telnet_stream_handle_receive w = Ret 1 w' /\
          rel w' verb' (MkConn TData (sb c) None (recs c ++ bss) (conf c) (out c))
  | Exit code ws' => code = 5 /\ exists wire, tx (sk ws') = tx (sk ws) ++ wire /\
      forall w c, rel w None c -> t c = TData -> cur c = None -> rx (sk w) = rx_bytes wire ->
        Z.of_nat (conn_size c + wire_room bss) <= BUF_MAX ->
        exists w' verb' c' j, telnet_stream_handle_receive w = Ret 1 w' /\ rel w' verb' c' /\ recs c' = recs c ++ take j bss
  | _ => False
  end.
Proof.
  intros Hb Hne Hmax. pose proof (send_packets_post bss ws Hb Hmax) as Hs. pose proof (length_packets bss) as Hlen.
  pose proof (packets_bytes bss Hb) as Hbytes.
  destruct (send_packets bss ws) as [[] ws'|code ws'|?|?|?]; [|destruct Hs as (-> & k & Hk)|done..].
  - exists (mjoin (packet <$> bss)). split; [done|]. intros w c Hrel Ht Hcur Hrx Hsz.
    destruct (handle_receive_decodes w c _ Hrel Hrx Hbytes ltac:(lia)) as (w' & verb' & E & Hr & _).
    exists w', verb'. by rewrite decode_packets in Hr.
  - split; [done|]. exists (take k (mjoin (packet <$> bss))). split; [done|]. intros w c Hrel Ht Hcur Hrx Hsz.
    destruct (handle_receive_decodes w c _ Hrel Hrx ltac:(by apply Forall_take) ltac:(rewrite length_take; lia)) as (w' & verb' & E & Hr & _).
    destruct (decode_cut k bss c Ht Hne Hcur) as (j & Hj). by exists w', verb', (decode c (take k (mjoin (packet <$> bss)))), j.
Qed.

(** Two records, the first with codes in it, through a socket that takes two bytes and
    then would block. *)
Definition demo_sender : world := MkWorld (MkHeap ∅ 1 false) host_stream (MkSock [] [] [2; -11; 1] [SelErr 4; SelReady; SelReady]).

Lemma telnet_packets_roundtrip_witness :
  exists ws', send_packets [[IAC; EOR; 7]; [0]] demo_sender = Ret tt ws' /\
  exists w' verb', telnet_stream_handle_receive (host_world (rx_bytes (tx (sk ws')))) = Ret 1 w' /\
    rel w' verb' (MkConn TData [] None [[IAC; EOR; 7]; [0]] None []).
Proof.
  pose proof (telnet_packets_roundtrip demo_sender [[IAC; EOR; 7]; [0]] ltac:(apply (bool_decide_unpack _); vm_compute; exact I)
    ltac:(apply (bool_decide_unpack _); vm_compute; exact I) ltac:(vm_compute; discriminate)) as H.
  destruct (send_packets [[IAC; EOR; 7]; [0]] demo_sender) as [[] ws'|code ws'|ws'|ws'|ws'] eqn:E;
    [|exfalso; vm_compute in E; discriminate E..].
  exists ws'. split; [done|]. destruct H as (wire & Htx & Hrec). cbn [app tx sk demo_sender] in Htx. rewrite Htx.
  apply (Hrec (host_world (rx_bytes wire)) conn0); [apply host_world_rel|done|done|done|vm_compute; discriminate].
Defined.

(** C16: the receiver does not depend on how the network cuts the stream.
    Reading [bs1] in one call and [bs2] in a later one leaves what reading
    [bs1 ++ bs2] at once leaves, unless the cut falls between a negotiation
    verb and its option. *)
Theorem telnet_receive_fragmentation w c bs1 bs2 :
  rel w None c -> rx (sk w) = rx_bytes bs1 -> is_bytes (bs1 ++ bs2) ->
  (forall v, t (decode c bs1) <> TVerb v) ->
  Z.of_nat (conn_size c + length (bs1 ++ bs2)) <= BUF_MAX ->
  exists w1 w2 verb2, telnet_stream_handle_receive w = Ret 1 w1 /\
    telnet_stream_handle_receive (set_rx (rx_bytes bs2) w1) = Ret 1 w2 /\
    rel w2 verb2 (decode c (bs1 ++ bs2)).
Proof.
  intros Hrel Hrx Hb Hv Hmax. apply Forall_app in Hb as [Hb1 Hb2]. rewrite length_app in Hmax.
  destruct (handle_receive_decodes w c bs1 Hrel Hrx Hb1 ltac:(lia)) as (w1 & v1 & E1 & Hr1 & _).
  assert (conn_size (decode c bs1) <= conn_size c + length bs1)%nat as Hsz.
  { clear. revert c. induction bs1 as [|b bs IH]; intros c; cbn; [lia|].
    specialize (IH (step c b)). pose proof (conn_size_step c b). unfold decode in IH. lia. }
  destruct (handle_receive_decodes (set_rx (rx_bytes bs2) w1) (decode c bs1) bs2)
    as (w2 & v2 & E2 & Hr2 & _); [|done|done|lia|].
  - apply rel_set_rx. by eapply rel_verb.
  - exists w1, w2, v2. by rewrite decode_app.
Qed.

Lemma telnet_receive_fragmentation_witness :
  exists w1 w2 verb2, telnet_stream_handle_receive (host_world (rx_bytes [65; IAC])) = Ret 1 w1 /\
    telnet_stream_handle_receive (set_rx (rx_bytes [IAC; IAC; EOR]) w1) = Ret 1 w2 /\
    rel w2 verb2 (decode conn0 ([65; IAC] ++ [IAC; IAC; EOR])).
Proof.
  apply (telnet_receive_fragmentation _ conn0);
    [apply host_world_rel | done | | done | vm_compute; discriminate].
  apply (bool_decide_unpack _). vm_compute. exact I.
Defined.

(** A negotiation cut after its verb is undefined.  When a call starts
    between the verb and the option, the option byte is answered using the
    local [verb], which that call never assigned. *)
Theorem telnet_verb_split_undefined w b evs :
  state (st w) = STATE_HAVE_VERB -> rx (sk w) = RxByte b :: evs -> is_byte b ->
  telnet_stream_handle_receive w = Undef (set_rx evs w).
Proof.
  intros Hst Hrx Hb. unfold telnet_stream_handle_receive.
  rewrite (M_bind_Ret _ _ _ w w) by done. unfold rx_fuel at 1. rewrite handle_receive_loop_S.
  unfold resume, mbind at 1, M_bind at 1. unfold rx_fuel. rewrite (get_byte_loop_cons _ _ _ b evs) by done.
  assert (norm w = w) as -> by (unfold norm; by rewrite Hst).
  assert (get_byte_switch None b (set_rx evs w) = Undef (set_rx evs w)) as E.
  { unfold get_byte_switch. rewrite (M_bind_Ret _ _ _ (set_rx evs w) (set_rx evs w)) by done.
    cbv zeta. change (state (st (set_rx evs w))) with (state (st w)). rewrite Hst. reflexivity. }
  unfold mbind, M_bind. by rewrite E.
Qed.

Lemma telnet_verb_split_undefined_witness :
  telnet_stream_handle_receive
    (set_st (st_state STATE_HAVE_VERB host_stream) (host_world (rx_bytes [TERMINAL_TYPE]))) =
  Undef (set_rx [] (set_st (st_state STATE_HAVE_VERB host_stream)
                       (host_world (rx_bytes [TERMINAL_TYPE])))).
Proof.
  apply (telnet_verb_split_undefined _ TERMINAL_TYPE); [done|done|].
  unfold is_byte, TERMINAL_TYPE. lia.
Defined.

(** C23: an empty record is not delivered.  An end of record with no data
    before it completes no record: it opens one holding the byte 231 (minus
    the end-of-record code, truncated), so the next record starts with a byte
    the peer never sent. *)
Theorem telnet_empty_record_corrupts w c bs :
  rel w None c -> t c = TData -> cur c = None -> is_bytes bs ->
  rx (sk w) = rx_bytes (packet [] ++ packet bs) ->
  Z.of_nat (conn_size c + length (packet [] ++ packet bs)) <= BUF_MAX ->
  exists w' verb', telnet_stream_handle_receive w = Ret 1 w' /\
    rel w' verb' (MkConn TData (sb c) None (recs c ++ [231 :: bs]) (conf c) (out c)).
Proof.
  intros Hrel Ht Hcur Hb Hrx Hmax.
  destruct (handle_receive_decodes w c _ Hrel Hrx) as (w' & verb' & E & Hr & _); [|done|].
  { apply Forall_app_2; apply packet_bytes; [constructor|done]. }
  exists w', verb'. split; [done|]. rewrite decode_app in Hr.
  assert (decode c (packet []) = MkConn TData (sb c) (Some [231]) (recs c) (conf c) (out c)) as Hd.
  { destruct c as [? ? ? ? ? ?]. cbn in Ht, Hcur. by subst. }
  rewrite Hd in Hr. unfold packet in Hr. rewrite decode_app, decode_escape in Hr by done.
  by destruct bs.
Qed.

Lemma telnet_empty_record_corrupts_witness :
  exists w' verb', telnet_stream_handle_receive
      (host_world (rx_bytes (packet [] ++ packet [1; 2]))) = Ret 1 w' /\
    rel w' verb' (MkConn TData [] None ([] ++ [231 :: [1; 2]]) None []).
Proof.
  apply (telnet_empty_record_corrupts _ conn0);
    [apply host_world_rel | done | done | | done | vm_compute; discriminate].
  apply (bool_decide_unpack _). vm_compute. exact I.
Defined.

(** An escaped IAC inside a subnegotiation swallows the next byte.  The
    parser does not return to the subnegotiation state after IAC IAC, so the
    byte that follows is dropped from the collected data. *)
Lemma telnet_sb_escape_drops w verb c x f1 f2 :
  rel w verb c -> t c = TSb -> is_byte x -> x <> IAC -> x <> SE ->
  rx (sk w) = rx_bytes [IAC; IAC; x] -> Z.of_nat (conn_size c + 3) <= BUF_MAX ->
  (3 <= f1)%nat -> (3 < f2)%nat ->
  exists w' verb', resume f1 f2 verb w = Ret 1 w' /\
    rel w' verb' (MkConn TSb (sb c ++ [IAC]) (cur c) (recs c) (conf c) (out c)).
Proof.
  intros Hrel Ht Hx Hi Hs Hrx Hmax Hf1 Hf2.
  destruct (resume_refines [IAC; IAC; x] f1 f2 verb w c) as (w' & verb' & E & Hr & _); try done.
  { unfold is_byte, IAC in *. repeat constructor; lia. }
  exists w', verb'. split; [done|].
  assert (decode c [IAC; IAC; x] = MkConn TSb (sb c ++ [IAC]) (cur c) (recs c) (conf c) (out c)) as <-;
    [|done].
  destruct c as [? ? ? ? ? ?]. cbn in Ht. subst. unfold decode. cbn [foldl].
  change (step (MkConn TSb sb0 cur0 recs0 conf0 out0) IAC) with (MkConn TSbIac sb0 cur0 recs0 conf0 out0).
  change (step (MkConn TSbIac sb0 cur0 recs0 conf0 out0) IAC)
    with (MkConn TSbIac (sb0 ++ [IAC]) cur0 recs0 conf0 out0).
  unfold step. cbn. by rewrite !decide_False.
Qed.

(** A stream in the middle of a subnegotiation. *)
Definition sb_world (evs : list rx_event) : world :=
  set_st (st_state STATE_HAVE_SB host_stream) (host_world evs).

Lemma sb_world_rel evs : rel (sb_world evs) None (MkConn TSb [] None [] None []).
Proof. destruct (host_world_rel evs). by constructor. Qed.

Lemma telnet_sb_escape_drops_witness :
  exists w' verb', resume 3 4 None (sb_world (rx_bytes [IAC; IAC; 65])) = Ret 1 w' /\
    rel w' verb' (MkConn TSb ([] ++ [IAC]) None [] None []).
Proof.
  apply (telnet_sb_escape_drops _ None (MkConn TSb [] None [] None []) 65);
    [apply sb_world_rel | done | unfold is_byte; lia | done | done | done
    | vm_compute; discriminate | lia | lia].
Defined.

(** [tnX_stream_host] cannot open a 5250 stream: for that type the
    [accept] handler it then calls was never assigned. *)
Lemma tnX_stream_host_5250_undefined errno masterfd timeout w :
  exists w', tnX_stream_host errno masterfd timeout TN5250_STREAM w = Undef w'.
Proof. by eexists. Qed.

(** C17: complete records are handed out first in, first out.  On a 3270
    stream with records waiting, [tnX_stream_get_record] returns the oldest,
    with its data and its cursor at the start, and leaves the others queued in
    order. *)
Theorem tnX_stream_get_record_fifo w verb c bs rest :
  rel w verb c -> recs c = bs :: rest ->
  exists p w', tnX_stream_get_record w = Ret p w' /\
    (exists r, cells (hp w') !! p = Some r /\ buf_rep (rec_data r) bs /\ rec_cur_pos r = 0) /\
    rel w' verb (MkConn (t c) (sb c) (cur c) rest (conf c) (out c)).
Proof. apply get_record_head. Qed.

(** A stream holding two complete records, the result of receiving them. *)
Definition two_records : world :=
  match telnet_stream_handle_receive (host_world (rx_bytes [1; 2; IAC; EOR; 3; IAC; EOR])) with
  | Ret _ w => w
  | _ => host_world []
  end.

Lemma two_records_rel : exists v, rel two_records v (MkConn TData [] None [[1; 2]; [3]] None []).
Proof.
  destruct (handle_receive_decodes (host_world (rx_bytes [1; 2; IAC; EOR; 3; IAC; EOR])) conn0
              [1; 2; IAC; EOR; 3; IAC; EOR]) as (w' & v & E & Hr & _);
    [apply host_world_rel | done | apply (bool_decide_unpack _); vm_compute; exact I
    | vm_compute; discriminate |].
  exists v. unfold two_records. by rewrite E.
Qed.

Lemma tnX_stream_get_record_fifo_witness :
  exists v p w', tnX_stream_get_record two_records = Ret p w' /\
    (exists r, cells (hp w') !! p = Some r /\ buf_rep (rec_data r) [1; 2] /\ rec_cur_pos r = 0) /\ rel w' v (MkConn TData [] None [[3]] None []).
Proof.
  destruct two_records_rel as [v H]. exists v.
  apply (tnX_stream_get_record_fifo _ _ _ [1; 2] [[3]] H). reflexivity.
Defined.
