(* ===== verification/Wildcard.v ===== *)
(** * libasuite/wildcard.c: wildcard matching of file names

    [wc_match] over the memory blocks of its two arguments, terminating NUL
    included, so that reading past a terminator is visible ([None]).  [glob] is
    what a pattern means; the matcher is proved against it, and the two places
    where it leaves that meaning are stated as theorems. *)
From S2P Require Import Prelude.

(** The characters with a meaning of their own. *)
Definition STAR := 42.
Definition QUESTION := 63.
Definition BACKSLASH := 92.

(** Whether the character after a ['*'] lets the loop skip mismatches. *)
Definition ordinary (c : Z) : bool :=
  negb (bool_decide (c = QUESTION)) && negb (bool_decide (c = BACKSLASH)) &&
  negb (bool_decide (c = STAR)).

(** The body of [case '*']: try [rec] at each position of [str] where the
    next pattern character [pc] can match.  The inner [while] that skips
    mismatches is the [skip] branch: it moves [str] without a recursive call
    and, like the outer loop, ends the match at the terminator. *)
Fixpoint star_loop (rec : list Z -> option bool) (pc : Z) (str : list Z) : option bool :=
  match str with
  | [] => None
  | c :: rest =>
      if decide (c = 0) then Some false
      else if ordinary pc && negb (bool_decide (c = pc)) then star_loop rec pc rest
      else
        r ← rec str;
        if (r : bool) then Some true else star_loop rec pc rest
  end.

Fixpoint wc_match (str pattern : list Z) {struct pattern} : option bool :=
  match pattern with
  | [] => None
  | ch :: pattern =>
      if decide (ch = 0) then c ← head str; Some (bool_decide (c = 0))
      else if decide (ch = QUESTION) then
        match str with
        | [] => wc_match [] pattern
        | _ :: str => wc_match str pattern
        end
      else if decide (ch = STAR) then
        pc ← head pattern;
        if decide (pc = 0) then Some true
        else star_loop (fun str => wc_match str pattern) pc str
      else if decide (ch = BACKSLASH) then
        match pattern, str with
        | ch :: pattern, c :: str =>
            if decide (c <> ch) then Some false else wc_match str pattern
        | _, _ => None
        end
      else
        match str with
        | [] => None
        | c :: str => if decide (c <> ch) then Some false else wc_match str pattern
        end
  end.

(** ** The meaning of a pattern *)

Inductive glob : list Z -> list Z -> Prop :=
| glob_nil : glob [] []
| glob_any p c s : glob p s -> glob (QUESTION :: p) (c :: s)
| glob_star p s1 s2 : glob p s2 -> glob (STAR :: p) (s1 ++ s2)
| glob_esc p c s : glob p s -> glob (BACKSLASH :: c :: p) (c :: s)
| glob_char p c s : ordinary c = true -> glob p s -> glob (c :: p) (c :: s).

(** Patterns in which every escape has its character and no unescaped ['*']
    directly follows another. *)
Fixpoint good_pattern (p : list Z) : bool :=
  match p with
  | [] => true
  | ch :: p =>
      if decide (ch = BACKSLASH) then match p with [] => false | _ :: p => good_pattern p end
      else if decide (ch = STAR) then
        negb (bool_decide (head p = Some STAR)) && good_pattern p
      else good_pattern p
  end.

(** ** Inversions of the meaning *)

Lemma ordinary_true c : ordinary c = true <-> c <> QUESTION /\ c <> BACKSLASH /\ c <> STAR.
Proof.
  unfold ordinary. rewrite !andb_true_iff, !negb_true_iff, !bool_decide_eq_false. tauto.
Qed.

Lemma glob_nil_inv s : glob [] s <-> s = [].
Proof. split; [by inversion 1 | intros ->; constructor]. Qed.

Lemma glob_any_inv p s : glob (QUESTION :: p) s <-> exists c s', s = c :: s' /\ glob p s'.
Proof.
  split; [|intros (? & ? & -> & ?); by constructor].
  inversion 1; subst; eauto; done.
Qed.

Lemma glob_star_inv p s :
  glob (STAR :: p) s <-> glob p s \/ exists c s', s = c :: s' /\ glob (STAR :: p) s'.
Proof.
  split.
  - inversion 1 as [| |? s1 s2 Hg| |? ? ? Ho]; subst; [|done].
    destruct s1 as [|c s1]; [by left|]. right. exists c, (s1 ++ s2). split; [done|]. by constructor.
  - intros [Hg | (c & s' & -> & Hg)]; [by apply (glob_star p [] s)|].
    inversion Hg as [| |? s1 s2 Hg'| |? ? ? Ho]; subst; [|done].
    by apply (glob_star p (c :: s1) s2).
Qed.

Lemma glob_esc_inv p ch s : glob (BACKSLASH :: ch :: p) s <-> exists s', s = ch :: s' /\ glob p s'.
Proof.
  split; [|intros (? & -> & ?); by constructor].
  inversion 1; subst; eauto; done.
Qed.

Lemma glob_char_inv p ch s :
  ordinary ch = true -> glob (ch :: p) s <-> exists s', s = ch :: s' /\ glob p s'.
Proof.
  intros Ho. split; [|intros (? & -> & ?); by constructor].
  apply ordinary_true in Ho as (? & ? & ?). inversion 1; subst; by eauto.
Qed.

(** A pattern matching the empty string, with no two stars in a row, is empty
    or a single star. *)
Lemma glob_empty p : good_pattern p = true -> glob p [] -> p = [] \/ p = [STAR].
Proof.
  intros Hp H. inversion H; subst; [by left|].
  match goal with E : _ ++ _ = [] |- _ => apply app_nil in E as [-> ->] end. right. f_equal.
  cbn in Hp. apply andb_true_iff in Hp as [Hh _]. rewrite negb_true_iff, bool_decide_eq_false in Hh.
  match goal with G : glob _ [] |- _ => by inversion G; subst end.
Qed.

(** ** The matcher follows the meaning *)

Definition block (s : list Z) : list Z := s ++ [0].

(** A pattern ending in ['?'...'*'] whose question marks outnumber what is
    left of the string. *)
Definition short_tail (p s : list Z) : Prop :=
  exists p' k k', p = p' ++ replicate (S k) QUESTION ++ [STAR] /\ (k' <= k)%nat /\
    glob (p' ++ replicate k' QUESTION) s.

(** What an answer means: no match is missed; a match is one, save for a short
    tail; the terminator is passed only by a pattern with a ['?']. *)
Definition agrees (p s : list Z) (r : option bool) : Prop :=
  match r with
  | Some true => glob p s \/ short_tail p s
  | Some false => ~ glob p s
  | None => QUESTION ∈ p
  end.

Lemma agrees_prefix pre p s s' r :
  (forall q, glob q s -> glob (pre ++ q) s') -> (glob (pre ++ p) s' -> glob p s) ->
  agrees p s r -> agrees (pre ++ p) s' r.
Proof.
  intros H H' Hr. destruct r as [[|]|]; cbn in *; [|tauto|set_solver].
  destruct Hr as [?|(p' & k & k' & -> & ? & ?)]; [by left; apply H|]. right.
  exists (pre ++ p'), k, k'. rewrite <-!app_assoc. auto.
Qed.

(** A non-empty good pattern that begins with an ordinary character only
    matches strings that begin with it. *)
Lemma glob_skip p c s pc :
  head p = Some pc -> ordinary pc = true -> c <> pc -> ~ glob p (c :: s).
Proof.
  intros Hp Ho Hc Hg. destruct p as [|? p]; [done|]. simplify_eq/=.
  apply glob_char_inv in Hg as (? & ? & _); [|done]. by simplify_eq.
Qed.

Lemma star_loop_agrees rec p pc :
  head p = Some pc -> good_pattern (STAR :: p) = true ->
  (forall s, no_nul s -> agrees p s (rec (block s))) ->
  forall s, no_nul s -> agrees (STAR :: p) s (star_loop rec pc (block s)).
Proof.
  intros Hpc Hgood Hrec s Hs. cbn in Hgood. apply andb_true_iff in Hgood as [Hh Hgp].
  rewrite negb_true_iff, bool_decide_eq_false in Hh.
  induction Hs as [|c s Hc Hs IH].
  { change (~ glob (STAR :: p) []). rewrite glob_star_inv. intros [Hg|(? & ? & ? & _)]; [|done].
    apply glob_empty in Hg as [->| ->]; done. }
  change (block (c :: s)) with (c :: block s). cbn [star_loop]. rewrite decide_False by done.
  assert (~ glob p (c :: s) -> agrees (STAR :: p) (c :: s) (star_loop rec pc (block s))) as Hskip.
  { intros Hn. destruct (star_loop _ _ _) as [[|]|]; cbn in *; [| |done].
    - destruct IH as [?|(p' & k & k' & ? & ? & ?)]; [left; by apply glob_star_inv; eauto|].
      destruct p' as [|? p']; simplify_eq/=. right. exists (STAR :: p'), k, k'. cbn.
      split_and!; [done..|]. apply glob_star_inv. eauto.
    - rewrite glob_star_inv. intros [?|(? & ? & ? & ?)]; by simplify_eq. }
  destruct (ordinary pc && negb (bool_decide (c = pc))) eqn:E.
  - apply andb_true_iff in E as [Ho Hne]. rewrite negb_true_iff, bool_decide_eq_false in Hne.
    by eapply Hskip, glob_skip.
  - pose proof (Hrec (c :: s) ltac:(by constructor)) as Hr.
    change (block (c :: s)) with (c :: block s) in Hr.
    destruct (rec (c :: block s)) as [[|]|]; cbn in *; [| by apply Hskip | by right].
    destruct Hr as [?|(p' & k & k' & -> & ? & ?)]; [by left; apply glob_star_inv; left|].
    right. exists (STAR :: p'), k, k'. split_and!; [done..|]. apply glob_star_inv. by left.
Qed.

(** Past the terminator nothing is refused. *)
Lemma wc_match_past p :
  no_nul p ->
  match wc_match [] (block p) with
  | Some true => exists k, p = replicate k QUESTION ++ [STAR]
  | Some false => False
  | None => True
  end.
Proof.
  induction 1 as [|ch p Hch Hp IH]; [done|]. change (block (ch :: p)) with (ch :: block p).
  cbn [wc_match]. rewrite decide_False by done. case_decide as Hq; [|case_decide as Hst].
  - destruct (wc_match [] (block p)) as [[|]|]; [|done|done]. destruct IH as [k ->]. subst.
    by exists (S k).
  - destruct Hp as [|pc p Hpc]; [by subst; exists 0%nat|]. cbn. by rewrite decide_False.
  - case_decide; [|done]. by destruct (block p).
Qed.

Lemma wc_match_agrees p s :
  no_nul p -> good_pattern p = true -> no_nul s -> agrees p s (wc_match (block s) (block p)).
Proof.
  remember (length p) as n eqn:Hn. revert p s Hn.
  induction (lt_wf n) as [n _ IH]. intros p s -> Hp Hgood Hs.
  destruct Hp as [|ch p Hch Hp].
  { destruct Hs as [|c s Hc]; cbn; [left; constructor|]. rewrite bool_decide_false by done. cbn.
    intros ?%glob_nil_inv. done. }
  change (block (ch :: p)) with (ch :: block p). cbn [wc_match]. rewrite decide_False by done.
  cbn [good_pattern] in Hgood. destruct (decide (ch = QUESTION)) as [->|Hq];
    [|destruct (decide (ch = STAR)) as [->|Hst]; [|destruct (decide (ch = BACKSLASH)) as [->|Hbs]]].
  - destruct Hs as [|c s Hc Hs].
    + change (wc_match [] (block p)) with (wc_match [] (block p)). pose proof (wc_match_past p Hp) as Hpast.
      cbn [block app]. destruct (wc_match [] (block p)) as [[|]|]; [|done|by left].
      destruct Hpast as [k ->]. right. exists [], k, 0%nat. split_and!; [done|lia|constructor].
    + apply (agrees_prefix [QUESTION] p s); [intros q ?; by constructor| |by apply (IH (length p)); cbn; auto].
      intros (? & ? & ? & ?)%glob_any_inv. by simplify_eq.
  - destruct Hp as [|pc p Hpc Hp]; cbn [head block app mbind option_bind].
    + left. rewrite <-(app_nil_r s). constructor. constructor.
    + rewrite decide_False by done. apply star_loop_agrees; [done | exact Hgood | | done].
      cbn in Hgood. apply andb_true_iff in Hgood as [_ Hgood].
      intros s' Hs'. apply (IH (length (pc :: p))); [cbn; lia|done|by constructor|done|done].
  - destruct Hp as [|c' p Hc' Hp]; [done|]. destruct Hs as [|c s Hc Hs].
    { cbn. rewrite decide_True by done. cbn. intros (? & ? & ?)%glob_esc_inv. done. }
    cbn [block app]. case_decide as Hne.
    + cbn. intros (? & ? & ?)%glob_esc_inv. by simplify_eq.
    + destruct (decide (c = c')) as [->|]; [|done].
      apply (agrees_prefix [BACKSLASH; c'] p s); [intros q ?; by constructor| |].
      * intros (? & ? & ?)%glob_esc_inv. by simplify_eq.
      * apply (IH (length p)); cbn; auto.
  - assert (ordinary ch = true) as Ho by by apply ordinary_true.
    destruct Hs as [|c s Hc Hs].
    { cbn. rewrite decide_True by done. cbn. intros (? & ? & ?)%glob_char_inv; done. }
    cbn [block app]. case_decide as Hne.
    + cbn. intros (? & ? & ?)%glob_char_inv; [|done]. by simplify_eq.
    + destruct (decide (c = ch)) as [->|]; [|done].
      apply (agrees_prefix [ch] p s); [intros q ?; by constructor| |].
      * intros (? & ? & ?)%glob_char_inv; [|done]. by simplify_eq.
      * apply (IH (length p)); cbn; auto.
Qed.

(** ** Properties *)

(** C24: the matcher implements the patterns.  For a pattern whose escapes are
    complete and which has no two stars in a row, [wc_match] never refuses a
    string the pattern means, and accepts no other, except that a final
    ['?'...'*'] may run past the end of a string too short for it; without a
    ['?'] it always ends inside both strings. *)
Theorem wc_match_glob p s :
  no_nul p -> good_pattern p = true -> no_nul s ->
  match wc_match (block s) (block p) with
  | Some true => glob p s \/ short_tail p s
  | Some false => ~ glob p s
  | None => QUESTION ∈ p
  end.
Proof. apply wc_match_agrees. Qed.

Lemma wc_match_glob_witness :
  wc_match (block (str "archive.tar.gz")) (block (str "*.t?r.\g*")) = Some true /\
  (glob (str "*.t?r.\g*") (str "archive.tar.gz") \/
   short_tail (str "*.t?r.\g*") (str "archive.tar.gz")).
Proof.
  split; [vm_compute; reflexivity|].
  apply (wc_match_glob (str "*.t?r.\g*") (str "archive.tar.gz"));
    [apply (bool_decide_unpack _); vm_compute; exact I | vm_compute; reflexivity
    | apply (bool_decide_unpack _); vm_compute; exact I].
Defined.

(** The exceptions are real: two stars refuse the empty string they mean, a
    ['?'] at the end of the string reads past it, and ["?*"] accepts the empty
    string. *)
Lemma wc_match_exceptions :
  (wc_match (block []) (block (str "**")) = Some false /\ glob (str "**") []) /\
  wc_match (block (str "a")) (block (str "a?")) = None /\
  (wc_match (block []) (block (str "?*")) = Some true /\ ~ glob (str "?*") []).
Proof.
  split_and!; [done | | done | done |].
  - apply (glob_star [STAR] [] []), (glob_star [] [] []), glob_nil.
  - intros (? & ? & ? & _)%glob_any_inv. done.
Qed.
