(* ===== verification/Filemode.v ===== *)
(** * libasuite/filemode.c: file modes as the ten characters of [ls -l]

    The permission and type bits are those of [<sys/stat.h>] on Linux (the
    macros for multiplexed, network and migrated files do not exist there).
    [parse_mode] reads the ten characters back; the text is shown to determine
    the mode. *)
From S2P Require Import Prelude.

(** Octal constants of [<sys/stat.h>]. *)
Definition S_IFMT := 61440.
Definition S_IFSOCK := 49152.
Definition S_IFLNK := 40960.
Definition S_IFREG := 32768.
Definition S_IFBLK := 24576.
Definition S_IFDIR := 16384.
Definition S_IFCHR := 8192.
Definition S_IFIFO := 4096.
Definition S_ISUID := 2048.
Definition S_ISGID := 1024.
Definition S_ISVTX := 512.
Definition S_IRUSR := 256.
Definition S_IWUSR := 128.
Definition S_IXUSR := 64.

Definition is_type (ifmt bits : Z) : bool := bool_decide (Z.land bits S_IFMT = ifmt).

Definition ch (s : string) : Z := default 0 (head (str s)).

Definition flag (bits mask : Z) (c : Z) : Z :=
  if decide (Z.land bits mask = 0) then ch "-" else c.

(** [rwx] writes three characters. *)
Definition rwx (bits : Z) : list Z :=
  [flag bits S_IRUSR (ch "r"); flag bits S_IWUSR (ch "w"); flag bits S_IXUSR (ch "x")].

(** One step of [setst]: the character at [i], given the bit. *)
Definition setst_at (bits mask : Z) (i : nat) (set unset : Z) (chars : list Z) : list Z :=
  if decide (Z.land bits mask = 0) then chars
  else <[i := if decide (chars !! i <> Some (ch "x")) then unset else set]> chars.

Definition setst (bits : Z) (chars : list Z) : list Z :=
  let chars := setst_at bits S_ISUID 3 (ch "s") (ch "S") chars in
  let chars := setst_at bits S_ISGID 6 (ch "s") (ch "S") chars in
  setst_at bits S_ISVTX 9 (ch "t") (ch "T") chars.

Definition ftypelet (bits : Z) : Z :=
  if is_type S_IFBLK bits then ch "b"
  else if is_type S_IFCHR bits then ch "c"
  else if is_type S_IFDIR bits then ch "d"
  else if is_type S_IFREG bits then ch "-"
  else if is_type S_IFIFO bits then ch "p"
  else if is_type S_IFLNK bits then ch "l"
  else if is_type S_IFSOCK bits then ch "s"
  else ch "?".

(** The three [rwx] calls take their bits through a [short unsigned int]. *)
Definition mode_string (mode : Z) : list Z :=
  let str := ftypelet mode ::
    rwx (u16 (Z.shiftl (Z.land mode 448) 0)) ++
    rwx (u16 (Z.shiftl (Z.land mode 56) 3)) ++
    rwx (u16 (Z.shiftl (Z.land mode 7) 6)) in
  setst mode str.

Definition filemodestring (st_mode : Z) : list Z := mode_string (u16 st_mode).

(** ** Reading the text back *)

Definition type_of (c : Z) : option Z :=
  list_find (fun p => p.1 = c)
    [(ch "b", S_IFBLK); (ch "c", S_IFCHR); (ch "d", S_IFDIR); (ch "-", S_IFREG);
     (ch "p", S_IFIFO); (ch "l", S_IFLNK); (ch "s", S_IFSOCK)] ≫= fun r => Some r.2.2.

(** Execute and special bit of an execute character. *)
Definition exec_bits (x : Z) (special : Z) (c : Z) : Z :=
  if decide (c = ch "x") then x
  else if decide (c = ch "s" \/ c = ch "t") then x + special
  else if decide (c = ch "S" \/ c = ch "T") then special
  else 0.

Definition bit (b : Z) (yes c : Z) : Z := if decide (c = yes) then b else 0.

Definition parse_mode (s : list Z) : option Z :=
  match s with
  | [t; r1; w1; x1; r2; w2; x2; r3; w3; x3] =>
      ty ← type_of t;
      Some (ty + exec_bits 64 2048 x1 + exec_bits 8 1024 x2 + exec_bits 1 512 x3 +
            bit 256 (ch "r") r1 + bit 128 (ch "w") w1 + bit 32 (ch "r") r2 +
            bit 16 (ch "w") w2 + bit 4 (ch "r") r3 + bit 2 (ch "w") w3)
  | _ => None
  end.

Definition file_types : list Z :=
  [S_IFSOCK; S_IFLNK; S_IFREG; S_IFBLK; S_IFDIR; S_IFCHR; S_IFIFO].

(** All modes of one type, checked by evaluation. *)
Definition roundtrips (ty : Z) : bool :=
  forallb (fun n => bool_decide (parse_mode (filemodestring (ty + Z.of_nat n)) = Some (ty + Z.of_nat n)))
    (seq 0 4096).

Lemma roundtrips_all : forallb roundtrips file_types = true.
Proof. vm_compute. reflexivity. Qed.

(** the text determines the mode.  For every file type and all twelve
    permission bits, the ten characters [filemodestring] writes read back as the
    mode they were written for; no other length of text is produced. *)
Theorem filemodestring_roundtrip ty perm :
  ty ∈ file_types -> 0 <= perm < 4096 ->
  length (filemodestring (ty + perm)) = 10%nat /\
  parse_mode (filemodestring (ty + perm)) = Some (ty + perm).
Proof.
  intros Hty Hp. pose proof roundtrips_all as H. rewrite forallb_forall in H.
  specialize (H ty). rewrite <-list_elem_of_In in H. specialize (H Hty).
  unfold roundtrips in H. rewrite forallb_forall in H.
  specialize (H (Z.to_nat perm)). rewrite in_seq, bool_decide_eq_true, Z2Nat.id in H by lia.
  assert (parse_mode (filemodestring (ty + perm)) = Some (ty + perm)) as E by (apply H; lia).
  split; [|done]. destruct (filemodestring (ty + perm)) as [|? [|? [|? [|? [|? [|? [|? [|? [|? [|? [|]]]]]]]]]]]; done.
Qed.

Lemma filemodestring_roundtrip_witness :
  length (filemodestring (S_IFDIR + 1005)) = 10%nat /\
  parse_mode (filemodestring (S_IFDIR + 1005)) = Some (S_IFDIR + 1005).
Proof.
  apply (filemodestring_roundtrip S_IFDIR 1005); [apply (bool_decide_unpack _); vm_compute; exact I | lia].
Defined.
