(* ===== verification/Cpic.v ===== *)
(** * The CPI-C interface the APPC suite is written against

    The CPI-C verbs end in a system call into the SNA kernel modules, which are
    not part of the repository.  [Cpic] is the interface the suite uses: one
    operation per verb, over the conversation subsystem's own state [K].
    [CpicLaws] is the documented behaviour of the receive verb the suite relies
    on.  [script] is an instance whose input is fixed in advance and which
    keeps a log of every call with its arguments: the programs of the suite are run on
    it, and what they did to the conversation is read from the log. *)
From S2P Require Import Prelude.

(** Return codes and option values, from the CPI-C header. *)
Definition CM_OK := 0.
Definition CM_NO_DATA_RECEIVED := 0.
Definition CM_SEND_RECEIVED := 1.
Definition CM_CONFIRM_RECEIVED := 2.
Definition CM_PREP_TO_RECEIVE_FLUSH := 1.
Definition CM_BUFFER_DATA := 0.
Definition CM_SECURITY_PROGRAM := 2.

Definition CM_CONFIRM := 1.
Definition CM_SEND_AND_FLUSH := 1.
Definition CM_DEALLOCATE_SYNC_LEVEL := 0.
Definition CM_DEALLOCATE_FLUSH := 1.
Definition CM_DEALLOCATED_NORMAL := 18.
Definition CM_CONFIRM_DEALLOC_RECEIVED := 4.
Definition CM_COMPLETE_DATA_RECEIVED := 2.
Definition CM_NO_STATUS_RECEIVED := 0.
Definition CM_SECURITY_NONE := 0.
Definition EXIT_SUCCESS := 0.
Definition EXIT_FAILURE := 1.

(** What [cmrcv] hands back.  On a return code other than [CM_OK] the other
    outputs are not assigned. *)
Record received : Type := MkReceived {
  rcv_data : list Z;
  data_received : Z;
  status_received : Z;
  rcv_rc : Z
}.

Class Cpic (K : Type) : Type := {
  cminit : list Z -> K -> Z * K;
  cmspln : list Z -> K -> Z * K;
  cmstpn : list Z -> K -> Z * K;
  cmsmn : list Z -> K -> Z * K;
  cmsptr : Z -> K -> Z * K;
  cmsst : Z -> K -> Z * K;
  cmsend : list Z -> K -> Z * K;
  cmrcv : Z -> K -> received * K;
  cmcfmd : K -> Z * K;
  cmptr : K -> Z * K;
  cmallc : K -> Z * K;
  cmdeal : K -> Z * K
}.

(** The verbs of the accepting side.  [cmepln] gives the partner's name and the
    return code; on another code than [CM_OK] the name is not assigned. *)
Class CpicServer (K : Type) : Type := {
  cmaccp : K -> Z * K;
  cmepln : K -> (list Z * Z) * K
}.

(** The synchronisation level and the type of deallocation. *)
Class CpicTypes (K : Type) : Type := { cmssl : Z -> K -> Z * K; cmsdt : Z -> K -> Z * K }.

(** [cmrcv] returns at most the requested number of bytes. *)
Class CpicLaws (K : Type) `{Cpic K} : Prop := {
  cmrcv_fits n k : 0 <= n -> Z.of_nat (length (rcv_data (cmrcv n k).1)) <= n;
  cmrcv_bytes n k : is_bytes (rcv_data (cmrcv n k).1)
}.

(** ** Scripted conversations *)

(** A call of a verb with what it was given. *)
Inductive cpic_call : Type :=
  | Cminit (sym_dest_name : list Z)
  | Cmspln (partner_lu : list Z)
  | Cmstpn (tp_name : list Z)
  | Cmsmn (mode_name : list Z)
  | Cmsptr (prepare_to_receive_type : Z)
  | Cmsst (send_type : Z)
  | Cmssl (sync_level : Z)
  | Cmsdt (deallocate_type : Z)
  | Cmsend (data : list Z)
  | Cmrcv (requested_length : Z)
  | Cmcfmd
  | Cmptr
  | Cmallc
  | Cmdeal
  | Cmaccp
  | Cmepln.

(** What will be received, and every call there was, in order. *)
Record script : Type := MkScript { incoming : list received; calls : list cpic_call }.

Definition note (c : cpic_call) (k : script) : script := MkScript (incoming k) (calls k ++ [c]).
Definition script_call (c : cpic_call) (k : script) : Z * script := (CM_OK, note c k).

Definition script_rcv (n : Z) (k : script) : received * script :=
  match incoming k with
  | [] => (MkReceived [] CM_NO_DATA_RECEIVED 0 CM_OK, note (Cmrcv n) k)
  | r :: rest =>
      (MkReceived (u8 <$> take (Z.to_nat n) (rcv_data r)) (data_received r) (status_received r) (rcv_rc r),
       MkScript rest (calls k ++ [Cmrcv n]))
  end.

#[export] Instance script_cpic : Cpic script := {|
  cminit d := script_call (Cminit d);
  cmspln d := script_call (Cmspln d);
  cmstpn d := script_call (Cmstpn d);
  cmsmn d := script_call (Cmsmn d);
  cmsptr v := script_call (Cmsptr v);
  cmsst v := script_call (Cmsst v);
  cmsend d := script_call (Cmsend d);
  cmrcv := script_rcv;
  cmcfmd := script_call Cmcfmd;
  cmptr := script_call Cmptr;
  cmallc := script_call Cmallc;
  cmdeal := script_call Cmdeal
|}.

#[export] Instance script_types : CpicTypes script := {|
  cmssl v := script_call (Cmssl v);
  cmsdt v := script_call (Cmsdt v)
|}.

(** The records among the calls. *)
Definition sent_by (c : cpic_call) : option (list Z) := match c with Cmsend m => Some m | _ => None end.
Definition sent (k : script) : list (list Z) := omap sent_by (calls k).

#[export] Instance script_laws : CpicLaws script.
Proof.
  split.
  - intros n [[|r rest] ?] Hn; cbn; [lia|]. rewrite length_fmap, length_take. lia.
  - intros n [[|r rest] ?]; cbn; [constructor|]. apply Forall_fmap, Forall_true.
    intros. apply u8_byte.
Qed.

(** ** Conversations that deliver

    The partner sends the messages of [inbox] one after the other, and what is
    sent arrives: [outbox]. *)
Class Delivers (K : Type) `{Cpic K} : Type := {
  inbox : K -> list (list Z);
  outbox : K -> list (list Z);
  cmsend_ok m k : (cmsend m k).1 = CM_OK;
  cmsend_outbox m k : outbox (cmsend m k).2 = outbox k ++ [m];
  cmsend_inbox m k : inbox (cmsend m k).2 = inbox k;
  cmrcv_inbox n k m ms : inbox k = m :: ms -> is_bytes m -> Z.of_nat (length m) <= n ->
    rcv_data (cmrcv n k).1 = m /\ rcv_rc (cmrcv n k).1 = CM_OK /\ inbox (cmrcv n k).2 = ms /\
    outbox (cmrcv n k).2 = outbox k
}.

(** What a script delivers: its input up to the first call that fails. *)
Fixpoint calm (l : list received) : list (list Z) :=
  match l with
  | [] => []
  | r :: l => if decide (rcv_rc r = CM_OK) then rcv_data r :: calm l else []
  end.

#[export] Program Instance script_delivers : Delivers script := {|
  inbox k := calm (incoming k);
  outbox := sent
|}.
Next Obligation. done. Qed.
Next Obligation. intros m k. unfold sent. cbn. by rewrite omap_app. Qed.
Next Obligation. done. Qed.
Next Obligation.
  intros n [[|r rest] cs] m ms E Hm Hl; cbn in *; [done|]. case_decide as Hr; [|done]. injection E as <- <-.
  rewrite take_ge by lia. rewrite u8_fmap_id by done. split_and!; [done..|]. unfold sent. cbn. by rewrite omap_app, app_nil_r.
Qed.

(** A scripted server accepts a conversation as long as there is input. *)
Definition CM_PRODUCT_SPECIFIC_ERROR := 20.

#[export] Instance script_server : CpicServer script := {|
  cmaccp k := (match incoming k with [] => CM_PRODUCT_SPECIFIC_ERROR | _ => CM_OK end, note Cmaccp k);
  cmepln k := ((str "NET.LUA", CM_OK), note Cmepln k)
|}.
