(* ===== verification/AsuiteRecord.v ===== *)
(** * libasuite/asuitecommon.c: the records of the APPC suite protocols

    A record is a two-byte type followed by parameters: a two-byte length that
    counts itself, a one-byte key, and data.  The host's byte order is a
    parameter of the section ([htons] depends on it).  The record pointer can be
    NULL, so a computation's state is an [option asuiterecord]. *)
From stdpp Require Import sorting.
From S2P Require Import Prelude Wildcard Cpic.

Definition MAX_BUFFER_SIZE := 32763.
Definition CWD_CHUNK := 64.
Definition ASUITE_STATUS_RECORD := 1.
Definition ASUITE_STATUS_RETURN_CODE := 2.
Definition ASUITE_STATUS_CATEGORY_INDEX := 4.
Definition ASUITE_STATUS_PRIMARY_MSG := 5.
Definition ASUITE_RC_OK := 0.

(** The bytes of the buffer that have been written; a fresh record comes from
    [malloc], so the others are indeterminate. *)
Record asuiterecord : Type := MkRecord { position : Z; buffer : gmap Z Z }.

Abbreviation R := (M (option asuiterecord)).

(** The record behind the pointer. *)
Definition deref : R asuiterecord :=
  fun s => match s with Some r => Ret r s | None => Undef s end.
Definition set_rec (r : asuiterecord) : R unit := put_st (Some r).

Definition in_buffer (i : Z) : bool := bool_decide (0 <= i < MAX_BUFFER_SIZE).

(** [record->buffer[i] = b] and [record->buffer[i]]. *)
Definition poke (i b : Z) : R unit :=
  r ← deref;
  if in_buffer i then set_rec (MkRecord (position r) (<[i := u8 b]> (buffer r))) else undef.
Definition peek (i : Z) : R Z :=
  r ← deref;
  if in_buffer i then of_opt (buffer r !! i) else undef.
(** [record->position += n]. *)
Definition advance (n : Z) : R unit :=
  r ← deref; set_rec (MkRecord (position r + n) (buffer r)).
(** A byte stored at the position, and the position moved past it. *)
Definition put (b : Z) : R unit :=
  r ← deref; poke (position r) b;; advance 1.

Section Record.
Context (big_endian : bool).

(** [htons]/[ntohs] and [htonl] of a value already of the width. *)
Definition bswap16 (x : Z) : Z := Z.lor (Z.shiftl (Z.land x 255) 8) (Z.shiftr x 8).
Definition htons (x : Z) : Z := if big_endian then u16 x else bswap16 (u16 x).
Definition htonl (x : Z) : Z :=
  let x := u32 x in
  if big_endian then x
  else Z.lor (Z.shiftl (bswap16 (Z.land x 65535)) 16) (bswap16 (Z.shiftr x 16)).

(** Two bytes at [curpos], as a [u_int16_t] in network order. *)
Definition get_twobyte (curpos : Z) : R Z :=
  hi ← peek (curpos + 1);
  lo ← peek curpos;
  mret (htons (u16 (Z.lor (Z.shiftl hi 8) lo))).

Definition get_param_len (curpos : Z) : R Z := get_twobyte curpos.
Definition get_cat_index (curpos : Z) : R Z := get_twobyte curpos.
Definition get_major_code : R Z := peek 1.
Definition get_received_len : R Z := r ← deref; mret (position r).
Definition get_key (curpos : Z) : R Z := peek (curpos + 2).
Definition asuiterecord_get_char (position : Z) : R Z := peek position.

(** [malloc] succeeds or returns NULL. *)
Definition asuiterecord_new (oom : bool) : option asuiterecord :=
  if oom then None else Some (MkRecord 2 ∅).

(** The operations that test the pointer first. *)
Definition unless_null {A} (null : A) (m : R A) : R A :=
  s ← get_st; match s with Some _ => m | None => mret null end.

Definition asuiterecord_clear : R unit :=
  unless_null tt (r ← deref; set_rec (MkRecord 2 (buffer r))).

Definition asuiterecord_settype (rectype : Z) : R unit :=
  let temp := htons (u16 rectype) in
  unless_null tt (
    poke 0 (Z.land temp 255);;
    poke 1 (Z.shiftr (Z.land temp 65280) 8)).

(** [strncpy(dst, data, n)]: what it stores, [None] when it would read past the
    object [data] points to. *)
Fixpoint strncpy (data : list Z) (n : nat) : option (list Z) :=
  match n, data with
  | O, _ => Some []
  | S _, [] => None
  | S n', c :: t =>
      if decide (c = 0) then Some (replicate n 0) else cons c <$> strncpy t n'
  end.

(** Consecutive stores from [i] on. *)
Fixpoint poke_all (i : Z) (bs : list Z) : R unit :=
  match bs with
  | [] => mret tt
  | b :: bs => poke i b;; poke_all (i + 1) bs
  end.

Definition asuiterecord_append (key : Z) (data : list Z) (length : Z) : R Z :=
  let temp := htons (u16 (length + 3)) in
  unless_null 1 (
    put (Z.land temp 255);;
    put (Z.shiftr temp 8);;
    put key;;
    r ← deref;
    bs ← (if bool_decide (0 <= length) then of_opt (strncpy data (Z.to_nat length)) else undef);
    poke_all (position r) bs;;
    advance length;;
    mret 0).

Definition asuiterecord_append_char (key data : Z) : R Z :=
  let temp := htons 4 in
  unless_null 1 (
    put (Z.land temp 255);;
    put (Z.shiftr temp 8);;
    put key;;
    put data;;
    mret 0).

Definition asuiterecord_append_fourbyte (key data : Z) : R Z :=
  let temp := htons 4 in
  let temp_data := htonl data in
  unless_null 1 (
    put (Z.land temp 255);;
    put (Z.shiftr temp 8);;
    put key;;
    put (Z.land temp_data 255);;
    put (Z.shiftr (Z.land temp_data 65280) 8);;
    put (Z.shiftr (Z.land temp_data 16711680) 16);;
    put (Z.shiftr (Z.land temp_data 4278190080) 24);;
    mret 0).

(** The two bytes of one argument. *)
Definition put_twobyte (p : Z) : R unit :=
  let temp_data := htons (u16 p) in
  put (Z.land temp_data 255);;
  put (Z.shiftr (Z.land temp_data 65280) 8).

(** The loop over the variable arguments.  [va_arg] is evaluated once more than
    there are arguments; that value is never stored. *)
Fixpoint put_twobytes (args : list Z) : R unit :=
  match args with
  | [] => mret tt
  | p :: args => put_twobyte p;; put_twobytes args
  end.

(** The position is read before the pointer is tested. *)
Definition asuiterecord_append_twobyte (key : Z) (args : list Z) : R Z :=
  r ← deref;
  let len_index := position r in
  unless_null 1 (
    advance 2;;
    put key;;
    put_twobytes args;;
    let temp := htons (u16 (3 + u16 (2 * Z.of_nat (length args)))) in
    poke len_index (Z.land temp 255);;
    poke (len_index + 1) (Z.shiftr temp 8);;
    mret 0).

Definition asuiterecord_append_bare_twobyte (data : Z) : R Z :=
  unless_null 1 (put_twobyte data;; mret 0).

Definition asuiterecord_destroy : R Z :=
  unless_null 1 (put_st None;; mret 0).

(** The first [n] bytes of the buffer. *)
Fixpoint read_block (i : Z) (n : nat) : R (list Z) :=
  match n with
  | O => mret []
  | S n => b ← peek i; bs ← read_block (i + 1) n; mret (b :: bs)
  end.

(** ** Over a conversation *)
Section Send.
Context `{Cpic K}.

Definition on_record {A} (m : R A) : M (option asuiterecord * K) A := fun '(s, k) =>
  match m s with
  | Ret a s => Ret a (s, k)
  | Exit c s => Exit c (s, k)
  | Abort s => Abort (s, k)
  | Undef s => Undef (s, k)
  | NoFuel s => NoFuel (s, k)
  end.

Definition on_kernel {A} (f : K -> A * K) : M (option asuiterecord * K) A := fun '(s, k) =>
  let '(a, k) := f k in Ret a (s, k).

Definition send_asuiterecord : M (option asuiterecord * K) Z :=
  r ← on_record deref;
  block ← on_record (read_block 0 (Z.to_nat (position r)));
  cm_rc ← on_kernel (cmsend block);
  mret (if decide (cm_rc <> CM_OK) then cm_rc else ASUITE_RC_OK).

Definition get_asuiterecord : M (option asuiterecord * K) Z :=
  _ ← on_record deref;
  rcv ← on_kernel (cmrcv MAX_BUFFER_SIZE);
  on_record (poke_all 0 (rcv_data rcv));;
  if decide (rcv_rc rcv = CM_OK) then
    r ← on_record deref;
    on_record (set_rec (MkRecord (Z.of_nat (length (rcv_data rcv))) (buffer r)));;
    mret ASUITE_RC_OK
  else mret (rcv_rc rcv).

(** The response record is the function's own; [asuiterecord_new] is not
    checked, but every call on the record is, up to the send. *)
Definition send_simple_response (oom : bool) (errcode category index : Z) : M K unit := fun k =>
  let m :=
    on_record asuiterecord_clear;;
    on_record (asuiterecord_settype ASUITE_STATUS_RECORD);;
    on_record (asuiterecord_append_char ASUITE_STATUS_RETURN_CODE errcode);;
    (if decide (errcode <> 0) then
       on_record (asuiterecord_append_twobyte ASUITE_STATUS_CATEGORY_INDEX [category; index]);;
       on_record (asuiterecord_append ASUITE_STATUS_PRIMARY_MSG (str "ERROR" ++ [0]) 6)
     else mret 0);;
    send_asuiterecord;;
    on_record asuiterecord_destroy in
  match m (asuiterecord_new oom, k) with
  | Ret _ (_, k) => Ret tt k
  | Exit c (_, k) => Exit c k
  | Abort (_, k) => Abort k
  | Undef (_, k) => Undef k
  | NoFuel (_, k) => NoFuel k
  end.
End Send.
End Record.

(** ** The other helpers of the file *)

(** The loop of [safe_get_cwd] around [getcwd(NULL, size)]: the first call and
    every retry ask for [count * CWD_CHUNK] bytes, and [count] is 1 throughout.
    [cwd] is the directory, or the error other than [ERANGE] that [getcwd] ends
    with. *)
Definition getcwd (cwd : option (list Z)) (size : Z) : option (list Z) + bool :=
  match cwd with
  | None => inr false
  | Some d => if bool_decide (Z.of_nat (length d) + 1 <= size) then inl (Some d) else inr true
  end.

Fixpoint safe_get_cwd_loop (fuel : nat) (cwd : option (list Z)) (count : Z)
    (result : option (list Z) + bool) : option (option (list Z)) :=
  match fuel with
  | O => None
  | S fuel =>
      match result with
      | inl d => Some d
      | inr true => safe_get_cwd_loop fuel cwd count (getcwd cwd (count * CWD_CHUNK))
      | inr false => Some None
      end
  end.

Definition safe_get_cwd (fuel : nat) (cwd : option (list Z)) : option (option (list Z)) :=
  option_map (option_map (fun d => d ++ str "/"))
    (safe_get_cwd_loop fuel cwd 1 (getcwd cwd CWD_CHUNK)).

Definition fname_compare (a b : list Z) : Z := strcmp a b.

(** [g_slist_insert_sorted]: before the first element not smaller. *)
Fixpoint insert_sorted (x : list Z) (l : list (list Z)) : list (list Z) :=
  match l with
  | [] => [x]
  | y :: l' => if bool_decide (0 < fname_compare x y) then y :: insert_sorted x l' else x :: l
  end.

(** The loop over [readdir]. *)
Fixpoint file_list_loop (filespec : list Z) (entries filelist : list (list Z)) :
    option (list (list Z)) :=
  match entries with
  | [] => Some filelist
  | d_name :: entries =>
      m ← wc_match (block d_name) (block filespec);
      file_list_loop filespec entries
        (if (m : bool) then insert_sorted d_name filelist else filelist)
  end.

(** The result code and the list, assigned only when the directory opens. *)
Definition get_local_file_list (directory : option (list (list Z))) (filespec : list Z) :
    option (Z * option (list (list Z))) :=
  match directory with
  | None => Some (-1, None)
  | Some entries => l ← file_list_loop filespec entries []; Some (0, Some l)
  end.

(** ** What a record holds

    [rep r bs]: the position is after [bs], and the bytes of [bs] that are known
    are in the buffer. *)
Definition rep (r : asuiterecord) (bs : list (option Z)) : Prop :=
  position r = Z.of_nat (length bs) /\ Z.of_nat (length bs) <= MAX_BUFFER_SIZE /\
  forall i x, bs !! i = Some (Some x) -> buffer r !! Z.of_nat i = Some x.

Lemma peek_rep r bs i x :
  rep r bs -> bs !! i = Some (Some x) -> peek (Z.of_nat i) (Some r) = Ret x (Some r).
Proof.
  intros (Hp & Hm & Hb) Hi. pose proof (lookup_lt_Some _ _ _ Hi). unfold peek, mbind, M_bind.
  cbn. unfold in_buffer. rewrite bool_decide_true by lia. by rewrite (Hb _ _ Hi).
Qed.

Lemma poke_rep r bs i b :
  rep r bs -> (i < length bs)%nat ->
  exists r', poke (Z.of_nat i) b (Some r) = Ret tt (Some r') /\ rep r' (<[i := Some (u8 b)]> bs).
Proof.
  intros (Hp & Hm & Hb) Hi. unfold poke, mbind, M_bind. cbn. unfold in_buffer.
  rewrite bool_decide_true by lia. eexists. split; [done|]. split_and!; cbn.
  - by rewrite length_insert.
  - by rewrite length_insert.
  - intros j x Hj. destruct (decide (j = i)) as [->|Hne].
    + rewrite list_lookup_insert_eq in Hj by done. simplify_eq. by rewrite lookup_insert_eq.
    + rewrite list_lookup_insert_ne in Hj by done. rewrite lookup_insert_ne by lia. by apply Hb.
Qed.

Lemma advance_rep r bs n :
  rep r bs -> Z.of_nat (length bs + n) <= MAX_BUFFER_SIZE ->
  exists r', advance (Z.of_nat n) (Some r) = Ret tt (Some r') /\ rep r' (bs ++ replicate n None).
Proof.
  intros (Hp & Hm & Hb) Hn. eexists. split; [done|]. split_and!; cbn.
  - rewrite length_app, length_replicate. lia.
  - rewrite length_app, length_replicate. lia.
  - intros j x [Hj|[_ Hj]]%lookup_app_Some; [by apply Hb|].
    by apply lookup_replicate in Hj as [? _].
Qed.

(** Storing past the position, then moving it, appends. *)
Lemma poke_all_buffer bs r i :
  0 <= i -> i + Z.of_nat (length bs) <= MAX_BUFFER_SIZE ->
  exists r', poke_all i bs (Some r) = Ret tt (Some r') /\ position r' = position r /\
    (forall j, j < i -> buffer r' !! j = buffer r !! j) /\
    (forall j x, bs !! j = Some x -> buffer r' !! (i + Z.of_nat j) = Some (u8 x)).
Proof.
  revert r i. induction bs as [|b bs IH]; intros r i Hi Hmax; [by exists r|]. cbn [length] in Hmax.
  cbn [poke_all]. unfold poke at 1, mbind, M_bind. cbn. unfold in_buffer.
  rewrite bool_decide_true by lia.
  destruct (IH (MkRecord (position r) (<[i := u8 b]> (buffer r))) (i + 1)) as (r' & E & Hp & Hlo & Hhi);
    [lia..|]. exists r'. split; [exact E|]. split_and!; [done| |].
  - intros j Hj. rewrite Hlo by lia. cbn. by rewrite lookup_insert_ne by lia.
  - intros [|j] x Hx; cbn in Hx.
    + simplify_eq. rewrite Hlo by lia. cbn. rewrite Z.add_0_r. by rewrite lookup_insert_eq.
    + rewrite <-(Hhi j x Hx). f_equal. lia.
Qed.

Lemma poke_all_advance_rep bs r pre :
  rep r pre -> Z.of_nat (length pre + length bs) <= MAX_BUFFER_SIZE ->
  exists r', (poke_all (position r) bs;; advance (Z.of_nat (length bs))) (Some r) = Ret tt (Some r') /\
    rep r' (pre ++ (Some <$> (u8 <$> bs))).
Proof.
  intros (Hp & Hm & Hb) Hmax.
  destruct (poke_all_buffer bs r (position r)) as (r' & E & Hp' & Hlo & Hhi); [lia..|].
  rewrite (M_bind_Ret _ _ _ _ _ E). eexists. split; [done|]. split_and!; cbn.
  - rewrite length_app, !length_fmap. lia.
  - rewrite length_app, !length_fmap. lia.
  - intros i x [Hi|[Hge Hi]]%lookup_app_Some.
    + rewrite Hlo by (apply lookup_lt_Some in Hi; lia). by apply Hb.
    + rewrite <-list_fmap_compose in Hi. apply list_lookup_fmap_Some in Hi as (y & Hx & Hi). simplify_eq/=.
      rewrite <-(Hhi _ _ Hi). f_equal. lia.
Qed.

Lemma put_rep r pre b :
  rep r pre -> Z.of_nat (length pre + 1) <= MAX_BUFFER_SIZE ->
  exists r', put b (Some r) = Ret tt (Some r') /\ rep r' (pre ++ [Some (u8 b)]).
Proof.
  intros Hr Hmax. destruct (poke_all_advance_rep [b] r pre Hr) as (r' & E & Hr'); [done|].
  exists r'. split; [|done]. rewrite <-E. unfold put, poke_all. rewrite (M_bind_Ret _ _ _ r (Some r)) by done.
  unfold mbind, M_bind. by destruct (poke (position r) b (Some r)).
Qed.

(** ** Parameters on the wire *)

(** A 16-bit value as the code writes it on each kind of host. *)
Definition wire16 (be : bool) (n : Z) : list Z :=
  if be then [n mod 256; n / 256] else [n / 256; n mod 256].

Definition param : Type := Z * list Z.

(** A parameter: length (of the whole), key, data. *)
Definition param_bytes (be : bool) (p : param) : list Z :=
  wire16 be (Z.of_nat (length p.2) + 3) ++ [p.1] ++ p.2.

Lemma land_255 x : Z.land x 255 = x mod 256.
Proof. change 255 with (Z.ones 8). by rewrite Z.land_ones. Qed.

Lemma land_hi x : Z.shiftr (Z.land x 65280) 8 = (x / 256) mod 256.
Proof.
  rewrite Z.shiftr_land, Z.shiftr_div_pow2 by lia. change (Z.shiftr 65280 8) with (Z.ones 8).
  rewrite Z.land_ones by lia. done.
Qed.

Lemma bswap16_eq x : 0 <= x < 65536 -> bswap16 x = (x mod 256) * 256 + x / 256.
Proof.
  intros Hx. unfold bswap16. rewrite land_255, Z.shiftr_div_pow2, Z.shiftl_mul_pow2 by lia.
  change (2 ^ 8) with 256. pose proof (Z.mod_pos_bound x 256 ltac:(lia)).
  assert (x / 256 < 256) by (apply Z.div_lt_upper_bound; lia).
  assert (0 <= x / 256) by (apply Z.div_pos; lia).
  rewrite <-Z.add_lor_land.
  replace (Z.land (x mod 256 * 256) (x / 256)) with 0; [lia|].
  symmetry. apply Z.bits_inj'. intros n Hn. rewrite Z.land_spec, Z.bits_0.
  replace (x mod 256 * 256) with (x mod 256 * 2 ^ 8) by lia.
  destruct (decide (n < 8)).
  - by rewrite Z.mul_pow2_bits_low by lia.
  - rewrite (Z.bits_above_log2 (x / 256)); [by rewrite andb_false_r|lia|].
    destruct (decide (x / 256 = 0)) as [->|]; [cbn; lia|].
    apply Z.log2_lt_pow2; [lia|]. apply Z.lt_le_trans with (2 ^ 8); [lia|].
    apply Z.pow_le_mono_r; lia.
Qed.

(** The two bytes the code stores for a 16-bit value. *)
Lemma htons_bytes be n :
  0 <= n < 65536 ->
  [u8 (Z.land (htons be n) 255); u8 (Z.shiftr (htons be n) 8)] = wire16 be n.
Proof.
  intros Hn. assert (0 <= n / 256 < 256) by (split; [apply Z.div_pos|apply Z.div_lt_upper_bound]; lia).
  unfold htons, u16. rewrite Z.mod_small by done. pose proof (Z.mod_pos_bound n 256 ltac:(lia)).
  rewrite land_255, Z.shiftr_div_pow2 by lia. change (2 ^ 8) with 256. unfold u8.
  destruct be; [by rewrite Z.mod_mod, (Z.mod_small (n / 256)) by lia|].
  rewrite bswap16_eq by done. rewrite (Z.add_comm (_ * _)), Z.mod_add, Z.div_add by lia.
  rewrite (Z.div_small (n / 256)), Z.add_0_l by lia. by rewrite !Z.mod_mod, (Z.mod_small (n / 256)) by lia.
Qed.

Lemma htons_bounds be n : 0 <= htons be n < 65536.
Proof.
  unfold htons. pose proof (Z.mod_pos_bound n 65536 ltac:(lia)) as Hn. fold (u16 n) in Hn.
  destruct be; [done|]. rewrite bswap16_eq by done.
  pose proof (Z.mod_pos_bound (u16 n) 256 ltac:(lia)).
  assert (0 <= u16 n / 256 < 256) by (split; [apply Z.div_pos|apply Z.div_lt_upper_bound]; lia). lia.
Qed.

Lemma htons_u16 be n : htons be (u16 n) = htons be n.
Proof. unfold htons, u16. by rewrite Z.mod_mod. Qed.

Lemma wire16_bytes be n : 0 <= n < 65536 -> is_bytes (wire16 be n).
Proof.
  intros Hn. pose proof (Z.mod_pos_bound n 256 ltac:(lia)).
  assert (0 <= n / 256 < 256) by (split; [apply Z.div_pos|apply Z.div_lt_upper_bound]; lia).
  unfold wire16, is_byte. destruct be; repeat constructor; lia.
Qed.

Lemma length_wire16 be n : length (wire16 be n) = 2%nat.
Proof. by destruct be. Qed.

Lemma length_param be p : length (param_bytes be p) = (3 + length p.2)%nat.
Proof. unfold param_bytes. rewrite !length_app, length_wire16. done. Qed.

(** Reading a 16-bit value back. *)
Lemma get_twobyte_rep be r pre n post :
  0 <= n < 65536 -> rep r (pre ++ (Some <$> wire16 be n) ++ post) ->
  get_twobyte be (Z.of_nat (length pre)) (Some r) = Ret n (Some r).
Proof.
  intros Hn Hr. unfold get_twobyte.
  assert (exists a b, wire16 be n = [a; b]) as (a & b & E) by (destruct be; eauto).
  rewrite E in Hr. cbn in Hr.
  assert (peek (Z.of_nat (length pre)) (Some r) = Ret a (Some r)) as E1.
  { eapply peek_rep; [done|]. by rewrite lookup_app_r, Nat.sub_diag by lia. }
  assert (peek (Z.of_nat (length pre) + 1) (Some r) = Ret b (Some r)) as E2.
  { replace (Z.of_nat (length pre) + 1) with (Z.of_nat (S (length pre))) by lia.
    eapply peek_rep; [done|]. rewrite lookup_app_r by lia. by replace (S _ - _)%nat with 1%nat by lia. }
  rewrite (M_bind_Ret _ _ _ _ _ E2), (M_bind_Ret _ _ _ _ _ E1). f_equal.
  assert (0 <= n / 256 < 256) by (split; [apply Z.div_pos|apply Z.div_lt_upper_bound]; lia).
  pose proof (Z.mod_pos_bound n 256 ltac:(lia)). pose proof (Z.div_mod n 256 ltac:(lia)).
  assert (forall x y, 0 <= x < 256 -> 0 <= y < 256 ->
    Z.lor (Z.shiftl y 8) x = x + y * 256) as Hlor.
  { intros x y Hx Hy. pose proof (bswap16_eq (x * 256 + y) ltac:(lia)) as Hb. unfold bswap16 in Hb.
    rewrite land_255, Z.shiftr_div_pow2 in Hb by lia. change (2 ^ 8) with 256 in Hb.
    rewrite Z.add_comm, Z.mod_add, Z.div_add, (Z.mod_small y), (Z.div_small y) in Hb by lia.
    rewrite Z.add_0_l in Hb. rewrite Hb. lia. }
  unfold wire16 in E. unfold htons, u16. destruct be; simplify_eq.
  - rewrite Hlor by lia. replace (n mod 256 + n / 256 * 256) with n by lia.
    by rewrite Z.mod_mod, Z.mod_small by lia.
  - rewrite Hlor, Z.mod_mod by lia. rewrite (Z.mod_small _ 65536) by lia. rewrite bswap16_eq by lia.
    rewrite Z.mod_add, Z.div_add, (Z.mod_small (n / 256)), (Z.div_small (n / 256)) by lia. lia.
Qed.

(** ** What each operation adds to a record *)

(** Run the next [put] on a record known by [rep]. *)
Ltac put_step :=
  match goal with
  | H : rep ?r ?pre |- context [(put ?b ≫= _) (Some ?r)] =>
      let r' := fresh "rec" in let E := fresh "E" in let H' := fresh "Hrep" in
      destruct (put_rep r pre b H) as (r' & E & H');
      [unfold MAX_BUFFER_SIZE in *; rewrite ?length_app, ?length_fmap, ?length_replicate in *; cbn [length] in *; lia
      | rewrite (M_bind_Ret _ _ _ _ _ E); cbv beta; clear E H; try clear r;
        try rename r' into rec; try rename H' into Hrep]
  end.

Lemma htons_bytes_masked be n :
  [u8 (Z.land (htons be (u16 n)) 255); u8 (Z.shiftr (Z.land (htons be (u16 n)) 65280) 8)] =
  wire16 be (u16 n).
Proof.
  rewrite land_hi. rewrite <-(htons_bytes be (u16 n)) by (apply Z.mod_pos_bound; lia).
  pose proof (htons_bounds be (u16 n)). rewrite Z.shiftr_div_pow2 by lia. change (2 ^ 8) with 256.
  assert (0 <= htons be (u16 n) / 256 < 256)
    by (split; [apply Z.div_pos|apply Z.div_lt_upper_bound]; lia).
  by rewrite (Z.mod_small (_ / _)).
Qed.

Lemma append_rep be r pre key data d :
  rep r pre -> is_byte key -> is_bytes d -> strncpy data (length d) = Some d ->
  Z.of_nat (length pre + length (param_bytes be (key, d))) <= MAX_BUFFER_SIZE ->
  exists r', asuiterecord_append be key data (Z.of_nat (length d)) (Some r) = Ret 0 (Some r') /\
    rep r' (pre ++ (Some <$> param_bytes be (key, d))).
Proof.
  intros Hr Hk Hd Hs Hmax. rewrite length_param in Hmax. cbn in Hmax. unfold MAX_BUFFER_SIZE in Hmax.
  unfold asuiterecord_append, unless_null. rewrite (M_bind_Ret _ _ _ (Some r) (Some r)) by done.
  cbv beta iota zeta. set (temp := htons be _). put_step. put_step. put_step.
  rewrite (M_bind_Ret _ _ _ rec (Some rec)) by done. rewrite bool_decide_true by lia.
  rewrite Nat2Z.id, Hs, of_opt_Some_bind.
  destruct (poke_all_advance_rep d rec _ Hrep) as (r' & E & Hr').
  { rewrite !length_app. cbn. unfold MAX_BUFFER_SIZE. lia. }
  exists r'. split.
  - revert E. unfold mbind, M_bind. destruct (poke_all _ _ _); [|done..]. intros E.
    by destruct (advance _ _); simplify_eq.
  - unfold param_bytes. cbn [fst snd].
    assert (u16 (Z.of_nat (length d) + 3) = Z.of_nat (length d) + 3) as E16 by (apply Z.mod_small; lia).
    rewrite <-(htons_bytes be) by lia. subst temp. rewrite E16, u8_fmap_id, (u8_id key) in Hr' by done.
    rewrite <-!app_assoc in Hr'. rewrite !fmap_app. exact Hr'.
Qed.

Lemma append_char_rep be r pre key c :
  rep r pre -> is_byte key -> Z.of_nat (length pre + 4) <= MAX_BUFFER_SIZE ->
  exists r', asuiterecord_append_char be key c (Some r) = Ret 0 (Some r') /\
    rep r' (pre ++ (Some <$> param_bytes be (key, [u8 c]))).
Proof.
  intros Hr Hk Hmax. unfold asuiterecord_append_char, unless_null.
  rewrite (M_bind_Ret _ _ _ (Some r) (Some r)) by done.
  cbv beta iota zeta. set (temp := htons be _). repeat put_step. exists rec. split; [done|].
  unfold param_bytes. cbn [fst snd length]. rewrite <-(htons_bytes be) by lia.
  subst temp. rewrite (u8_id key) in Hrep by done.
  rewrite <-!app_assoc in Hrep. rewrite !fmap_app. exact Hrep.
Qed.

Definition twobytes (be : bool) (args : list Z) : list Z := mjoin (wire16 be <$> (u16 <$> args)).

Lemma twobytes_cons be p args : twobytes be (p :: args) = wire16 be (u16 p) ++ twobytes be args.
Proof. done. Qed.

Lemma length_twobytes be args : length (twobytes be args) = (2 * length args)%nat.
Proof.
  induction args as [|p args IH]; [done|].
  rewrite twobytes_cons, length_app, length_wire16, IH. cbn. lia.
Qed.

Lemma put_twobyte_rep be r pre p :
  rep r pre -> Z.of_nat (length pre + 2) <= MAX_BUFFER_SIZE ->
  exists r', put_twobyte be p (Some r) = Ret tt (Some r') /\
    rep r' (pre ++ (Some <$> wire16 be (u16 p))).
Proof.
  intros Hr Hmax. unfold put_twobyte. rewrite <-htons_bytes_masked. set (temp := htons be _).
  destruct (put_rep r pre (Z.land temp 255) Hr) as (r1 & E1 & H1); [lia|].
  rewrite (M_bind_Ret _ _ _ _ _ E1).
  destruct (put_rep r1 _ (Z.shiftr (Z.land temp 65280) 8) H1) as (r2 & E2 & H2);
    [rewrite length_app; cbn; lia|].
  exists r2. split; [exact E2|]. by rewrite <-app_assoc in H2.
Qed.

Lemma put_twobytes_rep be args : forall r pre,
  rep r pre -> Z.of_nat (length pre + 2 * length args) <= MAX_BUFFER_SIZE ->
  exists r', put_twobytes be args (Some r) = Ret tt (Some r') /\
    rep r' (pre ++ (Some <$> twobytes be args)).
Proof.
  induction args as [|p args IH]; intros r pre Hr Hmax; [by exists r; rewrite app_nil_r|].
  cbn [length] in Hmax. cbn [put_twobytes].
  destruct (put_twobyte_rep be r pre p Hr) as (r1 & E1 & H1); [lia|]. rewrite (M_bind_Ret _ _ _ _ _ E1).
  destruct (IH r1 _ H1) as (r2 & E2 & H2); [rewrite length_app, length_fmap, length_wire16; lia|].
  exists r2. split; [done|]. by rewrite twobytes_cons, fmap_app, app_assoc.
Qed.

(** Of the operations that test the pointer, the one that reads it before does not
    survive a null pointer. *)
Lemma append_twobyte_null be key args :
  asuiterecord_append_twobyte be key args None = Undef None /\ asuiterecord_append_bare_twobyte be key None = Ret 1 None.
Proof. done. Qed.

Lemma append_twobyte_rep be r pre key args :
  rep r pre -> is_byte key -> Z.of_nat (length pre + 3 + 2 * length args) <= MAX_BUFFER_SIZE ->
  exists r', asuiterecord_append_twobyte be key args (Some r) = Ret 0 (Some r') /\
    rep r' (pre ++ (Some <$> param_bytes be (key, twobytes be args))).
Proof.
  intros Hr Hk Hmax. unfold asuiterecord_append_twobyte, unless_null.
  rewrite (M_bind_Ret _ _ _ r (Some r)) by done.
  rewrite (M_bind_Ret _ _ _ (Some r) (Some r)) by done. cbv beta iota zeta.
  assert (position r = Z.of_nat (length pre)) as Hpos by apply Hr. rewrite Hpos.
  destruct (advance_rep r pre 2 Hr) as (r1 & E1 & H1); [lia|].
  change (Z.of_nat 2) with 2 in E1. rewrite (M_bind_Ret _ _ _ _ _ E1). clear E1 Hpos Hr.
  cbv beta. put_step. rename Hrep into H2. destruct (put_twobytes_rep be args _ _ H2) as (r3 & E3 & H3).
  { rewrite !length_app. cbn. lia. }
  rewrite (M_bind_Ret _ _ _ _ _ E3). clear E3 H2. set (temp := htons be _).
  rewrite <-!app_assoc in H3. cbn [replicate app] in H3.
  destruct (poke_rep r3 _ (length pre) (Z.land temp 255) H3) as (r4 & E4 & H4).
  { rewrite length_app. cbn. lia. }
  rewrite (M_bind_Ret _ _ _ _ _ E4). clear E4 H3.
  rewrite insert_app_r_alt, Nat.sub_diag in H4 by lia. cbn [insert list_insert] in H4.
  destruct (poke_rep r4 _ (S (length pre)) (Z.shiftr temp 8) H4) as (r5 & E5 & H5).
  { rewrite length_app. cbn. lia. }
  replace (Z.of_nat (length pre) + 1) with (Z.of_nat (S (length pre))) by lia.
  rewrite (M_bind_Ret _ _ _ _ _ E5). exists r5. split; [done|].
  rewrite insert_app_r_alt in H5 by lia. replace (S (length pre) - length pre)%nat with 1%nat in H5 by lia.
  cbn [insert list_insert] in H5. unfold param_bytes. cbn [fst snd]. rewrite length_twobytes.
  unfold MAX_BUFFER_SIZE in Hmax.
  rewrite <-(htons_bytes be) by lia. subst temp.
  assert (u16 (3 + u16 (2 * Z.of_nat (length args))) = 3 + 2 * Z.of_nat (length args)) as E16.
  { unfold u16. rewrite (Z.mod_small (2 * _)) by lia. by rewrite Z.mod_small by lia. }
  rewrite E16 in H5.
  rewrite (u8_id key) in H5 by done. rewrite !fmap_app. cbn.
  replace (Z.of_nat (length args + (length args + 0)) + 3) with (3 + 2 * Z.of_nat (length args)) by lia.
  exact H5.
Qed.

Lemma settype_rep be r x y bs t :
  rep r (x :: y :: bs) ->
  exists r', asuiterecord_settype be t (Some r) = Ret tt (Some r') /\
    rep r' ((Some <$> wire16 be (u16 t)) ++ bs).
Proof.
  intros Hr. unfold asuiterecord_settype, unless_null.
  rewrite (M_bind_Ret _ _ _ (Some r) (Some r)) by done. cbv beta iota zeta.
  rewrite <-htons_bytes_masked. set (temp := htons be _).
  destruct (poke_rep r _ 0 (Z.land temp 255) Hr) as (r1 & E1 & H1); [cbn; lia|].
  rewrite (M_bind_Ret _ _ _ _ _ E1).
  destruct (poke_rep r1 _ 1 (Z.shiftr (Z.land temp 65280) 8) H1) as (r2 & E2 & H2); [cbn; lia|].
  exists r2. by split.
Qed.

Lemma read_block_rep r bs pre post :
  rep r (pre ++ (Some <$> bs) ++ post) ->
  read_block (Z.of_nat (length pre)) (length bs) (Some r) = Ret bs (Some r).
Proof.
  revert pre. induction bs as [|b bs IH]; intros pre Hr; [done|]. cbn [length read_block].
  assert (peek (Z.of_nat (length pre)) (Some r) = Ret b (Some r)) as E.
  { eapply peek_rep; [exact Hr|]. by rewrite lookup_app_r, Nat.sub_diag by lia. }
  rewrite (M_bind_Ret _ _ _ _ _ E).
  assert (read_block (Z.of_nat (length pre) + 1) (length bs) (Some r) = Ret bs (Some r)) as E2.
  { replace (Z.of_nat (length pre) + 1) with (Z.of_nat (length (pre ++ [Some b])))
      by (rewrite length_app; cbn; lia).
    apply IH. by rewrite <-app_assoc. }
  by rewrite (M_bind_Ret _ _ _ _ _ E2).
Qed.

(** ** Records as messages *)

(** Data [asuiterecord_append] can carry whole: [strncpy] stops copying at a
    NUL, so only zeros may follow one. *)
Definition param_ok (p : param) : Prop :=
  is_byte p.1 /\ is_bytes p.2 /\ strncpy p.2 (length p.2) = Some p.2.

#[export] Instance param_ok_dec p : Decision (param_ok p).
Proof. unfold param_ok. apply _. Defined.

Definition params_bytes (be : bool) (ps : list param) : list Z := mjoin (param_bytes be <$> ps).

Definition message (be : bool) (t : Z) (ps : list param) : list Z :=
  wire16 be (u16 t) ++ params_bytes be ps.

Fixpoint append_params (be : bool) (ps : list param) : R unit :=
  match ps with
  | [] => mret tt
  | (key, d) :: ps => asuiterecord_append be key d (Z.of_nat (length d));; append_params be ps
  end.

(** The loop every reader of records runs: from [curpos] to the received
    length, parameter by parameter. *)
Fixpoint read_params (be : bool) (fuel : nat) (curpos : Z) : R (list param) :=
  match fuel with
  | O => no_fuel
  | S fuel =>
      n ← get_received_len;
      if bool_decide (curpos < n) then
        param_len ← get_param_len be curpos;
        key ← get_key curpos;
        d ← read_block (curpos + 3) (Z.to_nat (param_len - 3));
        rest ← read_params be fuel (curpos + param_len);
        mret ((key, d) :: rest)
      else mret []
  end.

Lemma params_bytes_cons be p ps : params_bytes be (p :: ps) = param_bytes be p ++ params_bytes be ps.
Proof. done. Qed.

Lemma params_length be ps : (length ps <= length (params_bytes be ps))%nat.
Proof. induction ps as [|p ps IH]; [done|]. rewrite params_bytes_cons, length_app, length_param. cbn. lia. Qed.

Lemma append_params_rep be ps : forall r pre,
  rep r pre -> Forall param_ok ps ->
  Z.of_nat (length pre + length (params_bytes be ps)) <= MAX_BUFFER_SIZE ->
  exists r', append_params be ps (Some r) = Ret tt (Some r') /\
    rep r' (pre ++ (Some <$> params_bytes be ps)).
Proof.
  induction ps as [|[key d] ps IH]; intros r pre Hr Hok Hmax; [by exists r; rewrite app_nil_r|].
  apply Forall_cons in Hok as [(Hk & Hd & Hs) Hok]. rewrite params_bytes_cons, length_app in Hmax.
  destruct (append_rep be r pre key d d Hr) as (r1 & E1 & H1); [done..|lia|].
  cbn [append_params]. rewrite (M_bind_Ret _ _ _ _ _ E1).
  destruct (IH r1 _ H1 Hok) as (r2 & E2 & H2); [rewrite length_app, length_fmap; lia|].
  exists r2. split; [done|]. by rewrite params_bytes_cons, fmap_app, app_assoc.
Qed.

(** A parameter as the accessors read it. *)
Lemma param_rep be r pre key d post : rep r (pre ++ (Some <$> param_bytes be (key, d)) ++ post) ->
  get_param_len be (Z.of_nat (length pre)) (Some r) = Ret (Z.of_nat (length d) + 3) (Some r) /\
  get_key (Z.of_nat (length pre)) (Some r) = Ret key (Some r) /\
  (forall n, (n <= length d)%nat -> read_block (Z.of_nat (length pre) + 3) n (Some r) = Ret (take n d) (Some r)).
Proof.
  intros Hr. pose proof Hr as (_ & Hm & _). rewrite !length_app, length_fmap, length_param in Hm. cbn [snd] in Hm.
  unfold MAX_BUFFER_SIZE in Hm. pose proof (length_wire16 be (Z.of_nat (length d) + 3)) as Hw.
  unfold param_bytes in Hr. cbn [fst snd] in Hr. rewrite !fmap_app, <-!app_assoc in Hr. split_and!.
  - eapply get_twobyte_rep; [lia|]. exact Hr.
  - unfold get_key. replace (Z.of_nat (length pre) + 2) with (Z.of_nat (length pre + 2)) by lia.
    eapply peek_rep; [exact Hr|]. rewrite lookup_app_r by lia.
    replace (length pre + 2 - length pre)%nat with 2%nat by lia. by destruct be.
  - intros n Hn. replace (Z.of_nat (length pre) + 3)
      with (Z.of_nat (length (pre ++ (Some <$> wire16 be (Z.of_nat (length d) + 3)) ++ [Some key]))).
    2: { rewrite !length_app, length_fmap, Hw. cbn. lia. }
    rewrite <- (length_take_le d n) at 1 by lia. eapply (read_block_rep r (take n d) _ ((Some <$> drop n d) ++ post)).
    rewrite <-!app_assoc, (app_assoc _ _ post), <-fmap_app, take_drop. exact Hr.
Qed.

Lemma read_params_rep be ps r : forall pre fuel,
  rep r (pre ++ (Some <$> params_bytes be ps)) -> Forall param_ok ps -> (length ps < fuel)%nat ->
  read_params be fuel (Z.of_nat (length pre)) (Some r) = Ret ps (Some r).
Proof.
  induction ps as [|[key d] ps IH]; intros pre [|fuel] Hr Hok Hf; try (cbn in Hf; lia);
    cbn [read_params]; pose proof Hr as (Hp & Hm & _);
    unfold get_received_len; rewrite M_bind_assoc, (M_bind_Ret deref _ _ r (Some r)), M_ret_bind by done;
    rewrite Hp, length_app, length_fmap.
  { rewrite bool_decide_false; [done|]. cbn. lia. }
  apply Forall_cons in Hok as [(Hk & Hd & Hs) Hok].
  rewrite params_bytes_cons, fmap_app in Hr.
  rewrite length_app, length_fmap in Hm. rewrite params_bytes_cons, length_app, length_param in Hm |- *.
  cbn [snd] in *. rewrite bool_decide_true by lia.
  destruct (param_rep be r pre key d _ Hr) as (E1 & E2 & E3). rewrite (M_bind_Ret _ _ _ _ _ E1), (M_bind_Ret _ _ _ _ _ E2).
  specialize (E3 (length d) ltac:(lia)). rewrite firstn_all in E3.
  replace (Z.to_nat (Z.of_nat (length d) + 3 - 3)) with (length d) by lia. rewrite (M_bind_Ret _ _ _ _ _ E3).
  replace (Z.of_nat (length pre) + (Z.of_nat (length d) + 3))
    with (Z.of_nat (length (pre ++ (Some <$> param_bytes be (key, d))))).
  2: { rewrite length_app, length_fmap, length_param. cbn [snd]. lia. }
  rewrite (M_bind_Ret _ _ _ ps (Some r)); [done|].
  apply IH; [by rewrite <-app_assoc|done|cbn in Hf; lia].
Qed.

(** ** Building messages *)

Lemma strncpy_terminated s : no_nul s -> strncpy (s ++ [0]) (length (s ++ [0])) = Some (s ++ [0]).
Proof.
  induction 1 as [|c s Hc _ IH]; [done|]. cbn [app length strncpy]. rewrite decide_False by done. by rewrite IH.
Qed.

Lemma message_snoc be t ps p : message be t (ps ++ [p]) = message be t ps ++ param_bytes be p.
Proof. unfold message, params_bytes. rewrite fmap_app, join_app. cbn. by rewrite app_nil_r, app_assoc. Qed.

Lemma length_message be t ps : length (message be t ps) = (2 + length (params_bytes be ps))%nat.
Proof. unfold message. by rewrite length_app, length_wire16. Qed.

Lemma message_bytes_ok be t ps : 0 <= t < 65536 -> Forall (fun p => is_byte p.1 /\ is_bytes p.2) ps ->
  Z.of_nat (length (message be t ps)) <= MAX_BUFFER_SIZE -> is_bytes (message be t ps).
Proof.
  intros Ht Hb Hl. rewrite length_message in Hl. unfold message. apply Forall_app_2.
  { apply wire16_bytes. apply Z.mod_pos_bound. lia. }
  unfold MAX_BUFFER_SIZE in Hl. induction Hb as [|[key d] ps [Hk Hd] _ IH]; [constructor|].
  rewrite params_bytes_cons, length_app, length_param in *. cbn [fst snd] in *. apply Forall_app_2; [|apply IH; lia].
  unfold param_bytes. cbn [fst snd]. apply Forall_app_2; [apply wire16_bytes; lia|]. by constructor.
Qed.

(** Clearing and typing any record. *)
Lemma start_message be t r : exists r', (asuiterecord_clear;; asuiterecord_settype be t) (Some r) = Ret tt (Some r') /\
  rep r' (Some <$> message be t []).
Proof.
  destruct (settype_rep be (MkRecord 2 (buffer r)) None None [] t) as (r' & E & Hr').
  { split_and!; [done|unfold MAX_BUFFER_SIZE; cbn; lia|]. by intros [|[|]] ? ?. }
  exists r'. split; [by rewrite (M_bind_Ret _ _ _ tt (Some (MkRecord 2 (buffer r))))|].
  unfold message, params_bytes. cbn [fmap list_fmap mjoin list_join]. by rewrite !app_nil_r in *.
Qed.

(** A string with its terminator. *)
Lemma append_string be r t ps key s n : rep r (Some <$> message be t ps) -> is_byte key -> is_bytes s -> no_nul s ->
  n = Z.of_nat (length s) + 1 -> Z.of_nat (length (message be t ps) + length s + 4) <= MAX_BUFFER_SIZE ->
  exists r', asuiterecord_append be key (s ++ [0]) n (Some r) = Ret 0 (Some r') /\
    rep r' (Some <$> message be t (ps ++ [(key, s ++ [0])])).
Proof.
  intros Hr Hk Hs Hn -> Hl. destruct (append_rep be r _ key (s ++ [0]) (s ++ [0]) Hr Hk) as (r' & E & Hr').
  - apply Forall_app_2; [done|]. constructor; [unfold is_byte; lia|constructor].
  - by apply strncpy_terminated.
  - rewrite length_fmap, length_param. cbn [snd]. rewrite length_app. cbn. lia.
  - exists r'. rewrite length_app in E. cbn [length] in E. replace (Z.of_nat (length s + 1)) with (Z.of_nat (length s) + 1) in E by lia.
    split; [exact E|]. by rewrite message_snoc, fmap_app.
Qed.

Lemma append_char be r t ps key c : rep r (Some <$> message be t ps) -> is_byte key ->
  Z.of_nat (length (message be t ps) + 4) <= MAX_BUFFER_SIZE ->
  exists r', asuiterecord_append_char be key c (Some r) = Ret 0 (Some r') /\
    rep r' (Some <$> message be t (ps ++ [(key, [u8 c])])).
Proof.
  intros Hr Hk Hl. destruct (append_char_rep be r _ key c Hr Hk) as (r' & E & Hr'); [by rewrite length_fmap|].
  exists r'. split; [done|]. by rewrite message_snoc, fmap_app.
Qed.

(** The major code of a message, on a little-endian host. *)
Lemma get_major_code_rep r t ps post : 0 <= t < 256 -> rep r ((Some <$> message false t ps) ++ post) ->
  get_major_code (Some r) = Ret t (Some r).
Proof.
  intros Ht Hr. unfold get_major_code. change 1 with (Z.of_nat 1). eapply peek_rep; [exact Hr|].
  unfold message, u16. rewrite (Z.mod_small t 65536) by lia. cbn. do 2 f_equal. apply Z.mod_small. lia.
Qed.

(** ** Messages over a conversation *)
Section Messages.
Context `{Cpic K}.

Lemma on_record_Ret {A} (m : R A) s (k : K) a s' :
  m s = Ret a s' -> on_record m (s, k) = Ret a (s', k).
Proof. unfold on_record. by intros ->. Qed.

Lemma send_asuiterecord_rep r bs (k : K) :
  rep r (Some <$> bs) ->
  send_asuiterecord (Some r, k) =
    Ret (if decide ((cmsend bs k).1 <> CM_OK) then (cmsend bs k).1 else ASUITE_RC_OK)
        (Some r, (cmsend bs k).2).
Proof.
  intros Hr. unfold send_asuiterecord.
  rewrite (M_bind_Ret (on_record deref) _ _ r (Some r, k)) by done. pose proof Hr as (Hp & _).
  assert (read_block 0 (Z.to_nat (position r)) (Some r) = Ret bs (Some r)) as E.
  { rewrite Hp, length_fmap, Nat2Z.id. apply (read_block_rep r bs [] []). by rewrite app_nil_r. }
  rewrite (M_bind_Ret _ _ _ _ _ (on_record_Ret _ _ k _ _ E)).
  unfold on_kernel, mbind, M_bind. by destruct (cmsend bs k).
Qed.

Lemma get_asuiterecord_rep r (k : K) bs :
  rcv_data (cmrcv MAX_BUFFER_SIZE k).1 = bs -> rcv_rc (cmrcv MAX_BUFFER_SIZE k).1 = CM_OK ->
  is_bytes bs -> Z.of_nat (length bs) <= MAX_BUFFER_SIZE ->
  exists r', get_asuiterecord (Some r, k) = Ret ASUITE_RC_OK (Some r', (cmrcv MAX_BUFFER_SIZE k).2) /\
    rep r' (Some <$> bs).
Proof.
  intros Hd Hrc Hbs Hmax. unfold get_asuiterecord.
  rewrite (M_bind_Ret (on_record deref) _ _ r (Some r, k)) by done.
  destruct (cmrcv MAX_BUFFER_SIZE k) as [rcv k'] eqn:Ercv. cbn in Hd, Hrc.
  rewrite (M_bind_Ret _ _ _ rcv (Some r, k')) by (unfold on_kernel; by rewrite Ercv).
  destruct (poke_all_buffer bs r 0) as (r1 & E & Hp & _ & Hb); [lia..|]. rewrite Hd.
  rewrite (M_bind_Ret _ _ _ _ _ (on_record_Ret _ _ k' _ _ E)).
  rewrite (decide_True (P := rcv_rc rcv = CM_OK)) by done.
  eexists. split; [done|]. split_and!; cbn.
  - by rewrite length_fmap.
  - by rewrite length_fmap.
  - intros i x Hi. apply list_lookup_fmap_Some in Hi as (y & Hx & Hi). simplify_eq.
    specialize (Hb _ _ Hi). rewrite Z.add_0_l in Hb. rewrite Hb. f_equal. apply u8_id.
    by eapply Forall_lookup_1 in Hi.
Qed.

Lemma poke_all_keeps bs : forall i r x r1, poke_all i bs (Some r) = Ret x (Some r1) ->
  forall j, i + Z.of_nat (length bs) <= j -> buffer r1 !! j = buffer r !! j.
Proof.
  induction bs as [|b bs IH]; intros i r x r1 E j Hj; [injection E; by intros <- _|].
  cbn [poke_all length] in *. unfold poke, mbind, M_bind in E. cbn in E. destruct (in_buffer i); [|done].
  rewrite (IH _ _ _ _ E j) by lia. cbn. rewrite lookup_insert_ne; [done|lia].
Qed.

(** The bytes past a message are those of the record before. *)
Lemma get_asuiterecord_keeps r (k : K) r' k' j :
  get_asuiterecord (Some r, k) = Ret ASUITE_RC_OK (Some r', k') ->
  Z.of_nat (length (rcv_data (cmrcv MAX_BUFFER_SIZE k).1)) <= j -> buffer r' !! j = buffer r !! j.
Proof.
  unfold get_asuiterecord. rewrite (M_bind_Ret (on_record deref) _ _ r (Some r, k)) by done.
  destruct (cmrcv MAX_BUFFER_SIZE k) as [rcv k1] eqn:Ercv. cbn [fst].
  rewrite (M_bind_Ret _ _ _ rcv (Some r, k1)) by (unfold on_kernel; by rewrite Ercv).
  intros E Hj. unfold on_record, mbind, M_bind in E. destruct (poke_all 0 (rcv_data rcv) (Some r)) as [[] [r1|]| | | |] eqn:Eo;
    cbn in E; try discriminate E; [|case_decide; discriminate E].
  pose proof (poke_all_keeps _ _ _ _ _ Eo j Hj) as Ho. case_decide; cbn in E; injection E; [by intros _ <-|by intros _ <-].
Qed.

(** ** Over conversations that deliver *)

Context `{HD : !Delivers K}.

Lemma send_delivers r bs (k : K) : rep r (Some <$> bs) ->
  exists k', send_asuiterecord (Some r, k) = Ret ASUITE_RC_OK (Some r, k') /\ outbox k' = outbox k ++ [bs] /\ inbox k' = inbox k.
Proof.
  intros Hr. rewrite (send_asuiterecord_rep r bs k Hr), cmsend_ok. rewrite decide_False by (by intros []).
  eexists. split; [done|]. by rewrite cmsend_outbox, cmsend_inbox.
Qed.

Lemma get_delivers r (k : K) m ms : inbox k = m :: ms -> is_bytes m -> Z.of_nat (length m) <= MAX_BUFFER_SIZE ->
  exists r' k', get_asuiterecord (Some r, k) = Ret ASUITE_RC_OK (Some r', k') /\ rep r' (Some <$> m) /\
    outbox k' = outbox k /\ inbox k' = ms /\ forall j, Z.of_nat (length m) <= j -> buffer r' !! j = buffer r !! j.
Proof.
  intros Hin Hb Hl. destruct (cmrcv_inbox MAX_BUFFER_SIZE k m ms Hin Hb Hl) as (Hd & Hrc & Hi & Ho).
  destruct (get_asuiterecord_rep r k m Hd Hrc Hb Hl) as (r' & E & Hr').
  exists r', (cmrcv MAX_BUFFER_SIZE k).2. split_and!; try done.
  intros j Hj. eapply get_asuiterecord_keeps; [exact E|]. by rewrite Hd.
Qed.
End Messages.

(** ** Sorting *)

Lemma strcmp_sym a b : strcmp a b = - strcmp b a.
Proof.
  revert b. induction a as [|x a IH]; intros [|y b]; try done. cbn.
  destruct (decide (x = y)) as [->|]; [by rewrite decide_True|]. rewrite decide_False by done. lia.
Qed.

Definition name_le (a b : list Z) : Prop := fname_compare a b <= 0.

Lemma insert_sorted_HdRel x y l : name_le y x -> HdRel name_le y l -> HdRel name_le y (insert_sorted x l).
Proof. destruct l as [|z l]; cbn; [by constructor|]. inversion 2; case_bool_decide; by constructor. Qed.

Lemma insert_sorted_Sorted x l : Sorted name_le l -> Sorted name_le (insert_sorted x l).
Proof.
  induction 1 as [|y l Hl IH Hy]; cbn; [by repeat constructor|]. case_bool_decide as Hc.
  - constructor; [done|]. apply insert_sorted_HdRel; [|done].
    unfold name_le, fname_compare in *. rewrite strcmp_sym. lia.
  - constructor; [by constructor|]. constructor. unfold name_le. lia.
Qed.

Lemma insert_sorted_perm x l : insert_sorted x l ≡ₚ x :: l.
Proof.
  induction l as [|y l IH]; [done|]. cbn. case_bool_decide; [|done]. rewrite IH. apply Permutation_swap.
Qed.

(** The matcher ends inside the name and the pattern. *)
Definition decided (filespec name : list Z) : Prop := is_Some (wc_match (block name) (block filespec)).

#[export] Instance decided_dec filespec name : Decision (decided filespec name).
Proof. unfold decided. apply _. Defined.

(** The names of a directory that a pattern takes. *)
Definition taken (filespec : list Z) (entries : list (list Z)) : list (list Z) :=
  filter (fun e => wc_match (block e) (block filespec) = Some true) entries.

Lemma file_list_loop_spec filespec entries : forall acc, Forall (decided filespec) entries -> Sorted name_le acc ->
  exists l, file_list_loop filespec entries acc = Some l /\ Sorted name_le l /\ l ≡ₚ acc ++ taken filespec entries.
Proof.
  induction entries as [|e entries IH]; intros acc Hd Hs.
  { exists acc. by rewrite app_nil_r. }
  apply Forall_cons in Hd as [[m E] Hd]. cbn [file_list_loop]. rewrite E. cbn [mbind option_bind].
  destruct (IH (if m then insert_sorted e acc else acc)) as (l & El & Hl & Hp); try done.
  { destruct m; [by apply insert_sorted_Sorted|done]. }
  exists l. split_and!; [done..|]. unfold taken in *. rewrite Hp, filter_cons, E. destruct m.
  - rewrite decide_True by done. rewrite insert_sorted_perm. apply Permutation_middle.
  - by rewrite decide_False.
Qed.

Lemma file_list_loop_undecided filespec entries : ~ Forall (decided filespec) entries -> forall acc, file_list_loop filespec entries acc = None.
Proof.
  induction entries as [|e entries IH]; intros Hd acc; [by destruct Hd|]. cbn [file_list_loop].
  destruct (wc_match (block e) (block filespec)) as [m|] eqn:E; [|done]. apply IH. intros Hd'. destruct Hd. constructor; [by exists m|done].
Qed.

Lemma decided_without_question filespec entries : no_nul filespec -> good_pattern filespec = true -> QUESTION ∉ filespec -> Forall no_nul entries ->
  Forall (decided filespec) entries.
Proof.
  intros Hf Hg Hq Hn. eapply Forall_impl; [exact Hn|]. intros e He. unfold decided. pose proof (wc_match_agrees filespec e Hf Hg He) as Ha.
  by destruct (wc_match (block e) (block filespec)).
Qed.

(** Without a ['?'] the matcher decides the meaning. *)
Lemma wc_match_no_question p s :
  no_nul p -> good_pattern p = true -> no_nul s -> QUESTION ∉ p ->
  wc_match (block s) (block p) = Some true <-> glob p s.
Proof.
  intros Hp Hg Hs Hq. pose proof (wc_match_agrees p s Hp Hg Hs) as H.
  destruct (wc_match (block s) (block p)) as [[|]|]; cbn in H; [|by split|done].
  split; [intros _|done]. destruct H as [?|(p' & k & k' & -> & _)]; [done|].
  destruct Hq. cbn. set_solver.
Qed.

(** ** Properties *)

(** C13: messages round trip.  A record built with any type and parameters that
    fit is sent as one block; whoever receives that block, whatever its buffer
    held before, reads back exactly the parameters, in order.  This holds between
    hosts of the same byte order, either one; the type is read back only on a
    little-endian host. *)
Theorem asuite_record_exchange be t ps :
  Forall param_ok ps -> 0 <= t < 256 -> Z.of_nat (length (message be t ps)) <= MAX_BUFFER_SIZE ->
  exists r,
    (asuiterecord_clear;; asuiterecord_settype be t;; append_params be ps)
      (asuiterecord_new false) = Ret tt (Some r) /\
    (forall K (HK : Cpic K) (k : K),
      send_asuiterecord (Some r, k) =
        Ret (if decide ((cmsend (message be t ps) k).1 <> CM_OK)
             then (cmsend (message be t ps) k).1 else ASUITE_RC_OK)
            (Some r, (cmsend (message be t ps) k).2)) /\
    (forall K (HK : Cpic K) (k : K) old,
      rcv_data (cmrcv MAX_BUFFER_SIZE k).1 = message be t ps ->
      rcv_rc (cmrcv MAX_BUFFER_SIZE k).1 = CM_OK ->
      exists r', get_asuiterecord (Some old, k) =
          Ret ASUITE_RC_OK (Some r', (cmrcv MAX_BUFFER_SIZE k).2) /\
        read_params be (S (length ps)) 2 (Some r') = Ret ps (Some r') /\
        get_major_code (Some r') = Ret (if be then 0 else t) (Some r')).
Proof.
  intros Hok Ht Hmax. unfold message in Hmax.
  assert (u16 t = t) as Et by (apply Z.mod_small; lia).
  rewrite length_app, length_wire16 in Hmax.
  destruct (settype_rep be (MkRecord 2 ∅) None None [] t) as (r1 & E1 & H1).
  { split_and!; [done|unfold MAX_BUFFER_SIZE; cbn; lia|]. by intros [|[|]] ? ?. }
  rewrite app_nil_r in H1.
  destruct (append_params_rep be ps r1 _ H1 Hok) as (r & E2 & H2).
  { rewrite length_fmap, length_wire16. lia. }
  rewrite <-fmap_app in H2. fold (message be t ps) in H2. exists r. split_and!.
  - rewrite (M_bind_Ret _ _ _ tt (Some (MkRecord 2 ∅))) by done. by rewrite (M_bind_Ret _ _ _ _ _ E1).
  - intros K HK k. by apply send_asuiterecord_rep.
  - intros K HK k old Hd Hrc.
    destruct (get_asuiterecord_rep old k _ Hd Hrc) as (r' & E & Hr').
    { apply Forall_app_2; [apply wire16_bytes; rewrite Et; lia|].
      clear -Hok Hmax. unfold MAX_BUFFER_SIZE in Hmax. induction Hok as [|[key d] ps (Hk & Hd & _) Hok IH]; [constructor|].
      rewrite params_bytes_cons, length_app, length_param in *. cbn in *.
      apply Forall_app_2; [|apply IH; lia]. unfold param_bytes. cbn.
      apply Forall_app_2; [apply wire16_bytes; lia|]. by constructor. }
    { unfold message. rewrite length_app, length_wire16. done. }
    exists r'. split_and!; [done| |].
    + unfold message in Hr'. rewrite fmap_app in Hr'.
      replace 2 with (Z.of_nat (length (Some <$> wire16 be (u16 t)))) by (by rewrite length_fmap, length_wire16).
      apply read_params_rep; [done..|lia].
    + unfold get_major_code. change 1 with (Z.of_nat 1). eapply peek_rep; [done|].
      unfold message. rewrite Et. destruct be; cbn; do 2 f_equal.
      * by apply Z.div_small.
      * by apply Z.mod_small.
Qed.

Lemma asuite_record_exchange_witness :
  Forall param_ok [(1, str "/tmp/f" ++ [0]); (9, [])] /\
  exists r,
    (asuiterecord_clear;; asuiterecord_settype false 7;;
     append_params false [(1, str "/tmp/f" ++ [0]); (9, [])])
      (asuiterecord_new false) = Ret tt (Some r).
Proof.
  assert (Forall param_ok [(1, str "/tmp/f" ++ [0]); (9, [])]) as H
    by (apply (bool_decide_unpack _); vm_compute; exact I).
  split; [exact H|].
  destruct (asuite_record_exchange false 7 _ H) as (r & E & _);
    [lia | vm_compute; discriminate | exists r; exact E].
Defined.

(** The parameters of a status response. *)
Definition status_params (be : bool) (errcode category index : Z) : list param :=
  (ASUITE_STATUS_RETURN_CODE, [u8 errcode]) ::
  (if decide (errcode <> 0) then
     [(ASUITE_STATUS_CATEGORY_INDEX, twobytes be [category; index]);
      (ASUITE_STATUS_PRIMARY_MSG, str "ERROR" ++ [0])]
   else []).

(** A status response always goes out, as one block: the status record with
    the return code, and for an error code the category, index and message. *)
Theorem send_simple_response_wire be errcode category index {K} (HK : Cpic K) (k : K) :
  send_simple_response be false errcode category index k =
    Ret tt (cmsend (message be ASUITE_STATUS_RECORD (status_params be errcode category index)) k).2.
Proof.
  unfold send_simple_response. set (m := on_record asuiterecord_clear ≫= _).
  assert (exists a, m (asuiterecord_new false, k) = Ret a (None, (cmsend (message be ASUITE_STATUS_RECORD
    (status_params be errcode category index)) k).2)) as [a ->]; [|done].
  subst m. rewrite (M_bind_Ret (on_record _) _ _ tt (Some (MkRecord 2 ∅), k)) by done.
  destruct (settype_rep be (MkRecord 2 ∅) None None [] ASUITE_STATUS_RECORD) as (r1 & E1 & H1).
  { split_and!; [done|unfold MAX_BUFFER_SIZE; cbn; lia|]. by intros [|[|]] ? ?. }
  rewrite app_nil_r in H1. rewrite (M_bind_Ret _ _ _ _ _ (on_record_Ret _ _ k _ _ E1)).
  pose proof (length_wire16 be (u16 ASUITE_STATUS_RECORD)) as Hw.
  destruct (append_char_rep be r1 _ ASUITE_STATUS_RETURN_CODE errcode H1) as (r2 & E2 & H2).
  { unfold is_byte, ASUITE_STATUS_RETURN_CODE; lia. }
  { rewrite length_fmap, Hw. unfold MAX_BUFFER_SIZE. lia. }
  rewrite (M_bind_Ret _ _ _ _ _ (on_record_Ret _ _ k _ _ E2)).
  unfold status_params. destruct (decide (errcode <> 0)).
  - destruct (append_twobyte_rep be r2 _ ASUITE_STATUS_CATEGORY_INDEX [category; index] H2) as (r3 & E3 & H3).
    { unfold is_byte, ASUITE_STATUS_CATEGORY_INDEX; lia. }
    { rewrite length_app, !length_fmap, length_param, Hw. unfold MAX_BUFFER_SIZE. cbn. lia. }
    destruct (append_rep be r3 _ ASUITE_STATUS_PRIMARY_MSG (str "ERROR" ++ [0]) (str "ERROR" ++ [0]) H3)
      as (r4 & E4 & H4).
    { unfold is_byte, ASUITE_STATUS_PRIMARY_MSG; lia. }
    { apply (bool_decide_unpack _). vm_compute. exact I. }
    { done. }
    { rewrite !length_app, !length_fmap, !length_param, Hw. cbn [snd]. rewrite length_twobytes. unfold MAX_BUFFER_SIZE. cbn. lia. }
    change (Z.of_nat (length (str "ERROR" ++ [0]))) with 6 in E4.
    rewrite M_bind_assoc, (M_bind_Ret _ _ _ _ _ (on_record_Ret _ _ k _ _ E3)),
      (M_bind_Ret _ _ _ _ _ (on_record_Ret _ _ k _ _ E4)).
    rewrite <-!fmap_app, <-!app_assoc in H4.
    rewrite (M_bind_Ret _ _ _ _ _ (send_asuiterecord_rep _ _ k H4)). eexists.
    unfold message, params_bytes. cbn [fmap list_fmap mjoin list_join]. rewrite app_nil_r. done.
  - rewrite M_ret_bind. rewrite <-!fmap_app in H2.
    rewrite (M_bind_Ret _ _ _ _ _ (send_asuiterecord_rep _ _ k H2)). eexists.
    unfold message, params_bytes. cbn [fmap list_fmap mjoin list_join]. rewrite app_nil_r. done.
Qed.

(** the directory listing.  For a pattern [wc_match] decides, the list
    returned is sorted by [strcmp] and holds exactly the directory's entries
    the pattern means, as often as they occur. *)
Theorem get_local_file_list_matches entries filespec :
  Forall no_nul entries -> no_nul filespec -> good_pattern filespec = true ->
  QUESTION ∉ filespec ->
  exists l, get_local_file_list (Some entries) filespec = Some (0, Some l) /\
    Sorted name_le l /\
    l ≡ₚ filter (fun e => wc_match (block e) (block filespec) = Some true) entries /\
    (forall e, e ∈ l <-> e ∈ entries /\ glob filespec e).
Proof.
  intros Hn Hf Hg Hq.
  destruct (file_list_loop_spec filespec entries []) as (l & E & Hs & Hp); [by apply decided_without_question|constructor|].
  exists l. cbn. rewrite E. split_and!; [done..|]. intros e. rewrite Hp. cbn [app]. unfold taken.
  rewrite list_elem_of_filter. split; intros [Hm He]; split; try done.
  - apply wc_match_no_question; try done. rewrite Forall_forall in Hn. by apply Hn.
  - apply wc_match_no_question; try done. rewrite Forall_forall in Hn. by apply Hn.
Qed.

Lemma get_local_file_list_matches_witness :
  Forall no_nul [str "b.txt"; str "a.log"; str "a.txt"] /\
  exists l, get_local_file_list (Some [str "b.txt"; str "a.log"; str "a.txt"]) (str "*.txt") = Some (0, Some l) /\
    Sorted name_le l.
Proof.
  assert (Forall no_nul [str "b.txt"; str "a.log"; str "a.txt"]) as H
    by (apply (bool_decide_unpack _); vm_compute; exact I).
  split; [exact H|].
  destruct (get_local_file_list_matches _ (str "*.txt") H) as (l & E & Hs & _);
    [apply (bool_decide_unpack _); vm_compute; exact I | vm_compute; reflexivity
    | apply (bool_decide_unpack _); vm_compute; exact I | exists l; split; assumption].
Defined.

(** [safe_get_cwd] returns the working directory with a ['/'] behind it
    when the path fits the first request, and never returns otherwise: the
    retries all ask for the same size. *)
Theorem safe_get_cwd_spec fuel d :
  safe_get_cwd (S fuel) (Some d) =
    if bool_decide (Z.of_nat (length d) + 1 <= CWD_CHUNK) then Some (Some (d ++ str "/")) else None.
Proof.
  unfold safe_get_cwd. cbn [getcwd]. case_bool_decide as H; [done|].
  assert (forall n, safe_get_cwd_loop n (Some d) 1 (inr true) = None) as ->; [|done].
  induction n as [|n IH]; [done|]. cbn [safe_get_cwd_loop getcwd].
  rewrite bool_decide_false by (rewrite Z.mul_1_l; done). exact IH.
Qed.

(** [asuiterecord_append_fourbyte] writes the wrong length: 4 for a parameter
    that takes 7 bytes, so a reader resumes inside its data. *)
Lemma append_fourbyte_length be r pre key data :
  rep r pre -> is_byte key -> Z.of_nat (length pre + 7) <= MAX_BUFFER_SIZE ->
  exists r', asuiterecord_append_fourbyte be key data (Some r) = Ret 0 (Some r') /\
    get_param_len be (Z.of_nat (length pre)) (Some r') = Ret 4 (Some r') /\
    get_received_len (Some r') = Ret (Z.of_nat (length pre) + 7) (Some r').
Proof.
  intros Hr Hk Hmax. unfold asuiterecord_append_fourbyte, unless_null.
  rewrite (M_bind_Ret _ _ _ (Some r) (Some r)) by done.
  cbv beta iota zeta. set (temp := htons be _). repeat put_step. exists rec. split; [done|].
  rewrite <-!app_assoc in Hrep. split.
  - eapply get_twobyte_rep; [lia|]. rewrite <-(htons_bytes be) by lia. exact Hrep.
  - unfold get_received_len. rewrite (M_bind_Ret deref _ _ rec (Some rec)) by done.
    destruct Hrep as [-> _]. rewrite length_app. cbn. f_equal. lia.
Qed.
