(* ===== verification/CpicSession.v ===== *)
(** * libasuite/cpicsession.c: sessions and the exchange of versions

    The character arrays of [cpic_session] follow each other in the structure
    without padding; [text] is that stretch of memory, [None] for a byte not yet
    assigned, and a member is an offset and a size in it.  So a store past the
    end of one array lands in the next, as it does in the program. *)
From S2P Require Import Prelude Cpic.

Definition EXCHANGE_BUFFER_SIZE := 128.
Definition EXCHANGE_VERSION := 1.
Definition EXCHANGE_OS_NAME := 2.
Definition RC_OK := 0.
Definition OS_NAME : list Z := str "Linux".

(** ** Memory with unassigned bytes *)

Abbreviation mem := (list (option Z)).

(** Store [bs] from [off] on; [None] when the block ends before. *)
Definition mem_write (off : nat) (bs : list Z) (m : mem) : option mem :=
  if bool_decide (off + length bs <= length m)%nat
  then Some (take off m ++ (Some <$> bs) ++ drop (off + length bs) m) else None.

(** [strupr] of the string at the start of [m]. *)
Fixpoint mem_strupr (m : mem) : option mem :=
  match m with
  | Some c :: m => if decide (c = 0) then Some (Some c :: m) else cons (Some (toupper c)) <$> mem_strupr m
  | _ => None
  end.

Definition mem_strupr_at (off : nat) (m : mem) : option mem :=
  (fun t => take off m ++ t) <$> mem_strupr (drop off m).

(** ** Sessions *)

(** A member of the structure: where it starts and its size. *)
Record member : Type := MkMember { offset : nat; size : nat }.

Definition tp_name : member := MkMember 0 65.
Definition mode_name : member := MkMember 65 9.
Definition destination : member := MkMember 74 18.
Definition sym_dest_name : member := MkMember 92 9.
Definition userid : member := MkMember 101 9.
Definition password : member := MkMember 110 9.

Record cpic_session : Type := MkSession {
  symbolic : option Z;
  text : mem;
  security_type : option Z
}.

Definition cpic_session_new (oom : bool) : option cpic_session :=
  if oom then None else Some (MkSession None (replicate 119 None) None).

Abbreviation Ses := (M cpic_session).

(** A partial operation on the characters. *)
Definition on_text (f : mem -> option mem) : Ses unit :=
  s ← get_st;
  m ← of_opt (f (text s));
  put_st (MkSession (symbolic s) m (security_type s)).
Definition set_symbolic (v : Z) : Ses unit :=
  modify (fun s => MkSession (Some v) (text s) (security_type s)).
Definition cpic_session_set_security_type (v : Z) : Ses unit :=
  modify (fun s => MkSession (symbolic s) (text s) (Some v)).

(** [memcpy(This->f, s, length)] and [This->f[i] = '\0']. *)
Definition copy (f : member) (s : list Z) : Ses unit := on_text (mem_write (offset f) s).
Definition terminate (f : member) (i : nat) : Ses unit := on_text (mem_write (offset f + i) [0]).
Definition fits (f : member) (s : list Z) : bool := bool_decide (length s < size f)%nat.

Definition cpic_session_set_tp_name (s : list Z) : Ses Z :=
  if fits tp_name s then
    copy tp_name s;; terminate tp_name (length s);; mret 0
  else mret 1.

Definition cpic_session_set_mode_name (s : list Z) : Ses Z :=
  if fits mode_name s then
    copy mode_name s;; terminate mode_name (length s);;
    on_text (mem_strupr_at (offset mode_name));; mret 0
  else mret 1.

(** The terminator goes to index [MAX_SYM_DEST_NAME], the array's size. *)
Definition cpic_session_set_symbolic_name (s : list Z) : Ses Z :=
  set_symbolic 1;;
  if fits sym_dest_name s then
    copy sym_dest_name (replicate (size sym_dest_name) 32);;
    copy sym_dest_name s;; terminate sym_dest_name (size sym_dest_name);;
    on_text (mem_strupr_at (offset sym_dest_name));; mret 0
  else mret 1.

Definition cpic_session_set_destination (s : list Z) : Ses Z :=
  set_symbolic 0;;
  if fits destination s then
    copy destination (replicate (size destination) 32);;
    copy destination s;; terminate destination (length s);;
    on_text (mem_strupr_at (offset destination));; mret 0
  else mret 1.

Definition cpic_session_set_userid (s : list Z) : Ses Z :=
  if fits userid s then
    copy userid s;; terminate userid (length s);;
    cpic_session_set_security_type CM_SECURITY_PROGRAM;; mret 0
  else mret 1.

Definition cpic_session_set_password (s : list Z) : Ses Z :=
  if fits password s then
    copy password s;; terminate password (length s);;
    cpic_session_set_security_type CM_SECURITY_PROGRAM;; mret 0
  else mret 1.

(** The string a member holds. *)
Definition member_string (f : member) (s : cpic_session) : option (list Z) :=
  mem_string (drop (offset f) (text s)).

(** ** Starting a conversation *)
Section Conversation.
Context `{Cpic K}.

Definition verb {A} (f : K -> A * K) : M K A := fun k => let '(a, k) := f k in Ret a k.

(** A symbolic destination name is eight characters. *)
Definition sym_name (s : cpic_session) : option (list Z) :=
  mapM id (take 8 (drop (offset sym_dest_name) (text s))).

(** Returns the final [cpicrc]; the function's own result is always 0.  The
    verbs after a failing one are skipped by [goto errout]. *)
Definition cpic_session_init (This : cpic_session) : M K Z :=
  sym ← of_opt (symbolic This);
  if decide (sym <> 0) then
    name ← of_opt (sym_name This);
    verb (cminit name)
  else
    cm_rc ← verb (cminit (replicate 8 32));
    if decide (cm_rc <> CM_OK) then mret cm_rc else
    lu ← of_opt (member_string destination This);
    cm_rc ← verb (cmspln lu);
    if decide (cm_rc <> CM_OK) then mret cm_rc else
    tp ← of_opt (member_string tp_name This);
    cm_rc ← verb (cmstpn tp);
    if decide (cm_rc <> CM_OK) then mret cm_rc else
    mode ← of_opt (member_string mode_name This);
    verb (cmsmn mode).

(** ** Exchange of versions *)

(** What the caller gets: the other side's version, the operating system name
    if the caller's buffer was written, and [*rc]. *)
Record version : Type := MkVersion { major : Z; minor : Z; os_name : option (list Z); vrc : Z }.

(** [received_len] bytes received into the buffer of [sizeof(buffer)], then the
    version and the name picked from it; [os_name_len] is [None] for a NULL
    [os_name].  A full buffer is terminated one byte past its end. *)
Definition parse_version (data : list Z) (os_name_len : option Z) (v : version) : option version :=
  let n := Z.of_nat (length data) in
  let v := if bool_decide (n > 2 /\ data !! 0%nat = Some EXCHANGE_VERSION)
           then MkVersion (default 0 (data !! 1%nat)) (default 0 (data !! 2%nat)) (os_name v) (vrc v)
           else v in
  match os_name_len with
  | Some len =>
      if bool_decide (len > 1) then
        if bool_decide (n > 4 /\ data !! 3%nat = Some EXCHANGE_OS_NAME) then
          if bool_decide (n < EXCHANGE_BUFFER_SIZE) then
            let name := c_str (drop 4 data ++ [0]) in
            Some (MkVersion (major v) (minor v)
                    (Some (take (Z.to_nat (Z.min (Z.of_nat (length name)) (len - 1))) name)) (vrc v))
          else None
        else Some (MkVersion (major v) (minor v) (Some []) (vrc v))
      else Some v
  | None => Some v
  end.

Definition with_rc (v : version) (rc : Z) : version := MkVersion (major v) (minor v) (os_name v) rc.

(** The result and what was assigned. *)
Definition get_server_version (client_major client_minor : Z) (os_name_len : option Z) :
    M K (Z * version) :=
  let v := MkVersion 0 0 None CM_OK in
  rc ← verb (cmsptr CM_PREP_TO_RECEIVE_FLUSH);
  if decide (rc <> CM_OK) then mret (RC_OK, with_rc v rc) else
  rc ← verb (cmsst CM_BUFFER_DATA);
  if decide (rc <> CM_OK) then mret (RC_OK, with_rc v rc) else
  rc ← verb (cmsend [EXCHANGE_VERSION; u8 client_major; u8 client_minor]);
  if decide (rc <> CM_OK) then mret (RC_OK, with_rc v rc) else
  r ← verb (cmrcv EXCHANGE_BUFFER_SIZE);
  let v := with_rc v (rcv_rc r) in
  if decide (rcv_rc r = CM_OK) then
    if decide (data_received r <> CM_NO_DATA_RECEIVED) then
      v ← of_opt (parse_version (rcv_data r) os_name_len v);
      if decide (status_received r = CM_CONFIRM_RECEIVED) then
        rc ← verb cmcfmd; mret (RC_OK, with_rc v rc)
      else mret (RC_OK, v)
    else mret (1, v)
  else mret (RC_OK, v).

Definition version_reply (tp_major tp_minor : Z) : list Z :=
  if bool_decide (Z.of_nat (length OS_NAME) + 5 < EXCHANGE_BUFFER_SIZE)
  then [EXCHANGE_VERSION; u8 tp_major; u8 tp_minor; EXCHANGE_OS_NAME] ++ OS_NAME ++ [0]
  else [EXCHANGE_VERSION; u8 tp_major; u8 tp_minor].

Definition get_client_version (tp_major tp_minor : Z) (os_name_len : option Z) :
    M K (Z * version) :=
  let v := MkVersion 0 0 None CM_OK in
  rc ← verb (cmsptr CM_PREP_TO_RECEIVE_FLUSH);
  if decide (rc <> CM_OK) then mret (RC_OK, with_rc v rc) else
  rc ← verb (cmsst CM_BUFFER_DATA);
  if decide (rc <> CM_OK) then mret (RC_OK, with_rc v rc) else
  r ← verb (cmrcv EXCHANGE_BUFFER_SIZE);
  let v := with_rc v (rcv_rc r) in
  if decide (rcv_rc r = CM_OK) then
    v ← (if decide (data_received r <> CM_NO_DATA_RECEIVED)
         then of_opt (parse_version (rcv_data r) os_name_len v) else mret v);
    if decide (status_received r = CM_CONFIRM_RECEIVED) then
      rc ← verb cmcfmd;
      mret (if decide (rc <> CM_OK) then 1 else RC_OK, with_rc v rc)
    else if decide (status_received r = CM_SEND_RECEIVED) then
      rc ← verb (cmsend (version_reply tp_major tp_minor));
      if decide (rc <> CM_OK) then mret (RC_OK, with_rc v rc) else
      rc ← verb cmptr;
      mret (RC_OK, with_rc v rc)
    else mret (RC_OK, v)
  else mret (1, v).
End Conversation.

(** ** Members and their strings *)

(** The string [s] and its terminator are at [off]. *)
Definition holds_at (off : nat) (s : list Z) (m : mem) : Prop :=
  forall i c, (s ++ [0]) !! i = Some c -> m !! (off + i)%nat = Some (Some c).

Lemma mem_write_lookup off bs m :
  (off + length bs <= length m)%nat ->
  exists m', mem_write off bs m = Some m' /\ length m' = length m /\
    (forall i, (off <= i < off + length bs)%nat -> m' !! i = Some <$> bs !! (i - off)%nat) /\
    (forall i, ~ (off <= i < off + length bs)%nat -> m' !! i = m !! i).
Proof.
  intros H. unfold mem_write. rewrite bool_decide_true by done. eexists. split; [done|].
  assert (length (take off m) = off) as Ht by (rewrite length_take; lia).
  split_and!.
  - rewrite !length_app, length_fmap, Ht, length_drop. lia.
  - intros i Hi. rewrite lookup_app_r, Ht by lia. rewrite lookup_app_l by (rewrite length_fmap; lia).
    apply list_lookup_fmap.
  - intros i Hi. destruct (decide (i < off)%nat).
    + rewrite lookup_app_l by lia. by rewrite lookup_take_lt.
    + rewrite lookup_app_r, lookup_app_r, Ht, length_fmap, lookup_drop by (rewrite ?length_fmap; lia).
      f_equal. lia.
Qed.

Lemma drop_cons_lookup {A} (l : list A) off x : l !! off = Some x -> drop off l = x :: drop (S off) l.
Proof. apply drop_S. Qed.

Lemma holds_at_string s : forall off m,
  no_nul s -> holds_at off s m -> mem_string (drop off m) = Some s.
Proof.
  induction s as [|c s IH]; intros off m Hs Hm.
  - rewrite (drop_cons_lookup _ _ (Some 0)); [done|]. rewrite <-(Nat.add_0_r off). by apply Hm.
  - apply Forall_cons in Hs as [Hc Hs].
    rewrite (drop_cons_lookup _ _ (Some c)); [|rewrite <-(Nat.add_0_r off); by apply Hm].
    cbn. rewrite decide_False by done. rewrite (IH (S off) m Hs); [done|].
    intros i x Hi. replace (S off + i)%nat with (off + S i)%nat by lia. by apply Hm.
Qed.

Lemma mem_strupr_app s m : no_nul s -> mem_strupr ((Some <$> s ++ [0]) ++ m) = Some ((Some <$> strupr s ++ [0]) ++ m).
Proof.
  induction 1 as [|c s Hc Hs IH]; [done|]. cbn. rewrite decide_False by done.
  cbn in IH. by rewrite IH.
Qed.

Lemma holds_at_split off s m :
  holds_at off s m -> drop off m = (Some <$> s ++ [0]) ++ drop (off + length s + 1) m.
Proof.
  intros Hm. apply list_eq. intros i. rewrite lookup_drop.
  assert (length (s ++ [0]) = S (length s)) as Hl by (rewrite length_app; cbn; lia).
  destruct (decide (i < S (length s))%nat) as [Hi|Hi]; rewrite <-Hl in Hi.
  - rewrite lookup_app_l by (by rewrite length_fmap). rewrite list_lookup_fmap.
    destruct (lookup_lt_is_Some_2 _ _ Hi) as [c Hc]. rewrite Hc. by apply Hm.
  - rewrite lookup_app_r by (rewrite length_fmap; lia). rewrite length_fmap, lookup_drop, Hl in *.
    f_equal. lia.
Qed.

Lemma mem_strupr_at_holds off s m :
  no_nul s -> holds_at off s m ->
  exists m', mem_strupr_at off m = Some m' /\ length m' = length m /\ holds_at off (strupr s) m' /\
    forall i, ~ (off <= i < off + length s)%nat -> m' !! i = m !! i.
Proof.
  intros Hs Hm. pose proof (holds_at_split _ _ _ Hm) as Hd. unfold mem_strupr_at.
  assert (off < length m)%nat as Hlt.
  { assert (m !! (off + length s)%nat = Some (Some 0)) as E%lookup_lt_Some; [|lia].
    apply Hm. by rewrite lookup_app_r, Nat.sub_diag. }
  assert (length (take off m) = off) as Ht by (rewrite length_take; lia).
  rewrite Hd, mem_strupr_app by done. eexists. split; [done|].
  assert (length (Some <$> s ++ [0]) = length (Some <$> strupr s ++ [0])) as Hl.
  { rewrite !length_fmap, !length_app. unfold strupr. by rewrite length_fmap. }
  split_and!.
  - rewrite length_app, Ht, length_app, <-Hl, <-length_app, <-Hd, length_drop. lia.
  - intros i c Hi. rewrite lookup_app_r, Ht by lia. replace (off + i - off)%nat with i by lia.
    rewrite lookup_app_l, list_lookup_fmap, Hi; [done|]. rewrite length_fmap. by eapply lookup_lt_Some.
  - intros i Hi. destruct (decide (i < off)%nat).
    { rewrite lookup_app_l by lia. by rewrite lookup_take_lt. }
    rewrite lookup_app_r, Ht by lia.
    replace (m !! i) with (drop off m !! (i - off)%nat) by (rewrite lookup_drop; f_equal; lia).
    rewrite Hd. rewrite !length_fmap, !length_app in Hl. cbn in Hl.
    destruct (decide (i - off = length s)%nat) as [->|].
    + rewrite !lookup_app_l by (rewrite length_fmap, length_app; cbn; lia).
      rewrite !list_lookup_fmap, !lookup_app_r by lia.
      f_equal. replace (length (strupr s)) with (length s) by lia. done.
    + rewrite !lookup_app_r by (rewrite length_fmap, length_app; cbn; lia).
      rewrite !length_fmap, !length_app. cbn. f_equal. lia.
Qed.

(** Only the bytes under a string and its terminator matter. *)
Lemma holds_at_frame off s m m' :
  holds_at off s m -> (forall i, (off <= i <= off + length s)%nat -> m' !! i = m !! i) -> holds_at off s m'.
Proof.
  intros Hm Hf i c Hi. rewrite Hf; [by apply Hm|]. apply lookup_lt_Some in Hi.
  rewrite length_app in Hi. cbn in Hi. lia.
Qed.

(** [memcpy] and the terminator put a string in place. *)
Lemma copy_terminate off s m :
  (off + length s < length m)%nat ->
  exists m1 m2, mem_write off s m = Some m1 /\ mem_write (off + length s) [0] m1 = Some m2 /\
    length m2 = length m /\ holds_at off s m2 /\
    forall i, ~ (off <= i <= off + length s)%nat -> m2 !! i = m !! i.
Proof.
  intros H. destruct (mem_write_lookup off s m) as (m1 & E1 & L1 & I1 & O1); [lia|].
  destruct (mem_write_lookup (off + length s) [0] m1) as (m2 & E2 & L2 & I2 & O2); [cbn; lia|].
  exists m1, m2. cbn in I2, O2. split_and!; [done|done|lia| |].
  - intros i c [Hi|[Hge Hi]]%lookup_app_Some.
    + pose proof (lookup_lt_Some _ _ _ Hi). rewrite O2, I1 by lia.
      replace (off + i - off)%nat with i by lia. by rewrite Hi.
    + apply list_lookup_singleton_Some in Hi as [Hi <-].
      replace i with (length s) by lia. rewrite I2 by lia. by rewrite Nat.sub_diag.
  - intros i Hi. rewrite O2, O1 by lia. done.
Qed.

(** ** What the setters leave in the structure *)

Definition with_text (m : mem) (s : cpic_session) : cpic_session :=
  MkSession (symbolic s) m (security_type s).

Lemma on_text_Ret f s m : f (text s) = Some m -> on_text f s = Ret tt (with_text m s).
Proof. intros E. unfold on_text. rewrite (M_bind_Ret _ _ _ s s) by done. by rewrite E. Qed.

(** Only the bytes of member [f] differ. *)
Definition only (f : member) (m m' : mem) : Prop :=
  length m' = length m /\
  forall i, ~ (offset f <= i < offset f + size f)%nat -> m' !! i = m !! i.

Lemma only_holds f off s m m' :
  only f m m' -> (off + length s < offset f \/ offset f + size f <= off)%nat ->
  holds_at off s m -> holds_at off s m'.
Proof.
  intros [_ Hf] H Hm. eapply holds_at_frame; [exact Hm|]. intros i Hi. apply Hf. lia.
Qed.

Lemma only_trans f m1 m2 m3 : only f m1 m2 -> only f m2 m3 -> only f m1 m3.
Proof. intros [L1 F1] [L2 F2]. split; [lia|]. intros i Hi. by rewrite F2, F1. Qed.

Lemma copy_terminate_spec f s x :
  fits f s = true -> (offset f + size f <= length (text x))%nat ->
  exists m1 m, copy f s x = Ret tt (with_text m1 x) /\
    terminate f (length s) (with_text m1 x) = Ret tt (with_text m x) /\
    only f (text x) m /\ holds_at (offset f) s m.
Proof.
  intros Hf%bool_decide_eq_true Hx.
  destruct (copy_terminate (offset f) s (text x)) as (m1 & m2 & E1 & E2 & L & Hh & Ho); [lia|].
  exists m1, m2. split_and!; [by apply on_text_Ret | | split; [done|intros i Hi; apply Ho; lia] | done].
  unfold terminate. by rewrite (on_text_Ret _ _ m2).
Qed.

Lemma strupr_spec f s x :
  fits f s = true -> no_nul s -> holds_at (offset f) s (text x) ->
  exists m, on_text (mem_strupr_at (offset f)) x = Ret tt (with_text m x) /\
    only f (text x) m /\ holds_at (offset f) (strupr s) m.
Proof.
  intros Hf%bool_decide_eq_true Hs Hh.
  destruct (mem_strupr_at_holds _ _ _ Hs Hh) as (m & E & L & Hu & Ho). exists m.
  split; [by apply on_text_Ret|]. split; [|done]. split; [done|]. intros i Hi. apply Ho. lia.
Qed.

(** Blanks over the whole of a member. *)
Lemma blank_spec f x :
  (offset f + size f <= length (text x))%nat ->
  exists m, copy f (replicate (size f) 32) x = Ret tt (with_text m x) /\ only f (text x) m /\
    forall i, (i < size f)%nat -> m !! (offset f + i)%nat = Some (Some 32).
Proof.
  intros Hx. destruct (mem_write_lookup (offset f) (replicate (size f) 32) (text x))
    as (m & E & L & I & O); [by rewrite length_replicate|]. rewrite length_replicate in *.
  exists m. split; [by apply on_text_Ret|]. split; [split; [done|intros i Hi; apply O; lia]|].
  intros i Hi. rewrite I by lia. rewrite lookup_replicate_2 by lia. done.
Qed.

(** Every setter works in its own member: the sizes and places agree with the
    layout of the structure. *)
Definition well_sized (x : cpic_session) : Prop := length (text x) = 119%nat.

Lemma set_tp_name_spec s x :
  well_sized x -> fits tp_name s = true ->
  exists m, cpic_session_set_tp_name s x = Ret 0 (with_text m x) /\ only tp_name (text x) m /\
    holds_at (offset tp_name) s m.
Proof.
  intros Hx Hf. destruct (copy_terminate_spec tp_name s x Hf) as (m1 & m & E1 & E & Ho & Hh).
  { rewrite Hx. cbn. lia. }
  exists m. unfold cpic_session_set_tp_name. rewrite Hf. 
  by rewrite (M_bind_Ret _ _ _ _ _ E1), (M_bind_Ret _ _ _ _ _ E).
Qed.

Lemma set_mode_name_spec s x :
  well_sized x -> no_nul s -> fits mode_name s = true ->
  exists m, cpic_session_set_mode_name s x = Ret 0 (with_text m x) /\ only mode_name (text x) m /\
    holds_at (offset mode_name) (strupr s) m.
Proof.
  intros Hx Hs Hf. destruct (copy_terminate_spec mode_name s x Hf) as (m1 & m & E1 & E & Ho & Hh).
  { rewrite Hx. cbn. lia. }
  destruct (strupr_spec mode_name s (with_text m x) Hf Hs Hh) as (m' & E' & Ho' & Hh').
  exists m'. unfold cpic_session_set_mode_name. rewrite Hf. 
  rewrite (M_bind_Ret _ _ _ _ _ E1), (M_bind_Ret _ _ _ _ _ E), (M_bind_Ret _ _ _ _ _ E'). split; [done|].
  split; [by eapply only_trans|done].
Qed.

Definition with_symbolic (v : Z) (x : cpic_session) : cpic_session :=
  MkSession (Some v) (text x) (security_type x).

Lemma set_destination_spec s x :
  well_sized x -> no_nul s -> fits destination s = true ->
  exists m, cpic_session_set_destination s x = Ret 0 (with_text m (with_symbolic 0 x)) /\
    only destination (text x) m /\ holds_at (offset destination) (strupr s) m.
Proof.
  intros Hx Hs Hf. unfold cpic_session_set_destination.
  rewrite (M_bind_Ret (set_symbolic 0) _ _ tt (with_symbolic 0 x)) by done. rewrite Hf.
  destruct (blank_spec destination (with_symbolic 0 x)) as (m0 & E0 & Ho0 & _).
  { cbn [with_symbolic text]. rewrite Hx. cbn. lia. }
  rewrite (M_bind_Ret _ _ _ _ _ E0).
  destruct (copy_terminate_spec destination s (with_text m0 (with_symbolic 0 x)) Hf) as (m1 & m & E1 & E & Ho & Hh).
  { cbn [with_text text]. destruct Ho0 as [-> _]. cbn [with_symbolic text]. rewrite Hx. cbn. lia. }
  destruct (strupr_spec destination s (with_text m (with_symbolic 0 x)) Hf Hs Hh) as (m' & E' & Ho' & Hh').
  exists m'. cbn [with_text text] in *.
  rewrite (M_bind_Ret _ _ _ _ _ E1), (M_bind_Ret _ _ _ _ _ E), (M_bind_Ret _ _ _ _ _ E'). split; [done|].
  split; [|done]. by do 2 (eapply only_trans; [done|]).
Qed.

(** The verbs one after another, up to the first that fails. *)
Fixpoint run_verbs {K} (vs : list (K -> Z * K)) : M K Z :=
  match vs with
  | [] => mret CM_OK
  | v :: vs => rc ← verb v; if decide (rc <> CM_OK) then mret rc else run_verbs vs
  end.

Lemma run_verbs_cons {K} (v : K -> Z * K) vs k :
  run_verbs (v :: vs) k =
    (if decide ((v k).1 <> CM_OK) then Ret (v k).1 (v k).2 else run_verbs vs (v k).2).
Proof. cbn. unfold verb, mbind, M_bind. destruct (v k) as [rc k']. cbn. by case_decide. Qed.

(** ** Properties *)

(** a session keeps what it is given.  Set the destination, the
    transaction program and the mode, each within its limit, in a session whose
    memory holds anything: every setter succeeds, and opening the conversation
    issues, up to the first verb that fails, [cminit] with a blank name and then
    the partner LU and mode in upper case and the program name as given. *)
Theorem cpic_session_init_destination d t m x :
  well_sized x -> no_nul d -> no_nul t -> no_nul m ->
  fits destination d = true -> fits tp_name t = true -> fits mode_name m = true ->
  exists x1 x2 x3,
    cpic_session_set_destination d x = Ret 0 x1 /\
    cpic_session_set_tp_name t x1 = Ret 0 x2 /\
    cpic_session_set_mode_name m x2 = Ret 0 x3 /\
    forall K (HK : Cpic K) (k : K),
      cpic_session_init x3 k =
        run_verbs [cminit (replicate 8 32); cmspln (strupr d); cmstpn t; cmsmn (strupr m)] k.
Proof.
  intros Hx Hd Ht Hm Hfd Hft Hfm.
  destruct (set_destination_spec d x Hx Hd Hfd) as (m1 & E1 & O1 & H1).
  set (x1 := with_text m1 (with_symbolic 0 x)).
  assert (well_sized x1) as Hx1 by (unfold well_sized; cbn; by rewrite (proj1 O1)).
  destruct (set_tp_name_spec t x1 Hx1 Hft) as (m2 & E2 & O2 & H2).
  assert (well_sized (with_text m2 x1)) as Hx2 by (unfold well_sized; cbn; by rewrite (proj1 O2)).
  destruct (set_mode_name_spec m (with_text m2 x1) Hx2 Hm Hfm) as (m3 & E3 & O3 & H3).
  exists x1, (with_text m2 x1), (with_text m3 x1). split_and!; [exact E1|exact E2|exact E3|].
  cbn [with_text text x1] in O2, O3. unfold fits in *. rewrite bool_decide_eq_true in *.
  cbn [size destination tp_name mode_name] in *.
  assert (length (strupr d) = length d) as Ld by apply length_fmap.
  assert (member_string destination (with_text m3 x1) = Some (strupr d)) as S1.
  { apply holds_at_string; [by apply strupr_no_nul|]. cbn [text with_text].
    eapply only_holds; [exact O3|cbn; lia|]. eapply only_holds; [exact O2|cbn; lia|done]. }
  assert (member_string tp_name (with_text m3 x1) = Some t) as S2.
  { apply holds_at_string; [done|]. eapply only_holds; [exact O3|cbn; lia|done]. }
  assert (member_string mode_name (with_text m3 x1) = Some (strupr m)) as S3.
  { apply holds_at_string; [by apply strupr_no_nul|done]. }
  intros K HK k. unfold cpic_session_init. rewrite S1, S2, S3. cbn [with_text symbolic x1 with_symbolic].
  rewrite of_opt_Some_bind, (decide_False (P := 0 <> 0)) by lia.
  rewrite !run_verbs_cons. unfold verb, mbind, M_bind. destruct (cminit _ k) as [rc k1]. cbn.
  case_decide; [done|]. cbn. destruct (cmspln _ k1) as [rc2 k2]. cbn. case_decide; [done|]. cbn.
  destruct (cmstpn _ k2) as [rc3 k3]. cbn. case_decide; [done|]. cbn.
  destruct (cmsmn _ k3) as [rc4 k4]. cbn. case_decide; by subst.
Qed.

Definition demo_session : cpic_session := default (MkSession None [] None) (cpic_session_new false).

Lemma cpic_session_init_destination_witness :
  exists x1 x2 x3,
    cpic_session_set_destination (str "Net.Lu1") demo_session = Ret 0 x1 /\
    cpic_session_set_tp_name (str "AFTPD") x1 = Ret 0 x2 /\
    cpic_session_set_mode_name (str "#batch") x2 = Ret 0 x3.
Proof.
  destruct (cpic_session_init_destination (str "Net.Lu1") (str "AFTPD") (str "#batch") demo_session)
    as (x1 & x2 & x3 & E1 & E2 & E3 & _);
    [reflexivity | apply (bool_decide_unpack _); vm_compute; exact I
    | apply (bool_decide_unpack _); vm_compute; exact I
    | apply (bool_decide_unpack _); vm_compute; exact I
    | vm_compute; reflexivity | vm_compute; reflexivity | vm_compute; reflexivity |].
  exists x1, x2, x3. auto.
Defined.

(** setting the symbolic name erases the user name: its terminator is
    stored one past the member, on the first character of [userid]. *)
Theorem set_symbolic_name_erases_userid s x :
  well_sized x -> no_nul s -> fits sym_dest_name s = true ->
  exists x', cpic_session_set_symbolic_name s x = Ret 0 x' /\ member_string userid x' = Some [] /\
    forall K (HK : Cpic K) (k : K),
      cpic_session_init x' k = verb (cminit (take 8 (strupr s ++ replicate 9 32))) k.
Proof.
  intros Hx Hs Hf. unfold cpic_session_set_symbolic_name.
  rewrite (M_bind_Ret (set_symbolic 1) _ _ tt (with_symbolic 1 x)) by done. rewrite Hf.
  apply bool_decide_eq_true in Hf. cbn in Hf. unfold well_sized in Hx.
  destruct (blank_spec sym_dest_name (with_symbolic 1 x)) as (m0 & E0 & (L0 & O0) & B0).
  { cbn [with_symbolic text]. rewrite Hx. cbn. lia. }
  rewrite (M_bind_Ret _ _ _ _ _ E0). cbn [with_symbolic text] in *.
  destruct (mem_write_lookup (offset sym_dest_name) s m0) as (m1 & E1 & L1 & I1 & O1); [cbn; lia|].
  unfold copy. rewrite (M_bind_Ret _ _ _ _ _ (on_text_Ret _ (with_text m0 _) _ E1)).
  destruct (mem_write_lookup 101 [0] m1) as (m2 & E2 & L2 & I2 & O2); [cbn; lia|].
  unfold terminate. rewrite (M_bind_Ret _ _ _ _ _ (on_text_Ret (mem_write 101 [0]) (with_text m1 _) _ E2)).
  set (s' := s ++ replicate (9 - length s) 32).
  assert (length s' = 9%nat) as Ls by (unfold s'; rewrite length_app, length_replicate; lia).
  assert (no_nul s') as Hs'.
  { apply Forall_app_2; [done|]. by apply Forall_replicate. }
  assert (holds_at 92 s' m2) as H2.
  { intros i c [Hi|[Hge Hi]]%lookup_app_Some.
    - rewrite O2 by (apply lookup_lt_Some in Hi; cbn; lia).
      apply lookup_app_Some in Hi as [Hi|[Hge Hi]].
      + pose proof (lookup_lt_Some _ _ _ Hi). rewrite (I1 (92 + i)%nat) by (cbn; lia).
        cbn [offset sym_dest_name]. replace (92 + i - 92)%nat with i by lia. by rewrite Hi.
      + pose proof (lookup_lt_Some _ _ _ Hi) as Hlt. rewrite length_replicate in Hlt.
        apply lookup_replicate in Hi as [-> _]. rewrite O1 by (cbn; lia). apply (B0 i). cbn. lia.
    - apply list_lookup_singleton_Some in Hi as [Hi <-]. rewrite I2 by (cbn; lia).
      by replace (92 + i - 101)%nat with 0%nat by lia. }
  destruct (mem_strupr_at_holds 92 s' m2 Hs' H2) as (m3 & E3 & L3 & H3 & O3).
  rewrite (M_bind_Ret _ _ _ _ _ (on_text_Ret (mem_strupr_at 92) (with_text m2 _) _ E3)).
  eexists. split; [done|]. split.
  - unfold member_string. cbn [offset userid with_text text].
    apply (holds_at_string []); [constructor|]. intros i c Hi.
    apply list_lookup_singleton_Some in Hi as [-> <-].
    rewrite O3 by lia. rewrite I2 by (cbn; lia). done.
  - intros K HK k. unfold cpic_session_init, sym_name. cbn [with_text with_symbolic symbolic text].
    rewrite of_opt_Some_bind, decide_True by lia. cbn [offset sym_dest_name].
    rewrite (holds_at_split _ _ _ H3).
    assert (take 8 ((Some <$> strupr s' ++ [0]) ++ drop (92 + length (strupr s') + 1) m3) =
      Some <$> take 8 (strupr s ++ replicate 9 32)) as ->.
    { rewrite take_app_le by (rewrite length_fmap, length_app; unfold strupr; rewrite length_fmap; cbn; lia).
      rewrite <-fmap_take. apply (f_equal (fmap Some)). unfold strupr, s'. rewrite fmap_app, fmap_replicate, <-app_assoc.
      rewrite !take_app, length_fmap. f_equal.
      rewrite length_replicate, !take_replicate. change (toupper 32) with 32.
      replace (8 - length s - (9 - length s))%nat with 0%nat by lia.
      rewrite app_nil_r. f_equal. lia. }
    assert (forall l : list Z, mapM id (Some <$> l) = Some l) as Hm.
    { induction l as [|y l IH]; [done|]. cbn. cbn in IH. by rewrite IH. }
    by rewrite Hm, of_opt_Some_bind.
Qed.

Lemma set_symbolic_name_erases_userid_witness :
  exists x', cpic_session_set_symbolic_name (str "host1") demo_session = Ret 0 x' /\
    member_string userid x' = Some [].
Proof.
  destruct (set_symbolic_name_erases_userid (str "host1") demo_session) as (x' & E & U & _);
    [reflexivity | apply (bool_decide_unpack _); vm_compute; exact I | vm_compute; reflexivity |].
  exists x'. split; assumption.
Defined.

Definition version_request (client_major client_minor : Z) : list Z :=
  [EXCHANGE_VERSION; u8 client_major; u8 client_minor].

(** The calls of an exchange of versions, on the side that asks and on the other. *)
Definition asks_version (request : list Z) : list cpic_call :=
  [Cmsptr CM_PREP_TO_RECEIVE_FLUSH; Cmsst CM_BUFFER_DATA; Cmsend request; Cmrcv EXCHANGE_BUFFER_SIZE].
Definition answers_version (reply : list Z) : list cpic_call :=
  [Cmsptr CM_PREP_TO_RECEIVE_FLUSH; Cmsst CM_BUFFER_DATA; Cmrcv EXCHANGE_BUFFER_SIZE; Cmsend reply; Cmptr].

Lemma script_rcv_next n data ds ss rc inc c :
  is_bytes data -> Z.of_nat (length data) <= n ->
  verb (cmrcv n) (MkScript (MkReceived data ds ss rc :: inc) c) =
    Ret (MkReceived data ds ss rc) (MkScript inc (c ++ [Cmrcv n])).
Proof.
  intros Hb Hl. unfold verb. cbn [cmrcv script_cpic]. unfold script_rcv. cbn [incoming rcv_data].
  by rewrite take_ge, u8_fmap_id by (done || lia).
Qed.

Lemma version_request_bytes cmaj cmin : is_bytes (version_request cmaj cmin).
Proof. repeat constructor; try apply u8_byte; unfold is_byte, EXCHANGE_VERSION; lia. Qed.

Lemma version_reply_bytes tmaj tmin : is_bytes (version_reply tmaj tmin).
Proof.
  change (version_reply tmaj tmin) with
    (EXCHANGE_VERSION :: u8 tmaj :: u8 tmin :: EXCHANGE_OS_NAME :: OS_NAME ++ [0]).
  repeat constructor; try apply u8_byte; unfold is_byte, EXCHANGE_VERSION, EXCHANGE_OS_NAME; lia.
Qed.

Lemma parse_version_request cmaj cmin len v :
  1 < len -> parse_version (version_request cmaj cmin) (Some len) v =
    Some (MkVersion (u8 cmaj) (u8 cmin) (Some []) (vrc v)).
Proof. intros Hlen. unfold parse_version. by rewrite (bool_decide_true (len > 1)) by lia. Qed.

Lemma parse_version_reply tmaj tmin len v :
  1 < len -> parse_version (version_reply tmaj tmin) (Some len) v =
    Some (MkVersion (u8 tmaj) (u8 tmin) (Some (take (Z.to_nat (len - 1)) OS_NAME)) (vrc v)).
Proof.
  intros Hlen. unfold parse_version. rewrite (bool_decide_true (len > 1)) by lia.
  change (version_reply tmaj tmin) with
    (EXCHANGE_VERSION :: u8 tmaj :: u8 tmin :: EXCHANGE_OS_NAME :: OS_NAME ++ [0]).
  change (drop 4 _ ++ [0]) with (OS_NAME ++ [0; 0]). change (c_str (OS_NAME ++ [0; 0])) with OS_NAME.
  change (Z.of_nat (length OS_NAME)) with 5.
  rewrite !bool_decide_true by (first [vm_compute; done | split; [vm_compute; done|done]]).
  cbn [major minor vrc lookup list_lookup default]. do 3 f_equal.
  destruct (decide (len - 1 <= 5)); [by rewrite Z.min_r by lia|].
  rewrite Z.min_l by lia. rewrite !take_ge by (cbn; lia). done.
Qed.

(** A verb that returns [CM_OK] at once, and the test of its code; each call is logged
    behind those before it. *)
Ltac verb_step := erewrite (M_bind_Ret (verb _)) by reflexivity; unfold note; cbn [incoming calls].
Ltac verb_ok := verb_step; rewrite (decide_False (P := _ <> CM_OK)) by (intros H; by apply H).
Ltac join_calls := rewrite <-?app_assoc; cbn [app].

(** The server's side, given the client's request and the turn to send. *)
Lemma get_client_version_script cmaj cmin tmaj tmin len data_status inc cls :
  exists v,
    get_client_version tmaj tmin (Some len)
      (MkScript (MkReceived (version_request cmaj cmin) data_status CM_SEND_RECEIVED CM_OK :: inc) cls) =
    Ret (RC_OK, v) (MkScript inc (cls ++ answers_version (version_reply tmaj tmin))) /\
    (1 < len -> v = if decide (data_status <> CM_NO_DATA_RECEIVED) then MkVersion (u8 cmaj) (u8 cmin) (Some []) CM_OK else MkVersion 0 0 None CM_OK).
Proof.
  unfold get_client_version. do 2 verb_ok.
  rewrite (M_bind_Ret _ _ _ _ _ (script_rcv_next EXCHANGE_BUFFER_SIZE _ _ _ _ _ _ (version_request_bytes cmaj cmin) ltac:(done))).
  cbn [rcv_rc rcv_data data_received status_received].
  rewrite (decide_True (P := CM_OK = CM_OK)) by done.
  assert (forall v : version, (if decide (CM_SEND_RECEIVED = CM_CONFIRM_RECEIVED)
    then rc ← verb cmcfmd; mret (if decide (rc <> CM_OK) then 1 else RC_OK, with_rc v rc)
    else if decide (CM_SEND_RECEIVED = CM_SEND_RECEIVED) then
      rc ← verb (cmsend (version_reply tmaj tmin));
      if decide (rc <> CM_OK) then mret (RC_OK, with_rc v rc) else
      rc ← verb cmptr; mret (RC_OK, with_rc v rc)
    else mret (RC_OK, v)) (MkScript inc (((cls ++ [Cmsptr CM_PREP_TO_RECEIVE_FLUSH]) ++ [Cmsst CM_BUFFER_DATA]) ++ [Cmrcv EXCHANGE_BUFFER_SIZE])) =
    Ret (RC_OK, with_rc v CM_OK) (MkScript inc (cls ++ answers_version (version_reply tmaj tmin)))) as Hsend.
  { intros v. rewrite (decide_False (P := CM_SEND_RECEIVED = CM_CONFIRM_RECEIVED)) by done. rewrite (decide_True (P := CM_SEND_RECEIVED = _)) by done.
    verb_ok. verb_step. unfold mret, M_ret. join_calls. done. }
  destruct (decide (data_status <> CM_NO_DATA_RECEIVED)).
  - destruct (decide (1 < len)).
    + rewrite parse_version_request, of_opt_Some_bind, Hsend by done. by eexists.
    + unfold parse_version at 1. rewrite (bool_decide_false (len > 1)) by lia. rewrite of_opt_Some_bind, Hsend. by eexists.
  - rewrite (M_bind_Ret (mret _) _ _ _ _ eq_refl), Hsend. by eexists.
Qed.

(** The client's side, given the server's reply. *)
Lemma get_server_version_script cmaj cmin tmaj tmin len d inc cls :
  1 < len -> d <> CM_NO_DATA_RECEIVED ->
  get_server_version cmaj cmin (Some len)
    (MkScript (MkReceived (version_reply tmaj tmin) d CM_SEND_RECEIVED CM_OK :: inc) cls) =
  Ret (RC_OK, MkVersion (u8 tmaj) (u8 tmin) (Some (take (Z.to_nat (len - 1)) OS_NAME)) CM_OK)
    (MkScript inc (cls ++ asks_version (version_request cmaj cmin))).
Proof.
  intros Hlen Hd. unfold get_server_version. do 3 verb_ok.
  erewrite (M_bind_Ret (verb (cmrcv _))); [|apply script_rcv_next; [apply version_reply_bytes|done]].
  cbn [rcv_rc rcv_data data_received status_received].
  rewrite (decide_True (P := CM_OK = CM_OK)) by done.
  rewrite decide_True, parse_version_reply, of_opt_Some_bind by done. rewrite (decide_False (P := CM_SEND_RECEIVED = _)) by done.
  unfold mret, M_ret. join_calls. done.
Qed.

(** C25: the two version exchanges agree.  The server's side, given the client's
    request and the turn to send, assigns the client's version, sends its reply and
    hands the turn back ([cmptr]); the client's side, given that reply, has sent that
    request and assigns the server's version and as much of its system name as the
    caller's buffer takes, terminator included.  The calls each side makes are these
    and no others, in this order. *)
Theorem version_exchange cmaj cmin tmaj tmin len data_status :
  1 < len ->
  get_client_version tmaj tmin (Some len)
    (MkScript [MkReceived (version_request cmaj cmin) data_status CM_SEND_RECEIVED CM_OK] []) =
    Ret (RC_OK, if decide (data_status <> CM_NO_DATA_RECEIVED) then MkVersion (u8 cmaj) (u8 cmin) (Some []) CM_OK else MkVersion 0 0 None CM_OK)
      (MkScript [] [Cmsptr CM_PREP_TO_RECEIVE_FLUSH; Cmsst CM_BUFFER_DATA; Cmrcv EXCHANGE_BUFFER_SIZE;
                    Cmsend (version_reply tmaj tmin); Cmptr]) /\
  get_server_version cmaj cmin (Some len)
    (MkScript [MkReceived (version_reply tmaj tmin) 1 CM_SEND_RECEIVED CM_OK] []) =
    Ret (RC_OK, MkVersion (u8 tmaj) (u8 tmin) (Some (take (Z.to_nat (len - 1)) OS_NAME)) CM_OK)
      (MkScript [] [Cmsptr CM_PREP_TO_RECEIVE_FLUSH; Cmsst CM_BUFFER_DATA; Cmsend (version_request cmaj cmin); Cmrcv EXCHANGE_BUFFER_SIZE]).
Proof.
  intros Hlen. split; [|by apply (get_server_version_script cmaj cmin tmaj tmin len 1 [] [])].
  destruct (get_client_version_script cmaj cmin tmaj tmin len data_status [] []) as (v & -> & Hv). by rewrite Hv by done.
Qed.

Lemma version_exchange_witness :
  get_server_version 1 2 (Some 4)
    (MkScript [MkReceived (version_reply 3 4) 1 CM_SEND_RECEIVED CM_OK] []) =
    Ret (RC_OK, MkVersion 3 4 (Some (str "Lin")) CM_OK)
      (MkScript [] [Cmsptr CM_PREP_TO_RECEIVE_FLUSH; Cmsst CM_BUFFER_DATA; Cmsend (version_request 1 2); Cmrcv EXCHANGE_BUFFER_SIZE]).
Proof. apply (version_exchange 1 2 3 4 4 1). lia. Defined.

(** A peer that fills the buffer makes either side store a terminator past its
    end. *)
Lemma version_full_buffer {K} (HK : Cpic K) (k : K) data len v :
  length data = Z.to_nat EXCHANGE_BUFFER_SIZE -> data !! 3%nat = Some EXCHANGE_OS_NAME -> 1 < len ->
  parse_version data (Some len) v = None.
Proof.
  intros Hl H3 Hlen. unfold parse_version. rewrite (bool_decide_true (len > 1)) by lia.
  rewrite Hl, H3. change (Z.of_nat (Z.to_nat EXCHANGE_BUFFER_SIZE)) with 128.
  rewrite (bool_decide_true (128 > 4 /\ _)) by (split; [lia|done]). done.
Qed.
