(* ===== verification/Tn3270Server.v ===== *)
(** * tn3270d/tn3270_daemon.c: the server process

    The descriptors a server watches, its list of clients, accepting and closing
    them, and the [select] loop.  Around the server stand the process's open
    descriptors and the LUA verbs issued; what the network does in a round of
    the loop is an explicit event.  Setting up a client and serving its input
    are other components ([TnxStream], [Tn3270Host]): here they are the answers
    [ev_top] and [ev_bottom] of the event, which are any outcome: a result, or the end
    of the process by [exit], a failed assertion or undefined behaviour. *)
From S2P Require Import Prelude.

Definition FD_SETSIZE := 1024.
Definition ENOENT := 2.
Definition ENOMEM := 12.
Definition EINVAL := 22.
Definition EUSERS := 87.
Definition ECONNABORTED := 103.
Definition LUA_OPCODE_RUI_PURGE := 32773.
Definition LUA_OPCODE_RUI_TERM := 32770.

Record client_t : Type := MkClient {
  cid : positive;         (** the client's address *)
  cfd : Z;
  from : Z;
  terminated : Z
}.

#[export] Instance client_eq_dec : EqDecision client_t.
Proof. solve_decision. Defined.

Record server_info : Type := MkServer {
  limit : Z;
  test : bool;
  client_sock : Z;
  manage_sock : Z;
  client_list : list client_t;
  client_num : Z;
  all_fds : gset Z;
  open_fds : Z;
  wmark_fd : Z;
  highest_fd : Z
}.

(** The server, the process's open descriptors, the next address [calloc]
    returns, and the LUA verbs issued so far. *)
Record process : Type := MkProcess {
  server : server_info;
  open_set : gset Z;
  next_cid : positive;
  verbs : list Z
}.

Abbreviation Srv := (M process).

Definition set_server (s : server_info) (p : process) : process :=
  MkProcess s (open_set p) (next_cid p) (verbs p).
Definition on_server (f : server_info -> server_info) : Srv unit :=
  modify (fun p => set_server (f (server p)) p).
Definition set_fds (fds : gset Z) (n mark high : Z) (s : server_info) : server_info :=
  MkServer (limit s) (test s) (client_sock s) (manage_sock s) (client_list s) (client_num s)
    fds n mark high.
Definition set_clients (l : list client_t) (n : Z) (s : server_info) : server_info :=
  MkServer (limit s) (test s) (client_sock s) (manage_sock s) l n
    (all_fds s) (open_fds s) (wmark_fd s) (highest_fd s).

(** [open_fds] is an [unsigned long]. *)
Definition ulong (x : Z) : Z := x mod 2 ^ 64.

(** [FD_SET] and [FD_CLR] outside [FD_SETSIZE] are outside the set's memory. *)
Definition fd_ok (fd : Z) : bool := bool_decide (0 <= fd < FD_SETSIZE).

Definition tn3270_server_count_and_set_fds (fd : Z) : Srv unit :=
  if fd_ok fd then
    on_server (fun s =>
      let n := ulong (open_fds s + 1) in
      set_fds ({[fd]} ∪ all_fds s) n (if bool_decide (n > wmark_fd s) then n else wmark_fd s)
        (if bool_decide (fd > highest_fd s) then fd else highest_fd s) s)
  else undef.

Definition tn3270_server_count_and_clear_fds (fd : Z) : Srv unit :=
  if fd_ok fd then
    on_server (fun s => set_fds (all_fds s ∖ {[fd]}) (ulong (open_fds s - 1)) (wmark_fd s) (highest_fd s) s)
  else undef.

Definition tn3270_client_find_by_fd (l : list client_t) (fd : Z) : option client_t :=
  snd <$> list_find (fun c => cfd c = fd) l.

(** [list_del] of a client. *)
Definition list_del (c : client_t) (l : list client_t) : list client_t :=
  filter (fun x => cid x <> cid c) l.

(** The first client from the same address; the result code with the list. *)
Definition tn3270_client_delete (l : list client_t) (clt : client_t) : Z * list client_t :=
  match list_find (fun c => from c = from clt) l with
  | Some (_, c) => (0, list_del c l)
  | None => (- ENOENT, l)
  end.

Fixpoint tn3270_client_delete_list (l : list client_t) : list client_t :=
  match l with [] => [] | _ :: l => tn3270_client_delete_list l end.

(** [close]: a descriptor that is not open is only reported. *)
Definition close (fd : Z) : Srv unit :=
  modify (fun p => MkProcess (server p) (open_set p ∖ {[fd]}) (next_cid p) (verbs p)).
Definition issue (opcode : Z) : Srv unit :=
  modify (fun p => MkProcess (server p) (open_set p) (next_cid p) (verbs p ++ [opcode])).

(** ** Events *)

Inductive accept_result : Type :=
| AcceptFails
| Accepted (fd from : Z).

(** What happens in one round: memory for a client, [accept]'s answer given the
    open descriptors, the outcome of the client's setup (whether it succeeds), and
    that of serving the client of each descriptor (its result). *)
Record env : Type := MkEnv {
  ev_oom : bool;
  ev_accept : gset Z -> accept_result;
  ev_top : outcome unit bool;
  ev_bottom : Z -> outcome unit Z
}.

(** Work that is done elsewhere. *)
Definition elsewhere {A} (o : outcome unit A) : Srv A := zoom (fun _ => tt) (fun _ p => p) (fun _ => o).

Inductive select_event : Type :=
| SelTimeout
| SelIntr
| SelReady (readable : gset Z) (e : env).

(** ** Clients *)

Definition tn3270_accept_new_client (e : env) : Srv Z :=
  if ev_oom e then mret (- ENOMEM) else
  p ← get_st;
  match ev_accept e (open_set p) with
  | AcceptFails => mret (- EINVAL)
  | Accepted fd addr =>
      modify (fun p => MkProcess (server p) ({[fd]} ∪ open_set p) (Pos.succ (next_cid p)) (verbs p));;
      p ← get_st;
      let client := MkClient (Pos.pred (next_cid p)) fd addr 0 in
      if bool_decide (client_num (server p) + 1 > limit (server p)) then
        close fd;; mret (- EUSERS)
      else
        on_server (fun s => set_clients (client_list s ++ [client]) (client_num s) s);;
        tn3270_server_count_and_set_fds fd;;
        on_server (fun s => set_clients (client_list s) (client_num s + 1) s);;
        ok ← elsewhere (ev_top e);
        (if (ok : bool) then mret tt
         else
           on_server (fun s => set_clients (list_del client (client_list s)) (client_num s) s);;
           close fd);;
        mret 0
  end.

(** [tnX_host_destroy] disconnects the stream, which closes the descriptor a
    first time. *)
Definition tn3270_close_session (client : client_t) : Srv Z :=
  close (cfd client);;
  issue LUA_OPCODE_RUI_PURGE;;
  (if decide (terminated client = 0) then issue LUA_OPCODE_RUI_TERM else mret tt);;
  close (cfd client);;
  tn3270_server_count_and_clear_fds (cfd client);;
  on_server (fun s => set_clients (list_del client (client_list s)) (client_num s) s);;
  mret 0.

(** ** The loop *)

(** The body of the [for] over descriptors, for one that is readable. *)
Definition dispatch (e : env) (i : Z) : Srv unit :=
  p ← get_st;
  let s := server p in
  if decide (i = client_sock s) then tn3270_accept_new_client e;; mret tt
  else if decide (i = manage_sock s) then mret tt
  else
    match tn3270_client_find_by_fd (client_list s) i with
    | Some client =>
        err ← elsewhere (ev_bottom e i);
        if decide (err = - ECONNABORTED) then tn3270_close_session client;; mret tt
        else mret tt
    | None => mret tt
    end.

(** [for (i = 3; i <= highest_fd; i++)]; [highest_fd] is read again each time. *)
Fixpoint dispatch_from (fuel : nat) (readable : gset Z) (e : env) (i : Z) : Srv unit :=
  match fuel with
  | O => no_fuel
  | S fuel =>
      p ← get_st;
      if bool_decide (i <= highest_fd (server p)) then
        (if bool_decide (i ∈ readable) then dispatch e i else mret tt);;
        dispatch_from fuel readable e (i + 1)
      else mret tt
  end.

(** Descriptors are below [FD_SETSIZE]. *)
Definition dispatch_fuel : nat := Z.to_nat FD_SETSIZE.

(** [select] fails with [EBADF] when a watched descriptor is not open. *)
Definition all_open (p : process) : bool := bool_decide (all_fds (server p) ⊆ open_set p).

(** One round of the loop.  After a timeout the user table is written, after an
    error the process sleeps: the server's state is as before. *)
Definition server_round (ev : select_event) : Srv unit :=
  p ← get_st;
  if all_open p then
    match ev with
    | SelTimeout | SelIntr => mret tt
    | SelReady readable e => dispatch_from dispatch_fuel readable e 3
    end
  else mret tt.

Fixpoint server_rounds (evs : list select_event) : Srv unit :=
  match evs with
  | [] => mret tt
  | ev :: evs => server_round ev;; server_rounds evs
  end.

(** The part of [tn3270_server_doit] before the loop.  [client_fd] and
    [manage_fd] are the results of [tn3270_make_socket], [listens] those of the
    two calls of [listen]. *)
Definition server_start (client_fd manage_fd : Z) (listens : Z * Z) : Srv unit :=
  on_server (fun s => MkServer (limit s) (test s) (client_sock s) (manage_sock s) [] 0 ∅
                        (open_fds s) (wmark_fd s) (highest_fd s));;
  (if bool_decide (client_fd < 0) then c_exit client_fd else mret tt);;
  on_server (fun s => MkServer (limit s) (test s) client_fd (manage_sock s) (client_list s) (client_num s)
                        (all_fds s) (open_fds s) (wmark_fd s) (highest_fd s));;
  modify (fun p => MkProcess (server p) ({[client_fd]} ∪ open_set p) (next_cid p) (verbs p));;
  (if bool_decide (manage_fd < 0) then c_exit manage_fd else mret tt);;
  on_server (fun s => MkServer (limit s) (test s) (client_sock s) manage_fd (client_list s) (client_num s)
                        (all_fds s) (open_fds s) (wmark_fd s) (highest_fd s));;
  modify (fun p => MkProcess (server p) ({[manage_fd]} ∪ open_set p) (next_cid p) (verbs p));;
  (if bool_decide (listens.1 < 0) then c_exit listens.1 else mret tt);;
  (if bool_decide (listens.2 < 0) then c_exit listens.2 else mret tt);;
  tn3270_server_count_and_set_fds client_fd;;
  tn3270_server_count_and_set_fds manage_fd.

Definition tn3270_server_doit (client_fd manage_fd : Z) (listens : Z * Z)
    (evs : list select_event) : Srv unit :=
  server_start client_fd manage_fd listens;; server_rounds evs.

(** ** The invariant *)

Definition fds (s : server_info) : list Z := cfd <$> client_list s.

Record wf (p : process) : Prop := MkWf {
  wf_fds : all_fds (server p) = {[client_sock (server p); manage_sock (server p)]} ∪ list_to_set (fds (server p));
  wf_nodup : NoDup (client_sock (server p) :: manage_sock (server p) :: fds (server p));
  wf_cids : NoDup (cid <$> client_list (server p));
  wf_next : Forall (fun c => (cid c < next_cid p)%positive) (client_list (server p));
  wf_range : forall fd, fd ∈ all_fds (server p) -> 3 <= fd <= highest_fd (server p);
  wf_high : highest_fd (server p) < FD_SETSIZE;
  wf_open : all_fds (server p) ⊆ open_set p;
  wf_count : open_fds (server p) = 2 + Z.of_nat (length (client_list (server p)));
  wf_mark : open_fds (server p) <= wmark_fd (server p);
  wf_num : Z.of_nat (length (client_list (server p))) <= client_num (server p) <= limit (server p)
}.

(** [accept] returns a descriptor that was not open, above the standard ones and
    within the set's size. *)
Definition accept_ok (e : env) : Prop :=
  forall o fd a, ev_accept e o = Accepted fd a -> 3 <= fd < FD_SETSIZE /\ fd ∉ o.

Lemma in_all_fds p fd :
  wf p -> fd ∈ all_fds (server p) <->
    fd = client_sock (server p) \/ fd = manage_sock (server p) \/
    exists c, c ∈ client_list (server p) /\ cfd c = fd.
Proof.
  intros H. rewrite (wf_fds _ H). unfold fds. rewrite !elem_of_union, !elem_of_singleton, elem_of_list_to_set.
  rewrite list_elem_of_fmap. split; [intros [[?|?]|(c & ? & ?)]|intros [?|[?|(c & ? & ?)]]]; eauto 6.
Qed.

(** Every client is watched, so there are fewer than [FD_SETSIZE]. *)
Lemma wf_few p : wf p -> Z.of_nat (length (client_list (server p))) < FD_SETSIZE.
Proof.
  intros H.
  assert (fds (server p) ⊆+ seqZ 0 FD_SETSIZE) as Hs.
  { apply NoDup_submseteq.
    - pose proof (wf_nodup _ H) as Hn. by apply NoDup_cons in Hn as [_ [_ Hn]%NoDup_cons].
    - intros x Hx. apply elem_of_seqZ. unfold fds in Hx. apply list_elem_of_fmap in Hx as (c & -> & Hc).
      pose proof (wf_range _ H (cfd c)) as Hr. pose proof (wf_high _ H).
      assert (3 <= cfd c <= highest_fd (server p)); [apply Hr, in_all_fds; eauto|]. lia. }
  pose proof (wf_nodup _ H) as Hn. apply NoDup_cons in Hn as [Hc Hn].
  assert (client_sock (server p) :: fds (server p) ⊆+ seqZ 0 FD_SETSIZE) as Hs'.
  { apply NoDup_submseteq.
    - apply NoDup_cons. split; [set_solver|]. by apply NoDup_cons in Hn as [_ ?].
    - intros x [->|Hx]%elem_of_cons; [|by eapply elem_of_submseteq].
      apply elem_of_seqZ. pose proof (wf_high _ H).
      pose proof (wf_range _ H (client_sock (server p))) as Hr.
      assert (3 <= client_sock (server p) <= highest_fd (server p)); [apply Hr, in_all_fds; auto|]. lia. }
  apply submseteq_length in Hs'. rewrite length_seqZ in Hs'. unfold fds in Hs'. cbn in Hs'.
  rewrite length_fmap in Hs'. unfold FD_SETSIZE in *. lia.
Qed.

(** Who a watched descriptor belongs to is always found. *)
Lemma find_by_fd_complete p fd :
  wf p -> fd ∈ all_fds (server p) -> fd <> client_sock (server p) -> fd <> manage_sock (server p) ->
  exists c, tn3270_client_find_by_fd (client_list (server p)) fd = Some c /\
    c ∈ client_list (server p) /\ cfd c = fd.
Proof.
  intros H [?|[?|(c & Hc & Hfd)]]%in_all_fds ? ?; [done|done| |done].
  unfold tn3270_client_find_by_fd.
  destruct (list_find (fun c => cfd c = fd) (client_list (server p))) as [[i c']|] eqn:E.
  - apply list_find_Some in E as (Hi & Hc' & _). exists c'. split_and!; [done| |done].
    by eapply list_elem_of_lookup_2.
  - apply list_find_None in E. rewrite Forall_forall in E. by destruct (E c).
Qed.

Lemma list_del_none c l : (forall x, x ∈ l -> cid x <> cid c) -> list_del c l = l.
Proof.
  induction l as [|x l IH]; intros H; [done|]. unfold list_del. rewrite filter_cons_True by (apply H; set_solver).
  f_equal. apply IH. set_solver.
Qed.

Lemma list_del_split l1 c l2 : NoDup (cid <$> l1 ++ c :: l2) -> list_del c (l1 ++ c :: l2) = l1 ++ l2.
Proof.
  rewrite fmap_app, fmap_cons. intros (_ & Hd & [Hc _]%NoDup_cons)%NoDup_app.
  unfold list_del. rewrite filter_app, filter_cons_False by naive_solver.
  f_equal; apply list_del_none; intros x Hx E.
  - apply (Hd (cid x)); [apply list_elem_of_fmap; eauto|]. rewrite E. set_solver.
  - apply Hc. rewrite <-E. apply list_elem_of_fmap. eauto.
Qed.

(** ** Operations keep it *)

Lemma accept_refused e p :
  (ev_oom e = true \/ client_num (server p) + 1 > limit (server p)) -> accept_ok e ->
  exists rc n, tn3270_accept_new_client e p = Ret rc (MkProcess (server p) (open_set p) n (verbs p)) /\
    (next_cid p <= n)%positive.
Proof.
  intros Hr He. unfold tn3270_accept_new_client.
  destruct (ev_oom e) eqn:Eo; [exists (- ENOMEM), (next_cid p); by destruct p|].
  rewrite (M_bind_Ret get_st _ _ p p) by done.
  destruct (ev_accept e (open_set p)) as [|fd a] eqn:Ea; [exists (- EINVAL), (next_cid p); by destruct p|].
  apply He in Ea as [_ Hfd]. destruct Hr as [?|Hl]; [done|].
  exists (- EUSERS), (Pos.succ (next_cid p)). split; [|lia].
  erewrite (M_bind_Ret (modify _)) by reflexivity. erewrite (M_bind_Ret get_st) by reflexivity.
  cbn [server]. rewrite bool_decide_true by done. unfold close, mbind, M_bind, modify. cbn.
  do 2 f_equal. set_solver.
Qed.

(** The state after a client is accepted and set up. *)
Definition accepted (fd a : Z) (p : process) : process :=
  let s := server p in
  MkProcess
    (MkServer (limit s) (test s) (client_sock s) (manage_sock s)
       (client_list s ++ [MkClient (next_cid p) fd a 0]) (client_num s + 1) ({[fd]} ∪ all_fds s)
       (ulong (open_fds s + 1))
       (if bool_decide (ulong (open_fds s + 1) > wmark_fd s) then ulong (open_fds s + 1) else wmark_fd s)
       (if bool_decide (fd > highest_fd s) then fd else highest_fd s))
    ({[fd]} ∪ open_set p) (Pos.succ (next_cid p)) (verbs p).

(** What follows the setup of a client, and the state when it failed: only the list
    and the descriptor are undone. *)
Definition set_up (e : env) (client : client_t) (fd : Z) : Srv Z :=
  ok ← elsewhere (ev_top e);
  (if (ok : bool) then mret tt
   else
     on_server (fun s => set_clients (list_del client (client_list s)) (client_num s) s);;
     close fd);;
  mret 0.

Definition setup_failed (fd a : Z) (p : process) : process :=
  let q := accepted fd a p in
  MkProcess (set_clients (list_del (MkClient (next_cid p) fd a 0) (client_list (server q))) (client_num (server q)) (server q))
    (open_set q ∖ {[fd]}) (next_cid q) (verbs q).

Lemma accept_granted e p fd a :
  ev_oom e = false -> ev_accept e (open_set p) = Accepted fd a -> accept_ok e ->
  client_num (server p) + 1 <= limit (server p) ->
  tn3270_accept_new_client e p = set_up e (MkClient (next_cid p) fd a 0) fd (accepted fd a p).
Proof.
  intros Eo Ea He Hl. unfold tn3270_accept_new_client. rewrite Eo.
  rewrite (M_bind_Ret get_st _ _ p p) by done. rewrite Ea. apply He in Ea as [Hr _].
  erewrite (M_bind_Ret (modify _)) by reflexivity. erewrite (M_bind_Ret get_st) by reflexivity.
  cbn [server next_cid]. rewrite bool_decide_false by lia.
  erewrite (M_bind_Ret (on_server _)) by reflexivity. rewrite Pos.pred_succ.
  unfold tn3270_server_count_and_set_fds, fd_ok. rewrite bool_decide_true by lia.
  erewrite (M_bind_Ret (on_server _)) by reflexivity.
  by erewrite (M_bind_Ret (on_server _)) by reflexivity.
Qed.

Lemma set_up_fails e fd a p : ev_top e = Ret false tt -> set_up e (MkClient (next_cid p) fd a 0) fd (accepted fd a p) = Ret 0 (setup_failed fd a p).
Proof. intros E. unfold set_up, elsewhere, zoom, mbind, M_bind. by rewrite E. Qed.

Lemma accepted_wf fd a p :
  wf p -> 3 <= fd < FD_SETSIZE -> fd ∉ open_set p -> client_num (server p) + 1 <= limit (server p) ->
  wf (accepted fd a p).
Proof.
  intros H Hr Ho Hl. pose proof (wf_few p H) as Hfew. unfold FD_SETSIZE in *.
  assert (fd ∉ all_fds (server p)) as Hn by (intros ?; apply Ho; by eapply (wf_open _ H)).
  assert (ulong (open_fds (server p) + 1) = open_fds (server p) + 1) as Eu.
  { apply Z.mod_small. rewrite (wf_count _ H). lia. }
  constructor; cbn [accepted server client_sock manage_sock client_list all_fds highest_fd open_fds wmark_fd
    client_num limit open_set next_cid]; rewrite ?Eu.
  - unfold fds. cbn. rewrite fmap_app, list_to_set_app_L. cbn. rewrite (wf_fds _ H). unfold fds. set_solver.
  - unfold fds. cbn. rewrite fmap_app. cbn. pose proof (wf_nodup _ H) as Hnd.
    rewrite !app_comm_cons. apply NoDup_app. split_and!; [done| |by apply NoDup_singleton].
    intros x Hx ->%list_elem_of_singleton. apply Hn. rewrite (wf_fds _ H). set_solver.
  - rewrite fmap_app. apply NoDup_app. split_and!; [apply (wf_cids _ H)| |by apply NoDup_singleton].
    cbn. intros x (c & -> & Hc)%list_elem_of_fmap Hx%list_elem_of_singleton.
    pose proof (wf_next _ H) as Hlt. rewrite Forall_forall in Hlt. specialize (Hlt c Hc). lia.
  - apply Forall_app_2; [|repeat constructor; cbn; lia].
    eapply Forall_impl; [apply (wf_next _ H)|]. cbn. lia.
  - intros x Hx. case_bool_decide; apply elem_of_union in Hx as [->%elem_of_singleton|Hx]; try lia;
      apply (wf_range _ H) in Hx; lia.
  - pose proof (wf_high _ H). unfold FD_SETSIZE in *. case_bool_decide; lia.
  - pose proof (wf_open _ H). set_solver.
  - rewrite length_app, (wf_count _ H). cbn. lia.
  - pose proof (wf_mark _ H). case_bool_decide; lia.
  - rewrite length_app. cbn. pose proof (wf_num _ H). lia.
Qed.

(** The state after a session is closed. *)
Definition closed (c : client_t) (p : process) : process :=
  let s := server p in
  MkProcess
    (MkServer (limit s) (test s) (client_sock s) (manage_sock s) (list_del c (client_list s)) (client_num s)
       (all_fds s ∖ {[cfd c]}) (ulong (open_fds s - 1)) (wmark_fd s) (highest_fd s))
    (open_set p ∖ {[cfd c]} ∖ {[cfd c]}) (next_cid p)
    ((verbs p ++ [LUA_OPCODE_RUI_PURGE]) ++ (if decide (terminated c = 0) then [LUA_OPCODE_RUI_TERM] else [])).

Lemma close_session_closed c p :
  fd_ok (cfd c) = true -> tn3270_close_session c p = Ret 0 (closed c p).
Proof.
  intros Hr. unfold tn3270_close_session, tn3270_server_count_and_clear_fds. rewrite Hr.
  unfold close, issue, on_server, set_server, set_fds, set_clients, modify, closed, mbind, M_bind. cbn.
  destruct (decide (terminated c = 0)); cbn; rewrite ?app_nil_r; done.
Qed.

Lemma closed_wf c p : wf p -> c ∈ client_list (server p) -> wf (closed c p).
Proof.
  intros H Hc. pose proof (wf_few p H) as Hfew. unfold FD_SETSIZE in *.
  pose proof (wf_num _ H) as Hnum. pose proof (wf_mark _ H) as Hmark. pose proof (wf_count _ H) as Hcount.
  pose proof (wf_nodup _ H) as Hnd. pose proof (wf_fds _ H) as Hfds. pose proof (wf_open _ H) as Hop.
  pose proof (wf_next _ H) as Hnext. pose proof (wf_cids _ H) as Hcids.
  unfold fds in *. apply list_elem_of_split in Hc as (l1 & l2 & E).
  rewrite E in Hnd, Hfds, Hnext, Hcids, Hnum, Hcount, Hfew.
  assert (ulong (open_fds (server p) - 1) = open_fds (server p) - 1) as Eu.
  { apply Z.mod_small. rewrite Hcount. lia. }
  assert (list_del c (l1 ++ c :: l2) = l1 ++ l2) as El by by apply list_del_split.
  rewrite fmap_app, fmap_cons in Hnd. rewrite fmap_app, fmap_cons in Hcids. rewrite fmap_app, fmap_cons in Hfds. rewrite length_app in Hnum, Hcount. cbn [length] in *.
  constructor; cbn [closed server client_sock manage_sock client_list all_fds highest_fd open_fds wmark_fd
    client_num limit open_set next_cid]; unfold fds; cbn [client_list]; rewrite ?E, ?El, ?Eu, ?fmap_app, ?length_app.
  - rewrite Hfds, !list_to_set_app_L. cbn [list_to_set].
    assert (cfd c <> client_sock (server p) /\ cfd c <> manage_sock (server p) /\
      cfd c ∉ (cfd <$> l1) /\ cfd c ∉ (cfd <$> l2)) as (? & ? & ? & ?).
    { apply NoDup_cons in Hnd as [H1 [H2 (_ & H3 & [H4 _]%NoDup_cons)%NoDup_app]%NoDup_cons].
      split_and!; [set_solver|set_solver| |done]. intros ?. apply (H3 (cfd c)); [done|set_solver]. }
    apply set_eq. intros x. rewrite !elem_of_difference, !elem_of_union, !elem_of_singleton, !elem_of_list_to_set.
    split; [intros [[[?|?]|[?|[?|?]]] ?]; tauto|]. intros [[->| ->]|[?|?]]; split; auto; intros ->; done.
  - assert (forall a b : list Z, NoDup (a ++ cfd c :: b) -> NoDup (a ++ b)) as Hdrop.
    { intros a b. rewrite <-Permutation_middle. by intros [_ ?]%NoDup_cons. }
    rewrite !app_comm_cons in *. by apply Hdrop.
  - rewrite <-Permutation_middle in Hcids. by apply NoDup_cons in Hcids as [_ ?].
  - rewrite !Forall_app, Forall_cons in *. tauto.
  - intros x Hx. apply (wf_range _ H). set_solver.
  - apply (wf_high _ H).
  - set_solver.
  - lia.
  - lia.
  - lia.
Qed.

(** *** A client whose setup failed

    Its descriptor was closed, and is still watched and counted. *)
Definition unwatched (fd : Z) (p : process) : process :=
  let s := server p in
  MkProcess (set_fds (all_fds s ∖ {[fd]}) (open_fds s - 1) (wmark_fd s) (highest_fd s) s) (open_set p) (next_cid p) (verbs p).

Definition leaked (fd : Z) (p : process) : Prop :=
  fd ∈ all_fds (server p) /\ fd ∉ open_set p /\ fd ∉ fds (server p) /\ wf (unwatched fd p).

Lemma setup_failed_leaked fd a p : wf p -> 3 <= fd < FD_SETSIZE -> fd ∉ open_set p -> client_num (server p) + 1 <= limit (server p) ->
  leaked fd (setup_failed fd a p).
Proof.
  intros H Hr Ho Hl. pose proof (wf_few p H) as Hfew.
  assert (list_del (MkClient (next_cid p) fd a 0) (client_list (server p) ++ [MkClient (next_cid p) fd a 0]) = client_list (server p)) as Ed.
  { unfold list_del. rewrite filter_app, filter_cons_False by (cbn; tauto). rewrite app_nil_r. apply list_del_none. intros x Hx E.
    pose proof (wf_next _ H) as Hn. rewrite Forall_forall in Hn. specialize (Hn x Hx). cbn in E. lia. }
  assert (ulong (open_fds (server p) + 1) = open_fds (server p) + 1) as Eu by (apply Z.mod_small; rewrite (wf_count _ H); unfold FD_SETSIZE in *; lia).
  assert (fd ∉ all_fds (server p)) as Hn by (intros ?; apply Ho; by eapply (wf_open _ H)).
  assert (fd ∉ fds (server p)) as Hf by (intros ?; apply Hn; rewrite (wf_fds _ H); set_solver).
  unfold leaked, unwatched, setup_failed, accepted. unfold fds. cbn -[bool_decide list_del ulong]. rewrite Ed, Eu. split; [set_solver|]. split; [set_solver|]. split; [exact Hf|].
  destruct H. constructor; unfold fds; cbn -[bool_decide]; try done.
  - fold (fds (server p)). rewrite <- wf_fds0. set_solver.
  - eapply Forall_impl; [exact wf_next0|]. cbn. lia.
  - intros x Hx. assert (x ∈ all_fds (server p)) as Hx' by set_solver. apply wf_range0 in Hx'. case_bool_decide; lia.
  - unfold FD_SETSIZE in *. case_bool_decide; lia.
  - set_solver.
  - lia.
  - case_bool_decide; lia.
  - lia.
Qed.

Lemma leaked_closed fd c p : leaked fd p -> c ∈ client_list (server p) -> leaked fd (closed c p).
Proof.
  intros (Hw & Ho & Hf & H) Hc. pose proof (wf_few _ H) as Hfew. pose proof (wf_count _ H) as Hcount. cbn in Hfew, Hcount.
  assert (1 <= Z.of_nat (length (client_list (server p)))) as Hone by (destruct (client_list (server p)); [by apply elem_of_nil in Hc|cbn; lia]).
  assert (fd <> cfd c) as Hne by (intros ->; apply Hf; unfold fds; apply list_elem_of_fmap; eauto).
  pose proof (closed_wf c (unwatched fd p) H Hc) as H'. unfold leaked. split; [set_solver|]. split; [set_solver|]. split.
  - unfold fds in *. cbn. intros Hx. apply Hf. apply list_elem_of_fmap in Hx as (x & -> & [_ Hx]%list_elem_of_filter). apply list_elem_of_fmap; eauto.
  - assert (unwatched fd (closed c p) = closed c (unwatched fd p)) as ->; [|done].
    unfold unwatched, closed, set_fds. cbn. f_equal. f_equal; [set_solver|].
    unfold FD_SETSIZE in *. unfold ulong. rewrite !Z.mod_small by lia. lia.
Qed.

(** A watched descriptor that is not open makes [select] fail. *)
Lemma leaked_not_open fd p : leaked fd p -> all_open p = false.
Proof. intros (Hw & Ho & _). apply bool_decide_eq_false. set_solver. Qed.

(** ** Ends of the process *)
Inductive ending : Type := Exits (code : Z) | Aborts | Undefined | Runs_out.

Definition lands {S A} (Q : A -> S -> Prop) (E : ending -> Prop) (o : outcome S A) : Prop :=
  match o with Ret a s => Q a s | Exit c _ => E (Exits c) | Abort _ => E Aborts | Undef _ => E Undefined | NoFuel _ => E Runs_out end.

Lemma lands_bind {S A B} (Q' : A -> S -> Prop) (Q : B -> S -> Prop) E (m : M S A) k s :
  lands Q' E (m s) -> (forall a s', Q' a s' -> lands Q E (k a s')) -> lands Q E ((m ≫= k) s).
Proof. unfold mbind, M_bind. destruct (m s); cbn; eauto. Qed.

Lemma lands_mono {S A} (Q Q' : A -> S -> Prop) (E E' : ending -> Prop) (o : outcome S A) :
  (forall a s, Q a s -> Q' a s) -> (forall x, E x -> E' x) -> lands Q E o -> lands Q' E' o.
Proof. destruct o; cbn; eauto. Qed.

(** The process is ended so, by work done elsewhere. *)
Definition ended {A} (x : ending) (o : outcome unit A) : Prop := lands (fun _ _ => False) (fun y => y = x) o.

Lemma elsewhere_lands {A} (o : outcome unit A) (Q : A -> process -> Prop) E p :
  (forall a, o = Ret a tt -> Q a p) -> (forall x, ended x o -> E x) -> lands Q E (elsewhere o p).
Proof. intros HQ HE. unfold elsewhere, zoom. destruct o as [a []| | | |]; cbn; [by apply HQ|by apply HE..]. Qed.

(** ** Rounds *)

Definition event_ok (ev : select_event) : Prop :=
  match ev with SelReady _ e => accept_ok e | _ => True end.

(** A round in which a client's setup fails, and one in which the setup or the service
    of a client ends the process. *)
Definition setup_fails (ev : select_event) : Prop :=
  match ev with SelReady _ e => ev_top e = Ret false tt | _ => False end.

Definition env_ends (x : ending) (e : env) : Prop := ended x (ev_top e) \/ exists fd, ended x (ev_bottom e fd).
Definition ends (x : ending) (ev : select_event) : Prop := match ev with SelReady _ e => env_ends x e | _ => False end.

Lemma wf_renumber p n : wf p -> (next_cid p <= n)%positive ->
  wf (MkProcess (server p) (open_set p) n (verbs p)).
Proof.
  intros H Hn. destruct H. constructor; cbn; try done.
  eapply Forall_impl; [done|]. cbn. lia.
Qed.

(** The books are kept, or a descriptor has leaked. *)
Definition wf_or_leaked (failed : Prop) (p : process) : Prop := wf p \/ failed /\ exists fd, leaked fd p.

Lemma accept_wf e p : wf p -> accept_ok e ->
  lands (fun _ p' => client_sock (server p') = client_sock (server p) /\ wf_or_leaked (ev_top e = Ret false tt) p') (fun x => env_ends x e) (tn3270_accept_new_client e p).
Proof.
  intros H He.
  destruct (decide (ev_oom e = true \/ client_num (server p) + 1 > limit (server p))) as [Hr|Hr].
  { destruct (accept_refused e p Hr He) as (rc & n & -> & Hn). split; [done|]. left. by apply wf_renumber. }
  destruct (ev_oom e) eqn:Eo; [tauto|].
  destruct (ev_accept e (open_set p)) as [|fd a] eqn:Ea.
  { unfold tn3270_accept_new_client. rewrite Eo. rewrite (M_bind_Ret get_st _ _ p p) by done. rewrite Ea. split; [done|by left]. }
  rewrite (accept_granted e p fd a Eo Ea He) by lia. destruct (He _ _ _ Ea) as [Hr' Ho].
  assert (ev_top e = Ret false tt \/ ev_top e <> Ret false tt) as [Ef|Ef] by (destruct (ev_top e) as [[] []| | | |]; first [by left|by right]).
  - rewrite set_up_fails by done. split; [done|]. right. split; [done|]. exists fd. apply setup_failed_leaked; [done..|lia].
  - unfold set_up. eapply lands_bind; [apply (elsewhere_lands _ (fun b q => b = true /\ q = accepted fd a p))|].
    + intros [] E; [done|by destruct Ef].
    + intros x Hx. by left.
    + intros b q [-> ->]. split; [done|]. left. apply accepted_wf; try done. lia.
Qed.

(** A descriptor other than the client listener: nothing, a session closed, or the end. *)
Lemma dispatch_other e p i : i <> client_sock (server p) -> highest_fd (server p) < FD_SETSIZE ->
  (forall c, c ∈ client_list (server p) -> fd_ok (cfd c) = true) ->
  lands (fun _ p' => p' = p \/ exists c, c ∈ client_list (server p) /\ p' = closed c p) (fun x => env_ends x e) (dispatch e i p).
Proof.
  intros Hi Hh Hok. unfold dispatch. rewrite (M_bind_Ret get_st _ _ p p) by done.
  rewrite decide_False by done. case_decide; [by left|].
  destruct (tn3270_client_find_by_fd (client_list (server p)) i) as [c|] eqn:E; [|by left].
  assert (c ∈ client_list (server p)) as Hc.
  { unfold tn3270_client_find_by_fd in E. destruct (list_find _ _) as [[j c']|] eqn:El; [|done].
    cbn in E. simplify_eq. apply list_find_Some in El as (Hj & _). by eapply list_elem_of_lookup_2. }
  eapply lands_bind; [apply (elsewhere_lands _ (fun _ q => q = p))|]; [done|intros x Hx; right; by exists i|].
  intros err q ->. case_decide; [|by left]. rewrite (M_bind_Ret _ _ _ 0 (closed c p)) by (by apply close_session_closed, Hok). right. by exists c.
Qed.

Lemma wf_fd_ok p c : wf p -> c ∈ client_list (server p) -> fd_ok (cfd c) = true.
Proof.
  intros H Hc. unfold fd_ok. apply bool_decide_eq_true.
  assert (3 <= cfd c <= highest_fd (server p)) by (apply (wf_range _ H), in_all_fds; eauto).
  pose proof (wf_high _ H). lia.
Qed.

(** An invariant of [dispatch], which may depend on where the loop is, is one of the
    loop over the descriptors. *)
Lemma dispatch_from_inv (I : Z -> process -> Prop) (E : ending -> Prop) readable e :
  (forall i p, I i p -> highest_fd (server p) < FD_SETSIZE) ->
  (forall i p, I i p -> I (i + 1) p) ->
  (forall i p, I i p -> lands (fun _ => I (i + 1)) E (dispatch e i p)) ->
  forall fuel i p, I i p -> i <= FD_SETSIZE -> FD_SETSIZE - i < Z.of_nat fuel ->
  lands (fun _ p' => exists j, I j p') E (dispatch_from fuel readable e i p).
Proof.
  intros Hhigh Hnext Hd. induction fuel as [|fuel IH]; intros i p H Hi Hf; [lia|]. cbn [dispatch_from].
  rewrite (M_bind_Ret get_st _ _ p p) by done. case_bool_decide as Hh; [|by exists i].
  pose proof (Hhigh _ _ H).
  eapply (lands_bind (fun _ => I (i + 1))); [case_bool_decide; [by apply Hd|by apply Hnext]|].
  intros [] p1 H1. apply IH; [done|lia..].
Qed.

(** In a round: until the listener's turn no descriptor has leaked. *)
Definition in_round (e : env) (i : Z) (p : process) : Prop :=
  wf p \/ client_sock (server p) < i /\ ev_top e = Ret false tt /\ exists fd, leaked fd p.

Lemma in_round_wf_or_leaked e i p : in_round e i p -> wf_or_leaked (ev_top e = Ret false tt) p.
Proof. intros [H|(_ & ? & H)]; [by left|by right]. Qed.

Lemma round_lands readable e p : wf p -> accept_ok e ->
  lands (fun _ => wf_or_leaked (ev_top e = Ret false tt)) (fun x => env_ends x e) (dispatch_from dispatch_fuel readable e 3 p).
Proof.
  intros H He. eapply lands_mono; [|by intros x Hx; exact Hx|apply (dispatch_from_inv (in_round e) _ readable e)].
  - intros [] q (j & Hq). by eapply in_round_wf_or_leaked.
  - intros i q [Hq|(_ & _ & fd & _ & _ & _ & Hq)]; [by apply wf_high|exact (wf_high _ Hq)].
  - intros i q [Hq|(Hi & Hq)]; [by left|right; split; [lia|done]].
  - intros i q [Hq|(Hi & Ef & fd & Hq)].
    + destruct (decide (i = client_sock (server q))) as [->|Hi].
      * unfold dispatch. rewrite (M_bind_Ret get_st _ _ q q), decide_True by done.
        eapply lands_bind; [by apply accept_wf|]. intros rc q' [Hs [Hw|[Ef Hl]]]; [by left|]. right. split; [rewrite Hs; lia|done].
      * eapply lands_mono; [|by intros x Hx; exact Hx|apply dispatch_other; [done|by apply wf_high|intros c; by apply wf_fd_ok]].
        intros [] q' [->|(c & Hc & ->)]; left; [done|by apply closed_wf].
    + destruct Hq as (Hw & Ho & Hf & Hq).
      eapply lands_mono; [|by intros x Hx; exact Hx|apply dispatch_other; [lia|exact (wf_high _ Hq)|intros c Hc; exact (wf_fd_ok _ c Hq Hc)]].
      intros [] q' [->|(c & Hc & ->)]; right; (split; [cbn; lia|split; [done|exists fd]]); [done|by apply leaked_closed].
  - by left.
  - unfold FD_SETSIZE. lia.
  - unfold dispatch_fuel, FD_SETSIZE. lia.
Qed.

(** A server with a leaked descriptor does nothing more. *)
Lemma leaked_rounds fd p evs : leaked fd p -> server_rounds evs p = Ret tt p.
Proof.
  intros H. induction evs as [|ev evs IH]; [done|]. cbn [server_rounds].
  rewrite (M_bind_Ret _ _ _ tt p); [done|].
  unfold server_round. rewrite (M_bind_Ret get_st _ _ p p) by done. by rewrite (leaked_not_open fd p H).
Qed.

Lemma server_rounds_wf evs : forall p, wf p -> Forall event_ok evs ->
  lands (fun _ => wf_or_leaked (Exists setup_fails evs)) (fun x => Exists (ends x) evs) (server_rounds evs p).
Proof.
  induction evs as [|ev evs IH]; intros p H Hok; [by left|].
  apply Forall_cons in Hok as [Hev Hok]. cbn [server_rounds].
  assert (lands (fun _ => wf_or_leaked (setup_fails ev)) (fun x => ends x ev) (server_round ev p)) as Hr.
  { unfold server_round. rewrite (M_bind_Ret get_st _ _ p p) by done.
    destruct (all_open p), ev as [| |readable e]; try by left. by apply round_lands. }
  eapply (lands_bind (fun _ => wf_or_leaked (setup_fails ev))).
  - eapply lands_mono; [by intros a q Hq; exact Hq| |exact Hr]. intros x Hx. by left.
  - intros [] q [Hq|(Hf & fd & Hq)].
    + eapply lands_mono; [| |by apply IH]; [|intros x Hx; by right].
      intros [] q' [Hq'|[Hf' Hq']]; [by left|right; split; [by right|done]].
    + rewrite (leaked_rounds fd q evs Hq). right. split; [by left|by exists fd].
Qed.

(** A server as it is read from the configuration: [calloc]ed, with its limit. *)
Definition configured (p : process) : Prop :=
  open_fds (server p) = 0 /\ wmark_fd (server p) = 0 /\ highest_fd (server p) = 0 /\
  0 <= limit (server p).

Lemma server_start_wf cfd mfd p :
  configured p -> 3 <= cfd < FD_SETSIZE -> 3 <= mfd < FD_SETSIZE -> cfd <> mfd ->
  exists p', server_start cfd mfd (0, 0) p = Ret tt p' /\ wf p' /\
    client_list (server p') = [] /\ limit (server p') = limit (server p) /\ client_num (server p') = 0.
Proof.
  intros (Ho & Hm & Hh & Hl) Hc Hm' Hne. unfold FD_SETSIZE in *.
  unfold server_start, tn3270_server_count_and_set_fds, fd_ok, FD_SETSIZE.
  rewrite !(bool_decide_false (_ < 0)) by (cbn; lia). rewrite !(bool_decide_true (0 <= _ < 1024)) by lia.
  unfold on_server, set_server, set_fds, modify, mbind, M_bind. cbn. rewrite Ho, Hm, Hh.
  change (ulong (0 + 1)) with 1. change (ulong (1 + 1)) with 2.
  rewrite (bool_decide_true (1 > 0)), (bool_decide_true (cfd > 0)) by lia. cbn -[bool_decide]. eexists. split; [done|]. split; [|done]. constructor; cbn -[bool_decide].
  - unfold fds. cbn. set_solver.
  - unfold fds. cbn. apply NoDup_cons. split; [set_solver|]. apply NoDup_singleton.
  - constructor.
  - constructor.
  - intros x Hx. case_bool_decide; set_unfold; lia.
  - unfold FD_SETSIZE. case_bool_decide; lia.
  - set_solver.
  - lia.
  - lia.
  - lia.
Qed.

(** ** Properties *)


Definition demo_accept (o : gset Z) : accept_result := if bool_decide (5 ∈ o) then AcceptFails else Accepted 5 77.
Definition demo_env : env := MkEnv false demo_accept (Ret true tt) (fun fd => if decide (fd = 5) then Ret (- ECONNABORTED) tt else Ret 0 tt).

(** A round in which a client sends what the service asserts not to be sent. *)
Definition demo_assert : env := MkEnv false demo_accept (Ret true tt) (fun _ => Abort tt).
Definition demo_process (lim : Z) : process :=
  MkProcess (MkServer lim true 0 0 [] 0 ∅ 0 0 0) {[0; 1; 2]} 1 [].

Lemma demo_accept_ok top bottom : accept_ok (MkEnv false demo_accept top bottom).
Proof. intros o fd a. cbn. unfold demo_accept. case_bool_decide; [done|]. intros [= <- <-]. by split. Qed.


(** the limit is used up for good.  [client_num] only grows, so a server
    that has accepted [limit] clients refuses every later one, in every sequence
    of rounds, even when all of them have left. *)
Theorem client_limit_never_recovers p evs :
  wf p -> client_num (server p) = limit (server p) -> Forall event_ok evs ->
  lands (fun _ p' => wf p' /\ client_num (server p') = limit (server p') /\
      forall c, c ∈ client_list (server p') -> c ∈ client_list (server p))
    (fun x => Exists (ends x) evs) (server_rounds evs p).
Proof.
  intros H Hn Hevs.
  set (I := fun q => wf q /\ client_num (server q) = limit (server p) /\ limit (server q) = limit (server p) /\
    forall c, c ∈ client_list (server q) -> c ∈ client_list (server p)).
  assert (forall evs q, I q -> Forall event_ok evs -> lands (fun _ => I) (fun x => Exists (ends x) evs) (server_rounds evs q)) as Hrounds.
  2: { eapply lands_mono; [|by intros x Hx; exact Hx|apply Hrounds; [by split_and!|done]]. intros [] q (Hw & Hqn & Hql & Hqc). split_and!; [done|congruence|done]. }
  clear evs Hevs. induction evs as [|ev evs IH]; intros q Hq Hok; [done|]. apply Forall_cons in Hok as [Hev Hok]. cbn [server_rounds].
  eapply (lands_bind (fun _ => I)).
  - eapply lands_mono; [by intros a r Hr; exact Hr|intros x Hx; apply Exists_cons_hd, Hx|].
    unfold server_round. rewrite (M_bind_Ret get_st _ _ q q) by done. destruct (all_open q), ev as [| |readable e]; try done.
    eapply lands_mono; [|by intros x Hx; exact Hx|apply (dispatch_from_inv (fun _ => I) _ readable e)].
    + by intros [] r [_ Hr].
    + intros _ r Hr. by apply wf_high, Hr.
    + done.
    + intros i r (Hr & Hrn & Hrl & Hrc). destruct (decide (i = client_sock (server r))) as [->|Hi].
      * unfold dispatch. rewrite (M_bind_Ret get_st _ _ r r), decide_True by done.
        destruct (accept_refused e r) as (rc & n & E & Hnx); [right; lia|done|]. rewrite (M_bind_Ret _ _ _ _ _ E). by split; [apply wf_renumber|].
      * eapply lands_mono; [|by intros x Hx; exact Hx|apply dispatch_other; [done|by apply wf_high|intros c; by apply wf_fd_ok]].
        intros [] r' [->|(c & Hc & ->)]; [done|]. split; [by apply closed_wf|]. cbn. split_and!; [done..|].
        intros x Hx. apply Hrc. by apply list_elem_of_filter in Hx as [_ ?].
    + done.
    + unfold FD_SETSIZE. lia.
    + unfold dispatch_fuel, FD_SETSIZE. lia.
  - intros [] r Hr. eapply lands_mono; [| |by apply IH]; [by intros a r' Hr'|intros x Hx; by right].
Qed.

(** C27: a failed setup stops the server.  When the setup of an accepted client
    fails, its descriptor is closed but stays in the watched set: [select]
    fails from then on, and no later round does anything. *)
Theorem setup_failure_stops_server p e fd a evs :
  wf p -> accept_ok e -> ev_oom e = false -> ev_top e = Ret false tt ->
  ev_accept e (open_set p) = Accepted fd a -> client_num (server p) + 1 <= limit (server p) ->
  exists p', tn3270_accept_new_client e p = Ret 0 p' /\
    client_list (server p') = client_list (server p) /\
    server_rounds evs p' = Ret tt p'.
Proof.
  intros H He Ho Ht Ha Hl. rewrite (accept_granted e p fd a Ho Ha He Hl), (set_up_fails e fd a p Ht).
  exists (setup_failed fd a p). split; [done|]. split.
  - cbn. unfold list_del. rewrite filter_app, filter_cons_False by (cbn; tauto). rewrite app_nil_r.
    change (list_del (MkClient (next_cid p) fd a 0) (client_list (server p)) = client_list (server p)).
    apply list_del_none. intros x Hx E. pose proof (wf_next _ H) as Hn. rewrite Forall_forall in Hn.
    specialize (Hn x Hx). cbn in E. lia.
  - destruct (He _ _ _ Ha). apply (leaked_rounds fd). by apply setup_failed_leaked.
Qed.

Definition demo_failing : env := MkEnv false demo_accept (Ret false tt) (fun _ => Ret 0 tt).

Lemma setup_failure_stops_server_witness :
  exists p p', tn3270_accept_new_client demo_failing p = Ret 0 p' /\
    server_rounds [SelReady {[3]} demo_env] p' = Ret tt p'.
Proof.
  destruct (server_start_wf 3 4 (demo_process 1)) as (p & E & H & Hl & Hlim & Hn);
    [repeat split; cbn; lia | unfold FD_SETSIZE; lia | unfold FD_SETSIZE; lia | lia |].
  exists p.
  destruct (setup_failure_stops_server p demo_failing 5 77
    [SelReady {[3]} demo_env] H) as (p' & E' & _ & E2);
    [apply demo_accept_ok | reflexivity | reflexivity | | cbn in Hlim; lia |].
  - vm_compute in E. injection E as <-. reflexivity.
  - exists p'. split; assumption.
Defined.
