(* ===== verification/Tn3270Host.v ===== *)
(** * tn3270d/tn3270_host.c: the host side of a client

    A [tnXhost] collects a data stream in its buffer and sends it over its
    stream; input comes back as records.  The state is the host beside the
    stream's world ([TnxStream.world]).  [render] is a 3270 display: what a
    terminal shows after the commands and orders it receives. *)
From S2P Require Import Prelude TnxBuffer TnxRecord TnxConf TnxTransmaps TnxLib TnxStream TnxTelnet.

(** Codes of [tn3270_codes.h] and [tnX_codes.h]. *)
Definition TN3270_SESSION_CTL_RESET_MDT := 1.
Definition TN3270_SESSION_CTL_KEYBOARD_RESTORE := 2.
Definition TN3270_SESSION_CTL_RESET := 64.
Definition CMD_3270_WRITE := 1.
Definition CMD_3270_ERASE_WRITE := 5.
Definition CMD_3270_READ_MODIFIED := 6.
Definition ORDER_3270_SF := 29.
Definition ESC := 4.
Definition CMD_CLEAR_UNIT := 64.
Definition CMD_SAVE_SCREEN := 2.
Definition CMD_WRITE_ERROR_CODE := 33.
Definition RA := 2.
Definition SBA := 17.
Definition ATTR_5250_WHITE := 34.
Definition ATTR_5250_NORMAL := 32.
Definition ECONNABORTED := 103.
Definition TN5250_RECORD_H_HLP := 1.
Definition TN5250_RECORD_H_TRQ := 2.
Definition TN5250_RECORD_H_SRQ := 4.
Definition TN5250_RECORD_H_ATN := 64.
Definition TN5250_RECORD_H_ERR := 128.
Definition TN5250_RECORD_OPCODE_OUTPUT_ONLY := 2.

Definition ascii_banner : list (list Z) := [
  str "                                                                  #####        ";
  str "                                                                 #######       ";
  str "                    @                                            ##O#O##       ";
  str "   ######          @@#                                           #VVVVV#       ";
  str "     ##             #                                          ##  VVV  ##     ";
  str "     ##         @@@   ### ####   ###    ###  ##### ######     #          ##    ";
  str "     ##        @  @#   ###    ##  ##     ##    ###  ##       #            ##   ";
  str "     ##       @   @#   ##     ##  ##     ##      ###         #            ###  ";
  str "     ##          @@#   ##     ##  ##     ##      ###        QQ#           ##Q  ";
  str "     ##       # @@#    ##     ##  ##     ##     ## ##     QQQQQQ#       #QQQQQQ";
  str "     ##      ## @@# #  ##     ##  ###   ###    ##   ##    QQQQQQQ#     #QQQQQQQ";
  str "   ############  ###  ####   ####   #### ### ##### ######   QQQQQ#######QQQQQ  ";
  str "                                                                               ";
  str "                                                                               ";
  str "                            Linux-SNA TN3270 server                            ";
  str "                       (Press an AID key to disconnect)                        "
].

Definition MAP_DEFAULT : list Z := str "37".

(** ** State *)

Record tnXhost : Type := MkHost {
  h_map : option tnXchar_map;
  h_record : option ptr;
  h_screenRec : option ptr;
  h_buffer : tnXbuff;
  curattr : Z;
  lastattr : Z;
  cursorPos : Z;
  wtd_set : bool;
  clearState : bool;
  inputInhibited : bool;
  disconnected : bool;
  inSysInterrupt : bool;
  maxcol : Z
}.

Definition set_buffer b h := MkHost (h_map h) (h_record h) (h_screenRec h) b (curattr h) (lastattr h)
  (cursorPos h) (wtd_set h) (clearState h) (inputInhibited h) (disconnected h) (inSysInterrupt h) (maxcol h).
Definition set_record r h := MkHost (h_map h) r (h_screenRec h) (h_buffer h) (curattr h) (lastattr h)
  (cursorPos h) (wtd_set h) (clearState h) (inputInhibited h) (disconnected h) (inSysInterrupt h) (maxcol h).
Definition set_cursor c h := MkHost (h_map h) (h_record h) (h_screenRec h) (h_buffer h) (curattr h) (lastattr h)
  c (wtd_set h) (clearState h) (inputInhibited h) (disconnected h) (inSysInterrupt h) (maxcol h).
Definition set_map m h := MkHost m (h_record h) (h_screenRec h) (h_buffer h) (curattr h) (lastattr h)
  (cursorPos h) (wtd_set h) (clearState h) (inputInhibited h) (disconnected h) (inSysInterrupt h) (maxcol h).
Definition set_curattr a h := MkHost (h_map h) (h_record h) (h_screenRec h) (h_buffer h) a (lastattr h)
  (cursorPos h) (wtd_set h) (clearState h) (inputInhibited h) (disconnected h) (inSysInterrupt h) (maxcol h).
(** The flags: write-to-display begun, screen clear, keyboard locked, and the
    last attribute forgotten when a write begins. *)
Definition set_wtd b h := MkHost (h_map h) (h_record h) (h_screenRec h) (h_buffer h) (curattr h) (lastattr h)
  (cursorPos h) b (clearState h) (inputInhibited h) (disconnected h) (inSysInterrupt h) (maxcol h).
Definition set_clear b h := MkHost (h_map h) (h_record h) (h_screenRec h) (h_buffer h) (curattr h) (lastattr h)
  (cursorPos h) (wtd_set h) b (inputInhibited h) (disconnected h) (inSysInterrupt h) (maxcol h).
Definition set_inhibited b h := MkHost (h_map h) (h_record h) (h_screenRec h) (h_buffer h) (curattr h) (lastattr h)
  (cursorPos h) (wtd_set h) (clearState h) b (disconnected h) (inSysInterrupt h) (maxcol h).
Definition set_disconnected b h := MkHost (h_map h) (h_record h) (h_screenRec h) (h_buffer h) (curattr h) (lastattr h)
  (cursorPos h) (wtd_set h) (clearState h) (inputInhibited h) b (inSysInterrupt h) (maxcol h).
Definition set_interrupt b h := MkHost (h_map h) (h_record h) (h_screenRec h) (h_buffer h) (curattr h) (lastattr h)
  (cursorPos h) (wtd_set h) (clearState h) (inputInhibited h) (disconnected h) b (maxcol h).
(** [lastattr = -1] in an [unsigned short]. *)
Definition begun h := MkHost (h_map h) (h_record h) (h_screenRec h) (h_buffer h) (curattr h) 65535
  (cursorPos h) true false (inputInhibited h) (disconnected h) (inSysInterrupt h) (maxcol h).

Record hworld : Type := MkHW { host : tnXhost; wd : world }.

Abbreviation H := (M hworld).

Definition on_host (f : tnXhost -> tnXhost) : H unit := modify (fun s => MkHW (f (host s)) (wd s)).
Definition get_host : H tnXhost := gets host.

(** A stream operation, on the host's stream. *)
Definition on_stream {A} (m : W A) : H A := fun s =>
  match m (wd s) with
  | Ret a w => Ret a (MkHW (host s) w)
  | Exit c w => Exit c (MkHW (host s) w)
  | Abort w => Abort (MkHW (host s) w)
  | Undef w => Undef (MkHW (host s) w)
  | NoFuel w => NoFuel (MkHW (host s) w)
  end.

(** [tnX_buffer_append_byte(&This->buffer, b)], and its sequences. *)
Definition append (b : Z) : H unit :=
  h ← get_host;
  buff ← of_opt (tnX_buffer_append_byte (h_buffer h) (u8 b));
  on_host (set_buffer buff).

(** The packet handler of the stream's type; a 5250 stream has none. *)
Definition tnX_stream_send_packet (data : list Z) : W unit :=
  w ← get_st;
  if decide (streamtype (st w) = TN5250_STREAM) then undef else tn3270_stream_send_packet data.

(** ** Building a data stream *)

Definition setXCharMap (name : list Z) : H unit :=
  let map := tnX_char_map_new name in
  tnX_assert (match map with Some _ => true | None => false end);;
  on_host (set_map map).

(** The new host, before its map is set, is all zeros. *)
Definition host_zero : tnXhost :=
  MkHost None None None tnX_buffer_init 0 0 0 false false false false false 0.

Definition tnX_host_new : H unit :=
  on_host (fun _ => host_zero);;
  setXCharMap MAP_DEFAULT;;
  on_host (fun h => MkHost (h_map h) (h_record h) (h_screenRec h) (h_buffer h) (curattr h) (lastattr h)
    (cursorPos h) (wtd_set h) (clearState h) (inputInhibited h) (disconnected h) (inSysInterrupt h) 80).

Definition writeToDisplay : H unit :=
  h ← get_host;
  if wtd_set h then mret tt
  else
    ctrlchar ← (if inputInhibited h && negb (inSysInterrupt h) then
                  on_host (set_inhibited false);; mret TN3270_SESSION_CTL_KEYBOARD_RESTORE
                else mret 0);
    append CMD_3270_WRITE;;
    append ctrlchar;;
    on_host begun.

(** [str] is the block [str] points to; one character past [len] is read. *)
Fixpoint append_block (len : nat) (str : list Z) (buff : tnXbuff) (map : tnXchar_map) : option tnXbuff :=
  match len, str with
  | _, [] => None
  | O, _ :: _ => Some buff
  | S len, uc :: str =>
      buff ← (if isprint uc then e ← tnX_char_map_to_remote map uc; tnX_buffer_append_byte buff e
              else Some buff);
      append_block len str buff map
  end.

Definition appendBlock2Ebcdic (buff : tnXbuff) (str : list Z) (len : nat) (map : option tnXchar_map) :
    option tnXbuff :=
  map ← map; append_block len str buff map.

Definition append_ebcdic (s : list Z) : H unit :=
  h ← get_host;
  buff ← of_opt (appendBlock2Ebcdic (h_buffer h) (s ++ [0]) (length s) (h_map h));
  on_host (set_buffer buff).

Definition StartField (attr : Z) : H unit :=
  append ORDER_3270_SF;; append attr.

Definition EraseWrite : H unit :=
  on_host (set_inhibited false);;
  append CMD_3270_ERASE_WRITE;;
  append (Z.lor (Z.lor TN3270_SESSION_CTL_KEYBOARD_RESTORE TN3270_SESSION_CTL_RESET_MDT)
            TN3270_SESSION_CTL_RESET);;
  on_host begun.

(** The two address bytes of an [unsigned short]. *)
Definition addr1 (address : Z) : Z := u8 (Z.lor (Z.shiftr address 6) 192).
Definition addr2 (address : Z) : Z := Z.land address 63.

Definition setBufferAddr (row col : Z) : H unit :=
  let address := u16 (row * 80 + (col - 1)) in
  writeToDisplay;;
  append SBA;;
  append (addr1 address);;
  append (addr2 address).

Definition repeat2Addr (row col uc : Z) : H unit :=
  writeToDisplay;;
  append RA;; append (u8 row);; append (u8 col);; append uc.

Definition setAttribute (attr : Z) : H unit := on_host (set_curattr (u16 attr)).

Definition sendWrite : H unit :=
  h ← get_host; on_stream (tnX_stream_send_packet (buf_bytes (h_buffer h))).

(** ** Reading *)

(** [sendReadMDT] on the buffer it is given, which it starts afresh. *)
Definition sendReadMDT : W tnXbuff :=
  buff ← of_opt (tnX_buffer_append_byte tnX_buffer_init CMD_3270_READ_MODIFIED);
  tnX_stream_send_packet (buf_bytes buff);;
  mret buff.

Definition readMDTfields_1 (sendRMF : bool) : H Z :=
  (if sendRMF then
     buff ← on_stream sendReadMDT; on_host (set_buffer buff)
   else mret tt);;
  on_host (set_wtd false);;
  mret 0.

Definition record_get_byte (p : ptr) : H Z := on_stream (fun w =>
  match tnX_record_get_byte p (hp w) with
  | Ret b h => Ret b (set_hp h w)
  | Exit c h => Exit c (set_hp h w)
  | Abort h => Abort (set_hp h w)
  | Undef h => Undef (set_hp h w)
  | NoFuel h => NoFuel (set_hp h w)
  end).

Definition destroy_record (p : option ptr) : H unit :=
  on_stream (on_hp (fun h => h ← tnX_record_destroy h p; Some (tt, h))).

Definition readMDTfields_2 : H Z :=
  ok ← on_stream telnet_stream_handle_receive;
  if decide (ok = 0) then on_host (set_disconnected true);; mret (- ECONNABORTED)
  else
    h ← get_host;
    (match h_record h with
     | Some p => destroy_record (Some p);; on_host (set_record None)
     | None => mret tt
     end);;
    w ← gets wd;
    if bool_decide (record_count (st w) > 0) then
      p ← on_stream tnX_stream_get_record;
      on_host (set_record (Some p));;
      ver ← record_get_byte p;
      hor ← record_get_byte p;
      on_host (fun h => set_cursor (u16 ((ver - 1) * maxcol h + (hor - 1))) h);;
      aidCode ← record_get_byte p;
      mret (if decide (aidCode <> 0) then - ECONNABORTED else aidCode)
    else mret 0.

(** ** The 5250 operations *)

(** [getErrMsg]: the message of an operator error code. *)
Definition errMsgTable : list (Z * string) := [
  (1, "Keyboard overrun.");
  (4, "Entry of data not allowed in this input/output field.");
  (5, "Cursor in protected area of display.");
  (6, "Key pressed following System Request key was not valid.");
  (7, "Mandatory data entry field. Must have data entered.");
  (8, "Field requires alphabetic characters.");
  (9, "Field requires numeric characters.");
  (16, "Only characters 0 through 9 allowed.");
  (17, "Key for sign position of field not valid.");
  (18, "No room to insert data.");
  (20, "Mandatory fill field. Must fill to exit.");
  (21, "Modulo 10 or 11 check digit error.");
  (22, "Field Minus key not valid in field.");
  (24, "The key used to exit field not valid.");
  (25, "Duplicate key or Field Mark key not allowed in field.");
  (32, "Enter key not allowed in field.");
  (38, "Field- entry not allowed.");
  (39, "Cannot use undefined key.")].

Fixpoint find_msg (code : Z) (table : list (Z * string)) : option (list Z) :=
  match table with
  | [] => None
  | (c, m) :: table => if decide (c = code) then Some (str m) else find_msg code table
  end.

Definition getErrMsg (ecode : Z) : list Z :=
  default (str "No help text is available.") (find_msg ecode errMsgTable).

Definition dsnrMsgTable : list (Z * string) := [
  (3, "Format table resequencing error.");
  (34, "Write to display order row/col address is not valid");
  (35, "Repeat to Address less than the current WS address.");
  (38, "Start-of-field order address not valid");
  (40, "Field extends past the end of the display.");
  (41, "Format table overflow.");
  (42, "Attempted to write past the end of display.");
  (43, "Start-of-header length not valid.");
  (44, "Invalid ROLL command parameter.");
  (49, "No escape code was found where it was expected.");
  (50, "Invalid row/col address on WEC TO WINDOW command.")].

(** [%0<width>X] of an [unsigned int]. *)
Definition hex_digit (d : Z) : Z := if bool_decide (d < 10) then 48 + d else 55 + d.
Fixpoint hex_all (n : nat) (x : Z) : list Z :=
  match n with O => [] | S n => hex_all n (x / 16) ++ [hex_digit (x mod 16)] end.
Fixpoint strip_zeros (keep : nat) (l : list Z) : list Z :=
  match l with
  | c :: l' => if bool_decide (c = 48 /\ (keep < length l)%nat) then strip_zeros keep l' else l
  | [] => []
  end.
Definition hex (width : nat) (x : Z) : list Z := strip_zeros width (hex_all 8 (u32 x)).

(** The text in the static [mbuf], or the constant message. *)
Definition processErr (buf : list Z) : option (list Z) :=
  match buf with
  | b0 :: b1 :: ubyte1 :: dsnrCode :: _ =>
      let catmod := s16 (Z.lor (Z.shiftl b0 8) b1) in
      let unknown := str "Unknown data stream error: 0x" ++ hex 4 catmod ++ str ": " ++
                     hex 2 ubyte1 ++ str " " ++ hex 2 dsnrCode in
      if bool_decide (catmod = 4099 /\ ubyte1 = 1 /\ dsnrCode = 1) then
        Some (str "Invalid command encountered in data stream.")
      else if bool_decide (catmod <> 4101 \/ ubyte1 <> 1) then Some unknown
      else Some (default unknown (find_msg dsnrCode dsnrMsgTable))
  | _ => None
  end.

Definition hiliteString (buff : tnXbuff) (s : list Z) (map : option tnXchar_map) : option tnXbuff :=
  buff ← tnX_buffer_append_byte buff ATTR_5250_WHITE;
  buff ← appendBlock2Ebcdic buff (s ++ [0]) (length s) map;
  tnX_buffer_append_byte buff ATTR_5250_NORMAL.

(** [tbuf] is local; after the packet [sendReadMDT] starts it afresh. *)
Definition sendWriteErrorCode (msg : list Z) (opcode : Z) : H unit :=
  h ← get_host;
  tbuf ← of_opt (
    tbuf ← tnX_buffer_append_byte tnX_buffer_init ESC;
    tbuf ← tnX_buffer_append_byte tbuf CMD_WRITE_ERROR_CODE;
    hiliteString tbuf msg (h_map h));
  (if decide (opcode = TN5250_RECORD_OPCODE_OUTPUT_ONLY) then
     on_stream (tnX_stream_send_packet (buf_bytes tbuf))
   else mret tt);;
  on_stream sendReadMDT;;
  mret tt.

(** The list of the stream's records is destroyed and its count reset. *)
Definition zap_records : W unit :=
  w ← get_st;
  list ← on_hp (fun h => tnX_record_list_destroy h (records (st w)));
  on_st (st_records list 0).

(** [do ... while (statOK && !record_count)].  Each receive either takes an
    event, or the socket has nothing more and the loop spins. *)
Fixpoint receive_loop (fuel : nat) : W Z :=
  match fuel with
  | O => no_fuel
  | S fuel =>
      statOK ← telnet_stream_handle_receive;
      w ← get_st;
      if bool_decide (statOK <> 0 /\ record_count (st w) = 0) then receive_loop fuel else mret statOK
  end.

Definition cancelInvite (fuel : nat) : W Z :=
  tnX_stream_send_packet [];;
  w ← get_st;
  (if bool_decide (record_count (st w) <> 0) then zap_records else mret tt);;
  statOK ← receive_loop fuel;
  w ← get_st;
  (if bool_decide (record_count (st w) > 0) then zap_records else mret tt);;
  mret statOK.

Definition flushTN5250 : H unit :=
  h ← get_host;
  (if bool_decide (tnX_buffer_length (h_buffer h) > 0) then
     on_stream (tnX_stream_send_packet (buf_bytes (h_buffer h)));;
     on_host (set_buffer (tnX_buffer_free (h_buffer h)))
   else mret tt);;
  on_host (fun h => if wtd_set h then set_wtd false h else h).

Definition clearScreen : H unit :=
  h ← get_host;
  if clearState h then mret tt
  else
    (if wtd_set h then flushTN5250 else mret tt);;
    append ESC;; append CMD_CLEAR_UNIT;;
    on_host (set_inhibited true);;
    on_host (set_clear true).

(** The loop that discards the records waiting, [record_count] of them. *)
Fixpoint discard_loop (fuel : nat) : W unit :=
  match fuel with
  | O => no_fuel
  | S fuel =>
      w ← get_st;
      if bool_decide (record_count (st w) > 0) then
        trec ← tnX_stream_get_record;
        on_hp (fun h => h ← tnX_record_destroy h (Some trec); Some (tt, h));;
        discard_loop fuel
      else mret tt
  end.

Definition saveScreen (fuel : nat) : W (option ptr) :=
  tnX_stream_send_packet [ESC; CMD_SAVE_SCREEN];;
  w ← get_st;
  discard_loop (S (Z.to_nat (record_count (st w))));;
  statOK ← receive_loop fuel;
  if decide (statOK <> 0) then p ← tnX_stream_get_record; mret (Some p) else mret None.

Definition restoreScreen (buff : tnXbuff) : W unit :=
  tnX_assert (bool_decide (buf_bytes buff <> []));;
  tnX_assert (bool_decide (10 < tnX_buffer_length buff));;
  tnX_stream_send_packet (drop 10 (buf_bytes buff)).

(** [raise(SIGINT)]: the daemon's handler for it ends the process with 0, so
    nothing after it happens. *)
Definition processSRQ (fuel : nat) : W Z :=
  record ← saveScreen fuel;
  match record with
  | None => mret (- 1)
  | Some _ => c_exit 0
  end.

Definition free_buffer : H unit := on_host (fun h => set_buffer (tnX_buffer_free (h_buffer h)) h).

Definition processFlags (fuel : nat) (flags : Z) (buf : list Z) : H Z :=
  if decide (flags = TN5250_RECORD_H_HLP) then
    match buf with
    | b0 :: b1 :: _ =>
        ok ← on_stream (cancelInvite fuel);
        if decide (ok = 0) then mret (- 1)
        else
          sendWriteErrorCode (getErrMsg (s16 (Z.lor (Z.shiftl b0 8) b1))) TN5250_RECORD_OPCODE_OUTPUT_ONLY;;
          mret 0
    | _ => undef
    end
  else if decide (flags = TN5250_RECORD_H_ERR) then
    msg ← of_opt (processErr buf);
    sendWriteErrorCode msg TN5250_RECORD_OPCODE_OUTPUT_ONLY;;
    mret (- 1)
  else if bool_decide (flags = TN5250_RECORD_H_ATN \/ flags = TN5250_RECORD_H_SRQ) then
    h ← get_host;
    if inSysInterrupt h then mret 0
    else
      ok ← on_stream (cancelInvite fuel);
      if decide (ok = 0) then mret (- 1)
      else
        on_host (set_interrupt true);;
        on_host (set_wtd false);;
        on_host (set_clear false);;
        free_buffer;;
        clearScreen;;
        on_stream (processSRQ fuel);;
        on_host (set_wtd false);;
        on_host (set_clear false);;
        on_host (set_interrupt false);;
        free_buffer;;
        mret 0
  else mret 0.

(** ** The end of a host *)

(** The host's own memory is not freed; the stream's descriptor is closed by the
    disconnect handler, which changes nothing else. *)
Definition tnX_host_destroy : H unit :=
  free_buffer;;
  h ← get_host;
  destroy_record (h_record h);;
  destroy_record (h_screenRec h);;
  on_stream tnX_stream_destroy.

(** ** The test host *)

Fixpoint banner_rows (rows : list (list Z)) (currow : Z) : H unit :=
  match rows with
  | [] => mret tt
  | row :: rows =>
      setBufferAddr (currow + 3) 1;;
      append_ebcdic row;;
      banner_rows rows (currow + 1)
  end.

(** [SendTestScreen] up to the write. *)
Definition build_screen : H unit :=
  EraseWrite;;
  banner_rows ascii_banner 0;;
  on_host (set_interrupt false);;
  on_host (set_inhibited false);;
  setBufferAddr 1 1;;
  StartField 0;;
  append_ebcdic (str "Test").

Definition SendTestScreen : H Z :=
  build_screen;;
  sendWrite;;
  readMDTfields_1 false.

(** [tn3270_client_test_top_half] after the negotiation, and
    [tn3270_client_test_bottom_half]. *)
Definition tn3270_client_test_top_half (errno masterfd : Z) : H Z :=
  ok ← on_stream (tnX_stream_host errno masterfd 0 TN3270_STREAM);
  if (ok : bool) then tnX_host_new;; SendTestScreen;; mret 0
  else mret (- 22).

Definition tn3270_client_test_bottom_half : H Z := readMDTfields_2.

(** ** A 3270 display

    24 rows of 80 cells.  An erase-write clears them; then orders: set buffer
    address, start field (whose attribute takes a cell and shows as a blank), or
    a character, shown through the map. *)
Definition decode_addr (a1 a2 : Z) : Z := Z.lor (Z.shiftl (Z.land a1 63) 6) (Z.land a2 63).

Definition cells_3270 : Z := 1920.

Fixpoint render_orders (map : tnXchar_map) (bs : list Z) (pos : Z) (screen : gmap Z Z) : option (gmap Z Z) :=
  match bs with
  | [] => Some screen
  | b :: bs =>
      if decide (b = 17) then
        match bs with
        | a1 :: a2 :: bs => render_orders map bs (decode_addr a1 a2) screen
        | _ => None
        end
      else if decide (b = 29) then
        match bs with
        | _ :: bs => render_orders map bs ((pos + 1) mod cells_3270) (<[pos := 32]> screen)
        | _ => None
        end
      else
        c ← tnX_char_map_to_local map b;
        render_orders map bs ((pos + 1) mod cells_3270) (<[pos := c]> screen)
  end.

Definition render (map : tnXchar_map) (bs : list Z) : option (gmap Z Z) :=
  match bs with
  | cmd :: _ :: bs => if decide (cmd = 5) then render_orders map bs 0 ∅ else None
  | _ => None
  end.

(** A row as it is read off the display. *)
Definition row_text (screen : gmap Z Z) (row : Z) : list Z :=
  (fun col => default 32 (screen !! (row * 80 + Z.of_nat col))) <$> seq 0 80.

(** The 12-bit address code and its decoding. *)
Lemma decode_addr_all :
  forallb (fun a => bool_decide (decode_addr (addr1 a) (addr2 a) = a)) (seqZ 0 4096) = true.
Proof. vm_compute. reflexivity. Qed.

Lemma decode_addr_address a : 0 <= a < 4096 -> decode_addr (addr1 a) (addr2 a) = a.
Proof.
  intros Ha. pose proof decode_addr_all as H. rewrite forallb_forall in H.
  apply (bool_decide_eq_true_1 _), H, list_elem_of_In, elem_of_seqZ. lia.
Qed.

(** ** The test screen *)

Definition new_host : tnXhost :=
  MkHost (tnX_char_map_new MAP_DEFAULT) None None tnX_buffer_init 0 0 0 false false false false false 80.

Lemma tnX_host_new_eq h w : tnX_host_new (MkHW h w) = Ret tt (MkHW new_host w).
Proof. reflexivity. Qed.

(** The host after the screen is built, and the screen. *)
Definition test_host : tnXhost :=
  match build_screen (MkHW new_host (MkWorld (MkHeap ∅ 1 false) (streamInit 0) (MkSock [] [] [] []))) with
  | Ret _ s => host s
  | _ => new_host
  end.

Definition test_screen : list Z := buf_bytes (h_buffer test_host).

Lemma test_screen_bytes : buf_bytes (h_buffer test_host) = test_screen.
Proof. by unfold test_screen. Qed.

Lemma build_screen_eq w : build_screen (MkHW new_host w) = Ret tt (MkHW test_host w).
Proof. vm_compute. reflexivity. Qed.

Definition test_display : gmap Z Z :=
  default ∅ (map ← tnX_char_map_new MAP_DEFAULT; render map test_screen).

Lemma test_display_rows :
  (fun row => row_text test_display (Z.of_nat row)) <$> seq 3 16 = (fun line => line ++ [32]) <$> ascii_banner.
Proof. vm_compute. reflexivity. Qed.

(** ** Reading a record *)

Lemma record_get_byte_Ret s p r bs i b :
  cells (hp (wd s)) !! p = Some r -> buf_rep (rec_data r) bs -> rec_cur_pos r = Z.of_nat i ->
  bs !! i = Some b ->
  exists s', record_get_byte p s = Ret b s' /\ host s' = host s /\
    exists r', cells (hp (wd s')) !! p = Some r' /\ buf_rep (rec_data r') bs /\
      rec_cur_pos r' = Z.of_nat (S i).
Proof.
  intros Hr Hb Hc Hi. pose proof (lookup_lt_Some _ _ _ Hi) as Hlt. pose proof Hb as (Hlen & _).
  assert (tnX_buffer_at (rec_data r) (Z.of_nat i) = Some b) as Hat.
  { rewrite (buf_rep_at _ bs) by (done || lia). by rewrite Nat2Z.id. }
  unfold record_get_byte, on_stream, tnX_record_get_byte, gets, mbind, M_bind, rec_at, rec_upd. cbn.
  rewrite Hr. cbn. rewrite Hr. cbn. unfold tnX_record_length, tnX_buffer_length.
  rewrite Hlen, Hc, bool_decide_true by lia. cbn. rewrite Hat. cbn.
  eexists. split; [done|]. split; [done|]. cbn. rewrite lookup_insert_eq.
  eexists. split; [done|]. split; [done|]. cbn. lia.
Qed.

Lemma record_get_byte_Abort s p r bs :
  cells (hp (wd s)) !! p = Some r -> buf_rep (rec_data r) bs -> rec_cur_pos r = Z.of_nat (length bs) ->
  exists s', record_get_byte p s = Abort s'.
Proof.
  intros Hr (Hlen & _) Hc.
  unfold record_get_byte, on_stream, tnX_record_get_byte, gets, mbind, M_bind, rec_at, rec_upd. cbn.
  rewrite Hr. cbn. rewrite Hr. cbn. unfold tnX_record_length, tnX_buffer_length.
  rewrite Hlen, Hc, bool_decide_false by lia. by eexists.
Qed.

Lemma on_stream_Ret {A} (m : W A) s a w :
  m (wd s) = Ret a w -> on_stream m s = Ret a (MkHW (host s) w).
Proof. unfold on_stream. by intros ->. Qed.

(** Three bytes of the record just taken, or the assertion of the one missing. *)
Lemma read_record s p r bs :
  cells (hp (wd s)) !! p = Some r -> buf_rep (rec_data r) bs -> rec_cur_pos r = 0 ->
  let m :=
    ver ← record_get_byte p;
    hor ← record_get_byte p;
    on_host (fun h => set_cursor (u16 ((ver - 1) * maxcol h + (hor - 1))) h);;
    aidCode ← record_get_byte p;
    mret (if decide (aidCode <> 0) then - ECONNABORTED else aidCode) in
  match bs !! 2%nat with
  | Some aid => exists s', m s = Ret (if decide (aid <> 0) then - ECONNABORTED else 0) s'
  | None => exists s', m s = Abort s'
  end.
Proof.
  intros Hr Hb Hc. cbv zeta. change 0 with (Z.of_nat 0) in Hc.
  destruct (bs !! 0%nat) as [b0|] eqn:E0; cycle 1.
  { apply lookup_ge_None in E0. destruct bs; [|cbn in E0; lia].
    destruct (record_get_byte_Abort s p r [] Hr Hb Hc) as (s' & E). exists s'.
    unfold mbind, M_bind. by rewrite E. }
  destruct (record_get_byte_Ret s p r bs 0 b0 Hr Hb Hc E0) as (s1 & E1 & _ & r1 & Hr1 & Hb1 & Hc1).
  rewrite (M_bind_Ret _ _ _ _ _ E1). clear E1 Hr Hb Hc r.
  destruct (bs !! 1%nat) as [b1|] eqn:E1; cycle 1.
  { assert (length bs = 1%nat) as Hl.
    { apply lookup_ge_None in E1. apply lookup_lt_Some in E0. lia. }
    rewrite (lookup_ge_None_2 bs 2) by lia. rewrite <-Hl in Hc1.
    destruct (record_get_byte_Abort s1 p r1 bs Hr1 Hb1 Hc1) as (s' & E). exists s'.
    unfold mbind, M_bind. by rewrite E. }
  destruct (record_get_byte_Ret s1 p r1 bs 1 b1 Hr1 Hb1 Hc1 E1) as (s2 & E2 & _ & r2 & Hr2 & Hb2 & Hc2).
  rewrite (M_bind_Ret _ _ _ _ _ E2). clear E2.
  set (s3 := MkHW (set_cursor (u16 ((b0 - 1) * maxcol (host s2) + (b1 - 1))) (host s2)) (wd s2)).
  rewrite (M_bind_Ret (on_host _) _ _ tt s3) by done.
  destruct (bs !! 2%nat) as [b2|] eqn:E2; cycle 1.
  { assert (length bs = 2%nat) as Hl.
    { apply lookup_ge_None in E2. apply lookup_lt_Some in E1. lia. }
    rewrite <-Hl in Hc2. destruct (record_get_byte_Abort s3 p r2 bs Hr2 Hb2 Hc2) as (s' & E). exists s'.
    unfold mbind, M_bind. by rewrite E. }
  destruct (record_get_byte_Ret s3 p r2 bs 2 b2 Hr2 Hb2 Hc2 E2) as (s4 & E4 & _).
  exists s4. rewrite (M_bind_Ret _ _ _ _ _ E4). destruct (decide (b2 <> 0)) as [|Hz]; [done|].
  by apply dec_stable in Hz as ->.
Qed.

(** The address code round trip: the two bytes [setBufferAddr] sends for a
    position of the display are decoded by a terminal as that position. *)
Lemma setBufferAddr_decodes row col :
  0 <= row < 24 -> 1 <= col <= 80 ->
  let address := u16 (row * 80 + (col - 1)) in
  decode_addr (addr1 address) (addr2 address) = row * 80 + (col - 1).
Proof.
  intros Hr Hc. cbv zeta. unfold u16. rewrite Z.mod_small by lia. apply decode_addr_address. lia.
Qed.

(** ** Properties *)

(** The test screen is what the terminal shows.  On any stream, a new host
    sends exactly [test_screen], or leaves as the send does; and a display that
    obeys its commands and orders shows the sixteen banner lines on rows 3 to
    18 and the word Test, behind its field attribute, on row 1. *)
Theorem test_screen_shown h w :
  (tnX_host_new;; SendTestScreen) (MkHW h w) =
    match tnX_stream_send_packet test_screen w with
    | Ret _ w' => Ret 0 (MkHW (set_wtd false test_host) w')
    | Exit c w' => Exit c (MkHW test_host w')
    | Abort w' => Abort (MkHW test_host w')
    | Undef w' => Undef (MkHW test_host w')
    | NoFuel w' => NoFuel (MkHW test_host w')
    end /\
  (forall i line, ascii_banner !! i = Some line ->
    row_text test_display (Z.of_nat i + 3) = line ++ [32]) /\
  row_text test_display 1 = 32 :: str "Test" ++ replicate 75 32.
Proof.
  split_and!.
  - rewrite (M_bind_Ret _ _ _ _ _ (tnX_host_new_eq h w)). unfold SendTestScreen.
    rewrite (M_bind_Ret _ _ _ _ _ (build_screen_eq w)).
    unfold sendWrite, readMDTfields_1, get_host, gets, on_stream, mbind, M_bind. cbn [host wd].
    rewrite test_screen_bytes.
    by destruct (tnX_stream_send_packet test_screen w).
  - intros i line Hi. pose proof test_display_rows as H.
    apply (f_equal (fun l => l !! i)) in H. rewrite !list_lookup_fmap, Hi in H.
    destruct (seq 3 16 !! i) as [n|] eqn:E; [|done].
    apply lookup_seq in E as [-> _]. cbn [fmap option_fmap option_map] in H. injection H as H.
    by replace (Z.of_nat i + 3) with (Z.of_nat (3 + i)) by lia.
  - vm_compute. reflexivity.
Qed.

(** C26: serving a test client.  Whatever bytes a client sends, reading them
    gives 0 while no record is complete; a record of at least three bytes ends
    the session when its third byte is not 0 (and gives 0 when it is); a record
    of one or two bytes, which is what a short read sends, stops the server by
    an assertion. *)
Theorem client_test_bottom_half_spec s c bs :
  rel (wd s) None c -> h_record (host s) = None ->
  rx (sk (wd s)) = rx_bytes bs -> is_bytes bs -> Z.of_nat (conn_size c + length bs) <= BUF_MAX ->
  match recs (decode c bs) with
  | [] => exists s', tn3270_client_test_bottom_half s = Ret 0 s'
  | r :: _ =>
      match r !! 2%nat with
      | Some aid => exists s', tn3270_client_test_bottom_half s =
                      Ret (if decide (aid <> 0) then - ECONNABORTED else 0) s'
      | None => exists s', tn3270_client_test_bottom_half s = Abort s'
      end
  end.
Proof.
  intros Hrel Hrec Hrx Hb Hmax.
  destruct (handle_receive_decodes _ _ _ Hrel Hrx Hb Hmax) as (w' & verb & E & Hrel' & _).
  unfold tn3270_client_test_bottom_half, readMDTfields_2.
  rewrite (M_bind_Ret _ _ _ _ _ (on_stream_Ret _ s _ _ E)), decide_False by lia.
  rewrite (M_bind_Ret get_host _ _ (host s) (MkHW (host s) w')) by done. rewrite Hrec, M_ret_bind.
  rewrite (M_bind_Ret (gets wd) _ _ w' (MkHW (host s) w')) by done.
  pose proof (rel_recs _ _ _ Hrel') as (l & _ & Hn & _). rewrite Hn.
  destruct (recs (decode c bs)) as [|r rest] eqn:Er.
  { rewrite bool_decide_false by (cbn; lia). by eexists. }
  rewrite bool_decide_true by (cbn; lia).
  destruct (get_record_head _ _ _ _ _ Hrel' Er) as (p & w2 & E2 & (r2 & Hr2 & Hb2 & Hc2) & _).
  rewrite (M_bind_Ret _ _ _ _ _ (on_stream_Ret _ (MkHW (host s) w') _ _ E2)). cbn [host].
  rewrite (M_bind_Ret (on_host _) _ _ tt (MkHW (set_record (Some p) (host s)) w2)) by done.
  exact (read_record (MkHW (set_record (Some p) (host s)) w2) p r2 r Hr2 Hb2 Hc2).
Qed.

Definition fresh_client (bs : list Z) : hworld := MkHW new_host (host_world (rx_bytes bs)).

Lemma client_test_bottom_half_spec_witness :
  (exists s', tn3270_client_test_bottom_half (fresh_client [125; 64; 193; IAC; EOR]) = Ret (- ECONNABORTED) s') /\
  (exists s', tn3270_client_test_bottom_half (fresh_client [109; IAC; EOR]) = Abort s').
Proof.
  split.
  - apply (client_test_bottom_half_spec (fresh_client [125; 64; 193; IAC; EOR]) conn0 [125; 64; 193; IAC; EOR]);
      [apply host_world_rel | reflexivity | reflexivity
      | apply (bool_decide_unpack _); vm_compute; exact I | vm_compute; discriminate].
  - apply (client_test_bottom_half_spec (fresh_client [109; IAC; EOR]) conn0 [109; IAC; EOR]);
      [apply host_world_rel | reflexivity | reflexivity
      | apply (bool_decide_unpack _); vm_compute; exact I | vm_compute; discriminate].
Defined.
