(* ===== verification/Tn3270Lua.v ===== *)
(** * tn3270d/tn3270_daemon.c: the LU side of a session

    The RUI verbs that connect a client to an SNA host, their callbacks and the
    daemon's global state.  The LUA library is not part of the repository:
    [Rui] is the interface used of it, and a verb either completes in the call or
    is finished later by an event.  [read_finished] and [response_done] have no
    body: the daemon compiles their code out. *)
From S2P Require Import Prelude.

Definition LUA_VERB_RUI := 82.
Definition LUA_OPCODE_RUI_INIT := 32769.
Definition LUA_OPCODE_RUI_TERM := 32770.
Definition LUA_OPCODE_RUI_READ := 32771.
Definition LUA_OPCODE_RUI_WRITE := 32772.
Definition LUA_OPCODE_RUI_PURGE := 32773.
Definition LUA_OPCODE_RUI_BID := 32774.
Definition LUA_OPCODE_RUI_REINIT := 32776.
Definition LUA_OK := 0.
Definition DATASIZE := 4096.
Definition BETB := 1.
Definition SEND := 2.
Definition RECV := 3.
Definition TN3270E_STREAM := 1.
Definition TN3270E_NO_RESPONSE := 0.
Definition TN3270E_ERROR_RESPONSE := 1.
Definition TN3270E_ALWAYS_RESPONSE := 2.

(** ** Verb records

    The fields the daemon uses; the one-bit fields are booleans. *)

Inductive callback : Type := NoCallback | OtherDone | ResponseDone | ReinitDone | ReadFinished.

Record lua_rh : Type := MkRh {
  rri : bool; bci : bool; eci : bool; dr1i : bool; dr2i : bool; ri : bool;
  bbi : bool; ebi : bool; cdi : bool
}.

Record lua_flow : Type := MkFlow { lu_norm : bool; lu_exp : bool; sscp_norm : bool; sscp_exp : bool }.

Record verb : Type := MkVerb {
  lua_verb : Z;
  lua_opcode : Z;
  lua_prim_rc : Z;
  lua_luname : list Z;
  lua_sid : Z;
  lua_max_length : Z;
  lua_data : list Z;       (** the [lua_data_length] bytes behind the data pointer *)
  lua_post_handle : callback;
  snf : Z * Z;
  rh : lua_rh;
  flag1 : lua_flow;
  flag2 : lua_flow;
  async : bool
}.

Definition rh_zero : lua_rh := MkRh false false false false false false false false false.
Definition flow_zero : lua_flow := MkFlow false false false false.
(** A verb after [memset]. *)
Definition verb_zero : verb :=
  MkVerb 0 0 0 (replicate 8 0) 0 0 [] NoCallback (0, 0) rh_zero flow_zero flow_zero false.

(** The verb a call or an event finishes lies in one of the daemon's records. *)
Inductive slot : Type := ReadVerb | ReinitVerb | OtherVerb | PurgeVerb | ClientVerb.

(** The answer of one wait for the SNA descriptor: none to wait on, [select]
    failing, or ready, with the verb finished if any and whether the client's
    socket is readable. *)
Inductive wait_result : Type :=
| WaitNoFd
| WaitFails
| WaitReady (finished : option (slot * verb)) (socket : bool).

(** The LUA library: [RUI] hands back the verb, finished unless [async]; and the
    waits. *)
Class Rui (K : Type) : Type := {
  RUI : verb -> K -> verb * K;
  sna_wait : K -> wait_result * K
}.

(** ** The daemon's variables *)

Record lua_state : Type := MkLua {
  read_verb : verb; reinit_verb : verb; other_verb : verb; purge_verb : verb; client_verb : verb;
  poolname : option (list Z);
  semaphore : bool;
  sid : Z;
  lu_name : list Z;
  send_state : Z;
  lu_session : bool;
  saved_retry_reinit : Z;
  retry_reinit : Z
}.

(** As the program starts. *)
Definition lua_init : lua_state :=
  MkLua verb_zero verb_zero verb_zero verb_zero verb_zero None false 0 [] 0 false 0 0.

Definition put_verb (s : slot) (v : verb) (g : lua_state) : lua_state :=
  match g with
  | MkLua r i o p c pool sem id name st ses sv rt =>
      match s with
      | ReadVerb => MkLua v i o p c pool sem id name st ses sv rt
      | ReinitVerb => MkLua r v o p c pool sem id name st ses sv rt
      | OtherVerb => MkLua r i v p c pool sem id name st ses sv rt
      | PurgeVerb => MkLua r i o v c pool sem id name st ses sv rt
      | ClientVerb => MkLua r i o p v pool sem id name st ses sv rt
      end
  end.
Definition set_semaphore b g :=
  match g with MkLua r i o p c pool _ id name st ses sv rt => MkLua r i o p c pool b id name st ses sv rt end.
Definition set_session id name g :=
  match g with MkLua r i o p c pool sem _ _ st ses sv rt => MkLua r i o p c pool sem id name st ses sv rt end.
Definition set_send_state x g :=
  match g with MkLua r i o p c pool sem id name _ ses sv rt => MkLua r i o p c pool sem id name x ses sv rt end.
Definition set_lu_session b g :=
  match g with MkLua r i o p c pool sem id name st _ sv rt => MkLua r i o p c pool sem id name st b sv rt end.
Definition set_retry n g :=
  match g with MkLua r i o p c pool sem id name st ses sv _ => MkLua r i o p c pool sem id name st ses sv n end.

(** ** Operations *)
Section Lua.
Context `{Rui K}.

Abbreviation L := (M (lua_state * K)).

Definition lua_get : L lua_state := gets fst.
Definition lua_mod (f : lua_state -> lua_state) : L unit := modify (fun '(g, k) => (f g, k)).
(** [RUI(&v)] for the verb in a slot: the verb as it comes back. *)
Definition call_rui (s : slot) (v : verb) : L verb := fun '(g, k) =>
  let '(v', k) := RUI v k in Ret v' (put_verb s v' g, k).
Definition wait : L wait_result := fun '(g, k) => let '(r, k) := sna_wait k in Ret r (g, k).

Definition response_type (v : verb) : Z :=
  let eri := ri (rh v) in
  if negb eri && negb (dr1i (rh v)) && negb (dr2i (rh v)) then TN3270E_NO_RESPONSE
  else if (dr1i (rh v) || dr2i (rh v)) && negb eri then TN3270E_ALWAYS_RESPONSE
  else if (dr1i (rh v) || dr2i (rh v)) && eri then TN3270E_ERROR_RESPONSE
  else TN3270E_NO_RESPONSE.

Definition read_finished (v : verb) : L unit := mret tt.
Definition response_done (v : verb) : L unit := mret tt.

Definition send_read : L unit :=
  g ← lua_get;
  v ← call_rui ReadVerb
    (MkVerb LUA_VERB_RUI LUA_OPCODE_RUI_READ 0 (replicate 8 0) (sid g) DATASIZE [] ReadFinished (0, 0)
       rh_zero (MkFlow true true true true) flow_zero false);
  if async v then mret tt else read_finished v.

(** The callback of [send_verb], [send_write] and [send_purges]. *)
Definition other_done (v : verb) : L unit :=
  (if decide (lua_opcode v = LUA_OPCODE_RUI_INIT) then
     if decide (lua_prim_rc v = LUA_OK) then
       g ← lua_get;
       lua_mod (set_session (lua_sid (other_verb g)) (lua_luname (other_verb g)))
     else mret tt
   else if decide (lua_opcode v = LUA_OPCODE_RUI_BID) then
     if decide (lua_prim_rc v = LUA_OK) then send_read else c_exit 0
   else if decide (lua_opcode v = LUA_OPCODE_RUI_READ) then
     if decide (lua_prim_rc v = LUA_OK) then read_finished v else mret tt
   else mret tt);;
  lua_mod (set_semaphore false).

Definition send_purges : L unit :=
  g ← lua_get;
  v ← call_rui PurgeVerb
    (MkVerb LUA_VERB_RUI LUA_OPCODE_RUI_PURGE 0 (replicate 8 0) (sid g) 0 [] OtherDone (0, 0)
       rh_zero flow_zero flow_zero false);
  if async v then mret tt else other_done v.

(** [reinit_done] and [send_reinit] call each other; one round per call of the
    verb. *)
Fixpoint send_reinit (fuel : nat) : L unit :=
  match fuel with
  | O => no_fuel
  | S fuel =>
      lua_mod (set_lu_session false);;
      lua_mod (put_verb ReadVerb verb_zero);;
      g ← lua_get;
      let old := reinit_verb g in
      v ← call_rui ReinitVerb
        (MkVerb LUA_VERB_RUI LUA_OPCODE_RUI_REINIT (lua_prim_rc old) (lua_luname old) (sid g)
           (lua_max_length old) (lua_data old) ReinitDone (snf old) (rh old) (flag1 old) (flag2 old) (async old));
      if async v then mret tt else
      (* reinit_done *)
      if decide (lua_prim_rc v = LUA_OK) then
        g ← lua_get;
        lua_mod (set_retry (saved_retry_reinit g));;
        send_read
      else
        g ← lua_get;
        if decide (retry_reinit g <> 0) then
          (if bool_decide (retry_reinit g > 0) then lua_mod (set_retry (retry_reinit g - 1)) else mret tt);;
          send_reinit fuel
        else c_exit 1
  end.

Definition reinit_done (fuel : nat) (v : verb) : L unit :=
  if decide (lua_prim_rc v = LUA_OK) then
    g ← lua_get;
    lua_mod (set_retry (saved_retry_reinit g));;
    send_read
  else
    g ← lua_get;
    if decide (retry_reinit g <> 0) then
      (if bool_decide (retry_reinit g > 0) then lua_mod (set_retry (retry_reinit g - 1)) else mret tt);;
      send_reinit fuel
    else c_exit 1.

(** The callback a verb was issued with. *)
Definition run_callback (fuel : nat) (v : verb) : L unit :=
  match lua_post_handle v with
  | NoCallback => undef
  | OtherDone => other_done v
  | ResponseDone => response_done v
  | ReinitDone => reinit_done fuel v
  | ReadFinished => read_finished v
  end.

(** [do_select]: [true] when the client's socket is readable. *)
Fixpoint do_select (fuel : nat) (check_socket : bool) : L bool :=
  match fuel with
  | O => no_fuel
  | S fuel =>
      g ← lua_get;
      if semaphore g || check_socket then
        r ← wait;
        match r with
        | WaitNoFd | WaitFails => c_exit (- 1)
        | WaitReady finished socket =>
            (match finished with
             | Some (s, v) => lua_mod (put_verb s v);; run_callback fuel v
             | None => mret tt
             end);;
            if socket && check_socket then mret true else do_select fuel check_socket
        end
      else mret false
  end.

(** The name a pool is given in the verb: eight characters, blank padded. *)
Definition pool_luname (pool : option (list Z)) : option (list Z) :=
  name ← pool;
  if bool_decide (length name <= 8)%nat then Some (name ++ replicate (8 - length name) 32) else None.

(** A verb is issued in [other_verb] and its completion awaited. *)
Definition issue_other (fuel : nat) (v : verb) : L unit :=
  lua_mod (set_semaphore true);;
  v ← call_rui OtherVerb v;
  if async v then do_select fuel false;; mret tt else other_done v.

Definition send_verb (fuel : nat) (type : Z) : L Z :=
  g ← lua_get;
  luname ← (if decide (type = LUA_OPCODE_RUI_INIT) then of_opt (pool_luname (poolname g))
            else mret (replicate 8 0));
  issue_other fuel
    (MkVerb LUA_VERB_RUI type 0 luname 0 0 [] OtherDone (0, 0) rh_zero flow_zero flow_zero true);;
  g ← lua_get;
  mret (if decide (lua_prim_rc (other_verb g) <> LUA_OK) then 1 else 0).

(** [data] for a 3270E stream starts after its five byte header; [lua_data_length] is an
    [unsigned short].  The library reads that many bytes of the data when the verb is
    issued. *)
Definition send_write (fuel : nat) (streamtype : Z) (data : list Z) (len : Z) : L unit :=
  let header := if decide (streamtype = TN3270E_STREAM) then 5%nat else 0%nat in
  if decide (length data < header)%nat then undef else
  let data := drop header data in
  let lua_data_length := u16 (len - Z.of_nat header) in
  g ← lua_get;
  let v b c r flow :=
    MkVerb LUA_VERB_RUI LUA_OPCODE_RUI_WRITE 0 (replicate 8 0) (sid g) 0 (take (Z.to_nat lua_data_length) data) OtherDone (0, 0)
      (MkRh false true true true false r b false c) flow flow_zero false in
  let issue w := if decide (Z.of_nat (length data) < lua_data_length) then undef else issue_other fuel w in
  if lu_session g then
    if decide (send_state g = BETB) then
      lua_mod (set_send_state RECV);;
      issue (v true true true (MkFlow true false false false))
    else if decide (send_state g = SEND) then
      lua_mod (set_send_state RECV);;
      issue (v false true true (MkFlow true false false false))
    else lua_mod (put_verb OtherVerb (v false false true (MkFlow true false false false)))
  else issue (v false false false (MkFlow false false true false)).

(** The bytes of an [unsigned long] sense code, as they lie in memory. *)
Definition sense_bytes (sense : Z) : list Z :=
  [u8 sense; u8 (sense / 256); u8 (sense / 65536); u8 (sense / 16777216)].

(** The flow the response goes out on: the one the request came in on. *)
Definition response_flow (f : lua_flow) : lua_flow :=
  if lu_norm f then MkFlow true false false false
  else if lu_exp f then MkFlow false true false false
  else if sscp_norm f then MkFlow false false true false
  else if sscp_exp f then MkFlow false false false true
  else flow_zero.

(** The response is made of the verb that holds the request.  The sense code is
    copied to [read_data], the buffer the verb's data pointer was given. *)
Definition send_response (s : slot) (sense : Z) (v : verb) : L unit :=
  let nonzero := bool_decide (sense <> 0) in
  v ← call_rui s
    (MkVerb (lua_verb v) LUA_OPCODE_RUI_WRITE (lua_prim_rc v) (lua_luname v) (lua_sid v) 0
       (if nonzero then sense_bytes sense else []) ResponseDone (snf v)
       (MkRh true (bci (rh v)) (eci (rh v)) (dr1i (rh v)) (dr2i (rh v)) nonzero (bbi (rh v)) (ebi (rh v)) (cdi (rh v)))
       (response_flow (flag2 v)) (flag2 v) (async v));
  if async v then mret tt else response_done v.

(** The data pointer of [client_verb] stays NULL. *)
Definition client_response (sense sequence : Z) : L unit :=
  g ← lua_get;
  let nonzero := bool_decide (sense <> 0) in
  v ← call_rui ClientVerb
    (MkVerb LUA_VERB_RUI LUA_OPCODE_RUI_WRITE 0 (replicate 8 0) (sid g) 0 [] ResponseDone
       (u8 (Z.shiftr sequence 8), u8 (Z.land sequence 255))
       (MkRh true false false false false nonzero false false false)
       (MkFlow true false false false) flow_zero false);
  if async v then mret tt else response_done v.
End Lua.

(** ** How a verb completes *)
Section Completion.
Context `{Rui K}.

(** [n] waits that finish nothing. *)
Inductive idle : nat -> K -> K -> Prop :=
| idle_O k : idle 0 k k
| idle_S n k k1 k2 s : sna_wait k = (WaitReady None s, k1) -> idle n k1 k2 -> idle (S n) k k2.

(** The verb [v], issued in [other_verb], comes back as [v']: in the call, or
    after waits, with the callback it was issued with. *)
Inductive completes (v : verb) (k : K) : nat -> verb -> K -> Prop :=
| completes_now v' k' :
    RUI v k = (v', k') -> async v' = false -> completes v k 0 v' k'
| completes_later n v1 k1 k2 v' s k' :
    RUI v k = (v1, k1) -> async v1 = true -> idle n k1 k2 ->
    sna_wait k2 = (WaitReady (Some (OtherVerb, v')) s, k') -> lua_post_handle v' = OtherDone ->
    completes v k (S (S n)) v' k'.

(** What [other_done] does for the verbs the daemon sends with [send_verb]. *)
Definition done_effect (v : verb) (g : lua_state) : lua_state :=
  set_semaphore false
    (if bool_decide (lua_opcode v = LUA_OPCODE_RUI_INIT /\ lua_prim_rc v = LUA_OK)
     then set_session (lua_sid (other_verb g)) (lua_luname (other_verb g)) g else g).

Lemma other_done_effect v g (k : K) :
  lua_opcode v <> LUA_OPCODE_RUI_BID -> other_done v (g, k) = Ret tt (done_effect v g, k).
Proof.
  intros Hb. unfold other_done, done_effect.
  destruct (decide (lua_opcode v = LUA_OPCODE_RUI_INIT)) as [->|Hi].
  - destruct (decide (lua_prim_rc v = LUA_OK)).
    + by rewrite bool_decide_true.
    + by rewrite bool_decide_false by tauto.
  - rewrite bool_decide_false by tauto. rewrite (decide_False (P := _ = LUA_OPCODE_RUI_BID)) by done.
    by repeat case_decide.
Qed.

Lemma done_semaphore v g : semaphore (done_effect v g) = false.
Proof. unfold done_effect. case_bool_decide; by destruct g. Qed.

Lemma do_select_finish n fuel g (k k1 k2 : K) v s :
  idle n k k1 -> sna_wait k1 = (WaitReady (Some (OtherVerb, v)) s, k2) ->
  lua_post_handle v = OtherDone -> lua_opcode v <> LUA_OPCODE_RUI_BID ->
  semaphore g = true -> (S (S n) <= fuel)%nat ->
  do_select fuel false (g, k) = Ret false (done_effect v (put_verb OtherVerb v g), k2).
Proof.
  intros Hi Hw Hp Hb Hs. revert fuel. induction Hi as [k|n k k' k'' s' Hk Hi IH]; intros [|fuel] Hf; try lia;
    cbn [do_select]; rewrite (M_bind_Ret lua_get _ _ g (g, _)) by done; rewrite Hs; cbn [orb].
  - rewrite (M_bind_Ret wait _ _ (WaitReady (Some (OtherVerb, v)) s) (g, k2)) by (unfold wait; by rewrite Hw).
    rewrite M_bind_assoc, (M_bind_Ret (lua_mod _) _ _ tt (put_verb OtherVerb v g, k2)) by done.
    unfold run_callback. rewrite Hp, (M_bind_Ret _ _ _ _ _ (other_done_effect v _ k2 Hb)).
    rewrite andb_false_r. destruct fuel as [|fuel]; [lia|]. cbn [do_select].
    rewrite (M_bind_Ret lua_get _ _ _ (done_effect v (put_verb OtherVerb v g), k2)) by done.
    cbv beta. cbn [fst]. by rewrite done_semaphore.
  - rewrite (M_bind_Ret wait _ _ (WaitReady None s') (g, k')) by (unfold wait; by rewrite Hk).
    rewrite M_ret_bind, andb_false_r. apply IH; [done|lia].
Qed.

Lemma set_semaphore_semaphore b g : semaphore (set_semaphore b g) = b.
Proof. by destruct g. Qed.

(** Issuing in [other_verb]: its completion is awaited and the callback run. *)
Lemma issue_other_completes fuel n v v' g (k k' : K) :
  completes v k n v' k' -> lua_opcode v' <> LUA_OPCODE_RUI_BID -> (n <= fuel)%nat ->
  exists g', issue_other fuel v (g, k) = Ret tt (done_effect v' (put_verb OtherVerb v' g'), k') /\
    put_verb OtherVerb v' g' = put_verb OtherVerb v' (set_semaphore true g).
Proof.
  intros Hc Hb Hf. unfold issue_other. rewrite (M_bind_Ret (lua_mod _) _ _ tt (set_semaphore true g, k)) by done.
  destruct Hc as [v' k' E Ha|n v1 k1 k2 v' s k' E Ha Hi Hw Hp].
  - exists (set_semaphore true g). split; [|done].
    rewrite (M_bind_Ret (call_rui OtherVerb v) _ _ v' (put_verb OtherVerb v' (set_semaphore true g), k'))
      by (unfold call_rui; by rewrite E).
    rewrite Ha. by apply other_done_effect.
  - exists (put_verb OtherVerb v1 (set_semaphore true g)). split; [|by destruct g].
    rewrite (M_bind_Ret (call_rui OtherVerb v) _ _ v1 (put_verb OtherVerb v1 (set_semaphore true g), k1))
      by (unfold call_rui; by rewrite E).
    assert (semaphore (put_verb OtherVerb v1 (set_semaphore true g)) = true) as Hs by (by destruct g).
    rewrite Ha. by rewrite (M_bind_Ret _ _ _ _ _ (do_select_finish n fuel _ k1 k2 k' v' s Hi Hw Hp Hb Hs Hf)).
Qed.
End Completion.

(** ** A scripted library

    Each call of [RUI] is answered by the next return code, session and
    asynchrony of the script; the verbs issued are kept. *)
Record rui_script : Type := MkScript { answers : list (Z * Z * bool); waits : list wait_result; issued : list verb }.

Definition answer (v : verb) (rc id : Z) (later : bool) : verb :=
  MkVerb (lua_verb v) (lua_opcode v) rc (lua_luname v) id (lua_max_length v) (lua_data v)
    (lua_post_handle v) (snf v) (rh v) (flag1 v) (flag2 v) later.

#[export] Instance script_rui : Rui rui_script := {|
  RUI v k :=
    match answers k with
    | [] => (answer v 1 0 false, MkScript [] (waits k) (issued k ++ [v]))
    | (rc, id, later) :: rest => (answer v rc id later, MkScript rest (waits k) (issued k ++ [v]))
    end;
  sna_wait k :=
    match waits k with
    | [] => (WaitNoFd, k)
    | r :: rest => (r, MkScript (answers k) rest (issued k))
    end
|}.

(** ** Properties *)

Definition verb_of (type : Z) (luname : list Z) : verb :=
  MkVerb LUA_VERB_RUI type 0 luname 0 0 [] OtherDone (0, 0) rh_zero flow_zero flow_zero true.

(** sending a verb.  Whether the library finishes it in the call or later,
    after any number of waits that bring nothing, [send_verb] returns, says
    whether the verb failed, leaves nobody waiting, and for a successful
    [RUI_INIT] the session it opened is the one later verbs use.  With no pool
    name, which is how the daemon runs, [RUI_INIT] is undefined. *)
Theorem send_verb_completes {K} (HK : Rui K) fuel type luname n v' g (k k' : K) :
  (if decide (type = LUA_OPCODE_RUI_INIT) then pool_luname (poolname g) = Some luname
   else luname = replicate 8 0) ->
  completes (verb_of type luname) k n v' k' -> lua_opcode v' = type -> type <> LUA_OPCODE_RUI_BID ->
  (n <= fuel)%nat ->
  exists g', send_verb fuel type (g, k) = Ret (if decide (lua_prim_rc v' <> LUA_OK) then 1 else 0) (g', k') /\
    semaphore g' = false /\ other_verb g' = v' /\
    (type = LUA_OPCODE_RUI_INIT -> lua_prim_rc v' = LUA_OK -> sid g' = lua_sid v' /\ lu_name g' = lua_luname v') /\
    (poolname g = None -> send_verb fuel LUA_OPCODE_RUI_INIT (g, k) = Undef (g, k)).
Proof.
  intros Hl Hc Ho Hb Hf. unfold send_verb at 1.
  rewrite (M_bind_Ret lua_get _ _ g (g, k)) by done.
  rewrite (M_bind_Ret _ _ _ luname (g, k)).
  2: { case_decide; [by rewrite Hl|by subst]. }
  rewrite <-Ho in Hb.
  destruct (issue_other_completes fuel n _ v' g k k' Hc Hb Hf) as (g' & E & Eg).
  rewrite (M_bind_Ret _ _ _ _ _ E). exists (done_effect v' (put_verb OtherVerb v' g')).
  assert (other_verb (done_effect v' (put_verb OtherVerb v' g')) = v') as Eo.
  { unfold done_effect. case_bool_decide; by destruct g'. }
  split_and!.
  - rewrite (M_bind_Ret lua_get _ _ (done_effect v' (put_verb OtherVerb v' g'))
      (done_effect v' (put_verb OtherVerb v' g'), k')) by done. by rewrite Eo.
  - apply done_semaphore.
  - done.
  - intros -> Hrc. unfold done_effect. rewrite bool_decide_true by done. by destruct g'.
  - intros Hn. unfold send_verb. rewrite (M_bind_Ret lua_get _ _ g (g, k)) by done.
    by rewrite decide_True, Hn.
Qed.

Definition pool_state : lua_state :=
  match lua_init with
  | MkLua r i o p c _ sem id name st ses sv rt => MkLua r i o p c (Some (str "POOL1")) sem id name st ses sv rt
  end.

Lemma send_verb_completes_witness :
  exists v' g' k',
    send_verb 3 LUA_OPCODE_RUI_INIT
      (pool_state, MkScript [(0, 0, true)]
        [WaitReady None false; WaitReady (Some (OtherVerb, answer (verb_of LUA_OPCODE_RUI_INIT (str "POOL1   ")) 0 9 false)) false] []) =
      Ret 0 (g', k') /\ other_verb g' = v' /\ lua_sid v' = 9.
Proof.
  set (v := verb_of LUA_OPCODE_RUI_INIT (str "POOL1   ")).
  set (k := MkScript [(0, 0, true)]
        [WaitReady None false; WaitReady (Some (OtherVerb, answer v 0 9 false)) false] []).
  destruct (send_verb_completes script_rui 3 LUA_OPCODE_RUI_INIT (str "POOL1   ") 3 (answer v 0 9 false)
    pool_state k (MkScript [] [] [v])) as (g' & E & _ & Ho & _).
  - vm_compute. reflexivity.
  - apply (completes_later v k 1 (answer v 0 0 true)
      (MkScript [] [WaitReady None false; WaitReady (Some (OtherVerb, answer v 0 9 false)) false] [v])
      (MkScript [] [WaitReady (Some (OtherVerb, answer v 0 9 false)) false] [v]) (answer v 0 9 false) false);
      [reflexivity | reflexivity | | reflexivity | reflexivity].
    eapply idle_S; [reflexivity | apply idle_O].
  - reflexivity.
  - discriminate.
  - lia.
  - exists (answer v 0 9 false), g', (MkScript [] [] [v]). split; [exact E | split; [exact Ho | reflexivity]].
Defined.

(** C28: bracket protocol.  In an LU session with the right to send, a write of a record
    goes out once, passing the direction to the host and beginning a bracket exactly
    when none was open; after it the right to send is gone, and a further write issues
    nothing.  It carries the data of the record, behind the header of a TN3270E record,
    as long as that has less than 65536 bytes: the length is kept in sixteen bits, and of
    more data only the first bytes go out, as many as the length modulo 65536.  A TN3270E
    record shorter than its header is undefined. *)
Theorem send_write_brackets {K} (HK : Rui K) fuel streamtype data data2 len2 n v' g (k k' : K) :
  let header := if decide (streamtype = TN3270E_STREAM) then 5%nat else 0%nat in
  let payload := drop header data in
  lu_session g = true -> send_state g = BETB \/ send_state g = SEND -> (header <= length data)%nat -> (header <= length data2)%nat ->
  let v := MkVerb LUA_VERB_RUI LUA_OPCODE_RUI_WRITE 0 (replicate 8 0) (sid g) 0
             (take (Z.to_nat (Z.of_nat (length payload) mod 65536)) payload) OtherDone (0, 0)
             (MkRh false true true true false true (bool_decide (send_state g = BETB)) false true)
             (MkFlow true false false false) flow_zero false in
  completes v k n v' k' -> lua_opcode v' = LUA_OPCODE_RUI_WRITE -> (n <= fuel)%nat ->
  (exists g', send_write fuel streamtype data (Z.of_nat (length data)) (g, k) = Ret tt (g', k') /\ send_state g' = RECV /\
    exists g'', send_write fuel streamtype data2 len2 (g', k') = Ret tt (g'', k')) /\
  (Z.of_nat (length payload) < 65536 -> lua_data v = payload) /\
  (forall short len, (length short < 5)%nat -> send_write fuel TN3270E_STREAM short len (g, k) = Undef (g, k)).
Proof.
  intros header payload Hlu Hst Hd Hd2 v Hc Ho Hf.
  assert (lua_opcode v' <> LUA_OPCODE_RUI_BID) as Hb by (by rewrite Ho).
  destruct (issue_other_completes fuel n v v' (set_send_state RECV g) k k' Hc Hb Hf) as (g' & E & Eg).
  set (g1 := done_effect v' (put_verb OtherVerb v' g')).
  assert (g1 = set_semaphore false (put_verb OtherVerb v' (set_send_state RECV g))) as Eg1.
  { unfold g1, done_effect. rewrite Eg, bool_decide_false by (rewrite Ho; by intros [? _]). by destruct g. }
  assert (u16 (Z.of_nat (length data) - Z.of_nat header) = Z.of_nat (length payload) mod 65536) as Hlen.
  { unfold payload, u16. rewrite length_drop. f_equal. lia. }
  pose proof (Z.mod_le (Z.of_nat (length payload)) 65536 ltac:(lia) ltac:(lia)) as Hle.
  split_and!.
  - exists g1. split_and!.
    + unfold send_write. fold header. rewrite (decide_False (P := (_ < _)%nat)) by lia. fold payload. rewrite Hlen.
      rewrite (M_bind_Ret lua_get _ _ g (g, k)) by done. rewrite Hlu, (decide_False (P := Z.of_nat (length payload) < _)) by lia.
      destruct Hst as [Hst|Hst].
      * rewrite (decide_True (P := send_state g = BETB)) by done.
        rewrite (M_bind_Ret (lua_mod _) _ _ tt (set_send_state RECV g, k)) by done.
        unfold g1. rewrite <-E. subst v. by rewrite bool_decide_true by done.
      * rewrite (decide_False (P := send_state g = BETB)) by (by rewrite Hst).
        rewrite (decide_True (P := send_state g = SEND)) by done.
        rewrite (M_bind_Ret (lua_mod _) _ _ tt (set_send_state RECV g, k)) by done.
        unfold g1. rewrite <-E. subst v. rewrite bool_decide_false by (by rewrite Hst). by rewrite ?(decide_False (P := Z.of_nat (length payload) < _)) by lia.
    + rewrite Eg1. by destruct g.
    + unfold send_write. fold header. rewrite (decide_False (P := (_ < _)%nat)) by lia. rewrite (M_bind_Ret lua_get _ _ g1 (g1, k')) by done.
      assert (lu_session g1 = true) as -> by (rewrite Eg1; by destruct g).
      assert (send_state g1 = RECV) as -> by (rewrite Eg1; by destruct g).
      by eexists.
  - intros Hs. unfold v. cbn [lua_data]. rewrite Z.mod_small by lia. by rewrite Nat2Z.id, take_ge.
  - intros short len Hs. unfold send_write. rewrite (decide_True (P := TN3270E_STREAM = TN3270E_STREAM)) by done. by rewrite decide_True by lia.
Qed.

(** A daemon whose LU session is between brackets. *)
Definition lu_state : lua_state := set_send_state BETB (set_lu_session true lua_init).

Definition demo_write : verb :=
  MkVerb LUA_VERB_RUI LUA_OPCODE_RUI_WRITE 0 (replicate 8 0) 0 0 [125; 1] OtherDone (0, 0)
    (MkRh false true true true false true true false true) (MkFlow true false false false) flow_zero false.

Lemma send_write_brackets_witness :
  exists g', send_write 0 TN3270E_STREAM [0; 0; 0; 0; 7; 125; 1] 7 (lu_state, MkScript [(0, 0, false)] [] []) =
    Ret tt (g', MkScript [] [] [demo_write]) /\ send_state g' = RECV.
Proof.
  destruct (send_write_brackets script_rui 0 TN3270E_STREAM [0; 0; 0; 0; 7; 125; 1] [0; 0; 0; 0; 0] 5 0
    (answer demo_write 0 0 false) lu_state (MkScript [(0, 0, false)] [] []) (MkScript [] [] [demo_write]))
    as ((g' & E & Hs & _) & _);
    [reflexivity | left; reflexivity | vm_compute; lia | vm_compute; lia | apply completes_now; reflexivity | reflexivity | lia |].
  exists g'. split; assumption.
Defined.

(** The library refuses every [RUI_REINIT], at once. *)
Definition refuses {K} `{Rui K} : Prop :=
  forall v k, async (RUI v k).1 = false /\ lua_prim_rc (RUI v k).1 <> LUA_OK.

(** The state of the library after [n] calls. *)
Fixpoint after_calls {K} `{Rui K} (n : nat) (k k' : K) : Prop :=
  match n with
  | O => k' = k
  | S n => exists v, after_calls n (RUI v k).2 k'
  end.

(** retrying to reinitialise.  Against a library that refuses, a count of
    [n] retries makes [n + 1] attempts and then ends the daemon with status 1; a
    negative count never ends. *)
Theorem send_reinit_retries {K} (HK : Rui K) n g (k : K) :
  refuses (K := K) ->
  (retry_reinit g = Z.of_nat n ->
    exists g' k', send_reinit (S n) (g, k) = Exit 1 (g', k') /\ after_calls (S n) k k') /\
  (retry_reinit g < 0 -> forall fuel, exists s, send_reinit fuel (g, k) = NoFuel s).
Proof.
  intros Href.
  assert (forall fuel g k, exists v, let g1 := put_verb ReinitVerb (RUI v k).1 (put_verb ReadVerb verb_zero (set_lu_session false g)) in
    send_reinit (S fuel) (g, k) =
      (if decide (retry_reinit g <> 0) then
         send_reinit fuel (if bool_decide (retry_reinit g > 0) then set_retry (retry_reinit g - 1) g1 else g1, (RUI v k).2)
       else Exit 1 (g1, (RUI v k).2))) as Hstep.
  { clear n g k. intros fuel g k. cbn [send_reinit].
    rewrite (M_bind_Ret (lua_mod _) _ _ tt (set_lu_session false g, k)) by done.
    rewrite (M_bind_Ret (lua_mod _) _ _ tt (put_verb ReadVerb verb_zero (set_lu_session false g), k)) by done.
    rewrite (M_bind_Ret lua_get _ _ _ (put_verb ReadVerb verb_zero (set_lu_session false g), k)) by done.
    cbv beta zeta. cbn [fst]. match goal with |- context [call_rui ReinitVerb ?v] => exists v; set (w := v) end.
    set (g1 := put_verb ReinitVerb (RUI w k).1 (put_verb ReadVerb verb_zero (set_lu_session false g))).
    rewrite (M_bind_Ret (call_rui ReinitVerb w) _ _ (RUI w k).1 (g1, (RUI w k).2)).
    2: { unfold call_rui, g1. by destruct (RUI w k). }
    destruct (Href w k) as [-> Hrc]. rewrite decide_False by done.
    rewrite (M_bind_Ret lua_get _ _ g1 (g1, (RUI w k).2)) by done.
    assert (retry_reinit g1 = retry_reinit g) as -> by (unfold g1; by destruct g).
    case_decide; [|done]. case_bool_decide; [|by rewrite M_ret_bind].
    by rewrite (M_bind_Ret (lua_mod _) _ _ tt (set_retry (retry_reinit g - 1) g1, (RUI w k).2)). }
  split.
  - revert g k. induction n as [|n IH]; intros g k Hn.
    + destruct (Hstep 0%nat g k) as (v & E). cbv zeta in E. rewrite Hn, decide_False in E by (cbn; lia).
      eexists _, _. split; [exact E|]. cbn. eauto.
    + destruct (Hstep (S n) g k) as (v & E). cbv zeta in E. rewrite Hn, decide_True, bool_decide_true in E by lia.
      match type of E with _ = send_reinit (S n) (?g2, ?k2) => destruct (IH g2 k2) as (g' & k' & E' & Hk) end.
      { destruct g; cbn in *; lia. }
      exists g', k'. split; [by rewrite E|]. cbn [after_calls]. by exists v.
  - intros Hneg fuel. revert g k Hneg. induction fuel as [|fuel IH]; intros g k Hneg; [by eexists|].
    destruct (Hstep fuel g k) as (v & E). cbv zeta in E. rewrite decide_True, bool_decide_false in E by lia.
    rewrite E. apply IH. by destruct g.
Qed.

(** A library that refuses, counting its calls. *)
Definition refusing_rui : Rui nat := {|
  RUI v k := (answer v 1 0 false, S k);
  sna_wait k := (WaitNoFd, k)
|}.

Lemma send_reinit_retries_witness :
  exists g' k', @send_reinit nat refusing_rui 3 (set_retry 2 lua_init, 0%nat) = Exit 1 (g', k').
Proof.
  destruct (send_reinit_retries refusing_rui 2 (set_retry 2 lua_init) 0%nat) as [H _].
  - intros v k. split; [reflexivity | discriminate].
  - destruct H as (g' & k' & E & _); [reflexivity|]. exists g', k'. exact E.
Defined.
