(* ===== verification/GetSense.v ===== *)
(** * sense/getsense.c: the text of a sense code

    The program looks a sense code up in a text file of lines: [C] starts a
    code, [D] a block of sense data within it, [!] is text to print.  The
    state is the position in the file, the line buffer, the state of the machine
    and what has been printed.  [lookup] is what the file means: the program is
    proved to print it. *)
From S2P Require Import Prelude.

Definition MAXDATA : nat := 3.

Definition PATH_GETSENSE_SENSEDATA : list Z := str "/usr/lib/getsense/sense.data".
Definition name_s : list Z := str "getsense".
Definition maintainer_s : list Z := str "Jay Schulist <jschlst@linux-sna.org>".

Inductive STATE : Type :=
| STATE_NOTHING
| STATE_IN_CODE
| STATE_IN_WRONG_DATA
| STATE_IN_RIGHT_DATA.

#[export] Instance STATE_eq_dec : EqDecision STATE.
Proof. solve_decision. Defined.

Record gen_info : Type := MkGen { data_code : list Z; file_offset : nat }.

(** [generic_data] holds the [n] entries in use. *)
Record sense_state : Type := MkSense {
  pos : nat;
  buffer : list (option Z);
  state : STATE;
  generic_data : list gen_info;
  printed : list Z
}.

Abbreviation G := (M sense_state).

Definition set_state (x : STATE) : G unit :=
  modify (fun s => MkSense (pos s) (buffer s) x (generic_data s) (printed s)).
Definition set_pos (p : nat) : G unit :=
  modify (fun s => MkSense p (buffer s) (state s) (generic_data s) (printed s)).
Definition printf (text : list Z) : G unit :=
  modify (fun s => MkSense (pos s) (buffer s) (state s) (generic_data s) (printed s ++ text)).

(** ** The string functions, on cells that may be unassigned *)

(** [!strncmp(a, b, n)]. *)
Fixpoint strncmp_eq (n : nat) (a : list (option Z)) (b : list Z) : option bool :=
  match n with
  | O => Some true
  | S n =>
      match a, b with
      | Some x :: a', y :: b' =>
          if decide (x = y) then if decide (x = 0) then Some true else strncmp_eq n a' b'
          else Some false
      | _, _ => None
      end
  end.

Fixpoint strncpy (n : nat) (a : list (option Z)) : option (list Z) :=
  match n with
  | O => Some []
  | S n' =>
      match a with
      | Some x :: a' => if decide (x = 0) then Some (replicate n 0) else cons x <$> strncpy n' a'
      | _ => None
      end
  end.

Definition generic_chars : list Z := str "nxy".

(** The two loops of [check_for_generic_msg]: whether one of the cells is a
    generic character. *)
Fixpoint generic_scan (cells : list (option Z)) : option bool :=
  match cells with
  | [] => Some false
  | Some c :: t => if decide (c ∈ generic_chars) then Some true else generic_scan t
  | None :: _ => None
  end.

(** [check_for_generic_msg] with the entry [generic_data[n]], and the [++n] that
    follows when it found one.  An entry past the array is a store outside it. *)
Definition check_for_generic_msg : G unit :=
  s ← get_st;
  found ← of_opt (generic_scan (take 4 (drop 1 (buffer s))));
  if found : bool then
    if decide (length (generic_data s) < MAXDATA)%nat then
      code ← of_opt (strncpy 4 (drop 1 (buffer s)));
      put_st (MkSense (pos s) (buffer s) (state s)
                (generic_data s ++ [MkGen (code ++ [0]) (pos s)]) (printed s))
    else undef
  else mret tt.

(** [None]: a character past one of the strings was read. *)
Fixpoint compare_from (n : nat) (sense_data data_code : list Z) : option bool :=
  match n, data_code with
  | O, _ => Some true
  | S n, d :: data_code =>
      if negb (isxdigit d) then compare_from n (tail sense_data) data_code
      else match sense_data with
           | c :: sense_data => if decide (d = c) then compare_from n sense_data data_code else Some false
           | [] => None
           end
  | _, [] => None
  end.

Definition compare_generic (sense_data data_code : list Z) : option bool :=
  compare_from 4 sense_data data_code.

(** The loop over the entries: the first that matches. *)
Fixpoint match_generic (sense_data : list Z) (gs : list gen_info) : option (option gen_info) :=
  match gs with
  | [] => Some None
  | g :: gs =>
      b ← compare_generic sense_data (data_code g);
      if b : bool then Some (Some g) else match_generic sense_data gs
  end.

(** ** [show_sense] *)

Definition not_found_msg : list Z := name_s ++ str ": the send code was not found." ++ [10].
Definition no_details_msg : list Z :=
  name_s ++ str ": details for this sense data were not found. please contact " ++
  maintainer_s ++ [10].

Section Show.
Context (file sense_code : list Z) (sense_data : option (list Z)).

(** The block behind the pointer [sense_data]; nothing can be read of NULL. *)
Definition sense_block : list Z := match sense_data with Some d => d ++ [0] | None => [] end.

(** [printf("%s", &buffer[1])]. *)
Definition print_line : G unit :=
  s ← get_st; text ← of_opt (mem_string (drop 1 (buffer s))); printf text.

(** [case 'D'] while looking for the data. *)
Definition data_line : G unit :=
  match sense_data with
  | None => set_state STATE_IN_RIGHT_DATA
  | Some _ =>
      s ← get_st;
      eq ← of_opt (strncmp_eq 4 (drop 1 (buffer s)) sense_block);
      if eq : bool then set_state STATE_IN_RIGHT_DATA
      else set_state STATE_IN_WRONG_DATA;; check_for_generic_msg
  end.

(** [case 'C'] after the data was not found. *)
Definition end_of_code : G unit :=
  s ← get_st;
  g ← of_opt (match_generic sense_block (generic_data s));
  match g with
  | Some g => set_pos (file_offset g);; set_state STATE_IN_RIGHT_DATA
  | None =>
      if decide (sense_code <> str "0835") then printf no_details_msg;; c_exit 0
      else mret tt
  end.

(** The [switch]: ['!'] is 33, ['C'] is 67, ['D'] is 68. *)
Definition sense_line : G unit :=
  s ← get_st;
  c ← of_opt (mjoin (buffer s !! 0%nat));
  match state s with
  | STATE_NOTHING =>
      if decide (c = 67) then
        eq ← of_opt (strncmp_eq 4 (drop 1 (buffer s)) (sense_code ++ [0]));
        if eq : bool then set_state STATE_IN_CODE else mret tt
      else mret tt
  | STATE_IN_CODE =>
      if decide (c = 33) then print_line
      else if decide (c = 67) then c_exit 0
      else if decide (c = 68) then data_line
      else mret tt
  | STATE_IN_WRONG_DATA =>
      if decide (c = 33) then mret tt
      else if decide (c = 67) then end_of_code
      else if decide (c = 68) then data_line
      else mret tt
  | STATE_IN_RIGHT_DATA =>
      if decide (c = 33) then print_line
      else if decide (c = 67) then c_exit 0
      else if decide (c = 68) then
        match sense_data with Some _ => c_exit 0 | None => mret tt end
      else mret tt
  end.

(** A line put into the 255 characters of [buffer], terminated; what was behind
    it stays. *)
Definition fill (line : list Z) (b : list (option Z)) : list (option Z) :=
  (Some <$> line) ++ Some 0 :: drop (S (length line)) b.

Definition BUFFER_SIZE : nat := 255.

Fixpoint show_sense_loop (fuel : nat) : G Z :=
  match fuel with
  | O => no_fuel
  | S fuel =>
      s ← get_st;
      match drop (pos s) file with
      | [] => printf not_found_msg;; mret 0
      | f =>
          let line := (fgets (BUFFER_SIZE - 1) f).1 in
          put_st (MkSense (pos s + length line) (fill line (buffer s)) (state s)
                    (generic_data s) (printed s));;
          sense_line;;
          show_sense_loop fuel
      end
  end.

(** A line of the file is read at most twice. *)
Definition show_fuel : nat := 2 * length file + 2.

Definition sense_init (out : list Z) : sense_state :=
  MkSense 0 (replicate BUFFER_SIZE None) STATE_NOTHING [] out.

Definition show_sense : G Z :=
  s ← get_st; put_st (sense_init (printed s));; show_sense_loop show_fuel.
End Show.

(** ** [main] *)

(** The options [getopt] reports. *)
Inductive sense_option : Type := OptVersion | OptHelp | OptFile (optarg : list Z) | OptOther.

Definition desc_s : list Z := str "Linux-SNA sense data translator".
Definition company_s : list Z := str "linux-SNA.ORG".
Definition web_s : list Z := str "http://www.linux-sna.org".

(** [config_file] has room for 200 characters. *)
Definition CONFIG_FILE_SIZE : nat := 200.

Section Main.
(** The version the build gives, and the files that can be opened. *)
Context (version_s : list Z) (fopen : list Z -> option (list Z)).

Definition help {A} : G A :=
  printf (str "Usage: " ++ name_s ++ str " [-h] [-v] [-f filename] sense_code" ++ [10]);; c_exit 1.

Definition version {A} : G A :=
  printf (name_s ++ str ": " ++ desc_s ++ [32] ++ version_s ++ [10] ++ company_s ++ [32] ++
          maintainer_s ++ [10] ++ web_s ++ [10]);; c_exit 1.

(** The [getopt] loop: the file to read. *)
Fixpoint run_options (opts : list sense_option) (config_file : list Z) : G (list Z) :=
  match opts with
  | [] => mret config_file
  | OptVersion :: _ => version
  | OptHelp :: _ | OptOther :: _ => help
  | OptFile optarg :: opts =>
      if decide (length optarg < CONFIG_FILE_SIZE)%nat then run_options opts optarg else undef
  end.

Definition no_code {A} : G A :=
  printf (name_s ++ str ": you must specify a sense code." ++ [10]);; help.

(** [memcpy(sense_data, argv[4], 4)], terminated and in upper case.  There is
    nothing to copy when there is no fourth further argument. *)
Definition copy_sense_data (argv : list (list Z)) : G (list Z) :=
  a ← of_opt (argv !! 4%nat);
  if decide (length a < 3)%nat then undef else mret (strupr (c_str (take 4 (a ++ [0])))).

(** [argv] are the arguments [getopt] leaves. *)
Definition main (opts : list sense_option) (argv : list (list Z)) : G Z :=
  config_file ← run_options opts PATH_GETSENSE_SENSEDATA;
  match argv with
  | [] => no_code
  | arg :: _ =>
      if decide (3 < length arg)%nat then
        sense_data ← (if decide (length arg = 8)%nat then d ← copy_sense_data argv; mret (Some d) else mret None);
        match fopen config_file with
        | None => printf (name_s ++ str ": could not open sense data file: " ++ config_file ++ [10]);;
                  c_exit 1
        | Some file => show_sense file (strupr (take 4 arg)) sense_data
        end
      else no_code
  end.
End Main.

(** ** What the file means *)

(** A block of data, and a code with its own text and its blocks.  The code is
    four characters; what the line holds after them is not looked at. *)
Record data_block : Type := MkBlock { d_code : list Z; d_rest : list Z; d_text : list (list Z) }.
Record code_entry : Type := MkEntry {
  c_code : list Z; c_rest : list Z; c_text : list (list Z); c_data : list data_block
}.

Definition text_file (ls : list (list Z)) : list Z := mjoin ((fun l => 33 :: l ++ [10]) <$> ls).
Definition block_file (b : data_block) : list Z := 68 :: (d_code b ++ d_rest b) ++ [10] ++ text_file (d_text b).
Definition entry_file (e : code_entry) : list Z :=
  67 :: (c_code e ++ c_rest e) ++ [10] ++ text_file (c_text e) ++ mjoin (block_file <$> c_data e).
Definition db_file (db : list code_entry) : list Z := mjoin (entry_file <$> db).

(** The text as printed. *)
Definition shown (ls : list (list Z)) : list Z := mjoin ((fun l => l ++ [10]) <$> ls).

(** A block whose code has a generic character stands for every data its other
    digits agree with. *)
Definition is_generic (b : data_block) : bool := existsb (fun c => bool_decide (c ∈ generic_chars)) (d_code b).
Definition agrees (d c : list Z) : Prop :=
  Forall2 (fun x y => isxdigit y = true -> y = x) d c.

#[export] Instance agrees_dec d c : Decision (agrees d c).
Proof. apply Forall2_dec. intros x y. destruct (isxdigit y) eqn:E; [destruct (decide (y = x)) |];
  [left|right|left]; try congruence; intros H; by auto. Defined.

Definition stands_for (d : list Z) (b : data_block) : bool :=
  is_generic b && bool_decide (agrees d (d_code b)).

(** The first element that satisfies [P], and what follows it. *)
Fixpoint find_rest {A} (P : A -> bool) (l : list A) : option (A * list A) :=
  match l with
  | [] => None
  | x :: l => if P x then Some (x, l) else find_rest P l
  end.

(** What is printed for a code and data, and whether the program then leaves by
    [exit] or reaches the end of the file, where it always prints that the code
    was not found. *)
Definition lookup_data (e : code_entry) (last : bool) (d : list Z) : list Z * bool :=
  match find_rest (fun b => bool_decide (d_code b = d)) (c_data e) with
  | Some (b, after) => (shown (d_text b), negb (bool_decide (after = [])) || negb last)
  | None =>
      if last then ([], false)
      else match c_data e with
      | [] => ([], true)
      | _ =>
          match find_rest (stands_for d) (c_data e) with
          | Some (b, _) => (shown (d_text b), true)
          | None => (no_details_msg, true)
          end
      end
  end.

(** The code 0835: the line of the next code does not end the search, and the blocks of
    the codes behind it are looked at as if they were its own, the generic ones of all
    of them ([before]) at each code. *)
Fixpoint lookup_onward (before : list data_block) (es : list code_entry) (d : list Z) : list Z * bool :=
  match es with
  | [] => ([], false)
  | e :: es =>
      match find_rest (fun b => bool_decide (d_code b = d)) (c_data e) with
      | Some (b, after) => (shown (d_text b), negb (bool_decide (after = [])) || negb (bool_decide (es = [])))
      | None =>
          if decide (es = []) then ([], false)
          else match find_rest (stands_for d) (before ++ c_data e) with
               | Some (b, _) => (shown (d_text b), true)
               | None => lookup_onward (before ++ c_data e) es d
               end
      end
  end.

Definition lookup (db : list code_entry) (code : list Z) (data : option (list Z)) : list Z * bool :=
  match find_rest (fun e => bool_decide (c_code e = code)) db with
  | None => ([], false)
  | Some (e, after) =>
      let last := bool_decide (after = []) in
      let '(text, leaves) :=
        match data with
        | None => (mjoin ((fun b => shown (d_text b)) <$> c_data e), negb last)
        | Some d =>
            if decide (code = str "0835" /\ c_data e <> []) then lookup_onward [] (e :: after) d
            else lookup_data e last d
        end in
      (shown (c_text e) ++ text, leaves)
  end.

(** ** Well-formed files *)

(** A line the buffer takes whole. *)
Definition good_line (l : list Z) : Prop := 10 ∉ l /\ no_nul l /\ (length l <= 252)%nat.

Definition wf_code (c rest : list Z) : Prop := length c = 4%nat /\ good_line (c ++ rest).

Definition wf_block (b : data_block) : Prop := wf_code (d_code b) (d_rest b) /\ Forall good_line (d_text b).

Definition wf_entry (e : code_entry) : Prop :=
  wf_code (c_code e) (c_rest e) /\ Forall good_line (c_text e) /\ Forall wf_block (c_data e) /\
  (length (filter (fun b => is_generic b = true) (c_data e)) <= MAXDATA)%nat.

(** The generic blocks that a search for data of the code 0835 may meet fit the array. *)
Definition room_onward (db : list code_entry) : Prop :=
  match find_rest (fun e => bool_decide (c_code e = str "0835")) db with
  | None => True
  | Some (e, after) => (length (filter (fun b => is_generic b = true) (mjoin (c_data <$> e :: after))) <= MAXDATA)%nat
  end.

#[export] Instance good_line_dec l : Decision (good_line l).
Proof. unfold good_line. apply _. Defined.
#[export] Instance wf_entry_dec e : Decision (wf_entry e).
Proof. unfold wf_entry, wf_block, wf_code. apply _. Defined.

(** A line before the first code. *)
Definition heading_ok (l : list Z) : Prop := head l <> Some 67 /\ good_line l.

Definition heading_file (ls : list (list Z)) : list Z := mjoin ((fun l => l ++ [10]) <$> ls).

(** ** Lines in the buffer *)

Lemma strncmp_eq_prefix a b x y :
  no_nul a -> length a = length b -> strncmp_eq (length a) ((Some <$> a) ++ x) (b ++ y) = Some (bool_decide (a = b)).
Proof.
  intros Ha. revert b. induction Ha as [|c a Hc Ha IH]; intros [|d b] Hl; try discriminate; cbn; [done|]. injection Hl as Hl.
  case_decide as Hd.
  - subst d. rewrite decide_False by done. rewrite IH by done. f_equal. apply bool_decide_ext. naive_solver.
  - f_equal. symmetry. apply bool_decide_eq_false. naive_solver.
Qed.

Lemma generic_scan_cells a : generic_scan (Some <$> a) = Some (existsb (fun c => bool_decide (c ∈ generic_chars)) a).
Proof.
  induction a as [|c a IH]; [done|]. cbn [generic_scan existsb fmap list_fmap].
  case_decide; [rewrite bool_decide_true by done; done|]. by rewrite bool_decide_false.
Qed.

Lemma strncpy_prefix a x : no_nul a -> strncpy (length a) ((Some <$> a) ++ x) = Some a.
Proof. induction 1 as [|c a Hc Ha IH]; cbn; [done|]. rewrite decide_False by done. by rewrite IH. Qed.

Lemma fill_head c l b : mjoin (fill (c :: l) b !! 0%nat) = Some c.
Proof. done. Qed.

Lemma fill_tail c l b : drop 1 (fill (c :: l) b) = (Some <$> l) ++ Some 0 :: drop (length (c :: l) + 1) b.
Proof. unfold fill. cbn. by rewrite drop_0, Nat.add_1_r. Qed.

Lemma compare_from_agrees d c x y :
  length d = length c -> compare_from (length c) (d ++ x) (c ++ y) = Some (bool_decide (agrees d c)).
Proof.
  unfold agrees. revert d. induction c as [|b c IH]; intros [|a d] Hl; try discriminate; cbn [compare_from app length].
  { reflexivity. }
  injection Hl as Hl. cbn [tail]. rewrite IH by done. destruct (isxdigit b) eqn:E; cbn [negb].
  - case_decide as Hd; [f_equal; apply bool_decide_ext | f_equal; symmetry; apply bool_decide_eq_false];
      rewrite Forall2_cons; [split; [by intros H|by intros [_ H]] | intros [H _]; by rewrite H in Hd].
  - f_equal. apply bool_decide_ext. rewrite Forall2_cons, E. split; [by intros H|by intros [_ H]].
Qed.

(** ** Steps of the loop *)

Section Steps.
Context (file sense_code : list Z) (sense_data : option (list Z)).

Abbreviation loop := (show_sense_loop file sense_code sense_data).
Abbreviation at_ p b x gs out := (MkSense p b x gs out).

(** [n] turns of the loop lead from [s] to [s']. *)
Definition steps (n : nat) (s s' : sense_state) : Prop := forall fuel, loop (n + fuel) s = loop fuel s'.

(** From the start of the part [seg] of the file, behind [pre], to its end. *)
Definition fwd (pre seg : list Z) x gs out x' gs' out' : Prop :=
  forall b, exists b' n, (n <= length seg)%nat /\
    steps n (at_ (length pre) b x gs out) (at_ (length (pre ++ seg)) b' x' gs' out').

(** From position [p], with at most [k] turns, to the end: [text] is printed
    and the program leaves by [exit], or returns. *)
Definition ends (k p : nat) x gs out (text : list Z) (leaves : bool) : Prop :=
  forall b fuel, (k <= fuel)%nat -> exists s',
    loop fuel (at_ p b x gs out) = (if leaves then Exit 0 s' else Ret 0 s') /\ printed s' = out ++ text.

Lemma fwd_nil pre x gs out : fwd pre [] x gs out x gs out.
Proof. intros b. exists b, 0%nat. rewrite app_nil_r. by split; [lia|]. Qed.

Lemma fwd_app pre s1 s2 x1 gs1 out1 x2 gs2 out2 x3 gs3 out3 :
  fwd pre s1 x1 gs1 out1 x2 gs2 out2 -> fwd (pre ++ s1) s2 x2 gs2 out2 x3 gs3 out3 ->
  fwd pre (s1 ++ s2) x1 gs1 out1 x3 gs3 out3.
Proof.
  intros H1 H2 b. destruct (H1 b) as (b1 & n1 & Hn1 & S1). destruct (H2 b1) as (b2 & n2 & Hn2 & S2).
  exists b2, (n1 + n2)%nat. rewrite length_app. split; [lia|]. intros fuel.
  by rewrite <- Nat.add_assoc, S1, S2, <- app_assoc.
Qed.

Lemma fwd_ends pre seg x gs out x' gs' out' k text1 text2 leaves :
  fwd pre seg x gs out x' gs' out' -> out' = out ++ text1 ->
  ends k (length (pre ++ seg)) x' gs' out' text2 leaves ->
  ends (length seg + k) (length pre) x gs out (text1 ++ text2) leaves.
Proof.
  intros H1 -> H2 b fuel Hk. destruct (H1 b) as (b1 & n & Hn & S1).
  destruct (H2 b1 (fuel - n)%nat ltac:(lia)) as (s' & E & P). exists s'.
  rewrite app_assoc. split; [|done]. rewrite <- E, <- S1. f_equal. lia.
Qed.

(** A turn on a whole line. *)
Lemma loop_line fuel pre c l post b x gs out :
  file = pre ++ (c :: l ++ [10]) ++ post -> 10 ∉ c :: l -> (length l <= 252)%nat ->
  loop (S fuel) (at_ (length pre) b x gs out) =
    (sense_line sense_code sense_data;; loop fuel)
      (at_ (length (pre ++ c :: l ++ [10])) (fill (c :: l ++ [10]) b) x gs out).
Proof.
  intros Hf Hn Hl. cbn [show_sense_loop]. rewrite get_st_bind. cbn [pos buffer state generic_data printed].
  assert (drop (length pre) file = (c :: l) ++ 10 :: post) as ->.
  { rewrite Hf, drop_app_length. cbn. by rewrite <- app_assoc. }
  assert (fgets (BUFFER_SIZE - 1) ((c :: l) ++ 10 :: post) = (c :: l ++ [10], post)) as Hg.
  { apply (fgets_line (BUFFER_SIZE - 1) (c :: l)); [done|]. unfold BUFFER_SIZE. cbn. lia. }
  cbn [app] in *. rewrite Hg. cbn [fst]. rewrite put_st_bind, length_app. done.
Qed.

Lemma loop_end fuel b x gs out :
  loop (S fuel) (at_ (length file) b x gs out) = Ret 0 (at_ (length file) b x gs (out ++ not_found_msg)).
Proof. cbn [show_sense_loop]. rewrite get_st_bind. cbn [pos buffer state generic_data printed]. by rewrite drop_all. Qed.

(** Text is printed in a code and in the right data, and skipped elsewhere. *)
Definition prints (x : STATE) : bool :=
  match x with STATE_IN_CODE | STATE_IN_RIGHT_DATA => true | _ => false end.

Lemma sense_line_text l b x gs out p :
  no_nul l ->
  sense_line sense_code sense_data (at_ p (fill (33 :: l ++ [10]) b) x gs out) =
    Ret tt (at_ p (fill (33 :: l ++ [10]) b) x gs (out ++ if prints x then l ++ [10] else [])).
Proof.
  intros Hl. unfold sense_line. rewrite get_st_bind. cbn [buffer state].
  rewrite fill_head, of_opt_Some_bind.
  destruct x; cbn [prints]; repeat rewrite ?decide_True, ?decide_False by done; rewrite ?app_nil_r; try done;
  unfold print_line; rewrite get_st_bind; cbn [buffer]; rewrite fill_tail, mem_string_cells by
    (apply Forall_app_2; [done|repeat constructor; lia]); done.
Qed.

Lemma fwd_line pre c l post x gs out x' gs' out' :
  file = pre ++ (c :: l ++ [10]) ++ post -> c <> 10 -> good_line l ->
  (forall b, exists b', sense_line sense_code sense_data
      (at_ (length (pre ++ c :: l ++ [10])) (fill (c :: l ++ [10]) b) x gs out) =
    Ret tt (at_ (length (pre ++ c :: l ++ [10])) b' x' gs' out')) ->
  fwd pre (c :: l ++ [10]) x gs out x' gs' out'.
Proof.
  intros Hf Hc (Hn & _ & Hlen) Hs b. destruct (Hs b) as [b' E]. exists b', 1%nat. split; [cbn; lia|].
  intros fuel. cbn [Nat.add]. rewrite (loop_line _ _ _ _ _ _ _ _ _ Hf); [|set_solver|done].
  by rewrite (M_bind_Ret _ _ _ _ _ E).
Qed.

Lemma fwd_text ls : Forall good_line ls -> forall pre post x gs out,
  file = pre ++ text_file ls ++ post ->
  fwd pre (text_file ls) x gs out x gs (out ++ if prints x then shown ls else []).
Proof.
  induction 1 as [|l ls Hl Hls IH]; intros pre post x gs out Hf.
  - replace (out ++ _) with out by (destruct (prints x); by rewrite app_nil_r). apply fwd_nil.
  - unfold text_file, shown in *. cbn [fmap list_fmap mjoin list_join] in *. rewrite <- app_assoc in Hf.
    eapply fwd_app.
    + eapply (fwd_line _ _ _ _ _ _ _ x gs); [exact Hf|done|done|]. intros b. eexists.
      apply sense_line_text. apply Hl.
    + rewrite app_assoc in Hf. specialize (IH _ _ x gs (out ++ if prints x then l ++ [10] else []) Hf).
      destruct (prints x); by rewrite <- ?app_assoc, ?app_nil_r in *.
Qed.

(** A line that starts another code or data, in the states where it ends the
    program. *)
Lemma ends_line pre c l post x gs out :
  file = pre ++ (c :: l ++ [10]) ++ post -> c <> 10 -> good_line l ->
  match x with
  | STATE_IN_CODE => c = 67
  | STATE_IN_RIGHT_DATA => c = 67 \/ c = 68 /\ is_Some sense_data
  | _ => False
  end ->
  ends 1 (length pre) x gs out [] true.
Proof.
  intros Hf Hc (Hn & _ & Hlen) Hx b [|fuel] Hk; [lia|].
  rewrite (loop_line _ _ _ _ _ _ _ _ _ Hf); [|set_solver|done].
  unfold sense_line. rewrite M_bind_assoc, get_st_bind, M_bind_assoc. cbn [state buffer].
  rewrite fill_head, of_opt_Some_bind. eexists. rewrite app_nil_r.
  destruct x; try done.
  - subst c. done.
  - destruct Hx as [-> | [-> [d ->]]]; done.
Qed.

Lemma ends_file x gs out : ends 1 (length file) x gs out not_found_msg false.
Proof. intros b [|fuel] Hk; [lia|]. eexists. by rewrite loop_end. Qed.

(** ** The lines of codes and data *)

Lemma good_code_line c rest : wf_code c rest -> no_nul c /\ length c = 4%nat /\ good_line (c ++ rest).
Proof. intros [Hlen Hl]. split_and!; [|done..]. destruct Hl as (_ & H0 & _). by apply Forall_app in H0 as [? _]. Qed.

(** The first four characters behind the letter, against those looked for. *)
Lemma strncmp_line a c rest d y b :
  wf_code c rest -> length d = 4%nat ->
  strncmp_eq 4 (drop 1 (fill (a :: (c ++ rest) ++ [10]) b)) (d ++ y) = Some (bool_decide (c = d)).
Proof.
  intros (H0 & Hc & _)%good_code_line Hd. rewrite fill_tail, !fmap_app, <- !app_assoc.
  rewrite <- Hc at 1. apply strncmp_eq_prefix; [done|lia].
Qed.

(** A line that changes nothing while no code was found yet. *)
Lemma sense_line_nothing a l b p gs out :
  (a = 67 -> exists c rest, l = (c ++ rest) ++ [10] /\ wf_code c rest /\ length sense_code = 4%nat /\ c <> sense_code) ->
  sense_line sense_code sense_data (at_ p (fill (a :: l) b) STATE_NOTHING gs out) =
    Ret tt (at_ p (fill (a :: l) b) STATE_NOTHING gs out).
Proof.
  intros Ha. unfold sense_line. rewrite get_st_bind. cbn [state buffer]. rewrite fill_head, of_opt_Some_bind.
  case_decide as E; [|done]. destruct (Ha E) as (c & rest & -> & Hw & Hlen & Hne).
  rewrite strncmp_line by done. rewrite bool_decide_false by done. done.
Qed.

Lemma sense_line_code rest b p gs out :
  wf_code sense_code rest ->
  sense_line sense_code sense_data (at_ p (fill (67 :: (sense_code ++ rest) ++ [10]) b) STATE_NOTHING gs out) =
    Ret tt (at_ p (fill (67 :: (sense_code ++ rest) ++ [10]) b) STATE_IN_CODE gs out).
Proof.
  intros Hw. pose proof (good_code_line _ _ Hw) as (_ & Hlen & _).
  unfold sense_line. rewrite get_st_bind. cbn [state buffer]. rewrite fill_head, of_opt_Some_bind.
  rewrite decide_True by done. rewrite strncmp_line by done. by rewrite bool_decide_true.
Qed.

(** What the search looks at once a code was found. *)
Definition looking (x : STATE) : Prop := x = STATE_IN_CODE \/ x = STATE_IN_WRONG_DATA.

Lemma sense_line_data x c rest d b p gs out :
  looking x -> wf_code c rest -> sense_data = Some d -> length d = 4%nat ->
  let buf := fill (68 :: (c ++ rest) ++ [10]) b in
  (length gs < MAXDATA)%nat \/ c = d \/ existsb (fun a => bool_decide (a ∈ generic_chars)) c = false ->
  sense_line sense_code sense_data (at_ p buf x gs out) =
    Ret tt (if decide (c = d) then at_ p buf STATE_IN_RIGHT_DATA gs out
            else at_ p buf STATE_IN_WRONG_DATA
                   (gs ++ if existsb (fun a => bool_decide (a ∈ generic_chars)) c then [MkGen (c ++ [0]) p] else [])
                   out).
Proof.
  intros Hx Hw Hd Hlen buf Hgs. pose proof (good_code_line _ _ Hw) as (H0 & Hc & _).
  assert (sense_line sense_code sense_data (at_ p buf x gs out) = data_line sense_data (at_ p buf x gs out)) as ->.
  { unfold sense_line. rewrite get_st_bind. cbn [state buffer]. subst buf. rewrite fill_head, of_opt_Some_bind.
    by destruct Hx as [-> | ->]. }
  unfold data_line, sense_block. rewrite Hd, get_st_bind. cbn [buffer]. unfold buf at 1.
  rewrite strncmp_line, of_opt_Some_bind by done. case_bool_decide as E; [by rewrite decide_True|].
  rewrite decide_False by done. rewrite (M_bind_Ret _ _ _ tt (at_ p buf STATE_IN_WRONG_DATA gs out)) by done.
  unfold check_for_generic_msg. rewrite get_st_bind. cbn [buffer generic_data pos state printed].
  assert (take 4 (drop 1 buf) = Some <$> c) as ->.
  { unfold buf. rewrite fill_tail, !fmap_app, <- !app_assoc. by apply take_app_length'; rewrite length_fmap. }
  rewrite generic_scan_cells, of_opt_Some_bind. destruct (existsb _ c) eqn:Eg; [|by rewrite app_nil_r].
  rewrite decide_True by naive_solver. subst buf. rewrite fill_tail, !fmap_app, <- !app_assoc. rewrite <- Hc at 1. by rewrite strncpy_prefix.
Qed.
(** ** Blocks and entries *)

Lemma block_file_split b : block_file b = (68 :: (d_code b ++ d_rest b) ++ [10]) ++ text_file (d_text b).
Proof. unfold block_file. cbn. by rewrite <- !app_assoc. Qed.

Lemma entry_file_split e :
  entry_file e = (67 :: (c_code e ++ c_rest e) ++ [10]) ++ text_file (c_text e) ++ mjoin (block_file <$> c_data e).
Proof. unfold entry_file. cbn. by rewrite <- !app_assoc. Qed.

(** A block, given what its first line does. *)
Lemma fwd_block bl pre post x gs out x' gs' :
  file = pre ++ block_file bl ++ post -> wf_block bl ->
  (forall b p, p = length (pre ++ 68 :: (d_code bl ++ d_rest bl) ++ [10]) ->
    let buf := fill (68 :: (d_code bl ++ d_rest bl) ++ [10]) b in
    sense_line sense_code sense_data (at_ p buf x gs out) = Ret tt (at_ p buf x' gs' out)) ->
  fwd pre (block_file bl) x gs out x' gs' (out ++ if prints x' then shown (d_text bl) else []).
Proof.
  intros Hf [Hw Ht] Hs. rewrite block_file_split, <- app_assoc in Hf. rewrite block_file_split. eapply fwd_app.
  - eapply (fwd_line _ _ _ _ _ _ _ x' gs' out); [exact Hf|done|apply Hw|]. intros b. eexists. by apply Hs.
  - rewrite app_assoc in Hf. by eapply fwd_text.
Qed.

Lemma fwd_blocks_nothing bs : Forall wf_block bs -> forall pre post gs out,
  file = pre ++ mjoin (block_file <$> bs) ++ post ->
  fwd pre (mjoin (block_file <$> bs)) STATE_NOTHING gs out STATE_NOTHING gs out.
Proof.
  induction 1 as [|bl bs Hw Hbs IH]; intros pre post gs out Hf; cbn [fmap list_fmap mjoin list_join] in *.
  - apply fwd_nil.
  - rewrite <- app_assoc in Hf. eapply (fwd_app _ _ _ _ _ _ STATE_NOTHING gs out).
    + rewrite <- (app_nil_r out) at 2. eapply (fwd_block _ _ _ _ _ _ STATE_NOTHING); [exact Hf|done|].
      intros b p -> buf. by apply sense_line_nothing.
    + rewrite app_assoc in Hf. by eapply IH.
Qed.

(** The entries of [generic_data] that blocks starting at [p] make. *)
Fixpoint gens (p : nat) (bs : list data_block) : list gen_info :=
  match bs with
  | [] => []
  | b :: bs =>
      (if is_generic b then [MkGen (d_code b ++ [0]) (p + length (68 :: (d_code b ++ d_rest b) ++ [10]))] else []) ++
      gens (p + length (block_file b)) bs
  end.

Lemma length_gens p bs : length (gens p bs) = length (filter (fun b => is_generic b = true) bs).
Proof.
  revert p. induction bs as [|b bs IH]; intros p; [done|]. cbn [gens]. rewrite length_app, IH, filter_cons.
  destruct (is_generic b); by case_decide.
Qed.

Lemma fwd_blocks_wrong d bs : Forall wf_block bs -> Forall (fun b => d_code b <> d) bs ->
  sense_data = Some d -> length d = 4%nat -> forall pre post x gs out,
  file = pre ++ mjoin (block_file <$> bs) ++ post -> looking x ->
  (length gs + length (filter (fun b => is_generic b = true) bs) <= MAXDATA)%nat ->
  fwd pre (mjoin (block_file <$> bs)) x gs out
    (if decide (bs = []) then x else STATE_IN_WRONG_DATA) (gs ++ gens (length pre) bs) out.
Proof.
  intros Hw Hne Hd Hlen. induction Hw as [|bl bs Hb Hbs IH]; intros pre post x gs out Hf Hx Hmax;
    cbn [fmap list_fmap mjoin list_join gens] in *.
  - rewrite app_nil_r. apply fwd_nil.
  - apply Forall_cons in Hne as [Hne Hnes]. rewrite <- app_assoc in Hf. rewrite decide_False by done.
    rewrite filter_cons in Hmax. rewrite app_assoc. eapply (fwd_app _ _ _ _ _ _ STATE_IN_WRONG_DATA _ out).
    + rewrite <- (app_nil_r out) at 2. eapply (fwd_block _ _ _ _ _ _ STATE_IN_WRONG_DATA); [exact Hf|done|].
      intros b p -> buf. unfold buf. destruct Hb as [Hc _]. rewrite (sense_line_data x _ _ d); [|done..|].
      * rewrite decide_False by done. unfold is_generic. by rewrite length_app.
      * destruct (decide (is_generic bl = true)) as [Eg|Eg]; cbn [length] in Hmax;
          [left; lia | right; right; by apply not_true_is_false].
    + rewrite app_assoc in Hf. rewrite <- !length_app.
      specialize (IH Hnes _ _ STATE_IN_WRONG_DATA (gs ++
        if is_generic bl then [MkGen (d_code bl ++ [0]) (length pre + length (68 :: (d_code bl ++ d_rest bl) ++ [10]))]
        else []) out Hf).
      rewrite <- !length_app in IH. destruct (decide (bs = [])); apply IH; try (by right);
        rewrite length_app; destruct (is_generic bl); case_decide; cbn [length] in *; try done; lia.
Qed.
(** With no data asked for, every block is printed. *)
Lemma fwd_blocks_all bs : Forall wf_block bs -> sense_data = None -> forall pre post x gs out,
  file = pre ++ mjoin (block_file <$> bs) ++ post -> x = STATE_IN_CODE \/ x = STATE_IN_RIGHT_DATA ->
  fwd pre (mjoin (block_file <$> bs)) x gs out
    (if decide (bs = []) then x else STATE_IN_RIGHT_DATA) gs (out ++ mjoin ((fun b => shown (d_text b)) <$> bs)).
Proof.
  intros Hw Hd. induction Hw as [|bl bs Hb Hbs IH]; intros pre post x gs out Hf Hx;
    cbn [fmap list_fmap mjoin list_join] in *.
  - rewrite app_nil_r. apply fwd_nil.
  - rewrite <- app_assoc in Hf. rewrite decide_False by done. rewrite app_assoc.
    eapply (fwd_app _ _ _ _ _ _ STATE_IN_RIGHT_DATA gs).
    + eapply (fwd_block _ _ _ _ _ _ STATE_IN_RIGHT_DATA); [exact Hf|done|].
      intros b p -> buf. unfold sense_line. rewrite get_st_bind. cbn [state buffer]. subst buf.
      rewrite fill_head, of_opt_Some_bind. unfold data_line. rewrite Hd. by destruct Hx as [-> | ->].
    + rewrite app_assoc in Hf. cbn [prints].
      specialize (IH _ _ STATE_IN_RIGHT_DATA gs (out ++ shown (d_text bl)) Hf (or_intror eq_refl)).
      by destruct (decide (bs = [])).
Qed.

Lemma fwd_heading ls : Forall heading_ok ls -> forall pre post gs out,
  file = pre ++ heading_file ls ++ post ->
  fwd pre (heading_file ls) STATE_NOTHING gs out STATE_NOTHING gs out.
Proof.
  unfold heading_file. induction 1 as [|l ls [Hh Hl] Hls IH]; intros pre post gs out Hf;
    cbn [fmap list_fmap mjoin list_join] in *.
  - apply fwd_nil.
  - rewrite <- app_assoc in Hf. eapply (fwd_app _ _ _ _ _ _ STATE_NOTHING gs out).
    + destruct l as [|c l]; cbn [app].
      * intros b. exists (fill [10] b), 1%nat. split; [done|]. intros fuel. cbn [Nat.add show_sense_loop].
        rewrite get_st_bind. cbn [pos]. rewrite Hf, drop_app_length, length_app. done.
      * destruct Hl as (Hn & H0 & Hlen). eapply (fwd_line _ _ _ _ _ _ _ STATE_NOTHING gs out); [exact Hf|set_solver| |].
        { split_and!; [set_solver|by apply Forall_cons in H0 as []|cbn in Hlen; lia]. }
        intros b. eexists. by apply sense_line_nothing; intros ->.
    + rewrite app_assoc in Hf. by eapply IH.
Qed.

(** Codes other than the one looked for. *)
Lemma fwd_entries es : Forall wf_entry es -> Forall (fun e => c_code e <> sense_code) es ->
  length sense_code = 4%nat -> forall pre post gs out,
  file = pre ++ db_file es ++ post ->
  fwd pre (db_file es) STATE_NOTHING gs out STATE_NOTHING gs out.
Proof.
  intros Hw Hne Hlen. unfold db_file. induction Hw as [|e es (Hc & Ht & Hb & _) Hes IH]; intros pre post gs out Hf;
    cbn [fmap list_fmap mjoin list_join] in *; [apply fwd_nil|].
  apply Forall_cons in Hne as [Hne Hnes]. rewrite <- app_assoc in Hf.
  eapply (fwd_app _ _ _ _ _ _ STATE_NOTHING gs out).
  - rewrite entry_file_split, <- app_assoc in Hf. rewrite entry_file_split.
    eapply (fwd_app _ _ _ _ _ _ STATE_NOTHING gs out).
    + eapply (fwd_line _ _ _ _ _ _ _ STATE_NOTHING gs out); [exact Hf|done|apply Hc|].
      intros b. eexists. apply sense_line_nothing. intros _. by eexists _, _.
    + rewrite app_assoc, <- (app_assoc (text_file _)) in Hf.
      eapply (fwd_app _ _ _ _ _ _ STATE_NOTHING gs out).
      * rewrite <- (app_nil_r out) at 2. by eapply (fwd_text _ Ht _ _ STATE_NOTHING).
      * rewrite app_assoc in Hf. by eapply fwd_blocks_nothing.
  - rewrite app_assoc in Hf. by eapply (IH Hnes).
Qed.
(** ** Generic blocks *)

Lemma find_rest_spec {A} (P : A -> bool) l :
  match find_rest P l with
  | None => Forall (fun x => P x = false) l
  | Some (x, after) => exists before, l = before ++ x :: after /\ Forall (fun y => P y = false) before /\ P x = true
  end.
Proof.
  induction l as [|x l IH]; cbn; [done|]. destruct (P x) eqn:E; [by exists []|].
  destruct (find_rest P l) as [[y after]|]; [|by constructor].
  destruct IH as (before & -> & Hb & Hy). exists (x :: before). split_and!; [done|by constructor|done].
Qed.

(** Where the text of a block that comes after [before] starts. *)
Definition text_offset (p : nat) (before : list data_block) (b : data_block) : nat :=
  p + length (mjoin (block_file <$> before) ++ 68 :: (d_code b ++ d_rest b) ++ [10]).

Lemma match_gens d bs : length d = 4%nat -> Forall wf_block bs -> forall p,
  match find_rest (stands_for d) bs with
  | None => match_generic (d ++ [0]) (gens p bs) = Some None
  | Some (b, after) => exists before g, bs = before ++ b :: after /\
      match_generic (d ++ [0]) (gens p bs) = Some (Some g) /\ file_offset g = text_offset p before b
  end.
Proof.
  intros Hd. induction 1 as [|b bs [(H0 & Hc & _)%good_code_line _] Hbs IH]; intros p; [done|].
  specialize (IH (p + length (block_file b))%nat). cbn [gens find_rest].
  assert (compare_generic (d ++ [0]) (d_code b ++ [0]) = Some (bool_decide (agrees d (d_code b)))) as Hcmp.
  { unfold compare_generic. rewrite <- Hc. apply compare_from_agrees. lia. }
  unfold stands_for at 1. destruct (is_generic b); cbn [andb app match_generic data_code];
    [rewrite Hcmp; cbn [mbind option_bind]; case_bool_decide|].
  { by exists [], (MkGen (d_code b ++ [0]) (p + length (68 :: (d_code b ++ d_rest b) ++ [10]))). }
  all: destruct (find_rest (stands_for d) bs) as [[b' after]|]; [|done].
  all: destruct IH as (before & g & -> & E & Hg); exists (b :: before), g; split_and!; [done..|].
  all: rewrite Hg; unfold text_offset; change (mjoin (block_file <$> b :: before)) with (block_file b ++ mjoin (block_file <$> before)).
  all: rewrite !length_app; lia.
Qed.

Lemma ends_le k k' p x gs out text leaves : ends k p x gs out text leaves -> (k <= k')%nat -> ends k' p x gs out text leaves.
Proof. intros H Hk b fuel Hf. apply H. lia. Qed.

(** The line of the next code, when the data was not found. *)
Lemma ends_code_line pre l post gs out r k text leaves :
  file = pre ++ (67 :: l ++ [10]) ++ post -> good_line l ->
  match_generic (sense_block sense_data) gs = Some r ->
  match r with
  | None => sense_code <> str "0835" /\ text = no_details_msg /\ leaves = true
  | Some g => ends k (file_offset g) STATE_IN_RIGHT_DATA gs out text leaves
  end ->
  ends (S k) (length pre) STATE_IN_WRONG_DATA gs out text leaves.
Proof.
  intros Hf (Hn & _ & Hlen) Hg Hr b [|fuel] Hk; [lia|].
  rewrite (loop_line _ _ _ _ _ _ _ _ _ Hf); [|set_solver|done].
  unfold sense_line. rewrite M_bind_assoc, get_st_bind, M_bind_assoc. cbn [state buffer].
  rewrite fill_head, of_opt_Some_bind. cbn [decide]. do 1 rewrite decide_False by done. rewrite decide_True by done.
  unfold end_of_code. rewrite M_bind_assoc, get_st_bind, M_bind_assoc. cbn [generic_data].
  rewrite Hg, of_opt_Some_bind. destruct r as [g|].
  - apply Hr. lia.
  - destruct Hr as (Hne & -> & ->). rewrite decide_True by done. by eexists.
Qed.

Lemma db_file_head e rest :
  db_file (e :: rest) = (67 :: (c_code e ++ c_rest e) ++ [10]) ++
    text_file (c_text e) ++ mjoin (block_file <$> c_data e) ++ db_file rest.
Proof. unfold db_file. cbn [fmap list_fmap mjoin list_join]. by rewrite entry_file_split, <- !app_assoc. Qed.

Lemma db_file_app es1 es2 : db_file (es1 ++ es2) = db_file es1 ++ db_file es2.
Proof. unfold db_file. by rewrite fmap_app, join_app. Qed.

Lemma blocks_file_head b bs : mjoin (block_file <$> b :: bs) =
  (68 :: (d_code b ++ d_rest b) ++ [10]) ++ text_file (d_text b) ++ mjoin (block_file <$> bs).
Proof. cbn [fmap list_fmap mjoin list_join]. by rewrite block_file_split, <- !app_assoc. Qed.

Definition end_text (leaves : bool) : list Z := if leaves then [] else not_found_msg.

Lemma ends_entry pre rest x gs out :
  file = pre ++ db_file rest -> Forall wf_entry rest -> x = STATE_IN_CODE \/ x = STATE_IN_RIGHT_DATA ->
  let leaves := negb (bool_decide (rest = [])) in ends 1 (length pre) x gs out (end_text leaves) leaves.
Proof.
  intros Hf Hw Hx. destruct rest as [|e rest]; cbn [negb bool_decide end_text].
  - cbn in Hf. rewrite app_nil_r in Hf. subst pre. rewrite bool_decide_true by done. apply ends_file.
  - rewrite bool_decide_false by done. rewrite db_file_head in Hf. apply Forall_cons in Hw as [[[_ Hc] _] _].
    eapply ends_line; [exact Hf|done|done|]. destruct Hx as [-> | ->]; [done|by left].
Qed.

Lemma ends_block pre after rest gs out :
  file = pre ++ mjoin (block_file <$> after) ++ db_file rest -> is_Some sense_data ->
  Forall wf_block after -> Forall wf_entry rest ->
  let leaves := negb (bool_decide (after = [])) || negb (bool_decide (rest = [])) in
  ends 1 (length pre) STATE_IN_RIGHT_DATA gs out (end_text leaves) leaves.
Proof.
  intros Hf Hd Ha Hw. destruct after as [|b after].
  - apply ends_entry; [done|done|by right].
  - rewrite bool_decide_false by done. cbn [negb orb end_text]. rewrite blocks_file_head, <- app_assoc in Hf.
    apply Forall_cons in Ha as [[[_ Hc] _] _]. eapply ends_line; [exact Hf|done|done|]. by right.
Qed.
Section Data.
Context (d : list Z) (Hd : sense_data = Some d) (Hlen : length d = 4%nat).

(** From the first of some blocks, when one has the data. *)
Lemma ends_exact x gs before b after pre rest out :
  file = pre ++ mjoin (block_file <$> before ++ b :: after) ++ db_file rest -> looking x ->
  Forall wf_block (before ++ b :: after) -> Forall wf_entry rest ->
  (length gs + length (filter (fun b => is_generic b = true) (before ++ b :: after)) <= MAXDATA)%nat ->
  Forall (fun y => d_code y <> d) before -> d_code b = d ->
  let leaves := negb (bool_decide (after = [])) || negb (bool_decide (rest = [])) in
  ends (length file + 1) (length pre) x gs out (shown (d_text b) ++ end_text leaves) leaves.
Proof.
  intros Hf Hx [Hbb [Hbl Hba]%Forall_cons]%Forall_app Hr Hmax Hbef Hc leaves.
  rewrite fmap_app, join_app in Hf. cbn [fmap list_fmap mjoin list_join] in Hf. rewrite <- app_assoc in Hf.
  rewrite filter_app, length_app in Hmax.
  eapply ends_le; [eapply (fwd_ends _ _ _ _ _ _ _ _ _ []); [eapply (fwd_blocks_wrong d before Hbb Hbef Hd Hlen)| |]|].
  1: exact Hf. 1: done. 1: lia. 1: by rewrite app_nil_r.
  1: rewrite app_assoc, <- (app_assoc (block_file b)) in Hf; eapply fwd_ends.
  - eapply (fwd_block _ _ _ _ _ _ STATE_IN_RIGHT_DATA); [exact Hf|done|].
    intros b0 p -> buf. destruct Hbl as [Hw _]. unfold buf.
    erewrite (sense_line_data _ _ _ d); [by rewrite decide_True|case_decide; [done|by right]|done..|by right; left].
  - done.
  - rewrite app_assoc in Hf. by eapply ends_block; [exact Hf| |..].
  - pose proof (f_equal length Hf) as Hl. rewrite !length_app in Hl. lia.
Qed.

(** Blocks with the places of their texts, and the entries of [generic_data] they make. *)
Fixpoint placed (p : nat) (bs : list data_block) : list (data_block * nat) :=
  match bs with
  | [] => []
  | b :: bs => (b, Nat.add p (length (68 :: (d_code b ++ d_rest b) ++ [10]))) :: placed (p + length (block_file b)) bs
  end.
Fixpoint gens_at (acc : list (data_block * nat)) : list gen_info :=
  match acc with
  | [] => []
  | (b, p) :: acc => (if is_generic b then [MkGen (d_code b ++ [0]) p] else []) ++ gens_at acc
  end.

Lemma gens_placed p bs : gens p bs = gens_at (placed p bs).
Proof. revert p. induction bs as [|b bs IH]; intros p; [done|]. cbn. by rewrite IH. Qed.

Lemma gens_at_app acc1 acc2 : gens_at (acc1 ++ acc2) = gens_at acc1 ++ gens_at acc2.
Proof. induction acc1 as [|[b p] acc1 IH]; [done|]. cbn. by rewrite IH, app_assoc. Qed.

Lemma placed_blocks p bs : (placed p bs).*1 = bs.
Proof. revert p. induction bs as [|b bs IH]; intros p; [done|]. cbn. by rewrite IH. Qed.

Lemma length_gens_at acc : length (gens_at acc) = length (filter (fun b => is_generic b = true) acc.*1).
Proof.
  induction acc as [|[b p] acc IH]; [done|]. cbn [gens_at fmap list_fmap fst]. rewrite length_app, IH, filter_cons.
  destruct (is_generic b); by case_decide.
Qed.

(** From its place the text of a block is printed, and something behind it ends the
    program. *)
Definition printable (bp : data_block * nat) : Prop :=
  wf_block bp.1 /\ forall gs out, ends (length file + 1) bp.2 STATE_IN_RIGHT_DATA gs out (shown (d_text bp.1)) true.

Lemma placed_printable bs e rest : Forall wf_block bs -> Forall wf_entry (e :: rest) -> forall pre,
  file = pre ++ mjoin (block_file <$> bs) ++ db_file (e :: rest) -> Forall printable (placed (length pre) bs).
Proof.
  intros Hb Hr. induction Hb as [|b bs Hw Hbs IH]; intros pre Hf; [constructor|]. cbn [placed fmap list_fmap mjoin list_join] in *.
  pose proof (f_equal length Hf) as Hl. rewrite !length_app in Hl. rewrite <- app_assoc in Hf. constructor.
  - split; [done|]. intros gs out. cbn [fst snd]. destruct Hw as [Hc Ht]. rewrite block_file_split in Hf, Hl. rewrite length_app in Hl. rewrite <- app_assoc in Hf.
    rewrite <- length_app. rewrite <- (app_nil_r (shown (d_text b))). rewrite app_assoc in Hf.
    eapply ends_le; [eapply fwd_ends; [by eapply (fwd_text _ Ht _ _ STATE_IN_RIGHT_DATA)|done|]|].
    + rewrite app_assoc in Hf.
      pose proof (ends_block _ bs (e :: rest) gs (out ++ shown (d_text b)) Hf ltac:(by rewrite Hd) Hbs Hr) as He.
      cbn zeta in He. rewrite (bool_decide_false (e :: rest = [])), orb_true_r in He by done. exact He.
    + lia.
  - rewrite <- length_app. apply IH. by rewrite app_assoc in Hf.
Qed.

Lemma match_gens_at acc : Forall printable acc ->
  match find_rest (stands_for d) acc.*1 with
  | None => match_generic (d ++ [0]) (gens_at acc) = Some None
  | Some (b, _) => exists g, match_generic (d ++ [0]) (gens_at acc) = Some (Some g) /\
      forall gs out, ends (length file + 1) (file_offset g) STATE_IN_RIGHT_DATA gs out (shown (d_text b)) true
  end.
Proof.
  induction 1 as [|[b p] acc [[(H0 & Hc & _)%good_code_line _] Hp] Hacc IH]; [done|]. cbn [gens_at fmap list_fmap fst snd find_rest] in *.
  assert (compare_generic (d ++ [0]) (d_code b ++ [0]) = Some (bool_decide (agrees d (d_code b)))) as Hcmp.
  { unfold compare_generic. rewrite <- Hc. apply compare_from_agrees. lia. }
  unfold stands_for at 1. destruct (is_generic b); cbn [andb app match_generic data_code]; [|done].
  rewrite Hcmp. cbn [mbind option_bind]. case_bool_decide; [by eexists|done].
Qed.

(** The line of another code, for the code 0835 when nothing was found. *)
Lemma fwd_code_line pre c rest post gs out :
  file = pre ++ (67 :: (c ++ rest) ++ [10]) ++ post -> wf_code c rest -> sense_code = str "0835" ->
  match_generic (d ++ [0]) gs = Some None ->
  fwd pre (67 :: (c ++ rest) ++ [10]) STATE_IN_WRONG_DATA gs out STATE_IN_WRONG_DATA gs out.
Proof.
  intros Hf Hw Hc Hg. eapply (fwd_line _ _ _ _ _ _ _ STATE_IN_WRONG_DATA gs out); [exact Hf|done|apply Hw|]. intros b. eexists.
  unfold sense_line. rewrite get_st_bind. cbn [state buffer]. rewrite fill_head, of_opt_Some_bind.
  rewrite decide_False, decide_True by done. unfold end_of_code. rewrite get_st_bind. cbn [generic_data].
  unfold sense_block. rewrite Hd, Hg, of_opt_Some_bind. rewrite decide_False; [done|]. intros Hx. by apply Hx.
Qed.

(** The search for data of the code 0835. *)
Lemma ends_onward es : Forall wf_entry es -> sense_code = str "0835" -> forall e pre acc x out,
  file = pre ++ mjoin (block_file <$> c_data e) ++ db_file es -> wf_entry e ->
  x = STATE_IN_WRONG_DATA \/ x = STATE_IN_CODE /\ c_data e <> [] -> Forall printable acc ->
  (length (filter (fun b => is_generic b = true) (acc.*1 ++ mjoin (c_data <$> e :: es))) <= MAXDATA)%nat ->
  let '(text, leaves) := lookup_onward acc.*1 (e :: es) d in
  ends (length (mjoin (block_file <$> c_data e) ++ db_file es) + length file + 2) (length pre) x (gens_at acc) out (text ++ end_text leaves) leaves.
Proof.
  intros Hes Hcode. assert (forall bs, Forall (fun y => bool_decide (d_code y = d) = false) bs -> Forall (fun y => d_code y <> d) bs) as Hbool.
  { intros bs H. eapply Forall_impl; [exact H|]. intros y Hy. by apply bool_decide_eq_false in Hy. }
  induction Hes as [|e' es He' Hes IH]; intros e pre acc x out Hf (Hcc & Htt & Hb & Hmx) Hx Hacc Hmax;
    rewrite filter_app, length_app, <- length_gens_at in Hmax; cbn [fmap list_fmap mjoin list_join] in Hmax; rewrite filter_app, length_app in Hmax; cbn [lookup_onward].
  all: assert (looking x) as Hlk by (destruct Hx as [->|[-> _]]; [by right|by left]).
  all: pose proof (find_rest_spec (fun b => bool_decide (d_code b = d)) (c_data e)) as Hspec; destruct (find_rest _ (c_data e)) as [[b after]|];
    [destruct Hspec as (before & E & Hbef%Hbool & Hc%bool_decide_eq_true); rewrite E in Hf, Hb, Hmax|
     pose proof (fwd_blocks_wrong d _ Hb (Hbool _ Hspec) Hd Hlen pre _ x (gens_at acc) out Hf Hlk ltac:(lia)) as Hfwd].
  - eapply ends_le; [apply (ends_exact x (gens_at acc) before b after pre [] out Hf Hlk Hb); [constructor|lia|done|done]|lia].
  - rewrite decide_True by done. cbn [db_file fmap list_fmap mjoin list_join] in Hf. rewrite app_nil_r in Hf.
    eapply ends_le; [eapply (fwd_ends _ _ _ _ _ _ _ _ 1 []); [exact Hfwd|by rewrite app_nil_r|]|rewrite length_app; lia].
    rewrite <- Hf. apply ends_file.
  - eapply ends_le; [apply (ends_exact x (gens_at acc) before b after pre (e' :: es) out Hf Hlk Hb); [by constructor|lia|done|done]|lia].
  - rewrite decide_False by done. pose proof Hf as Hf2. rewrite app_assoc, db_file_head in Hf2.
    set (acc' := acc ++ placed (length pre) (c_data e)).
    assert (gens_at acc ++ gens (length pre) (c_data e) = gens_at acc') as Hgs by (by rewrite gens_placed, <- gens_at_app).
    assert (acc.*1 ++ c_data e = acc'.*1) as Hfst by (unfold acc'; by rewrite fmap_app, placed_blocks).
    assert (Forall printable acc') as Hacc' by (apply Forall_app; split; [done|]; eapply placed_printable; [done|by constructor|exact Hf]).
    assert ((if decide (c_data e = []) then x else STATE_IN_WRONG_DATA) = STATE_IN_WRONG_DATA) as Hst by (case_decide; [|done]; by destruct Hx as [->|[_ ?]]).
    rewrite Hst, Hgs in Hfwd. rewrite Hfst. pose proof (match_gens_at acc' Hacc') as Hm.
    assert (good_line (c_code e' ++ c_rest e')) as Hl by (destruct He' as ([_ ?] & _); done).
    destruct (find_rest (stands_for d) acc'.*1) as [[b after]|] eqn:Efind.
    + destruct Hm as (g & Hg & Hend). cbn [end_text]. rewrite app_nil_r.
      eapply ends_le; [eapply (fwd_ends _ _ _ _ _ _ _ _ _ []); [exact Hfwd|by rewrite app_nil_r|]|].
      * eapply ends_code_line; [exact Hf2|done|unfold sense_block; rewrite Hd; exact Hg|]. cbn beta iota. apply Hend.
      * rewrite length_app. lia.
    + pose proof He' as (Hw' & Ht' & Hb' & _).
      pose proof (fwd_code_line _ _ _ _ (gens_at acc') out Hf2 Hw' Hcode Hm) as H2. rewrite app_assoc in Hf2.
      pose proof (fwd_text (c_text e') Ht' _ _ STATE_IN_WRONG_DATA (gens_at acc') out Hf2) as H3. cbn [prints] in H3. rewrite app_nil_r in H3.
      rewrite app_assoc in Hf2. specialize (IH e' _ acc' STATE_IN_WRONG_DATA out Hf2 He' (or_introl eq_refl) Hacc').
      lazymatch goal with |- let '(_, _) := ?m in _ => change m with (lookup_onward acc'.*1 (e' :: es) d) end.
      destruct (lookup_onward acc'.*1 (e' :: es) d) as [text leaves].
      eapply ends_le; [eapply (fwd_ends _ _ _ _ _ _ _ _ _ []);
        [eapply fwd_app; [eapply fwd_app; [exact Hfwd|exact H2]|]|by rewrite app_nil_r|]|].
      * by rewrite <- (app_assoc pre) in H3.
      * rewrite (app_assoc pre), (app_assoc pre). apply IH.
        rewrite filter_app, length_app, <- Hfst, filter_app, length_app, <- length_gens_at. cbn [fmap list_fmap mjoin list_join] in *. rewrite Nat.add_assoc in Hmax. exact Hmax.
      * rewrite db_file_head, !length_app. lia.
Qed.

(** At the next code, when no block had the data: the text of the first generic
    block that stands for it, reached by going back, or the message. *)
Lemma ends_generic bs pre pre2 e rest gs out :
  file = pre ++ mjoin (block_file <$> bs) ++ db_file (e :: rest) -> pre2 = pre ++ mjoin (block_file <$> bs) ->
  Forall wf_block bs -> Forall wf_entry (e :: rest) -> sense_code <> str "0835" ->
  gs = gens (length pre) bs ->
  ends (length file + 2) (length pre2) STATE_IN_WRONG_DATA gs out
    (match find_rest (stands_for d) bs with Some (b, _) => shown (d_text b) | None => no_details_msg end) true.
Proof.
  intros Hf -> Hb Hr Hne ->. pose proof (match_gens d bs Hlen Hb (length pre)) as Hg.
  pose proof Hf as Hf2. rewrite app_assoc, db_file_head in Hf2.
  assert (good_line (c_code e ++ c_rest e)) as Hl by (by apply Forall_cons in Hr as [[[_ ?] _] _]).
  assert (sense_block sense_data = d ++ [0]) as Hsb by (by unfold sense_block; rewrite Hd).
  destruct (find_rest (stands_for d) bs) as [[b after]|].
  - destruct Hg as (before & g & -> & E & Hoff).
    eapply (ends_le (S (length (text_file (d_text b)) + 1)));
      [eapply ends_code_line; [exact Hf2|done|by rewrite Hsb|]; cbn beta iota|].
    + rewrite fmap_app, join_app in Hf. cbn [fmap list_fmap mjoin list_join] in Hf.
      rewrite block_file_split, <- !(app_assoc _ _ (db_file (e :: rest))) in Hf.
      rewrite <- (app_assoc (68 :: _)), !app_assoc in Hf. rewrite <- !(app_assoc _ _ (db_file _)) in Hf.
      apply Forall_app in Hb as [_ [[_ Ht] Hba]%Forall_cons].
      rewrite Hoff. unfold text_offset. rewrite <- length_app, app_assoc.
      rewrite <- (app_nil_r (shown (d_text b))). rewrite <- (app_assoc _ _ (mjoin _ ++ _)) in Hf.
      eapply fwd_ends; [by eapply (fwd_text _ Ht _ _ STATE_IN_RIGHT_DATA)|done|].
      rewrite app_assoc in Hf. pose proof (ends_block _ after (e :: rest) (gens (length pre) (before ++ b :: after))
        (out ++ shown (d_text b)) Hf ltac:(by rewrite Hd) Hba Hr) as He.
      cbn zeta in He. rewrite (bool_decide_false (e :: rest = [])), orb_true_r in He by done. exact He.
    + pose proof (f_equal length Hf) as Hl2. rewrite fmap_app, join_app in Hl2.
      cbn [fmap list_fmap mjoin list_join] in Hl2. rewrite block_file_split, !length_app in Hl2. lia.
  - eapply (ends_le 1); [|lia]. by eapply ends_code_line; [exact Hf2|done|rewrite Hsb; exact Hg|].
Qed.
(** The blocks of the code looked for. *)
Lemma ends_blocks_data e pre rest out :
  file = pre ++ mjoin (block_file <$> c_data e) ++ db_file rest -> wf_entry e -> Forall wf_entry rest ->
  (c_data e <> [] -> sense_code <> str "0835") ->
  let '(text, leaves) := lookup_data e (bool_decide (rest = [])) d in
  ends (length (mjoin (block_file <$> c_data e)) + length file + 2) (length pre) STATE_IN_CODE [] out
    (text ++ end_text leaves) leaves.
Proof.
  intros Hf (_ & _ & Hb & Hmax) Hr Hne. unfold lookup_data.
  assert (forall bs, Forall (fun y => bool_decide (d_code y = d) = false) bs -> Forall (fun y => d_code y <> d) bs) as Hbool.
  { intros bs H. eapply Forall_impl; [exact H|]. intros y Hy. by apply bool_decide_eq_false in Hy. }
  pose proof (find_rest_spec (fun b => bool_decide (d_code b = d)) (c_data e)) as Hspec.
  destruct (find_rest _ (c_data e)) as [[b after]|].
  - destruct Hspec as (before & E & Hbef%Hbool & Hc%bool_decide_eq_true). rewrite E in Hf, Hb, Hmax.
    eapply ends_le; [by eapply (ends_exact STATE_IN_CODE []); [exact Hf|by left|..]|lia].
  - pose proof (fwd_blocks_wrong d _ Hb (Hbool _ Hspec) Hd Hlen pre _ STATE_IN_CODE [] out Hf (or_introl eq_refl) Hmax) as Hfwd.
    pose proof Hf as Hf2. rewrite app_assoc in Hf2.
    destruct rest as [|e' rest]; [rewrite bool_decide_true by done|rewrite bool_decide_false by done].
    { cbn in Hf2. rewrite app_nil_r in Hf2.
      eapply ends_le; [eapply (fwd_ends _ _ _ _ _ _ _ _ 1 []); [exact Hfwd|by rewrite app_nil_r|]|lia].
      rewrite <- Hf2. apply ends_file. }
    destruct (decide (c_data e = [])) as [Hnil|Hcons].
    { rewrite Hnil in Hf2 |- *.
      eapply ends_le; [eapply (fwd_ends _ _ _ _ _ _ _ _ 1 []); [exact Hfwd|by rewrite app_nil_r|]|rewrite Hnil; lia].
      rewrite Hnil. by apply (ends_entry _ _ _ _ _ Hf2 Hr (or_introl eq_refl)). }
    pose proof (fun o => ends_generic (c_data e) pre _ e' rest _ o Hf eq_refl Hb Hr (Hne Hcons) eq_refl) as Hg.
    replace (match c_data e with [] => _ | _ => _ end) with
      (match find_rest (stands_for d) (c_data e) with Some (b, _) => shown (d_text b) | None => no_details_msg end, true)
      by (destruct (c_data e); [done|]; by destruct (find_rest _ _) as [[? ?]|]).
    cbn [end_text]. rewrite app_nil_r.
    eapply ends_le; [eapply (fwd_ends _ _ _ _ _ _ _ _ _ []); [exact Hfwd|by rewrite app_nil_r|]|].
    + apply Hg.
    + lia.
Qed.
End Data.

(** The code that was found, after its own text. *)
Lemma ends_found e pre rest out :
  file = pre ++ mjoin (block_file <$> c_data e) ++ db_file rest -> wf_entry e -> Forall wf_entry rest ->
  (forall d, sense_data = Some d -> length d = 4%nat) ->
  (sense_code = str "0835" -> (length (filter (fun b => is_generic b = true) (mjoin (c_data <$> e :: rest))) <= MAXDATA)%nat) ->
  let '(text, leaves) := match sense_data with
    | None => (mjoin ((fun b => shown (d_text b)) <$> c_data e), negb (bool_decide (rest = [])))
    | Some d => if decide (sense_code = str "0835" /\ c_data e <> []) then lookup_onward [] (e :: rest) d
                else lookup_data e (bool_decide (rest = [])) d
    end in
  ends (length (mjoin (block_file <$> c_data e) ++ db_file rest) + length file + 2) (length pre) STATE_IN_CODE [] out
    (text ++ end_text leaves) leaves.
Proof.
  intros Hf He Hr Hd Hroom. rewrite length_app. destruct sense_data as [d|] eqn:Ed.
  - specialize (Hd d eq_refl). destruct (decide (sense_code = str "0835" /\ c_data e <> [])) as [[Hcode Hcons]|Hn].
    + rewrite <- length_app. apply (ends_onward d Ed Hd rest Hr Hcode e pre [] STATE_IN_CODE out Hf He); [by right|constructor|by apply Hroom].
    + pose proof (ends_blocks_data d Ed Hd e pre rest out Hf He Hr) as H.
      destruct (lookup_data e (bool_decide (rest = [])) d) as [text leaves].
      eapply ends_le; [apply H|lia]. intros Hc Hs. by apply Hn.
  - pose proof He as (_ & _ & Hb & _).
    pose proof (fwd_blocks_all _ Hb Ed pre _ STATE_IN_CODE [] out Hf (or_introl eq_refl)) as Hfwd.
    rewrite app_assoc in Hf. eapply ends_le; [eapply (fwd_ends _ _ _ _ _ _ _ _ 1); [exact Hfwd|done|]|lia].
    apply ends_entry; [done..|]. case_decide; [by left|by right].
Qed.

(** From the start of the file. *)
Lemma ends_lookup heading db out :
  file = heading_file heading ++ db_file db -> Forall heading_ok heading -> Forall wf_entry db ->
  length sense_code = 4%nat -> (forall d, sense_data = Some d -> length d = 4%nat) -> (sense_code = str "0835" -> room_onward db) ->
  let '(text, leaves) := lookup db sense_code sense_data in
  ends (2 * length file + 2) 0 STATE_NOTHING [] out (text ++ end_text leaves) leaves.
Proof.
  intros Hf Hh Hdb Hlen Hd Hroom. unfold lookup.
  pose proof (fwd_heading heading Hh [] (db_file db) [] out Hf) as H1.
  pose proof (find_rest_spec (fun e => bool_decide (c_code e = sense_code)) db) as Hspec.
  assert (forall es, Forall (fun y => bool_decide (c_code y = sense_code) = false) es ->
    Forall (fun y => c_code y <> sense_code) es) as Hbool.
  { intros es H. eapply Forall_impl; [exact H|]. intros y Hy. by apply bool_decide_eq_false in Hy. }
  assert (sense_code = str "0835" -> match find_rest (fun e => bool_decide (c_code e = sense_code)) db with
    | Some (e, after) => (length (filter (fun b => is_generic b = true) (mjoin (c_data <$> e :: after))) <= MAXDATA)%nat
    | None => True end) as Hroom' by (intros Hx; specialize (Hroom Hx); unfold room_onward in Hroom; by rewrite Hx).
  clear Hroom. destruct (find_rest _ db) as [[e rest]|].
  2:{ pose proof (fwd_entries db Hdb (Hbool _ Hspec) Hlen (heading_file heading) [] [] out
        ltac:(by rewrite app_nil_r)) as H2.
      eapply ends_le; [eapply (fwd_ends [] _ _ _ _ _ _ _ 1 []); [eapply fwd_app; [exact H1|exact H2]|by rewrite app_nil_r|]|].
      - cbn [app]. rewrite <- Hf. apply ends_file.
      - rewrite Hf. lia. }
  destruct Hspec as (before & -> & Hbef%Hbool & Hc%bool_decide_eq_true).
  apply Forall_app in Hdb as [Hbw [He Hr]%Forall_cons]. pose proof He as (Hw & Ht & Hb & _).
  rewrite db_file_app, db_file_head in Hf.
  rewrite Hc in Hf, Hw.
  set (line := 67 :: (sense_code ++ c_rest e) ++ [10]) in *.
  pose proof (fwd_entries before Hbw Hbef Hlen (heading_file heading) _ [] out Hf) as H2.
  rewrite app_assoc in Hf.
  assert (fwd (heading_file heading ++ db_file before) line STATE_NOTHING [] out STATE_IN_CODE [] out) as H3.
  { eapply fwd_line; [exact Hf|done|apply Hw|]. intros b. eexists. by apply sense_line_code. }
  rewrite app_assoc in Hf.
  pose proof (fwd_text (c_text e) Ht _ _ STATE_IN_CODE [] out Hf) as H4. rewrite app_assoc in Hf.
  pose proof (fwd_app _ _ _ _ _ _ _ _ _ _ _ _ (fwd_app _ _ _ _ _ _ _ _ _ _ _ _ (fwd_app _ _ _ _ _ _ _ _ _ _ _ _ H1 H2) H3) H4) as H.
  pose proof (ends_found e _ rest (out ++ shown (c_text e)) Hf He Hr Hd Hroom') as Hend.
  destruct (match sense_data with Some _ => _ | None => _ end) as [text leaves]. rewrite <- app_assoc.
  eapply ends_le; [eapply (fwd_ends [] _ _ _ _ _ _ _ _ _ _ _ H eq_refl Hend)|].
  apply (f_equal length) in Hf. rewrite !length_app in Hf. rewrite !length_app.
  lia.
Qed.
End Steps.

(** ** Termination *)

Lemma print_line_pos s :
  match print_line s with
  | Ret _ s' => state s' = state s /\ pos s' = pos s | Undef _ => True | _ => False end.
Proof.
  unfold print_line. rewrite get_st_bind. by destruct (mem_string (drop 1 (buffer s))).
Qed.

Lemma check_for_generic_msg_pos s :
  match check_for_generic_msg s with
  | Ret _ s' => state s' = state s /\ pos s' = pos s | Undef _ => True | _ => False end.
Proof.
  unfold check_for_generic_msg. rewrite get_st_bind.
  destruct (generic_scan _) as [[]|]; [|done|done]. rewrite of_opt_Some_bind. case_decide; [|done].
  by destruct (strncpy _ _).
Qed.

Lemma data_line_pos sense_data s :
  match data_line sense_data s with
  | Ret _ s' => pos s' = pos s | Undef _ => True | _ => False end.
Proof.
  unfold data_line. destruct sense_data as [d|]; [|done]. rewrite get_st_bind.
  destruct (strncmp_eq _ _ _) as [[]|]; [done| |done]. rewrite of_opt_Some_bind.
  rewrite (M_bind_Ret _ _ _ tt (MkSense (pos s) (buffer s) STATE_IN_WRONG_DATA (generic_data s) (printed s))) by done.
  pose proof (check_for_generic_msg_pos (MkSense (pos s) (buffer s) STATE_IN_WRONG_DATA (generic_data s) (printed s))) as H.
  by destruct (check_for_generic_msg _) as [| | | |]; try done; destruct H.
Qed.

(** A line keeps the position, or goes back and then only prints. *)
Lemma sense_line_pos sense_code sense_data s :
  match sense_line sense_code sense_data s with
  | Ret _ s' => (state s' = STATE_IN_RIGHT_DATA \/ pos s' = pos s) /\
                (state s = STATE_IN_RIGHT_DATA -> state s' = STATE_IN_RIGHT_DATA /\ pos s' = pos s)
  | Exit c _ => c = 0
  | Undef _ => True
  | _ => False
  end.
Proof.
  pose proof (print_line_pos s) as Hp. pose proof (data_line_pos sense_data s) as Hd.
  unfold sense_line. rewrite get_st_bind. destruct (mjoin _) as [c|]; [|done]. rewrite of_opt_Some_bind.
  destruct (state s) eqn:Ex.
  - case_decide; [|split; [by right|done]]. destruct (strncmp_eq _ _ _) as [[]|]; try done; (split; [by right|done]).
  - case_decide; [destruct (print_line s); naive_solver|]. case_decide; [done|].
    case_decide; [destruct (data_line _ s); naive_solver|split; [by right|done]].
  - case_decide; [split; [by right|done]|]. case_decide.
    + unfold end_of_code. rewrite get_st_bind. destruct (match_generic _ _) as [[g|]|]; [|..|done].
      * split; [by left|done].
      * rewrite of_opt_Some_bind. case_decide; [done|split; [by right|done]].
    + case_decide; [destruct (data_line _ s); naive_solver|split; [by right|done]].
  - case_decide; [destruct (print_line s); naive_solver|]. case_decide; [done|].
    case_decide; [destruct sense_data; [done|]|]; by cbn; auto.
Qed.

Lemma show_sense_loop_ends file sense_code sense_data fuel s :
  (length file - pos s < fuel)%nat ->
  (state s <> STATE_IN_RIGHT_DATA -> length file - pos s + length file + 1 < fuel)%nat ->
  match show_sense_loop file sense_code sense_data fuel s with
  | Ret r _ => r = 0
  | Exit c _ => c = 0
  | Undef _ => True
  | _ => False
  end.
Proof.
  revert s. induction fuel as [|fuel IH]; intros s Hf1 Hf2; [lia|]. cbn [show_sense_loop]. rewrite get_st_bind.
  pose proof (length_drop file (pos s)) as Hdrop.
  destruct (drop (pos s) file) as [|c f] eqn:E; [done|]. rewrite put_st_bind.
  pose proof (fgets_progress (BUFFER_SIZE - 1) c f ltac:(unfold BUFFER_SIZE; lia)) as Hp.
  destruct (fgets (BUFFER_SIZE - 1) (c :: f)) as [line f']. cbn [fst] in *.
  set (s1 := MkSense _ _ _ _ _). pose proof (sense_line_pos sense_code sense_data s1) as Hs.
  unfold mbind at 1, M_bind at 1. destruct (sense_line sense_code sense_data s1) as [[] s'| | | |]; try done.
  destruct Hs as [H1 H2]. cbn in H1, H2, Hdrop. apply IH.
  - destruct (decide (state s = STATE_IN_RIGHT_DATA)) as [Er|Er]; [destruct (H2 Er); lia|]. specialize (Hf2 Er).
    destruct H1; lia.
  - intros Hne. destruct H1 as [H1|H1]; [done|]. destruct (decide (state s = STATE_IN_RIGHT_DATA)) as [Er|Er]; [naive_solver|].
    specialize (Hf2 Er). lia.
Qed.

(** ** Properties *)

(** C11: the sense text is found.  On a file of well-formed codes behind any
    heading, the program prints exactly what [lookup] finds for the code and
    data: the code's own text, then the text of the data's block, or of the
    first generic block that stands for it (which it goes back to), or the
    message.  It leaves by [exit], or returns 0 having printed that the code was
    not found, which it also does when the code is the last of the file.  For the
    code 0835, which the program treats apart, [lookup] goes on into the blocks of
    the codes behind it, whose generic blocks must then fit the array of three
    entries too. *)
Theorem show_sense_lookup heading db code data s :
  Forall heading_ok heading -> Forall wf_entry db -> length code = 4%nat ->
  (forall d, data = Some d -> length d = 4%nat) -> (code = str "0835" -> room_onward db) ->
  exists s', show_sense (heading_file heading ++ db_file db) code data s =
      (if (lookup db code data).2 then Exit 0 s' else Ret 0 s') /\
    printed s' = printed s ++ (lookup db code data).1 ++ end_text (lookup db code data).2.
Proof.
  intros Hh Hdb Hc Hd Hroom. unfold show_sense. rewrite get_st_bind, put_st_bind.
  pose proof (ends_lookup _ code data heading db (printed s) eq_refl Hh Hdb Hc Hd Hroom) as H.
  destruct (lookup db code data) as [text leaves]. apply (H (replicate BUFFER_SIZE None)). unfold show_fuel. lia.
Qed.

(** The search ends on any file whatever: it returns 0 or leaves with 0,
    or meets undefined behaviour, although it goes back in the file. *)
Theorem show_sense_ends file code data s :
  match show_sense file code data s with
  | Ret r _ => r = 0
  | Exit c _ => c = 0
  | Undef _ => True
  | _ => False
  end.
Proof.
  unfold show_sense. rewrite get_st_bind, put_st_bind. apply show_sense_loop_ends; unfold show_fuel; cbn; lia.
Qed.

(** An eight digit code on its own is what the program is for; it is copied from
    an argument that does not exist. *)
Lemma main_eight_digits_undefined version_s fopen arg s :
  length arg = 8%nat -> main version_s fopen [] [arg] s = Undef s.
Proof. intros H. unfold main. cbn [run_options]. rewrite M_ret_bind. by rewrite !decide_True by lia. Qed.

(** ** A concrete file *)

Definition demo_db : list code_entry := [
  MkEntry (str "0801") [13] [str "Resource Not Available"]
    [MkBlock (str "0000") [] [str "No specific code applies."]; MkBlock (str "01xx") [] [str "Generic."];
     MkBlock (str "0200") [] [str "Other."]];
  MkEntry (str "0000") [] [] []].

(** The code 0835 with one block, and a code behind it with another. *)
Definition demo_onward : list code_entry := [
  MkEntry (str "0835") [] [str "Invalid Parameter"] [MkBlock (str "0001") [] [str "Offset."]];
  MkEntry (str "0836") [] [str "Other"] [MkBlock (str "00nn") [] [str "Of another code."]];
  MkEntry (str "0900") [] [] []].

Lemma show_sense_lookup_witness :
  (exists s', show_sense (heading_file [str "SENSE DATA"] ++ db_file demo_db) (str "0801") (Some (str "0142"))
      (sense_init []) = Exit 0 s' /\
    printed s' = str "Resource Not Available" ++ [10] ++ str "Generic." ++ [10]) /\
  (exists s', show_sense (heading_file [str "SENSE DATA"] ++ db_file demo_onward) (str "0835") (Some (str "0042"))
      (sense_init []) = Exit 0 s' /\
    printed s' = str "Invalid Parameter" ++ [10] ++ str "Of another code." ++ [10]).
Proof.
  assert (Forall heading_ok [str "SENSE DATA"]) as Hh.
  { repeat constructor; [done|by apply (bool_decide_unpack _); vm_compute..]. }
  split.
  - apply (show_sense_lookup [str "SENSE DATA"] demo_db (str "0801") (Some (str "0142")) (sense_init []) Hh);
      [apply (bool_decide_unpack _); vm_compute; exact I|reflexivity|by intros d [= <-]|discriminate].
  - apply (show_sense_lookup [str "SENSE DATA"] demo_onward (str "0835") (Some (str "0042")) (sense_init []) Hh);
      [apply (bool_decide_unpack _); vm_compute; exact I|reflexivity|by intros d [= <-]|intros _; vm_compute; lia].
Defined.

(** Data of the code 0835 that nothing stands for takes in the generic blocks of the
    codes behind it, and the fourth is stored behind the array. *)
Definition demo_overflow : list code_entry := [
  MkEntry (str "0835") [] [] [MkBlock (str "0001") [] []];
  MkEntry (str "0836") [] [] [MkBlock (str "01nn") [] []; MkBlock (str "02nn") [] []];
  MkEntry (str "0837") [] [] [MkBlock (str "03nn") [] []; MkBlock (str "04nn") [] []]].

Lemma onward_overflows : Forall wf_entry demo_overflow /\
  match show_sense (db_file demo_overflow) (str "0835") (Some (str "0900")) (sense_init []) with Undef _ => True | _ => False end.
Proof. split; [apply (bool_decide_unpack _); vm_compute; exact I|]. vm_compute. exact I. Qed.
