(* ===== verification/Tdb.v ===== *)
(** * libasuite/tdb.c: the hash database

    A database is a store of bytes: a header, the offset of the first free
    block, one offset per hash bucket, and blocks.  A block is a [list_struct]
    of six 32-bit words followed by its space.  The store is memory when the
    database has no file ([fd] is -1), and then accesses are not checked; with
    a file it is the file's contents.  The build does not define [HAVE_MMAP], so
    a file is never mapped.  Words are in the byte order of a little-endian
    host; offsets are 32 bits wide. *)
From S2P Require Import Prelude.

(** A byte of the store or of a structure, [None] while nothing was assigned. *)
Abbreviation cell := (option Z).

Definition TDB_VERSION := 637606247 + 1.
Definition TDB_MAGIC := 637606297.
Definition TDB_FREE_MAGIC := 4294967295 - TDB_MAGIC.
Definition TDB_ALIGN := 4.
Definition SIZEOF_REC := 24.
Definition SIZEOF_HEADER := 40.
Definition SIZEOF_OFF := 4.
Definition MIN_REC_SIZE := 2 * SIZEOF_REC + TDB_ALIGN.
Definition DEFAULT_HASH_SIZE := 128.
Definition TDB_PAGE_SIZE := 8192.
Definition TDB_LEN_MULTIPLIER := 10.
Definition FREELIST_TOP := SIZEOF_HEADER.
Definition TDB_MAGIC_FOOD : list Z := str "TDB file" ++ [10].
Definition TDB_REPLACE := 1.
Definition TDB_INSERT := 2.
Definition TDB_CLEAR_IF_FIRST := 1.
Definition TDB_SUCCESS := 0.
Definition TDB_ERR_CORRUPT := 1.
Definition TDB_ERR_IO := 2.
Definition TDB_ERR_LOCK := 3.
Definition TDB_ERR_OOM := 4.
Definition TDB_ERR_EXISTS := 5.

(** [store] is the block at [map_ptr], or the file; [None] is a null [map_ptr]
    without a file.  [lock_ok] is whether [fcntl] grants locks, [oom] whether
    [malloc] fails. *)
Record TDB_CONTEXT : Type := MkTdb {
  store : option (list cell);
  fd : Z;
  map_size : Z;
  read_only : bool;
  locked : list Z;
  ecode : Z;
  hash_size : Z;
  lock_ok : bool;
  oom : bool
}.

Abbreviation T := (M TDB_CONTEXT).

Definition set_store (s : option (list cell)) (t : TDB_CONTEXT) : TDB_CONTEXT :=
  MkTdb s (fd t) (map_size t) (read_only t) (locked t) (ecode t) (hash_size t) (lock_ok t) (oom t).
Definition set_map_size (n : Z) (t : TDB_CONTEXT) : TDB_CONTEXT :=
  MkTdb (store t) (fd t) n (read_only t) (locked t) (ecode t) (hash_size t) (lock_ok t) (oom t).
Definition set_locked (l : list Z) (t : TDB_CONTEXT) : TDB_CONTEXT :=
  MkTdb (store t) (fd t) (map_size t) (read_only t) l (ecode t) (hash_size t) (lock_ok t) (oom t).
Definition set_ecode (e : Z) (t : TDB_CONTEXT) : TDB_CONTEXT :=
  MkTdb (store t) (fd t) (map_size t) (read_only t) (locked t) e (hash_size t) (lock_ok t) (oom t).

(** ** Words and structures *)

Definition word_cells (v : Z) : list cell :=
  [Some (v mod 256); Some (v / 256 mod 256); Some (v / 65536 mod 256); Some (v / 16777216 mod 256)].

Definition word (w : list cell) : option Z :=
  match w with
  | [Some a; Some b; Some c; Some d] => Some (a + 256 * b + 65536 * c + 16777216 * d)
  | _ => None
  end.

(** The members of [list_struct], as offsets in it. *)
Definition REC_LEN : nat := 0.
Definition NEXT : nat := 4.
Definition KEY_LEN : nat := 8.
Definition DATA_LEN : nat := 12.
Definition FULL_HASH : nat := 16.
Definition MAGIC : nat := 20.

Definition member (f : nat) (r : list cell) : list cell := take 4 (drop f r).
Definition field (f : nat) (r : list cell) : option Z := word (member f r).
Definition set_member (f : nat) (w r : list cell) : list cell := take f r ++ w ++ drop (f + 4) r.
Definition set_field (f : nat) (v : Z) (r : list cell) : list cell := set_member f (word_cells v) r.

(** A structure on the stack, before anything is assigned. *)
Definition fresh_rec : list cell := replicate 24 None.

Definition mem_read (off len : nat) (m : list cell) : option (list cell) :=
  if decide (off + len <= length m)%nat then Some (take len (drop off m)) else None.

Definition mem_put (off : nat) (bs m : list cell) : option (list cell) :=
  if decide (off + length bs <= length m)%nat
  then Some (take off m ++ bs ++ drop (off + length bs) m) else None.

(** A write to a file past its end fills the gap with zeros. *)
Definition file_put (off : nat) (bs m : list cell) : list cell :=
  let m := m ++ replicate (off - length m) (Some 0) in take off m ++ bs ++ drop (off + length bs) m.

(** ** Locks *)

Definition GLOBAL_LOCK := 0.
Definition ACTIVE_LOCK := 4.
Definition LIST_LOCK_BASE := 1024.

Definition tdb_brlock : T Z :=
  t ← get_st;
  if decide (fd t = -1) then mret 0
  else if read_only t then mret (-1)
  else if lock_ok t then mret 0
  else put_st (set_ecode TDB_ERR_LOCK t);; mret (-1).

Definition tdb_lock (list : Z) : T Z :=
  t ← get_st;
  if decide (list < -1 \/ hash_size t <= list) then mret (-1)
  else
    n ← of_opt (locked t !! Z.to_nat (list + 1));
    rc ← (if decide (n = 0) then tdb_brlock else mret 0);
    if decide (rc <> 0) then mret (-1)
    else modify (set_locked (<[Z.to_nat (list + 1) := n + 1]> (locked t)));; mret 0.

Definition tdb_unlock (list : Z) : T Z :=
  t ← get_st;
  if decide (list < -1 \/ hash_size t <= list) then mret (-1)
  else
    n ← of_opt (locked t !! Z.to_nat (list + 1));
    if decide (n = 0) then put_st (set_ecode TDB_ERR_LOCK t);; mret (-1)
    else
      rc ← (if decide (n = 1) then tdb_brlock else mret 0);
      if decide (rc <> 0) then mret (-1)
      else modify (set_locked (<[Z.to_nat (list + 1) := n - 1]> (locked t)));; mret 0.

(** ** Hashing *)

(** A character, as the signed [char] it is. *)
Definition s8 (c : Z) : Z := if decide (c < 128) then c else c - 256.

Fixpoint tdb_hash_loop (key : list Z) (i value : Z) : Z :=
  match key with
  | [] => value
  | c :: key => tdb_hash_loop key (i + 1) (u32 (value + Z.shiftl (s8 c) (u32 (i * 5) mod 24)))
  end.

Definition tdb_hash (key : list Z) : Z :=
  u32 (1103515243 * tdb_hash_loop key 0 (u32 (596579247 * Z.of_nat (length key))) + 12345).

Definition BUCKET (t : TDB_CONTEXT) (hash : Z) : Z := hash mod hash_size t.

Definition tdb_hash_top (t : TDB_CONTEXT) (hash : Z) : Z :=
  u32 (FREELIST_TOP + (BUCKET t hash + 1) * SIZEOF_OFF).

(** ** Access to the store *)

(** With a file, an access past what is known of it looks at its size again. *)
Definition tdb_oob (offset : Z) : T Z :=
  t ← get_st;
  if decide (offset <= map_size t \/ fd t = -1) then mret 0
  else
    let size := Z.of_nat (length (default [] (store t))) in
    if decide (size <= offset) then put_st (set_ecode TDB_ERR_IO t);; mret (-1)
    else put_st (set_map_size (u32 size) t);; mret 0.

(** A file opened for reading cannot be written. *)
Definition tdb_write (offset : Z) (buf : list cell) : T Z :=
  rc ← tdb_oob (u32 (offset + Z.of_nat (length buf)));
  if decide (rc <> 0) then mret (-1)
  else
    t ← get_st;
    match store t with
    | None => put_st (set_ecode TDB_ERR_IO t);; mret (-1)
    | Some m =>
        if decide (fd t = -1) then
          match mem_put (Z.to_nat offset) buf m with
          | Some m' => put_st (set_store (Some m') t);; mret 0
          | None => undef
          end
        else if read_only t then put_st (set_ecode TDB_ERR_IO t);; mret (-1)
        else put_st (set_store (Some (file_put (Z.to_nat offset) buf m)) t);; mret 0
    end.

(** [None] is the return code -1. *)
Definition tdb_read (offset : Z) (len : Z) : T (option (list cell)) :=
  rc ← tdb_oob (u32 (offset + len));
  if decide (rc <> 0) then mret None
  else
    t ← get_st;
    match store t with
    | None => put_st (set_ecode TDB_ERR_IO t);; mret None
    | Some m =>
        match mem_read (Z.to_nat offset) (Z.to_nat len) m with
        | Some buf => mret (Some buf)
        | None => if decide (fd t = -1) then undef else put_st (set_ecode TDB_ERR_IO t);; mret None
        end
    end.

Definition tdb_alloc_read (offset len : Z) : T (option (list cell)) :=
  t ← get_st;
  if oom t then put_st (set_ecode TDB_ERR_OOM t);; mret None
  else tdb_read offset len.

Definition rec_write (offset : Z) (rec : list cell) : T Z := tdb_write offset rec.
Definition ofs_write (offset : Z) (d : list cell) : T Z := tdb_write offset d.
Definition ofs_read (offset : Z) : T (option (list cell)) := tdb_read offset SIZEOF_OFF.

(** The value of a member, which must have been assigned. *)
Definition get_field (f : nat) (r : list cell) : T Z := of_opt (field f r).
Definition get_word (w : list cell) : T Z := of_opt (word w).

Definition rec_read (offset : Z) : T (option (list cell)) :=
  r ← tdb_read offset SIZEOF_REC;
  match r with
  | None => mret None
  | Some rec =>
      magic ← get_field MAGIC rec;
      if decide (magic <> TDB_MAGIC) then modify (set_ecode TDB_ERR_CORRUPT);; mret None
      else
        next ← get_field NEXT rec;
        rc ← tdb_oob next;
        if decide (rc <> 0) then mret None else mret (Some rec)
  end.

(** ** Free space *)

(** [x & ~(n - 1)]. *)
Definition align_down (x n : Z) : Z := u32 (Z.land x (Z.lnot (n - 1))).

(** Growing the file by a write to its last byte, or the block by [realloc]. *)
Definition grow (t : TDB_CONTEXT) (length : Z) : option (list cell) :=
  match store t with
  | Some m =>
      if decide (fd t = -1) then
        if oom t then None else Some (m ++ replicate (Z.to_nat length) None)
      else Some (file_put (Z.to_nat (u32 (map_size t + length - 1))) [Some 0] m)
  | None =>
      if oom t then None else Some (replicate (Z.to_nat (u32 (map_size t + length))) None)
  end.

(** The new size is [u32 (map_size + length)]; the freelist top is read before a
    block in memory moves. *)
Definition tdb_expand (len : Z) : T Z :=
  tdb_lock (-1);;
  t ← get_st;
  tdb_oob (u32 (map_size t + 1));;
  t ← get_st;
  let length := u32 (len * TDB_LEN_MULTIPLIER) in
  let length := u32 (align_down (u32 (map_size t + length + TDB_PAGE_SIZE)) TDB_PAGE_SIZE - map_size t) in
  if decide (fd t <> -1 /\ read_only t = true) then tdb_unlock (-1);; mret (-1) else
  (if decide (fd t = -1) then mret tt else put_st (set_store (grow t length) t));;
  let rec := set_field MAGIC TDB_FREE_MAGIC (set_field REC_LEN (u32 (length - SIZEOF_REC)) fresh_rec) in
  next ← ofs_read FREELIST_TOP;
  match next with
  | None => tdb_unlock (-1);; mret (-1)
  | Some next =>
      let rec := set_member NEXT next rec in
      t ← get_st;
      let size := u32 (map_size t + length) in
      let t := if decide (fd t = -1) then set_store (grow t length) t else t in
      put_st (set_map_size size t);;
      rc ← rec_write (u32 (size - length)) rec;
      if decide (rc <> 0) then tdb_unlock (-1);; mret (-1)
      else
        rc ← ofs_write FREELIST_TOP (word_cells (u32 (size - length)));
        if decide (rc <> 0) then tdb_unlock (-1);; mret (-1)
        else tdb_unlock (-1);; mret 0
  end.

(** What the walk of the free list comes to: a block taken, none big enough, or
    [goto fail]. *)
Inductive search_result : Type :=
| Taken (rec_ptr : Z)
| NotFound
| Failed.

(** Taking the block [rec] at [rec_ptr] out of the list, split when it is much
    too big; [last] is the block before it, [None] when [last_ptr] is 0. *)
Definition take_block (length rec_ptr : Z) (rec : list cell) (last : option (Z * list cell)) : T search_result :=
  rec_len ← get_field REC_LEN rec;
  split ← (if decide (length + MIN_REC_SIZE < rec_len) then
      let length := align_down (u32 (length + TDB_ALIGN)) TDB_ALIGN in
      let newrec := set_field MAGIC TDB_FREE_MAGIC (set_member NEXT (member NEXT rec)
        (set_field REC_LEN (u32 (rec_len - (SIZEOF_REC + length))) fresh_rec)) in
      let next := u32 (rec_ptr + SIZEOF_REC + length) in
      let rec := set_field NEXT next (set_field REC_LEN length rec) in
      rc ← rec_write next newrec;
      if decide (rc <> 0) then mret None
      else rc ← rec_write rec_ptr rec; if decide (rc <> 0) then mret None else mret (Some rec)
    else mret (Some rec));
  match split with
  | None => mret Failed
  | Some rec =>
      rc ← match last with
           | None => ofs_write FREELIST_TOP (member NEXT rec)
           | Some (last_ptr, lastrec) => rec_write last_ptr (set_member NEXT (member NEXT rec) lastrec)
           end;
      if decide (rc <> 0) then mret Failed else mret (Taken rec_ptr)
  end.

Fixpoint search_free (fuel : nat) (length rec_ptr : Z) (last : option (Z * list cell)) : T search_result :=
  match fuel with
  | O => no_fuel
  | S fuel =>
      if decide (rec_ptr = 0) then mret NotFound
      else
        rec ← tdb_read rec_ptr SIZEOF_REC;
        match rec with
        | None => mret Failed
        | Some rec =>
            magic ← get_field MAGIC rec;
            if decide (magic <> TDB_FREE_MAGIC) then mret Failed
            else
              rec_len ← get_field REC_LEN rec;
              if decide (length <= rec_len) then take_block length rec_ptr rec last
              else next ← get_field NEXT rec; search_free fuel length next (Some (rec_ptr, rec))
        end
  end.

(** A list cannot be longer than the store. *)
Definition list_fuel (t : TDB_CONTEXT) : nat := S (length (default [] (store t))).

(** [again:] one search, then another after each expansion. *)
Fixpoint allocate_again (fuel : nat) (length : Z) : T Z :=
  match fuel with
  | O => no_fuel
  | S fuel =>
      top ← ofs_read FREELIST_TOP;
      match top with
      | None => mret 0
      | Some top =>
          rec_ptr ← get_word top;
          t ← get_st;
          found ← search_free (list_fuel t) length rec_ptr None;
          match found with
          | Taken rec_ptr => mret rec_ptr
          | Failed => mret 0
          | NotFound =>
              rc ← tdb_expand (u32 (length + SIZEOF_REC));
              if decide (rc = 0) then allocate_again fuel length else mret 0
          end
      end
  end.

(** An expansion makes room for ten such blocks: the second search succeeds. *)
Definition tdb_allocate (length : Z) : T Z :=
  tdb_lock (-1);; p ← allocate_again 2 length; tdb_unlock (-1);; mret p.

(** ** Records *)

Definition tdb_alloc_key (rec_ptr : Z) (rec : list cell) : T (option (list cell)) :=
  key_len ← get_field KEY_LEN rec; tdb_alloc_read (u32 (rec_ptr + SIZEOF_REC)) key_len.

(** [memcmp(key, k, key.dsize) == 0]; every byte compared must have been
    assigned. *)
Fixpoint memcmp_eq (key : list Z) (k : list cell) : option bool :=
  match key, k with
  | [], _ => Some true
  | c :: key, Some d :: k => if decide (c = d) then memcmp_eq key k else Some false
  | _, _ => None
  end.

(** The test for a record: the hash, the length and then the key itself.
    [None] is a failed read. *)
Definition is_record (key : list Z) (hash rec_ptr : Z) (rec : list cell) : T (option bool) :=
  full_hash ← get_field FULL_HASH rec;
  key_len ← get_field KEY_LEN rec;
  if decide (hash = full_hash /\ Z.of_nat (length key) = key_len) then
    k ← tdb_alloc_read (u32 (rec_ptr + SIZEOF_REC)) key_len;
    match k with
    | None => mret None
    | Some k => b ← of_opt (memcmp_eq key k); mret (Some b)
    end
  else mret (Some false).

Fixpoint find_loop (fuel : nat) (key : list Z) (hash rec_ptr : Z) : T (Z * list cell) :=
  match fuel with
  | O => no_fuel
  | S fuel =>
      if decide (rec_ptr = 0) then mret (0, fresh_rec)
      else
        rec ← rec_read rec_ptr;
        match rec with
        | None => mret (0, fresh_rec)
        | Some rec =>
            hit ← is_record key hash rec_ptr rec;
            match hit with
            | None => mret (0, rec)
            | Some true => mret (rec_ptr, rec)
            | Some false => next ← get_field NEXT rec; find_loop fuel key hash next
            end
        end
  end.

(** The offset, 0 when there is none, and [*rec]. *)
Definition tdb_find (key : list Z) (hash : Z) : T (Z * list cell) :=
  t ← get_st;
  top ← ofs_read (tdb_hash_top t hash);
  match top with
  | None => mret (0, fresh_rec)
  | Some top => rec_ptr ← get_word top; find_loop (list_fuel t) key hash rec_ptr
  end.

(** A datum handed back: its cells, [None] for a null pointer. *)
Definition cells_bytes (c : list cell) : option (list Z) := mapM id c.

Definition tdb_update (key dbuf : list Z) : T Z :=
  let hash := tdb_hash key in
  t ← get_st;
  let b := BUCKET t hash in
  tdb_lock b;;
  '(rec_ptr, rec) ← tdb_find key hash;
  ret ← (if decide (rec_ptr = 0) then mret (-1)
    else
      rec_len ← get_field REC_LEN rec;
      if decide (rec_len < Z.of_nat (length key) + Z.of_nat (length dbuf)) then mret (-1)
      else
        key_len ← get_field KEY_LEN rec;
        rc ← tdb_write (u32 (rec_ptr + SIZEOF_REC + key_len)) (Some <$> dbuf);
        if decide (rc <> 0) then mret (-1)
        else
          data_len ← get_field DATA_LEN rec;
          if decide (Z.of_nat (length dbuf) <> data_len)
          then rec_write rec_ptr (set_field DATA_LEN (u32 (Z.of_nat (length dbuf))) rec)
          else mret 0);
  tdb_unlock b;; mret ret.

Definition tdb_fetch (key : list Z) : T (option (list cell)) :=
  let hash := tdb_hash key in
  t ← get_st;
  let b := BUCKET t hash in
  tdb_lock b;;
  '(rec_ptr, rec) ← tdb_find key hash;
  ret ← (if decide (rec_ptr = 0) then mret None
    else
      key_len ← get_field KEY_LEN rec;
      data_len ← get_field DATA_LEN rec;
      tdb_alloc_read (u32 (rec_ptr + SIZEOF_REC + key_len)) data_len);
  tdb_unlock b;; mret ret.

Definition tdb_exists (key : list Z) : T bool :=
  let hash := tdb_hash key in
  t ← get_st;
  let b := BUCKET t hash in
  tdb_lock b;;
  '(rec_ptr, rec) ← tdb_find key hash;
  tdb_unlock b;; mret (bool_decide (rec_ptr <> 0)).

(** One chain of [tdb_traverse], with the callback's own state [U]. The result
    is the count, and whether the callback stopped it; [None] is [goto fail]. *)
Section Traverse.
Context {U : Type} (fn : list Z -> list Z -> U -> T (Z * U)).

Fixpoint traverse_chain (fuel : nat) (rec_ptr count : Z) (u : U) : T (option (Z * bool) * U) :=
  match fuel with
  | O => no_fuel
  | S fuel =>
      if decide (rec_ptr = 0) then mret (Some (count, false), u)
      else
        rec ← rec_read rec_ptr;
        match rec with
        | None => mret (None, u)
        | Some rec =>
            key_len ← get_field KEY_LEN rec;
            data_len ← get_field DATA_LEN rec;
            data ← tdb_alloc_read (u32 (rec_ptr + SIZEOF_REC)) (u32 (key_len + data_len));
            match data with
            | None => mret (None, u)
            | Some data =>
                data ← of_opt (cells_bytes data);
                '(stop, u) ← fn (take (Z.to_nat key_len) data) (drop (Z.to_nat key_len) data) u;
                if decide (stop <> 0) then mret (Some (count + 1, true), u)
                else next ← get_field NEXT rec; traverse_chain fuel next (count + 1) u
            end
        end
  end.

(** [k] buckets are left, from [h] on. *)
Fixpoint traverse_buckets (k : nat) (h count : Z) (u : U) : T (Z * U) :=
  match k with
  | O => mret (count, u)
  | S k =>
      t ← get_st;
      tdb_lock (BUCKET t h);;
      top ← ofs_read (tdb_hash_top t h);
      match top with
      | None => tdb_unlock (BUCKET t h);; mret (-1, u)
      | Some top =>
          rec_ptr ← get_word top;
          t ← get_st;
          '(r, u) ← traverse_chain (list_fuel t) rec_ptr count u;
          tdb_unlock (BUCKET t h);;
          match r with
          | None => mret (-1, u)
          | Some (count, true) => mret (count, u)
          | Some (count, false) => traverse_buckets k (h + 1) count u
          end
      end
  end.

Definition tdb_traverse (u : U) : T (Z * U) :=
  t ← get_st; traverse_buckets (Z.to_nat (hash_size t)) 0 0 u.
End Traverse.

(** Reading the key of the record [firstkey] and [nextkey] arrive at. *)
Definition read_key (hbucket rec_ptr : Z) : T (option (list cell)) :=
  rec ← rec_read rec_ptr;
  match rec with
  | None => tdb_unlock hbucket;; mret None
  | Some rec => k ← tdb_alloc_key rec_ptr rec; tdb_unlock hbucket;; mret k
  end.

(** The search for a non-empty chain, [k] buckets from [hash] on.  A chain found
    stays locked. *)
Fixpoint firstkey_loop (k : nat) (hash : Z) : T (option (list cell)) :=
  match k with
  | O => mret None
  | S k =>
      t ← get_st;
      tdb_lock (BUCKET t hash);;
      top ← ofs_read (tdb_hash_top t hash);
      match top with
      | None => tdb_unlock (BUCKET t hash);; mret None
      | Some top =>
          rec_ptr ← get_word top;
          if decide (rec_ptr <> 0) then read_key (BUCKET t hash) rec_ptr
          else tdb_unlock (BUCKET t hash);; firstkey_loop k (hash + 1)
      end
  end.

Definition tdb_firstkey : T (option (list cell)) :=
  t ← get_st; firstkey_loop (Z.to_nat (hash_size t)) 0.

(** [while (rec_ptr == 0)]: the bucket after [hbucket], until the last but one. *)
Fixpoint nextkey_loop (k : nat) (hbucket rec_ptr : Z) : T (option (list cell)) :=
  if decide (rec_ptr <> 0) then read_key hbucket rec_ptr
  else
    tdb_unlock hbucket;;
    t ← get_st;
    let hbucket := hbucket + 1 in
    if decide (hash_size t - 1 <= hbucket) then mret None
    else
      match k with
      | O => no_fuel
      | S k =>
          tdb_lock hbucket;;
          top ← ofs_read (tdb_hash_top t hbucket);
          match top with
          | None => tdb_unlock hbucket;; mret None
          | Some top => rec_ptr ← get_word top; nextkey_loop k hbucket rec_ptr
          end
      end.

Definition tdb_nextkey (key : list Z) : T (option (list cell)) :=
  let hash := tdb_hash key in
  t ← get_st;
  let hbucket := BUCKET t hash in
  tdb_lock hbucket;;
  '(rec_ptr, rec) ← tdb_find key hash;
  rec_ptr ← (if decide (rec_ptr <> 0) then get_field NEXT rec else mret 0);
  nextkey_loop (Z.to_nat (hash_size t)) hbucket rec_ptr.

(** ** Deleting and storing *)

(** The block of a deleted record put on the free list. *)
Definition recover_space (rec_ptr : Z) (rec : list cell) : T Z :=
  tdb_lock (-1);;
  next ← ofs_read FREELIST_TOP;
  match next with
  | None => tdb_unlock (-1);; mret (-1)
  | Some next =>
      rc ← rec_write rec_ptr (set_field MAGIC TDB_FREE_MAGIC (set_member NEXT next rec));
      if decide (rc <> 0) then tdb_unlock (-1);; mret (-1)
      else
        rc ← ofs_write FREELIST_TOP (word_cells rec_ptr);
        if decide (rc <> 0) then tdb_unlock (-1);; mret (-1)
        else tdb_unlock (-1);; mret 0
  end.

(** The record at [rec_ptr] taken out of its chain, and its block freed. *)
Definition delete_record (hash rec_ptr : Z) (rec : list cell) (last : option (Z * list cell)) : T Z :=
  t ← get_st;
  let b := BUCKET t hash in
  rc ← match last with
       | None => ofs_write (tdb_hash_top t hash) (member NEXT rec)
       | Some (last_ptr, lastrec) => rec_write last_ptr (set_member NEXT (member NEXT rec) lastrec)
       end;
  if decide (rc <> 0) then tdb_unlock b;; mret (-1)
  else tdb_unlock b;; recover_space rec_ptr rec.

Fixpoint delete_loop (fuel : nat) (key : list Z) (hash rec_ptr : Z) (last : option (Z * list cell)) : T Z :=
  match fuel with
  | O => no_fuel
  | S fuel =>
      t ← get_st;
      let b := BUCKET t hash in
      if decide (rec_ptr = 0) then tdb_unlock b;; mret (-1)
      else
        rec ← rec_read rec_ptr;
        match rec with
        | None => tdb_unlock b;; mret (-1)
        | Some rec =>
            hit ← is_record key hash rec_ptr rec;
            match hit with
            | None => tdb_unlock b;; mret (-1)
            | Some true => delete_record hash rec_ptr rec last
            | Some false => next ← get_field NEXT rec; delete_loop fuel key hash next (Some (rec_ptr, rec))
            end
        end
  end.

Definition tdb_delete (key : list Z) : T Z :=
  let hash := tdb_hash key in
  t ← get_st;
  let b := BUCKET t hash in
  tdb_lock b;;
  top ← ofs_read (tdb_hash_top t hash);
  match top with
  | None => tdb_unlock b;; mret (-1)
  | Some top => rec_ptr ← get_word top; t ← get_st; delete_loop (list_fuel t) key hash rec_ptr None
  end.

(** The record written into the block [rec_ptr] and put at the top of its
    chain. *)
Definition link_record (key dbuf : list Z) (hash rec_ptr : Z) : T Z :=
  rec ← tdb_read rec_ptr SIZEOF_REC;
  match rec with
  | None => mret (-1)
  | Some rec =>
      magic ← get_field MAGIC rec;
      if decide (magic <> TDB_FREE_MAGIC) then mret (-1)
      else
        t ← get_st;
        let offset := tdb_hash_top t hash in
        top ← ofs_read offset;
        match top with
        | None => mret (-1)
        | Some top =>
            let rec := set_field MAGIC TDB_MAGIC (set_field FULL_HASH hash
              (set_field DATA_LEN (u32 (Z.of_nat (length dbuf)))
              (set_field KEY_LEN (u32 (Z.of_nat (length key))) (set_member NEXT top rec)))) in
            t ← get_st;
            if oom t then put_st (set_ecode TDB_ERR_OOM t);; mret (-1)
            else
              rc ← tdb_write rec_ptr (rec ++ (Some <$> key ++ dbuf));
              if decide (rc <> 0) then mret (-1)
              else
                rc ← ofs_write offset (word_cells rec_ptr);
                if decide (rc <> 0) then mret (-1) else mret 0
        end
  end.

Definition tdb_store (key dbuf : list Z) (flag : Z) : T Z :=
  let hash := tdb_hash key in
  present ← (if decide (flag = TDB_INSERT) then tdb_exists key else mret false);
  if present : bool then modify (set_ecode TDB_ERR_EXISTS);; mret (-1)
  else
    updated ← (if decide (flag <> TDB_INSERT) then tdb_update key dbuf else mret (-1));
    if decide (updated = 0) then mret 0
    else
      rec_ptr ← tdb_allocate (u32 (Z.of_nat (length key) + Z.of_nat (length dbuf)));
      if decide (rec_ptr = 0) then mret (-1)
      else
        t ← get_st;
        let b := BUCKET t hash in
        tdb_lock b;;
        (if decide (flag <> TDB_INSERT) then tdb_delete key else mret 0);;
        rc ← link_record key dbuf hash rec_ptr;
        tdb_unlock b;; mret rc.

(** ** Opening *)

Definition header_cells (hash_size : Z) : list cell :=
  (Some <$> TDB_MAGIC_FOOD ++ replicate (32 - length TDB_MAGIC_FOOD) 0) ++
  word_cells TDB_VERSION ++ word_cells (u32 hash_size).

(** The two loops that write the free list top and the buckets: sixteen at a
    time, then one by one.  The result is the number of words. *)
Fixpoint new_words16 (fuel : nat) (hash_size i : Z) : Z :=
  match fuel with
  | O => i
  | S fuel => if decide (16 <= hash_size + 1 - i) then new_words16 fuel hash_size (i + 16) else i
  end.
Definition new_words (hash_size : Z) : Z :=
  let i := new_words16 (S (Z.to_nat hash_size)) hash_size 0 in
  i + Z.max 0 (hash_size + 1 - i).

(** A new database: the file is emptied and written, or the memory allocated
    zeroed. *)
Definition tdb_new_database (size : Z) : T Z :=
  t ← get_st;
  let n := SIZEOF_HEADER + SIZEOF_OFF * new_words size in
  let body := replicate (Z.to_nat (n - SIZEOF_HEADER)) (Some 0) in
  if decide (fd t = -1) then
    if oom t then put_st (set_map_size (u32 n) (set_store None (set_ecode TDB_ERR_IO t)));; mret (-1)
    else
      put_st (MkTdb (Some (replicate (Z.to_nat n) (Some 0))) (fd t) (u32 n) (read_only t) (locked t)
                (ecode t) (u32 size) (lock_ok t) (oom t));; mret 0
  else if read_only t then put_st (set_ecode TDB_ERR_IO t);; mret (-1)
  else put_st (set_store (Some (header_cells size ++ body)) t);; mret 0.

(** What [read] of a header makes of the start of a file: the hash size, when
    the magic food and the version are right. *)
Definition valid_header (m : list cell) : option Z :=
  if decide (Z.of_nat (length m) < SIZEOF_HEADER) then None
  else
    food ← mem_string (take 32 m ++ [Some 0]);
    v ← word (take 4 (drop 32 m));
    if decide (food = TDB_MAGIC_FOOD /\ v = TDB_VERSION) then word (take 4 (drop 36 m)) else None.

(** What [open] gives: the contents of the file, or a failure. *)
Inductive open_result : Type := OpenFails | Opened (contents : list Z).

(** [first] is whether nobody else has the database open.  [None] is a null
    result.  The functions of the library return at once on a null context. *)
Definition tdb_open (name : option open_result) (size tdb_flags : Z) (rdonly wronly creat first : bool)
    (lock_ok oom : bool) : option TDB_CONTEXT :=
  if wronly then None
  else
    let size := if decide (size = 0) then DEFAULT_HASH_SIZE else size in
    match name with
    | Some OpenFails => None
    | None =>
        if negb creat then None
        else match tdb_new_database size (MkTdb None (-1) 0 rdonly [] 0 0 lock_ok oom) with
             | Ret rc t => if decide (rc = -1) then None
                           else Some (set_locked (replicate (Z.to_nat (u32 (hash_size t + 1))) 0) t)
             | _ => None
             end
    | Some (Opened contents) =>
        let clear := negb (bool_decide (Z.land tdb_flags TDB_CLEAR_IF_FIRST = 0)) && first && negb rdonly in
        let contents := if clear then [] else contents in
        let t := MkTdb (Some (Some <$> contents)) 3 0 rdonly [] 0 0 lock_ok oom in
        let finish n (t : TDB_CONTEXT) :=
          if oom then None
          else Some (MkTdb (store t) (fd t) (u32 (Z.of_nat (length (default [] (store t))))) rdonly
                       (replicate (Z.to_nat (u32 (n + 1))) 0) (ecode t) n lock_ok oom) in
        match valid_header (Some <$> contents) with
        | Some n => finish n t
        | None =>
            if negb creat then None
            else match tdb_new_database size t with
                 | Ret rc t => if decide (rc = -1) then None
                               else n ← word (take 4 (drop 36 (default [] (store t)))); finish n t
                 | _ => None
                 end
        end
    end.

(** [tdb_error], on a context. *)
Definition tdb_error (t : TDB_CONTEXT) : list Z :=
  if decide (ecode t = TDB_SUCCESS) then str "Success"
  else if decide (ecode t = TDB_ERR_CORRUPT) then str "Corrupt database"
  else if decide (ecode t = TDB_ERR_IO) then str "IO Error"
  else if decide (ecode t = TDB_ERR_LOCK) then str "Locking error"
  else if decide (ecode t = TDB_ERR_OOM) then str "Out of memory"
  else if decide (ecode t = TDB_ERR_EXISTS) then str "Record exists"
  else str "Invalid error code".

Definition tdb_writelock : T Z := tdb_lock (-1).
Definition tdb_writeunlock : T Z := tdb_unlock (-1).
Definition tdb_lockchain (key : list Z) : T Z := t ← get_st; tdb_lock (BUCKET t (tdb_hash key)).
Definition tdb_unlockchain (key : list Z) : T Z := t ← get_st; tdb_unlock (BUCKET t (tdb_hash key)).

(** Two's complement. *)
Definition s32 (x : Z) : Z := if decide (x < 2147483648) then x else x - 4294967296.

Definition tdb_get_int (keystr : list Z) : T Z :=
  data ← tdb_fetch keystr;
  match data with
  | None => mret (-1)
  | Some d => if decide (length d <> 4%nat) then mret (-1) else v ← of_opt (word d); mret (s32 v)
  end.

Definition tdb_store_int (keystr : list Z) (v : Z) : T Z :=
  data ← of_opt (cells_bytes (word_cells (u32 v))); tdb_store keystr data TDB_REPLACE.

(** A run of the library, on a memory database. *)
Definition demo_open : option TDB_CONTEXT := tdb_open None 4 0 false false true true true false.

Example tdb_demo :
  (fun t => match (tdb_store (str "k") (str "v1") TDB_REPLACE;; tdb_store (str "l") (str "w") TDB_INSERT;;
            tdb_store (str "k") (str "a longer value") TDB_REPLACE;; tdb_store_int (str "n") (-5);;
            a ← tdb_fetch (str "k"); d ← tdb_delete (str "l"); b ← tdb_fetch (str "l"); n ← tdb_get_int (str "n");
            mret (a, d, b, n)) t with
    | Ret r _ => Some r | _ => None end) <$> demo_open = Some (Some (Some (Some <$> str "a longer value"), 0, None, -5)).
Proof. vm_compute. reflexivity. Qed.
