(* ===== verification/TdbMem.v ===== *)
(** * The database's store as linked lists of blocks

    The lemmas on memory the refinement of [Tdb] is built from: what reading and
    writing the store does, [header_ok] for the words of a block, [lseg] for the
    lists (the free list and the chains) and their two changes, unlinking a
    node and splitting a block. *)
From S2P Require Import Prelude Tdb.

(** ** Words *)

Definition is_u32 (v : Z) : Prop := 0 <= v < 4294967296.

Lemma length_word_cells v : length (word_cells v) = 4%nat.
Proof. done. Qed.

Lemma word_word_cells v : is_u32 v -> word (word_cells v) = Some v.
Proof.
  unfold is_u32, word_cells, word. intros H. f_equal.
  replace (v / 65536) with (v / 256 / 256) by (by rewrite Z.div_div).
  replace (v / 16777216) with (v / 256 / 256 / 256) by (by rewrite !Z.div_div).
  pose proof (Z.div_mod v 256 ltac:(lia)). pose proof (Z.div_mod (v / 256) 256 ltac:(lia)).
  pose proof (Z.div_mod (v / 256 / 256) 256 ltac:(lia)).
  assert (0 <= v / 256 / 256 / 256 < 256).
  { split; [repeat apply Z.div_pos; lia|]. repeat (apply Z.div_lt_upper_bound; [lia|]). lia. }
  rewrite (Z.mod_small (v / 256 / 256 / 256)) by lia. lia.
Qed.

Lemma u32_id v : is_u32 v -> u32 v = v.
Proof. unfold is_u32, u32. intros. by apply Z.mod_small. Qed.

(** ** Structures *)

(** The six words of a structure can be set independently. *)
Lemma rec_cells (r : list cell) : length r = 24%nat ->
  exists a b c d e f : list cell, r = a ++ b ++ c ++ d ++ e ++ f /\
    length a = 4%nat /\ length b = 4%nat /\ length c = 4%nat /\ length d = 4%nat /\ length e = 4%nat /\ length f = 4%nat.
Proof.
  intros H. exists (take 4 r), (take 4 (drop 4 r)), (take 4 (drop 8 r)), (take 4 (drop 12 r)), (take 4 (drop 16 r)), (drop 20 r).
  rewrite !length_take, !length_drop. split_and!; try lia.
  rewrite <- (take_drop 4 r) at 1. f_equal. rewrite <- (take_drop 4 (drop 4 r)) at 1. f_equal. rewrite drop_drop.
  rewrite <- (take_drop 4 (drop _ r)) at 1. f_equal. rewrite drop_drop.
  rewrite <- (take_drop 4 (drop _ r)) at 1. f_equal. rewrite drop_drop.
  rewrite <- (take_drop 4 (drop _ r)) at 1. f_equal. rewrite drop_drop. done.
Qed.

Definition is_member (f : nat) : Prop := f ∈ [REC_LEN; NEXT; KEY_LEN; DATA_LEN; FULL_HASH; MAGIC].

Lemma member_set_member f g w r : is_member f -> is_member g -> length r = 24%nat -> length w = 4%nat ->
  member f (set_member g w r) = if decide (f = g) then w else member f r.
Proof.
  intros Hf Hg Hr Hw. unfold set_member, member.
  assert (f + 4 <= g \/ g + 4 <= f \/ f = g)%nat as H3.
  { unfold is_member, REC_LEN, NEXT, KEY_LEN, DATA_LEN, FULL_HASH, MAGIC in *. set_unfold. lia. }
  assert (f + 4 <= 24 /\ g + 4 <= 24)%nat as [Hf' Hg'].
  { unfold is_member, REC_LEN, NEXT, KEY_LEN, DATA_LEN, FULL_HASH, MAGIC in *. set_unfold. lia. }
  clear Hf Hg. apply list_eq. intros i.
  destruct (decide (i < 4)%nat) as [Hi|Hi].
  2:{ rewrite lookup_take_ge by lia. case_decide; [by rewrite lookup_ge_None_2 by lia|by rewrite lookup_take_ge by lia]. }
  rewrite lookup_take_lt, lookup_drop by done. case_decide as E.
  - subst g. rewrite lookup_app_r by (rewrite length_take; lia). rewrite lookup_app_l by (rewrite length_take; lia).
    f_equal. rewrite length_take. lia.
  - rewrite lookup_take_lt, lookup_drop by done. destruct H3 as [H|[H|H]]; [| |done].
    + rewrite lookup_app_l by (rewrite length_take; lia). rewrite lookup_take_lt by lia. done.
    + rewrite !lookup_app_r by (rewrite ?length_take; lia). rewrite lookup_drop. f_equal. rewrite length_take. lia.
Qed.

Lemma length_set_member g w r : is_member g -> length r = 24%nat -> length w = 4%nat -> length (set_member g w r) = 24%nat.
Proof.
  intros Hg Hr Hw. assert (g + 4 <= 24)%nat.
  { unfold is_member, REC_LEN, NEXT, KEY_LEN, DATA_LEN, FULL_HASH, MAGIC in *. set_unfold. lia. }
  unfold set_member. rewrite !length_app, length_take, length_drop. lia.
Qed.

Lemma length_member f r : is_member f -> length r = 24%nat -> length (member f r) = 4%nat.
Proof.
  intros Hg Hr. assert (f + 4 <= 24)%nat.
  { unfold is_member, REC_LEN, NEXT, KEY_LEN, DATA_LEN, FULL_HASH, MAGIC in *. set_unfold. lia. }
  unfold member. rewrite length_take, length_drop. lia.
Qed.

Lemma is_member_all : is_member REC_LEN /\ is_member NEXT /\ is_member KEY_LEN /\ is_member DATA_LEN /\
  is_member FULL_HASH /\ is_member MAGIC.
Proof. unfold is_member. set_solver. Qed.
Lemma is_member_rec_len : is_member REC_LEN. Proof. apply is_member_all. Qed.
Lemma is_member_next : is_member NEXT. Proof. apply is_member_all. Qed.
Lemma is_member_key_len : is_member KEY_LEN. Proof. apply is_member_all. Qed.
Lemma is_member_data_len : is_member DATA_LEN. Proof. apply is_member_all. Qed.
Lemma is_member_full_hash : is_member FULL_HASH. Proof. apply is_member_all. Qed.
Lemma is_member_magic : is_member MAGIC. Proof. apply is_member_all. Qed.
#[export] Hint Resolve is_member_rec_len is_member_next is_member_key_len is_member_data_len is_member_full_hash
  is_member_magic length_set_member length_member : sna.
#[export] Hint Extern 0 (length (word_cells _) = _) => reflexivity : sna.
#[export] Hint Extern 0 (length fresh_rec = _) => reflexivity : sna.

Lemma field_set_member f g w r : is_member f -> is_member g -> length r = 24%nat -> length w = 4%nat ->
  field f (set_member g w r) = if decide (f = g) then word w else field f r.
Proof. intros. unfold field. rewrite member_set_member by done. by case_decide. Qed.

Lemma field_set_field f g v r : is_member f -> is_member g -> length r = 24%nat -> is_u32 v ->
  field f (set_field g v r) = if decide (f = g) then Some v else field f r.
Proof. intros. unfold set_field. rewrite field_set_member by done. case_decide; [by apply word_word_cells|done]. Qed.

Lemma length_set_field g v r : is_member g -> length r = 24%nat -> length (set_field g v r) = 24%nat.
Proof. intros. by apply length_set_member. Qed.
#[export] Hint Resolve length_set_field : sna.

(** ** Reading and writing memory *)

Definition cells_at (m : list cell) (off : nat) (cs : list cell) : Prop :=
  forall i c, cs !! i = Some c -> m !! (off + i)%nat = Some c.

(** [m'] is [m] with [cs] stored at [off]. *)
Definition stored (m : list cell) (off : nat) (cs : list cell) (m' : list cell) : Prop :=
  length m' = length m /\
  forall j, m' !! j = if decide (off <= j < off + length cs)%nat then cs !! (j - off)%nat else m !! j.

Lemma mem_read_cells m off cs : cells_at m off cs -> (off + length cs <= length m)%nat ->
  mem_read off (length cs) m = Some cs.
Proof.
  intros H Hb. unfold mem_read. rewrite decide_True by done. f_equal. apply list_eq. intros i.
  destruct (decide (i < length cs)%nat) as [Hi|Hi].
  - rewrite lookup_take_lt, lookup_drop by done. destruct (lookup_lt_is_Some_2 _ _ Hi) as [c Hc]. rewrite Hc. by apply H.
  - rewrite lookup_take_ge by lia. by rewrite lookup_ge_None_2 by lia.
Qed.

Lemma put_lookup (m bs : list cell) off j : (off + length bs <= length m)%nat ->
  (take off m ++ bs ++ drop (off + length bs) m) !! j =
    if decide (off <= j < off + length bs)%nat then bs !! (j - off)%nat else m !! j.
Proof.
  intros H. destruct (decide (j < off)%nat) as [H1|H1].
  - rewrite decide_False by lia. rewrite lookup_app_l by (rewrite length_take; lia). by rewrite lookup_take_lt.
  - rewrite lookup_app_r by (rewrite length_take; lia). rewrite length_take, Nat.min_l by lia.
    case_decide as H2; [by rewrite lookup_app_l by lia|].
    rewrite lookup_app_r by lia. rewrite lookup_drop. f_equal. lia.
Qed.

Lemma mem_put_stored (m : list cell) off bs : (off + length bs <= length m)%nat ->
  exists m', mem_put off bs m = Some m' /\ stored m off bs m'.
Proof.
  intros H. unfold mem_put. rewrite decide_True by done. eexists. split; [done|]. split.
  - rewrite !length_app, length_take, length_drop. lia.
  - intros j. by apply put_lookup.
Qed.

Lemma file_put_stored (m : list cell) off bs : (off + length bs <= length m)%nat -> stored m off bs (file_put off bs m).
Proof.
  intros H. unfold file_put. replace (off - length m)%nat with 0%nat by lia. cbn [replicate]. rewrite app_nil_r. split.
  - rewrite !length_app, length_take, length_drop. lia.
  - intros j. by apply put_lookup.
Qed.

Lemma stored_same m off cs m' : stored m off cs m' -> cells_at m' off cs.
Proof.
  intros [_ H] i c Hi. rewrite H. pose proof (lookup_lt_Some _ _ _ Hi). rewrite decide_True by lia.
  by replace (off + i - off)%nat with i by lia.
Qed.

(** The cells a store does not touch. *)
Definition same_on (l : list nat) (m m' : list cell) : Prop := forall i, i ∈ l -> m' !! i = m !! i.

Lemma stored_other m off cs m' l : stored m off cs m' -> (forall i, i ∈ l -> i ∉ seq off (length cs)) -> same_on l m m'.
Proof. intros [_ H] Hl i Hi. rewrite H, decide_False; [done|]. intros Hr. apply (Hl i Hi). apply elem_of_seq. lia. Qed.

Lemma cells_at_same m m' off cs : cells_at m off cs -> same_on (seq off (length cs)) m m' -> cells_at m' off cs.
Proof.
  intros H Hs i c Hi. rewrite Hs; [by apply H|]. apply elem_of_seq. apply lookup_lt_Some in Hi. lia.
Qed.

Lemma cells_at_app m off a b : cells_at m off (a ++ b) <-> cells_at m off a /\ cells_at m (off + length a) b.
Proof.
  split.
  - intros H. split; intros i c Hi.
    + apply H. by apply lookup_app_l_Some.
    + rewrite <- Nat.add_assoc. apply H. rewrite lookup_app_r by lia. by replace (length a + i - length a)%nat with i by lia.
  - intros [Ha Hb] i c [Hi|[Hi1 Hi2]]%lookup_app_Some; [by apply Ha|].
    replace (off + i)%nat with (off + length a + (i - length a))%nat by lia. by apply Hb.
Qed.

Lemma same_on_trans l m1 m2 m3 : same_on l m1 m2 -> same_on l m2 m3 -> same_on l m1 m3.
Proof. intros H1 H2 i Hi. rewrite H2, H1; done. Qed.

Lemma same_on_incl l l' m m' : same_on l m m' -> (forall i, i ∈ l' -> i ∈ l) -> same_on l' m m'.
Proof. intros H Hl i Hi. by apply H, Hl. Qed.

(** ** Blocks *)

(** A block: its offset, the space behind its structure, and the record in it,
    [None] for a free block. *)
Record node : Type := MkNode { n_ptr : nat; n_len : nat; n_kv : option (list Z * list Z) }.

(** The cells a block owns. *)
Definition span (n : node) : list nat := seq (n_ptr n) (24 + n_len n).
Arguments span _ : simpl never.
Definition spans (ns : list node) : list nat := mjoin (span <$> ns).

(** The structure [h] of the block [n], with [next]. *)
Definition header_ok (n : node) (next : Z) (h : list cell) : Prop :=
  length h = 24%nat /\ field REC_LEN h = Some (Z.of_nat (n_len n)) /\ field NEXT h = Some next /\
  match n_kv n with
  | None => field MAGIC h = Some TDB_FREE_MAGIC
  | Some (k, d) =>
      field MAGIC h = Some TDB_MAGIC /\ field KEY_LEN h = Some (Z.of_nat (length k)) /\
      field DATA_LEN h = Some (Z.of_nat (length d)) /\ field FULL_HASH h = Some (tdb_hash k) /\
      (length k + length d <= n_len n)%nat
  end.

Definition content (n : node) : list cell := match n_kv n with Some (k, d) => Some <$> k ++ d | None => [] end.

Definition node_at (m : list cell) (n : node) (next : Z) : Prop :=
  exists h, header_ok n next h /\ cells_at m (n_ptr n) (h ++ content n).

Lemma length_content n next h : header_ok n next h -> (length (content n) <= n_len n)%nat.
Proof.
  intros (_ & _ & _ & H). unfold content. destruct (n_kv n) as [[k d]|]; cbn; [|lia].
  rewrite length_fmap, length_app. lia.
Qed.

Lemma header_set_next n next next' h : header_ok n next h -> is_u32 next' -> header_ok n next' (set_field NEXT next' h).
Proof.
  intros (Hl & H1 & H2 & H3) Hn. unfold header_ok. rewrite length_set_field by auto with sna.
  rewrite !field_set_field by auto with sna. split_and!; [done..|].
  by destruct (n_kv n) as [[k d]|].
Qed.

Lemma header_member_next n next h : header_ok n next h -> word (member NEXT h) = Some next.
Proof. by intros (_ & _ & ? & _). Qed.

(** The words of a structure that hold the same next are interchangeable. *)
Lemma header_set_member_next n next next' h w : header_ok n next h -> length w = 4%nat -> word w = Some next' ->
  header_ok n next' (set_member NEXT w h).
Proof.
  intros (Hl & H1 & H2 & H3) Hw Hn. unfold header_ok. rewrite length_set_member by auto with sna.
  rewrite !field_set_member by auto with sna. split_and!; [done..|].
  by destruct (n_kv n) as [[k d]|].
Qed.

Lemma node_same m m' n next : node_at m n next -> same_on (span n) m m' -> node_at m' n next.
Proof.
  intros (h & Hh & Hc) Hs. exists h. split; [done|]. eapply cells_at_same; [done|]. eapply same_on_incl; [done|].
  intros i. unfold span. rewrite !elem_of_seq, length_app. pose proof (length_content _ _ _ Hh). destruct Hh as [-> _]. lia.
Qed.

(** Storing a structure over the one of a block. *)
Lemma node_store m m' n n' next next' h : node_at m n next -> header_ok n' next' h ->
  n_ptr n' = n_ptr n -> n_len n' = n_len n -> n_kv n' = n_kv n ->
  stored m (n_ptr n) h m' -> node_at m' n' next'.
Proof.
  intros (h0 & Hh0 & Hc) Hh Hp Hl Hkv Hs. exists h. split; [done|].
  destruct Hh0 as (H0 & _). pose proof Hh as (H1 & _). unfold content. rewrite Hp, Hkv. apply cells_at_app in Hc as [_ Hc].
  apply cells_at_app. split; [by eapply stored_same|]. rewrite H1, <- H0.
  eapply cells_at_same; [done|]. eapply stored_other; [done|]. intros i. rewrite !elem_of_seq. lia.
Qed.

(** ** Lists of blocks *)

(** From offset [p], the blocks [ns] linked by [next], to offset [q]. *)
Fixpoint lseg (m : list cell) (p : Z) (ns : list node) (q : Z) : Prop :=
  match ns with
  | [] => p = q
  | n :: ns => p = Z.of_nat (n_ptr n) /\ n_ptr n <> 0%nat /\ exists next, node_at m n next /\ lseg m next ns q
  end.

Lemma lseg_app m p a b q : lseg m p (a ++ b) q <-> exists r, lseg m p a r /\ lseg m r b q.
Proof.
  revert p. induction a as [|n a IH]; intros p; cbn.
  - split; [intros H; by exists p|by intros (r & -> & H)].
  - split.
    + intros (Hp & H0 & next & Hn & (r & Ha & Hb)%IH). exists r. split; [|done]. split_and!; [done..|]. by exists next.
    + intros (r & (Hp & H0 & next & Hn & Ha) & Hb). split_and!; [done..|]. exists next. split; [done|]. apply IH. by exists r.
Qed.

Lemma lseg_same m m' p ns q : lseg m p ns q -> same_on (spans ns) m m' -> lseg m' p ns q.
Proof.
  revert p. induction ns as [|n ns IH]; intros p; cbn; [done|]. unfold spans. cbn.
  intros (Hp & H0 & next & Hn & Hl) Hs. split_and!; [done..|]. exists next. split.
  - eapply node_same; [done|]. eapply same_on_incl; [done|]. intros i Hi. apply elem_of_app. by left.
  - apply IH; [done|]. eapply same_on_incl; [done|]. intros i Hi. apply elem_of_app. by right.
Qed.

Lemma spans_app a b : spans (a ++ b) = spans a ++ spans b.
Proof. unfold spans. by rewrite fmap_app, join_app. Qed.

Lemma spans_cons n ns : spans (n :: ns) = span n ++ spans ns.
Proof. done. Qed.

Lemma elem_of_spans i ns : i ∈ spans ns <-> exists n, n ∈ ns /\ i ∈ span n.
Proof.
  unfold spans. rewrite list_elem_of_join. split.
  - intros (l & Hi & (n & -> & Hn)%list_elem_of_fmap). by exists n.
  - intros (n & Hn & Hi). exists (span n). split; [done|]. by apply list_elem_of_fmap_2.
Qed.

(** The list whose first offset is the word at [off]. *)
Definition list_at (m : list cell) (off : nat) (ns : list node) : Prop :=
  exists w p, length w = 4%nat /\ word w = Some p /\ cells_at m off w /\ lseg m p ns 0.

Lemma list_same m m' off ns : list_at m off ns -> same_on (seq off 4) m m' -> same_on (spans ns) m m' -> list_at m' off ns.
Proof.
  intros (w & p & Hw & Hp & Hc & Hl) H1 H2. exists w, p. split_and!; [done|done| |].
  - eapply cells_at_same; [done|]. by rewrite Hw.
  - by eapply lseg_same.
Qed.

(** What a walk remembers of the block before: its offset and structure. *)
Definition last_ok (m : list cell) (a : list node) (last : option (Z * list cell)) : Prop :=
  match last with
  | None => a = []
  | Some (lp, h) => exists a' l next, a = a' ++ [l] /\ lp = Z.of_nat (n_ptr l) /\ header_ok l next h /\ cells_at m (n_ptr l) h
  end.

(** Where and what unlinking the block after [last] stores, [w] being the word
    of its [next]. *)
Definition unlink_at (off : nat) (last : option (Z * list cell)) : nat :=
  match last with None => off | Some (lp, _) => Z.to_nat lp end.
Definition unlink_cells (w : list cell) (last : option (Z * list cell)) : list cell :=
  match last with None => w | Some (_, h) => set_member NEXT w h end.

Lemma lseg_next m p n ns q : lseg m p (n :: ns) q -> exists next, node_at m n next /\ lseg m next ns q.
Proof. by intros (_ & _ & H). Qed.


(** ** Unlinking *)

Lemma header_inj m n n' next next' h h' : header_ok n next h -> header_ok n' next' h' ->
  cells_at m (n_ptr n) h -> cells_at m (n_ptr n) h' -> h = h'.
Proof.
  intros [H1 _] [H2 _] Hc Hc'. apply list_eq. intros i. destruct (decide (i < 24)%nat) as [Hi|Hi].
  - destruct (lookup_lt_is_Some_2 h i ltac:(lia)) as [x Hx]. destruct (lookup_lt_is_Some_2 h' i ltac:(lia)) as [y Hy].
    pose proof (Hc _ _ Hx). pose proof (Hc' _ _ Hy). congruence.
  - by rewrite !lookup_ge_None_2 by lia.
Qed.

Lemma node_at_header m n next next' h : node_at m n next -> header_ok n next' h -> cells_at m (n_ptr n) h -> next = next'.
Proof.
  intros (h0 & Hh0 & [Hc0 _]%cells_at_app) Hh Hc. pose proof (header_inj _ _ _ _ _ _ _ Hh0 Hh Hc0 Hc) as ->.
  destruct Hh0 as (_ & _ & H1 & _), Hh as (_ & _ & H2 & _). congruence.
Qed.

Lemma node_at_inj m n next next' : node_at m n next -> node_at m n next' -> next = next'.
Proof. intros H (h & Hh & [Hc _]%cells_at_app). by eapply node_at_header. Qed.

Lemma elem_of_header i n : i ∈ seq (n_ptr n) 24 -> i ∈ span n.
Proof. unfold span. rewrite !elem_of_seq. lia. Qed.

(** An element in two different parts of a list without duplicates. *)
Ltac disjoint :=
  repeat match goal with H : _ ∈ _ ++ _ |- _ => apply elem_of_app in H as [H|H] end;
  repeat match goal with H : NoDup ((_ ++ _) ++ _) |- _ => rewrite <- ?app_assoc in H end;
  repeat match goal with H : NoDup (_ ++ _) |- _ => apply NoDup_app in H as (? & ? & ?) end;
  solve [exfalso;
    match goal with H : forall x, x ∈ ?X -> x ∉ _, Hi : ?i ∈ ?X |- _ => apply (H i Hi); rewrite ?elem_of_app; tauto end].


Lemma unlink m m' off p a n b q last next w w' :
  lseg m p (a ++ n :: b) q -> length w = 4%nat -> word w = Some p -> cells_at m off w ->
  node_at m n next -> last_ok m a last -> NoDup (seq off 4 ++ spans (a ++ n :: b)) ->
  length w' = 4%nat -> word w' = Some next ->
  stored m (unlink_at off last) (unlink_cells w' last) m' ->
  (exists w2 p2, length w2 = 4%nat /\ word w2 = Some p2 /\ cells_at m' off w2 /\ lseg m' p2 (a ++ b) q) /\
  (forall l, (forall i, i ∈ l -> i ∉ seq off 4 /\ i ∉ spans a) -> same_on l m m').
Proof.
  intros Hl Hw Hp Hc Hn Hlast Hnd Hw' Hnext Hst. apply lseg_app in Hl as (r & Ha & Hb).
  destruct Hb as (Hr & H0 & next0 & Hn0 & Hb). rewrite (node_at_inj _ _ _ _ Hn0 Hn) in Hb.
  rewrite spans_app, spans_cons, !app_assoc in Hnd.
  destruct last as [[lp h]|]; cbn [unlink_at unlink_cells] in Hst.
  - destruct Hlast as (a' & l & nl & -> & -> & Hh & Hch). rewrite Nat2Z.id in Hst.
    assert (length (set_member NEXT w' h) = 24%nat) as H24 by (apply length_set_member; [auto with sna|apply Hh|done]).
    assert (forall l0, (forall i, i ∈ l0 -> i ∉ span l) -> same_on l0 m m') as Hsame.
    { intros l0 H. eapply stored_other; [done|]. intros i Hi. rewrite H24. intros Hi'. by apply (H i Hi), elem_of_header. }
    rewrite (spans_app a') in Hnd. cbn [spans fmap list_fmap mjoin list_join] in Hnd. unfold spans at 2 in Hnd.
    cbn [fmap list_fmap mjoin list_join] in Hnd. rewrite app_nil_r in Hnd.
    apply lseg_app in Ha as (rl & Ha' & (Hrl & Hl0 & nl' & Hnl & Hlast')). cbn in Hlast'.
    split.
    + exists w, p. split_and!; [done|done| |].
      * eapply cells_at_same; [done|]. apply Hsame. intros i Hi Hi2. rewrite Hw in Hi. disjoint.
      * rewrite <- app_assoc. apply lseg_app. exists rl. split.
        -- eapply lseg_same; [done|]. apply Hsame. intros i Hi Hi2. disjoint.
        -- cbn [app lseg]. split_and!; [done..|]. exists next. split.
           ++ eapply node_store; [exact Hnl| |done..]. by eapply header_set_member_next.
           ++ eapply lseg_same; [done|]. apply Hsame. intros i Hi Hi2. disjoint.
    + intros l0 H. apply Hsame. intros i Hi Hi2. destruct (H i Hi) as [_ H2]. apply H2. rewrite spans_app. apply elem_of_app.
      right. unfold spans. cbn. by rewrite app_nil_r.
  - cbn in Hlast. subst a. cbn in Ha. subst r. split.
    + exists w', next. split_and!; [done|done|by eapply stored_same|]. eapply lseg_same; [done|].
      eapply stored_other; [done|]. rewrite Hw'. intros i Hi Hi2.
      change (spans ([] ++ b)) with (spans b) in Hi. disjoint.
    + intros l0 H. eapply stored_other; [done|]. rewrite Hw'. intros i Hi. by apply H.
Qed.

(** ** Splitting *)

(** A free block with [len] of its space kept and the rest made a free block
    behind it. *)
Definition split_front (n : node) (len : nat) : node := MkNode (n_ptr n) len None.
Definition split_back (n : node) (len : nat) : node :=
  MkNode (n_ptr n + 24 + len) (n_len n - (24 + len)) None.

Lemma span_split n len : (24 + len <= n_len n)%nat -> span n = span (split_front n len) ++ span (split_back n len).
Proof.
  intros H. unfold span, split_front, split_back. cbn [n_ptr n_len]. rewrite <- Nat.add_assoc, <- seq_app. f_equal. lia.
Qed.

(** The two structures written: the new block behind, then the shortened one. *)
Lemma split m m1 m2 p a n b q next hb hf len :
  lseg m p (a ++ n :: b) q -> node_at m n next -> NoDup (spans (a ++ n :: b)) -> (24 + len <= n_len n)%nat ->
  header_ok (split_back n len) next hb -> header_ok (split_front n len) (Z.of_nat (n_ptr n + 24 + len)) hf ->
  stored m (n_ptr n + 24 + len) hb m1 -> stored m1 (n_ptr n) hf m2 ->
  lseg m2 p (a ++ split_front n len :: split_back n len :: b) q /\
  node_at m2 (split_front n len) (Z.of_nat (n_ptr n + 24 + len)) /\
  (forall l, (forall i, i ∈ l -> i ∉ span n) -> same_on l m m2).
Proof.
  intros Hl Hn Hnd Hlen Hhb Hhf Hs1 Hs2. apply lseg_app in Hl as (r & Ha & (Hr & H0 & next0 & Hn0 & Hb)).
  rewrite (node_at_inj _ _ _ _ Hn0 Hn) in Hb. rewrite spans_app, spans_cons in Hnd.
  pose proof (proj1 Hhb) as Lb. pose proof (proj1 Hhf) as Lf.
  assert (forall l, (forall i, i ∈ l -> i ∉ span n) -> same_on l m m2) as Hsame.
  { intros l H. eapply same_on_trans; (eapply stored_other; [done|]); intros i Hi; rewrite ?Lb, ?Lf; intros Hi2;
      apply (H i Hi); unfold span; apply elem_of_seq; apply elem_of_seq in Hi2; lia. }
  assert (node_at m2 (split_front n len) (Z.of_nat (n_ptr n + 24 + len))) as Hf.
  { exists hf. split; [done|]. cbn. rewrite app_nil_r. by eapply stored_same. }
  split_and!; [|done|done]. apply lseg_app. exists r. split.
  - eapply lseg_same; [done|]. apply Hsame. intros i Hi Hi2. disjoint.
  - cbn [lseg]. split_and!; [done..|]. exists (Z.of_nat (n_ptr n + 24 + len)). split; [done|].
    split_and!; [done|cbn; lia|]. exists next. split.
    + exists hb. split; [done|]. cbn [content split_back n_kv n_ptr]. rewrite app_nil_r. eapply cells_at_same; [by eapply stored_same|].
      eapply stored_other; [done|]. intros i. rewrite Lb, Lf, !elem_of_seq. lia.
    + eapply lseg_same; [done|]. apply Hsame. intros i Hi Hi2. disjoint.
Qed.
