(* ===== verification/TdbInv.v ===== *)
(** * The invariant of the database, and the steps that keep it

    [good] is what a context must be for its functions to work on a store;
    [inv] relates it to its lists of blocks: the free list, the chains, and a
    block taken from neither.  [region] is the part of the store a list owns: a
    change within one region leaves the other lists alone, which each of the
    steps the operations are made of (unlinking, splitting, freeing, linking,
    updating) is shown to be. *)
From S2P Require Import Prelude Tdb TdbMem.

(** ** Contexts in order *)

(** Where the blocks begin. *)
Definition body (t : TDB_CONTEXT) : nat := 44 + 4 * Z.to_nat (hash_size t).

Record good (t : TDB_CONTEXT) (m : list cell) : Prop := MkGood {
  good_store : store t = Some m;
  good_size : map_size t = Z.of_nat (length m);
  good_u32 : is_u32 (map_size t);
  good_oom : oom t = false;
  good_lockable : fd t = -1 \/ read_only t = false /\ lock_ok t = true;
  good_hash : 0 < hash_size t < 1073741000;
  good_locked : length (locked t) = S (Z.to_nat (hash_size t)) /\ Forall (Z.le 0) (locked t);
  good_body : (body t <= length m)%nat
}.

(** Only the store, its size and the error code may differ. *)
Definition same_ctx (t t' : TDB_CONTEXT) : Prop :=
  fd t' = fd t /\ read_only t' = read_only t /\ locked t' = locked t /\ hash_size t' = hash_size t /\
  lock_ok t' = lock_ok t /\ oom t' = oom t.

Lemma same_ctx_refl t : same_ctx t t.
Proof. done. Qed.
Lemma same_ctx_trans t1 t2 t3 : same_ctx t1 t2 -> same_ctx t2 t3 -> same_ctx t1 t3.
Proof. unfold same_ctx. intuition congruence. Qed.

Lemma good_set_store t m m' : good t m -> length m' = length m -> good (set_store (Some m') t) m'.
Proof. intros [H1 H2 H3 H4 H5 H6 H7 H8] Hl. split; cbn; try done; [by rewrite Hl|]. unfold body in *. cbn. by rewrite Hl. Qed.

Lemma good_set_locked t m l : good t m -> length l = S (Z.to_nat (hash_size t)) -> Forall (Z.le 0) l -> good (set_locked l t) m.
Proof. by intros [H1 H2 H3 H4 H5 H6 H7 H8]; split. Qed.

Lemma get_field_bind {B} f r v (k : Z -> T B) t : field f r = Some v -> (get_field f r ≫= k) t = k v t.
Proof. intros H. unfold get_field. by rewrite H, of_opt_Some_bind. Qed.

Lemma get_word_bind {B} w v (k : Z -> T B) t : word w = Some v -> (get_word w ≫= k) t = k v t.
Proof. intros H. unfold get_word. by rewrite H, of_opt_Some_bind. Qed.

(** ** Locks *)

Lemma tdb_brlock_ok t m : good t m -> tdb_brlock t = Ret 0 t.
Proof.
  intros H. unfold tdb_brlock. rewrite get_st_bind. destruct (good_lockable _ _ H) as [->|[-> ->]]; [done|]. by case_decide.
Qed.

Definition with_lock (l : Z) (t : TDB_CONTEXT) : TDB_CONTEXT :=
  set_locked (alter (Z.add 1) (Z.to_nat (l + 1)) (locked t)) t.

Lemma tdb_lock_ok t m l : good t m -> -1 <= l < hash_size t -> tdb_lock l t = Ret 0 (with_lock l t).
Proof.
  intros H Hl. unfold tdb_lock. rewrite get_st_bind, decide_False by lia.
  destruct (good_locked _ _ H) as [Hlen _]. destruct (lookup_lt_is_Some_2 (locked t) (Z.to_nat (l + 1)) ltac:(lia)) as [n Hn].
  rewrite Hn, of_opt_Some_bind.
  rewrite (M_bind_Ret _ _ _ 0 t) by (case_decide; [by eapply tdb_brlock_ok|done]). rewrite decide_False by lia.
  rewrite modify_bind. unfold with_lock. transitivity (Ret 0 (set_locked (<[Z.to_nat (l + 1) := n + 1]> (locked t)) t)); [done|].
  do 2 f_equal. apply list_eq. intros i. destruct (decide (i = Z.to_nat (l + 1))) as [->|Hne].
  - rewrite list_lookup_insert_eq by lia. rewrite list_lookup_alter_eq, Hn. cbn. f_equal. lia.
  - by rewrite list_lookup_insert_ne, list_lookup_alter_ne by congruence.
Qed.

Lemma with_lock_good t m l : good t m -> good (with_lock l t) m.
Proof.
  intros H. destruct (good_locked _ _ H) as [Hlen Hpos]. apply good_set_locked; [done|by rewrite length_alter|].
  apply Forall_alter; [done|]. intros x _ Hx. lia.
Qed.

(** Unlocking after any work that left the locks alone. *)
Lemma tdb_unlock_ok t m l t' m' : good t m -> good t' m' -> same_ctx (with_lock l t) t' -> -1 <= l < hash_size t ->
  tdb_unlock l t' = Ret 0 (set_locked (locked t) t').
Proof.
  intros H H' (_ & _ & Hlk & Hhs & _) Hl. cbn in Hlk, Hhs. unfold tdb_unlock. rewrite get_st_bind, Hhs, decide_False by lia.
  destruct (good_locked _ _ H) as [Hlen Hpos]. destruct (lookup_lt_is_Some_2 (locked t) (Z.to_nat (l + 1)) ltac:(lia)) as [n Hn].
  pose proof (Forall_lookup_1 _ _ _ _ Hpos Hn) as Hn0. cbn in Hn0.
  rewrite Hlk, list_lookup_alter_eq, Hn. cbn [fmap option_fmap option_map]. rewrite of_opt_Some_bind, decide_False by lia.
  rewrite (M_bind_Ret _ _ _ 0 t') by (case_decide; [by eapply tdb_brlock_ok|done]). rewrite decide_False by lia.
  rewrite modify_bind. transitivity (Ret 0 (set_locked (<[Z.to_nat (l + 1) := 1 + n - 1]>
    (alter (Z.add 1) (Z.to_nat (l + 1)) (locked t))) t')); [done|].
  do 2 f_equal. apply list_eq. intros i.
  destruct (decide (i = Z.to_nat (l + 1))) as [->|Hne].
  - rewrite list_lookup_insert_eq by (rewrite length_alter; lia). rewrite Hn. f_equal. lia.
  - by rewrite list_lookup_insert_ne, list_lookup_alter_ne by congruence.
Qed.

(** ** Access *)

Lemma tdb_oob_ok t m off : good t m -> off <= Z.of_nat (length m) -> tdb_oob off t = Ret 0 t.
Proof.
  intros H Ho. unfold tdb_oob. rewrite get_st_bind. rewrite decide_True; [done|]. left. rewrite (good_size _ _ H). done.
Qed.

Lemma tdb_read_ok t m off cs : good t m -> cells_at m off cs -> (off + length cs <= length m)%nat ->
  tdb_read (Z.of_nat off) (Z.of_nat (length cs)) t = Ret (Some cs) t.
Proof.
  intros H Hc Hb. pose proof (good_u32 _ _ H) as Hu. rewrite (good_size _ _ H) in Hu. unfold is_u32 in Hu.
  unfold tdb_read. rewrite u32_id by (unfold is_u32; lia).
  erewrite M_bind_Ret; [|by eapply tdb_oob_ok; [done|lia]]. rewrite decide_False by lia.
  rewrite get_st_bind, (good_store _ _ H), !Nat2Z.id. by rewrite mem_read_cells.
Qed.

Lemma tdb_write_ok t m off bs : good t m -> (off + length bs <= length m)%nat ->
  exists m', tdb_write (Z.of_nat off) bs t = Ret 0 (set_store (Some m') t) /\ stored m off bs m'.
Proof.
  intros H Hb. pose proof (good_u32 _ _ H) as Hu. rewrite (good_size _ _ H) in Hu. unfold is_u32 in Hu.
  unfold tdb_write. rewrite u32_id by (unfold is_u32; lia).
  erewrite M_bind_Ret; [|by eapply tdb_oob_ok; [done|lia]]. rewrite decide_False by lia.
  rewrite get_st_bind, (good_store _ _ H), !Nat2Z.id. case_decide.
  - destruct (mem_put_stored m off bs Hb) as (m' & -> & Hs). by exists m'.
  - destruct (good_lockable _ _ H) as [|[-> _]]; [done|]. eexists. split; [done|]. by apply file_put_stored.
Qed.

Lemma tdb_alloc_read_ok t m off cs : good t m -> cells_at m off cs -> (off + length cs <= length m)%nat ->
  tdb_alloc_read (Z.of_nat off) (Z.of_nat (length cs)) t = Ret (Some cs) t.
Proof. intros H Hc Hb. unfold tdb_alloc_read. rewrite get_st_bind, (good_oom _ _ H). by apply (tdb_read_ok _ m). Qed.

Lemma ofs_read_ok t m off w : good t m -> cells_at m off w -> length w = 4%nat -> (off + 4 <= length m)%nat ->
  ofs_read (Z.of_nat off) t = Ret (Some w) t.
Proof. intros H Hc Hw Hb. unfold ofs_read. rewrite <- (tdb_read_ok _ _ _ _ H Hc); [|lia]. by rewrite Hw. Qed.

Lemma stored_good t m off cs m' : good t m -> stored m off cs m' -> good (set_store (Some m') t) m'.
Proof. intros H [Hl _]. by apply good_set_store with m. Qed.

(** ** Looking for a key *)

Definition in_mem (m : list cell) (n : node) : Prop := (n_ptr n + 24 + n_len n <= length m)%nat.
Definition used (n : node) : Prop := is_Some (n_kv n).
Definition has_key (key : list Z) (n : node) : Prop := fst <$> n_kv n = Some key.

#[export] Instance has_key_dec key n : Decision (has_key key n).
Proof. unfold has_key. apply _. Defined.

Lemma lseg_bound m p ns : lseg m p ns 0 -> Forall (in_mem m) ns -> 0 <= p <= Z.of_nat (length m).
Proof.
  destruct ns as [|n ns]; cbn; [lia|]. intros (-> & _ & _) [Hn _]%Forall_cons. unfold in_mem in Hn. lia.
Qed.

Lemma node_header m n next : node_at m n next -> exists h, header_ok n next h /\ cells_at m (n_ptr n) h /\
  cells_at m (n_ptr n + 24) (content n).
Proof. intros (h & Hh & [H1 H2]%cells_at_app). exists h. rewrite (proj1 Hh) in H2. done. Qed.

Lemma read_header t m n next h : good t m -> in_mem m n -> header_ok n next h -> cells_at m (n_ptr n) h ->
  tdb_read (Z.of_nat (n_ptr n)) SIZEOF_REC t = Ret (Some h) t.
Proof.
  intros H Hb [Hl _] Hc. unfold in_mem in Hb. rewrite <- (tdb_read_ok t m (n_ptr n) h H Hc ltac:(lia)). by rewrite Hl.
Qed.

Lemma rec_read_ok t m n next h : good t m -> in_mem m n -> used n -> header_ok n next h -> cells_at m (n_ptr n) h ->
  next <= Z.of_nat (length m) -> rec_read (Z.of_nat (n_ptr n)) t = Ret (Some h) t.
Proof.
  intros H Hb [[k d] Hkv] Hh Hc Hn. unfold rec_read. rewrite (M_bind_Ret _ _ _ _ _ (read_header _ _ _ _ _ H Hb Hh Hc)).
  destruct Hh as (_ & _ & Hnext & Hm). rewrite Hkv in Hm. destruct Hm as (Hm & _).
  rewrite (get_field_bind _ _ _ _ _ Hm), decide_False by lia. rewrite (get_field_bind _ _ _ _ _ Hnext).
  erewrite M_bind_Ret; [|by eapply tdb_oob_ok]. by rewrite decide_False by lia.
Qed.

Lemma memcmp_eq_cells a b : length a = length b -> memcmp_eq a (Some <$> b) = Some (bool_decide (a = b)).
Proof.
  revert b. induction a as [|x a IH]; intros [|y b] Hl; try discriminate; [done|]. cbn. injection Hl as Hl.
  case_decide as E; [subst; rewrite IH by done|]; f_equal; [apply bool_decide_ext|symmetry; apply bool_decide_eq_false]; naive_solver.
Qed.

Lemma is_record_ok t m n next h key k d : good t m -> in_mem m n -> n_kv n = Some (k, d) -> header_ok n next h ->
  cells_at m (n_ptr n + 24) (content n) ->
  is_record key (tdb_hash key) (Z.of_nat (n_ptr n)) h t = Ret (Some (bool_decide (key = k))) t.
Proof.
  intros H Hb Hkv Hh Hc. unfold content in Hc. pose proof Hh as (_ & _ & _ & Hm). rewrite Hkv in Hm, Hc.
  destruct Hm as (_ & Hkl & _ & Hfh & Hlen). pose proof (good_u32 _ _ H) as Hu. rewrite (good_size _ _ H) in Hu.
  unfold in_mem, is_u32 in *. unfold is_record. rewrite (get_field_bind _ _ _ _ _ Hfh), (get_field_bind _ _ _ _ _ Hkl).
  case_decide as E.
  - destruct E as [_ El]. rewrite u32_id by (unfold is_u32, SIZEOF_REC; lia).
    rewrite fmap_app in Hc. apply cells_at_app in Hc as [Hc _].
    replace (Z.of_nat (n_ptr n) + SIZEOF_REC) with (Z.of_nat (n_ptr n + 24)) by (unfold SIZEOF_REC; lia).
    pose proof (tdb_alloc_read_ok t m (n_ptr n + 24) (Some <$> k) H Hc) as Hr. rewrite length_fmap in Hr.
    rewrite (M_bind_Ret _ _ _ _ _ (Hr ltac:(lia))). rewrite memcmp_eq_cells by lia. by rewrite of_opt_Some_bind.
  - rewrite bool_decide_false; [done|]. intros ->. by apply E.
Qed.

(** The walk along a chain: the first block with the key, or none. *)
Lemma find_loop_ok t m key : good t m -> forall fuel ns p, lseg m p ns 0 -> Forall (in_mem m) ns -> Forall used ns ->
  (length ns < fuel)%nat ->
  match list_find (has_key key) ns with
  | Some (_, n) => exists next h, find_loop fuel key (tdb_hash key) p t = Ret (Z.of_nat (n_ptr n), h) t /\
                     node_at m n next /\ header_ok n next h /\ cells_at m (n_ptr n) h
  | None => exists h, find_loop fuel key (tdb_hash key) p t = Ret (0, h) t
  end.
Proof.
  intros H. induction fuel as [|fuel IH]; intros ns p Hl Hb Hu Hf; [lia|].
  destruct ns as [|n ns]; cbn [lseg] in Hl; cbn [find_loop list_find].
  { subst p. rewrite decide_True by done. by eexists. }
  destruct Hl as (-> & H0 & next & Hn & Hl). apply Forall_cons in Hb as [Hb Hbs]. apply Forall_cons in Hu as [Hu Hus].
  rewrite (decide_False (P := Z.of_nat (n_ptr n) = 0)) by lia. destruct (node_header _ _ _ Hn) as (h & Hh & Hc & Hk). pose proof Hu as [[k d] Hkv].
  rewrite (M_bind_Ret _ _ _ _ _ (rec_read_ok _ _ _ _ _ H Hb Hu Hh Hc (proj2 (lseg_bound _ _ _ Hl Hbs)))).
  rewrite (M_bind_Ret _ _ _ _ _ (is_record_ok _ _ _ _ _ key _ _ H Hb Hkv Hh Hk)).
  case_bool_decide as E.
  - rewrite decide_True by (unfold has_key; rewrite Hkv; by subst). by exists next, h.
  - rewrite decide_False by (unfold has_key; rewrite Hkv; intros [=]; by subst).
    pose proof Hh as (_ & _ & Hnext & _). rewrite (get_field_bind _ _ _ _ _ Hnext).
    specialize (IH ns next Hl Hbs Hus ltac:(cbn in Hf; lia)).
    by destruct (list_find (has_key key) ns) as [[i n']|].
Qed.

(** ** The invariant *)

Definition mem (t : TDB_CONTEXT) : list cell := default [] (store t).
Definition bucket_off (b : nat) : nat := 44 + 4 * b.
Definition records (ns : list node) : list (list Z * list Z) := omap n_kv ns.
Definition bucket_of (t : TDB_CONTEXT) (key : list Z) : nat := Z.to_nat (BUCKET t (tdb_hash key)).

(** [fr] is the free list, [chains] the chain of each bucket; [extra] are blocks
    in no list.  All blocks are apart, behind the heads of the lists; each record
    is in the chain of its hash, and no key occurs twice. *)
Record inv (t : TDB_CONTEXT) (fr : list node) (chains : list (list node)) (extra : list node) : Prop := MkInv {
  inv_good : good t (mem t);
  inv_free : list_at (mem t) 40 fr;
  inv_chain : forall b ns, chains !! b = Some ns -> list_at (mem t) (bucket_off b) ns;
  inv_buckets : length chains = Z.to_nat (hash_size t);
  inv_nodup : NoDup (spans (extra ++ fr ++ mjoin chains));
  inv_bounds : Forall (fun i => body t <= i < length (mem t))%nat (spans (extra ++ fr ++ mjoin chains));
  inv_unused : Forall (fun n => n_kv n = None) fr;
  inv_used : forall b ns n, chains !! b = Some ns -> n ∈ ns -> exists k d, n_kv n = Some (k, d) /\ bucket_of t k = b;
  inv_keys : NoDup (records (mjoin chains)).*1
}.

(** The map the chains hold. *)
Definition db_map (chains : list (list node)) : gmap (list Z) (list Z) := list_to_map (records (mjoin chains)).

(** A datum as handed back. *)
Definition datum (d : list Z) : list cell := Some <$> d.

(** The abstract view. *)
Definition tdb_refines (t : TDB_CONTEXT) (M : gmap (list Z) (list Z)) : Prop :=
  exists fr chains, inv t fr chains [] /\ M = db_map chains.

Lemma inv_other_ctx t t' fr chains extra : inv t fr chains extra -> good t' (mem t) -> store t' = store t ->
  hash_size t' = hash_size t -> inv t' fr chains extra.
Proof.
  intros [H1 H2 H3 H4 H5 H6 H7 H8 H9] Hg Hs Hh.
  assert (mem t' = mem t) as Hm by (unfold mem; by rewrite Hs).
  split; rewrite ?Hm, ?Hh; try done.
  - unfold body in *. by rewrite Hh.
  - unfold bucket_of, BUCKET in *. by rewrite Hh.
Qed.

Lemma inv_with_lock t fr chains extra l : inv t fr chains extra -> inv (with_lock l t) fr chains extra.
Proof. intros H. eapply inv_other_ctx; [done| |done..]. apply with_lock_good, H. Qed.

Lemma inv_set_locked t fr chains extra l : inv t fr chains extra -> length l = S (Z.to_nat (hash_size t)) -> Forall (Z.le 0) l ->
  inv (set_locked l t) fr chains extra.
Proof. intros H H1 H2. eapply inv_other_ctx; [done| |done..]. apply good_set_locked; [apply H|done..]. Qed.

Lemma set_locked_with_lock t l : set_locked (locked t) (with_lock l t) = t.
Proof. by destruct t. Qed.

Lemma bucket_lt t m key : good t m -> 0 <= BUCKET t (tdb_hash key) < hash_size t.
Proof. intros H. unfold BUCKET. apply Z.mod_pos_bound, H. Qed.

Lemma hash_top t m key : good t m -> tdb_hash_top t (tdb_hash key) = Z.of_nat (bucket_off (bucket_of t key)).
Proof.
  intros H. pose proof (bucket_lt t m key H) as Hb. pose proof (good_hash _ _ H).
  unfold tdb_hash_top, bucket_of, bucket_off, FREELIST_TOP, SIZEOF_HEADER, SIZEOF_OFF. rewrite u32_id by (unfold is_u32; lia). lia.
Qed.

Lemma span_nonempty n : n_ptr n ∈ span n.
Proof. unfold span. rewrite elem_of_seq. lia. Qed.

Lemma spans_fuel ns N : NoDup (spans ns) -> Forall (fun i => i < N)%nat (spans ns) -> (length ns <= N)%nat.
Proof.
  intros Hnd Hb. transitivity (length (spans ns)).
  - clear. induction ns as [|n ns IH]; [done|]. rewrite spans_cons, length_app. unfold span. rewrite length_seq. cbn. lia.
  - rewrite <- (length_seq N 0). apply submseteq_length, NoDup_submseteq; [done|]. intros i Hi.
    rewrite Forall_forall in Hb. apply elem_of_seq. specialize (Hb i Hi). lia.
Qed.

Section Facts.
Context {t fr chains extra} (I : inv t fr chains extra).

Lemma inv_split : NoDup (spans extra ++ spans fr ++ spans (mjoin chains)).
Proof. rewrite <- !spans_app. apply (inv_nodup _ _ _ _ I). Qed.

Lemma inv_in n : n ∈ extra ++ fr ++ mjoin chains -> in_mem (mem t) n /\ (body t <= n_ptr n)%nat.
Proof.
  intros Hn. pose proof (inv_bounds _ _ _ _ I) as Hb. rewrite Forall_forall in Hb. unfold in_mem. split.
  - destruct (Hb (n_ptr n + 23 + n_len n)%nat); [|lia]. apply elem_of_spans. exists n. split; [done|].
    unfold span. apply elem_of_seq. lia.
  - apply Hb, elem_of_spans. exists n. split; [done|apply span_nonempty].
Qed.

Lemma chain_incl b ns n : chains !! b = Some ns -> n ∈ ns -> n ∈ mjoin chains.
Proof. intros Hc Hn. apply list_elem_of_join. exists ns. split; [done|]. by eapply list_elem_of_lookup_2. Qed.

Lemma chain_in b ns : chains !! b = Some ns -> Forall (in_mem (mem t)) ns.
Proof. intros Hc. apply Forall_forall. intros n Hn. apply inv_in. rewrite !elem_of_app. right; right. by eapply chain_incl. Qed.

Lemma chain_used b ns : chains !! b = Some ns -> Forall used ns.
Proof.
  intros Hc. apply Forall_forall. intros n Hn. destruct (inv_used _ _ _ _ I _ _ _ Hc Hn) as (k & d & E & _).
  unfold used. by rewrite E.
Qed.

Lemma free_in : Forall (in_mem (mem t)) fr.
Proof. apply Forall_forall. intros n Hn. apply inv_in. rewrite !elem_of_app. tauto. Qed.

Lemma spans_incl ns : (forall n, n ∈ ns -> n ∈ extra ++ fr ++ mjoin chains) ->
  forall i, i ∈ spans ns -> (body t <= i < length (mem t))%nat.
Proof.
  intros Hns i (n & Hn & Hi)%elem_of_spans. pose proof (inv_bounds _ _ _ _ I) as Hb. rewrite Forall_forall in Hb.
  apply Hb, elem_of_spans. exists n. by split; [apply Hns|].
Qed.

(** One chain and the blocks of the others. *)
Lemma chains_split b ns : chains !! b = Some ns ->
  mjoin chains = mjoin (take b chains) ++ ns ++ mjoin (drop (S b) chains).
Proof. intros Hc. rewrite <- (take_drop_middle _ _ _ Hc) at 1. rewrite join_app. done. Qed.

Lemma chain_nodup b ns : chains !! b = Some ns -> NoDup (spans ns).
Proof.
  intros Hc. pose proof inv_split as H. rewrite (chains_split _ _ Hc), !spans_app in H.
  apply NoDup_app in H as (_ & _ & H). apply NoDup_app in H as (_ & _ & H). apply NoDup_app in H as (_ & _ & H).
  by apply NoDup_app in H as (H & _ & _).
Qed.

Lemma chain_fuel b ns : chains !! b = Some ns -> (length ns < list_fuel t)%nat.
Proof.
  intros Hc. pose proof (spans_fuel ns (length (mem t)) (chain_nodup _ _ Hc)) as H.
  unfold list_fuel. change (default [] (store t)) with (mem t). enough (length ns <= length (mem t))%nat by lia.
  apply H, Forall_forall. intros i Hi. eapply spans_incl; [|done]. intros n Hn. rewrite !elem_of_app. right; right. by eapply chain_incl.
Qed.

Lemma free_fuel : (length fr < list_fuel t)%nat.
Proof.
  unfold list_fuel. change (default [] (store t)) with (mem t). enough (length fr <= length (mem t))%nat by lia.
  apply spans_fuel.
  - pose proof inv_split as H. apply NoDup_app in H as (_ & _ & H). by apply NoDup_app in H as (H & _ & _).
  - apply Forall_forall. intros i Hi. eapply spans_incl; [|done]. intros n Hn. rewrite !elem_of_app. tauto.
Qed.

(** The chain a key belongs to. *)
Lemma key_chain key : exists ns, chains !! bucket_of t key = Some ns.
Proof.
  apply lookup_lt_is_Some_2. rewrite (inv_buckets _ _ _ _ I). pose proof (bucket_lt t _ key (inv_good _ _ _ _ I)).
  unfold bucket_of. lia.
Qed.

Lemma records_lookup key ns : chains !! bucket_of t key = Some ns ->
  db_map chains !! key =
    '(_, n) ← list_find (has_key key) ns; snd <$> n_kv n.
Proof.
  intros Hc. destruct (list_find (has_key key) ns) as [[i n]|] eqn:E; cbn.
  - apply list_find_Some in E as (Hn & Hk & _). unfold has_key in Hk. destruct (n_kv n) as [[k d]|] eqn:Ekv; [|done].
    injection Hk as ->. cbn. apply elem_of_list_to_map; [apply I|]. unfold records. apply list_elem_of_omap. exists n.
    split; [|done]. eapply chain_incl; [done|]. by eapply list_elem_of_lookup_2.
  - apply list_find_None in E. apply not_elem_of_list_to_map. intros Hr.
    apply list_elem_of_fmap in Hr as ([k d] & -> & Hr).
    unfold records in Hr. apply list_elem_of_omap in Hr as (n & Hn & Hkv). apply list_elem_of_join in Hn as (ns' & Hn & Hns).
    apply list_elem_of_lookup in Hns as [b Hb]. destruct (inv_used _ _ _ _ I _ _ _ Hb Hn) as (k' & d' & Hkv' & Hbk).
    assert (k' = k) by congruence. subst k'. cbn in Hc. rewrite Hbk, Hb in Hc. injection Hc as ->.
    rewrite Forall_forall in E. apply (E n Hn). unfold has_key. by rewrite Hkv.
Qed.
End Facts.

(** ** Reading operations *)

Section Read.
Context {t fr chains extra} (I : inv t fr chains extra).

(** The head of the chain of a key. *)
Lemma read_top key : exists ns w p, chains !! bucket_of t key = Some ns /\
  ofs_read (tdb_hash_top t (tdb_hash key)) t = Ret (Some w) t /\ word w = Some p /\ length w = 4%nat /\
  cells_at (mem t) (bucket_off (bucket_of t key)) w /\ lseg (mem t) p ns 0.
Proof.
  destruct (key_chain I key) as [ns Hc]. destruct (inv_chain _ _ _ _ I _ _ Hc) as (w & p & Hw & Hp & Hcl & Hl).
  exists ns, w, p. split_and!; try done. pose proof (inv_good _ _ _ _ I) as Hg. rewrite (hash_top _ _ _ Hg).
  apply (ofs_read_ok _ (mem t)); [done..|].
  pose proof (good_body _ _ Hg). pose proof (bucket_lt t _ key Hg). unfold body, bucket_off, bucket_of in *. lia.
Qed.

Lemma tdb_find_ok key : exists ns, chains !! bucket_of t key = Some ns /\
  match list_find (has_key key) ns with
  | Some (_, n) => exists next h, tdb_find key (tdb_hash key) t = Ret (Z.of_nat (n_ptr n), h) t /\
                     node_at (mem t) n next /\ header_ok n next h /\ cells_at (mem t) (n_ptr n) h
  | None => exists h, tdb_find key (tdb_hash key) t = Ret (0, h) t
  end.
Proof.
  destruct (read_top key) as (ns & w & p & Hc & Hr & Hp & _ & _ & Hl). exists ns. split; [done|].
  pose proof (find_loop_ok t (mem t) key (inv_good _ _ _ _ I) (list_fuel t) ns p Hl (chain_in I _ _ Hc)
    (chain_used I _ _ Hc) (chain_fuel I _ _ Hc)) as H.
  unfold tdb_find. rewrite get_st_bind, (M_bind_Ret _ _ _ _ _ Hr), (get_word_bind _ _ _ _ Hp). exact H.
Qed.

(** The block the search finds. *)
Lemma find_node key i n ns : chains !! bucket_of t key = Some ns -> list_find (has_key key) ns = Some (i, n) ->
  exists d, n_kv n = Some (key, d) /\ n ∈ mjoin chains /\ in_mem (mem t) n /\ (body t <= n_ptr n)%nat.
Proof.
  intros Hc (Hn & Hk & _)%list_find_Some. unfold has_key in Hk. destruct (n_kv n) as [[k d]|] eqn:E; [|done].
  injection Hk as ->. exists d. assert (n ∈ mjoin chains) as Hin by (eapply chain_incl; [done|by eapply list_elem_of_lookup_2]).
  split_and!; [done|done|apply (inv_in I)..]; rewrite !elem_of_app; tauto.
Qed.
End Read.

(** ** Changes of the lists *)

Lemma spans_perm a b : a ≡ₚ b -> spans a ≡ₚ spans b.
Proof. intros H. unfold spans. by rewrite H. Qed.

Lemma mjoin_insert {A} (chains : list (list A)) b ns ns' : chains !! b = Some ns ->
  mjoin (<[b := ns']> chains) = mjoin (take b chains) ++ ns' ++ mjoin (drop (S b) chains).
Proof.
  intros H. rewrite insert_take_drop by (by eapply lookup_lt_Some). rewrite join_app. done.
Qed.

Lemma heads_apart b b' i : b <> b' -> i ∈ seq (bucket_off b) 4 -> i ∉ seq (bucket_off b') 4.
Proof. unfold bucket_off. rewrite !elem_of_seq. lia. Qed.

Lemma head_free_apart b i : i ∈ seq (bucket_off b) 4 -> i ∉ seq 40 4.
Proof. unfold bucket_off. rewrite !elem_of_seq. lia. Qed.

(** The parts of the store: the free list, a chain, the blocks of no list. *)
Inductive part : Type := PFree | PChain (b : nat) | PExtra.

(** A change of the store within a set of cells. *)
Definition confined (m m' : list cell) (X : list nat) : Prop :=
  length m' = length m /\ forall i, i ∉ X -> m' !! i = m !! i.

Lemma confined_same m m' X l : confined m m' X -> (forall i, i ∈ l -> i ∉ X) -> same_on l m m'.
Proof. intros [_ H] Hl i Hi. by apply H, Hl. Qed.

Lemma confined_trans m1 m2 m3 X : confined m1 m2 X -> confined m2 m3 X -> confined m1 m3 X.
Proof. intros [L1 H1] [L2 H2]. split; [congruence|]. intros i Hi. by rewrite H2, H1. Qed.

Lemma confined_mono m m' X Y : confined m m' X -> (forall i, i ∈ X -> i ∈ Y) -> confined m m' Y.
Proof. intros [L H] HXY. split; [done|]. intros i Hi. apply H. intros Hx. by apply Hi, HXY. Qed.

Lemma stored_confined m off cs m' X : stored m off cs m' -> (forall i, i ∈ seq off (length cs) -> i ∈ X) -> confined m m' X.
Proof.
  intros [L H] HX. split; [done|]. intros i Hi. rewrite H, decide_False; [done|]. intros Hr. apply Hi, HX, elem_of_seq. lia.
Qed.

Section Parts.
Context {t fr chains extra} (I : inv t fr chains extra).

Definition part_nodes (p : part) : list node :=
  match p with PFree => fr | PChain b => default [] (chains !! b) | PExtra => extra end.
Definition part_head (p : part) : list nat :=
  match p with PFree => seq 40 4 | PChain b => seq (bucket_off b) 4 | PExtra => [] end.
Definition region (p : part) : list nat := part_head p ++ spans (part_nodes p).
Definition valid (p : part) : Prop := match p with PChain b => (b < Z.to_nat (hash_size t))%nat | _ => True end.

Lemma chain_lt b ns : chains !! b = Some ns -> valid (PChain b).
Proof. intros H. cbn. rewrite <- (inv_buckets _ _ _ _ I). by eapply lookup_lt_Some. Qed.

Lemma head_low p i : valid p -> i ∈ part_head p -> (i < body t)%nat.
Proof.
  destruct p; cbn [valid part_head]; unfold body, bucket_off; intros V Hi;
    [apply elem_of_seq in Hi; lia..|by apply elem_of_nil in Hi].
Qed.

Lemma part_nodes_incl p n : n ∈ part_nodes p -> n ∈ extra ++ fr ++ mjoin chains.
Proof.
  rewrite !elem_of_app. destruct p; cbn; [tauto| |tauto]. destruct (chains !! b) eqn:E; cbn; [|by intros ?%elem_of_nil].
  intros Hn. right; right. by eapply chain_incl.
Qed.

Lemma part_high p i : i ∈ spans (part_nodes p) -> (body t <= i < length (mem t))%nat.
Proof. apply (spans_incl I). intros n. apply part_nodes_incl. Qed.

(** Two different chains share no block. *)
Lemma chains_apart b b' ns ns' i : chains !! b = Some ns -> chains !! b' = Some ns' -> b <> b' ->
  i ∈ spans ns -> i ∉ spans ns'.
Proof.
  intros Hb Hb' Hne Hi Hi'. pose proof (inv_split I) as H. rewrite (chains_split _ _ Hb), !spans_app in H.
  assert (i ∈ spans (mjoin (take b chains)) \/ i ∈ spans (mjoin (drop (S b) chains))) as [Ho|Ho]; [|disjoint..].
  apply elem_of_spans in Hi' as (n & Hn & Hi').
  destruct (decide (b' < b)%nat); [left|right]; apply elem_of_spans; exists n; split; try done;
    apply list_elem_of_join; exists ns'; split; try done.
  - apply list_elem_of_lookup. exists b'. by rewrite lookup_take_lt.
  - apply list_elem_of_lookup. exists (b' - S b)%nat. rewrite lookup_drop. by replace (S b + (b' - S b))%nat with b' by lia.
Qed.

Lemma part_spans_apart p p' i : p <> p' -> i ∈ spans (part_nodes p) -> i ∉ spans (part_nodes p').
Proof.
  intros Hne Hi Hi'. pose proof (inv_split I) as H.
  destruct p as [|b|], p' as [|b'|]; cbn in Hi, Hi'; try done; try disjoint.
  all: try (destruct (chains !! b) as [ns|] eqn:Hb; cbn in Hi; [|by apply elem_of_nil in Hi]).
  all: try (destruct (chains !! b') as [ns'|] eqn:Hb'; cbn in Hi'; [|by apply elem_of_nil in Hi']).
  3:{ eapply (chains_apart b b'); [done..| |done|done]. congruence. }
  all: match goal with Hc : chains !! _ = Some _ |- _ => rewrite (chains_split _ _ Hc), !spans_app in H end; disjoint.
Qed.

Lemma regions_apart p p' i : valid p -> valid p' -> p <> p' -> i ∈ region p -> i ∉ region p'.
Proof.
  unfold region. intros V V' Hne [Hi|Hi]%elem_of_app [Hi'|Hi']%elem_of_app.
  - destruct p as [|b|], p' as [|b'|]; cbn [part_head] in *; unfold bucket_off in *;
      rewrite ?elem_of_seq, ?elem_of_nil in *; try lia; try done.
    assert (b <> b') by congruence. lia.
  - pose proof (head_low _ _ V Hi). pose proof (part_high _ _ Hi'). lia.
  - pose proof (head_low _ _ V' Hi'). pose proof (part_high _ _ Hi). lia.
  - by eapply part_spans_apart.
Qed.

Lemma region_nodup p : valid p -> NoDup (region p).
Proof.
  intros V. unfold region. apply NoDup_app. split_and!.
  - destruct p; [apply NoDup_seq..|constructor].
  - intros i Hi Hs. pose proof (head_low _ _ V Hi). pose proof (part_high _ _ Hs). lia.
  - pose proof (inv_split I) as H. destruct p as [|b|]; cbn.
    + apply NoDup_app in H as (_ & _ & H). by apply NoDup_app in H as (H & _ & _).
    + destruct (chains !! b) as [ns|] eqn:E; cbn; [by eapply (chain_nodup I)|constructor].
    + by apply NoDup_app in H as (H & _ & _).
Qed.

(** A change within one part leaves the lists of the others. *)
Lemma keep_free m' p : valid p -> p <> PFree -> confined (mem t) m' (region p) -> list_at m' 40 fr.
Proof.
  intros V Hne Hc. eapply list_same; [apply (inv_free _ _ _ _ I)|..]; (eapply confined_same; [done|]); intros i Hi;
    (eapply (regions_apart PFree); [done|done|congruence|]); unfold region; cbn [part_head part_nodes]; rewrite elem_of_app; tauto.
Qed.

Lemma keep_chain m' p b ns : valid p -> p <> PChain b -> chains !! b = Some ns -> confined (mem t) m' (region p) ->
  list_at m' (bucket_off b) ns.
Proof.
  intros V Hne Hb Hc. eapply list_same; [by apply (inv_chain _ _ _ _ I)|..]; (eapply confined_same; [done|]); intros i Hi;
    (eapply (regions_apart (PChain b)); [by eapply chain_lt|done|congruence|]); unfold region; cbn [part_head part_nodes]; rewrite Hb, elem_of_app; tauto.
Qed.

(** A block of another part. *)
Lemma keep_node m' p p' n next : p <> p' -> valid p -> valid p' -> n ∈ part_nodes p' -> node_at (mem t) n next ->
  confined (mem t) m' (region p) -> node_at m' n next.
Proof.
  intros Hne V V' Hn Hat Hc. eapply node_same; [done|]. eapply confined_same; [done|]. intros i Hi.
  eapply (regions_apart p'); [done|done|congruence|]. unfold region. apply elem_of_app. right. apply elem_of_spans. by exists n.
Qed.
End Parts.

(** The blocks of no list are left alone by a change elsewhere. *)
Lemma keep_extra t fr chains extra (I : inv t fr chains extra) m' p n : valid (t := t) p -> p <> PExtra -> n ∈ extra ->
  confined (mem t) m' (region (fr := fr) (chains := chains) (extra := extra) p) -> same_on (span n) (mem t) m'.
Proof.
  intros V Hne Hn Hc. eapply confined_same; [done|]. intros i Hi.
  eapply (regions_apart I PExtra); [done|done|congruence|]. unfold region. apply elem_of_app. right. apply elem_of_spans. by exists n.
Qed.

Lemma part_nodes_chain fr chains extra b ns : chains !! b = Some ns ->
  part_nodes (fr := fr) (chains := chains) (extra := extra) (PChain b) = ns.
Proof. intros H. cbn. by rewrite H. Qed.

(** ** Steps that keep the invariant *)

Lemma inv_rebuild t fr chains extra t' fr' chains' extra' : inv t fr chains extra ->
  good t' (mem t') -> hash_size t' = hash_size t -> length (mem t') = length (mem t) ->
  list_at (mem t') 40 fr' -> (forall b ns, chains' !! b = Some ns -> list_at (mem t') (bucket_off b) ns) ->
  length chains' = length chains -> spans (extra' ++ fr' ++ mjoin chains') ≡ₚ spans (extra ++ fr ++ mjoin chains) ->
  Forall (fun n => n_kv n = None) fr' ->
  (forall b ns n, chains' !! b = Some ns -> n ∈ ns -> exists k d, n_kv n = Some (k, d) /\ bucket_of t k = b) ->
  NoDup (records (mjoin chains')).*1 -> inv t' fr' chains' extra'.
Proof.
  intros I Hg Hh Hl Hf Hc Hlen Hp Hu Hused Hk. split; try done.
  - rewrite Hlen, Hh. apply I.
  - rewrite Hp. apply I.
  - rewrite Hp, Hl. unfold body. rewrite Hh. apply I.
  - unfold bucket_of, BUCKET in *. by rewrite Hh.
Qed.

Section Steps.
Context {t fr chains extra} (I : inv t fr chains extra).

Lemma stored_good_mem off cs m' : stored (mem t) off cs m' -> good (set_store (Some m') t) m'.
Proof. apply stored_good, I. Qed.

Lemma confined_good m' X : confined (mem t) m' X -> good (set_store (Some m') t) m'.
Proof. intros [L _]. apply good_set_store with (mem t); [apply I|done]. Qed.

Lemma used_insert b ns ns' : chains !! b = Some ns ->
  (forall n, n ∈ ns' -> exists k d, n_kv n = Some (k, d) /\ bucket_of t k = b) ->
  forall b' ns0 n, <[b := ns']> chains !! b' = Some ns0 -> n ∈ ns0 -> exists k d, n_kv n = Some (k, d) /\ bucket_of t k = b'.
Proof.
  intros Hb Hn b' ns0 n H Hin. destruct (decide (b' = b)) as [->|Hne].
  - rewrite list_lookup_insert_eq in H by (by eapply lookup_lt_Some). injection H as <-. by apply Hn.
  - rewrite list_lookup_insert_ne in H by done. by eapply (inv_used _ _ _ _ I).
Qed.

Lemma lists_insert b ns ns' m' : chains !! b = Some ns -> confined (mem t) m' (region (fr := fr) (chains := chains) (extra := extra) (PChain b)) ->
  list_at m' (bucket_off b) ns' -> forall b' ns0, <[b := ns']> chains !! b' = Some ns0 -> list_at m' (bucket_off b') ns0.
Proof.
  intros Hb Hc Hl b' ns0 H. destruct (decide (b' = b)) as [->|Hne].
  - rewrite list_lookup_insert_eq in H by (by eapply lookup_lt_Some). by injection H as <-.
  - rewrite list_lookup_insert_ne in H by done. eapply (keep_chain I _ (PChain b)); [by eapply (chain_lt I)|congruence|done|done].
Qed.
Lemma records_app a b : records (a ++ b) = records a ++ records b.
Proof. apply omap_app. Qed.

(** The records of the other chains, before and after the one of [b]. *)
Lemma records_insert b ns ns' : chains !! b = Some ns -> exists r1 r2,
  records (mjoin chains) = r1 ++ records ns ++ r2 /\ records (mjoin (<[b := ns']> chains)) = r1 ++ records ns' ++ r2.
Proof.
  intros Hb. eexists _, _. rewrite (mjoin_insert _ _ _ _ Hb), (chains_split b ns Hb), !records_app. done.
Qed.

Lemma spans_insert b ns ns' : chains !! b = Some ns -> exists s1 s2,
  spans (mjoin chains) = s1 ++ spans ns ++ s2 /\ spans (mjoin (<[b := ns']> chains)) = s1 ++ spans ns' ++ s2.
Proof.
  intros Hb. eexists _, _. rewrite (mjoin_insert _ _ _ _ Hb), (chains_split b ns Hb), !spans_app. done.
Qed.

Lemma unlink_confined off m' a n b q last next w w' p :
  lseg (mem t) p (a ++ n :: b) q -> length w = 4%nat -> word w = Some p -> cells_at (mem t) off w ->
  node_at (mem t) n next -> last_ok (mem t) a last -> NoDup (seq off 4 ++ spans (a ++ n :: b)) ->
  length w' = 4%nat -> word w' = Some next -> stored (mem t) (unlink_at off last) (unlink_cells w' last) m' ->
  (exists w2 p2, length w2 = 4%nat /\ word w2 = Some p2 /\ cells_at m' off w2 /\ lseg m' p2 (a ++ b) q) /\
  confined (mem t) m' (seq off 4 ++ spans (a ++ n :: b)) /\ node_at m' n next.
Proof.
  intros Hl Hw Hp Hc Hn Hlast Hnd Hw' Hnext Hst.
  destruct (unlink _ _ _ _ _ _ _ _ _ _ _ _ Hl Hw Hp Hc Hn Hlast Hnd Hw' Hnext Hst) as [Hnew Hsame].
  split_and!; [done| |].
  - split; [apply Hst|]. intros i Hi. apply (Hsame [i]); [|by left]. intros j ->%list_elem_of_singleton.
    rewrite spans_app, !elem_of_app in Hi. tauto.
  - eapply node_same; [done|]. apply Hsame. intros i Hi. rewrite spans_app, spans_cons in Hnd. split; intros Hi'; disjoint.
Qed.

(** A record taken out of its chain becomes a block of no list. *)
Lemma inv_unlink_chain b a n c next last w' m' :
  chains !! b = Some (a ++ n :: c) -> node_at (mem t) n next -> last_ok (mem t) a last ->
  length w' = 4%nat -> word w' = Some next ->
  stored (mem t) (unlink_at (bucket_off b) last) (unlink_cells w' last) m' ->
  inv (set_store (Some m') t) fr (<[b := a ++ c]> chains) (n :: extra) /\
  confined (mem t) m' (region (fr := fr) (chains := chains) (extra := extra) (PChain b)).
Proof.
  intros Hb Hn Hlast Hw' Hnext Hst. destruct (inv_chain _ _ _ _ I _ _ Hb) as (w & p & Hw & Hp & Hc & Hl).
  pose proof (region_nodup I (PChain b) (chain_lt I _ _ Hb)) as Hnd. unfold region in Hnd. cbn in Hnd. rewrite Hb in Hnd. cbn in Hnd.
  destruct (unlink_confined _ _ _ _ _ _ _ _ _ _ _ Hl Hw Hp Hc Hn Hlast Hnd Hw' Hnext Hst) as (Hnew & Hconf & Hn').
  assert (confined (mem t) m' (region (fr := fr) (chains := chains) (extra := extra) (PChain b))) as Hconf'.
  { unfold region. cbn. by rewrite Hb. }
  split; [|done]. destruct (records_insert b _ (a ++ c) Hb) as (r1 & r2 & Hr & Hr').
  destruct (spans_insert b _ (a ++ c) Hb) as (s1 & s2 & Hs & Hs').
  eapply (inv_rebuild t fr chains extra); [exact I|by eapply confined_good|done|apply Hconf| | |apply length_insert| | | |].
  - eapply (keep_free I _ (PChain b)); [by eapply (chain_lt I)|done|done].
  - eapply lists_insert; [done|done|]. exact Hnew.
  - rewrite !spans_app, spans_cons, Hs, Hs', !spans_app, spans_cons. solve_Permutation.
  - apply I.
  - apply (used_insert b _ _ Hb). intros x Hx. apply (inv_used _ _ _ _ I b (a ++ n :: c)); [done|]. set_solver.
  - pose proof (inv_keys _ _ _ _ I) as Hk. rewrite Hr, !records_app in Hk. rewrite Hr', !records_app.
    change (n :: c) with ([n] ++ c) in Hk. rewrite records_app in Hk. rewrite !fmap_app in *.
    revert Hk. rewrite !NoDup_app. set_solver.
Qed.

(** A block taken out of the free list. *)
Lemma inv_unlink_free a n c next last w' m' :
  fr = a ++ n :: c -> node_at (mem t) n next -> last_ok (mem t) a last ->
  length w' = 4%nat -> word w' = Some next ->
  stored (mem t) (unlink_at 40 last) (unlink_cells w' last) m' ->
  inv (set_store (Some m') t) (a ++ c) chains (n :: extra) /\ node_at m' n next.
Proof.
  intros Hfr Hn Hlast Hw' Hnext Hst. destruct (inv_free _ _ _ _ I) as (w & p & Hw & Hp & Hc & Hl). rewrite Hfr in Hl.
  pose proof (region_nodup I PFree Logic.I) as Hnd. unfold region in Hnd. cbn [part_head part_nodes] in Hnd. rewrite Hfr in Hnd.
  destruct (unlink_confined _ _ _ _ _ _ _ _ _ _ _ Hl Hw Hp Hc Hn Hlast Hnd Hw' Hnext Hst) as (Hnew & Hconf & Hn').
  split; [|done].
  eapply (inv_rebuild t fr chains extra); [exact I|by eapply confined_good|done|apply Hconf|exact Hnew| |done| | |apply I|apply I].
  - intros b ns Hb. eapply (keep_chain I _ PFree); [done|done|done|]. unfold region. cbn [part_head part_nodes]. by rewrite Hfr.
  - rewrite Hfr, !spans_app, !spans_cons. solve_Permutation.
  - pose proof (inv_unused _ _ _ _ I) as Hu. rewrite Hfr in Hu. apply Forall_app in Hu as [H1 [_ H2]%Forall_cons]. by apply Forall_app.
Qed.

(** A free block split in two in the free list. *)
Lemma inv_split_free a n c next hb hf len m1 m2 :
  fr = a ++ n :: c -> node_at (mem t) n next -> (24 + len <= n_len n)%nat ->
  header_ok (split_back n len) next hb -> header_ok (split_front n len) (Z.of_nat (n_ptr n + 24 + len)) hf ->
  stored (mem t) (n_ptr n + 24 + len) hb m1 -> stored m1 (n_ptr n) hf m2 ->
  inv (set_store (Some m2) t) (a ++ split_front n len :: split_back n len :: c) chains extra /\
  node_at m2 (split_front n len) (Z.of_nat (n_ptr n + 24 + len)) /\ (forall l, l ∈ a -> same_on (span l) (mem t) m2).
Proof.
  intros Hfr Hn Hlen Hb Hf Hs1 Hs2. destruct (inv_free _ _ _ _ I) as (w & p & Hw & Hp & Hc & Hl). rewrite Hfr in Hl.
  pose proof (region_nodup I PFree Logic.I) as Hnd. unfold region in Hnd. cbn [part_head part_nodes] in Hnd. rewrite Hfr in Hnd.
  pose proof Hnd as Hnd2. apply NoDup_app in Hnd2 as (_ & _ & Hnd2).
  destruct (split _ _ _ _ _ _ _ _ _ _ _ _ Hl Hn Hnd2 Hlen Hb Hf Hs1 Hs2) as (Hnew & Hfront & Hsame).
  rewrite spans_app, spans_cons in Hnd.
  assert (confined (mem t) m2 (region (fr := fr) (chains := chains) (extra := extra) PFree)) as Hconf.
  { split; [transitivity (length m1); [apply Hs2|apply Hs1]|]. intros i Hi. apply (Hsame [i]); [|by left].
    intros j ->%list_elem_of_singleton Hj. apply Hi. unfold region. cbn [part_head part_nodes]. rewrite Hfr, spans_app, spans_cons, !elem_of_app. tauto. }
  split_and!; [|done|].
  - eapply (inv_rebuild t fr chains extra); [exact I|by eapply confined_good|done|apply Hconf| | |done| | |apply I|apply I].
    + exists w, p. split_and!; [done|done| |done]. eapply cells_at_same; [done|]. apply Hsame. rewrite Hw. intros i Hi Hi'. disjoint.
    + intros b ns Hb'. by eapply (keep_chain I _ PFree).
    + rewrite Hfr, !spans_app, !spans_cons, (span_split n len Hlen). solve_Permutation.
    + pose proof (inv_unused _ _ _ _ I) as Hu. rewrite Hfr in Hu. apply Forall_app in Hu as [H1 [_ H2]%Forall_cons].
      apply Forall_app. split; [done|]. by repeat constructor.
  - intros l Hin. apply Hsame. intros i Hi Hi'. assert (i ∈ spans a) as Ha by (apply elem_of_spans; by exists l). disjoint.
Qed.

(** A block of no list put at the top of the free list. *)
Lemma inv_push_free n ex w p h w' m1 m2 :
  extra = n :: ex -> length w = 4%nat -> word w = Some p -> cells_at (mem t) 40 w ->
  header_ok (MkNode (n_ptr n) (n_len n) None) p h -> stored (mem t) (n_ptr n) h m1 ->
  length w' = 4%nat -> word w' = Some (Z.of_nat (n_ptr n)) -> stored m1 40 w' m2 ->
  inv (set_store (Some m2) t) (MkNode (n_ptr n) (n_len n) None :: fr) chains ex.
Proof.
  intros Hex Hw Hp Hc Hh Hs1 Hw' Hp' Hs2. destruct (inv_free _ _ _ _ I) as (w0 & p0 & Hw0 & Hp0 & Hc0 & Hl).
  assert (w0 = w) as ->.
  { apply list_eq. intros i. destruct (decide (i < 4)%nat).
    - destruct (lookup_lt_is_Some_2 w i ltac:(lia)) as [x Hx]. destruct (lookup_lt_is_Some_2 w0 i ltac:(lia)) as [y Hy].
      pose proof (Hc _ _ Hx). pose proof (Hc0 _ _ Hy). congruence.
    - by rewrite !lookup_ge_None_2 by lia. }
  assert (p0 = p) as -> by congruence. pose proof (proj1 Hh) as Hlh.
  assert (confined (mem t) m1 (region (fr := fr) (chains := chains) (extra := extra) PExtra)) as C1.
  { eapply stored_confined; [done|]. intros i Hi. unfold region. cbn [part_head part_nodes app]. rewrite Hex, spans_cons. apply elem_of_app. left.
    apply elem_of_header. by rewrite <- Hlh. }
  assert (confined m1 m2 (seq 40 4)) as C2 by (eapply stored_confined; [done|by rewrite Hw']).
  destruct (inv_in I n) as [_ Hbody]; [rewrite Hex; by left|].
  assert (forall i, i ∈ spans (extra ++ fr ++ mjoin chains) -> i ∉ seq 40 4) as Hhigh.
  { intros i Hi Hi'. pose proof (inv_bounds _ _ _ _ I) as Hb. rewrite Forall_forall in Hb. specialize (Hb i Hi).
    unfold body in Hb. apply elem_of_seq in Hi'. lia. }
  assert (length m2 = length (mem t)) as Hlen by (transitivity (length m1); [apply C2|apply C1]).
  eapply (inv_rebuild t fr chains extra); [exact I|apply good_set_store with (mem t); [apply I|done]|done|exact Hlen| | |done| | |apply I|apply I].
  - exists w', (Z.of_nat (n_ptr n)). split_and!; [done|done|by eapply stored_same|]. cbn [lseg n_ptr].
    split_and!; [done|unfold body in Hbody; lia|]. exists p. split.
    + exists h. split; [done|]. cbn [content n_kv n_ptr]. rewrite app_nil_r. eapply cells_at_same; [by eapply stored_same|].
      eapply confined_same; [done|]. rewrite Hlh. intros i Hi. apply Hhigh. rewrite Hex. cbn [app]. rewrite spans_cons. apply elem_of_app. left.
      by apply elem_of_header.
    + eapply lseg_same; [done|]. eapply same_on_trans; [eapply confined_same; [exact C1|]|eapply confined_same; [exact C2|]]; intros i Hi.
      * eapply (regions_apart I PFree); [done|done|done|]. unfold region. apply elem_of_app. by right.
      * apply Hhigh. rewrite !spans_app, !elem_of_app. tauto.
  - intros b ns Hb. pose proof (keep_chain I m1 PExtra b ns Logic.I ltac:(done) Hb C1) as Hk. eapply list_same; [done|..];
      (eapply confined_same; [exact C2|]); intros i Hi.
    + by eapply head_free_apart.
    + apply Hhigh. rewrite !spans_app. rewrite (chains_split b ns Hb), !spans_app, !elem_of_app. tauto.
  - rewrite Hex, !spans_app, !spans_cons. unfold span at 2. cbn [n_ptr n_len]. fold (span n). solve_Permutation.
  - constructor; [done|apply I].
Qed.

(** The cells of a word are determined. *)
Lemma word_at_inj off w w' : length w = 4%nat -> length w' = 4%nat -> cells_at (mem t) off w -> cells_at (mem t) off w' -> w = w'.
Proof.
  intros Hw Hw' H H'. apply list_eq. intros i. destruct (decide (i < 4)%nat).
  - destruct (lookup_lt_is_Some_2 w i ltac:(lia)) as [x Hx]. destruct (lookup_lt_is_Some_2 w' i ltac:(lia)) as [y Hy].
    pose proof (H _ _ Hx). pose proof (H' _ _ Hy). congruence.
  - by rewrite !lookup_ge_None_2 by lia.
Qed.

(** A record written into a block of no list, and put at the top of its chain. *)
Lemma inv_link n ex b ns k d w p h w' m1 m2 :
  let n' := MkNode (n_ptr n) (n_len n) (Some (k, d)) in
  extra = n :: ex -> chains !! b = Some ns -> bucket_of t k = b -> k ∉ (records (mjoin chains)).*1 ->
  length w = 4%nat -> word w = Some p -> cells_at (mem t) (bucket_off b) w ->
  header_ok n' p h -> stored (mem t) (n_ptr n) (h ++ datum (k ++ d)) m1 ->
  length w' = 4%nat -> word w' = Some (Z.of_nat (n_ptr n)) -> stored m1 (bucket_off b) w' m2 ->
  inv (set_store (Some m2) t) fr (<[b := n' :: ns]> chains) ex.
Proof.
  intros n' Hex Hb Hbk Hk Hw Hp Hc Hh Hs1 Hw' Hp' Hs2. destruct (inv_chain _ _ _ _ I _ _ Hb) as (w0 & p0 & Hw0 & Hp0 & Hc0 & Hl).
  rewrite (word_at_inj _ _ _ Hw0 Hw Hc0 Hc) in Hp0. assert (p0 = p) as -> by congruence.
  pose proof (proj1 Hh) as Hlh. pose proof (length_content _ _ _ Hh) as Hlc. cbn [content n' n_kv n_len] in Hlc.
  assert (length (h ++ datum (k ++ d)) <= 24 + n_len n)%nat as Hlen1 by (rewrite length_app; unfold datum; lia).
  assert (forall i, i ∈ seq (n_ptr n) (length (h ++ datum (k ++ d))) -> i ∈ span n) as Hspan.
  { intros i. unfold span. rewrite !elem_of_seq. lia. }
  assert (confined (mem t) m1 (region (fr := fr) (chains := chains) (extra := extra) PExtra)) as C1.
  { eapply stored_confined; [done|]. intros i Hi. unfold region. cbn [part_head part_nodes app]. rewrite Hex, spans_cons.
    apply elem_of_app. left. by apply Hspan. }
  assert (confined m1 m2 (seq (bucket_off b) 4)) as C2 by (eapply stored_confined; [done|by rewrite Hw']).
  destruct (inv_in I n) as [_ Hbody]; [rewrite Hex; by left|].
  pose proof (chain_lt I _ _ Hb) as Hlt.
  assert (forall i, i ∈ spans (extra ++ fr ++ mjoin chains) -> i ∉ seq (bucket_off b) 4) as Hhigh.
  { intros i Hi Hi'. pose proof (inv_bounds _ _ _ _ I) as Hbd. rewrite Forall_forall in Hbd. specialize (Hbd i Hi).
    pose proof (head_low (t := t) (PChain b) i Hlt Hi'). lia. }
  assert (length m2 = length (mem t)) as Hlen by (transitivity (length m1); [apply C2|apply C1]).
  assert (list_at m1 40 fr) as Kf by (by eapply (keep_free I m1 PExtra)).
  assert (forall b' ns', chains !! b' = Some ns' -> list_at m1 (bucket_off b') ns') as Kc.
  { intros b' ns' Hb'. by eapply (keep_chain I m1 PExtra). }
  destruct (records_insert b ns (n' :: ns) Hb) as (r1 & r2 & Hr & Hr').
  destruct (spans_insert b ns (n' :: ns) Hb) as (s1 & s2 & Hs & Hs').
  eapply (inv_rebuild t fr chains extra); [exact I|apply good_set_store with (mem t); [apply I|done]|done|exact Hlen| | |apply length_insert| |apply I| |].
  - eapply list_same; [done|..]; (eapply confined_same; [exact C2|]); intros i Hi.
    + intros Hi'. by eapply head_free_apart.
    + apply Hhigh. rewrite !spans_app, !elem_of_app. tauto.
  - intros b' ns'. destruct (decide (b' = b)) as [->|Hne].
    + rewrite list_lookup_insert_eq by (by eapply lookup_lt_Some). intros [= <-].
      exists w', (Z.of_nat (n_ptr n)). split_and!; [done|done|by eapply stored_same|]. cbn [lseg n_ptr n'].
      split_and!; [done|unfold body in Hbody; lia|]. exists p. split.
      * exists h. split; [done|]. eapply cells_at_same; [by eapply stored_same|]. eapply confined_same; [exact C2|].
        intros i Hi. apply Hhigh. rewrite Hex. cbn [app]. rewrite spans_cons. apply elem_of_app. left. by apply Hspan.
      * eapply lseg_same; [done|]. eapply same_on_trans; [eapply confined_same; [exact C1|]|eapply confined_same; [exact C2|]]; intros i Hi.
        -- eapply (regions_apart I (PChain b)); [done|done|done|]. unfold region. cbn [part_head part_nodes]. rewrite Hb. apply elem_of_app. by right.
        -- apply Hhigh. rewrite !spans_app. rewrite (chains_split b ns Hb), !spans_app, !elem_of_app. tauto.
    + rewrite list_lookup_insert_ne by done. intros Hb'. eapply list_same; [by eapply Kc|..]; (eapply confined_same; [exact C2|]); intros i Hi.
      * by eapply heads_apart.
      * apply Hhigh. rewrite !spans_app. rewrite (chains_split b' ns' Hb'), !spans_app, !elem_of_app. tauto.
  - rewrite Hex, !spans_app, spans_cons, Hs, Hs', spans_cons. unfold n', span at 2. cbn [n_ptr n_len]. fold (span n). solve_Permutation.
  - apply (used_insert b _ _ Hb). intros x [->|Hx]%elem_of_cons; [by exists k, d|by apply (inv_used _ _ _ _ I b ns)].
  - pose proof (inv_keys _ _ _ _ I) as Hkk. rewrite Hr in Hkk, Hk. rewrite Hr'. change (n' :: ns) with ([n'] ++ ns). rewrite records_app.
    change (records [n']) with [(k, d)]. assert (r1 ++ ([(k, d)] ++ records ns) ++ r2 ≡ₚ (k, d) :: r1 ++ records ns ++ r2) as -> by solve_Permutation.
    rewrite fmap_cons. by apply NoDup_cons.
Qed.

(** A record's data replaced in its block. *)
Lemma inv_update b a n c k d d' next m' :
  let n' := MkNode (n_ptr n) (n_len n) (Some (k, d')) in
  chains !! b = Some (a ++ n :: c) -> n_kv n = Some (k, d) -> node_at (mem t) n next ->
  confined (mem t) m' (span n) -> node_at m' n' next ->
  inv (set_store (Some m') t) fr (<[b := a ++ n' :: c]> chains) extra.
Proof.
  intros n' Hb Hkv Hn Hconf Hn'. destruct (inv_chain _ _ _ _ I _ _ Hb) as (w & p & Hw & Hp & Hc & Hl).
  pose proof (region_nodup I (PChain b) (chain_lt I _ _ Hb)) as Hnd.
  unfold region in Hnd. rewrite (part_nodes_chain _ _ _ _ _ Hb), spans_app, spans_cons in Hnd. cbn [part_head] in Hnd.
  assert (confined (mem t) m' (region (fr := fr) (chains := chains) (extra := extra) (PChain b))) as C.
  { eapply confined_mono; [exact Hconf|]. intros i Hi. unfold region. rewrite (part_nodes_chain _ _ _ _ _ Hb).
    rewrite spans_app, spans_cons, !elem_of_app. tauto. }
  destruct (records_insert b _ (a ++ n' :: c) Hb) as (r1 & r2 & Hr & Hr').
  destruct (spans_insert b _ (a ++ n' :: c) Hb) as (s1 & s2 & Hs & Hs').
  eapply (inv_rebuild t fr chains extra); [exact I|by eapply confined_good|done|apply C| | |apply length_insert| |apply I| |].
  - by eapply (keep_free I _ (PChain b)); [eapply (chain_lt I)|..].
  - eapply lists_insert; [done|done|]. exists w, p. split_and!; [done|done| |].
    + eapply cells_at_same; [done|]. eapply confined_same; [exact Hconf|]. rewrite Hw. intros i Hi Hi'. disjoint.
    + apply lseg_app in Hl as (r & Ha & (Hr0 & H0 & next0 & Hn0 & Hl)). rewrite (node_at_inj _ _ _ _ Hn0 Hn) in Hl.
      apply lseg_app. exists r. split; [|cbn [lseg]; split_and!; [done..|]; exists next; split; [done|]].
      all: eapply lseg_same; [done|]; eapply confined_same; [exact Hconf|]; intros i Hi Hi'; disjoint.
  - rewrite !spans_app, Hs, Hs', !spans_app, !spans_cons. by change (span n') with (span n).
  - apply (used_insert b _ _ Hb). intros x Hx.
    assert (x = n' \/ x ∈ a ++ n :: c) as [->|Hx'] by (rewrite elem_of_app, elem_of_cons in Hx |- *; tauto).
    + exists k, d'. split; [done|]. destruct (inv_used _ _ _ _ I b _ n Hb) as (k0 & d0 & E & Hbk);
        [apply elem_of_app; right; by left|]. congruence.
    + by apply (inv_used _ _ _ _ I b (a ++ n :: c)).
  - pose proof (inv_keys _ _ _ _ I) as Hkk. rewrite Hr, !records_app in Hkk. rewrite Hr', !records_app.
    change (n :: c) with ([n] ++ c) in Hkk. change (n' :: c) with ([n'] ++ c). rewrite records_app in Hkk |- *.
    rewrite !fmap_app in *. assert ((records [n']).*1 = (records [n]).*1) as -> by (cbn; by rewrite Hkv). done.
Qed.
End Steps.
