(* ===== verification/TdbMap.v ===== *)
(** * The database refines a finite map

    [TdbInv.tdb_refines] views a context as a map from keys to data.  Every
    operation of [Tdb] is the map operation it stands for. *)
From S2P Require Import Prelude Tdb TdbMem TdbInv.

Lemma bucket_with_lock t l key : bucket_of (with_lock l t) key = bucket_of t key.
Proof. done. Qed.

(** Locking around work that leaves the context as it was. *)
Lemma unlock_back t fr chains extra l : inv t fr chains extra -> -1 <= l < hash_size t ->
  tdb_unlock l (with_lock l t) = Ret 0 t.
Proof.
  intros I Hl. pose proof (inv_good _ _ _ _ I) as Hg.
  rewrite (tdb_unlock_ok t (mem t) l _ _ Hg (with_lock_good _ _ l Hg) (same_ctx_refl _) Hl). by rewrite set_locked_with_lock.
Qed.

Lemma fetch_ok t fr chains extra key : inv t fr chains extra ->
  tdb_fetch key t = Ret (datum <$> db_map chains !! key) t.
Proof.
  intros I. pose proof (inv_good _ _ _ _ I) as Hg. pose proof (bucket_lt t _ key Hg) as Hb.
  unfold tdb_fetch. rewrite get_st_bind. erewrite M_bind_Ret; [|eapply tdb_lock_ok; [exact Hg|lia]].
  pose proof (inv_with_lock _ _ _ _ (BUCKET t (tdb_hash key)) I) as I1.
  destruct (tdb_find_ok I1 key) as (ns & Hc & Hf). rewrite bucket_with_lock in Hc. rewrite (records_lookup I _ _ Hc).
  destruct (list_find (has_key key) ns) as [[i n]|] eqn:E.
  - destruct Hf as (next & h & Hf & Hn & Hh & _). rewrite (M_bind_Ret _ _ _ _ _ Hf).
    destruct (find_node I _ _ _ _ Hc E) as (d & Hkv & _ & Hin & Hbody). unfold body in Hbody.
    destruct (node_header _ _ _ Hn) as (h' & _ & _ & Hcont). unfold content in Hcont. rewrite Hkv, fmap_app in Hcont.
    apply cells_at_app in Hcont as [_ Hd]. rewrite length_fmap in Hd.
    destruct Hh as (_ & _ & _ & Hm). rewrite Hkv in Hm. destruct Hm as (_ & Hkl & Hdl & _ & Hlen).
    unfold in_mem in Hin. pose proof (good_u32 _ _ Hg) as Hu. rewrite (good_size _ _ Hg) in Hu. unfold is_u32 in Hu.
    rewrite (decide_False (P := Z.of_nat (n_ptr n) = 0)) by lia.
    rewrite M_bind_assoc, (get_field_bind _ _ _ _ _ Hkl), M_bind_assoc, (get_field_bind _ _ _ _ _ Hdl).
    replace (u32 (Z.of_nat (n_ptr n) + SIZEOF_REC + Z.of_nat (length key))) with (Z.of_nat (n_ptr n + 24 + length key))
      by (rewrite u32_id; unfold is_u32, SIZEOF_REC; lia).
    pose proof (tdb_alloc_read_ok _ _ _ _ (inv_good _ _ _ _ I1) Hd) as Hr. rewrite length_fmap in Hr.
    rewrite (M_bind_Ret _ _ _ _ _ (Hr ltac:(change (mem (with_lock (BUCKET t (tdb_hash key)) t)) with (mem t); lia))).
    erewrite M_bind_Ret; [|eapply unlock_back; [exact I|lia]]. cbn. by rewrite Hkv.
  - destruct Hf as (h & Hf). rewrite (M_bind_Ret _ _ _ _ _ Hf). rewrite (decide_True (P := 0 = 0)) by done.
    rewrite M_ret_bind. by erewrite M_bind_Ret; [|eapply unlock_back; [exact I|lia]].
Qed.

Lemma exists_ok t fr chains extra key : inv t fr chains extra ->
  tdb_exists key t = Ret (bool_decide (is_Some (db_map chains !! key))) t.
Proof.
  intros I. pose proof (inv_good _ _ _ _ I) as Hg. pose proof (bucket_lt t _ key Hg) as Hb.
  unfold tdb_exists. rewrite get_st_bind. erewrite M_bind_Ret; [|eapply tdb_lock_ok; [exact Hg|lia]].
  pose proof (inv_with_lock _ _ _ _ (BUCKET t (tdb_hash key)) I) as I1.
  destruct (tdb_find_ok I1 key) as (ns & Hc & Hf). rewrite bucket_with_lock in Hc. rewrite (records_lookup I _ _ Hc).
  destruct (list_find (has_key key) ns) as [[i n]|] eqn:E.
  - destruct Hf as (next & h & Hf & Hn & Hh & _). rewrite (M_bind_Ret _ _ _ _ _ Hf).
    destruct (find_node I _ _ _ _ Hc E) as (d & Hkv & _ & Hin & Hbody). unfold body in Hbody.
    erewrite M_bind_Ret; [|eapply unlock_back; [exact I|lia]]. cbn. rewrite Hkv.
    rewrite (bool_decide_true (is_Some _)) by (cbn; eauto). by rewrite bool_decide_true by lia.
  - destruct Hf as (h & Hf). rewrite (M_bind_Ret _ _ _ _ _ Hf).
    by erewrite M_bind_Ret; [|eapply unlock_back; [exact I|lia]].
Qed.

(** ** Deleting *)

(** The store that unlinks the block after [last]. *)
Lemma unlink_write t m off a last w' : good t m -> Forall (in_mem m) a -> last_ok m a last -> length w' = 4%nat ->
  (off + 4 <= length m)%nat ->
  exists m', match last with
             | None => ofs_write (Z.of_nat off) w'
             | Some (last_ptr, lastrec) => rec_write last_ptr (set_member NEXT w' lastrec)
             end t = Ret 0 (set_store (Some m') t) /\ stored m (unlink_at off last) (unlink_cells w' last) m'.
Proof.
  intros Hg Ha Hlast Hw Hoff. destruct last as [[lp h]|]; cbn [unlink_at unlink_cells].
  - destruct Hlast as (a' & l & next & -> & -> & Hh & _). apply Forall_app in Ha as [_ [Hl _]%Forall_cons]. unfold in_mem in Hl.
    rewrite Nat2Z.id. apply tdb_write_ok; [done|]. rewrite length_set_member by (auto with sna || apply Hh). lia.
  - apply tdb_write_ok; [done|lia].
Qed.

(** The structure of a block made free. *)
Lemma header_free n next h w p : header_ok n next h -> length w = 4%nat -> word w = Some p ->
  header_ok (MkNode (n_ptr n) (n_len n) None) p (set_field MAGIC TDB_FREE_MAGIC (set_member NEXT w h)).
Proof.
  intros (Hl & H1 & H2 & H3) Hw Hp. assert (length (set_member NEXT w h) = 24%nat) by auto with sna.
  unfold header_ok. cbn [n_kv n_len]. rewrite length_set_field by auto with sna.
  rewrite !field_set_field by (auto with sna || done). rewrite !field_set_member by auto with sna. done.
Qed.

(** What an operation keeps: the context but for the store and the error code,
    and the size. *)
Definition keeps (t t' : TDB_CONTEXT) : Prop := same_ctx t t' /\ map_size t' = map_size t /\ ecode t' = ecode t.

Lemma keeps_refl t : keeps t t.
Proof. by split_and!. Qed.
Lemma keeps_trans t1 t2 t3 : keeps t1 t2 -> keeps t2 t3 -> keeps t1 t3.
Proof. intros (H1 & H2 & H3) (H4 & H5 & H6). split_and!; [by eapply same_ctx_trans|congruence..]. Qed.

Lemma u32_ptr t fr chains extra n : inv t fr chains extra -> n ∈ extra ++ fr ++ mjoin chains -> is_u32 (Z.of_nat (n_ptr n)).
Proof.
  intros I Hn. destruct (inv_in I _ Hn) as [H _]. pose proof (good_u32 _ _ (inv_good _ _ _ _ I)) as Hu.
  rewrite (good_size _ _ (inv_good _ _ _ _ I)) in Hu. unfold in_mem, is_u32 in *. lia.
Qed.

(** The top of the free list is within the store. *)
Lemma free_head_in t m : good t m -> (40 + 4 <= length m)%nat.
Proof. intros H. pose proof (good_body _ _ H). unfold body in *. lia. Qed.

(** Putting a block of no list at the top of the free list: the two writes. *)
Lemma push_free_ok t fr chains n ex w p h : inv t fr chains (n :: ex) -> length w = 4%nat -> word w = Some p ->
  cells_at (mem t) 40 w -> header_ok (MkNode (n_ptr n) (n_len n) None) p h ->
  exists m2 m3, rec_write (Z.of_nat (n_ptr n)) h t = Ret 0 (set_store (Some m2) t) /\
    ofs_write FREELIST_TOP (word_cells (Z.of_nat (n_ptr n))) (set_store (Some m2) t) = Ret 0 (set_store (Some m3) t) /\
    inv (set_store (Some m3) t) (MkNode (n_ptr n) (n_len n) None :: fr) chains ex /\
    confined (mem t) m3 (span n ++ seq 40 4).
Proof.
  intros I Hw Hp Hc Hh. pose proof (inv_good _ _ _ _ I) as Hg. destruct (inv_in I n ltac:(by left)) as [Hin _]. unfold in_mem in Hin.
  destruct (tdb_write_ok t (mem t) (n_ptr n) h Hg) as (m2 & Hwr2 & Hst2); [rewrite (proj1 Hh); lia|].
  pose proof (stored_good _ _ _ _ _ Hg Hst2) as Hg2.
  destruct (tdb_write_ok (set_store (Some m2) t) m2 40 (word_cells (Z.of_nat (n_ptr n))) Hg2) as (m3 & Hwr3 & Hst3);
    [by apply (free_head_in _ _ Hg2)|].
  exists m2, m3. split_and!; [exact Hwr2|exact Hwr3| |].
  2:{ eapply confined_trans; (eapply stored_confined; [done|]); intros i Hi; apply elem_of_app; [left|by right].
      apply elem_of_header. by rewrite (proj1 Hh) in Hi. }
  refine (inv_push_free I n ex w p h _ m2 m3 eq_refl Hw Hp Hc Hh Hst2 (length_word_cells _) _ Hst3).
  apply word_word_cells. eapply u32_ptr; [exact I|by left].
Qed.

Lemma recover_space_ok t fr chains n ex next rec : inv t fr chains (n :: ex) -> header_ok n next rec ->
  exists t', recover_space (Z.of_nat (n_ptr n)) rec t = Ret 0 t' /\
    inv t' (MkNode (n_ptr n) (n_len n) None :: fr) chains ex /\ keeps t t' /\
    confined (mem t) (mem t') (span n ++ seq 40 4).
Proof.
  intros I Hh. pose proof (inv_good _ _ _ _ I) as Hg. pose proof (good_hash _ _ Hg) as Hhs. unfold recover_space.
  erewrite M_bind_Ret; [|eapply tdb_lock_ok; [exact Hg|lia]].
  pose proof (inv_with_lock _ _ _ _ (-1) I) as I1. set (t1 := with_lock (-1) t) in *.
  destruct (inv_free _ _ _ _ I1) as (w & p & Hw & Hp & Hc & _).
  erewrite M_bind_Ret; [|apply (ofs_read_ok t1 (mem t) 40 w); [apply (inv_good _ _ _ _ I1)|done..|by eapply free_head_in]].
  pose proof (header_free _ _ _ _ _ Hh Hw Hp) as Hhf.
  destruct (push_free_ok t1 fr chains n ex w p _ I1 Hw Hp Hc Hhf) as (m2 & m3 & Hw2 & Hw3 & I3 & C3).
  rewrite (M_bind_Ret _ _ _ _ _ Hw2), (decide_False (P := 0 <> 0)) by lia.
  rewrite (M_bind_Ret _ _ _ _ _ Hw3), (decide_False (P := 0 <> 0)) by lia.
  erewrite M_bind_Ret; [|apply (tdb_unlock_ok t (mem t) _ (set_store (Some m3) t1) m3 Hg (inv_good _ _ _ _ I3)); [done|lia]].
  eexists. split; [done|]. split_and!; [|done..]. apply inv_set_locked; [done|..]; apply (good_locked _ _ Hg).
Qed.

(** The blocks of no list stay as they are. *)
Definition same_extra (extra : list node) (t t' : TDB_CONTEXT) : Prop := forall n, n ∈ extra -> same_on (span n) (mem t) (mem t').

Lemma extra_apart t fr chains n ex x i : inv t fr chains (n :: ex) -> x ∈ ex -> i ∈ span x -> i ∉ span n ++ seq 40 4.
Proof.
  intros I Hx Hi. assert (i ∈ spans ex) as Hs by (apply elem_of_spans; by exists x).
  pose proof (inv_split I) as Hnd. rewrite spans_cons in Hnd. intros [Hi'|Hi']%elem_of_app; [disjoint|].
  pose proof (inv_bounds _ _ _ _ I) as Hb. rewrite Forall_forall in Hb.
  assert (i ∈ spans ((n :: ex) ++ fr ++ mjoin chains)) as Hs' by (rewrite spans_app, spans_cons, !elem_of_app; tauto).
  apply Hb in Hs'. unfold body in Hs'. apply elem_of_seq in Hi'. lia.
Qed.

Lemma delete_record_ok t fr chains extra key a n c next rec last :
  let b := bucket_of t key in
  inv t fr chains extra -> chains !! b = Some (a ++ n :: c) -> node_at (mem t) n next ->
  header_ok n next rec -> last_ok (mem t) a last ->
  exists t', delete_record (tdb_hash key) (Z.of_nat (n_ptr n)) rec last (with_lock (BUCKET t (tdb_hash key)) t) = Ret 0 t' /\
    inv t' (MkNode (n_ptr n) (n_len n) None :: fr) (<[b := a ++ c]> chains) extra /\ keeps t t' /\ same_extra extra t t'.
Proof.
  intros b I Hb Hn Hh Hlast. pose proof (inv_good _ _ _ _ I) as Hg. pose proof (bucket_lt t _ key Hg) as Hlt.
  pose proof (inv_with_lock _ _ _ _ (BUCKET t (tdb_hash key)) I) as I1. set (t1 := with_lock (BUCKET t (tdb_hash key)) t) in *.
  assert (length (member NEXT rec) = 4%nat) as Hw by (apply length_member; [auto with sna|apply Hh]).
  pose proof (good_body _ _ Hg) as Hbody. pose proof (chain_in I _ _ Hb) as Hin.
  assert (bucket_off b + 4 <= length (mem t))%nat as Hoff by (unfold body, bucket_off, b, bucket_of in *; lia).
  apply Forall_app in Hin as [Hina [Hinn _]%Forall_cons].
  destruct (unlink_write t1 (mem t) (bucket_off b) a last _ (inv_good _ _ _ _ I1) Hina Hlast Hw Hoff) as (m1 & Hwr & Hst).
  destruct (inv_unlink_chain I1 b a n c next last _ m1 Hb Hn Hlast Hw (header_member_next _ _ _ Hh) Hst) as [I2 C2].
  unfold delete_record. rewrite get_st_bind. change (BUCKET t1 (tdb_hash key)) with (BUCKET t (tdb_hash key)).
  change (tdb_hash_top t1 (tdb_hash key)) with (tdb_hash_top t (tdb_hash key)). rewrite (hash_top _ _ _ Hg). fold b.
  rewrite (M_bind_Ret _ _ _ _ _ Hwr). rewrite (decide_False (P := 0 <> 0)) by lia.
  set (t2 := set_store (Some m1) t1) in *.
  erewrite M_bind_Ret; [|apply (tdb_unlock_ok t (mem t) _ t2 m1 Hg (inv_good _ _ _ _ I2)); [done|lia]].
  set (t3 := set_locked (locked t) t2). assert (inv t3 fr (<[b := a ++ c]> chains) (n :: extra)) as I3.
  { apply inv_set_locked; [done|..]; apply (good_locked _ _ Hg). }
  destruct (recover_space_ok t3 _ _ _ _ _ _ I3 Hh) as (t' & E & I' & K & C).
  exists t'. split_and!; [done|done|by apply (keeps_trans t t3 t')|]. intros x Hx. eapply same_on_trans.
  - eapply (keep_extra t1 _ _ _ I1 m1 (PChain b)); [by eapply (chain_lt I)|done|done|exact C2].
  - change m1 with (mem t3). eapply confined_same; [exact C|]. intros i Hi. by eapply extra_apart.
Qed.

Lemma delete_loop_ok t fr chains extra key ns : inv t fr chains extra -> chains !! bucket_of t key = Some ns ->
  forall rest fuel a p last, ns = a ++ rest -> lseg (mem t) p rest 0 -> last_ok (mem t) a last -> (length rest < fuel)%nat ->
  match list_find (has_key key) rest with
  | Some (_, n) => exists t' a' c, ns = a' ++ n :: c /\
      delete_loop fuel key (tdb_hash key) p last (with_lock (BUCKET t (tdb_hash key)) t) = Ret 0 t' /\
      inv t' (MkNode (n_ptr n) (n_len n) None :: fr) (<[bucket_of t key := a' ++ c]> chains) extra /\ keeps t t' /\
      same_extra extra t t'
  | None => delete_loop fuel key (tdb_hash key) p last (with_lock (BUCKET t (tdb_hash key)) t) = Ret (-1) t
  end.
Proof.
  intros I Hb rest. pose proof (inv_good _ _ _ _ I) as Hg. pose proof (bucket_lt t _ key Hg) as Hlt.
  set (t1 := with_lock (BUCKET t (tdb_hash key)) t). assert (good t1 (mem t)) as Hg1 by (by apply with_lock_good).
  induction rest as [|n rest IH]; intros [|fuel] a p last Hns Hl Hlast Hf; try (cbn in Hf; lia);
    cbn [lseg] in Hl; cbn [delete_loop list_find]; rewrite get_st_bind.
  { subst p. rewrite (decide_True (P := 0 = 0)) by done. change (BUCKET t1 (tdb_hash key)) with (BUCKET t (tdb_hash key)).
    by erewrite M_bind_Ret; [|eapply unlock_back; [exact I|lia]]. }
  destruct Hl as (-> & H0 & next & Hn & Hl).
  pose proof (chain_in I _ _ Hb) as Hin. pose proof (chain_used I _ _ Hb) as Hu. rewrite Hns in Hin, Hu.
  apply Forall_app in Hin as [_ [Hinn Hins]%Forall_cons]. apply Forall_app in Hu as [_ [Hun _]%Forall_cons].
  rewrite (decide_False (P := Z.of_nat (n_ptr n) = 0)) by lia.
  destruct (node_header _ _ _ Hn) as (h & Hh & Hc & Hk). pose proof Hun as [[k d] Hkv].
  rewrite (M_bind_Ret _ _ _ _ _ (rec_read_ok _ _ _ _ _ Hg1 Hinn Hun Hh Hc (proj2 (lseg_bound _ _ _ Hl Hins)))).
  rewrite (M_bind_Ret _ _ _ _ _ (is_record_ok _ _ _ _ _ key _ _ Hg1 Hinn Hkv Hh Hk)).
  case_bool_decide as E.
  - rewrite decide_True by (unfold has_key; rewrite Hkv; by subst). rewrite Hns in Hb.
    destruct (delete_record_ok t fr chains extra key a n rest next h last I Hb Hn Hh Hlast) as (t' & Hd & I' & K & C).
    by exists t', a, rest.
  - rewrite decide_False by (unfold has_key; rewrite Hkv; intros [=]; by subst).
    pose proof Hh as (_ & _ & Hnext & _). rewrite (get_field_bind _ _ _ _ _ Hnext).
    specialize (IH fuel (a ++ [n]) next (Some (Z.of_nat (n_ptr n), h))). rewrite <- app_assoc in IH.
    specialize (IH Hns Hl ltac:(by exists a, n, next) ltac:(cbn in Hf; lia)).
    by destruct (list_find (has_key key) rest) as [[i n']|].
Qed.

(** Two contexts with the same records up to order hold the same map. *)
Lemma db_map_perm chains chains' : NoDup (records (mjoin chains)).*1 ->
  records (mjoin chains) ≡ₚ records (mjoin chains') -> db_map chains = db_map chains'.
Proof. intros Hn Hp. unfold db_map. by apply list_to_map_proper. Qed.

Lemma db_map_cons chains chains' k d : NoDup (records (mjoin chains)).*1 ->
  records (mjoin chains) ≡ₚ (k, d) :: records (mjoin chains') ->
  db_map chains = <[k := d]> (db_map chains') /\ db_map chains' = delete k (db_map chains) /\ db_map chains' !! k = None.
Proof.
  intros Hn Hp. assert (db_map chains = <[k := d]> (db_map chains')) as E.
  { unfold db_map. by rewrite (list_to_map_proper _ _ Hn Hp). }
  assert (db_map chains' !! k = None) as Hk.
  { rewrite Hp, fmap_cons in Hn. apply NoDup_cons in Hn as [Hn _]. by apply not_elem_of_list_to_map. }
  split_and!; [done| |done]. rewrite E. by rewrite delete_insert_id.
Qed.

Lemma records_node n k d : n_kv n = Some (k, d) -> records [n] = [(k, d)].
Proof. intros H. cbn. by rewrite H. Qed.

Lemma records_remove chains b a n c k d : chains !! b = Some (a ++ n :: c) -> n_kv n = Some (k, d) ->
  records (mjoin chains) ≡ₚ (k, d) :: records (mjoin (<[b := a ++ c]> chains)).
Proof.
  intros Hb Hkv. rewrite (mjoin_insert _ _ _ _ Hb), (chains_split b _ Hb), !records_app.
  change (n :: c) with ([n] ++ c). rewrite records_app, (records_node _ _ _ Hkv). solve_Permutation.
Qed.

Lemma delete_ok t fr chains extra key : inv t fr chains extra -> exists rc t' fr' chains', tdb_delete key t = Ret rc t' /\
  inv t' fr' chains' extra /\ keeps t t' /\ same_extra extra t t' /\ db_map chains' = delete key (db_map chains) /\
  rc = match db_map chains !! key with Some _ => 0 | None => -1 end.
Proof.
  intros I. pose proof (inv_good _ _ _ _ I) as Hg. pose proof (bucket_lt t _ key Hg) as Hlt.
  unfold tdb_delete. rewrite get_st_bind. erewrite M_bind_Ret; [|eapply tdb_lock_ok; [exact Hg|lia]].
  pose proof (inv_with_lock _ _ _ _ (BUCKET t (tdb_hash key)) I) as I1.
  destruct (read_top I1 key) as (ns & w & p & Hc & Hr & Hp & _ & _ & Hl). rewrite bucket_with_lock in Hc.
  change (tdb_hash_top t (tdb_hash key)) with (tdb_hash_top (with_lock (BUCKET t (tdb_hash key)) t) (tdb_hash key)).
  rewrite (M_bind_Ret _ _ _ _ _ Hr), (get_word_bind _ _ _ _ Hp), get_st_bind.
  change (mem (with_lock (BUCKET t (tdb_hash key)) t)) with (mem t) in Hl.
  change (list_fuel (with_lock (BUCKET t (tdb_hash key)) t)) with (list_fuel t).
  pose proof (delete_loop_ok t fr chains extra key ns I Hc ns (list_fuel t) [] p None eq_refl Hl eq_refl (chain_fuel I _ _ Hc)) as H.
  pose proof (records_lookup I _ _ Hc : db_map chains !! key = _) as Hrl. rewrite Hrl.
  destruct (list_find (has_key key) ns) as [[i n]|] eqn:E.
  - destruct H as (t' & a & c & -> & Hd & I' & K & C).
    exists 0, t', (MkNode (n_ptr n) (n_len n) None :: fr), (<[bucket_of t key := a ++ c]> chains). split_and!; [exact Hd|exact I'|exact K|exact C| |].
    + destruct (find_node I _ _ _ _ Hc E) as (d & Hkv & _).
      by destruct (db_map_cons chains (<[bucket_of t key := a ++ c]> chains) key d (inv_keys _ _ _ _ I)
        (records_remove _ _ _ _ _ _ _ Hc Hkv)) as (_ & ? & _).
    + destruct (find_node I _ _ _ _ Hc E) as (d & Hkv & _). cbn. by rewrite Hkv.
  - exists (-1), t, fr, chains. split_and!; [done|done|apply keeps_refl|done| |done].
    symmetry. by apply delete_id.
Qed.

(** A record's data replaced. *)
Lemma db_map_replace chains b a n n' c k d d' : chains !! b = Some (a ++ n :: c) -> n_kv n = Some (k, d) -> n_kv n' = Some (k, d') ->
  NoDup (records (mjoin chains)).*1 -> NoDup (records (mjoin (<[b := a ++ n' :: c]> chains))).*1 ->
  db_map (<[b := a ++ n' :: c]> chains) = <[k := d']> (db_map chains).
Proof.
  intros Hb Hkv Hkv' Hn Hn'. pose proof (records_remove _ _ _ _ _ _ _ Hb Hkv) as Hp.
  assert (<[b := a ++ n' :: c]> chains !! b = Some (a ++ n' :: c)) as Hb' by (apply list_lookup_insert_eq; by eapply lookup_lt_Some).
  pose proof (records_remove _ _ _ _ _ _ _ Hb' Hkv') as Hp'. rewrite list_insert_insert, decide_True in Hp' by done.
  destruct (db_map_cons _ _ _ _ Hn Hp) as (_ & E & _). destruct (db_map_cons _ _ _ _ Hn' Hp') as (-> & _ & _).
  rewrite E. apply insert_delete_eq.
Qed.

(** ** Updating in place *)

Lemma length_datum d : length (datum d) = length d.
Proof. apply length_fmap. Qed.

(** The stores of an update: the data, and the structure when its length
    changes. *)
Lemma update_stores m n k d d' next h m1 : n_kv n = Some (k, d) -> header_ok n next h -> node_at m n next -> cells_at m (n_ptr n) h ->
  (length k + length d' <= n_len n)%nat -> is_u32 (Z.of_nat (length d')) -> stored m (n_ptr n + 24 + length k) (datum d') m1 ->
  let n' := MkNode (n_ptr n) (n_len n) (Some (k, d')) in
  let h' := set_field DATA_LEN (u32 (Z.of_nat (length d'))) h in
  header_ok n' next h' /\ (forall m2, stored m1 (n_ptr n) h' m2 -> node_at m2 n' next) /\
  (length d' = length d -> node_at m1 n' next).
Proof.
  intros Hkv Hh Hn Hc Hlen Hu Hs1 n' h'. pose proof Hh as (Hl & H1 & H2 & H3). rewrite Hkv in H3. destruct H3 as (Hm & Hkl & Hdl & Hfh & Hle).
  assert (header_ok n' next h') as Hh'.
  { unfold header_ok, h'. cbn [n_kv n' n_len]. rewrite u32_id by done. rewrite length_set_field by auto with sna.
    rewrite !field_set_field by (auto with sna). by split_and!. }
  destruct (node_header _ _ _ Hn) as (h0 & _ & _ & Hcont). unfold content in Hcont. rewrite Hkv, fmap_app in Hcont.
  apply cells_at_app in Hcont as [Hck _].
  assert (cells_at m1 (n_ptr n + 24) (content n')) as Hc1.
  { unfold content, n'. cbn [n_kv]. rewrite fmap_app. apply cells_at_app. rewrite length_fmap. split; [|by eapply stored_same].
    eapply cells_at_same; [done|]. eapply stored_other; [done|]. rewrite length_fmap. intros i. rewrite !elem_of_seq. lia. }
  split_and!; [done| |].
  - intros m2 Hs2. exists h'. split; [done|]. apply cells_at_app. rewrite (proj1 Hh'). split; [by eapply stored_same|].
    eapply cells_at_same; [done|]. eapply stored_other; [done|]. rewrite (proj1 Hh'). intros i. cbn [n_ptr n']. rewrite !elem_of_seq. lia.
  - intros Heq. exists h. split.
    + unfold header_ok. cbn [n_kv n_len n']. rewrite Heq. split_and!; try done; lia.
    + apply cells_at_app. rewrite Hl. split; [|done]. cbn [n_ptr n']. eapply cells_at_same; [exact Hc|].
      eapply stored_other; [done|]. rewrite Hl. intros i. rewrite !elem_of_seq. lia.
Qed.

(** The new structure is stored when the length changes. *)
Lemma update_ok t fr chains extra key dbuf : inv t fr chains extra -> is_u32 (Z.of_nat (length dbuf)) ->
  (exists t' chains', tdb_update key dbuf t = Ret 0 t' /\ inv t' fr chains' extra /\ keeps t t' /\
    db_map chains' = <[key := dbuf]> (db_map chains)) \/
  tdb_update key dbuf t = Ret (-1) t.
Proof.
  intros I Hu. pose proof (inv_good _ _ _ _ I) as Hg. pose proof (bucket_lt t _ key Hg) as Hlt.
  unfold tdb_update. rewrite get_st_bind. erewrite M_bind_Ret; [|eapply tdb_lock_ok; [exact Hg|lia]].
  pose proof (inv_with_lock _ _ _ _ (BUCKET t (tdb_hash key)) I) as I1. set (t1 := with_lock (BUCKET t (tdb_hash key)) t) in *.
  destruct (tdb_find_ok I1 key) as (ns & Hc & Hf). change (bucket_of t1 key) with (bucket_of t key) in Hc.
  destruct (list_find (has_key key) ns) as [[i n]|] eqn:E.
  2:{ right. destruct Hf as (h & Hf). rewrite (M_bind_Ret _ _ _ _ _ Hf). rewrite (decide_True (P := 0 = 0)) by done.
      rewrite M_ret_bind. by erewrite M_bind_Ret; [|eapply unlock_back; [exact I|lia]]. }
  destruct Hf as (next & h & Hf & Hn & Hh & Hch). rewrite (M_bind_Ret _ _ _ _ _ Hf).
  destruct (find_node I _ _ _ _ Hc E) as (d & Hkv & _ & Hin & Hbody). unfold body in Hbody.
  rewrite (decide_False (P := Z.of_nat (n_ptr n) = 0)) by lia.
  pose proof Hh as (Hlh & Hrl & _ & Hm). rewrite Hkv in Hm. destruct Hm as (_ & Hkl & Hdl & _ & Hlen).
  rewrite M_bind_assoc, (get_field_bind _ _ _ _ _ Hrl). case_decide as Efit.
  { right. rewrite M_ret_bind. by erewrite M_bind_Ret; [|eapply unlock_back; [exact I|lia]]. }
  left. rewrite M_bind_assoc, (get_field_bind _ _ _ _ _ Hkl).
  pose proof (good_u32 _ _ Hg) as Hus. rewrite (good_size _ _ Hg) in Hus. unfold in_mem, is_u32 in *.
  replace (u32 (Z.of_nat (n_ptr n) + SIZEOF_REC + Z.of_nat (length key))) with (Z.of_nat (n_ptr n + 24 + length key))
    by (rewrite u32_id; unfold is_u32, SIZEOF_REC; lia).
  pose proof (inv_good _ _ _ _ I1) as Hg1. change (mem t1) with (mem t) in Hg1, Hn, Hch.
  destruct (tdb_write_ok t1 (mem t) (n_ptr n + 24 + length key) (datum dbuf) Hg1) as (m1 & Hw1 & Hs1); [rewrite length_datum; lia|].
  rewrite M_bind_assoc, (M_bind_Ret _ _ _ _ _ Hw1). rewrite (decide_False (P := 0 <> 0)) by lia.
  rewrite M_bind_assoc, (get_field_bind _ _ _ _ _ Hdl).
  destruct (update_stores _ _ _ _ dbuf _ _ _ Hkv Hh Hn Hch ltac:(lia) Hu Hs1) as (Hh' & Hn2 & Hn1).
  apply list_find_Some in E as (Hni & _). apply list_elem_of_lookup_2, list_elem_of_split in Hni as (a & c & ->).
  assert (confined (mem t) m1 (span n)) as C1.
  { eapply stored_confined; [done|]. rewrite length_datum. intros j. unfold span. rewrite !elem_of_seq. lia. }
  pose proof (stored_good _ _ _ _ _ Hg1 Hs1) as Hg2.
  assert (exists m2, (if decide (Z.of_nat (length dbuf) <> Z.of_nat (length d))
      then rec_write (Z.of_nat (n_ptr n)) (set_field DATA_LEN (u32 (Z.of_nat (length dbuf))) h) else mret 0) (set_store (Some m1) t1) =
      Ret 0 (set_store (Some m2) t1) /\ confined (mem t) m2 (span n) /\ node_at m2 (MkNode (n_ptr n) (n_len n) (Some (key, dbuf))) next)
    as (m2 & Hw2 & C2 & Hnode).
  { case_decide as Elen.
    - destruct (tdb_write_ok (set_store (Some m1) t1) m1 (n_ptr n) (set_field DATA_LEN (u32 (Z.of_nat (length dbuf))) h) Hg2) as (m2 & Hw2 & Hs2).
      { rewrite (proj1 Hh'). destruct C1 as [-> _]. lia. }
      exists m2. split_and!; [exact Hw2| |by apply Hn2]. eapply confined_trans; [done|]. eapply stored_confined; [done|].
      rewrite (proj1 Hh'). intros j. unfold span. rewrite !elem_of_seq. lia.
    - exists m1. split_and!; [done|done|]. apply Hn1. lia. }
  rewrite (M_bind_Ret _ _ _ _ _ Hw2).
  pose proof (inv_update I1 _ _ _ _ _ _ dbuf _ m2 Hc Hkv Hn C2 Hnode) as I2.
  erewrite M_bind_Ret; [|apply (tdb_unlock_ok t (mem t) _ (set_store (Some m2) t1) m2 Hg (inv_good _ _ _ _ I2)); [done|lia]].
  eexists _, _. split_and!; [done|apply inv_set_locked; [exact I2|..]; apply (good_locked _ _ Hg)|done|].
  by eapply db_map_replace; [exact Hc|exact Hkv|done|apply I|apply I2].
Qed.
