(* ===== verification/TdbStore.v ===== *)
(** * Storing: growing the store, allocating and linking

    The rest of the refinement of [Tdb] to a finite map: the store grows, the
    free list is searched, and a record is put in its chain. *)
From S2P Require Import Prelude Tdb TdbMem TdbInv TdbMap.

(** ** Growing *)

Lemma align_down_spec x n k : 0 <= k -> n = 2 ^ k -> is_u32 x -> align_down x n = x - x mod n.
Proof.
  intros Hk -> Hx. unfold align_down, is_u32 in *.
  replace (2 ^ k - 1) with (Z.ones k) by (rewrite Z.ones_equiv; lia).
  rewrite <- Z.ldiff_land, Z.ldiff_ones_r, Z.shiftl_mul_pow2, Z.shiftr_div_pow2 by done.
  assert (0 < 2 ^ k) by lia. pose proof (Z.div_mod x (2 ^ k) ltac:(lia)). pose proof (Z.mod_pos_bound x (2 ^ k) ltac:(lia)).
  assert (0 <= x / 2 ^ k) by (apply Z.div_pos; lia).
  rewrite u32_id; [lia|]. unfold is_u32. nia.
Qed.

(** New space at the end is a block of no list. *)
Lemma inv_grow t fr chains extra t' pad len : inv t fr chains extra -> length pad = (24 + len)%nat ->
  store t' = Some (mem t ++ pad) -> good t' (mem t ++ pad) -> hash_size t' = hash_size t ->
  inv t' fr chains (MkNode (length (mem t)) len None :: extra).
Proof.
  intros I Hpad Hst Hg Hh. assert (mem t' = mem t ++ pad) as Hm by (unfold mem; by rewrite Hst).
  assert (forall l, (forall i, i ∈ l -> i < length (mem t))%nat -> same_on l (mem t) (mem t ++ pad)) as Hsame.
  { intros l Hl i Hi. by rewrite lookup_app_l by auto. }
  assert (forall p, valid (t := t) p -> forall off ns, part_head p = seq off 4 ->
    part_nodes (fr := fr) (chains := chains) (extra := extra) p = ns -> list_at (mem t) off ns -> list_at (mem t ++ pad) off ns) as Hlist.
  { intros p V off ns Hp Hns Hl. eapply list_same; [exact Hl|..]; apply Hsame; intros i Hi.
    - rewrite <- Hp in Hi. pose proof (head_low _ _ V Hi). pose proof (good_body _ _ (inv_good _ _ _ _ I)). lia.
    - rewrite <- Hns in Hi. pose proof (part_high I _ _ Hi). lia. }
  pose proof (inv_bounds _ _ _ _ I) as Hb. rewrite Forall_forall in Hb.
  assert (forall i, i ∈ span (MkNode (length (mem t)) len None) <-> (length (mem t) <= i < length (mem t) + (24 + len))%nat) as Hnew.
  { intros i. unfold span. cbn [n_ptr n_len]. apply elem_of_seq. }
  split; rewrite ?Hm; try apply I; try done.
  - eapply (Hlist PFree); [done..|apply I].
  - intros b ns Hc. eapply (Hlist (PChain b)); [by eapply (chain_lt I)|done|by apply part_nodes_chain|by apply (inv_chain _ _ _ _ I)].
  - rewrite Hh. apply I.
  - cbn [app]. rewrite spans_cons. apply NoDup_app. split_and!; [apply NoDup_seq| |apply I].
    intros i Hi Hi'. apply Hnew in Hi. specialize (Hb _ Hi'). lia.
  - cbn [app]. rewrite spans_cons. apply Forall_app. split; apply Forall_forall; intros i Hi; rewrite length_app.
    + apply Hnew in Hi. pose proof (good_body _ _ (inv_good _ _ _ _ I)). unfold body in *. rewrite Hh. lia.
    + specialize (Hb _ Hi). unfold body in *. rewrite Hh. lia.
  - intros b ns n Hc Hn. unfold bucket_of, BUCKET. rewrite Hh. by apply (inv_used _ _ _ _ I b ns).
Qed.

(** A read within what is known of the store. *)
Lemma tdb_read_within t m off cs : store t = Some m -> cells_at m off cs -> (off + length cs <= length m)%nat ->
  is_u32 (map_size t) -> Z.of_nat (off + length cs) <= map_size t -> tdb_read (Z.of_nat off) (Z.of_nat (length cs)) t = Ret (Some cs) t.
Proof.
  intros Hs Hc Hl Hu Hb. unfold tdb_read, is_u32 in *. rewrite u32_id by (unfold is_u32; lia). unfold tdb_oob at 1.
  rewrite M_bind_assoc, get_st_bind, decide_True by lia. rewrite M_ret_bind, decide_False by lia.
  rewrite get_st_bind, Hs, !Nat2Z.id. by rewrite mem_read_cells.
Qed.

(** How much the store grows by: to the end of a page, by ten times the room
    asked for. *)
Definition growth (t : TDB_CONTEXT) (len : Z) : Z :=
  map_size t + len * 10 + 8192 - (map_size t + len * 10 + 8192) mod 8192 - map_size t.

Lemma growth_bounds t len : len * 10 < growth t len <= len * 10 + 8192.
Proof. unfold growth. pose proof (Z.mod_pos_bound (map_size t + len * 10 + 8192) 8192). lia. Qed.

Lemma growth_spec t len : 0 <= map_size t -> 0 <= len -> map_size t + len * 10 + 8192 < 4294967296 ->
  u32 (align_down (u32 (map_size t + u32 (len * TDB_LEN_MULTIPLIER) + TDB_PAGE_SIZE)) TDB_PAGE_SIZE - map_size t) = growth t len.
Proof.
  intros Hm Hl Hb. pose proof (growth_bounds t len). unfold TDB_LEN_MULTIPLIER, TDB_PAGE_SIZE, growth in *.
  rewrite (u32_id (len * 10)) by (unfold is_u32; lia). rewrite (u32_id (_ + _ + 8192)) by (unfold is_u32; lia).
  rewrite (align_down_spec _ _ 13) by (unfold is_u32; lia || done). apply u32_id. unfold is_u32. lia.
Qed.

Lemma oob_ecode t off : fd t = -1 \/ Z.of_nat (length (mem t)) <= off -> exists rc e, tdb_oob off t = Ret rc (set_ecode e t).
Proof.
  intros H. unfold tdb_oob. rewrite get_st_bind. case_decide as E.
  - exists 0, (ecode t). by destruct t.
  - fold (mem t). rewrite decide_True by tauto. by exists (-1), TDB_ERR_IO.
Qed.

(** The new contents: unassigned in memory, zeros in a file. *)
Definition grown (t : TDB_CONTEXT) (g : Z) : list cell :=
  mem t ++ replicate (Z.to_nat g) (if decide (fd t = -1) then None else Some 0).

Lemma length_grown t g : 0 <= g -> Z.of_nat (length (grown t g)) = Z.of_nat (length (mem t)) + g.
Proof. intros H. unfold grown. rewrite length_app, length_replicate. lia. Qed.

Lemma grow_ok t g : good t (mem t) -> 0 < g -> map_size t + g < 4294967296 -> grow t g = Some (grown t g).
Proof.
  intros H Hg Hb. pose proof (good_size _ _ H) as Hs. unfold grow, grown. rewrite (good_store _ _ H), (good_oom _ _ H). case_decide; [done|].
  f_equal. rewrite Hs in *. rewrite u32_id by (unfold is_u32; lia). unfold file_put.
  replace (Z.to_nat (Z.of_nat (length (mem t)) + g - 1) - length (mem t))%nat with (Z.to_nat (g - 1)) by lia.
  rewrite take_ge by (rewrite length_app, length_replicate; lia).
  rewrite drop_ge by (cbn; rewrite length_app, length_replicate; lia). rewrite app_nil_r, <- app_assoc. f_equal.
  replace (Z.to_nat g) with (S (Z.to_nat (g - 1))) by lia. by rewrite replicate_S_end.
Qed.

Lemma grown_good t g : good t (mem t) -> 0 < g -> map_size t + g < 4294967296 ->
  good (set_map_size (map_size t + g) (set_store (Some (grown t g)) t)) (grown t g).
Proof.
  intros [H1 H2 H3 H4 H5 H6 H7 H8] Hg Hb. pose proof (length_grown t g ltac:(lia)). unfold is_u32 in *. split; cbn; try done; [lia|unfold is_u32; lia|].
  unfold body in *. cbn. lia.
Qed.

Definition new_header (len : Z) (next : list cell) : list cell :=
  set_member NEXT next (set_field MAGIC TDB_FREE_MAGIC (set_field REC_LEN len fresh_rec)).

Lemma new_header_ok p len w q : length w = 4%nat -> word w = Some q -> is_u32 (Z.of_nat len) ->
  header_ok (MkNode p len None) q (new_header (Z.of_nat len) w).
Proof.
  intros Hw Hq Hl. unfold header_ok, new_header. cbn [n_kv n_len].
  rewrite length_set_member by auto 6 with sna. rewrite !field_set_member by auto 6 with sna.
  rewrite !field_set_field by (auto 6 with sna || done). done.
Qed.

Lemma with_lock_ecode l e t : set_ecode e (with_lock l t) = with_lock l (set_ecode e t).
Proof. done. Qed.

Lemma inv_set_ecode t fr chains extra e : inv t fr chains extra -> inv (set_ecode e t) fr chains extra.
Proof. intros I. eapply inv_other_ctx; [done| |done..]. by destruct (inv_good _ _ _ _ I); split. Qed.

Lemma expand_ok t fr chains extra len : inv t fr chains extra -> 3 <= len -> map_size t + len * 10 + 8192 < 4294967296 ->
  exists t' n, tdb_expand len t = Ret 0 t' /\ inv t' (n :: fr) chains extra /\
    Z.of_nat (n_len n) = growth t len - 24 /\ same_ctx t t' /\ map_size t' = map_size t + growth t len.
Proof.
  intros I Hlen Hmax. pose proof (inv_good _ _ _ _ I) as Hg0. pose proof (good_hash _ _ Hg0) as Hhs. pose proof (good_u32 _ _ Hg0) as Hu.
  pose proof (good_size _ _ Hg0) as Hsz. pose proof (growth_bounds t len) as Hgr. unfold is_u32 in Hu.
  unfold tdb_expand. erewrite M_bind_Ret; [|eapply tdb_lock_ok; [exact Hg0|lia]]. rewrite get_st_bind.
  destruct (oob_ecode (with_lock (-1) t) (u32 (map_size t + 1))) as (rc & e & Hoob).
  { right. change (mem (with_lock (-1) t)) with (mem t). rewrite u32_id by (unfold is_u32; lia). lia. }
  change (map_size (with_lock (-1) t)) with (map_size t). rewrite (M_bind_Ret _ _ _ _ _ Hoob), get_st_bind.
  pose proof (inv_set_ecode _ _ _ _ e (inv_with_lock _ _ _ _ (-1) I)) as I2. set (t2 := set_ecode e (with_lock (-1) t)) in *.
  change (map_size t2) with (map_size t). rewrite growth_spec by lia. set (g := growth t len) in *.
  pose proof (inv_good _ _ _ _ I2) as Hg2. pose proof (grow_ok t2 g Hg2 ltac:(lia) ltac:(cbn; lia)) as Hgrow.
  rewrite (decide_False (P := fd t2 <> -1 /\ _)) by (destruct (good_lockable _ _ Hg2) as [|[-> _]]; intros []; done).
  set (t3 := if decide (fd t2 = -1) then t2 else set_store (Some (grown t2 g)) t2).
  erewrite (M_bind_Ret _ _ _ tt t3); [|unfold t3; case_decide; [done|by rewrite Hgrow]].
  destruct (inv_free _ _ _ _ I2) as (w & p & Hw & Hp & Hc & _). pose proof (free_head_in _ _ Hg2) as Hin.
  assert (ofs_read FREELIST_TOP t3 = Ret (Some w) t3) as Hread.
  { unfold ofs_read. change FREELIST_TOP with (Z.of_nat 40). rewrite <- (tdb_read_within t3 (if decide (fd t2 = -1) then mem t2 else grown t2 g) 40 w); rewrite ?Hw.
    - done.
    - unfold t3. case_decide; [apply Hg2|done].
    - case_decide; [done|]. eapply cells_at_same; [done|]. intros i Hi. unfold grown. rewrite lookup_app_l; [done|].
      rewrite Hw in Hi. apply elem_of_seq in Hi. lia.
    - case_decide; [lia|]. unfold grown. rewrite length_app. lia.
    - unfold t3, is_u32. case_decide; cbn; lia.
    - unfold t3. case_decide; cbn; change (mem t2) with (mem t) in Hin; lia. }
  rewrite (M_bind_Ret _ _ _ _ _ Hread), get_st_bind.
  set (t4 := set_map_size (map_size t + g) (set_store (Some (grown t2 g)) t2)).
  assert (u32 (map_size t3 + g) = map_size t + g) as Hsize.
  { unfold t3. case_decide; cbn; apply u32_id; unfold is_u32; lia. }
  rewrite Hsize. erewrite (M_bind_Ret _ _ _ tt t4).
  2:{ unfold put_st, t4, t3. f_equal. destruct (decide (fd t2 = -1)) as [E|E].
      - rewrite decide_True by done. by rewrite Hgrow.
      - by rewrite decide_False. }
  pose proof (grown_good t2 g Hg2 ltac:(lia) ltac:(cbn; lia)) as Hg4.
  assert (inv t4 fr chains (MkNode (length (mem t)) (Z.to_nat (g - 24)) None :: extra)) as I4.
  { eapply (inv_grow t2); [exact I2| |done|exact Hg4|done]. rewrite length_replicate. lia. }
  replace (u32 (map_size t + g - g)) with (Z.of_nat (length (mem t))) by (rewrite u32_id; unfold is_u32; lia).
  replace (u32 (g - SIZEOF_REC)) with (Z.of_nat (Z.to_nat (g - 24))) by (rewrite u32_id; unfold is_u32, SIZEOF_REC; lia).
  assert (cells_at (mem t4) 40 w) as Hc4.
  { eapply cells_at_same; [exact Hc|]. intros i Hi. change (mem t4) with (grown t2 g). unfold grown. rewrite lookup_app_l; [done|].
    rewrite Hw in Hi. apply elem_of_seq in Hi. lia. }
  destruct (push_free_ok t4 fr chains _ extra w p _ I4 Hw Hp Hc4 (new_header_ok (length (mem t)) (Z.to_nat (g - 24)) w p Hw Hp ltac:(unfold is_u32; lia)))
    as (m5 & m6 & Hw5 & Hw6 & I6 & _). cbn [n_ptr n_len] in Hw5, Hw6, I6. unfold new_header in Hw5.
  rewrite (M_bind_Ret _ _ _ _ _ Hw5), (decide_False (P := 0 <> 0)) by lia.
  rewrite (M_bind_Ret _ _ _ _ _ Hw6), (decide_False (P := 0 <> 0)) by lia.
  erewrite M_bind_Ret; [|apply (tdb_unlock_ok t (mem t) _ (set_store (Some m6) t4) m6 Hg0 (inv_good _ _ _ _ I6)); [done|lia]].
  eexists _, _. split_and!; [done|apply inv_set_locked; [exact I6|..]; apply (good_locked _ _ Hg0)| |done|done].
  cbn [n_len]. lia.
Qed.

(** ** Allocating *)

(** A block taken out of the free list. *)
Lemma unlink_free_ok t a n c chains extra next rec last : inv t (a ++ n :: c) chains extra -> node_at (mem t) n next ->
  header_ok n next rec -> last_ok (mem t) a last ->
  exists m', match last with
             | None => ofs_write FREELIST_TOP (member NEXT rec)
             | Some (last_ptr, lastrec) => rec_write last_ptr (set_member NEXT (member NEXT rec) lastrec)
             end t = Ret 0 (set_store (Some m') t) /\
    inv (set_store (Some m') t) (a ++ c) chains (n :: extra) /\ node_at m' n next.
Proof.
  intros I Hn Hh Hlast. pose proof (inv_good _ _ _ _ I) as Hg.
  assert (length (member NEXT rec) = 4%nat) as Hw by (apply length_member; [auto with sna|apply Hh]).
  pose proof (free_in I) as [Hina _]%Forall_app.
  destruct (unlink_write t (mem t) 40 a last _ Hg Hina Hlast Hw (free_head_in _ _ Hg)) as (m1 & Hwr & Hst).
  exists m1. split; [exact Hwr|]. exact (inv_unlink_free I a n c next last _ m1 eq_refl Hn Hlast Hw (header_member_next _ _ _ Hh) Hst).
Qed.

(** The structures a split writes. *)
Lemma split_headers n next rec len : header_ok n next rec -> n_kv n = None -> (24 + len <= n_len n)%nat ->
  is_u32 (Z.of_nat (n_ptr n + 24 + n_len n)) ->
  header_ok (split_back n len) next (set_field MAGIC TDB_FREE_MAGIC (set_member NEXT (member NEXT rec)
    (set_field REC_LEN (Z.of_nat (n_len n - (24 + len))) fresh_rec))) /\
  header_ok (split_front n len) (Z.of_nat (n_ptr n + 24 + len))
    (set_field NEXT (Z.of_nat (n_ptr n + 24 + len)) (set_field REC_LEN (Z.of_nat len) rec)).
Proof.
  unfold is_u32. intros Hh Hkv Hlen Hu. pose proof (length_member NEXT rec is_member_next (proj1 Hh)) as Hw.
  pose proof (header_member_next _ _ _ Hh) as Hnext. destruct Hh as (Hl & H1 & H2 & H3). rewrite Hkv in H3.
  assert (is_u32 (Z.of_nat (n_ptr n + 24 + len)) /\ is_u32 (Z.of_nat len) /\ is_u32 (Z.of_nat (n_len n - (24 + len)))) as (U1 & U2 & U3)
    by (unfold is_u32; lia).
  split; unfold header_ok; cbn [n_kv n_len split_back split_front]; rewrite length_set_field by auto 6 with sna;
    rewrite !field_set_field by (auto 6 with sna || done); rewrite ?field_set_member by auto 6 with sna;
    rewrite ?field_set_field by (auto 6 with sna || done); done.
Qed.

Lemma last_ok_same m m' a last : last_ok m a last -> (forall l, l ∈ a -> same_on (span l) m m') -> last_ok m' a last.
Proof.
  destruct last as [[lp h]|]; cbn; [|done]. intros (a' & l & next & -> & -> & Hh & Hc) Hs. exists a', l, next. split_and!; try done.
  eapply cells_at_same; [done|]. rewrite (proj1 Hh). eapply same_on_incl; [apply Hs; rewrite elem_of_app; right; by left|].
  intros i. apply elem_of_header.
Qed.

(** What allocation hands over: a free block with the room asked for, in no
    list. *)
Definition allocated (t' : TDB_CONTEXT) (n : node) (chains : list (list node)) (extra : list node) (len : Z) : Prop :=
  len <= Z.of_nat (n_len n) /\ n_kv n = None /\ (exists next, node_at (mem t') n next) /\ exists fr, inv t' fr chains (n :: extra).

Lemma take_block_ok t a n c chains extra next rec last len : inv t (a ++ n :: c) chains extra -> node_at (mem t) n next ->
  header_ok n next rec -> last_ok (mem t) a last -> 0 <= len <= Z.of_nat (n_len n) ->
  exists t' n', take_block len (Z.of_nat (n_ptr n)) rec last t = Ret (Taken (Z.of_nat (n_ptr n'))) t' /\ allocated t' n' chains extra len /\ keeps t t'.
Proof.
  intros I Hn Hh Hlast Hlen. pose proof (inv_good _ _ _ _ I) as Hg. pose proof (inv_unused _ _ _ _ I) as [_ [Hkv _]%Forall_cons]%Forall_app.
  destruct (inv_in I n) as [Hin _]; [rewrite !elem_of_app; right; left; right; by left|]. unfold in_mem in Hin.
  pose proof (good_u32 _ _ Hg) as Hu. rewrite (good_size _ _ Hg) in Hu. unfold is_u32 in Hu.
  unfold take_block. rewrite (get_field_bind _ _ _ _ _ (proj1 (proj2 Hh))). case_decide as Esplit.
  2:{ rewrite M_ret_bind. destruct (unlink_free_ok _ _ _ _ _ _ _ _ _ I Hn Hh Hlast) as (m' & Hw & I' & Hn').
      rewrite (M_bind_Ret _ _ _ _ _ Hw). rewrite (decide_False (P := 0 <> 0)) by lia. eexists _, n. split; [done|]. split; [|done].
      split_and!; [lia|done|by exists next|by eexists]. }
  unfold MIN_REC_SIZE, SIZEOF_REC, TDB_ALIGN in *. rewrite (u32_id (len + 4)) by (unfold is_u32; lia).
  rewrite (align_down_spec _ _ 2) by (unfold is_u32; lia || done).
  pose proof (Z.mod_pos_bound (len + 4) 4 ltac:(lia)) as Hmod. set (l := Z.to_nat (len + 4 - (len + 4) mod 4)).
  replace (len + 4 - (len + 4) mod 4) with (Z.of_nat l) by lia.
  replace (u32 (Z.of_nat (n_len n) - (24 + Z.of_nat l))) with (Z.of_nat (n_len n - (24 + l))) by (rewrite u32_id; unfold is_u32; lia).
  replace (u32 (Z.of_nat (n_ptr n) + 24 + Z.of_nat l)) with (Z.of_nat (n_ptr n + 24 + l)) by (rewrite u32_id; unfold is_u32; lia).
  destruct (split_headers n next rec l Hh Hkv ltac:(lia) ltac:(unfold is_u32; lia)) as [Hb Hf].
  destruct (tdb_write_ok t (mem t) (n_ptr n + 24 + l) _ Hg ltac:(rewrite (proj1 Hb); lia)) as (m1 & Hw1 & Hs1).
  pose proof (stored_good _ _ _ _ _ Hg Hs1) as Hg1.
  destruct (tdb_write_ok (set_store (Some m1) t) m1 (n_ptr n) _ Hg1 ltac:(rewrite (proj1 Hf), (proj1 Hs1); lia)) as (m2 & Hw2 & Hs2).
  rewrite M_bind_assoc, (M_bind_Ret _ _ _ _ _ Hw1), (decide_False (P := 0 <> 0)) by lia.
  rewrite M_bind_assoc, (M_bind_Ret _ _ _ _ _ Hw2), (decide_False (P := 0 <> 0)) by lia. rewrite M_ret_bind.
  destruct (inv_split_free I a n c next _ _ l m1 m2 eq_refl Hn ltac:(lia) Hb Hf Hs1 Hs2) as (I2 & Hn2 & Hsame).
  pose proof (last_ok_same _ _ _ _ Hlast Hsame) as Hlast2.
  destruct (unlink_free_ok _ _ _ _ _ _ _ _ _ I2 Hn2 Hf Hlast2) as (m' & Hw & I' & Hn').
  change (set_store (Some m2) (set_store (Some m1) t)) with (set_store (Some m2) t).
  rewrite (M_bind_Ret _ _ _ _ _ Hw). rewrite (decide_False (P := 0 <> 0)) by lia. eexists _, (split_front n l). split; [done|]. split; [|done].
  split_and!; [cbn; lia|done|by eexists|by eexists].
Qed.

(** First fit. *)
Lemma search_free_ok t fr chains extra len : inv t fr chains extra -> 0 <= len ->
  forall rest fuel a p last, fr = a ++ rest -> lseg (mem t) p rest 0 -> last_ok (mem t) a last -> (length rest < fuel)%nat ->
  (exists t' n', search_free fuel len p last t = Ret (Taken (Z.of_nat (n_ptr n'))) t' /\ allocated t' n' chains extra len /\ keeps t t') \/
  (search_free fuel len p last t = Ret NotFound t /\ Forall (fun n => Z.of_nat (n_len n) < len) rest).
Proof.
  intros I Hlen rest. pose proof (inv_good _ _ _ _ I) as Hg.
  induction rest as [|n rest IH]; intros [|fuel] a p last Hfr Hl Hlast Hf; try (cbn in Hf; lia); cbn [lseg] in Hl; cbn [search_free].
  { subst p. right. by rewrite decide_True by done. }
  destruct Hl as (-> & H0 & next & Hn & Hl). rewrite (decide_False (P := Z.of_nat (n_ptr n) = 0)) by lia.
  pose proof (free_in I) as Hin. pose proof (inv_unused _ _ _ _ I) as Hkv. rewrite Hfr in Hin, Hkv.
  apply Forall_app in Hin as [_ [Hinn _]%Forall_cons]. apply Forall_app in Hkv as [_ [Hkv _]%Forall_cons].
  destruct (node_header _ _ _ Hn) as (h & Hh & Hc & _). pose proof Hh as (_ & Hrl & Hnext & Hm). rewrite Hkv in Hm.
  rewrite (M_bind_Ret _ _ _ _ _ (read_header _ _ _ _ _ Hg Hinn Hh Hc)).
  rewrite (get_field_bind _ _ _ _ _ Hm), (decide_False (P := TDB_FREE_MAGIC <> TDB_FREE_MAGIC)) by (intros E; by apply E).
  rewrite (get_field_bind _ _ _ _ _ Hrl). case_decide as E.
  - left. rewrite Hfr in I. by eapply take_block_ok.
  - rewrite (get_field_bind _ _ _ _ _ Hnext). specialize (IH fuel (a ++ [n]) next (Some (Z.of_nat (n_ptr n), h))).
    rewrite <- app_assoc in IH. destruct (IH Hfr Hl ltac:(by exists a, n, next) ltac:(cbn in Hf; lia)) as [?|[? ?]]; [by left|right].
    split; [done|]. constructor; [lia|done].
Qed.

(** One search from the top. *)
Lemma search_ok {B} t fr chains extra len (k : search_result -> T B) : inv t fr chains extra -> 0 <= len ->
  (exists t' n', allocated t' n' chains extra len /\ keeps t t' /\ forall none,
    (top ← ofs_read FREELIST_TOP; match top with
     | None => none
     | Some top => rec_ptr ← get_word top; t ← get_st; found ← search_free (list_fuel t) len rec_ptr None; k found end) t =
    k (Taken (Z.of_nat (n_ptr n'))) t') \/
  (Forall (fun n => Z.of_nat (n_len n) < len) fr /\ forall none,
    (top ← ofs_read FREELIST_TOP; match top with
     | None => none
     | Some top => rec_ptr ← get_word top; t ← get_st; found ← search_free (list_fuel t) len rec_ptr None; k found end) t =
    k NotFound t).
Proof.
  intros I Hlen. pose proof (inv_good _ _ _ _ I) as Hg. destruct (inv_free _ _ _ _ I) as (w & p & Hw & Hp & Hc & Hl).
  assert (ofs_read FREELIST_TOP t = Ret (Some w) t) as Hr by (apply (ofs_read_ok t (mem t) 40 w); [done..|by eapply free_head_in]).
  destruct (search_free_ok t fr chains extra len I Hlen fr (list_fuel t) [] p None eq_refl Hl eq_refl (free_fuel I))
    as [(t' & n' & H & Ha & K)|[H Hall]]; [left; exists t', n'; split_and!; [done..|]|right; split; [done|]]; intros none;
    by rewrite (M_bind_Ret _ _ _ _ _ Hr), (get_word_bind _ _ _ _ Hp), get_st_bind, (M_bind_Ret _ _ _ _ _ H).
Qed.

Lemma allocate_ok t fr chains extra len : inv t fr chains extra -> 0 <= len -> map_size t + (len + 24) * 10 + 8192 < 4294967296 ->
  exists t' n', tdb_allocate len t = Ret (Z.of_nat (n_ptr n')) t' /\ allocated t' n' chains extra len /\ same_ctx t t' /\
    map_size t' <= map_size t + (len + 24) * 10 + 8192.
Proof.
  intros I Hlen Hmax. pose proof (inv_good _ _ _ _ I) as Hg. pose proof (good_hash _ _ Hg). pose proof (good_u32 _ _ Hg) as Hu. unfold is_u32 in Hu.
  unfold tdb_allocate. erewrite M_bind_Ret; [|eapply tdb_lock_ok; [exact Hg|lia]].
  pose proof (inv_with_lock _ _ _ _ (-1) I) as I1. set (t1 := with_lock (-1) t) in *.
  enough (exists t' n', allocate_again 2 len t1 = Ret (Z.of_nat (n_ptr n')) t' /\ allocated t' n' chains extra len /\ same_ctx t1 t' /\
    map_size t' <= map_size t + (len + 24) * 10 + 8192) as (t' & n' & E & Ha & S & Hsz).
  { rewrite (M_bind_Ret _ _ _ _ _ E). destruct Ha as (H1 & H2 & H3 & fr' & I').
    erewrite M_bind_Ret; [|apply (tdb_unlock_ok t (mem t) _ t' (mem t') Hg (inv_good _ _ _ _ I')); [done|lia]].
    pose proof S as (S1 & S2 & S3 & S4 & S5 & S6). cbn in S1, S2, S4, S5, S6.
    eexists _, n'. split_and!; [done| |by split_and!|done]. split_and!; [done..|]. exists fr'.
    apply inv_set_locked; [done|rewrite S4|]; apply (good_locked _ _ Hg). }
  cbn [allocate_again]. destruct (search_ok t1 _ _ _ len (fun found => match found with
    | Taken rec_ptr => mret rec_ptr | NotFound => rc ← tdb_expand (u32 (len + SIZEOF_REC)); if decide (rc = 0) then allocate_again 1 len else mret 0
    | Failed => mret 0 end) I1 Hlen) as [(t' & n' & Ha & K & E)|[Hall E]].
  { cbn [allocate_again] in E. rewrite E. exists t', n'. destruct K as (K1 & K2 & _). split_and!; [done|done|done|cbn in K2; lia]. }
  cbn [allocate_again] in E. rewrite E. clear E. unfold SIZEOF_REC. rewrite (u32_id (len + 24)) by (unfold is_u32; lia).
  destruct (expand_ok t1 _ _ _ (len + 24) I1 ltac:(lia) ltac:(cbn; lia)) as (t2 & n & E & I2 & Hn & S & Hsz).
  rewrite (M_bind_Ret _ _ _ _ _ E). rewrite (decide_True (P := 0 = 0)) by done. pose proof (growth_bounds t1 (len + 24)) as Hgr.
  destruct (search_ok t2 _ _ _ len (fun found => match found with
    | Taken rec_ptr => mret rec_ptr | NotFound => rc ← tdb_expand (len + 24); if decide (rc = 0) then allocate_again 0 len else mret 0
    | Failed => mret 0 end) I2 Hlen) as [(t' & n' & Ha & K & E')|[[Hall' _]%Forall_cons _]]; [|lia].
  cbn [allocate_again] in E'. rewrite E'. exists t', n'. destruct K as (K1 & K2 & _). split_and!; [done|done|by eapply same_ctx_trans|].
  change (map_size t1) with (map_size t) in Hsz. lia.
Qed.

(** ** Linking *)

Lemma link_header n next rec key dbuf w p : header_ok n next rec -> length w = 4%nat -> word w = Some p ->
  is_u32 (Z.of_nat (n_len n)) -> (length key + length dbuf <= n_len n)%nat ->
  header_ok (MkNode (n_ptr n) (n_len n) (Some (key, dbuf))) p
    (set_field MAGIC TDB_MAGIC (set_field FULL_HASH (tdb_hash key) (set_field DATA_LEN (u32 (Z.of_nat (length dbuf)))
      (set_field KEY_LEN (u32 (Z.of_nat (length key))) (set_member NEXT w rec))))).
Proof.
  unfold is_u32. intros (Hl & H1 & H2 & _) Hw Hp Hu Hlen. rewrite (u32_id (Z.of_nat (length dbuf))), (u32_id (Z.of_nat (length key))) by (unfold is_u32; lia).
  assert (is_u32 (Z.of_nat (length dbuf)) /\ is_u32 (Z.of_nat (length key)) /\ is_u32 (tdb_hash key)) as (U1 & U2 & U3).
  { split_and!; unfold is_u32; try lia. apply Z.mod_pos_bound. lia. }
  unfold header_ok. cbn [n_kv n_len]. rewrite length_set_field by auto 10 with sna.
  rewrite !field_set_field by (auto 10 with sna || done). rewrite !field_set_member by auto 10 with sna. done.
Qed.

(** A record at the head of its chain. *)
Lemma records_link chains b ns n k d : chains !! b = Some ns -> n_kv n = Some (k, d) ->
  records (mjoin (<[b := n :: ns]> chains)) ≡ₚ (k, d) :: records (mjoin chains).
Proof.
  intros Hb Hkv. pose proof (records_remove (<[b := n :: ns]> chains) b [] n ns k d) as H. rewrite H; [|by apply list_lookup_insert_eq; eapply lookup_lt_Some|done].
  cbn [app]. by rewrite list_insert_insert, decide_True, list_insert_id.
Qed.

Lemma link_record_ok t fr chains extra n next key dbuf : inv t fr chains (n :: extra) -> n_kv n = None -> node_at (mem t) n next ->
  (length key + length dbuf <= n_len n)%nat -> db_map chains !! key = None ->
  exists t' chains', link_record key dbuf (tdb_hash key) (Z.of_nat (n_ptr n)) t = Ret 0 t' /\ inv t' fr chains' extra /\ keeps t t' /\
    db_map chains' = <[key := dbuf]> (db_map chains).
Proof.
  intros I Hkv Hn Hlen Hk. pose proof (inv_good _ _ _ _ I) as Hg. pose proof (good_u32 _ _ Hg) as Hu. rewrite (good_size _ _ Hg) in Hu.
  destruct (inv_in I n ltac:(by left)) as [Hin _]. unfold is_u32 in Hu.
  destruct (node_header _ _ _ Hn) as (h & Hh & Hc & _). pose proof Hh as (_ & _ & _ & Hm). rewrite Hkv in Hm.
  unfold link_record. rewrite (M_bind_Ret _ _ _ _ _ (read_header _ _ _ _ _ Hg Hin Hh Hc)). unfold in_mem in Hin.
  rewrite (get_field_bind _ _ _ _ _ Hm), (decide_False (P := TDB_FREE_MAGIC <> TDB_FREE_MAGIC)) by (intros E; by apply E). rewrite get_st_bind.
  destruct (read_top I key) as (ns & w & p & Hb & Hr & Hp & Hw & Hcw & _). rewrite (M_bind_Ret _ _ _ _ _ Hr), get_st_bind, (good_oom _ _ Hg).
  pose proof (link_header _ _ _ key dbuf w p Hh Hw Hp ltac:(unfold is_u32; lia) Hlen) as Hh'.
  set (n' := MkNode (n_ptr n) (n_len n) (Some (key, dbuf))) in *.
  match type of Hh' with header_ok _ _ ?r => set (rec' := r) in * end.
  destruct (tdb_write_ok t (mem t) (n_ptr n) (rec' ++ datum (key ++ dbuf)) Hg) as (m1 & Hw1 & Hs1).
  { rewrite length_app, length_datum, length_app, (proj1 Hh'). lia. }
  pose proof (stored_good _ _ _ _ _ Hg Hs1) as Hg1. unfold datum in Hw1. rewrite (M_bind_Ret _ _ _ _ _ Hw1), (decide_False (P := 0 <> 0)) by lia.
  rewrite (hash_top _ _ _ Hg).
  destruct (tdb_write_ok (set_store (Some m1) t) m1 (bucket_off (bucket_of t key)) (word_cells (Z.of_nat (n_ptr n))) Hg1) as (m2 & Hw2 & Hs2).
  { pose proof (good_body _ _ Hg1). pose proof (bucket_lt t _ key Hg). rewrite length_word_cells. unfold body, bucket_off, bucket_of in *. cbn in *. lia. }
  unfold ofs_write. rewrite (M_bind_Ret _ _ _ _ _ Hw2), (decide_False (P := 0 <> 0)) by lia.
  assert (key ∉ (records (mjoin chains)).*1) as Hnk by (by apply not_elem_of_list_to_map).
  pose proof (word_word_cells (Z.of_nat (n_ptr n)) ltac:(unfold is_u32; lia)) as Hpw.
  pose proof (inv_link I n extra _ ns key dbuf w p _ _ m1 m2 eq_refl Hb eq_refl Hnk Hw Hp Hcw Hh' Hs1 (length_word_cells _) Hpw Hs2) as I2.
  eexists _, _. split_and!; [done|exact I2|done|]. apply (db_map_cons _ _ _ _ (inv_keys _ _ _ _ I2)). by apply records_link.
Qed.

(** ** Storing *)

(** Taking the record out first, when it was not inserted. *)
Lemma store_delete_ok t fr chains extra key flag : inv t fr chains extra -> (flag = TDB_INSERT -> db_map chains !! key = None) ->
  exists rc t' fr' chains', (if decide (flag <> TDB_INSERT) then tdb_delete key else mret 0) t = Ret rc t' /\
    inv t' fr' chains' extra /\ keeps t t' /\ same_extra extra t t' /\ db_map chains' = delete key (db_map chains).
Proof.
  intros I Hk. case_decide as E.
  - destruct (delete_ok t fr chains extra key I) as (rc & t' & fr' & chains' & H & I' & K & X & Hm & _). by exists rc, t', fr', chains'.
  - exists 0, t, fr, chains. split_and!; [done|done|apply keeps_refl|done|]. symmetry. apply delete_id, Hk. exact E.
Qed.

Lemma store_new_ok t fr chains key dbuf flag : inv t fr chains [] -> (flag = TDB_INSERT -> db_map chains !! key = None) ->
  map_size t + (Z.of_nat (length key + length dbuf) + 24) * 10 + 8192 < 4294967296 ->
  exists t' fr' chains', (rec_ptr ← tdb_allocate (u32 (Z.of_nat (length key) + Z.of_nat (length dbuf)));
      if decide (rec_ptr = 0) then mret (-1)
      else
        t ← get_st;
        let b := BUCKET t (tdb_hash key) in
        tdb_lock b;;
        (if decide (flag <> TDB_INSERT) then tdb_delete key else mret 0);;
        rc ← link_record key dbuf (tdb_hash key) rec_ptr;
        tdb_unlock b;; mret rc) t = Ret 0 t' /\ inv t' fr' chains' [] /\ same_ctx t t' /\
    map_size t' <= map_size t + (Z.of_nat (length key + length dbuf) + 24) * 10 + 8192 /\ db_map chains' = <[key := dbuf]> (db_map chains).
Proof.
  intros I Hk Hmax. pose proof (good_u32 _ _ (inv_good _ _ _ _ I)) as Hu. unfold is_u32 in Hu.
  rewrite u32_id by (unfold is_u32; lia). rewrite <- Nat2Z.inj_add.
  destruct (allocate_ok t fr chains [] (Z.of_nat (length key + length dbuf)) I ltac:(lia) Hmax) as (t1 & n & E & (Hlen & Hkv & (next & Hn) & fr1 & I1) & S & Hsz).
  rewrite (M_bind_Ret _ _ _ _ _ E). destruct (inv_in I1 n ltac:(by left)) as [_ Hbody]. unfold body in Hbody.
  rewrite (decide_False (P := Z.of_nat (n_ptr n) = 0)) by lia. rewrite get_st_bind.
  pose proof (inv_good _ _ _ _ I1) as Hg1. pose proof (bucket_lt t1 _ key Hg1) as Hlt. set (b := BUCKET t1 (tdb_hash key)) in *.
  erewrite M_bind_Ret; [|eapply tdb_lock_ok; [exact Hg1|lia]]. pose proof (inv_with_lock _ _ _ _ b I1) as I2. set (t2 := with_lock b t1) in *.
  destruct (store_delete_ok t2 fr1 chains [n] key flag I2 Hk) as (rc & t3 & fr3 & chains3 & E3 & I3 & K3 & X3 & Hm3).
  rewrite (M_bind_Ret _ _ _ _ _ E3).
  assert (node_at (mem t3) n next) as Hn3 by (eapply node_same; [exact Hn|]; apply X3; by left).
  destruct (link_record_ok t3 fr3 chains3 [] n next key dbuf I3 Hkv Hn3 ltac:(lia)) as (t4 & chains4 & E4 & I4 & K4 & Hm4).
  { rewrite Hm3. apply lookup_delete_eq. }
  rewrite (M_bind_Ret _ _ _ _ _ E4). destruct (keeps_trans _ _ _ K3 K4) as (KS & KM & _).
  erewrite M_bind_Ret; [|apply (tdb_unlock_ok t1 (mem t1) b t4 (mem t4) Hg1 (inv_good _ _ _ _ I4)); [exact KS|lia]].
  pose proof KS as (S1 & S2 & S3 & S4 & S5 & S6). cbn in S1, S2, S4, S5, S6.
  exists (set_locked (locked t1) t4), fr3, chains4. split_and!; [done| | | |].
  - apply inv_set_locked; [done|rewrite S4|]; apply (good_locked _ _ Hg1).
  - eapply same_ctx_trans; [exact S|]. by split_and!.
  - cbn. rewrite KM. exact Hsz.
  - rewrite Hm4, Hm3. apply insert_delete_eq.
Qed.

(** What one store may add to the file at most. *)
Definition store_room (key dbuf : list Z) : Z := (Z.of_nat (length key + length dbuf) + 24) * 10 + 8192.

Lemma store_ok t fr chains key dbuf flag : inv t fr chains [] -> map_size t + store_room key dbuf < 4294967296 ->
  if decide (flag = TDB_INSERT /\ is_Some (db_map chains !! key))
  then tdb_store key dbuf flag t = Ret (-1) (set_ecode TDB_ERR_EXISTS t)
  else exists t' fr' chains', tdb_store key dbuf flag t = Ret 0 t' /\ inv t' fr' chains' [] /\ same_ctx t t' /\
    map_size t' <= map_size t + store_room key dbuf /\ db_map chains' = <[key := dbuf]> (db_map chains).
Proof.
  unfold store_room. intros I Hmax. pose proof (good_u32 _ _ (inv_good _ _ _ _ I)) as Hu. unfold is_u32 in Hu. unfold tdb_store.
  destruct (decide (flag = TDB_INSERT)) as [E|E].
  - rewrite (M_bind_Ret _ _ _ _ _ (exists_ok t fr chains [] key I)). destruct (decide (is_Some (db_map chains !! key))) as [Hs|Hs].
    + rewrite decide_True by done. by rewrite bool_decide_true by done.
    + rewrite decide_False by tauto. rewrite bool_decide_false by done. rewrite !(decide_False (P := flag <> TDB_INSERT)) by tauto.
      rewrite M_ret_bind, (decide_False (P := -1 = 0)) by lia.
      assert (flag = TDB_INSERT -> db_map chains !! key = None) as Hk by (intros _; by apply eq_None_not_Some).
      destruct (store_new_ok t fr chains key dbuf flag I Hk ltac:(lia)) as (t' & fr' & chains' & H & H').
      rewrite (decide_False (P := flag <> TDB_INSERT)) in H by tauto. exists t', fr', chains'. split; [exact H|]. split_and!; try apply H'. lia.
  - rewrite (decide_False (P := flag = TDB_INSERT /\ _)) by tauto. rewrite M_ret_bind. rewrite !(decide_True (P := flag <> TDB_INSERT)) by done.
    destruct (update_ok t fr chains [] key dbuf I ltac:(unfold is_u32; lia)) as [(t' & chains' & H & I' & K & Hm)|H]; rewrite (M_bind_Ret _ _ _ _ _ H).
    + rewrite (decide_True (P := 0 = 0)) by done. exists t', fr, chains'. destruct K as (K1 & K2 & _). split_and!; try done. lia.
    + rewrite (decide_False (P := -1 = 0)) by lia.
      destruct (store_new_ok t fr chains key dbuf flag I ltac:(done) ltac:(lia)) as (t' & fr' & chains' & H1 & H').
      rewrite (decide_True (P := flag <> TDB_INSERT)) in H1 by done. exists t', fr', chains'. split; [exact H1|]. split_and!; try apply H'. lia.
Qed.
