(* ===== verification/TdbSpec.v ===== *)
(** * What the database promises

    The theorems on [Tdb] for its callers, over the abstract view
    [TdbInv.tdb_refines]: opening gives the empty map, operations in any order
    answer as the map does, traversal visits each record once, integers are
    read back. *)
From S2P Require Import Prelude Tdb TdbMem TdbInv TdbMap TdbStore.

(** ** Opening *)

Lemma new_words16_le fuel size i : i <= size + 1 -> new_words16 fuel size i <= size + 1.
Proof. revert i. induction fuel as [|fuel IH]; intros i Hi; cbn; [done|]. case_decide; [apply IH; lia|done]. Qed.

Lemma new_words_spec size : 0 <= size -> new_words size = size + 1.
Proof. intros H. unfold new_words. pose proof (new_words16_le (S (Z.to_nat size)) size 0 ltac:(lia)). lia. Qed.

(** A store of empty lists. *)
Lemma inv_empty t : good t (mem t) -> (forall i, (40 <= i < body t)%nat -> mem t !! i = Some (Some 0)) ->
  inv t [] (replicate (Z.to_nat (hash_size t)) []) [].
Proof.
  intros Hg H0. assert (forall off, (40 <= off)%nat -> (off + 4 <= body t)%nat -> list_at (mem t) off []) as Hl.
  { intros off H1 H2. exists [Some 0; Some 0; Some 0; Some 0], 0. split_and!; [done..| |done].
    intros i c Hc. rewrite H0 by (apply lookup_lt_Some in Hc; cbn in Hc; lia).
    do 4 (destruct i as [|i]; [by injection Hc as <-|]). done. }
  assert (mjoin (replicate (Z.to_nat (hash_size t)) ([] : list node)) = []) as Hj.
  { induction (Z.to_nat (hash_size t)) as [|n IH]; [done|]. exact IH. }
  split; rewrite ?Hj; try done; try constructor.
  - apply Hl; unfold body; lia.
  - intros b ns [-> Hb]%lookup_replicate. apply Hl; unfold bucket_off, body; lia.
  - by rewrite length_replicate.
  - intros b ns n [-> _]%lookup_replicate. by intros ?%elem_of_nil.
Qed.

Lemma db_map_replicate n : db_map (replicate n []) = ∅.
Proof.
  unfold db_map. assert (mjoin (replicate n ([] : list node)) = []) as -> by (induction n as [|n IH]; [done|exact IH]). done.
Qed.

Definition sized (size : Z) : Z := if decide (size = 0) then DEFAULT_HASH_SIZE else size.

(** The header and the empty lists, as written to a new file. *)
Lemma length_header size : length (header_cells size) = 40%nat.
Proof. done. Qed.

Lemma header_hash_size size body : is_u32 size -> word (take 4 (drop 36 (header_cells size ++ body))) = Some size.
Proof. intros H. transitivity (word (word_cells (u32 size))); [done|]. rewrite u32_id by done. by apply word_word_cells. Qed.

(** A database as it is opened, with [m] for its store. *)
Definition opened (m : list cell) (fd : Z) (size : Z) (t : TDB_CONTEXT) : Prop :=
  t = MkTdb (Some m) fd (Z.of_nat (length m)) false (replicate (Z.to_nat (size + 1)) 0) (ecode t) size true false.

Lemma opened_good m fd size t : opened m fd size t -> 0 < size < 1073741000 -> Z.of_nat (length m) = 44 + 4 * size -> good t m.
Proof.
  intros -> Hs Hl. split; cbn; try done; try lia.
  - unfold is_u32. lia.
  - rewrite length_replicate. split; [lia|]. by apply Forall_replicate.
Qed.

Lemma opened_refines m fd size t : opened m fd size t -> 0 < size < 1073741000 -> Z.of_nat (length m) = 44 + 4 * size ->
  (forall i, (40 <= i < length m)%nat -> m !! i = Some (Some 0)) -> tdb_refines t ∅.
Proof.
  intros Ho Hs Hl H0. pose proof (opened_good _ _ _ _ Ho Hs Hl) as Hg.
  assert (mem t = m /\ body t = length m) as [Hm Hb] by (unfold mem, body; rewrite Ho; cbn; split; [done|lia]).
  exists [], (replicate (Z.to_nat (hash_size t)) []). split; [|by rewrite db_map_replicate].
  apply inv_empty; [by rewrite Hm|]. rewrite Hm, Hb. done.
Qed.

(** Opening in memory, or a file without a database in it. *)
Lemma tdb_open_new name size flags first : 0 < sized size < 1073741000 ->
  match name with None => True | Some (Opened contents) => valid_header (Some <$> contents) = None | Some OpenFails => False end ->
  exists t m fd, tdb_open name size flags false false true first true false = Some t /\ opened m fd (sized size) t /\
    Z.of_nat (length m) = 44 + 4 * sized size /\ (forall i, (40 <= i < length m)%nat -> m !! i = Some (Some 0)).
Proof.
  intros Hs Hn. unfold tdb_open. fold (sized size). set (n := sized size) in *. cbn [negb].
  assert (SIZEOF_HEADER + SIZEOF_OFF * new_words n = 44 + 4 * n) as Hw by (rewrite new_words_spec by lia; unfold SIZEOF_HEADER, SIZEOF_OFF; lia).
  destruct name as [[|contents]|]; [done| |].
  - set (cleared := if _ : bool then [] else contents). assert (valid_header (Some <$> cleared) = None) as ->.
    { unfold cleared. by destruct (_ && _). }
    unfold tdb_new_database. rewrite get_st_bind. cbn [fd read_only oom]. rewrite decide_False by lia. rewrite Hw. rewrite put_st_bind. unfold mret, M_ret. rewrite decide_False by lia.
    cbn [store set_store default]. unfold id. set (z := replicate (Z.to_nat (44 + 4 * n - SIZEOF_HEADER)) (Some 0)).
    rewrite header_hash_size by (unfold is_u32; lia). cbn [mbind option_bind].
    assert (Z.of_nat (length (header_cells n ++ z)) = 44 + 4 * n) as Hl.
    { unfold z. rewrite length_app, length_header, length_replicate. unfold SIZEOF_HEADER. lia. }
    eexists _, (header_cells n ++ z), 3. split; [reflexivity|]. unfold opened. cbn [fd ecode store default from_option id].
    rewrite !Hl, !u32_id by (unfold is_u32; lia). split_and!; [done|done|].
    intros i Hi. rewrite lookup_app_r by (rewrite length_header; lia). rewrite length_header. apply lookup_replicate.
    split; [done|]. unfold SIZEOF_HEADER. lia.
  - unfold tdb_new_database. rewrite get_st_bind. cbn [fd read_only oom]. rewrite decide_True by done. rewrite Hw. rewrite put_st_bind. unfold mret, M_ret. rewrite decide_False by lia.
    cbn [hash_size set_locked]. rewrite (u32_id n), (u32_id (44 + 4 * n)), (u32_id (n + 1)) by (unfold is_u32; lia).
    eexists _, (replicate (Z.to_nat (44 + 4 * n)) (Some 0)), (-1). split; [reflexivity|]. unfold opened, set_locked. cbn [fd ecode store map_size hash_size read_only lock_ok oom].
    assert (Z.of_nat (length (replicate (Z.to_nat (44 + 4 * n)) (Some 0))) = 44 + 4 * n) as -> by (rewrite length_replicate; lia).
    split_and!; [done|done|]. intros i Hi. apply lookup_replicate. split; [done|]. rewrite length_replicate in Hi. lia.
Qed.

(** ** Operations in order *)

(** The calls a client makes, and their answers. *)
Inductive tdb_op : Type :=
| OpStore (key dbuf : list Z) (flag : Z)
| OpFetch (key : list Z)
| OpExists (key : list Z)
| OpDelete (key : list Z).

Inductive tdb_reply : Type :=
| Code (rc : Z)
| Data (d : option (list cell))
| Bool (b : bool).

Definition run_op (op : tdb_op) : T tdb_reply :=
  match op with
  | OpStore key dbuf flag => rc ← tdb_store key dbuf flag; mret (Code rc)
  | OpFetch key => d ← tdb_fetch key; mret (Data d)
  | OpExists key => b ← tdb_exists key; mret (Bool b)
  | OpDelete key => rc ← tdb_delete key; mret (Code rc)
  end.

Fixpoint run_ops (ops : list tdb_op) : T (list tdb_reply) :=
  match ops with
  | [] => mret []
  | op :: ops => r ← run_op op; rs ← run_ops ops; mret (r :: rs)
  end.

Abbreviation dict := (gmap (list Z) (list Z)).

(** The same calls on a map. *)
Definition map_op (op : tdb_op) (D : dict) : tdb_reply * dict :=
  match op with
  | OpStore key dbuf flag =>
      if decide (flag = TDB_INSERT /\ is_Some (D !! key)) then (Code (-1), D) else (Code 0, <[key := dbuf]> D)
  | OpFetch key => (Data (datum <$> D !! key), D)
  | OpExists key => (Bool (bool_decide (is_Some (D !! key))), D)
  | OpDelete key => (Code (match D !! key with Some _ => 0 | None => -1 end), delete key D)
  end.

Fixpoint map_ops (ops : list tdb_op) (D : dict) : list tdb_reply * dict :=
  match ops with
  | [] => ([], D)
  | op :: ops => let '(r, D) := map_op op D in let '(rs, D) := map_ops ops D in (r :: rs, D)
  end.

(** What the calls may make the store grow by. *)
Definition op_room (op : tdb_op) : Z := match op with OpStore key dbuf _ => store_room key dbuf | _ => 0 end.
Definition ops_room (ops : list tdb_op) : Z := foldr (fun op n => op_room op + n) 0 ops.

Lemma op_room_pos op : 0 <= op_room op.
Proof. destruct op; cbn; unfold store_room; lia. Qed.

Lemma ops_room_pos ops : 0 <= ops_room ops.
Proof. induction ops as [|op ops IH]; cbn; [done|]. pose proof (op_room_pos op). unfold ops_room in IH. lia. Qed.

Lemma run_op_ok op t fr chains : inv t fr chains [] -> map_size t + op_room op < 4294967296 ->
  exists t' fr' chains', run_op op t = Ret (fst (map_op op (db_map chains))) t' /\ inv t' fr' chains' [] /\
    db_map chains' = snd (map_op op (db_map chains)) /\ map_size t' <= map_size t + op_room op.
Proof.
  intros I Hmax. destruct op as [key dbuf flag|key|key|key]; cbn [run_op map_op op_room] in *.
  - pose proof (store_ok t fr chains key dbuf flag I Hmax) as H. case_decide as E.
    + rewrite (M_bind_Ret _ _ _ _ _ H). eexists _, fr, chains. split_and!; [done|by apply inv_set_ecode|done|]. cbn. unfold store_room. lia.
    + destruct H as (t' & fr' & chains' & H & I' & _ & Hsz & Hm). rewrite (M_bind_Ret _ _ _ _ _ H). by exists t', fr', chains'.
  - rewrite (M_bind_Ret _ _ _ _ _ (fetch_ok t fr chains [] key I)). exists t, fr, chains. split_and!; [done|done|done|lia].
  - rewrite (M_bind_Ret _ _ _ _ _ (exists_ok t fr chains [] key I)). exists t, fr, chains. split_and!; [done|done|done|lia].
  - destruct (delete_ok t fr chains [] key I) as (rc & t' & fr' & chains' & H & I' & K & _ & Hm & ->).
    rewrite (M_bind_Ret _ _ _ _ _ H). exists t', fr', chains'. destruct K as (_ & K & _). split_and!; [done|done|done|lia].
Qed.

(** ** Traversal *)

Lemma cells_bytes_fmap bs : cells_bytes (Some <$> bs) = Some bs.
Proof. unfold cells_bytes. induction bs as [|b bs IH]; [done|]. cbn in *. by rewrite IH. Qed.

Section Traverse.
Context {U : Type} (f : list Z -> list Z -> U -> U).

(** A callback that goes on, and leaves the database alone. *)
Definition visit (k d : list Z) (u : U) : T (Z * U) := mret (0, f k d u).
Definition visit_all (u : U) (L : list (list Z * list Z)) : U := foldl (fun u kd => f kd.1 kd.2 u) u L.

Lemma visit_bind {B} k d u (K : Z * U -> T B) t : (visit k d u ≫= K) t = K (0, f k d u) t.
Proof. done. Qed.

Lemma traverse_chain_ok t m : good t m -> forall fuel ns p count u, lseg m p ns 0 -> Forall (in_mem m) ns -> Forall used ns ->
  (length ns < fuel)%nat ->
  traverse_chain visit fuel p count u t = Ret (Some (count + Z.of_nat (length ns), false), visit_all u (records ns)) t.
Proof.
  intros H. induction fuel as [|fuel IH]; intros ns p count u Hl Hb Hu Hf; [lia|].
  destruct ns as [|n ns]; cbn [lseg] in Hl; cbn [traverse_chain].
  { subst p. rewrite decide_True by done. cbn. by rewrite Z.add_0_r. }
  destruct Hl as (-> & H0 & next & Hn & Hl). apply Forall_cons in Hb as [Hb Hbs]. apply Forall_cons in Hu as [Hu Hus].
  rewrite (decide_False (P := Z.of_nat (n_ptr n) = 0)) by lia. destruct (node_header _ _ _ Hn) as (h & Hh & Hc & Hk). pose proof Hu as [[k d] Hkv].
  rewrite (M_bind_Ret _ _ _ _ _ (rec_read_ok _ _ _ _ _ H Hb Hu Hh Hc (proj2 (lseg_bound _ _ _ Hl Hbs)))).
  pose proof Hh as (_ & _ & Hnext & Hm). rewrite Hkv in Hm. destruct Hm as (_ & Hkl & Hdl & _ & Hlen).
  rewrite (get_field_bind _ _ _ _ _ Hkl), (get_field_bind _ _ _ _ _ Hdl).
  pose proof (good_u32 _ _ H) as Hs. rewrite (good_size _ _ H) in Hs. unfold in_mem, is_u32 in *.
  unfold content in Hk. rewrite Hkv in Hk. pose proof (tdb_alloc_read_ok t m _ _ H Hk) as Hr. rewrite length_fmap, length_app in Hr.
  rewrite (u32_id (_ + SIZEOF_REC)), (u32_id (Z.of_nat (length k) + _)) by (unfold is_u32, SIZEOF_REC; lia).
  replace (Z.of_nat (n_ptr n) + SIZEOF_REC) with (Z.of_nat (n_ptr n + 24)) by (unfold SIZEOF_REC; lia).
  rewrite <- Nat2Z.inj_add. rewrite (M_bind_Ret _ _ _ _ _ (Hr ltac:(lia))), cells_bytes_fmap, of_opt_Some_bind, Nat2Z.id.
  rewrite take_app_length, drop_app_length. rewrite visit_bind, (decide_False (P := 0 <> 0)) by lia.
  rewrite (get_field_bind _ _ _ _ _ Hnext), (IH ns) by (done || (cbn in Hf; lia)).
  change (n :: ns) with ([n] ++ ns). rewrite records_app, (records_node _ _ _ Hkv). replace (count + 1 + Z.of_nat (length ns)) with (count + Z.of_nat (length ([n] ++ ns))) by (cbn; lia). done.
Qed.

Lemma traverse_buckets_ok t fr chains : inv t fr chains [] -> forall k h count u, (h + k = Z.to_nat (hash_size t))%nat ->
  traverse_buckets visit k (Z.of_nat h) count u t =
    Ret (count + Z.of_nat (length (mjoin (drop h chains))), visit_all u (records (mjoin (drop h chains)))) t.
Proof.
  intros I. pose proof (inv_good _ _ _ _ I) as Hg. pose proof (good_hash _ _ Hg) as Hhs.
  induction k as [|k IH]; intros h count u Hk; cbn [traverse_buckets].
  { rewrite drop_ge by (rewrite (inv_buckets _ _ _ _ I); lia). cbn. by rewrite Z.add_0_r. }
  rewrite get_st_bind. assert (BUCKET t (Z.of_nat h) = Z.of_nat h) as Hb by (unfold BUCKET; apply Z.mod_small; lia). rewrite Hb.
  erewrite M_bind_Ret; [|eapply tdb_lock_ok; [exact Hg|lia]].
  pose proof (inv_with_lock _ _ _ _ (Z.of_nat h) I) as I1. pose proof (inv_good _ _ _ _ I1) as Hg1.
  destruct (lookup_lt_is_Some_2 chains h) as [ns Hns]; [rewrite (inv_buckets _ _ _ _ I); lia|].
  destruct (inv_chain _ _ _ _ I1 _ _ Hns) as (w & p & Hw & Hp & Hc & Hl).
  assert (tdb_hash_top t (Z.of_nat h) = Z.of_nat (bucket_off h)) as ->.
  { unfold tdb_hash_top. rewrite Hb. unfold FREELIST_TOP, SIZEOF_HEADER, SIZEOF_OFF, bucket_off. rewrite u32_id; [lia|]. unfold is_u32. lia. }
  assert (bucket_off h + 4 <= length (mem (with_lock (Z.of_nat h) t)))%nat as Hin
    by (pose proof (good_body _ _ Hg1); unfold body, bucket_off in *; cbn in *; lia).
  rewrite (M_bind_Ret _ _ _ _ _ (ofs_read_ok _ _ _ _ Hg1 Hc Hw Hin)).
  rewrite (get_word_bind _ _ _ _ Hp), get_st_bind.
  rewrite (M_bind_Ret _ _ _ _ _ (traverse_chain_ok _ _ Hg1 _ ns p count u Hl (chain_in I1 _ _ Hns) (chain_used I1 _ _ Hns) (chain_fuel I1 _ _ Hns))).
  change (BUCKET (with_lock (Z.of_nat h) t) (Z.of_nat h)) with (BUCKET t (Z.of_nat h)). rewrite Hb.
  erewrite M_bind_Ret; [|eapply unlock_back; [exact I|lia]]. replace (Z.of_nat h + 1) with (Z.of_nat (S h)) by lia.
  rewrite IH by lia. rewrite (drop_S _ _ _ Hns). cbn [mjoin list_join]. rewrite records_app. unfold visit_all.
  by rewrite foldl_app, length_app, Nat2Z.inj_add, Z.add_assoc.
Qed.
End Traverse.

(** Every block of a chain holds a record. *)
Lemma length_records {t fr chains extra} (I : inv t fr chains extra) : length (records (mjoin chains)) = length (mjoin chains).
Proof.
  assert (Forall used (mjoin chains)) as Hu.
  { apply Forall_join, Forall_forall. intros ns [b Hb]%list_elem_of_lookup. by apply (chain_used I b). }
  unfold records. induction Hu as [|n ns [kd Hn] _ IH]; [done|]. cbn. rewrite Hn. cbn. by rewrite IH.
Qed.

(** ** Integers *)

Lemma cells_bytes_word v : cells_bytes (word_cells v) = Some [v mod 256; v / 256 mod 256; v / 65536 mod 256; v / 16777216 mod 256].
Proof. done. Qed.

Lemma s32_u32 v : -2147483648 <= v < 2147483648 -> s32 (u32 v) = v.
Proof.
  intros H. unfold s32, u32. destruct (decide (0 <= v)).
  - rewrite Z.mod_small by lia. by rewrite decide_True by lia.
  - replace (v mod 4294967296) with (v + 4294967296) by (rewrite <- (Z.mod_small (v + 4294967296) 4294967296) by lia; rewrite <- Z.add_mod_idemp_r by lia; rewrite Z.mod_same by lia; by rewrite Z.add_0_r).
    rewrite decide_False by lia. lia.
Qed.

(** ** The theorems *)

(** A database in memory with four chains, as opened. *)
Definition demo_db : TDB_CONTEXT := MkTdb (Some (replicate 60 (Some 0))) (-1) 60 false (replicate 5 0) 0 4 true false.

Lemma demo_refines : tdb_refines demo_db ∅.
Proof.
  apply (opened_refines (replicate 60 (Some 0)) (-1) 4); [done|done|done|]. intros i Hi.
  apply lookup_replicate. rewrite length_replicate in Hi. split; [done|lia].
Qed.

(** C3: any sequence of stores, fetches, existence checks and deletions on a
    database answers as the same sequence on the finite map it holds, and
    leaves a database that holds the resulting map; the file grows by at most
    the room the stores ask for. *)
Theorem tdb_ops_refine (ops : list tdb_op) (t : TDB_CONTEXT) (D : dict) :
  tdb_refines t D -> map_size t + ops_room ops < 4294967296 ->
  exists t', run_ops ops t = Ret (fst (map_ops ops D)) t' /\ tdb_refines t' (snd (map_ops ops D)) /\
    map_size t' <= map_size t + ops_room ops.
Proof.
  revert t D. induction ops as [|op ops IH]; intros t D (fr & chains & I & ->) Hmax; cbn [run_ops map_ops ops_room foldr] in *.
  { exists t. split_and!; [done|by exists fr, chains|lia]. }
  pose proof (ops_room_pos ops) as Hpos. fold (ops_room ops) in *.
  destruct (run_op_ok op t fr chains I ltac:(lia)) as (t1 & fr1 & chains1 & E & I1 & Hm & Hsz).
  destruct (IH t1 (db_map chains1) ltac:(by exists fr1, chains1) ltac:(lia)) as (t' & E' & R & Hsz').
  rewrite (M_bind_Ret _ _ _ _ _ E), (M_bind_Ret _ _ _ _ _ E'). rewrite Hm in *.
  destruct (map_op op (db_map chains)) as [r D1]. cbn [fst snd] in *. destruct (map_ops ops D1) as [rs D2].
  exists t'. split_and!; [done|done|lia].
Qed.

Definition demo_ops : list tdb_op :=
  [OpStore (str "k") (str "v") TDB_REPLACE; OpStore (str "k") (str "w") TDB_INSERT; OpFetch (str "k"); OpStore (str "k") (str "longer") TDB_REPLACE;
   OpDelete (str "l"); OpFetch (str "k"); OpDelete (str "k"); OpExists (str "k")].

Lemma tdb_ops_refine_witness :
  exists t', run_ops demo_ops demo_db = Ret [Code 0; Code (-1); Data (Some (datum (str "v"))); Code 0; Code (-1);
    Data (Some (datum (str "longer"))); Code 0; Bool false] t' /\ tdb_refines t' ∅.
Proof.
  destruct (tdb_ops_refine demo_ops demo_db ∅ demo_refines ltac:(vm_compute; reflexivity)) as (t' & E & R & _).
  exists t'. split; [etransitivity; [exact E|]; f_equal; vm_compute; reflexivity|].
  assert (snd (map_ops demo_ops ∅) = ∅) as <- by (vm_compute; reflexivity). exact R.
Defined.

(** a database opened anew, in memory or over a file that holds none,
    holds the empty map, whatever number of chains is asked for (128 for 0). *)
Theorem tdb_open_empty (name : option open_result) (size flags : Z) (first : bool) :
  0 < sized size < 1073741000 ->
  match name with None => True | Some (Opened contents) => valid_header (Some <$> contents) = None | Some OpenFails => False end ->
  exists t, tdb_open name size flags false false true first true false = Some t /\ hash_size t = sized size /\ tdb_refines t ∅.
Proof.
  intros Hs Hn. destruct (tdb_open_new name size flags first Hs Hn) as (t & m & fd & E & Ho & Hl & H0).
  exists t. split_and!; [done|by rewrite Ho|]. by apply (opened_refines m fd (sized size)).
Qed.

Lemma tdb_open_empty_witness : exists t, tdb_open (Some (Opened (str "not a database"))) 0 0 false false true true true false = Some t /\
  hash_size t = 128 /\ tdb_refines t ∅.
Proof. apply (tdb_open_empty (Some (Opened (str "not a database"))) 0 0 true); [done|vm_compute; reflexivity]. Defined.

(** a traversal with a callback that goes on calls it once for each
    record of the map, in some order, returns their number and leaves the
    database as it was. *)
Theorem tdb_traverse_visits {U : Type} (f : list Z -> list Z -> U -> U) (u : U) (t : TDB_CONTEXT) (D : dict) :
  tdb_refines t D ->
  exists L, L ≡ₚ map_to_list D /\ tdb_traverse (visit f) u t = Ret (Z.of_nat (size D), visit_all f u L) t.
Proof.
  intros (fr & chains & I & ->). exists (records (mjoin chains)).
  assert (records (mjoin chains) ≡ₚ map_to_list (db_map chains)) as Hp by (symmetry; apply map_to_list_to_map, I).
  split; [done|]. unfold tdb_traverse. rewrite get_st_bind.
  pose proof (traverse_buckets_ok f t fr chains I (Z.to_nat (hash_size t)) 0 0 u ltac:(lia)) as E. rewrite drop_0 in E.
  rewrite <- (length_records I), (Permutation_length Hp : length _ = length _), length_map_to_list in E. exact E.
Qed.

Definition demo_collect (k d : list Z) (u : list (list Z)) : list (list Z) := k :: u.

Lemma tdb_traverse_visits_witness :
  exists L, L ≡ₚ map_to_list (∅ : dict) /\ tdb_traverse (visit demo_collect) [] demo_db = Ret (0, visit_all demo_collect [] L) demo_db.
Proof. exact (tdb_traverse_visits demo_collect [] demo_db ∅ demo_refines). Defined.


(** A record in the last chain is not reached by [tdb_nextkey], whose loop ends
    at [hash_size - 1]: of the keys d, in chain 2, and c, in chain 3, only the
    first follows b. *)
Definition demo_next (key2 : list Z) : option (Z * option (list cell) * option (list cell)) :=
  match (tdb_store (str "b") (str "1") TDB_INSERT;; tdb_store key2 (str "2") TDB_INSERT;;
         a ← tdb_firstkey; b ← tdb_nextkey (str "b"); mret (BUCKET demo_db (tdb_hash key2), a, b)) demo_db with
  | Ret r _ => Some r
  | _ => None
  end.

Lemma nextkey_skips_last :
  demo_next (str "d") = Some (2, Some (datum (str "b")), Some (datum (str "d"))) /\
  demo_next (str "c") = Some (3, Some (datum (str "b")), None).
Proof. split; vm_compute; reflexivity. Qed.

(** an integer stored under a key is read back, for every 32-bit value. *)
Theorem tdb_int_roundtrip (t : TDB_CONTEXT) (D : dict) (key : list Z) (v : Z) :
  tdb_refines t D -> map_size t + store_room key [0; 0; 0; 0] < 4294967296 -> -2147483648 <= v < 2147483648 ->
  exists t', tdb_store_int key v t = Ret 0 t' /\ tdb_get_int key t' = Ret v t'.
Proof.
  intros (fr & chains & I & ->) Hmax Hv. unfold tdb_store_int, tdb_get_int. rewrite cells_bytes_word, of_opt_Some_bind.
  set (bs := [_; _; _; _]). pose proof (store_ok t fr chains key bs TDB_REPLACE I Hmax) as H.
  rewrite decide_False in H by (intros [H' _]; discriminate). destruct H as (t' & fr' & chains' & E & I' & _ & _ & Hm).
  exists t'. split; [done|]. rewrite (M_bind_Ret _ _ _ _ _ (fetch_ok t' fr' chains' [] key I')). rewrite Hm, lookup_insert_eq. cbn [fmap option_fmap option_map].
  rewrite decide_False by (intros Hl; by apply Hl). change (datum bs) with (word_cells (u32 v)).
  rewrite word_word_cells by (apply Z.mod_pos_bound; lia). rewrite of_opt_Some_bind. by rewrite s32_u32.
Qed.

Lemma tdb_int_roundtrip_witness : exists t', tdb_store_int (str "n") (-7) demo_db = Ret 0 t' /\ tdb_get_int (str "n") t' = Ret (-7) t'.
Proof. apply (tdb_int_roundtrip demo_db ∅ (str "n") (-7) demo_refines); [vm_compute; reflexivity|lia]. Defined.
