(* ===== verification/Anamed.v ===== *)
(** * asuite/anamed.c: the name server

    The server keeps registrations (user, fully qualified LU, group and
    transaction program names) in a database in memory, and serves one request
    a conversation.  Its state is its variables: the record, the database, the
    conversation, the position in the record and the partner's name. *)
From S2P Require Import Prelude Cpic AsuiteRecord Tdb TdbMem TdbInv TdbMap TdbStore TdbSpec.

Definition ANAME_UN_SIZE : nat := 64.
Definition ANAME_FQ_SIZE : nat := 17.
Definition ANAME_GN_SIZE : nat := 64.
Definition ANAME_TP_SIZE : nat := 64.
Definition MAX_FQPLU_NAME : nat := 17 + 1.

Definition ANAME_STATUS_RECORD := 1.
Definition ANAME_REGISTER_REQUEST_RECORD := 2.
Definition ANAME_DELETE_REQUEST_RECORD := 3.
Definition ANAME_QUERY_REQUEST_RECORD := 4.
Definition ANAME_RESPONSE_RECORD := 5.
Definition ANAME_USER_NAME := 100.
Definition ANAME_FQLU_NAME := 101.
Definition ANAME_GROUP_NAME := 102.
Definition ANAME_TP_NAME := 103.
Definition ANAME_STATUS_RETURN_CODE := 2.
Definition ANAME_RC_OK := 0.
Definition ASUITE_RC_FAIL_INPUT_ERROR := 6.

(** [namerec]: the offsets of its members and its size; [namebuf] is larger. *)
Definition username : nat := 0.
Definition fqluname : nat := username + (ANAME_UN_SIZE + 1).
Definition grpname : nat := fqluname + (ANAME_FQ_SIZE + 1).
Definition tpname : nat := grpname + (ANAME_GN_SIZE + 1).
Definition SIZEOF_NAMEREC : nat := tpname + (ANAME_TP_SIZE + 1).
Definition NAMEBUF_SIZE : nat := 256.

(** [returned_length] is [main]'s local variable, unassigned at first. *)
Record anamed {K : Type} : Type := MkAnamed {
  record : option asuiterecord;
  db : option TDB_CONTEXT;
  conv : K;
  curpos : Z;
  origin : list Z;
  returned_length : option Z
}.
Arguments anamed : clear implicits.

(** The member a parameter is for. *)
Definition name_field (key : Z) : option nat :=
  if decide (key = ANAME_USER_NAME) then Some username
  else if decide (key = ANAME_FQLU_NAME) then Some fqluname
  else if decide (key = ANAME_GROUP_NAME) then Some grpname
  else if decide (key = ANAME_TP_NAME) then Some tpname
  else None.

(** [memcpy] to a member, and the NUL after it.  [None]: past the buffer. *)
Definition store_name (off : nat) (name namebuf : list Z) : option (list Z) :=
  if decide (off + length name < NAMEBUF_SIZE)%nat
  then Some (take off namebuf ++ name ++ 0 :: drop (S (off + length name)) namebuf) else None.

(** [strcmp(s, &record->buffer[i]) == 0], character by character. *)
Fixpoint strcmp_at (s : list Z) (i : Z) : R bool :=
  match s with
  | [] => c ← peek i; mret (bool_decide (c = 0))
  | x :: s => c ← peek i; if decide (c = x) then strcmp_at s (i + 1) else mret false
  end.

Section Anamed.
Context (big_endian oom : bool) {K : Type} `{Cpic K} `{CpicServer K}.

Abbreviation A := (M (anamed K)).

Definition on_rec {X} (m : R X) : A X :=
  zoom record (fun r s => MkAnamed K r (db s) (conv s) (curpos s) (origin s) (returned_length s)) m.
Definition on_msg {X} (m : M (option asuiterecord * K) X) : A X :=
  zoom (fun s => (record s, conv s)) (fun rk s => MkAnamed K rk.1 (db s) rk.2 (curpos s) (origin s) (returned_length s)) m.
Definition on_conv {X} (m : M K X) : A X :=
  zoom conv (fun k s => MkAnamed K (record s) (db s) k (curpos s) (origin s) (returned_length s)) m.
Definition verb {X} (f : K -> X * K) : A X := on_conv (fun k => let '(x, k) := f k in Ret x k).
Definition set_curpos (p : Z) : A unit :=
  modify (fun s => MkAnamed K (record s) (db s) (conv s) p (origin s) (returned_length s)).
Definition set_origin (o : list Z) (n : option Z) : A unit :=
  modify (fun s => MkAnamed K (record s) (db s) (conv s) (curpos s) o n).
Definition set_db (t : TDB_CONTEXT) (s : anamed K) : anamed K :=
  MkAnamed K (record s) (Some t) (conv s) (curpos s) (origin s) (returned_length s).

(** The functions of the database return [null] on a null context. *)
Definition on_db {X} (null : X) (m : T X) : A X := fun s =>
  match db s with
  | None => Ret null s
  | Some t => zoom (fun _ => t) set_db m s
  end.

(** The loop over the parameters, the same in the three requests: [do ... while
    (curpos < record->position)]. *)
Fixpoint read_names (fuel : nat) (namebuf : list Z) : A (list Z) :=
  match fuel with
  | O => no_fuel
  | S fuel =>
      s ← get_st;
      let pos := curpos s in
      param_len ← on_rec (get_param_len big_endian pos);
      key ← on_rec (get_key pos);
      namebuf ← (match name_field key with
        | Some off =>
            if decide (param_len < 4) then undef
            else
              name ← on_rec (read_block (pos + 3) (Z.to_nat (param_len - 4)));
              of_opt (store_name off name namebuf)
        | None => mret namebuf
        end);
      set_curpos (u32 (pos + param_len));;
      r ← on_rec deref;
      if decide (u32 (pos + param_len) < position r) then read_names fuel namebuf else mret namebuf
  end.

(** [memset(namebuf, ' ', sizeof(namebuf))] and the loop; a parameter of any
    length but 0 moves on. *)
Definition name_params : A (list Z) :=
  r ← on_rec deref;
  namebuf ← read_names (S (Z.to_nat (position r))) (replicate NAMEBUF_SIZE 32);
  mret (take SIZEOF_NAMEREC namebuf).

(** A status record with a return code, up to sending it. *)
Definition status_record (code : Z) : A unit :=
  on_rec asuiterecord_clear;;
  on_rec (asuiterecord_settype big_endian ANAME_STATUS_RECORD);;
  on_rec (asuiterecord_append_char big_endian ANAME_STATUS_RETURN_CODE code);;
  mret tt.

Definition send_record : A unit := on_msg send_asuiterecord;; mret tt.

Definition a_status : A unit := mret tt.

Definition a_register : A unit :=
  s ← get_st;
  same ← on_rec (strcmp_at (c_str (origin s)) (curpos s + 3));
  if negb same then on_conv (send_simple_response big_endian oom ASUITE_RC_FAIL_INPUT_ERROR 0 709)
  else
    dbrec ← name_params;
    rc ← on_db (-1) (tdb_store dbrec dbrec TDB_REPLACE);
    status_record (if decide (rc = 0) then ASUITE_RC_OK else 3);;
    send_record.

Definition a_delete : A unit :=
  dbkey ← name_params;
  del_rc ← on_db (-1) (tdb_delete dbkey);
  if decide (del_rc = 0) then status_record ASUITE_RC_OK;; send_record else status_record 3.

(** A name of the stored record, up to its NUL, which must be in the record. *)
Definition append_name (key : Z) (off : nat) (d : list cell) : A unit :=
  name ← of_opt (mem_string (drop off d));
  on_rec (asuiterecord_append big_endian key (name ++ [0]) (Z.of_nat (length name) + 1));;
  mret tt.

Definition response_record (d : list cell) : A unit :=
  on_rec asuiterecord_clear;;
  on_rec (asuiterecord_settype big_endian ANAME_RESPONSE_RECORD);;
  append_name ANAME_USER_NAME username d;;
  append_name ANAME_FQLU_NAME fqluname d;;
  append_name ANAME_GROUP_NAME grpname d;;
  append_name ANAME_TP_NAME tpname d.

Definition a_query : A unit :=
  dbkey ← name_params;
  dbrec ← on_db None (tdb_fetch dbkey);
  match dbrec with
  | Some d =>
      status_record ASUITE_RC_OK;; send_record;;
      response_record d;; send_record;;
      status_record ASUITE_RC_OK;; send_record
  | None => status_record 3
  end.

Definition a_response : A unit := mret tt.

(** A record received: what the [switch] does with it. *)
Definition serve : A unit :=
  n ← on_rec get_received_len;
  s ← get_st;
  set_origin (origin s) (Some n);;
  major_code ← on_rec get_major_code;
  set_curpos 2;;
  if decide (major_code = ANAME_STATUS_RECORD) then a_status
  else if decide (major_code = ANAME_REGISTER_REQUEST_RECORD) then a_register
  else if decide (major_code = ANAME_DELETE_REQUEST_RECORD) then a_delete
  else if decide (major_code = ANAME_QUERY_REQUEST_RECORD) then a_query
  else if decide (major_code = ANAME_RESPONSE_RECORD) then a_response
  else mret tt.

(** [cmepln] and [origin[returned_length] = '\0'], which is done whatever its
    return code; the name it stores must fit in [origin], and so must the index. *)
Definition extract_partner : A Z :=
  '(name, rc) ← verb cmepln;
  s ← get_st;
  (if decide (rc = CM_OK) then
     if decide (length name <= MAX_FQPLU_NAME)%nat
     then set_origin (name ++ drop (length name) (origin s)) (Some (Z.of_nat (length name)))
     else undef
   else mret tt);;
  s ← get_st;
  i ← of_opt (returned_length s);
  if decide (0 <= i < Z.of_nat MAX_FQPLU_NAME)
  then set_origin (<[Z.to_nat i := 0]> (origin s)) (Some i);; mret rc
  else undef.

(** One turn of [main]'s loop; the result is [rc]. *)
Definition anamed_round : A Z :=
  on_rec asuiterecord_clear;;
  rc ← verb cmaccp;
  if decide (rc = CM_OK) then
    rc ← extract_partner;
    (if decide (rc = CM_OK) then
       rc ← on_msg get_asuiterecord;
       if decide (rc = ANAME_RC_OK) then serve else mret tt
     else mret tt);;
    verb cmdeal
  else mret rc.

Fixpoint anamed_loop (fuel : nat) : A Z :=
  match fuel with
  | O => no_fuel
  | S fuel => rc ← anamed_round; if decide (rc = CM_OK) then anamed_loop fuel else mret rc
  end.

(** The globals are zero; the database has no file. *)
Definition anamed_init (k : K) : anamed K :=
  MkAnamed K (asuiterecord_new oom) (tdb_open None 0 0 false false true true true oom) k 0
    (replicate MAX_FQPLU_NAME 0) None.

Definition main (fuel : nat) (k : K) : outcome (anamed K) Z :=
  (anamed_loop fuel;; mret 0) (anamed_init k).
End Anamed.

(** ** What a request means *)

(** The record a list of parameters describes: later ones go over earlier ones,
    members not given stay blank. *)
Definition name_step (namebuf : list Z) (p : param) : list Z :=
  match name_field p.1 with
  | Some off =>
      let name := take (length p.2 - 1) p.2 in
      take off namebuf ++ name ++ 0 :: drop (S (off + length name)) namebuf
  | None => namebuf
  end.

Definition names_of (ps : list param) : list Z :=
  take SIZEOF_NAMEREC (foldl name_step (replicate NAMEBUF_SIZE 32) ps).

(** A parameter whose name has its terminator and room in the buffer. *)
Definition name_fits (p : param) : Prop :=
  match name_field p.1 with
  | Some off => (0 < length p.2)%nat /\ (off + length p.2 <= NAMEBUF_SIZE)%nat
  | None => True
  end.

#[export] Instance name_fits_dec p : Decision (name_fits p).
Proof. unfold name_fits. destruct (name_field p.1); apply _. Defined.

Definition status_message (be : bool) (code : Z) : list Z :=
  message be ANAME_STATUS_RECORD [(ANAME_STATUS_RETURN_CODE, [u8 code])].

Definition c_name (off : nat) (n : list Z) : list Z := c_str (drop off n) ++ [0].

Definition response_message (be : bool) (n : list Z) : list Z :=
  message be ANAME_RESPONSE_RECORD [(ANAME_USER_NAME, c_name username n); (ANAME_FQLU_NAME, c_name fqluname n);
    (ANAME_GROUP_NAME, c_name grpname n); (ANAME_TP_NAME, c_name tpname n)].

(** A request of type [t] from [partner] to a server with the registrations [S]:
    the registrations after it and the messages sent. *)
Definition request (be : bool) (t : Z) (ps : list param) (partner : list Z) (S : gset (list Z)) : gset (list Z) * list (list Z) :=
  let n := names_of ps in
  if decide (t = ANAME_REGISTER_REQUEST_RECORD) then
    if decide (c_str (default [] (snd <$> head ps)) = partner) then (S ∪ {[n]}, [status_message be 0])
    else (S, [message be ASUITE_STATUS_RECORD (status_params be ASUITE_RC_FAIL_INPUT_ERROR 0 709)])
  else if decide (t = ANAME_DELETE_REQUEST_RECORD) then
    if decide (n ∈ S) then (S ∖ {[n]}, [status_message be 0]) else (S, [])
  else if decide (t = ANAME_QUERY_REQUEST_RECORD) then
    if decide (n ∈ S) then (S, [status_message be 0; response_message be n; status_message be 0]) else (S, [])
  else (S, []).

(** The database of the registrations [S]: each is its own key. *)
Definition registered (t : TDB_CONTEXT) (S : gset (list Z)) : Prop :=
  exists D, tdb_refines t D /\ dom D = S /\ forall k v, D !! k = Some v -> v = k.

(** Sending messages one after the other. *)
Definition sends {K} `{Cpic K} (ms : list (list Z)) (k : K) : K := foldl (fun k m => (cmsend m k).2) k ms.

(** ** Strings *)

Lemma mem_string_c_str l x : 0 ∈ l -> mem_string ((Some <$> l) ++ x) = Some (c_str l).
Proof.
  induction l as [|c l IH]; [by intros ?%elem_of_nil|]. intros Hin. cbn. case_decide as E; [done|].
  apply elem_of_cons in Hin as [?|Hin]; [by subst|]. by rewrite (IH Hin).
Qed.

Lemma no_nul_c_str l : no_nul (c_str l).
Proof. induction l as [|c l IH]; cbn; [constructor|]. case_decide; [constructor|]. by constructor. Qed.

Lemma length_c_str l : (length (c_str l) <= length l)%nat.
Proof. induction l as [|c l IH]; cbn; [done|]. case_decide; cbn; lia. Qed.

Lemma c_str_bytes l : is_bytes l -> is_bytes (c_str l).
Proof. induction 1 as [|c l Hc _ IH]; cbn; [constructor|]. case_decide; [constructor|]. by constructor. Qed.

Lemma strcmp_at_ok s r pre d post : rep r (pre ++ (Some <$> d) ++ post) -> 0 ∈ d -> no_nul s ->
  strcmp_at s (Z.of_nat (length pre)) (Some r) = Ret (bool_decide (s = c_str d)) (Some r).
Proof.
  revert pre d. induction s as [|x s IH]; intros pre d Hr Hd Hs;
    (destruct d as [|c d]; [by apply elem_of_nil in Hd|]); cbn [strcmp_at c_str];
    (assert (peek (Z.of_nat (length pre)) (Some r) = Ret c (Some r)) as E
      by (eapply peek_rep; [exact Hr|]; by rewrite lookup_app_r, Nat.sub_diag by lia));
    rewrite (M_bind_Ret _ _ _ _ _ E).
  - f_equal. apply bool_decide_ext. case_decide; naive_solver.
  - apply Forall_cons in Hs as [Hx Hs]. case_decide as Ec.
    + subst c. rewrite decide_False by done. apply elem_of_cons in Hd as [?|Hd]; [by subst|].
      replace (Z.of_nat (length pre) + 1) with (Z.of_nat (length (pre ++ [Some x]))) by (rewrite length_app; cbn; lia).
      rewrite (IH (pre ++ [Some x]) d); [|by rewrite <-app_assoc|done|done]. f_equal. apply bool_decide_ext. naive_solver.
    + rewrite bool_decide_false; [done|]. case_decide; naive_solver.
Qed.

(** ** The name buffer *)

Lemma name_field_bound key off : name_field key = Some off -> (off <= tpname)%nat.
Proof. unfold name_field. intros H. repeat case_decide; simplify_eq; vm_compute; lia. Qed.

Lemma length_name_step nb p : length nb = NAMEBUF_SIZE -> name_fits p -> length (name_step nb p) = NAMEBUF_SIZE.
Proof.
  unfold name_step, name_fits. destruct (name_field p.1) as [off|]; [|done]. intros Hl [H1 H2].
  rewrite !length_app. cbn [length]. rewrite length_drop, !length_take. unfold NAMEBUF_SIZE in *. lia.
Qed.

Lemma store_name_ok nb p off : name_field p.1 = Some off -> name_fits p ->
  store_name off (take (length p.2 - 1) p.2) nb = Some (name_step nb p).
Proof.
  unfold store_name, name_step, name_fits. intros ->. intros [H1 H2]. rewrite decide_True; [done|]. rewrite length_take. lia.
Qed.

Lemma length_names_of ps : Forall name_fits ps -> length (names_of ps) = SIZEOF_NAMEREC.
Proof.
  intros H. unfold names_of. rewrite length_take.
  assert (forall nb, length nb = NAMEBUF_SIZE -> length (foldl name_step nb ps) = NAMEBUF_SIZE) as Hl.
  { induction H as [|p ps Hp _ IH]; intros nb Hnb; [done|]. cbn. by apply IH, length_name_step. }
  rewrite Hl by apply length_replicate. done.
Qed.

Lemma names_of_bytes ps : Forall (fun p => is_bytes p.2) ps -> is_bytes (names_of ps).
Proof.
  intros H. unfold names_of. apply Forall_take.
  assert (is_bytes (replicate NAMEBUF_SIZE 32)) as H0 by (apply Forall_replicate; unfold is_byte; lia).
  revert H0. generalize (replicate NAMEBUF_SIZE 32). induction H as [|p ps Hp _ IH]; intros nb Hnb; [done|]. cbn. apply IH.
  unfold name_step. destruct (name_field p.1); [|done]. apply Forall_app_2; [by apply Forall_take|].
  apply Forall_app_2; [by apply Forall_take|]. constructor; [unfold is_byte; lia|]. by apply Forall_drop.
Qed.

(** ** The steps of the server *)
Section Steps.
Context (big_endian oom : bool) {K : Type} `{HC : Cpic K} `{HS : CpicServer K}.

Abbreviation St r d k p o n := (MkAnamed K (Some r) d k p o n).

Lemma daemon_rec_Ret {X} (m : R X) r d k p o n x r' : m (Some r) = Ret x (Some r') ->
  on_rec m (St r d k p o n) = Ret x (St r' d k p o n).
Proof. intros E. unfold on_rec. by erewrite zoom_Ret by exact E. Qed.

Lemma daemon_msg_Ret {X} (m : M (option asuiterecord * K) X) r d k p o n x r' k' : m (Some r, k) = Ret x (Some r', k') ->
  on_msg m (St r d k p o n) = Ret x (St r' d k' p o n).
Proof. intros E. unfold on_msg. by erewrite zoom_Ret by exact E. Qed.

Lemma daemon_conv_Ret {X} (m : M K X) r d k p o n x k' : m k = Ret x k' ->
  on_conv m (St r d k p o n) = Ret x (St r d k' p o n).
Proof. intros E. unfold on_conv. by erewrite zoom_Ret by exact E. Qed.

Lemma on_db_Ret {X} null (m : T X) r t k p o n x t' : m t = Ret x t' ->
  on_db null m (St r (Some t) k p o n) = Ret x (St r (Some t') k p o n).
Proof. intros E. unfold on_db. cbn [db]. by erewrite zoom_Ret by exact E. Qed.

Lemma verb_Ret {X} (f : K -> X * K) r d k p o n : verb f (St r d k p o n) = Ret (f k).1 (St r d (f k).2 p o n).
Proof. unfold verb. apply daemon_conv_Ret. by destruct (f k). Qed.

Lemma anamed_curpos_bind {X} q (f : unit -> M (anamed K) X) r d k p o n :
  (set_curpos q ≫= f) (St r d k p o n) = f tt (St r d k q o n).
Proof. done. Qed.

Lemma set_origin_bind {X} o' n' (f : unit -> M (anamed K) X) r d k p o n :
  (set_origin o' n' ≫= f) (St r d k p o n) = f tt (St r d k p o' n').
Proof. done. Qed.

Lemma read_names_ok ps : forall r pre fuel nb d k o n,
  rep r (pre ++ (Some <$> params_bytes big_endian ps)) -> ps <> [] -> Forall name_fits ps -> (length ps <= fuel)%nat ->
  read_names big_endian fuel nb (St r d k (Z.of_nat (length pre)) o n) = Ret (foldl name_step nb ps) (St r d k (position r) o n).
Proof.
  induction ps as [|[key data] ps IH]; intros r pre fuel nb d k o n Hr Hne Hfit Hfuel; [done|].
  destruct fuel as [|fuel]; [cbn in Hfuel; lia|]. apply Forall_cons in Hfit as [Hp Hfit].
  rewrite params_bytes_cons, fmap_app in Hr. destruct (param_rep _ _ _ _ _ _ Hr) as (E1 & E2 & E3).
  pose proof Hr as (Hpos & Hmax & _). rewrite !length_app, !length_fmap, length_param in Hpos, Hmax. cbn [snd] in Hpos, Hmax.
  unfold MAX_BUFFER_SIZE in Hmax. cbn [read_names]. rewrite get_st_bind. cbn [curpos].
  rewrite (M_bind_Ret _ _ _ _ _ (daemon_rec_Ret _ _ d k _ o n _ _ E1)), (M_bind_Ret _ _ _ _ _ (daemon_rec_Ret _ _ d k _ o n _ _ E2)).
  erewrite (M_bind_Ret _ _ _ (name_step nb (key, data)) (St r d k (Z.of_nat (length pre)) o n)).
  2:{ pose proof Hp as Hp'. unfold name_fits in Hp'. destruct (name_field key) as [off|] eqn:Ek; cbn [fst] in Hp'; rewrite Ek in Hp'.
      - destruct Hp' as [H1 H2]. cbn [snd] in H1, H2. rewrite decide_False by lia.
        specialize (E3 (length data - 1)%nat ltac:(lia)).
        replace (Z.to_nat (Z.of_nat (length data) + 3 - 4)) with (length data - 1)%nat by lia.
        rewrite (M_bind_Ret _ _ _ _ _ (daemon_rec_Ret _ _ d k _ o n _ _ E3)).
        pose proof (store_name_ok nb (key, data) off Ek Hp) as Es. cbn [snd] in Es. by rewrite Es.
      - unfold name_step. cbn [fst]. by rewrite Ek. }
  rewrite anamed_curpos_bind. assert (u32 (Z.of_nat (length pre) + (Z.of_nat (length data) + 3)) = Z.of_nat (length (pre ++ (Some <$> param_bytes big_endian (key, data))))) as ->.
  { rewrite length_app, length_fmap, length_param. cbn [snd]. unfold u32. rewrite Z.mod_small; lia. }
  rewrite (M_bind_Ret _ _ _ _ _ (daemon_rec_Ret deref r d k _ o n r r eq_refl)).
  rewrite app_assoc in Hr. destruct ps as [|q ps].
  - rewrite decide_False; [|rewrite Hpos, length_app, length_fmap, length_param; cbn; lia].
    do 2 f_equal. rewrite Hpos, length_app, length_fmap, length_param. cbn. lia.
  - rewrite decide_True; [|rewrite Hpos, length_app, length_fmap, length_param; rewrite params_bytes_cons, length_app, length_param; cbn; lia].
    rewrite (IH r _ fuel _ d k o n Hr) by (done || (cbn in *; lia)). done.
Qed.

Lemma name_params_ok ps r pre d k o n : rep r (pre ++ (Some <$> params_bytes big_endian ps)) -> ps <> [] -> Forall name_fits ps ->
  name_params big_endian (St r d k (Z.of_nat (length pre)) o n) = Ret (names_of ps) (St r d k (position r) o n).
Proof.
  intros Hr Hne Hfit. unfold name_params. rewrite (M_bind_Ret _ _ _ _ _ (daemon_rec_Ret deref r d k _ o n r r eq_refl)).
  rewrite (M_bind_Ret _ _ _ _ _ (read_names_ok ps r pre (S (Z.to_nat (position r))) _ d k o n Hr Hne Hfit ltac:(
    pose proof Hr as (Hpos & _); rewrite Hpos, length_app, length_fmap;
    pose proof (params_length big_endian ps); lia))).
  done.
Qed.

Lemma new_message r d k p o n t : exists r',
  (on_rec asuiterecord_clear;; on_rec (asuiterecord_settype big_endian t)) (St r d k p o n) = Ret tt (St r' d k p o n) /\
  rep r' (Some <$> message big_endian t []).
Proof.
  destruct (start_message big_endian t r) as (r' & E & Hr'). exists r'. split; [|done].
  rewrite (M_bind_Ret _ _ _ _ _ (daemon_rec_Ret asuiterecord_clear r d k p o n tt (MkRecord 2 (buffer r)) eq_refl)).
  apply daemon_rec_Ret. rewrite (M_bind_Ret _ _ _ tt (Some (MkRecord 2 (buffer r)))) in E by done. exact E.
Qed.

Lemma status_record_ok r d k p o n code : exists r',
  status_record big_endian code (St r d k p o n) = Ret tt (St r' d k p o n) /\ rep r' (Some <$> status_message big_endian code).
Proof.
  destruct (new_message r d k p o n ANAME_STATUS_RECORD) as (r1 & E1 & H1).
  destruct (append_char big_endian r1 _ [] ANAME_STATUS_RETURN_CODE code H1) as (r2 & E2 & H2).
  { unfold is_byte, ANAME_STATUS_RETURN_CODE. lia. }
  { rewrite length_message. unfold MAX_BUFFER_SIZE. cbn. lia. }
  exists r2. unfold status_record. by rewrite <- M_bind_assoc, (M_bind_Ret _ _ _ _ _ E1), (M_bind_Ret _ _ _ _ _ (daemon_rec_Ret _ _ d k p o n _ _ E2)).
Qed.

Lemma send_record_ok r d k p o n bs : rep r (Some <$> bs) -> send_record (St r d k p o n) = Ret tt (St r d (cmsend bs k).2 p o n).
Proof.
  intros Hr. unfold send_record. by rewrite (M_bind_Ret _ _ _ _ _ (daemon_msg_Ret _ r d k p o n _ _ _ (send_asuiterecord_rep _ _ k Hr))).
Qed.

Lemma append_name_ok r d k p o n key off rec pre : rep r (Some <$> pre) -> is_byte key -> is_bytes rec -> length rec = SIZEOF_NAMEREC ->
  0 ∈ drop off rec -> (length pre <= 1000)%nat ->
  exists r', append_name big_endian key off (datum rec) (St r d k p o n) = Ret tt (St r' d k p o n) /\
    rep r' (Some <$> (pre ++ param_bytes big_endian (key, c_name off rec))).
Proof.
  intros Hr Hk Hb Hl H0 Hpre. unfold append_name. set (s := c_str (drop off rec)).
  assert (mem_string (drop off (datum rec)) = Some s) as Hms.
  { unfold datum. rewrite <- fmap_drop. rewrite <- (app_nil_r (Some <$> _)). by apply mem_string_c_str. }
  rewrite Hms, of_opt_Some_bind.
  assert (length s <= 213)%nat as Hs by (unfold s; rewrite length_c_str, length_drop, Hl; change SIZEOF_NAMEREC with 213%nat; lia).
  destruct (append_rep big_endian r _ key (s ++ [0]) (s ++ [0]) Hr Hk) as (r' & E & Hr').
  { apply Forall_app_2; [apply c_str_bytes; by apply Forall_drop|]. repeat constructor; lia. }
  { apply strncpy_terminated, no_nul_c_str. }
  { rewrite length_param, length_fmap. cbn [snd]. rewrite length_app. cbn [length]. unfold MAX_BUFFER_SIZE. lia. }
  rewrite length_app in E. cbn [length] in E. rewrite Nat2Z.inj_add in E.
  exists r'. rewrite (M_bind_Ret _ _ _ _ _ (daemon_rec_Ret _ _ d k p o n _ _ E)). split; [done|]. by rewrite fmap_app.
Qed.
End Steps.

(** ** Registrations in the database *)

Lemma registered_lookup t S : registered t S -> exists fr chains, inv t fr chains [] /\
  forall n, db_map chains !! n = if decide (n ∈ S) then Some n else None.
Proof.
  intros (D & (fr & chains & I & ->) & <- & Hself). exists fr, chains. split; [done|]. intros n.
  case_decide as E; [|by apply not_elem_of_dom]. apply elem_of_dom in E as [v Hv]. by rewrite Hv, (Hself _ _ Hv).
Qed.

Lemma registered_map t fr chains S : inv t fr chains [] -> (forall n, db_map chains !! n = if decide (n ∈ S) then Some n else None) ->
  registered t S.
Proof.
  intros I H. exists (db_map chains). split_and!; [by exists fr, chains| |].
  - apply set_eq. intros n. rewrite elem_of_dom, H. case_decide; [naive_solver|]. split; [by intros [? ?]|done].
  - intros k v. rewrite H. case_decide; naive_solver.
Qed.

Definition name_room : Z := (426 + 24) * 10 + 8192.

Lemma store_registered t S n : registered t S -> length n = SIZEOF_NAMEREC -> map_size t + name_room < 4294967296 ->
  exists t', tdb_store n n TDB_REPLACE t = Ret 0 t' /\ registered t' (S ∪ {[n]}) /\ map_size t' <= map_size t + name_room.
Proof.
  intros (fr & chains & I & H)%registered_lookup Hl Hm.
  assert (store_room n n = name_room) as Hroom by (unfold store_room; rewrite Hl; done).
  pose proof (store_ok t fr chains n n TDB_REPLACE I ltac:(lia)) as E. rewrite decide_False in E by (by intros [? _]).
  destruct E as (t' & fr' & chains' & E & I' & _ & Hsz & Hmap). exists t'. split_and!; [done| |lia].
  apply (registered_map t' fr' chains' _ I'). intros k. rewrite Hmap. destruct (decide (k = n)) as [->|Hne].
  - rewrite lookup_insert_eq. by rewrite decide_True by set_solver.
  - rewrite lookup_insert_ne, H by done. destruct (decide (k ∈ S)); [by rewrite decide_True by set_solver|by rewrite decide_False by set_solver].
Qed.

Lemma delete_registered t S n : registered t S -> exists t', tdb_delete n t = Ret (if decide (n ∈ S) then 0 else -1) t' /\
  registered t' (S ∖ {[n]}) /\ map_size t' = map_size t.
Proof.
  intros (fr & chains & I & H)%registered_lookup.
  destruct (delete_ok t fr chains [] n I) as (rc & t' & fr' & chains' & E & I' & (_ & Hsz & _) & _ & Hmap & Hrc).
  exists t'. split_and!; [|by apply (registered_map t' fr' chains' _ I'); intros k; rewrite Hmap; destruct (decide (k = n)) as [->|Hne];
    [rewrite lookup_delete_eq; by rewrite decide_False by set_solver
    |rewrite lookup_delete_ne, H by done; destruct (decide (k ∈ S)); [by rewrite decide_True by set_solver|by rewrite decide_False by set_solver]]|done].
  rewrite E, Hrc, H. by case_decide.
Qed.

Lemma fetch_registered t S n : registered t S -> tdb_fetch n t = Ret (if decide (n ∈ S) then Some (datum n) else None) t.
Proof. intros (fr & chains & I & H)%registered_lookup. rewrite (fetch_ok t fr chains [] n I), H. by case_decide. Qed.

(** ** Serving a request *)
Section Serve.
Context (big_endian : bool) {K : Type} `{HC : Cpic K} `{HS : CpicServer K}.

Abbreviation St r d k p o n := (MkAnamed K (Some r) d k p o n).

(** The state after a request: the record and the position are left as they
    fall. *)
Definition served (S : gset (list Z)) (k : K) (o : list Z) (n : option Z) (room : Z) (s : anamed K) : Prop :=
  exists r t p, s = St r (Some t) k p o n /\ registered t S /\ map_size t <= room.

Lemma delete_served ps r pre t S k o n room : rep r (pre ++ (Some <$> params_bytes big_endian ps)) -> ps <> [] -> Forall name_fits ps ->
  registered t S -> map_size t <= room ->
  exists s', a_delete big_endian (St r (Some t) k (Z.of_nat (length pre)) o n) = Ret tt s' /\
    served (if decide (names_of ps ∈ S) then S ∖ {[names_of ps]} else S)
      (sends (if decide (names_of ps ∈ S) then [status_message big_endian 0] else []) k) o n room s'.
Proof.
  intros Hr Hne Hfit HR Hm. unfold a_delete. rewrite (M_bind_Ret _ _ _ _ _ (name_params_ok big_endian ps r pre _ k o n Hr Hne Hfit)).
  destruct (delete_registered t S (names_of ps) HR) as (t' & E & HR' & Hsz).
  rewrite (M_bind_Ret _ _ _ _ _ (on_db_Ret _ _ r t k _ o n _ _ E)). destruct (decide (names_of ps ∈ S)).
  - rewrite (decide_True (P := 0 = 0)) by done.
    destruct (status_record_ok big_endian r (Some t') k (position r) o n ASUITE_RC_OK) as (r' & E' & Hr').
    rewrite (M_bind_Ret _ _ _ _ _ E'). eexists. split; [by apply send_record_ok|].
    exists r', t', (position r). split_and!; [done|done|lia].
  - rewrite (decide_False (P := -1 = 0)) by done. destruct (status_record_ok big_endian r (Some t') k (position r) o n 3) as (r' & E' & _).
    eexists. split; [exact E'|]. exists r', t', (position r). split_and!; [done| |lia].
    by replace (S ∖ {[names_of ps]}) with S in HR' by set_solver.
Qed.

Lemma register_served oom ps r pre t S k o n room : rep r (pre ++ (Some <$> params_bytes big_endian ps)) -> ps <> [] -> Forall name_fits ps ->
  0 ∈ default [] (snd <$> head ps) -> oom = false ->
  registered t S -> map_size t + name_room <= room -> room < 4294967296 ->
  exists s', a_register big_endian oom (St r (Some t) k (Z.of_nat (length pre)) o n) = Ret tt s' /\
    let '(S', ms) := request big_endian ANAME_REGISTER_REQUEST_RECORD ps (c_str o) S in served S' (sends ms k) o n room s'.
Proof.
  intros Hr Hne Hfit Hz -> HR Hm Hroom. assert (exists key data ps', ps = (key, data) :: ps') as (key & data & ps' & Eps) by (destruct ps as [|[key data] ps']; [done|by exists key, data, ps']).
  assert (default [] (snd <$> head ps) = data) as Hhead by (by rewrite Eps). rewrite Hhead in Hz.
  unfold request. rewrite (decide_True (P := ANAME_REGISTER_REQUEST_RECORD = ANAME_REGISTER_REQUEST_RECORD)) by done.
  unfold a_register. rewrite get_st_bind. cbn [origin curpos].
  assert (strcmp_at (c_str o) (Z.of_nat (length pre) + 3) (Some r) = Ret (bool_decide (c_str o = c_str data)) (Some r)) as E.
  { pose proof Hr as Hr'. rewrite Eps, params_bytes_cons, fmap_app in Hr'. unfold param_bytes in Hr'. cbn [fst snd] in Hr'.
    rewrite !fmap_app, <-!app_assoc in Hr'. pose proof (length_wire16 big_endian (Z.of_nat (length data) + 3)) as Hw.
    replace (Z.of_nat (length pre) + 3) with (Z.of_nat (length (pre ++ (Some <$> wire16 big_endian (Z.of_nat (length data) + 3)) ++ [Some key])))
      by (rewrite !length_app, length_fmap, Hw; cbn; lia).
    eapply strcmp_at_ok; [|exact Hz|apply no_nul_c_str]. rewrite <-!app_assoc. exact Hr'. }
  rewrite (M_bind_Ret _ _ _ _ _ (daemon_rec_Ret _ _ (Some t) k _ o n _ _ E)). rewrite Hhead. destruct (decide (c_str data = c_str o)) as [Eo|Eo].
  - rewrite bool_decide_true by done. cbn [negb].
    rewrite (M_bind_Ret _ _ _ _ _ (name_params_ok big_endian ps r pre _ k o n Hr Hne Hfit)).
    destruct (store_registered t S (names_of ps) HR) as (t' & Est & HR' & Hsz); [by apply length_names_of|lia|].
    rewrite (M_bind_Ret _ _ _ _ _ (on_db_Ret _ _ r t k _ o n _ _ Est)). rewrite (decide_True (P := 0 = 0)) by done.
    destruct (status_record_ok big_endian r (Some t') k (position r) o n ASUITE_RC_OK) as (r' & E' & Hr').
    rewrite (M_bind_Ret _ _ _ _ _ E'). eexists. split; [by apply send_record_ok|].
    exists r', t', (position r). split_and!; [done|done|lia].
  - rewrite bool_decide_false by congruence. cbn [negb]. eexists. split; [apply daemon_conv_Ret, send_simple_response_wire|].
    exists r, t, (Z.of_nat (length pre)). split_and!; [done|done|unfold name_room in *; lia].
Qed.

Lemma nul_in_field (n : list Z) off : 0 ∈ drop tpname n -> (off <= tpname)%nat -> 0 ∈ drop off n.
Proof.
  intros H Ho. replace (drop tpname n) with (drop (tpname - off) (drop off n)) in H by (rewrite drop_drop; f_equal; lia).
  apply list_elem_of_lookup in H as [i Hi]. rewrite lookup_drop in Hi. by eapply list_elem_of_lookup_2.
Qed.

Lemma length_c_name off (n : list Z) : length n = SIZEOF_NAMEREC -> (length (c_name off n) <= 214)%nat.
Proof.
  intros H. unfold c_name. rewrite length_app. pose proof (length_c_str (drop off n)) as Hc. rewrite length_drop, H in Hc.
  change SIZEOF_NAMEREC with 213%nat in Hc. cbn [length]. lia.
Qed.

(** The response record, from any record. *)
Lemma response_ok r d k p o n rec : length rec = SIZEOF_NAMEREC -> is_bytes rec -> 0 ∈ drop tpname rec -> exists r',
  response_record big_endian (datum rec) (St r d k p o n) =
    Ret tt (St r' d k p o n) /\ rep r' (Some <$> response_message big_endian rec).
Proof.
  intros Hl Hb H0. destruct (new_message big_endian r d k p o n ANAME_RESPONSE_RECORD) as (r0 & E0 & H1).
  unfold response_record. rewrite <- M_bind_assoc, (M_bind_Ret _ _ _ _ _ E0).
  assert (forall key off rr pre, rep rr (Some <$> pre) -> is_byte key -> (off <= tpname)%nat -> (length pre <= 1000)%nat ->
    exists r', append_name big_endian key off (datum rec) (St rr d k p o n) = Ret tt (St r' d k p o n) /\
      rep r' (Some <$> (pre ++ param_bytes big_endian (key, c_name off rec)))) as Happ.
  { intros key off rr pre Hr Hk Ho Hpre. apply append_name_ok; try done. by apply nul_in_field. }
  pose proof (length_message big_endian ANAME_RESPONSE_RECORD []) as Hw. cbn [length] in Hw. change (length (params_bytes big_endian [])) with 0%nat in Hw.
  pose proof (fun off => length_c_name off rec Hl) as Hn.
  destruct (Happ ANAME_USER_NAME username _ _ H1) as (r1 & E1 & H2); [unfold is_byte, ANAME_USER_NAME; lia|vm_compute; lia|lia|].
  rewrite (M_bind_Ret _ _ _ _ _ E1).
  destruct (Happ ANAME_FQLU_NAME fqluname _ _ H2) as (r2 & E2 & H3);
    [unfold is_byte, ANAME_FQLU_NAME; lia|vm_compute; lia|rewrite length_app, length_param; cbn [snd]; pose proof (Hn username); lia|].
  rewrite (M_bind_Ret _ _ _ _ _ E2).
  destruct (Happ ANAME_GROUP_NAME grpname _ _ H3) as (r3 & E3 & H4);
    [unfold is_byte, ANAME_GROUP_NAME; lia|vm_compute; lia|rewrite !length_app, !length_param; cbn [snd]; pose proof (Hn username); pose proof (Hn fqluname); lia|].
  rewrite (M_bind_Ret _ _ _ _ _ E3).
  destruct (Happ ANAME_TP_NAME tpname _ _ H4) as (r4 & E4 & H5);
    [unfold is_byte, ANAME_TP_NAME; lia|done|rewrite !length_app, !length_param; cbn [snd]; pose proof (Hn username); pose proof (Hn fqluname); pose proof (Hn grpname); lia|].
  exists r4. split; [exact E4|]. rewrite <- !message_snoc in H5. exact H5.
Qed.

Lemma query_served ps r pre t S k o n room : rep r (pre ++ (Some <$> params_bytes big_endian ps)) -> ps <> [] -> Forall name_fits ps ->
  Forall (fun p => is_bytes p.2) ps -> 0 ∈ drop tpname (names_of ps) -> registered t S -> map_size t <= room ->
  exists s', a_query big_endian (St r (Some t) k (Z.of_nat (length pre)) o n) = Ret tt s' /\
    served S (sends (if decide (names_of ps ∈ S) then [status_message big_endian 0; response_message big_endian (names_of ps); status_message big_endian 0]
      else []) k) o n room s'.
Proof.
  intros Hr Hne Hfit Hb H0 HR Hm. unfold a_query. rewrite (M_bind_Ret _ _ _ _ _ (name_params_ok big_endian ps r pre _ k o n Hr Hne Hfit)).
  rewrite (M_bind_Ret _ _ _ _ _ (on_db_Ret _ _ r t k _ o n _ _ (fetch_registered t S (names_of ps) HR))).
  pose proof (length_names_of ps Hfit) as Hl. pose proof (names_of_bytes ps Hb) as Hbn.
  set (p := position r). destruct (decide (names_of ps ∈ S)).
  - destruct (status_record_ok big_endian r (Some t) k p o n ASUITE_RC_OK) as (r1 & E1 & H1).
    rewrite (M_bind_Ret _ _ _ _ _ E1), (M_bind_Ret _ _ _ _ _ (send_record_ok r1 (Some t) k p o n _ H1)).
    set (k1 := (cmsend (status_message big_endian ASUITE_RC_OK) k).2).
    destruct (response_ok r1 (Some t) k1 p o n _ Hl Hbn H0) as (r2 & E2 & H2).
    rewrite (M_bind_Ret _ _ _ _ _ E2), (M_bind_Ret _ _ _ _ _ (send_record_ok r2 (Some t) k1 p o n _ H2)).
    set (k2 := (cmsend (response_message big_endian (names_of ps)) k1).2).
    destruct (status_record_ok big_endian r2 (Some t) k2 p o n ASUITE_RC_OK) as (r3 & E3 & H3). rewrite (M_bind_Ret _ _ _ _ _ E3).
    eexists. split; [by apply send_record_ok|]. by exists r3, t, p.
  - destruct (status_record_ok big_endian r (Some t) k p o n 3) as (r' & E' & _).
    eexists. split; [exact E'|]. by exists r', t, p.
Qed.
End Serve.

(** ** The requests served *)

(** A request a client of the suite makes: at least one parameter, names with
    their terminators and room for them, the first of them readable as a string,
    and for a query a transaction program name or one that reaches over it. *)
Record request_ok (mt : Z) (ps : list param) : Prop := MkRequestOk {
  request_type : 0 <= mt < 256;
  request_params : ps <> [];
  request_fits : Forall name_fits ps;
  request_bytes : Forall (fun p => is_byte p.1 /\ is_bytes p.2) ps;
  request_first : 0 ∈ default [] (snd <$> head ps);
  request_query : mt = ANAME_QUERY_REQUEST_RECORD -> 0 ∈ drop tpname (names_of ps);
  request_length : Z.of_nat (length (message false mt ps)) <= MAX_BUFFER_SIZE
}.

#[export] Instance request_ok_dec mt ps : Decision (request_ok mt ps).
Proof.
  refine (if decide ((0 <= mt < 256 /\ ps <> [] /\ Forall name_fits ps) /\ Forall (fun p => is_byte p.1 /\ is_bytes p.2) ps /\
    0 ∈ default [] (snd <$> head ps) /\ (mt = ANAME_QUERY_REQUEST_RECORD -> 0 ∈ drop tpname (names_of ps)) /\
    Z.of_nat (length (message false mt ps)) <= MAX_BUFFER_SIZE) then left _ else right _).
  - by destruct a as ((? & ? & ?) & ? & ? & ? & ?).
  - intros [? ? ? ? ? ? ?]. apply n. tauto.
Defined.

Lemma message_bytes mt ps : request_ok mt ps -> is_bytes (message false mt ps).
Proof. intros [Ht _ _ Hb _ _ Hl]. apply message_bytes_ok; [lia|done|done]. Qed.

Section Rounds.
Context {K : Type} `{HC : Cpic K} `{HS : CpicServer K}.

Abbreviation St r d k p o n := (MkAnamed K (Some r) d k p o n).

Lemma serve_ok mt ps r t S k p o n room : request_ok mt ps -> rep r (Some <$> message false mt ps) ->
  registered t S -> map_size t + name_room <= room -> room < 4294967296 ->
  exists s' n', serve false false (St r (Some t) k p o n) = Ret tt s' /\
    let '(S', ms) := request false mt ps (c_str o) S in served S' (sends ms k) o n' room s'.
Proof.
  intros Hok Hr HR Hm Hroom. destruct Hok as [Ht Hne Hfit Hb Hf Hq Hl].
  unfold message in Hr. rewrite fmap_app in Hr. set (pre := Some <$> wire16 false (u16 mt)) in *.
  assert (get_major_code (Some r) = Ret mt (Some r)) as Emaj.
  { unfold get_major_code. change 1 with (Z.of_nat 1). eapply peek_rep; [exact Hr|]. unfold pre, u16.
    rewrite (Z.mod_small mt 65536) by lia. cbn. do 2 f_equal. apply Z.mod_small. lia. }
  unfold serve. rewrite (M_bind_Ret _ _ _ _ _ (daemon_rec_Ret get_received_len r (Some t) k p o n (position r) r eq_refl)).
  rewrite get_st_bind. rewrite set_origin_bind. cbn [origin].
  rewrite (M_bind_Ret _ _ _ _ _ (daemon_rec_Ret get_major_code r (Some t) k p o _ _ _ Emaj)), anamed_curpos_bind.
  set (n' := Some (position r)). change 2 with (Z.of_nat (length pre)).
  assert (map_size t <= room) as Hm' by (unfold name_room in *; lia).
  destruct (decide (mt = ANAME_REGISTER_REQUEST_RECORD)) as [->|H2].
  { rewrite decide_False by done.
    destruct (register_served false false ps r pre t S k o n' room) as (s' & E & Hs); try done. by exists s', n'. }
  unfold request. rewrite (decide_False (P := mt = ANAME_REGISTER_REQUEST_RECORD)) by done.
  destruct (decide (mt = ANAME_STATUS_RECORD)) as [->|H1].
  { exists (St r (Some t) k (Z.of_nat (length pre)) o n'), n'. split; [done|]. by exists r, t, (Z.of_nat (length pre)). }
  destruct (decide (mt = ANAME_DELETE_REQUEST_RECORD)) as [->|H3].
  { destruct (delete_served false ps r pre t S k o n' room) as (s' & E & Hs); try done. exists s', n'. split; [done|]. by case_decide. }
  destruct (decide (mt = ANAME_QUERY_REQUEST_RECORD)) as [->|H4].
  { destruct (query_served false ps r pre t S k o n' room) as (s' & E & Hs); try done.
    - eapply Forall_impl; [exact Hb|]. by intros ? [_ ?].
    - by apply Hq.
    - exists s', n'. split; [done|]. by case_decide. }
  exists (St r (Some t) k (Z.of_nat (length pre)) o n'), n'. split; [by case_decide|]. by exists r, t, (Z.of_nat (length pre)).
Qed.

Lemma extract_partner_ok name r d k p o n : (cmepln k).1 = (name, CM_OK) -> no_nul name -> (length name < MAX_FQPLU_NAME)%nat ->
  length o = MAX_FQPLU_NAME -> exists o' n',
    extract_partner (St r d k p o n) = Ret CM_OK (St r d (cmepln k).2 p o' n') /\ c_str o' = name /\ length o' = MAX_FQPLU_NAME.
Proof.
  intros He Hn Hl Ho. unfold extract_partner. rewrite (M_bind_Ret _ _ _ _ _ (verb_Ret cmepln r d k p o n)), He, get_st_bind.
  rewrite (decide_True (P := CM_OK = CM_OK)) by done. rewrite (decide_True (P := (length name <= MAX_FQPLU_NAME)%nat)) by lia. rewrite set_origin_bind, get_st_bind.
  cbn [origin returned_length]. rewrite of_opt_Some_bind, decide_True by lia. rewrite Nat2Z.id.
  eexists _, _. split; [done|]. destruct (lookup_lt_is_Some_2 o (length name) ltac:(lia)) as [c Hc].
  rewrite (drop_S _ _ _ Hc), insert_app_r_alt, Nat.sub_diag by lia. cbn [insert list_insert]. split.
  - by apply c_str_app_nul.
  - rewrite length_app. cbn [length]. rewrite length_drop, Ho. unfold MAX_FQPLU_NAME in *. lia.
Qed.

Lemma round_ok mt ps name r t S k p o n room : request_ok mt ps -> registered t S ->
  map_size t + name_room <= room -> room < 4294967296 -> length o = MAX_FQPLU_NAME ->
  (cmaccp k).1 = CM_OK -> (cmepln (cmaccp k).2).1 = (name, CM_OK) -> no_nul name -> (length name < MAX_FQPLU_NAME)%nat ->
  let k2 := (cmepln (cmaccp k).2).2 in
  rcv_data (cmrcv MAX_BUFFER_SIZE k2).1 = message false mt ps -> rcv_rc (cmrcv MAX_BUFFER_SIZE k2).1 = CM_OK ->
  let '(S', ms) := request false mt ps name S in
  let k3 := sends ms (cmrcv MAX_BUFFER_SIZE k2).2 in
  exists r' t' p' o' n', anamed_round false false (St r (Some t) k p o n) = Ret (cmdeal k3).1 (St r' (Some t') (cmdeal k3).2 p' o' n') /\
    registered t' S' /\ map_size t' <= room /\ length o' = MAX_FQPLU_NAME.
Proof.
  intros Hok HR Hm Hroom Ho Ha He Hn Hl k2 Hd Hrc. unfold anamed_round.
  rewrite (M_bind_Ret _ _ _ _ _ (daemon_rec_Ret asuiterecord_clear r (Some t) k p o n tt (MkRecord 2 (buffer r)) eq_refl)).
  rewrite (M_bind_Ret _ _ _ _ _ (verb_Ret cmaccp _ _ _ _ _ _)), Ha. rewrite (decide_True (P := CM_OK = CM_OK)) by done.
  destruct (extract_partner_ok name (MkRecord 2 (buffer r)) (Some t) _ p o n He Hn Hl Ho) as (o' & n' & E & Hco & Hlo).
  rewrite (M_bind_Ret _ _ _ _ _ E). rewrite (decide_True (P := CM_OK = CM_OK)) by done. fold k2.
  destruct (get_asuiterecord_rep (MkRecord 2 (buffer r)) k2 _ Hd Hrc (message_bytes _ _ Hok) (request_length _ _ Hok)) as (r1 & E1 & H1).
  rewrite M_bind_assoc, (M_bind_Ret _ _ _ _ _ (daemon_msg_Ret _ _ _ _ _ _ _ _ _ _ E1)). rewrite (decide_True (P := ASUITE_RC_OK = ANAME_RC_OK)) by done.
  destruct (serve_ok mt ps r1 t S (cmrcv MAX_BUFFER_SIZE k2).2 p o' n' room Hok H1 HR Hm Hroom) as (s' & n2 & E2 & Hs).
  rewrite (M_bind_Ret _ _ _ _ _ E2). rewrite Hco in Hs. destruct (request false mt ps name S) as [S' ms].
  destruct Hs as (r' & t' & p' & -> & HR' & Hsz). rewrite verb_Ret. by exists r', t', p', o', n2.
Qed.
End Rounds.

(** ** Where the server goes wrong *)
Section Faults.
Context (big_endian : bool) {K : Type} `{HC : Cpic K} `{HS : CpicServer K}.

(** A parameter of length 0 with another key is read for ever. *)
Lemma zero_param_diverges r d k pos o n key fuel nb :
  get_param_len big_endian pos (Some r) = Ret 0 (Some r) -> get_key pos (Some r) = Ret key (Some r) -> name_field key = None ->
  0 <= pos < position r -> position r < 4294967296 ->
  exists s', read_names big_endian fuel nb (MkAnamed K (Some r) d k pos o n) = NoFuel s'.
Proof.
  intros E1 E2 Ek Hp Hr. induction fuel as [|fuel IH]; [by eexists|]. cbn [read_names]. rewrite get_st_bind. cbn [curpos].
  rewrite (M_bind_Ret _ _ _ _ _ (daemon_rec_Ret _ _ d k pos o n _ _ E1)), (M_bind_Ret _ _ _ _ _ (daemon_rec_Ret _ _ d k pos o n _ _ E2)), Ek, M_ret_bind.
  assert (u32 (pos + 0) = pos) as -> by (unfold u32; rewrite Z.add_0_r; apply Z.mod_small; lia).
  rewrite anamed_curpos_bind, (M_bind_Ret _ _ _ _ _ (daemon_rec_Ret deref r d k pos o n r r eq_refl)). by rewrite decide_True by lia.
Qed.

(** When the partner's name cannot be had in the first conversation, its
    terminator is stored at an unassigned index. *)
Lemma first_partner_undefined r d k p o : (cmepln k).1.2 <> CM_OK ->
  extract_partner (MkAnamed K r d k p o None) = Undef (MkAnamed K r d (cmepln k).2 p o None).
Proof.
  intros H. unfold extract_partner, verb, on_conv, zoom, mbind, M_bind. cbn [conv record db curpos origin returned_length].
  destruct (cmepln k) as [[name rc] k']. cbn in H |- *. by rewrite decide_False by done.
Qed.
End Faults.

(** ** The server as a whole *)
Section Server.
Context {K : Type} `{HC : Cpic K} `{HS : CpicServer K}.

(** The conversations bring these requests, one each, and then accepting
    fails. *)
Fixpoint delivers (reqs : list (Z * list param)) (S : gset (list Z)) (k : K) : Prop :=
  match reqs with
  | [] => (cmaccp k).1 <> CM_OK
  | (mt, ps) :: reqs =>
      let k1 := (cmaccp k).2 in
      let name := (cmepln k1).1.1 in
      let rcv := cmrcv MAX_BUFFER_SIZE (cmepln k1).2 in
      let '(S', ms) := request false mt ps name S in
      let deal := cmdeal (sends ms rcv.2) in
      request_ok mt ps /\ (cmaccp k).1 = CM_OK /\ (cmepln k1).1.2 = CM_OK /\ no_nul name /\ (length name < MAX_FQPLU_NAME)%nat /\
      rcv_data rcv.1 = message false mt ps /\ rcv_rc rcv.1 = CM_OK /\ deal.1 = CM_OK /\ delivers reqs S' deal.2
  end.

(** The registrations and the conversations' state after them, the answers
    sent. *)
Fixpoint dialogue (reqs : list (Z * list param)) (S : gset (list Z)) (k : K) : gset (list Z) * K :=
  match reqs with
  | [] => (S, (cmaccp k).2)
  | (mt, ps) :: reqs =>
      let k1 := (cmaccp k).2 in
      let '(S', ms) := request false mt ps (cmepln k1).1.1 S in
      dialogue reqs S' (cmdeal (sends ms (cmrcv MAX_BUFFER_SIZE (cmepln k1).2).2)).2
  end.

#[export] Instance delivers_dec reqs S k : Decision (delivers reqs S k).
Proof.
  revert S k. induction reqs as [|[mt ps] reqs IH]; intros S k; cbn [delivers]; [apply _|].
  destruct (request _ _ _ _ _) as [S' ms]. apply _.
Defined.

Lemma loop_ok reqs : forall S k r t p o n, delivers reqs S k -> registered t S ->
  map_size t + Z.of_nat (length reqs) * name_room < 4294967296 -> length o = MAX_FQPLU_NAME ->
  exists rc r' t' p' o' n', anamed_loop false false (Datatypes.S (length reqs)) (MkAnamed K (Some r) (Some t) k p o n) =
      Ret rc (MkAnamed K (Some r') (Some t') (dialogue reqs S k).2 p' o' n') /\ registered t' (dialogue reqs S k).1.
Proof.
  induction reqs as [|[mt ps] reqs IH]; intros S k r t p o n Hd HR Hm Ho.
  - cbn [delivers] in Hd. cbn [length anamed_loop dialogue]. unfold anamed_round.
    rewrite M_bind_assoc, (M_bind_Ret _ _ _ _ _ (daemon_rec_Ret asuiterecord_clear r (Some t) k p o n tt (MkRecord 2 (buffer r)) eq_refl)).
    rewrite M_bind_assoc, (M_bind_Ret _ _ _ _ _ (verb_Ret cmaccp _ _ _ _ _ _)).
    rewrite (decide_False (P := (cmaccp k).1 = CM_OK)) by done. rewrite M_ret_bind.
    rewrite (decide_False (P := (cmaccp k).1 = CM_OK)) by done. by eexists _, _, t, _, _, _.
  - cbn [delivers dialogue] in *. cbn [length] in Hm.
    pose proof (round_ok mt ps (cmepln (cmaccp k).2).1.1 r t S k p o n (map_size t + name_room)) as H.
    destruct (request false mt ps (cmepln (cmaccp k).2).1.1 S) as [S' ms].
    destruct Hd as (Hok & Ha & He & Hn & Hl & Hdata & Hrc & Hdeal & Hd).
    assert ((cmepln (cmaccp k).2).1 = ((cmepln (cmaccp k).2).1.1, CM_OK)) as He' by (by rewrite <- He; destruct (cmepln _).1).
    destruct H as (r' & t' & p' & o' & n' & E & HR' & Hsz & Ho'); try done; [unfold name_room in *; lia|].
    change (length ((mt, ps) :: reqs)) with (Datatypes.S (length reqs)).
    change (anamed_loop false false (Datatypes.S (Datatypes.S (length reqs)))) with
      (rc ← anamed_round (K := K) false false; if decide (rc = CM_OK) then anamed_loop false false (Datatypes.S (length reqs)) else mret rc).
    rewrite (M_bind_Ret _ _ _ _ _ E), Hdeal. rewrite (decide_True (P := CM_OK = CM_OK)) by done.
    apply IH; [done|done|unfold name_room in *; lia|done].
Qed.

(** C6: the name server.  Started over conversations that bring well-formed
    requests, it answers each as the set of registrations says: a registration
    adds the names, if the first of them is the partner's, and is otherwise
    refused; a deletion removes them; a query is answered with them.  Deletions
    and queries of names that are not registered are not answered.  It leaves
    when no conversation is accepted. *)
Theorem anamed_serves (reqs : list (Z * list param)) (k : K) :
  delivers reqs ∅ k -> 556 + Z.of_nat (length reqs) * name_room < 4294967296 ->
  exists r t p o n, main false false (S (length reqs)) k = Ret 0 (MkAnamed K (Some r) (Some t) (dialogue reqs ∅ k).2 p o n) /\
    registered t (dialogue reqs ∅ k).1.
Proof.
  intros Hd Hm. destruct (tdb_open_new None 0 0 true) as (t & m & fd & E & Ho & Hl & H0); [done|done|].
  assert (registered t ∅) as HR by (exists ∅; split_and!; [by apply (opened_refines m fd 128 t)|apply dom_empty_L|by intros ? ? ?%lookup_empty_Some]).
  unfold main, anamed_init. rewrite E.
  destruct (loop_ok reqs ∅ k (MkRecord 2 ∅) t 0 (replicate MAX_FQPLU_NAME 0) None Hd HR) as (rc & r' & t' & p' & o' & n' & E' & HR');
    [|done|].
  { replace (map_size t) with 556; [done|]. rewrite Ho. cbn [map_size]. rewrite Hl. done. }
  cbn [asuiterecord_new]. rewrite (M_bind_Ret _ _ _ _ _ E'). by exists r', t', p', o', n'.
Qed.
End Server.

(** A registration, a query, a deletion, the same query, and a registration
    under another name. *)
Definition demo_names : list param :=
  [(ANAME_FQLU_NAME, str "NET.LUA" ++ [0]); (ANAME_USER_NAME, str "bob" ++ [0]); (ANAME_GROUP_NAME, str "grp" ++ [0]);
   (ANAME_TP_NAME, str "tp" ++ [0])].

Definition demo_requests : list (Z * list param) :=
  [(ANAME_REGISTER_REQUEST_RECORD, demo_names); (ANAME_QUERY_REQUEST_RECORD, demo_names); (ANAME_DELETE_REQUEST_RECORD, demo_names);
   (ANAME_QUERY_REQUEST_RECORD, demo_names); (ANAME_REGISTER_REQUEST_RECORD, [(ANAME_FQLU_NAME, str "NET.LUB" ++ [0])])].

Definition demo_script : script :=
  MkScript ((fun '(mt, ps) => MkReceived (message false mt ps) 0 0 CM_OK) <$> demo_requests) [].

Lemma anamed_serves_witness : delivers demo_requests ∅ demo_script /\
  exists r t p o n k, main false false 6 demo_script = Ret 0 (MkAnamed script (Some r) (Some t) k p o n) /\ incoming k = [] /\
    sent k = [status_message false 0; status_message false 0; response_message false (names_of demo_names); status_message false 0;
      status_message false 0; message false ASUITE_STATUS_RECORD (status_params false 6 0 709)] /\ registered t ∅.
Proof.
  assert (delivers demo_requests ∅ demo_script) as H by (apply (bool_decide_unpack _); vm_compute; exact I).
  split; [exact H|].
  destruct (anamed_serves demo_requests demo_script H) as (r & t & p & o & n & E & HR); [done|].
  exists r, t, p, o, n, (dialogue demo_requests ∅ demo_script).2. split; [exact E|]. split; [vm_compute; reflexivity|]. split; [vm_compute; reflexivity|].
  assert ((dialogue demo_requests ∅ demo_script).1 = ∅) as <- by (vm_compute; reflexivity). exact HR.
Defined.
