(* ===== verification/Posix.v ===== *)
(** * The operating system's files, as the file transfer uses them

    The calls of the C library on files are operations of a class over the state
    [F] of the file system, so that they can fail as they do: a call that
    returns a negative number here gives the [errno].  [PosixLaws] says what
    reading, writing and opening mean for regular files of a system with room,
    short transfers included; [FullWrites] excludes short writes.  [disk] is an
    instance, a small file system whose transfers can be cut short, used to run
    the programs. *)
From S2P Require Import Prelude.

Definition EPERM := 1.
Definition ENOENT := 2.
Definition EACCES := 13.
Definition EEXIST := 17.
Definition EXDEV := 18.

(** The flags files are opened with: [O_RDONLY] and [O_CREAT | O_WRONLY]. *)
Inductive open_mode : Type := O_RDONLY | O_CREAT_WRONLY.

#[export] Instance open_mode_eq : EqDecision open_mode.
Proof. solve_decision. Defined.

(** The fields of [struct stat] that are used. *)
Record stat : Type := MkStat {
  st_mode : Z; st_ctime : Z; st_nlink : Z; st_uid : Z; st_gid : Z; st_rdev : Z; st_size : Z
}.

Class Posix (F : Type) : Type := {
  open : list Z -> open_mode -> F -> (Z + Z) * F;
  read : Z -> Z -> F -> (list Z + Z) * F;
  write : Z -> list Z -> F -> (Z + Z) * F;
  close : Z -> F -> option Z * F;
  unlink : list Z -> F -> option Z * F;
  mkdir : list Z -> F -> option Z * F;
  rmdir : list Z -> F -> option Z * F;
  rename : list Z -> list Z -> F -> option Z * F;
  chdir : list Z -> F -> option Z * F;
  cwd : F -> option (list Z);
  stat_of : list Z -> F -> option stat;
  lstat_of : list Z -> F -> option stat;
  readdir_all : list Z -> F -> option (list (list Z))
}.

(** Bytes stored over a file from [o] on, which is not past its end. *)
Definition overwrite (o : nat) (bs c : list Z) : list Z := take o c ++ bs ++ drop (o + length bs) c.

(** [file p f] is the contents of the regular file [p] and [descr fd f] the file
    and the offset of an open descriptor. *)
Class PosixLaws (F : Type) `{Posix F} : Type := {
  file : list Z -> F -> option (list Z);
  descr : Z -> F -> option (list Z * nat);
  open_read_ok p f fd f' : open p O_RDONLY f = (inl fd, f') ->
    0 <= fd /\ descr fd f' = Some (p, O) /\ forall q, file q f' = file q f;
  open_write_ok p f fd f' : open p O_CREAT_WRONLY f = (inl fd, f') ->
    0 <= fd /\ descr fd f' = Some (p, O) /\ file p f' = Some (default [] (file p f)) /\
    forall q, q <> p -> file q f' = file q f;
  read_ok fd n f p o c : descr fd f = Some (p, o) -> file p f = Some c -> (o <= length c)%nat -> 0 < n ->
    exists k f', read fd n f = (inl (take k (drop o c)), f') /\ Z.of_nat k <= n /\ (k <= length c - o)%nat /\
      ((o < length c)%nat -> (0 < k)%nat) /\ descr fd f' = Some (p, o + k)%nat /\ forall q, file q f' = file q f;
  write_ok fd bs f p o c : descr fd f = Some (p, o) -> file p f = Some c -> (o <= length c)%nat ->
    exists k f', write fd bs f = (inl (Z.of_nat k), f') /\ (k <= length bs)%nat /\ (bs <> [] -> (0 < k)%nat) /\
      descr fd f' = Some (p, o + k)%nat /\ file p f' = Some (overwrite o (take k bs) c) /\
      forall q, q <> p -> file q f' = file q f;
  close_ok fd f x : descr fd f = Some x ->
    exists f', close fd f = (None, f') /\ forall q, file q f' = file q f
}.

Class FullWrites (F : Type) `{Posix F} : Prop :=
  write_full fd bs f k f' : write fd bs f = (inl k, f') -> k = Z.of_nat (length bs).

(** ** A small file system

    Names are looked up as they are; a transfer moves at most [S m] bytes when
    [max] is [Some m]. *)
Record disk (max : option nat) : Type := MkDisk {
  d_files : gmap (list Z) (list Z);
  d_dirs : list (list Z);
  d_cwd : list Z;
  d_open : list (list Z * nat)
}.
Arguments MkDisk {max} _ _ _ _.
Arguments d_files {max} _.
Arguments d_dirs {max} _.
Arguments d_cwd {max} _.
Arguments d_open {max} _.

Section Disk.
Context {max : option nat}.

Definition limit (n : nat) : nat := match max with Some m => Nat.min n (Datatypes.S m) | None => n end.

Definition disk_open (p : list Z) (m : open_mode) (d : disk max) : (Z + Z) * disk max :=
  let opened files := (inl (Z.of_nat (length (d_open d))), MkDisk files (d_dirs d) (d_cwd d) (d_open d ++ [(p, O)])) in
  match m, d_files d !! p with
  | O_RDONLY, Some _ => opened (d_files d)
  | O_RDONLY, None => (inr ENOENT, d)
  | O_CREAT_WRONLY, Some _ => opened (d_files d)
  | O_CREAT_WRONLY, None => if decide (p ∈ d_dirs d) then (inr EACCES, d) else opened (<[p := []]> (d_files d))
  end.

Definition slot_of (fd : Z) (d : disk max) : option (list Z * nat) :=
  if decide (0 <= fd) then d_open d !! Z.to_nat fd else None.

Definition disk_read (fd n : Z) (d : disk max) : (list Z + Z) * disk max :=
  match slot_of fd d with
  | Some (p, o) =>
      let bs := take (limit (Z.to_nat n)) (drop o (default [] (d_files d !! p))) in
      (inl bs, MkDisk (d_files d) (d_dirs d) (d_cwd d) (<[Z.to_nat fd := (p, (o + length bs)%nat)]> (d_open d)))
  | None => (inr EPERM, d)
  end.

Definition disk_write (fd : Z) (bs : list Z) (d : disk max) : (Z + Z) * disk max :=
  match slot_of fd d with
  | Some (p, o) =>
      let k := limit (length bs) in
      (inl (Z.of_nat k), MkDisk (<[p := overwrite o (take k bs) (default [] (d_files d !! p))]> (d_files d))
         (d_dirs d) (d_cwd d) (<[Z.to_nat fd := (p, (o + k)%nat)]> (d_open d)))
  | None => (inr EPERM, d)
  end.

Definition with_dirs (dirs : list (list Z)) (d : disk max) : disk max := MkDisk (d_files d) dirs (d_cwd d) (d_open d).
Definition with_files (files : gmap (list Z) (list Z)) (d : disk max) : disk max :=
  MkDisk files (d_dirs d) (d_cwd d) (d_open d).

Definition disk_stat (p : list Z) (d : disk max) : option stat :=
  if decide (p ∈ d_dirs d) then Some (MkStat 16877 0 1 0 0 0 0)
  else (fun c => MkStat 33188 0 1 0 0 0 (Z.of_nat (length c))) <$> d_files d !! p.

#[export] Instance disk_posix : Posix (disk max) := {|
  open := disk_open;
  read := disk_read;
  write := disk_write;
  close fd d := (match slot_of fd d with Some _ => None | None => Some EPERM end, d);
  unlink p d := match d_files d !! p with
    | Some _ => (None, with_files (delete p (d_files d)) d)
    | None => (Some ENOENT, d)
    end;
  mkdir p d := if decide (p ∈ d_dirs d) then (Some EEXIST, d) else (None, with_dirs (p :: d_dirs d) d);
  rmdir p d := if decide (p ∈ d_dirs d) then (None, with_dirs (filter (fun q => q <> p) (d_dirs d)) d) else (Some ENOENT, d);
  rename p q d := match d_files d !! p with
    | Some c => (None, with_files (<[q := c]> (delete p (d_files d))) d)
    | None => (Some ENOENT, d)
    end;
  chdir p d := if decide (p ∈ d_dirs d) then (None, MkDisk (d_files d) (d_dirs d) p (d_open d)) else (Some ENOENT, d);
  cwd d := Some (d_cwd d);
  stat_of := disk_stat;
  lstat_of := disk_stat;
  readdir_all p d := if decide (p ∈ d_dirs d) then Some (fst <$> map_to_list (d_files d)) else None
|}.
End Disk.

Lemma length_overwrite o bs c : (o <= length c)%nat -> (o + length bs <= length (overwrite o bs c))%nat.
Proof. intros H. unfold overwrite. rewrite !length_app, length_take. lia. Qed.

Lemma overwrite_app o xs ys c : (o <= length c)%nat ->
  overwrite (o + length xs) ys (overwrite o xs c) = overwrite o (xs ++ ys) c.
Proof.
  intros H. unfold overwrite. assert (length (take o c) = o) as Hl by (rewrite length_take; lia).
  rewrite take_app, drop_app, Hl. rewrite (take_ge (take o c)) by lia.
  replace (o + length xs - o)%nat with (length xs) by lia. rewrite take_app_length.
  rewrite (drop_ge (take o c)) by lia. replace (o + length xs + length ys - o)%nat with (length xs + length ys)%nat by lia.
  rewrite drop_app, drop_drop, drop_ge by lia. replace (length xs + length ys - length xs)%nat with (length ys) by lia.
  rewrite length_app, <- !app_assoc. cbn [app]. do 3 f_equal. f_equal. lia.
Qed.

Lemma overwrite_nil o c : overwrite o [] c = c.
Proof. unfold overwrite. cbn. rewrite Nat.add_0_r. apply take_drop. Qed.

Section DiskLaws.
Context {max : option nat}.

Lemma limit_le n : (limit (max := max) n <= n)%nat.
Proof. unfold limit. destruct max; lia. Qed.

Lemma limit_pos n : (0 < n -> 0 < limit (max := max) n)%nat.
Proof. unfold limit. destruct max; lia. Qed.

#[export] Program Instance disk_laws : PosixLaws (disk max) := {|
  file p d := d_files d !! p;
  descr fd d := slot_of fd d
|}.
Next Obligation.
  intros p f fd f' H. cbn in H. unfold disk_open in H. destruct (d_files f !! p); [|done]. injection H as <- <-.
  unfold slot_of. cbn. rewrite decide_True, Nat2Z.id by lia. split_and!; [lia| |done].
  by rewrite lookup_app_r, Nat.sub_diag.
Qed.
Next Obligation.
  intros p f fd f' H. cbn in H. unfold disk_open in H. unfold slot_of.
  destruct (d_files f !! p) as [c|] eqn:E.
  - injection H as <- <-. cbn. rewrite decide_True, Nat2Z.id, E by lia. split_and!; [lia| |done..].
    by rewrite lookup_app_r, Nat.sub_diag.
  - case_decide; [done|]. injection H as <- <-. cbn. rewrite decide_True, Nat2Z.id, lookup_insert_eq by lia.
    split_and!; [lia|by rewrite lookup_app_r, Nat.sub_diag|done|]. intros q Hq. by rewrite lookup_insert_ne.
Qed.
Next Obligation.
  intros fd n f p o c Hd Hf Ho Hn. cbn in *. unfold disk_read. rewrite Hd, Hf. change (default [] (Some c)) with c.
  set (k := Nat.min (limit (max := max) (Z.to_nat n)) (length c - o)).
  assert (take (limit (max := max) (Z.to_nat n)) (drop o c) = take k (drop o c)) as ->.
  { unfold k. rewrite <- (take_ge (drop o c) (length c - o)) at 1 by (rewrite length_drop; lia). by rewrite take_take. }
  pose proof (limit_le (Z.to_nat n)). pose proof (limit_pos (Z.to_nat n)).
  assert (length (take k (drop o c)) = k) as -> by (rewrite length_take, length_drop; unfold k; lia).
  exists k. eexists. split_and!; [done|unfold k; lia|unfold k; lia|unfold k; lia| |done].
  unfold slot_of in *. cbn. case_decide; [|done]. apply list_lookup_insert_eq. by eapply lookup_lt_Some.
Qed.
Next Obligation.
  intros fd bs f p o c Hd Hf Ho. cbn in *. unfold disk_write. rewrite Hd, Hf. change (default [] (Some c)) with c.
  pose proof (limit_le (length bs)). pose proof (limit_pos (length bs)).
  exists (limit (max := max) (length bs)). eexists. split_and!; [done|done| | | |].
  - intros Hb. destruct bs; [done|]. cbn [length] in *. lia.
  - unfold slot_of in *. cbn. case_decide; [|done]. apply list_lookup_insert_eq. by eapply lookup_lt_Some.
  - cbn. by rewrite lookup_insert_eq.
  - cbn. intros q Hq. by rewrite lookup_insert_ne.
Qed.
Next Obligation. intros fd f x Hd. cbn in *. rewrite Hd. by exists f. Qed.
End DiskLaws.

#[export] Instance disk_full : FullWrites (disk None).
Proof.
  intros fd bs f k f' H. cbn in H. unfold disk_write in H. destruct (slot_of fd f) as [[p o]|]; [|done].
  by injection H as <- _.
Qed.
