(* ===== verification/Aftp.v ===== *)
(** * libasuite/libaftp.c: the file transfer client

    The library keeps a table of sessions; a handle is the index of one.  A
    function takes the index its [connection_id] holds and gives what it stores
    in [*rc], [None] when it stores nothing, with the results it stores through
    its other pointers.  A buffer of the caller has room for the size passed and
    one byte more, whose contents are unknown. *)
From S2P Require Import Prelude Cpic CpicSession AsuiteRecord Posix.

Definition MAX_FTP_SESSIONS := 20.
Definition MAX_FILE_NAME := 128.
Definition MSG_BUFFER_LENGTH : nat := 512.
Definition CM_PLN_SIZE := 17.
Definition CM_SDN_SIZE : nat := 8.
Definition CM_MN_SIZE : nat := 8.
Definition CM_TPN_SIZE : nat := 64.
Definition AFTP_MODE_NAME_SIZE := 8.
Definition AFTP_PASSWORD_SIZE := 10.
Definition AFTP_TP_NAME_SIZE := 64.
Definition AFTP_USERID_SIZE := 10.
Definition MAJOR_VERSION := 0.
Definition MINOR_VERSION := 1.
Definition DEFAULT_TP_NAME : list Z := str "AFTPD".
Definition DEFAULT_MODE_NAME : list Z := str "#BATCH".
Definition OS_NAME : list Z := str "Linux".

(** Return codes. *)
Definition AFTP_RC_OK := 0.
Definition AFTP_RC_COMM_FAIL_NO_RETRY := 1.
Definition AFTP_RC_COMM_CONFIG_LOCAL := 3.
Definition AFTP_RC_FAIL_INPUT_ERROR := 6.
Definition AFTP_RC_FAIL_FATAL := 9.
Definition AFTP_RC_PROGRAM_INTERNAL_ERROR := 10.
Definition AFTP_RC_PARAMETER_CHECK := 11.
Definition AFTP_RC_HANDLE_NOT_VALID := 12.
Definition AFTP_RC_STATE_CHECK := 13.

(** Major codes. *)
Definition AFTP_SIMPLE_RESPONSE := 1.
Definition AFTP_QUERY_SYSTEM := 2.
Definition AFTP_LIST_REQUEST := 3.
Definition AFTP_LIST_ENTRY := 4.
Definition AFTP_LIST_COMPLETE := 5.
Definition AFTP_CHANGE_DIR := 6.
Definition AFTP_QUERY_DIR := 7.
Definition AFTP_CREATE_DIR := 8.
Definition AFTP_REMOVE_DIR := 9.
Definition AFTP_DELETE := 10.
Definition AFTP_RENAME := 11.
Definition AFTP_SEND_FILE := 12.
Definition AFTP_REQUEST_FILE := 13.
Definition AFTP_FILE_DATA := 14.
Definition AFTP_FILE_COMPLETE := 15.
Definition AFTP_TOWER_REQUEST := 16.
Definition AFTP_TOWER_RESPONSE := 17.
Definition AFTP_CLOSE := 18.

(** Keys. *)
Definition AFTP_STATUS_RETURN_CODE := 2.
Definition AFTP_STATUS_CATEGORY_INDEX := 4.
Definition AFTP_STATUS_PRIMARY_MSG := 5.
Definition AFTP_TOWER_LIST := 16.
Definition AFTP_FILESPEC := 17.
Definition AFTP_NEW_FILESPEC := 18.
Definition AFTP_FILE_TYPE := 19.
Definition AFTP_INFO_LEVEL := 20.
Definition AFTP_MOD_TIME := 21.
Definition AFTP_SYSTEM_INFO := 23.
Definition AFTP_DATA_TYPE := 24.
Definition AFTP_DATE_MODE := 25.
Definition AFTP_WRITE_MODE := 26.
Definition AFTP_RECORD_FORMAT := 27.
Definition AFTP_RECORD_LENGTH := 28.
Definition AFTP_ALLOCATION_SIZE := 29.
Definition AFTP_BLOCK_SIZE := 30.

(** Values of the settings. *)
Definition AFTP_ASCII := 0.
Definition AFTP_BINARY := 1.
Definition AFTP_OLDDATE := 0.
Definition AFTP_NEWDATE := 1.
Definition AFTP_DETAIL_RC := 1.
Definition AFTP_FILE := 1.
Definition AFTP_DIRECTORY := 2.
Definition AFTP_ALL_FILES := 3.
Definition AFTP_NATIVE_ATTRIBUTES := 1.
Definition AFTP_DEFAULT_RECORD_FORMAT := 0.
Definition AFTP_SECURITY_NONE := 0.
Definition AFTP_REPLACE := 0.

(** ** Code strings

    The sentinel's code is [-1], in an [unsigned long] (of 32 bits) the largest
    value, so that the loop's test [code >= 0] always holds. *)
Definition codemap : Type := list (Z * list Z).

Definition SENTINEL : Z * list Z := (4294967295, []).

(** What is stored, and [*rc]; [None] when the search leaves the map. *)
Fixpoint get_code_string (map : codemap) (code size : Z) : option (list Z * Z) :=
  match map with
  | [] => None
  | (c, s) :: map =>
      if decide (c = code) then
        if decide (Z.of_nat (length s) <= size) then Some (s, AFTP_RC_OK)
        else get_code_string map code size
      else get_code_string map code size
  end.

Definition aftp_get_data_type_string : Z -> Z -> option (list Z * Z) :=
  get_code_string [(0, str "ASCII"); (1, str "BINARY"); SENTINEL].

Definition aftp_get_date_mode_string : Z -> Z -> option (list Z * Z) :=
  get_code_string [(0, str "OLD"); (1, str "NEW"); SENTINEL].

Definition record_formats : codemap :=
  [(0, str "Default"); (1, str "V"); (2, str "VA"); (3, str "VB"); (4, str "VM"); (5, str "VS");
   (6, str "VBA"); (7, str "VBM"); (8, str "VBS"); (9, str "VSA"); (10, str "VSM"); (11, str "VBSA");
   (12, str "VBSM"); (13, str "F"); (14, str "FA"); (15, str "FB"); (16, str "FM"); (17, str "FBA");
   (18, str "FBM"); (19, str "FBS"); (20, str "FBSM"); (21, str "FBSA"); (22, str "U"); (23, str "UA");
   (24, str "UM"); SENTINEL].

Definition aftp_get_record_format_string : Z -> Z -> option (list Z * Z) := get_code_string record_formats.

Definition aftp_get_write_mode_string : Z -> Z -> option (list Z * Z) :=
  get_code_string [(0, str "REPLACE"); (1, str "APPEND"); (2, str "NOREPLACE"); (3, str "STOREUNIQUE"); SENTINEL].

(** ** Sessions

    [ftpsession], its members in groups; an array is a block of cells, [None] an
    unassigned one.  The conversation is the state behind [conversation_ID],
    which is unassigned before [aftp_connect]. *)
Record settings : Type := MkSettings {
  alloc_size : Z; block_size : Z; data_type : Z; date_mode : Z;
  record_format : Z; record_length : Z; security_type : Z; write_mode : Z
}.

Record names : Type := MkNames {
  symbolic : Z; destination : mem; mode_name : mem; tp_name : mem; password : mem; userid : mem
}.

Record answer : Type := MkAnswer {
  status : option Z; primary_msg : mem; msg_category : option Z; msg_index : option Z
}.

Record ftpsession {K : Type} : Type := MkFtp {
  nms : names;
  conversation_ID : option K;
  sys_info : mem;
  record : asuiterecord;
  sets : settings;
  ans : answer;
  current_directory : list Z
}.
Arguments ftpsession : clear implicits.
Arguments MkFtp {K} _ _ _ _ _ _ _.

(** An entry of the table: a null pointer, a session, or a pointer to one that
    has been freed. *)
Inductive slot (K : Type) : Type := Null | Live (s : ftpsession K) | Freed.
Arguments Null {K}.
Arguments Live {K} s.
Arguments Freed {K}.

(** The library's variables, and the files. *)
Record aftp {K F : Type} : Type := MkAftp {
  ftp_handle_counter : Z;
  sessions : list (slot K);
  global_trace_level : Z;
  global_trace_file : mem;
  files : F
}.
Arguments aftp : clear implicits.
Arguments MkAftp {K F} _ _ _ _ _.

Definition aftp_start {K F} (f : F) : aftp K F :=
  MkAftp 0 (replicate (Z.to_nat MAX_FTP_SESSIONS) Null) 0 (replicate (Z.to_nat MAX_FILE_NAME) (Some 0)) f.

(** [strncpy(dst, &record->buffer[i], n)]: what it stores. *)
Fixpoint peek_strncpy (i : Z) (n : nat) : R (list Z) :=
  match n with
  | O => mret []
  | Datatypes.S n' =>
      c ← peek i;
      if decide (c = 0) then mret (replicate n 0) else rest ← peek_strncpy (i + 1) n'; mret (c :: rest)
  end.

Section Aftp.
Context (big_endian : bool) {K F : Type} `{Cpic K} `{Posix F}.

Abbreviation A := (M (aftp K F)).

(** The check every function but the extracting ones makes. *)
Definition valid_handle (index : Z) : A bool :=
  st ← get_st;
  mret (match sessions st !! Z.to_nat index with Some Null | None => false | Some _ => true end).

Definition guarded (index bad : Z) (body : A (option Z)) : A (option Z) :=
  ok ← valid_handle index; if (ok : bool) then body else mret (Some bad).

(** [sessions[index]->...]. *)
Definition the_session (index : Z) : A (ftpsession K) :=
  st ← get_st;
  match sessions st !! Z.to_nat index with Some (Live s) => mret s | _ => undef end.

Definition put_slot (index : Z) (x : slot K) (st : aftp K F) : aftp K F :=
  MkAftp (ftp_handle_counter st) (<[Z.to_nat index := x]> (sessions st)) (global_trace_level st)
    (global_trace_file st) (files st).

Definition set_session (index : Z) (s : ftpsession K) : A unit := modify (put_slot index (Live s)).

Definition on_settings (index : Z) (f : settings -> settings) : A unit :=
  s ← the_session index;
  set_session index (MkFtp (nms s) (conversation_ID s) (sys_info s) (record s) (f (sets s)) (ans s) (current_directory s)).
Definition on_names (index : Z) (f : names -> option names) : A unit :=
  s ← the_session index;
  n ← of_opt (f (nms s));
  set_session index (MkFtp n (conversation_ID s) (sys_info s) (record s) (sets s) (ans s) (current_directory s)).
Definition on_answer (index : Z) (f : answer -> option answer) : A unit :=
  s ← the_session index;
  a ← of_opt (f (ans s));
  set_session index (MkFtp (nms s) (conversation_ID s) (sys_info s) (record s) (sets s) a (current_directory s)).
Definition set_directory (index : Z) (d : list Z) : A unit :=
  s ← the_session index;
  set_session index (MkFtp (nms s) (conversation_ID s) (sys_info s) (record s) (sets s) (ans s) d).
Definition with_record (s : ftpsession K) (r : asuiterecord) : ftpsession K :=
  MkFtp (nms s) (conversation_ID s) (sys_info s) r (sets s) (ans s) (current_directory s).
Definition with_conversation (s : ftpsession K) (k : K) : ftpsession K :=
  MkFtp (nms s) (Some k) (sys_info s) (record s) (sets s) (ans s) (current_directory s).

(** Work on the session's record, on its conversation, on both, on the files. *)
Definition on_rec {X} (index : Z) (m : R X) : A X :=
  s ← the_session index;
  zoom (fun _ => Some (record s)) (fun r => put_slot index (Live (with_record s (default (record s) r)))) m.
Definition on_conv {X} (index : Z) (f : K -> X * K) : A X :=
  s ← the_session index;
  k ← of_opt (conversation_ID s);
  let '(x, k) := f k in
  set_session index (with_conversation s k);; mret x.
Definition on_msg {X} (index : Z) (m : M (option asuiterecord * K) X) : A X :=
  s ← the_session index;
  k ← of_opt (conversation_ID s);
  zoom (fun _ => (Some (record s), k))
    (fun rk => put_slot index (Live (with_conversation (with_record s (default (record s) rk.1)) rk.2))) m.
Definition on_files {X} (f : F -> X * F) : A X := fun st =>
  let '(x, f) := f (files st) in
  Ret x (MkAftp (ftp_handle_counter st) (sessions st) (global_trace_level st) (global_trace_file st) f).

(** ** Requests and their answers *)

(** Send the record and receive into it; a code other than [AFTP_RC_OK] ends the
    calling function with it. *)
Definition exchange (index : Z) : A Z :=
  ftp_rc ← on_msg index send_asuiterecord;
  if decide (ftp_rc <> AFTP_RC_OK) then mret ftp_rc else on_msg index (get_asuiterecord (K := K)).

Definition ret_code (m : A Z) : A (option Z) := rc ← m; mret (Some rc).

(** The loop over an answer's parameters, [do ... while (curpos < bound)],
    with what the calling function does for a key. *)
Fixpoint response_params {X} (index bound : Z) (handle : Z -> Z -> X -> A X) (fuel : nat) (curpos : Z) (x : X) : A X :=
  match fuel with
  | O => no_fuel
  | Datatypes.S fuel =>
      param_len ← on_rec index (get_param_len big_endian curpos);
      key ← on_rec index (get_key curpos);
      x ← handle key curpos x;
      let curpos := u32 (curpos + param_len) in
      if decide (curpos < bound) then response_params index bound handle fuel curpos x else mret x
  end.

(** The [switch] on the major code with one case of interest. *)
Definition response {X} (index bound major : Z) (handle : Z -> Z -> X -> A X) (x : X) : A X :=
  major_code ← on_rec index get_major_code;
  if decide (major_code = major) then response_params index bound handle (Datatypes.S (Z.to_nat bound)) 2 x else mret x.

Definition received_len (index : Z) : A Z := on_rec index get_received_len.

Definition set_category (index curpos : Z) : A unit :=
  category ← on_rec index (get_cat_index big_endian (curpos + 3));
  on_answer index (fun a => Some (MkAnswer (status a) (primary_msg a) (Some category) (msg_index a)));;
  i ← on_rec index (get_cat_index big_endian (curpos + 5));
  on_answer index (fun a => Some (MkAnswer (status a) (primary_msg a) (msg_category a) (Some i))).

Definition set_primary_msg (index curpos : Z) : A unit :=
  bs ← on_rec index (peek_strncpy (curpos + 3) MSG_BUFFER_LENGTH);
  on_answer index (fun a => (fun m => MkAnswer (status a) m (msg_category a) (msg_index a)) <$> mem_write 0 bs (primary_msg a)).

Definition set_status (index curpos : Z) : A unit :=
  c ← on_rec index (peek (curpos + 3));
  on_answer index (fun a => Some (MkAnswer (Some c) (primary_msg a) (msg_category a) (msg_index a))).

(** [strncpy] from the record to the caller and [strlen] of the result. *)
Definition copy_out (index curpos : Z) (size : nat) : A (list Z) :=
  bs ← on_rec index (peek_strncpy (curpos + 3) size);
  of_opt (mem_string (Some <$> bs)).

(** The change of directory.  The loop runs up to the name's length, and the
    category's case falls through to the message's. *)
Definition change_dir_param (index key curpos rc : Z) : A Z :=
  if decide (key = AFTP_STATUS_CATEGORY_INDEX) then
    set_category index curpos;; set_primary_msg index curpos;; mret AFTP_RC_FAIL_FATAL
  else if decide (key = AFTP_STATUS_PRIMARY_MSG) then set_primary_msg index curpos;; mret rc
  else mret rc.

Definition aftp_change_dir (index : Z) (directory : list Z) (length : Z) : A (option Z) :=
  guarded index AFTP_RC_HANDLE_NOT_VALID (
    on_rec index (asuiterecord_clear;;
      asuiterecord_settype big_endian AFTP_CHANGE_DIR;;
      asuiterecord_append big_endian AFTP_FILESPEC (directory ++ [0]) (length + 1));;
    ftp_rc ← exchange index;
    if decide (ftp_rc <> AFTP_RC_OK) then mret (Some ftp_rc) else
    ret_code (response index length AFTP_SIMPLE_RESPONSE (change_dir_param index) AFTP_RC_OK)).

Definition aftp_close (index : Z) : A (option Z) :=
  guarded index AFTP_RC_HANDLE_NOT_VALID (
    on_rec index (asuiterecord_clear;; asuiterecord_settype big_endian AFTP_CLOSE);;
    ftp_rc ← on_msg index send_asuiterecord;
    if decide (ftp_rc <> AFTP_RC_OK) then mret (Some ftp_rc) else
    ftp_rc ← on_conv index cmdeal;
    mret (Some (if decide (ftp_rc <> CM_OK) then AFTP_RC_FAIL_FATAL else AFTP_RC_OK))).

(** A verb with the string of a name; another code than [CM_OK] ends
    [aftp_connect]. *)
Definition set_conversation (index : Z) (f : names -> mem) (verb : list Z -> K -> Z * K) (conv_id : K) : A (Z * K) :=
  s ← the_session index;
  name ← of_opt (mem_string (f (nms s)));
  let '(cm_rc, conv_id) := verb name conv_id in
  set_session index (with_conversation s conv_id);;
  mret (cm_rc, conv_id).

(** What follows [cminit]: the names, unless they come from the side information,
    the allocation and the first exchange. *)
Definition connect_conversation (index : Z) (s : ftpsession K) (conv_id : K) : A (option Z) :=
  '(cm_rc, conv_id) ← (if decide (symbolic (nms s) <> 0) then mret (CM_OK, conv_id) else
    '(cm_rc, conv_id) ← set_conversation index destination cmspln conv_id;
    if decide (cm_rc <> CM_OK) then mret (cm_rc, conv_id) else
    '(cm_rc, conv_id) ← set_conversation index mode_name cmsmn conv_id;
    if decide (cm_rc <> CM_OK) then mret (cm_rc, conv_id) else
    set_conversation index tp_name cmstpn conv_id);
  if decide (cm_rc <> CM_OK) then mret (Some AFTP_RC_PARAMETER_CHECK) else
  cm_rc ← on_conv index cmallc;
  if decide (cm_rc <> CM_OK) then mret (Some AFTP_RC_COMM_FAIL_NO_RETRY) else
  on_rec index (asuiterecord_settype big_endian AFTP_TOWER_REQUEST);;
  ret_code (exchange index).

(** [conv_id] is the conversation [cminit] starts. *)
Definition aftp_connect (index : Z) (conv_id : K) : A (option Z) :=
  guarded index AFTP_RC_HANDLE_NOT_VALID (
    s ← the_session index;
    dest ← of_opt (mem_string (destination (nms s)));
    if decide (dest = []) then mret (Some AFTP_RC_STATE_CHECK) else
    sym_dest ← (if decide (symbolic (nms s) <> 0) then of_opt (mapM id (take CM_SDN_SIZE (destination (nms s))))
                else mret (replicate CM_SDN_SIZE 32));
    let '(cm_rc, conv_id) := cminit sym_dest conv_id in
    if decide (cm_rc <> CM_OK) then mret (Some AFTP_RC_COMM_CONFIG_LOCAL) else
    set_session index (with_conversation s conv_id);;
    connect_conversation index s conv_id).

(** The array [size] bytes long, with [s] at its start. *)
Definition array (size : nat) (s : list Z) : mem := (Some <$> s ++ [0]) ++ replicate (size - length s - 1) None.

Definition new_session (r : asuiterecord) (d : list Z) : ftpsession K :=
  MkFtp (MkNames 1 (array (Z.to_nat CM_PLN_SIZE + 1) []) (array (CM_MN_SIZE + 1) DEFAULT_MODE_NAME)
           (array (CM_TPN_SIZE + 1) DEFAULT_TP_NAME)
           (replicate (Z.to_nat AFTP_PASSWORD_SIZE + 1) None) (replicate (Z.to_nat AFTP_PASSWORD_SIZE + 1) None))
    None (array 64 OS_NAME) r
    (MkSettings 0 0 AFTP_ASCII AFTP_OLDDATE AFTP_DEFAULT_RECORD_FORMAT 0 AFTP_SECURITY_NONE AFTP_REPLACE)
    (MkAnswer None (replicate (MSG_BUFFER_LENGTH + 1) None) None None) d.

(** The handle and [*rc]; [no_session] and [no_record] say that the
    allocations fail.  Without a record the session is freed and written to. *)
Definition aftp_create (no_session no_record : bool) : A (option Z * option Z) :=
  if no_session then mret (None, Some AFTP_RC_FAIL_FATAL) else
  st ← get_st;
  let index := ftp_handle_counter st in
  if decide (MAX_FTP_SESSIONS <= index) then undef else
  match asuiterecord_new no_record with
  | None => undef
  | Some r =>
      put_st (MkAftp (u8 (index + 1)) (sessions st) (global_trace_level st) (global_trace_file st) (files st));;
      match safe_get_cwd 2 (cwd (files st)) with
      | None => no_fuel
      | Some None => modify (put_slot index Freed);; mret (Some index, Some AFTP_RC_OK)
      | Some (Some d) => set_session index (new_session r d);; mret (Some index, Some AFTP_RC_OK)
      end
  end.

Definition create_dir_param (index key curpos rc : Z) : A Z :=
  if decide (key = AFTP_STATUS_CATEGORY_INDEX) then set_category index curpos;; mret AFTP_RC_FAIL_FATAL
  else if decide (key = AFTP_STATUS_PRIMARY_MSG) then set_primary_msg index curpos;; mret rc
  else mret rc.

(** The loop runs up to the name's length. *)
Definition aftp_create_dir (index : Z) (directory : list Z) (length : Z) : A (option Z) :=
  guarded index AFTP_RC_HANDLE_NOT_VALID (
    on_rec index (asuiterecord_clear;;
      asuiterecord_settype big_endian AFTP_CREATE_DIR;;
      asuiterecord_append big_endian AFTP_FILESPEC (directory ++ [0]) (length + 1));;
    ftp_rc ← exchange index;
    if decide (ftp_rc <> AFTP_RC_OK) then mret (Some ftp_rc) else
    ret_code (response index length AFTP_SIMPLE_RESPONSE (create_dir_param index) AFTP_RC_OK)).

(** The answer's parameters are passed over. *)
Definition ignore_param (key curpos : Z) (u : unit) : A unit := mret tt.

(** [*rc] is set to [ftp_rc] at the end, which is [AFTP_RC_OK] there. *)
Definition aftp_delete (index : Z) (filename : list Z) (length : Z) : A (option Z) :=
  guarded index AFTP_RC_HANDLE_NOT_VALID (
    on_rec index (asuiterecord_clear;;
      asuiterecord_settype big_endian AFTP_DELETE;;
      asuiterecord_append big_endian AFTP_FILESPEC (filename ++ [0]) (length + 1));;
    ftp_rc ← exchange index;
    if decide (ftp_rc <> AFTP_RC_OK) then mret (Some ftp_rc) else
    receive_length ← received_len index;
    response index receive_length AFTP_SIMPLE_RESPONSE ignore_param tt;;
    mret (Some ftp_rc)).

(** The table keeps the pointer. *)
Definition aftp_destroy (index : Z) : A (option Z) :=
  guarded index AFTP_RC_HANDLE_NOT_VALID (
    _ ← the_session index;
    modify (put_slot index Freed);;
    mret (Some AFTP_RC_OK)).

Definition aftp_dir_close (index : Z) : A (option Z) := mret (Some AFTP_RC_OK).

(** [*rc] and the path given back. *)
Definition dir_open_param (index : Z) (path_buffer_length : nat) (key curpos : Z) (x : Z * option (list Z)) :
    A (Z * option (list Z)) :=
  if decide (key = AFTP_STATUS_RETURN_CODE) then set_status index curpos;; mret x
  else if decide (key = AFTP_FILESPEC) then path ← copy_out index curpos path_buffer_length; mret (x.1, Some path)
  else if decide (key = AFTP_STATUS_CATEGORY_INDEX) then set_category index curpos;; mret (AFTP_RC_FAIL_FATAL, x.2)
  else if decide (key = AFTP_STATUS_PRIMARY_MSG) then set_primary_msg index curpos;; mret x
  else mret x.

Definition aftp_dir_open (index : Z) (filespec : list Z) (length file_type info_level : Z) (path_buffer_length : nat) :
    A (option Z * option (list Z)) :=
  ok ← valid_handle index;
  if negb ok then mret (Some AFTP_RC_FAIL_FATAL, None) else
  on_rec index (asuiterecord_clear;;
    asuiterecord_settype big_endian AFTP_LIST_REQUEST;;
    asuiterecord_append big_endian AFTP_FILESPEC (filespec ++ [0]) (length + 1);;
    asuiterecord_append_char big_endian AFTP_FILE_TYPE (u8 file_type);;
    asuiterecord_append_char big_endian AFTP_INFO_LEVEL (u8 info_level));;
  ftp_rc ← exchange index;
  if decide (ftp_rc <> AFTP_RC_OK) then mret (Some ftp_rc, None) else
  receive_length ← received_len index;
  '(rc, path) ← response index receive_length AFTP_SIMPLE_RESPONSE (dir_open_param index path_buffer_length) (AFTP_RC_OK, None);
  mret (Some rc, path).

(** [*rc], the entry, and [*no_more_entries], with what is not assigned. *)
Definition dir_read_param (index : Z) (dir_entry_size : nat) (key curpos : Z) (x : Z * option (list Z)) :
    A (Z * option (list Z)) :=
  if decide (key = AFTP_FILESPEC) then entry ← copy_out index curpos dir_entry_size; mret (x.1, Some entry)
  else if decide (key = AFTP_STATUS_CATEGORY_INDEX) then set_category index curpos;; mret (AFTP_RC_FAIL_FATAL, x.2)
  else if decide (key = AFTP_STATUS_PRIMARY_MSG) then set_primary_msg index curpos;; mret x
  else mret x.

Definition aftp_dir_read (index : Z) (dir_entry_size : nat) : A (option Z * option (list Z) * option Z) :=
  ok ← valid_handle index;
  if negb ok then mret (Some AFTP_RC_HANDLE_NOT_VALID, None, None) else
  ftp_rc ← on_msg index get_asuiterecord;
  if decide (ftp_rc <> AFTP_RC_OK) then mret (Some ftp_rc, None, None) else
  receive_length ← received_len index;
  major_code ← on_rec index get_major_code;
  if decide (major_code = AFTP_LIST_ENTRY) then
    '(rc, entry) ← response_params index receive_length (dir_read_param index dir_entry_size) (Datatypes.S (Z.to_nat receive_length)) 2 (AFTP_RC_OK, None);
    mret (Some rc, entry, match entry with Some _ => Some 0 | None => None end)
  else if decide (major_code = AFTP_LIST_COMPLETE) then mret (Some AFTP_RC_OK, None, Some 1)
  else mret (Some AFTP_RC_OK, None, None).

(** ** Reading the settings: the handle is not checked *)

Definition extract (f : settings -> Z) (index : Z) : A (Z * option Z) :=
  s ← the_session index; mret (f (sets s), Some AFTP_RC_OK).

Definition aftp_extract_allocation_size : Z -> A (Z * option Z) := extract alloc_size.
Definition aftp_extract_block_size : Z -> A (Z * option Z) := extract block_size.
Definition aftp_extract_data_type : Z -> A (Z * option Z) := extract data_type.
Definition aftp_extract_date_mode : Z -> A (Z * option Z) := extract date_mode.
Definition aftp_extract_record_format : Z -> A (Z * option Z) := extract record_format.
Definition aftp_extract_record_length : Z -> A (Z * option Z) := extract record_length.
Definition aftp_extract_security_type : Z -> A (Z * option Z) := extract security_type.
Definition aftp_extract_write_mode : Z -> A (Z * option Z) := extract write_mode.

Definition aftp_extract_connection_info (index : Z) : A (option Z) := mret (Some AFTP_RC_FAIL_FATAL).

(** A name as long as the buffer is copied without its terminator, and then
    measured. *)
Definition extract_string (f : names -> mem) (index size : Z) : A (option (list Z) * option Z) :=
  s ← the_session index;
  name ← of_opt (mem_string (f (nms s)));
  let len := Z.of_nat (length name) in
  if decide (0 < len) then
    if decide (len < size) then mret (Some name, Some AFTP_RC_OK)
    else if decide (len = size) then undef
    else mret (None, Some AFTP_RC_PARAMETER_CHECK)
  else mret (None, Some AFTP_RC_STATE_CHECK).

Definition aftp_extract_destination : Z -> Z -> A (option (list Z) * option Z) := extract_string destination.
Definition aftp_extract_mode_name : Z -> Z -> A (option (list Z) * option Z) := extract_string mode_name.
Definition aftp_extract_partner_LU_name : Z -> Z -> A (option (list Z) * option Z) := extract_string destination.
Definition aftp_extract_password : Z -> Z -> A (option (list Z) * option Z) := extract_string password.
Definition aftp_extract_tp_name : Z -> Z -> A (option (list Z) * option Z) := extract_string tp_name.
Definition aftp_extract_userid : Z -> Z -> A (option (list Z) * option Z) := extract_string userid.

(** ** Local files and queries *)

(** These only report an error. *)
Definition aftp_load_ini_file : option Z := Some AFTP_RC_PROGRAM_INTERNAL_ERROR.
Definition aftp_local_dir_close : option Z := Some AFTP_RC_PROGRAM_INTERNAL_ERROR.
Definition aftp_local_dir_open : option Z := Some AFTP_RC_PROGRAM_INTERNAL_ERROR.
Definition aftp_local_dir_read : option Z := Some AFTP_RC_PROGRAM_INTERNAL_ERROR.
Definition aftp_query_bytes_transferred : option Z := Some AFTP_RC_PROGRAM_INTERNAL_ERROR.
Definition aftp_set_connection_info : option Z := Some AFTP_RC_PROGRAM_INTERNAL_ERROR.

(** When the directory cannot be changed to, [*rc] is not assigned. *)
Definition aftp_local_change_dir (index : Z) (directory : list Z) : A (option Z) :=
  guarded index AFTP_RC_HANDLE_NOT_VALID (
    err ← on_files (chdir directory);
    match err with
    | Some _ => mret None
    | None =>
        st ← get_st;
        match cwd (files st) with
        | Some newbuf => set_directory index newbuf;; mret (Some AFTP_RC_OK)
        | None => mret (Some AFTP_RC_FAIL_FATAL)
        end
    end).

(** [strncpy] to a buffer of the caller and [strlen] of it. *)
Definition fit (s : list Z) (size : Z) : option (list Z) :=
  if decide (Z.of_nat (length s) < size) then Some s else None.

Definition aftp_local_query_current_dir (index directory_size : Z) : A (option (list Z) * option Z) :=
  ok ← valid_handle index;
  if negb ok then mret (None, Some AFTP_RC_HANDLE_NOT_VALID) else
  s ← the_session index;
  d ← of_opt (fit (current_directory s) directory_size);
  mret (Some d, Some AFTP_RC_OK).

(** The string of the answer's parameter [want], and what is copied of it. *)
Definition query_param (index want : Z) (size : nat) (key curpos : Z) (x : option (list Z)) : A (option (list Z)) :=
  if decide (key = want) then s ← copy_out index curpos size; mret (Some s) else mret x.

Definition aftp_query_current_dir (index : Z) (directory_size : nat) : A (option (list Z) * option Z) :=
  ok ← valid_handle index;
  if negb ok then mret (None, Some AFTP_RC_HANDLE_NOT_VALID) else
  on_rec index (asuiterecord_clear;; asuiterecord_settype big_endian AFTP_QUERY_DIR);;
  ftp_rc ← exchange index;
  if decide (ftp_rc <> AFTP_RC_OK) then mret (None, Some ftp_rc) else
  length ← received_len index;
  directory ← response index length AFTP_SIMPLE_RESPONSE (query_param index AFTP_FILESPEC directory_size) None;
  mret (directory, Some ftp_rc).

Definition aftp_query_local_version : Z * Z * option Z := (MAJOR_VERSION, MINOR_VERSION, Some AFTP_RC_OK).

(** [*rc] is only assigned for a bad handle. *)
Definition aftp_query_local_system_info (index system_info_size : Z) : A (option (list Z) * option Z) :=
  ok ← valid_handle index;
  if negb ok then mret (None, Some AFTP_RC_HANDLE_NOT_VALID) else
  s ← the_session index;
  name ← of_opt (mem_string (sys_info s));
  info ← of_opt (fit name system_info_size);
  mret (Some info, None).

Definition aftp_query_system_info (index : Z) (system_info_size : nat) : A (option (list Z) * option Z) :=
  ok ← valid_handle index;
  if negb ok then mret (None, Some AFTP_RC_HANDLE_NOT_VALID) else
  on_rec index (asuiterecord_clear;; asuiterecord_settype big_endian AFTP_QUERY_SYSTEM);;
  ftp_rc ← exchange index;
  if decide (ftp_rc <> AFTP_RC_OK) then mret (None, Some ftp_rc) else
  length ← received_len index;
  info ← response index length AFTP_SIMPLE_RESPONSE (query_param index AFTP_SYSTEM_INFO system_info_size) None;
  mret (info, Some ftp_rc).

(** ** File transfer *)

(** [asuiterecord_append_twobyte] takes the number of values and the values; the
    calls here give only a number, so a number other than zero makes it read
    arguments that are not there. *)
Definition append_count (key count : Z) : R unit :=
  if decide (0 < count) then undef else mret tt.

(** The answer of a refused transfer: whether a key but the return code ends
    the call. *)
Fixpoint only_return_code (index bound : Z) (fuel : nat) (curpos : Z) : A bool :=
  match fuel with
  | O => no_fuel
  | Datatypes.S fuel =>
      param_len ← on_rec index (get_param_len big_endian curpos);
      key ← on_rec index (get_key curpos);
      if decide (key = AFTP_STATUS_RETURN_CODE) then
        let curpos := u32 (curpos + param_len) in
        if decide (curpos < bound) then only_return_code index bound fuel curpos else mret true
      else mret false
  end.

(** The records of a file, until [AFTP_FILE_COMPLETE]; a turn takes a record,
    [fuel] turns are modelled.  What [write] gives is not looked at. *)
Fixpoint receive_records (index dest_file : Z) (fuel : nat) : A Z :=
  match fuel with
  | O => no_fuel
  | Datatypes.S fuel =>
      on_rec index asuiterecord_clear;;
      ftp_rc ← on_msg index get_asuiterecord;
      if decide (ftp_rc <> AFTP_RC_OK) then mret ftp_rc else
      receive_length ← received_len index;
      major_code ← on_rec index get_major_code;
      if decide (major_code = AFTP_SIMPLE_RESPONSE) then
        ok ← only_return_code index receive_length (Datatypes.S (Z.to_nat receive_length)) 2;
        if (ok : bool) then receive_records index dest_file fuel else mret AFTP_RC_FAIL_INPUT_ERROR
      else if decide (major_code = AFTP_SEND_FILE) then
        response_params index receive_length ignore_param (Datatypes.S (Z.to_nat receive_length)) 2 tt;;
        receive_records index dest_file fuel
      else if decide (major_code = AFTP_FILE_DATA) then
        if decide (receive_length < 2) then undef else
        bs ← on_rec index (read_block 2 (Z.to_nat (receive_length - 2)));
        on_files (write dest_file bs);;
        receive_records index dest_file fuel
      else if decide (major_code = AFTP_FILE_COMPLETE) then
        on_files (close dest_file);; mret ftp_rc
      else receive_records index dest_file fuel
  end.

Definition aftp_receive_file (index : Z) (local_file : list Z) (local_file_length : Z) (remote_file : list Z)
    (remote_file_length : Z) (fuel : nat) : A (option Z) :=
  guarded index AFTP_RC_FAIL_FATAL (
    opened ← on_files (open local_file O_CREAT_WRONLY);
    match opened with
    | inr _ => mret (Some AFTP_RC_FAIL_FATAL)
    | inl dest_file =>
        s ← the_session index;
        on_rec index (asuiterecord_clear;;
          asuiterecord_settype big_endian AFTP_REQUEST_FILE;;
          asuiterecord_append big_endian AFTP_FILESPEC (remote_file ++ [0]) (remote_file_length + 1);;
          asuiterecord_append big_endian AFTP_NEW_FILESPEC (local_file ++ [0]) (local_file_length + 1);;
          asuiterecord_append_char big_endian AFTP_DATA_TYPE (data_type (sets s));;
          append_count AFTP_BLOCK_SIZE (block_size (sets s)));;
        ftp_rc ← on_msg index send_asuiterecord;
        if decide (ftp_rc <> AFTP_RC_OK) then mret (Some ftp_rc) else
        ret_code (receive_records index dest_file fuel)
    end).

(** [read(file, &record->buffer[record->position], MAX_BUFFER_SIZE -
    record->position)] and [record->position += bytes_read], which is [-1] when
    reading fails. *)
Definition read_data (index source_file : Z) : A Z :=
  r ← on_rec index deref;
  got ← on_files (read source_file (MAX_BUFFER_SIZE - position r));
  match got with
  | inl bs =>
      on_rec index (poke_all (position r) bs;; advance (Z.of_nat (length bs)));;
      mret (Z.of_nat (length bs))
  | inr _ => on_rec index (advance (-1));; mret (-1)
  end.

(** A data record for each piece read; the type in the buffer stays. *)
Fixpoint send_records (index source_file bytes_read : Z) (fuel : nat) : A Z :=
  match fuel with
  | O => no_fuel
  | Datatypes.S fuel =>
      if decide (0 < bytes_read) then
        ftp_rc ← on_msg index send_asuiterecord;
        if decide (ftp_rc <> AFTP_RC_OK) then mret ftp_rc else
        on_rec index asuiterecord_clear;;
        bytes_read ← read_data index source_file;
        send_records index source_file bytes_read fuel
      else mret AFTP_RC_OK
  end.

(** [fuel] bounds the data records. *)
Definition aftp_send_file (index : Z) (local_file : list Z) (local_file_length : Z) (remote_file : list Z)
    (remote_file_length : Z) (fuel : nat) : A (option Z) :=
  guarded index AFTP_RC_FAIL_FATAL (
    opened ← on_files (open local_file O_RDONLY);
    match opened with
    | inr _ => mret (Some AFTP_RC_FAIL_FATAL)
    | inl source_file =>
        s ← the_session index;
        on_rec index (asuiterecord_clear;;
          asuiterecord_settype big_endian AFTP_SEND_FILE;;
          asuiterecord_append big_endian AFTP_FILESPEC (local_file ++ [0]) (local_file_length + 1);;
          asuiterecord_append big_endian AFTP_NEW_FILESPEC (remote_file ++ [0]) (remote_file_length + 1);;
          asuiterecord_append_char big_endian AFTP_DATA_TYPE (data_type (sets s));;
          (if decide (0 < alloc_size (sets s))
           then asuiterecord_append_fourbyte big_endian AFTP_ALLOCATION_SIZE (alloc_size (sets s)) else mret 0);;
          append_count AFTP_BLOCK_SIZE (block_size (sets s));;
          append_count AFTP_RECORD_LENGTH (record_length (sets s));;
          asuiterecord_append_char big_endian AFTP_DATE_MODE (date_mode (sets s)));;
        ftp_rc ← on_msg index send_asuiterecord;
        if decide (ftp_rc <> AFTP_RC_OK) then mret (Some ftp_rc) else
        on_rec index (asuiterecord_clear;; asuiterecord_settype big_endian AFTP_FILE_DATA);;
        bytes_read ← read_data index source_file;
        ftp_rc ← send_records index source_file bytes_read fuel;
        if decide (ftp_rc <> AFTP_RC_OK) then mret (Some ftp_rc) else
        on_files (close source_file);;
        on_rec index (asuiterecord_settype big_endian AFTP_FILE_COMPLETE;; asuiterecord_clear);;
        ftp_rc ← exchange index;
        if decide (ftp_rc <> AFTP_RC_OK) then mret (Some ftp_rc) else
        receive_length ← received_len index;
        response index receive_length AFTP_SIMPLE_RESPONSE ignore_param tt;;
        mret (Some ftp_rc)
    end).

(** ** Requests whose answer is looked at *)

Definition status_param (index key curpos rc : Z) : A Z :=
  if decide (key = AFTP_STATUS_RETURN_CODE) then set_status index curpos;; mret rc
  else if decide (key = AFTP_STATUS_CATEGORY_INDEX) then set_category index curpos;; mret AFTP_RC_FAIL_FATAL
  else if decide (key = AFTP_STATUS_PRIMARY_MSG) then set_primary_msg index curpos;; mret rc
  else mret rc.

Definition aftp_remove_dir (index : Z) (directory : list Z) (length : Z) : A (option Z) :=
  guarded index AFTP_RC_FAIL_FATAL (
    on_rec index (asuiterecord_clear;;
      asuiterecord_settype big_endian AFTP_REMOVE_DIR;;
      asuiterecord_append big_endian AFTP_FILESPEC (directory ++ [0]) (length + 1));;
    ftp_rc ← exchange index;
    if decide (ftp_rc <> AFTP_RC_OK) then mret (Some ftp_rc) else
    receive_length ← received_len index;
    ret_code (response index receive_length AFTP_SIMPLE_RESPONSE (status_param index) AFTP_RC_OK)).

Definition aftp_rename (index : Z) (oldfile : list Z) (oldlength : Z) (newfile : list Z) (newlength : Z) : A (option Z) :=
  guarded index AFTP_RC_FAIL_FATAL (
    on_rec index (asuiterecord_clear;;
      asuiterecord_settype big_endian AFTP_RENAME;;
      asuiterecord_append big_endian AFTP_FILESPEC (oldfile ++ [0]) (oldlength + 1);;
      asuiterecord_append big_endian AFTP_NEW_FILESPEC (newfile ++ [0]) (newlength + 1));;
    ftp_rc ← exchange index;
    if decide (ftp_rc <> AFTP_RC_OK) then mret (Some ftp_rc) else
    receive_length ← received_len index;
    ret_code (response index receive_length AFTP_SIMPLE_RESPONSE (status_param index) AFTP_RC_OK)).

(** ** Setting *)

Definition setting (index bad : Z) (rc : option Z) (f : settings -> settings) : A (option Z) :=
  guarded index bad (on_settings index f;; mret rc).

Definition aftp_set_allocation_size (index allocation_size : Z) : A (option Z) :=
  setting index AFTP_RC_HANDLE_NOT_VALID (Some AFTP_RC_OK) (fun s => MkSettings allocation_size (block_size s) (data_type s)
    (date_mode s) (record_format s) (record_length s) (security_type s) (write_mode s)).
Definition aftp_set_block_size (index v : Z) : A (option Z) :=
  setting index AFTP_RC_HANDLE_NOT_VALID (Some AFTP_RC_OK) (fun s => MkSettings (alloc_size s) v (data_type s)
    (date_mode s) (record_format s) (record_length s) (security_type s) (write_mode s)).
Definition aftp_set_data_type (index v : Z) : A (option Z) :=
  setting index AFTP_RC_FAIL_FATAL (Some AFTP_RC_OK) (fun s => MkSettings (alloc_size s) (block_size s) v
    (date_mode s) (record_format s) (record_length s) (security_type s) (write_mode s)).
Definition aftp_set_date_mode (index v : Z) : A (option Z) :=
  setting index AFTP_RC_FAIL_FATAL (Some AFTP_RC_OK) (fun s => MkSettings (alloc_size s) (block_size s) (data_type s)
    v (record_format s) (record_length s) (security_type s) (write_mode s)).
Definition aftp_set_record_format (index v : Z) : A (option Z) :=
  setting index AFTP_RC_HANDLE_NOT_VALID (Some AFTP_RC_OK) (fun s => MkSettings (alloc_size s) (block_size s) (data_type s)
    (date_mode s) v (record_length s) (security_type s) (write_mode s)).
Definition aftp_set_record_length (index v : Z) : A (option Z) :=
  setting index AFTP_RC_HANDLE_NOT_VALID (Some AFTP_RC_OK) (fun s => MkSettings (alloc_size s) (block_size s) (data_type s)
    (date_mode s) (record_format s) v (security_type s) (write_mode s)).
(** The last two assign [*rc] only for a bad handle. *)
Definition aftp_set_security_type (index v : Z) : A (option Z) :=
  setting index AFTP_RC_HANDLE_NOT_VALID None (fun s => MkSettings (alloc_size s) (block_size s) (data_type s)
    (date_mode s) (record_format s) (record_length s) v (write_mode s)).
Definition aftp_set_write_mode (index v : Z) : A (option Z) :=
  setting index AFTP_RC_HANDLE_NOT_VALID None (fun s => MkSettings (alloc_size s) (block_size s) (data_type s)
    (date_mode s) (record_format s) (record_length s) (security_type s) v).

(** A fully qualified name has a dot; another is symbolic and blank padded.
    [memcpy] takes [length] bytes of the caller's string. *)
Definition set_dest (symbolic : Z) (m : mem) (n : names) : names :=
  MkNames symbolic m (mode_name n) (tp_name n) (password n) (userid n).

Definition memcpy_from (s : list Z) (length : Z) : option (list Z) :=
  if decide (0 <= length <= Z.of_nat (List.length s) + 1) then Some (take (Z.to_nat length) (s ++ [0])) else None.

Definition aftp_set_destination (index : Z) (dest : list Z) (length : Z) : A (option Z) :=
  guarded index AFTP_RC_HANDLE_NOT_VALID (
    if decide (46 ∈ dest) then
      if decide (length <= CM_PLN_SIZE) then
        bs ← of_opt (memcpy_from dest length);
        on_names index (fun n =>
          m ← mem_write 0 bs (destination n);
          m ← mem_write (Z.to_nat length) [0] m;
          Some (set_dest 0 m n));;
        mret (Some AFTP_RC_OK)
      else mret (Some AFTP_RC_PARAMETER_CHECK)
    else
      if decide (length <= Z.of_nat CM_SDN_SIZE) then
        bs ← of_opt (memcpy_from dest length);
        on_names index (fun n =>
          m ← mem_write 0 (replicate CM_SDN_SIZE 32) (destination n);
          m ← mem_write 0 bs m;
          m ← mem_write CM_SDN_SIZE [0] m;
          Some (set_dest 1 m n));;
        mret (Some AFTP_RC_OK)
      else mret (Some AFTP_RC_PARAMETER_CHECK)).

Definition aftp_set_trace_level (trace_level : Z) : A (option Z) :=
  modify (fun st => MkAftp (ftp_handle_counter st) (sessions st) trace_level (global_trace_file st) (files st));;
  mret (Some AFTP_RC_OK).

Definition aftp_extract_trace_level : A (Z * option Z) :=
  st ← get_st; mret (global_trace_level st, Some AFTP_RC_OK).

Definition aftp_set_trace_filename (filename : list Z) (filename_length : Z) : A (option Z) :=
  if decide (filename_length <= MAX_FILE_NAME - 1) then
    st ← get_st;
    bs ← of_opt (strncpy (filename ++ [0]) (Z.to_nat (MAX_FILE_NAME - 1)));
    m ← of_opt (mem_write 0 bs (global_trace_file st));
    put_st (MkAftp (ftp_handle_counter st) (sessions st) (global_trace_level st) m (files st));;
    mret (Some AFTP_RC_OK)
  else mret (Some AFTP_RC_PARAMETER_CHECK).

(** [length] is checked, and the whole string copied. *)
Definition set_string (index length limit : Z) (f : names -> option names) : A (option Z) :=
  guarded index AFTP_RC_HANDLE_NOT_VALID (
    if decide (length <= limit) then on_names index f;; mret (Some AFTP_RC_OK)
    else mret (Some AFTP_RC_PARAMETER_CHECK)).

Definition strcpy (s : list Z) (m : mem) : option mem := mem_write 0 (s ++ [0]) m.

Definition aftp_set_mode_name (index : Z) (s : list Z) (length : Z) : A (option Z) :=
  set_string index length AFTP_MODE_NAME_SIZE (fun n => m ← strcpy s (mode_name n);
    Some (MkNames (symbolic n) (destination n) m (tp_name n) (password n) (userid n))).
Definition aftp_set_password (index : Z) (s : list Z) (length : Z) : A (option Z) :=
  set_string index length AFTP_PASSWORD_SIZE (fun n => m ← strcpy s (password n);
    Some (MkNames (symbolic n) (destination n) (mode_name n) (tp_name n) m (userid n))).
Definition aftp_set_tp_name (index : Z) (s : list Z) (length : Z) : A (option Z) :=
  set_string index length AFTP_TP_NAME_SIZE (fun n => m ← strcpy s (tp_name n);
    Some (MkNames (symbolic n) (destination n) (mode_name n) m (password n) (userid n))).
Definition aftp_set_userid (index : Z) (s : list Z) (length : Z) : A (option Z) :=
  set_string index length AFTP_USERID_SIZE (fun n => m ← strcpy s (userid n);
    Some (MkNames (symbolic n) (destination n) (mode_name n) (tp_name n) (password n) m)).

(** ** Errors *)

(** [codes] has ten characters.  [*rc] is not assigned, and the caller's size is
    not looked at. *)
Definition aftp_format_error (index detail_level : Z) (error_str_size : Z) : A (option (list Z) * option Z) :=
  ok ← valid_handle index;
  if negb ok then mret (None, Some AFTP_RC_HANDLE_NOT_VALID) else
  if decide (detail_level = AFTP_DETAIL_RC) then
    s ← the_session index;
    category ← of_opt (msg_category (ans s));
    i ← of_opt (msg_index (ans s));
    let codes := decimal category ++ decimal i in
    msg ← of_opt (mem_string (primary_msg (ans s)));
    if decide (length codes < 10)%nat then
      if decide (Z.of_nat (length (codes ++ msg)) <= error_str_size) then mret (Some (codes ++ msg), None) else undef
    else undef
  else mret (None, None).
End Aftp.

(** ** Steps of a live session

    [C r k a f] is a state whose entry [i] is a session like [s0] with the record
    [r], the conversation [k] and the answer [a]; the files are [f]. *)
Section Steps.
Context (big_endian : bool) {K F : Type} `{HC : Cpic K} `{HP : Posix F}.
Context (i : Z) (st0 : aftp K F) (s0 : ftpsession K).

Definition live_session (r : asuiterecord) (k : K) (a : answer) : ftpsession K :=
  MkFtp (nms s0) (Some k) (sys_info s0) r (sets s0) a (current_directory s0).
Definition live_state (r : asuiterecord) (k : K) (a : answer) (f : F) : aftp K F :=
  MkAftp (ftp_handle_counter st0) (<[Z.to_nat i := Live (live_session r k a)]> (sessions st0))
    (global_trace_level st0) (global_trace_file st0) f.

Abbreviation C := live_state.
Context (Hi : (Z.to_nat i < length (sessions st0))%nat).

Lemma live_lookup r k a f : sessions (C r k a f) !! Z.to_nat i = Some (Live (live_session r k a)).
Proof. cbn. by apply list_lookup_insert_eq. Qed.

Lemma the_session_bind {X} (g : ftpsession K -> M (aftp K F) X) r k a f :
  (the_session i ≫= g) (C r k a f) = g (live_session r k a) (C r k a f).
Proof. unfold the_session. by rewrite M_bind_assoc, get_st_bind, live_lookup, M_ret_bind. Qed.

Lemma guarded_live bad body r k a f : guarded i bad body (C r k a f) = body (C r k a f).
Proof. unfold guarded, valid_handle. by rewrite M_bind_assoc, get_st_bind, live_lookup, M_ret_bind. Qed.

Lemma client_rec_Ret {X} (m : R X) r k a f x r' : m (Some r) = Ret x (Some r') ->
  on_rec i m (C r k a f) = Ret x (C r' k a f).
Proof.
  intros E. unfold on_rec. rewrite the_session_bind. erewrite zoom_Ret by exact E.
  unfold put_slot. cbn. by rewrite list_insert_insert_eq.
Qed.

Lemma client_msg_Ret {X} (m : M (option asuiterecord * K) X) r k a f x r' k' : m (Some r, k) = Ret x (Some r', k') ->
  on_msg i m (C r k a f) = Ret x (C r' k' a f).
Proof.
  intros E. unfold on_msg. rewrite the_session_bind. cbn [conversation_ID live_session]. rewrite of_opt_Some_bind.
  erewrite zoom_Ret by exact E. unfold put_slot. cbn. by rewrite list_insert_insert_eq.
Qed.

Lemma on_answer_Ret g r k a f a' : g a = Some a' -> on_answer i g (C r k a f) = Ret tt (C r k a' f).
Proof.
  intros E. unfold on_answer. rewrite the_session_bind. cbn [ans live_session]. rewrite E, of_opt_Some_bind.
  unfold set_session, modify, put_slot. cbn. by rewrite list_insert_insert_eq.
Qed.

Lemma client_files_Ret {X} (g : F -> X * F) r k a f x f' : g f = (x, f') -> on_files g (C r k a f) = Ret x (C r k a f').
Proof. intros E. unfold on_files. cbn. by rewrite E. Qed.

Lemma received_len_live r k a f : received_len i (C r k a f) = Ret (position r) (C r k a f).
Proof. by apply client_rec_Ret. Qed.

(** One parameter of an answer. *)
Lemma response_step {X} bound (handle : Z -> Z -> X -> M (aftp K F) X) fuel pre key d post x r k a f :
  rep r (pre ++ (Some <$> param_bytes big_endian (key, d)) ++ post) ->
  let next := Z.of_nat (length pre + length d + 3) in
  response_params big_endian i bound handle (S fuel) (Z.of_nat (length pre)) x (C r k a f) =
    (x ← handle key (Z.of_nat (length pre)) x;
     if decide (next < bound) then response_params big_endian i bound handle fuel next x else mret x) (C r k a f).
Proof.
  intros Hr next. destruct (param_rep _ _ _ _ _ _ Hr) as (E1 & E2 & _). cbn [response_params].
  rewrite (M_bind_Ret _ _ _ _ _ (client_rec_Ret _ _ k a f _ _ E1)), (M_bind_Ret _ _ _ _ _ (client_rec_Ret _ _ k a f _ _ E2)).
  assert (u32 (Z.of_nat (length pre) + (Z.of_nat (length d) + 3)) = next) as ->; [|done].
  destruct Hr as (_ & Hm & _). rewrite !length_app, !length_fmap, length_param in Hm. unfold MAX_BUFFER_SIZE in Hm. cbn [snd] in Hm.
  unfold u32, next. rewrite Z.mod_small; lia.
Qed.
End Steps.

(** Any live and connected session is of this form. *)
Lemma live_state_intro {K F} i (st : aftp K F) s k : sessions st !! Z.to_nat i = Some (Live s) -> conversation_ID s = Some k ->
  st = live_state i st s (record s) k (ans s) (files st) /\ (Z.to_nat i < length (sessions st))%nat.
Proof.
  intros Hs Hk. split; [|by eapply lookup_lt_Some]. unfold live_state, live_session. rewrite list_insert_id; [by destruct st|].
  rewrite Hs. do 2 f_equal. destruct s. cbn in *. by subst.
Qed.
