(* ===== verification/Aftpd.v ===== *)
(** * asuite/aftpd.c: the file transfer server

    The state is the server's global variables, the conversation and the files.
    [g_basename] and [g_dirname] are glib's; the time, the names of users and
    groups and the formatting of dates come from the system.  [oom] says that a
    new record cannot be allocated, [nomem] that a string cannot. *)
From S2P Require Import Prelude Wildcard Filemode Cpic AsuiteRecord Posix Aftp.

Definition A_ERR_UNKNOWN_PARAMETER := 128.
Definition A_ERR_OUT_OF_MEMORY := 136.
Definition A_ERR_ACTION_NOT_PERFORMED := 601.
Definition A_ERR_FILE_NOT_FOUND := 602.
Definition A_ERR_ACCESS_DENIED := 603.
Definition A_ERR_FILE_EXISTS := 606.
Definition A_ERR_INVALID_PATH := 607.
Definition A_ERR_CROSS_DEVICES := 612.
Definition A_ERR_NO_FILES_FOUND := 614.
Definition MAX_FQPLU_NAME : nat := 17 + 1.

Record aftpd {K F : Type} : Type := MkAftpd {
  rec : option asuiterecord;
  conv : K;
  curpos : Z;
  returned_length : Z;
  dest_file : Z;
  fs : F
}.
Arguments aftpd : clear implicits.
Arguments MkAftpd {K F} _ _ _ _ _ _.

(** [strlen] and [strncpy] of the string in the record at [i]. *)
Fixpoint peek_string (fuel : nat) (i : Z) : R (list Z) :=
  match fuel with
  | O => undef
  | Datatypes.S fuel =>
      c ← peek i;
      if decide (c = 0) then mret [] else rest ← peek_string fuel (i + 1); mret (c :: rest)
  end.

Definition major (dev : Z) : Z := Z.land (Z.shiftr dev 8) 255.
Definition minor (dev : Z) : Z := Z.land dev 255.

(** The system outside the files. *)
Record system : Type := MkSystem {
  time : Z;
  getpwuid : Z -> option (list Z);
  getgrgid : Z -> option (list Z);
  strftime : list Z -> Z -> option (list Z);
  g_basename : list Z -> list Z;
  g_dirname : list Z -> list Z
}.

Section Aftpd.
Context (big_endian oom nomem : bool) (sys : system) {K F : Type} `{Cpic K} `{CpicServer K} `{Posix F}.

Abbreviation A := (M (aftpd K F)).

Definition on_rec {X} (m : R X) : A X :=
  zoom rec (fun r s => MkAftpd r (conv s) (curpos s) (returned_length s) (dest_file s) (fs s)) m.
Definition on_msg {X} (m : M (option asuiterecord * K) X) : A X :=
  zoom (fun s => (rec s, conv s))
    (fun rk s => MkAftpd rk.1 rk.2 (curpos s) (returned_length s) (dest_file s) (fs s)) m.
Definition on_conv {X} (m : M K X) : A X :=
  zoom conv (fun k s => MkAftpd (rec s) k (curpos s) (returned_length s) (dest_file s) (fs s)) m.
Definition verb {X} (f : K -> X * K) : A X := on_conv (fun k => let '(x, k) := f k in Ret x k).
Definition on_files {X} (f : F -> X * F) : A X := fun s =>
  let '(x, f) := f (fs s) in Ret x (MkAftpd (rec s) (conv s) (curpos s) (returned_length s) (dest_file s) f).
Definition set_curpos (p : Z) : A unit :=
  modify (fun s => MkAftpd (rec s) (conv s) p (returned_length s) (dest_file s) (fs s)).
Definition set_returned_length (n : Z) : A unit :=
  modify (fun s => MkAftpd (rec s) (conv s) (curpos s) n (dest_file s) (fs s)).
Definition set_dest_file (fd : Z) : A unit :=
  modify (fun s => MkAftpd (rec s) (conv s) (curpos s) (returned_length s) fd (fs s)).

Definition send : A Z := on_msg send_asuiterecord.
Definition respond (code category index : Z) : A unit := on_conv (send_simple_response big_endian oom code category index).

(** ** Parameters

    The loop every request runs, [do ... while (curpos < returned_length)];
    [handle] is the [switch] on the key, [None] when it returns from the
    function. *)
Fixpoint params {X} (handle : Z -> X -> A (option X)) (fuel : nat) (x : X) : A (option X) :=
  match fuel with
  | O => no_fuel
  | Datatypes.S fuel =>
      s ← get_st;
      param_len ← on_rec (get_param_len big_endian (curpos s));
      key ← on_rec (get_key (curpos s));
      x ← handle key x;
      match x with
      | None => mret None
      | Some x =>
          let p := u32 (curpos s + param_len) in
          set_curpos p;;
          if decide (p < returned_length s) then params handle fuel x else mret (Some x)
      end
  end.

(** Run the loop, and what follows it unless the function has returned; every
    turn but one on a parameter of length zero moves on. *)
Definition with_params {X} (handle : Z -> X -> A (option X)) (x : X) (k : X -> A unit) : A unit :=
  s ← get_st;
  r ← params handle (Datatypes.S (Z.to_nat (returned_length s))) x;
  match r with Some x => k x | None => mret tt end.

(** The string of the parameter, copied to the heap. *)
Definition param_string : A (list Z) :=
  s ← get_st; on_rec (peek_string (Z.to_nat MAX_BUFFER_SIZE) (curpos s + 3)).

(** The copy, or the answer when there is no memory for it. *)
Definition copied_string : A (option (list Z)) :=
  f ← param_string;
  if nomem then respond AFTP_RC_PROGRAM_INTERNAL_ERROR 0 A_ERR_OUT_OF_MEMORY;; mret None else mret (Some f).

Definition unknown_parameter {X} : A (option X) :=
  respond AFTP_RC_PROGRAM_INTERNAL_ERROR 0 A_ERR_UNKNOWN_PARAMETER;; mret None.

(** The cases of a request for one file. *)
Definition filespec_param (key : Z) (x : option (list Z)) : A (option (option (list Z))) :=
  if decide (key = AFTP_FILESPEC) then f ← copied_string; mret (Some <$> f)
  else unknown_parameter.

(** [filespec] and [newfilespec]. *)
Definition two_files : Type := option (list Z) * option (list Z).

(** The keys a transfer's request may have besides. *)
Definition transfer_keys : list Z :=
  [AFTP_WRITE_MODE; AFTP_DATE_MODE; AFTP_MOD_TIME; AFTP_RECORD_LENGTH; AFTP_RECORD_FORMAT; AFTP_BLOCK_SIZE; AFTP_ALLOCATION_SIZE].

Definition files_param (others : list Z) (key : Z) (x : two_files) : A (option two_files) :=
  if decide (key = AFTP_FILESPEC) then f ← copied_string; mret ((fun f => (Some f, x.2)) <$> f)
  else if decide (key = AFTP_NEW_FILESPEC) then f ← copied_string; mret ((fun f => (x.1, Some f)) <$> f)
  else if decide (key ∈ others) then mret (Some x)
  else unknown_parameter.

(** The answer to an operation on files. *)
Definition answer_errno (errorcode : Z -> Z) (err : option Z) : A unit :=
  match err with
  | Some e => respond AFTP_RC_FAIL_INPUT_ERROR 0 (errorcode e)
  | None => respond AFTP_RC_OK 0 0
  end.

(** ** Requests *)

Definition a_tower_request : A unit :=
  on_rec (asuiterecord_clear;;
    asuiterecord_settype big_endian AFTP_TOWER_RESPONSE;;
    asuiterecord_append_twobyte big_endian AFTP_TOWER_LIST []);;
  send;; mret tt.

Definition system_string : list Z := str "AFTPD version 0.01 for Linux-SNA" ++ [10].

Definition a_query_system : A unit :=
  on_rec (asuiterecord_clear;;
    asuiterecord_settype big_endian AFTP_SIMPLE_RESPONSE;;
    asuiterecord_append_char big_endian AFTP_STATUS_RETURN_CODE 0;;
    asuiterecord_append big_endian AFTP_SYSTEM_INFO (system_string ++ [0]) (Z.of_nat (length system_string) + 1));;
  send;; mret tt.

Definition current_dir : A (option (list Z)) :=
  s ← get_st;
  match safe_get_cwd 2 (cwd (fs s)) with None => no_fuel | Some d => mret d end.

Definition a_query_dir : A unit :=
  curdir ← current_dir;
  match curdir with
  | Some d =>
      on_rec (asuiterecord_clear;;
        asuiterecord_settype big_endian AFTP_SIMPLE_RESPONSE;;
        asuiterecord_append_char big_endian AFTP_STATUS_RETURN_CODE AFTP_RC_OK;;
        asuiterecord_append big_endian AFTP_FILESPEC (d ++ [0]) (Z.of_nat (length d) + 1));;
      send;; mret tt
  | None => respond AFTP_RC_PROGRAM_INTERNAL_ERROR 0 A_ERR_OUT_OF_MEMORY
  end.

(** The line of [ls -l] for a file, without its name.  A date formatted to
    nothing is formatted again for ever. *)
Definition get_long_format (f : stat) : option (list Z) :=
  let when := st_ctime f in
  let fmt := if decide (time sys > when + 15552000 \/ time sys < when - 3600) then str "%b %e  %Y" else str "%b %e %H:%M" in
  let user := match getpwuid sys (st_uid f) with
    | Some n => pad_right 8 (take 8 n)
    | None => pad_right 8 (decimal (st_uid f))
    end in
  let group := match getgrgid sys (st_gid f) with
    | Some n => pad_right 8 (take 8 n)
    | None => pad_right 8 (decimal (st_gid f))
    end in
  let size := if is_type S_IFCHR (st_mode f) || is_type S_IFBLK (st_mode f)
    then pad_left 3 (decimal (major (st_rdev f))) ++ str ", " ++ pad_left 3 (decimal (minor (st_rdev f))) ++ str " "
    else pad_left 12 (decimal (st_size f)) ++ str " " in
  let line := mode_string (u16 (st_mode f)) ++ str " " ++ pad_left 3 (decimal (st_nlink f)) ++ str " " ++
    user ++ str " " ++ group ++ str " " ++ size in
  match strftime sys fmt when with
  | None => Some line
  | Some [] => None
  | Some date => Some (line ++ str " " ++ date ++ str " ")
  end.

(** [filespec], [filetype] and [infolevel]. *)
Definition list_param (key : Z) (x : option (list Z) * Z * option Z) : A (option (option (list Z) * Z * option Z)) :=
  let '(filespec, filetype, infolevel) := x in
  s ← get_st;
  if decide (key = AFTP_FILESPEC) then
    f ← param_string; if nomem then undef else mret (Some (Some f, filetype, infolevel))
  else if decide (key = AFTP_FILE_TYPE) then
    c ← on_rec (peek (curpos s + 3)); mret (Some (filespec, c, infolevel))
  else if decide (key = AFTP_INFO_LEVEL) then
    c ← on_rec (peek (curpos s + 3)); mret (Some (filespec, filetype, Some c))
  else mret (Some x).

Definition is_dir (f : stat) : bool := is_type S_IFDIR (st_mode f).

(** The list of names and what [lstat] stored last, [None] when the function has
    answered and returned.  A directory that cannot be read leaves the list
    unassigned. *)
Definition list_of (dir pattern : list Z) (f : stat) : A (option (list (list Z) * stat)) :=
  s ← get_st;
  r ← of_opt (get_local_file_list (readdir_all dir (fs s)) pattern);
  l ← of_opt r.2;
  mret (Some (l, f)).

Definition invalid_path {X} : A (option X) := respond AFTP_RC_FAIL_INPUT_ERROR 0 A_ERR_INVALID_PATH;; mret None.

Definition file_list (filespec directory : list Z) : A (option (list (list Z) * stat)) :=
  s ← get_st;
  match lstat_of filespec (fs s) with
  | None =>
      match lstat_of directory (fs s) with
      | None => invalid_path
      | Some d => if is_dir d then list_of directory (g_basename sys filespec) d else invalid_path
      end
  | Some f => if is_dir f then list_of filespec (str "*") f else list_of directory (g_basename sys filespec) f
  end.

(** Whether a file of the kind asked for. *)
Definition wanted (filetype : Z) (f : stat) : bool :=
  if decide (filetype = AFTP_FILE) then negb (is_dir f)
  else if decide (filetype = AFTP_DIRECTORY) then is_dir f else true.

(** The record of a name, which is empty for a file of another kind.  The name is
    looked up in the server's own directory; when that fails [filestats] is
    still that of the file before. *)
Definition list_entry (filetype infolevel : Z) (name : list Z) (filestats : stat) : A stat :=
  on_rec (asuiterecord_clear;; asuiterecord_settype big_endian AFTP_LIST_ENTRY);;
  s ← get_st;
  let filestats := default filestats (stat_of name (fs s)) in
  filestring ← (if decide (infolevel = AFTP_NATIVE_ATTRIBUTES)
    then match get_long_format filestats with Some line => mret (line ++ str " " ++ name) | None => no_fuel end
    else mret name);
  (if wanted filetype filestats
   then on_rec (asuiterecord_append big_endian AFTP_FILESPEC (filestring ++ [0]) (Z.of_nat (length filestring) + 1))
   else mret 0);;
  send;;
  mret filestats.

Fixpoint list_entries (filetype infolevel : Z) (filelist : list (list Z)) (filestats : stat) : A unit :=
  match filelist with
  | [] => mret tt
  | name :: filelist =>
      filestats ← list_entry filetype infolevel name filestats;
      list_entries filetype infolevel filelist filestats
  end.

Definition a_list_request : A unit :=
  with_params list_param (None, AFTP_ALL_FILES, None) (fun '(filespec, filetype, infolevel) =>
    filespec ← of_opt filespec;
    let dirname := g_dirname sys filespec in
    directory ← (if decide (dirname = str ".") then d ← current_dir; of_opt d else mret dirname);
    l ← file_list filespec directory;
    match l with
    | None => mret tt
    | Some ([], _) => respond AFTP_RC_FAIL_INPUT_ERROR 0 A_ERR_NO_FILES_FOUND
    | Some (filelist, filestats) =>
        on_rec (asuiterecord_clear;;
          asuiterecord_settype big_endian AFTP_SIMPLE_RESPONSE;;
          asuiterecord_append_char big_endian AFTP_STATUS_RETURN_CODE 0;;
          asuiterecord_append big_endian AFTP_FILESPEC (directory ++ [0]) (Z.of_nat (length directory) + 1));;
        send;;
        infolevel ← of_opt infolevel;
        list_entries filetype infolevel filelist filestats;;
        on_rec (asuiterecord_clear;; asuiterecord_settype big_endian AFTP_LIST_COMPLETE);;
        send;; mret tt
    end).

(** The directory is changed in the loop over the parameters. *)
Definition change_dir_param (key : Z) (x : unit) : A (option unit) :=
  if decide (key = AFTP_FILESPEC) then
    f ← param_string;
    if nomem then undef else
    err ← on_files (chdir f);
    match err with
    | Some e =>
        respond AFTP_RC_FAIL_INPUT_ERROR 0 (if decide (e = ENOENT) then A_ERR_FILE_NOT_FOUND else A_ERR_ACTION_NOT_PERFORMED);;
        mret None
    | None => mret (Some tt)
    end
  else mret (Some tt).

Definition a_change_dir : A unit :=
  with_params change_dir_param tt (fun _ =>
    on_rec (asuiterecord_clear;;
      asuiterecord_settype big_endian AFTP_SIMPLE_RESPONSE;;
      asuiterecord_append_char big_endian AFTP_STATUS_RETURN_CODE 0);;
    send;; mret tt).

(** ** Transfers *)

Definition request_file_param (key : Z) (x : two_files * Z) : A (option (two_files * Z)) :=
  if decide (key = AFTP_DATA_TYPE) then
    s ← get_st; c ← on_rec (asuiterecord_get_char (curpos s + 3)); mret (Some (x.1, c))
  else y ← files_param transfer_keys key x.1; mret ((fun y => (y, x.2)) <$> y).

(** [read] to the end of the record.  The first time the position moves by -1
    when it fails, the next times it stays. *)
Definition read_data (source_file : Z) (moves_back : bool) : A Z :=
  r ← on_rec deref;
  got ← on_files (read source_file (MAX_BUFFER_SIZE - position r));
  match got with
  | inl bs =>
      on_rec (poke_all (position r) bs;; advance (Z.of_nat (length bs)));;
      mret (Z.of_nat (length bs))
  | inr _ => (if (moves_back : bool) then on_rec (advance (-1)) else mret tt);; mret (-1)
  end.

Fixpoint send_records (source_file bytes_read : Z) (fuel : nat) : A unit :=
  match fuel with
  | O => no_fuel
  | Datatypes.S fuel =>
      if decide (0 < bytes_read) then
        ftp_rc ← send;
        if decide (ftp_rc <> AFTP_RC_OK) then c_exit 1 else
        on_rec asuiterecord_clear;;
        bytes_read ← read_data source_file false;
        send_records source_file bytes_read fuel
      else mret tt
  end.

(** The error other than these two leaves [errorcode] unassigned. *)
Definition open_error (e : Z) : option Z :=
  if decide (e = ENOENT) then Some A_ERR_FILE_NOT_FOUND
  else if decide (e = EACCES) then Some A_ERR_ACCESS_DENIED else None.

(** [fuel] bounds the data records. *)
Definition a_request_file (fuel : nat) : A unit :=
  with_params request_file_param ((None, None), AFTP_ASCII) (fun '((filespec, newfilespec), data_type) =>
    filespec ← of_opt filespec;
    opened ← on_files (open filespec O_RDONLY);
    match opened with
    | inr e => errorcode ← of_opt (open_error e); respond AFTP_RC_FAIL_INPUT_ERROR 0 errorcode
    | inl source_file =>
        let filename := g_basename sys filespec in
        on_rec (asuiterecord_clear;;
          asuiterecord_settype big_endian AFTP_SEND_FILE;;
          asuiterecord_append big_endian AFTP_FILESPEC (filename ++ [0]) (Z.of_nat (length filespec) + 1);;
          asuiterecord_append_char big_endian AFTP_DATA_TYPE data_type);;
        send;;
        on_rec (asuiterecord_clear;; asuiterecord_settype big_endian AFTP_FILE_DATA);;
        bytes_read ← read_data source_file true;
        send_records source_file bytes_read fuel;;
        on_files (close source_file);;
        on_rec (asuiterecord_clear;; asuiterecord_settype big_endian AFTP_FILE_COMPLETE);;
        ftp_rc ← send;
        if decide (ftp_rc <> AFTP_RC_OK) then c_exit 1 else
        of_opt newfilespec;; mret tt
    end).

(** The file that is opened is the [AFTP_FILESPEC]; the client's is the local
    one.  After a failure [dest_file] is negative and the client is answered. *)
Definition a_send_file : A unit :=
  with_params (files_param (AFTP_DATA_TYPE :: transfer_keys)) (None, None) (fun '(filespec, newfilespec) =>
    filespec ← of_opt filespec;
    opened ← on_files (open filespec O_CREAT_WRONLY);
    (match opened with
     | inl fd => set_dest_file fd
     | inr e =>
         set_dest_file (-1);;
         respond AFTP_RC_FAIL_INPUT_ERROR 0
           (if decide (e = EPERM \/ e = EACCES) then A_ERR_ACCESS_DENIED else A_ERR_ACTION_NOT_PERFORMED)
     end);;
    of_opt newfilespec;; mret tt).

(** [do ... while] over what [write] leaves; a turn on a record that is not
    empty moves on or answers. *)
Fixpoint file_data (fuel : nat) : A unit :=
  match fuel with
  | O => no_fuel
  | Datatypes.S fuel =>
      s ← get_st;
      r ← on_rec deref;
      if decide (position r < curpos s) then undef else
      bs ← on_rec (read_block (curpos s) (Z.to_nat (position r - curpos s)));
      wrote ← on_files (write (dest_file s) bs);
      match wrote with
      | inr _ => respond AFTP_RC_FAIL_INPUT_ERROR 0 A_ERR_ACTION_NOT_PERFORMED
      | inl bytes_written =>
          let p := u32 (curpos s + bytes_written) in
          set_curpos p;;
          if decide (p < position r) then file_data fuel else mret tt
      end
  end.

Definition a_file_data : A unit := r ← on_rec deref; file_data (Datatypes.S (Z.to_nat (position r))).

Definition a_file_complete : A unit :=
  s ← get_st;
  err ← on_files (close (dest_file s));
  answer_errno (fun _ => A_ERR_ACTION_NOT_PERFORMED) err.

(** ** Operations on files *)

Definition delete_error (e : Z) : Z :=
  if decide (e = ENOENT) then A_ERR_FILE_NOT_FOUND
  else if decide (e = EPERM \/ e = EACCES) then A_ERR_ACCESS_DENIED else A_ERR_ACTION_NOT_PERFORMED.

Definition a_delete : A unit :=
  with_params filespec_param None (fun filespec =>
    filespec ← of_opt filespec;
    err ← on_files (unlink filespec);
    answer_errno delete_error err).

Definition create_dir_error (e : Z) : Z :=
  if decide (e = EEXIST) then A_ERR_FILE_EXISTS
  else if decide (e = EACCES) then A_ERR_ACCESS_DENIED else A_ERR_ACTION_NOT_PERFORMED.

Definition a_create_dir : A unit :=
  with_params filespec_param None (fun filespec =>
    filespec ← of_opt filespec;
    err ← on_files (mkdir filespec);
    answer_errno create_dir_error err).

Definition remove_dir_error (e : Z) : Z :=
  if decide (e = EEXIST) then A_ERR_FILE_EXISTS
  else if decide (e = ENOENT) then A_ERR_FILE_NOT_FOUND
  else if decide (e = EPERM \/ e = EACCES) then A_ERR_ACCESS_DENIED else A_ERR_ACTION_NOT_PERFORMED.

Definition a_remove_dir : A unit :=
  with_params filespec_param None (fun filespec =>
    filespec ← of_opt filespec;
    err ← on_files (rmdir filespec);
    answer_errno remove_dir_error err).

Definition rename_error (e : Z) : Z :=
  if decide (e = EEXIST) then A_ERR_FILE_EXISTS
  else if decide (e = EXDEV) then A_ERR_CROSS_DEVICES
  else if decide (e = ENOENT) then A_ERR_FILE_NOT_FOUND
  else if decide (e = EPERM \/ e = EACCES) then A_ERR_ACCESS_DENIED else A_ERR_ACTION_NOT_PERFORMED.

Definition a_rename : A unit :=
  with_params (files_param []) (None, None) (fun '(filespec, newfilespec) =>
    filespec ← of_opt filespec;
    newfilespec ← of_opt newfilespec;
    err ← on_files (rename filespec newfilespec);
    answer_errno rename_error err).

(** ** The server *)

(** A record: what the [switch] on its major code does; the result is [done]. *)
Definition dispatch (fuel : nat) (major_code : Z) : A bool :=
  if decide (major_code = AFTP_TOWER_REQUEST) then a_tower_request;; mret false
  else if decide (major_code = AFTP_QUERY_SYSTEM) then a_query_system;; mret false
  else if decide (major_code = AFTP_QUERY_DIR) then a_query_dir;; mret false
  else if decide (major_code = AFTP_LIST_REQUEST) then a_list_request;; mret false
  else if decide (major_code = AFTP_CHANGE_DIR) then a_change_dir;; mret false
  else if decide (major_code = AFTP_REQUEST_FILE) then a_request_file fuel;; mret false
  else if decide (major_code = AFTP_SEND_FILE) then a_send_file;; mret false
  else if decide (major_code = AFTP_FILE_DATA) then a_file_data;; mret false
  else if decide (major_code = AFTP_FILE_COMPLETE) then a_file_complete;; mret false
  else if decide (major_code = AFTP_DELETE) then a_delete;; mret false
  else if decide (major_code = AFTP_CREATE_DIR) then a_create_dir;; mret false
  else if decide (major_code = AFTP_REMOVE_DIR) then a_remove_dir;; mret false
  else if decide (major_code = AFTP_RENAME) then a_rename;; mret false
  else mret true.

(** A turn of the loop over the records of a conversation. *)
Definition aftpd_turn (fuel : nat) : A bool :=
  rc ← on_msg (get_asuiterecord (K := K));
  if decide (rc = ASUITE_RC_OK) then
    n ← on_rec get_received_len;
    set_returned_length n;;
    major_code ← on_rec get_major_code;
    set_curpos 2;;
    dispatch fuel major_code
  else mret true.

(** [turns] bounds the records. *)
Fixpoint aftpd_session (fuel turns : nat) : A unit :=
  match turns with
  | O => no_fuel
  | Datatypes.S turns => finished ← aftpd_turn fuel; if (finished : bool) then mret tt else aftpd_session fuel turns
  end.

(** [cmepln] and [origin[returned_length] = '\0']: when the name cannot be had,
    [returned_length] is still the length of the last record.  Only the bounds
    of [origin] matter. *)
Definition extract_partner : A unit :=
  '(name, rc) ← verb cmepln;
  (if decide (rc = CM_OK) then
     if decide (length name <= MAX_FQPLU_NAME)%nat then set_returned_length (Z.of_nat (length name)) else undef
   else mret tt);;
  s ← get_st;
  if decide (0 <= returned_length s < Z.of_nat MAX_FQPLU_NAME) then mret tt else undef.

(** The loop of [main] over conversations; its result is [mainrc]. *)
Fixpoint aftpd_loop (fuel turns conversations : nat) : A Z :=
  match conversations with
  | O => no_fuel
  | Datatypes.S conversations =>
      on_rec asuiterecord_clear;;
      mainrc ← verb cmaccp;
      if decide (mainrc = CM_OK) then
        extract_partner;;
        aftpd_session fuel turns;;
        verb cmdeal;;
        aftpd_loop fuel turns conversations
      else mret mainrc
  end.

(** The globals are zero. *)
Definition aftpd_init (no_record : bool) (k : K) (f : F) : aftpd K F := MkAftpd (asuiterecord_new no_record) k 0 0 0 f.

Definition main (no_record : bool) (fuel turns conversations : nat) (k : K) (f : F) : outcome (aftpd K F) Z :=
  (aftpd_loop fuel turns conversations;; mret 0) (aftpd_init no_record k f).
End Aftpd.

(** ** Steps of the server *)
Section Steps.
Context (big_endian oom nomem : bool) {K F : Type} `{HC : Cpic K} `{HP : Posix F}.

Abbreviation V r k p n d f := (MkAftpd (Some r) k p n d f).

Lemma server_rec_Ret {X} (m : R X) r (k : K) p n d (f : F) x r' : m (Some r) = Ret x (Some r') ->
  on_rec m (V r k p n d f) = Ret x (V r' k p n d f).
Proof. intros E. unfold on_rec. by erewrite zoom_Ret by exact E. Qed.

Lemma server_msg_Ret {X} (m : M (option asuiterecord * K) X) r k p n d (f : F) x r' k' : m (Some r, k) = Ret x (Some r', k') ->
  on_msg m (V r k p n d f) = Ret x (V r' k' p n d f).
Proof. intros E. unfold on_msg. by erewrite zoom_Ret by exact E. Qed.

Lemma server_conv_Ret {X} (m : M K X) r k p n d (f : F) x k' : m k = Ret x k' ->
  on_conv m (V r k p n d f) = Ret x (V r k' p n d f).
Proof. intros E. unfold on_conv. by erewrite zoom_Ret by exact E. Qed.

Lemma server_files_Ret {X} (g : F -> X * F) r (k : K) p n d f x f' : g f = (x, f') ->
  on_files g (V r k p n d f) = Ret x (V r k p n d f').
Proof. intros E. unfold on_files. cbn. by rewrite E. Qed.

Lemma set_curpos_bind {X} q (g : unit -> M (aftpd K F) X) r k p n d f :
  (set_curpos q ≫= g) (V r k p n d f) = g tt (V r k q n d f).
Proof. done. Qed.

(** An answer of the server. *)
Lemma respond_Ret code category index r k p n d (f : F) :
  respond big_endian false code category index (V r k p n d f) =
    Ret tt (V r (cmsend (message big_endian ASUITE_STATUS_RECORD (status_params big_endian code category index)) k).2 p n d f).
Proof. apply server_conv_Ret, send_simple_response_wire. Qed.

Lemma peek_string_ok s : forall fuel r pre post, rep r (pre ++ (Some <$> s ++ [0]) ++ post) -> no_nul s -> (length s < fuel)%nat ->
  peek_string fuel (Z.of_nat (length pre)) (Some r) = Ret s (Some r).
Proof.
  induction s as [|c s IH]; intros [|fuel] r pre post Hr Hs Hf; try (cbn in Hf; lia); cbn [peek_string];
    (match type of Hr with rep _ (_ ++ (Some <$> ?l) ++ _) =>
       assert (peek (Z.of_nat (length pre)) (Some r) = Ret (default 0 (head l)) (Some r)) as E end;
     [eapply peek_rep; [exact Hr|]; by rewrite lookup_app_r, Nat.sub_diag by lia|]); rewrite (M_bind_Ret _ _ _ _ _ E).
  - done.
  - apply Forall_cons in Hs as [Hc Hs]. cbn. rewrite (decide_False (P := c = 0)) by done.
    replace (Z.of_nat (length pre) + 1) with (Z.of_nat (length (pre ++ [Some c]))) by (rewrite length_app; cbn; lia).
    rewrite (M_bind_Ret _ _ _ s (Some r)); [done|]. apply (IH fuel r _ post); [by rewrite <- app_assoc|done|cbn in Hf; lia].
Qed.

Lemma param_string_ok s key r pre post (k : K) n d (f : F) :
  rep r (pre ++ (Some <$> param_bytes big_endian (key, s ++ [0])) ++ post) -> no_nul s ->
  param_string (V r k (Z.of_nat (length pre)) n d f) = Ret s (V r k (Z.of_nat (length pre)) n d f).
Proof.
  intros Hr Hs. unfold param_string. rewrite get_st_bind. cbn [curpos]. apply server_rec_Ret.
  unfold param_bytes in Hr. cbn [fst snd] in Hr. rewrite !fmap_app in Hr.
  set (hd := Some <$> wire16 big_endian _) in Hr. assert (length hd = 2%nat) as Hh by (unfold hd; by rewrite length_fmap, length_wire16).
  replace (Z.of_nat (length pre) + 3) with (Z.of_nat (length (pre ++ hd ++ [Some key]))) by (rewrite !length_app, Hh; cbn; lia).
  apply (peek_string_ok s _ r _ post); [|done|].
  - rewrite <- !app_assoc. rewrite <- !app_assoc in Hr. rewrite fmap_app, <- !app_assoc. exact Hr.
  - destruct Hr as (_ & Hm & _). rewrite !length_app, !length_fmap in Hm. lia.
Qed.

(** The loop over the parameters of a record, for a [switch] that leaves the
    state as it is. *)
Lemma params_fold {X} (handle : Z -> X -> M (aftpd K F) (option X)) (g : param -> X -> X) ps : forall r pre fuel x k n d f,
  rep r (pre ++ (Some <$> params_bytes big_endian ps)) -> ps <> [] -> (length ps <= fuel)%nat -> n = position r ->
  (forall key dt pre post y, (key, dt) ∈ ps -> rep r (pre ++ (Some <$> param_bytes big_endian (key, dt)) ++ post) ->
    handle key y (V r k (Z.of_nat (length pre)) n d f) = Ret (Some (g (key, dt) y)) (V r k (Z.of_nat (length pre)) n d f)) ->
  params big_endian handle fuel x (V r k (Z.of_nat (length pre)) n d f) = Ret (Some (foldl (fun x p => g p x) x ps)) (V r k n n d f).
Proof.
  induction ps as [|[key dt] ps IH]; intros r pre [|fuel] x k n d f Hr Hne Hf Hn Hh; try done; [cbn in Hf; lia|].
  rewrite params_bytes_cons, fmap_app in Hr. destruct (param_rep _ _ _ _ _ _ Hr) as (E1 & E2 & _). cbn [params].
  rewrite get_st_bind. cbn [curpos returned_length].
  rewrite (M_bind_Ret _ _ _ _ _ (server_rec_Ret _ _ k _ n d f _ _ E1)), (M_bind_Ret _ _ _ _ _ (server_rec_Ret _ _ k _ n d f _ _ E2)).
  rewrite (M_bind_Ret _ _ _ _ _ (Hh key dt pre _ x ltac:(left) Hr)).
  pose proof Hr as (Hp & Hm & _). rewrite !length_app, !length_fmap, length_param in Hp, Hm. cbn [snd] in Hp, Hm. unfold MAX_BUFFER_SIZE in Hm.
  assert (u32 (Z.of_nat (length pre) + (Z.of_nat (length dt) + 3)) = Z.of_nat (length (pre ++ (Some <$> param_bytes big_endian (key, dt))))) as ->.
  { rewrite length_app, length_fmap, length_param. cbn [snd]. unfold u32. rewrite Z.mod_small; lia. }
  rewrite set_curpos_bind. rewrite app_assoc in Hr.
  assert (Z.of_nat (length (pre ++ (Some <$> param_bytes big_endian (key, dt)))) = Z.of_nat (length pre + length dt + 3)) as El.
  { rewrite length_app, length_fmap, length_param. cbn [snd]. lia. }
  destruct ps as [|q ps].
  - rewrite decide_False by (rewrite El; cbn in Hp; lia). cbn [foldl]. do 2 f_equal. cbn in Hp. rewrite El. lia.
  - rewrite decide_True by (rewrite El; rewrite params_bytes_cons, length_app, length_param in Hp; lia).
    apply (IH r _ fuel _ k n d f Hr); [done|cbn in *; lia|done|]. intros key' dt' pre' post' y Hin. apply Hh. by right.
Qed.
End Steps.
