(* ===== verification/AftpTransfer.v ===== *)
(** * Files between the client and the server

    What [aftp_send_file] sends, [a_send_file], [a_file_data] and
    [a_file_complete] store; what [a_request_file] sends, [aftp_receive_file]
    stores.  Both hosts are little-endian, as the major codes need. *)
From S2P Require Import Prelude Cpic CpicSession AsuiteRecord Posix Aftp Aftpd.

(** Strings a record can carry. *)
Definition c_string (s : list Z) : Prop := no_nul s /\ is_bytes s.

#[export] Instance c_string_dec s : Decision (c_string s).
Proof. unfold c_string. apply _. Defined.

(** ** The messages of a transfer *)

Definition data_message (chunk : list Z) : list Z := message false AFTP_FILE_DATA [] ++ chunk.

(** Pieces that fit a record. *)
Definition piece (chunk : list Z) : Prop := chunk <> [] /\ Z.of_nat (length chunk) <= 32761.

Definition file_messages (chunks : list (list Z)) : list (list Z) :=
  (data_message <$> chunks) ++ [message false AFTP_FILE_COMPLETE []].

Definition put_request (local remote : list Z) (data_type date_mode : Z) : list Z :=
  message false AFTP_SEND_FILE [(AFTP_FILESPEC, local ++ [0]); (AFTP_NEW_FILESPEC, remote ++ [0]);
    (AFTP_DATA_TYPE, [u8 data_type]); (AFTP_DATE_MODE, [u8 date_mode])].

Definition get_request (local remote : list Z) (data_type : Z) : list Z :=
  message false AFTP_REQUEST_FILE [(AFTP_FILESPEC, remote ++ [0]); (AFTP_NEW_FILESPEC, local ++ [0]);
    (AFTP_DATA_TYPE, [u8 data_type])].

Lemma length_params_cons be p ps : length (params_bytes be (p :: ps)) = (3 + length p.2 + length (params_bytes be ps))%nat.
Proof. by rewrite params_bytes_cons, length_app, length_param. Qed.

Lemma length_params_nil be : length (params_bytes be []) = 0%nat.
Proof. done. Qed.

(** Lengths of messages. *)
Ltac msg_len := rewrite ?length_message, ?length_params_cons, ?length_params_nil; cbn [fst snd]; rewrite ?length_app; cbn [length];
  unfold MAX_BUFFER_SIZE in *; try lia.

(** Constants that are bytes. *)
Ltac byte := apply (bool_decide_unpack _); vm_compute; exact I.

Lemma piece_length chunk : piece chunk -> Z.of_nat (length (data_message chunk)) <= MAX_BUFFER_SIZE.
Proof. intros [_ H]. unfold data_message. rewrite length_app. msg_len. Qed.

Lemma data_message_bytes chunk : is_bytes chunk -> is_bytes (data_message chunk).
Proof. intros H. apply Forall_app_2; [|done]. apply message_bytes_ok; [unfold AFTP_FILE_DATA; lia|constructor|msg_len]. Qed.

Lemma mjoin_bytes (chunks : list (list Z)) : is_bytes (mjoin chunks) -> Forall is_bytes chunks.
Proof. induction chunks as [|c chunks IH]; [constructor|]. cbn. intros [H1 H2]%Forall_app. constructor; [done|by apply IH]. Qed.

(** ** A piece of the file, read into a record *)
Section Piece.
Context {F : Type} `{HP : Posix F} `{HL : !PosixLaws F}.

Lemma read_piece r f fd p o c : rep r (Some <$> message false AFTP_FILE_DATA []) -> descr fd f = Some (p, o) ->
  file p f = Some c -> (o <= length c)%nat -> is_bytes c ->
  exists bs r' f', read fd (MAX_BUFFER_SIZE - position r) f = (inl bs, f') /\
    (poke_all (position r) bs;; advance (Z.of_nat (length bs))) (Some r) = Ret tt (Some r') /\
    rep r' (Some <$> data_message bs) /\ descr fd f' = Some (p, o + length bs)%nat /\ (forall q, file q f' = file q f) /\
    bs ++ drop (o + length bs) c = drop o c /\ (o + length bs <= length c)%nat /\ (bs = [] -> o = length c) /\ Z.of_nat (length bs) <= 32761.
Proof.
  intros Hr Hd Hf Ho Hc. pose proof Hr as (Hpos & _). rewrite length_fmap in Hpos. change (length (message false AFTP_FILE_DATA [])) with 2%nat in Hpos.
  destruct (read_ok fd (MAX_BUFFER_SIZE - position r) f p o c Hd Hf Ho) as (n & f' & E & Hn & Hle & Hp & Hd' & Hf').
  { rewrite Hpos. unfold MAX_BUFFER_SIZE. lia. }
  assert (length (take n (drop o c)) = n) as Hl by (rewrite length_take, length_drop; lia).
  rewrite Hpos in Hn. unfold MAX_BUFFER_SIZE in Hn.
  destruct (poke_all_advance_rep (take n (drop o c)) r _ Hr) as (r' & E' & Hr').
  { rewrite Hl, length_fmap. change (length (message false AFTP_FILE_DATA [])) with 2%nat. unfold MAX_BUFFER_SIZE. lia. }
  rewrite u8_fmap_id in Hr' by (by apply Forall_take, Forall_drop). rewrite <- fmap_app in Hr'.
  rewrite Hl in E'. exists (take n (drop o c)), r', f'. rewrite Hl. split_and!; try done; try lia.
  - rewrite <- drop_drop. apply take_drop.
  - intros Hnil. rewrite Hnil in Hl. cbn in Hl. destruct (decide (o < length c)%nat); lia.
Qed.
End Piece.

Lemma clear_data r bs : rep r (Some <$> data_message bs) -> exists r',
  asuiterecord_clear (Some r) = Ret tt (Some r') /\ rep r' (Some <$> message false AFTP_FILE_DATA []).
Proof.
  intros (Hp & Hm & Hb). eexists. split; [done|]. split_and!; cbn.
  - done.
  - unfold MAX_BUFFER_SIZE. lia.
  - intros j x Hj. apply Hb. unfold data_message. rewrite fmap_app. by apply lookup_app_l_Some.
Qed.

(** The type of the last record; the bytes after it are cleared. *)
Lemma complete_record r : rep r (Some <$> message false AFTP_FILE_DATA []) -> exists r',
  (asuiterecord_settype false AFTP_FILE_COMPLETE;; asuiterecord_clear) (Some r) = Ret tt (Some r') /\
  rep r' (Some <$> message false AFTP_FILE_COMPLETE []).
Proof.
  intros Hr. destruct (settype_rep false r _ _ _ AFTP_FILE_COMPLETE Hr) as (r' & E & Hr'). rewrite (M_bind_Ret _ _ _ _ _ E).
  destruct Hr' as (Hp & Hm & Hb). eexists. split; [done|]. split_and!; cbn; [done|unfold MAX_BUFFER_SIZE; lia|exact Hb].
Qed.

(** ** The client sends *)
Section ClientPut.
Context {K F : Type} `{HC : Cpic K} `{HD : !Delivers K} `{HP : Posix F} `{HL : !PosixLaws F}.
Context (i : Z) (st0 : aftp K F) (s0 : ftpsession K) (Hi : (Z.to_nat i < length (sessions st0))%nat).

Abbreviation C := (live_state i st0 s0).

Lemma client_read_data r k a f fd p o c : rep r (Some <$> message false AFTP_FILE_DATA []) -> descr fd f = Some (p, o) ->
  file p f = Some c -> (o <= length c)%nat -> is_bytes c ->
  exists bs r' f', Aftp.read_data i fd (C r k a f) = Ret (Z.of_nat (length bs)) (C r' k a f') /\
    rep r' (Some <$> data_message bs) /\ descr fd f' = Some (p, o + length bs)%nat /\ (forall q, file q f' = file q f) /\
    bs ++ drop (o + length bs) c = drop o c /\ (o + length bs <= length c)%nat /\ (bs = [] -> o = length c) /\ Z.of_nat (length bs) <= 32761.
Proof.
  intros Hr Hd Hf Ho Hc. destruct (read_piece r f fd p o c Hr Hd Hf Ho Hc) as (bs & r' & f' & E & E' & H).
  exists bs, r', f'. split; [|exact H]. unfold Aftp.read_data.
  rewrite (M_bind_Ret _ _ _ _ _ (client_rec_Ret i st0 s0 Hi deref r k a f r r eq_refl)).
  rewrite (M_bind_Ret _ _ _ _ _ (client_files_Ret i st0 s0 _ r k a f _ _ E)). cbv beta iota.
  by rewrite (M_bind_Ret _ _ _ _ _ (client_rec_Ret i st0 s0 Hi _ r k a f' _ _ E')).
Qed.

Lemma client_send_records fuel : forall r k a f fd p o c bs, rep r (Some <$> data_message bs) -> descr fd f = Some (p, o) ->
  file p f = Some c -> (o <= length c)%nat -> is_bytes c -> (bs = [] -> o = length c) -> Z.of_nat (length bs) <= 32761 ->
  (length bs + (length c - o) < fuel)%nat ->
  exists chunks r' k' f', Aftp.send_records i fd (Z.of_nat (length bs)) fuel (C r k a f) = Ret AFTP_RC_OK (C r' k' a f') /\
    outbox k' = outbox k ++ (data_message <$> chunks) /\ inbox k' = inbox k /\ mjoin chunks = bs ++ drop o c /\
    Forall piece chunks /\ rep r' (Some <$> message false AFTP_FILE_DATA []) /\ descr fd f' = Some (p, length c) /\
    forall q, file q f' = file q f.
Proof.
  induction fuel as [|fuel IH]; intros r k a f fd p o c bs Hr Hd Hf Ho Hc Hnil Hl Hfuel; [lia|]. cbn [Aftp.send_records].
  destruct bs as [|b bs].
  { rewrite decide_False by (cbn; lia). exists [], r, k, f. rewrite (Hnil eq_refl) in *. rewrite drop_all.
    unfold data_message in Hr. rewrite app_nil_r in Hr. cbn [fmap list_fmap]. rewrite app_nil_r. by split_and!. }
  rewrite decide_True by (cbn; lia). destruct (send_delivers r _ k Hr) as (k1 & E1 & Hout & Hin).
  rewrite (M_bind_Ret _ _ _ _ _ (client_msg_Ret i st0 s0 Hi _ r k a f _ _ _ E1)). rewrite (decide_False (P := ASUITE_RC_OK <> AFTP_RC_OK)) by (by intros []).
  destruct (clear_data _ _ Hr) as (r2 & E2 & H2). rewrite (M_bind_Ret _ _ _ _ _ (client_rec_Ret i st0 s0 Hi _ r k1 a f _ _ E2)).
  destruct (client_read_data r2 k1 a f fd p o c H2 Hd Hf Ho Hc) as (bs' & r3 & f3 & E3 & H3 & Hd3 & Hf3 & Hsplit & Ho3 & Hnil3 & Hl3).
  rewrite (M_bind_Ret _ _ _ _ _ E3). assert (file p f3 = Some c) as Hfp by (by rewrite Hf3).
  assert (bs' = [] -> o + length bs' = length c)%nat as Hnil' by (intros ->; cbn; rewrite Nat.add_0_r; by apply Hnil3).
  destruct (IH r3 k1 a f3 fd p (o + length bs')%nat c bs' H3 Hd3 Hfp Ho3 Hc Hnil' Hl3) as (chunks & r' & k' & f' & E & Hout' & Hin' & Hj & Hpc & Hr' & Hd' & Hf').
  { cbn [length] in Hfuel. lia. }
  exists ((b :: bs) :: chunks), r', k', f'. split_and!; try done.
  - rewrite Hout', Hout. cbn. by rewrite <- app_assoc.
  - by rewrite Hin', Hin.
  - change (mjoin ((b :: bs) :: chunks)) with ((b :: bs) ++ mjoin chunks). by rewrite Hj, Hsplit.
  - by constructor.
  - intros q. by rewrite Hf', Hf3.
Qed.

(** An answer whose parameters are passed over. *)
Lemma ignore_params ps : forall r pre fuel k a f bound, rep r (pre ++ (Some <$> params_bytes false ps)) -> ps <> [] ->
  bound = position r -> (length ps <= fuel)%nat ->
  response_params false i bound ignore_param fuel (Z.of_nat (length pre)) tt (C r k a f) = Ret tt (C r k a f).
Proof.
  induction ps as [|[key d] ps IH]; intros r pre fuel k a f bound Hr Hne Hb Hfuel; [done|].
  destruct fuel as [|fuel]; [cbn in Hfuel; lia|]. rewrite params_bytes_cons, fmap_app in Hr.
  rewrite (response_step false i st0 s0 Hi bound _ fuel pre key d _ tt r k a f Hr). rewrite (M_bind_Ret _ _ _ tt (C r k a f)) by done.
  pose proof Hr as (Hp & _). rewrite !length_app, !length_fmap, length_param in Hp. cbn [snd] in Hp.
  rewrite app_assoc in Hr. destruct ps as [|q ps].
  - rewrite decide_False; [done|]. cbn in Hp. lia.
  - rewrite decide_True by (rewrite params_bytes_cons, length_app, length_param in Hp; lia).
    replace (Z.of_nat (length pre + length d + 3)) with (Z.of_nat (length (pre ++ (Some <$> param_bytes false (key, d))))).
    2:{ rewrite length_app, length_fmap, length_param. cbn [snd]. lia. }
    apply IH; [done|done|done|cbn in *; lia].
Qed.

(** An answer: a message the client can take. *)
Definition answer_ok (t : Z) (ps : list param) : Prop :=
  0 <= t < 256 /\ ps <> [] /\ Forall (fun p => is_byte p.1 /\ is_bytes p.2) ps /\ Z.of_nat (length (message false t ps)) <= MAX_BUFFER_SIZE.

Lemma answer_received t ps rest r k : answer_ok t ps -> inbox k = message false t ps :: rest ->
  exists r' k', get_asuiterecord (Some r, k) = Ret ASUITE_RC_OK (Some r', k') /\ rep r' (Some <$> message false t ps) /\
    outbox k' = outbox k /\ inbox k' = rest.
Proof.
  intros (Ht & _ & Hb & Hl) Hin.
  destruct (get_delivers r k _ _ Hin (message_bytes_ok false t ps ltac:(lia) Hb Hl) Hl) as (r' & k' & E & Hr & Ho & Hi' & _).
  by exists r', k'.
Qed.

Lemma client_ignores t ps r k a f : answer_ok t ps -> rep r (Some <$> message false t ps) ->
  (receive_length ← received_len i; response false i receive_length AFTP_SIMPLE_RESPONSE ignore_param tt) (C r k a f) = Ret tt (C r k a f).
Proof.
  intros (Ht & Hne & _ & _) Hr. rewrite (M_bind_Ret _ _ _ _ _ (received_len_live i st0 s0 Hi r k a f)). unfold response.
  assert (get_major_code (Some r) = Ret t (Some r)) as Em.
  { apply (get_major_code_rep r t ps []); [done|]. by rewrite app_nil_r. }
  rewrite (M_bind_Ret _ _ _ _ _ (client_rec_Ret i st0 s0 Hi _ r k a f _ _ Em)). case_decide; [|done].
  unfold message in Hr. rewrite fmap_app in Hr. pose proof (length_wire16 false (u16 t)) as Hw.
  change 2 with (Z.of_nat 2). rewrite <- Hw, <- (length_fmap Some). apply (ignore_params ps); [done|done|done|].
  destruct Hr as (-> & _). rewrite length_app, !length_fmap. pose proof (params_length false ps). lia.
Qed.

(** The request, for settings that add nothing to it. *)
Definition plain (s : settings) : Prop := alloc_size s <= 0 /\ block_size s <= 0 /\ record_length s <= 0.

Lemma put_record r local remote : c_string local -> c_string remote -> Z.of_nat (length local + length remote) <= 32000 -> plain (sets s0) ->
  exists r', (asuiterecord_clear;;
          asuiterecord_settype false AFTP_SEND_FILE;;
          asuiterecord_append false AFTP_FILESPEC (local ++ [0]) (Z.of_nat (length local) + 1);;
          asuiterecord_append false AFTP_NEW_FILESPEC (remote ++ [0]) (Z.of_nat (length remote) + 1);;
          asuiterecord_append_char false AFTP_DATA_TYPE (data_type (sets s0));;
          (if decide (0 < alloc_size (sets s0))
           then asuiterecord_append_fourbyte false AFTP_ALLOCATION_SIZE (alloc_size (sets s0)) else mret 0);;
          append_count AFTP_BLOCK_SIZE (block_size (sets s0));;
          append_count AFTP_RECORD_LENGTH (record_length (sets s0));;
          asuiterecord_append_char false AFTP_DATE_MODE (date_mode (sets s0))) (Some r) = Ret 0 (Some r') /\
    rep r' (Some <$> put_request local remote (data_type (sets s0)) (date_mode (sets s0))).
Proof.
  intros [Hn1 Hb1] [Hn2 Hb2] Hl (Ha & Hblk & Hrec).
  destruct (start_message false AFTP_SEND_FILE r) as (r1 & E1 & H1).
  destruct (append_string false r1 _ [] AFTP_FILESPEC local (Z.of_nat (length local) + 1) H1) as (r2 & E2 & H2); [byte|done..|msg_len|].
  destruct (append_string false r2 _ _ AFTP_NEW_FILESPEC remote (Z.of_nat (length remote) + 1) H2) as (r3 & E3 & H3); [byte|done..|cbn [app]; msg_len|].
  destruct (append_char false r3 _ _ AFTP_DATA_TYPE (data_type (sets s0)) H3) as (r4 & E4 & H4); [byte|cbn [app]; msg_len|].
  destruct (append_char false r4 _ _ AFTP_DATE_MODE (date_mode (sets s0)) H4) as (r5 & E5 & H5); [byte|cbn [app]; msg_len|].
  exists r5. rewrite <- M_bind_assoc, (M_bind_Ret _ _ _ _ _ E1), (M_bind_Ret _ _ _ _ _ E2), (M_bind_Ret _ _ _ _ _ E3), (M_bind_Ret _ _ _ _ _ E4).
  rewrite (decide_False (P := 0 < alloc_size (sets s0))) by lia. unfold append_count. rewrite !decide_False by lia.
  by split.
Qed.

Lemma client_put r k a f local remote fd c f1 t ps rest fuel :
  open local O_RDONLY f = (inl fd, f1) -> file local f = Some c -> is_bytes c -> c_string local -> c_string remote ->
  Z.of_nat (length local + length remote) <= 32000 -> plain (sets s0) ->
  answer_ok t ps -> inbox k = message false t ps :: rest -> (length c < fuel)%nat ->
  exists chunks r' k' f',
    aftp_send_file false i local (Z.of_nat (length local)) remote (Z.of_nat (length remote)) fuel (C r k a f) =
      Ret (Some AFTP_RC_OK) (C r' k' a f') /\
    outbox k' = outbox k ++ put_request local remote (data_type (sets s0)) (date_mode (sets s0)) :: file_messages chunks /\
    inbox k' = rest /\ mjoin chunks = c /\ Forall piece chunks /\ forall q, file q f' = file q f.
Proof.
  intros Ho Hf Hc Hl Hr Hlen Hpl Ha Hin Hfuel. unfold aftp_send_file. rewrite (guarded_live i st0 s0 Hi).
  rewrite (M_bind_Ret _ _ _ _ _ (client_files_Ret i st0 s0 _ r k a f _ _ Ho)). cbv beta iota. rewrite (the_session_bind i st0 s0 Hi). cbn [sets live_session].
  destruct (open_read_ok _ _ _ _ Ho) as (_ & Hd & Hf1).
  destruct (put_record r local remote Hl Hr Hlen Hpl) as (r1 & E1 & H1).
  rewrite (M_bind_Ret _ _ _ _ _ (client_rec_Ret i st0 s0 Hi _ r k a f1 _ _ E1)).
  destruct (send_delivers r1 _ k H1) as (k1 & E2 & Hout1 & Hin1).
  rewrite (M_bind_Ret _ _ _ _ _ (client_msg_Ret i st0 s0 Hi _ r1 k a f1 _ _ _ E2)). rewrite !(decide_False (P := ASUITE_RC_OK <> AFTP_RC_OK)) by (by intros []).
  destruct (start_message false AFTP_FILE_DATA r1) as (r2 & E3 & H2).
  rewrite (M_bind_Ret _ _ _ _ _ (client_rec_Ret i st0 s0 Hi _ r1 k1 a f1 _ _ E3)).
  assert (file local f1 = Some c) as Hf1' by (by rewrite Hf1).
  destruct (client_read_data r2 k1 a f1 fd local 0 c H2 Hd Hf1' ltac:(lia) Hc) as (bs & r3 & f3 & E4 & H3 & Hd3 & Hf3 & Hsplit & Ho3 & Hnil & Hl3).
  rewrite (M_bind_Ret _ _ _ _ _ E4). assert (file local f3 = Some c) as Hf3' by (by rewrite Hf3).
  destruct (client_send_records fuel r3 k1 a f3 fd local (0 + length bs) c bs H3 Hd3 Hf3' Ho3 Hc) as (chunks & r4 & k4 & f4 & E5 & Hout4 & Hin4 & Hj & Hp & H4 & Hd4 & Hf4).
  { intros ->. cbn. by apply Hnil. } { done. } { lia. }
  rewrite (M_bind_Ret _ _ _ _ _ E5). rewrite (decide_False (P := AFTP_RC_OK <> AFTP_RC_OK)) by (by intros []).
  destruct (close_ok _ _ _ Hd4) as (f5 & E6 & Hf5). rewrite (M_bind_Ret _ _ _ _ _ (client_files_Ret i st0 s0 _ r4 k4 a f4 _ _ E6)).
  destruct (complete_record r4 H4) as (r5 & E7 & H5).
  rewrite (M_bind_Ret _ _ _ _ _ (client_rec_Ret i st0 s0 Hi _ r4 k4 a f5 _ _ E7)).
  unfold exchange. rewrite M_bind_assoc. destruct (send_delivers r5 _ k4 H5) as (k5 & E8 & Hout5 & Hin5).
  rewrite (M_bind_Ret _ _ _ _ _ (client_msg_Ret i st0 s0 Hi _ r5 k4 a f5 _ _ _ E8)). rewrite (decide_False (P := ASUITE_RC_OK <> AFTP_RC_OK)) by (by intros []).
  assert (inbox k5 = message false t ps :: rest) as Hin5' by (by rewrite Hin5, Hin4, Hin1).
  destruct (answer_received t ps rest r5 k5 Ha Hin5') as (r6 & k6 & E9 & H6 & Hout6 & Hin6).
  rewrite (M_bind_Ret _ _ _ _ _ (client_msg_Ret i st0 s0 Hi _ r5 k5 a f5 _ _ _ E9)). rewrite (decide_False (P := ASUITE_RC_OK <> AFTP_RC_OK)) by (by intros []).
  rewrite <- M_bind_assoc, (M_bind_Ret _ _ _ _ _ (client_ignores t ps r6 k6 a f5 Ha H6)).
  exists chunks, r6, k6, f5. split_and!; [done| |done| |done|].
  - rewrite Hout6, Hout5, Hout4, Hout1. unfold file_messages. rewrite <- !app_assoc. done.
  - rewrite Hj. exact Hsplit.
  - intros q. by rewrite Hf5, Hf4, Hf3, Hf1.
Qed.
End ClientPut.

(** ** The server receives *)
Section Server.
Context {K F : Type} `{HC : Cpic K} `{HD : !Delivers K} `{HP : Posix F}.
Context (sys : system).

Abbreviation V r k p n d f := (MkAftpd (Some r) k p n d f).
Abbreviation turn := (aftpd_turn false false false sys).

(** A record that arrives is given to its request's function. *)
Lemma turn_dispatch t m ms fuel r k p n d (f : F) : inbox k = m :: ms -> is_bytes m -> Z.of_nat (length m) <= MAX_BUFFER_SIZE -> m !! 1%nat = Some t ->
  exists r' k', turn fuel (V r k p n d f) = dispatch false false false sys fuel t (V r' k' 2 (Z.of_nat (length m)) d f) /\
    rep r' (Some <$> m) /\ outbox k' = outbox k /\ inbox k' = ms.
Proof.
  intros Hin Hb Hl Ht. destruct (get_delivers r k m ms Hin Hb Hl) as (r' & k' & E & Hr & Ho & Hi & _).
  exists r', k'. split; [|done]. unfold aftpd_turn. rewrite (M_bind_Ret _ _ _ _ _ (server_msg_Ret _ r k p n d f _ _ _ E)).
  rewrite (decide_True (P := ASUITE_RC_OK = ASUITE_RC_OK)) by done.
  rewrite (M_bind_Ret _ _ _ _ _ (server_rec_Ret get_received_len r' k' p n d f (position r') r' eq_refl)).
  rewrite (M_bind_Ret _ _ _ tt (V r' k' p (position r') d f)) by done.
  assert (get_major_code (Some r') = Ret t (Some r')) as Em.
  { unfold get_major_code. change 1 with (Z.of_nat 1). eapply peek_rep; [exact Hr|]. by rewrite list_lookup_fmap, Ht. }
  rewrite (M_bind_Ret _ _ _ _ _ (server_rec_Ret _ r' k' p _ d f _ _ Em)). rewrite set_curpos_bind.
  destruct Hr as (-> & _). by rewrite length_fmap.
Qed.

Lemma message_major t ps post : 0 <= t < 256 -> (message false t ps ++ post) !! 1%nat = Some t.
Proof. intros Ht. unfold message, u16. rewrite (Z.mod_small t 65536) by lia. cbn. f_equal. apply Z.mod_small. lia. Qed.

(** The names of a transfer's request. *)
Definition files_step (p : param) (x : two_files) : two_files :=
  if decide (p.1 = AFTP_FILESPEC) then (Some (c_str p.2), x.2)
  else if decide (p.1 = AFTP_NEW_FILESPEC) then (x.1, Some (c_str p.2)) else x.

Lemma copied_string_ok s key r pre post k n d (f : F) :
  rep r (pre ++ (Some <$> param_bytes false (key, s ++ [0])) ++ post) -> no_nul s ->
  copied_string (K := K) false false false (V r k (Z.of_nat (length pre)) n d f) = Ret (Some s) (V r k (Z.of_nat (length pre)) n d f).
Proof. intros Hr Hs. unfold copied_string. by rewrite (M_bind_Ret _ _ _ _ _ (param_string_ok false s key r pre post k n d f Hr Hs)). Qed.

(** A parameter with a name, or one of the others. *)
Definition file_param (others : list Z) (p : param) : Prop :=
  (p.1 = AFTP_FILESPEC \/ p.1 = AFTP_NEW_FILESPEC) /\ (exists s, p.2 = s ++ [0] /\ no_nul s) \/
  p.1 <> AFTP_FILESPEC /\ p.1 <> AFTP_NEW_FILESPEC /\ p.1 ∈ others.

Lemma files_param_ok others key dt r pre post y k n d (f : F) : file_param others (key, dt) ->
  rep r (pre ++ (Some <$> param_bytes false (key, dt)) ++ post) ->
  files_param (K := K) false false false others key y (V r k (Z.of_nat (length pre)) n d f) =
    Ret (Some (files_step (key, dt) y)) (V r k (Z.of_nat (length pre)) n d f).
Proof.
  unfold file_param, files_param, files_step. cbn [fst snd]. intros Hp Hr.
  destruct (decide (key = AFTP_FILESPEC)) as [E1|E1]; [|destruct (decide (key = AFTP_NEW_FILESPEC)) as [E2|E2]].
  3:{ destruct Hp as [[[?|?] _]|(_ & _ & Hk)]; [done..|]. by rewrite decide_True. }
  all: destruct Hp as [[_ (s & -> & Hs)]|(? & ? & _)]; [|done];
    rewrite (M_bind_Ret _ _ _ _ _ (copied_string_ok s key r pre post k n d f Hr Hs)); by rewrite c_str_string.
Qed.

(** Reading the parameters of a request. *)
Lemma with_message {X} (handle : Z -> X -> M (aftpd K F) (option X)) (g : param -> X -> X) ps x (cont : X -> M (aftpd K F) unit) t r k d f :
  let n := Z.of_nat (length (message false t ps)) in
  rep r (Some <$> message false t ps) -> ps <> [] ->
  (forall key dt pre post y, (key, dt) ∈ ps -> rep r (pre ++ (Some <$> param_bytes false (key, dt)) ++ post) ->
    handle key y (V r k (Z.of_nat (length pre)) n d f) = Ret (Some (g (key, dt) y)) (V r k (Z.of_nat (length pre)) n d f)) ->
  with_params false handle x cont (V r k 2 n d f) = cont (foldl (fun x p => g p x) x ps) (V r k n n d f).
Proof.
  intros n Hr Hne Hh. unfold with_params. rewrite get_st_bind. cbn [returned_length]. pose proof Hr as (Hpos & _). rewrite length_fmap in Hpos.
  pose proof Hr as Hr'. unfold message in Hr'. rewrite fmap_app in Hr'. pose proof (length_wire16 false (u16 t)) as Hw.
  rewrite <- (length_fmap Some) in Hw.
  rewrite (M_bind_Ret _ _ _ (Some (foldl (fun x p => g p x) x ps)) (V r k n n d f)); [done|].
  change 2 with (Z.of_nat 2). rewrite <- Hw. apply params_fold; [done|done| |done|exact Hh].
  unfold n. rewrite length_message. pose proof (params_length false ps). lia.
Qed.

Lemma with_files others ps (cont : two_files -> M (aftpd K F) unit) t r k d f :
  rep r (Some <$> message false t ps) -> ps <> [] -> Forall (file_param others) ps ->
  with_params false (files_param false false false others) (None, None) cont (V r k 2 (Z.of_nat (length (message false t ps))) d f) =
    cont (foldl (fun x p => files_step p x) (None, None) ps)
      (V r k (Z.of_nat (length (message false t ps))) (Z.of_nat (length (message false t ps))) d f).
Proof.
  intros Hr Hne Hps. apply (with_message _ files_step); [done|done|].
  intros key dt pre post y Hin Hr2. apply (files_param_ok others key dt r pre post y k _ d f); [|done].
  rewrite Forall_forall in Hps. by apply Hps.
Qed.

(** ** A file stored *)

Context `{HL : !PosixLaws F}.

Lemma put_files local remote dt dm : c_string local -> c_string remote ->
  let ps := [(AFTP_FILESPEC, local ++ [0]); (AFTP_NEW_FILESPEC, remote ++ [0]); (AFTP_DATA_TYPE, [u8 dt]); (AFTP_DATE_MODE, [u8 dm])] in
  Forall (file_param (AFTP_DATA_TYPE :: transfer_keys)) ps /\
  foldl (fun x p => files_step p x) (None, None) ps = (Some local, Some remote).
Proof.
  intros [Hl _] [Hr _] ps. split.
  - unfold ps. repeat apply Forall_cons_2; try apply Forall_nil_2; unfold file_param; cbn [fst snd].
    + left. split; [by left|by eexists].
    + left. split; [by right|by eexists].
    + right. by split_and!; [| |left].
    + right. split_and!; [done|done|]. apply (bool_decide_unpack _). vm_compute. exact I.
  - unfold ps. cbn [foldl]. unfold files_step. cbn. by rewrite !c_str_string.
Qed.

Lemma put_request_ok local remote dt dm : c_string local -> c_string remote -> Z.of_nat (length local + length remote) <= 32000 ->
  Z.of_nat (length (put_request local remote dt dm)) <= MAX_BUFFER_SIZE /\ is_bytes (put_request local remote dt dm).
Proof.
  intros [_ Hl] [_ Hr] Hlen. assert (Z.of_nat (length (put_request local remote dt dm)) <= MAX_BUFFER_SIZE) as H by (unfold put_request; msg_len).
  split; [done|]. apply message_bytes_ok; [unfold AFTP_SEND_FILE; lia| |done].
  repeat apply Forall_cons_2; try apply Forall_nil_2; cbn [fst snd]; (split; [byte|]).
  - apply Forall_app_2; [done|byte].
  - apply Forall_app_2; [done|byte].
  - constructor; [apply u8_byte|constructor].
  - constructor; [apply u8_byte|constructor].
Qed.

Lemma server_put_request local remote dt dm fuel ms r k p n d f fd f' :
  c_string local -> c_string remote -> Z.of_nat (length local + length remote) <= 32000 ->
  inbox k = put_request local remote dt dm :: ms -> open local O_CREAT_WRONLY f = (inl fd, f') ->
  exists r' k' p' n', turn fuel (V r k p n d f) = Ret false (V r' k' p' n' fd f') /\ inbox k' = ms /\ outbox k' = outbox k.
Proof.
  intros Hl Hr Hlen Hin Ho. destruct (put_request_ok local remote dt dm Hl Hr Hlen) as [Hmax Hb].
  destruct (turn_dispatch AFTP_SEND_FILE _ ms fuel r k p n d f Hin Hb Hmax) as (r' & k' & E & Hr' & Hout & Hin').
  { unfold put_request. rewrite <- (app_nil_r (message _ _ _)). apply message_major. unfold AFTP_SEND_FILE. lia. }
  destruct (put_files local remote dt dm Hl Hr) as [Hps Hfold]. rewrite E.
  exists r', k'. eexists _, _. split; [|done].
  change (dispatch false false false sys fuel AFTP_SEND_FILE) with (a_send_file (K := K) (F := F) false false false;; mret false).
  rewrite (M_bind_Ret _ _ _ tt (V r' k' (Z.of_nat (length (put_request local remote dt dm))) (Z.of_nat (length (put_request local remote dt dm))) fd f')); [done|].
  unfold a_send_file, put_request. rewrite (with_files _ _ _ AFTP_SEND_FILE r' k' d f Hr' ltac:(done) Hps), Hfold.
  rewrite of_opt_Some_bind. rewrite (M_bind_Ret _ _ _ _ _ (server_files_Ret _ r' k' _ _ d f _ _ Ho)). done.
Qed.

(** The rest of a piece, whatever [write] takes at a time. *)
Lemma server_file_data fuel : forall r k f fd q o c chunk j, rep r (Some <$> data_message chunk) -> descr fd f = Some (q, (o + j)%nat) ->
  file q f = Some (overwrite o (take j chunk) c) -> (o <= length c)%nat -> (j < length chunk)%nat -> (length chunk - j <= fuel)%nat ->
  Z.of_nat (length (data_message chunk)) <= MAX_BUFFER_SIZE ->
  exists f', file_data (K := K) false false fuel (V r k (Z.of_nat (2 + j)) (position r) fd f) =
      Ret tt (V r k (Z.of_nat (length (data_message chunk))) (position r) fd f') /\
    descr fd f' = Some (q, (o + length chunk)%nat) /\ file q f' = Some (overwrite o chunk c) /\
    forall q', q' <> q -> file q' f' = file q' f.
Proof.
  induction fuel as [|fuel IH]; intros r k f fd q o c chunk j Hr Hd Hf Ho Hj Hfuel Hmax; [lia|]. cbn [file_data].
  pose proof Hr as (Hpos & _). rewrite length_fmap in Hpos.
  assert (length (data_message chunk) = 2 + length chunk)%nat as Hl by (unfold data_message; by rewrite length_app).
  rewrite get_st_bind. cbn [curpos Aftpd.dest_file]. rewrite (M_bind_Ret _ _ _ _ _ (server_rec_Ret deref r k _ _ fd f r r eq_refl)).
  rewrite decide_False by lia.
  assert (read_block (Z.of_nat (2 + j)) (Z.to_nat (position r - Z.of_nat (2 + j))) (Some r) = Ret (drop j chunk) (Some r)) as E.
  { replace (Z.to_nat (position r - Z.of_nat (2 + j))) with (length (drop j chunk)) by (rewrite length_drop; lia).
    assert (length (Some <$> (message false AFTP_FILE_DATA [] ++ take j chunk)) = 2 + j)%nat as <-.
    { rewrite length_fmap, length_app, length_take. change (length (message false AFTP_FILE_DATA [])) with 2%nat. lia. }
    apply (read_block_rep r (drop j chunk) _ []). rewrite app_nil_r, <- fmap_app, <- app_assoc, take_drop. exact Hr. }
  rewrite (M_bind_Ret _ _ _ _ _ (server_rec_Ret _ r k _ _ fd f _ _ E)).
  assert (o + j <= length (overwrite o (take j chunk) c))%nat as Hoj.
  { pose proof (length_overwrite o (take j chunk) c Ho) as H. rewrite length_take in H. lia. }
  destruct (write_ok fd (drop j chunk) f q (o + j) _ Hd Hf Hoj) as (n & f' & Ew & Hn & Hpos' & Hd' & Hf' & Hoth).
  rewrite (M_bind_Ret _ _ _ _ _ (server_files_Ret _ r k _ _ fd f _ _ Ew)). cbv beta iota zeta.
  rewrite length_drop in Hn. assert (0 < n)%nat as Hn0.
  { apply Hpos'. intros Hnil. apply (f_equal length) in Hnil. rewrite length_drop in Hnil. cbn in Hnil. lia. }
  assert (u32 (Z.of_nat (2 + j) + Z.of_nat n) = Z.of_nat (2 + (j + n))) as ->.
  { unfold u32. rewrite Hl in Hmax. unfold MAX_BUFFER_SIZE in Hmax. rewrite Z.mod_small; lia. }
  rewrite set_curpos_bind.
  assert (file q f' = Some (overwrite o (take (j + n) chunk) c)) as Hfj.
  { rewrite Hf'. f_equal. replace j with (length (take j chunk)) at 1 by (rewrite length_take; lia).
    rewrite overwrite_app by done. f_equal. by rewrite take_take_drop. }
  rewrite <- Nat.add_assoc in Hd'.
  destruct (decide (j + n = length chunk)%nat) as [Eq|Hne].
  - rewrite decide_False by lia. exists f'. rewrite Eq in *. rewrite firstn_all in Hfj. by split_and!.
  - rewrite decide_True by lia.
    destruct (IH r k f' fd q o c chunk (j + n)%nat Hr Hd' Hfj Ho) as (f2 & E2 & Hd2 & Hf2 & Hoth2); [lia|lia|done|].
    exists f2. split_and!; try done. intros q' Hq. rewrite Hoth2 by done. by apply Hoth.
Qed.

Lemma server_put_data chunk fuel ms r k p n f fd q o c : piece chunk -> is_bytes chunk -> inbox k = data_message chunk :: ms ->
  descr fd f = Some (q, o) -> file q f = Some c -> (o <= length c)%nat ->
  exists r' k' p' n' f', turn fuel (V r k p n fd f) = Ret false (V r' k' p' n' fd f') /\ inbox k' = ms /\ outbox k' = outbox k /\
    descr fd f' = Some (q, (o + length chunk)%nat) /\ file q f' = Some (overwrite o chunk c) /\ forall q', q' <> q -> file q' f' = file q' f.
Proof.
  intros Hp Hb Hin Hd Hf Ho. pose proof (piece_length chunk Hp) as Hmax.
  destruct (turn_dispatch AFTP_FILE_DATA _ ms fuel r k p n fd f Hin (data_message_bytes _ Hb) Hmax) as (r' & k' & E & Hr' & Hout & Hin').
  { apply message_major. unfold AFTP_FILE_DATA. lia. }
  pose proof Hr' as (Hpos & _). rewrite length_fmap in Hpos. destruct Hp as [Hne _].
  destruct (server_file_data (S (Z.to_nat (position r'))) r' k' f fd q o c chunk 0) as (f' & E' & Hd' & Hf' & Hoth).
  { done. } { by rewrite Nat.add_0_r. } { cbn [take]. by rewrite overwrite_nil. } { done. } { destruct chunk; [done|cbn; lia]. }
  { rewrite Hpos. unfold data_message. rewrite length_app. lia. } { done. }
  rewrite E, <- Hpos. change (dispatch false false false sys fuel AFTP_FILE_DATA) with (a_file_data (K := K) (F := F) false false;; mret false).
  unfold a_file_data. rewrite M_bind_assoc, (M_bind_Ret _ _ _ _ _ (server_rec_Ret deref r' k' _ _ fd f r' r' eq_refl)).
  change 2 with (Z.of_nat (2 + 0)). rewrite (M_bind_Ret _ _ _ _ _ E'). exists r', k'. eexists _, _, f'. by split_and!.
Qed.

Definition status_ok : list Z := message false ASUITE_STATUS_RECORD (status_params false 0 0 0).

Lemma server_put_complete fuel ms r k p n f fd x : inbox k = message false AFTP_FILE_COMPLETE [] :: ms -> descr fd f = Some x ->
  exists r' k' p' n' f', turn fuel (V r k p n fd f) = Ret false (V r' k' p' n' fd f') /\ inbox k' = ms /\ outbox k' = outbox k ++ [status_ok] /\
    forall q, file q f' = file q f.
Proof.
  intros Hin Hd. destruct (turn_dispatch AFTP_FILE_COMPLETE _ ms fuel r k p n fd f Hin) as (r' & k' & E & Hr' & Hout & Hin').
  { byte. } { unfold MAX_BUFFER_SIZE. vm_compute. done. } { done. }
  destruct (close_ok fd f x Hd) as (f' & Ec & Hf'). rewrite E.
  change (dispatch false false false sys fuel AFTP_FILE_COMPLETE) with (a_file_complete (K := K) (F := F) false false;; mret false).
  unfold a_file_complete. rewrite M_bind_assoc, get_st_bind. cbn [Aftpd.dest_file].
  rewrite M_bind_assoc, (M_bind_Ret _ _ _ _ _ (server_files_Ret _ r' k' _ _ fd f _ _ Ec)). unfold answer_errno.
  rewrite (M_bind_Ret _ _ _ _ _ (respond_Ret false AFTP_RC_OK 0 0 r' k' _ _ fd f')).
  exists r'. eexists _, _, _, f'. split; [done|]. rewrite cmsend_inbox, cmsend_outbox, Hin', Hout. by split_and!.
Qed.

(** The session goes on after a record is served. *)
Lemma session_turn fuel turns st st' : turn fuel st = Ret false st' ->
  aftpd_session false false false sys fuel (S turns) st = aftpd_session false false false sys fuel turns st'.
Proof. intros E. cbn [aftpd_session]. by rewrite (M_bind_Ret _ _ _ _ _ E). Qed.

Lemma server_put_chunks chunks : forall fuel turns ms r k p n f fd q o c, Forall piece chunks -> is_bytes (mjoin chunks) ->
  inbox k = (data_message <$> chunks) ++ ms -> descr fd f = Some (q, o) -> file q f = Some c -> (o <= length c)%nat ->
  exists r' k' p' n' f', aftpd_session false false false sys fuel (length chunks + turns) (V r k p n fd f) =
      aftpd_session false false false sys fuel turns (V r' k' p' n' fd f') /\ inbox k' = ms /\ outbox k' = outbox k /\
    descr fd f' = Some (q, (o + length (mjoin chunks))%nat) /\ file q f' = Some (overwrite o (mjoin chunks) c) /\
    forall q', q' <> q -> file q' f' = file q' f.
Proof.
  induction chunks as [|chunk chunks IH]; intros fuel turns ms r k p n f fd q o c Hp Hb Hin Hd Hf Ho.
  { exists r, k, p, n, f. cbn. rewrite overwrite_nil, Nat.add_0_r. by split_and!. }
  apply Forall_cons in Hp as [Hp Hps]. change (mjoin (chunk :: chunks)) with (chunk ++ mjoin chunks) in *. apply Forall_app in Hb as [Hb Hbs].
  destruct (server_put_data chunk fuel _ r k p n f fd q o c Hp Hb Hin Hd Hf Ho) as (r1 & k1 & p1 & n1 & f1 & E1 & Hin1 & Hout1 & Hd1 & Hf1 & Hoth1).
  cbn [length Nat.add]. rewrite (session_turn _ _ _ _ E1).
  destruct (IH fuel turns ms r1 k1 p1 n1 f1 fd q (o + length chunk)%nat _ Hps Hbs Hin1 Hd1 Hf1) as (r2 & k2 & p2 & n2 & f2 & E2 & Hin2 & Hout2 & Hd2 & Hf2 & Hoth2).
  { by apply length_overwrite. }
  exists r2, k2, p2, n2, f2. rewrite E2, Hout2, Hout1, Hd2, Hf2, length_app, Nat.add_assoc. split_and!; try done.
  - by rewrite overwrite_app.
  - intros q' Hq. rewrite Hoth2 by done. by apply Hoth1.
Qed.

Lemma server_put local remote dt dm chunks fuel turns ms r k p n d f fd f1 :
  c_string local -> c_string remote -> Z.of_nat (length local + length remote) <= 32000 -> Forall piece chunks -> is_bytes (mjoin chunks) ->
  inbox k = put_request local remote dt dm :: file_messages chunks ++ ms -> open local O_CREAT_WRONLY f = (inl fd, f1) ->
  exists r' k' p' n' f', aftpd_session false false false sys fuel (2 + length chunks + turns) (V r k p n d f) =
      aftpd_session false false false sys fuel turns (V r' k' p' n' fd f') /\ inbox k' = ms /\ outbox k' = outbox k ++ [status_ok] /\
    file local f' = Some (overwrite 0 (mjoin chunks) (default [] (file local f))) /\ forall q, q <> local -> file q f' = file q f.
Proof.
  intros Hl Hr Hlen Hp Hb Hin Ho. unfold file_messages in Hin. rewrite <- app_assoc in Hin.
  destruct (server_put_request local remote dt dm fuel _ r k p n d f fd f1 Hl Hr Hlen Hin Ho) as (r1 & k1 & p1 & n1 & E1 & Hin1 & Hout1).
  destruct (open_write_ok _ _ _ _ Ho) as (_ & Hd1 & Hf1 & Hoth1).
  replace (2 + length chunks + turns)%nat with (S (length chunks + S turns)) by lia. rewrite (session_turn _ _ _ _ E1).
  destruct (server_put_chunks chunks fuel (S turns) _ r1 k1 p1 n1 f1 fd local 0 _ Hp Hb Hin1 Hd1 Hf1) as (r2 & k2 & p2 & n2 & f2 & E2 & Hin2 & Hout2 & Hd2 & Hf2 & Hoth2).
  { lia. }
  destruct (server_put_complete fuel ms r2 k2 p2 n2 f2 fd _ Hin2 Hd2) as (r3 & k3 & p3 & n3 & f3 & E3 & Hin3 & Hout3 & Hf3).
  exists r3, k3, p3, n3, f3. rewrite E2, (session_turn _ _ _ _ E3), Hout3, Hout2, Hout1, Hf3. split_and!; try done.
  intros q Hq. rewrite Hf3, Hoth2, Hoth1 by done. done.
Qed.
End Server.

(** ** Sending a file *)

(** C2: a file sent arrives.  [aftp_send_file] on a connected session with no
    allocation, block or record size sends a request and the file's contents in
    pieces, and reports success; a server that receives these messages, however
    its writes are cut, has then stored the contents under the name the client
    gave its own file, over what it held, and answered.  Only a longer old file
    keeps its tail.  The report does not depend on the answer. *)
Theorem aftp_put_stores {K F K' F'} `{HC : Cpic K} `{HD : !Delivers K} `{HP : Posix F} `{HL : !PosixLaws F}
    `{HC' : Cpic K'} `{HD' : !Delivers K'} `{HP' : Posix F'} `{HL' : !PosixLaws F'} (sys : system)
    i (st : aftp K F) s k local remote c fd f1 t ps rest fuel :
  sessions st !! Z.to_nat i = Some (Live s) -> conversation_ID s = Some k -> plain (sets s) ->
  c_string local -> c_string remote -> Z.of_nat (length local + length remote) <= 32000 ->
  open local O_RDONLY (files st) = (inl fd, f1) -> file local (files st) = Some c -> is_bytes c ->
  answer_ok t ps -> inbox k = message false t ps :: rest -> (length c < fuel)%nat ->
  exists st' s' k' ms,
    aftp_send_file false i local (Z.of_nat (length local)) remote (Z.of_nat (length remote)) fuel st = Ret (Some AFTP_RC_OK) st' /\
    sessions st' !! Z.to_nat i = Some (Live s') /\ conversation_ID s' = Some k' /\ inbox k' = rest /\ outbox k' = outbox k ++ ms /\
    forall ks later r p n d fs fd' fs1 fuel' turns, inbox ks = ms ++ later -> open local O_CREAT_WRONLY fs = (inl fd', fs1) ->
      exists r' ks' p' n' fs',
        aftpd_session (K := K') (F := F') false false false sys fuel' (length ms + turns) (MkAftpd (Some r) ks p n d fs) =
          aftpd_session false false false sys fuel' turns (MkAftpd (Some r') ks' p' n' fd' fs') /\
        inbox ks' = later /\ outbox ks' = outbox ks ++ [status_ok] /\
        file local fs' = Some (c ++ drop (length c) (default [] (file local fs))) /\ forall q, q <> local -> file q fs' = file q fs.
Proof.
  intros Hs Hk Hp Hl Hr Hlen Ho Hf Hc Ha Hin Hfuel. destruct (live_state_intro i st s k Hs Hk) as [Est Hi].
  destruct (client_put i st s Hi (record s) k (ans s) (files st) local remote fd c f1 t ps rest fuel Ho Hf Hc Hl Hr Hlen Hp Ha Hin Hfuel)
    as (chunks & r' & k' & f' & E & Hout & Hin' & Hj & Hpc & _). rewrite <- Est in E.
  eexists _, _, k', _. split; [exact E|]. split; [apply live_lookup; done|]. split; [done|]. split; [done|]. split; [exact Hout|].
  intros ks later r p n d fs fd' fs1 fuel' turns Hink Hopen.
  destruct (server_put sys local remote (data_type (sets s)) (date_mode (sets s)) chunks fuel' turns later r ks p n d fs fd' fs1 Hl Hr Hlen Hpc)
    as (r2 & k2 & p2 & n2 & f2 & E2 & Hin2 & Hout2 & Hf2 & Hoth); [by rewrite Hj|exact Hink|done|].
  exists r2, k2, p2, n2, f2. rewrite Hf2, Hj. split_and!; try done.
  unfold file_messages. cbn [length]. rewrite length_app, length_fmap. cbn [length].
  replace (S (length chunks + 1) + turns)%nat with (2 + length chunks + turns)%nat by lia. exact E2.
Qed.

(** A script of messages that arrive. *)
Definition arriving (ms : list (list Z)) : script := MkScript ((fun m => MkReceived m 0 0 CM_OK) <$> ms) [].

Lemma inbox_arriving ms : inbox (arriving ms) = ms.
Proof. cbn. induction ms as [|m ms IH]; [done|]. cbn. by rewrite IH. Qed.

Definition demo_session : ftpsession script :=
  with_conversation (new_session (MkRecord 2 ∅) (str "/")) (arriving [status_ok]).

(** A client with one session, on a disk that gives three bytes at a time, and a
    disk that takes two at a time. *)
Definition demo_disk {max} (c : list Z) : disk max := MkDisk {[str "f" := c]} [] (str "/") [].
Definition demo_client {max} (d : disk max) : aftp script (disk max) :=
  MkAftp 1 (Live demo_session :: replicate 19 Null) 0 [] d.
Definition demo_system : system := MkSystem 0 (fun _ => None) (fun _ => None) (fun _ _ => None) id id.

Lemma aftp_put_stores_witness :
  let d : disk (Some 2%nat) := demo_disk [1; 2; 3; 4; 5] in
  let fs : disk (Some 1%nat) := demo_disk [9; 9; 9; 9; 9; 9; 9] in
  sessions (demo_client d) !! 0%nat = Some (Live demo_session) /\
  exists st' ms, aftp_send_file false 0 (str "f") 1 (str "g") 1 6 (demo_client d) = Ret (Some AFTP_RC_OK) st' /\
    exists r' ks' p' n' fd' fs',
      aftpd_session false false false demo_system 0 (length ms + 1) (MkAftpd (Some (MkRecord 2 ∅)) (arriving ms) 0 0 0 fs) =
        aftpd_session false false false demo_system 0 1 (MkAftpd (Some r') ks' p' n' fd' fs') /\
      file (str "f") fs' = Some [1; 2; 3; 4; 5; 9; 9] /\ outbox ks' = [status_ok].
Proof.
  intros d fs. split; [reflexivity|].
  assert (c_string (str "f") /\ c_string (str "g")) as [Hf Hg] by (apply (bool_decide_unpack _); vm_compute; exact I).
  assert (answer_ok 1 (status_params false 0 0 0)) as Ha by (unfold answer_ok; apply (bool_decide_unpack _); vm_compute; exact I).
  assert (is_bytes [1; 2; 3; 4; 5]) as Hc by (apply (bool_decide_unpack _); vm_compute; exact I).
  assert (plain (sets demo_session)) as Hp by (split; [|split]; vm_compute; discriminate).
  destruct (aftp_put_stores (K' := script) (F' := disk (Some 1%nat)) demo_system 0 (demo_client d) demo_session (arriving [status_ok]) (str "f") (str "g")
    [1; 2; 3; 4; 5] 0 (MkDisk (d_files d) [] (str "/") [(str "f", O)]) 1 (status_params false 0 0 0) [] 6 eq_refl eq_refl Hp Hf Hg)
    as (st' & s' & k' & ms & E & _ & _ & _ & _ & Hserver);
    [vm_compute; discriminate|vm_compute; reflexivity|vm_compute; reflexivity|exact Hc|exact Ha|exact (inbox_arriving _)|apply (bool_decide_unpack _); vm_compute; exact I|].
  exists st', ms. split; [exact E|].
  destruct (Hserver (arriving ms) [] (MkRecord 2 ∅) 0 0 0 fs 0 (MkDisk (d_files fs) [] (str "/") [(str "f", O)]) 0%nat 1%nat)
    as (r' & ks' & p' & n' & fs' & Es & _ & Hout & Hfile & _); [rewrite inbox_arriving; symmetry; apply app_nil_r|vm_compute; reflexivity|].
  exists r', ks', p', n', 0, fs'. split; [exact Es|]. split; [exact Hfile|exact Hout].
Defined.

(** ** The server sends *)
Section ServerGet.
Context {K F : Type} `{HC : Cpic K} `{HD : !Delivers K} `{HP : Posix F} `{HL : !PosixLaws F}.
Context (sys : system).

Abbreviation V r k p n d f := (MkAftpd (Some r) k p n d f).

(** The name the server gives the file: [strncpy] pads it to the length of the
    name asked for. *)
Definition padded (s : list Z) (n : nat) : list Z := s ++ replicate (n - length s) 0.

Lemma strncpy_padded s : forall n, no_nul s -> (length s < n)%nat -> strncpy (s ++ [0]) n = Some (padded s n).
Proof.
  unfold padded. induction s as [|c s IH]; intros [|n] Hs Hn; try (cbn in Hn; lia); [done|]. apply Forall_cons in Hs as [Hc Hs].
  cbn [app strncpy length]. rewrite decide_False by done. rewrite (IH n) by (done || (cbn in Hn; lia)). done.
Qed.

Lemma length_padded s n : (length s <= n)%nat -> length (padded s n) = n.
Proof. intros H. unfold padded. rewrite length_app, length_replicate. lia. Qed.

Lemma padded_bytes s n : is_bytes s -> is_bytes (padded s n).
Proof. intros H. apply Forall_app_2; [done|]. apply Forall_replicate. unfold is_byte. lia. Qed.

Definition reply_params (remote : list Z) (data_type : Z) : list param :=
  [(AFTP_FILESPEC, padded (g_basename sys remote) (length remote + 1)); (AFTP_DATA_TYPE, [u8 data_type])].
Definition get_reply (remote : list Z) (data_type : Z) : list Z := message false AFTP_SEND_FILE (reply_params remote data_type).

Lemma server_read_data r k n m d f fd p o c back : rep r (Some <$> message false AFTP_FILE_DATA []) -> descr fd f = Some (p, o) ->
  file p f = Some c -> (o <= length c)%nat -> is_bytes c ->
  exists bs r' f', Aftpd.read_data (K := K) fd back (V r k n m d f) = Ret (Z.of_nat (length bs)) (V r' k n m d f') /\
    rep r' (Some <$> data_message bs) /\ descr fd f' = Some (p, o + length bs)%nat /\ (forall q, file q f' = file q f) /\
    bs ++ drop (o + length bs) c = drop o c /\ (o + length bs <= length c)%nat /\ (bs = [] -> o = length c) /\ Z.of_nat (length bs) <= 32761.
Proof.
  intros Hr Hd Hf Ho Hc. destruct (read_piece r f fd p o c Hr Hd Hf Ho Hc) as (bs & r' & f' & E & E' & H).
  exists bs, r', f'. split; [|exact H]. unfold Aftpd.read_data.
  rewrite (M_bind_Ret _ _ _ _ _ (server_rec_Ret deref r k n m d f r r eq_refl)).
  rewrite (M_bind_Ret _ _ _ _ _ (server_files_Ret _ r k n m d f _ _ E)). cbv beta iota.
  by rewrite (M_bind_Ret _ _ _ _ _ (server_rec_Ret _ r k n m d f' _ _ E')).
Qed.

Lemma server_send_records fuel : forall r k n m d f fd p o c bs, rep r (Some <$> data_message bs) -> descr fd f = Some (p, o) ->
  file p f = Some c -> (o <= length c)%nat -> is_bytes c -> (bs = [] -> o = length c) -> Z.of_nat (length bs) <= 32761 ->
  (length bs + (length c - o) < fuel)%nat ->
  exists chunks r' k' f', Aftpd.send_records (K := K) (F := F) fd (Z.of_nat (length bs)) fuel (V r k n m d f) = Ret tt (V r' k' n m d f') /\
    outbox k' = outbox k ++ (data_message <$> chunks) /\ inbox k' = inbox k /\ mjoin chunks = bs ++ drop o c /\
    Forall piece chunks /\ descr fd f' = Some (p, length c) /\ forall q, file q f' = file q f.
Proof.
  induction fuel as [|fuel IH]; intros r k n m d f fd p o c bs Hr Hd Hf Ho Hc Hnil Hl Hfuel; [lia|]. cbn [Aftpd.send_records].
  destruct bs as [|b bs].
  { rewrite decide_False by (cbn; lia). exists [], r, k, f. rewrite (Hnil eq_refl) in *. rewrite drop_all.
    cbn [fmap list_fmap]. rewrite app_nil_r. by split_and!. }
  rewrite decide_True by (cbn; lia). destruct (send_delivers r _ k Hr) as (k1 & E1 & Hout & Hin).
  unfold send. rewrite (M_bind_Ret _ _ _ _ _ (server_msg_Ret _ r k n m d f _ _ _ E1)). rewrite (decide_False (P := ASUITE_RC_OK <> AFTP_RC_OK)) by (by intros []).
  destruct (clear_data _ _ Hr) as (r2 & E2 & H2). rewrite (M_bind_Ret _ _ _ _ _ (server_rec_Ret _ r k1 n m d f _ _ E2)).
  destruct (server_read_data r2 k1 n m d f fd p o c false H2 Hd Hf Ho Hc) as (bs' & r3 & f3 & E3 & H3 & Hd3 & Hf3 & Hsplit & Ho3 & Hnil3 & Hl3).
  rewrite (M_bind_Ret _ _ _ _ _ E3). assert (file p f3 = Some c) as Hfp by (by rewrite Hf3).
  assert (bs' = [] -> o + length bs' = length c)%nat as Hnil' by (intros ->; cbn; rewrite Nat.add_0_r; by apply Hnil3).
  destruct (IH r3 k1 n m d f3 fd p (o + length bs')%nat c bs' H3 Hd3 Hfp Ho3 Hc Hnil' Hl3) as (chunks & r' & k' & f' & E & Hout' & Hin' & Hj & Hpc & Hd' & Hf').
  { cbn [length] in Hfuel. lia. }
  exists ((b :: bs) :: chunks), r', k', f'. split_and!; try done.
  - rewrite Hout', Hout. cbn. by rewrite <- app_assoc.
  - by rewrite Hin', Hin.
  - change (mjoin ((b :: bs) :: chunks)) with ((b :: bs) ++ mjoin chunks). by rewrite Hj, Hsplit.
  - by constructor.
  - intros q. by rewrite Hf', Hf3.
Qed.

Definition request_step (p : param) (x : two_files * Z) : two_files * Z :=
  if decide (p.1 = AFTP_DATA_TYPE) then (x.1, default 0 (head p.2)) else (files_step p x.1, x.2).

Lemma request_file_param_ok key dt r pre post y k n d (f : F) :
  file_param transfer_keys (key, dt) \/ key = AFTP_DATA_TYPE /\ (exists c, dt = [c]) ->
  rep r (pre ++ (Some <$> param_bytes false (key, dt)) ++ post) ->
  request_file_param (K := K) false false false key y (V r k (Z.of_nat (length pre)) n d f) =
    Ret (Some (request_step (key, dt) y)) (V r k (Z.of_nat (length pre)) n d f).
Proof.
  intros Hp Hr. unfold request_file_param, request_step. cbn [fst snd]. destruct (decide (key = AFTP_DATA_TYPE)) as [->|Hk].
  - destruct Hp as [[[[?|?] _]|(_ & _ & Hin)]|(_ & c & ->)]; try done.
    { exfalso. revert Hin. apply (bool_decide_unpack _). vm_compute. exact I. }
    rewrite get_st_bind. cbn [curpos].
    assert (peek (Z.of_nat (length pre) + 3) (Some r) = Ret c (Some r)) as E.
    { replace (Z.of_nat (length pre) + 3) with (Z.of_nat (length pre + 3)) by lia. eapply peek_rep; [exact Hr|].
      rewrite lookup_app_r by lia. by replace (length pre + 3 - length pre)%nat with 3%nat by lia. }
    by rewrite (M_bind_Ret _ _ _ _ _ (server_rec_Ret (asuiterecord_get_char _) r k _ n d f _ _ E)).
  - destruct Hp as [Hp|(-> & _)]; [|done].
    by rewrite (M_bind_Ret _ _ _ _ _ (files_param_ok transfer_keys key dt r pre post y.1 k n d f Hp Hr)).
Qed.

Lemma get_request_ok local remote dt : c_string local -> c_string remote -> Z.of_nat (length local + length remote) <= 32000 ->
  Z.of_nat (length (get_request local remote dt)) <= MAX_BUFFER_SIZE /\ is_bytes (get_request local remote dt).
Proof.
  intros [_ Hl] [_ Hr] Hlen. assert (Z.of_nat (length (get_request local remote dt)) <= MAX_BUFFER_SIZE) as H by (unfold get_request; msg_len).
  split; [done|]. apply message_bytes_ok; [unfold AFTP_REQUEST_FILE; lia| |done].
  repeat apply Forall_cons_2; try apply Forall_nil_2; cbn [fst snd]; (split; [byte|]).
  - apply Forall_app_2; [done|byte].
  - apply Forall_app_2; [done|byte].
  - constructor; [apply u8_byte|constructor].
Qed.

(** The name the server takes from a path: its last part. *)
Definition basename_of (s : list Z) : Prop := exists dir, s = dir ++ g_basename sys s.

Lemma basename_string s : basename_of s -> c_string s -> c_string (g_basename sys s) /\ (length (g_basename sys s) <= length s)%nat.
Proof.
  intros [dir E] [Hn Hb]. rewrite E in Hn, Hb. apply Forall_app in Hn as [_ Hn]. apply Forall_app in Hb as [_ Hb].
  split; [by split|]. rewrite E at 2. rewrite length_app. lia.
Qed.

Lemma reply_record r remote dt : c_string remote -> basename_of remote -> Z.of_nat (length remote) <= 32000 ->
  exists r', (asuiterecord_clear;;
          asuiterecord_settype false AFTP_SEND_FILE;;
          asuiterecord_append false AFTP_FILESPEC (g_basename sys remote ++ [0]) (Z.of_nat (length remote) + 1);;
          asuiterecord_append_char false AFTP_DATA_TYPE dt) (Some r) = Ret 0 (Some r') /\
    rep r' (Some <$> get_reply remote dt).
Proof.
  intros Hr Hb Hlen. destruct (basename_string remote Hb Hr) as [[Hn Hbb] Hle].
  destruct (start_message false AFTP_SEND_FILE r) as (r1 & E1 & H1).
  assert (length (padded (g_basename sys remote) (length remote + 1)) = length remote + 1)%nat as Hp by (apply length_padded; lia).
  destruct (append_rep false r1 _ AFTP_FILESPEC (g_basename sys remote ++ [0]) (padded (g_basename sys remote) (length remote + 1)) H1) as (r2 & E2 & H2).
  { byte. } { by apply padded_bytes. } { rewrite Hp. apply strncpy_padded; [done|lia]. }
  { rewrite length_fmap, length_param. cbn [snd]. rewrite Hp. msg_len. }
  rewrite Hp in E2. replace (Z.of_nat (length remote + 1)) with (Z.of_nat (length remote) + 1) in E2 by lia.
  rewrite <- fmap_app, <- message_snoc in H2.
  destruct (append_char false r2 _ _ AFTP_DATA_TYPE dt H2) as (r3 & E3 & H3); [byte|cbn [app]; msg_len; rewrite Hp; lia|].
  exists r3. rewrite <- M_bind_assoc, (M_bind_Ret _ _ _ _ _ E1), (M_bind_Ret _ _ _ _ _ E2). by split.
Qed.

Lemma with_request local remote dt (cont : two_files * Z -> M (aftpd K F) unit) r k d f : c_string local -> c_string remote ->
  let n := Z.of_nat (length (get_request local remote dt)) in
  rep r (Some <$> get_request local remote dt) ->
  with_params false (request_file_param false false false) (None, None, AFTP_ASCII) cont (V r k 2 n d f) =
    cont (Some remote, Some local, u8 dt) (V r k n n d f).
Proof.
  intros Hl Hr n H0. unfold n, get_request. rewrite (with_message _ request_step _ _ _ AFTP_REQUEST_FILE r k d f H0 ltac:(done)).
  { cbn [foldl]. unfold request_step, files_step. cbn. by rewrite !c_str_string by (apply Hr || apply Hl). }
  intros key data pre post y Hin Hr'. apply (request_file_param_ok key data r pre post); [|done].
  repeat (apply elem_of_cons in Hin as [[= -> ->]|Hin]); [| | |by apply elem_of_nil in Hin].
  - left. left. split; [by left|]. exists remote. split; [done|apply Hr].
  - left. left. split; [by right|]. exists local. split; [done|apply Hl].
  - right. split; [done|by eexists].
Qed.

Lemma server_get local remote dt fuel ms r k p n d f fd f1 c :
  c_string local -> c_string remote -> Z.of_nat (length local + length remote) <= 32000 -> basename_of remote ->
  inbox k = get_request local remote dt :: ms -> open remote O_RDONLY f = (inl fd, f1) -> file remote f = Some c -> is_bytes c -> (length c < fuel)%nat ->
  exists chunks r' k' p' n' f', aftpd_turn false false false sys fuel (V r k p n d f) = Ret false (V r' k' p' n' d f') /\ inbox k' = ms /\
    outbox k' = outbox k ++ get_reply remote (u8 dt) :: file_messages chunks /\ mjoin chunks = c /\ Forall piece chunks /\
    forall q, file q f' = file q f.
Proof.
  intros Hl Hr Hlen Hbase Hin Ho Hf Hc Hfuel. destruct (get_request_ok local remote dt Hl Hr Hlen) as [Hmax Hb].
  destruct (turn_dispatch sys AFTP_REQUEST_FILE _ ms fuel r k p n d f Hin Hb Hmax) as (r0 & k0 & E & H0 & Hout0 & Hin0).
  { unfold get_request. rewrite <- (app_nil_r (message _ _ _)). apply message_major. unfold AFTP_REQUEST_FILE. lia. }
  rewrite E. change (dispatch false false false sys fuel AFTP_REQUEST_FILE) with (a_request_file (K := K) (F := F) false false false sys fuel;; mret false).
  set (m := Z.of_nat (length (get_request local remote dt))) in *. unfold a_request_file.
  destruct (open_read_ok _ _ _ _ Ho) as (_ & Hd & Hf1).
  destruct (reply_record r0 remote (u8 dt) Hr Hbase ltac:(lia)) as (r1 & E1 & H1).
  destruct (send_delivers r1 _ k0 H1) as (k1 & E2 & Hout1 & Hin1).
  destruct (start_message false AFTP_FILE_DATA r1) as (r2 & E3 & H2).
  assert (file remote f1 = Some c) as Hf1' by (by rewrite Hf1).
  destruct (server_read_data r2 k1 m m d f1 fd remote 0 c true H2 Hd Hf1' ltac:(lia) Hc) as (bs & r3 & f3 & E4 & H3 & Hd3 & Hf3 & Hsplit & Ho3 & Hnil & Hl3).
  assert (file remote f3 = Some c) as Hf3' by (by rewrite Hf3).
  destruct (server_send_records fuel r3 k1 m m d f3 fd remote (0 + length bs) c bs H3 Hd3 Hf3' Ho3 Hc) as (chunks & r4 & k4 & f4 & E5 & Hout4 & Hin4 & Hj & Hp & Hd4 & Hf4).
  { intros ->. cbn. by apply Hnil. } { done. } { lia. }
  destruct (close_ok _ _ _ Hd4) as (f5 & E6 & Hf5). destruct (start_message false AFTP_FILE_COMPLETE r4) as (r5 & E7 & H5).
  destruct (send_delivers r5 _ k4 H5) as (k5 & E8 & Hout5 & Hin5).
  exists chunks, r5, k5, m, m, f5. split_and!.
  2:{ by rewrite Hin5, Hin4, Hin1. }
  2:{ rewrite Hout5, Hout4, Hout1, Hout0. unfold file_messages. rewrite <- !app_assoc. done. }
  2:{ rewrite Hj. exact Hsplit. } 2:{ done. } 2:{ intros q. by rewrite Hf5, Hf4, Hf3, Hf1. }
  rewrite (M_bind_Ret _ _ _ tt (V r5 k5 m m d f5)); [done|]. unfold m, get_request.
  rewrite (with_request local remote dt _ r0 k0 d f Hl Hr H0). rewrite of_opt_Some_bind. fold (get_request local remote dt). fold m.
  rewrite (M_bind_Ret _ _ _ _ _ (server_files_Ret _ r0 k0 m m d f _ _ Ho)). cbv beta iota zeta.
  rewrite (M_bind_Ret _ _ _ _ _ (server_rec_Ret _ r0 k0 m m d f1 _ _ E1)). unfold send at 1.
  rewrite (M_bind_Ret _ _ _ _ _ (server_msg_Ret _ r1 k0 m m d f1 _ _ _ E2)), (M_bind_Ret _ _ _ _ _ (server_rec_Ret _ r1 k1 m m d f1 _ _ E3)).
  rewrite (M_bind_Ret _ _ _ _ _ E4), (M_bind_Ret _ _ _ _ _ E5), (M_bind_Ret _ _ _ _ _ (server_files_Ret _ r4 k4 m m d f4 _ _ E6)).
  rewrite (M_bind_Ret _ _ _ _ _ (server_rec_Ret _ r4 k4 m m d f5 _ _ E7)). unfold send.
  rewrite (M_bind_Ret _ _ _ _ _ (server_msg_Ret _ r5 k4 m m d f5 _ _ _ E8)). rewrite (decide_False (P := ASUITE_RC_OK <> AFTP_RC_OK)) by (by intros []).
  done.
Qed.
End ServerGet.

(** ** The client receives *)
Section ClientGet.
Context {K F : Type} `{HC : Cpic K} `{HD : !Delivers K} `{HP : Posix F} `{HL : !PosixLaws F} `{HW : !FullWrites F}.
Context (i : Z) (st0 : aftp K F) (s0 : ftpsession K) (Hi : (Z.to_nat i < length (sessions st0))%nat).

Abbreviation C := (live_state i st0 s0).

(** A record of the server: received, and its major code. *)
Lemma client_receives t m ms r k a f : inbox k = m :: ms -> is_bytes m -> Z.of_nat (length m) <= MAX_BUFFER_SIZE -> m !! 1%nat = Some t ->
  exists r' k', Aftp.on_msg i (get_asuiterecord (K := K)) (C r k a f) = Ret AFTP_RC_OK (C r' k' a f) /\
    Aftp.on_rec i get_major_code (C r' k' a f) = Ret t (C r' k' a f) /\ rep r' (Some <$> m) /\ inbox k' = ms /\ outbox k' = outbox k.
Proof.
  intros Hin Hb Hl Ht. destruct (get_delivers r k m ms Hin Hb Hl) as (r' & k' & E & Hr & Ho & Hi' & _).
  exists r', k'. split_and!; try done; [by apply (client_msg_Ret i st0 s0 Hi)|].
  apply (client_rec_Ret i st0 s0 Hi). unfold get_major_code. change 1 with (Z.of_nat 1). eapply peek_rep; [exact Hr|].
  by rewrite list_lookup_fmap, Ht.
Qed.

(** The part of a turn before the [switch]. *)
Lemma receive_turn t m ms r k a f fd fuel : inbox k = m :: ms -> is_bytes m -> Z.of_nat (length m) <= MAX_BUFFER_SIZE -> m !! 1%nat = Some t ->
  exists r' k', rep r' (Some <$> m) /\ inbox k' = ms /\ outbox k' = outbox k /\
    receive_records false i fd (S fuel) (C r k a f) =
      (let receive_length := Z.of_nat (length m) in
       if decide (t = AFTP_SIMPLE_RESPONSE) then
         ok ← only_return_code false i receive_length (S (Z.to_nat receive_length)) 2;
         if (ok : bool) then receive_records false i fd fuel else mret AFTP_RC_FAIL_INPUT_ERROR
       else if decide (t = AFTP_SEND_FILE) then
         response_params false i receive_length ignore_param (S (Z.to_nat receive_length)) 2 tt;; receive_records false i fd fuel
       else if decide (t = AFTP_FILE_DATA) then
         if decide (receive_length < 2) then undef else
         bs ← Aftp.on_rec i (read_block 2 (Z.to_nat (receive_length - 2)));
         Aftp.on_files (write fd bs);; receive_records false i fd fuel
       else if decide (t = AFTP_FILE_COMPLETE) then Aftp.on_files (close fd);; mret AFTP_RC_OK
       else receive_records false i fd fuel) (C r' k' a f).
Proof.
  intros Hin Hb Hl Ht. destruct (client_receives t m ms (MkRecord 2 (buffer r)) k a f Hin Hb Hl Ht) as (r' & k' & E & Em & Hr & Hin' & Hout).
  exists r', k'. split_and!; try done. cbn [receive_records].
  rewrite (M_bind_Ret _ _ _ _ _ (client_rec_Ret i st0 s0 Hi asuiterecord_clear r k a f tt (MkRecord 2 (buffer r)) eq_refl)).
  rewrite (M_bind_Ret _ _ _ _ _ E). rewrite (decide_False (P := AFTP_RC_OK <> AFTP_RC_OK)) by (by intros []).
  rewrite (M_bind_Ret _ _ _ _ _ (received_len_live i st0 s0 Hi r' k' a f)), (M_bind_Ret _ _ _ _ _ Em).
  pose proof Hr as (-> & _). by rewrite length_fmap.
Qed.

Lemma receive_header t ps ms r k a f fd fuel : t = AFTP_SEND_FILE -> answer_ok t ps -> inbox k = message false t ps :: ms ->
  exists r' k', receive_records false i fd (S fuel) (C r k a f) = receive_records false i fd fuel (C r' k' a f) /\
    inbox k' = ms /\ outbox k' = outbox k.
Proof.
  intros -> (Ht & Hne & Hb & Hl) Hin.
  destruct (receive_turn AFTP_SEND_FILE _ ms r k a f fd fuel Hin (message_bytes_ok false AFTP_SEND_FILE ps ltac:(lia) Hb Hl) Hl) as (r' & k' & Hr & Hin' & Hout & E).
  { rewrite <- (app_nil_r (message _ _ _)). by apply message_major. }
  exists r', k'. split; [|done]. rewrite E. cbv zeta.
  rewrite (decide_False (P := AFTP_SEND_FILE = AFTP_SIMPLE_RESPONSE)), (decide_True (P := AFTP_SEND_FILE = AFTP_SEND_FILE)) by done.
  pose proof Hr as (Hpos & _). rewrite length_fmap in Hpos. unfold message in Hr. rewrite fmap_app in Hr.
  pose proof (length_wire16 false (u16 AFTP_SEND_FILE)) as Hw. rewrite <- (length_fmap Some) in Hw. change 2 with (Z.of_nat 2). rewrite <- Hw.
  rewrite (M_bind_Ret _ _ _ tt (C r' k' a f)); [done|]. apply (ignore_params i st0 s0 Hi ps); [done|done|done|].
  rewrite length_message. pose proof (params_length false ps). lia.
Qed.

Lemma receive_data chunk ms r k a f fd fuel q o c : piece chunk -> is_bytes chunk -> inbox k = data_message chunk :: ms ->
  descr fd f = Some (q, o) -> file q f = Some c -> (o <= length c)%nat ->
  exists r' k' f', receive_records false i fd (S fuel) (C r k a f) = receive_records false i fd fuel (C r' k' a f') /\
    inbox k' = ms /\ outbox k' = outbox k /\ descr fd f' = Some (q, (o + length chunk)%nat) /\
    file q f' = Some (overwrite o chunk c) /\ forall q', q' <> q -> file q' f' = file q' f.
Proof.
  intros Hp Hb Hin Hd Hf Ho.
  destruct (receive_turn AFTP_FILE_DATA _ ms r k a f fd fuel Hin (data_message_bytes _ Hb) (piece_length _ Hp)) as (r' & k' & Hr & Hin' & Hout & E).
  { apply message_major. unfold AFTP_FILE_DATA. lia. }
  destruct (write_ok fd chunk f q o c Hd Hf Ho) as (n & f' & Ew & Hn & _ & Hd' & Hf' & Hoth).
  pose proof (write_full _ _ _ _ _ Ew) as Hfull. assert (n = length chunk) as -> by lia. rewrite firstn_all in Hf'.
  exists r', k', f'. split_and!; try done. rewrite E. cbv zeta.
  rewrite (decide_False (P := AFTP_FILE_DATA = AFTP_SIMPLE_RESPONSE)), (decide_False (P := AFTP_FILE_DATA = AFTP_SEND_FILE)),
    (decide_True (P := AFTP_FILE_DATA = AFTP_FILE_DATA)) by done.
  assert (length (data_message chunk) = 2 + length chunk)%nat as Hl by (unfold data_message; by rewrite length_app).
  rewrite decide_False by lia.
  assert (read_block 2 (Z.to_nat (Z.of_nat (length (data_message chunk)) - 2)) (Some r') = Ret chunk (Some r')) as Eb.
  { replace (Z.to_nat (Z.of_nat (length (data_message chunk)) - 2)) with (length chunk) by lia.
    change 2 with (Z.of_nat (length (Some <$> message false AFTP_FILE_DATA []))). apply (read_block_rep r' chunk _ []).
    rewrite app_nil_r, <- fmap_app. exact Hr. }
  rewrite (M_bind_Ret _ _ _ _ _ (client_rec_Ret i st0 s0 Hi _ r' k' a f _ _ Eb)).
  by rewrite (M_bind_Ret _ _ _ _ _ (client_files_Ret i st0 s0 _ r' k' a f _ _ Ew)).
Qed.

Lemma receive_complete ms r k a f fd fuel x : inbox k = message false AFTP_FILE_COMPLETE [] :: ms -> descr fd f = Some x ->
  exists r' k' f', receive_records false i fd (S fuel) (C r k a f) = Ret AFTP_RC_OK (C r' k' a f') /\
    inbox k' = ms /\ outbox k' = outbox k /\ forall q, file q f' = file q f.
Proof.
  intros Hin Hd. destruct (receive_turn AFTP_FILE_COMPLETE _ ms r k a f fd fuel Hin) as (r' & k' & Hr & Hin' & Hout & E).
  { byte. } { unfold MAX_BUFFER_SIZE. vm_compute. done. } { done. }
  destruct (close_ok fd f x Hd) as (f' & Ec & Hf'). exists r', k', f'. split_and!; try done. rewrite E. cbv zeta.
  rewrite !decide_False by done. rewrite decide_True by done.
  by rewrite (M_bind_Ret _ _ _ _ _ (client_files_Ret i st0 s0 _ r' k' a f _ _ Ec)).
Qed.

Lemma receive_chunks chunks : forall ms r k a f fd fuel q o c, Forall piece chunks -> is_bytes (mjoin chunks) ->
  inbox k = file_messages chunks ++ ms -> descr fd f = Some (q, o) -> file q f = Some c -> (o <= length c)%nat -> (length chunks < fuel)%nat ->
  exists r' k' f', receive_records false i fd fuel (C r k a f) = Ret AFTP_RC_OK (C r' k' a f') /\
    inbox k' = ms /\ outbox k' = outbox k /\ file q f' = Some (overwrite o (mjoin chunks) c) /\ forall q', q' <> q -> file q' f' = file q' f.
Proof.
  induction chunks as [|chunk chunks IH]; intros ms r k a f fd [|fuel] q o c Hp Hb Hin Hd Hf Ho Hfuel; try (cbn in Hfuel; lia).
  - destruct (receive_complete ms r k a f fd fuel _ Hin Hd) as (r' & k' & f' & E & Hin' & Hout & Hf').
    exists r', k', f'. cbn. rewrite overwrite_nil, Hf'. by split_and!.
  - apply Forall_cons in Hp as [Hp Hps]. change (mjoin (chunk :: chunks)) with (chunk ++ mjoin chunks) in *. apply Forall_app in Hb as [Hb Hbs].
    destruct (receive_data chunk _ r k a f fd fuel q o c Hp Hb Hin Hd Hf Ho) as (r1 & k1 & f1 & E1 & Hin1 & Hout1 & Hd1 & Hf1 & Hoth1).
    destruct (IH ms r1 k1 a f1 fd fuel q (o + length chunk)%nat _ Hps Hbs Hin1 Hd1 Hf1) as (r2 & k2 & f2 & E2 & Hin2 & Hout2 & Hf2 & Hoth2).
    { by apply length_overwrite. } { cbn in Hfuel. lia. }
    exists r2, k2, f2. rewrite E1, E2, Hout2, Hout1, Hf2, overwrite_app by done. split_and!; try done.
    intros q' Hq. rewrite Hoth2 by done. by apply Hoth1.
Qed.

Lemma get_record r local remote : c_string local -> c_string remote -> Z.of_nat (length local + length remote) <= 32000 ->
  block_size (sets s0) <= 0 ->
  exists r', (asuiterecord_clear;;
          asuiterecord_settype false AFTP_REQUEST_FILE;;
          asuiterecord_append false AFTP_FILESPEC (remote ++ [0]) (Z.of_nat (length remote) + 1);;
          asuiterecord_append false AFTP_NEW_FILESPEC (local ++ [0]) (Z.of_nat (length local) + 1);;
          asuiterecord_append_char false AFTP_DATA_TYPE (data_type (sets s0));;
          append_count AFTP_BLOCK_SIZE (block_size (sets s0))) (Some r) = Ret tt (Some r') /\
    rep r' (Some <$> get_request local remote (data_type (sets s0))).
Proof.
  intros [Hn1 Hb1] [Hn2 Hb2] Hl Hblk.
  destruct (start_message false AFTP_REQUEST_FILE r) as (r1 & E1 & H1).
  destruct (append_string false r1 _ [] AFTP_FILESPEC remote (Z.of_nat (length remote) + 1) H1) as (r2 & E2 & H2); [byte|done..|msg_len|].
  destruct (append_string false r2 _ _ AFTP_NEW_FILESPEC local (Z.of_nat (length local) + 1) H2) as (r3 & E3 & H3); [byte|done..|cbn [app]; msg_len|].
  destruct (append_char false r3 _ _ AFTP_DATA_TYPE (data_type (sets s0)) H3) as (r4 & E4 & H4); [byte|cbn [app]; msg_len|].
  exists r4. rewrite <- M_bind_assoc, (M_bind_Ret _ _ _ _ _ E1), (M_bind_Ret _ _ _ _ _ E2), (M_bind_Ret _ _ _ _ _ E3), (M_bind_Ret _ _ _ _ _ E4).
  unfold append_count. rewrite decide_False by lia. by split.
Qed.

Lemma client_get sys r k a f local remote fd f1 chunks rest fuel :
  open local O_CREAT_WRONLY f = (inl fd, f1) -> c_string local -> c_string remote -> basename_of sys remote ->
  Z.of_nat (length local + length remote) <= 32000 -> block_size (sets s0) <= 0 -> Forall piece chunks -> is_bytes (mjoin chunks) ->
  inbox k = get_reply sys remote (u8 (data_type (sets s0))) :: file_messages chunks ++ rest -> (length chunks + 1 < fuel)%nat ->
  exists r' k' f',
    aftp_receive_file false i local (Z.of_nat (length local)) remote (Z.of_nat (length remote)) fuel (C r k a f) =
      Ret (Some AFTP_RC_OK) (C r' k' a f') /\
    outbox k' = outbox k ++ [get_request local remote (data_type (sets s0))] /\ inbox k' = rest /\
    file local f' = Some (overwrite 0 (mjoin chunks) (default [] (file local f))) /\ forall q, q <> local -> file q f' = file q f.
Proof.
  intros Ho Hl Hr Hbase Hlen Hblk Hp Hb Hin Hfuel. unfold aftp_receive_file. rewrite (guarded_live i st0 s0 Hi).
  rewrite (M_bind_Ret _ _ _ _ _ (client_files_Ret i st0 s0 _ r k a f _ _ Ho)). cbv beta iota. rewrite (the_session_bind i st0 s0 Hi). cbn [sets live_session].
  destruct (open_write_ok _ _ _ _ Ho) as (_ & Hd & Hf1 & Hoth1). destruct (get_record r local remote Hl Hr Hlen Hblk) as (r1 & E1 & H1).
  rewrite (M_bind_Ret _ _ _ _ _ (client_rec_Ret i st0 s0 Hi _ r k a f1 _ _ E1)). destruct (send_delivers r1 _ k H1) as (k1 & E2 & Hout1 & Hin1).
  rewrite (M_bind_Ret _ _ _ _ _ (client_msg_Ret i st0 s0 Hi _ r1 k a f1 _ _ _ E2)). rewrite (decide_False (P := ASUITE_RC_OK <> AFTP_RC_OK)) by (by intros []).
  destruct fuel as [|fuel]; [lia|]. destruct (basename_string sys remote Hbase Hr) as [[_ Hbb] Hle].
  destruct (receive_header AFTP_SEND_FILE (reply_params sys remote (u8 (data_type (sets s0)))) (file_messages chunks ++ rest) r1 k1 a f1 fd fuel eq_refl) as (r2 & k2 & E3 & Hin2 & Hout2);
    [|rewrite Hin1; exact Hin|].
  { split_and!; [done|done|done| |].
    - unfold reply_params. repeat apply Forall_cons_2; try apply Forall_nil_2; cbn [fst snd]; (split; [byte|]); [by apply padded_bytes|].
      constructor; [apply u8_byte|constructor].
    - unfold reply_params. msg_len. rewrite length_padded by lia. lia. }
  destruct (receive_chunks chunks rest r2 k2 a f1 fd fuel local 0 _ Hp Hb Hin2 Hd Hf1) as (r3 & k3 & f3 & E4 & Hin3 & Hout3 & Hf3 & Hoth3); [lia|lia|].
  exists r3, k3, f3. split_and!; [|by rewrite Hout3, Hout2, Hout1|done|done|].
  - unfold ret_code. by rewrite (M_bind_Ret _ _ _ AFTP_RC_OK (C r3 k3 a f3)) by (by rewrite E3, E4).
  - intros q Hq. rewrite Hoth3 by done. by apply Hoth1.
Qed.
End ClientGet.

(** ** Fetching a file *)

(** C8: a file fetched arrives.  A server asked for a file that it can open
    answers with its contents in pieces; [aftp_receive_file], given these
    answers, has sent this request, stores the contents under the local name,
    over what it held, and reports success.  The client's writes are assumed
    whole, since it does not look at what [write] returns. *)
Theorem aftp_get_stores {K F K' F'} `{HC : Cpic K} `{HD : !Delivers K} `{HP : Posix F} `{HL : !PosixLaws F} `{HW : !FullWrites F}
    `{HC' : Cpic K'} `{HD' : !Delivers K'} `{HP' : Posix F'} `{HL' : !PosixLaws F'} (sys : system)
    local remote dt c ks later r p n d fs fd' fs1 fuel' :
  c_string local -> c_string remote -> Z.of_nat (length local + length remote) <= 32000 -> basename_of sys remote ->
  inbox ks = get_request local remote dt :: later -> open remote O_RDONLY fs = (inl fd', fs1) -> file remote fs = Some c -> is_bytes c ->
  (length c < fuel')%nat ->
  exists r' ks' p' n' fs' ms,
    aftpd_turn (K := K') (F := F') false false false sys fuel' (MkAftpd (Some r) ks p n d fs) = Ret false (MkAftpd (Some r') ks' p' n' d fs') /\
    inbox ks' = later /\ outbox ks' = outbox ks ++ ms /\ (forall q, file q fs' = file q fs) /\
    forall i (st : aftp K F) s k fd f1 rest fuel,
      sessions st !! Z.to_nat i = Some (Live s) -> conversation_ID s = Some k -> block_size (sets s) <= 0 -> u8 (data_type (sets s)) = u8 dt ->
      open local O_CREAT_WRONLY (files st) = (inl fd, f1) -> inbox k = ms ++ rest -> (length ms < fuel)%nat ->
      exists st' s' k',
        aftp_receive_file false i local (Z.of_nat (length local)) remote (Z.of_nat (length remote)) fuel st = Ret (Some AFTP_RC_OK) st' /\
        sessions st' !! Z.to_nat i = Some (Live s') /\ conversation_ID s' = Some k' /\ inbox k' = rest /\
        outbox k' = outbox k ++ [get_request local remote dt] /\
        file local (files st') = Some (c ++ drop (length c) (default [] (file local (files st)))) /\
        forall q, q <> local -> file q (files st') = file q (files st).
Proof.
  intros Hl Hr Hlen Hbase Hin Ho Hf Hc Hfuel.
  destruct (server_get sys local remote dt fuel' later r ks p n d fs fd' fs1 c Hl Hr Hlen Hbase Hin Ho Hf Hc Hfuel)
    as (chunks & r' & ks' & p' & n' & fs' & E & Hin' & Hout & Hj & Hp & Hoth).
  exists r', ks', p', n', fs', (get_reply sys remote (u8 dt) :: file_messages chunks). split_and!; try done.
  intros i st s k fd f1 rest fuel Hs Hk Hblk Hdt Hopen Hink Hfl. destruct (live_state_intro i st s k Hs Hk) as [Est Hi].
  assert (get_request local remote (data_type (sets s)) = get_request local remote dt) as Ereq by (unfold get_request; by rewrite Hdt).
  destruct (client_get i st s Hi sys (record s) k (ans s) (files st) local remote fd f1 chunks rest fuel Hopen Hl Hr Hbase Hlen Hblk Hp)
    as (r2 & k2 & f2 & E2 & Hout2 & Hin2 & Hf2 & Hoth2).
  { by rewrite Hj. } { by rewrite Hdt. }
  { unfold file_messages in Hfl. cbn [length] in Hfl. rewrite length_app, length_fmap in Hfl. cbn in Hfl. lia. }
  rewrite <- Est in E2. eexists _, _, k2. split; [exact E2|]. split; [by apply live_lookup|]. rewrite Hj in Hf2.
  split_and!; try done. by rewrite Hout2, Ereq.
Qed.

Lemma aftp_get_stores_witness :
  let fs : disk (Some 1%nat) := demo_disk [1; 2; 3; 4; 5] in
  let d : disk None := demo_disk [9; 9; 9; 9; 9; 9; 9] in
  inbox (arriving [get_request (str "f") (str "f") 0]) = [get_request (str "f") (str "f") 0] /\
  exists r' ks' p' n' fs' ms,
    aftpd_turn false false false demo_system 6 (MkAftpd (Some (MkRecord 2 ∅)) (arriving [get_request (str "f") (str "f") 0]) 0 0 0 fs) =
      Ret false (MkAftpd (Some r') ks' p' n' 0 fs') /\ outbox ks' = ms /\
    exists st', aftp_receive_file false 0 (str "f") 1 (str "f") 1 (S (length ms))
        (MkAftp 1 (Live (with_conversation demo_session (arriving ms)) :: replicate 19 Null) 0 [] d) = Ret (Some AFTP_RC_OK) st' /\
      file (str "f") (files st') = Some [1; 2; 3; 4; 5; 9; 9].
Proof.
  intros fs d. split; [reflexivity|].
  assert (c_string (str "f")) as Hf by (apply (bool_decide_unpack _); vm_compute; exact I).
  assert (is_bytes [1; 2; 3; 4; 5]) as Hc by (apply (bool_decide_unpack _); vm_compute; exact I).
  destruct (aftp_get_stores (K := script) (F := disk None) (K' := script) (F' := disk (Some 1%nat)) demo_system (str "f") (str "f") 0 [1; 2; 3; 4; 5]
    (arriving [get_request (str "f") (str "f") 0]) [] (MkRecord 2 ∅) 0 0 0 fs 0 (MkDisk (d_files fs) [] (str "/") [(str "f", O)]) 6 Hf Hf)
    as (r' & ks' & p' & n' & fs' & ms & E & _ & Hout & _ & Hclient);
    [vm_compute; discriminate|exists []; reflexivity|exact (inbox_arriving _)|vm_compute; reflexivity|vm_compute; reflexivity|exact Hc
    |apply (bool_decide_unpack _); vm_compute; exact I|].
  exists r', ks', p', n', fs', ms. split; [exact E|]. split; [exact Hout|].
  destruct (Hclient 0 (MkAftp 1 (Live (with_conversation demo_session (arriving ms)) :: replicate 19 Null) 0 [] d)
    (with_conversation demo_session (arriving ms)) (arriving ms) 0 (MkDisk (d_files d) [] (str "/") [(str "f", O)]) [] (S (length ms)))
    as (st' & s' & k' & E' & _ & _ & _ & _ & Hfile & _);
    [reflexivity|reflexivity|vm_compute; discriminate|reflexivity|vm_compute; reflexivity|rewrite inbox_arriving; symmetry; apply app_nil_r|lia|].
  exists st'. split; [exact E'|exact Hfile].
Defined.
