(* ===== verification/AftpRequests.v ===== *)
(** * Requests and their answers

    What the client's functions report for each answer the server can give, and
    what the server does for each request. *)
From S2P Require Import Prelude Cpic CpicSession AsuiteRecord Posix Aftp Aftpd AftpTransfer.

(** Names of printable characters. *)
Definition printable (s : list Z) : Prop := Forall (fun c => 32 <= c < 256) s.

#[export] Instance printable_dec s : Decision (printable s).
Proof. unfold printable. apply _. Defined.

Lemma printable_string s : printable s -> c_string s.
Proof. intros H. split; eapply Forall_impl; try exact H; unfold is_byte; intros c Hc; cbn in Hc; lia. Qed.

(** ** The requests *)
Inductive request : Type :=
| ChangeDir (directory : list Z)
| CreateDir (directory : list Z)
| RemoveDir (directory : list Z)
| Delete (filename : list Z)
| Rename (oldfile newfile : list Z).

Definition request_type (q : request) : Z :=
  match q with
  | ChangeDir _ => AFTP_CHANGE_DIR | CreateDir _ => AFTP_CREATE_DIR | RemoveDir _ => AFTP_REMOVE_DIR
  | Delete _ => AFTP_DELETE | Rename _ _ => AFTP_RENAME
  end.

(** The name, and the new name. *)
Definition request_name (q : request) : list Z :=
  match q with ChangeDir d | CreateDir d | RemoveDir d | Delete d | Rename d _ => d end.
Definition request_params (q : request) : list param :=
  (AFTP_FILESPEC, request_name q ++ [0]) :: match q with Rename _ e => [(AFTP_NEW_FILESPEC, e ++ [0])] | _ => [] end.
Definition request_message (q : request) : list Z := message false (request_type q) (request_params q).

Definition request_fits (q : request) : Prop :=
  printable (request_name q) /\ match q with Rename _ e => printable e | _ => True end /\
  Z.of_nat (length (request_message q)) <= MAX_BUFFER_SIZE.

Definition run_request {K F} `{Cpic K} `{Posix F} (i : Z) (q : request) : M (aftp K F) (option Z) :=
  match q with
  | ChangeDir d => aftp_change_dir false i d (Z.of_nat (length d))
  | CreateDir d => aftp_create_dir false i d (Z.of_nat (length d))
  | RemoveDir d => aftp_remove_dir false i d (Z.of_nat (length d))
  | Delete f => aftp_delete false i f (Z.of_nat (length f))
  | Rename o n => aftp_rename false i o (Z.of_nat (length o)) n (Z.of_nat (length n))
  end.

(** What is reported for the server's return code: a deletion always succeeds,
    and so do changing to and creating a directory with a short name. *)
Definition reported (q : request) (code : Z) : Z :=
  match q with
  | RemoveDir _ | Rename _ _ => if decide (code = 0) then AFTP_RC_OK else AFTP_RC_FAIL_FATAL
  | ChangeDir d | CreateDir d => if decide (code = 0 \/ (length d <= 6)%nat) then AFTP_RC_OK else AFTP_RC_FAIL_FATAL
  | Delete _ => AFTP_RC_OK
  end.

Definition status_message (code category index : Z) : list Z :=
  message false ASUITE_STATUS_RECORD (status_params false code category index).

(** ** Strings in the record *)

Lemma peek_strncpy_ok s : forall n r pre post, rep r (pre ++ (Some <$> s ++ [0]) ++ post) ->
  exists bs, peek_strncpy (Z.of_nat (length pre)) n (Some r) = Ret bs (Some r) /\ length bs = n.
Proof.
  induction s as [|c s IH]; intros [|n] r pre post Hr; try (by exists []); cbn [peek_strncpy];
    (match type of Hr with rep _ (_ ++ (Some <$> ?l) ++ _) =>
       assert (peek (Z.of_nat (length pre)) (Some r) = Ret (default 0 (head l)) (Some r)) as E end;
     [eapply peek_rep; [exact Hr|]; by rewrite lookup_app_r, Nat.sub_diag by lia|]); rewrite (M_bind_Ret _ _ _ _ _ E).
  - rewrite decide_True by done. eexists. split; [done|]. apply length_replicate.
  - cbn [app head default]. case_decide; [eexists; split; [done|apply length_replicate]|].
    destruct (IH n r (pre ++ [Some c]) post) as (bs & E' & Hl); [by rewrite <- app_assoc|].
    rewrite length_app in E'. cbn [length] in E'. replace (Z.of_nat (length pre + 1)) with (Z.of_nat (length pre) + 1) in E' by lia.
    rewrite (M_bind_Ret _ _ _ _ _ E'). exists (c :: bs). split; [done|]. cbn. by rewrite Hl.
Qed.

(** Any bytes with a zero among them. *)
Lemma peek_strncpy_zero l n r pre post : rep r (pre ++ (Some <$> l) ++ post) -> 0 ∈ l ->
  exists bs, peek_strncpy (Z.of_nat (length pre)) n (Some r) = Ret bs (Some r) /\ length bs = n.
Proof.
  intros Hr (l1 & l2 & ->)%list_elem_of_split. apply (peek_strncpy_ok l1 n r pre ((Some <$> l2) ++ post)).
  rewrite !fmap_app in *. cbn in Hr |- *. by rewrite <- !app_assoc in *.
Qed.

(** The data of a parameter, three bytes into it. *)
Lemma param_data r pre key d post : rep r (pre ++ (Some <$> param_bytes false (key, d)) ++ post) ->
  exists pre', Z.of_nat (length pre') = Z.of_nat (length pre) + 3 /\ rep r (pre' ++ (Some <$> d) ++ post).
Proof.
  intros Hr. exists (pre ++ (Some <$> (wire16 false (Z.of_nat (length d) + 3) ++ [key]))). split.
  - rewrite length_app, length_fmap, length_app, length_wire16. cbn. lia.
  - unfold param_bytes in Hr. cbn [fst snd] in Hr. rewrite !fmap_app, <- !app_assoc in *. exact Hr.
Qed.

Lemma peek_buffer j c r : buffer r !! j = Some c -> 0 <= j < MAX_BUFFER_SIZE -> peek j (Some r) = Ret c (Some r).
Proof. intros Hb Hj. unfold peek, mbind, M_bind. cbn. unfold in_buffer. rewrite bool_decide_true by done. by rewrite Hb. Qed.

(** Two characters are not a length of zero. *)
Lemma get_twobyte_positive p x y r : peek p (Some r) = Ret x (Some r) -> peek (p + 1) (Some r) = Ret y (Some r) -> 0 < x < 256 ->
  exists n, get_twobyte false p (Some r) = Ret n (Some r) /\ 0 < n < 65536.
Proof.
  intros E1 E2 Hx. unfold get_twobyte. rewrite (M_bind_Ret _ _ _ _ _ E2), (M_bind_Ret _ _ _ _ _ E1). eexists. split; [done|].
  pose proof (htons_bounds false (u16 (Z.lor (Z.shiftl y 8) x))) as Hb. split; [|lia].
  set (w := Z.lor (Z.shiftl y 8) x) in *. unfold htons in *. assert (0 <= u16 (u16 w) < 65536) as Hw by (apply Z.mod_pos_bound; lia).
  rewrite bswap16_eq by done.
  assert (u16 (u16 w) mod 256 = x) as ->.
  { unfold u16. rewrite Z.mod_mod by lia. rewrite <- Znumtheory.Zmod_div_mod by (lia || by exists 256). rewrite <- land_255. unfold w.
    rewrite Z.land_lor_distr_l, !land_255, Z.shiftl_mul_pow2 by lia. change (2 ^ 8) with 256. rewrite Z.mod_mul, Z.lor_0_l by lia.
    apply Z.mod_small. lia. }
  assert (0 <= u16 (u16 w) / 256) by (apply Z.div_pos; lia). lia.
Qed.

(** The record of a request, and what is left of it in the buffer. *)
Lemma request_record q r : request_fits q -> exists r',
  (match q with
   | Rename o n => asuiterecord_clear;; asuiterecord_settype false (request_type q);;
       asuiterecord_append false AFTP_FILESPEC (o ++ [0]) (Z.of_nat (length o) + 1);;
       asuiterecord_append false AFTP_NEW_FILESPEC (n ++ [0]) (Z.of_nat (length n) + 1)
   | _ => asuiterecord_clear;; asuiterecord_settype false (request_type q);;
       asuiterecord_append false AFTP_FILESPEC (request_name q ++ [0]) (Z.of_nat (length (request_name q)) + 1)
   end) (Some r) = Ret 0 (Some r') /\ rep r' (Some <$> request_message q).
Proof.
  intros (Hn & Hq & Hl). destruct (printable_string _ Hn) as [Hn1 Hn2]. unfold request_message in *.
  destruct (start_message false (request_type q) r) as (r1 & E1 & H1).
  destruct (append_string false r1 _ [] AFTP_FILESPEC (request_name q) (Z.of_nat (length (request_name q)) + 1) H1) as (r2 & E2 & H2); [byte|done..| |].
  { revert Hl. unfold request_params. msg_len. }
  destruct q as [| | | |o n]; try (exists r2; split; [by rewrite <- M_bind_assoc, (M_bind_Ret _ _ _ _ _ E1)|exact H2]).
  destruct (printable_string _ Hq) as [Hq1 Hq2].
  destruct (append_string false r2 _ _ AFTP_NEW_FILESPEC n (Z.of_nat (length n) + 1) H2) as (r3 & E3 & H3); [byte|done..| |].
  { revert Hl. unfold request_params, request_name. cbn [app]. msg_len. }
  exists r3. split; [|exact H3]. by rewrite <- M_bind_assoc, (M_bind_Ret _ _ _ _ _ E1), (M_bind_Ret _ _ _ _ _ E2).
Qed.

Lemma request_buffer q r1 j c : rep r1 (Some <$> request_message q) -> request_name q !! j = Some c ->
  buffer r1 !! (Z.of_nat j + 5) = Some c.
Proof.
  intros (_ & _ & Hb) Hj. replace (Z.of_nat j + 5) with (Z.of_nat (5 + j)) by lia. apply Hb.
  unfold request_message, message, request_params. rewrite params_bytes_cons. unfold param_bytes. cbn [fst snd].
  rewrite list_lookup_fmap, <- !app_assoc. do 2 rewrite lookup_app_r by (rewrite !length_wire16; lia). rewrite !length_wire16.
  rewrite lookup_app_r by (cbn; lia). cbn [length]. replace (5 + j - 2 - 2 - 1)%nat with j by lia.
  rewrite lookup_app_l by (by eapply lookup_lt_Some). by rewrite Hj.
Qed.

Lemma length_status code category index : code <> 0 -> length (status_message code category index) = 22%nat.
Proof. intros H. unfold status_message, status_params. rewrite decide_True by done. msg_len. by rewrite length_twobytes. Qed.

Lemma length_status_ok category index : length (status_message 0 category index) = 6%nat.
Proof. done. Qed.

(** The room the session has for messages. *)
Definition msg_room (a : answer) : Prop := length (primary_msg a) = (MSG_BUFFER_LENGTH + 1)%nat.

Section Client.
Context {K F : Type} `{HC : Cpic K} `{HD : !Delivers K} `{HP : Posix F}.
Context (i : Z) (st0 : aftp K F) (s0 : ftpsession K) (Hi : (Z.to_nat i < length (sessions st0))%nat).

Abbreviation C := (live_state i st0 s0).

Lemma set_primary_msg_ok r k a f l pre post p : rep r (pre ++ (Some <$> l) ++ post) -> 0 ∈ l -> msg_room a -> Z.of_nat (length pre) = p + 3 ->
  exists m, set_primary_msg i p (C r k a f) = Ret tt (C r k (MkAnswer (status a) m (msg_category a) (msg_index a)) f) /\
    length m = length (primary_msg a).
Proof.
  intros Hr Hl Ha Hp. destruct (peek_strncpy_zero l MSG_BUFFER_LENGTH r pre post Hr Hl) as (bs & E & Hb). unfold set_primary_msg. rewrite <- Hp.
  rewrite (M_bind_Ret _ _ _ _ _ (client_rec_Ret i st0 s0 Hi _ r k a f _ _ E)).
  destruct (mem_write_lookup 0 bs (primary_msg a)) as (m & Em & Hm & _); [unfold msg_room in Ha; lia|].
  exists m. split; [|done]. apply (on_answer_Ret i st0 s0 Hi). by rewrite Em.
Qed.

(** The category and the index of an answer. *)
Lemma set_category_ok r k a f pre key category index post p : 0 <= category < 65536 -> 0 <= index < 65536 ->
  rep r (pre ++ (Some <$> param_bytes false (key, twobytes false [category; index])) ++ post) -> p = Z.of_nat (length pre) ->
  set_category false i p (C r k a f) = Ret tt (C r k (MkAnswer (status a) (primary_msg a) (Some category) (Some index)) f).
Proof.
  intros Hc Hx Hr ->. unfold param_bytes in Hr. cbn [fst snd] in Hr. rewrite !twobytes_cons in Hr. cbn [twobytes fmap list_fmap mjoin list_join] in Hr.
  unfold twobytes in Hr. cbn [fmap list_fmap mjoin list_join] in Hr. rewrite app_nil_r in Hr.
  unfold u16 in Hr. rewrite (Z.mod_small category), (Z.mod_small index) in Hr by done.
  rewrite !fmap_app, <- !app_assoc in Hr. set (hd := Some <$> wire16 false _) in Hr.
  assert (length hd = 2%nat) as Hh by (unfold hd; by rewrite length_fmap, length_wire16).
  assert (get_cat_index false (Z.of_nat (length pre) + 3) (Some r) = Ret category (Some r)) as E1.
  { replace (Z.of_nat (length pre) + 3) with (Z.of_nat (length (pre ++ hd ++ [Some key]))) by (rewrite !length_app, Hh; cbn; lia).
    eapply get_twobyte_rep; [done|]. rewrite <- !app_assoc. exact Hr. }
  assert (get_cat_index false (Z.of_nat (length pre) + 5) (Some r) = Ret index (Some r)) as E2.
  { replace (Z.of_nat (length pre) + 5) with (Z.of_nat (length (pre ++ hd ++ [Some key] ++ (Some <$> wire16 false category))))
      by (rewrite !length_app, Hh, length_fmap, length_wire16; cbn; lia).
    eapply get_twobyte_rep; [done|]. rewrite <- !app_assoc. exact Hr. }
  unfold set_category. rewrite (M_bind_Ret _ _ _ _ _ (client_rec_Ret i st0 s0 Hi _ r k a f _ _ E1)).
  rewrite (M_bind_Ret _ _ _ tt (C r k (MkAnswer (status a) (primary_msg a) (Some category) (msg_index a)) f)) by (by apply (on_answer_Ret i st0 s0 Hi)).
  rewrite (M_bind_Ret _ _ _ _ _ (client_rec_Ret i st0 s0 Hi _ r k _ f _ _ E2)). by apply (on_answer_Ret i st0 s0 Hi).
Qed.

(** What the three functions that look at an answer have in common. *)
Record handler_ok (h : Z -> Z -> Z -> M (aftp K F) Z) : Prop := {
  on_return_code r k a f pre c post x : rep r (pre ++ (Some <$> param_bytes false (AFTP_STATUS_RETURN_CODE, [c])) ++ post) -> msg_room a ->
    exists a', h AFTP_STATUS_RETURN_CODE (Z.of_nat (length pre)) x (C r k a f) = Ret x (C r k a' f) /\ msg_room a';
  on_category r k a f pre category index l post x : 0 <= category < 65536 -> 0 <= index < 65536 -> 0 ∈ l -> msg_room a ->
    rep r (pre ++ (Some <$> param_bytes false (AFTP_STATUS_CATEGORY_INDEX, twobytes false [category; index])) ++ (Some <$> l) ++ post) ->
    exists a', h AFTP_STATUS_CATEGORY_INDEX (Z.of_nat (length pre)) x (C r k a f) = Ret AFTP_RC_FAIL_FATAL (C r k a' f) /\ msg_room a' /\
      msg_category a' = Some category /\ msg_index a' = Some index;
  on_message r k a f pre s post x : rep r (pre ++ (Some <$> param_bytes false (AFTP_STATUS_PRIMARY_MSG, s ++ [0])) ++ post) -> msg_room a ->
    exists a', h AFTP_STATUS_PRIMARY_MSG (Z.of_nat (length pre)) x (C r k a f) = Ret x (C r k a' f) /\ msg_room a' /\
      msg_category a' = msg_category a /\ msg_index a' = msg_index a;
  on_other key p x st : 32 <= key -> h key p x st = Ret x st
}.

(** The last case of the three. *)
Lemma primary_case r k a f pre s post (x : Z) : rep r (pre ++ (Some <$> param_bytes false (AFTP_STATUS_PRIMARY_MSG, s ++ [0])) ++ post) -> msg_room a ->
  exists a', (set_primary_msg i (Z.of_nat (length pre));; mret x) (C r k a f) = Ret x (C r k a' f) /\ msg_room a' /\
    msg_category a' = msg_category a /\ msg_index a' = msg_index a.
Proof.
  intros Hr Ha. destruct (param_data _ _ _ _ _ Hr) as (pre' & Hp & Hr').
  destruct (set_primary_msg_ok r k a f (s ++ [0]) pre' post (Z.of_nat (length pre)) Hr') as (m & E & Hm); [set_solver|done|exact Hp|].
  eexists. rewrite (M_bind_Ret _ _ _ _ _ E). split; [done|]. split_and!; [|done..]. unfold msg_room in *. cbn. by rewrite Hm.
Qed.

Lemma change_dir_handler : handler_ok (Aftp.change_dir_param false i).
Proof.
  split.
  - intros r k a f pre c post x _ Ha. by exists a.
  - intros r k a f pre category index l post x Hc Hx Hl Ha Hr. unfold Aftp.change_dir_param.
    rewrite (decide_True (P := AFTP_STATUS_CATEGORY_INDEX = AFTP_STATUS_CATEGORY_INDEX)) by done.
    rewrite (M_bind_Ret _ _ _ _ _ (set_category_ok r k a f pre _ category index _ _ Hc Hx Hr eq_refl)).
    destruct (param_data _ _ _ _ _ Hr) as (pre' & Hp & Hr'). rewrite (app_assoc (Some <$> _)), <- fmap_app in Hr'.
    destruct (set_primary_msg_ok r k (MkAnswer (status a) (primary_msg a) (Some category) (Some index)) f
      (twobytes false [category; index] ++ l) pre' post (Z.of_nat (length pre)) Hr') as (m & E & Hm); [set_solver|done|exact Hp|].
    eexists. rewrite (M_bind_Ret _ _ _ _ _ E). split; [done|]. unfold msg_room in *. cbn in *. by rewrite Hm.
  - intros r k a f pre s post x Hr Ha. unfold Aftp.change_dir_param.
    rewrite decide_False, decide_True by done. by apply (primary_case r k a f pre s post).
  - intros key p x st Hk. unfold Aftp.change_dir_param. rewrite !decide_False by (unfold AFTP_STATUS_CATEGORY_INDEX, AFTP_STATUS_PRIMARY_MSG; lia). done.
Qed.

Lemma create_dir_handler : handler_ok (create_dir_param false i).
Proof.
  split.
  - intros r k a f pre c post x _ Ha. by exists a.
  - intros r k a f pre category index l post x Hc Hx Hl Ha Hr. unfold create_dir_param.
    rewrite (decide_True (P := AFTP_STATUS_CATEGORY_INDEX = AFTP_STATUS_CATEGORY_INDEX)) by done.
    rewrite (M_bind_Ret _ _ _ _ _ (set_category_ok r k a f pre _ category index _ _ Hc Hx Hr eq_refl)). by eexists.
  - intros r k a f pre s post x Hr Ha. unfold create_dir_param.
    rewrite decide_False, decide_True by done. by apply (primary_case r k a f pre s post).
  - intros key p x st Hk. unfold create_dir_param. rewrite !decide_False by (unfold AFTP_STATUS_CATEGORY_INDEX, AFTP_STATUS_PRIMARY_MSG; lia). done.
Qed.

Lemma status_handler : handler_ok (status_param false i).
Proof.
  split.
  - intros r k a f pre c post x Hr Ha. unfold status_param. rewrite decide_True by done. unfold set_status.
    destruct (param_data _ _ _ _ _ Hr) as (pre' & Hp & Hr'). rewrite <- Hp.
    assert (peek (Z.of_nat (length pre')) (Some r) = Ret c (Some r)) as E by (eapply peek_rep; [exact Hr'|]; by rewrite lookup_app_r, Nat.sub_diag by lia).
    rewrite M_bind_assoc, (M_bind_Ret _ _ _ _ _ (client_rec_Ret i st0 s0 Hi _ r k a f _ _ E)).
    rewrite (M_bind_Ret _ _ _ tt (C r k (MkAnswer (Some c) (primary_msg a) (msg_category a) (msg_index a)) f)) by (by apply (on_answer_Ret i st0 s0 Hi)).
    by eexists.
  - intros r k a f pre category index l post x Hc Hx Hl Ha Hr. unfold status_param. rewrite decide_False, decide_True by done.
    rewrite (M_bind_Ret _ _ _ _ _ (set_category_ok r k a f pre _ category index _ _ Hc Hx Hr eq_refl)). by eexists.
  - intros r k a f pre s post x Hr Ha. unfold status_param. do 2 rewrite decide_False by done. rewrite decide_True by done.
    by apply (primary_case r k a f pre s post).
  - intros key p x st Hk. unfold status_param.
    rewrite !decide_False by (unfold AFTP_STATUS_RETURN_CODE, AFTP_STATUS_CATEGORY_INDEX, AFTP_STATUS_PRIMARY_MSG; lia). done.
Qed.

(** ** The loop over an answer *)

(** Past the answer nothing is found that changes what is reported. *)
Definition stale_ok (h : Z -> Z -> Z -> M (aftp K F) Z) (r : asuiterecord) (n bound : Z) : Prop :=
  forall fuel p x k a f, n <= p < bound -> bound - p < Z.of_nat fuel ->
    response_params false i bound h fuel p x (C r k a f) = Ret x (C r k a f).

(** What is reported, and the category and index when it is a failure. *)
Ltac answered := eexists _, _; split; [reflexivity|split; [reflexivity|first [discriminate|by intros _; split]]].

Lemma status_answer h r k a f code category index bound :
  handler_ok h -> rep r (Some <$> status_message code category index) -> msg_room a -> 0 <= bound ->
  0 <= code < 256 -> 0 <= category < 65536 -> 0 <= index < 65536 ->
  stale_ok h r (Z.of_nat (length (status_message code category index))) bound ->
  exists a' rc, response_params false i bound h (S (Z.to_nat bound)) 2 AFTP_RC_OK (C r k a f) = Ret rc (C r k a' f) /\
    rc = (if decide (code = 0 \/ bound <= 6) then AFTP_RC_OK else AFTP_RC_FAIL_FATAL) /\
    (rc = AFTP_RC_FAIL_FATAL -> msg_category a' = Some category /\ msg_index a' = Some index).
Proof.
  intros Hh Hr Ha Hb Hcode Hcat Hidx Hstale. unfold status_message, status_params, message in *.
  set (hd := wire16 false (u16 ASUITE_STATUS_RECORD)) in *. assert (length hd = 2%nat) as Hw by apply length_wire16.
  change (u8 code) with (u8 code) in *.
  set (p1 := (ASUITE_STATUS_RETURN_CODE, [u8 code])) in *.
  assert (length (param_bytes false p1) = 4%nat) as Hl1 by (by rewrite length_param).
  rewrite params_bytes_cons, !fmap_app in Hr. change 2 with (Z.of_nat 2). rewrite <- Hw, <- (length_fmap Some).
  rewrite (response_step false i st0 s0 Hi bound h _ _ _ _ _ _ r k a f Hr).
  destruct (on_return_code h Hh r k a f _ _ _ AFTP_RC_OK Hr Ha) as (a1 & E1 & Ha1). rewrite (M_bind_Ret _ _ _ _ _ E1).
  rewrite length_fmap, Hw. change (Z.of_nat (2 + length [u8 code] + 3)) with 6.
  destruct (decide (code = 0)) as [->|Hne]; [rewrite (decide_True (P := 0 = 0 \/ bound <= 6)) by by left|].
  { destruct (decide (6 < bound)) as [H6|H6]; [|answered].
    rewrite (Hstale (Z.to_nat bound) 6 AFTP_RC_OK k a1 f); [answered| |lia].
    rewrite length_app, Hw, length_params_cons, length_params_nil. change (length p1.2) with 1%nat. lia. }
  destruct (decide (bound <= 6)) as [H6|H6].
  { rewrite (decide_False (P := 6 < bound)) by lia. rewrite decide_True by by right. answered. }
  rewrite (decide_True (P := 6 < bound)), (decide_False (P := code = 0 \/ bound <= 6)) by lia.
  rewrite (decide_True (P := code <> 0)) in Hr, Hstale by done.
  set (p2 := (ASUITE_STATUS_CATEGORY_INDEX, twobytes false [category; index])) in *.
  set (p3 := (ASUITE_STATUS_PRIMARY_MSG, str "ERROR" ++ [0])) in *.
  assert (length (param_bytes false p2) = 7%nat) as Hl2 by (rewrite length_param; unfold p2; cbn [snd]; by rewrite length_twobytes).
  assert (length (param_bytes false p3) = 9%nat) as Hl3 by (by rewrite length_param).
  change (params_bytes false [p2; p3]) with (param_bytes false p2 ++ param_bytes false p3 ++ []) in Hr. rewrite app_nil_r, !fmap_app in Hr.
  rewrite app_assoc in Hr. set (pre2 := (Some <$> hd) ++ (Some <$> param_bytes false p1)) in Hr.
  assert (6 = Z.of_nat (length pre2)) as E6 by (unfold pre2; rewrite length_app, !length_fmap, Hw, Hl1; done).
  rewrite E6. destruct (Z.to_nat bound) as [|[|fuel]] eqn:Ef; [lia|lia|].
  rewrite (response_step false i st0 s0 Hi bound h _ _ _ _ _ _ r k a1 f Hr).
  destruct (on_category h Hh r k a1 f pre2 category index (param_bytes false p3) [] AFTP_RC_OK Hcat Hidx) as (a2 & E2 & Ha2 & Hc2 & Hi2);
    [apply (bool_decide_unpack _); vm_compute; exact I|done|by rewrite app_nil_r|].
  rewrite (M_bind_Ret _ _ _ _ _ E2).
  assert (Z.of_nat (length pre2 + length (twobytes false [category; index]) + 3) = 13) as -> by (rewrite length_twobytes; cbn [length]; lia).
  destruct (decide (13 < bound)) as [H13|H13]; [|answered].
  rewrite app_assoc in Hr. set (pre3 := pre2 ++ _) in Hr.
  assert (13 = Z.of_nat (length pre3)) as E13 by (unfold pre3; rewrite length_app, length_fmap, Hl2; lia). rewrite E13.
  rewrite <- (app_nil_r (Some <$> param_bytes false p3)) in Hr.
  rewrite (response_step false i st0 s0 Hi bound h _ _ _ _ _ _ r k a2 f Hr).
  destruct (on_message h Hh r k a2 f pre3 (str "ERROR") [] AFTP_RC_FAIL_FATAL Hr Ha2) as (a3 & E3 & Ha3 & Hc3 & Hi3).
  rewrite (M_bind_Ret _ _ _ _ _ E3). rewrite Hc2 in Hc3. rewrite Hi2 in Hi3.
  assert (Z.of_nat (length pre3 + length (str "ERROR" ++ [0]) + 3) = 22) as -> by (cbn [length]; rewrite <- (Nat2Z.id (length pre3)), <- E13; done).
  destruct (decide (22 < bound)) as [H22|H22]; [|answered].
  rewrite (Hstale fuel 22 AFTP_RC_FAIL_FATAL k a3 f); [answered| |lia].
  rewrite length_app, Hw. change (params_bytes false [p1; p2; p3]) with (param_bytes false p1 ++ param_bytes false p2 ++ param_bytes false p3 ++ []).
  rewrite app_nil_r, !length_app, Hl1, Hl2, Hl3. cbn. lia.
Qed.

(** ** What is found past an answer: the rest of the request *)

Lemma stale_directory h d r n : handler_ok h -> printable d -> 6 <= n -> Z.of_nat (length d) + 6 <= MAX_BUFFER_SIZE ->
  (forall j c, d !! j = Some c -> n <= Z.of_nat j + 5 -> buffer r !! (Z.of_nat j + 5) = Some c) ->
  stale_ok h r n (Z.of_nat (length d)).
Proof.
  intros Hh Hd Hn Hl Hb. unfold stale_ok. induction fuel as [|fuel IH]; intros p x k a f Hp Hf; [lia|].
  assert (forall q, p <= q < p + 3 -> exists c, peek q (Some r) = Ret c (Some r) /\ 32 <= c < 256) as Hpeek.
  { intros q Hq. destruct (lookup_lt_is_Some_2 d (Z.to_nat (q - 5)) ltac:(lia)) as [c Hc]. exists c. split; [|by eapply Forall_lookup_1 in Hd].
    apply peek_buffer; [|lia]. specialize (Hb _ _ Hc ltac:(lia)). by replace (Z.of_nat (Z.to_nat (q - 5)) + 5) with q in Hb by lia. }
  destruct (Hpeek p ltac:(lia)) as (c1 & E1 & H1). destruct (Hpeek (p + 1) ltac:(lia)) as (c2 & E2 & _).
  destruct (Hpeek (p + 2) ltac:(lia)) as (c3 & E3 & H3).
  destruct (get_twobyte_positive p c1 c2 r E1 E2 ltac:(lia)) as (v & Ev & Hv). cbn [response_params].
  rewrite (M_bind_Ret _ _ _ _ _ (client_rec_Ret i st0 s0 Hi (get_param_len false p) r k a f _ _ Ev)).
  rewrite (M_bind_Ret _ _ _ _ _ (client_rec_Ret i st0 s0 Hi (get_key p) r k a f _ _ E3)).
  rewrite (M_bind_Ret _ _ _ _ _ (on_other h Hh c3 p x (C r k a f) ltac:(lia))).
  assert (u32 (p + v) = p + v) as -> by (unfold u32; unfold MAX_BUFFER_SIZE in Hl; apply Z.mod_small; lia).
  destruct (decide (p + v < Z.of_nat (length d))); [|done]. apply IH; lia.
Qed.

(** A record sent, and the answer received over it. *)
Lemma asked {X} (prog : R X) x m r r1 k a f ans rest : prog (Some r) = Ret x (Some r1) -> rep r1 (Some <$> m) ->
  inbox k = ans :: rest -> is_bytes ans -> Z.of_nat (length ans) <= MAX_BUFFER_SIZE ->
  exists r2 k2, (Aftp.on_rec i prog;; exchange i) (C r k a f) = Ret AFTP_RC_OK (C r2 k2 a f) /\ rep r2 (Some <$> ans) /\
    outbox k2 = outbox k ++ [m] /\ inbox k2 = rest /\ forall j, Z.of_nat (length ans) <= j -> buffer r2 !! j = buffer r1 !! j.
Proof.
  intros E1 H1 Hin Hb Hl. rewrite (M_bind_Ret _ _ _ _ _ (client_rec_Ret i st0 s0 Hi _ r k a f _ _ E1)). unfold exchange.
  destruct (send_delivers r1 m k H1) as (k1 & E2 & Hout1 & Hin1).
  rewrite (M_bind_Ret _ _ _ _ _ (client_msg_Ret i st0 s0 Hi _ r1 k a f _ _ _ E2)). rewrite (decide_False (P := ASUITE_RC_OK <> AFTP_RC_OK)) by (by intros []).
  destruct (get_delivers r1 k1 ans rest) as (r2 & k2 & E3 & H2 & Hout2 & Hin2 & Hbuf); [by rewrite Hin1|done|done|].
  exists r2, k2. split; [by apply (client_msg_Ret i st0 s0 Hi)|]. by rewrite Hout2, Hout1.
Qed.

(** The loop ends where the answer does, or where the name would. *)
Lemma stale_none h r n bound : bound <= n -> stale_ok h r n bound.
Proof. intros H fuel p x k a f Hp. lia. Qed.

End Client.

Section Outcome.
Context {K F : Type} `{HC : Cpic K} `{HD : !Delivers K} `{HP : Posix F}.
Context (i : Z) (st0 : aftp K F) (s0 : ftpsession K) (Hi : (Z.to_nat i < length (sessions st0))%nat).

Abbreviation C := (live_state i st0 s0).

(** The [switch] on an answer's major code, for a status. *)
Lemma response_status {X} bound (h : Z -> Z -> X -> M (aftp K F) X) x r k a f code category index :
  rep r (Some <$> status_message code category index) ->
  response false i bound AFTP_SIMPLE_RESPONSE h x (C r k a f) =
    response_params false i bound h (S (Z.to_nat bound)) 2 x (C r k a f).
Proof.
  intros Hr. unfold response. assert (get_major_code (Some r) = Ret ASUITE_STATUS_RECORD (Some r)) as E.
  { eapply get_major_code_rep; [unfold ASUITE_STATUS_RECORD; lia|]. rewrite app_nil_r. exact Hr. }
  rewrite (M_bind_Ret _ _ _ _ _ (client_rec_Ret i st0 s0 Hi _ r k a f _ _ E)). by rewrite decide_True.
Qed.

Lemma status_params_ok code category index : 0 <= category < 65536 -> 0 <= index < 65536 ->
  Forall (fun p => is_byte p.1 /\ is_bytes p.2) (status_params false code category index).
Proof.
  intros Hc Hx. unfold status_params.
  apply Forall_cons_2; [split; [byte|constructor; [apply u8_byte|constructor]]|]. case_decide; [|constructor].
  repeat apply Forall_cons_2; try apply Forall_nil_2; cbn [fst snd]; (split; [byte|]); [|byte].
  rewrite !twobytes_cons. unfold u16. rewrite !Z.mod_small by done.
  apply Forall_app_2; [by apply wire16_bytes|]. apply Forall_app_2; [by apply wire16_bytes|constructor].
Qed.

Lemma status_ok_bytes code category index : 0 <= category < 65536 -> 0 <= index < 65536 ->
  is_bytes (status_message code category index) /\ Z.of_nat (length (status_message code category index)) <= MAX_BUFFER_SIZE.
Proof.
  intros Hc Hx. assert (Z.of_nat (length (status_message code category index)) <= MAX_BUFFER_SIZE) as Hl.
  { destruct (decide (code = 0)) as [->|Hne]; [by vm_compute|]. rewrite length_status by done. by vm_compute. }
  split; [|done]. apply message_bytes_ok; [unfold ASUITE_STATUS_RECORD; lia|by apply status_params_ok|done].
Qed.

Lemma deletion_reported r k a f code category index ftp_rc : rep r (Some <$> status_message code category index) ->
  0 <= category < 65536 -> 0 <= index < 65536 ->
  (receive_length ← received_len i; response false i receive_length AFTP_SIMPLE_RESPONSE ignore_param tt;; (mret (Some ftp_rc) : M (aftp K F) (option Z))) (C r k a f) =
    Ret (Some ftp_rc) (C r k a f).
Proof.
  intros Hr Hc Hx. destruct (status_ok_bytes code category index Hc Hx) as [Hb Hl].
  rewrite <- M_bind_assoc. rewrite (M_bind_Ret _ _ _ tt (C r k a f)); [done|].
  apply (client_ignores i st0 s0 Hi ASUITE_STATUS_RECORD (status_params false code category index)); [|exact Hr].
  split_and!; [done|done|by intros ?|by apply status_params_ok|exact Hl].
Qed.

(** What a function that looks at the answer returns. *)
Lemma looked_at h bound r k a f code category index : handler_ok i st0 s0 h ->
  rep r (Some <$> status_message code category index) -> msg_room a -> 0 <= bound ->
  0 <= code < 256 -> 0 <= category < 65536 -> 0 <= index < 65536 ->
  stale_ok i st0 s0 h r (Z.of_nat (length (status_message code category index))) bound ->
  exists a' rc, ret_code (response false i bound AFTP_SIMPLE_RESPONSE h AFTP_RC_OK) (C r k a f) = Ret (Some rc) (C r k a' f) /\
    rc = (if decide (code = 0 \/ bound <= 6) then AFTP_RC_OK else AFTP_RC_FAIL_FATAL) /\
    (rc = AFTP_RC_FAIL_FATAL -> msg_category a' = Some category /\ msg_index a' = Some index).
Proof.
  intros Hh Hr Ha Hb Hcode Hc Hx Hs.
  destruct (status_answer i st0 s0 Hi h r k a f code category index bound Hh Hr Ha Hb Hcode Hc Hx Hs) as (a' & rc & E & H).
  exists a', rc. split; [|exact H]. unfold ret_code. by rewrite (M_bind_Ret _ _ _ rc (C r k a' f)) by (by rewrite (response_status bound h AFTP_RC_OK r k a f _ _ _ Hr)).
Qed.

(** Asking, and what is then known of the answer. *)
Lemma request_asked q r k a f code category index rest : request_fits q ->
  0 <= category < 65536 -> 0 <= index < 65536 -> inbox k = status_message code category index :: rest ->
  exists r1 r2 k2, (match q with
     | Rename o n => asuiterecord_clear;; asuiterecord_settype false (request_type q);;
         asuiterecord_append false AFTP_FILESPEC (o ++ [0]) (Z.of_nat (length o) + 1);;
         asuiterecord_append false AFTP_NEW_FILESPEC (n ++ [0]) (Z.of_nat (length n) + 1)
     | _ => asuiterecord_clear;; asuiterecord_settype false (request_type q);;
         asuiterecord_append false AFTP_FILESPEC (request_name q ++ [0]) (Z.of_nat (length (request_name q)) + 1)
     end) (Some r) = Ret 0 (Some r1) /\
    (forall prog : R Z, prog (Some r) = Ret 0 (Some r1) -> (Aftp.on_rec i prog;; exchange i) (C r k a f) = Ret AFTP_RC_OK (C r2 k2 a f)) /\
    rep r2 (Some <$> status_message code category index) /\ outbox k2 = outbox k ++ [request_message q] /\ inbox k2 = rest /\
    forall h d, handler_ok i st0 s0 h -> (q = ChangeDir d \/ q = CreateDir d) ->
      stale_ok i st0 s0 h r2 (Z.of_nat (length (status_message code category index))) (Z.of_nat (length d)).
Proof.
  intros Hq Hc Hx Hin. destruct (status_ok_bytes code category index Hc Hx) as [Hb Hl].
  destruct (request_record q r Hq) as (r1 & E1 & H1).
  destruct (asked i st0 s0 Hi _ _ _ r r1 k a f _ rest E1 H1 Hin Hb Hl) as (r2 & k2 & E & H2 & Hout & Hin2 & Hbuf).
  exists r1, r2, k2. split_and!; try done.
  { intros prog Ep. rewrite <- E. rewrite (M_bind_Ret _ _ _ _ _ (client_rec_Ret i st0 s0 Hi _ r k a f _ _ Ep)).
    by rewrite (M_bind_Ret _ _ _ _ _ (client_rec_Ret i st0 s0 Hi _ r k a f _ _ E1)). }
  intros h d Hh Hqd. assert (request_name q = d) as Hd by (by destruct Hqd as [->| ->]). destruct Hq as (Hp & _ & Hmax).
  apply (stale_directory i st0 s0 Hi h d r2); [done|by rewrite <- Hd| | |].
  - destruct (decide (code = 0)) as [->|Hne]; [by rewrite length_status_ok|]. rewrite length_status by done. lia.
  - revert Hmax. unfold request_message, request_params. rewrite Hd. msg_len.
  - intros j c Hj Hn. rewrite Hbuf by lia. apply (request_buffer q); [done|by rewrite Hd].
Qed.

(** Ask, look at the answer with handler [h] up to [bound], and compare. *)
Ltac report i st0 s0 Hi E fn :=
  unfold fn; rewrite (guarded_live i st0 s0 Hi), <- M_bind_assoc, (M_bind_Ret _ _ _ _ _ E), decide_False by (by intros []).

Lemma request_reported q r k a f code category index rest : request_fits q -> msg_room a ->
  0 <= code < 256 -> 0 <= category < 65536 -> 0 <= index < 65536 -> inbox k = status_message code category index :: rest ->
  exists r' k' a', run_request i q (C r k a f) = Ret (Some (reported q code)) (C r' k' a' f) /\
    inbox k' = rest /\ outbox k' = outbox k ++ [request_message q] /\
    (reported q code = AFTP_RC_FAIL_FATAL -> msg_category a' = Some category /\ msg_index a' = Some index).
Proof.
  intros Hq Ha Hcode Hc Hx Hin.
  destruct (request_asked q r k a f code category index rest Hq Hc Hx Hin) as (r1 & r2 & k2 & E1 & E & H2 & Hout & Hin2 & Hstale).
  apply E in E1. pose proof H2 as (Hpos & _). rewrite length_fmap in Hpos.
  assert (Z.of_nat (length (status_message code category index)) <= 6 <-> code = 0) as H6.
  { split; [|intros ->; by rewrite length_status_ok]. intros H. destruct (decide (code = 0)); [done|]. rewrite length_status in H by done. lia. }
  assert (forall d : list Z, (if decide (code = 0 \/ Z.of_nat (length d) <= 6) then AFTP_RC_OK else AFTP_RC_FAIL_FATAL) = reported (ChangeDir d) code) as Ed.
  { intros d. cbn [reported]. destruct (decide _), (decide _); try done; lia. }
  assert ((if decide (code = 0 \/ position r2 <= 6) then AFTP_RC_OK else AFTP_RC_FAIL_FATAL) = reported (RemoveDir []) code) as Er.
  { cbn [reported]. destruct (decide _), (decide _); try done; lia. }
  assert (forall h bound, handler_ok i st0 s0 h -> 0 <= bound -> stale_ok i st0 s0 h r2 (Z.of_nat (length (status_message code category index))) bound ->
    exists a' rc, ret_code (response false i bound AFTP_SIMPLE_RESPONSE h AFTP_RC_OK) (C r2 k2 a f) = Ret (Some rc) (C r2 k2 a' f) /\
      rc = (if decide (code = 0 \/ bound <= 6) then AFTP_RC_OK else AFTP_RC_FAIL_FATAL) /\
      (rc = AFTP_RC_FAIL_FATAL -> msg_category a' = Some category /\ msg_index a' = Some index)) as Hlook.
  { intros h bound Hh Hb Hs. by apply looked_at. }
  exists r2, k2. destruct q as [d|d|d|d|d e]; unfold run_request.
  - destruct (Hlook (Aftp.change_dir_param false i) (Z.of_nat (length d))) as (a' & rc & E' & -> & Hrc);
      [by apply change_dir_handler|lia|apply Hstale; [by apply change_dir_handler|by left]|].
    exists a'. report i st0 s0 Hi E1 (@aftp_change_dir). rewrite E', Ed. rewrite Ed in Hrc. by split_and!.
  - destruct (Hlook (create_dir_param false i) (Z.of_nat (length d))) as (a' & rc & E' & -> & Hrc);
      [by apply create_dir_handler|lia|apply Hstale; [by apply create_dir_handler|by right]|].
    exists a'. report i st0 s0 Hi E1 (@aftp_create_dir). rewrite E', Ed. rewrite Ed in Hrc. by split_and!.
  - destruct (Hlook (status_param false i) (position r2)) as (a' & rc & E' & -> & Hrc); [by apply status_handler|lia|apply stale_none; lia|].
    exists a'. report i st0 s0 Hi E1 (@aftp_remove_dir).
    rewrite (M_bind_Ret _ _ _ _ _ (received_len_live i st0 s0 Hi r2 k2 a f)), E', Er. rewrite Er in Hrc. by split_and!.
  - exists a. report i st0 s0 Hi E1 (@aftp_delete).
    rewrite (deletion_reported r2 k2 a f code category index AFTP_RC_OK H2 Hc Hx). by split_and!.
  - destruct (Hlook (status_param false i) (position r2)) as (a' & rc & E' & -> & Hrc); [by apply status_handler|lia|apply stale_none; lia|].
    exists a'. report i st0 s0 Hi E1 (@aftp_rename).
    rewrite (M_bind_Ret _ _ _ _ _ (received_len_live i st0 s0 Hi r2 k2 a f)), E', Er. rewrite Er in Hrc. by split_and!.
Qed.
End Outcome.

(** ** The server *)

(** The operation a request asks for; the error, or none, and the files after. *)
Definition perform {F} `{Posix F} (q : request) (f : F) : option Z * F :=
  match q with
  | ChangeDir d => chdir d f
  | CreateDir d => mkdir d f
  | RemoveDir d => rmdir d f
  | Delete p => unlink p f
  | Rename p p' => rename p p' f
  end.

Definition change_dir_error (e : Z) : Z := if decide (e = ENOENT) then A_ERR_FILE_NOT_FOUND else A_ERR_ACTION_NOT_PERFORMED.

Definition request_error (q : request) : Z -> Z :=
  match q with
  | ChangeDir _ => change_dir_error
  | CreateDir _ => create_dir_error
  | RemoveDir _ => remove_dir_error
  | Delete _ => delete_error
  | Rename _ _ => rename_error
  end.

(** The answer's return code and index. *)
Definition answer_code (err : option Z) : Z := match err with Some _ => AFTP_RC_FAIL_INPUT_ERROR | None => AFTP_RC_OK end.
Definition answer_index (q : request) (err : option Z) : Z := match err with Some e => request_error q e | None => 0 end.
Definition answer_message (q : request) (err : option Z) : list Z := status_message (answer_code err) 0 (answer_index q err).

Lemma answer_index_bound q err : 0 <= answer_index q err < 65536.
Proof.
  destruct err as [e|]; [|done]. destruct q; cbn; unfold change_dir_error, create_dir_error, remove_dir_error, delete_error, rename_error;
    repeat (case_decide; [by vm_compute|]); by vm_compute.
Qed.

Section Serve.
Context {K F : Type} `{HC : Cpic K} `{HD : !Delivers K} `{HP : Posix F}.
Context (sys : system).

Abbreviation V r k p n d f := (MkAftpd (Some r) k p n d f).

(** A request with one name. *)
Lemma with_single {X} (handle : Z -> X -> M (aftpd K F) (option X)) x (cont : X -> M (aftpd K F) unit) t s r k d f :
  let n := Z.of_nat (length (message false t [(AFTP_FILESPEC, s ++ [0])])) in
  rep r (Some <$> message false t [(AFTP_FILESPEC, s ++ [0])]) ->
  with_params false handle x cont (V r k 2 n d f) =
    (x ← handle AFTP_FILESPEC x; match x with Some x => set_curpos n;; cont x | None => mret tt end) (V r k 2 n d f).
Proof.
  intros n Hr. unfold with_params. rewrite get_st_bind. cbn [returned_length]. pose proof Hr as (_ & Hm & _). rewrite length_fmap in Hm.
  unfold message in Hr. rewrite fmap_app in Hr. rewrite params_bytes_cons, fmap_app in Hr.
  pose proof (length_wire16 false (u16 t)) as Hw. rewrite <- (length_fmap Some) in Hw.
  destruct (param_rep _ _ _ _ _ _ Hr) as (E1 & E2 & _). rewrite Hw in E1, E2. change (Z.of_nat 2) with 2 in E1, E2.
  cbn [params]. rewrite M_bind_assoc, get_st_bind. cbn [curpos returned_length].
  rewrite M_bind_assoc, (M_bind_Ret _ _ _ _ _ (server_rec_Ret _ _ k _ n d f _ _ E1)).
  rewrite M_bind_assoc, (M_bind_Ret _ _ _ _ _ (server_rec_Ret _ _ k _ n d f _ _ E2)). rewrite M_bind_assoc.
  unfold mbind, M_bind at 1 4. destruct (handle AFTP_FILESPEC x (V r k 2 n d f)) as [[y|] st| | | |]; try done.
  assert (u32 (2 + (Z.of_nat (length (s ++ [0])) + 3)) = n) as ->.
  { unfold n. revert Hm. msg_len. intros Hm. unfold u32. rewrite Z.mod_small; lia. }
  by rewrite decide_False by lia.
Qed.

Lemma param_string_single t s r k n d f : rep r (Some <$> message false t [(AFTP_FILESPEC, s ++ [0])]) -> no_nul s ->
  param_string (K := K) (F := F) (V r k 2 n d f) = Ret s (V r k 2 n d f).
Proof.
  intros Hr Hs. unfold message in Hr. rewrite fmap_app, params_bytes_cons, fmap_app in Hr.
  pose proof (length_wire16 false (u16 t)) as Hw. rewrite <- (length_fmap Some) in Hw.
  change 2 with (Z.of_nat 2). rewrite <- Hw. by eapply (param_string_ok false s AFTP_FILESPEC r _ _ k n d f).
Qed.

Lemma answer_errno_ok g err r k p n d f :
  answer_errno (F := F) false false g err (V r k p n d f) =
    Ret tt (V r (cmsend (status_message (answer_code err) 0 (match err with Some e => g e | None => 0 end)) k).2 p n d f).
Proof. destruct err; apply respond_Ret. Qed.

Lemma serve_filespec t s (cont : option (list Z) -> M (aftpd K F) unit) r k d f : let n := Z.of_nat (length (message false t [(AFTP_FILESPEC, s ++ [0])])) in
  rep r (Some <$> message false t [(AFTP_FILESPEC, s ++ [0])]) -> no_nul s ->
  with_params false (filespec_param false false false) None cont (V r k 2 n d f) = cont (Some s) (V r k n n d f).
Proof.
  intros n Hr Hs. rewrite (with_single _ _ _ _ _ _ _ _ _ Hr). unfold filespec_param. rewrite decide_True by done.
  unfold copied_string. rewrite M_bind_assoc, (M_bind_assoc param_string), (M_bind_Ret _ _ _ _ _ (param_string_single t s r k n d f Hr Hs)). done.
Qed.

(** An operation on one name, and its answer. *)
Lemma serve_operation t s (op : list Z -> F -> option Z * F) g r k d f err f' :
  let n := Z.of_nat (length (message false t [(AFTP_FILESPEC, s ++ [0])])) in
  rep r (Some <$> message false t [(AFTP_FILESPEC, s ++ [0])]) -> no_nul s -> op s f = (err, f') ->
  exists k', with_params false (filespec_param false false false) None (fun filespec =>
      filespec ← of_opt filespec; e ← on_files (op filespec); answer_errno false false g e) (V r k 2 n d f) = Ret tt (V r k' n n d f') /\
    k' = (cmsend (status_message (answer_code err) 0 (match err with Some e => g e | None => 0 end)) k).2.
Proof.
  intros n Hr Hs Hop. eexists. split; [|done]. rewrite (serve_filespec t s _ r k d f Hr Hs). rewrite of_opt_Some_bind.
  rewrite (M_bind_Ret _ _ _ _ _ (server_files_Ret (op s) r k n n d f _ _ Hop)). apply answer_errno_ok.
Qed.

Lemma serve_change_dir s r k d f err f' : let n := Z.of_nat (length (message false AFTP_CHANGE_DIR [(AFTP_FILESPEC, s ++ [0])])) in
  rep r (Some <$> message false AFTP_CHANGE_DIR [(AFTP_FILESPEC, s ++ [0])]) -> no_nul s -> chdir s f = (err, f') ->
  exists r' k' p', a_change_dir false false false (V r k 2 n d f) = Ret tt (V r' k' p' n d f') /\ inbox k' = inbox k /\
    outbox k' = outbox k ++ [answer_message (ChangeDir s) err].
Proof.
  intros n Hr Hs Hop. unfold a_change_dir. rewrite (with_single _ _ _ _ _ _ _ _ _ Hr). unfold Aftpd.change_dir_param.
  rewrite decide_True by done. rewrite M_bind_assoc, (M_bind_Ret _ _ _ _ _ (param_string_single _ s r k n d f Hr Hs)). cbv iota.
  rewrite M_bind_assoc, (M_bind_Ret _ _ _ _ _ (server_files_Ret (chdir s) r k 2 n d f _ _ Hop)). destruct err as [e|].
  - rewrite M_bind_assoc, (M_bind_Ret _ _ _ _ _ (respond_Ret false _ _ _ r k 2 n d f')). eexists r, _, 2. split; [done|].
    by rewrite cmsend_inbox, cmsend_outbox.
  - rewrite M_ret_bind, set_curpos_bind. destruct (start_message false AFTP_SIMPLE_RESPONSE r) as (r1 & E1 & H1).
    destruct (append_char false r1 _ [] AFTP_STATUS_RETURN_CODE 0 H1) as (r2 & E2 & H2); [byte|by vm_compute|].
    rewrite (M_bind_Ret _ _ _ 0 (V r2 k n n d f')).
    2:{ apply server_rec_Ret. by rewrite <- M_bind_assoc, (M_bind_Ret _ _ _ _ _ E1). }
    destruct (send_delivers r2 _ k H2) as (k' & E3 & Hout & Hin). unfold send.
    rewrite (M_bind_Ret _ _ _ _ _ (server_msg_Ret _ r2 k n n d f' _ _ _ E3)). by eexists r2, k', n.
Qed.

Lemma serve_rename s s' r k d f err f' : let ps := [(AFTP_FILESPEC, s ++ [0]); (AFTP_NEW_FILESPEC, s' ++ [0])] in
  let n := Z.of_nat (length (message false AFTP_RENAME ps)) in
  rep r (Some <$> message false AFTP_RENAME ps) -> printable s -> printable s' -> rename s s' f = (err, f') ->
  exists k', a_rename false false false (V r k 2 n d f) = Ret tt (V r k' n n d f') /\
    k' = (cmsend (status_message (answer_code err) 0 (match err with Some e => rename_error e | None => 0 end)) k).2.
Proof.
  intros ps n Hr [Hs _]%printable_string [Hs' _]%printable_string Hop. eexists. split; [|done]. unfold a_rename.
  rewrite (with_files [] ps _ AFTP_RENAME r k d f Hr ltac:(done)).
  2:{ apply Forall_cons_2; [|apply Forall_cons_2; [|constructor]]; left; cbn [fst snd].
      - split; [by left|by exists s].
      - split; [by right|by exists s']. }
  assert (foldl (fun x p => files_step p x) (None, None) ps = (Some s, Some s')) as ->.
  { unfold ps. cbn [foldl]. unfold files_step. cbn. by rewrite !c_str_string. }
  rewrite !of_opt_Some_bind. fold n. rewrite (M_bind_Ret _ _ _ _ _ (server_files_Ret (rename s s') r k n n d f _ _ Hop)). apply answer_errno_ok.
Qed.

Lemma server_performs q later fuel r k p n d f err f' : request_fits q -> inbox k = request_message q :: later -> perform q f = (err, f') ->
  exists r' k' p' n', aftpd_turn false false false sys fuel (V r k p n d f) = Ret false (V r' k' p' n' d f') /\ inbox k' = later /\
    outbox k' = outbox k ++ [answer_message q err].
Proof.
  intros (Hn & Hq & Hl) Hin Hop. destruct (printable_string _ Hn) as [Hs Hb].
  assert (is_bytes (request_message q)) as Hbytes.
  { apply message_bytes_ok; [destruct q; by vm_compute| |done]. unfold request_params.
    apply Forall_cons_2; [split; [byte|apply Forall_app_2; [done|byte]]|]. destruct q; try constructor; [|constructor].
    split; [byte|]. apply Forall_app_2; [by apply printable_string|byte]. }
  destruct (turn_dispatch sys (request_type q) _ later fuel r k p n d f Hin Hbytes Hl) as (r1 & k1 & E & H1 & Hout & Hin1).
  { unfold request_message. rewrite <- (app_nil_r (message _ _ _)). apply message_major. destruct q; by vm_compute. }
  rewrite E. destruct q as [s|s|s|s|s s']; cbn [request_type]; unfold request_message, request_params in H1; cbn [request_type request_name] in H1.
  - destruct (serve_change_dir s r1 k1 d f err f' H1 Hs Hop) as (r2 & k2 & p2 & E2 & Hin2 & Hout2).
    change (dispatch false false false sys fuel AFTP_CHANGE_DIR) with (a_change_dir (K := K) (F := F) false false false;; mret false).
    rewrite (M_bind_Ret _ _ _ _ _ E2). exists r2, k2. eexists _, _. split; [done|]. by rewrite Hin2, Hout2, Hin1, Hout.
  - destruct (serve_operation _ s mkdir create_dir_error r1 k1 d f err f' H1 Hs Hop) as (k2 & E2 & ->).
    change (dispatch false false false sys fuel AFTP_CREATE_DIR) with (a_create_dir (K := K) (F := F) false false false;; mret false).
    rewrite (M_bind_Ret _ _ _ tt _ E2). exists r1. eexists _, _, _. split; [done|]. by rewrite cmsend_inbox, cmsend_outbox, Hin1, Hout.
  - destruct (serve_operation _ s rmdir remove_dir_error r1 k1 d f err f' H1 Hs Hop) as (k2 & E2 & ->).
    change (dispatch false false false sys fuel AFTP_REMOVE_DIR) with (a_remove_dir (K := K) (F := F) false false false;; mret false).
    rewrite (M_bind_Ret _ _ _ tt _ E2). exists r1. eexists _, _, _. split; [done|]. by rewrite cmsend_inbox, cmsend_outbox, Hin1, Hout.
  - destruct (serve_operation _ s unlink delete_error r1 k1 d f err f' H1 Hs Hop) as (k2 & E2 & ->).
    change (dispatch false false false sys fuel AFTP_DELETE) with (a_delete (K := K) (F := F) false false false;; mret false).
    rewrite (M_bind_Ret _ _ _ tt _ E2). exists r1. eexists _, _, _. split; [done|]. by rewrite cmsend_inbox, cmsend_outbox, Hin1, Hout.
  - change (dispatch false false false sys fuel AFTP_RENAME) with (a_rename (K := K) (F := F) false false false;; mret false).
    destruct (serve_rename s s' r1 k1 d f err f' H1 Hn Hq Hop) as (k2 & E2 & ->). rewrite (M_bind_Ret _ _ _ tt _ E2).
    exists r1. eexists _, _, _. split; [done|]. by rewrite cmsend_inbox, cmsend_outbox, Hin1, Hout.
Qed.
End Serve.

(** ** A request served *)

(** C4: requests are served, and their outcome reported.  A server that receives
    a request to change, create or remove a directory, or to delete or rename a
    file, performs exactly that operation and answers with its outcome; a
    client that gets this answer has sent this request, reports [reported], and
    has the answer's category and index when it reports a failure.  A failed
    deletion is reported as done, and so is a failed change to or creation of a
    directory with a name of at most six characters, whatever the error. *)
Theorem aftp_requests_served {K F K' F'} `{HC : Cpic K} `{HD : !Delivers K} `{HP : Posix F}
    `{HC' : Cpic K'} `{HD' : !Delivers K'} `{HP' : Posix F'} (sys : system) q fuel later ks r p n d fs err fs' :
  request_fits q -> inbox ks = request_message q :: later -> perform q fs = (err, fs') ->
  exists r' ks' p' n',
    aftpd_turn (K := K') (F := F') false false false sys fuel (MkAftpd (Some r) ks p n d fs) = Ret false (MkAftpd (Some r') ks' p' n' d fs') /\
    inbox ks' = later /\ outbox ks' = outbox ks ++ [answer_message q err] /\
    forall i (st : aftp K F) s k rest, sessions st !! Z.to_nat i = Some (Live s) -> conversation_ID s = Some k -> msg_room (ans s) ->
      inbox k = answer_message q err :: rest ->
      exists st' s' k', run_request i q st = Ret (Some (reported q (answer_code err))) st' /\
        sessions st' !! Z.to_nat i = Some (Live s') /\ conversation_ID s' = Some k' /\ inbox k' = rest /\
        outbox k' = outbox k ++ [request_message q] /\
        (reported q (answer_code err) = AFTP_RC_FAIL_FATAL ->
          msg_category (ans s') = Some 0 /\ msg_index (ans s') = Some (answer_index q err)).
Proof.
  intros Hq Hin Hop. destruct (server_performs sys q later fuel r ks p n d fs err fs' Hq Hin Hop) as (r' & ks' & p' & n' & E & Hin' & Hout).
  exists r', ks', p', n'. split_and!; try done. intros i st s k rest Hs Hk Ha Hink. destruct (live_state_intro i st s k Hs Hk) as [Est Hi].
  destruct (request_reported i st s Hi q (record s) k (ans s) (files st) (answer_code err) 0 (answer_index q err) rest)
    as (r2 & k2 & a2 & E2 & Hin2 & Hout2 & Hrep); [done|done|by destruct err|done|apply answer_index_bound|done|].
  rewrite <- Est in E2. eexists _, _, k2. split; [exact E2|]. split; [by apply live_lookup|]. by split_and!.
Qed.

(** Removing a directory that does not exist, over a session whose answer arrives. *)
Lemma aftp_requests_served_witness :
  let q := RemoveDir (str "/nodir") in
  let fs : disk None := demo_disk [] in
  perform q fs = (Some ENOENT, fs) /\
  exists r' ks' p' n', aftpd_turn false false false demo_system 0 (MkAftpd (Some (MkRecord 2 ∅)) (arriving [request_message q]) 0 0 0 fs) =
      Ret false (MkAftpd (Some r') ks' p' n' 0 fs) /\ outbox ks' = [answer_message q (Some ENOENT)] /\
    exists st', run_request 0 q (MkAftp 1 (Live (with_conversation demo_session (arriving [answer_message q (Some ENOENT)])) :: replicate 19 Null) 0 [] fs) =
      Ret (Some AFTP_RC_FAIL_FATAL) st'.
Proof.
  intros q fs. assert (perform q fs = (Some ENOENT, fs)) as Hop by (vm_compute; reflexivity). split; [exact Hop|].
  assert (request_fits q) as Hq.
  { split; [|split; [exact I|vm_compute; discriminate]]. apply (bool_decide_unpack _); vm_compute; exact I. }
  destruct (aftp_requests_served (K := script) (F := disk None) (K' := script) (F' := disk None) demo_system q 0 [] (arriving [request_message q])
    (MkRecord 2 ∅) 0 0 0 fs (Some ENOENT) fs Hq (inbox_arriving _) Hop) as (r' & ks' & p' & n' & E & _ & Hout & Hclient).
  exists r', ks', p', n'. split; [exact E|]. split; [exact Hout|].
  destruct (Hclient 0 (MkAftp 1 (Live (with_conversation demo_session (arriving [answer_message q (Some ENOENT)])) :: replicate 19 Null) 0 [] fs)
    (with_conversation demo_session (arriving [answer_message q (Some ENOENT)])) (arriving [answer_message q (Some ENOENT)]) [])
    as (st' & s' & k' & E' & _); [reflexivity|reflexivity|vm_compute; reflexivity|exact (inbox_arriving _)|].
  exists st'. exact E'.
Defined.
