(* ===== verification/AftpTypes.v ===== *)
(** * The client's table of sessions: a type invariant

    Whatever calls of the library's functions have returned, the table keeps twenty
    entries, handles are given out in order, and the members of a session keep the
    sizes of their declarations; and of each function that exchanges nothing with the
    server it is stated when its behaviour is undefined. *)
From S2P Require Import Prelude Cpic CpicSession AsuiteRecord Posix Aftp.

Create HintDb aftp discriminated.

(** ** Terminated arrays *)

(** A string ends within the array, all of it assigned. *)
Definition terminated (m : mem) : Prop :=
  exists n, m !! n = Some (Some 0) /\ forall j, (j < n)%nat -> exists c, m !! j = Some (Some c).

Lemma terminated_string m : terminated m -> is_Some (mem_string m).
Proof.
  intros (n & Hn & Hj). revert m Hn Hj. induction n as [|n IH]; intros m Hn Hj.
  - destruct m as [|x m]; [done|]. injection Hn as ->. by eexists.
  - destruct m as [|x m]; [done|]. destruct (Hj 0%nat) as [c Hc]; [lia|]. injection Hc as ->. cbn. case_decide; [by eexists|].
    destruct (IH m) as [s ->]; [done| |by eexists]. intros j Hjn. apply (Hj (S j)). lia.
Qed.

Lemma mem_write_inv off bs m m' : mem_write off bs m = Some m' ->
  (off + length bs <= length m)%nat /\ length m' = length m /\
  (forall i, (off <= i < off + length bs)%nat -> m' !! i = Some <$> bs !! (i - off)%nat) /\
  (forall i, ~ (off <= i < off + length bs)%nat -> m' !! i = m !! i).
Proof.
  intros E. assert (off + length bs <= length m)%nat as Hl by (unfold mem_write in E; by case_bool_decide).
  destruct (mem_write_lookup off bs m Hl) as (m'' & E' & H). rewrite E in E'. by injection E' as <-.
Qed.

Lemma mem_write_length off bs m m' : mem_write off bs m = Some m' -> length m' = length m.
Proof. intros E. by apply mem_write_inv in E as (_ & ? & _). Qed.

(** Assigned up to [n]. *)
Definition assigned (n : nat) (m : mem) : Prop := forall j, (j < n)%nat -> exists c, m !! j = Some (Some c).

Lemma assigned_write off bs n m m' : mem_write off bs m = Some m' -> assigned n m -> (off <= n)%nat -> assigned (n `max` (off + length bs)) m'.
Proof.
  intros (_ & _ & Hin & Hout)%mem_write_inv Hn Hoff j Hj. destruct (decide (off <= j < off + length bs)%nat) as [Hd|Hd].
  - rewrite Hin by done. destruct (lookup_lt_is_Some_2 bs (j - off)) as [c ->]; [lia|]. by exists c.
  - rewrite Hout by done. apply Hn. lia.
Qed.

Lemma terminated_write n m m' : mem_write n [0] m = Some m' -> assigned n m -> terminated m'.
Proof.
  intros (_ & _ & Hin & Hout)%mem_write_inv Hn. exists n. split.
  - rewrite Hin by (cbn; lia). by rewrite Nat.sub_diag.
  - intros j Hj. rewrite Hout by lia. by apply Hn.
Qed.

Lemma strcpy_ok s m m' : strcpy s m = Some m' -> length m' = length m /\ terminated m'.
Proof.
  intros E. split; [by eapply mem_write_length|]. unfold strcpy in E. apply mem_write_inv in E as (_ & _ & Hin & _).
  rewrite length_app in Hin. cbn in Hin. exists (length s). split.
  - rewrite Hin, Nat.sub_0_r, list_lookup_middle by lia. done.
  - intros j Hj. rewrite Hin, Nat.sub_0_r by lia. destruct (lookup_lt_is_Some_2 (s ++ [0]) j) as [c ->]; [rewrite length_app; lia|]. by exists c.
Qed.

Lemma strncpy_length l n bs : strncpy l n = Some bs -> length bs = n.
Proof.
  revert l bs. induction n as [|n IH]; intros [|c l] bs E; try (by injection E as <-); [done|]. cbn in E. case_decide.
  - injection E as <-. cbn. by rewrite length_replicate.
  - destruct (strncpy l n) eqn:E1; [|done]. cbn in E. injection E as <-. cbn. by rewrite (IH _ _ E1).
Qed.

Section Types.
Context (big_endian : bool) {K F : Type} `{HC : Cpic K} `{HP : Posix F}.

Abbreviation A := (M (aftp K F)).

(** ** The invariant *)

Record names_sized (n : names) : Prop := {
  destination_size : length (destination n) = 18%nat;
  destination_terminated : terminated (destination n);
  mode_name_size : length (mode_name n) = 9%nat;
  mode_name_terminated : terminated (mode_name n);
  tp_name_size : length (tp_name n) = 65%nat;
  tp_name_terminated : terminated (tp_name n);
  password_size : length (password n) = 11%nat;
  userid_size : length (userid n) = 11%nat
}.

Record session_sized (s : ftpsession K) : Prop := {
  session_names : names_sized (nms s);
  sys_info_size : length (sys_info s) = 64%nat;
  sys_info_terminated : terminated (sys_info s);
  primary_msg_size : length (primary_msg (ans s)) = 513%nat
}.

(** An entry of index [i], when [n] handles have been given out. *)
Definition slot_ok (n : Z) (i : nat) (x : slot K) : Prop :=
  match x with
  | Null => n <= Z.of_nat i
  | Live s => Z.of_nat i < n /\ session_sized s
  | Freed => Z.of_nat i < n
  end.

Record table_ok (st : aftp K F) : Prop := {
  table_size : length (sessions st) = 20%nat;
  counter_range : 0 <= ftp_handle_counter st <= 20;
  trace_file_size : length (global_trace_file st) = 128%nat;
  trace_file_terminated : global_trace_file st !! 127%nat = Some (Some 0);
  slots_ok : forall i x, sessions st !! i = Some x -> slot_ok (ftp_handle_counter st) i x
}.

Lemma start_ok f : table_ok (aftp_start f).
Proof.
  split; [done|cbn; lia|done|done|]. intros i x Hx. apply lookup_replicate in Hx as [-> _]. cbn. lia.
Qed.

Lemma table_put i st s : table_ok st -> sessions st !! Z.to_nat i = Some (Live s) ->
  forall s', session_sized s' -> table_ok (put_slot i (Live s') st).
Proof.
  intros Hst Hs s' Hs'. pose proof (slots_ok _ Hst _ _ Hs) as [Hlt _]. destruct Hst as [H1 H2 H3 H4 H5].
  split; cbn; [by rewrite length_insert|done|done|done|]. intros j x Hj. destruct (decide (j = Z.to_nat i)) as [->|Hne].
  - rewrite list_lookup_insert_eq in Hj by (by eapply lookup_lt_Some). injection Hj as <-. by split.
  - rewrite list_lookup_insert_ne in Hj by done. by apply H5.
Qed.

(** ** Invariants kept by work on a session

    A session may be replaced by one of the right sizes that keeps its
    conversation, and the files by others. *)
Definition conversing (s : ftpsession K) : Prop := is_Some (conversation_ID s).

Class SessionInvariant (I : aftp K F -> Prop) : Prop := {
  inv_sized st i s : I st -> sessions st !! Z.to_nat i = Some (Live s) -> session_sized s;
  inv_put st i s s' : I st -> sessions st !! Z.to_nat i = Some (Live s) -> session_sized s' ->
    (conversing s -> conversing s') -> I (put_slot i (Live s') st);
  inv_files st f : I st -> I (MkAftp (ftp_handle_counter st) (sessions st) (global_trace_level st) (global_trace_file st) f)
}.

#[export] Instance table_invariant : SessionInvariant table_ok.
Proof.
  split.
  - intros st i s Hst Hs. pose proof (slots_ok _ Hst _ _ Hs) as [_ H]. exact H.
  - intros st i s s' Hst Hs Hs' _. by eapply table_put.
  - intros st f [? ? ? ? ?]. by split.
Qed.

(** ** Computations that keep one *)
Section Keeps.
Context (I : aftp K F -> Prop) `{HI : !SessionInvariant I}.

Definition keeps {X} (m : A X) : Prop := forall st x st', I st -> m st = Ret x st' -> I st'.

(** ... when the session [i] is [s]. *)
Definition keeps_live (i : Z) (s : ftpsession K) {X} (m : A X) : Prop :=
  forall st x st', I st -> sessions st !! Z.to_nat i = Some (Live s) -> m st = Ret x st' -> I st'.

Lemma keeps_bind {X Y} (m : A X) (k : X -> A Y) : keeps m -> (forall x, keeps (k x)) -> keeps (m ≫= k).
Proof.
  intros Hm Hk st y st' Hst E. unfold mbind, M_bind in E. destruct (m st) as [x st1| | | |] eqn:Em; try done.
  eapply Hk; [|exact E]. by eapply Hm.
Qed.

Lemma keeps_ret {X} (x : X) : keeps (mret x).
Proof. intros st y st' Hst E. by injection E as _ <-. Qed.

Lemma keeps_undef {X} : keeps (undef (A := X)).
Proof. intros st y st' _ E. done. Qed.

Lemma keeps_no_fuel {X} : keeps (no_fuel (A := X)).
Proof. intros st y st' _ E. done. Qed.

Lemma keeps_of_opt {X} (o : option X) : keeps (of_opt o).
Proof. destruct o; [apply keeps_ret|apply keeps_undef]. Qed.

Lemma keeps_get_st : keeps get_st.
Proof. intros st y st' Hst E. by injection E as _ <-. Qed.

Lemma keeps_from_live {X} i s (m : A X) : keeps m -> keeps_live i s m.
Proof. intros Hm st x st' Hst _. by apply Hm. Qed.

(** The session read is of the right sizes. *)
Lemma keeps_the_session {X} i (k : ftpsession K -> A X) : (forall s, session_sized s -> keeps_live i s (k s)) -> keeps (the_session i ≫= k).
Proof.
  intros Hk st x st' Hst E. unfold the_session in E. rewrite M_bind_assoc, get_st_bind in E.
  destruct (sessions st !! Z.to_nat i) as [[|s|]|] eqn:Es; try done. rewrite M_ret_bind in E.
  eapply Hk; [|exact Hst|exact Es|exact E]. by eapply inv_sized.
Qed.

Lemma keeps_live_set_session i s s' : session_sized s' -> (conversing s -> conversing s') -> keeps_live i s (set_session i s').
Proof. intros Hs' Hc st x st' Hst Hs E. injection E as _ <-. by eapply inv_put. Qed.

Lemma keeps_live_set_session_bind {X} i s s' (k : unit -> A X) : session_sized s' -> (conversing s -> conversing s') -> keeps (k tt) ->
  keeps_live i s (set_session i s' ≫= k).
Proof.
  intros Hs' Hc Hk st x st' Hst Hs E. unfold set_session in E. rewrite modify_bind in E. eapply Hk; [|exact E]. by eapply inv_put.
Qed.

(** Steps that do not touch the state. *)
Lemma keeps_live_of_opt {X Y} i s (o : option X) (k : X -> A Y) : (forall x, keeps_live i s (k x)) -> keeps_live i s (of_opt o ≫= k).
Proof. intros Hk. destruct o; [apply Hk|]. by intros st x st' _ _. Qed.

Lemma keeps_live_if {X Y} i s (P : Prop) `{Decision P} (o : option X) (x0 : X) (k : X -> A Y) : (forall x, keeps_live i s (k x)) ->
  keeps_live i s ((if decide P then of_opt o else mret x0) ≫= k).
Proof. intros Hk. destruct (decide P); [by apply keeps_live_of_opt|apply Hk]. Qed.

Lemma keeps_live_zoom {T X} i s (get : aftp K F -> T) (f : T -> ftpsession K) (m : M T X) :
  (forall t, session_sized (f t) /\ (conversing s -> conversing (f t))) ->
  keeps_live i s (zoom get (fun t => put_slot i (Live (f t))) m).
Proof.
  intros Hf st x st' Hst Hs E. unfold zoom in E. destruct (m (get st)) as [y t| | | |]; try done. injection E as _ <-.
  destruct (Hf t). by eapply inv_put.
Qed.

Lemma keeps_on_rec {X} i (m : R X) : keeps (on_rec i m).
Proof. apply keeps_the_session. intros s []. apply keeps_live_zoom. by split. Qed.

Lemma keeps_on_msg {X} i (m : M (option asuiterecord * K) X) : keeps (on_msg i m).
Proof. apply keeps_the_session. intros s []. apply keeps_live_of_opt. intros k. apply keeps_live_zoom. split; [by split|by eexists]. Qed.

Lemma keeps_on_conv {X} i (f : K -> X * K) : keeps (on_conv i f).
Proof.
  apply keeps_the_session. intros s []. apply keeps_live_of_opt. intros k. destruct (f k) as [x k'].
  apply keeps_live_set_session_bind; [by split|by eexists|apply keeps_ret].
Qed.

Lemma keeps_on_files {X} (f : F -> X * F) : keeps (on_files f).
Proof. intros st x st' Hst E. unfold on_files in E. destruct (f (files st)). injection E as _ <-. by apply inv_files. Qed.

Lemma keeps_on_settings i f : keeps (on_settings i f).
Proof. apply keeps_the_session. intros s []. apply keeps_live_set_session; [by split|done]. Qed.

Lemma keeps_set_directory i d : keeps (set_directory i d).
Proof. apply keeps_the_session. intros s []. apply keeps_live_set_session; [by split|done]. Qed.

Lemma keeps_on_names i f : (forall n n', names_sized n -> f n = Some n' -> names_sized n') -> keeps (on_names i f).
Proof.
  intros Hf. apply keeps_the_session. intros s []. destruct (f (nms s)) as [n|] eqn:E; [|by intros st ? ? _ _].
  apply keeps_live_set_session; [|done]. split; [by eapply Hf|done..].
Qed.

Lemma keeps_on_answer i f : (forall a a', length (primary_msg a) = 513%nat -> f a = Some a' -> length (primary_msg a') = 513%nat) -> keeps (on_answer i f).
Proof.
  intros Hf. apply keeps_the_session. intros s []. destruct (f (ans s)) as [a|] eqn:E; [|by intros st ? ? _ _].
  apply keeps_live_set_session; [|done]. split; [done..|by eapply Hf].
Qed.

Lemma keeps_the_session_only i : keeps (the_session i).
Proof.
  intros st x st' Hst E. unfold the_session in E. rewrite get_st_bind in E.
  destruct (sessions st !! Z.to_nat i) as [[|s|]|]; try done. by injection E as _ <-.
Qed.
End Keeps.
End Types.

#[export] Hint Resolve keeps_ret keeps_undef keeps_no_fuel keeps_of_opt keeps_get_st keeps_on_rec keeps_on_msg keeps_on_conv keeps_on_files
  keeps_on_settings keeps_set_directory keeps_the_session_only table_invariant : aftp.

(** Follow the structure of a function. *)
Ltac keep :=
  repeat (intros; cbn beta zeta; match goal with
  | |- keeps _ (_ ≫= _) => apply keeps_bind
  | |- keeps _ (match ?x with _ => _ end) => destruct x
  | |- keeps _ _ => solve [auto with aftp]
  end); intros; cbn beta zeta.

(** ** The operations *)
Section Operations.
Context (be : bool) {K F : Type} `{HC : Cpic K} `{HP : Posix F} (I : aftp K F -> Prop) `{HI : !SessionInvariant I}.

Lemma keeps_valid_handle i : keeps I (valid_handle i).
Proof. unfold valid_handle. keep. Qed.

Lemma keeps_guarded i bad (m : M (aftp K F) (option Z)) : keeps I m -> keeps I (guarded i bad m).
Proof. intros Hm. unfold guarded, valid_handle. keep. Qed.

Lemma keeps_copy_out i c size : keeps I (copy_out (K := K) (F := F) i c size).
Proof. unfold copy_out. keep. Qed.

Lemma keeps_received_len i : keeps I (received_len (K := K) (F := F) i).
Proof. unfold received_len. keep. Qed.

Lemma keeps_exchange i : keeps I (exchange (K := K) (F := F) i).
Proof. unfold exchange. keep. Qed.

(** The cells of the answer keep their number. *)
Lemma keeps_set_status i c : keeps I (set_status (K := K) (F := F) i c).
Proof. unfold set_status. keep. apply (keeps_on_answer I). intros a a' Ha E. by injection E as <-. Qed.

Lemma keeps_set_category i c : keeps I (set_category be (K := K) (F := F) i c).
Proof. unfold set_category. keep; apply (keeps_on_answer I); intros a a' Ha E; by injection E as <-. Qed.

Lemma keeps_set_primary_msg i c : keeps I (set_primary_msg (K := K) (F := F) i c).
Proof.
  unfold set_primary_msg. keep. apply (keeps_on_answer I). intros a a' Ha E. destruct (mem_write _ _ _) eqn:Em; [|done].
  injection E as <-. cbn. by rewrite (mem_write_length _ _ _ _ Em).
Qed.

Lemma keeps_response_params {X} i bound (handle : Z -> Z -> X -> M (aftp K F) X) fuel c x :
  (forall key c x, keeps I (handle key c x)) -> keeps I (response_params be i bound handle fuel c x).
Proof. intros Hh. revert c x. induction fuel as [|fuel IH]; cbn [response_params]; keep. Qed.

Lemma keeps_response {X} i bound major (handle : Z -> Z -> X -> M (aftp K F) X) x :
  (forall key c x, keeps I (handle key c x)) -> keeps I (response be i bound major handle x).
Proof. intros Hh. unfold response. keep. by apply keeps_response_params. Qed.
End Operations.

#[export] Hint Resolve keeps_valid_handle keeps_guarded keeps_copy_out keeps_received_len keeps_exchange keeps_set_status keeps_set_category keeps_set_primary_msg
  keeps_response_params keeps_response : aftp.

(** ** The functions of the library *)
Section Functions.
Context (be : bool) {K F : Type} `{HC : Cpic K} `{HP : Posix F}.

(** A function on a session, with its arguments.  The functions that extract a
    setting, extract a name and set a setting are given in one form each. *)
Inductive session_function : forall X, M (aftp K F) X -> Prop :=
  | f_connect i k : session_function _ (aftp_connect be i k)
  | f_close i : session_function _ (aftp_close be i)
  | f_change_dir i d n : session_function _ (aftp_change_dir be i d n)
  | f_create_dir i d n : session_function _ (aftp_create_dir be i d n)
  | f_remove_dir i d n : session_function _ (aftp_remove_dir be i d n)
  | f_delete i d n : session_function _ (aftp_delete be i d n)
  | f_rename i o on f fn : session_function _ (aftp_rename be i o on f fn)
  | f_dir_open i f n t l size : session_function _ (aftp_dir_open be i f n t l size)
  | f_dir_read i size : session_function _ (aftp_dir_read be i size)
  | f_dir_close i : session_function _ (aftp_dir_close i)
  | f_receive_file i l ln r rn fuel : session_function _ (aftp_receive_file be i l ln r rn fuel)
  | f_send_file i l ln r rn fuel : session_function _ (aftp_send_file be i l ln r rn fuel)
  | f_query_current_dir i size : session_function _ (aftp_query_current_dir be i size)
  | f_query_system_info i size : session_function _ (aftp_query_system_info be i size)
  | f_local_change_dir i d : session_function _ (aftp_local_change_dir i d)
  | f_local_query_current_dir i size : session_function _ (aftp_local_query_current_dir i size)
  | f_query_local_system_info i size : session_function _ (aftp_query_local_system_info i size)
  | f_extract get i : session_function _ (extract get i)
  | f_extract_string get i size : session_function _ (extract_string get i size)
  | f_extract_connection_info i : session_function _ (aftp_extract_connection_info i)
  | f_extract_trace_level : session_function _ aftp_extract_trace_level
  | f_setting i bad rc f : session_function _ (setting i bad rc f)
  | f_set_destination i d n : session_function _ (aftp_set_destination i d n)
  | f_set_mode_name i s n : session_function _ (aftp_set_mode_name i s n)
  | f_set_password i s n : session_function _ (aftp_set_password i s n)
  | f_set_tp_name i s n : session_function _ (aftp_set_tp_name i s n)
  | f_set_userid i s n : session_function _ (aftp_set_userid i s n)
  | f_format_error i level size : session_function _ (aftp_format_error i level size).

(** A call of the library. *)
Inductive function : forall X, M (aftp K F) X -> Prop :=
  | f_create no_session no_record : function _ (aftp_create no_session no_record)
  | f_destroy i : function _ (aftp_destroy i)
  | f_set_trace_level v : function _ (aftp_set_trace_level v)
  | f_set_trace_filename s n : function _ (aftp_set_trace_filename s n)
  | f_session X m : session_function X m -> function X m.

(** The states a program gets to from the start with the files [f]. *)
Inductive called (f : F) : aftp K F -> Prop :=
  | started : called f (aftp_start f)
  | call_returns X (m : M (aftp K F) X) x st st' : called f st -> function X m -> m st = Ret x st' -> called f st'.

(** ** Functions on a session keep every invariant *)
Section Sessions.
Context (I : aftp K F -> Prop) `{HI : !SessionInvariant I}.

Lemma keeps_set_conversation i f (verb : list Z -> K -> Z * K) k : keeps I (set_conversation (F := F) i f verb k).
Proof.
  apply (keeps_the_session I). intros s Hs. apply keeps_live_of_opt. intros name. destruct (verb name k) as [rc k'].
  apply (keeps_live_set_session_bind I); [destruct Hs; by split|by eexists|apply keeps_ret].
Qed.
#[local] Hint Resolve keeps_set_conversation : aftp.

Lemma keeps_connect_conversation i s k : keeps I (connect_conversation be (K := K) (F := F) i s k).
Proof. unfold connect_conversation, ret_code. keep. Qed.

Lemma keeps_connect i k : keeps I (aftp_connect be (K := K) (F := F) i k).
Proof.
  apply (keeps_guarded _), (keeps_the_session I). intros s Hs. apply keeps_live_of_opt. intros dest.
  case_decide; [apply keeps_from_live, keeps_ret|]. apply keeps_live_if. intros sym. destruct (cminit sym k) as [rc k'].
  case_decide; [apply keeps_from_live, keeps_ret|]. apply (keeps_live_set_session_bind I); [destruct Hs; by split|by eexists|].
  apply keeps_connect_conversation.
Qed.

(** *** Requests and answers *)

Lemma keeps_change_dir_param i key c rc : keeps I (change_dir_param be (K := K) (F := F) i key c rc).
Proof. unfold change_dir_param. keep. Qed.
Lemma keeps_create_dir_param i key c rc : keeps I (create_dir_param be (K := K) (F := F) i key c rc).
Proof. unfold create_dir_param. keep. Qed.
Lemma keeps_status_param i key c rc : keeps I (status_param be (K := K) (F := F) i key c rc).
Proof. unfold status_param. keep. Qed.
Lemma keeps_ignore_param key c u : keeps I (ignore_param (K := K) (F := F) key c u).
Proof. unfold ignore_param. keep. Qed.
Lemma keeps_dir_open_param i n key c x : keeps I (dir_open_param be (K := K) (F := F) i n key c x).
Proof. unfold dir_open_param. keep. Qed.
Lemma keeps_dir_read_param i n key c x : keeps I (dir_read_param be (K := K) (F := F) i n key c x).
Proof. unfold dir_read_param. keep. Qed.
Lemma keeps_query_param i want n key c x : keeps I (query_param (K := K) (F := F) i want n key c x).
Proof. unfold query_param. keep. Qed.
#[local] Hint Resolve keeps_change_dir_param keeps_create_dir_param keeps_status_param keeps_ignore_param keeps_dir_open_param
  keeps_dir_read_param keeps_query_param : aftp.

(** *** Transfers *)

Lemma keeps_only_return_code i bound fuel c : keeps I (only_return_code be (K := K) (F := F) i bound fuel c).
Proof. revert c. induction fuel as [|fuel IH]; cbn [only_return_code]; keep. Qed.
#[local] Hint Resolve keeps_only_return_code : aftp.

Lemma keeps_receive_records i d fuel : keeps I (receive_records be (K := K) (F := F) i d fuel).
Proof. induction fuel as [|fuel IH]; cbn [receive_records]; keep. Qed.

Lemma keeps_read_data i d : keeps I (read_data (K := K) (F := F) i d).
Proof. unfold read_data. keep. Qed.
#[local] Hint Resolve keeps_receive_records keeps_read_data : aftp.

Lemma keeps_send_records i d n fuel : keeps I (send_records (K := K) (F := F) i d n fuel).
Proof. revert n. induction fuel as [|fuel IH]; cbn [send_records]; keep. Qed.
#[local] Hint Resolve keeps_send_records : aftp.

(** *** Names *)

Lemma keeps_set_string i n limit f : (forall n n', names_sized n -> f n = Some n' -> names_sized n') ->
  keeps I (set_string (K := K) (F := F) i n limit f).
Proof. intros Hf. unfold set_string. apply (keeps_guarded _). keep. by apply (keeps_on_names I). Qed.

Lemma memcpy_length s n bs : memcpy_from s n = Some bs -> length bs = Z.to_nat n.
Proof. unfold memcpy_from. case_decide as H; [|done]. intros [= <-]. rewrite length_take, length_app. cbn. lia. Qed.

(** The two forms of a destination end within the array. *)
Lemma qualified_terminated n bs d d1 d2 : length bs = n -> mem_write 0 bs d = Some d1 -> mem_write n [0] d1 = Some d2 ->
  length d2 = length d /\ terminated d2.
Proof.
  intros Hl E1 E2. split; [by rewrite (mem_write_length _ _ _ _ E2), (mem_write_length _ _ _ _ E1)|].
  eapply terminated_write; [exact E2|]. subst n. eapply (assigned_write 0 _ 0); [exact E1|intros j Hj; lia|lia].
Qed.

Lemma symbolic_terminated bs d d1 d2 d3 : (length bs <= 8)%nat -> mem_write 0 (replicate 8 32) d = Some d1 ->
  mem_write 0 bs d1 = Some d2 -> mem_write 8 [0] d2 = Some d3 -> length d3 = length d /\ terminated d3.
Proof.
  intros Hl E1 E2 E3.
  split; [by rewrite (mem_write_length _ _ _ _ E3), (mem_write_length _ _ _ _ E2), (mem_write_length _ _ _ _ E1)|].
  eapply terminated_write; [exact E3|]. replace 8%nat with (8 `max` (0 + length bs))%nat by lia.
  eapply assigned_write; [exact E2| |lia]. apply (assigned_write 0 (replicate 8 32) 0 d d1 E1); [intros j Hj; lia|lia].
Qed.

Lemma keeps_set_destination i d n : keeps I (aftp_set_destination (K := K) (F := F) i d n).
Proof.
  apply (keeps_guarded _). case_decide; case_decide as Hn; try apply keeps_ret.
  - destruct (memcpy_from d n) as [bs|] eqn:Eb; [|intros st x st' _ E; done].
    rewrite of_opt_Some_bind. apply keeps_bind; [|auto with aftp]. apply (keeps_on_names I). intros ns ns' [] E.
    destruct (mem_write 0 bs _) as [m1|] eqn:E1; [|done]. cbn in E. destruct (mem_write _ [0] m1) as [m2|] eqn:E2; [|done].
    injection E as <-. destruct (qualified_terminated _ _ _ _ _ (memcpy_length _ _ _ Eb) E1 E2) as [Hm Ht].
    split; cbn; try done. by rewrite Hm.
  - destruct (memcpy_from d n) as [bs|] eqn:Eb; [|intros st x st' _ E; done].
    rewrite of_opt_Some_bind. apply keeps_bind; [|auto with aftp]. apply (keeps_on_names I). intros ns ns' [] E.
    unfold CM_SDN_SIZE in *. destruct (mem_write 0 (replicate 8 32) _) as [m1|] eqn:E1; [|done]. cbn [mbind option_bind] in E.
    destruct (mem_write 0 bs m1) as [m2|] eqn:E2; [|done]. cbn [mbind option_bind] in E.
    destruct (mem_write 8 [0] m2) as [m3|] eqn:E3; [|done]. injection E as <-. apply memcpy_length in Eb.
    destruct (symbolic_terminated bs (destination ns) m1 m2 m3) as [Hm Ht]; try done; [lia|]. split; cbn; try done. by rewrite Hm.
Qed.

Lemma keeps_set_mode_name i s n : keeps I (aftp_set_mode_name (K := K) (F := F) i s n).
Proof.
  apply keeps_set_string. intros ns ns' [] E. destruct (strcpy _ _) as [m|] eqn:Em; [|done]. injection E as <-.
  apply strcpy_ok in Em as [Hm Ht]. split; cbn; try done. by rewrite Hm.
Qed.

Lemma keeps_set_tp_name i s n : keeps I (aftp_set_tp_name (K := K) (F := F) i s n).
Proof.
  apply keeps_set_string. intros ns ns' [] E. destruct (strcpy _ _) as [m|] eqn:Em; [|done]. injection E as <-.
  apply strcpy_ok in Em as [Hm Ht]. split; cbn; try done. by rewrite Hm.
Qed.

Lemma keeps_set_password i s n : keeps I (aftp_set_password (K := K) (F := F) i s n).
Proof.
  apply keeps_set_string. intros ns ns' [] E. destruct (strcpy _ _) as [m|] eqn:Em; [|done]. injection E as <-.
  apply strcpy_ok in Em as [Hm _]. split; cbn; try done. by rewrite Hm.
Qed.

Lemma keeps_set_userid i s n : keeps I (aftp_set_userid (K := K) (F := F) i s n).
Proof.
  apply keeps_set_string. intros ns ns' [] E. destruct (strcpy _ _) as [m|] eqn:Em; [|done]. injection E as <-.
  apply strcpy_ok in Em as [Hm _]. split; cbn; try done. by rewrite Hm.
Qed.
#[local] Hint Resolve keeps_connect keeps_set_destination keeps_set_mode_name keeps_set_tp_name keeps_set_password keeps_set_userid : aftp.

Lemma session_function_keeps X (m : M (aftp K F) X) : session_function X m -> keeps I m.
Proof.
  destruct 1; try solve [auto with aftp]; unfold aftp_close, aftp_change_dir, aftp_create_dir, aftp_remove_dir, aftp_delete,
    aftp_rename, aftp_dir_open, aftp_dir_read, aftp_dir_close, aftp_receive_file, aftp_send_file, aftp_query_current_dir,
    aftp_query_system_info, aftp_local_change_dir, aftp_local_query_current_dir, aftp_query_local_system_info, extract,
    extract_string, aftp_extract_connection_info, aftp_extract_trace_level, setting, aftp_format_error;
  try apply (keeps_guarded I); unfold ret_code; keep.
Qed.
End Sessions.

(** ** The handle table *)

Lemma new_session_sized r d : session_sized (new_session (K := K) r d).
Proof.
  split; [split; try reflexivity| | |]; try reflexivity.
  - exists 0%nat. split; [done|lia].
  - exists 6%nat. split; [done|]. intros j Hj. do 6 (destruct j as [|j]; [by eexists|]). lia.
  - exists 5%nat. split; [done|]. intros j Hj. do 5 (destruct j as [|j]; [by eexists|]). lia.
  - exists 5%nat. split; [done|]. intros j Hj. do 5 (destruct j as [|j]; [by eexists|]). lia.
Qed.

(** A handle is given out: the first entry that is not used yet. *)
Lemma allot_ok (st : aftp K F) x : table_ok (K := K) (F := F) st -> ftp_handle_counter st < 20 ->
  (forall s, x = Live s -> session_sized s) -> x <> Null ->
  table_ok (put_slot (ftp_handle_counter st) x
    (MkAftp (u8 (ftp_handle_counter st + 1)) (sessions st) (global_trace_level st) (global_trace_file st) (files st))).
Proof.
  intros [H1 H2 H3 H4 H5] Hc Hx Hn. assert (u8 (ftp_handle_counter st + 1) = ftp_handle_counter st + 1) as Hu
    by (unfold u8; rewrite Z.mod_small; lia).
  split; cbn; rewrite ?Hu; [by rewrite length_insert|lia|done|done|]. intros j y Hy.
  destruct (decide (j = Z.to_nat (ftp_handle_counter st))) as [->|Hne].
  - rewrite list_lookup_insert_eq in Hy by lia. injection Hy as <-. destruct x as [|s|]; [done|split; [lia|by apply Hx]|cbn; lia].
  - rewrite list_lookup_insert_ne in Hy by done. apply H5 in Hy. destruct y as [|s|]; cbn in *; [lia|split; [lia|apply Hy]|lia].
Qed.

Lemma keeps_create no_session no_record : keeps table_ok (aftp_create (K := K) (F := F) no_session no_record).
Proof.
  intros st x st' Hst E. unfold aftp_create in E. destruct no_session; [by injection E as _ <-|].
  rewrite get_st_bind in E. case_decide as Hc; [done|]. unfold MAX_FTP_SESSIONS in Hc. destruct (asuiterecord_new no_record) as [r|]; [|done].
  rewrite put_st_bind in E. destruct (safe_get_cwd 2 _) as [[d|]|]; [| |done].
  - unfold set_session in E. rewrite modify_bind in E. injection E as _ <-. apply allot_ok; [done|lia| |done].
    intros s [= <-]. apply new_session_sized.
  - rewrite modify_bind in E. injection E as _ <-. by apply allot_ok; [|lia| |].
Qed.

Lemma keeps_destroy i : keeps table_ok (aftp_destroy (K := K) (F := F) i).
Proof.
  apply (keeps_guarded _). intros st x st' [H1 H2 H3 H4 H5] E. unfold the_session in E. rewrite M_bind_assoc, get_st_bind in E.
  destruct (sessions st !! Z.to_nat i) as [[|s|]|] eqn:Es; try done. injection E as _ <-.
  split; cbn; [by rewrite length_insert|done..|]. intros j y Hj. destruct (decide (j = Z.to_nat i)) as [->|Hne].
  - rewrite list_lookup_insert_eq in Hj by (by eapply lookup_lt_Some). injection Hj as <-. cbn. apply H5 in Es. cbn in Es. lia.
  - rewrite list_lookup_insert_ne in Hj by done. by apply H5.
Qed.

Lemma keeps_set_trace_level v : keeps table_ok (aftp_set_trace_level (K := K) (F := F) v).
Proof. intros st x st' [] E. injection E as _ <-. by split. Qed.

Lemma keeps_set_trace_filename s n : keeps table_ok (aftp_set_trace_filename (K := K) (F := F) s n).
Proof.
  intros st x st' [H1 H2 H3 H4 H5] E. unfold aftp_set_trace_filename in E. case_decide; [|by injection E as _ <-].
  rewrite get_st_bind in E. destruct (strncpy _ _) as [bs|] eqn:Eb; [|done]. rewrite of_opt_Some_bind in E.
  destruct (mem_write _ _ _) as [m|] eqn:Em; [|done]. rewrite of_opt_Some_bind, put_st_bind in E. injection E as _ <-.
  apply strncpy_length in Eb. apply mem_write_inv in Em as (_ & Hl & _ & Hout). split; cbn; [done..| | |done].
  - by rewrite Hl.
  - rewrite Hout; [done|]. rewrite Eb. unfold MAX_FILE_NAME. lia.
Qed.

(** Every function keeps the table. *)
Lemma function_keeps X (m : M (aftp K F) X) : function X m -> keeps table_ok m.
Proof.
  destruct 1; [apply keeps_create|apply keeps_destroy|apply keeps_set_trace_level|apply keeps_set_trace_filename|by apply session_function_keeps, H; apply _].
Qed.

(** ** Calls that are defined

    Which calls of the functions that work on the table, the names, the settings and the
    local files meet undefined behaviour, given the state they are made in. *)
Definition handle_of (st : aftp K F) (i : Z) : slot K := default Null (sessions st !! Z.to_nat i).

(** The string of a member. *)
Definition member (st : aftp K F) (i : Z) {X} (f : ftpsession K -> option X) : option X :=
  match handle_of st i with Live s => f s | _ => None end.

(** What [memcpy_from] and [strncpy] can be asked for. *)
Definition copies (s : list Z) (n : Z) : Prop := 0 <= n <= Z.of_nat (length s) + 1.

(** The two codes and the text fit. *)
Definition formatted (s : ftpsession K) (size : Z) : bool :=
  match msg_category (ans s), msg_index (ans s), mem_string (primary_msg (ans s)) with
  | Some category, Some i, Some msg =>
      bool_decide (length (decimal category ++ decimal i) < 10)%nat &&
      bool_decide (Z.of_nat (length ((decimal category ++ decimal i) ++ msg)) <= size)
  | _, _, _ => false
  end.

Inductive local_function : forall X, M (aftp K F) X -> (aftp K F -> Prop) -> Prop :=
  | l_create no_session no_record : local_function _ (aftp_create no_session no_record)
      (fun st => no_session = false /\ (20 <= ftp_handle_counter st \/ no_record = true))
  | l_destroy i : local_function _ (aftp_destroy i) (fun st => handle_of st i = Freed)
  | l_set_destination i d n : local_function _ (aftp_set_destination i d n)
      (fun st => n <= (if decide (46 ∈ d) then 17 else 8) /\ (handle_of st i = Freed \/ (exists s, handle_of st i = Live s) /\ ~ copies d n))
  | l_set_mode_name i s n : local_function _ (aftp_set_mode_name i s n)
      (fun st => n <= 8 /\ (handle_of st i = Freed \/ (exists s, handle_of st i = Live s) /\ (9 <= length s)%nat))
  | l_set_tp_name i s n : local_function _ (aftp_set_tp_name i s n)
      (fun st => n <= 64 /\ (handle_of st i = Freed \/ (exists s, handle_of st i = Live s) /\ (65 <= length s)%nat))
  | l_set_password i s n : local_function _ (aftp_set_password i s n)
      (fun st => n <= 10 /\ (handle_of st i = Freed \/ (exists s, handle_of st i = Live s) /\ (11 <= length s)%nat))
  | l_set_userid i s n : local_function _ (aftp_set_userid i s n)
      (fun st => n <= 10 /\ (handle_of st i = Freed \/ (exists s, handle_of st i = Live s) /\ (11 <= length s)%nat))
  | l_set_trace_level v : local_function _ (aftp_set_trace_level v) (fun _ => False)
  | l_set_trace_filename s n : local_function _ (aftp_set_trace_filename s n) (fun _ => False)
  | l_setting i bad rc f : local_function _ (setting i bad rc f) (fun st => handle_of st i = Freed)
  | l_extract get i : local_function _ (extract get i) (fun st => forall s, handle_of st i <> Live s)
  | l_extract_string get i size : local_function _ (extract_string get i size)
      (fun st => match member st i (fun s => mem_string (get (nms s))) with Some name => name <> [] /\ Z.of_nat (length name) = size | None => True end)
  | l_local_change_dir i d : local_function _ (aftp_local_change_dir i d)
      (fun st => handle_of st i = Freed /\ (chdir d (files st)).1 = None /\ is_Some (cwd (chdir d (files st)).2))
  | l_local_query_current_dir i size : local_function _ (aftp_local_query_current_dir i size)
      (fun st => handle_of st i = Freed \/ exists s, handle_of st i = Live s /\ size <= Z.of_nat (length (current_directory s)))
  | l_query_local_system_info i size : local_function _ (aftp_query_local_system_info i size)
      (fun st => handle_of st i = Freed \/ exists s, handle_of st i = Live s /\ forall name, mem_string (sys_info s) = Some name -> size <= Z.of_nat (length name))
  | l_format_error i level size : local_function _ (aftp_format_error i level size)
      (fun st => level = AFTP_DETAIL_RC /\ (handle_of st i = Freed \/ exists s, handle_of st i = Live s /\ formatted s size = false)).

Definition returns {S X} (o : outcome S X) : Prop := exists x s, o = Ret x s.

(** The outcome of one of these calls. *)
Definition outcome_is {S X} (faulty : Prop) (o : outcome S X) : Prop := (faulty -> undefined o) /\ (~ faulty -> returns o).

Lemma outcome_undefined {S X} (faulty : Prop) (o : outcome S X) : faulty -> undefined o -> outcome_is faulty o.
Proof. by split. Qed.
Lemma outcome_returns {S X} (faulty : Prop) (o : outcome S X) : ~ faulty -> returns o -> outcome_is faulty o.
Proof. by split. Qed.

Lemma valid_handle_bind {X} i (k : bool -> M (aftp K F) X) st :
  (valid_handle i ≫= k) st = k (match handle_of st i with Null => false | _ => true end) st.
Proof. unfold valid_handle, handle_of. rewrite M_bind_assoc, get_st_bind, M_ret_bind. by destruct (sessions st !! Z.to_nat i) as [[]|]. Qed.

Lemma guarded_handle i bad body (st : aftp K F) :
  guarded i bad body st = match handle_of st i with Null => Ret (Some bad) st | _ => body st end.
Proof. unfold guarded. rewrite valid_handle_bind. by destruct (handle_of st i). Qed.

Lemma the_session_handle {X} i (k : ftpsession K -> M (aftp K F) X) st :
  (the_session i ≫= k) st = match handle_of st i with Live s => k s st | _ => Undef st end.
Proof. unfold the_session, handle_of. rewrite M_bind_assoc, get_st_bind. by destruct (sessions st !! Z.to_nat i) as [[]|]. Qed.

Lemma handle_sized st i s : table_ok st -> handle_of st i = Live s -> session_sized s.
Proof.
  intros Hst Hs. unfold handle_of in Hs. destruct (sessions st !! Z.to_nat i) as [x|] eqn:E; [|done]. cbn in Hs. subst x.
  by apply (slots_ok _ Hst _ _ E).
Qed.

Lemma strcpy_Some s m : (length s < length m)%nat -> is_Some (strcpy s m).
Proof. intros H. unfold strcpy, mem_write. rewrite length_app. cbn [length]. rewrite bool_decide_true by lia. by eexists. Qed.

Lemma write_Some off bs m : (off + length bs <= length m)%nat -> is_Some (mem_write off bs m).
Proof. intros H. unfold mem_write. rewrite bool_decide_true by lia. by eexists. Qed.

Lemma strncpy_ended s n : is_Some (strncpy (s ++ [0]) n).
Proof.
  revert n. induction s as [|c s IH]; intros [|n]; try (by eexists); cbn [strncpy app].
  case_decide; [by eexists|]. destruct (IH n) as [bs ->]. by eexists.
Qed.

(** The four functions that set a name. *)
Lemma set_string_outcome i n limit size (s : list Z) f (st : aftp K F) : table_ok st ->
  (forall x : ftpsession K, session_sized x -> if decide (size <= length s)%nat then f (nms x) = None else is_Some (f (nms x))) ->
  outcome_is (n <= limit /\ (handle_of st i = Freed \/ (exists x, handle_of st i = Live x) /\ (size <= length s)%nat)) (set_string (K := K) (F := F) i n limit f st).
Proof.
  intros Hst Hf. unfold set_string. rewrite guarded_handle. pose proof (handle_sized st i) as Hsz. destruct (handle_of st i) as [|x|] eqn:E.
  - apply outcome_returns; [|by do 2 eexists]. intros (_ & [?|[[x ?] _]]); done.
  - specialize (Hf x (Hsz x Hst eq_refl)). destruct (decide (n <= limit)) as [Hn|Hn].
    2: { apply outcome_returns; [tauto|by do 2 eexists]. }
    unfold on_names. rewrite M_bind_assoc, the_session_handle, E, M_bind_assoc. destruct (decide (size <= length s)%nat) as [Hl|Hl].
    + apply outcome_undefined; [split; [done|right; split; [by exists x|done]]|]. rewrite Hf. by eexists.
    + apply outcome_returns; [intros (_ & [?|[_ ?]]); done|]. destruct Hf as [y ->]. by do 2 eexists.
  - destruct (decide (n <= limit)) as [Hn|Hn]; [|apply outcome_returns; [tauto|by do 2 eexists]].
    apply outcome_undefined; [tauto|]. unfold on_names. rewrite M_bind_assoc, the_session_handle, E. by eexists.
Qed.
Lemma strcpy_outcome (s : list Z) m (g : mem -> names) : if decide (length m <= length s)%nat then (m' ← strcpy s m; Some (g m')) = None else is_Some (m' ← strcpy s m; Some (g m')).
Proof.
  case_decide as H; [|destruct (strcpy_Some s m) as [m' ->]; [lia|by eexists]].
  unfold strcpy, mem_write. rewrite length_app. cbn [length]. by rewrite bool_decide_false by lia.
Qed.

(** The destination is stored, whatever its length, when the length is that of a part
    of the string. *)
Lemma destination_stored (d : list Z) n (x : ftpsession K) : session_sized x -> 0 <= n -> n <= (if decide (46 ∈ d) then 17 else 8) ->
  forall bs, length bs = Z.to_nat n ->
  is_Some (if decide (46 ∈ d)
    then m ← mem_write 0 bs (destination (nms x)); m ← mem_write (Z.to_nat n) [0] m; Some (set_dest 0 m (nms x))
    else m ← mem_write 0 (replicate CM_SDN_SIZE 32) (destination (nms x)); m ← mem_write 0 bs m; m ← mem_write CM_SDN_SIZE [0] m; Some (set_dest 1 m (nms x))).
Proof.
  intros [[Hd _ _ _ _ _ _ _] _ _ _] H0 Hn bs Hl. unfold CM_SDN_SIZE. case_decide.
  - destruct (write_Some 0 bs (destination (nms x))) as [m Em]; [lia|]. rewrite Em. cbn [mbind option_bind].
    destruct (write_Some (Z.to_nat n) [0] m) as [m' ->]; [|by eexists]. rewrite (mem_write_length _ _ _ _ Em), Hd. cbn. lia.
  - destruct (write_Some 0 (replicate 8 32) (destination (nms x))) as [m Em]; [rewrite length_replicate; lia|]. rewrite Em. cbn [mbind option_bind].
    destruct (write_Some 0 bs m) as [m' Em']; [rewrite (mem_write_length _ _ _ _ Em), Hd; lia|]. rewrite Em'. cbn [mbind option_bind].
    destruct (write_Some 8 [0] m') as [m2 ->]; [|by eexists]. rewrite (mem_write_length _ _ _ _ Em'), (mem_write_length _ _ _ _ Em), Hd. cbn. lia.
Qed.

Lemma set_destination_outcome i (d : list Z) n (st : aftp K F) : table_ok st ->
  outcome_is (n <= (if decide (46 ∈ d) then 17 else 8) /\ (handle_of st i = Freed \/ (exists s, handle_of st i = Live s) /\ ~ copies d n))
    (aftp_set_destination i d n st).
Proof.
  intros Hst. unfold aftp_set_destination. rewrite guarded_handle. pose proof (handle_sized st i) as Hsz.
  destruct (handle_of st i) as [|x|] eqn:E; [apply outcome_returns; [intros (_ & [?|[[x ?] _]]); done|by do 2 eexists]| |].
  - pose proof (destination_stored d n x (Hsz x Hst eq_refl)) as Hs. unfold memcpy_from, copies, CM_PLN_SIZE. change (Z.of_nat CM_SDN_SIZE) with 8.
    destruct (decide (0 <= n <= Z.of_nat (length d) + 1)) as [Hc|Hc].
    + specialize (Hs ltac:(lia)). specialize (fun Hn => Hs Hn (take (Z.to_nat n) (d ++ [0])) ltac:(rewrite length_take, length_app; cbn; lia)).
      apply outcome_returns; [intros (_ & [?|[_ ?]]); done|].
      destruct (decide (46 ∈ d)); case_decide as Hn; try (by do 2 eexists); rewrite of_opt_Some_bind; unfold on_names;
        rewrite M_bind_assoc, the_session_handle, E, M_bind_assoc; destruct (Hs Hn) as [y ->]; by do 2 eexists.
    + destruct (decide (46 ∈ d)); case_decide as Hn; try (apply outcome_returns; [tauto|by do 2 eexists]);
        (apply outcome_undefined; [split; [done|right; split; [by exists x|done]]|by eexists]).
  - destruct (decide (46 ∈ d)); case_decide as Hn; unfold CM_PLN_SIZE, CM_SDN_SIZE in Hn; try (apply outcome_returns; [lia|by do 2 eexists]);
      (apply outcome_undefined; [split; [lia|by left]|]; destruct (memcpy_from d n) as [bs|]; [|by eexists]; rewrite of_opt_Some_bind; unfold on_names;
       rewrite M_bind_assoc, the_session_handle, E; by eexists).
Qed.

(** Every one of them is undefined just then, in a table that is well formed, when the
    name of the working directory can be got. *)
Lemma local_function_outcome X (m : M (aftp K F) X) faulty st : local_function X m faulty -> table_ok st ->
  is_Some (safe_get_cwd 2 (cwd (files st))) -> outcome_is (faulty st) (m st).
Proof.
  intros Hm Hst Hcwd. pose proof (handle_sized st) as Hsz. destruct Hm.
  - destruct Hst. unfold aftp_create. destruct no_session; [apply outcome_returns; [by intros []|by do 2 eexists]|].
    rewrite get_st_bind. unfold MAX_FTP_SESSIONS. case_decide; [apply outcome_undefined; [by split; [|left]|by eexists]|].
    destruct no_record; [apply outcome_undefined; [by split; [|right]|by eexists]|].
    apply outcome_returns; [intros [_ [?|?]]; [lia|done]|]. cbn [asuiterecord_new]. rewrite put_st_bind.
    destruct Hcwd as [[d|] ->]; [unfold set_session|]; rewrite modify_bind; by do 2 eexists.
  - unfold aftp_destroy. rewrite guarded_handle. destruct (handle_of st i) as [|s|] eqn:E; [by apply outcome_returns; [|do 2 eexists]|..].
    + rewrite the_session_handle, E. by apply outcome_returns; [|do 2 eexists].
    + rewrite the_session_handle, E. by apply outcome_undefined; [|eexists].
  - by apply set_destination_outcome.
  - apply set_string_outcome; [done|]. intros x [[_ _ <- _ _ _ _ _] _ _ _]. apply strcpy_outcome.
  - apply set_string_outcome; [done|]. intros x [[_ _ _ _ <- _ _ _] _ _ _]. apply strcpy_outcome.
  - apply set_string_outcome; [done|]. intros x [[_ _ _ _ _ _ <- _] _ _ _]. apply strcpy_outcome.
  - apply set_string_outcome; [done|]. intros x [[_ _ _ _ _ _ _ <-] _ _ _]. apply strcpy_outcome.
  - apply outcome_returns; [by intros []|by do 2 eexists].
  - apply outcome_returns; [by intros []|]. destruct Hst as [_ _ Hl _ _]. unfold aftp_set_trace_filename. case_decide; [|by do 2 eexists]. rewrite get_st_bind.
    destruct (strncpy_ended s (Z.to_nat (MAX_FILE_NAME - 1))) as [bs Eb]. rewrite Eb, of_opt_Some_bind. apply strncpy_length in Eb.
    destruct (write_Some 0 bs (global_trace_file st)) as [t ->]; [rewrite Hl, Eb; unfold MAX_FILE_NAME; lia|]. rewrite of_opt_Some_bind, put_st_bind. by do 2 eexists.
  - unfold setting. rewrite guarded_handle. destruct (handle_of st i) as [|s|] eqn:E; [by apply outcome_returns; [|do 2 eexists]|..];
      unfold on_settings; rewrite M_bind_assoc, the_session_handle, E; [by apply outcome_returns; [|do 2 eexists]|by apply outcome_undefined; [|eexists]].
  - unfold extract. rewrite the_session_handle. destruct (handle_of st i) as [|s|] eqn:E; [by apply outcome_undefined; [|eexists]| |by apply outcome_undefined; [|eexists]].
    apply outcome_returns; [intros H; by apply (H s)|by do 2 eexists].
  - unfold extract_string, member. rewrite the_session_handle. destruct (handle_of st i) as [|s|] eqn:E; [by apply outcome_undefined; [|eexists]| |by apply outcome_undefined; [|eexists]].
    destruct (mem_string (get (nms s))) as [name|]; [|by apply outcome_undefined; [|eexists]]. rewrite of_opt_Some_bind. cbn zeta.
    case_decide as H0; [|apply outcome_returns; [intros [? _]; destruct name; [done|cbn in H0; lia]|by do 2 eexists]].
    case_decide; [apply outcome_returns; [lia|by do 2 eexists]|]. case_decide; [|apply outcome_returns; [tauto|by do 2 eexists]].
    apply outcome_undefined; [split; [by destruct name|done]|by eexists].
  - unfold aftp_local_change_dir. rewrite guarded_handle. pose proof (handle_of st i) as x. destruct (handle_of st i) as [|s|] eqn:E;
      [apply outcome_returns; [by intros []|by do 2 eexists]|..]; unfold mbind at 1, M_bind at 1, on_files; destruct (chdir d (files st)) as [err fs'] eqn:Ec; cbn [fst snd].
    + apply outcome_returns; [by intros []|]. destruct err; [by do 2 eexists|]. rewrite get_st_bind. cbn [files]. destruct (cwd fs') as [buf|]; [|by do 2 eexists].
      unfold set_directory. rewrite M_bind_assoc, the_session_handle. unfold handle_of in *. cbn [sessions]. rewrite E. by do 2 eexists.
    + destruct err; [apply outcome_returns; [by intros (_ & ? & _)|by do 2 eexists]|]. rewrite get_st_bind. cbn [files].
      destruct (cwd fs') as [buf|]; [|apply outcome_returns; [by intros (_ & _ & [])|by do 2 eexists]].
      apply outcome_undefined; [by split_and!; eexists|]. unfold set_directory. rewrite M_bind_assoc, the_session_handle. unfold handle_of in *. cbn [sessions]. rewrite E. by eexists.
  - unfold aftp_local_query_current_dir. rewrite valid_handle_bind. destruct (handle_of st i) as [|s|] eqn:E; cbn [negb];
      [apply outcome_returns; [intros [?|(? & ? & _)]; done|by do 2 eexists]|..]; rewrite the_session_handle, E; [|by apply outcome_undefined; [left|eexists]].
    unfold fit. case_decide; [apply outcome_returns; [intros [?|(s' & [= <-] & ?)]; [done|lia]|by do 2 eexists]|].
    apply outcome_undefined; [right; exists s; split; [done|lia]|by eexists].
  - unfold aftp_query_local_system_info. rewrite valid_handle_bind. destruct (handle_of st i) as [|s|] eqn:E; cbn [negb];
      [apply outcome_returns; [intros [?|(? & ? & _)]; done|by do 2 eexists]|..]; rewrite the_session_handle, E; [|by apply outcome_undefined; [left|eexists]].
    destruct (terminated_string (sys_info s)) as [name En]; [by apply (sys_info_terminated _ (Hsz i s Hst E))|]. rewrite En, of_opt_Some_bind.
    unfold fit. case_decide; [apply outcome_returns; [intros [?|(s' & [= <-] & H')]; [done|specialize (H' name En); lia]|by do 2 eexists]|].
    apply outcome_undefined; [right; exists s; split; [done|intros name' E'; rewrite En in E'; injection E' as <-; lia]|by eexists].
  - unfold aftp_format_error. rewrite valid_handle_bind. destruct (handle_of st i) as [|s|] eqn:E; cbn [negb];
      [apply outcome_returns; [intros [_ [?|(? & ? & _)]]; done|by do 2 eexists]|..];
      (case_decide as Hl; [|apply outcome_returns; [tauto|by do 2 eexists]]); rewrite the_session_handle, E; [|by apply outcome_undefined; [split; [|left]|eexists]].
    assert (formatted s size = false -> level = AFTP_DETAIL_RC /\ (Live s = Freed \/ exists s', Live s = Live s' /\ formatted s' size = false)) as Hu
      by (intros Hf; split; [done|right; by exists s]).
    assert (formatted s size = true -> ~ (level = AFTP_DETAIL_RC /\ (Live s = Freed \/ exists s', Live s = Live s' /\ formatted s' size = false))) as Hr
      by (intros Hf [_ [?|(s' & [= <-] & ?)]]; [done|congruence]).
    unfold formatted in Hu, Hr. destruct (msg_category (ans s)) as [category|]; [|by apply outcome_undefined; [apply Hu|eexists]]. rewrite of_opt_Some_bind.
    destruct (msg_index (ans s)) as [ix|]; [|by apply outcome_undefined; [apply Hu|eexists]]. rewrite of_opt_Some_bind. cbn zeta.
    destruct (mem_string (primary_msg (ans s))) as [msg|]; [|by apply outcome_undefined; [apply Hu|eexists]]. rewrite of_opt_Some_bind.
    case_decide as H1; [|apply outcome_undefined; [apply Hu; by rewrite bool_decide_false|by eexists]].
    case_decide as H2; [apply outcome_returns; [apply Hr; by rewrite !bool_decide_true|by do 2 eexists]|].
    apply outcome_undefined; [apply Hu; by rewrite bool_decide_true, bool_decide_false|by eexists].
Qed.

(** ** The table of a running program *)

(** The functions that look at the handle first. *)
Inductive checked (i : Z) : forall X, M (aftp K F) X -> Prop :=
  | c_connect k : checked i _ (aftp_connect be i k)
  | c_close : checked i _ (aftp_close be i)
  | c_change_dir d n : checked i _ (aftp_change_dir be i d n)
  | c_create_dir d n : checked i _ (aftp_create_dir be i d n)
  | c_remove_dir d n : checked i _ (aftp_remove_dir be i d n)
  | c_delete d n : checked i _ (aftp_delete be i d n)
  | c_rename o on f fn : checked i _ (aftp_rename be i o on f fn)
  | c_dir_open f n t l size : checked i _ (aftp_dir_open be i f n t l size)
  | c_dir_read size : checked i _ (aftp_dir_read be i size)
  | c_receive_file l ln r rn fuel : checked i _ (aftp_receive_file be i l ln r rn fuel)
  | c_send_file l ln r rn fuel : checked i _ (aftp_send_file be i l ln r rn fuel)
  | c_query_current_dir size : checked i _ (aftp_query_current_dir be i size)
  | c_query_system_info size : checked i _ (aftp_query_system_info be i size)
  | c_local_change_dir d : checked i _ (aftp_local_change_dir i d)
  | c_local_query_current_dir size : checked i _ (aftp_local_query_current_dir i size)
  | c_query_local_system_info size : checked i _ (aftp_query_local_system_info i size)
  | c_setting bad rc f : checked i _ (setting i bad rc f)
  | c_set_destination d n : checked i _ (aftp_set_destination i d n)
  | c_set_mode_name s n : checked i _ (aftp_set_mode_name i s n)
  | c_set_password s n : checked i _ (aftp_set_password i s n)
  | c_set_tp_name s n : checked i _ (aftp_set_tp_name i s n)
  | c_set_userid s n : checked i _ (aftp_set_userid i s n)
  | c_destroy : checked i _ (aftp_destroy i)
  | c_format_error level size : checked i _ (aftp_format_error i level size).

Lemma checked_returns i X (m : M (aftp K F) X) st : checked i X m -> handle_of st i = Null -> exists x, m st = Ret x st.
Proof.
  intros Hm E. destruct Hm; unfold aftp_connect, aftp_close, aftp_change_dir, aftp_create_dir, aftp_remove_dir, aftp_delete, aftp_rename, aftp_dir_open,
    aftp_dir_read, aftp_receive_file, aftp_send_file, aftp_query_current_dir, aftp_query_system_info, aftp_local_change_dir, aftp_local_query_current_dir,
    aftp_query_local_system_info, setting, aftp_set_destination, aftp_set_mode_name, aftp_set_password, aftp_set_tp_name, aftp_set_userid, set_string,
    aftp_destroy, aftp_format_error; first [rewrite guarded_handle, E|rewrite valid_handle_bind, E]; by eexists.
Qed.

Lemma called_table f st : called f st -> table_ok st.
Proof. induction 1 as [|X m x st st' _ IH Hm E]; [apply start_ok|by eapply function_keeps]. Qed.

Lemma local_function_is X (m : M (aftp K F) X) faulty : local_function X m faulty -> function X m.
Proof. destruct 1; first [solve [constructor]|apply f_session; constructor]. Qed.

End Functions.

(** The state after a call. *)
Definition after {K F X} (m : M (aftp K F) X) (st : aftp K F) : aftp K F := match m st with Ret _ st' => st' | _ => st end.

Lemma called_after {K F X} `{HC : Cpic K} `{HP : Posix F} be f (m : M (aftp K F) X) st : function be X m -> called be f st -> called be f (after m st).
Proof. intros Hm Hst. unfold after. destruct (m st) as [x st'| | | |] eqn:E; [by eapply call_returns|done..]. Qed.

(** Two handles: one with a destination, a password and a TP name set, one
    destroyed. *)
Definition typed_disk : disk None := MkDisk {[str "f" := []]} [] (str "/") [].

Definition typed_state : aftp script (disk None) :=
  after (aftp_destroy 1) (after (aftp_set_tp_name 0 (str "MYTP") 4) (after (aftp_set_password 0 (str "secret") 6)
    (after (aftp_set_destination 0 (str "NET.HOST") 8) (after (aftp_create false false) (after (aftp_create false false)
      (aftp_start typed_disk)))))).

(** A twenty-first handle. *)
Definition create_all (n : nat) : aftp script (disk None) := Nat.iter n (after (aftp_create false false)) (aftp_start typed_disk).

