(* ===== verification/AftpClient.v ===== *)
(** * asuite/aftp.c: the file transfer client program

    The program reads a line, breaks it into words, looks the first up in the
    table of commands and calls the functions of libaftp.c.  The state is the
    library's, the program's variables, what is left of the standard input, and
    what the program has printed on the standard output; messages of the library
    and on the standard error are left out.  [__USE_READLINE__] is not defined,
    and memory for words and lists is not short.  A conversation is opened by [dial]; [g_basename] and [g_dirname] are
    glib's; [fuel] bounds the entries of a listing and the records of a file. *)
From S2P Require Import Prelude Filemode Cpic CpicSession AsuiteRecord Posix Aftp.

Definition DEFAULT_BUFFER_SIZE := 40.
Definition DEFAULT_ARG_SIZE := 25.
Definition AFTP_CLIENT_VERSION : list Z := str "0.03".
Definition AFTP_OPSYS : list Z := str "Linux".
Definition AFTP_NATIVE_FILENAMES := 0.
Definition AFTP_DATA_TYPE_SIZE := 64.
Definition AFTP_DATE_MODE_SIZE := 64.
Definition AFTP_RECORD_FORMAT_SIZE := 64.
Definition AFTP_SYSTEM_INFO_SIZE : nat := 512.

Definition A_QMARK := 0.
Definition A_ALLOC := 1.
Definition A_ASC := 2.
Definition A_ASCII := 3.
Definition A_BIN := 4.
Definition A_BINARY := 5.
Definition A_BLOCK := 6.
Definition A_BYE := 7.
Definition A_CD := 8.
Definition A_CLOSE := 9.
Definition A_DATE := 10.
Definition A_DEL := 11.
Definition A_DELETE := 12.
Definition A_DIR := 13.
Definition A_DISC := 14.
Definition A_DISCONNECT := 15.
Definition A_EXIT := 16.
Definition A_GET := 17.
Definition A_HELP := 18.
Definition A_LCD := 19.
Definition A_LPWD := 20.
Definition A_LRECL := 21.
Definition A_LS := 22.
Definition A_LSD := 23.
Definition A_MD := 24.
Definition A_MKDIR := 25.
Definition A_MODENAME := 26.
Definition A_OPEN := 27.
Definition A_PROMPT := 28.
Definition A_PUT := 29.
Definition A_PWD := 30.
Definition A_QUIT := 31.
Definition A_RD := 32.
Definition A_RECEIVE := 33.
Definition A_RECFM := 34.
Definition A_RECV := 35.
Definition A_REN := 36.
Definition A_RENAME := 37.
Definition A_RMDIR := 38.
Definition A_SEND := 39.
Definition A_STAT := 40.
Definition A_STATUS := 41.
Definition A_SYS := 42.
Definition A_SYSTEM := 43.
Definition A_TPNAME := 44.
Definition A_TRACE := 45.
Definition A_TYPE := 46.
Definition A_VERSION := 47.

(** ** The tables *)

Abbreviation command_strings := (list Z * Z)%type.

Definition commands : list command_strings :=
  [(str "?", A_QMARK);
   (str "alloc", A_ALLOC);
   (str "asc", A_ASC);
   (str "ascii", A_ASCII);
   (str "bin", A_BIN);
   (str "binary", A_BINARY);
   (str "block", A_BLOCK);
   (str "bye", A_BYE);
   (str "cd", A_CD);
   (str "close", A_CLOSE);
   (str "date", A_DATE);
   (str "del", A_DEL);
   (str "delete", A_DELETE);
   (str "dir", A_DIR);
   (str "disc", A_DISC);
   (str "disconnect", A_DISCONNECT);
   (str "exit", A_EXIT);
   (str "get", A_GET);
   (str "help", A_HELP);
   (str "lcd", A_LCD);
   (str "lpwd", A_LPWD);
   (str "lrecl", A_LRECL);
   (str "ls", A_LS);
   (str "lsd", A_LSD);
   (str "md", A_MD);
   (str "mkdir", A_MKDIR);
   (str "modename", A_MODENAME);
   (str "open", A_OPEN);
   (str "prompt", A_PROMPT);
   (str "put", A_PUT);
   (str "pwd", A_PWD);
   (str "quit", A_QUIT);
   (str "rd", A_RD);
   (str "receive", A_RECEIVE);
   (str "recfm", A_RECFM);
   (str "recv", A_RECV);
   (str "ren", A_REN);
   (str "rename", A_RENAME);
   (str "rmdir", A_RMDIR);
   (str "send", A_SEND);
   (str "stat", A_STAT);
   (str "status", A_STATUS);
   (str "sys", A_SYS);
   (str "system", A_SYSTEM);
   (str "tpname", A_TPNAME);
   (str "trace", A_TRACE);
   (str "type", A_TYPE);
   (str "version", A_VERSION);
   (str "", -1)].

Definition formats : list command_strings :=
  [(str "0", 0);
   (str "F", 13);
   (str "FA", 14);
   (str "FB", 15);
   (str "FBA", 17);
   (str "FBM", 18);
   (str "FBS", 19);
   (str "FBSA", 21);
   (str "FBSM", 20);
   (str "FM", 16);
   (str "U", 22);
   (str "UA", 23);
   (str "UM", 24);
   (str "V", 1);
   (str "VA", 2);
   (str "VB", 3);
   (str "VBA", 6);
   (str "VBM", 7);
   (str "VBS", 8);
   (str "VBSA", 11);
   (str "VBSM", 12);
   (str "VM", 4);
   (str "VS", 5);
   (str "VSA", 9);
   (str "VSM", 10)].

Definition help_strings : list (list Z) :=
  [(str "?" ++ [9] ++ str "Print local help information");
   (str "alloc" ++ [9] ++ str "Sets the allocation size for created files");
   (str "asc" ++ [9] ++ str "Changes the data transmission type to ASCII");
   (str "ascii" ++ [9] ++ str "Changes the data transmission type to ASCII");
   (str "bin" ++ [9] ++ str "Changes the data transmission type to binary");
   (str "binary" ++ [9] ++ str "Changes the data transmission type to binary");
   (str "block" ++ [9] ++ str "Sets the block size for created files");
   (str "bye" ++ [9] ++ str "Exits the AFTP environment");
   (str "cd" ++ [9] ++ str "Sets the current directory on the server");
   (str "close" ++ [9] ++ str "Closes the current AFTP session");
   (str "date" ++ [9] ++ str "Sets how file dates will be handles during transfers");
   (str "del" ++ [9] ++ str "Deletes a file on the server");
   (str "delete" ++ [9] ++ str "Deletes a file on the server");
   (str "dir" ++ [9] ++ str "Provides a listing of files an attributes on the server");
   (str "disc" ++ [9] ++ str "Closes the current AFTP session");
   (str "disconnect" ++ [9] ++ str "Closes the current AFTP session");
   (str "exit" ++ [9] ++ str "Exits the AFTP environment");
   (str "get" ++ [9] ++ str "Transfers one or more files from the server");
   (str "help" ++ [9] ++ str "Provides a list of help topics, or help on a specific command");
   (str "lcd" ++ [9] ++ str "Changes the current directory on the local computer");
   (str "lpwd" ++ [9] ++ str "Display the current diretory on the local computer");
   (str "lrecl" ++ [9] ++ str "Sets the logical record length");
   (str "ls" ++ [9] ++ str "Displays a short directory listing (files only) from the server");
   (str "lsd" ++ [9] ++ str "Displays a short directory list from the server containing only directories");
   (str "md" ++ [9] ++ str "Create a new directory on the server computer");
   (str "mkdir" ++ [9] ++ str "Create a new directory on the server computer");
   (str "modename" ++ [9] ++ str "Sets the mode name used for file transfers");
   (str "open" ++ [9] ++ str "Opens a connection to an AFTP server");
   (str "prompt" ++ [9] ++ str "Sets whether or not to use file by file confirmation");
   (str "put" ++ [9] ++ str "Transfers one or more files from the client to the server");
   (str "pwd" ++ [9] ++ str "Displays the current working directory on the server");
   (str "quit" ++ [9] ++ str "Exits from the AFTP environment");
   (str "rd" ++ [9] ++ str "Removes a directory on the server");
   (str "receive" ++ [9] ++ str "Transfers one or more files from the server");
   (str "recfm" ++ [9] ++ str "Sets the record format");
   (str "recv" ++ [9] ++ str "Transfers one or more files from the server");
   (str "ren" ++ [9] ++ str "Renames a file on the server");
   (str "rename" ++ [9] ++ str "Renames a file on the server");
   (str "rmdir" ++ [9] ++ str "Removes a directory on the server");
   (str "send" ++ [9] ++ str "Transfers one or more files fromthe client to the server");
   (str "stat" ++ [9] ++ str "Provides information about the current session characteristics");
   (str "status" ++ [9] ++ str "Provides information about the current session characteristics");
   (str "sys" ++ [9] ++ str "Provides information about the AFTP server");
   (str "system" ++ [9] ++ str "Provides information about the AFTP server");
   (str "tpname" ++ [9] ++ str "Sets the name of the transaction program on the server");
   (str "trace" ++ [9] ++ str "Sets the level of trace data to be collected");
   (str "type" ++ [9] ++ str "Sets the data transmission type or displays its current value");
   (str "version" ++ [9] ++ str "Displays the version and maintainer information")].

Definition A_ACTION_YES := 0.
Definition A_ACTION_NO := 1.
Definition A_ACTION_GO := 2.
Definition A_ACTION_QUIT := 3.

(** What [initialize] counts: the entries before the first negative number. *)
Fixpoint count_commands (data : list command_strings) : nat :=
  match data with
  | (_, n) :: data => if decide (0 <= n) then Datatypes.S (count_commands data) else O
  | [] => O
  end.

Definition commandcnt : nat := count_commands commands.

(** [bsearch] over [data[l .. u - 1]]; [None] is an element outside the table. *)
Fixpoint bsearch (fuel : nat) (key : list Z) (data : list command_strings) (l u : nat) : option (option Z) :=
  match fuel with
  | O => None
  | Datatypes.S fuel =>
      if decide (l < u)%nat then
        let i := Nat.div2 (l + u) in
        '(text, num) ← data !! i;
        let c := strcmp key text in
        if decide (c < 0) then bsearch fuel key data l i
        else if decide (0 < c) then bsearch fuel key data (Datatypes.S i) u
        else Some (Some num)
      else Some None
  end.

(** The number of elements is that of [commands], whatever the table. *)
Definition get_command (arg : list Z) (data : list command_strings) : option Z :=
  r ← bsearch (Datatypes.S commandcnt) arg data 0 commandcnt;
  Some (default (-1) r).

(** ** Words *)

(** The characters up to a blank go to a block of [size] bytes, which is
    reallocated when [maxpos] is reached; [None] is a store outside it.  The word
    and the rest of the line. *)
Fixpoint read_arg (line curarg : list Z) (size maxpos : Z) : option (list Z * list Z) :=
  let argpos := Z.of_nat (length curarg) in
  let finish := if decide (argpos < size) then Some (curarg, line) else None in
  match line with
  | [] => finish
  | c :: line' =>
      if isspace c then finish
      else if decide (argpos < maxpos) then
        if decide (argpos < size) then read_arg line' (curarg ++ [c]) size maxpos else None
      else read_arg line' (curarg ++ [c]) (argpos + DEFAULT_ARG_SIZE) (maxpos + DEFAULT_ARG_SIZE)
  end.

(** A turn takes a character at least. *)
Fixpoint parse_loop (fuel : nat) (line : list Z) (argarray : list (list Z)) : option (list (list Z)) :=
  match fuel with
  | O => None
  | Datatypes.S fuel =>
      match line with
      | [] => Some argarray
      | _ =>
          '(curarg, line) ← read_arg (skip_blanks line) [] (DEFAULT_ARG_SIZE + 1) DEFAULT_ARG_SIZE;
          parse_loop fuel line (if decide (curarg = []) then argarray else argarray ++ [curarg])
      end
  end.

Definition parse_input (line : list Z) : option (list (list Z)) := parse_loop (Datatypes.S (length line)) line [].

(** [fgetc] up to a newline, into a block of [maxbuf] bytes that is reallocated
    when it is full; [None] is a store outside it.  The end of the input reads as
    the character 255 for ever: the line grows until [realloc] fails. *)
Fixpoint read_line (input line : list Z) (maxbuf : Z) : option (option (list Z) * list Z) :=
  let curpos := Z.of_nat (length line) in
  match input with
  | [] => Some (None, [])
  | c :: input =>
      if decide (c = 10) then if decide (curpos < maxbuf) then Some (Some line, input) else None
      else read_line input (line ++ [c]) (if decide (curpos < maxbuf) then maxbuf else curpos + DEFAULT_BUFFER_SIZE)
  end.

(** [getchar] up to a character that is not a blank. *)
Fixpoint next_char (input : list Z) : option (Z * list Z) :=
  match input with
  | [] => None
  | c :: input => if isspace c then next_char input else Some (c, input)
  end.

(** ** The program *)

Record client {K F : Type} : Type := MkClient {
  lib : aftp K F;
  session : Z;
  connected : bool;
  prompting : bool;
  opens : nat;
  input : list Z;
  output : list Z
}.
Arguments client : clear implicits.
Arguments MkClient {K F} _ _ _ _ _ _ _.

Section AftpClient.
Context (big_endian : bool) {K F : Type} `{Cpic K} `{Posix F}.
Context (dial : nat -> K) (g_basename g_dirname : list Z -> list Z) (ToolsVersion ToolsMaintain : list Z) (fuel : nat).

Abbreviation A := (M (client K F)).

Definition on_lib {X} (m : M (aftp K F) X) : A X :=
  zoom lib (fun l s => MkClient l (session s) (connected s) (prompting s) (opens s) (input s) (output s)) m.
Definition set_handle (i : Z) : A unit :=
  modify (fun s => MkClient (lib s) i (connected s) (prompting s) (opens s) (input s) (output s)).
Definition set_connected (b : bool) : A unit :=
  modify (fun s => MkClient (lib s) (session s) b (prompting s) (opens s) (input s) (output s)).
Definition set_prompting (b : bool) : A unit :=
  modify (fun s => MkClient (lib s) (session s) (connected s) b (opens s) (input s) (output s)).
Definition set_opens (n : nat) : A unit :=
  modify (fun s => MkClient (lib s) (session s) (connected s) (prompting s) n (input s) (output s)).
Definition set_input (i : list Z) : A unit :=
  modify (fun s => MkClient (lib s) (session s) (connected s) (prompting s) (opens s) i (output s)).
Definition say (t : list Z) : A unit :=
  modify (fun s => MkClient (lib s) (session s) (connected s) (prompting s) (opens s) (input s) (output s ++ t)).
Definition puts (t : list Z) : A unit := say (t ++ [10]).

(** A function of the library on the session, and its return code, which has to
    be assigned when it is looked at. *)
Definition call {X} (m : Z -> M (aftp K F) X) : A X := s ← get_st; on_lib (m (session s)).
Definition call_rc (m : Z -> M (aftp K F) (option Z)) : A Z := rc ← call m; of_opt rc.

(** The reading of a setting, which [assert]s that it succeeds. *)
Definition setting_of (m : Z -> M (aftp K F) (Z * option Z)) : A Z :=
  '(v, rc) ← call m;
  rc ← of_opt rc;
  tnX_assert (bool_decide (rc = AFTP_RC_OK));;
  mret v.

Definition if_connected (body : A unit) : A unit :=
  s ← get_st; if connected s then body else puts (str "Not connected.").

Definition get_input : A (option (list Z)) :=
  say (str "aftp> ");;
  s ← get_st;
  '(line, rest) ← of_opt (read_line (input s) [] DEFAULT_BUFFER_SIZE);
  set_input rest;;
  mret line.

Definition detail_help (cmdcode : Z) : A unit :=
  if decide (cmdcode < Z.of_nat commandcnt) then
    text ← of_opt (help_strings !! Z.to_nat cmdcode); puts text
  else puts (str "No help available").

(** A turn asks, and takes an answer; at the end of the input it asks for ever. *)
Fixpoint get_action_loop (turns : nat) (prompt filename : list Z) : A Z :=
  match turns with
  | O => no_fuel
  | Datatypes.S turns =>
      say ([10] ++ prompt ++ str " " ++ filename ++ str "? (Yes, No, Go, Quit) ");;
      s ← get_st;
      match next_char (input s) with
      | None => no_fuel
      | Some (c, rest) =>
          set_input rest;;
          let action := toupper c in
          if decide (action = 89) then mret A_ACTION_YES
          else if decide (action = 78) then mret A_ACTION_NO
          else if decide (action = 71) then mret A_ACTION_GO
          else if decide (action = 81) then mret A_ACTION_QUIT
          else get_action_loop turns prompt filename
      end
  end.

Definition get_action (prompt filename : list Z) : A Z :=
  s ← get_st; get_action_loop (Datatypes.S (length (input s))) prompt filename.

(** What to do with the next file: the action and whether to go on asking. *)
Definition next_action (prompt filename : list Z) (prompt_user : bool) : A (Z * bool) :=
  action ← (if prompt_user then get_action prompt filename else mret A_ACTION_YES);
  mret (if decide (action = A_ACTION_GO) then (A_ACTION_YES, false) else (action, prompt_user)).

(** Names of commands, five in a row. *)
Fixpoint list_commands (data : list command_strings) (nl : Z) : A unit :=
  match data with
  | (text, n) :: data =>
      if decide (0 <= n) then
        say text;;
        if decide (nl = 4) then say [10];; list_commands data 0
        else
          say [9];;
          (if decide (length text < 8)%nat then say [9] else mret tt);;
          list_commands data (nl + 1)
      else mret tt
  | [] => undef
  end.

Definition a_help (args : list (list Z)) : A unit :=
  match length args with
  | 1%nat => list_commands commands 0;; say [10]
  | _ => detail_help A_HELP
  end.

Definition a_open (args : list (list Z)) : A unit :=
  s ← get_st;
  if connected s then puts (str "Already connected") else
  match args with
  | [_; dest] =>
      rc ← call_rc (fun i => aftp_set_destination i dest (Z.of_nat (length dest)));
      if decide (rc <> AFTP_RC_OK) then puts (str "Could not connect to destination: " ++ dest) else
      set_opens (Datatypes.S (opens s));;
      rc ← call_rc (fun i => aftp_connect big_endian i (dial (opens s)));
      if decide (rc <> AFTP_RC_OK) then puts (str "Could not connect to destination: " ++ dest ++ str " " ++ decimal rc)
      else puts (str "Connected to " ++ dest);; set_connected true
  | _ => detail_help A_OPEN
  end.

(** The loop over [aftp_dir_read]: [step] is run on every entry.  [entry] is what
    [dir_entry] holds, [no_more] what [no_more_entries] does, [None] when it has
    not been assigned. *)
Fixpoint read_entries {X} (step : list Z -> X -> A X) (turns : nat) (entry : option (list Z)) (no_more : option Z) (x : X) :
    A (option (list Z) * X) :=
  match turns with
  | O => no_fuel
  | Datatypes.S turns =>
      '(rc, got, more) ← call (fun i => aftp_dir_read big_endian i 80);
      rc ← of_opt rc;
      let entry := match got with Some e => Some e | None => entry end in
      let no_more := match more with Some b => Some b | None => no_more end in
      if decide (rc = AFTP_RC_OK) then
        b ← of_opt no_more;
        if decide (b = 0) then
          e ← of_opt entry;
          x ← step e x;
          read_entries step turns entry no_more x
        else mret (entry, x)
      else mret (entry, x)
  end.

Definition open_listing (file_spec : list Z) (file_type style : Z) : A (Z * option (list Z)) :=
  '(rc, path) ← call (fun i => aftp_dir_open big_endian i file_spec (Z.of_nat (length file_spec)) file_type style 512);
  rc ← of_opt rc;
  mret (rc, path).

Definition a_ls (args : list (list Z)) (cmdcode : Z) (attr : bool) : A unit :=
  s ← get_st;
  if negb (connected s) then puts (str "Not connected") else
  let file_spec := match args with [_; f] => f | _ => str "*" end in
  let file_type := if decide (cmdcode = A_LS) then AFTP_ALL_FILES else AFTP_DIRECTORY in
  let style := if attr then AFTP_NATIVE_ATTRIBUTES else AFTP_NATIVE_FILENAMES in
  '(rc, path) ← open_listing file_spec file_type style;
  if decide (rc <> AFTP_RC_OK) then puts (str "Directory listing failed") else
  path ← of_opt path;
  puts (str "Directory for " ++ path ++ str ".");;
  read_entries (fun e _ => puts e) fuel None None tt;;
  puts ([10] ++ str "Directory listing complete.");;
  rc ← call_rc aftp_dir_close;
  if decide (rc <> AFTP_RC_OK) then puts (str "Error closing directory") else mret tt.

Definition a_md (args : list (list Z)) : A unit :=
  if_connected (
    match args with
    | [_; dir] =>
        rc ← call_rc (fun i => aftp_create_dir big_endian i dir (Z.of_nat (length dir)));
        if decide (rc <> AFTP_RC_OK) then puts (str "Error creating directory.")
        else puts (str "Directory " ++ dir ++ str " created.")
    | _ => detail_help A_MKDIR
    end).

Definition a_cd (args : list (list Z)) : A unit :=
  if_connected (
    match args with
    | [_; dir] =>
        rc ← call_rc (fun i => aftp_change_dir big_endian i dir (Z.of_nat (length dir)));
        if decide (rc <> AFTP_RC_OK) then puts (str "Could not change to directory " ++ dir) else mret tt
    | _ => detail_help A_CD
    end).

Definition set_data_type (data_type : list Z) : A unit :=
  match (if decide (data_type = str "ascii") then Some AFTP_ASCII
         else if decide (data_type = str "default") then Some AFTP_ASCII
         else if decide (data_type = str "binary") then Some AFTP_BINARY else None) with
  | None => puts (str "Unknown data type " ++ data_type)
  | Some type_code =>
      rc ← call_rc (fun i => aftp_set_data_type i type_code);
      if decide (rc <> AFTP_RC_OK) then puts (str "Could not set data type.") else
      '(text, rc) ← of_opt (aftp_get_data_type_string type_code AFTP_DATA_TYPE_SIZE);
      (if decide (rc <> AFTP_RC_OK) then puts (str "Could not get data type 2.") else puts (str "data type: " ++ text));;
      puts (str "Data type set to " ++ text)
  end.

Definition a_type (args : list (list Z)) : A unit :=
  match args with
  | [_] =>
      '(data_type, rc) ← call aftp_extract_data_type;
      rc ← of_opt rc;
      if decide (rc <> AFTP_RC_OK) then puts (str "Could not get data type 1.") else
      '(text, rc) ← of_opt (aftp_get_data_type_string data_type AFTP_DATA_TYPE_SIZE);
      if decide (rc <> AFTP_RC_OK) then puts (str "Could not get data type 2.") else puts (str "data type: " ++ text)
  | [_; t] => set_data_type t
  | _ => detail_help A_TYPE
  end.

Definition a_system : A unit :=
  if_connected (
    '(info, rc) ← call (fun i => aftp_query_system_info big_endian i AFTP_SYSTEM_INFO_SIZE);
    rc ← of_opt rc;
    if decide (rc <> AFTP_RC_OK) then puts (str "Could not retrieve system information.") else
    puts (str "Server information." ++ [10]);;
    info ← of_opt info;
    puts info).

(** ["Fatal error!"] and [exit(1)] unless the code is [AFTP_RC_OK]. *)
Definition or_exit (rc : option Z) : A unit :=
  rc ← of_opt rc;
  if decide (rc <> AFTP_RC_OK) then puts (str "Fatal error!");; c_exit 1 else mret tt.

Definition or_exit_value {X} (m : A (X * option Z)) : A X := '(x, rc) ← m; or_exit rc;; mret x.
Definition or_exit_string (r : option (list Z * Z)) : A (list Z) := '(s, rc) ← of_opt r; or_exit (Some rc);; mret s.

Definition a_status : A unit :=
  tp_name ← or_exit_value (call (fun i => aftp_extract_tp_name i AFTP_TP_NAME_SIZE));
  mode_name ← or_exit_value (call (fun i => aftp_extract_mode_name i AFTP_MODE_NAME_SIZE));
  data_type ← or_exit_value (call aftp_extract_data_type);
  data_type_string ← or_exit_string (aftp_get_data_type_string data_type AFTP_DATA_TYPE_SIZE);
  date_mode ← or_exit_value (call aftp_extract_date_mode);
  date_mode_string ← or_exit_string (aftp_get_date_mode_string date_mode AFTP_DATE_MODE_SIZE);
  record_format ← or_exit_value (call aftp_extract_record_format);
  record_format_string ← or_exit_string (aftp_get_record_format_string record_format AFTP_RECORD_FORMAT_SIZE);
  record_length ← or_exit_value (call aftp_extract_record_length);
  block_size ← or_exit_value (call aftp_extract_block_size);
  alloc_size ← or_exit_value (call aftp_extract_allocation_size);
  tp_name ← of_opt tp_name;
  mode_name ← of_opt mode_name;
  puts (str "AFTP version is " ++ AFTP_CLIENT_VERSION);;
  puts (str "Operating system is " ++ AFTP_OPSYS ++ [10]);;
  puts (str "Data Type" ++ [9] ++ str ": " ++ data_type_string);;
  puts (str "Date Mode" ++ [9] ++ str ": " ++ date_mode_string);;
  puts (str "Record Format" ++ [9] ++ str ": " ++ record_format_string);;
  puts (str "Record Length" ++ [9] ++ str ": " ++ decimal record_length);;
  puts (str "Block Size" ++ [9] ++ str ": " ++ decimal block_size);;
  puts (str "Allocation Size" ++ [9] ++ str ": " ++ decimal alloc_size);;
  puts (str "Mode Name" ++ [9] ++ str ": " ++ mode_name);;
  puts (str "TP Name" ++ [9; 9] ++ str ": " ++ tp_name);;
  s ← get_st;
  puts (str "Prompting" ++ [9] ++ str ": " ++ (if prompting s then str "ON" else str "OFF")).

(** [aftp_format_error] leaves [rc] as it is. *)
Definition a_rd (args : list (list Z)) : A unit :=
  if_connected (
    match args with
    | [_; dir] =>
        rc ← call_rc (fun i => aftp_remove_dir big_endian i dir (Z.of_nat (length dir)));
        if decide (rc <> AFTP_RC_OK) then
          puts (str "Error removing directory.");;
          '(error_str, rc') ← call (fun i => aftp_format_error i AFTP_DETAIL_RC 511);
          if decide (default rc rc' <> AFTP_RC_OK) then text ← of_opt error_str; puts text else mret tt
        else puts (str "Directory " ++ dir ++ str " removed.")
    | _ => detail_help A_MD
    end).

Definition a_pwd : A unit :=
  if_connected (
    '(working_dir, rc) ← call (fun i => aftp_query_current_dir big_endian i 80);
    rc ← of_opt rc;
    if decide (rc <> AFTP_RC_OK) then puts (str "Could not retrieve working directory.") else
    d ← of_opt working_dir;
    puts (d ++ str " is the server's current directory")).

Definition a_ren (args : list (list Z)) : A unit :=
  if_connected (
    match args with
    | [_; oldname; newname] =>
        rc ← call_rc (fun i => aftp_rename big_endian i oldname (Z.of_nat (length oldname)) newname (Z.of_nat (length newname)));
        if decide (rc <> AFTP_RC_OK) then puts (str "Could not rename file " ++ oldname ++ str ".")
        else puts (str "Renamed " ++ oldname ++ str " to " ++ newname ++ str ".")
    | _ => detail_help A_REN
    end).

(** The commands that show or set a number; a [long] given to them becomes
    unsigned. *)
Definition number_command (args : list (list Z)) (get : Z -> M (aftp K F) (Z * option Z)) (set : Z -> Z -> M (aftp K F) (option Z))
    (show invalid failed done : list Z) (cmdcode : Z) : A unit :=
  if_connected (
    match args with
    | [_] => v ← setting_of get; puts (show ++ decimal v)
    | [_; arg] =>
        let '(n, rest) := strtol 10 arg in
        if decide (rest <> []) then puts invalid else
        rc ← call_rc (fun i => set i (u32 n));
        if decide (rc <> AFTP_RC_OK) then puts failed else puts (done ++ decimal (u32 n))
    | _ => detail_help cmdcode
    end).

Definition a_alloc (args : list (list Z)) : A unit :=
  number_command args aftp_extract_allocation_size aftp_set_allocation_size (str "Allocation size" ++ [9] ++ str ": ")
    (str "Invalid allocation size.") (str "Could not set allocation size.") (str "Allocation size set to ") A_ALLOC.

Definition a_block (args : list (list Z)) : A unit :=
  number_command args aftp_extract_block_size aftp_set_block_size (str "Block size:" ++ [9] ++ str " ")
    (str "Invalid block size.") (str "Could not set block size.") (str "Block size set to ") A_BLOCK.

Definition a_lrecl (args : list (list Z)) : A unit :=
  number_command args aftp_extract_record_length aftp_set_record_length (str "Record length" ++ [9] ++ str ": ")
    (str "Invalid record length.") (str "Could not set record length.") (str "Record length set to ") A_LRECL.

Definition a_close : A unit :=
  if_connected (
    rc ← call_rc (aftp_close big_endian);
    if decide (rc <> AFTP_RC_OK) then puts (str "Could not close connection.")
    else puts (str "Goodbye.");; set_connected false).

Definition a_date (args : list (list Z)) : A unit :=
  if_connected (
    match args with
    | [_] =>
        date_mode ← setting_of aftp_extract_date_mode;
        '(text, rc) ← of_opt (aftp_get_date_mode_string date_mode AFTP_DATE_MODE_SIZE);
        tnX_assert (bool_decide (rc = AFTP_RC_OK));;
        puts (str "Date mode:" ++ [9] ++ str " " ++ text)
    | [_; date] =>
        match (if decide (date = str "new") then Some AFTP_NEWDATE
               else if decide (date = str "old") then Some AFTP_OLDDATE else None) with
        | None => puts (str "Unknown date mode " ++ date)
        | Some date_code =>
            rc ← call_rc (fun i => aftp_set_date_mode i date_code);
            if decide (rc <> AFTP_RC_OK) then puts (str "Could not set date mode.") else puts (str "Date mode set to " ++ date)
        end
    | _ => detail_help A_DATE
    end).

(** The list of files of [a_del] and [a_get]: every element is the address of
    [dir_entry], so the list is its length and the name its one content. *)
Definition remote_list (filespec : list Z) : A (option (nat * option (list Z))) :=
  '(rc, path) ← open_listing filespec AFTP_FILE AFTP_NATIVE_FILENAMES;
  if decide (rc <> AFTP_RC_OK) then puts (str "File list retrieval failed.");; mret None else
  of_opt path;;
  '(dir_entry, filelist) ← read_entries (fun _ n => mret (Datatypes.S n)) fuel None None O;
  rc ← call_rc aftp_dir_close;
  (if decide (rc <> AFTP_RC_OK) then puts (str "Error closing directory") else mret tt);;
  mret (Some (filelist, dir_entry)).

(** The loop of [a_del] over what is left of the list; only a file that is
    deleted is passed, and a turn that passes none takes a character of the
    input. *)
Fixpoint del_loop (turns index : nat) (name : list Z) (prompt_user : bool) : A unit :=
  match turns with
  | O => no_fuel
  | Datatypes.S turns =>
      match index with
      | O => mret tt
      | Datatypes.S rest =>
          '(action, prompt_user) ← next_action (str "Delete") name prompt_user;
          if decide (action = A_ACTION_QUIT) then mret tt
          else if decide (action = A_ACTION_YES) then
            rc ← call_rc (fun i => aftp_delete big_endian i name (Z.of_nat (length name)));
            (if decide (rc <> AFTP_RC_OK) then puts (str "Error deleting " ++ name) else mret tt);;
            del_loop turns rest name prompt_user
          else del_loop turns index name prompt_user
      end
  end.

(** [free_single_list] frees [dir_entry], an array on the stack, for every
    element. *)
Definition free_entries (filelist : nat) : A unit :=
  match filelist with O => mret tt | Datatypes.S _ => undef end.

Definition a_del (args : list (list Z)) : A unit :=
  if_connected (
    match args with
    | [_; filespec] =>
        l ← remote_list filespec;
        match l with
        | None => mret tt
        | Some (filelist, dir_entry) =>
            s ← get_st;
            del_loop (Datatypes.S (filelist + length (input s))) filelist (default [] dir_entry) (prompting s);;
            free_entries filelist
        end
    | _ => detail_help A_DEL
    end).

Fixpoint get_loop (index : nat) (name : list Z) (prompt_user : bool) : A unit :=
  match index with
  | O => mret tt
  | Datatypes.S rest =>
      '(action, prompt_user) ← next_action (str "Receive") name prompt_user;
      if decide (action = A_ACTION_QUIT) then mret tt else
      (if decide (action = A_ACTION_YES) then
         rc ← call_rc (fun i => aftp_receive_file big_endian i name (Z.of_nat (length name)) name (Z.of_nat (length name)) fuel);
         if decide (rc <> AFTP_RC_OK) then puts (str "Error receiving " ++ name) else mret tt
       else mret tt);;
      get_loop rest name prompt_user
  end.

Definition a_get (args : list (list Z)) : A unit :=
  if_connected (
    match args with
    | [_; filespec] =>
        l ← remote_list filespec;
        match l with
        | None => mret tt
        | Some (filelist, dir_entry) =>
            s ← get_st;
            get_loop filelist (default [] dir_entry) (prompting s);;
            free_entries filelist
        end
    | _ => detail_help A_GET
    end).

(** The connection's names, which cannot be set while it is open. *)
Definition name_command (args : list (list Z)) (get : Z -> Z -> M (aftp K F) (option (list Z) * option Z)) (size : Z)
    (set : Z -> list Z -> Z -> M (aftp K F) (option Z)) (show failed done refused : list Z) (cmdcode : Z) : A unit :=
  s ← get_st;
  if connected s then puts refused else
  match args with
  | [_] =>
      '(name, rc) ← call (fun i => get i size);
      rc ← of_opt rc;
      tnX_assert (bool_decide (rc = AFTP_RC_OK));;
      name ← of_opt name;
      puts (show ++ name)
  | [_; name] =>
      rc ← call_rc (fun i => set i name (Z.of_nat (length name)));
      if decide (rc <> AFTP_RC_OK) then puts failed else puts (done ++ name ++ str ".")
  | _ => detail_help cmdcode
  end.

Definition a_modename (args : list (list Z)) : A unit :=
  name_command args aftp_extract_mode_name AFTP_MODE_NAME_SIZE aftp_set_mode_name (str "Mode name:" ++ [9] ++ str " ")
    (str "Could not set mode name.") (str "Mode name set to ") (str "Cannot set mode while connected.") A_MODENAME.

Definition a_tpname (args : list (list Z)) : A unit :=
  name_command args aftp_extract_tp_name AFTP_TP_NAME_SIZE aftp_set_tp_name (str "TP name:" ++ [9] ++ str " ")
    (str "Could not set TP name.") (str "TP name set to ") (str "Cannot set TP name while connected.") A_TPNAME.

Definition a_prompt (args : list (list Z)) : A unit :=
  if_connected (
    match args with
    | [_] => s ← get_st; puts (if prompting s then str "Prompting is ON" else str "Prompting is OFF")
    | [_; prompt] =>
        if decide (prompt = str "on") then set_prompting true;; puts (str "Prompting is ON")
        else if decide (prompt = str "off") then set_prompting false;; puts (str "Prompting is OFF")
        else detail_help A_PROMPT
    | _ => detail_help A_PROMPT
    end).

Definition a_recfm (args : list (list Z)) : A unit :=
  if_connected (
    match args with
    | [_] =>
        record_format ← setting_of aftp_extract_record_format;
        '(text, rc) ← of_opt (aftp_get_record_format_string record_format AFTP_RECORD_FORMAT_SIZE);
        tnX_assert (bool_decide (rc = AFTP_RC_OK));;
        puts (str "Record format" ++ [9] ++ str ": " ++ text)
    | [_; recfm] =>
        format ← of_opt (get_command recfm formats);
        if decide (0 <= format) then
          rc ← call_rc (fun i => aftp_set_record_format i format);
          if decide (rc = AFTP_RC_OK) then puts (str "Record format set to " ++ recfm)
          else puts (str "Could not set record format.")
        else puts (str "Invalid format.")
    | _ => detail_help A_RECFM
    end).

Definition is_dir (f : stat) : bool := is_type S_IFDIR (st_mode f).

(** The local files a name stands for, [None] when there is no such path; a
    directory that cannot be read leaves the list unassigned. *)
Definition local_list (filespec : list Z) : A (option (list (list Z))) :=
  s ← get_st;
  let fs := files (lib s) in
  let filename := g_basename filespec in
  let list_of dir pattern :=
    r ← of_opt (get_local_file_list (readdir_all dir fs) pattern); l ← of_opt r.2; mret (Some l) in
  directory ← (if decide (g_dirname filespec = str ".")
    then match safe_get_cwd 2 (cwd fs) with None => no_fuel | Some d => of_opt d end
    else mret (g_dirname filespec));
  match lstat_of filespec fs with
  | None =>
      match lstat_of directory fs with
      | Some d => if is_dir d then list_of directory filename else mret None
      | None => mret None
      end
  | Some f => if is_dir f then list_of filespec (str "*") else list_of directory filename
  end.

Fixpoint put_loop (filelist : list (list Z)) (prompt_user : bool) : A unit :=
  match filelist with
  | [] => mret tt
  | name :: filelist =>
      puts (str "curelem->data = " ++ name);;
      '(action, prompt_user) ← next_action (str "Send") name prompt_user;
      if decide (action = A_ACTION_QUIT) then mret tt else
      (if decide (action = A_ACTION_YES) then
         rc ← call_rc (fun i => aftp_send_file big_endian i name (Z.of_nat (length name)) name (Z.of_nat (length name)) fuel);
         if decide (rc <> AFTP_RC_OK) then puts (str "Error sending " ++ name) else mret tt
       else mret tt);;
      put_loop filelist prompt_user
  end.

Definition a_put (args : list (list Z)) : A unit :=
  if_connected (
    match args with
    | [_; filespec] =>
        l ← local_list filespec;
        s ← get_st;
        match l with Some filelist => put_loop filelist (prompting s) | None => mret tt end
    | _ => detail_help A_PUT
    end).

Definition a_lpwd : A unit :=
  '(d, rc) ← call (fun i => aftp_local_query_current_dir i 80);
  rc ← of_opt rc;
  if decide (rc = AFTP_RC_OK) then d ← of_opt d; puts (d ++ str " is the client's current directory.")
  else puts (str "Could not retreive current working directory.").

Definition a_lcd (args : list (list Z)) : A unit :=
  match args with
  | [_] => a_lpwd
  | [_; filespec] =>
      rc ← call_rc (fun i => aftp_local_change_dir i filespec);
      if decide (rc <> AFTP_RC_OK) then puts (str "Could not change local working directory.") else
      '(d, rc) ← call (fun i => aftp_local_query_current_dir i 80);
      rc ← of_opt rc;
      if decide (rc = AFTP_RC_OK) then d ← of_opt d; puts (d ++ str " is the client's current working directory.")
      else puts (str "Error retrieving current working directory.")
  | _ => detail_help A_LCD
  end.

(** ** The loop over commands *)

(** The [switch] of [main]; the result is [done]. *)
Definition do_command (command : Z) (args : list (list Z)) : A bool :=
  if decide (command ∈ [A_QUIT; A_BYE; A_EXIT]) then mret true else
  (if decide (command ∈ [A_QMARK; A_HELP]) then a_help args
   else if decide (command = A_OPEN) then a_open args
   else if decide (command = A_LS) then a_ls args A_LS false
   else if decide (command = A_LSD) then a_ls args A_LSD false
   else if decide (command ∈ [A_MKDIR; A_MD]) then a_md args
   else if decide (command = A_CD) then a_cd args
   else if decide (command = A_TYPE) then a_type args
   else if decide (command ∈ [A_BIN; A_BINARY]) then set_data_type (str "binary")
   else if decide (command ∈ [A_ASC; A_ASCII]) then set_data_type (str "ascii")
   else if decide (command ∈ [A_SYS; A_SYSTEM]) then a_system
   else if decide (command ∈ [A_STAT; A_STATUS]) then a_status
   else if decide (command ∈ [A_RD; A_RMDIR]) then a_rd args
   else if decide (command = A_PWD) then a_pwd
   else if decide (command ∈ [A_REN; A_RENAME]) then a_ren args
   else if decide (command = A_ALLOC) then a_alloc args
   else if decide (command = A_BLOCK) then a_block args
   else if decide (command ∈ [A_CLOSE; A_DISC; A_DISCONNECT]) then a_close
   else if decide (command = A_DATE) then a_date args
   else if decide (command ∈ [A_DEL; A_DELETE]) then a_del args
   else if decide (command = A_LRECL) then a_lrecl args
   else if decide (command = A_DIR) then a_ls args A_LS true
   else if decide (command = A_MODENAME) then a_modename args
   else if decide (command = A_PROMPT) then a_prompt args
   else if decide (command = A_RECFM) then a_recfm args
   else if decide (command = A_TPNAME) then a_tpname args
   else if decide (command ∈ [A_PUT; A_SEND]) then a_put args
   else if decide (command ∈ [A_GET; A_RECV; A_RECEIVE]) then a_get args
   else if decide (command = A_LPWD) then a_lpwd
   else if decide (command = A_LCD) then a_lcd args
   else if decide (command = A_TRACE) then mret tt
   else if decide (command = A_VERSION) then puts (str "aftp v" ++ ToolsVersion ++ [10] ++ ToolsMaintain)
   else puts (str "Unknown command " ++ default [] (head args)));;
  mret false.

(** A line: whether the program goes on, or its exit status. *)
Definition aftp_turn : A (Z + bool) :=
  input_line ← get_input;
  match input_line with
  | None => mret (inl 1)
  | Some line =>
      args ← of_opt (parse_input (c_str line));
      match args with
      | [] => mret (inr false)
      | arg :: _ =>
          command ← of_opt (get_command arg commands);
          finished ← do_command command args;
          mret (inr finished)
      end
  end.

(** A turn takes a character at least. *)
Fixpoint aftp_loop (turns : nat) : A Z :=
  match turns with
  | O => no_fuel
  | Datatypes.S turns =>
      r ← aftp_turn;
      match r with
      | inl status => mret status
      | inr true =>
          s ← get_st;
          (if connected s then call (aftp_close big_endian) else mret None);;
          mret 0
      | inr false => aftp_loop turns
      end
  end.

Definition initialize (no_session no_record : bool) : A Z :=
  '(i, rc) ← on_lib (aftp_create no_session no_record);
  (match i with Some i => set_handle i | None => mret tt end);;
  rc ← of_opt rc;
  mret (if decide (rc <> AFTP_RC_OK) then 1 else 0).

Definition client_start (f : F) (input : list Z) : client K F := MkClient (aftp_start f) 0 false false 0 input [].

Definition main (no_session no_record : bool) (f : F) (input : list Z) : outcome (client K F) Z :=
  (rc ← initialize no_session no_record;
   if decide (rc <> 0) then mret 1 else aftp_loop (Datatypes.S (length input))) (client_start f input).
End AftpClient.
