(* ===== verification/AftpCommands.v ===== *)
(** * The commands of the client program

    Looking a command up, and breaking a line into words: the routines of
    asuite/aftp.c against reference definitions. *)
From S2P Require Import Prelude AsuiteRecord Aftp AftpClient.

(** ** Looking up *)

Lemma strcmp_refl a : strcmp a a = 0.
Proof. induction a as [|x a IH]; [done|]. cbn. by rewrite decide_True. Qed.

Lemma strcmp_eq a b : strcmp a b = 0 -> a = b.
Proof.
  revert b. induction a as [|x a IH]; intros [|y b] H; cbn in H; try done. case_decide as Hxy; [|lia]. subst. f_equal. by apply IH.
Qed.

Lemma strcmp_trans a b c : strcmp a b < 0 -> strcmp b c < 0 -> strcmp a c < 0.
Proof.
  revert b c. induction a as [|x a IH]; intros [|y b] [|z c]; cbn; try lia.
  repeat case_decide; subst; try lia; try done. by apply IH.
Qed.

(** The number of the entry with the name, by linear search. *)
Fixpoint lookup_command (arg : list Z) (data : list command_strings) : option Z :=
  match data with
  | (text, n) :: data => if decide (arg = text) then Some n else lookup_command arg data
  | [] => None
  end.

Lemma lookup_command_app arg a b : lookup_command arg (a ++ b) =
  match lookup_command arg a with Some n => Some n | None => lookup_command arg b end.
Proof. induction a as [|[text n] a IH]; [done|]. cbn. by case_decide. Qed.

Lemma lookup_command_none arg data : Forall (fun e => strcmp arg e.1 <> 0) data -> lookup_command arg data = None.
Proof.
  induction 1 as [|[text n] data H _ IH]; [done|]. cbn. rewrite decide_False; [done|]. intros ->. by rewrite strcmp_refl in H.
Qed.

(** The first [n] entries are in the order of [strcmp], no name twice. *)
Definition table_sorted (n : nat) (data : list command_strings) : Prop :=
  forall i j x y, data !! i = Some x -> data !! j = Some y -> (i < j < n)%nat -> strcmp x.1 y.1 < 0.

(** The entries from [l] up to [u]. *)
Definition slice (l u : nat) (data : list command_strings) : list command_strings := take (u - l) (drop l data).

Lemma slice_split l i u data e : data !! i = Some e -> (l <= i < u)%nat -> (u <= length data)%nat ->
  slice l u data = slice l i data ++ e :: slice (S i) u data.
Proof.
  intros He Hi Hu. unfold slice. set (d := drop l data). assert (d !! (i - l)%nat = Some e) as Hd
    by (unfold d; rewrite lookup_drop; by replace (l + (i - l))%nat with i by lia).
  rewrite <- (take_drop_middle d (i - l) e Hd) at 1. rewrite take_app, length_take, Nat.min_l by (apply lookup_lt_Some in Hd; lia).
  rewrite take_take, Nat.min_r by lia. replace (u - l - (i - l))%nat with (S (u - S i)) by lia. cbn [take]. unfold d.
  rewrite drop_drop. by replace (l + S (i - l))%nat with (S i) by lia.
Qed.

Lemma slice_elem l u data e : e ∈ slice l u data -> exists i, data !! i = Some e /\ (l <= i < u)%nat.
Proof.
  intros (i & Hi)%list_elem_of_lookup. unfold slice in Hi. apply lookup_take_Some in Hi as [Hi Hl]. rewrite lookup_drop in Hi.
  exists (l + i)%nat. split; [done|lia].
Qed.

(** Entries on one side of [key] do not have its name. *)
Lemma slice_none key l u data : (forall i e, data !! i = Some e -> (l <= i < u)%nat -> strcmp key e.1 <> 0) ->
  lookup_command key (slice l u data) = None.
Proof. intros H. apply lookup_command_none, Forall_forall. intros e (i & He & Hi)%slice_elem. by eapply H. Qed.

Lemma bsearch_step fuel key data l u : (l < u)%nat -> bsearch (S fuel) key data l u =
  match data !! Nat.div2 (l + u) with
  | Some (text, n) =>
      if decide (strcmp key text < 0) then bsearch fuel key data l (Nat.div2 (l + u))
      else if decide (0 < strcmp key text) then bsearch fuel key data (S (Nat.div2 (l + u))) u
      else Some (Some n)
  | None => None
  end.
Proof. intros H. cbn [bsearch]. rewrite decide_True by done. cbv zeta. by destruct (data !! Nat.div2 (l + u)) as [[text n]|]. Qed.

Lemma bsearch_spec fuel : forall key data l u, table_sorted u data -> (u <= length data)%nat -> (u - l < fuel)%nat ->
  bsearch fuel key data l u = Some (lookup_command key (slice l u data)).
Proof.
  induction fuel as [|fuel IH]; intros key data l u Hs Hu Hf; [lia|]. destruct (decide (l < u)%nat) as [Hlu|Hlu].
  2:{ cbn [bsearch]. rewrite decide_False by done. unfold slice. replace (u - l)%nat with O by lia. done. }
  rewrite bsearch_step by done. set (i := Nat.div2 (l + u)). assert (l <= i < u)%nat as Hi by (unfold i; rewrite Nat.div2_div; split; [apply Nat.div_le_lower_bound; lia|apply Nat.div_lt_upper_bound; lia]).
  destruct (lookup_lt_is_Some_2 data i) as [[text n] He]; [lia|].  rewrite He.
  rewrite (slice_split l i u data _ He Hi Hu), lookup_command_app. cbn [lookup_command].
  case_decide as Hc; [|case_decide as Hc'].
  - rewrite IH; [|intros a b x y Ha Hb Hab; eapply Hs; [done..|lia]|lia|lia]. f_equal. rewrite decide_False by (intros ->; rewrite strcmp_refl in Hc; lia).
    rewrite (slice_none key (S i) u data); [by case_match|]. intros j e Hj Hj'.
    pose proof (Hs i j (text, n) e He Hj ltac:(lia)) as H1. cbn in H1. pose proof (strcmp_trans _ _ _ Hc H1). lia.
  - rewrite IH by (done || lia). f_equal. rewrite decide_False by (intros ->; rewrite strcmp_refl in Hc'; lia).
    rewrite (slice_none key l i data); [done|]. intros j e Hj Hj' Hz.
    pose proof (Hs j i e (text, n) Hj He ltac:(lia)) as H1. cbn in H1. apply strcmp_eq in Hz. subst. lia.
  - assert (key = text) as -> by (apply strcmp_eq; lia). rewrite decide_True by done.
    rewrite (slice_none text l i data); [done|]. intros j e Hj Hj' Hz.
    pose proof (Hs j i e (text, n) Hj He ltac:(lia)) as H1. cbn in H1. apply strcmp_eq in Hz. subst. rewrite strcmp_refl in H1. lia.
Qed.

(** A table is checked by looking at neighbours. *)
Fixpoint in_order (data : list command_strings) : bool :=
  match data with
  | x :: ((y :: _) as data) => bool_decide (strcmp x.1 y.1 < 0) && in_order data
  | _ => true
  end.

Lemma in_order_all data : in_order data = true -> table_sorted (length data) data.
Proof.
  induction data as [|x data IH]; intros H; [done|].
  assert (in_order data = true /\ forall y, data !! O = Some y -> strcmp x.1 y.1 < 0) as [H1 H2].
  { destruct data as [|y data]; [done|]. apply andb_prop in H as [H%bool_decide_eq_true H']. split; [done|]. intros ? [= <-]. done. }
  specialize (IH H1). intros [|i] [|j] a b Ha Hb Hij; try lia; cbn in Ha, Hb, Hij; [injection Ha as <-|eapply IH; [done..|lia]].
  destruct j as [|j]; [by apply H2|]. destruct data as [|y data]; [done|].
  pose proof (H2 y eq_refl). pose proof (IH O (S j) y b eq_refl Hb ltac:(lia)). by eapply strcmp_trans.
Qed.

Lemma in_order_sorted n data : in_order (take n data) = true -> (n <= length data)%nat -> table_sorted n data.
Proof.
  intros H%in_order_all Hn i j x y Hi Hj Hij. rewrite length_take, Nat.min_l in H by done.
  apply (H i j x y); [by rewrite lookup_take_lt by lia..|done].
Qed.

Lemma commands_sorted : table_sorted commandcnt commands.
Proof. apply in_order_sorted; vm_compute; [reflexivity|lia]. Qed.
Lemma formats_sorted : table_sorted 24 formats.
Proof. apply in_order_sorted; vm_compute; [reflexivity|lia]. Qed.

(** [bsearch] over a table that is longer than the one it looks in: the first
    entry it compares with is the last of [formats]. *)
Lemma formats_search arg fuel m : (24 < fuel)%nat -> m = 48%nat -> bsearch (S fuel) arg formats 0 m =
  if decide (strcmp arg (str "VSM") <= 0) then Some (lookup_command arg formats) else None.
Proof.
  intros Hf Hm. set (n := 24%nat). assert (Nat.div2 (0 + m) = n) as E1 by (by rewrite Hm).
  assert (Nat.div2 (S n + m) = 36%nat) as E2 by (by rewrite Hm). assert (S n < m)%nat as Hnm by (unfold n; lia). clear Hm. assert (formats !! n = Some (str "VSM", 10)) as He by (vm_compute; reflexivity).
  assert (formats !! 36%nat = None) as He' by (vm_compute; reflexivity).
  assert (formats = slice 0 n formats ++ [(str "VSM", 10)]) as Ef by (vm_compute; reflexivity).
  rewrite bsearch_step by lia. rewrite E1, He. case_decide as Hc; [|case_decide as Hc'].
  - rewrite decide_True by lia. rewrite bsearch_spec; [|apply formats_sorted|vm_compute; lia|unfold n; lia]. apply (f_equal Some).
    rewrite Ef at 2. rewrite lookup_command_app. cbn [lookup_command].
    rewrite (decide_False (P := arg = _)) by (intros ->; rewrite strcmp_refl in Hc; lia). by case_match.
  - rewrite decide_False by lia. destruct fuel as [|fuel]; [lia|]. rewrite bsearch_step by lia. by rewrite E2, He'.
  - assert (arg = str "VSM") as -> by (apply strcmp_eq; lia). rewrite decide_True by lia. vm_compute. reflexivity.
Qed.

(** Looking a name up is searching the table from its start.
    For a command this holds for every name, a name that is not in the table
    giving -1.  For a record format it holds up to the last name; a name behind
    it in the order makes the search, which takes the number of commands for the
    size of the table, leave the table.  A format found is the one the library
    prints under that name, but for the default. *)
Theorem get_command_lookup arg :
  get_command arg commands = Some (default (-1) (lookup_command arg commands)) /\
  get_command arg formats = (if decide (strcmp arg (str "VSM") <= 0) then Some (default (-1) (lookup_command arg formats)) else None) /\
  (forall n, lookup_command arg formats = Some n -> n <> 0 ->
    aftp_get_record_format_string n AFTP_RECORD_FORMAT_SIZE = Some (arg, AFTP_RC_OK)).
Proof.
  unfold get_command. split_and!.
  - rewrite bsearch_spec; [|apply commands_sorted|vm_compute; lia|lia]. cbn [mbind option_bind].
    assert (commands = slice 0 commandcnt commands ++ [([], -1)]) as Ec by (vm_compute; reflexivity).
    rewrite Ec at 2. rewrite lookup_command_app. cbn [lookup_command]. apply (f_equal Some).
    destruct (lookup_command arg (slice _ _ _)); [done|]. by case_decide.
  - rewrite formats_search by (vm_compute; lia || reflexivity). by case_decide.
  - intros n. unfold formats. cbn [lookup_command]. repeat (case_decide as Ha; [intros [= <-] Hn; subst; first [by destruct Hn|vm_compute; reflexivity]|clear Ha]). done.
Qed.

Lemma get_command_lookup_witness :
  get_command (str "put") commands = Some A_PUT /\ get_command (str "VX") formats = None /\
  aftp_get_record_format_string 13 AFTP_RECORD_FORMAT_SIZE = Some (str "F", AFTP_RC_OK).
Proof.
  split; [|split].
  - rewrite (proj1 (get_command_lookup (str "put"))). vm_compute. reflexivity.
  - rewrite (proj1 (proj2 (get_command_lookup (str "VX")))). vm_compute. reflexivity.
  - apply (proj2 (proj2 (get_command_lookup (str "F")))); [vm_compute; reflexivity|discriminate].
Defined.

(** ** Words *)

(** Maximal runs of characters that are not blanks. *)
Fixpoint words_from (w line : list Z) : list (list Z) :=
  match line with
  | [] => if decide (w = []) then [] else [w]
  | c :: t =>
      if isspace c then if decide (w = []) then words_from [] t else w :: words_from [] t
      else words_from (w ++ [c]) t
  end.

Definition words (line : list Z) : list (list Z) := words_from [] line.

Fixpoint first_word (line : list Z) : list Z :=
  match line with c :: t => if isspace c then [] else c :: first_word t | [] => [] end.
Fixpoint after_word (line : list Z) : list Z :=
  match line with c :: t => if isspace c then line else after_word t | [] => [] end.

Lemma words_from_first w line : words_from w line =
  (if decide (w ++ first_word line = []) then [] else [w ++ first_word line]) ++ words (after_word line).
Proof.
  revert w. induction line as [|c t IH]; intros w; cbn [words_from first_word after_word].
  - rewrite app_nil_r. change (words []) with (@nil (list Z)). rewrite app_nil_r. done.
  - destruct (isspace c) eqn:E.
    + rewrite app_nil_r. unfold words at 1. cbn [words_from]. rewrite E, (decide_True (P := [] = [])) by done. by case_decide.
    + rewrite IH. by rewrite <- app_assoc.
Qed.

Lemma words_blanks line : words (skip_blanks line) = words line.
Proof. induction line as [|c t IH]; [done|]. cbn [skip_blanks]. destruct (isspace c) eqn:E; [|done]. rewrite IH. unfold words. cbn [words_from]. by rewrite E. Qed.

Lemma after_word_length line : (length (after_word line) <= length line)%nat.
Proof. induction line as [|c t IH]; [done|]. cbn [after_word]. destruct (isspace c); cbn; lia. Qed.

Lemma skip_blanks_length line : (length (skip_blanks line) <= length line)%nat.
Proof. induction line as [|c t IH]; [done|]. cbn [skip_blanks]. destruct (isspace c); cbn; lia. Qed.

(** A turn of the loop leaves less. *)
Lemma after_blanks_length c t : (length (after_word (skip_blanks (c :: t))) <= length t)%nat.
Proof.
  cbn [skip_blanks]. destruct (isspace c) eqn:E; [|cbn [after_word]; rewrite E; apply after_word_length].
  pose proof (after_word_length (skip_blanks t)). pose proof (skip_blanks_length t). lia.
Qed.

(** Whether the terminator of a word is stored within its block. *)
Definition fits_block (w : list Z) : bool := negb (bool_decide (50 <= Z.of_nat (length w) /\ Z.of_nat (length w) mod 25 = 0)).

(** The block after [n] characters: 26 bytes at first, then a multiple of 25. *)
Definition block_of (n size maxpos : Z) : Prop :=
  exists m, 1 <= m /\ maxpos = 25 * m /\ size = (if decide (m = 1) then 26 else 25 * m) /\ 25 * (m - 1) <= n <= 25 * m /\ (1 < m -> 25 * (m - 1) < n).

Lemma read_arg_word line : forall curarg size maxpos, block_of (Z.of_nat (length curarg)) size maxpos ->
  read_arg line curarg size maxpos =
    if fits_block (curarg ++ first_word line) then Some (curarg ++ first_word line, after_word line) else None.
Proof.
  assert (forall curarg size maxpos (line : list Z), block_of (Z.of_nat (length curarg)) size maxpos ->
    (if decide (Z.of_nat (length curarg) < size) then Some (curarg, line) else None) = if fits_block curarg then Some (curarg, line) else None) as Hend.
  { intros curarg size maxpos l (m & Hm & -> & -> & Hn & Hn'). unfold fits_block. case_bool_decide as Hb; cbn [negb].
    - rewrite decide_False; [done|]. case_decide as Hm1; [lia|]. pose proof (Z.div_mod (Z.of_nat (length curarg)) 25 ltac:(lia)). lia.
    - rewrite decide_True; [done|]. case_decide as Hm1; [lia|]. destruct (decide (Z.of_nat (length curarg) = 25 * m)) as [E|]; [|lia].
      destruct Hb. split; [lia|]. rewrite E, Z.mul_comm. apply Z.mod_mul. lia. }
  induction line as [|c t IH]; intros curarg size maxpos Hb; cbn [read_arg first_word after_word].
  { rewrite app_nil_r. by eapply Hend. }
  destruct (isspace c); [rewrite app_nil_r; by eapply Hend|]. replace (curarg ++ c :: first_word t) with ((curarg ++ [c]) ++ first_word t) by (by rewrite <- app_assoc).
  destruct Hb as (m & Hm & -> & -> & Hn & Hn'). case_decide as Hlt.
  - rewrite decide_True by (case_decide; lia). apply IH. exists m. rewrite length_app. cbn. split_and!; [done..|lia|lia|lia].
  - apply IH. unfold DEFAULT_ARG_SIZE. exists (m + 1). rewrite length_app. cbn. rewrite decide_False by lia. split_and!; lia.
Qed.

Lemma parse_loop_words fuel : forall line args, (length line < fuel)%nat ->
  parse_loop fuel line args = if forallb fits_block (words line) then Some (args ++ words line) else None.
Proof.
  induction fuel as [|fuel IH]; intros line args Hf; [lia|]. cbn [parse_loop]. destruct line as [|c t]; [cbn; by rewrite app_nil_r|].
  rewrite read_arg_word by (exists 1; cbn; split_and!; try done; lia). cbn [app].
  rewrite <- words_blanks. unfold words at 1 2. rewrite words_from_first. cbn [app].
  pose proof (after_blanks_length c t) as Hl. set (w := first_word _) in *. set (rest := after_word _) in *. cbn [length] in Hf.
  case_decide as Hw.
  - rewrite Hw. cbn [fits_block length Z.of_nat]. change (fits_block []) with true. cbv iota beta. cbn [mbind option_bind]. rewrite decide_True by done.
    rewrite IH by lia. done.
  - cbn [app forallb]. destruct (fits_block w) eqn:E; cbn [mbind option_bind andb]; [|done]. rewrite decide_False by done.
    rewrite IH by lia. case_match; [|done]. by rewrite <- app_assoc.
Qed.

(** C29 (bounds).  [parse_input] breaks a line into its words, in their order,
    unless one of them has a length of 50, 75, 100 and so on: the block of such a
    word has no room for the terminator, which is stored behind it. *)
Theorem parse_input_words line :
  parse_input line = if forallb fits_block (words line) then Some (words line) else None.
Proof. unfold parse_input. by rewrite parse_loop_words by lia. Qed.

(** Words joined by blanks are found again. *)
Lemma words_join w line : w <> [] -> Forall (fun c => isspace c = false) w -> words (w ++ 32 :: line) = w :: words line.
Proof.
  intros Hw Hs. unfold words. assert (forall v, words_from v (w ++ 32 :: line) = words_from (v ++ w) (32 :: line)) as ->.
  { clear Hw. induction Hs as [|c w Hc _ IH]; intros v; [by rewrite app_nil_r|]. cbn [app words_from]. rewrite Hc, IH. by rewrite <- app_assoc. }
  cbn [app words_from]. change (isspace 32) with true. cbv iota. by rewrite decide_False.
Qed.
