(* ===== verification/AftpProgram.v ===== *)
(** * The client program and its session

    What the program's variables say of the library's state, at every prompt. *)
From S2P Require Import Prelude Cpic CpicSession AsuiteRecord Posix Aftp AftpTypes AftpClient.

Create HintDb program discriminated.

Section Program.
Context (be : bool) {K F : Type} `{HC : Cpic K} `{HP : Posix F}.
Context (dial : nat -> K) (g_basename g_dirname : list Z -> list Z) (ToolsVersion ToolsMaintain : list Z) (fuel : nat).

Abbreviation A := (M (client K F)).

(** ** The invariant

    The handle is that of a session, which has a conversation when the program is
    connected. *)
Definition holds_session (i : Z) (connected : bool) (st : aftp K F) : Prop :=
  table_ok st /\ exists s, sessions st !! Z.to_nat i = Some (Live s) /\ (connected = true -> conversing s).

#[export] Instance holds_session_invariant i c : SessionInvariant (holds_session i c).
Proof.
  split.
  - intros st j s [Hst _]. by apply inv_sized.
  - intros st j s s' [Hst (s0 & Hs0 & Hc)] Hs Hs' Hcs. split; [by eapply inv_put|].
    destruct (decide (Z.to_nat i = Z.to_nat j)) as [E|Hne].
    + exists s'. cbn. rewrite E, list_lookup_insert_eq by (by eapply lookup_lt_Some). split; [done|]. intros Ht.
      apply Hcs. rewrite E, Hs in Hs0. injection Hs0 as ->. by apply Hc.
    + exists s0. cbn. by rewrite list_lookup_insert_ne.
  - intros st f [Hst H]. split; [by apply inv_files|exact H].
Qed.

Definition client_ok (c : client K F) : Prop := holds_session (session c) (connected c) (lib c).

(** ** Commands that keep it *)

Definition safe {X} (m : A X) : Prop := forall c x c', client_ok c -> m c = Ret x c' -> client_ok c'.

Lemma safe_bind {X Y} (m : A X) (k : X -> A Y) : safe m -> (forall x, safe (k x)) -> safe (m ≫= k).
Proof.
  intros Hm Hk c y c' Hc E. unfold mbind, M_bind in E. destruct (m c) as [x c1| | | |] eqn:Em; try done.
  eapply Hk; [|exact E]. by eapply Hm.
Qed.

Lemma safe_ret {X} (x : X) : safe (mret x).
Proof. intros c y c' Hc E. by injection E as _ <-. Qed.
Lemma safe_undef {X} : safe (undef (A := X)).
Proof. intros c y c' _ E. done. Qed.
Lemma safe_no_fuel {X} : safe (no_fuel (A := X)).
Proof. intros c y c' _ E. done. Qed.
Lemma safe_exit {X} n : safe (c_exit (A := X) n).
Proof. intros c y c' _ E. done. Qed.
Lemma safe_of_opt {X} (o : option X) : safe (of_opt o).
Proof. destruct o; [apply safe_ret|apply safe_undef]. Qed.
Lemma safe_get_st : safe get_st.
Proof. intros c y c' Hc E. by injection E as _ <-. Qed.
Lemma safe_assert b : safe (tnX_assert b).
Proof. intros c y c' Hc E. destruct b; [by injection E as _ <-|done]. Qed.
Lemma safe_say t : safe (say t).
Proof. intros c y c' Hc E. by injection E as _ <-. Qed.
Lemma safe_puts t : safe (puts t).
Proof. apply safe_say. Qed.
Lemma safe_set_input t : safe (set_input t).
Proof. intros c y c' Hc E. by injection E as _ <-. Qed.
Lemma safe_set_prompting b : safe (set_prompting b).
Proof. intros c y c' Hc E. by injection E as _ <-. Qed.
Lemma safe_set_opens n : safe (set_opens n).
Proof. intros c y c' Hc E. by injection E as _ <-. Qed.

Lemma safe_disconnect : safe (set_connected false).
Proof. intros c y c' [Ht (s & Hs & _)] E. injection E as _ <-. split; [done|]. by exists s. Qed.

(** A function of the library on the program's session. *)
Lemma safe_call {X} (m : Z -> M (aftp K F) X) : (forall i, session_function be X (m i)) -> safe (call m).
Proof.
  intros Hm c x c' Hc E. unfold call, on_lib, zoom in E. rewrite get_st_bind in E.
  destruct (m (session c) (lib c)) as [y l| | | |] eqn:El; try done. injection E as _ <-.
  apply (session_function_keeps be (holds_session (session c) (connected c)) X _ (Hm _) _ _ _ Hc El).
Qed.

Lemma safe_call_rc (m : Z -> M (aftp K F) (option Z)) : (forall i, session_function be _ (m i)) -> safe (call_rc m).
Proof. intros Hm. apply safe_bind; [by apply safe_call|]. intros rc. apply safe_of_opt. Qed.
End Program.

#[export] Hint Resolve safe_ret safe_undef safe_no_fuel safe_exit safe_of_opt safe_get_st safe_assert safe_say safe_puts safe_set_input
  safe_set_prompting safe_set_opens safe_disconnect : program.

#[export] Hint Constructors session_function : program.

(** A function of the library. *)
Ltac library_function := first [solve [auto 1 with program]|solve [apply f_extract]|solve [apply f_extract_string]|solve [apply f_setting]].

(** Follow the structure of a command. *)
Ltac safe :=
  repeat (intros; cbn beta zeta; match goal with
  | |- safe (_ ≫= _) => apply safe_bind
  | |- safe (match ?x with _ => _ end) => destruct x
  | be : bool |- safe (call _) => apply (safe_call be); intros; library_function
  | be : bool |- safe (call_rc _) => apply (safe_call_rc be); intros; library_function
  | |- safe _ => solve [auto with program]
  end); intros; cbn beta zeta.

Section Commands.
Context (be : bool) {K F : Type} `{HC : Cpic K} `{HP : Posix F}.
Context (dial : nat -> K) (g_basename g_dirname : list Z -> list Z) (ToolsVersion ToolsMaintain : list Z) (fuel : nat).

Abbreviation A := (M (client K F)).

Lemma safe_detail_help n : safe (K := K) (F := F) (detail_help n).
Proof. unfold detail_help. safe. Qed.
#[local] Hint Resolve safe_detail_help : program.

Lemma safe_if_connected (m : A unit) : safe m -> safe (if_connected m).
Proof. intros Hm. unfold if_connected. safe. Qed.
#[local] Hint Resolve safe_if_connected : program.

Lemma safe_setting_of (m : Z -> M (aftp K F) (Z * option Z)) : (forall i, session_function be _ (m i)) -> safe (setting_of m).
Proof. intros Hm. unfold setting_of. apply safe_bind; [by eapply safe_call|]. safe. Qed.

Lemma safe_get_action_loop turns p n : safe (K := K) (F := F) (get_action_loop turns p n).
Proof. induction turns as [|turns IH]; cbn [get_action_loop]; safe. Qed.
#[local] Hint Resolve safe_get_action_loop : program.

Lemma safe_next_action p n u : safe (K := K) (F := F) (next_action p n u).
Proof. unfold next_action, get_action. safe. Qed.
#[local] Hint Resolve safe_next_action : program.

Lemma safe_list_commands data nl : safe (K := K) (F := F) (list_commands data nl).
Proof. revert nl. induction data as [|[text n] data IH]; intros nl; cbn [list_commands]; safe. Qed.
#[local] Hint Resolve safe_list_commands : program.

Lemma safe_help args : safe (K := K) (F := F) (a_help args).
Proof. unfold a_help. safe. Qed.

Lemma safe_read_entries {X} (step : list Z -> X -> A X) turns e m x : (forall e x, safe (step e x)) -> safe (read_entries be step turns e m x).
Proof. intros Hs. revert e m x. induction turns as [|turns IH]; intros e m x; cbn [read_entries]; safe. Qed.

Lemma safe_open_listing f t s : safe (K := K) (F := F) (open_listing be f t s).
Proof. unfold open_listing. safe. Qed.
#[local] Hint Resolve safe_open_listing : program.

Lemma safe_ls args cmd attr : safe (K := K) (F := F) (a_ls be fuel args cmd attr).
Proof. unfold a_ls. safe. apply safe_read_entries. safe. Qed.

Lemma safe_set_data_type t : safe (K := K) (F := F) (set_data_type t).
Proof. unfold set_data_type. safe. Qed.
#[local] Hint Resolve safe_set_data_type : program.

Lemma safe_or_exit rc : safe (K := K) (F := F) (or_exit rc).
Proof. unfold or_exit. safe. Qed.
#[local] Hint Resolve safe_or_exit : program.

Lemma safe_or_exit_string r : safe (K := K) (F := F) (or_exit_string r).
Proof. unfold or_exit_string. safe. Qed.
#[local] Hint Resolve safe_or_exit_string : program.

Lemma safe_or_exit_value {X} (m : A (X * option Z)) : safe m -> safe (or_exit_value m).
Proof. intros Hm. unfold or_exit_value. safe. Qed.

Lemma safe_status : safe (K := K) (F := F) a_status.
Proof.
  unfold a_status. repeat (apply safe_bind; [first [solve [auto with program]|solve [apply safe_or_exit_value; safe]]|intros]); safe.
Qed.

Lemma safe_number_command args get set t1 t2 t3 t4 cmd : (forall i, session_function be _ (get i)) -> (forall i v, session_function be _ (set i v)) ->
  safe (K := K) (F := F) (number_command args get set t1 t2 t3 t4 cmd).
Proof.
  intros Hg Hs. apply safe_if_connected. destruct args as [|a [|b [|c args]]]; [auto with program| | |auto with program].
  - apply safe_bind; [by apply safe_setting_of|auto with program].
  - destruct (strtol 10 b) as [n rest]. case_decide; [auto with program|]. apply safe_bind; [by eapply safe_call_rc|]. safe.
Qed.

Lemma safe_name_command args get size set t1 t2 t3 t4 cmd : (forall i n, session_function be _ (get i n)) ->
  (forall i s n, session_function be _ (set i s n)) -> safe (K := K) (F := F) (name_command args get size set t1 t2 t3 t4 cmd).
Proof.
  intros Hg Hs. apply safe_bind; [auto with program|]. intros c. destruct (connected c); [auto with program|].
  destruct args as [|a [|b [|d args]]]; [auto with program| | |auto with program].
  - apply safe_bind; [by eapply safe_call|]. safe.
  - apply safe_bind; [by eapply safe_call_rc|]. safe.
Qed.

Lemma safe_remote_list f : safe (K := K) (F := F) (remote_list be fuel f).
Proof. unfold remote_list. safe. apply safe_read_entries. safe. Qed.
#[local] Hint Resolve safe_remote_list : program.

Lemma safe_del_loop turns index name u : safe (K := K) (F := F) (del_loop be turns index name u).
Proof. revert index u. induction turns as [|turns IH]; intros index u; cbn [del_loop]; safe. Qed.
Lemma safe_get_loop index name u : safe (K := K) (F := F) (get_loop be fuel index name u).
Proof. revert u. induction index as [|index IH]; intros u; cbn [get_loop]; safe. Qed.
Lemma safe_put_loop files u : safe (K := K) (F := F) (put_loop be fuel files u).
Proof. revert u. induction files as [|f files IH]; intros u; cbn [put_loop]; safe. Qed.
Lemma safe_free_entries n : safe (K := K) (F := F) (free_entries n).
Proof. unfold free_entries. safe. Qed.
Lemma safe_local_list f : safe (K := K) (F := F) (local_list g_basename g_dirname f).
Proof. unfold local_list. safe. Qed.
Lemma safe_lpwd : safe (K := K) (F := F) a_lpwd.
Proof. unfold a_lpwd. safe. Qed.
#[local] Hint Resolve safe_help safe_ls safe_status safe_del_loop safe_get_loop safe_put_loop safe_free_entries safe_local_list safe_lpwd : program.

(** *** Opening a connection *)

(** A session that is given a conversation has one. *)
Lemma holds_conversation i c (st : aftp K F) s k : holds_session i c st -> sessions st !! Z.to_nat i = Some (Live s) ->
  holds_session i true (put_slot i (Live (with_conversation s k)) st).
Proof.
  intros [Ht _] Hs. split.
  - eapply table_put; [done|done|]. destruct (inv_sized _ _ _ Ht Hs). by split.
  - eexists. cbn. split; [by apply list_lookup_insert_eq; eapply lookup_lt_Some|]. intros _. by eexists.
Qed.

(** [aftp_connect] reports success only with a conversation. *)
Lemma connect_converses i c k (st st' : aftp K F) : holds_session i c st -> aftp_connect be i k st = Ret (Some AFTP_RC_OK) st' -> holds_session i true st'.
Proof.
  intros Hst E. pose proof Hst as [_ (s & Hs & _)]. unfold aftp_connect, guarded, valid_handle in E.
  rewrite M_bind_assoc, get_st_bind, Hs, M_ret_bind in E. unfold the_session in E. rewrite M_bind_assoc, get_st_bind, Hs, M_ret_bind in E.
  destruct (mem_string (destination (nms s))) as [dest|]; [|done]. rewrite of_opt_Some_bind in E. case_decide; [done|].
  assert (exists sym : list Z, (let '(cm_rc, conv_id) := cminit sym k in
    if decide (cm_rc <> CM_OK) then mret (Some AFTP_RC_COMM_CONFIG_LOCAL) else
    set_session i (with_conversation s conv_id);; connect_conversation be i s conv_id) st = Ret (Some AFTP_RC_OK) st') as [sym E'].
  { destruct (decide (symbolic (nms s) <> 0)); [|eexists; exact E]. destruct (mapM id _); [eexists; exact E|done]. }
  destruct (cminit sym k) as [rc k']. case_decide; [done|]. unfold set_session in E'. rewrite modify_bind in E'.
  refine (keeps_connect_conversation be (holds_session i true) i s k' _ _ _ _ E'). by apply (holds_conversation i c st s k').
Qed.

Lemma call_connect i k (c c' : client K F) : client_ok c -> session c = i -> call_rc (fun i => aftp_connect be i k) c = Ret AFTP_RC_OK c' ->
  holds_session i true (lib c') /\ session c' = i.
Proof.
  intros Hc Hi E. unfold call_rc, call, on_lib, zoom in E. rewrite M_bind_assoc, get_st_bind, Hi in E. unfold mbind, M_bind in E.
  destruct (aftp_connect be i k (lib c)) as [rc l| | | |] eqn:El; try done. destruct rc as [rc|]; [|done].
  injection E as -> <-. split; [|done]. unfold client_ok in Hc. rewrite Hi in Hc. by eapply connect_converses.
Qed.

(** The program says it is connected once [aftp_connect] has succeeded. *)
Lemma safe_open args : safe (F := F) (a_open be dial args).
Proof.
  unfold a_open. apply safe_bind; [auto with program|]. intros c0. destruct (connected c0); [auto with program|].
  destruct args as [|a [|dest [|b args]]]; [auto with program..| |auto with program].
  apply safe_bind; [apply (safe_call_rc be); intros; library_function|]. intros rc. case_decide; [auto with program|].
  apply safe_bind; [auto with program|]. intros _ c x c' Hc E. unfold mbind at 1, M_bind at 1 in E.
  destruct (call_rc _ c) as [rc' c1| | | |] eqn:E1; try done. destruct (decide (rc' <> AFTP_RC_OK)) as [Hrc|Hrc].
  - revert E. apply safe_puts. revert E1. by apply (safe_call_rc be); [intros; library_function|].
  - assert (rc' = AFTP_RC_OK) as -> by (by apply dec_stable). destruct (call_connect _ _ _ _ Hc eq_refl E1) as [Hs Hi].
    injection E as _ <-. unfold client_ok. cbn. by rewrite Hi.
Qed.
#[local] Hint Resolve safe_open : program.

(** *** The others *)

Lemma safe_md args : safe (K := K) (F := F) (a_md be args).
Proof. unfold a_md. apply safe_if_connected. safe. Qed.
Lemma safe_cd args : safe (K := K) (F := F) (a_cd be args).
Proof. unfold a_cd. apply safe_if_connected. safe. Qed.
Lemma safe_type args : safe (K := K) (F := F) (a_type args).
Proof. unfold a_type. safe. Qed.
Lemma safe_system : safe (K := K) (F := F) (a_system be).
Proof. unfold a_system. apply safe_if_connected. safe. Qed.
Lemma safe_rd args : safe (K := K) (F := F) (a_rd be args).
Proof. unfold a_rd. apply safe_if_connected. safe. Qed.
Lemma safe_pwd : safe (K := K) (F := F) (a_pwd be).
Proof. unfold a_pwd. apply safe_if_connected. safe. Qed.
Lemma safe_ren args : safe (K := K) (F := F) (a_ren be args).
Proof. unfold a_ren. apply safe_if_connected. safe. Qed.
Lemma safe_alloc args : safe (K := K) (F := F) (a_alloc args).
Proof. apply safe_number_command; intros; library_function. Qed.
Lemma safe_block args : safe (K := K) (F := F) (a_block args).
Proof. apply safe_number_command; intros; library_function. Qed.
Lemma safe_lrecl args : safe (K := K) (F := F) (a_lrecl args).
Proof. apply safe_number_command; intros; library_function. Qed.
Lemma safe_close : safe (K := K) (F := F) (a_close be).
Proof. unfold a_close. apply safe_if_connected. safe. Qed.
Lemma safe_date args : safe (K := K) (F := F) (a_date args).
Proof. unfold a_date. apply safe_if_connected. safe. all: apply safe_setting_of; intros; library_function. Qed.
Lemma safe_del args : safe (K := K) (F := F) (a_del be fuel args).
Proof. unfold a_del. apply safe_if_connected. safe. Qed.
Lemma safe_get args : safe (K := K) (F := F) (a_get be fuel args).
Proof. unfold a_get. apply safe_if_connected. safe. Qed.
Lemma safe_modename args : safe (K := K) (F := F) (a_modename args).
Proof. apply safe_name_command; intros; library_function. Qed.
Lemma safe_tpname args : safe (K := K) (F := F) (a_tpname args).
Proof. apply safe_name_command; intros; library_function. Qed.
Lemma safe_prompt args : safe (K := K) (F := F) (a_prompt args).
Proof. unfold a_prompt. apply safe_if_connected. safe. Qed.
Lemma safe_recfm args : safe (K := K) (F := F) (a_recfm args).
Proof. unfold a_recfm. apply safe_if_connected. safe. all: apply safe_setting_of; intros; library_function. Qed.
Lemma safe_put args : safe (K := K) (F := F) (a_put be g_basename g_dirname fuel args).
Proof. unfold a_put. apply safe_if_connected. safe. Qed.
Lemma safe_lcd args : safe (K := K) (F := F) (a_lcd args).
Proof. unfold a_lcd. safe. Qed.
#[local] Hint Resolve safe_md safe_cd safe_type safe_system safe_rd safe_pwd safe_ren safe_alloc safe_block safe_lrecl safe_close
  safe_date safe_del safe_get safe_modename safe_tpname safe_prompt safe_recfm safe_put safe_lcd : program.

(** ** Turns of the loop *)

Lemma safe_command n args : safe (K := K) (F := F) (do_command be dial g_basename g_dirname ToolsVersion ToolsMaintain fuel n args).
Proof. unfold do_command. safe. Qed.
#[local] Hint Resolve safe_command : program.

Lemma safe_turn : safe (K := K) (F := F) (aftp_turn be dial g_basename g_dirname ToolsVersion ToolsMaintain fuel).
Proof. unfold aftp_turn, get_input. safe. Qed.

(** The first handle, whose session has no conversation yet; when the working
    directory cannot be read, [aftp_create] gives out the handle of a session it
    has freed. *)
Lemma initialize_ok no_session no_record f text st : is_Some (cwd f) ->
  initialize no_session no_record (client_start f text) = Ret 0 st -> client_ok (K := K) (F := F) st.
Proof.
  intros [d Hd] E. unfold initialize, on_lib, zoom, mbind, M_bind in E. cbn [client_start lib] in E.
  destruct (aftp_create no_session no_record (aftp_start f)) as [[i rc] l| | | |] eqn:Ec; try done.
  pose proof (keeps_create no_session no_record _ _ _ (start_ok f) Ec) as Ht. unfold aftp_create in Ec.
  destruct no_session; [by injection Ec as <- <- <-|]. rewrite get_st_bind in Ec. case_decide; [done|].
  destruct (asuiterecord_new no_record) as [r|]; [|done]. rewrite put_st_bind in Ec. cbn [files aftp_start] in Ec. rewrite Hd, safe_get_cwd_spec in Ec.
  case_bool_decide; [|done]. unfold set_session in Ec. rewrite modify_bind in Ec. injection Ec as <- <- <-. injection E as <-.
  split; [exact Ht|]. by eexists.
Qed.

(** The program's states at its prompt. *)
Inductive prompted (f : F) (text : list Z) : client K F -> Prop :=
  | prompt_first no_session no_record c : initialize no_session no_record (client_start f text) = Ret 0 c -> prompted f text c
  | prompt_next c c' : prompted f text c ->
      aftp_turn be dial g_basename g_dirname ToolsVersion ToolsMaintain fuel c = Ret (inr false) c' -> prompted f text c'.

(** C10 (invariant).  Whatever has been typed and whatever the server has answered, at
    every prompt the table of sessions is well formed, the program's handle is
    that of a live session, and when the program takes itself for connected the
    session has a conversation; [a_open] sets its flag only behind an
    [aftp_connect] that has opened one.  The working directory is readable when
    the program starts. *)
Theorem aftp_client_connected f text c : is_Some (cwd f) -> prompted f text c ->
  table_ok (lib c) /\ exists s, sessions (lib c) !! Z.to_nat (session c) = Some (Live s) /\
    (connected c = true -> is_Some (conversation_ID s)).
Proof.
  intros Hf H. assert (client_ok c) as [Ht (s & Hs & Hc)]; [|split; [done|]; by exists s].
  induction H as [ns nr c E|c c' _ IH E]; [by eapply initialize_ok|by eapply safe_turn].
Qed.
End Commands.

(** Two lines: an [open] that a listener answers, and a [type]. *)
Definition lines_demo : list Z := str "open HOST" ++ [10] ++ str "type binary" ++ [10].
Definition disk_demo : disk None := MkDisk {[str "f" := []]} [] (str "/") [].
Definition turn_demo : M (client script (disk None)) (Z + bool) :=
  aftp_turn false (fun _ => MkScript [] []) id (fun _ => str ".") [] [] 10.
Definition result {S X} (d : S) (o : outcome S X) : S := match o with Ret _ s => s | _ => d end.
Definition client_demo (n : nat) : client script (disk None) :=
  Nat.iter n (fun c => result c (turn_demo c)) (result (client_start disk_demo lines_demo) (initialize false false (client_start disk_demo lines_demo))).

Lemma aftp_client_connected_witness :
  connected (client_demo 2) = true /\ table_ok (lib (client_demo 2)) /\
  exists s, sessions (lib (client_demo 2)) !! 0%nat = Some (Live s) /\ is_Some (conversation_ID s).
Proof.
  split; [vm_compute; reflexivity|].
  destruct (aftp_client_connected false (fun _ => MkScript [] []) id (fun _ => str ".") [] [] 10 disk_demo lines_demo (client_demo 2)) as [Ht (s & Hs & Hc)].
  - by eexists.
  - apply (prompt_next _ _ _ _ _ _ _ _ _ (client_demo 1)); [|vm_compute; reflexivity].
    apply (prompt_next _ _ _ _ _ _ _ _ _ (client_demo 0)); [|vm_compute; reflexivity].
    apply (prompt_first _ _ _ _ _ _ _ _ _ false false). vm_compute; reflexivity.
  - split; [exact Ht|]. exists s. split; [exact Hs|]. apply Hc. vm_compute; reflexivity.
Defined.
