(* ===== verification/SnaUtility.v ===== *)
(** * snaconfig/sna_utility.c: names and addresses as text

    A [sna_netid] is eighteen bytes: a network name in the first nine, a resource
    name in the others, each with a terminator.  An index that leaves one of the
    two arrays lands in the other, as it does in the program; [None] is an access
    outside the structure or the buffer, or a null pointer. *)
From S2P Require Import Prelude.

Definition SNA_NETWORK_NAME_LEN := 9.
Definition SNA_RESOURCE_NAME_LEN := 9.
Definition ETH_ALEN : nat := 6.

(** Bytes of memory, all assigned. *)
Definition store (off : nat) (bs m : list Z) : option (list Z) :=
  if decide (off + length bs <= length m)%nat then Some (take off m ++ bs ++ drop (off + length bs) m) else None.

(** The string at [off], which has to end inside the block. *)
Definition string_at (off : nat) (m : list Z) : option (list Z) :=
  if decide (0 ∈ drop off m) then Some (c_str (drop off m)) else None.

(** ** Network identifiers *)

Abbreviation sna_netid := (list Z) (only parsing).

Definition net : nat := 0.
Definition name : nat := 9.

(** [for (i = 0; i < 8; i++) f[i] = toupper(f[i])]. *)
Definition upper8 (off : nat) (m : list Z) : list Z := take off m ++ (toupper <$> take 8 (drop off m)) ++ drop (off + 8) m.

(** [for (i = strlen(f); i < 8; i++) f[i] = 0x20]. *)
Definition pad8 (off : nat) (m : list Z) : option (list Z) :=
  s ← string_at off m;
  store (off + length s) (replicate (8 - length s) 32) m.

(** What [strpbrk(c, ".")] points to, without the point. *)
Fixpoint after_point (s : list Z) : option (list Z) :=
  match s with
  | c :: t => if decide (c = 46) then Some t else after_point t
  | [] => None
  end.

(** [strtok(c, ".")]. *)
Fixpoint token (s : list Z) : list Z :=
  match s with
  | c :: t => if decide (c = 46) then [] else c :: token t
  | [] => []
  end.

Fixpoint skip_points (s : list Z) : list Z :=
  match s with
  | c :: t => if decide (c = 46) then skip_points t else s
  | [] => []
  end.

Definition strtok (s : list Z) : option (list Z) :=
  match skip_points s with [] => None | s => Some (token s) end.

Definition sna_char_to_netid (b : list Z) : option (list Z) :=
  if decide (length b < 40)%nat then
    let n := replicate 18 0 in
    rest ← after_point b;
    n ← store name (rest ++ [0]) n;
    n ← pad8 name (upper8 name n);
    first ← strtok b;
    n ← store net (first ++ [0]) n;
    pad8 net (upper8 net n)
  else None.

(** The index of the first space from [off] on. *)
Fixpoint space_from (m : list Z) : option nat :=
  match m with
  | c :: m => if decide (c = 32) then Some O else S <$> space_from m
  | [] => None
  end.

(** [for (i = 0; p.f[i] != 0x20; i++); p.f[i] = 0]. *)
Definition cut_space (off : nat) (p : list Z) : option (list Z) :=
  i ← space_from (drop off p);
  store (off + i) [0] p.

(** The text is put into a buffer of twenty bytes. *)
Definition sna_pr_netid (n : list Z) : option (list Z) :=
  p ← cut_space net n;
  p ← cut_space name p;
  a ← string_at net p;
  b ← string_at name p;
  if decide (Z.of_nat (length (a ++ [46] ++ b)) < 20) then Some (a ++ [46] ++ b) else None.

(** [for (i = 0; i < 8 && f[i] != 0x20; i++)]. *)
Definition length8 (m : list Z) : nat := default 8%nat (space_from (take 8 m)).

(** [strncpy] from a member: zeros behind its terminator. *)
Definition copied (n : nat) (m : list Z) : list Z := let s := c_str (take n m) in s ++ replicate (n - length s) 0.

(** The bytes stored, without the terminator, and their number. *)
Definition sna_netid_to_char (n : list Z) : list Z * Z :=
  let i := length8 (drop net n) in
  let c := copied i (drop net n) ++ [46] in
  let j := length8 (drop name n) in
  (c ++ copied j (drop name n), Z.of_nat (i + 1 + j)).

(** ** Hexadecimal *)

Definition hex_digit (d : Z) : Z := if decide (d < 10) then 48 + d else 55 + d.

(** [%0wX] of a number of at most [w] digits. *)
Fixpoint hex_upper (w : nat) (v : Z) : list Z :=
  match w with
  | O => []
  | S w => hex_upper w (v / 16) ++ [hex_digit (v mod 16)]
  end.

Definition sna_pr_ether (ptr : list Z) : option (list Z) :=
  match ptr with
  | a :: b :: c :: d :: e :: f :: _ =>
      Some (hex_upper 2 (u8 a) ++ [58] ++ hex_upper 2 (u8 b) ++ [58] ++ hex_upper 2 (u8 c) ++ [58] ++
            hex_upper 2 (u8 d) ++ [58] ++ hex_upper 2 (u8 e) ++ [58] ++ hex_upper 2 (u8 f))
  | _ => None
  end.

(** A string longer than the buffer [d] is stored past it. *)
Definition sna_char_to_nodeid (c : list Z) : option Z :=
  if decide (length c < 40)%nat then Some (u32 (strtol 16 c).1) else None.

Definition xid_get_block_num (nodeid : Z) : Z := Z.land (Z.shiftr (u32 nodeid) 20) 4095.
Definition xid_get_pu_num (nodeid : Z) : Z := Z.land (u32 nodeid) 1048575.

Definition sna_pr_nodeid (nodeid : Z) : list Z :=
  hex_upper 3 (xid_get_block_num nodeid) ++ [46] ++ hex_upper 5 (xid_get_pu_num nodeid).

(** ** Bits *)

Definition nibble (v w : Z) : Z := Z.land (Z.shiftr v (w * 4)) 15.

Definition rbits : list Z := [0; 8; 4; 12; 2; 10; 6; 14; 1; 9; 5; 13; 3; 11; 7; 15].

Definition flip_nibble (v : Z) : Z := nth (Z.to_nat (Z.land v 15)) rbits 0.

Definition flip_byte (v : Z) : Z := u8 (Z.lor (Z.shiftl (flip_nibble (nibble v 0)) 4) (flip_nibble (nibble v 1))).

(** ** Ethernet addresses *)

Definition hex_value (c : Z) : option Z :=
  if isdigit c then Some (c - 48)
  else if bool_decide (97 <= c <= 102) then Some (c - 97 + 10)
  else if bool_decide (65 <= c <= 70) then Some (c - 65 + 10)
  else None.

Definition skip_colon (s : list Z) : list Z := match s with 58 :: t => t | _ => s end.

(** The loop, for [n] more bytes: the result, and the bytes stored. *)
Fixpoint ether_loop (n : nat) (s : list Z) : Z * list Z :=
  match n, s with
  | S n, c :: s =>
      match hex_value c with
      | None => (-1, [])
      | Some hi =>
          let byte (v : Z) (s : list Z) := let '(rc, out) := ether_loop n (skip_colon s) in (rc, u8 v :: out) in
          match s with
          | [] => byte hi []
          | c' :: s' =>
              match hex_value c' with
              | Some lo => byte (Z.lor (Z.shiftl hi 4) lo) s'
              | None => if decide (c' = 58) then byte hi s' else (-1, [])
              end
          end
      end
  | _, _ => (0, [])
  end.

Definition sna_char_to_ether (bufp : list Z) : Z * list Z := ether_loop ETH_ALEN bufp.

(** ** Lemmas on memory *)

Lemma store_app off bs x y z : length x = off -> length y = length bs -> store off bs (x ++ y ++ z) = Some (x ++ bs ++ z).
Proof.
  intros Hx Hy. unfold store. rewrite decide_True by (rewrite !length_app; lia).
  rewrite (take_app_length' x (y ++ z) off) by lia. rewrite (app_assoc x y z), (drop_app_length' (x ++ y)) by (rewrite length_app; lia). done.
Qed.

Lemma store_start bs y z : length y = length bs -> store 0 bs (y ++ z) = Some (bs ++ z).
Proof. by apply (store_app 0 bs []). Qed.

Lemma upper8_app off x y z : length x = off -> length y = 8%nat -> upper8 off (x ++ y ++ z) = x ++ strupr y ++ z.
Proof.
  intros Hx Hy. unfold upper8. rewrite (take_app_length' x), (drop_app_length' x), (take_app_length' y) by lia.
  rewrite (app_assoc x y z), (drop_app_length' (x ++ y)) by (rewrite length_app; lia). done.
Qed.

Lemma c_str_app s t : no_nul s -> c_str (s ++ 0 :: t) = s.
Proof. induction 1 as [|c s Hc _ IH]; [done|]. cbn. by rewrite decide_False, IH. Qed.

Lemma string_at_app off x s t : length x = off -> no_nul s -> string_at off (x ++ s ++ 0 :: t) = Some s.
Proof.
  intros Hx Hs. unfold string_at. rewrite (drop_app_length' x) by lia. rewrite decide_True by set_solver. by rewrite c_str_app.
Qed.

Lemma string_at_start s t : no_nul s -> string_at 0 (s ++ 0 :: t) = Some s.
Proof. by apply (string_at_app 0 []). Qed.

Lemma space_from_app s t : 32 ∉ s -> space_from (s ++ 32 :: t) = Some (length s).
Proof.
  induction s as [|c s IH]; intros H; [done|]. cbn. rewrite decide_False by set_solver. by rewrite IH by set_solver.
Qed.

Lemma space_from_none s : 32 ∉ s -> space_from s = None.
Proof. induction s as [|c s IH]; intros H; [done|]. cbn. rewrite decide_False by set_solver. by rewrite IH by set_solver. Qed.

Lemma strupr_length s : length (strupr s) = length s.
Proof. apply length_fmap. Qed.

Lemma toupper_space c : c <> 32 -> toupper c <> 32.
Proof. unfold toupper, islower. case_bool_decide; lia. Qed.

Lemma strupr_no_space s : 32 ∉ s -> 32 ∉ strupr s.
Proof. intros H (c & Hc & Hs)%list_elem_of_fmap. destruct (decide (c = 32)) as [->|Hne]; [done|]. by apply (toupper_space c Hne). Qed.

Lemma replicate_middle k (x : Z) z : replicate k x ++ x :: z = x :: replicate k x ++ z.
Proof. induction k as [|k IH]; [done|]. cbn. by rewrite IH. Qed.

(** ** Identifiers *)

(** A member: the name in capitals, filled up with spaces, and its terminator. *)
Definition padded (s : list Z) : list Z := strupr s ++ replicate (8 - length s) 32.
Definition netid_of (a b : list Z) : list Z := padded a ++ [0] ++ padded b ++ [0].

(** Characters of a name. *)
Definition plain (s : list Z) : Prop := no_nul s /\ 32 ∉ s /\ (length s <= 8)%nat.

Lemma set_member off x s z : length x = off -> no_nul s -> (length s <= 8)%nat ->
  (n ← store off (s ++ [0]) (x ++ replicate 9 0 ++ z); pad8 off (upper8 off n)) = Some (x ++ (padded s ++ [0]) ++ z).
Proof.
  intros Hx Hs Hl. set (k := (8 - length s)%nat).
  assert (replicate 9 0 = replicate (length s + 1) 0 ++ replicate k 0) as -> by (rewrite <- replicate_add; f_equal; unfold k; lia).
  rewrite <- !app_assoc, store_app by (rewrite ?length_replicate, ?length_app; cbn; lia). cbn [mbind option_bind].
  assert (x ++ (s ++ [0]) ++ replicate k 0 ++ z = x ++ (s ++ replicate k 0) ++ [0] ++ z) as ->
    by (rewrite <- !app_assoc; do 2 f_equal; symmetry; apply replicate_middle).
  rewrite upper8_app by (rewrite ?length_app, ?length_replicate; unfold k; lia).
  assert (strupr (s ++ replicate k 0) = strupr s ++ replicate k 0) as -> by (unfold strupr; by rewrite fmap_app, fmap_replicate).
  assert (x ++ (strupr s ++ replicate k 0) ++ [0] ++ z = x ++ strupr s ++ 0 :: replicate k 0 ++ z) as E
    by (rewrite <- app_assoc; do 2 f_equal; apply replicate_middle).
  unfold pad8. rewrite E, string_at_app by (done || by apply strupr_no_nul). cbn [mbind option_bind]. rewrite strupr_length, <- E. fold k.
  rewrite <- (app_assoc (strupr s)), (app_assoc x).
  rewrite store_app by (rewrite ?length_app, ?strupr_length, ?length_replicate; lia). unfold padded. fold k. by rewrite <- !app_assoc.
Qed.

Lemma after_point_app a b : 46 ∉ a -> after_point (a ++ 46 :: b) = Some b.
Proof. induction a as [|c a IH]; intros H; [done|]. cbn. rewrite decide_False by set_solver. apply IH. set_solver. Qed.

Lemma strtok_app a b : a <> [] -> 46 ∉ a -> strtok (a ++ 46 :: b) = Some a.
Proof.
  intros Ha H. unfold strtok. assert (skip_points (a ++ 46 :: b) = a ++ 46 :: b) as ->.
  { destruct a as [|c a]; [done|]. cbn. by rewrite decide_False by set_solver. }
  assert (token (a ++ 46 :: b) = a) as Ht.
  { clear Ha. induction a as [|c a IH]; [done|]. cbn. rewrite decide_False, IH by set_solver. done. }
  destruct a; [done|]. cbn [app] in *. by rewrite Ht.
Qed.

Lemma char_to_netid a b : a <> [] -> plain a -> plain b -> 46 ∉ a -> sna_char_to_netid (a ++ 46 :: b) = Some (netid_of a b).
Proof.
  intros Hne (Ha & _ & Hla) (Hb & _ & Hlb) Hp. unfold sna_char_to_netid. rewrite decide_True by (rewrite length_app; cbn; lia).
  cbv zeta. rewrite after_point_app by done. cbn [mbind option_bind].
  change (replicate 18 0) with (replicate 9 0 ++ replicate 9 0 ++ []).
  pose proof (set_member name (replicate 9 0) b [] eq_refl Hb Hlb) as E1. cbn [mbind option_bind] in E1 |- *.
  destruct (store name (b ++ [0]) _) as [n1|]; [|done]. cbn [mbind option_bind] in E1 |- *. rewrite E1.
  cbn [mbind option_bind]. rewrite strtok_app by done. cbn [mbind option_bind].
  pose proof (set_member net [] a ((padded b ++ [0]) ++ []) eq_refl Ha Hla) as E2. cbn [app] in E2. rewrite app_nil_r in E2 |- *.
  destruct (store net (a ++ [0]) _) as [n2|]; [|done]. cbn [mbind option_bind] in E2 |- *. rewrite E2. unfold netid_of. by rewrite <- !app_assoc.
Qed.

Lemma padded_length s : (length s <= 8)%nat -> length (padded s) = 8%nat.
Proof. intros H. unfold padded. rewrite length_app, strupr_length, length_replicate. lia. Qed.

Lemma padded_short s : (length s < 8)%nat -> padded s = strupr s ++ 32 :: replicate (7 - length s) 32.
Proof. intros H. unfold padded. replace (8 - length s)%nat with (S (7 - length s)) by lia. done. Qed.

Lemma padded_full s : length s = 8%nat -> padded s = strupr s.
Proof. intros H. unfold padded. rewrite H. apply app_nil_r. Qed.

Lemma full_member s t : plain s -> 32 ∉ t -> 32 ∉ strupr s ++ 0 :: t.
Proof. intros (_ & Hs & _) Ht [H|H]%elem_of_app; [by apply (strupr_no_space s Hs)|set_solver]. Qed.

Lemma cut_space_app off x s t : length x = off -> 32 ∉ s -> cut_space off (x ++ s ++ 32 :: t) = Some (x ++ s ++ 0 :: t).
Proof.
  intros Hx Hs. unfold cut_space. rewrite (drop_app_length' x), space_from_app by done. cbn [mbind option_bind].
  rewrite (app_assoc x s). change (32 :: t) with ([32] ++ t). rewrite store_app by (rewrite ?length_app; cbn; lia). by rewrite <- app_assoc.
Qed.

Lemma cut_space_none off x s : length x = off -> 32 ∉ s -> cut_space off (x ++ s) = None.
Proof. intros Hx Hs. unfold cut_space. by rewrite (drop_app_length' x), space_from_none. Qed.

(** The first member. *)
Lemma string_at_net s t : no_nul s -> string_at net (s ++ 0 :: t) = Some s.
Proof. by apply (string_at_app net []). Qed.

Lemma cut_space_net s t : 32 ∉ s -> cut_space net (s ++ 32 :: t) = Some (s ++ 0 :: t).
Proof. by apply (cut_space_app net []). Qed.

Lemma cut_space_net_none s : 32 ∉ s -> cut_space net s = None.
Proof. by apply (cut_space_none net []). Qed.

(** What is printed once both names are ended. *)
Lemma pr_end a y b t : plain a -> plain b -> length (strupr a ++ 0 :: y) = 9%nat ->
  (p ← Some ((strupr a ++ 0 :: y) ++ strupr b ++ 0 :: t);
   s ← string_at net p; r ← string_at name p;
   if decide (Z.of_nat (length (s ++ [46] ++ r)) < 20) then Some (s ++ [46] ++ r) else None) = Some (strupr a ++ [46] ++ strupr b).
Proof.
  intros (Ha & _ & Hla) (Hb & _ & Hlb) Hy. cbn [mbind option_bind]. rewrite (string_at_app name) by (done || by apply strupr_no_nul).
  rewrite <- app_assoc. cbn [app]. rewrite string_at_net by (by apply strupr_no_nul). cbn [mbind option_bind].
  rewrite decide_True; [done|]. rewrite length_app. cbn [app length]. rewrite !strupr_length. lia.
Qed.

Definition printable (a b : list Z) : Prop := (length b < 7 \/ length b = 7 /\ length a < 8)%nat.

#[export] Instance printable_dec a b : Decision (printable a b).
Proof. unfold printable. apply _. Defined.

Lemma pr_netid_short a b : plain a -> plain b -> (length a < 8)%nat ->
  sna_pr_netid (netid_of a b) = if decide (printable a b) then Some (strupr a ++ [46] ++ strupr b) else None.
Proof.
  intros Ha Hb Hla. unfold sna_pr_netid, netid_of. rewrite (padded_short a), <- app_assoc by done. cbn [app].
  rewrite cut_space_net by (by apply strupr_no_space, Ha). cbn [mbind option_bind].
  set (y := replicate (7 - length a) 32 ++ [0]). assert (length (strupr a ++ 0 :: y) = 9%nat) as Hy
    by (unfold y; rewrite length_app; cbn; rewrite length_app, strupr_length, length_replicate; cbn; lia).
  replace (strupr a ++ 0 :: replicate (7 - length a) 32 ++ 0 :: padded b ++ [0]) with ((strupr a ++ 0 :: y) ++ padded b ++ [0])
    by (unfold y; cbn; rewrite <- !app_assoc; cbn; by rewrite <- app_assoc).
  destruct (decide (length b < 8)%nat) as [Hlb|Hlb].
  - rewrite decide_True by (unfold printable; lia). rewrite padded_short, <- (app_assoc (strupr b)) by done. cbn [app].
    rewrite cut_space_app by (done || by apply strupr_no_space, Hb). by apply pr_end.
  - rewrite decide_False by (unfold printable; lia). rewrite padded_full by (destruct Hb as (_ & _ & ?); lia).
    rewrite cut_space_none; [done|done|]. apply full_member; [done|set_solver].
Qed.

Lemma pr_netid_long a b : plain a -> plain b -> length a = 8%nat ->
  sna_pr_netid (netid_of a b) = if decide (printable a b) then Some (strupr a ++ [46] ++ strupr b) else None.
Proof.
  intros Ha Hb Hla. unfold sna_pr_netid, netid_of. rewrite (padded_full a) by done. destruct (decide (length b < 8)%nat) as [Hlb|Hlb].
  - rewrite padded_short, <- (app_assoc (strupr b)) by done. cbn [app].
    replace (strupr a ++ 0 :: strupr b ++ 32 :: replicate (7 - length b) 32 ++ [0])
      with ((strupr a ++ 0 :: strupr b) ++ 32 :: replicate (7 - length b) 32 ++ [0]) by (by rewrite <- app_assoc).
    rewrite cut_space_net; [|apply full_member; [done|by apply strupr_no_space, Hb]]. cbn [app mbind option_bind].
    assert (length (strupr a ++ [0]) = 9%nat) as Hx by (rewrite length_app, strupr_length; cbn; lia).
    destruct (decide (length b < 7)%nat) as [Hlb'|Hlb'].
    + rewrite decide_True by (unfold printable; lia). replace (7 - length b)%nat with (S (6 - length b)) by lia. cbn [replicate app].
      replace ((strupr a ++ 0 :: strupr b) ++ 0 :: 32 :: replicate (6 - length b) 32 ++ [0])
        with ((strupr a ++ [0]) ++ (strupr b ++ [0]) ++ 32 :: replicate (6 - length b) 32 ++ [0]) by (by rewrite <- !app_assoc).
      rewrite cut_space_app; [|done|]. 2:{ apply full_member; [done|set_solver]. }
      rewrite <- (app_assoc (strupr b)). cbn [app]. by apply pr_end.
    + rewrite decide_False by (unfold printable; lia). replace (7 - length b)%nat with O by lia. cbn [replicate app].
      replace ((strupr a ++ 0 :: strupr b) ++ [0; 0]) with ((strupr a ++ [0]) ++ strupr b ++ 0 :: [0]) by (by rewrite <- !app_assoc).
      rewrite cut_space_none; [done|done|]. apply full_member; [done|set_solver].
  - rewrite decide_False by (unfold printable; lia). rewrite padded_full by (destruct Hb as (_ & _ & ?); lia).
    rewrite cut_space_net_none; [done|]. apply full_member; [done|]. apply full_member; [done|set_solver].
Qed.

Lemma length8_padded s t : plain s -> length8 (padded s ++ 0 :: t) = length s.
Proof.
  intros (_ & Hs & Hl). unfold length8. rewrite (take_app_length' (padded s)) by (by rewrite padded_length).
  destruct (decide (length s < 8)%nat).
  - rewrite padded_short, space_from_app by (done || by apply strupr_no_space). apply strupr_length.
  - rewrite padded_full by lia. rewrite space_from_none by (by apply strupr_no_space). cbn. lia.
Qed.

Lemma copied_padded s t : plain s -> copied (length s) (padded s ++ t) = strupr s.
Proof.
  intros (Hs & _ & Hl). unfold copied, padded. rewrite <- app_assoc, take_app_length' by (by rewrite strupr_length).
  assert (c_str (strupr s) = strupr s) as ->.
  { pose proof (c_str_app (strupr s) [] (strupr_no_nul _ Hs)) as E. clear Hl. induction (strupr_no_nul _ Hs) as [|c l Hc _ IH]; [done|].
    cbn in *. rewrite decide_False in * by done. f_equal. apply IH. by injection E. }
  rewrite strupr_length, Nat.sub_diag. apply app_nil_r.
Qed.

(** A network identifier in text is read into its structure, and
    [sna_netid_to_char] gives it back in capitals.  [sna_pr_netid], which looks for
    the space that ends a name without a bound, prints it only when the resource
    name has fewer than eight characters, and fewer than seven behind a network
    name of eight: for the others it leaves the structure. *)
Theorem sna_netid_roundtrip a b : a <> [] -> 46 ∉ a -> plain a -> plain b ->
  exists n, sna_char_to_netid (a ++ 46 :: b) = Some n /\
    sna_netid_to_char n = (strupr a ++ [46] ++ strupr b, Z.of_nat (length a + 1 + length b)) /\
    sna_pr_netid n = (if decide (printable a b) then Some (strupr a ++ [46] ++ strupr b) else None).
Proof.
  intros Hne Hp Ha Hb. exists (netid_of a b). split; [by apply char_to_netid|]. split.
  - unfold sna_netid_to_char, netid_of. cbn [net app]. rewrite !drop_0. rewrite length8_padded by done.
    assert (drop name (padded a ++ 0 :: padded b ++ [0]) = padded b ++ [0]) as ->.
    { change (0 :: padded b ++ [0]) with ([0] ++ padded b ++ [0]). rewrite app_assoc. apply drop_app_length'.
      rewrite length_app, padded_length by apply Ha. done. }
    rewrite length8_padded, !copied_padded by done. by rewrite <- app_assoc.
  - destruct (decide (length a < 8)%nat); [by apply pr_netid_short|apply pr_netid_long; [done..|]]. destruct Ha as (_ & _ & ?). lia.
Qed.

Lemma sna_netid_roundtrip_witness :
  exists n, sna_char_to_netid (str "lnxsna.ehead") = Some n /\ sna_pr_netid n = Some (str "LNXSNA.EHEAD").
Proof.
  destruct (sna_netid_roundtrip (str "lnxsna") (str "ehead")) as (n & E & _ & H);
    [done|apply (bool_decide_unpack _); vm_compute; exact I|..|].
  1, 2: split_and!; [apply (bool_decide_unpack _); vm_compute; exact I|apply (bool_decide_unpack _); vm_compute; exact I|vm_compute; lia].
  exists n. split; [exact E|]. rewrite H. vm_compute. reflexivity.
Defined.

(** ** Hexadecimal digits *)

Lemma hex_value_digit d : 0 <= d < 16 -> hex_value (hex_digit d) = Some d.
Proof.
  intros H. unfold hex_digit. case_decide as Hd; unfold hex_value, isdigit.
  - rewrite bool_decide_true by lia. f_equal. lia.
  - rewrite bool_decide_false, bool_decide_false, bool_decide_true by lia. f_equal. lia.
Qed.

Lemma hex_upper_byte b : is_byte b -> hex_upper 2 b = [hex_digit (b / 16); hex_digit (b mod 16)].
Proof. intros [H1 H2]. cbn [hex_upper app]. rewrite (Z.mod_small (b / 16)); [done|]. split; [apply Z.div_pos; lia|apply Z.div_lt_upper_bound; lia]. Qed.

(** ** Ethernet addresses *)

(** Two digits for each byte, with or without a colon behind them. *)
Inductive mac_text : list Z -> list Z -> Prop :=
  | mac_end : mac_text [] []
  | mac_byte h l hi lo sep bs s : hex_value h = Some hi -> hex_value l = Some lo -> sep = [] \/ sep = [58] ->
      mac_text bs s -> mac_text (hi * 16 + lo :: bs) (h :: l :: sep ++ s).

Lemma hex_value_bound c d : hex_value c = Some d -> 0 <= d < 16.
Proof. unfold hex_value, isdigit. repeat case_bool_decide; intros [= <-]; lia. Qed.

Lemma hex_pair hi lo : 0 <= hi < 16 -> 0 <= lo < 16 -> u8 (Z.lor (Z.shiftl hi 4) lo) = hi * 16 + lo.
Proof.
  intros Hh Hl. assert (forallb (fun h => forallb (fun l => u8 (Z.lor (Z.shiftl h 4) l) =? h * 16 + l) (seqZ 0 16)) (seqZ 0 16) = true) as H by (vm_compute; reflexivity).
  rewrite forallb_forall in H. specialize (H hi). rewrite <- list_elem_of_In, elem_of_seqZ, forallb_forall in H. specialize (H ltac:(lia) lo).
  rewrite <- list_elem_of_In, elem_of_seqZ in H. apply Z.eqb_eq, H. lia.
Qed.

Lemma skip_colon_text bs s sep : mac_text bs s -> sep = [] \/ sep = [58] -> skip_colon (sep ++ s) = s.
Proof.
  intros H [->| ->]; [|done]. destruct H as [|h l hi lo sep bs s Hh _ _ _]; [done|]. cbn [app]. unfold skip_colon.
  repeat case_match; try done.
Qed.

(** Six bytes are read at most. *)
Lemma ether_loop_text bs s n : mac_text bs s -> ether_loop n s = (0, take n bs).
Proof.
  intros H. revert n. induction H as [|h l hi lo sep bs s Hh Hl Hsep Hs IH]; intros [|n]; try done.
  cbn [ether_loop]. rewrite Hh, Hl. cbv zeta. rewrite (skip_colon_text bs) by done. rewrite IH. cbn [take].
  rewrite hex_pair by (by eapply hex_value_bound). done.
Qed.

Lemma mac_text_byte b bs s sep : is_byte b -> sep = [] \/ sep = [58] -> mac_text bs s -> mac_text (b :: bs) (hex_upper 2 b ++ sep ++ s).
Proof.
  intros Hb Hsep H. rewrite hex_upper_byte by done. destruct Hb. rewrite (Z.div_mod b 16) at 1 by lia. rewrite (Z.mul_comm 16).
  apply (mac_byte _ _ _ _ sep bs s); [..|done|done]; apply hex_value_digit.
  - split; [apply Z.div_pos; lia|apply Z.div_lt_upper_bound; lia].
  - apply Z.mod_pos_bound. lia.
Qed.

(** The address [sna_pr_ether] prints is read back by
    [sna_char_to_ether], and so are its digits without the colons. *)
Theorem sna_ether_roundtrip m : length m = 6%nat -> is_bytes m ->
  exists t, sna_pr_ether m = Some t /\ sna_char_to_ether t = (0, m) /\ sna_char_to_ether (m ≫= hex_upper 2) = (0, m).
Proof.
  intros Hl Hm. do 6 (destruct m as [|? m]; [done|]). destruct m; [|done]. repeat (apply Forall_cons in Hm as [? Hm]).
  unfold sna_pr_ether. rewrite !u8_id by done. eexists. split; [reflexivity|]. unfold sna_char_to_ether. split.
  - apply (ether_loop_text [_; _; _; _; _; _] _ 6). do 5 (apply mac_text_byte; [done|by right|]). rewrite <- (app_nil_r (hex_upper 2 _)).
    apply (mac_text_byte _ [] [] []); [done|by left|constructor].
  - apply (ether_loop_text [_; _; _; _; _; _] _ 6). cbn [mbind list_bind]. do 6 (apply (mac_text_byte _ _ _ []); [done|by left|]). constructor.
Qed.

Lemma sna_ether_roundtrip_witness : exists t, sna_pr_ether [0; 1; 57; 97; 32; 179] = Some t /\ sna_char_to_ether t = (0, [0; 1; 57; 97; 32; 179]).
Proof.
  destruct (sna_ether_roundtrip [0; 1; 57; 97; 32; 179]) as (t & E & H & _); [done|repeat constructor; done|]. by exists t.
Defined.

(** ** Node identifiers *)

Lemma digit_in_hex d : 0 <= d < 16 -> digit_in 16 (hex_digit d) = Some d.
Proof.
  intros H. unfold digit_in, digit_value, hex_digit, isdigit, islower, isupper. case_decide.
  - rewrite bool_decide_true by lia. rewrite decide_True by lia. f_equal. lia.
  - rewrite bool_decide_false, bool_decide_false, bool_decide_true by lia. rewrite decide_True by lia. f_equal. lia.
Qed.

Lemma digits_hex w v rest acc : 0 <= v -> digits 16 (hex_upper w v ++ rest) acc = digits 16 rest (acc * 16 ^ Z.of_nat w + v mod 16 ^ Z.of_nat w).
Proof.
  intros Hv. revert v rest acc Hv. induction w as [|w IH]; intros v rest acc Hv.
  - cbn [hex_upper app]. f_equal. change (16 ^ Z.of_nat 0) with 1. rewrite Z.mod_1_r. lia.
  - cbn [hex_upper]. rewrite <- app_assoc, IH by (apply Z.div_pos; lia). cbn [app digits].
    rewrite digit_in_hex by (apply Z.mod_pos_bound; lia). f_equal.
    rewrite Nat2Z.inj_succ, Z.pow_succ_r by lia. rewrite (Z.rem_mul_r v 16) by lia. lia.
Qed.

Lemma strtol_hex d x t : 0 <= d < 16 -> x <> 120 -> x <> 88 ->
  strtol 16 (hex_digit d :: x :: t) = (long_clamp (digits 16 (hex_digit d :: x :: t) 0).1, (digits 16 (hex_digit d :: x :: t) 0).2).
Proof.
  intros Hd Hx Hx'. assert (base_prefix 16 (hex_digit d :: x :: t) = (16, hex_digit d :: x :: t)) as Hb.
  { destruct (decide (d = 0)) as [->|Hne]; [destruct t as [|y t]; [done|]; cbn; rewrite bool_decide_false by lia; done|].
    assert (d = 1 \/ d = 2 \/ d = 3 \/ d = 4 \/ d = 5 \/ d = 6 \/ d = 7 \/ d = 8 \/ d = 9 \/ d = 10 \/ d = 11 \/ d = 12 \/ d = 13 \/ d = 14 \/ d = 15) by lia.
    destruct_or!; subst; done. }
  assert (forall s, skip_blanks (hex_digit d :: s) = hex_digit d :: s) as Hs
    by (intros s; cbn [skip_blanks]; unfold isspace, hex_digit; rewrite bool_decide_false; [done|case_decide; lia]).
  assert (forall s, (match hex_digit d :: s with 45 :: u => (true, u) | 43 :: u => (false, u) | u => (false, u) end) = (false, hex_digit d :: s)) as Hn.
  { intros s. assert (45 < hex_digit d) by (unfold hex_digit; case_decide; lia). repeat case_match; simplify_eq; lia || done. }
  unfold strtol. rewrite Hs, Hn, Hb, digit_in_hex by done. by destruct (digits 16 _ 0).
Qed.

Lemma hex_upper_cons w v : 0 <= v -> hex_upper (S w) v = hex_digit (v / 16 ^ Z.of_nat w mod 16) :: hex_upper w v.
Proof.
  revert v. induction w as [|w IH]; intros v Hv.
  - cbn [hex_upper app]. change (16 ^ Z.of_nat 0) with 1. by rewrite Z.div_1_r.
  - change (hex_upper (S (S w)) v) with (hex_upper (S w) (v / 16) ++ [hex_digit (v mod 16)]). rewrite IH by (apply Z.div_pos; lia).
    rewrite Z.div_div, <- Z.pow_succ_r, <- Nat2Z.inj_succ by lia. done.
Qed.

Lemma hex_digit_not d c : 0 <= d < 16 -> 70 < c -> hex_digit d <> c.
Proof. unfold hex_digit. case_decide; lia. Qed.

Lemma strtol_hex_upper w v rest : 0 <= v -> (2 <= w)%nat -> digits 16 rest (v mod 16 ^ Z.of_nat w) = (v mod 16 ^ Z.of_nat w, rest) ->
  strtol 16 (hex_upper w v ++ rest) = (long_clamp (v mod 16 ^ Z.of_nat w), rest).
Proof.
  intros Hv Hw Hr. destruct w as [|[|w]]; [lia..|]. set (n := v mod _) in *.
  assert (forall k, 0 <= v / 16 ^ Z.of_nat k mod 16 < 16) as Hd by (intros k; apply Z.mod_pos_bound; lia).
  assert (hex_upper (S (S w)) v ++ rest = hex_digit (v / 16 ^ Z.of_nat (S w) mod 16) :: hex_digit (v / 16 ^ Z.of_nat w mod 16) :: hex_upper w v ++ rest) as E
    by (by rewrite !hex_upper_cons).
  rewrite E, strtol_hex by (done || by apply hex_digit_not). rewrite <- E, digits_hex, Z.mul_0_l, Z.add_0_l by done. fold n. by rewrite Hr.
Qed.

(** Eight digits are a node identifier, up to the largest [long]: a
    larger one is read as that.  What [sna_pr_nodeid] prints is not: reading stops
    at the point, so only the block number is read. *)
Theorem sna_nodeid_text v : 0 <= v < 2 ^ 32 ->
  sna_char_to_nodeid (hex_upper 8 v) = Some (Z.min v 2147483647) /\
  sna_char_to_nodeid (sna_pr_nodeid v) = Some (v / 2 ^ 20).
Proof.
  intros Hv. change (2 ^ 32) with 4294967296 in Hv. unfold sna_char_to_nodeid. split.
  - rewrite decide_True by (cbn; lia). rewrite <- (app_nil_r (hex_upper 8 v)), strtol_hex_upper by (lia || done). cbn [fst].
    change (16 ^ Z.of_nat 8) with 4294967296. rewrite Z.mod_small by lia. unfold long_clamp, u32. f_equal. rewrite Z.mod_small; lia.
  - unfold sna_pr_nodeid, xid_get_block_num. rewrite decide_True by (cbn; lia).
    assert (u32 v = v) as -> by (unfold u32; apply Z.mod_small; lia). rewrite Z.shiftr_div_pow2 by lia.
    change 4095 with (Z.ones 12). rewrite Z.land_ones by lia. change (2 ^ 20) with 1048576. change (2 ^ 12) with (16 ^ Z.of_nat 3).
    assert (0 <= v / 1048576 < 4096) as Hb by (split; [apply Z.div_pos; lia|apply Z.div_lt_upper_bound; lia]).
    rewrite strtol_hex_upper; [|by apply Z.mod_pos_bound|lia|done]. cbn [fst]. change (16 ^ Z.of_nat 3) with 4096.
    rewrite !(Z.mod_small (v / 1048576) 4096) by lia. unfold long_clamp, u32. f_equal. rewrite Z.mod_small; lia.
Qed.

(** ** Bits *)

(** [flip_byte] reverses the order of the bits. *)
Lemma flip_byte_bits v i : is_byte v -> 0 <= i < 8 -> Z.testbit (flip_byte v) i = Z.testbit v (7 - i).
Proof.
  intros Hv Hi. assert (forallb (fun v => forallb (fun i => Bool.eqb (Z.testbit (flip_byte v) i) (Z.testbit v (7 - i))) (seqZ 0 8)) (seqZ 0 256) = true) as H
    by (vm_compute; reflexivity).
  rewrite forallb_forall in H. specialize (H v). rewrite <- list_elem_of_In, elem_of_seqZ, forallb_forall in H. specialize (H ltac:(destruct Hv; lia) i).
  rewrite <- list_elem_of_In, elem_of_seqZ in H. apply eqb_prop, H. lia.
Qed.
