(* ===== verification/SnaNof.v ===== *)
(** * libsna/libnof.c: the node operator facility

    Requests to the kernel's node operator: definitions and commands go through
    [setsockopt], queries through [ioctl].  The kernel is the class [Nof]; the
    records it hands out for a query of type [R] are the class [NofTable].  The
    structures are those of include/linux/sna.h (in patch-o-matic/net-fun.patch),
    up to the members marked there as not used; a character array is the list of
    its bytes.  The buffer of a query is a number of records, and memory is not
    short. *)
From S2P Require Import Prelude SnaUtility.

Definition SNA_USE_NAME_LEN : nat := 40.
Definition SOL_SNA_NOF := 278.
Definition SOL_SNA_CPIC := 279.
Definition AF_SNA := 22.
Definition SOCK_DGRAM := 2.

Definition SNA_NOF_NODE := 0.
Definition SNA_NOF_PORT := 2.
Definition SNA_NOF_LS := 3.
Definition SNA_NOF_MODE := 4.
Definition SNA_NOF_LOCAL_LU := 5.
Definition SNA_NOF_REMOTE_LU := 6.
Definition SNA_NOF_TP := 7.
Definition SNA_NOF_COS := 8.
Definition SNA_NOF_CPIC := 9.
Definition SNA_NOF_ADJACENT_NODE := 10.
Definition SNA_NOF_CONNECTION_NETWORK := 11.
Definition SNA_NOF_DIRECTORY_ENTRY := 12.
Definition SNA_NOF_ISR_TUNING := 13.

Definition SNA_NOF_DEFINE := 1.
Definition SNA_NOF_START := 2.
Definition SNA_NOF_STOP := 3.
Definition SNA_NOF_DELETE := 4.

Definition SIOCGNODE := 4096.
Definition SIOCGDLC := 4097.
Definition SIOCGPORT := 4098.
Definition SIOCGLS := 4099.
Definition SIOCGMODE := 4100.
Definition SIOCGLU := 4101.
Definition SIOCGPLU := 4102.
Definition SIOCGCPICS := 4103.
Definition SIOCGCOS := 4105.

(** ** Structures, without their [action] *)

Module Node.
Record sna_nof_node : Type := Mk {
  netid : list Z; nodeid : Z; type : Z; lu_seg : Z; bind_seg : Z; max_lus : Z
}.
End Node.

Module Port.
Record sna_nof_port : Type := Mk {
  use_name : list Z; netid : list Z; name : list Z; saddr : list Z; btu : Z; mia : Z; moa : Z
}.
End Port.

Module Ls.
Record sna_nof_ls : Type := Mk {
  use_name : list Z; netid : list Z; name : list Z; saddr : list Z;
  plu_name : list Z; plu_node_id : Z; dname : list Z; daddr : list Z;
  role : Z; direction : Z; byteswap : Z; retry_on_fail : Z; retry_times : Z; autoact : Z; autodeact : Z;
  tg_number : Z; cost_per_byte : Z; cost_per_connect_time : Z; effective_capacity : Z; propagation_delay : Z;
  security : Z; user1 : Z; user2 : Z; user3 : Z
}.
End Ls.

(** A smallest and a largest value. *)
Record range : Type := MkRange { least : Z; most : Z }.

Module Cos.
Record sna_nof_cos : Type := Mk {
  name : list Z; weight : Z; tx_priority : Z; default_cos_invalid : Z; default_cos_null : Z;
  cost_per_connect : range; cost_per_byte : range; security : range; propagation_delay : range;
  effective_capacity : range; user1 : range; user2 : range; user3 : range;
  route_resistance : range; node_congested : range
}.
End Cos.

Module Mode.
Record sna_nof_mode : Type := Mk {
  netid : list Z; netid_plu : list Z; mode_name : list Z; cos_name : list Z;
  tx_pacing : Z; rx_pacing : Z; tx_max_ru : Z; rx_max_ru : Z; crypto : Z;
  min_conwinners : Z; min_conlosers : Z; max_sessions : Z; auto_activation : Z
}.
End Mode.

Module LocalLu.
Record sna_nof_local_lu : Type := Mk {
  use_name : list Z; netid : list Z; lu_name : list Z; sync_point : Z; lu_sess_limit : Z
}.
End LocalLu.

Module RemoteLu.
Record sna_nof_remote_lu : Type := Mk {
  use_name : list Z; netid : list Z; netid_plu : list Z; netid_fqcp : list Z
}.
End RemoteLu.

Module SideInfo.
Record sna_nof_cpic : Type := Mk {
  netid : list Z; netid_plu : list Z; sym_dest_name : list Z; mode_name : list Z; tp_name : list Z
}.
End SideInfo.

(** What [setsockopt] is given; no program of the repository fills the structures
    of the last kind, which are their bytes. *)
Inductive parameter : Type :=
  | PNode (n : Node.sna_nof_node)
  | PPort (p : Port.sna_nof_port)
  | PLs (l : Ls.sna_nof_ls)
  | PCos (c : Cos.sna_nof_cos)
  | PMode (m : Mode.sna_nof_mode)
  | PLocalLu (l : LocalLu.sna_nof_local_lu)
  | PRemoteLu (l : RemoteLu.sna_nof_remote_lu)
  | PCpic (c : SideInfo.sna_nof_cpic)
  | POther (bytes : list Z).

(** ** The kernel *)

Class Nof (K : Type) : Type := {
  nof_socket : Z -> Z -> K -> Z * K;
  nof_close : Z -> K -> Z * K;
  nof_setsockopt : Z -> Z -> Z -> Z -> parameter -> K -> Z * K
}.

(** Which records are asked for: nine bytes each, of which the last is never
    assigned; [None] is an unassigned byte. *)
Record selector : Type := MkSel {
  sel_net : list (option Z); sel_name : list (option Z); sel_dev : list (option Z); sel_port : list (option Z); sel_res : list (option Z)
}.

(** [ioctl] with room for a number of records: the result and the records. *)
Class NofTable (K R : Type) : Type := {
  nof_ioctl : Z -> Z -> selector -> nat -> K -> (Z * list R) * K
}.

Section Requests.
Context {K : Type} `{Nof K}.

Definition kernel {A} (f : K -> A * K) : M K A := fun k => let '(a, k) := f k in Ret a k.

(** [x->action = action] and [setsockopt]. *)
Definition request (level opt action : Z) (p : parameter) (sk : Z) : M K Z := kernel (nof_setsockopt sk level opt action p).

Definition nof_define_adjacent_node sk node := request SOL_SNA_NOF SNA_NOF_ADJACENT_NODE SNA_NOF_DEFINE (POther node) sk.
Definition nof_define_class_of_service sk cos := request SOL_SNA_NOF SNA_NOF_COS SNA_NOF_DEFINE (PCos cos) sk.
Definition nof_define_connection_network sk cn := request SOL_SNA_NOF SNA_NOF_CONNECTION_NETWORK SNA_NOF_DEFINE (POther cn) sk.
Definition not_define_directory_entry sk dir := request SOL_SNA_NOF SNA_NOF_DIRECTORY_ENTRY SNA_NOF_DEFINE (POther dir) sk.
Definition nof_define_isr_tuning sk isr := request SOL_SNA_NOF SNA_NOF_ISR_TUNING SNA_NOF_DEFINE (POther isr) sk.
Definition nof_define_link_station sk ls := request SOL_SNA_NOF SNA_NOF_LS SNA_NOF_DEFINE (PLs ls) sk.
Definition nof_define_local_lu sk lu := request SOL_SNA_NOF SNA_NOF_LOCAL_LU SNA_NOF_DEFINE (PLocalLu lu) sk.
Definition nof_define_cpic_side_info sk cs := request SOL_SNA_CPIC SNA_NOF_CPIC SNA_NOF_DEFINE (PCpic cs) sk.
Definition nof_define_mode sk mode := request SOL_SNA_NOF SNA_NOF_MODE SNA_NOF_DEFINE (PMode mode) sk.
Definition nof_define_node sk node := request SOL_SNA_NOF SNA_NOF_NODE SNA_NOF_DEFINE (PNode node) sk.
Definition nof_stop_remote_lu sk lu := request SOL_SNA_NOF SNA_NOF_REMOTE_LU SNA_NOF_STOP (PRemoteLu lu) sk.
Definition nof_start_remote_lu sk lu := request SOL_SNA_NOF SNA_NOF_REMOTE_LU SNA_NOF_START (PRemoteLu lu) sk.
Definition nof_define_partner_lu sk lu := request SOL_SNA_NOF SNA_NOF_REMOTE_LU SNA_NOF_DEFINE (PRemoteLu lu) sk.
Definition nof_define_port sk port := request SOL_SNA_NOF SNA_NOF_PORT SNA_NOF_DEFINE (PPort port) sk.
Definition nof_define_tp sk tp := request SOL_SNA_NOF SNA_NOF_TP SNA_NOF_DEFINE (POther tp) sk.
Definition nof_delete_adjacent_node sk node := request SOL_SNA_NOF SNA_NOF_ADJACENT_NODE SNA_NOF_DELETE (POther node) sk.
Definition nof_delete_class_of_service sk cos := request SOL_SNA_NOF SNA_NOF_COS SNA_NOF_DELETE (PCos cos) sk.
Definition nof_delete_connection_network sk cn := request SOL_SNA_NOF SNA_NOF_CONNECTION_NETWORK SNA_NOF_DELETE (POther cn) sk.
Definition nof_delete_directory_entry sk dir := request SOL_SNA_NOF SNA_NOF_DIRECTORY_ENTRY SNA_NOF_DELETE (POther dir) sk.
Definition nof_delete_isr_tuning sk isr := request SOL_SNA_NOF SNA_NOF_ISR_TUNING SNA_NOF_DELETE (POther isr) sk.
Definition nof_delete_link_station sk ls := request SOL_SNA_NOF SNA_NOF_LS SNA_NOF_DELETE (PLs ls) sk.
Definition nof_delete_local_lu sk lu := request SOL_SNA_NOF SNA_NOF_LOCAL_LU SNA_NOF_DELETE (PLocalLu lu) sk.
Definition nof_delete_mode sk mode := request SOL_SNA_NOF SNA_NOF_MODE SNA_NOF_DELETE (PMode mode) sk.
Definition nof_delete_partner_lu sk lu := request SOL_SNA_NOF SNA_NOF_REMOTE_LU SNA_NOF_DELETE (PRemoteLu lu) sk.
Definition nof_delete_port sk port := request SOL_SNA_NOF SNA_NOF_PORT SNA_NOF_DELETE (PPort port) sk.
Definition nof_delete_cpic_side_info sk dc := request SOL_SNA_CPIC SNA_NOF_CPIC SNA_NOF_DELETE (PCpic dc) sk.
Definition nof_delete_tp sk tp := request SOL_SNA_NOF SNA_NOF_TP SNA_NOF_DELETE (POther tp) sk.
Definition nof_start_link_station sk ls := request SOL_SNA_NOF SNA_NOF_LS SNA_NOF_START (PLs ls) sk.
Definition nof_start_node sk node := request SOL_SNA_NOF SNA_NOF_NODE SNA_NOF_START (PNode node) sk.
Definition nof_stop_node sk node := request SOL_SNA_NOF SNA_NOF_NODE SNA_NOF_STOP (PNode node) sk.
Definition nof_delete_node sk node := request SOL_SNA_NOF SNA_NOF_NODE SNA_NOF_DELETE (PNode node) sk.
Definition nof_start_port sk port := request SOL_SNA_NOF SNA_NOF_PORT SNA_NOF_START (PPort port) sk.
Definition nof_start_tp sk tp := request SOL_SNA_NOF SNA_NOF_TP SNA_NOF_START (POther tp) sk.
Definition nof_stop_link_station sk ls := request SOL_SNA_NOF SNA_NOF_LS SNA_NOF_STOP (PLs ls) sk.
Definition nof_stop_port sk port := request SOL_SNA_NOF SNA_NOF_PORT SNA_NOF_STOP (PPort port) sk.
End Requests.

(** ** Queries *)

(** [memcpy] of eight bytes of a string, which are unassigned behind its end, into
    nine. *)
Definition select8 (s : list Z) : list (option Z) :=
  let b := take 8 (s ++ [0]) in (Some <$> b) ++ replicate (9 - length b) None.

Definition unselected : list (option Z) := replicate 9 None.
Definition no_selector : selector := MkSel unselected unselected unselected unselected unselected.

Section Queries.
Context {K R : Type} `{NofTable K R}.

(** The loop: the room grows by twenty records as long as all of it is filled; the
    list is built from its end. *)
Fixpoint query_loop (fuel numreqs : nat) (sk cmd : Z) (sel : selector) : M K (list R) :=
  match fuel with
  | O => no_fuel
  | S fuel =>
      '(err, records) ← kernel (nof_ioctl sk cmd sel numreqs);
      if decide (err < 0) then mret []
      else if decide (length records = numreqs) then query_loop fuel (numreqs + 20) sk cmd sel
      else mret (fold_left (fun list r => r :: list) records [])
  end.

Definition nof_query_cpic_side_info (fuel : nat) (sk : Z) (net name cpic_name : list Z) := query_loop fuel 30 sk SIOCGCPICS no_selector.
Definition nof_query_mode (fuel : nat) (sk : Z) (net name modename : list Z) := query_loop fuel 30 sk SIOCGMODE no_selector.
Definition nof_query_plu (fuel : nat) (sk : Z) := query_loop fuel 30 sk SIOCGPLU no_selector.
Definition nof_query_lu (fuel : nat) (sk : Z) (net name luname : list Z) :=
  query_loop fuel 30 sk SIOCGLU (MkSel (select8 net) (select8 name) unselected unselected (select8 luname)).

(** The device's name is copied over the node's. *)
Definition nof_query_ls (fuel : nat) (sk : Z) (net name devname portname lsname : list Z) :=
  query_loop fuel 30 sk SIOCGLS (MkSel (select8 net) (select8 devname) unselected (select8 portname) (select8 lsname)).
Definition nof_query_port (fuel : nat) (sk : Z) (net name devname portname : list Z) :=
  query_loop fuel 30 sk SIOCGPORT (MkSel (select8 net) (select8 devname) unselected (select8 portname) unselected).
Definition nof_query_dlc (fuel : nat) (sk : Z) (net name devname : list Z) :=
  query_loop fuel 30 sk SIOCGDLC (MkSel (select8 net) (select8 devname) unselected unselected unselected).

(** Nine bytes are copied of the class's name. *)
Definition nof_query_cos (fuel : nat) (sk : Z) (name : list Z) :=
  let b := take 9 (name ++ [0]) in
  query_loop fuel 30 sk SIOCGCOS (MkSel unselected ((Some <$> b) ++ replicate (9 - length b) None) unselected unselected unselected).
Definition nof_query_node (fuel : nat) (sk : Z) (net name : list Z) :=
  query_loop fuel 10 sk SIOCGNODE (MkSel (select8 net) (select8 name) unselected unselected unselected).

(** ** What a query finds *)

(** The kernel hands out its records from the first on, as many as there is room
    for, whatever is selected, and does not change. *)
Class NofLists (table : list R) : Prop := {
  ioctl_prefix sk cmd sel room k : nof_ioctl sk cmd sel room k = ((0, take room table), k)
}.

Lemma fold_left_rev {A} (l acc : list A) : fold_left (fun list r => r :: list) l acc = reverse l ++ acc.
Proof. revert acc. induction l as [|x l IH]; intros acc; [done|]. cbn [fold_left]. by rewrite IH, reverse_cons, <- app_assoc. Qed.

Context (table : list R) `{!NofLists table}.

Lemma query_loop_enough fuel n sk cmd sel k : (length table < n + 20 * fuel)%nat -> query_loop (S fuel) n sk cmd sel k = Ret (reverse table) k.
Proof.
  revert n. induction fuel as [|fuel IH]; intros n Hf; cbn [query_loop]; unfold kernel, mbind, M_bind; rewrite ioctl_prefix;
    rewrite decide_False, length_take by lia; case_decide; try lia.
  - rewrite take_ge, fold_left_rev by lia. by rewrite app_nil_r.
  - apply IH. lia.
  - rewrite take_ge, fold_left_rev by lia. by rewrite app_nil_r.
Qed.
End Queries.

(** *** What is asked

    A kernel that hands out its records and can tell what it was asked. *)
Record query : Type := MkQuery { q_socket : Z; q_command : Z; q_selector : selector; q_room : nat }.

Class NofAsked {K R : Type} `{NofTable K R} (table : list R) : Type := {
  asked : K -> list query;
  ioctl_asked sk cmd sel room k : exists k', nof_ioctl sk cmd sel room k = ((0, take room table), k') /\
    asked k' = asked k ++ [MkQuery sk cmd sel room]
}.

Arguments asked {K R _} table {_} k.

(** The rooms asked for: from [start], twenty more as long as the [n] records fill it. *)
Definition rooms (start n : nat) : list nat :=
  (fun i => start + 20 * i)%nat <$> seq 0 (if decide (n < start)%nat then 1 else S (S ((n - start) / 20))).

Lemma rooms_filled start n : (start <= n)%nat -> rooms start n = start :: rooms (start + 20) n.
Proof.
  intros Hn. unfold rooms.
  assert (forall m a, (fun i => start + 20 * i)%nat <$> seq (S a) m = (fun i => start + 20 + 20 * i)%nat <$> seq a m) as Hs.
  { induction m as [|m IH]; intros a; [done|]. cbn [seq fmap list_fmap]. rewrite IH. f_equal. lia. }
  rewrite decide_False by lia. change (seq 0 (S (S ((n - start) / 20)))) with (0%nat :: seq 1 (S ((n - start) / 20))).
  rewrite fmap_cons, Hs, Nat.mul_0_r, Nat.add_0_r. do 3 f_equal. case_decide.
  - by rewrite Nat.div_small by lia.
  - replace (n - start)%nat with (n - (start + 20) + 1 * 20)%nat by lia. rewrite Nat.div_add by lia. lia.
Qed.

Lemma query_loop_asks {K R} `{NofTable K R} (table : list R) `{!NofAsked table} fuel start sk cmd sel k :
  (length (rooms start (length table)) <= fuel)%nat ->
  exists k', query_loop fuel start sk cmd sel k = Ret (reverse table) k' /\
    asked table k' = asked table k ++ (MkQuery sk cmd sel <$> rooms start (length table)).
Proof.
  revert start k. induction fuel as [|fuel IH]; intros start k Hf.
  { exfalso. unfold rooms in Hf. rewrite length_fmap, length_seq in Hf. case_decide; lia. }
  cbn [query_loop]. destruct (ioctl_asked (table := table) sk cmd sel start k) as (k1 & E & Hk1). unfold kernel. unfold mbind at 1, M_bind at 1. rewrite E.
  rewrite decide_False by lia. rewrite length_take. destruct (decide (start <= length table)%nat) as [Hs|Hs].
  - rewrite decide_True by lia. rewrite (rooms_filled start) in Hf |- * by done. destruct (IH (start + 20)%nat k1 ltac:(cbn in Hf; lia)) as (k' & E' & Hk').
    exists k'. split; [done|]. by rewrite Hk', Hk1, <- app_assoc.
  - rewrite decide_False by lia. exists k1. split.
    + rewrite take_ge, fold_left_rev by lia. by rewrite app_nil_r.
    + rewrite Hk1. unfold rooms. rewrite decide_True by lia. cbn. by rewrite Nat.add_0_r.
Qed.


(** Thirty records of a kernel that keeps a list of what it was asked. *)
#[local] Instance table_demo : NofTable (list query) nat := {|
  nof_ioctl sk cmd sel room k := ((0, take room (seq 0 30)), k ++ [MkQuery sk cmd sel room]) |}.
#[local] Instance asked_demo : NofAsked (K := list query) (seq 0 30).
Proof. refine {| asked k := k |}. intros. by eexists. Defined.

