(* ===== verification/Xml.v ===== *)
(** * Configuration trees and their words

    What snaconfig and tn3270d use of libxml's trees, as the interface [Xml], and
    the readers of words both have (snaconfig/sna_xwords.c, tn3270d/tn3270_xwords.c).
    A namespace is the declaration a node refers to.  [None] is undefined
    behaviour: a missing text, a string that does not fit its array, a search past
    the end of a table. *)
From S2P Require Import Prelude SnaUtility.

Class Xml (N : Type) : Type := {
  xml_name : N -> list Z;
  xml_ns : N -> option nat;
  xml_children : N -> list N;
  xmlNodeListGetString : list N -> option (list Z);
  xmlIsBlankNode : N -> bool
}.

(** ** Assignments to members

    [Members] writes a structure out member by member; [assign f x] is the
    structure with the member [f] replaced. *)
Class Members (R : Type) : Type := members : R -> R.
Class Assign {R T : Type} (f : R -> T) : Type := assign : T -> R -> R.
Arguments assign {R T} f {_} x r.

Ltac assign_member :=
  match goal with
  | |- @Assign ?R ?T ?f =>
      let m := eval hnf in (@members R _) in
      let p := eval pattern f in m in
      match p with ?h _ => let g := eval cbv beta in (fun (x : T) => h (fun _ => x)) in exact g end
  end.

#[export] Hint Extern 1 (Assign _) => assign_member : typeclass_instances.

(** A parsed file: its root, and [xmlSearchNsByHref] from there. *)
Record document {N : Type} : Type := MkDocument { root : option N; search_ns : list Z -> option nat }.
Arguments document : clear implicits.
Arguments MkDocument {N} _ _.

(** Trees as libxml builds them from elements and text. *)
Inductive tree : Type :=
  | Element (name : list Z) (ns : option nat) (children : list tree)
  | Text (content : list Z).

Definition text_of (t : tree) : option (list Z) := match t with Text s => Some s | Element _ _ _ => None end.

#[export] Instance tree_xml : Xml tree := {|
  xml_name t := match t with Element n _ _ => n | Text _ => str "text" end;
  xml_ns t := match t with Element _ ns _ => ns | Text _ => None end;
  xml_children t := match t with Element _ _ l => l | Text _ => [] end;
  xmlNodeListGetString l := match omap text_of l with [] => None | s => Some (mjoin s) end;
  xmlIsBlankNode t := match t with Text s => forallb isspace s | Element _ _ _ => false end
|}.

(** ** Words *)

(** The pattern starts with the word. *)
Definition matches (cmd pattern : list Z) : bool :=
  bool_decide (length cmd <= length pattern)%nat && bool_decide (take (length cmd) pattern = cmd).

(** A table ends at an entry without a word. *)
Abbreviation wordmap := (list (option (list Z) * Z)).

Definition on_types : wordmap := [(Some (str "off"), 0); (Some (str "on"), 1); (None, -1)].

Fixpoint map_word (wm : wordmap) (word : list Z) : option Z :=
  match wm with
  | (Some w, v) :: wm => if decide (w = word) then Some v else map_word wm word
  | (None, _) :: _ => Some (-1)
  | [] => None
  end.

Fixpoint xword_pr_word (wm : wordmap) (v : Z) : option (option (list Z)) :=
  match wm with
  | (Some w, x) :: wm => if decide (x = v) then Some (Some w) else xword_pr_word wm v
  | (None, _) :: _ => Some None
  | [] => None
  end.

Definition zeros (n : nat) : list Z := replicate n 0.

(** An array with a string at its start. *)
Definition array (n : nat) (s : list Z) : list Z := s ++ zeros (n - length s).

Lemma store_array n s : (length s < n)%nat -> store 0 (s ++ [0]) (zeros n) = Some (array n s).
Proof.
  intros Hs. unfold zeros, array. replace n with (S (length s) + (n - S (length s)))%nat at 1 by lia. rewrite replicate_add.
  rewrite store_start by (rewrite length_replicate, length_app; cbn; lia).
  rewrite <- app_assoc. replace (n - length s)%nat with (S (n - S (length s))) by lia. done.
Qed.

Lemma array_length n s : (length s <= n)%nat -> length (array n s) = n.
Proof. intros Hs. unfold array, zeros. rewrite length_app, length_replicate. lia. Qed.

Lemma array_string n s : (length s < n)%nat -> no_nul s -> string_at 0 (array n s) = Some s.
Proof.
  intros Hs Hn. unfold array, zeros. replace (n - length s)%nat with (S (n - S (length s))) by lia.
  by apply string_at_start.
Qed.

(** The action for a name. *)
Fixpoint field_of {N R} (fs : list (list Z * (N -> R -> option R))) (n : list Z) : option (N -> R -> option R) :=
  match fs with
  | (p, f) :: fs => if decide (p = n) then Some f else field_of fs n
  | [] => None
  end.

Lemma field_of_elem {N R} (fs : list (list Z * (N -> R -> option R))) n f : field_of fs n = Some f -> (n, f) ∈ fs.
Proof. induction fs as [|[p g] fs IH]; [done|]. cbn. case_decide as Hp; [intros [= ->]; subst; left|intros Hf; right; by apply IH]. Qed.

Section Words.
Context {N : Type} `{Xml N}.

Definition xword_text (cur : N) : option (list Z) := xmlNodeListGetString (xml_children cur).

Definition xword_map (wm : wordmap) (cur : N) : option Z := s ← xword_text cur; map_word wm s.

Definition xword_on_off (cur : N) : option Z := xword_map on_types cur.
(** [atoi]. *)
Definition xword_int (cur : N) : option Z := s ← xword_text cur; Some (strtol 10 s).1.
Definition xword_strcpy (cur : N) (to : list Z) : option (list Z) := s ← xword_text cur; store 0 (s ++ [0]) to.
Definition xword_strcpy_toupper (cur : N) (to : list Z) : option (list Z) := s ← xword_text cur; store 0 (strupr s ++ [0]) to.

(** Actions on a member: assign what is read, or what becomes of the member. *)
Definition put {R T} (read : N -> option T) (f : T -> R -> R) : N -> R -> option R := fun cur r => x ← read cur; Some (f x r).
Definition fill {R T} (read : N -> T -> option T) (g : R -> T) (f : T -> R -> R) : N -> R -> option R := fun cur r => x ← read cur (g r); Some (f x r).

(** The first of the nodes that is not blank, and those behind it. *)
Fixpoint skip_blank_nodes (cs : list N) : list N :=
  match cs with
  | cur :: cs' => if xmlIsBlankNode cur then skip_blank_nodes cs' else cs
  | [] => []
  end.

(** The first of the nodes with the name, in whatever namespace. *)
Fixpoint find_node (name : list Z) (cs : list N) : option N :=
  match cs with
  | cur :: cs => if decide (xml_name cur = name) then Some cur else find_node name cs
  | [] => None
  end.

(** The part of a file that is a program's: below a root of the suite, in whose scope
    the namespace is declared, the first element of the name.  [None] is a file of
    another kind. *)
Definition config_section (href top : list Z) (doc : option (document N)) : option (nat * N) :=
  doc ← doc;
  cur ← root doc;
  ns ← search_ns doc href;
  if decide (xml_name cur <> str "Helping") then None else
  cur ← find_node top (skip_blank_nodes (xml_children cur));
  Some (ns, cur).

(** The elements of a name, behind those there are. *)
Fixpoint collect {T} (ns : nat) (name : list Z) (parse : N -> option T) (cs : list N) (l : list T) : option (list T) :=
  match cs with
  | [] => Some l
  | cur :: cs =>
      if bool_decide (xml_ns cur <> Some ns) then collect ns name parse cs l
      else if decide (xml_name cur = name) then x ← parse cur; collect ns name parse cs (l ++ [x])
      else collect ns name parse cs l
  end.

(** Elements of a name, with other nodes between them. *)
Inductive collects {T} (ns : nat) (name : list Z) (P : T -> N -> Prop) : list N -> list T -> Prop :=
  | collects_nil : collects ns name P [] []
  | collects_other c cs l : xml_ns c <> Some ns \/ xml_name c <> name -> collects ns name P cs l -> collects ns name P (c :: cs) l
  | collects_cons c cs t l : xml_ns c = Some ns -> xml_name c = name -> P t c -> collects ns name P cs l -> collects ns name P (c :: cs) (t :: l).

Lemma collect_read {S T} ns name (P : T -> N -> Prop) (parse : N -> option S) (f : T -> S) cs l l0 :
  (forall t c, P t c -> parse c = Some (f t)) -> collects ns name P cs l -> collect ns name parse cs l0 = Some (l0 ++ (f <$> l)).
Proof.
  intros Hp Hl. revert l0. induction Hl as [|c cs l Hc _ IH|c cs t l Hn Hname Ht _ IH]; intros l0; cbn [collect].
  - by rewrite app_nil_r.
  - rewrite IH. case_bool_decide; [done|]. destruct Hc as [Hc|Hc]; [done|]. by rewrite decide_False.
  - rewrite bool_decide_false by (by intros []). rewrite decide_True, (Hp t c) by done. cbn [mbind option_bind].
    rewrite IH, <- app_assoc. done.
Qed.

Lemma collects_Forall {T} ns name (P : T -> N -> Prop) (Q : T -> Prop) cs l :
  (forall t c, P t c -> Q t) -> collects ns name P cs l -> Forall Q l.
Proof. intros Hq. induction 1; [constructor|done|constructor; [by eapply Hq|done]]. Qed.

(** The document has the part, and in it the nodes. *)
Definition has_section (href name : list Z) (ns : nat) (doc : document N) (cs : list N) : Prop :=
  exists top before node after, root doc = Some top /\ search_ns doc href = Some ns /\ xml_name top = str "Helping" /\
    xml_children top = before ++ node :: after /\ Forall (fun c => xml_name c <> name) before /\
    xml_name node = name /\ xmlIsBlankNode node = false /\ xml_children node = cs.

Lemma find_skipped name (before after : list N) node : Forall (fun c => xml_name c <> name) before -> xml_name node = name ->
  xmlIsBlankNode node = false -> find_node name (skip_blank_nodes (before ++ node :: after)) = Some node.
Proof.
  intros Hb Hn Hk.
  assert (forall l, Forall (fun c => xml_name c <> name) l -> find_node name (l ++ node :: after) = Some node) as Hf.
  { intros l. induction 1 as [|c l Hc _ IH]; cbn [app find_node]; [by rewrite decide_True|by rewrite decide_False]. }
  induction Hb as [|c before Hc Hb IH]; cbn [app skip_blank_nodes].
  - rewrite Hk. by apply (Hf []).
  - destruct (xmlIsBlankNode c); [exact IH|]. apply (Hf (c :: before)). by constructor.
Qed.

Lemma section_found href name ns doc cs : has_section href name ns doc cs -> exists node, config_section href name (Some doc) = Some (ns, node) /\ xml_children node = cs.
Proof.
  intros (top & before & node & after & Hr & Hn & Ht & Hc & Hb & Hname & Hk & Hcs). exists node. split; [|done]. unfold config_section.
  cbn [mbind option_bind]. rewrite Hr. cbn [mbind option_bind]. rewrite Hn. cbn [mbind option_bind]. rewrite decide_False by (intros Hx; by apply Hx).
  by rewrite Hc, find_skipped.
Qed.

(** ** Reading an element *)

(** A condition on an element's name and what is done when it holds, one after the
    other; [test] compares names. *)
Abbreviation fields R := (list (list Z * (N -> R -> option R))).

Fixpoint apply_fields {R} (test : list Z -> list Z -> bool) (fs : fields R) (cur : N) (r : R) : option R :=
  match fs with
  | (pattern, f) :: fs => r ← (if test (xml_name cur) pattern then f cur r else Some r); apply_fields test fs cur r
  | [] => Some r
  end.

(** The loop over the children; with [ns] the others are passed over. *)
Fixpoint parse_children {R} (test : list Z -> list Z -> bool) (ns : option nat) (fs : fields R) (cs : list N) (r : R) : option R :=
  match cs with
  | [] => Some r
  | cur :: cs =>
      r ← (if match ns with Some n => bool_decide (xml_ns cur <> Some n) | None => false end then Some r else apply_fields test fs cur r);
      parse_children test ns fs cs r
  end.

(** ** Elements that are read one for one *)

(** The element's text. *)
Definition says (text : list Z) (cur : N) : Prop := xword_text cur = Some text.

(** The names of a table tell its entries apart. *)
Definition apart {R} (test : list Z -> list Z -> bool) (fs : fields R) : bool :=
  forallb (fun n => bool_decide (length (filter (fun m => test n m) fs.*1) = 1%nat)) fs.*1.

(** An element the table does not know. *)
Definition unknown {R} (test : list Z -> list Z -> bool) (fs : fields R) (cur : N) : Prop := forallb (fun m => negb (test (xml_name cur) m)) fs.*1 = true.

Lemma apply_unknown {R} test (fs : fields R) cur r : unknown test fs cur -> apply_fields test fs cur r = Some r.
Proof.
  unfold unknown. induction fs as [|[p f] fs IH]; intros Hu; [done|]. cbn in Hu |- *. apply andb_prop in Hu as [Hp Hu].
  destruct (test (xml_name cur) p); [done|]. cbn [mbind option_bind]. by apply IH.
Qed.

(** One entry is for it. *)
Lemma apply_known {R} test (fs : fields R) cur p f r : (p, f) ∈ fs -> test (xml_name cur) p = true ->
  length (filter (fun m => test (xml_name cur) m) fs.*1) = 1%nat -> apply_fields test fs cur r = f cur r.
Proof.
  revert r. induction fs as [|[q g] fs IH]; intros r Hin Hp Hl; [by apply elem_of_nil in Hin|]. cbn [fmap list_fmap fst apply_fields] in *.
  destruct (test (xml_name cur) q) eqn:Eq.
  - rewrite filter_cons_True in Hl by (by rewrite Eq). cbn in Hl. assert (unknown test fs cur) as Hu.
    { unfold unknown. apply forallb_forall. intros m Hm%list_elem_of_In. destruct (test (xml_name cur) m) eqn:Em; [|done].
      assert (m ∈ filter (fun m => test (xml_name cur) m) fs.*1) as Hf by (apply list_elem_of_filter; split; [by rewrite Em|done]).
      destruct (filter _ _); [by apply elem_of_nil in Hf|done]. }
    apply elem_of_cons in Hin as [[= -> ->]|Hin]; [|exfalso].
    + destruct (g cur r) as [r'|]; [|done]. cbn [mbind option_bind]. by apply apply_unknown.
    + unfold unknown in Hu. rewrite forallb_forall in Hu. specialize (Hu p). rewrite Hp in Hu. cbn in Hu.
      assert (false = true) as Hc; [|done]. apply Hu, list_elem_of_In, list_elem_of_fmap. by exists (p, f).
  - rewrite filter_cons_False in Hl by (by rewrite Eq; intros []). cbn [mbind option_bind]. apply elem_of_cons in Hin as [[= -> ->]|Hin]; [congruence|by apply IH].
Qed.

(** The children a table knows are, in their order, those of a list, each with its
    name and what it says; there may be others between them. *)
Inductive reads {R} (test : list Z -> list Z -> bool) (ns : nat) (fs : fields R) : list N -> list (list Z * (N -> Prop)) -> Prop :=
  | reads_nil : reads test ns fs [] []
  | reads_skip c cs l : unknown test fs c -> reads test ns fs cs l -> reads test ns fs (c :: cs) l
  | reads_say c cs n (P : N -> Prop) l : xml_name c = n -> xml_ns c = Some ns -> P c -> reads test ns fs cs l ->
      reads test ns fs (c :: cs) ((n, P) :: l).

(** The namespace asked for is theirs, if one is. *)
Definition in_space (ns' : option nat) (ns : nat) : Prop := ns' = None \/ ns' = Some ns.

Lemma parse_skip {R} test ns (fs : fields R) c cs r : unknown test fs c -> parse_children test ns fs (c :: cs) r = parse_children test ns fs cs r.
Proof. intros Hu. cbn [parse_children]. destruct (match ns with Some n => _ | None => false end); [done|]. by rewrite apply_unknown. Qed.

Lemma parse_reads_nil {R} test ns' ns (fs : fields R) cs r : reads test ns fs cs [] -> parse_children test ns' fs cs r = Some r.
Proof. induction cs as [|c cs IH]; intros Hr; [done|]. inversion Hr; subst. rewrite parse_skip by done. by apply IH. Qed.

Lemma apart_one {R} test (fs : fields R) n : apart test fs = true -> n ∈ fs.*1 -> length (filter (fun m => test n m) fs.*1) = 1%nat.
Proof. unfold apart. rewrite forallb_forall. intros Ha Hn. eapply bool_decide_eq_true_1, Ha. by apply list_elem_of_In. Qed.

(** An entry is read. *)
Lemma parse_reads_cons {R} test ns' ns (fs : fields R) cs n P l f : in_space ns' ns -> (forall m, test m m = true) -> apart test fs = true ->
  (n, f) ∈ fs -> reads test ns fs cs ((n, P) :: l) ->
  exists c cs', P c /\ reads test ns fs cs' l /\ forall r, parse_children test ns' fs cs r = (r ← f c r; parse_children test ns' fs cs' r).
Proof.
  intros Hns Ht Ha Hf Hr. remember ((n, P) :: l) as l' eqn:El. induction Hr as [|c cs l' Hu Hr IH|c cs n' P' l' Hn Hc HP Hr _]; [done| |].
  - destruct (IH El) as (c' & cs' & HP & Hr' & E). exists c', cs'. split_and!; [done..|]. intros r. by rewrite parse_skip.
  - injection El as -> -> ->. exists c, cs. split_and!; [done..|]. intros r. cbn [parse_children].
    assert ((if match ns' with Some n0 => bool_decide (xml_ns c <> Some n0) | None => false end then Some r else apply_fields test fs c r) = f c r) as ->; [|done].
    rewrite <- (apply_known test fs c n f r Hf); [|by rewrite Hn|].
    + destruct Hns as [->| ->]; [done|]. rewrite bool_decide_false; [done|]. by intros [].
    + rewrite Hn. apply apart_one; [done|]. apply list_elem_of_fmap. by exists (n, f).
Qed.

(** What a list of entries does to a structure. *)
Inductive runs {R} (fs : list (list Z * (N -> R -> option R))) : list (list Z * (N -> Prop)) -> R -> R -> Prop :=
  | runs_nil r : runs fs [] r r
  | runs_cons n f (P : N -> Prop) l r r1 r' : field_of fs n = Some f -> (forall c, P c -> f c r = Some r1) -> runs fs l r1 r' ->
      runs fs ((n, P) :: l) r r'.

Lemma parse_runs {R} test ns' ns (fs : list (list Z * (N -> R -> option R))) cs l r r' : (forall m, test m m = true) ->
  reads test ns fs cs l -> in_space ns' ns -> apart test fs = true -> runs fs l r r' -> parse_children test ns' fs cs r = Some r'.
Proof.
  intros Ht Hr Hn Ha Hl. revert cs Hr. induction Hl as [r|n f P l r r1 r' Hf HP _ IH]; intros cs Hr; [by apply (parse_reads_nil _ _ _ _ _ _ Hr)|].
  destruct (parse_reads_cons test ns' ns fs cs n P l f Hn Ht Ha (field_of_elem _ _ _ Hf) Hr) as (c & cs' & Hc & Hr' & ->).
  rewrite (HP c Hc). cbn [mbind option_bind]. by apply IH.
Qed.

(** ** What words are read as *)

Definition int_of (s : list Z) : Z := (strtol 10 s).1.
Definition word_of (wm : wordmap) (s : list Z) : Z := default 0 (map_word wm s).
Lemma says_int s c : says s c -> xword_int c = Some (int_of s).
Proof. unfold says, xword_int. by intros ->. Qed.
Lemma says_map wm s c : says s c -> is_Some (map_word wm s) -> xword_map wm c = Some (word_of wm s).
Proof. unfold says, xword_map, word_of. intros -> [v Hv]. cbn [mbind option_bind]. by rewrite Hv. Qed.
Lemma says_strcpy n s c to : says s c -> to = zeros n -> (length s < n)%nat -> xword_strcpy c to = Some (array n s).
Proof. unfold says, xword_strcpy. intros -> -> Hs. by apply store_array. Qed.
Lemma says_strcpy_toupper n s c to : says s c -> to = zeros n -> (length s < n)%nat -> xword_strcpy_toupper c to = Some (array n (strupr s)).
Proof. unfold says, xword_strcpy_toupper. intros -> -> Hs. apply store_array. by rewrite strupr_length. Qed.
End Words.

Lemma matches_refl m : matches m m = true.
Proof. unfold matches. rewrite !bool_decide_true; [done|by rewrite take_ge|lia]. Qed.

(** [strcmp]. *)
Definition equal_names (a b : list Z) : bool := bool_decide (a = b).

Lemma equal_names_refl m : equal_names m m = true.
Proof. by apply bool_decide_true. Qed.

(** The next entry of a list is read with [read], and what became of the structure is
    normalised with [norm]. *)
Ltac entry_by read norm :=
  eapply runs_cons;
  [ reflexivity
  | let c := fresh "c" in let Hc := fresh "Hc" in intros c Hc; cbv beta delta [put fill xword_on_off]; read Hc; norm; reflexivity
  | ].

(** The words every configuration has. *)
Ltac read_common Hc :=
  first
    [ rewrite (says_int _ _ Hc)
    | match goal with |- context [xword_strcpy _ ?to] => rewrite (says_strcpy _ _ _ to Hc eq_refl) by assumption end
    | match goal with |- context [xword_strcpy_toupper _ ?to] => rewrite (says_strcpy_toupper _ _ _ to Hc eq_refl) by assumption end
    | rewrite (says_map _ _ _ Hc) by assumption ].
