(* ===== verification/SnaConfig.v ===== *)
(** * snaconfig/sna_load.c: loading a configuration

    The configuration file becomes a tree, the tree the structures of snaconfig.h,
    and these the requests that define the node.  A structure is allocated cleared;
    its arrays are the lists of their bytes; its lists are lists.  [None] is
    undefined behaviour, as in [Xml].  What [sna_print_config] prints is left out.
    [be] is the byte order of the machine. *)
From S2P Require Import Prelude SnaUtility SnaNof Xml.

Definition MAX_ADDR_LEN : nat := 8.
Definition SNA_PORT_ADDR_LEN : nat := 12.
Definition _PATH_SNACFG_XML_HREF : list Z := str "http://www.linux-sna.org/sna".
Definition _PATH_SNACFG_XML_TOP : list Z := str "node".
Definition _PATH_SNA_DEBUG_LEVEL : list Z := str "/proc/sys/net/sna/debug_level".
Definition _PATH_SNACFG_CONF_MAX : nat := 300.

Definition no_range : range := MkRange 0 0.

(** ** Structures *)

Module CosInfo.
Record cos_info : Type := Mk {
  cos_name : list Z; weight : Z; tx_priority : Z; default_cos_invalid : Z; default_cos_null : Z;
  cost_per_connect : range; cost_per_byte : range; security : range; propagation_delay : range;
  effective_capacity : range; user1 : range; user2 : range; user3 : range; route_resistance : range;
  node_congested : range
}.
#[export] Instance cos_info_members : Members cos_info := fun i =>
  Mk (cos_name i) (weight i) (tx_priority i) (default_cos_invalid i) (default_cos_null i) (cost_per_connect i)
  (cost_per_byte i) (security i) (propagation_delay i) (effective_capacity i) (user1 i) (user2 i) (user3 i)
  (route_resistance i) (node_congested i).
Definition fresh : cos_info :=
  Mk (zeros 9) 0 0 0 0 no_range no_range no_range no_range no_range no_range no_range no_range no_range no_range.
End CosInfo.
Export (hints) CosInfo.

Module CpicInfo.
Record cpic_info : Type := Mk {
  sym_dest_name : list Z; mode_name : list Z; tp_name : list Z; plu_name : list Z
}.
#[export] Instance cpic_info_members : Members cpic_info := fun i =>
  Mk (sym_dest_name i) (mode_name i) (tp_name i) (plu_name i).
Definition fresh : cpic_info :=
  Mk (zeros 9) (zeros 9) (zeros 65) (zeros 18).
End CpicInfo.
Export (hints) CpicInfo.

Module ModeInfo.
Record mode_info : Type := Mk {
  name : list Z; cos_name : list Z; plu_name : list Z; encryption : Z; tx_pacing : Z; rx_pacing : Z; max_tx_ru : Z;
  max_rx_ru : Z; max_sessions : Z; min_conwinners : Z; min_conlosers : Z; auto_activation : Z
}.
#[export] Instance mode_info_members : Members mode_info := fun i =>
  Mk (name i) (cos_name i) (plu_name i) (encryption i) (tx_pacing i) (rx_pacing i) (max_tx_ru i) (max_rx_ru i)
  (max_sessions i) (min_conwinners i) (min_conlosers i) (auto_activation i).
Definition fresh : mode_info :=
  Mk (zeros 9) (zeros 9) (zeros 18) 0 0 0 0 0 0 0 0 0.
End ModeInfo.
Export (hints) ModeInfo.

Module LuInfo.
Record lu_info : Type := Mk {
  use_name : list Z; type : Z; plu_name : list Z; fqcp_name : list Z; name : list Z; syncpoint : Z; lu_sess_limit : Z
}.
#[export] Instance lu_info_members : Members lu_info := fun i =>
  Mk (use_name i) (type i) (plu_name i) (fqcp_name i) (name i) (syncpoint i) (lu_sess_limit i).
Definition fresh : lu_info :=
  Mk (zeros 40) 0 (zeros 18) (zeros 18) (zeros 9) 0 0.
End LuInfo.
Export (hints) LuInfo.

Module LinkInfo.
Record link_info : Type := Mk {
  use_name : list Z; interface : list Z; port : list Z; plu_name : list Z; plu_node_id : Z; dstaddr : list Z;
  dstport : list Z; role : Z; direction : Z; byteswap : Z; retry_on_fail : Z; retry_times : Z; autoact : Z;
  autodeact : Z; tg_number : Z; cost_per_byte : Z; cost_per_connect_time : Z; effective_capacity : Z;
  propagation_delay : Z; security : Z; user1 : Z; user2 : Z; user3 : Z
}.
#[export] Instance link_info_members : Members link_info := fun i =>
  Mk (use_name i) (interface i) (port i) (plu_name i) (plu_node_id i) (dstaddr i) (dstport i) (role i) (direction i)
  (byteswap i) (retry_on_fail i) (retry_times i) (autoact i) (autodeact i) (tg_number i) (cost_per_byte i)
  (cost_per_connect_time i) (effective_capacity i) (propagation_delay i) (security i) (user1 i) (user2 i) (user3 i).
Definition fresh : link_info :=
  Mk (zeros 40) (zeros 9) (zeros 9) (zeros 18) 0 (zeros 8) (zeros 8) 0 0 0 0 0 0 0 0 0 0 0 0 0 0 0 0.
End LinkInfo.
Export (hints) LinkInfo.

Module DlcInfo.
Record dlc_info : Type := Mk {
  use_name : list Z; interface : list Z; port : list Z; btu : Z; mia : Z; moa : Z
}.
#[export] Instance dlc_info_members : Members dlc_info := fun i =>
  Mk (use_name i) (interface i) (port i) (btu i) (mia i) (moa i).
Definition fresh : dlc_info :=
  Mk (zeros 40) (zeros 9) (zeros 9) 0 0 0.
End DlcInfo.
Export (hints) DlcInfo.

Module GlobalInfo.
Record global_info : Type := Mk {
  node_name : list Z; node_id : Z; node_type : Z; debug_level : list Z; max_lus : Z; lu_seg : Z; bind_seg : Z;
  dlc_list : list DlcInfo.dlc_info; link_list : list LinkInfo.link_info; lu_list : list LuInfo.lu_info;
  mode_list : list ModeInfo.mode_info; cpic_list : list CpicInfo.cpic_info; cos_list : list CosInfo.cos_info
}.
#[export] Instance global_info_members : Members global_info := fun i =>
  Mk (node_name i) (node_id i) (node_type i) (debug_level i) (max_lus i) (lu_seg i) (bind_seg i) (dlc_list i)
  (link_list i) (lu_list i) (mode_list i) (cpic_list i) (cos_list i).
Definition fresh : global_info :=
  Mk (zeros 18) 0 0 (zeros 8) 0 0 0 [] [] [] [] [] [].
End GlobalInfo.
Export (hints) GlobalInfo.

(** ** Words *)

Definition security_types : wordmap := [(Some (str "none"), 0)].
Definition lu_types : wordmap := [(Some (str "local"), 0); (Some (str "remote"), 1)].
Definition tx_types : wordmap := [(Some (str "low"), 0); (Some (str "medium"), 1); (Some (str "high"), 2); (Some (str "network"), 3); (None, -1)].
Definition node_types : wordmap := [(Some (str "nn"), 3); (Some (str "appn"), 2); (Some (str "len"), 1)].
Definition role_types : wordmap := [(Some (str "neg"), 3); (Some (str "pri"), 1); (Some (str "sec"), 0)].
Definition direction_types : wordmap := [(Some (str "in"), 1); (Some (str "out"), 2); (Some (str "both"), 0)].

Section Load.
Context (be : bool) {N : Type} `{Xml N}.

Definition xword_direction_types (cur : N) : option Z := xword_map direction_types cur.
Definition xword_role_types (cur : N) : option Z := xword_map role_types cur.
Definition xword_node_types (cur : N) : option Z := xword_map node_types cur.
Definition xword_tx_types (cur : N) : option Z := xword_map tx_types cur.
Definition xword_lu_types (cur : N) : option Z := xword_map lu_types cur.
Definition xword_security (cur : N) : option Z := xword_map security_types cur.

Definition xword_lsap (cur : N) : option Z := s ← xword_text cur; Some (u8 (strtol 0 s).1).
Definition xword_netid (cur : N) : option (list Z) := s ← xword_text cur; sna_char_to_netid s.
Definition xword_nodeid (cur : N) : option Z := s ← xword_text cur; sna_char_to_nodeid s.

(** The bytes before a wrong digit stay. *)
Definition xword_mac_address (cur : N) (mac : list Z) : option (list Z) :=
  s ← xword_text cur; store 0 (sna_char_to_ether s).2 mac.

#[local] Instance range_members : Members range := fun r => MkRange (least r) (most r).

Definition min_max_fields : list (list Z * (N -> range -> option range)) :=
  [(str "min", put xword_int (assign least)); (str "max", put xword_int (assign most))].

Definition xword_min_max (ns : nat) (cur : N) (r : range) : option range := parse_children matches (Some ns) min_max_fields (xml_children cur) r.

(** [*] the pair of ranges of a cost: per connection, per byte. *)
Definition cost_fields (ns : nat) : list (list Z * (N -> range * range -> option (range * range))) :=
  [(str "connect", fill (xword_min_max ns) fst (fun x r => (x, r.2))); (str "byte", fill (xword_min_max ns) snd (fun x r => (r.1, x)))].

Definition xword_cost (ns : nat) (cur : N) (r : range * range) : option (range * range) :=
  parse_children matches (Some ns) (cost_fields ns) (xml_children cur) r.

(** ** The elements of a node *)

(** The first byte of a member. *)
Definition set_first (v : Z) (m : list Z) : list Z := <[O := v]> m.

Definition cos_fields (ns : nat) : list (list Z * (N -> CosInfo.cos_info -> option CosInfo.cos_info)) :=
  [(str "name", fill xword_strcpy_toupper CosInfo.cos_name (assign CosInfo.cos_name));
   (str "weight", put xword_int (assign CosInfo.weight));
   (str "tx_priority", put xword_tx_types (assign CosInfo.tx_priority));
   (str "default_cos_invalid", put xword_on_off (assign CosInfo.default_cos_invalid));
   (str "default_cos_null", put xword_on_off (assign CosInfo.default_cos_null));
   (str "cost", fill (xword_cost ns) (fun c => (CosInfo.cost_per_connect c, CosInfo.cost_per_byte c))
      (fun x c => assign CosInfo.cost_per_connect x.1 (assign CosInfo.cost_per_byte x.2 c)));
   (str "security", fill (xword_min_max ns) CosInfo.security (assign CosInfo.security));
   (str "propagation_delay", fill (xword_min_max ns) CosInfo.propagation_delay (assign CosInfo.propagation_delay));
   (str "effective_capacity", fill (xword_min_max ns) CosInfo.effective_capacity (assign CosInfo.effective_capacity));
   (str "route_resistance", fill (xword_min_max ns) CosInfo.route_resistance (assign CosInfo.route_resistance));
   (str "node_congested", fill (xword_min_max ns) CosInfo.node_congested (assign CosInfo.node_congested));
   (str "user1", fill (xword_min_max ns) CosInfo.user1 (assign CosInfo.user1));
   (str "user2", fill (xword_min_max ns) CosInfo.user2 (assign CosInfo.user2));
   (str "user3", fill (xword_min_max ns) CosInfo.user3 (assign CosInfo.user3))].

Definition sna_parse_cos (ns : nat) (cur : N) : option CosInfo.cos_info :=
  parse_children matches None (cos_fields ns) (xml_children cur) CosInfo.fresh.

Definition cpic_fields : list (list Z * (N -> CpicInfo.cpic_info -> option CpicInfo.cpic_info)) :=
  [(str "sym_dest_name", fill xword_strcpy_toupper CpicInfo.sym_dest_name (assign CpicInfo.sym_dest_name));
   (str "mode_name", fill xword_strcpy_toupper CpicInfo.mode_name (assign CpicInfo.mode_name));
   (str "plu_name", put xword_netid (assign CpicInfo.plu_name));
   (str "tp_name", fill xword_strcpy CpicInfo.tp_name (assign CpicInfo.tp_name))].

Definition sna_parse_cpic (cur : N) : option CpicInfo.cpic_info :=
  parse_children matches None cpic_fields (xml_children cur) CpicInfo.fresh.

Definition mode_fields : list (list Z * (N -> ModeInfo.mode_info -> option ModeInfo.mode_info)) :=
  [(str "name", fill xword_strcpy_toupper ModeInfo.name (assign ModeInfo.name));
   (str "cos_name", fill xword_strcpy_toupper ModeInfo.cos_name (assign ModeInfo.cos_name));
   (str "plu_name", put xword_netid (assign ModeInfo.plu_name));
   (str "encryption", put xword_on_off (assign ModeInfo.encryption));
   (str "tx_pacing", put xword_int (assign ModeInfo.tx_pacing));
   (str "rx_pacing", put xword_int (assign ModeInfo.rx_pacing));
   (str "max_tx_ru", put xword_int (assign ModeInfo.max_tx_ru));
   (str "max_rx_ru", put xword_int (assign ModeInfo.max_rx_ru));
   (str "min_conwinners", put xword_int (assign ModeInfo.min_conwinners));
   (str "min_conlosers", put xword_int (assign ModeInfo.min_conlosers));
   (str "max_sessions", put xword_int (assign ModeInfo.max_sessions));
   (str "auto_activation", put xword_on_off (assign ModeInfo.auto_activation))].

Definition sna_parse_mode (cur : N) : option ModeInfo.mode_info :=
  parse_children matches None mode_fields (xml_children cur) ModeInfo.fresh.

Definition lu_fields : list (list Z * (N -> LuInfo.lu_info -> option LuInfo.lu_info)) :=
  [(str "use_name", fill xword_strcpy LuInfo.use_name (assign LuInfo.use_name));
   (str "where", put xword_lu_types (assign LuInfo.type));
   (str "syncpoint", put xword_on_off (assign LuInfo.syncpoint));
   (str "lu_sess_limit", put xword_int (assign LuInfo.lu_sess_limit));
   (str "plu_name", put xword_netid (assign LuInfo.plu_name));
   (str "fqcp_name", put xword_netid (assign LuInfo.fqcp_name))].

Definition sna_parse_lu (cur : N) : option LuInfo.lu_info :=
  parse_children matches None lu_fields (xml_children cur) LuInfo.fresh.

Definition link_fields : list (list Z * (N -> LinkInfo.link_info -> option LinkInfo.link_info)) :=
  [(str "use_name", fill xword_strcpy LinkInfo.use_name (assign LinkInfo.use_name));
   (str "role", put xword_role_types (assign LinkInfo.role));
   (str "direction", put xword_direction_types (assign LinkInfo.direction));
   (str "iface", fill xword_strcpy LinkInfo.interface (assign LinkInfo.interface));
   (str "port", put xword_lsap (fun v l => assign LinkInfo.port (set_first v (LinkInfo.port l)) l));
   (str "byteswap", put xword_on_off (assign LinkInfo.byteswap));
   (str "dstaddr", fill xword_mac_address LinkInfo.dstaddr (assign LinkInfo.dstaddr));
   (str "dstport", put xword_lsap (fun v l => assign LinkInfo.dstport (set_first v (LinkInfo.dstport l)) l));
   (str "plu_name", put xword_netid (assign LinkInfo.plu_name));
   (str "plu_node_id", put xword_nodeid (assign LinkInfo.plu_node_id));
   (str "retry_on_fail", put xword_on_off (assign LinkInfo.retry_on_fail));
   (str "retry_times", put xword_int (assign LinkInfo.retry_times));
   (str "autoact", put xword_on_off (assign LinkInfo.autoact));
   (str "tg_number", put xword_int (assign LinkInfo.tg_number));
   (str "cost_per_byte", put xword_int (assign LinkInfo.cost_per_byte));
   (str "cost_per_connect_time", put xword_int (assign LinkInfo.cost_per_connect_time));
   (str "effective_capacity", put xword_int (assign LinkInfo.effective_capacity));
   (str "propagation_delay", put xword_int (assign LinkInfo.propagation_delay));
   (str "security", put xword_security (assign LinkInfo.security));
   (str "user1", put xword_int (assign LinkInfo.user1));
   (str "user2", put xword_int (assign LinkInfo.user2));
   (str "user3", put xword_int (assign LinkInfo.user3))].

Definition sna_parse_link (ns : nat) (cur : N) : option LinkInfo.link_info :=
  parse_children matches (Some ns) link_fields (xml_children cur) LinkInfo.fresh.

Definition dlc_fields : list (list Z * (N -> DlcInfo.dlc_info -> option DlcInfo.dlc_info)) :=
  [(str "use_name", fill xword_strcpy DlcInfo.use_name (assign DlcInfo.use_name));
   (str "iface", fill xword_strcpy DlcInfo.interface (assign DlcInfo.interface));
   (str "port", put xword_lsap (fun v d => assign DlcInfo.port (set_first v (DlcInfo.port d)) d));
   (str "btu", put xword_int (assign DlcInfo.btu));
   (str "mia", put xword_int (assign DlcInfo.mia));
   (str "moa", put xword_int (assign DlcInfo.moa))].

Definition sna_parse_dlc (ns : nat) (cur : N) : option DlcInfo.dlc_info :=
  parse_children matches (Some ns) dlc_fields (xml_children cur) DlcInfo.fresh.

Definition global_fields : list (list Z * (N -> GlobalInfo.global_info -> option GlobalInfo.global_info)) :=
  [(str "debuglevel", fill xword_strcpy GlobalInfo.debug_level (assign GlobalInfo.debug_level));
   (str "node_name", put xword_netid (assign GlobalInfo.node_name));
   (str "node_type", put xword_node_types (assign GlobalInfo.node_type));
   (str "node_id", put xword_nodeid (assign GlobalInfo.node_id));
   (str "max_lus", put xword_int (assign GlobalInfo.max_lus));
   (str "lu_seg", put xword_int (assign GlobalInfo.lu_seg));
   (str "bind_seg", put xword_int (assign GlobalInfo.bind_seg))].

Definition sna_parse_global (ns : nat) (cur : N) : option GlobalInfo.global_info :=
  parse_children matches (Some ns) global_fields (xml_children cur) GlobalInfo.fresh.

(** ** The file *)

(** A turn of the loop over the children of the node.  [ginfo] is not initialised:
    it is unassigned before a [global], and looked at by every other element. *)
Definition add_element (ns : nat) (cur : N) (ginfo : option GlobalInfo.global_info) : option (option GlobalInfo.global_info) :=
  let add {T} (parsed : option T) (f : GlobalInfo.global_info -> list T) (g : list T -> GlobalInfo.global_info -> GlobalInfo.global_info) :=
    x ← parsed; i ← ginfo; Some (Some (g (f i ++ [x]) i)) in
  if bool_decide (xml_ns cur <> Some ns) then Some ginfo
  else if decide (xml_name cur = str "global") then i ← sna_parse_global ns cur; Some (Some i)
  else if decide (xml_name cur = str "dlc") then add (sna_parse_dlc ns cur) GlobalInfo.dlc_list (assign GlobalInfo.dlc_list)
  else if decide (xml_name cur = str "link") then add (sna_parse_link ns cur) GlobalInfo.link_list (assign GlobalInfo.link_list)
  else if decide (xml_name cur = str "lu") then add (sna_parse_lu cur) GlobalInfo.lu_list (assign GlobalInfo.lu_list)
  else if decide (xml_name cur = str "cos") then add (sna_parse_cos ns cur) GlobalInfo.cos_list (assign GlobalInfo.cos_list)
  else if decide (xml_name cur = str "mode") then add (sna_parse_mode cur) GlobalInfo.mode_list (assign GlobalInfo.mode_list)
  else if decide (xml_name cur = str "cpic") then add (sna_parse_cpic cur) GlobalInfo.cpic_list (assign GlobalInfo.cpic_list)
  else Some ginfo.

Fixpoint add_elements (ns : nat) (cs : list N) (ginfo : option GlobalInfo.global_info) : option (option GlobalInfo.global_info) :=
  match cs with
  | [] => Some ginfo
  | cur :: cs => g ← add_element ns cur ginfo; add_elements ns cs g
  end.

(** The result and [sna_config_info]; the file is not there or cannot be parsed when
    there is no document. *)
Definition sna_read_config_file (doc : option (document N)) : option (Z * option GlobalInfo.global_info) :=
  match doc with
  | None => Some (-1, None)
  | Some doc =>
      match root doc with
      | None => Some (-1, None)
      | Some cur =>
          match search_ns doc _PATH_SNACFG_XML_HREF with
          | None => Some (-1, None)
          | Some ns =>
              if decide (xml_name cur <> str "Helping") then Some (-1, None) else
              match skip_blank_nodes (xml_children cur) with
              | [] => Some (-1, None)
              | cur :: _ =>
                  if bool_decide (xml_name cur <> _PATH_SNACFG_XML_TOP \/ xml_ns cur <> Some ns) then Some (-1, None) else
                  g ← add_elements ns (xml_children cur) None;
                  i ← g;
                  Some (0, Some i)
              end
          end
      end
  end.

(** ** The requests of a configuration *)

Definition node_of (g : GlobalInfo.global_info) : Node.sna_nof_node :=
  Node.Mk (GlobalInfo.node_name g) (GlobalInfo.node_id g) (u8 (GlobalInfo.node_type g)) (u16 (GlobalInfo.lu_seg g))
    (u16 (GlobalInfo.bind_seg g)) (u32 (GlobalInfo.max_lus g)).

Definition port_of (g : GlobalInfo.global_info) (d : DlcInfo.dlc_info) : Port.sna_nof_port :=
  Port.Mk (DlcInfo.use_name d) (GlobalInfo.node_name g) (DlcInfo.interface d) (DlcInfo.port d ++ zeros 3)
    (u32 (DlcInfo.btu d)) (u32 (DlcInfo.mia d)) (u32 (DlcInfo.moa d)).

(** The first byte of an [int]. *)
Definition first_byte (v : Z) : Z := if be then u8 (Z.shiftr v 24) else u8 v.

(** [dname] has seven bytes, so the last of the eight of [dstaddr] is stored in
    [daddr], and then overwritten; nine bytes are taken of the eight of [dstport],
    whose next is the first byte of [role]. *)
Definition ls_of (g : GlobalInfo.global_info) (l : LinkInfo.link_info) : option Ls.sna_nof_ls :=
  name ← string_at 0 (LinkInfo.interface l);
  name ← store 0 (name ++ [0]) (zeros 9);
  addrs ← store 0 (LinkInfo.dstaddr l) (zeros (7 + SNA_PORT_ADDR_LEN));
  addrs ← store 7 (LinkInfo.dstport l ++ [first_byte (LinkInfo.role l)]) addrs;
  Some (Ls.Mk (LinkInfo.use_name l) (GlobalInfo.node_name g) name (LinkInfo.port l ++ zeros 3)
    (LinkInfo.plu_name l) (LinkInfo.plu_node_id l) (take 7 addrs) (drop 7 addrs)
    (LinkInfo.role l) (LinkInfo.direction l) (LinkInfo.byteswap l) (LinkInfo.retry_on_fail l) (LinkInfo.retry_times l)
    (LinkInfo.autoact l) 0 (LinkInfo.tg_number l) (LinkInfo.cost_per_byte l) (LinkInfo.cost_per_connect_time l)
    (LinkInfo.effective_capacity l) (LinkInfo.propagation_delay l) (LinkInfo.security l) (LinkInfo.user1 l)
    (LinkInfo.user2 l) (LinkInfo.user3 l)).

Definition range16 (r : range) : range := MkRange (u16 (least r)) (u16 (most r)).

Definition cos_of (c : CosInfo.cos_info) : Cos.sna_nof_cos :=
  Cos.Mk (CosInfo.cos_name c) (u16 (CosInfo.weight c)) (u16 (CosInfo.tx_priority c)) (u8 (CosInfo.default_cos_invalid c))
    (u8 (CosInfo.default_cos_null c)) (range16 (CosInfo.cost_per_connect c)) (range16 (CosInfo.cost_per_byte c))
    (range16 (CosInfo.security c)) (range16 (CosInfo.propagation_delay c)) (range16 (CosInfo.effective_capacity c))
    (range16 (CosInfo.user1 c)) (range16 (CosInfo.user2 c)) (range16 (CosInfo.user3 c))
    (range16 (CosInfo.route_resistance c)) (range16 (CosInfo.node_congested c)).

Definition mode_of (g : GlobalInfo.global_info) (m : ModeInfo.mode_info) : Mode.sna_nof_mode :=
  Mode.Mk (GlobalInfo.node_name g) (ModeInfo.plu_name m) (ModeInfo.name m) (ModeInfo.cos_name m) (u32 (ModeInfo.tx_pacing m))
    (u32 (ModeInfo.rx_pacing m)) (u32 (ModeInfo.max_tx_ru m)) (u32 (ModeInfo.max_rx_ru m)) (u8 (ModeInfo.encryption m))
    (u32 (ModeInfo.min_conwinners m)) (u32 (ModeInfo.min_conlosers m)) (u32 (ModeInfo.max_sessions m)) (u8 (ModeInfo.auto_activation m)).

Definition remote_lu_of (g : GlobalInfo.global_info) (l : LuInfo.lu_info) : RemoteLu.sna_nof_remote_lu :=
  RemoteLu.Mk (LuInfo.use_name l) (GlobalInfo.node_name g) (LuInfo.plu_name l) (LuInfo.fqcp_name l).

Definition local_lu_of (g : GlobalInfo.global_info) (l : LuInfo.lu_info) : LocalLu.sna_nof_local_lu :=
  LocalLu.Mk (LuInfo.use_name l) (GlobalInfo.node_name g) (LuInfo.name l) (u8 (LuInfo.syncpoint l)) (u32 (LuInfo.lu_sess_limit l)).

(** A string of the kernel's array of [size] bytes. *)
Definition copied_string (size : nat) (from : list Z) : option (list Z) := s ← string_at 0 from; store 0 (s ++ [0]) (zeros size).

Definition side_info_of (g : GlobalInfo.global_info) (c : CpicInfo.cpic_info) : option SideInfo.sna_nof_cpic :=
  sym_dest_name ← copied_string 9 (CpicInfo.sym_dest_name c);
  mode_name ← copied_string 9 (CpicInfo.mode_name c);
  tp_name ← copied_string 64 (CpicInfo.tp_name c);
  Some (SideInfo.Mk (GlobalInfo.node_name g) (CpicInfo.plu_name c) sym_dest_name mode_name tp_name).

(** ** Executing it *)

Context {K : Type} `{Nof K} (proc_write : list Z -> list Z -> K -> bool * K).

(** A loop of requests, which returns at the first that fails. *)
Fixpoint define_all {A} (f : A -> M K Z) (l : list A) : M K Z :=
  match l with
  | [] => mret 0
  | a :: l => err ← f a; if decide (err < 0) then mret err else define_all f l
  end.

Definition define_lu (sk : Z) (g : GlobalInfo.global_info) (l : LuInfo.lu_info) : M K Z :=
  if decide (LuInfo.type l <> 0) then nof_define_partner_lu sk (remote_lu_of g l) else nof_define_local_lu sk (local_lu_of g l).

Definition sna_execute_config_info (sk : Z) (g : GlobalInfo.global_info) : M K Z :=
  level ← of_opt (string_at 0 (GlobalInfo.debug_level g));
  ok ← kernel (proc_write _PATH_SNA_DEBUG_LEVEL level);
  if negb ok then mret (-1) else
  err ← nof_define_node sk (node_of g);
  if decide (err < 0) then mret err else
  err ← define_all (fun d => nof_define_port sk (port_of g d)) (GlobalInfo.dlc_list g);
  if decide (err < 0) then mret err else
  err ← define_all (fun l => p ← of_opt (ls_of g l); nof_define_link_station sk p) (GlobalInfo.link_list g);
  if decide (err < 0) then mret err else
  err ← define_all (fun c => nof_define_class_of_service sk (cos_of c)) (GlobalInfo.cos_list g);
  if decide (err < 0) then mret err else
  err ← define_all (fun m => nof_define_mode sk (mode_of g m)) (GlobalInfo.mode_list g);
  if decide (err < 0) then mret err else
  err ← define_all (define_lu sk g) (GlobalInfo.lu_list g);
  if decide (err < 0) then mret err else
  define_all (fun c => p ← of_opt (side_info_of g c); nof_define_cpic_side_info sk p) (GlobalInfo.cpic_list g).

Definition sna_nof_connect : M K Z := kernel (nof_socket AF_SNA SOCK_DGRAM).
Definition sna_nof_disconnect (sk : Z) : M K Z := kernel (nof_close sk).

Definition sna_load_help {A} : M K A := c_exit 1.

(** [xmlParseFile] of the path. *)
Definition sna_load (xmlParseFile : list Z -> option (document N)) (argv : list (list Z)) : M K Z :=
  match argv with
  | [path] =>
      if decide (_PATH_SNACFG_CONF_MAX <= length path)%nat then c_exit 1 else
      '(err, config) ← of_opt (sna_read_config_file (xmlParseFile path));
      if decide (err < 0) then mret err else
      g ← of_opt config;
      sk ← sna_nof_connect;
      if decide (sk < 0) then mret sk else
      err ← sna_execute_config_info sk g;
      sna_nof_disconnect sk;;
      mret err
  | _ => sna_load_help
  end.

Definition sna_reload (argv : list (list Z)) : M K Z := mret 0.
Definition sna_unload (argv : list (list Z)) : M K Z := mret 0.
End Load.
