(* ===== verification/SnaLoad.v ===== *)
(** * What loading a configuration defines

    A configuration as a person writes it, the requests it stands for, and that
    loading the file makes just these requests, in their order. *)
From S2P Require Import Prelude SnaUtility SnaNof Xml SnaConfig.

(** ** Reading an entry *)

Section Entries.
Context {N : Type} `{Xml N}.

(** *** Words *)

Definition lsap_of (s : list Z) : Z := u8 (strtol 0 s).1.

Lemma says_lsap s c : says s c -> xword_lsap c = Some (lsap_of s).
Proof. unfold says, xword_lsap. by intros ->. Qed.
Lemma says_nodeid s c : says s c -> (length s < 40)%nat -> xword_nodeid c = Some (u32 (strtol 16 s).1).
Proof. unfold says, xword_nodeid, sna_char_to_nodeid. intros -> Hs. cbn [mbind option_bind]. by rewrite decide_True. Qed.

(** A network identifier is written as its two names with a point between them. *)
Definition netid_ok (n : list Z * list Z) : Prop := n.1 <> [] /\ 46 ∉ n.1 /\ plain n.1 /\ plain n.2.
Definition netid_text (n : list Z * list Z) : list Z := n.1 ++ 46 :: n.2.

Lemma says_netid n c : says (netid_text n) c -> netid_ok n -> xword_netid c = Some (netid_of n.1 n.2).
Proof. unfold says, xword_netid. intros -> (Hne & Hp & Ha & Hb). by apply char_to_netid. Qed.

(** Six bytes. *)
Definition mac_ok (m s : list Z) : Prop := mac_text m s /\ length m = 6%nat.

Lemma says_mac m s c to : says s c -> to = zeros 8 -> mac_ok m s -> xword_mac_address c to = Some (m ++ [0; 0]).
Proof.
  unfold says, xword_mac_address, sna_char_to_ether. intros -> -> [Hm Hl]. cbn [mbind option_bind].
  rewrite (ether_loop_text m) by done. cbn [snd]. rewrite take_ge by (unfold ETH_ALEN; lia).
  change (zeros 8) with (zeros 6 ++ [0; 0]). by rewrite store_start.
Qed.

(** *** Ranges *)

Definition range_text : Type := list Z * list Z.
Definition range_of (t : range_text) : range := MkRange (int_of t.1) (int_of t.2).

Definition says_range (ns : nat) (t : range_text) (c : N) : Prop :=
  reads matches ns min_max_fields (xml_children c) [(str "min", says t.1); (str "max", says t.2)].


Lemma range_read ns t c r : says_range ns t c -> xword_min_max ns c r = Some (range_of t).
Proof.
  intros Hr. eapply parse_runs; [exact matches_refl|exact Hr|by right|reflexivity|].
  eapply runs_cons; [reflexivity|intros c1 H1; unfold put; rewrite (says_int _ _ H1); reflexivity|].
  eapply runs_cons; [reflexivity|intros c1 H1; unfold put; rewrite (says_int _ _ H1); reflexivity|]. constructor.
Qed.

(** The ranges of a cost: per connection and per byte. *)
Definition says_cost (ns : nat) (t : range_text * range_text) (c : N) : Prop :=
  reads matches ns (cost_fields ns) (xml_children c) [(str "connect", says_range ns t.1); (str "byte", says_range ns t.2)].

Lemma cost_read ns t c r : says_cost ns t c -> xword_cost ns c r = Some (range_of t.1, range_of t.2).
Proof.
  intros Hr. eapply parse_runs; [exact matches_refl|exact Hr|by right|reflexivity|].
  eapply runs_cons; [reflexivity|intros c1 H1; unfold fill; rewrite (range_read _ _ _ _ H1); reflexivity|].
  eapply runs_cons; [reflexivity|intros c1 H1; unfold fill; rewrite (range_read _ _ _ _ H1); reflexivity|]. constructor.
Qed.
End Entries.

(** The next entry of an element: what its text says is read, and the rest is left. *)
Ltac read_word Hc :=
  cbv beta delta [xword_role_types xword_direction_types xword_node_types xword_tx_types xword_lu_types xword_security];
  first
    [ read_common Hc
    | rewrite (says_lsap _ _ Hc)
    | rewrite (says_netid _ _ Hc) by assumption
    | rewrite (says_nodeid _ _ Hc) by assumption
    | match goal with |- context [xword_mac_address _ ?to] => erewrite (says_mac _ _ _ to Hc eq_refl) by eassumption end
    | rewrite (range_read _ _ _ _ Hc)
    | rewrite (cost_read _ _ _ _ Hc) ].

Ltac entry := entry_by ltac:(fun Hc => read_word Hc) ltac:(cbn -[zeros array netid_of lsap_of int_of word_of strtol set_first range_of]).

Ltac entries := repeat entry; constructor.

(** ** The elements *)

Section Elements.
Context {N : Type} `{Xml N} (ns : nat).

(** *** Data link controls *)

Record dlc_text : Type := MkDlc { d_use_name : list Z; d_iface : list Z; d_port : list Z; d_btu : list Z; d_mia : list Z; d_moa : list Z }.

Definition dlc_says (t : dlc_text) (c : N) : Prop :=
  reads matches ns dlc_fields (xml_children c)
    [(str "use_name", says (d_use_name t)); (str "iface", says (d_iface t)); (str "port", says (d_port t));
     (str "btu", says (d_btu t)); (str "mia", says (d_mia t)); (str "moa", says (d_moa t))].

Definition dlc_ok (t : dlc_text) : Prop := (length (d_use_name t) < 40)%nat /\ (length (d_iface t) < 9)%nat.

Definition dlc_info_of (t : dlc_text) : DlcInfo.dlc_info :=
  DlcInfo.Mk (array 40 (d_use_name t)) (array 9 (d_iface t)) (lsap_of (d_port t) :: zeros 8) (int_of (d_btu t)) (int_of (d_mia t)) (int_of (d_moa t)).

Lemma dlc_read t c : dlc_says t c -> dlc_ok t -> sna_parse_dlc ns c = Some (dlc_info_of t).
Proof. intros Hr [? ?]. eapply parse_runs; [exact matches_refl|exact Hr|by right|by vm_compute|]. entries. Qed.

(** *** Link stations *)

Record link_text : Type := MkLink {
  l_use_name : list Z; l_role : list Z; l_direction : list Z; l_iface : list Z; l_port : list Z; l_plu_name : list Z * list Z;
  l_plu_node_id : list Z; l_dstaddr : list Z; l_dstport : list Z; l_retry_on_fail : list Z; l_retry_times : list Z;
  l_byteswap : list Z; l_autoact : list Z; l_tg_number : list Z; l_cost_per_byte : list Z; l_cost_per_connect_time : list Z;
  l_effective_capacity : list Z; l_propagation_delay : list Z; l_security : list Z; l_user1 : list Z; l_user2 : list Z; l_user3 : list Z;
  l_mac : list Z   (** the bytes [l_dstaddr] writes *)
}.

Definition link_says (t : link_text) (c : N) : Prop :=
  reads matches ns link_fields (xml_children c)
    [(str "use_name", says (l_use_name t)); (str "role", says (l_role t)); (str "direction", says (l_direction t));
     (str "iface", says (l_iface t)); (str "port", says (l_port t)); (str "plu_name", says (netid_text (l_plu_name t)));
     (str "plu_node_id", says (l_plu_node_id t)); (str "dstaddr", says (l_dstaddr t)); (str "dstport", says (l_dstport t));
     (str "retry_on_fail", says (l_retry_on_fail t)); (str "retry_times", says (l_retry_times t)); (str "byteswap", says (l_byteswap t));
     (str "autoact", says (l_autoact t)); (str "tg_number", says (l_tg_number t)); (str "cost_per_byte", says (l_cost_per_byte t));
     (str "cost_per_connect_time", says (l_cost_per_connect_time t)); (str "effective_capacity", says (l_effective_capacity t));
     (str "propagation_delay", says (l_propagation_delay t)); (str "security", says (l_security t)); (str "user1", says (l_user1 t));
     (str "user2", says (l_user2 t)); (str "user3", says (l_user3 t))].

Definition link_ok (t : link_text) : Prop :=
  (length (l_use_name t) < 40)%nat /\ (length (l_iface t) < 9)%nat /\ no_nul (l_iface t) /\ netid_ok (l_plu_name t) /\
  (length (l_plu_node_id t) < 40)%nat /\ mac_ok (l_mac t) (l_dstaddr t) /\ is_Some (map_word role_types (l_role t)) /\
  is_Some (map_word direction_types (l_direction t)) /\ is_Some (map_word security_types (l_security t)) /\
  is_Some (map_word on_types (l_retry_on_fail t)) /\ is_Some (map_word on_types (l_byteswap t)) /\ is_Some (map_word on_types (l_autoact t)).

Definition link_info_of (t : link_text) : LinkInfo.link_info :=
  LinkInfo.Mk (array 40 (l_use_name t)) (array 9 (l_iface t)) (lsap_of (l_port t) :: zeros 8) (netid_of (l_plu_name t).1 (l_plu_name t).2)
    (u32 (strtol 16 (l_plu_node_id t)).1) (l_mac t ++ [0; 0]) (lsap_of (l_dstport t) :: zeros 7)
    (word_of role_types (l_role t)) (word_of direction_types (l_direction t)) (word_of on_types (l_byteswap t))
    (word_of on_types (l_retry_on_fail t)) (int_of (l_retry_times t)) (word_of on_types (l_autoact t)) 0 (int_of (l_tg_number t))
    (int_of (l_cost_per_byte t)) (int_of (l_cost_per_connect_time t)) (int_of (l_effective_capacity t)) (int_of (l_propagation_delay t))
    (word_of security_types (l_security t)) (int_of (l_user1 t)) (int_of (l_user2 t)) (int_of (l_user3 t)).

Lemma link_read t c : link_says t c -> link_ok t -> sna_parse_link ns c = Some (link_info_of t).
Proof. intros Hr Hok. destruct_and! Hok. eapply parse_runs; [exact matches_refl|exact Hr|by right|by vm_compute|]. entries. Qed.

(** *** Classes of service *)

Record cos_text : Type := MkCos {
  c_name : list Z; c_weight : list Z; c_tx_priority : list Z; c_default_cos_invalid : list Z; c_default_cos_null : list Z;
  c_cost : range_text * range_text; c_security : range_text; c_propagation_delay : range_text; c_effective_capacity : range_text;
  c_route_resistance : range_text; c_node_congested : range_text; c_user1 : range_text; c_user2 : range_text; c_user3 : range_text
}.

Definition cos_says (t : cos_text) (c : N) : Prop :=
  reads matches ns (cos_fields ns) (xml_children c)
    [(str "name", says (c_name t)); (str "weight", says (c_weight t)); (str "tx_priority", says (c_tx_priority t));
     (str "default_cos_invalid", says (c_default_cos_invalid t)); (str "default_cos_null", says (c_default_cos_null t));
     (str "cost", says_cost ns (c_cost t)); (str "security", says_range ns (c_security t));
     (str "propagation_delay", says_range ns (c_propagation_delay t)); (str "effective_capacity", says_range ns (c_effective_capacity t));
     (str "route_resistance", says_range ns (c_route_resistance t)); (str "node_congested", says_range ns (c_node_congested t));
     (str "user1", says_range ns (c_user1 t)); (str "user2", says_range ns (c_user2 t)); (str "user3", says_range ns (c_user3 t))].

Definition cos_ok (t : cos_text) : Prop :=
  (length (c_name t) < 9)%nat /\ is_Some (map_word tx_types (c_tx_priority t)) /\
  is_Some (map_word on_types (c_default_cos_invalid t)) /\ is_Some (map_word on_types (c_default_cos_null t)).

Definition cos_info_of (t : cos_text) : CosInfo.cos_info :=
  CosInfo.Mk (array 9 (strupr (c_name t))) (int_of (c_weight t)) (word_of tx_types (c_tx_priority t))
    (word_of on_types (c_default_cos_invalid t)) (word_of on_types (c_default_cos_null t))
    (range_of (c_cost t).1) (range_of (c_cost t).2) (range_of (c_security t)) (range_of (c_propagation_delay t))
    (range_of (c_effective_capacity t)) (range_of (c_user1 t)) (range_of (c_user2 t)) (range_of (c_user3 t))
    (range_of (c_route_resistance t)) (range_of (c_node_congested t)).

Lemma cos_read t c : cos_says t c -> cos_ok t -> sna_parse_cos ns c = Some (cos_info_of t).
Proof. intros Hr Hok. destruct_and! Hok. eapply parse_runs; [exact matches_refl|exact Hr|by left|by vm_compute|]. entries. Qed.

(** *** Modes *)

Record mode_text : Type := MkMode {
  m_name : list Z; m_cos_name : list Z; m_plu_name : list Z * list Z; m_encryption : list Z; m_tx_pacing : list Z; m_rx_pacing : list Z;
  m_max_tx_ru : list Z; m_max_rx_ru : list Z; m_min_conwinners : list Z; m_min_conlosers : list Z; m_max_sessions : list Z;
  m_auto_activation : list Z
}.

Definition mode_says (t : mode_text) (c : N) : Prop :=
  reads matches ns mode_fields (xml_children c)
    [(str "name", says (m_name t)); (str "cos_name", says (m_cos_name t)); (str "plu_name", says (netid_text (m_plu_name t)));
     (str "encryption", says (m_encryption t)); (str "tx_pacing", says (m_tx_pacing t)); (str "rx_pacing", says (m_rx_pacing t));
     (str "max_tx_ru", says (m_max_tx_ru t)); (str "max_rx_ru", says (m_max_rx_ru t)); (str "min_conwinners", says (m_min_conwinners t));
     (str "min_conlosers", says (m_min_conlosers t)); (str "max_sessions", says (m_max_sessions t));
     (str "auto_activation", says (m_auto_activation t))].

Definition mode_ok (t : mode_text) : Prop :=
  (length (m_name t) < 9)%nat /\ (length (m_cos_name t) < 9)%nat /\ netid_ok (m_plu_name t) /\
  is_Some (map_word on_types (m_encryption t)) /\ is_Some (map_word on_types (m_auto_activation t)).

Definition mode_info_of (t : mode_text) : ModeInfo.mode_info :=
  ModeInfo.Mk (array 9 (strupr (m_name t))) (array 9 (strupr (m_cos_name t))) (netid_of (m_plu_name t).1 (m_plu_name t).2)
    (word_of on_types (m_encryption t)) (int_of (m_tx_pacing t)) (int_of (m_rx_pacing t)) (int_of (m_max_tx_ru t))
    (int_of (m_max_rx_ru t)) (int_of (m_max_sessions t)) (int_of (m_min_conwinners t)) (int_of (m_min_conlosers t))
    (word_of on_types (m_auto_activation t)).

Lemma mode_read t c : mode_says t c -> mode_ok t -> sna_parse_mode c = Some (mode_info_of t).
Proof. intros Hr Hok. destruct_and! Hok. eapply parse_runs; [exact matches_refl|exact Hr|by left|by vm_compute|]. entries. Qed.

(** *** Logical units: here, and partners *)

Inductive lu_text : Type :=
  | LocalText (use_name syncpoint lu_sess_limit : list Z)
  | RemoteText (use_name : list Z) (plu_name fqcp_name : list Z * list Z).

Definition lu_says (t : lu_text) (c : N) : Prop :=
  match t with
  | LocalText use_name syncpoint lu_sess_limit =>
      reads matches ns lu_fields (xml_children c)
        [(str "use_name", says use_name); (str "where", says (str "local")); (str "syncpoint", says syncpoint);
         (str "lu_sess_limit", says lu_sess_limit)]
  | RemoteText use_name plu_name fqcp_name =>
      reads matches ns lu_fields (xml_children c)
        [(str "use_name", says use_name); (str "where", says (str "remote")); (str "plu_name", says (netid_text plu_name));
         (str "fqcp_name", says (netid_text fqcp_name))]
  end.

Definition lu_ok (t : lu_text) : Prop :=
  match t with
  | LocalText use_name syncpoint _ => (length use_name < 40)%nat /\ is_Some (map_word on_types syncpoint)
  | RemoteText use_name plu_name fqcp_name => (length use_name < 40)%nat /\ netid_ok plu_name /\ netid_ok fqcp_name
  end.

Definition lu_info_of (t : lu_text) : LuInfo.lu_info :=
  match t with
  | LocalText use_name syncpoint lu_sess_limit =>
      LuInfo.Mk (array 40 use_name) 0 (zeros 18) (zeros 18) (zeros 9) (word_of on_types syncpoint) (int_of lu_sess_limit)
  | RemoteText use_name plu_name fqcp_name =>
      LuInfo.Mk (array 40 use_name) 1 (netid_of plu_name.1 plu_name.2) (netid_of fqcp_name.1 fqcp_name.2) (zeros 9) 0 0
  end.

Lemma says_where s v c : says s c -> map_word lu_types s = Some v -> xword_lu_types c = Some v.
Proof. unfold says, xword_lu_types, xword_map. by intros ->. Qed.

Lemma lu_read t c : lu_says t c -> lu_ok t -> sna_parse_lu c = Some (lu_info_of t).
Proof.
  intros Hr Hok. destruct t; destruct_and! Hok; (eapply parse_runs; [exact matches_refl|exact Hr|by left|by vm_compute|]); entry;
    (eapply runs_cons; [reflexivity|intros c1 Hc1; unfold put; rewrite (says_where _ _ _ Hc1 eq_refl); reflexivity|]); entries.
Qed.

(** *** CPI-C destinations *)

Record cpic_text : Type := MkCpic { s_sym_dest_name : list Z; s_mode_name : list Z; s_plu_name : list Z * list Z; s_tp_name : list Z }.

Definition cpic_says (t : cpic_text) (c : N) : Prop :=
  reads matches ns cpic_fields (xml_children c)
    [(str "sym_dest_name", says (s_sym_dest_name t)); (str "mode_name", says (s_mode_name t));
     (str "plu_name", says (netid_text (s_plu_name t))); (str "tp_name", says (s_tp_name t))].

Definition cpic_ok (t : cpic_text) : Prop :=
  (length (s_sym_dest_name t) < 9)%nat /\ no_nul (s_sym_dest_name t) /\ (length (s_mode_name t) < 9)%nat /\ no_nul (s_mode_name t) /\
  netid_ok (s_plu_name t) /\ (length (s_tp_name t) < 64)%nat /\ no_nul (s_tp_name t).

Definition cpic_info_of (t : cpic_text) : CpicInfo.cpic_info :=
  CpicInfo.Mk (array 9 (strupr (s_sym_dest_name t))) (array 9 (strupr (s_mode_name t))) (array 65 (s_tp_name t))
    (netid_of (s_plu_name t).1 (s_plu_name t).2).

Lemma cpic_read t c : cpic_says t c -> cpic_ok t -> sna_parse_cpic c = Some (cpic_info_of t).
Proof.
  intros Hr Hok. destruct_and! Hok. assert (length (s_tp_name t) < 65)%nat by lia.
  eapply parse_runs; [exact matches_refl|exact Hr|by left|by vm_compute|]. entries.
Qed.

(** *** The node *)

Record global_text : Type := MkGlobal {
  g_debuglevel : list Z; g_node_name : list Z * list Z; g_node_type : list Z; g_node_id : list Z; g_max_lus : list Z;
  g_lu_seg : list Z; g_bind_seg : list Z
}.

Definition global_says (t : global_text) (c : N) : Prop :=
  reads matches ns global_fields (xml_children c)
    [(str "debuglevel", says (g_debuglevel t)); (str "node_name", says (netid_text (g_node_name t)));
     (str "node_type", says (g_node_type t)); (str "node_id", says (g_node_id t)); (str "max_lus", says (g_max_lus t));
     (str "lu_seg", says (g_lu_seg t)); (str "bind_seg", says (g_bind_seg t))].

Definition global_ok (t : global_text) : Prop :=
  (length (g_debuglevel t) < 8)%nat /\ no_nul (g_debuglevel t) /\ netid_ok (g_node_name t) /\
  is_Some (map_word node_types (g_node_type t)) /\ (length (g_node_id t) < 40)%nat.

Definition global_info_of (t : global_text) dlcs links lus modes cpics coss : GlobalInfo.global_info :=
  GlobalInfo.Mk (netid_of (g_node_name t).1 (g_node_name t).2) (u32 (strtol 16 (g_node_id t)).1) (word_of node_types (g_node_type t))
    (array 8 (g_debuglevel t)) (int_of (g_max_lus t)) (int_of (g_lu_seg t)) (int_of (g_bind_seg t)) dlcs links lus modes cpics coss.

Lemma global_read t c : global_says t c -> global_ok t -> sna_parse_global ns c = Some (global_info_of t [] [] [] [] [] []).
Proof. intros Hr Hok. destruct_and! Hok. eapply parse_runs; [exact matches_refl|exact Hr|by right|by vm_compute|]. entries. Qed.

(** *** A configuration: the node and what there is beside it, in any order *)

Inductive element_text : Type :=
  | TDlc (t : dlc_text) | TLink (t : link_text) | TLu (t : lu_text) | TCos (t : cos_text) | TMode (t : mode_text) | TCpic (t : cpic_text).

Definition element_name (e : element_text) : list Z :=
  match e with
  | TDlc _ => str "dlc" | TLink _ => str "link" | TLu _ => str "lu" | TCos _ => str "cos" | TMode _ => str "mode" | TCpic _ => str "cpic"
  end.

Definition element_says (e : element_text) : N -> Prop :=
  match e with
  | TDlc t => dlc_says t | TLink t => link_says t | TLu t => lu_says t | TCos t => cos_says t | TMode t => mode_says t | TCpic t => cpic_says t
  end.

Definition element_ok (e : element_text) : Prop :=
  match e with
  | TDlc t => dlc_ok t | TLink t => link_ok t | TLu t => lu_ok t | TCos t => cos_ok t | TMode t => mode_ok t | TCpic t => cpic_ok t
  end.

(** An element that is passed over. *)
Definition other (c : N) : Prop :=
  xml_ns c <> Some ns \/ xml_name c ∉ [str "global"; str "dlc"; str "link"; str "lu"; str "cos"; str "mode"; str "cpic"].

Inductive listed : list N -> list element_text -> Prop :=
  | listed_nil : listed [] []
  | listed_other c cs l : other c -> listed cs l -> listed (c :: cs) l
  | listed_say c cs e l : xml_ns c = Some ns -> xml_name c = element_name e -> element_says e c -> element_ok e -> listed cs l ->
      listed (c :: cs) (e :: l).

Definition config_says (t : global_text) (l : list element_text) (cs : list N) : Prop :=
  exists before c after, cs = before ++ c :: after /\ Forall other before /\ xml_ns c = Some ns /\ xml_name c = str "global" /\
    global_says t c /\ global_ok t /\ listed after l.

Definition el_dlc (e : element_text) := match e with TDlc t => Some t | _ => None end.
Definition el_link (e : element_text) := match e with TLink t => Some t | _ => None end.
Definition el_lu (e : element_text) := match e with TLu t => Some t | _ => None end.
Definition el_cos (e : element_text) := match e with TCos t => Some t | _ => None end.
Definition el_mode (e : element_text) := match e with TMode t => Some t | _ => None end.
Definition el_cpic (e : element_text) := match e with TCpic t => Some t | _ => None end.

Definition config_of (t : global_text) (l : list element_text) : GlobalInfo.global_info :=
  global_info_of t (dlc_info_of <$> omap el_dlc l) (link_info_of <$> omap el_link l) (lu_info_of <$> omap el_lu l)
    (mode_info_of <$> omap el_mode l) (cpic_info_of <$> omap el_cpic l) (cos_info_of <$> omap el_cos l).

Lemma add_other c g : other c -> add_element ns c g = Some g.
Proof.
  unfold add_element. intros [Hn|Hn]; [by rewrite bool_decide_true|]. case_bool_decide; [done|].
  rewrite !not_elem_of_cons in Hn. destruct_and! Hn. by rewrite !decide_False.
Qed.

Lemma add_said t l c e : xml_ns c = Some ns -> xml_name c = element_name e -> element_says e c -> element_ok e ->
  add_element ns c (Some (config_of t l)) = Some (Some (config_of t (l ++ [e]))).
Proof.
  intros Hn He Hs Hok. unfold add_element. rewrite bool_decide_false by (by intros []). rewrite He. unfold config_of.
  destruct e; cbn [element_name element_says element_ok] in *; rewrite !omap_app; cbn [omap list_omap el_dlc el_link el_lu el_cos el_mode el_cpic];
    rewrite ?fmap_app, ?app_nil_r; cbn [fmap list_fmap].
  - by rewrite (dlc_read _ _ Hs Hok).
  - by rewrite (link_read _ _ Hs Hok).
  - by rewrite (lu_read _ _ Hs Hok).
  - by rewrite (cos_read _ _ Hs Hok).
  - by rewrite (mode_read _ _ Hs Hok).
  - by rewrite (cpic_read _ _ Hs Hok).
Qed.

Lemma add_listed t cs l l0 : listed cs l -> add_elements ns cs (Some (config_of t l0)) = Some (Some (config_of t (l0 ++ l))).
Proof.
  intros Hl. revert l0. induction Hl as [|c cs l Hc _ IH|c cs e l Hn He Hs Hok _ IH]; intros l0; cbn [add_elements].
  - by rewrite app_nil_r.
  - rewrite add_other by done. apply IH.
  - rewrite (add_said t l0 c e) by done. cbn [mbind option_bind]. by rewrite IH, <- app_assoc.
Qed.

Lemma add_config t l cs : config_says t l cs -> add_elements ns cs None = Some (Some (config_of t l)).
Proof.
  intros (before & c & after & -> & Hb & Hn & Hc & Hs & Hok & Hl). induction Hb as [|b before Hbo _ IH]; cbn [app add_elements].
  - unfold add_element. rewrite bool_decide_false by (by intros []). rewrite decide_True by done. rewrite (global_read _ _ Hs Hok).
    cbn [mbind option_bind]. by apply (add_listed t after l []).
  - by rewrite add_other.
Qed.

(** The document: the node is the first of the root's children that is not blank. *)
Definition document_says (t : global_text) (l : list element_text) (doc : document N) : Prop :=
  exists top blank node rest, root doc = Some top /\ search_ns doc _PATH_SNACFG_XML_HREF = Some ns /\ xml_name top = str "Helping" /\
    xml_children top = blank ++ node :: rest /\ Forall (fun c => xmlIsBlankNode c = true) blank /\ xmlIsBlankNode node = false /\
    xml_ns node = Some ns /\ xml_name node = str "node" /\ config_says t l (xml_children node).

Lemma document_read t l doc : document_says t l doc -> sna_read_config_file (Some doc) = Some (0, Some (config_of t l)).
Proof.
  intros (top & blank & node & rest & Hr & Hn & Ht & Hc & Hb & Hnb & Hnn & Hname & Hl). unfold sna_read_config_file.
  rewrite Hr, Hn, decide_False by (rewrite Ht; by intros []). rewrite Hc.
  assert (skip_blank_nodes (blank ++ node :: rest) = node :: rest) as ->
    by (clear Hc; induction Hb as [|b bl Hbb _ IH]; cbn [app skip_blank_nodes]; [by rewrite Hnb|by rewrite Hbb]).
  rewrite bool_decide_false by (intros [Hx|Hx]; [by rewrite Hname in Hx|by rewrite Hnn in Hx]).
  by rewrite (add_config t l) by done.
Qed.
End Elements.

(** ** What the node operator is asked for *)

(** The node of a configuration, and what is defined for each of its elements. *)
Definition node_asked (t : global_text) : parameter :=
  PNode (Node.Mk (netid_of (g_node_name t).1 (g_node_name t).2) (u32 (strtol 16 (g_node_id t)).1) (u8 (word_of node_types (g_node_type t)))
    (u16 (int_of (g_lu_seg t))) (u16 (int_of (g_bind_seg t))) (u32 (int_of (g_max_lus t)))).

Section Asked.
Context (be : bool) (net : list Z).

Definition port_asked (t : dlc_text) : parameter :=
  PPort (Port.Mk (array 40 (d_use_name t)) net (array 9 (d_iface t)) (array 12 [lsap_of (d_port t)])
    (u32 (int_of (d_btu t))) (u32 (int_of (d_mia t))) (u32 (int_of (d_moa t)))).

(** The destination is the six bytes of its address, and its port; behind the port
    there are a byte of the role and zeros. *)
Definition link_asked (t : link_text) : parameter :=
  PLs (Ls.Mk (array 40 (l_use_name t)) net (array 9 (l_iface t)) (array 12 [lsap_of (l_port t)])
    (netid_of (l_plu_name t).1 (l_plu_name t).2) (u32 (strtol 16 (l_plu_node_id t)).1) (l_mac t ++ [0])
    (lsap_of (l_dstport t) :: zeros 7 ++ [first_byte be (word_of role_types (l_role t))] ++ zeros 3)
    (word_of role_types (l_role t)) (word_of direction_types (l_direction t)) (word_of on_types (l_byteswap t))
    (word_of on_types (l_retry_on_fail t)) (int_of (l_retry_times t)) (word_of on_types (l_autoact t)) 0 (int_of (l_tg_number t))
    (int_of (l_cost_per_byte t)) (int_of (l_cost_per_connect_time t)) (int_of (l_effective_capacity t)) (int_of (l_propagation_delay t))
    (word_of security_types (l_security t)) (int_of (l_user1 t)) (int_of (l_user2 t)) (int_of (l_user3 t))).

Definition range_asked (t : range_text) : range := MkRange (u16 (int_of t.1)) (u16 (int_of t.2)).

Definition cos_asked (t : cos_text) : parameter :=
  PCos (Cos.Mk (array 9 (strupr (c_name t))) (u16 (int_of (c_weight t))) (u16 (word_of tx_types (c_tx_priority t)))
    (u8 (word_of on_types (c_default_cos_invalid t))) (u8 (word_of on_types (c_default_cos_null t)))
    (range_asked (c_cost t).1) (range_asked (c_cost t).2) (range_asked (c_security t)) (range_asked (c_propagation_delay t))
    (range_asked (c_effective_capacity t)) (range_asked (c_user1 t)) (range_asked (c_user2 t)) (range_asked (c_user3 t))
    (range_asked (c_route_resistance t)) (range_asked (c_node_congested t))).

Definition mode_asked (t : mode_text) : parameter :=
  PMode (Mode.Mk net (netid_of (m_plu_name t).1 (m_plu_name t).2) (array 9 (strupr (m_name t))) (array 9 (strupr (m_cos_name t)))
    (u32 (int_of (m_tx_pacing t))) (u32 (int_of (m_rx_pacing t))) (u32 (int_of (m_max_tx_ru t))) (u32 (int_of (m_max_rx_ru t)))
    (u8 (word_of on_types (m_encryption t))) (u32 (int_of (m_min_conwinners t))) (u32 (int_of (m_min_conlosers t)))
    (u32 (int_of (m_max_sessions t))) (u8 (word_of on_types (m_auto_activation t)))).

(** A logical unit here has no name. *)
Definition lu_asked (t : lu_text) : Z * parameter :=
  match t with
  | LocalText use_name syncpoint lu_sess_limit =>
      (SNA_NOF_LOCAL_LU, PLocalLu (LocalLu.Mk (array 40 use_name) net (array 9 []) (u8 (word_of on_types syncpoint)) (u32 (int_of lu_sess_limit))))
  | RemoteText use_name plu_name fqcp_name =>
      (SNA_NOF_REMOTE_LU, PRemoteLu (RemoteLu.Mk (array 40 use_name) net (netid_of plu_name.1 plu_name.2) (netid_of fqcp_name.1 fqcp_name.2)))
  end.

Definition cpic_asked (t : cpic_text) : parameter :=
  PCpic (SideInfo.Mk net (netid_of (s_plu_name t).1 (s_plu_name t).2) (array 9 (strupr (s_sym_dest_name t))) (array 9 (strupr (s_mode_name t)))
    (array 64 (s_tp_name t))).
End Asked.

Definition asked : Type := Z * Z * parameter.

(** The requests of a configuration: kind by kind, in the order of the file within a
    kind. *)
Definition requests (be : bool) (t : global_text) (l : list element_text) : list asked :=
  let net := netid_of (g_node_name t).1 (g_node_name t).2 in
  (SOL_SNA_NOF, SNA_NOF_NODE, node_asked t) ::
  ((fun d => (SOL_SNA_NOF, SNA_NOF_PORT, port_asked net d)) <$> omap el_dlc l) ++
  ((fun s => (SOL_SNA_NOF, SNA_NOF_LS, link_asked be net s)) <$> omap el_link l) ++
  ((fun c => (SOL_SNA_NOF, SNA_NOF_COS, cos_asked c)) <$> omap el_cos l) ++
  ((fun m => (SOL_SNA_NOF, SNA_NOF_MODE, mode_asked net m)) <$> omap el_mode l) ++
  ((fun u => (SOL_SNA_NOF, (lu_asked net u).1, (lu_asked net u).2)) <$> omap el_lu l) ++
  ((fun c => (SOL_SNA_CPIC, SNA_NOF_CPIC, cpic_asked net c)) <$> omap el_cpic l).

(** What the structures are defined as. *)
Lemma ls_of_asked be (g : GlobalInfo.global_info) t : link_ok t ->
  exists p, ls_of be g (link_info_of t) = Some p /\ PLs p = link_asked be (GlobalInfo.node_name g) t.
Proof.
  intros Hok. destruct_and! Hok. unfold mac_ok in *. destruct_and?. unfold ls_of, link_info_of. cbn [LinkInfo.interface LinkInfo.dstaddr LinkInfo.dstport LinkInfo.role].
  rewrite array_string by done. cbn [mbind option_bind]. rewrite (store_array 9) by done. cbn [mbind option_bind].
  destruct (l_mac t) as [|m1 [|m2 [|m3 [|m4 [|m5 [|m6 [|m7 ?]]]]]]] eqn:Em; try done. eexists. split; [reflexivity|]. unfold link_asked. rewrite Em. reflexivity.
Qed.

Lemma side_info_of_asked (g : GlobalInfo.global_info) t : cpic_ok t ->
  exists p, side_info_of g (cpic_info_of t) = Some p /\ PCpic p = cpic_asked (GlobalInfo.node_name g) t.
Proof.
  intros Hok. destruct_and! Hok. unfold side_info_of, copied_string, cpic_info_of. cbn [CpicInfo.sym_dest_name CpicInfo.mode_name CpicInfo.tp_name].
  rewrite !array_string by (rewrite ?strupr_length; try apply strupr_no_nul; first [done|lia]). cbn [mbind option_bind].
  rewrite !store_array by (rewrite ?strupr_length; done). cbn [mbind option_bind]. eexists. split; reflexivity.
Qed.

(** *** Asking *)

Section Performed.
Context {K : Type} `{Nof K} (sk : Z).

(** One request after the other, up to the first that is refused. *)
Fixpoint perform (l : list asked) (k : K) : Z * K :=
  match l with
  | [] => (0, k)
  | (level, opt, p) :: l =>
      let '(err, k) := nof_setsockopt sk level opt SNA_NOF_DEFINE p k in if decide (err < 0) then (err, k) else perform l k
  end.

Lemma perform_app l1 l2 k : perform (l1 ++ l2) k = let '(err, k) := perform l1 k in if decide (err < 0) then (err, k) else perform l2 k.
Proof.
  revert k. induction l1 as [|[[level opt] p] l1 IH]; intros k; cbn [perform app]; [done|].
  destruct (nof_setsockopt _ _ _ _ _ k) as [err k1]. case_decide; [by rewrite decide_True|]. apply IH.
Qed.

Definition asks (m : M K Z) (l : list asked) : Prop := forall k, m k = let '(err, k) := perform l k in Ret err k.

Lemma asks_define {A B} (f : B -> M K Z) (h : A -> B) (g : A -> asked) l :
  (forall a, a ∈ l -> f (h a) = request (g a).1.1 (g a).1.2 SNA_NOF_DEFINE (g a).2 sk) -> asks (define_all f (h <$> l)) (g <$> l).
Proof.
  unfold asks. induction l as [|a l IH]; intros Hf k; [done|]. cbn [define_all fmap list_fmap perform]. rewrite (Hf a) by left.
  destruct (g a) as [[level opt] p]. unfold request, kernel, mbind at 1, M_bind. cbn [fst snd].
  destruct (nof_setsockopt _ _ _ _ _ k) as [err k1]. case_decide; [done|]. apply IH. intros b Hb. apply Hf. by right.
Qed.

Lemma asks_then (m1 m2 : M K Z) l1 l2 : asks m1 l1 -> asks m2 l2 ->
  asks (err ← m1; if decide (err < 0) then mret err else m2) (l1 ++ l2).
Proof.
  unfold asks, mbind, M_bind. intros H1 H2 k. rewrite H1, perform_app. destruct (perform l1 k) as [err k1]. case_decide; [done|apply H2].
Qed.

Lemma asks_first level opt p (m2 : M K Z) l2 : asks m2 l2 ->
  asks (err ← request level opt SNA_NOF_DEFINE p sk; if decide (err < 0) then mret err else m2) ((level, opt, p) :: l2).
Proof.
  unfold asks, request, kernel, mbind, M_bind. intros H2 k. cbn [perform]. destruct (nof_setsockopt _ _ _ _ _ k) as [err k1]. case_decide; [done|apply H2].
Qed.

Lemma of_opt_Some {A B} (a : A) (f : A -> M K B) : of_opt (Some a) ≫= f = f a.
Proof. done. Qed.

Context (proc_write : list Z -> list Z -> K -> bool * K).

Lemma execute_config be t l k : global_ok t -> Forall element_ok l ->
  sna_execute_config_info be proc_write sk (config_of t l) k =
  let '(ok, k) := proc_write (str "/proc/sys/net/sna/debug_level") (g_debuglevel t) k in
  if ok then let '(err, k) := perform (requests be t l) k in Ret err k else Ret (-1) k.
Proof.
  intros (Hd & Hn & _) Hok. rewrite Forall_forall in Hok. unfold sna_execute_config_info.
  change (GlobalInfo.debug_level (config_of t l)) with (array 8 (g_debuglevel t)). rewrite array_string by done. rewrite of_opt_Some. unfold kernel at 1, mbind at 1, M_bind at 1.
  change _PATH_SNA_DEBUG_LEVEL with (str "/proc/sys/net/sna/debug_level"). destruct (proc_write _ _ k) as [[] k1]; cbn [negb]; [|done].
  match goal with |- ?m k1 = _ => assert (asks m (requests be t l)) as Ha; [|exact (Ha k1)] end.
  assert (forall u, u ∈ omap el_link l -> link_ok u) as Hl.
  { intros u (e & He & Hu)%list_elem_of_omap. destruct e; try done. injection Hu as ->. apply (Hok _ He). }
  assert (forall u, u ∈ omap el_cpic l -> cpic_ok u) as Hc.
  { intros u (e & He & Hu)%list_elem_of_omap. destruct e; try done. injection Hu as ->. apply (Hok _ He). }
  apply asks_first. repeat apply asks_then; apply asks_define; intros a Ha; try reflexivity.
  - destruct (ls_of_asked be (config_of t l) a) as (p & -> & Hp); [by apply Hl|]. rewrite of_opt_Some.
    exact (f_equal (fun p => request SOL_SNA_NOF SNA_NOF_LS SNA_NOF_DEFINE p sk) Hp).
  - by destruct a.
  - destruct (side_info_of_asked (config_of t l) a) as (p & -> & Hp); [by apply Hc|]. rewrite of_opt_Some.
    exact (f_equal (fun p => request SOL_SNA_CPIC SNA_NOF_CPIC SNA_NOF_DEFINE p sk) Hp).
Qed.
End Performed.

(** What loading does to the kernel: a socket, the debug level, the requests, and
    the socket is closed.  Without a socket nothing is done, and without the debug
    level nothing is asked. *)
Definition load_asks {K} `{Nof K} (proc_write : list Z -> list Z -> K -> bool * K) (be : bool) (t : global_text) (l : list element_text) (k : K) : Z * K :=
  let '(sk, k) := nof_socket AF_SNA SOCK_DGRAM k in
  if decide (sk < 0) then (sk, k) else
  let '(ok, k) := proc_write (str "/proc/sys/net/sna/debug_level") (g_debuglevel t) k in
  let '(err, k) := if ok then perform sk (requests be t l) k else (-1, k) in
  (err, (nof_close sk k).2).

Lemma listed_ok {N} `{Xml N} ns cs l : listed (N := N) ns cs l -> Forall element_ok l.
Proof. induction 1; [constructor|done|by constructor]. Qed.

Lemma document_ok {N} `{Xml N} ns t l (doc : document N) : document_says ns t l doc -> global_ok t /\ Forall element_ok l.
Proof. intros (? & ? & ? & ? & _ & _ & _ & _ & _ & _ & _ & _ & ? & ? & ? & _ & _ & _ & _ & _ & Hok & Hl). split; [done|]. by apply (listed_ok _ _ _ Hl). Qed.

(** C14 (refinement).  Loading a file that says a configuration asks the node
    operator for exactly the node, ports, link stations, classes of service,
    modes, logical units and side information it says, in this order, up to the
    first request that is refused, and returns the result of the last one; nothing
    else is written or sent, and the socket is closed whatever the results are.
    The elements may stand in any order, with other elements and text between
    them. *)
Theorem sna_load_defines {N K} `{Xml N, Nof K} be proc_write (xmlParseFile : list Z -> option (document N)) path ns t l doc (k : K) :
  (length path < 300)%nat -> xmlParseFile path = Some doc -> document_says ns t l doc ->
  sna_load be proc_write xmlParseFile [path] k = let '(err, k) := load_asks proc_write be t l k in Ret err k.
Proof.
  intros Hp Hx Hd. destruct (document_ok _ _ _ _ Hd) as [Ht Hl]. unfold sna_load, load_asks, sna_nof_connect, sna_nof_disconnect.
  rewrite decide_False by (unfold _PATH_SNACFG_CONF_MAX; lia). rewrite Hx, (document_read ns t l) by done. rewrite !of_opt_Some.
  rewrite decide_False by done. unfold kernel, mbind, M_bind. destruct (nof_socket _ _ k) as [sk k1].
  case_decide; [done|]. rewrite execute_config by done. destruct (proc_write _ _ k1) as [[] k2].
  - destruct (perform sk _ k2) as [err k3]. by destruct (nof_close sk k3).
  - by destruct (nof_close sk k2).
Qed.

(** A configuration in which the link station stands before its port, with text in
    between; the kernel keeps the kinds of the requests it is sent, and refuses
    logical units of its own. *)
Definition element (name text : string) : tree := Element (str name) (Some 1%nat) [Text (str text)].
Arguments element name%_string text%_string.

Definition demo_document : document tree :=
  MkDocument (Some (Element (str "Helping") (Some 1%nat)
    [Text (str " ");
     Element (str "node") (Some 1%nat)
       [Text (str " ");
        Element (str "global") (Some 1%nat)
          [element "debuglevel" "0"; element "node_name" "lnxsna.ehead"; element "node_type" "appn"; element "node_id" "05DFFFFF";
           element "max_lus" "1000"; element "lu_seg" "on"; element "bind_seg" "on"];
        Element (str "cpic") (Some 1%nat)
          [element "sym_dest_name" "file"; element "mode_name" "#batch"; element "plu_name" "lnxsna.ibm"; element "tp_name" "AFTPD"];
        Text (str " ");
        Element (str "lu") (Some 1%nat)
          [element "use_name" "lu_ehead"; element "where" "local"; element "syncpoint" "on"; element "lu_sess_limit" "1000"];
        Element (str "dlc") (Some 1%nat)
          [element "use_name" "dlc_sna1"; element "type" "llc2"; element "iface" "eth0"; element "port" "0x04"; element "btu" "1000";
           element "mia" "10"; element "moa" "10"]]]))
    (fun href => if decide (href = str "http://www.linux-sna.org/sna") then Some 1%nat else None).

Definition demo_global : global_text :=
  MkGlobal (str "0") (str "lnxsna", str "ehead") (str "appn") (str "05DFFFFF") (str "1000") (str "on") (str "on").
Definition demo_elements : list element_text :=
  [TCpic (MkCpic (str "file") (str "#batch") (str "lnxsna", str "ibm") (str "AFTPD"));
   TLu (LocalText (str "lu_ehead") (str "on") (str "1000"));
   TDlc (MkDlc (str "dlc_sna1") (str "eth0") (str "0x04") (str "1000") (str "10") (str "10"))].

#[local] Instance kernel_demo : Nof (list Z) := {|
  nof_socket domain type k := (3, k);
  nof_close sk k := (0, k ++ [-1]);
  nof_setsockopt sk level opt action p k := (if decide (opt = SNA_NOF_LOCAL_LU) then -22 else 0, k ++ [opt])
|}.

(** Configurations are checked by going through the elements. *)
Ltac check_ok := first [ by apply (bool_decide_unpack _); vm_compute | eexists; by vm_compute | discriminate ].
Ltac check_reads := repeat first [ apply reads_nil | (apply reads_say; [reflexivity|reflexivity|reflexivity|]) | (apply reads_skip; [by vm_compute|]) ].

Lemma sna_load_defines_witness :
  (length (str "sna.xml") < 300)%nat /\ document_says 1 demo_global demo_elements demo_document /\
  sna_load (K := list Z) false (fun _ _ k => (true, k)) (fun _ => Some demo_document) [str "sna.xml"] [] =
    Ret (-22) [SNA_NOF_NODE; SNA_NOF_PORT; SNA_NOF_LOCAL_LU; -1].
Proof.
  assert (document_says 1 demo_global demo_elements demo_document) as Hd.
  { eexists _, [Text (str " ")], _, []. split_and!; [reflexivity|reflexivity|reflexivity|reflexivity|by repeat constructor|reflexivity|reflexivity|reflexivity|].
    eexists [Text (str " ")], _, _. split_and!; [reflexivity| |reflexivity|reflexivity|check_reads|split_and!; check_ok|].
    { repeat constructor. discriminate. }
    repeat first [ apply listed_nil | apply listed_other; [left; discriminate|]
                 | apply listed_say; [reflexivity|reflexivity|check_reads|split_and!; check_ok|] ]. }
  split; [cbn; lia|split; [exact Hd|]].
  rewrite (sna_load_defines false _ _ _ 1 demo_global demo_elements demo_document) by (reflexivity || exact Hd || (cbn; lia)).
  vm_compute. reflexivity.
Defined.
