(* ===== verification/Tn3270Config.v ===== *)
(** * tn3270d: the configuration file and the start of the servers

    tn3270d/tn3270_xml.c, tn3270d/tn3270_xwords.c, and [main] and
    [tn3270_spawn_server] of tn3270d/tn3270_daemon.c.  A configuration is a tree
    ([Xml]); the circular lists are lists; memory is not short.  [None] is undefined
    behaviour, as in [Xml].  What is printed and logged is left out. *)
From S2P Require Import Prelude SnaUtility Xml TnxLib.

Definition _PATH_TN3270D_XML_HREF : list Z := str "http://www.linux-sna.org/sna".
Definition _PATH_TN3270D_XML_TOP : list Z := str "tn3270".
Definition _PATH_TN3270D_CONF : list Z := str "/etc/sna.xml".
Definition _PATH_TN3270D_CONF_MAX : nat := 300.

(** ** Structures *)

Record allow_info : Type := MkAllow { ipaddr : Z; netmask : Z }.

(** Of the members of a server only those that are configured. *)
Module ServerInfo.
Record server_info : Type := Mk {
  use_name : list Z; debug_level : Z; client_port : Z; manage_port : Z; test : Z; limit : Z; sysreq : Z; pool : list Z;
  allow_list : list allow_info
}.
#[export] Instance server_info_members : Members server_info := fun s =>
  Mk (use_name s) (debug_level s) (client_port s) (manage_port s) (test s) (limit s) (sysreq s) (pool s) (allow_list s).
Definition fresh : server_info := Mk (zeros 40) 0 0 0 0 0 0 (zeros 40) [].
End ServerInfo.
Export (hints) ServerInfo.

Section Config.
Context {N : Type} `{Xml N}.

(** The address in network order, or [4294967295]. *)
Context (inet_addr : list Z -> Z).

(** The arguments of [strncpy(netmask_s, ++slash, strlen(slash) - 1)] have no order:
    from the right, as gcc evaluates them, or from the left. *)
Context (from_right : bool).

(** ** Allowed addresses *)

(** What stands before the first ['/'], and behind it. *)
Definition at_slash (s : list Z) : option (list Z * list Z) :=
  match list_find (fun c => c = 47) s with
  | Some (i, _) => Some (take i s, drop (S i) s)
  | None => None
  end.

(** [atoi] of an array: the number ends before it does. *)
Definition atoi_in (m : list Z) : option Z :=
  let s := skip_blanks (c_str m) in
  let t := match s with 45 :: t | 43 :: t => t | _ => s end in
  match (digits 10 t 0).2 with
  | [] => if decide (0 ∈ m) then Some (strtol 10 (c_str m)).1 else None
  | _ => Some (strtol 10 (c_str m)).1
  end.

(** [0xFFFFFFFF << (32 - bits)]: the shift has to be below the width. *)
Definition mask_of (bits : Z) : option Z :=
  if decide (bits = 0) then Some 0 else
  if decide (0 <= 32 - bits < 32) then Some (htonl (u32 (Z.shiftl 4294967295 (32 - bits)))) else None.

(** [Some None] is a null pointer. *)
Definition xword_ip (cur : N) : option (option allow_info) :=
  ip_string ← xword_text cur;
  if decide (40 <= length ip_string)%nat then None else
  match at_slash ip_string with
  | None => Some None
  | Some (ip, bits) =>
      (** sixteen characters leave the string without an end *)
      if decide (16 <= length ip)%nat then None else
      n ← (if from_right then Some (length bits) else match bits with [] => None | _ :: t => Some (length t) end);
      netmask_s ← store 0 (take n bits) (zeros 3);
      bits ← atoi_in netmask_s;
      mask ← mask_of bits;
      Some (Some (MkAllow (inet_addr ip) mask))
  end.

Definition ip_fields : list (list Z * (N -> list allow_info -> option (list allow_info))) :=
  [(str "ip", fun cur l => a ← xword_ip cur; Some (match a with Some a => l ++ [a] | None => l end))].

Definition xword_ip_allow (ns : nat) (cur : N) (l : list allow_info) : option (list allow_info) :=
  parse_children matches (Some ns) ip_fields (xml_children cur) l.

(** ** Servers *)

Definition server_fields (ns : nat) : list (list Z * (N -> ServerInfo.server_info -> option ServerInfo.server_info)) :=
  [(str "debug", put xword_int (assign ServerInfo.debug_level));
   (str "use_name", fill xword_strcpy ServerInfo.use_name (assign ServerInfo.use_name));
   (str "client_port", put xword_int (assign ServerInfo.client_port));
   (str "manage_port", put xword_int (assign ServerInfo.manage_port));
   (str "test", put xword_on_off (assign ServerInfo.test));
   (str "limit", put xword_int (assign ServerInfo.limit));
   (str "sysreq", put xword_on_off (assign ServerInfo.sysreq));
   (str "pool", fill xword_strcpy ServerInfo.pool (assign ServerInfo.pool));
   (str "allow", fill (xword_ip_allow ns) ServerInfo.allow_list (assign ServerInfo.allow_list))].

Definition tn3270_parse_server (ns : nat) (cur : N) : option ServerInfo.server_info :=
  parse_children equal_names (Some ns) (server_fields ns) (xml_children cur) ServerInfo.fresh.

Definition tn3270_read_config_file (doc : option (document N)) : option (Z * list ServerInfo.server_info) :=
  match config_section _PATH_TN3270D_XML_HREF _PATH_TN3270D_XML_TOP doc with
  | None => Some (-1, [])
  | Some (ns, cur) => l ← collect ns (str "server") (tn3270_parse_server ns) (xml_children cur) []; Some (0, l)
  end.

(** ** Starting *)

(** What a process does for the rest of its life. *)
Inductive role : Type :=
  | Serves (s : ServerInfo.server_info)
  | Sleeps.

(** The loop over the servers: this process and then, eldest first, those descended
    from it.  Of the two that return from [fork] the parent serves and does not
    come back, the child returns and goes on with the loop; after a failed [fork]
    there is no other process, and this one goes on.  The list says which calls
    succeed. *)
Fixpoint spawn_servers (forks : list bool) (l : list ServerInfo.server_info) : list role :=
  match l with
  | [] => [Sleeps]
  | s :: l => if default true (head forks) then Serves s :: spawn_servers (tail forks) l else spawn_servers (tail forks) l
  end.

Inductive started : Type :=
  | Returns (code : Z)
  | Exits (code : Z)
  | Runs (background : bool) (processes : list role).

(** The loop over the options, as [getopt] returns them with their arguments: the
    file and [nodaemon], or the end of the process. *)
Fixpoint read_options (options : list (Z * list Z)) (config_file : list Z) (nodaemon : Z) : option (Z + list Z * Z) :=
  match options with
  | [] => Some (inr (config_file, nodaemon))
  | (c, optarg) :: options =>
      if decide (c = 100) then read_options options config_file (strtol 10 optarg).1
      else if decide (c = 102) then
        if decide (_PATH_TN3270D_CONF_MAX <= length optarg)%nat then None else read_options options optarg nodaemon
      else if decide (c = 86 \/ c = 118) then Some (inl 1)
      else if decide (c = 104) then Some (inl 1)
      else read_options options config_file nodaemon
  end.

Definition main (xmlParseFile : list Z -> option (document N)) (options : list (Z * list Z)) (forks : list bool) : option started :=
  o ← read_options options _PATH_TN3270D_CONF 0;
  match o with
  | inl code => Some (Exits code)
  | inr (config_file, nodaemon) =>
      '(err, server_list) ← tn3270_read_config_file (xmlParseFile config_file);
      if decide (err < 0) then Some (Returns err) else
      match server_list with
      | [] => Some (Returns 0)
      | _ => Some (Runs (bool_decide (nodaemon = 0)) (spawn_servers forks server_list))
      end
  end.
End Config.

(** ** A configuration as text *)

(** The addresses are those of [TnxLib.cidr]: an address and a number of bits, with
    what the array for each has room for. *)
Record server_text : Type := MkText {
  t_debug : list Z; t_use_name : list Z; t_client_port : list Z; t_manage_port : list Z; t_test : list Z; t_limit : list Z;
  t_sysreq : list Z; t_pool : list Z; t_allow : list cidr
}.

Definition allow_of (c : cidr) : allow_info := MkAllow (address (cidr_entry c)) (mask (cidr_entry c)).

Definition server_of (t : server_text) : ServerInfo.server_info :=
  ServerInfo.Mk (array 40 (t_use_name t)) (int_of (t_debug t)) (int_of (t_client_port t)) (int_of (t_manage_port t))
    (word_of on_types (t_test t)) (int_of (t_limit t)) (word_of on_types (t_sysreq t)) (array 40 (t_pool t)) (allow_of <$> t_allow t).

Section Texts.
Context {N : Type} `{Xml N} (inet_addr : list Z -> Z) (ns : nat).

Definition ip_ok (c : cidr) : Prop :=
  47 ∉ c_ip c /\ (length (c_ip c) < 16)%nat /\ inet_addr (c_ip c) = bswap32 (c_addr c) /\
  (length (c_bits_str c) < 3)%nat /\ no_nul (c_bits_str c) /\ strtol 10 (c_bits_str c) = (c_bits c, []) /\ 1 <= c_bits c <= 32.

Definition allow_says (cs : list cidr) (cur : N) : Prop :=
  reads matches ns (ip_fields inet_addr true) (xml_children cur) ((fun c => (str "ip", says (cidr_item c))) <$> cs).

Definition server_says (t : server_text) (c : N) : Prop :=
  reads equal_names ns (server_fields inet_addr true ns) (xml_children c)
    [(str "debug", says (t_debug t)); (str "use_name", says (t_use_name t)); (str "client_port", says (t_client_port t));
     (str "manage_port", says (t_manage_port t)); (str "test", says (t_test t)); (str "limit", says (t_limit t));
     (str "sysreq", says (t_sysreq t)); (str "pool", says (t_pool t)); (str "allow", allow_says (t_allow t))].

Definition server_ok (t : server_text) : Prop :=
  (length (t_use_name t) < 40)%nat /\ (length (t_pool t) < 40)%nat /\ is_Some (map_word on_types (t_test t)) /\
  is_Some (map_word on_types (t_sysreq t)) /\ Forall ip_ok (t_allow t).

(** The document: the first element of that name has the servers. *)
Definition servers_document (l : list server_text) (doc : document N) : Prop :=
  exists cs, has_section _PATH_TN3270D_XML_HREF _PATH_TN3270D_XML_TOP ns doc cs /\
    collects ns (str "server") (fun t c => server_says t c /\ server_ok t) cs l.

(** *** Reading it *)

Lemma at_slash_item c : 47 ∉ c_ip c -> at_slash (cidr_item c) = Some (c_ip c, c_bits_str c).
Proof. intros Hs. unfold at_slash. rewrite cidr_slash by done. by destruct (cidr_cut c) as [-> ->]. Qed.

Lemma store_text n s : (length s <= n)%nat -> store 0 s (zeros n) = Some (array n s).
Proof.
  intros Hs. unfold store, zeros, array. rewrite decide_True by (rewrite length_replicate; lia). cbn [take app]. by rewrite drop_replicate.
Qed.

Lemma atoi_array s : (length s < 3)%nat -> no_nul s -> atoi_in (array 3 s) = Some (strtol 10 s).1.
Proof.
  intros Hs Hn. unfold atoi_in. assert (c_str (array 3 s) = s) as ->.
  { pose proof (array_string 3 s Hs Hn) as E. unfold string_at in E. case_decide; [|done]. by injection E. }
  destruct (digits 10 _ 0).2; [|done]. rewrite decide_True; [done|]. unfold array, zeros. apply elem_of_app. right.
  apply elem_of_replicate. split; [done|lia].
Qed.

Lemma ip_read c cur : says (cidr_item c) cur -> ip_ok c -> xword_ip inet_addr true cur = Some (Some (allow_of c)).
Proof.
  unfold says. intros Hc (Hs & Hl & Ha & Hb & Hn & Hv & Hr). unfold xword_ip. rewrite Hc. cbn [mbind option_bind].
  rewrite decide_False by (unfold cidr_item; rewrite length_app; cbn [length]; lia). rewrite at_slash_item by done.
  rewrite decide_False by lia. cbn [mbind option_bind]. rewrite take_ge by lia. rewrite store_text by lia. cbn [mbind option_bind].
  rewrite atoi_array by done. rewrite Hv. cbn [mbind option_bind fst]. unfold mask_of. rewrite decide_False by lia.
  rewrite decide_True by lia. cbn [mbind option_bind]. by rewrite Ha.
Qed.

Lemma ips_run cs l : Forall ip_ok cs -> runs (ip_fields inet_addr true) ((fun c => (str "ip", says (N := N) (cidr_item c))) <$> cs) l (l ++ (allow_of <$> cs)).
Proof.
  intros Hcs. revert l. induction Hcs as [|c cs Hc _ IH]; intros l; cbn [fmap list_fmap]; [rewrite app_nil_r; constructor|].
  eapply runs_cons; [reflexivity| |].
  - intros cur Hcur. cbv beta. rewrite (ip_read c cur Hcur Hc). reflexivity.
  - cbn [mbind option_bind]. specialize (IH (l ++ [allow_of c])). by rewrite <- app_assoc in IH.
Qed.

Lemma allow_read cs cur : allow_says cs cur -> Forall ip_ok cs -> xword_ip_allow inet_addr true ns cur [] = Some (allow_of <$> cs).
Proof. intros Hr Hcs. eapply parse_runs; [exact matches_refl|exact Hr|by right|reflexivity|]. by apply (ips_run cs []). Qed.

Lemma server_read t c : server_says t c -> server_ok t -> tn3270_parse_server inet_addr true ns c = Some (server_of t).
Proof.
  intros Hr Hok. destruct_and! Hok. eapply parse_runs; [exact equal_names_refl|exact Hr|by right|by vm_compute|].
  repeat entry_by ltac:(fun Hc => first [read_common Hc | cbn [ServerInfo.allow_list]; rewrite (allow_read _ _ Hc) by done]) ltac:(unfold assign; cbn -[zeros array int_of word_of]). constructor.
Qed.

Lemma document_servers l doc : servers_document l doc -> tn3270_read_config_file inet_addr true (Some doc) = Some (0, server_of <$> l).
Proof.
  intros (cs & Hs & Hl). destruct (section_found _ _ _ _ _ Hs) as (node & Hn & <-). unfold tn3270_read_config_file. rewrite Hn.
  rewrite (collect_read _ _ _ _ server_of _ _ [] (fun t c H => server_read t c (proj1 H) (proj2 H)) Hl). done.
Qed.
End Texts.

(** The processes of a list of servers: one for each whose [fork] succeeds, in their
    order, and one that sleeps. *)
Definition processes (forks : list bool) (l : list ServerInfo.server_info) : list role :=
  omap (fun p : bool * ServerInfo.server_info => if p.1 then Some (Serves p.2) else None) (zip forks l) ++ [Sleeps].

Lemma spawn_processes forks l : length forks = length l -> spawn_servers forks l = processes forks l.
Proof.
  revert l. induction forks as [|b forks IH]; intros [|s l] Hl; try done. cbn [spawn_servers head tail default]. rewrite IH by (by injection Hl).
  by destruct b.
Qed.

(** C32 (functional).  A file that says servers starts one process for each, with the
    name, ports, limit, pool and switches it says, in the order of the file, and one
    more that only sleeps; a server whose [fork] fails is left out.  Each server has
    the addresses it allows as [libtnX] builds them from the same text, by address
    and mask in network order. *)
Theorem tn3270_main_serves {N} `{Xml N} inet_addr (xmlParseFile : list Z -> option (document N)) ns options file nodaemon doc l forks :
  read_options options (str "/etc/sna.xml") 0 = Some (inr (file, nodaemon)) -> xmlParseFile file = Some doc ->
  servers_document inet_addr ns l doc -> l <> [] -> length forks = length l ->
  main inet_addr true xmlParseFile options forks = Some (Runs (bool_decide (nodaemon = 0)) (processes forks (server_of <$> l))) /\
  (forall inet_aton, Forall (fun t => Forall (cidr_ok inet_aton) (t_allow t)) l ->
   Forall (fun t => t_allow t <> [] -> exists a, tnX_build_addr_list inet_aton (cidr_item <$> t_allow t) = Some a /\
     ServerInfo.allow_list (server_of t) = (fun d => MkAllow (address d) (mask d)) <$> a) l).
Proof.
  intros Ho Hx Hd Hne Hf. split.
  - unfold main. change _PATH_TN3270D_CONF with (str "/etc/sna.xml"). rewrite Ho. cbn [mbind option_bind]. rewrite Hx, (document_servers _ ns l) by done.
    cbn [mbind option_bind]. rewrite decide_False by done. rewrite <- spawn_processes by (by rewrite length_fmap). by destruct l.
  - intros inet_aton Hl. eapply Forall_impl; [exact Hl|]. intros t Ht Hn. exists (cidr_entry <$> t_allow t). split.
    + pose proof (build_addrs_cidr inet_aton (t_allow t) [] Ht) as E. by destruct (t_allow t).
    + cbn [server_of ServerInfo.allow_list]. rewrite <- list_fmap_compose. done.
Qed.

(** Two servers, one of which has no process. *)
Definition demo_cidr_8 : cidr := MkCidr (str "127.0.0.1") (str "8") 2130706433 8.
Definition demo_inet_addr (s : list Z) : Z := if decide (s = str "127.0.0.1") then bswap32 2130706433 else 4294967295.

Definition demo_server (name : list Z) : server_text :=
  MkText (str "10") name (str "2023") (str "5023") (str "on") (str "256") (str "off") (str "test_pool") [demo_cidr_8].

Definition demo_element (name : list Z) : tree :=
  let leaf n s := Element (str n) (Some 1%nat) [Text s] in
  Element (str "server") (Some 1%nat)
    [leaf "debug"%string (str "10"); leaf "use_name"%string name; leaf "client_port"%string (str "2023"); leaf "manage_port"%string (str "5023");
     leaf "test"%string (str "on"); leaf "limit"%string (str "256"); leaf "sysreq"%string (str "off"); leaf "pool"%string (str "test_pool");
     Element (str "allow") (Some 1%nat) [leaf "ip"%string (str "127.0.0.1/8")]].

Definition demo_servers : document tree :=
  MkDocument (Some (Element (str "Helping") (Some 1%nat)
      [Text (str " "); Element (str "node") (Some 1%nat) [];
       Element (str "tn3270") (Some 1%nat) [Text (str " "); demo_element (str "first"); demo_element (str "second")]]))
    (fun _ => Some 1%nat).

Lemma demo_says name : (length name < 40)%nat ->
  server_says demo_inet_addr 1 (demo_server name) (demo_element name) /\ server_ok demo_inet_addr (demo_server name).
Proof.
  intros Hn. split.
  - repeat first [ apply reads_nil | (apply reads_say; [reflexivity|reflexivity|first [reflexivity | exact (f_equal Some (app_nil_r name))]|]) ].
    apply reads_say; [reflexivity|reflexivity| |apply reads_nil]. apply reads_say; [reflexivity|reflexivity|reflexivity|apply reads_nil].
  - split_and!; [exact Hn|cbn; lia|by eexists|by eexists|]. repeat constructor; try (cbn; lia); try discriminate; try (by vm_compute).
    apply (bool_decide_unpack _). by vm_compute.
Qed.

Lemma tn3270_main_serves_witness :
  main demo_inet_addr true (fun f => if decide (f = str "/tmp/x") then Some demo_servers else None) [(102, str "/tmp/x"); (100, str "5")] [true; false] =
    Some (Runs false [Serves (ServerInfo.Mk (array 40 (str "first")) 10 2023 5023 1 256 0 (array 40 (str "test_pool")) [MkAllow 16777343 255]); Sleeps]).
Proof.
  refine (eq_trans (proj1 (tn3270_main_serves demo_inet_addr _ 1 _ (str "/tmp/x") 5 demo_servers [demo_server (str "first"); demo_server (str "second")]
    [true; false] _ _ _ _ _)) _); [reflexivity|reflexivity| |discriminate|reflexivity|vm_compute; reflexivity].
  eexists. split.
  - eexists _, [Text (str " "); Element (str "node") (Some 1%nat) []], _, []. split_and!; try reflexivity. repeat constructor; discriminate.
  - apply collects_other; [left; discriminate|].
    apply collects_cons; [reflexivity|reflexivity|apply demo_says; cbn; lia|]. apply collects_cons; [reflexivity|reflexivity|apply demo_says; cbn; lia|].
    apply collects_nil.
Defined.
