(* ===== verification/Attach.v ===== *)
(** * libsna/libattach.c: the attach manager

    The functions of the library, each one system call.  The kernel is a class: it is
    given the operation and what the arguments point to, sets the result and, when it
    hands over an attach, fills the structure. *)
From S2P Require Import Prelude SnaUtility CpicSession.

Definition ATTACH_TP_REGISTER := 1.
Definition ATTACH_TP_UNREGISTER := 2.
Definition ATTACH_TP_CORRELATE := 3.
Definition ATTACH_OPEN := 4.
Definition ATTACH_LISTEN := 5.
Definition ATTACH_CLOSE := 6.

(** Of the structure what the library's user looks at: the name, an array of
    sixty-four characters, and the control block. *)
Record tp_attach : Type := MkTpAttach { tp_name : list Z; tcb_id : Z }.

Inductive arg : Type :=
  | Int (v : Z)
  | Chars (v : list Z)
  | Buffer.

Class Attach (K : Type) : Type := attachcall : Z -> list arg -> K -> Z * option tp_attach * K.

Section Attach.
Context {K : Type} `{Attach K}.

(** The result of the call. *)
Definition call_err (opcode : Z) (args : list arg) : M K Z := fun k => let '(err, _, k) := attachcall opcode args k in Ret err k.

(** The structure has a name, and zeros. *)
Definition tp_register (afd : Z) (name : list Z) : M K Z := call_err ATTACH_TP_REGISTER [Int afd; Chars name].
Definition tp_unregister (afd tp_index : Z) : M K Z := call_err ATTACH_TP_UNREGISTER [Int afd; Int tp_index].
Definition tp_correlate (afd pid tcb_id : Z) (tp_name : list Z) : M K Z :=
  call_err ATTACH_TP_CORRELATE [Int afd; Int pid; Int tcb_id; Chars tp_name];; mret 0.
Definition attach_open : M K Z := call_err ATTACH_OPEN [].
Definition attach_listen (afd : Z) (buf : tp_attach) (len flags : Z) : M K (Z * tp_attach) := fun k =>
  let '(err, filled, k) := attachcall ATTACH_LISTEN [Int afd; Buffer; Int len; Int flags] k in Ret (err, default buf filled) k.
Definition attach_close (afd : Z) : M K Z := call_err ATTACH_CLOSE [Int afd].
End Attach.

(** What the kernel's side of these calls knows (net/sna/attach.c of the kernel patch):
    the attaches that wait, the names that are registered, the correlations that were
    accepted, the descriptors that are open and the control blocks there are. *)
Record attach_view : Type := View {
  waiting : list tp_attach; registered : list (list Z); correlated : list (Z * Z * list Z); opened : list Z; known : list Z
}.

(** A name that is registered is not registered again (EEXIST). *)
Definition add_name (l : list (list Z)) (name : list Z) : list (list Z) := if decide (name ∈ l) then l else l ++ [name].

Definition takes_name (name : list Z) (v : attach_view) : attach_view :=
  View (waiting v) (add_name (registered v) name) (correlated v) (opened v) (known v).

(** A correlation with a control block that is not there is refused (EINVAL). *)
Definition takes_correlation (c : Z * Z * list Z) (v : attach_view) : attach_view :=
  View (waiting v) (registered v) (if decide (c.1.2 ∈ known v) then correlated v ++ [c] else correlated v) (opened v) (known v).

Definition takes_descriptor (fd : Z) (v : attach_view) : attach_view :=
  View (waiting v) (registered v) (correlated v) (opened v ++ [fd]) (known v).

Definition hands_over (l : list tp_attach) (v : attach_view) : attach_view :=
  View l (registered v) (correlated v) (opened v) (known v).

(** What is assumed of the kernel, whose memory is not short.  A descriptor is open when
    the call returned it; on an open descriptor, an attach that waits is handed over to
    the call that listens, a name is registered and a correlation taken.  (The patch
    leaves out the filling of the structure, under [#ifdef NOT]: that it is filled is
    what libattach and its user rely on.) *)
Class AttachLaws (K : Type) `{Attach K} : Type := {
  view : K -> attach_view;
  open_view k err filled k' : attachcall ATTACH_OPEN [] k = (err, filled, k') -> 0 <= err -> view k' = takes_descriptor err (view k);
  listen_view fd buf len flags k a l : fd ∈ opened (view k) -> waiting (view k) = a :: l ->
    exists err k', 0 <= err /\ attachcall ATTACH_LISTEN [Int fd; buf; Int len; Int flags] k = (err, Some a, k') /\ view k' = hands_over l (view k);
  register_view fd chars name k : fd ∈ opened (view k) -> string_at 0 chars = Some name ->
    view (attachcall ATTACH_TP_REGISTER [Int fd; Chars chars] k).2 = takes_name name (view k);
  correlate_view fd pid tcb name k : fd ∈ opened (view k) ->
    view (attachcall ATTACH_TP_CORRELATE [Int fd; Int pid; Int tcb; Chars name] k).2 = takes_correlation (pid, tcb, name) (view k)
}.

(** ** Such a kernel

    It is what it knows, and answers the four calls with the numbers of the patch: a new
    descriptor, the size of what was handed over, zero, or minus the number of an error;
    it refuses the others. *)
#[export] Instance view_attach : Attach attach_view := fun opcode args v =>
  if decide (opcode = ATTACH_OPEN) then (3 + Z.of_nat (length (opened v)), None, takes_descriptor (3 + Z.of_nat (length (opened v))) v) else
  match args with
  | Int fd :: args =>
      if decide (fd ∉ opened v) then (-9, None, v) else
      if decide (opcode = ATTACH_LISTEN) then
        match waiting v with
        | [] => (-512, None, v)
        | a :: l => (4, Some a, hands_over l v)
        end
      else if decide (opcode = ATTACH_TP_REGISTER) then
        match args with
        | [Chars chars] =>
            match string_at 0 chars with
            | Some name => (if decide (name ∈ registered v) then -17 else 0, None, takes_name name v)
            | None => (-22, None, v)
            end
        | _ => (-22, None, v)
        end
      else if decide (opcode = ATTACH_TP_CORRELATE) then
        match args with
        | [Int pid; Int tcb; Chars name] => (if decide (tcb ∈ known v) then 0 else -22, None, takes_correlation (pid, tcb, name) v)
        | _ => (-22, None, v)
        end
      else (-22, None, v)
  | _ => (-22, None, v)
  end.

#[export] Program Instance view_attach_laws : AttachLaws attach_view := {| view v := v |}.
Next Obligation. intros v err filled v' E _. cbn in E. unfold attachcall, view_attach in E. rewrite decide_True in E by done. by injection E as <- <- <-. Qed.
Next Obligation.
  intros fd buf len flags v a l Hfd Hw. exists 4, (hands_over l v). split; [done|]. split; [|done].
  unfold attachcall, view_attach. rewrite decide_False by done. rewrite decide_False by (intros Hn; exact (Hn Hfd)). by rewrite decide_True, Hw by done.
Qed.
Next Obligation.
  intros fd chars name v Hfd Hs. unfold attachcall, view_attach. rewrite decide_False by done. rewrite decide_False by (intros Hn; exact (Hn Hfd)).
  rewrite decide_False by done. by rewrite decide_True, Hs by done.
Qed.
Next Obligation.
  intros fd pid tcb name v Hfd. unfold attachcall, view_attach. rewrite decide_False by done. rewrite decide_False by (intros Hn; exact (Hn Hfd)).
  rewrite decide_False by done. rewrite decide_False by done. by rewrite decide_True by done.
Qed.
