(* ===== verification/Snatch.v ===== *)
(** * snatchd: the daemon that starts transaction programs

    snatchd/snatchd.c, snatchd/snatch_xml.c and snatchd/snatch_xwords.c, over the attach
    manager ([Attach]).  The circular list is a list ([SnaList]), an entry is named by
    its place in it.  The clock, [fork], the users and whether a program can be executed
    are parameters; what a process does until it executes another program or ends is a
    list of actions.  The daemon's loop has no end: it is given its number of turns.
    What is printed and logged is left out; memory is not short. *)
From S2P Require Import Prelude SnaUtility Xml CpicSession Attach.

Definition _PATH_SNATCHD_XML_HREF : list Z := str "http://www.linux-sna.org/sna".
Definition _PATH_SNATCHD_XML_TOP : list Z := str "snatchd".
Definition _PATH_SNATCHD_CONF : list Z := str "/etc/sna.xml".
Definition _PATH_SNATCHD_CONF_MAX : nat := 300.
Definition SNATCHD_PATH_MAX : nat := 300.
Definition SNATCHD_USER_MAX : nat := 100.
Definition CNT_INTVL := 60.

(** ** Structures *)

Module LocalTp.
Record local_tp_info : Type := Mk {
  name : list Z; type : Z; sync_level : Z; queued : Z; limit : Z; path : list Z; user : list Z;
  fd : Z; status : Z; pid : Z; count : Z; time : Z * Z
}.
#[export] Instance local_tp_info_members : Members local_tp_info := fun l =>
  Mk (name l) (type l) (sync_level l) (queued l) (limit l) (path l) (user l) (fd l) (status l) (pid l) (count l) (time l).
Definition fresh : local_tp_info := Mk (zeros 64) 0 0 0 0 (zeros SNATCHD_PATH_MAX) (zeros SNATCHD_USER_MAX) 0 0 0 0 (0, 0).
End LocalTp.
Export (hints) LocalTp.
Abbreviation local_tp_info := LocalTp.local_tp_info.

(** ** The configuration *)

Definition conversation_types : wordmap := [(Some (str "either"), 0); (Some (str "basic"), 1); (Some (str "mapped"), 2); (None, -1)].
Definition sync_levels : wordmap := [(Some (str "any"), 0); (Some (str "none"), 1); (Some (str "confirm"), 2); (None, -1)].

Section Config.
Context {N : Type} `{Xml N}.

Definition xword_conversation_type (cur : N) : option Z := xword_map conversation_types cur.
Definition xword_sync_level (cur : N) : option Z := xword_map sync_levels cur.

Definition tp_fields : list (list Z * (N -> local_tp_info -> option local_tp_info)) :=
  [(str "name", fill xword_strcpy LocalTp.name (assign LocalTp.name));
   (str "type", put xword_conversation_type (assign LocalTp.type));
   (str "sync", put xword_sync_level (assign LocalTp.sync_level));
   (str "queued", put xword_on_off (assign LocalTp.queued));
   (str "limit", put xword_int (assign LocalTp.limit));
   (str "user", fill xword_strcpy LocalTp.user (assign LocalTp.user));
   (str "path", fill xword_strcpy LocalTp.path (assign LocalTp.path))].

Definition snatch_parse_tp (ns : nat) (cur : N) : option local_tp_info :=
  parse_children equal_names (Some ns) tp_fields (xml_children cur) LocalTp.fresh.

Definition snatch_read_config_file (doc : option (document N)) : option (Z * list local_tp_info) :=
  match config_section _PATH_SNATCHD_XML_HREF _PATH_SNATCHD_XML_TOP doc with
  | None => Some (-1, [])
  | Some (ns, cur) => l ← collect ns (str "tp") (snatch_parse_tp ns) (xml_children cur) []; Some (0, l)
  end.
End Config.

(** ** The daemon *)

(** What a child does. *)
Inductive action : Type :=
  | Setgid (gid : Z)
  | Initgroups (name : list Z) (gid : Z)
  | Setuid (uid : Z)
  | Sig_preexec
  | Execl (path : list Z) (args : list (list Z))
  | Exits (code : Z).

Record passwd : Type := MkPasswd { pw_uid : Z; pw_gid : Z }.

Section Daemon.
Context {K : Type} `{Attach K}.
Context (gettimeofday : nat -> Z * Z) (fork : nat -> Z) (getpwnam : list Z -> option passwd) (execl_ok : list Z -> bool).

(** The kernel, the variables of the file, how often the clock was read and [fork] was
    called, and the processes that were started. *)
Record daemon : Type := MkDaemon {
  kern : K; afd : Z; tp_list : list local_tp_info; ticks : nat; forks : nat; started : list (Z * list action)
}.

#[export] Instance daemon_members : Members daemon := fun d => MkDaemon (kern d) (afd d) (tp_list d) (ticks d) (forks d) (started d).

Definition call {A} (m : M K A) : M daemon A := zoom kern (assign kern) m.
Definition get_time : M daemon (Z * Z) := d ← get_st; put_st (assign ticks (S (ticks d)) d);; mret (gettimeofday (ticks d)).
Definition get_tp (i : nat) : M daemon local_tp_info := gets (fun d => tp_list d !! i) ≫= of_opt.
Definition set_tp {T} (f : local_tp_info -> T) {_ : Assign f} (i : nat) (v : T) : M daemon unit :=
  modify (fun d => assign tp_list (alter (assign f v) i (tp_list d)) d).

(** [strcmp] of two arrays; [None] is an array without an end. *)
Definition same_name (a b : list Z) : option bool := a ← string_at 0 a; b ← string_at 0 b; Some (bool_decide (a = b)).

(** The place of the first with the name. *)
Fixpoint snatch_tp_get_by_name (name : list Z) (l : list local_tp_info) : option (option nat) :=
  match l with
  | [] => Some None
  | tp :: l => b ← same_name (LocalTp.name tp) name; if (b : bool) then Some (Some O) else r ← snatch_tp_get_by_name name l; Some (match r with Some i => Some (S i) | None => None end)
  end.

Fixpoint snatch_tp_get_by_pid (pid : Z) (l : list local_tp_info) : option nat :=
  match l with
  | [] => None
  | tp :: l => if decide (LocalTp.pid tp = pid) then Some O else S <$> snatch_tp_get_by_pid pid l
  end.

(** [grp] is never set, so the groups of a root process stay. *)
Definition snatch_exec_tp (l_tp : local_tp_info) : option (list action) :=
  user ← string_at 0 (LocalTp.user l_tp);
  match getpwnam user with
  | None => Some []
  | Some pwd =>
      path ← string_at 0 (LocalTp.path l_tp);
      Some ((if decide (pw_uid pwd <> 0) then [Setgid (pw_gid pwd); Initgroups user (pw_gid pwd); Setuid (pw_uid pwd)] else []) ++
            [Sig_preexec; Execl path []])
  end.

(** The child's part of [snatch_launch]: what follows only if no program was executed. *)
Definition child (l_tp : local_tp_info) : option (list action) :=
  l ← snatch_exec_tp l_tp;
  Some (match List.last l (Exits 0) with
        | Execl path _ => if execl_ok path then l else l ++ [Exits 1]
        | _ => l ++ [Exits 1]
        end).

(** A call of [fork]: the child of the parent's entry, or none. *)
Definition fork_child (i : nat) : M daemon Z :=
  d ← get_st;
  put_st (assign forks (S (forks d)) d);;
  mret (fork (forks d)).

Definition snatch_fork_tp (i : nat) : M daemon Z :=
  l_tp ← get_tp i;
  (if decide (INT_MAX <= LocalTp.count l_tp) then undef else mret tt);;
  let count := LocalTp.count l_tp + 1 in
  set_tp LocalTp.count i count;;
  if decide (LocalTp.count l_tp = 0) then
    now ← get_time;
    set_tp LocalTp.time i now;;
    fork_child i
  else if decide (LocalTp.limit l_tp <= count) then
    now ← get_time;
    if decide (CNT_INTVL < now.1 - (LocalTp.time l_tp).1) then
      set_tp LocalTp.time i now;;
      set_tp LocalTp.count i 1;;
      fork_child i
    else
      set_tp LocalTp.count i 0;;
      mret (-1)
  else fork_child i.

(** The child starts with the entry as it is then. *)
Definition snatch_launch (i : nat) (tp : tp_attach) : M daemon unit :=
  pid ← snatch_fork_tp i;
  if decide (pid < 0) then mret tt else
  l_tp ← get_tp i;
  acts ← of_opt (child l_tp);
  modify (fun d => assign started (started d ++ [(pid, acts)]) d);;
  fd ← gets afd;
  call (tp_correlate fd pid (tcb_id tp) (tp_name tp));;
  mret tt.

Definition snatch_setup_tp (i : nat) : M daemon Z :=
  l_tp ← get_tp i;
  name ← of_opt (string_at 0 (LocalTp.name l_tp));
  name ← of_opt (store 0 (name ++ [0]) (zeros 64));
  fd ← gets afd;
  err ← call (tp_register fd name);
  if decide (err < 0) then mret err else
  set_tp LocalTp.fd i err;;
  mret 0.

Fixpoint load_from (i n : nat) : M daemon unit :=
  match n with
  | O => mret tt
  | S n => snatch_setup_tp i;; load_from (S i) n
  end.

Definition snatch_load_tp_list : M daemon Z :=
  l ← gets tp_list;
  load_from 0 (length l);;
  mret 0.

(** [sizeof(struct tp_attach)]. *)
Context (sizeof_tp_attach : Z).

(** A turn of the loop. *)
Definition direct : M daemon unit :=
  fd ← gets afd;
  '(err, r_tp) ← call (attach_listen fd (MkTpAttach (zeros 64) 0) sizeof_tp_attach 0);
  if decide (err < 0) then mret tt else
  l ← gets tp_list;
  l_tp ← of_opt (snatch_tp_get_by_name (tp_name r_tp) l);
  match l_tp with
  | None => mret tt
  | Some i => snatch_launch i r_tp
  end.

Fixpoint directs (turns : nat) : M daemon unit :=
  match turns with
  | O => mret tt
  | S turns => direct;; directs turns
  end.

(** [err] is returned without a value when nothing can be opened. *)
Definition snatch_director (turns : nat) : M daemon unit :=
  fd ← call attach_open;
  modify (assign afd fd);;
  if decide (fd < 0) then undef else
  snatch_load_tp_list;;
  directs turns.

(** The loop of the handler takes out entry after entry. *)
Fixpoint unregister (l : list local_tp_info) : M daemon unit :=
  match l with
  | [] => mret tt
  | l_tp :: l =>
      fd ← gets afd;
      call (tp_unregister fd (LocalTp.fd l_tp));;
      modify (assign tp_list l);;
      unregister l
  end.

Definition snatch_goaway : M daemon unit :=
  l ← gets tp_list;
  unregister l;;
  fd ← gets afd;
  call (attach_close fd);;
  c_exit 0.

(** ** Starting *)

Context {N : Type} `{Xml N}.

(** The options as [getopt] returns them: the file and [nodaemon], or the end. *)
Fixpoint read_options (options : list (Z * list Z)) (config_file : list Z) (nodaemon : Z) : option (Z + list Z * Z) :=
  match options with
  | [] => Some (inr (config_file, nodaemon))
  | (c, optarg) :: options =>
      if decide (c = 100) then read_options options config_file (strtol 10 optarg).1
      else if decide (c = 102) then
        if decide (_PATH_SNATCHD_CONF_MAX <= length optarg)%nat then None else read_options options optarg nodaemon
      else Some (inl 1)
  end.

(** The program up to the daemon's loop and [turns] of its turns. *)
Definition main (xmlParseFile : list Z -> option (document N)) (options : list (Z * list Z)) (turns : nat) : M daemon unit :=
  o ← of_opt (read_options options _PATH_SNATCHD_CONF 0);
  match o with
  | inl code => c_exit code
  | inr (config_file, _) =>
      '(err, l) ← of_opt (snatch_read_config_file (xmlParseFile config_file));
      modify (assign tp_list l);;
      if decide (err < 0) then c_exit err else
      if decide (l = []) then c_exit 0 else
      snatch_director turns
  end.
End Daemon.
Arguments daemon K : clear implicits.

(** ** Steps *)

Lemma alter_at {A} (f : A -> A) (l : list A) i x : l !! i = Some x -> alter f i l = <[i := f x]> l.
Proof. revert i. induction l as [|y l IH]; intros [|i] Hl; [done|done|by injection Hl as ->|]. cbn. f_equal. by apply IH. Qed.

Section Steps.
Context {K : Type} `{Attach K}.
Context (gettimeofday : nat -> Z * Z) (fork : nat -> Z).
Implicit Types d : daemon K.

Definition with_tps (l : list local_tp_info) d : daemon K := MkDaemon (kern d) (afd d) l (ticks d) (forks d) (started d).

Lemma get_tp_run i l d : tp_list d !! i = Some l -> get_tp i d = Ret l d.
Proof. intros Hl. unfold get_tp, gets, mbind, M_bind. by rewrite Hl. Qed.

Lemma set_tp_run {T} (f : local_tp_info -> T) {_ : Assign f} i v l d : tp_list d !! i = Some l ->
  set_tp f i v d = Ret tt (with_tps (<[i := assign f v l]> (tp_list d)) d).
Proof. intros Hl. unfold set_tp, modify, with_tps, assign at 1. f_equal. f_equal. by apply alter_at. Qed.

Lemma set_tp_again {T} (f : local_tp_info -> T) {_ : Assign f} i v l l1 (d : daemon K) : tp_list d !! i = Some l ->
  set_tp f i v (with_tps (<[i := l1]> (tp_list d)) d) = Ret tt (with_tps (<[i := assign f v l1]> (tp_list d)) d).
Proof.
  intros Hl. rewrite (set_tp_run f i v l1) by (cbn; by eapply list_lookup_insert_eq, lookup_lt_Some). cbn. unfold with_tps. cbn.
  by rewrite list_insert_insert_eq.
Qed.

Definition ticked d : daemon K := MkDaemon (kern d) (afd d) (tp_list d) (S (ticks d)) (forks d) (started d).
Definition forked d : daemon K := MkDaemon (kern d) (afd d) (tp_list d) (ticks d) (S (forks d)) (started d).

Lemma get_time_run l d : get_time gettimeofday (with_tps l d) = Ret (gettimeofday (ticks d)) (with_tps l (ticked d)).
Proof. done. Qed.

Lemma fork_child_run i l d : fork_child fork i (with_tps l d) = Ret (fork (forks d)) (with_tps l (forked d)).
Proof. done. Qed.

(** What an entry was configured with. *)
Definition same_tp (l l' : local_tp_info) : Prop :=
  LocalTp.name l' = LocalTp.name l /\ LocalTp.limit l' = LocalTp.limit l /\ LocalTp.path l' = LocalTp.path l /\ LocalTp.user l' = LocalTp.user l.

(** The number of attempts after which one is refused. *)
Definition burst (limit : Z) : Z := Z.max 2 limit.

(** The clock's readings do not lie apart more than the interval. *)
Definition within (gettimeofday : nat -> Z * Z) : Prop := forall t t', (gettimeofday t').1 - (gettimeofday t).1 <= CNT_INTVL.

(** The count is that of the attempts, and while it is not zero there is a time. *)
Definition counts (n : Z) (l : local_tp_info) : Prop :=
  LocalTp.count l = n mod burst (LocalTp.limit l) /\ (LocalTp.count l <> 0 -> exists t, LocalTp.time l = gettimeofday t).

Lemma next_mod n m : 2 <= m -> (n + 1) mod m = if decide (n mod m + 1 = m) then 0 else n mod m + 1.
Proof.
  intros Hm. rewrite <- Z.add_mod_idemp_l by lia. pose proof (Z.mod_pos_bound n m ltac:(lia)). case_decide as E.
  - rewrite E. by apply Z_mod_same_full.
  - apply Z.mod_small. lia.
Qed.

(** What an attempt does to the entry: it is another of a burst, or would complete it
    and starts another, the interval being over, or is dropped. *)
Inductive attempt (now : Z * Z) (l : local_tp_info) : bool -> local_tp_info -> Prop :=
  | attempt_first : LocalTp.count l = 0 -> attempt now l true (assign LocalTp.time now (assign LocalTp.count 1 l))
  | attempt_next : LocalTp.count l <> 0 -> LocalTp.count l + 1 < burst (LocalTp.limit l) -> attempt now l true (assign LocalTp.count (LocalTp.count l + 1) l)
  | attempt_over : LocalTp.count l + 1 = burst (LocalTp.limit l) -> CNT_INTVL < now.1 - (LocalTp.time l).1 ->
      attempt now l true (assign LocalTp.count 1 (assign LocalTp.time now (assign LocalTp.count (LocalTp.count l + 1) l)))
  | attempt_dropped : LocalTp.count l + 1 = burst (LocalTp.limit l) -> now.1 - (LocalTp.time l).1 <= CNT_INTVL ->
      attempt now l false (assign LocalTp.count 0 (assign LocalTp.count (LocalTp.count l + 1) l)).

Lemma burst_two limit : limit <= INT_MAX -> 2 <= burst limit <= INT_MAX.
Proof. unfold burst, INT_MAX. lia. Qed.

Lemma fork_tp_attempt i l d : tp_list d !! i = Some l -> LocalTp.limit l <= INT_MAX -> 0 <= LocalTp.count l < burst (LocalTp.limit l) ->
  exists b l' tk, attempt (gettimeofday (ticks d)) l b l' /\ (ticks d <= tk)%nat /\
    snatch_fork_tp gettimeofday fork i d =
    Ret (if (b : bool) then fork (forks d) else -1) (MkDaemon (kern d) (afd d) (<[i := l']> (tp_list d)) tk (if b then S (forks d) else forks d) (started d)).
Proof.
  intros Hl Hi Hn. pose proof (burst_two _ Hi) as Hb. unfold snatch_fork_tp. rewrite (M_bind_Ret _ _ _ _ _ (get_tp_run i l d Hl)).
  rewrite (decide_False (P := INT_MAX <= _)) by lia. rewrite M_ret_bind, (M_bind_Ret _ _ _ _ _ (set_tp_run LocalTp.count i _ l d Hl)).
  destruct (decide (LocalTp.count l = 0)) as [H0|H0].
  - exists true. do 2 eexists. split; [by apply attempt_first|]. split; [|rewrite H0; rewrite (M_bind_Ret _ _ _ _ _ (get_time_run _ d));
      rewrite (M_bind_Ret _ _ _ _ _ (set_tp_again LocalTp.time i _ l _ (ticked d) Hl)), fork_child_run; reflexivity]. cbn. lia.
  - destruct (decide (LocalTp.limit l <= LocalTp.count l + 1)) as [Hlim|Hlim].
    + rewrite (M_bind_Ret _ _ _ _ _ (get_time_run _ d)). assert (LocalTp.count l + 1 = burst (LocalTp.limit l)) as Hf by (unfold burst in *; lia).
      destruct (decide (CNT_INTVL < (gettimeofday (ticks d)).1 - (LocalTp.time l).1)).
      * exists true. do 2 eexists. split; [by apply attempt_over|]. split; [|rewrite (M_bind_Ret _ _ _ _ _ (set_tp_again LocalTp.time i _ l _ (ticked d) Hl));
          rewrite (M_bind_Ret _ _ _ _ _ (set_tp_again LocalTp.count i _ l _ (ticked d) Hl)), fork_child_run; reflexivity]. cbn. lia.
      * exists false. do 2 eexists. split; [apply attempt_dropped; [done|lia]|]. split;
          [|rewrite (M_bind_Ret _ _ _ _ _ (set_tp_again LocalTp.count i _ l _ (ticked d) Hl)); reflexivity]. cbn. lia.
    + exists true. do 2 eexists. split; [apply attempt_next; [done|unfold burst in *; lia]|]. split; [|rewrite fork_child_run; reflexivity]. cbn. lia.
Qed.

Lemma attempt_same now l b l' : attempt now l b l' -> same_tp l l'.
Proof. by destruct 1. Qed.

Lemma fork_tp_counts i l d n : within gettimeofday -> tp_list d !! i = Some l -> LocalTp.limit l <= INT_MAX -> counts n l ->
  exists l' r t, same_tp l l' /\ counts (n + 1) l' /\
    (r, t) = (if decide ((n + 1) mod burst (LocalTp.limit l) = 0) then (-1, forks d) else (fork (forks d), S (forks d))) /\
    exists ticks', snatch_fork_tp gettimeofday fork i d = Ret r (MkDaemon (kern d) (afd d) (<[i := l']> (tp_list d)) ticks' t (started d)).
Proof.
  intros Hw Hl Hi [Hc Ht]. pose proof (burst_two _ Hi) as Hb. pose proof (Z.mod_pos_bound n (burst (LocalTp.limit l)) ltac:(lia)) as Hn.
  destruct (fork_tp_attempt i l d Hl Hi) as (b & l' & tk & Ha & _ & E); [by rewrite Hc|]. exists l', (if b then fork (forks d) else -1), (if b then S (forks d) else forks d).
  split; [by apply (attempt_same _ _ _ _ Ha)|]. pose proof (next_mod n (burst (LocalTp.limit l)) ltac:(lia)) as Hm. rewrite <- Hc in Hm.
  unfold counts. destruct (attempt_same _ _ _ _ Ha) as (_ & -> & _). rewrite Hm.
  destruct Ha as [H0|H0 H1|H1 H2|H1 H2].
  - rewrite !(decide_False (P := LocalTp.count l + 1 = _)) by lia.
    split; [split; [cbn; lia|by exists (ticks d)]|]. split; [done|by exists tk].
  - rewrite !(decide_False (P := LocalTp.count l + 1 = _)) by lia.
    split; [split; [done|intros _; by apply Ht]|]. split; [done|by exists tk].
  - destruct Ht as [t Et]; [lia|]. rewrite Et in H2. specialize (Hw t (ticks d)). lia.
  - rewrite !(decide_True (P := LocalTp.count l + 1 = _)) by done. rewrite decide_True by done. split; [split; [done|by intros []]|]. split; [done|by exists tk].
Qed.

(** *** Without a bound on the time *)

(** Attempts for an entry, one after the other. *)
Fixpoint attempts_for (n i : nat) : M (daemon K) (list Z) :=
  match n with
  | O => mret []
  | S n => r ← snatch_fork_tp gettimeofday fork i; l ← attempts_for n i; mret (r :: l)
  end.
Definition in_range (l : local_tp_info) : Prop := LocalTp.limit l <= INT_MAX /\ 0 <= LocalTp.count l < burst (LocalTp.limit l).

Lemma attempt_in_range now l b l' : in_range l -> attempt now l b l' -> in_range l'.
Proof.
  intros [Hi Hc] Ha. pose proof (burst_two _ Hi) as Hb. unfold in_range. destruct (attempt_same _ _ _ _ Ha) as (_ & -> & _). split; [done|].
  destruct Ha; unfold assign; cbn [LocalTp.count]; lia.
Qed.

(** An attempt and what comes after it. *)
Lemma attempts_step n i (l : local_tp_info) d : tp_list d !! i = Some l -> in_range l ->
  exists b l' d1, attempt (gettimeofday (ticks d)) l b l' /\ in_range l' /\ tp_list d1 !! i = Some l' /\ (ticks d <= ticks d1)%nat /\
    attempts_for (S n) i d = (rs ← attempts_for n i; mret ((if (b : bool) then fork (forks d) else -1) :: rs)) d1.
Proof.
  intros Hl [Hi Hc]. destruct (fork_tp_attempt i l d Hl Hi Hc) as (b & l' & tk & Ha & Htk & E). eexists b, l', _. split; [done|].
  split; [by apply (attempt_in_range _ _ _ _ (conj Hi Hc) Ha)|]. cbn [attempts_for]. rewrite (M_bind_Ret _ _ _ _ _ E).
  split; [|split; [|reflexivity]]; [cbn; by eapply list_lookup_insert_eq, lookup_lt_Some|done].
Qed.

Lemma attempts_run n i (l : local_tp_info) d : tp_list d !! i = Some l -> in_range l ->
  exists rs d' l', attempts_for n i d = Ret rs d' /\ tp_list d' !! i = Some l' /\ in_range l'.
Proof.
  revert l d. induction n as [|n IH]; intros l d Hl Hr; [by exists [], d, l|].
  destruct (attempts_step n i l d Hl Hr) as (b & l1 & d1 & _ & Hr1 & Hl1 & _ & ->). destruct (IH l1 d1 Hl1 Hr1) as (rs & d' & l' & E & H').
  rewrite (M_bind_Ret _ _ _ _ _ E). by do 3 eexists.
Qed.

(** Within the interval from the first of them a burst is completed. *)
Definition refused (n i : nat) d : Prop := exists rs d' l', attempts_for n i d = Ret rs d' /\ tp_list d' !! i = Some l' /\ in_range l' /\ -1 ∈ rs.

Lemma refused_now n i (l l' : local_tp_info) d d1 : attempts_for (S n) i d = (rs ← attempts_for n i; mret (-1 :: rs)) d1 -> tp_list d1 !! i = Some l' -> in_range l' ->
  refused (S n) i d.
Proof.
  intros E Hl Hr. destruct (attempts_run n i l' d1 Hl Hr) as (rs & d' & l2 & E' & H'). unfold refused. rewrite E, (M_bind_Ret _ _ _ _ _ E').
  do 3 eexists. split; [done|]. destruct_and! H'. split_and!; [done..|left].
Qed.

Lemma refused_later n i d r d1 : attempts_for (S n) i d = (rs ← attempts_for n i; mret (r :: rs)) d1 -> refused n i d1 -> refused (S n) i d.
Proof.
  intros E (rs & d' & l' & E' & H'). unfold refused. rewrite E, (M_bind_Ret _ _ _ _ _ E'). do 3 eexists. split; [done|].
  destruct_and! H'. split_and!; [done..|by right].
Qed.

Definition within_from (T : nat) : Prop := forall t t', (T <= t)%nat -> (T <= t')%nat -> (gettimeofday t').1 - (gettimeofday t).1 <= CNT_INTVL.

Lemma refused_fresh T n i (l : local_tp_info) d : within_from T -> (T <= ticks d)%nat -> tp_list d !! i = Some l -> in_range l ->
  LocalTp.count l <> 0 -> (exists t, (T <= t)%nat /\ LocalTp.time l = gettimeofday t) -> burst (LocalTp.limit l) - LocalTp.count l <= Z.of_nat n -> refused n i d.
Proof.
  intros HT. revert l d. induction n as [|n IH]; intros l d Htk Hl Hr H0 (t & Ht & Et) Hn; [destruct Hr; lia|].
  destruct (attempts_step n i l d Hl Hr) as (b & l1 & d1 & Ha & Hr1 & Hl1 & Htk1 & E). destruct Ha as [Hx|_ Hx|H1 H2|H1 H2]; [done| | |].
  - eapply refused_later; [exact E|]. refine (IH _ d1 _ Hl1 Hr1 _ _ _); [lia|..]; unfold assign; cbn [LocalTp.count LocalTp.limit LocalTp.time]; [destruct Hr; lia|by exists t|lia].
  - rewrite Et in H2. specialize (HT t (ticks d) Ht Htk). lia.
  - by eapply refused_now.
Qed.

Lemma refused_any T n i (l : local_tp_info) d : within_from T -> (T <= ticks d)%nat -> tp_list d !! i = Some l -> in_range l ->
  (if decide (LocalTp.count l = 0) then 1 else burst (LocalTp.limit l) - LocalTp.count l) + (burst (LocalTp.limit l) - 1) <= Z.of_nat n -> refused n i d.
Proof.
  intros HT. revert l d. induction n as [|n IH]; intros l d Htk Hl Hr Hn; pose proof Hr as [Hi Hc]; pose proof (burst_two _ Hi) as Hb; [case_decide; lia|].
  destruct (attempts_step n i l d Hl Hr) as (b & l1 & d1 & Ha & Hr1 & Hl1 & Htk1 & E). destruct Ha as [H0|H0 H1|H1 H2|H1 H2].
  - rewrite decide_True in Hn by done. eapply refused_later; [exact E|].
    refine (refused_fresh T n i _ d1 HT ltac:(lia) Hl1 Hr1 _ _ _); unfold assign; cbn [LocalTp.count LocalTp.limit LocalTp.time]; [lia|by exists (ticks d)|lia].
  - rewrite decide_False in Hn by done. eapply refused_later; [exact E|]. refine (IH _ d1 _ Hl1 Hr1 _); [lia|].
    unfold assign; cbn [LocalTp.count LocalTp.limit]. rewrite decide_False by lia. lia.
  - rewrite decide_False in Hn by lia. eapply refused_later; [exact E|].
    refine (refused_fresh T n i _ d1 HT ltac:(lia) Hl1 Hr1 _ _ _); unfold assign; cbn [LocalTp.count LocalTp.limit LocalTp.time]; [lia|by exists (ticks d)|lia].
  - by eapply refused_now.
Qed.
End Steps.

(** ** What is to be started *)

(** The programs of a configuration, as text. *)
Record tp_text : Type := MkText { t_name : list Z; t_type : list Z; t_sync : list Z; t_queued : list Z; t_limit : list Z; t_user : list Z; t_path : list Z }.

Definition tp_of (t : tp_text) : local_tp_info :=
  LocalTp.Mk (array 64 (t_name t)) (word_of conversation_types (t_type t)) (word_of sync_levels (t_sync t)) (word_of on_types (t_queued t))
    (int_of (t_limit t)) (array SNATCHD_PATH_MAX (t_path t)) (array SNATCHD_USER_MAX (t_user t)) 0 0 0 0 (0, 0).

Definition tp_ok (t : tp_text) : Prop :=
  (length (t_name t) < 64)%nat /\ (length (t_user t) < SNATCHD_USER_MAX)%nat /\ (length (t_path t) < SNATCHD_PATH_MAX)%nat /\
  no_nul (t_name t) /\ no_nul (t_user t) /\ no_nul (t_path t) /\
  is_Some (map_word conversation_types (t_type t)) /\ is_Some (map_word sync_levels (t_sync t)) /\ is_Some (map_word on_types (t_queued t)).

Section Texts.
Context {N : Type} `{Xml N} (ns : nat).

Definition tp_says (t : tp_text) (c : N) : Prop :=
  reads equal_names ns tp_fields (xml_children c)
    [(str "name", says (t_name t)); (str "type", says (t_type t)); (str "sync", says (t_sync t)); (str "queued", says (t_queued t));
     (str "limit", says (t_limit t)); (str "user", says (t_user t)); (str "path", says (t_path t))].

Definition tps_document (l : list tp_text) (doc : document N) : Prop :=
  exists cs, has_section _PATH_SNATCHD_XML_HREF _PATH_SNATCHD_XML_TOP ns doc cs /\ collects ns (str "tp") (fun t c => tp_says t c /\ tp_ok t) cs l.

Lemma tp_read t c : tp_says t c -> tp_ok t -> snatch_parse_tp ns c = Some (tp_of t).
Proof.
  intros Hr Hok. unfold tp_ok in Hok. destruct_and! Hok. eapply parse_runs; [exact equal_names_refl|exact Hr|by right|by vm_compute|].
  repeat entry_by ltac:(fun Hc => unfold xword_conversation_type, xword_sync_level; read_common Hc) ltac:(unfold assign; cbn -[zeros array int_of word_of]). constructor.
Qed.

Lemma document_tps l doc : tps_document l doc -> snatch_read_config_file (Some doc) = Some (0, tp_of <$> l) /\ Forall tp_ok l.
Proof.
  intros (cs & Hs & Hl). split.
  - destruct (section_found _ _ _ _ _ Hs) as (node & Hn & <-). unfold snatch_read_config_file. rewrite Hn.
    by rewrite (collect_read _ _ _ _ tp_of _ _ [] (fun t c H => tp_read t c (proj1 H) (proj2 H)) Hl).
  - by eapply collects_Forall, Hl; intros t c [? ?].
Qed.
End Texts.

(** The first program of a name. *)
Fixpoint program (name : list Z) (l : list tp_text) : option tp_text :=
  match l with
  | [] => None
  | t :: l => if decide (t_name t = name) then Some t else program name l
  end.

(** The attempts before, by name. *)
Definition attempts (name : list Z) (seen : list (list Z)) : Z := Z.of_nat (length (filter (fun n => n = name) seen)).

(** Every attach of a program's name starts it, but for each that would complete a
    burst. *)
Fixpoint launches {A} (l : list tp_text) (seen : list (list Z)) (arrivals : list (list Z * A)) : list (tp_text * A) :=
  match arrivals with
  | [] => []
  | (name, a) :: arrivals =>
      match program name l with
      | Some t => if decide ((attempts name seen + 1) mod burst (int_of (t_limit t)) = 0) then [] else [(t, a)]
      | None => []
      end ++ launches l (seen ++ [name]) arrivals
  end.

(** The process of a program: its user's, or none if there is no such user. *)
Definition process (getpwnam : list Z -> option passwd) (execl_ok : list Z -> bool) (t : tp_text) : list action :=
  match getpwnam (t_user t) with
  | None => [Exits 1]
  | Some pwd =>
      (if decide (pw_uid pwd <> 0) then [Setgid (pw_gid pwd); Initgroups (t_user t) (pw_gid pwd); Setuid (pw_uid pwd)] else []) ++
      [Sig_preexec; Execl (t_path t) []] ++ (if execl_ok (t_path t) then [] else [Exits 1])
  end.

(** ** The daemon starts it *)

(** No program before it in the list has its name. *)
Definition first_at (l : list tp_text) (i : nat) (name : list Z) : Prop := forall j t, (j < i)%nat -> l !! j = Some t -> t_name t <> name.

Section Serves.
Context {K : Type} `{AttachLaws K}.
Context (gettimeofday : nat -> Z * Z) (fork : nat -> Z) (getpwnam : list Z -> option passwd) (execl_ok : list Z -> bool) (size : Z).
Context (Hclock : within gettimeofday) (Hfork : forall n, 0 < fork n).
Implicit Types d : daemon K.

(** The entries are those of the configuration, and their counts those of the attempts. *)
Definition tracks (ts : list tp_text) (seen : list (list Z)) (tps : list local_tp_info) : Prop :=
  Forall2 (fun t l => same_tp (tp_of t) l) ts tps /\
  forall i t l, ts !! i = Some t -> tps !! i = Some l -> first_at ts i (t_name t) -> counts gettimeofday (attempts (t_name t) seen) l.

Lemma by_name ts tps a name : Forall tp_ok ts -> Forall2 (fun t l => same_tp (tp_of t) l) ts tps -> string_at 0 a = Some name ->
  exists r, snatch_tp_get_by_name a tps = Some r /\
    match r with
    | None => program name ts = None
    | Some i => exists t, program name ts = Some t /\ ts !! i = Some t /\ t_name t = name /\ first_at ts i name
    end.
Proof.
  intros Hok Hs Ha. induction Hs as [|t l ts tps Ht _ IH]; [by exists None|]. apply Forall_cons in Hok as [Hok Hoks].
  destruct (IH Hoks) as (r & E & Hr). cbn [snatch_tp_get_by_name program]. unfold same_name. destruct Ht as (-> & _). destruct Hok as (Hl & _ & _ & Hn & _).
  cbn [tp_of LocalTp.name]. rewrite array_string, Ha by done. cbn [mbind option_bind].
  destruct (decide (t_name t = name)) as [Hname|Hname].
  - rewrite bool_decide_true by done. exists (Some 0%nat). split; [done|]. exists t. split_and!; [done..|]. intros j t' Hj. lia.
  - rewrite bool_decide_false by done. rewrite E. cbn [mbind option_bind]. eexists. split; [done|]. destruct r as [i|]; [|done].
    destruct Hr as (t' & Hp & Ht' & Hname' & Hf). exists t'. split_and!; [done..|]. intros [|j] t1 Hj Ht1; [by injection Ht1 as <-|]. eapply Hf, Ht1. lia.
Qed.

Lemma child_process t l : tp_ok t -> same_tp (tp_of t) l -> child getpwnam execl_ok l = Some (process getpwnam execl_ok t).
Proof.
  intros (_ & Hu & Hp & _ & Hun & Hpn & _) (_ & _ & Ep & Eu). unfold child, snatch_exec_tp, process. rewrite Eu. cbn [tp_of LocalTp.user LocalTp.path] in *.
  rewrite array_string by done. cbn [mbind option_bind]. destruct (getpwnam (t_user t)) as [pwd|]; [|done]. rewrite Ep, array_string by done. cbn [mbind option_bind].
  by case_decide; cbn; destruct (execl_ok (t_path t)).
Qed.

Lemma attempts_snoc name n seen : attempts n (seen ++ [name]) = attempts n seen + if decide (name = n) then 1 else 0.
Proof.
  unfold attempts. rewrite filter_app, length_app. case_decide; [rewrite filter_cons_True by done|rewrite filter_cons_False by done]; cbn; lia.
Qed.

(** Attempts for a program that is not the first of its name, or of another, do not count. *)
Lemma tracks_other ts seen name tps : tracks ts seen tps -> program name ts = None -> tracks ts (seen ++ [name]) tps.
Proof.
  intros [Hs Hc] Hp. split; [done|]. intros i t l Ht Hl Hf. rewrite attempts_snoc. rewrite decide_False, Z.add_0_r; [by apply (Hc i)|].
  intros ->. clear - Ht Hp. revert i Ht. induction ts as [|t' ts IH]; intros [|i] Ht; [done|done| |]; cbn [program] in Hp; case_decide; try done; [by injection Ht as ->|by eapply IH].
Qed.

Lemma tracks_count ts seen tps i t l l' : tracks ts seen tps -> ts !! i = Some t -> tps !! i = Some l -> first_at ts i (t_name t) ->
  same_tp l l' -> counts gettimeofday (attempts (t_name t) seen + 1) l' -> tracks ts (seen ++ [t_name t]) (<[i := l']> tps).
Proof.
  intros [Hs Hc] Ht Hl Hf Hsame Hc'. pose proof (Forall2_lookup_lr _ _ _ _ _ _ Hs Ht Hl) as Hs'. split.
  - rewrite <- (list_insert_id ts i t Ht). apply Forall2_insert; [done|]. unfold same_tp in *. destruct_and! Hsame. destruct_and! Hs'. split_and!; congruence.
  - intros j t' l1 Ht' Hl1 Hf'. rewrite attempts_snoc. destruct (decide (i = j)) as [<-|Hij].
    + rewrite Ht in Ht'. injection Ht' as <-. rewrite decide_True by done. rewrite list_lookup_insert_eq in Hl1 by (by eapply lookup_lt_Some). by injection Hl1 as <-.
    + rewrite list_lookup_insert_ne in Hl1 by done. rewrite decide_False, Z.add_0_r; [by apply (Hc j)|]. intros Hname.
      destruct (decide (i < j)%nat); [by apply (Hf' i t)|]. apply (Hf j t'); [lia|done|done].
Qed.

Lemma int_of_max s : int_of s <= INT_MAX.
Proof.
  unfold int_of, strtol. destruct (match skip_blanks s with 45 :: t => (true, t) | 43 :: t => (false, t) | t => (false, t) end) as [neg t].
  destruct (base_prefix 10 t) as [base [|c t']]; [cbn; unfold INT_MAX; lia|]. destruct (digit_in base c); [|cbn; unfold INT_MAX; lia].
  destruct (digits _ _ _). cbn [fst]. unfold long_clamp, INT_MAX. lia.
Qed.

(** The processes of what is launched, from the n-th call of [fork], and the correlations
    that the kernel takes: those whose control block it knows. *)
Definition processes (n : nat) (l : list (tp_text * tp_attach)) : list (Z * list action) :=
  imap (fun i p => (fork (n + i)%nat, process getpwnam execl_ok p.1)) l.
Definition correlations (tcbs : list Z) (n : nat) (l : list (tp_text * tp_attach)) : list (Z * Z * list Z) :=
  filter (fun c => c.1.2 ∈ tcbs) (imap (fun i p => (fork (n + i)%nat, tcb_id p.2, tp_name p.2)) l).

Lemma processes_app n l l' : processes n (l ++ l') = processes n l ++ processes (n + length l) l'.
Proof. unfold processes. rewrite imap_app. f_equal. apply imap_ext. intros i x _. cbn. by rewrite Nat.add_assoc. Qed.
Lemma correlations_app tcbs n l l' : correlations tcbs n (l ++ l') = correlations tcbs n l ++ correlations tcbs (n + length l) l'.
Proof. unfold correlations. rewrite imap_app, filter_app. do 2 f_equal. apply imap_ext. intros i x _. cbn. by rewrite Nat.add_assoc. Qed.

Lemma correlations_one tcbs n t a :
  correlations tcbs n [(t, a)] = if decide (tcb_id a ∈ tcbs) then [(fork n, tcb_id a, tp_name a)] else [].
Proof.
  unfold correlations. change (imap _ [(t, a)]) with [(fork (n + 0)%nat, tcb_id a, tp_name a)]. rewrite Nat.add_0_r.
  case_decide; [by rewrite filter_cons_True|by rewrite filter_cons_False].
Qed.

(** What the kernel knows when these were launched, and those still wait. *)
Definition view_after (v : attach_view) (n : nat) (new : list (tp_text * tp_attach)) (rest : list tp_attach) : attach_view :=
  View rest (registered v) (correlated v ++ correlations (known v) n new) (opened v) (known v).

(** From one state to another these are launched, and these attaches taken. *)
Definition advances (ts : list tp_text) (seen names : list (list Z)) (new : list (tp_text * tp_attach)) (rest : list tp_attach) d d' : Prop :=
  tracks ts (seen ++ names) (tp_list d') /\ afd d' = afd d /\ forks d' = (forks d + length new)%nat /\
  started d' = started d ++ processes (forks d) new /\ view (kern d') = view_after (view (kern d)) (forks d) new rest.

Lemma view_after_nil n v : view_after v n [] (waiting v) = v.
Proof. unfold view_after. cbn. rewrite app_nil_r. by destruct v. Qed.

Lemma launch_advances ts seen i t a d : Forall tp_ok ts -> tracks ts seen (tp_list d) -> afd d ∈ opened (view (kern d)) -> ts !! i = Some t -> first_at ts i (t_name t) ->
  program (t_name t) ts = Some t ->
  exists d', snatch_launch gettimeofday fork getpwnam execl_ok i a d = Ret tt d' /\
    advances ts seen [t_name t] (launches ts seen [(t_name t, a)]) (waiting (view (kern d))) d d'.
Proof.
  intros Hok Ht Hfd Hi Hf Hp. pose proof Ht as [Hs Hc]. destruct (Forall2_lookup_l _ _ _ _ _ Hs Hi) as (l & Hl & Hsame).
  assert (LocalTp.limit l = int_of (t_limit t)) as Hlim by apply Hsame.
  destruct (fork_tp_counts gettimeofday fork i l d (attempts (t_name t) seen) Hclock Hl) as (l' & r & f & Hsame' & Hc' & Hr & tk & E);
    [rewrite Hlim; apply int_of_max|by apply (Hc i)|].
  assert (tracks ts (seen ++ [t_name t]) (<[i := l']> (tp_list d))) as Ht' by (by apply (tracks_count ts seen _ i t l)).
  unfold snatch_launch. rewrite (M_bind_Ret _ _ _ _ _ E). cbn [launches]. rewrite Hp, app_nil_r. rewrite Hlim in Hr.
  destruct (decide ((attempts (t_name t) seen + 1) mod burst (int_of (t_limit t)) = 0)); injection Hr as -> ->.
  - rewrite decide_True by lia. eexists. split; [done|]. split_and!; cbn; [done|done|lia|by rewrite app_nil_r|by rewrite view_after_nil].
  - rewrite decide_False by (specialize (Hfork (forks d)); lia).
    erewrite (M_bind_Ret (get_tp i)) by (apply get_tp_run; cbn [tp_list]; eapply list_lookup_insert_eq, lookup_lt_Some, Hl).
    assert (same_tp (tp_of t) l') as Hst by (unfold same_tp in *; destruct_and! Hsame; destruct_and! Hsame'; split_and!; congruence).
    rewrite (child_process t l' (proj1 (Forall_lookup _ _) Hok i t Hi) Hst), of_opt_Some_bind, modify_bind. unfold gets. unfold assign at 1.
    rewrite (M_bind_Ret (fun s : daemon K => Ret (afd s) s) _ _ _ _ eq_refl). cbn [afd kern tp_list ticks forks started].
    destruct (attachcall ATTACH_TP_CORRELATE [Int (afd d); Int (fork (forks d)); Int (tcb_id a); Chars (tp_name a)] (kern d)) as [[err fl] k] eqn:Ek.
    pose proof (correlate_view (afd d) (fork (forks d)) (tcb_id a) (tp_name a) (kern d) Hfd) as Hk. rewrite Ek in Hk. cbn [snd] in Hk.
    eexists. split.
    { unfold call, tp_correlate, call_err, zoom, mbind, M_bind. cbn [kern]. rewrite Ek. unfold assign. cbn. reflexivity. }
    split_and!; [done|done|cbn; lia|cbn; by rewrite Nat.add_0_r|]. cbn [kern]. rewrite Hk. unfold takes_correlation, view_after.
    cbn [waiting registered correlated opened known forks fst snd]. rewrite correlations_one. f_equal. case_decide; [done|by rewrite app_nil_r].
Qed.

Lemma direct_advances ts seen a name rest d : Forall tp_ok ts -> tracks ts seen (tp_list d) -> afd d ∈ opened (view (kern d)) -> waiting (view (kern d)) = a :: rest ->
  string_at 0 (tp_name a) = Some name ->
  exists d', direct gettimeofday fork getpwnam execl_ok size d = Ret tt d' /\ advances ts seen [name] (launches ts seen [(name, a)]) rest d d'.
Proof.
  intros Hok Ht Hfd Hw Ha. unfold direct, gets. rewrite (M_bind_Ret (fun s : daemon K => Ret (afd s) s) _ _ _ _ eq_refl).
  destruct (listen_view (afd d) Buffer size 0 (kern d) a rest Hfd Hw) as (err & k & Herr & El & Hv).
  assert (call (attach_listen (afd d) (MkTpAttach (zeros 64) 0) size 0) d = Ret (err, a) (assign kern k d)) as E.
  { unfold call. apply zoom_Ret. unfold attach_listen. by rewrite El. }
  rewrite (M_bind_Ret _ _ _ _ _ E). rewrite decide_False by lia. rewrite (M_bind_Ret (fun s : daemon K => Ret (tp_list s) s) _ _ _ _ eq_refl).
  destruct (by_name ts (tp_list d) (tp_name a) name Hok (proj1 Ht) Ha) as (r & Er & Hr). unfold assign. cbn [tp_list]. rewrite Er, of_opt_Some_bind.
  destruct r as [i|].
  - destruct Hr as (t & Hp & Hi & <- & Hf).
    destruct (launch_advances ts seen i t a (MkDaemon k (afd d) (tp_list d) (ticks d) (forks d) (started d)) Hok Ht ltac:(cbn [afd kern]; rewrite Hv; exact Hfd) Hi Hf Hp) as (d' & E' & H').
    exists d'. split; [exact E'|]. unfold advances in *. cbn [kern started forks afd] in H'. by rewrite Hv in H'.
  - eexists. split; [done|]. cbn [launches]. rewrite Hr. cbn [app].
    split_and!; cbn; [by apply tracks_other|done|lia|by rewrite app_nil_r|]. rewrite Hv. unfold view_after. cbn. by rewrite app_nil_r.
Qed.

Lemma launches_app {A} ts seen (l l' : list (list Z * A)) : launches ts seen (l ++ l') = launches ts seen l ++ launches ts (seen ++ l.*1) l'.
Proof.
  revert seen. induction l as [|[name a] l IH]; intros seen; cbn [launches app fmap list_fmap fst]; [by rewrite app_nil_r|].
  rewrite IH, <- !app_assoc. done.
Qed.

Lemma directs_advance ts seen arrivals rest d : Forall tp_ok ts -> tracks ts seen (tp_list d) -> afd d ∈ opened (view (kern d)) ->
  waiting (view (kern d)) = arrivals.*2 ++ rest -> Forall (fun p => string_at 0 (tp_name p.2) = Some p.1) arrivals ->
  exists d', directs gettimeofday fork getpwnam execl_ok size (length arrivals) d = Ret tt d' /\
    advances ts seen arrivals.*1 (launches ts seen arrivals) rest d d'.
Proof.
  intros Hok Ht Hfd Hw Hn. revert seen d Ht Hfd Hw. induction Hn as [|[name a] arrivals Ha _ IH]; intros seen d Ht Hfd Hw; cbn [fst snd fmap list_fmap app] in *.
  - exists d. split; [done|]. cbn in *. split_and!; [by rewrite app_nil_r|done|by rewrite Nat.add_0_r|by rewrite app_nil_r|by rewrite <- Hw, view_after_nil].
  - destruct (direct_advances ts seen a name (arrivals.*2 ++ rest) d Hok Ht Hfd Hw Ha) as (d1 & E1 & Ht1 & Hf1 & Hk1 & Hs1 & Hv1).
    destruct (IH _ d1 Ht1) as (d2 & E2 & Ht2 & Hf2 & Hk2 & Hs2 & Hv2); [by rewrite Hf1, Hv1|by rewrite Hv1|]. exists d2. cbn [length directs].
    rewrite (M_bind_Ret _ _ _ _ _ E1). split; [done|].
    change ((name, a) :: arrivals) with ([(name, a)] ++ arrivals). rewrite launches_app. unfold advances. rewrite length_app, processes_app.
    cbn [fmap list_fmap fst]. rewrite Hk1 in Hs2, Hv2, Hk2. rewrite Hs1 in Hs2. rewrite Hv1 in Hv2.
    split_and!; [by rewrite <- app_assoc in Ht2|congruence|lia|by rewrite Hs2, app_assoc|]. rewrite Hv2. unfold view_after. cbn [waiting registered correlated opened known]. by rewrite correlations_app, app_assoc.
Qed.

(** *** Before the loop *)

(** Nothing has been started; the kernel knows this. *)
Definition prepared (ts : list tp_text) (v : attach_view) d : Prop :=
  tracks ts [] (tp_list d) /\ afd d ∈ opened v /\ view (kern d) = v /\ forks d = 0%nat /\ started d = [].

Lemma tracks_fd ts seen tps i l v : tracks ts seen tps -> tps !! i = Some l -> tracks ts seen (<[i := assign LocalTp.fd v l]> tps).
Proof.
  intros [Hs Hc] Hl. destruct (Forall2_lookup_r _ _ _ _ _ Hs Hl) as (t & Ht & Hst). split.
  - rewrite <- (list_insert_id ts i t Ht). by apply Forall2_insert.
  - intros j t' l' Ht' Hl' Hf. destruct (decide (i = j)) as [<-|Hij]; [|rewrite list_lookup_insert_ne in Hl' by done; by apply (Hc j)].
    rewrite list_lookup_insert_eq in Hl' by (by eapply lookup_lt_Some). injection Hl' as <-. exact (Hc i t' l Ht' Hl Hf).
Qed.

Lemma setup_prepared ts v i t d : Forall tp_ok ts -> prepared ts v d -> ts !! i = Some t ->
  exists r d', snatch_setup_tp i d = Ret r d' /\ prepared ts (takes_name (t_name t) v) d'.
Proof.
  intros Hok (Ht & Hfd & Hv & Hf & Hs) Hi. pose proof Ht as [Hst _].
  destruct (Forall2_lookup_l _ _ _ _ _ Hst Hi) as (l & Hl & Hn & _). pose proof (proj1 (Forall_lookup _ _) Hok i t Hi) as (Hlen & _ & _ & Hnn & _).
  unfold snatch_setup_tp. rewrite (M_bind_Ret _ _ _ _ _ (get_tp_run i l d Hl)). rewrite Hn. cbn [tp_of LocalTp.name].
  rewrite array_string, of_opt_Some_bind by done. rewrite (store_array 64 (t_name t)), of_opt_Some_bind by done.
  unfold gets. rewrite (M_bind_Ret (fun s : daemon K => Ret (afd s) s) _ _ _ _ eq_refl).
  destruct (attachcall ATTACH_TP_REGISTER [Int (afd d); Chars (array 64 (t_name t))] (kern d)) as [[err fl] k] eqn:Ek.
  pose proof (register_view (afd d) (array 64 (t_name t)) (t_name t) (kern d) ltac:(by rewrite Hv) ltac:(by apply array_string)) as Hk.
  rewrite Ek, Hv in Hk. cbn [snd] in Hk.
  assert (call (tp_register (afd d) (array 64 (t_name t))) d = Ret err (assign kern k d)) as E.
  { unfold call. apply zoom_Ret. unfold tp_register, call_err. by rewrite Ek. }
  unfold assign in E.
  rewrite (M_bind_Ret _ _ _ _ _ E). case_decide.
  - eexists _, _. split; [done|]. unfold prepared. cbn. done.
  - erewrite (M_bind_Ret (set_tp LocalTp.fd i err)) by (by apply set_tp_run). eexists _, _. split; [done|]. unfold prepared. cbn.
    split; [by apply tracks_fd|done].
Qed.

Lemma load_prepared ts v done_ l d : Forall tp_ok ts -> ts = done_ ++ l -> prepared ts v d ->
  exists d', load_from (length done_) (length l) d = Ret tt d' /\ prepared ts (foldl (fun v t => takes_name (t_name t) v) v l) d'.
Proof.
  intros Hok. revert v done_ d. induction l as [|t l IH]; intros v done_ d Hts Hp; [by exists d|]. cbn [load_from length foldl].
  destruct (setup_prepared ts v (length done_) t d Hok Hp) as (r & d1 & E & Hp1); [by rewrite Hts, list_lookup_middle|]. rewrite (M_bind_Ret _ _ _ _ _ E).
  destruct (IH (takes_name (t_name t) v) (done_ ++ [t]) d1) as (d2 & E2 & Hp2); [by rewrite Hts, <- app_assoc|done|].
  rewrite length_app, Nat.add_1_r in E2. by exists d2.
Qed.

Lemma takes_names v (l : list tp_text) : foldl (fun v t => takes_name (t_name t) v) v l =
  View (waiting v) (foldl add_name (registered v) (t_name <$> l)) (correlated v) (opened v) (known v).
Proof. revert v. induction l as [|t l IH]; intros v; [by destruct v|]. cbn [foldl fmap list_fmap]. by rewrite IH. Qed.
End Serves.

(** The handler of a signal to end takes every program back and ends the process. *)
Lemma goaway_exits {K} `{Attach K} (d : daemon K) : exists d', snatch_goaway d = Exit 0 d' /\ tp_list d' = [].
Proof.
  unfold snatch_goaway, gets. rewrite (M_bind_Ret (fun s : daemon K => Ret (tp_list s) s) _ _ _ _ eq_refl).
  assert (forall l d, tp_list d = l -> exists d', unregister l d = Ret tt d' /\ tp_list d' = []) as Hu.
  { clear d. induction l as [|tp l IH]; intros d Hd; [by exists d|]. cbn [unregister]. unfold gets.
    rewrite (M_bind_Ret (fun s : daemon K => Ret (afd s) s) _ _ _ _ eq_refl).
    destruct (attachcall ATTACH_TP_UNREGISTER [Int (afd d); Int (LocalTp.fd tp)] (kern d)) as [[err fl] k] eqn:Ek.
    assert (call (tp_unregister (afd d) (LocalTp.fd tp)) d = Ret err (assign kern k d)) as E.
    { unfold call. apply zoom_Ret. unfold tp_unregister, call_err. by rewrite Ek. }
    rewrite (M_bind_Ret _ _ _ _ _ E), modify_bind. by apply IH. }
  destruct (Hu (tp_list d) d eq_refl) as (d1 & E1 & Hd1). rewrite (M_bind_Ret _ _ _ _ _ E1).
  rewrite (M_bind_Ret (fun s : daemon K => Ret (afd s) s) _ _ _ _ eq_refl).
  destruct (attachcall ATTACH_CLOSE [Int (afd d1)] (kern d1)) as [[err fl] k] eqn:Ek.
  assert (call (attach_close (afd d1)) d1 = Ret err (assign kern k d1)) as E.
  { unfold call. apply zoom_Ret. unfold attach_close, call_err. by rewrite Ek. }
  rewrite (M_bind_Ret _ _ _ _ _ E). by eexists.
Qed.

(** C35 (refinement).  The daemon registers the names of the programs of its file, each
    once (a name that is registered already is refused), and starts them.  The attaches
    that arrive are taken in their order.  One that names a program starts a process for
    the first program of that name: the process takes the identity of the program's user
    and executes the program's path, and the kernel is told which process it is, which
    it takes when it has the attach's control block; with no such user, or no such path,
    the process ends.  One that names no program is dropped.  While no more time passes
    than the interval, each program's attempts are counted, and every one that completes
    a burst of its limit (of two, for a limit below) is dropped; the next starts again. *)
Theorem snatchd_serves {K N} `{AttachLaws K, Xml N} gettimeofday fork getpwnam execl_ok size (xmlParseFile : list Z -> option (document N))
    options file nodaemon ns doc ts (k : K) arrivals rest :
  read_options options _PATH_SNATCHD_CONF 0 = Some (inr (file, nodaemon)) -> xmlParseFile file = Some doc -> tps_document ns ts doc -> ts <> [] ->
  0 <= (attachcall ATTACH_OPEN [] k).1.1 -> waiting (view k) = arrivals.*2 ++ rest -> Forall (fun p => string_at 0 (tp_name p.2) = Some p.1) arrivals ->
  within gettimeofday -> (forall n, 0 < fork n) ->
  exists d, main gettimeofday fork getpwnam execl_ok size xmlParseFile options (length arrivals) (MkDaemon k 0 [] 0 0 []) = Ret tt d /\
    started d = processes fork getpwnam execl_ok 0 (launches ts [] arrivals) /\
    view (kern d) = View rest (foldl add_name (registered (view k)) (t_name <$> ts))
      (correlated (view k) ++ correlations fork (known (view k)) 0 (launches ts [] arrivals))
      (opened (view k) ++ [(attachcall ATTACH_OPEN [] k).1.1]) (known (view k)).
Proof.
  intros Ho Hx Hd Hne Hopen Hw Ha Hclock Hfork. destruct (document_tps ns ts doc Hd) as [Hr Hok].
  unfold main. rewrite Ho, of_opt_Some_bind, Hx, Hr, of_opt_Some_bind, modify_bind. rewrite decide_False by lia.
  rewrite (decide_False (P := _ = [])) by (by destruct ts). unfold snatch_director.
  destruct (attachcall ATTACH_OPEN [] k) as [[fd fl] k1] eqn:Ek. cbn [fst snd] in Hopen |- *.
  pose proof (open_view k fd fl k1 Ek Hopen) as Hv.
  set (d0 := assign tp_list (tp_of <$> ts) (MkDaemon k 0 [] 0 0 [])).
  assert (call attach_open d0 = Ret fd (assign kern k1 d0)) as E.
  { unfold call. apply zoom_Ret. unfold attach_open, call_err. unfold d0, assign. cbn [kern]. by rewrite Ek. }
  rewrite (M_bind_Ret _ _ _ _ _ E), modify_bind, decide_False by lia. unfold d0, assign. cbn [kern afd tp_list ticks forks started].
  assert (prepared gettimeofday ts (view k1) (MkDaemon k1 fd (tp_of <$> ts) 0 0 [])) as Hp.
  { unfold prepared. cbn. split_and!; try done; [|rewrite Hv; cbn; set_solver]. split.
    - apply Forall2_fmap_r, Forall_Forall2_diag, Forall_true. intros t. done.
    - intros i t l Ht Hl _. rewrite list_lookup_fmap, Ht in Hl. injection Hl as <-. split; [|done]. cbn. by rewrite Z.mod_0_l by (unfold burst; lia). }
  destruct (load_prepared gettimeofday ts (view k1) [] ts _ Hok eq_refl Hp) as (d1 & E1 & Ht1 & Hfd1 & Hv1 & Hf1 & Hs1). rewrite takes_names in Hv1, Hfd1.
  unfold snatch_load_tp_list. rewrite M_bind_assoc. unfold gets. rewrite (M_bind_Ret (fun s : daemon K => Ret (tp_list s) s) _ _ _ _ eq_refl).
  cbn [tp_list]. cbn [length] in E1. rewrite length_fmap, M_bind_assoc, (M_bind_Ret _ _ _ _ _ E1), M_ret_bind.
  destruct (directs_advance gettimeofday fork getpwnam execl_ok size Hclock Hfork ts [] arrivals rest d1 Hok Ht1) as (d2 & E2 & _ & _ & _ & Hs2 & Hv2);
    [by rewrite Hv1|by rewrite Hv1, Hv|done|].
  exists d2. rewrite Hs1, Hf1 in Hs2. rewrite Hf1, Hv1, Hv in Hv2. done.
Qed.

(** C36 (safety).  A program cannot be started as often as attaches arrive.  Whatever
    happened before, of twice as many attempts for it as its limit allows in a burst,
    all within the interval, one at least is refused; none meets undefined behaviour,
    whatever the clock says, and the count stays below the limit (of two, for a limit
    below). *)
Theorem snatchd_flood_bound {K} gettimeofday fork i (d : daemon K) l n :
  tp_list d !! i = Some l -> LocalTp.limit l <= INT_MAX -> 0 <= LocalTp.count l < Z.max 2 (LocalTp.limit l) ->
  (exists rs d' l', attempts_for gettimeofday fork n i d = Ret rs d' /\ tp_list d' !! i = Some l' /\ 0 <= LocalTp.count l' < Z.max 2 (LocalTp.limit l')) /\
  ((forall t t', (ticks d <= t)%nat -> (ticks d <= t')%nat -> (gettimeofday t').1 - (gettimeofday t).1 <= CNT_INTVL) ->
   2 * (Z.max 2 (LocalTp.limit l) - 1) <= Z.of_nat n ->
   exists rs d', attempts_for gettimeofday fork n i d = Ret rs d' /\ -1 ∈ rs).
Proof.
  intros Hl Hi Hc. pose proof (burst_two _ Hi) as Hb. split.
  - destruct (attempts_run gettimeofday fork n i l d Hl (conj Hi Hc)) as (rs & d' & l' & E & Hl' & _ & Hr). by exists rs, d', l'.
  - intros Hw Hn. fold (burst (LocalTp.limit l)) in Hn, Hc.
    destruct (refused_any gettimeofday fork (ticks d) n i l d Hw (le_n _) Hl (conj Hi Hc)) as (rs & d' & l' & E & _ & _ & Hr); [case_decide; lia|].
    by exists rs, d'.
Qed.

(** A program of limit three that is attached six times in a second. *)
Definition demo_tp (limit : Z) : local_tp_info :=
  LocalTp.Mk (array 64 (str "APINGD")) 0 0 0 limit (array 300 (str "/usr/sbin/apingd")) (array 100 (str "nobody")) 0 0 0 0 (0, 0).
Definition demo_clock (n : nat) : Z * Z := (1000000000, Z.of_nat n).
Definition demo_fork (n : nat) : Z := 500 + Z.of_nat n.

Lemma snatchd_flood_bound_witness :
  exists rs d', attempts_for demo_clock demo_fork 4 0 (MkDaemon (View [] [] [] [3] []) 3 [demo_tp 3] 0 0 []) = Ret rs d' /\ -1 ∈ rs.
Proof.
  apply (snatchd_flood_bound demo_clock demo_fork 0 (MkDaemon (View [] [] [] [3] []) 3 [demo_tp 3] 0 0 []) (demo_tp 3) 4);
    [reflexivity|unfold INT_MAX; cbn; lia|cbn; lia|intros; cbn; unfold CNT_INTVL; lia|cbn; lia].
Defined.

(** *** A file with two programs *)

Definition demo_text (name user path : list Z) : tp_text := MkText name (str "either") (str "any") (str "off") (str "3") user path.

Definition demo_element (name user path : list Z) : tree :=
  let leaf n s := Element (str n) (Some 1%nat) [Text s] in
  Element (str "tp") (Some 1%nat)
    [leaf "name"%string name; leaf "type"%string (str "either"); leaf "sync"%string (str "any"); leaf "queued"%string (str "off");
     leaf "limit"%string (str "3"); leaf "user"%string user; leaf "path"%string path].

Definition demo_file : document tree :=
  MkDocument (Some (Element (str "Helping") (Some 1%nat)
      [Text (str " "); Element (str "snatchd") (Some 1%nat)
        [Text (str " "); demo_element (str "APINGD") (str "nobody") (str "/usr/sbin/apingd"); demo_element (str "AFTPD") (str "root") (str "/usr/sbin/aftpd")]]))
    (fun _ => Some 1%nat).

Definition demo_users (name : list Z) : option passwd :=
  if decide (name = str "nobody") then Some (MkPasswd 99 99) else if decide (name = str "root") then Some (MkPasswd 0 0) else None.

Definition demo_arrivals : list (list Z * tp_attach) :=
  (fun p => (str p.1, MkTpAttach (array 64 (str p.1)) p.2)) <$>
    [("APINGD"%string, 11); ("AFTPD"%string, 12); ("APINGD"%string, 13); ("other"%string, 14); ("APINGD"%string, 15); ("APINGD"%string, 16)].

Lemma demo_tp_says name user path : (length name < 64)%nat -> (length user < 100)%nat -> (length path < 300)%nat -> no_nul name -> no_nul user -> no_nul path ->
  tp_says 1 (demo_text name user path) (demo_element name user path) /\ tp_ok (demo_text name user path).
Proof.
  intros H1 H2 H3 H4 H5 H6. split; [|split_and!; try done; by eexists].
  repeat first [ apply reads_nil | (apply reads_say; [reflexivity|reflexivity|first [reflexivity | match goal with |- says ?x _ => exact (f_equal Some (app_nil_r x)) end]|]) ].
Qed.

(** What the kernel knows at the start: one program is registered, and the control block
    of the last attach is gone. *)
Definition demo_view : attach_view := View demo_arrivals.*2 [str "AFTPD"] [] [] [11; 12; 13; 14; 15].

Lemma snatchd_serves_witness : exists d,
  main demo_clock demo_fork demo_users (fun _ => true) 132 (fun _ => Some demo_file) [(102, str "/tmp/x")] 6 (MkDaemon demo_view 0 [] 0 0 []) = Ret tt d /\
  started d = [(500, [Setgid 99; Initgroups (str "nobody") 99; Setuid 99; Sig_preexec; Execl (str "/usr/sbin/apingd") []]);
               (501, [Sig_preexec; Execl (str "/usr/sbin/aftpd") []]);
               (502, [Setgid 99; Initgroups (str "nobody") 99; Setuid 99; Sig_preexec; Execl (str "/usr/sbin/apingd") []]);
               (503, [Setgid 99; Initgroups (str "nobody") 99; Setuid 99; Sig_preexec; Execl (str "/usr/sbin/apingd") []])] /\
  registered (kern d) = [str "AFTPD"; str "APINGD"] /\ (fun c : Z * Z * list Z => c.1) <$> correlated (kern d) = [(500, 11); (501, 12); (502, 13)].
Proof.
  destruct (snatchd_serves demo_clock demo_fork demo_users (fun _ => true) 132 (fun _ => Some demo_file) [(102, str "/tmp/x")] (str "/tmp/x") 0 1 demo_file
    [demo_text (str "APINGD") (str "nobody") (str "/usr/sbin/apingd"); demo_text (str "AFTPD") (str "root") (str "/usr/sbin/aftpd")]
    demo_view demo_arrivals []) as (d & E & Hs & Hv).
  - reflexivity.
  - reflexivity.
  - eexists. split.
    + eexists _, [Text (str " ")], _, []. split_and!; try reflexivity. repeat constructor; discriminate.
    + apply collects_other; [left; discriminate|].
      apply collects_cons; [reflexivity|reflexivity|apply demo_tp_says; first [cbn; lia|by apply (bool_decide_unpack _)]|].
      apply collects_cons; [reflexivity|reflexivity|apply demo_tp_says; first [cbn; lia|by apply (bool_decide_unpack _)]|]. apply collects_nil.
  - discriminate.
  - by vm_compute.
  - by rewrite app_nil_r.
  - apply (bool_decide_unpack _). by vm_compute.
  - intros t t'. cbn. unfold CNT_INTVL. lia.
  - intros n. unfold demo_fork. lia.
  - exists d. split; [exact E|]. change (view (kern d)) with (kern d) in Hv. rewrite Hs, Hv. split_and!; vm_compute; reflexivity.
Defined.
