(* ===== verification/SnaShow.v ===== *)
(** * snaconfig/sna_show.c: the display of the node

    What the queries find is put together under its node ([sna_show_gather_info]),
    and printed.  The structures are those the kernel fills, of
    include/linux/sna.h and include/linux/cpic.h, up to the members that are not
    looked at; a character array is the list of its bytes.  [None] and [Undef] are
    undefined behaviour; memory is not short. *)
From S2P Require Import Prelude SnaUtility SnaNof Xml SnaConfig.

Definition _PATH_SNA_VIRTUAL_NODE : list Z := str "/proc/net/sna/local_nodes".
Definition SNA_FQCP_NAME_LEN : nat := 18.
Definition SNA_DOWN := 1.
Definition SNA_UP := 2.
Definition SNA_RUNNING := 4.
Definition SNA_STOPPED := 8.
Definition ARPHRD_ETHER := 1.
Definition ARPHRD_LOOPBACK := 772.
Definition SNA_LS_STATE_DEFINED := 0.
Definition SNA_LS_STATE_ACTIVATED := 1.
Definition SNA_LS_STATE_ACTIVE := 2.
Definition SNA_LS_DIR_IN := 1.
Definition CO_FAIL := 0.
Definition SNA_LEN_END_NODE := 1.
Definition SNA_APPN_END_NODE := 2.
Definition SNA_APPN_NET_NODE := 3.

(** ** Structures *)

Module SnaReq.
Record snareq : Type := Mk { nodeid : Z; type : Z; lu_seg : Z; bind_seg : Z; max_lus : Z; node_status : Z }.
End SnaReq.

Module LsReq.
Record lsreq : Type := Mk {
  use_name : list Z; dev_name : list Z; port_name : list Z; flags : Z; retries : Z; xid_count : Z; state : Z; co_status : Z;
  effective_role : Z; effective_tg : Z; tx_max_btu : Z; rx_max_btu : Z; tx_window : Z; rx_window : Z;
  plu_name : list Z; plu_node_id : Z; plu_mac_addr : list Z; plu_port : Z; role : Z; direction : Z; xid_init_method : Z;
  byteswap : Z; retry_on_fail : Z; retry_times : Z; autoact : Z; autodeact : Z; tg_number : Z; cost_per_byte : Z;
  cost_per_connect_time : Z; propagation_delay : Z; security : Z
}.
End LsReq.

(** [ls], and [port] of the next, are the lists of what is linked to them. *)
Module PortReq.
Record portreq : Type := Mk {
  use_name : list Z; dev_name : list Z; flags : Z; ls_qlen : Z; saddr : list Z; btu : Z; mia : Z; moa : Z; ls : list LsReq.lsreq
}.
End PortReq.

Module DlcReq.
Record dlcreq : Type := Mk {
  dev_name : list Z; flags : Z; type : Z; mtu : Z; dev_addr : list Z; port : list PortReq.portreq
}.
End DlcReq.

Module LuReq.
Record lureq : Type := Mk { name : list Z; sync_point : Z; lu_sess_limit : Z; flags : Z }.
End LuReq.

Module PluReq.
Record plureq : Type := Mk { plu_name : list Z; parallel_ss : Z; cnv_security : Z; flags : Z }.
End PluReq.

Module ModeReq.
Record modereq : Type := Mk {
  mode_name : list Z; cos_name : list Z; plu_name : list Z; tx_pacing : Z; rx_pacing : Z; max_tx_ru : Z; max_rx_ru : Z;
  crypto : Z; flags : Z; auto_activation : Z; max_sessions : Z; min_conlosers : Z; min_conwinners : Z; act_sessions : Z;
  act_conwinners : Z; act_conlosers : Z; pend_sessions : Z; pend_conwinners : Z; pend_conlosers : Z
}.
End ModeReq.

Module CpicsReq.
Record cpicsreq : Type := Mk { netid_plu : list Z; sym_dest_name : list Z; mode_name : list Z; tp_name : list Z }.
End CpicsReq.

Module CosReq.
Record cosreq : Type := Mk { name : list Z; weight : Z; tx_priority : Z; default_cos_invalid : Z; default_cos_null : Z }.
End CosReq.

(** A node; [info] is what the query for it said. *)
Module AllInfo.
Record sna_all_info : Type := Mk {
  net : list Z; name : list Z; info : SnaReq.snareq; mode : list ModeReq.modereq; plu : list PluReq.plureq; lu : list LuReq.lureq;
  dl : list DlcReq.dlcreq; cpics : list CpicsReq.cpicsreq; cos : list CosReq.cosreq
}.
#[export] Instance sna_all_info_members : Members sna_all_info := fun s =>
  Mk (net s) (name s) (info s) (mode s) (plu s) (lu s) (dl s) (cpics s) (cos s).
Definition fresh : sna_all_info := Mk (zeros 9) (zeros 9) (SnaReq.Mk 0 0 0 0 0 0) [] [] [] [] [] [].
End AllInfo.
Export (hints) AllInfo.

#[export] Instance portreq_members : Members PortReq.portreq := fun p =>
  PortReq.Mk (PortReq.use_name p) (PortReq.dev_name p) (PortReq.flags p) (PortReq.ls_qlen p) (PortReq.saddr p) (PortReq.btu p)
    (PortReq.mia p) (PortReq.moa p) (PortReq.ls p).
#[export] Instance dlcreq_members : Members DlcReq.dlcreq := fun d =>
  DlcReq.Mk (DlcReq.dev_name d) (DlcReq.flags d) (DlcReq.type d) (DlcReq.mtu d) (DlcReq.dev_addr d) (DlcReq.port d).

(** ** Gathering *)

(** [strcmp] of two arrays. *)
Definition same_string (a b : list Z) : option bool :=
  a ← string_at 0 a; b ← string_at 0 b; Some (bool_decide (a = b)).

(** Each structure of the list is copied to the front of another. *)
Definition copied_list {A} (l to : list A) : list A := fold_left (fun to x => x :: to) l to.

Fixpoint ports_of (dl : DlcReq.dlcreq) (p : list PortReq.portreq) (to : list PortReq.portreq) : option (list PortReq.portreq) :=
  match p with
  | [] => Some to
  | port :: p =>
      same ← same_string (DlcReq.dev_name dl) (PortReq.dev_name port);
      ports_of dl p (if (same : bool) then assign PortReq.ls [] port :: to else to)
  end.

(** The loop is left at the first station that is of another port and of another
    device; [strcmp] of the devices only when the ports differ. *)
Fixpoint stations_of (dl : DlcReq.dlcreq) (pt : PortReq.portreq) (l : list LsReq.lsreq) (to : list LsReq.lsreq) : option (list LsReq.lsreq) :=
  match l with
  | [] => Some to
  | ls :: l =>
      same ← same_string (LsReq.port_name ls) (PortReq.use_name pt);
      other ← (if (same : bool) then Some false else dev ← same_string (LsReq.dev_name ls) (DlcReq.dev_name dl); Some (negb dev));
      if (other : bool) then Some to else stations_of dl pt l (ls :: to)
  end.

Definition attach_ports (p : list PortReq.portreq) (dl : DlcReq.dlcreq) : option DlcReq.dlcreq :=
  l ← ports_of dl p (DlcReq.port dl); Some (assign DlcReq.port l dl).

Definition attach_station (l : list LsReq.lsreq) (dl : DlcReq.dlcreq) (pt : PortReq.portreq) : option PortReq.portreq :=
  ls ← stations_of dl pt l (PortReq.ls pt); Some (assign PortReq.ls ls pt).

Definition attach_stations (l : list LsReq.lsreq) (dl : DlcReq.dlcreq) : option DlcReq.dlcreq :=
  ports ← mapM (attach_station l dl) (DlcReq.port dl); Some (assign DlcReq.port ports dl).

Section Gather.
Context {K : Type} `{Nof K} `{NofTable K SnaReq.snareq, NofTable K DlcReq.dlcreq, NofTable K PortReq.portreq, NofTable K LsReq.lsreq,
  NofTable K LuReq.lureq, NofTable K PluReq.plureq, NofTable K ModeReq.modereq, NofTable K CpicsReq.cpicsreq, NofTable K CosReq.cosreq}.
Context (fuel : nat).

(** The error and what becomes of the node.  The socket is closed only at the end. *)
Definition sna_show_gather_info (sna : AllInfo.sna_all_info) : M K (Z * AllInfo.sna_all_info) :=
  let net := AllInfo.net sna in let name := AllInfo.name sna in let any := str "*" in
  sk ← sna_nof_connect;
  if decide (sk < 0) then mret (sk, sna) else
  nodes ← nof_query_node fuel sk net name;
  match nodes with
  | [] => mret (-2, sna)
  | n :: _ =>
      let sna := AllInfo.Mk net name n [] [] [] [] [] [] in
      d ← nof_query_dlc fuel sk net name (str "eth0");
      match d with
      | [] => mret (0, sna)
      | _ =>
          let dl := copied_list (assign DlcReq.port [] <$> d) [] in
          p ← nof_query_port fuel sk net name any any;
          dl ← of_opt (mapM (attach_ports p) dl);
          l ← nof_query_ls fuel sk net name any any any;
          dl ← of_opt (mapM (attach_stations l) dl);
          ll ← nof_query_lu fuel sk any any any;
          pl ← nof_query_plu fuel sk;
          m ← nof_query_mode fuel sk any any any;
          c ← nof_query_cpic_side_info fuel sk any any any;
          cos ← nof_query_cos fuel sk any;
          sna_nof_disconnect sk;;
          mret (0, AllInfo.Mk net name n (copied_list m []) (copied_list pl []) (copied_list ll []) dl (copied_list c []) (copied_list cos []))
      end
  end.
End Gather.

(** ** Printing *)

(** What is printed, and the static buffers. *)
Record display : Type := MkDisplay { text : list Z; state_buff : list Z; type_buff : list Z; status_buff : list Z }.

#[export] Instance display_members : Members display := fun d => MkDisplay (text d) (state_buff d) (type_buff d) (status_buff d).

(** [%d] of a value of 32 bits, [%ld] of a [long]. *)
Definition pr_d (x : Z) : list Z :=
  let y := u32 x in if decide (y < 2147483648) then decimal y else 45 :: decimal (4294967296 - y).

(** [%02X]. *)
Fixpoint hex_digits (fuel : nat) (v : Z) : list Z :=
  match fuel with
  | O => []
  | S fuel => (if decide (v < 16) then [] else hex_digits fuel (v / 16)) ++ [hex_digit (v mod 16)]
  end.

Definition pr_02X (v : Z) : list Z := let h := hex_digits 8 v in replicate (2 - length h) 48 ++ h.

(** A [char] has a sign. *)
Definition char_value (b : Z) : Z := if decide (b < 128) then b else u32 (b - 256).

(** The text of an array; that of a table, which is a null pointer for a value without a word. *)
Definition of_array (m : list Z) : option (list Z) := string_at 0 m.
Definition of_word (w : wordmap) (v : Z) : option (list Z) := s ← xword_pr_word w v; s.

Definition printf (s : list Z) : M display unit := modify (fun d => assign text (text d ++ s) d).
(** A conversion of what may not be there, with text around it. *)
Definition print (before : string) (s : option (list Z)) (after : string) : M display unit :=
  s ← of_opt s; printf (str before ++ s ++ str after).
Arguments print before%_string s after%_string.
Definition print_d (before : string) (v : Z) (after : string) : M display unit := print before (Some (pr_d v)) after.
Arguments print_d before%_string v after%_string.
Definition print_dd (before : string) (v w : Z) (after : string) : M display unit := print before (Some (pr_d v ++ [47] ++ pr_d w)) after.
Arguments print_dd before%_string v w after%_string.
Definition newline : M display unit := printf [10].

(** A flag that is not set changes nothing, so the buffer may keep its text. *)
Definition set_if (flag : Z) (s : Z) (word : string) (buff : list Z) : list Z := if decide (Z.land s flag = 0) then buff else str word.
Arguments set_if flag s word%_string buff.

Definition sna_pr_state (s : Z) : M display (list Z) :=
  let s := u16 s in
  d ← get_st;
  let buff := set_if SNA_RUNNING s "ACTIVE" (set_if SNA_STOPPED s "INACTIVE" (set_if SNA_UP s "UP" (set_if SNA_DOWN s "DOWN" (state_buff d)))) in
  modify (assign state_buff buff);;
  mret buff.

Definition sna_pr_link_type (type : Z) : M display (list Z) :=
  d ← get_st;
  let buff := if decide (type = ARPHRD_ETHER) then str "ether" else if decide (type = ARPHRD_LOOPBACK) then str "loop" else type_buff d in
  modify (assign type_buff buff);;
  mret buff.

Definition sna_pr_ls_status (ls : LsReq.lsreq) : M display (list Z) :=
  d ← get_st;
  let buff :=
    if decide (LsReq.state ls = SNA_LS_STATE_DEFINED) then str "OFFLINE"
    else if decide (LsReq.state ls = SNA_LS_STATE_ACTIVATED) then
      if decide (LsReq.co_status ls = CO_FAIL) then str "FAILED"
      else if decide (LsReq.direction ls = SNA_LS_DIR_IN) then str "INCOMING" else str "PENDING"
    else if decide (LsReq.state ls = SNA_LS_STATE_ACTIVE) then str "ONLINE" else status_buff d in
  modify (assign status_buff buff);;
  mret buff.

Definition print_state (before : string) (s : Z) (after : string) : M display unit := b ← sna_pr_state s; print before (Some b) after.
Arguments print_state before%_string s after%_string.

(** The loop over a list. *)
Fixpoint for_each {A} (l : list A) (f : A -> M display unit) : M display unit :=
  match l with
  | [] => mret tt
  | a :: l => f a;; for_each l f
  end.

Definition print_ls (ls : LsReq.lsreq) : M display unit :=
  print "  link:" (of_array (LsReq.use_name ls)) " ";;
  status ← sna_pr_ls_status ls;
  state ← sna_pr_state (LsReq.flags ls);
  print "<" (Some (state ++ str "|" ++ status)) "> ";;
  role ← of_opt (of_word role_types (LsReq.role ls));
  effective ← of_opt (of_word role_types (LsReq.effective_role ls));
  print "role " (Some (role ++ str "/" ++ effective)) " ";;
  print_dd "tg " (LsReq.tg_number ls) (LsReq.effective_tg ls) " ";;
  print_dd "btu " (LsReq.tx_max_btu ls) (LsReq.rx_max_btu ls) " ";;
  print_dd "win " (LsReq.tx_window ls) (LsReq.rx_window ls) " ";;
  newline;;
  print "    plu/" (sna_pr_netid (LsReq.plu_name ls)) " ";;
  print "nodeid " (Some (sna_pr_nodeid (LsReq.plu_node_id ls))) " ";;
  ether ← of_opt (sna_pr_ether (LsReq.plu_mac_addr ls));
  print "" (Some (ether ++ str "@0x" ++ pr_02X (LsReq.plu_port ls))) " ";;
  newline;;
  print "    retry/" (of_word on_types (LsReq.retry_on_fail ls)) " ";;
  print_dd "retries " (LsReq.retries ls) (LsReq.retry_times ls) " ";;
  print_d "xid " (LsReq.xid_count ls) " ";;
  print_d "xid_init " (LsReq.xid_init_method ls) " ";;
  print "autoact/" (of_word on_types (LsReq.autoact ls)) " ";;
  print "autodeact/" (of_word on_types (LsReq.autodeact ls)) " ";;
  newline;;
  print "    byteswap/" (of_word on_types (LsReq.byteswap ls)) " ";;
  print "security/" (of_word security_types (LsReq.security ls)) " ";;
  print_d "cpb " (LsReq.cost_per_byte ls) " ";;
  print_d "cpc " (LsReq.cost_per_connect_time ls) " ";;
  print_d "propagation_delay " (LsReq.propagation_delay ls) " ";;
  newline.

Definition print_port (port : PortReq.portreq) : M display unit :=
  print "  dlc:" (of_array (PortReq.use_name port)) " ";;
  print_state "<" (PortReq.flags port) "> ";;
  dev ← of_opt (of_array (PortReq.dev_name port));
  lsap ← of_opt (head (PortReq.saddr port));
  print "" (Some (dev ++ str "@0x" ++ pr_02X (char_value lsap))) " ";;
  print_d "mia " (PortReq.mia port) " ";;
  print_d "moa " (PortReq.moa port) " ";;
  print_d "btu " (PortReq.btu port) " ";;
  print_d "links/" (PortReq.ls_qlen port) " ";;
  newline;;
  for_each (PortReq.ls port) print_ls.

Definition print_dlc (dl : DlcReq.dlcreq) : M display unit :=
  print "  device:" (of_array (DlcReq.dev_name dl)) " ";;
  print_state "<" (DlcReq.flags dl) "> ";;
  print_d "mtu " (DlcReq.mtu dl) " ";;
  type ← sna_pr_link_type (DlcReq.type dl);
  ether ← of_opt (sna_pr_ether (DlcReq.dev_addr dl));
  print "link/" (Some (type ++ str " " ++ ether)) " ";;
  newline;;
  for_each (DlcReq.port dl) print_port.

Definition print_lu (lu : LuReq.lureq) : M display unit :=
  print "  lclu:" (of_array (LuReq.name lu)) "  ";;
  print "sync_point:" (of_word on_types (LuReq.sync_point lu)) "  ";;
  print_d "limit:" (LuReq.lu_sess_limit lu) "  ";;
  print_state "" (LuReq.flags lu) " ";;
  newline.

Definition print_plu (plu : PluReq.plureq) : M display unit :=
  print "  rtlu:" (sna_pr_netid (PluReq.plu_name plu)) "  ";;
  print "parallel_sessions:" (of_word on_types (PluReq.parallel_ss plu)) "  ";;
  print "cnv_security:" (of_word on_types (PluReq.cnv_security plu)) "  ";;
  print_state "" (PluReq.flags plu) " ";;
  newline.

Definition print_mode (mode : ModeReq.modereq) : M display unit :=
  print "     mode:" (pad_right 8 <$> of_array (ModeReq.mode_name mode)) "  ";;
  print "cos:" (pad_right 8 <$> of_array (ModeReq.cos_name mode)) "  ";;
  print "plu:" (sna_pr_netid (ModeReq.plu_name mode)) "  ";;
  print_state "" (ModeReq.flags mode) " ";;
  newline;;
  print "          Crypto:" (of_word on_types (ModeReq.crypto mode)) " ";;
  print_d "Max_sessions:" (ModeReq.max_sessions mode) " ";;
  print "Auto_activation:" (of_word on_types (ModeReq.auto_activation mode)) " ";;
  newline;;
  print_d "          TX pacing:" (ModeReq.tx_pacing mode) " ";;
  print_d "MTU:" (ModeReq.max_tx_ru mode) " ";;
  print_d "Rx pacing:" (ModeReq.rx_pacing mode) " ";;
  print_d "MRU:" (ModeReq.max_rx_ru mode) " ";;
  print_d "MINCW:" (ModeReq.min_conwinners mode) " ";;
  print_d "MINCL:" (ModeReq.min_conlosers mode) " ";;
  newline;;
  print_d "          ACTIVE  sessions:" (ModeReq.act_sessions mode) " ";;
  print_d "conwinners:" (ModeReq.act_conwinners mode) " ";;
  print_d "conlosers:" (ModeReq.act_conlosers mode) " ";;
  newline;;
  print_d "          PENDING sessions:" (ModeReq.pend_sessions mode) " ";;
  print_d "conwinners:" (ModeReq.pend_conwinners mode) " ";;
  print_d "conlosers:" (ModeReq.pend_conlosers mode) " ";;
  newline.

Definition print_cpics (cpics : CpicsReq.cpicsreq) : M display unit :=
  print "     cpic:" (pad_right 9 <$> of_array (CpicsReq.sym_dest_name cpics)) " ";;
  print "plu:" (of_array (CpicsReq.netid_plu cpics)) "  ";;
  print "mode:" (of_array (CpicsReq.mode_name cpics)) "  ";;
  print "tp:" (of_array (CpicsReq.tp_name cpics)) "  ";;
  newline.

Definition print_cos (cos : CosReq.cosreq) : M display unit :=
  print "      cos:" (pad_right 9 <$> of_array (CosReq.name cos)) " ";;
  print "weight:" (Some (pad_right 3 (pr_d (CosReq.weight cos)))) " ";;
  print "tx_priority:" (pad_right 8 <$> of_word tx_types (CosReq.tx_priority cos)) " ";;
  print "dnull:" (pad_right 4 <$> of_word on_types (CosReq.default_cos_null cos)) " ";;
  print "dinvalid:" (of_word on_types (CosReq.default_cos_invalid cos)) " ";;
  newline.

Definition sna_show_print (sna_show_all_flag : bool) (sna : AllInfo.sna_all_info) : M display Z :=
  let n := AllInfo.info sna in
  net ← of_opt (of_array (AllInfo.net sna));
  name ← of_opt (of_array (AllInfo.name sna));
  print "" (Some (net ++ str "." ++ name)) " ";;
  print_state "<" (SnaReq.node_status n) "> ";;
  print "nodeid " (Some (sna_pr_nodeid (SnaReq.nodeid n))) " ";;
  printf (str "nodetype/");;
  (if decide (SnaReq.type n = SNA_LEN_END_NODE) then printf (str "Len ") else mret tt);;
  (if decide (SnaReq.type n = SNA_APPN_END_NODE) then printf (str "Appn_En ") else mret tt);;
  (if decide (SnaReq.type n = SNA_APPN_NET_NODE) then printf (str "Appn_Nn ") else mret tt);;
  newline;;
  print_d "  maxlus:" (SnaReq.max_lus n) " ";;
  print_d "curlus:" 0 " ";;
  print "luseg:" (of_word on_types (SnaReq.lu_seg n)) " ";;
  print "bindseg:" (of_word on_types (SnaReq.bind_seg n)) " ";;
  newline;;
  for_each (AllInfo.dl sna) print_dlc;;
  for_each (AllInfo.lu sna) print_lu;;
  for_each (AllInfo.plu sna) print_plu;;
  if negb sna_show_all_flag then mret 0 else
  for_each (AllInfo.mode sna) print_mode;;
  for_each (AllInfo.cpics sna) print_cpics;;
  for_each (AllInfo.cos sna) print_cos;;
  mret 0.

(** ** The nodes *)

(** [sscanf] with [%s]: the first word. *)
Fixpoint word_end (s : list Z) : list Z :=
  match s with c :: t => if isspace c then [] else c :: word_end t | [] => [] end.

(** The network and the node of a line, in their arrays. *)
Definition sna_show_get_netid (p : list Z) : option (list Z * list Z) :=
  let buf := word_end (skip_blanks p) in
  if bool_decide (buf = [] \/ (SNA_FQCP_NAME_LEN <= length buf)%nat) then None else
  rest ← after_point buf;
  name ← store 0 (rest ++ [0]) (zeros 9);
  first ← strtok buf;
  net ← store 0 (first ++ [0]) (zeros 9);
  Some (net, name).

(** [strcmp] of the names. *)
Definition name_after (n sna : AllInfo.sna_all_info) : bool := bool_decide (0 < strcmp (c_str (AllInfo.name n)) (c_str (AllInfo.name sna))).

Fixpoint sna_show_add_node (n : AllInfo.sna_all_info) (sna_list : list AllInfo.sna_all_info) : list AllInfo.sna_all_info :=
  match sna_list with
  | sna :: rest => if name_after n sna then n :: sna_list else sna :: sna_show_add_node n rest
  | [] => [n]
  end.

(** The loop over the lines, which are cut at 511 characters; a turn for each. *)
Fixpoint read_nodes (fuel : nat) (f : list Z) (sna_list : list AllInfo.sna_all_info) : option (list AllInfo.sna_all_info) :=
  match fuel with
  | O => None
  | S fuel =>
      match fgets 511 f with
      | ([], _) => Some sna_list
      | (buf, f) =>
          '(net, name) ← sna_show_get_netid (c_str buf);
          read_nodes fuel f (sna_show_add_node (assign AllInfo.net net (assign AllInfo.name name AllInfo.fresh)) sna_list)
      end
  end.

(** The first line is passed over. *)
Definition sna_show_read_nodes (file : option (list Z)) (sna_list : list AllInfo.sna_all_info) : option (Z * list AllInfo.sna_all_info) :=
  match file with
  | None => Some (-22, sna_list)
  | Some f => l ← read_nodes (S (length f)) (fgets 511 f).2 sna_list; Some (0, l)
  end.

(** ** The command *)

Section Show.
Context {K : Type} `{Nof K} `{NofTable K SnaReq.snareq, NofTable K DlcReq.dlcreq, NofTable K PortReq.portreq, NofTable K LsReq.lsreq,
  NofTable K LuReq.lureq, NofTable K PluReq.plureq, NofTable K ModeReq.modereq, NofTable K CpicsReq.cpicsreq, NofTable K CosReq.cosreq}.
Context (fuel : nat) (fopen : list Z -> option (list Z)).

Definition on_kernel {A} (m : M K A) : M (K * display) A := zoom fst (fun k s => (k, s.2)) m.
Definition on_display {A} (m : M display A) : M (K * display) A := zoom snd (fun d s => (s.1, d)) m.

Fixpoint show_nodes (all : bool) (l : list AllInfo.sna_all_info) : M (K * display) Z :=
  match l with
  | [] => mret 0
  | sna :: l =>
      '(err, sna) ← on_kernel (sna_show_gather_info fuel sna);
      if decide (err <> 0) then mret err else
      err ← on_display (sna_show_print all sna);
      if decide (err <> 0) then mret err else show_nodes all l
  end.

(** The list is empty when the program starts, and this is called once. *)
Definition sna_show_all (sna_show_all_flag : bool) : M (K * display) Z :=
  '(err, sna_list) ← of_opt (sna_show_read_nodes (fopen _PATH_SNA_VIRTUAL_NODE) []);
  if decide (err < 0) then mret (-22) else show_nodes sna_show_all_flag sna_list.

Definition sna_show_help {A} : M (K * display) A := c_exit 1.

Definition sna_show (argv : list (list Z)) : M (K * display) Z :=
  match argv with
  | [] => sna_show_all false
  | service :: rest =>
      if bool_decide (rest = []) && matches service (str "all") then sna_show_all true else
      if bool_decide (rest = []) then sna_show_help else
      if matches service (str "node") then mret 0 else
      if matches service (str "dlc") then mret 0 else
      if matches service (str "link") then mret 0 else
      sna_show_help
  end.
End Show.

(** ** What is gathered *)

(** The name in an array, which has an end. *)
Definition ends (m : list Z) : Prop := 0 ∈ m.

Lemma string_ends m : ends m -> string_at 0 m = Some (c_str m).
Proof. intros Hm. unfold string_at. cbn [drop]. by rewrite decide_True. Qed.

Lemma same_ends a b : ends a -> ends b -> same_string a b = Some (bool_decide (c_str a = c_str b)).
Proof. intros Ha Hb. unfold same_string. by rewrite !string_ends. Qed.

Definition of_device (d : DlcReq.dlcreq) (p : PortReq.portreq) : bool := bool_decide (c_str (DlcReq.dev_name d) = c_str (PortReq.dev_name p)).

(** A station of the port or of the device. *)
Definition belongs (d : DlcReq.dlcreq) (p : PortReq.portreq) (l : LsReq.lsreq) : bool :=
  bool_decide (c_str (LsReq.port_name l) = c_str (PortReq.use_name p)) || bool_decide (c_str (LsReq.dev_name l) = c_str (DlcReq.dev_name d)).

(** The longest end of a list whose elements all have a property. *)
Fixpoint suffix_while {A} (f : A -> bool) (l : list A) : list A :=
  match l with
  | [] => []
  | x :: l' => if forallb f l then l else suffix_while f l'
  end.

Definition shown_port (d : DlcReq.dlcreq) (stations : list LsReq.lsreq) (p : PortReq.portreq) : PortReq.portreq :=
  assign PortReq.ls (suffix_while (belongs d p) stations) p.

Definition shown_dlc (ports : list PortReq.portreq) (stations : list LsReq.lsreq) (d : DlcReq.dlcreq) : DlcReq.dlcreq :=
  assign DlcReq.port (shown_port d stations <$> filter (fun p => of_device d p) ports) d.

Definition dlc_ends (d : DlcReq.dlcreq) : Prop := ends (DlcReq.dev_name d).
Definition port_ends (p : PortReq.portreq) : Prop := ends (PortReq.dev_name p) /\ ends (PortReq.use_name p).
Definition ls_ends (l : LsReq.lsreq) : Prop := ends (LsReq.port_name l) /\ ends (LsReq.dev_name l).

Lemma copied_reverse {A} (l : list A) : copied_list (reverse l) [] = l.
Proof. unfold copied_list. rewrite fold_left_rev, reverse_involutive. apply app_nil_r. Qed.

Lemma ports_of_ends d p to : dlc_ends d -> Forall port_ends p ->
  ports_of d p to = Some (reverse (assign PortReq.ls [] <$> filter (fun p => of_device d p) p) ++ to).
Proof.
  intros Hd Hp. revert to. induction Hp as [|x p [Hx _] _ IH]; intros to; [done|]. cbn [ports_of]. rewrite same_ends by done. cbn [mbind option_bind].
  rewrite IH. fold (of_device d x). destruct (of_device d x) eqn:E.
  - rewrite filter_cons_True by (by rewrite E). cbn [fmap list_fmap]. by rewrite reverse_cons, <- app_assoc.
  - by rewrite filter_cons_False by (by rewrite E; intros []).
Qed.

Lemma suffix_while_all {A} (f : A -> bool) l : forallb f l = true -> suffix_while f l = l.
Proof. destruct l; [done|]. cbn [suffix_while]. by intros ->. Qed.

Lemma suffix_while_snoc {A} (f : A -> bool) l x : suffix_while f (l ++ [x]) = if f x then suffix_while f l ++ [x] else [].
Proof.
  induction l as [|y l IH]; cbn [app suffix_while forallb]; [destruct (f x); done|]. rewrite IH, forallb_app. cbn [forallb].
  destruct (f x); cbn [andb]; [|by rewrite !andb_false_r]. rewrite !andb_true_r. by destruct (f y && forallb f l).
Qed.

Lemma stations_of_ends d p l to : dlc_ends d -> port_ends p -> Forall ls_ends l ->
  stations_of d p (reverse l) to = Some (suffix_while (belongs d p) l ++ to).
Proof.
  intros Hd [_ Hp] Hl. revert to. induction l as [|x l IH] using rev_ind; intros to; [done|].
  apply Forall_app in Hl as [Hl [[Hx1 Hx2] _]%Forall_cons]. rewrite reverse_snoc, suffix_while_snoc. cbn [stations_of].
  rewrite (same_ends (LsReq.port_name x) (PortReq.use_name p)) by done. cbn [mbind option_bind]. unfold belongs at 1.
  destruct (bool_decide (c_str (LsReq.port_name x) = _)); cbn [orb mbind option_bind].
  - rewrite IH by done. by rewrite <- app_assoc.
  - rewrite same_ends by done. cbn [mbind option_bind]. destruct (bool_decide _); cbn [negb]; [|done]. rewrite IH by done. by rewrite <- app_assoc.
Qed.

(** Every device gets its ports, and these their stations. *)
Lemma attach_ports_all tp td : Forall dlc_ends td -> Forall port_ends tp ->
  mapM (attach_ports (reverse tp)) (assign DlcReq.port [] <$> td) =
  Some ((fun d => assign DlcReq.port (assign PortReq.ls [] <$> filter (fun p => of_device d p) tp) d) <$> td).
Proof.
  intros Hd Hp. apply mapM_Some_2, Forall2_fmap_2, Forall_Forall2_diag. eapply Forall_impl; [exact Hd|]. intros d Hde. unfold attach_ports.
  rewrite ports_of_ends by (done || by apply Forall_reverse). cbn [mbind option_bind]. rewrite app_nil_r, <- fmap_reverse, filter_reverse, reverse_involutive.
  done.
Qed.

Lemma attach_stations_all tp tl td : Forall dlc_ends td -> Forall port_ends tp -> Forall ls_ends tl ->
  mapM (attach_stations (reverse tl)) ((fun d => assign DlcReq.port (assign PortReq.ls [] <$> filter (fun p => of_device d p) tp) d) <$> td) =
  Some (shown_dlc tp tl <$> td).
Proof.
  intros Hd Hp Hl. apply mapM_Some_2, Forall2_fmap_2, Forall_Forall2_diag. eapply Forall_impl; [exact Hd|]. intros d Hde. unfold attach_stations.
  rewrite (mapM_Some_2 _ _ (shown_port d tl <$> filter (fun p => of_device d p) tp)); [done|].
  apply Forall2_fmap_2, Forall_Forall2_diag, Forall_forall. intros p [_ Hin]%list_elem_of_filter. unfold attach_station.
  pose proof (proj1 (Forall_forall _ _) Hp _ Hin) as Hpe.
  rewrite stations_of_ends; [|done|exact Hpe|done]. cbn [mbind option_bind]. by rewrite app_nil_r.
Qed.

(** The tables of a kernel, and the class of kernels that have them. *)
Record tables : Type := MkTables {
  t_node : list SnaReq.snareq; t_dlc : list DlcReq.dlcreq; t_port : list PortReq.portreq; t_ls : list LsReq.lsreq; t_lu : list LuReq.lureq;
  t_plu : list PluReq.plureq; t_mode : list ModeReq.modereq; t_cpics : list CpicsReq.cpicsreq; t_cos : list CosReq.cosreq
}.

Definition fits (fuel : nat) (t : tables) : Prop :=
  Forall (fun n => (n < 10 + 20 * fuel)%nat)
    [length (t_node t); length (t_dlc t); length (t_port t); length (t_ls t); length (t_lu t); length (t_plu t); length (t_mode t);
     length (t_cpics t); length (t_cos t)].

Section Gathered.
Context {K : Type} `{Nof K} `{NofTable K SnaReq.snareq, NofTable K DlcReq.dlcreq, NofTable K PortReq.portreq, NofTable K LsReq.lsreq,
  NofTable K LuReq.lureq, NofTable K PluReq.plureq, NofTable K ModeReq.modereq, NofTable K CpicsReq.cpicsreq, NofTable K CosReq.cosreq}.
Context (t : tables) `{!NofLists (t_node t), !NofLists (t_dlc t), !NofLists (t_port t), !NofLists (t_ls t), !NofLists (t_lu t),
  !NofLists (t_plu t), !NofLists (t_mode t), !NofLists (t_cpics t), !NofLists (t_cos t)}.

Lemma query_finds {R} `{NofTable K R} (table : list R) `{!NofLists table} {A} fuel n sk cmd sel (f : list R -> M K A) k :
  (10 <= n)%nat -> (length table < 10 + 20 * fuel)%nat -> (query_loop (S fuel) n sk cmd sel ≫= f) k = f (reverse table) k.
Proof. intros Hn Hl. apply M_bind_Ret. apply query_loop_enough; [done|lia]. Qed.
End Gathered.

(** C31 (functional).  When the kernel has a node and devices, the display is given
    all of its tables in their order: under a device the ports of that device, and
    under a port the longest end of the table of link stations whose elements are
    all of that port or of that device.  So the station that is last in the table
    is missing wherever it does not belong, and with it all those before it. *)
Theorem sna_show_gather_info_shows {K} `{Nof K} `{NofTable K SnaReq.snareq, NofTable K DlcReq.dlcreq, NofTable K PortReq.portreq, NofTable K LsReq.lsreq,
    NofTable K LuReq.lureq, NofTable K PluReq.plureq, NofTable K ModeReq.modereq, NofTable K CpicsReq.cpicsreq, NofTable K CosReq.cosreq}
  (t : tables) `{!NofLists (t_node t), !NofLists (t_dlc t), !NofLists (t_port t), !NofLists (t_ls t), !NofLists (t_lu t),
    !NofLists (t_plu t), !NofLists (t_mode t), !NofLists (t_cpics t), !NofLists (t_cos t)} fuel sna n sk (k k' : K) :
  nof_socket AF_SNA SOCK_DGRAM k = (sk, k') -> 0 <= sk -> last (t_node t) = Some n -> t_dlc t <> [] -> fits fuel t ->
  Forall dlc_ends (t_dlc t) -> Forall port_ends (t_port t) -> Forall ls_ends (t_ls t) ->
  sna_show_gather_info (S fuel) sna k =
    Ret (0, AllInfo.Mk (AllInfo.net sna) (AllInfo.name sna) n (t_mode t) (t_plu t) (t_lu t) (shown_dlc (t_port t) (t_ls t) <$> t_dlc t)
              (t_cpics t) (t_cos t))
        (nof_close sk k').2.
Proof.
  intros Hs Hsk Hn Hne Hf Hd Hp Hl. unfold fits in Hf. rewrite !Forall_cons in Hf. destruct_and! Hf. unfold sna_show_gather_info.
  assert (sna_nof_connect k = Ret sk k') as Hc by (unfold sna_nof_connect, kernel; by rewrite Hs). rewrite (M_bind_Ret _ _ _ _ _ Hc).
  rewrite decide_False by lia. unfold nof_query_node. rewrite (query_finds (t_node t)) by (done || lia).
  apply last_Some in Hn as (nodes & Hn). rewrite Hn, reverse_snoc.
  unfold nof_query_dlc. rewrite (query_finds (t_dlc t)) by (done || lia).
  destruct (reverse (t_dlc t)) as [|d td] eqn:Ed; [by apply (f_equal reverse) in Ed; rewrite reverse_involutive in Ed|]. rewrite <- Ed.
  unfold nof_query_port. rewrite (query_finds (t_port t)) by (done || lia).
  rewrite fmap_reverse, copied_reverse, attach_ports_all, of_opt_Some_bind by done.
  unfold nof_query_ls. rewrite (query_finds (t_ls t)) by (done || lia). rewrite attach_stations_all, of_opt_Some_bind by done.
  unfold nof_query_lu. rewrite (query_finds (t_lu t)) by (done || lia).
  unfold nof_query_plu. rewrite (query_finds (t_plu t)) by (done || lia).
  unfold nof_query_mode. rewrite (query_finds (t_mode t)) by (done || lia).
  unfold nof_query_cpic_side_info. rewrite (query_finds (t_cpics t)) by (done || lia).
  unfold nof_query_cos. rewrite (query_finds (t_cos t)) by (done || lia). rewrite !copied_reverse.
  unfold sna_nof_disconnect, kernel, mbind, M_bind. by destruct (nof_close sk k').
Qed.

(** A device with a port, and two link stations: the second is of another port and
    another device, so the first is not shown either. *)
Definition demo_ls (use port dev : string) : LsReq.lsreq :=
  LsReq.Mk (array 40 (str use)) (array 9 (str dev)) (array 9 (str port)) 0 0 0 0 0 0 0 0 0 0 0 (zeros 18) 0 (zeros 6) 0 0 0 0 0 0 0 0 0 0 0 0 0 0.
Arguments demo_ls use%_string port%_string dev%_string.

Definition demo_tables : tables :=
  MkTables [SnaReq.Mk 97517567 2 0 0 1000 6] [DlcReq.Mk (array 9 (str "eth0")) 6 1 1500 (zeros 8) []]
    [PortReq.Mk (array 40 (str "dlc1")) (array 9 (str "eth0")) 10 0 (array 12 [4]) 1000 10 10 [];
     PortReq.Mk (array 40 (str "dlc2")) (array 9 (str "eth1")) 10 0 (array 12 [4]) 1000 10 10 []]
    [demo_ls "a" "dlc1" "eth0"; demo_ls "b" "dlc2" "eth1"] [] [] [] [] [].

Definition demo_table {R} (table : list R) : NofTable (list Z) R := {| nof_ioctl sk cmd sel room k := ((0, take room table), k) |}.
Lemma demo_lists {R} (table : list R) : NofLists (H := demo_table table) table.
Proof. split. reflexivity. Qed.

#[local] Instance show_kernel : Nof (list Z) := {|
  nof_socket domain type k := (3, k ++ [1]);
  nof_close sk k := (0, k ++ [-1]);
  nof_setsockopt sk level opt action p k := (0, k)
|}.

Lemma sna_show_gather_info_shows_witness :
  sna_show_gather_info (K := list Z) (H0 := demo_table (t_node demo_tables)) (H1 := demo_table (t_dlc demo_tables)) (H2 := demo_table (t_port demo_tables))
    (H3 := demo_table (t_ls demo_tables)) (H4 := demo_table (t_lu demo_tables)) (H5 := demo_table (t_plu demo_tables))
    (H6 := demo_table (t_mode demo_tables)) (H7 := demo_table (t_cpics demo_tables)) (H8 := demo_table (t_cos demo_tables)) 1 AllInfo.fresh [] =
  Ret (0, AllInfo.Mk (zeros 9) (zeros 9) (SnaReq.Mk 97517567 2 0 0 1000 6) [] [] []
            [DlcReq.Mk (array 9 (str "eth0")) 6 1 1500 (zeros 8)
               [PortReq.Mk (array 40 (str "dlc1")) (array 9 (str "eth0")) 10 0 (array 12 [4]) 1000 10 10 []]] [] []) [1; -1].
Proof.
  refine (eq_trans (@sna_show_gather_info_shows (list Z) _ _ _ _ _ _ _ _ _ _ demo_tables (demo_lists _) (demo_lists _) (demo_lists _) (demo_lists _)
    (demo_lists _) (demo_lists _) (demo_lists _) (demo_lists _) (demo_lists _) 0 AllInfo.fresh (SnaReq.Mk 97517567 2 0 0 1000 6) 3 [] [1]
    _ _ _ _ _ _ _ _) _); [reflexivity|lia|reflexivity|discriminate| | | | |vm_compute; reflexivity].
  - repeat constructor.
  - repeat constructor; try (apply (bool_decide_unpack _); by vm_compute).
  - repeat constructor; try (apply (bool_decide_unpack _); by vm_compute).
  - repeat constructor; try (apply (bool_decide_unpack _); by vm_compute).
Defined.
