(* ===== verification/SnaControl.v ===== *)
(** * snaconfig/sna_ctrl.c and snaconfig/snaconfig.c: the commands and the program

    Starting, stopping and deleting what is configured, and [main].  The arguments
    are the list of those that are left; [next_arg_fail] with no argument left asks
    for help, which ends the process.  Memory is not short. *)
From S2P Require Import Prelude SnaUtility SnaNof Xml SnaConfig SnaLoad SnaShow.

Section Control.
Context {K : Type} `{Nof K}.

(** ** Structures that are cleared but for their name *)

Definition named_port (name : list Z) : option Port.sna_nof_port :=
  use_name ← store 0 (name ++ [0]) (zeros SNA_USE_NAME_LEN); Some (Port.Mk use_name (zeros 18) (zeros 9) (zeros SNA_PORT_ADDR_LEN) 0 0 0).
Definition named_ls (name : list Z) : option Ls.sna_nof_ls :=
  use_name ← store 0 (name ++ [0]) (zeros SNA_USE_NAME_LEN);
  Some (Ls.Mk use_name (zeros 18) (zeros 9) (zeros SNA_PORT_ADDR_LEN) (zeros 18) 0 (zeros 7) (zeros SNA_PORT_ADDR_LEN) 0 0 0 0 0 0 0 0 0 0 0 0 0 0 0 0).
Definition named_lu (name : list Z) : option RemoteLu.sna_nof_remote_lu :=
  use_name ← store 0 (name ++ [0]) (zeros SNA_USE_NAME_LEN); Some (RemoteLu.Mk use_name (zeros 18) (zeros 18) (zeros 18)).
Definition named_node (name : list Z) : option Node.sna_nof_node :=
  netid ← sna_char_to_netid name; Some (Node.Mk netid 0 0 0 0 0).

(** A socket, one request on the structure, and the socket is closed. *)
Definition control {A} (structure : option A) (nof : Z -> A -> M K Z) : M K Z :=
  sk ← sna_nof_connect;
  if decide (sk < 0) then mret sk else
  a ← of_opt structure;
  err ← nof sk a;
  sna_nof_disconnect sk;;
  mret err.

Definition sna_start_dlc (name : list Z) : M K Z := control (named_port name) nof_start_port.
Definition sna_start_link (name : list Z) : M K Z := control (named_ls name) nof_start_link_station.
Definition sna_start_lu (name : list Z) : M K Z := control (named_lu name) nof_start_remote_lu.
Definition sna_stop_lu (name : list Z) : M K Z := control (named_lu name) nof_stop_remote_lu.
Definition sna_stop_dlc (name : list Z) : M K Z := control (named_port name) nof_stop_port.
Definition sna_stop_link (name : list Z) : M K Z := control (named_ls name) nof_stop_link_station.
Definition sna_delete_dlc (name : list Z) : M K Z := control (named_port name) nof_delete_port.
Definition sna_delete_link (name : list Z) : M K Z := control (named_ls name) nof_delete_link_station.
Definition sna_start_node (name : list Z) : M K Z := control (named_node name) nof_start_node.
Definition sna_stop_node (name : list Z) : M K Z := control (named_node name) nof_stop_node.
Definition sna_delete_node (name : list Z) : M K Z := control (named_node name) nof_delete_node.

(** ** The commands *)

Definition sna_start_help {A} : M K A := c_exit 1.
Definition sna_stop_help {A} : M K A := c_exit 1.
Definition sna_delete_help {A} : M K A := c_exit 1.

Definition sna_start (argv : list (list Z)) : M K Z :=
  match argv with
  | service :: name :: _ =>
      if matches service (str "node") then sna_start_node name else
      if matches service (str "dlc") then sna_start_dlc name else
      if matches service (str "link") then sna_start_link name else
      if matches service (str "lu") then sna_start_lu name else
      if matches service (str "all") then mret 0 else
      sna_start_help
  | _ => sna_start_help
  end.

Definition sna_stop (argv : list (list Z)) : M K Z :=
  match argv with
  | service :: name :: _ =>
      if matches service (str "node") then sna_stop_node name else
      if matches service (str "dlc") then sna_stop_dlc name else
      if matches service (str "link") then sna_stop_link name else
      if matches service (str "lu") then mret 0 else
      if matches service (str "all") then mret 0 else
      sna_stop_help
  | _ => sna_stop_help
  end.

Definition sna_delete (argv : list (list Z)) : M K Z :=
  match argv with
  | service :: name :: _ =>
      if matches service (str "node") then sna_delete_node name else
      if matches service (str "dlc") then sna_delete_dlc name else
      if matches service (str "link") then sna_delete_link name else
      if matches service (str "lu") then mret 0 else
      if matches service (str "all") then mret 0 else
      sna_delete_help
  | _ => sna_delete_help
  end.

Definition sna_find (argv : list (list Z)) : M K Z := mret 0.

(** ** The program *)

(** The loop over the options: what is left of the arguments, and the debug level,
    or the process ends. *)
Fixpoint read_flags (argv : list (list Z)) (sna_debug_level : Z) : Z + list (list Z) * Z :=
  match argv with
  | arg :: rest =>
      match arg with
      | 45 :: tl =>
          let opt := match tl with 45 :: _ => tl | _ => arg end in
          let flag name long := matches opt (str name) || matches opt (str long) in
          if flag "h"%string "-help"%string then inl 1
          else if flag "v"%string "-version"%string then inl 1
          else if flag "d"%string "-debug"%string then
            match rest with
            | [] => inl 1
            | level :: rest => read_flags rest (strtol 10 level).1
            end
          else read_flags rest sna_debug_level
      | _ => inr (argv, sna_debug_level)
      end
  | [] => inr ([], sna_debug_level)
  end.

Context {N : Type} `{Xml N}.
Context `{NofTable K SnaReq.snareq, NofTable K DlcReq.dlcreq, NofTable K PortReq.portreq, NofTable K LsReq.lsreq,
  NofTable K LuReq.lureq, NofTable K PluReq.plureq, NofTable K ModeReq.modereq, NofTable K CpicsReq.cpicsreq, NofTable K CosReq.cosreq}.
Context (be : bool) (proc_write : list Z -> list Z -> K -> bool * K) (xmlParseFile : list Z -> option (document N))
  (fuel : nat) (fopen : list Z -> option (list Z)).

Definition help {A} : M (K * display) A := c_exit 1.

(** The arguments behind the name of the program. *)
Definition main (argv : list (list Z)) : M (K * display) Z :=
  match read_flags argv 1 with
  | inl code => c_exit code
  | inr ([], _) => help
  | inr (action :: argv, _) =>
      if matches action (str "find") then on_kernel (sna_find argv) else
      if matches action (str "load") then on_kernel (sna_load be proc_write xmlParseFile argv) else
      if matches action (str "reload") then on_kernel (sna_reload argv) else
      if matches action (str "unload") then on_kernel (sna_unload argv) else
      if matches action (str "start") then on_kernel (sna_start argv) else
      if matches action (str "stop") then on_kernel (sna_stop argv) else
      if matches action (str "delete") then on_kernel (sna_delete argv) else
      if matches action (str "show") then sna_show fuel fopen argv else
      help
  end.
End Control.

(** ** What a command asks for *)

Definition verbs : list (list Z * Z) := [(str "start", SNA_NOF_START); (str "stop", SNA_NOF_STOP); (str "delete", SNA_NOF_DELETE)].

(** What a service and a name stand for, when it is asked to start, stop or go. *)
Inductive target : Z -> list Z -> list Z -> Z -> parameter -> Prop :=
  | target_node action n : netid_ok n ->
      target action (str "node") (netid_text n) SNA_NOF_NODE (PNode (Node.Mk (netid_of n.1 n.2) 0 0 0 0 0))
  | target_dlc action name : (length name < 40)%nat ->
      target action (str "dlc") name SNA_NOF_PORT (PPort (Port.Mk (array 40 name) (zeros 18) (zeros 9) (zeros 12) 0 0 0))
  | target_link action name : (length name < 40)%nat ->
      target action (str "link") name SNA_NOF_LS
        (PLs (Ls.Mk (array 40 name) (zeros 18) (zeros 9) (zeros 12) (zeros 18) 0 (zeros 7) (zeros 12) 0 0 0 0 0 0 0 0 0 0 0 0 0 0 0 0))
  | target_lu name : (length name < 40)%nat ->
      target SNA_NOF_START (str "lu") name SNA_NOF_REMOTE_LU (PRemoteLu (RemoteLu.Mk (array 40 name) (zeros 18) (zeros 18) (zeros 18))).

(** One request on a socket of its own. *)
Definition one_request {K} `{Nof K} (opt action : Z) (p : parameter) (k : K) : Z * K :=
  let '(sk, k) := nof_socket AF_SNA SOCK_DGRAM k in
  if decide (sk < 0) then (sk, k) else
  let '(err, k) := nof_setsockopt sk SOL_SNA_NOF opt action p k in
  (err, (nof_close sk k).2).

Section Asks.
Context {K : Type} `{Nof K}.

Lemma control_asks {A} (structure : option A) (nof : Z -> A -> M K Z) a opt action p k : structure = Some a ->
  (forall sk, nof sk a = request SOL_SNA_NOF opt action p sk) ->
  control structure nof k = let '(err, k) := one_request opt action p k in Ret err k.
Proof.
  intros -> Hn. unfold control, one_request, sna_nof_connect, sna_nof_disconnect, request, kernel, mbind, M_bind.
  destruct (nof_socket _ _ k) as [sk k1]. case_decide; [done|]. cbn [of_opt]. unfold mret, M_ret. rewrite Hn. unfold request, kernel.
  destruct (nof_setsockopt _ _ _ _ _ k1) as [err k2]. by destruct (nof_close sk k2).
Qed.

Lemma name_stored name : (length name < 40)%nat -> store 0 (name ++ [0]) (zeros SNA_USE_NAME_LEN) = Some (array 40 name).
Proof. apply store_array. Qed.

Lemma named_netid n : netid_ok n -> named_node (netid_text n) = Some (Node.Mk (netid_of n.1 n.2) 0 0 0 0 0).
Proof. intros (Hne & Hp & Ha & Hb). unfold named_node, netid_text. by rewrite char_to_netid. Qed.
End Asks.

(** [snaconfig start], [stop] and [delete] with a service and its
    name send one request, for the node of that name, or the port, the link station
    or (only to start) the partner of that name, on a socket which is closed again,
    and return its result; nothing is printed.  To stop or delete a logical unit
    returns success and sends nothing. *)
Theorem snaconfig_controls {K N} `{Nof K, Xml N} `{NofTable K SnaReq.snareq, NofTable K DlcReq.dlcreq, NofTable K PortReq.portreq, NofTable K LsReq.lsreq,
    NofTable K LuReq.lureq, NofTable K PluReq.plureq, NofTable K ModeReq.modereq, NofTable K CpicsReq.cpicsreq, NofTable K CosReq.cosreq}
  be proc_write (xmlParseFile : list Z -> option (document N)) fuel fopen verb action service name opt p (k : K) d :
  (verb, action) ∈ verbs ->
  (target action service name opt p ->
   main be proc_write xmlParseFile fuel fopen [verb; service; name] (k, d) = let '(err, k) := one_request opt action p k in Ret err (k, d)) /\
  (verb <> str "start" -> main be proc_write xmlParseFile fuel fopen [verb; str "lu"; name] (k, d) = Ret 0 (k, d)).
Proof.
  intros Hv.
  assert (forall m opt p, (m : M K Z) k = (let '(err, k) := one_request opt action p k in Ret err k) ->
    on_kernel m (k, d) = let '(err, k) := one_request opt action p k in Ret err (k, d)) as Hk.
  { intros m o q Hm. unfold on_kernel, zoom. cbn [fst snd]. rewrite Hm. by destruct (one_request o action q k). }
  repeat (apply elem_of_cons in Hv as [[= -> ->]|Hv]); try (by apply elem_of_nil in Hv); (split; [intros Ht|intros Hne; first [done|reflexivity]]);
    inversion Ht; subst; apply Hk; (eapply control_asks; [first [by apply named_netid | unfold named_port, named_ls, named_lu; by rewrite name_stored]|reflexivity]).
Qed.

(** The kernel keeps what is asked for. *)
#[local] Instance asked_kernel : Nof (list Z) := {|
  nof_socket domain type k := (3, k ++ [1]);
  nof_close sk k := (0, k ++ [-1]);
  nof_setsockopt sk level opt action p k := (-2, k ++ [opt; action])
|}.
#[local] Instance no_table {R} : NofTable (list Z) R := demo_table [].

Lemma snaconfig_controls_witness :
  main (N := tree) false (fun _ _ k => (true, k)) (fun _ => None) 5 (fun _ => None) [str "stop"; str "node"; str "lnxsna.ehead"] ([], MkDisplay [] [] [] []) =
    Ret (-2) ([1; SNA_NOF_NODE; SNA_NOF_STOP; -1], MkDisplay [] [] [] []).
Proof.
  refine (eq_trans (proj1 (snaconfig_controls (N := tree) false _ (fun _ => None) 5 _ (str "stop") SNA_NOF_STOP (str "node") (str "lnxsna.ehead") _ _ [] _ _)
    (target_node _ (str "lnxsna", str "ehead") _)) _); [right; left|split_and!; check_ok|vm_compute; reflexivity].
Defined.
