(* ===== verification/Aping.v ===== *)
(** * asuite/aping.c and asuite/apingd.c: the echo of packets

    The program that sends packets and measures, over the CPI-C interface, and the
    server that sends them back.  A loop that waits for the partner has fuel, a turn
    for each call that receives.  What [printf] writes is a list of lines, of which
    the numbers are kept; what goes to the log and to the standard error is left out.
    Memory is not short.  The width of a [long] is a parameter. *)
From S2P Require Import Prelude Cpic CpicSession.

Definition DEFDATALEN := 100.
Definition MAXPACKET := 32763.
Definition PING_MAJOR := 2.
Definition PING_MINOR := 40.
Definition ONEWAY_MAJOR := 2.
Definition ONEWAY_MINOR := 2.
Definition CM_SEND_AND_CONFIRM := 2.
Definition CM_SEND_AND_PREP_TO_RECEIVE := 3.

(** ** Integers *)

Definition LONG_MAX (long_bits : Z) : Z := 2 ^ (long_bits - 1) - 1.
(** A value made an [unsigned long]. *)
Definition ulong (long_bits x : Z) : Z := x mod 2 ^ long_bits.

(** Products of [int]s; products and sums of [long]s. *)
Definition int_mul (a b : Z) : option Z := if decide (-2147483648 <= a * b <= INT_MAX) then Some (a * b) else None.
Definition as_long (long_bits x : Z) : option Z := if decide (- LONG_MAX long_bits - 1 <= x <= LONG_MAX long_bits) then Some x else None.
Definition long_mul (long_bits a b : Z) : option Z := as_long long_bits (a * b).

(** ** The program *)

Inductive line : Type :=
  | AllocateTook (ms : Z)
  | ConnectedTo (os_name : list Z)
  | OneWayNotSupported
  | StartupTook (ms : Z)
  | Header
  | WrongNumber
  | Stats (elapsed data : Z) (rate : option Z)
  | Totals (total data : Z) (rate : option Z)
  | Duration (least average most : Z).

(** The variables of the file; [rate] above is the quotient of integers that becomes
    the [double]. *)
Record settings : Type := MkSettings { datalen : Z; iterations : Z; concurrent : Z; one_way : Z; pingsession : cpic_session }.

Definition set_datalen (v : Z) (s : settings) : settings := MkSettings v (iterations s) (concurrent s) (one_way s) (pingsession s).
Definition set_iterations (v : Z) (s : settings) : settings := MkSettings (datalen s) v (concurrent s) (one_way s) (pingsession s).
Definition set_concurrent (v : Z) (s : settings) : settings := MkSettings (datalen s) (iterations s) v (one_way s) (pingsession s).
Definition set_one_way (v : Z) (s : settings) : settings := MkSettings (datalen s) (iterations s) (concurrent s) v (pingsession s).
Definition on_session {A} (m : M cpic_session A) : M settings A :=
  zoom pingsession (fun x s => MkSettings (datalen s) (iterations s) (concurrent s) (one_way s) x) m.

Definition atoi (s : list Z) : Z := (strtol 10 s).1.

Definition usage {A S} : M S A := c_exit EXIT_FAILURE.

(** The options as [getopt] returns them; [p] has no argument in its pattern, so
    [optarg] is a null pointer then. *)
Fixpoint read_options (options : list (Z * list Z)) : M settings unit :=
  match options with
  | [] => mret tt
  | (ch, optarg) :: options =>
      (if decide (ch = 118) then c_exit 0
       else if decide (ch = 102) then mret tt
       else if decide (ch = 109) then on_session (cpic_session_set_mode_name optarg);; mret tt
       else if decide (ch = 116) then on_session (cpic_session_set_tp_name optarg);; mret tt
       else if decide (ch = 117) then on_session (cpic_session_set_userid optarg);; mret tt
       else if decide (ch = 112) then undef
       else if decide (ch = 110) then on_session (cpic_session_set_security_type CM_SECURITY_NONE)
       else if decide (ch = 115) then
         modify (set_datalen (atoi optarg));;
         if decide (MAXPACKET < atoi optarg) then c_exit EXIT_FAILURE else
         if decide (atoi optarg <= 0) then c_exit EXIT_FAILURE else mret tt
       else if decide (ch = 105) then modify (set_iterations (atoi optarg))
       else if decide (ch = 99) then modify (set_concurrent (atoi optarg))
       else if decide (ch = 49) then modify (set_one_way 1)
       else usage);;
      read_options options
  end.

Definition process_arguments (options : list (Z * list Z)) (argv : list (list Z)) : M settings unit :=
  read_options options;;
  match argv with
  | [arg] => on_session (if bool_decide (46 ∈ arg) then cpic_session_set_destination arg else cpic_session_set_symbolic_name arg);; mret tt
  | _ => usage
  end.

Section Ping.
Context {K : Type} `{Cpic K, CpicTypes K}.

(** The bits of a [long]; what [gettimeofday] says the n-th time it is called: seconds
    and microseconds. *)
Context (long_bits : Z) (gettimeofday : nat -> Z * Z).

(** The conversation, the number of times the clock was read, what is printed. *)
Record aping : Type := MkAping { kern : K; ticks : nat; printed : list line }.

Abbreviation Ping := (M aping).

Definition call {A} (m : M K A) : Ping A := zoom kern (fun k s => MkAping k (ticks s) (printed s)) m.
Definition print (l : line) : Ping unit := modify (fun s => MkAping (kern s) (ticks s) (printed s ++ [l])).

(** Milliseconds; a product or a sum that does not fit a [long] has no value. *)
Definition clock (n : nat) : option Z :=
  let '(tv_sec, tv_usec) := gettimeofday n in
  ms ← long_mul long_bits 1000 tv_sec;
  ms ← as_long long_bits (ms + Z.quot tv_usec 1000);
  Some (ulong long_bits ms).
Definition get_time : Ping Z := s ← get_st; put_st (MkAping (kern s) (S (ticks s)) (printed s));; of_opt (clock (ticks s)).

Definition print_header : Ping unit := print Header.

(** A verb that must not fail. *)
Definition must (v : K -> Z * K) : Ping unit := rc ← call (verb v); if decide (rc <> CM_OK) then c_exit EXIT_FAILURE else mret tt.

(** A packet received into the buffer. *)
Definition into (data buffer : list Z) : list Z := data ++ drop (length data) buffer.

Fixpoint sends (n : nat) (buffer : list Z) : Ping unit :=
  match n with
  | O => mret tt
  | S n => must (cmsend buffer);; sends n buffer
  end.

(** Until it is this side's turn to send: the buffer and what is left of the count. *)
Fixpoint receives (fuel : nat) (datalen : Z) (buffer : list Z) (curr_concurrent : Z) : Ping (list Z * Z) :=
  match fuel with
  | O => no_fuel
  | S fuel =>
      r ← call (verb (cmrcv datalen));
      if decide (rcv_rc r <> CM_OK) then c_exit EXIT_FAILURE else
      let '(buffer, curr_concurrent) :=
        if decide (data_received r <> CM_NO_DATA_RECEIVED) then (into (rcv_data r) buffer, curr_concurrent - 1) else (buffer, curr_concurrent) in
      if decide (status_received r <> CM_SEND_RECEIVED) then receives fuel datalen buffer curr_concurrent else mret (buffer, curr_concurrent)
  end.

(** The data of a transaction, and its rate; less than ten milliseconds that are not
    none are a division by zero. *)
Definition print_stats (datalen concurrent one_way elapsed_time : Z) : Ping unit :=
  data ← of_opt (int_mul datalen concurrent);
  sent ← of_opt (int_mul data one_way);
  if decide (elapsed_time = 0) then print (Stats elapsed_time (u32 sent) None) else
  x ← of_opt (int_mul (Z.quot data 1024) 1000);
  x ← of_opt (int_mul x one_way);
  if decide (elapsed_time / 10 = 0) then undef else
  print (Stats elapsed_time (u32 sent) (Some (ulong long_bits x / (elapsed_time / 10) / 10))).

(** A transaction: the buffer, the total, and the extremes. *)
Definition transaction (fuel : nat) (datalen concurrent one_way : Z) (buffer : list Z) (total_time min_time max_time : Z) :
    Ping (list Z * Z * Z * Z) :=
  must (cmsst CM_BUFFER_DATA);;
  start_time ← get_time;
  sends (Z.to_nat (concurrent - 1)) buffer;;
  let curr_concurrent := Z.max 1 concurrent in
  must (cmsst (if decide (one_way <> 1) then CM_SEND_AND_PREP_TO_RECEIVE else CM_SEND_AND_CONFIRM));;
  must (cmsend buffer);;
  buffer ← (if decide (one_way <> 1) then
      '(buffer, curr_concurrent) ← receives fuel datalen buffer curr_concurrent;
      (if decide (curr_concurrent <> 0) then print WrongNumber else mret tt);;
      mret buffer
    else mret buffer);
  end_time ← get_time;
  let elapsed_time := ulong long_bits (end_time - start_time) in
  print_stats datalen concurrent one_way elapsed_time;;
  mret (buffer, ulong long_bits (total_time + elapsed_time), Z.min min_time elapsed_time, Z.max max_time elapsed_time).

Fixpoint transactions (n : nat) (fuel : nat) (datalen concurrent one_way : Z) (buffer : list Z) (total_time min_time max_time : Z) :
    Ping (Z * Z * Z) :=
  match n with
  | O => mret (total_time, min_time, max_time)
  | S n =>
      '(buffer, total_time, min_time, max_time) ← transaction fuel datalen concurrent one_way buffer total_time min_time max_time;
      transactions n fuel datalen concurrent one_way buffer total_time min_time max_time
  end.

(** [curr_iteration] is a [long], and so are the products with it. *)
Definition print_totals (datalen concurrent one_way iterations total_time min_time max_time : Z) : Ping unit :=
  data ← of_opt (int_mul datalen concurrent);
  (if decide (10 < total_time) then
     x ← of_opt (long_mul long_bits (Z.quot data 1024) iterations);
     x ← of_opt (long_mul long_bits x 1000);
     x ← of_opt (long_mul long_bits x one_way);
     sent ← of_opt (long_mul long_bits data iterations);
     sent ← of_opt (long_mul long_bits sent one_way);
     print (Totals total_time (ulong long_bits sent) (Some (ulong long_bits x / (total_time / 10) / 10)))
   else
     sent ← of_opt (long_mul long_bits data iterations);
     sent ← of_opt (long_mul long_bits sent one_way);
     print (Totals total_time (ulong long_bits sent) None));;
  if decide (0 < iterations) then print (Duration min_time (total_time / iterations) max_time) else mret tt.

(** A [char] has a sign. *)
Definition signed_char (v : Z) : Z := if decide (v < 128) then v else v - 256.

(** Behind the options. *)
Definition ping (fuel : nat) (s : settings) : Ping unit :=
  let buffer := replicate (Z.to_nat (datalen s)) 0 in
  rc ← call (cpic_session_init (pingsession s));
  if decide (rc <> CM_OK) then c_exit EXIT_FAILURE else
  must (cmssl CM_CONFIRM);;
  must (cmsptr CM_PREP_TO_RECEIVE_FLUSH);;
  start_time ← get_time;
  rc ← call (verb cmallc);
  end_time ← get_time;
  if decide (rc <> CM_OK) then c_exit EXIT_FAILURE else
  print (AllocateTook (ulong long_bits (end_time - start_time)));;
  start_time ← get_time;
  '(_, v) ← call (get_server_version PING_MAJOR PING_MINOR (Some 64));
  if decide (vrc v <> CM_OK) then c_exit EXIT_FAILURE else
  end_time ← get_time;
  os ← of_opt (os_name v);
  (if decide (os <> []) then print (ConnectedTo os) else mret tt);;
  let tp_major := signed_char (major v) in
  let tp_minor := signed_char (minor v) in
  let supported := bool_decide (ONEWAY_MAJOR < tp_major \/ (tp_major = ONEWAY_MAJOR /\ ONEWAY_MINOR <= tp_minor)) in
  one_way ← (if decide (one_way s = 1 /\ supported = false) then print OneWayNotSupported;; mret 2 else mret (one_way s));
  print (StartupTook (ulong long_bits (end_time - start_time)));;
  print_header;;
  '(total_time, min_time, max_time) ← transactions (Z.to_nat (iterations s)) fuel (datalen s) (concurrent s) one_way buffer 0 4294967295 0;
  must (cmsdt CM_DEALLOCATE_FLUSH);;
  must cmdeal;;
  print_totals (datalen s) (concurrent s) one_way (Z.max 0 (iterations s)) total_time min_time max_time;;
  c_exit EXIT_SUCCESS.

(** The session and the settings the program starts with. *)
Definition default_settings : option settings :=
  x ← cpic_session_new false;
  Some (MkSettings DEFDATALEN 2 1 2 x).

Definition do_aping (fuel : nat) (options : list (Z * list Z)) (argv : list (list Z)) : Ping unit := fun p =>
  match default_settings with
  | None => Undef p
  | Some s =>
      match (on_session (cpic_session_set_tp_name (str "APINGD"));; on_session (cpic_session_set_mode_name (str "#INTER"));;
             on_session (cpic_session_set_symbolic_name (str "APING   "));; process_arguments options argv) s with
      | Ret _ s => ping fuel s p
      | Exit code _ => Exit code p
      | Abort _ => Abort p
      | Undef _ => Undef p
      | NoFuel _ => NoFuel p
      end
  end.
End Ping.
Arguments aping K : clear implicits.

(** ** The server *)

Section Server.
Context {K : Type} `{Cpic K, CpicServer K}.

(** The bits of a [long]; what [strlen] makes of an array that was never assigned. *)
Context (long_bits garbage : Z).

(** The loop that receives: the last call, the number of packets, the buffer as far as
    it is assigned, and the length of the last packet. *)
Fixpoint receive_packets (fuel : nat) (count : Z) (buffer : list Z) (received_len : nat) : M K (received * Z * list Z * nat) :=
  match fuel with
  | O => no_fuel
  | S fuel =>
      r ← verb (cmrcv MAXPACKET);
      if decide (rcv_rc r <> CM_OK) then mret (r, count, buffer, received_len) else
      let '(count, buffer, received_len) :=
        if decide (data_received r <> CM_NO_DATA_RECEIVED) then (ulong long_bits (count + 1), into (rcv_data r) buffer, length (rcv_data r))
        else (count, buffer, received_len) in
      if decide (status_received r <> CM_SEND_RECEIVED /\ status_received r <> CM_CONFIRM_RECEIVED)
      then receive_packets fuel count buffer received_len else mret (r, count, buffer, received_len)
  end.

(** A failure ends the loop, and is overwritten by the next verb. *)
Fixpoint send_back (n : nat) (packet : list Z) : M K unit :=
  match n with
  | O => mret tt
  | S n => rc ← verb (cmsend packet); if decide (rc <> CM_OK) then mret tt else send_back n packet
  end.

Definition must_serve (v : K -> Z * K) : M K unit := rc ← verb v; if decide (rc <> CM_OK) then c_exit EXIT_FAILURE else mret tt.

(** Turns of the outer loop.  [count - 1] is a number without a sign. *)
Fixpoint serve (fuel : nat) (buffer : list Z) (received_len : nat) : M K unit :=
  match fuel with
  | O => no_fuel
  | S fuel' =>
      '(r, count, buffer, received_len) ← receive_packets fuel 0 buffer received_len;
      if decide (rcv_rc r <> CM_OK) then c_exit (if decide (rcv_rc r = CM_DEALLOCATED_NORMAL) then EXIT_SUCCESS else EXIT_FAILURE) else
      (if decide (status_received r <> CM_CONFIRM_RECEIVED) then
         must_serve (cmsst CM_BUFFER_DATA);;
         send_back (Z.to_nat (ulong long_bits (count - 1))) (take received_len buffer);;
         must_serve (cmsst CM_SEND_AND_PREP_TO_RECEIVE);;
         must_serve (cmsend (take received_len buffer))
       else must_serve cmcfmd);;
      serve fuel' buffer received_len
  end.

(** The name of the partner and its terminator go to eighteen characters. *)
Definition apingd (fuel : nat) : M K unit :=
  rc ← verb cmaccp;
  if decide (rc <> CM_OK) then c_exit EXIT_FAILURE else
  '(name, rc) ← verb cmepln;
  if decide (rc <> CM_OK \/ (18 <= length name)%nat) then undef else
  must_serve (cmsptr CM_PREP_TO_RECEIVE_FLUSH);;
  get_client_version PING_MAJOR PING_MINOR (Some garbage);;
  serve fuel [] 0.
End Server.

(** ** The two together *)

(** What the calls receive when the partner has sent these packets, and with the last
    the turn or the wish for a confirmation. *)
Fixpoint turn (st : Z) (ms : list (list Z)) : list received :=
  match ms with
  | [] => []
  | [m] => [MkReceived m CM_COMPLETE_DATA_RECEIVED st CM_OK]
  | m :: ms => MkReceived m CM_COMPLETE_DATA_RECEIVED CM_NO_STATUS_RECEIVED CM_OK :: turn st ms
  end.

(** A partner that ends the conversation. *)
Definition ended : received := MkReceived [] CM_NO_DATA_RECEIVED CM_NO_STATUS_RECEIVED CM_DEALLOCATED_NORMAL.

(** A transaction of [n + 1] packets: what the program receives in it and the calls it
    makes, what the server receives and the calls it makes.  [way] is one or two. *)
Definition client_turn (way : Z) (n : nat) (z : list Z) : list received :=
  if decide (way <> 1) then turn CM_SEND_RECEIVED (replicate (S n) z) else [].
Definition client_calls (way d : Z) (n : nat) (z : list Z) : list cpic_call :=
  [Cmsst CM_BUFFER_DATA] ++ replicate n (Cmsend z) ++
  [Cmsst (if decide (way <> 1) then CM_SEND_AND_PREP_TO_RECEIVE else CM_SEND_AND_CONFIRM); Cmsend z] ++
  (if decide (way <> 1) then replicate (S n) (Cmrcv d) else []).
Definition server_turn (way : Z) (n : nat) (z : list Z) : list received :=
  turn (if decide (way <> 1) then CM_SEND_RECEIVED else CM_CONFIRM_RECEIVED) (replicate (S n) z).
Definition server_calls (way : Z) (n : nat) (z : list Z) : list cpic_call :=
  replicate (S n) (Cmrcv MAXPACKET) ++
  (if decide (way <> 1) then [Cmsst CM_BUFFER_DATA] ++ replicate n (Cmsend z) ++ [Cmsst CM_SEND_AND_PREP_TO_RECEIVE; Cmsend z] else [Cmcfmd]).

Definition packet_ok (m : list Z) : Prop := is_bytes m /\ Z.of_nat (length m) <= MAXPACKET.

(** So many repetitions, one after the other. *)
Definition times {A} (i : nat) (l : list A) : list A := mjoin (replicate i l).

Lemma times_S {A} i (l : list A) : times (S i) l = l ++ times i l.
Proof. done. Qed.

Lemma take_into m b : take (length m) (into m b) = m.
Proof. unfold into. apply take_app_length. Qed.

Lemma into_same m b : length b = length m -> into m b = m.
Proof. intros Hl. unfold into. rewrite drop_ge by lia. apply app_nil_r. Qed.

Lemma turn_S st n z : turn st (replicate (S (S n)) z) = MkReceived z CM_COMPLETE_DATA_RECEIVED CM_NO_STATUS_RECEIVED CM_OK :: turn st (replicate (S n) z).
Proof. done. Qed.

Lemma ulong_small bits x : 0 <= x < 2 ^ bits -> ulong bits x = x.
Proof. apply Z.mod_small. Qed.

Lemma as_long_ok bits x : 0 <= x <= LONG_MAX bits -> as_long bits x = Some x.
Proof. intros Hx. unfold as_long. rewrite decide_True; [done|lia]. Qed.

Lemma long_double bits : 1 <= bits -> 2 ^ bits = 2 * (LONG_MAX bits + 1).
Proof. intros Hb. unfold LONG_MAX. replace bits with (Z.succ (bits - 1)) at 1 by lia. rewrite Z.pow_succ_r by lia. lia. Qed.

Lemma int_in_long bits x : 32 <= bits -> x <= INT_MAX -> x <= LONG_MAX bits.
Proof. intros Hb Hx. assert (2 ^ 31 <= 2 ^ (bits - 1)) by (apply Z.pow_le_mono_r; lia). unfold LONG_MAX, INT_MAX in *. lia. Qed.

(** *** The server *)

Section ServerTurns.
Context (bits : Z) (Hbits : 32 <= bits).

Lemma count_fits x : x < 4294967296 -> x < 2 ^ bits.
Proof. intros Hx. assert (2 ^ 32 <= 2 ^ bits) by (apply Z.pow_le_mono_r; lia). lia. Qed.

Lemma serve_receives fuel count buffer len n st z inc cls : packet_ok z -> st = CM_SEND_RECEIVED \/ st = CM_CONFIRM_RECEIVED -> (n < fuel)%nat ->
  0 <= count -> count + Z.of_nat (S n) < 4294967296 ->
  exists r b, receive_packets bits fuel count buffer len (MkScript (turn st (replicate (S n) z) ++ inc) cls) =
    Ret (r, count + Z.of_nat (S n), b, length z) (MkScript inc (cls ++ replicate (S n) (Cmrcv MAXPACKET))) /\
    rcv_rc r = CM_OK /\ status_received r = st /\ take (length z) b = z.
Proof.
  intros [Hb Hl] Hst. revert fuel count buffer len cls. induction n as [|n IH]; intros [|fuel] count buffer len cls Hf H0 Hc; try lia; cbn [receive_packets].
  - eexists _, _. cbn [replicate turn app]. rewrite (M_bind_Ret _ _ _ _ _ (script_rcv_next _ _ _ _ _ _ _ Hb Hl)). cbn [rcv_rc data_received status_received rcv_data].
    rewrite decide_False by (intros Hx; by apply Hx). rewrite decide_True by done. rewrite decide_False by (intros [Hx Hy]; by destruct Hst).
    rewrite ulong_small by (pose proof (count_fits (count + 1)); lia). split_and!; [done..|apply take_into].
  - rewrite turn_S. cbn [app]. rewrite (M_bind_Ret _ _ _ _ _ (script_rcv_next _ _ _ _ _ _ _ Hb Hl)). cbn [rcv_rc data_received status_received rcv_data].
    rewrite decide_False by (intros Hx; by apply Hx). rewrite decide_True by done. rewrite decide_True by (split; discriminate).
    rewrite ulong_small by (pose proof (count_fits (count + 1)); lia).
    destruct (IH fuel (count + 1) (into z buffer) (length z) (cls ++ [Cmrcv MAXPACKET])) as (r & b & E & Hr); [lia..|].
    exists r, b. rewrite E, <- app_assoc. by replace (count + 1 + Z.of_nat (S n)) with (count + Z.of_nat (S (S n))) by lia.
Qed.

Lemma send_back_script n p inc cls : send_back n p (MkScript inc cls) = Ret tt (MkScript inc (cls ++ replicate n (Cmsend p))).
Proof.
  revert cls. induction n as [|n IH]; intros cls; cbn [send_back replicate]; [by rewrite app_nil_r|].
  verb_ok. rewrite IH. by rewrite <- app_assoc.
Qed.

Lemma must_serve_ok (v : script -> Z * script) k k' : v k = (CM_OK, k') -> must_serve v k = Ret tt k'.
Proof. intros Hv. unfold must_serve, verb, mbind, M_bind. by rewrite Hv. Qed.

Ltac serve_step := erewrite (M_bind_Ret (must_serve _)) by (by apply must_serve_ok); unfold note; cbn [incoming calls].

Lemma send_turn n p inc cls :
  (must_serve (cmsst CM_BUFFER_DATA);; send_back n p;; must_serve (cmsst CM_SEND_AND_PREP_TO_RECEIVE);; must_serve (cmsend p)) (MkScript inc cls) =
  Ret tt (MkScript inc (cls ++ [Cmsst CM_BUFFER_DATA] ++ replicate n (Cmsend p) ++ [Cmsst CM_SEND_AND_PREP_TO_RECEIVE; Cmsend p])).
Proof.
  serve_step. rewrite (M_bind_Ret _ _ _ _ _ (send_back_script n p inc _)). serve_step.
  erewrite must_serve_ok by reflexivity. unfold note. cbn [incoming calls]. by join_calls.
Qed.

Lemma serve_turns way n z i fuel buffer len cls : packet_ok z -> Z.of_nat (S n) < 4294967296 -> (S n + i < fuel)%nat ->
  serve bits fuel buffer len (MkScript (times i (server_turn way n z) ++ [ended]) cls) =
  Exit EXIT_SUCCESS (MkScript [] (cls ++ times i (server_calls way n z) ++ [Cmrcv MAXPACKET])).
Proof.
  intros Hz Hc. revert fuel buffer len cls. induction i as [|i IH]; intros [|fuel] buffer len cls Hf; try lia.
  - done.
  - rewrite !times_S, <- !app_assoc. unfold server_turn at 1. cbn [serve]. set (st := if decide (way <> 1) then _ else _).
    destruct (serve_receives (S fuel) 0 buffer len n st z (times i (server_turn way n z) ++ [ended]) cls) as (r & b & E & Hr & Hs & Hb);
      [done|unfold st; case_decide; [by left|by right]|lia..|].
    rewrite (M_bind_Ret _ _ _ _ _ E). rewrite decide_False by (intros Hx; by apply Hx). rewrite Hs.
    assert (Z.to_nat (ulong bits (0 + Z.of_nat (S n) - 1)) = n) as ->.
    { rewrite ulong_small by (pose proof (count_fits (Z.of_nat (S n))); lia). lia. }
    rewrite Hb. unfold server_calls at 1. unfold st. destruct (decide (way <> 1)) as [Hw|Hw].
    + rewrite (decide_True (P := CM_SEND_RECEIVED <> _)) by discriminate. rewrite (M_bind_Ret _ _ _ _ _ (send_turn _ _ _ _)), IH by lia. by join_calls.
    + rewrite (decide_False (P := CM_CONFIRM_RECEIVED <> _)) by (intros Hx; by apply Hx). serve_step. rewrite IH by lia. by join_calls.
Qed.

(** The server's half. *)
Lemma apingd_echoes garbage way n z i fuel :
  packet_ok z -> Z.of_nat (S n) < 4294967296 -> (S n + i < fuel)%nat ->
  apingd bits garbage fuel (MkScript (MkReceived (version_request PING_MAJOR PING_MINOR) CM_COMPLETE_DATA_RECEIVED CM_SEND_RECEIVED CM_OK ::
    times i (server_turn way n z) ++ [ended]) []) =
  Exit EXIT_SUCCESS (MkScript [] ([Cmaccp; Cmepln; Cmsptr CM_PREP_TO_RECEIVE_FLUSH] ++ answers_version (version_reply PING_MAJOR PING_MINOR) ++
    times i (server_calls way n z) ++ [Cmrcv MAXPACKET])).
Proof.
  intros Hz Hc Hf. unfold apingd. verb_ok. verb_step. rewrite decide_False by (intros [Hx|Hx]; [by apply Hx|vm_compute in Hx; lia]). serve_step. cbn [app].
  destruct (get_client_version_script PING_MAJOR PING_MINOR PING_MAJOR PING_MINOR garbage CM_COMPLETE_DATA_RECEIVED (times i (server_turn way n z) ++ [ended])
    [Cmaccp; Cmepln; Cmsptr CM_PREP_TO_RECEIVE_FLUSH]) as (v & E & _).
  rewrite (M_bind_Ret _ _ _ _ _ E), serve_turns by done. by join_calls.
Qed.
End ServerTurns.

(** *** The program *)

Lemma ping_call_Ret {A} (m : M script A) a k k' t p : m k = Ret a k' -> call m (MkAping k t p) = Ret a (MkAping k' t p).
Proof. intros Hm. unfold call, zoom. cbn [kern]. by rewrite Hm. Qed.

Lemma must_ok (v : script -> Z * script) k k' t p : v k = (CM_OK, k') -> must v (MkAping k t p) = Ret tt (MkAping k' t p).
Proof. intros Hv. unfold must, call, verb, zoom, mbind, M_bind. cbn [kern]. rewrite Hv. cbn. done. Qed.

Ltac must_step := erewrite (M_bind_Ret (must _)) by (by apply must_ok); unfold note; cbn [incoming calls].

Section Client.
Context (bits : Z) (Hbits : 32 <= bits) (gettimeofday : nat -> Z * Z).

(** A reading of the clock that fits, and what it says. *)
Definition readable (t : nat) : Prop :=
  0 <= (gettimeofday t).1 /\ 0 <= (gettimeofday t).2 < 1000000 /\ 1000 * (gettimeofday t).1 + 999 <= LONG_MAX bits.
Definition ms (t : nat) : Z := 1000 * (gettimeofday t).1 + (gettimeofday t).2 / 1000.

(** The milliseconds between two readings; less than ten, but some, cannot be divided by. *)
Definition elapsed (t : nat) : Z := ulong bits (ms (S t) - ms t).
Definition measurable (t : nat) : Prop := elapsed t = 0 \/ 10 <= elapsed t.

(** The times of transactions, two readings each. *)
Fixpoint elapses (t i : nat) : list Z :=
  match i with
  | O => []
  | S i => elapsed t :: elapses (S (S t)) i
  end.

(** The lines printed for these times, each transaction having [dc] bytes each way. *)
Definition figures (dc way e : Z) : line := Stats e (dc * way) (if decide (e = 0) then None else Some (Z.quot dc 1024 * 1000 * way / (e / 10) / 10)).
Definition totals (dc way i : Z) (es : list Z) : list line :=
  let total := foldl (fun a e => ulong bits (a + e)) 0 es in
  Totals total (dc * i * way) (if decide (10 < total) then Some (Z.quot dc 1024 * i * 1000 * way / (total / 10) / 10) else None) ::
  (if decide (0 < i) then [Duration (foldl Z.min 4294967295 es) (total / i) (foldl Z.max 0 es)] else []).

Lemma clock_reads t : readable t -> clock bits gettimeofday t = Some (ms t) /\ 0 <= ms t <= LONG_MAX bits.
Proof.
  intros (Hs & Hu & Hl). unfold clock, ms. destruct (gettimeofday t) as [s u]. cbn [fst snd] in *. unfold long_mul.
  assert (0 <= u / 1000 <= 999) by (split; [apply Z.div_pos; lia|apply Z.lt_succ_r, Z.div_lt_upper_bound; lia]).
  rewrite as_long_ok by lia. cbn [mbind option_bind]. rewrite Z.quot_div_nonneg, as_long_ok by lia. cbn [mbind option_bind].
  rewrite ulong_small by (rewrite (long_double bits) by lia; lia). split; [done|lia].
Qed.

(** With thirty-two bits no time behind January 1970 can be read. *)
Lemma clock_32 g t : 2147484 <= (g t).1 -> clock 32 g t = None.
Proof.
  intros Hs. unfold clock. destruct (g t) as [sec usec]. cbn [fst] in Hs. unfold long_mul, as_long. change (LONG_MAX 32) with 2147483647.
  by rewrite decide_False by lia.
Qed.

Lemma get_time_ret (k : script) t p : readable t -> get_time bits gettimeofday (MkAping k t p) = Ret (ms t) (MkAping k (S t) p).
Proof. intros Hr. unfold get_time. rewrite get_st_bind, put_st_bind. cbn [ticks kern printed]. by rewrite (proj1 (clock_reads t Hr)). Qed.

Lemma sends_script n b inc cls t p : sends n b (MkAping (MkScript inc cls) t p) = Ret tt (MkAping (MkScript inc (cls ++ replicate n (Cmsend b))) t p).
Proof.
  revert cls. induction n as [|n IH]; intros cls; cbn [sends replicate]; [by rewrite app_nil_r|].
  must_step. rewrite IH. by rewrite <- app_assoc.
Qed.

Lemma call_receive d m st inc cls t p : is_bytes m -> Z.of_nat (length m) <= d ->
  call (verb (cmrcv d)) (MkAping (MkScript (MkReceived m CM_COMPLETE_DATA_RECEIVED st CM_OK :: inc) cls) t p) =
  Ret (MkReceived m CM_COMPLETE_DATA_RECEIVED st CM_OK) (MkAping (MkScript inc (cls ++ [Cmrcv d])) t p).
Proof. intros Hm Hl. apply ping_call_Ret. by apply script_rcv_next. Qed.

Lemma receives_replies fuel d b n z cc inc cls t p : is_bytes z -> Z.of_nat (length z) <= d -> length b = length z -> (n < fuel)%nat ->
  receives fuel d b cc (MkAping (MkScript (turn CM_SEND_RECEIVED (replicate (S n) z) ++ inc) cls) t p) =
  Ret (z, cc - Z.of_nat (S n)) (MkAping (MkScript inc (cls ++ replicate (S n) (Cmrcv d))) t p).
Proof.
  intros Hz Hd. revert fuel b cc cls. induction n as [|n IH]; intros [|fuel] b cc cls Hb Hf; try lia; cbn [receives].
  - cbn [replicate turn app]. rewrite (M_bind_Ret _ _ _ _ _ (call_receive d z _ _ _ _ _ Hz Hd)).
    rewrite decide_False by (intros Hx; by apply Hx). cbn [data_received status_received rcv_data].
    rewrite decide_True by done. rewrite decide_False by (intros Hx; by apply Hx). by rewrite into_same.
  - rewrite turn_S. cbn [app]. rewrite (M_bind_Ret _ _ _ _ _ (call_receive d z _ _ _ _ _ Hz Hd)).
    rewrite decide_False by (intros Hx; by apply Hx). cbn [data_received status_received rcv_data].
    rewrite decide_True by done. rewrite decide_True by discriminate. rewrite into_same, IH by (done || lia).
    rewrite <- app_assoc. do 2 f_equal. lia.
Qed.

Lemma int_mul_ok a b : -2147483648 <= a * b <= INT_MAX -> int_mul a b = Some (a * b).
Proof. intros Hr. unfold int_mul. by rewrite decide_True. Qed.

(** Data below the bound: its kilobytes times a thousand too. *)
Lemma thousand x k : 0 <= x -> 0 <= k -> 0 <= Z.quot x 1024 /\ 0 <= Z.quot x 1024 * k * 1000 <= x * k.
Proof. intros Hx Hk. rewrite Z.quot_div_nonneg by lia. pose proof (Z.mul_div_le x 1024). pose proof (Z.div_pos x 1024). nia. Qed.

Lemma stats_printed d c way e (k : script) t p : 0 < d -> 0 < c -> way = 1 \/ way = 2 -> d * c * way <= INT_MAX -> e = 0 \/ 10 <= e ->
  print_stats bits d c way e (MkAping k t p) = Ret tt (MkAping k t (p ++ [figures (d * c) way e])).
Proof.
  intros Hd Hc Hw Hb He. unfold print_stats, figures. pose proof (thousand (d * c) way ltac:(nia) ltac:(lia)) as Hth. set (q := Z.quot (d * c) 1024) in *.
  assert (0 < d * c /\ d * c <= d * c * way) as [H0 H1] by nia. assert (0 <= q * 1000 <= d * c * way) by nia. assert (q * 1000 * way <= d * c * way) by nia.
  pose proof (int_in_long bits (d * c * way) Hbits Hb). assert (LONG_MAX bits < 2 ^ bits) by (rewrite (long_double bits) by lia; unfold LONG_MAX; pose proof (Z.pow_pos_nonneg 2 (bits - 1)); lia).
  rewrite (int_mul_ok d c) by (unfold INT_MAX in *; lia). rewrite of_opt_Some_bind, (int_mul_ok (d * c) way) by (unfold INT_MAX in *; nia). rewrite of_opt_Some_bind.
  unfold u32. rewrite (Z.mod_small (d * c * way)) by (unfold INT_MAX in *; nia).
  case_decide as He0; [by rewrite ?decide_True|].
  fold q. rewrite (int_mul_ok q 1000) by (unfold INT_MAX in *; lia). rewrite of_opt_Some_bind, int_mul_ok by (unfold INT_MAX in *; nia). rewrite of_opt_Some_bind.
  rewrite (decide_False (P := e / 10 = 0)) by (destruct He; [done|]; pose proof (Z.div_str_pos e 10 ltac:(lia)); lia).
  rewrite ulong_small by nia. done.
Qed.

Lemma transaction_echoed fuel d way n z total least most inc cls t p :
  is_bytes z -> Z.of_nat (length z) = d -> 0 < d -> way = 1 \/ way = 2 -> d * Z.of_nat (S n) * way <= INT_MAX ->
  readable t -> readable (S t) -> measurable t -> (n < fuel)%nat ->
  transaction bits gettimeofday fuel d (Z.of_nat (S n)) way z total least most (MkAping (MkScript (client_turn way n z ++ inc) cls) t p) =
  Ret (z, ulong bits (total + elapsed t), Z.min least (elapsed t), Z.max most (elapsed t))
    (MkAping (MkScript inc (cls ++ client_calls way d n z)) (S (S t)) (p ++ [figures (d * Z.of_nat (S n)) way (elapsed t)])).
Proof.
  intros Hz Hl Hd Hw Hb Hr0 Hr1 Hm Hf. unfold transaction, client_turn, client_calls. must_step.
  rewrite (M_bind_Ret _ _ _ _ _ (get_time_ret _ _ _ Hr0)). rewrite (M_bind_Ret _ _ _ _ _ (sends_script _ _ _ _ _ _)).
  replace (Z.to_nat (Z.of_nat (S n) - 1)) with n by lia. must_step. must_step. replace (Z.max 1 (Z.of_nat (S n))) with (Z.of_nat (S n)) by lia.
  destruct (decide (way <> 1)) as [H1|H1].
  - rewrite M_bind_assoc. rewrite (M_bind_Ret _ _ _ _ _ (receives_replies fuel d z n z _ inc _ _ p Hz ltac:(lia) eq_refl Hf)).
    rewrite decide_False by lia. rewrite M_ret_bind. rewrite (M_bind_Ret (mret z) _ _ _ _ eq_refl).
    rewrite (M_bind_Ret _ _ _ _ _ (get_time_ret _ _ _ Hr1)). fold (elapsed t).
    rewrite (M_bind_Ret _ _ _ _ _ (stats_printed d (Z.of_nat (S n)) way (elapsed t) _ _ p Hd ltac:(lia) Hw Hb Hm)). unfold mret, M_ret. by join_calls.
  - rewrite (M_bind_Ret (mret z) _ _ _ _ eq_refl). rewrite (M_bind_Ret _ _ _ _ _ (get_time_ret _ _ _ Hr1)). fold (elapsed t).
    rewrite (M_bind_Ret _ _ _ _ _ (stats_printed d (Z.of_nat (S n)) way (elapsed t) _ _ p Hd ltac:(lia) Hw Hb Hm)). unfold mret, M_ret. by join_calls.
Qed.

Lemma transactions_echoed i fuel d way n z total least most inc cls t p :
  is_bytes z -> Z.of_nat (length z) = d -> 0 < d -> way = 1 \/ way = 2 -> d * Z.of_nat (S n) * way <= INT_MAX ->
  (forall j, (j < 2 * i)%nat -> readable (t + j)) -> (forall j, (j < i)%nat -> measurable (t + 2 * j)) -> (n < fuel)%nat ->
  let es := elapses t i in
  transactions bits gettimeofday i fuel d (Z.of_nat (S n)) way z total least most
    (MkAping (MkScript (times i (client_turn way n z) ++ inc) cls) t p) =
  Ret (foldl (fun a e => ulong bits (a + e)) total es, foldl Z.min least es, foldl Z.max most es)
    (MkAping (MkScript inc (cls ++ times i (client_calls way d n z))) (t + 2 * i) (p ++ (figures (d * Z.of_nat (S n)) way <$> es))).
Proof.
  intros Hz Hl Hd Hw Hb. revert total least most cls t p. induction i as [|i IH]; intros total least most cls t p Hr Hm Hf es.
  - cbn. by rewrite !app_nil_r, Nat.add_0_r.
  - unfold es. cbn [transactions]. rewrite !times_S, <- app_assoc.
    rewrite (M_bind_Ret _ _ _ _ _ (transaction_echoed fuel d way n z total least most _ cls t p Hz Hl Hd Hw Hb
      ltac:(specialize (Hr 0%nat ltac:(lia)); by rewrite Nat.add_0_r in Hr) ltac:(specialize (Hr 1%nat ltac:(lia)); by rewrite Nat.add_1_r in Hr)
      ltac:(specialize (Hm 0%nat ltac:(lia)); by rewrite Nat.mul_0_r, Nat.add_0_r in Hm) Hf)).
    rewrite IH.
    + cbn [elapses foldl fmap list_fmap]. rewrite <- !app_assoc. by replace (S (S t) + 2 * i)%nat with (t + 2 * S i)%nat by lia.
    + intros j Hj. specialize (Hr (S (S j)) ltac:(lia)). by replace (S (S t) + j)%nat with (t + S (S j))%nat by lia.
    + intros j Hj. specialize (Hm (S j) ltac:(lia)). by replace (S (S t) + 2 * j)%nat with (t + 2 * S j)%nat by lia.
    + done.
Qed.

Lemma totals_printed d c way i es (k : script) t p : 0 < d -> 0 < c -> way = 1 \/ way = 2 -> 0 <= i -> d * c * way <= INT_MAX -> d * c * i * way <= LONG_MAX bits ->
  print_totals bits d c way i (foldl (fun a e => ulong bits (a + e)) 0 es) (foldl Z.min 4294967295 es) (foldl Z.max 0 es) (MkAping k t p) =
  Ret tt (MkAping k t (p ++ totals (d * c) way i es)).
Proof.
  intros Hd Hc Hw Hi Hb Hl. unfold print_totals, totals. set (total := foldl _ 0 es). set (least := foldl _ _ es). set (most := foldl Z.max _ es).
  pose proof (thousand (d * c) i ltac:(nia) ltac:(lia)) as [Hq0 Hq]. set (q := Z.quot (d * c) 1024) in *.
  assert (0 < d * c /\ d * c <= d * c * way) as [H0 H1] by nia. assert (0 <= d * c * i /\ d * c * i <= d * c * i * way) as [H2 H3] by nia.
  assert (LONG_MAX bits < 2 ^ bits) by (rewrite (long_double bits) by lia; unfold LONG_MAX; pose proof (Z.pow_pos_nonneg 2 (bits - 1)); lia).
  assert (0 <= q * i <= q * i * 1000) by nia. assert (0 <= q * i * 1000 * way <= d * c * i * way) by nia.
  rewrite (int_mul_ok d c) by (unfold INT_MAX in *; lia). rewrite of_opt_Some_bind. fold q. unfold long_mul. rewrite !(as_long_ok bits (d * c * i)) by lia.
  rewrite (as_long_ok bits (q * i)) by lia.
  assert (forall l : line, (print l;; if decide (0 < i) then print (Duration least (total / i) most) else mret tt) (MkAping k t p) =
    Ret tt (MkAping k t (p ++ l :: (if decide (0 < i) then [Duration least (total / i) most] else [])))) as E.
  { intros l. unfold print. rewrite modify_bind. cbn [kern ticks printed]. case_decide; [|done]. unfold modify. cbn [kern ticks printed]. by rewrite <- app_assoc. }
  destruct (decide (10 < total)) as [Ht|Ht].
  - rewrite M_bind_assoc, of_opt_Some_bind, (as_long_ok bits (q * i * 1000)), M_bind_assoc, of_opt_Some_bind by nia.
    rewrite (as_long_ok bits (q * i * 1000 * way)), M_bind_assoc, of_opt_Some_bind by nia. rewrite M_bind_assoc, of_opt_Some_bind.
    rewrite as_long_ok, M_bind_assoc, of_opt_Some_bind by nia. rewrite !ulong_small by nia. apply E.
  - rewrite M_bind_assoc, of_opt_Some_bind. rewrite as_long_ok, M_bind_assoc, of_opt_Some_bind by nia. rewrite !ulong_small by nia. apply E.
Qed.
End Client.

(** What the manual page allows fits an [int], and a [long] of sixty-four bits. *)
Lemma documented_sizes d c i : 1 <= d <= MAXPACKET -> 1 <= c <= 32767 -> 1 <= i <= 32767 ->
  d * c * 2 <= INT_MAX /\ d * c * i * 2 <= LONG_MAX 64.
Proof. intros Hd Hc Hi. unfold MAXPACKET, INT_MAX in *. change (LONG_MAX 64) with 9223372036854775807.
  assert (0 <= d * c <= 32763 * 32767) by nia. assert (0 <= d * c * i <= 32763 * 32767 * 32767) by nia. lia. Qed.

(** C33 (refinement).  The packets [aping] sends come back from [apingd], and [aping]
    takes what comes back for the right number of packets; with [-1] they are confirmed
    instead.  Given the version the program sends and then, for each of its transactions,
    its packets and with the last the turn or the wish for a confirmation, the server
    answers with its version, and in each transaction sends these packets, the last in
    the way that hands the turn back, or confirms; it ends well when the program
    deallocates.  Given that answer, the program sends just these versions and packets,
    the last of a transaction in the way that hands over the turn, or that asks for a
    confirmation; it receives as often as it sent, or not at all; it deallocates, prints
    the figures of each transaction and of all and no complaint, and ends well.  Every
    call of either side is listed.  The width of a [long] is a parameter of at least 32
    bits.  The readings of the clock must fit it in milliseconds, which those of our time
    do with 64 bits and not with 32, and so must the number of bytes sent and received; a
    transaction's bytes must fit an [int].  The times between two readings must be none
    or ten milliseconds: in between the program divides by zero.  What the server passes
    as the length of an array it never assigned makes no difference. *)
Theorem aping_echoed bits gettimeofday garbage s n i fuel cls :
  let z := replicate (Z.to_nat (datalen s)) 0 in
  let way := one_way s in
  let client_inc := MkReceived (version_reply PING_MAJOR PING_MINOR) CM_COMPLETE_DATA_RECEIVED CM_SEND_RECEIVED CM_OK :: times i (client_turn way n z) in
  let server_inc := MkReceived (version_request PING_MAJOR PING_MINOR) CM_COMPLETE_DATA_RECEIVED CM_SEND_RECEIVED CM_OK ::
    times i (server_turn way n z) ++ [ended] in
  32 <= bits -> 0 < datalen s <= MAXPACKET -> concurrent s = Z.of_nat (S n) -> iterations s = Z.of_nat i -> way = 1 \/ way = 2 ->
  datalen s * concurrent s * way <= INT_MAX -> datalen s * concurrent s * iterations s * way <= LONG_MAX bits ->
  (forall j, (j < 4 + 2 * i)%nat -> readable bits gettimeofday j) ->
  (forall j, (j < i)%nat -> measurable bits gettimeofday (4 + 2 * j)) -> (S n + i < fuel)%nat ->
  cpic_session_init (pingsession s) (MkScript client_inc []) = Ret CM_OK (MkScript client_inc cls) ->
  apingd bits garbage fuel (MkScript server_inc []) =
    Exit EXIT_SUCCESS (MkScript [] ([Cmaccp; Cmepln; Cmsptr CM_PREP_TO_RECEIVE_FLUSH;
        Cmsptr CM_PREP_TO_RECEIVE_FLUSH; Cmsst CM_BUFFER_DATA; Cmrcv EXCHANGE_BUFFER_SIZE; Cmsend (version_reply PING_MAJOR PING_MINOR); Cmptr] ++
      times i (replicate (S n) (Cmrcv MAXPACKET) ++
        (if decide (way <> 1) then [Cmsst CM_BUFFER_DATA] ++ replicate n (Cmsend z) ++ [Cmsst CM_SEND_AND_PREP_TO_RECEIVE; Cmsend z] else [Cmcfmd])) ++
      [Cmrcv MAXPACKET])) /\
  ping bits gettimeofday fuel s (MkAping (MkScript client_inc []) 0 []) =
    Exit EXIT_SUCCESS (MkAping (MkScript [] (cls ++
        [Cmssl CM_CONFIRM; Cmsptr CM_PREP_TO_RECEIVE_FLUSH; Cmallc;
         Cmsptr CM_PREP_TO_RECEIVE_FLUSH; Cmsst CM_BUFFER_DATA; Cmsend (version_request PING_MAJOR PING_MINOR); Cmrcv EXCHANGE_BUFFER_SIZE] ++
        times i ([Cmsst CM_BUFFER_DATA] ++ replicate n (Cmsend z) ++
          [Cmsst (if decide (way <> 1) then CM_SEND_AND_PREP_TO_RECEIVE else CM_SEND_AND_CONFIRM); Cmsend z] ++
          (if decide (way <> 1) then replicate (S n) (Cmrcv (datalen s)) else [])) ++
        [Cmsdt CM_DEALLOCATE_FLUSH; Cmdeal]))
      (4 + 2 * i)
      ([AllocateTook (elapsed bits gettimeofday 0); ConnectedTo (take 63 OS_NAME); StartupTook (elapsed bits gettimeofday 2); Header] ++
       (figures (datalen s * concurrent s) way <$> elapses bits gettimeofday 4 i) ++
       totals bits (datalen s * concurrent s) way (iterations s) (elapses bits gettimeofday 4 i))).
Proof.
  intros z way client_inc server_inc Hbits Hd Hc Hi Hw Hb Hlb Hr Hm Hf Hs.
  assert (is_bytes z) as Hz by (apply Forall_replicate; unfold is_byte; lia).
  assert (Z.of_nat (length z) = datalen s) as Hl by (unfold z; rewrite length_replicate; lia).
  split.
  - unfold server_inc. rewrite apingd_echoes; [done|done|split; [done|lia]| |done]. rewrite <- Hc. unfold INT_MAX in Hb. nia.
  - unfold ping. rewrite (M_bind_Ret _ _ _ _ _ (ping_call_Ret _ _ _ _ 0%nat [] Hs)). rewrite decide_False by (intros Hx; by apply Hx).
    do 2 must_step. rewrite (M_bind_Ret _ _ _ _ _ (get_time_ret bits Hbits _ _ _ _ (Hr 0%nat ltac:(lia)))).
    erewrite (M_bind_Ret (call (verb cmallc))) by reflexivity. unfold note; cbn [incoming calls].
    rewrite (M_bind_Ret _ _ _ _ _ (get_time_ret bits Hbits _ _ _ _ (Hr 1%nat ltac:(lia)))). rewrite decide_False by (intros Hx; by apply Hx).
    unfold print. rewrite modify_bind. cbn [kern ticks printed app]. rewrite (M_bind_Ret _ _ _ _ _ (get_time_ret bits Hbits _ _ _ _ (Hr 2%nat ltac:(lia)))).
    pose proof (get_server_version_script PING_MAJOR PING_MINOR PING_MAJOR PING_MINOR 64 CM_COMPLETE_DATA_RECEIVED (times i (client_turn way n z))
      (((cls ++ [Cmssl CM_CONFIRM]) ++ [Cmsptr CM_PREP_TO_RECEIVE_FLUSH]) ++ [Cmallc]) ltac:(lia) ltac:(done)) as Hv.
    rewrite (M_bind_Ret _ _ _ _ _ (ping_call_Ret _ _ _ _ _ _ Hv)). cbn [vrc os_name major minor]. rewrite decide_False by (intros Hx; by apply Hx).
    rewrite (M_bind_Ret _ _ _ _ _ (get_time_ret bits Hbits _ _ _ _ (Hr 3%nat ltac:(lia)))). rewrite of_opt_Some_bind. rewrite (decide_True (P := take _ _ <> [])) by done.
    rewrite modify_bind. cbn [kern ticks printed app]. rewrite (decide_False (P := one_way s = 1 /\ _)) by (by intros [_ ?]).
    rewrite (M_bind_Ret (mret (one_way s)) _ _ _ _ eq_refl). rewrite !modify_bind. cbn [kern ticks printed app]. unfold print_header, print. rewrite modify_bind.
    cbn [kern ticks printed app]. fold (elapsed bits gettimeofday 0) (elapsed bits gettimeofday 2) way. rewrite Hi, Nat2Z.id, Hc in *.
    pose proof (transactions_echoed bits Hbits gettimeofday i fuel (datalen s) way n z 0 4294967295 0 []) as E. rewrite app_nil_r in E.
    rewrite (M_bind_Ret _ _ _ _ _ (E _ 4%nat _ Hz Hl ltac:(lia) Hw Hb ltac:(intros j Hj; apply (Hr (4 + j)%nat); lia) Hm ltac:(lia))). clear E.
    do 2 must_step. rewrite (Z.max_r 0 (Z.of_nat i)) by lia.
    rewrite (M_bind_Ret _ _ _ _ _ (totals_printed bits Hbits (datalen s) (Z.of_nat (S n)) way (Z.of_nat i) _ _ _ _ ltac:(lia) ltac:(lia) Hw ltac:(lia) Hb Hlb)).
    unfold c_exit. join_calls. done.
Qed.

Definition demo_settings (way : Z) : settings :=
  match on_session (cpic_session_set_symbolic_name (str "APING   ")) (MkSettings 3 2 2 way demo_session) with
  | Ret _ s => s
  | _ => MkSettings 3 2 2 way demo_session
  end.
Definition demo_clock (n : nat) : Z * Z := (1700000000 + Z.of_nat n, 0).

(** Two transactions of two packets, both ways and one way, with a [long] of sixty-four
    bits. *)
Lemma aping_echoed_witness :
  let z := [0; 0; 0] in
  let inc way := MkReceived (version_reply PING_MAJOR PING_MINOR) CM_COMPLETE_DATA_RECEIVED CM_SEND_RECEIVED CM_OK :: times 2 (client_turn way 1 z) in
  let start := [Cminit (str "APING   "); Cmssl CM_CONFIRM; Cmsptr CM_PREP_TO_RECEIVE_FLUSH; Cmallc;
         Cmsptr CM_PREP_TO_RECEIVE_FLUSH; Cmsst CM_BUFFER_DATA; Cmsend (version_request PING_MAJOR PING_MINOR); Cmrcv EXCHANGE_BUFFER_SIZE] in
  (exists lines, ping 64 demo_clock 10 (demo_settings 2) (MkAping (MkScript (inc 2) []) 0 []) =
    Exit EXIT_SUCCESS (MkAping (MkScript [] (start ++
      times 2 [Cmsst CM_BUFFER_DATA; Cmsend z; Cmsst CM_SEND_AND_PREP_TO_RECEIVE; Cmsend z; Cmrcv 3; Cmrcv 3] ++ [Cmsdt CM_DEALLOCATE_FLUSH; Cmdeal])) 8 lines)) /\
  (exists lines, ping 64 demo_clock 10 (demo_settings 1) (MkAping (MkScript (inc 1) []) 0 []) =
    Exit EXIT_SUCCESS (MkAping (MkScript [] (start ++
      times 2 [Cmsst CM_BUFFER_DATA; Cmsend z; Cmsst CM_SEND_AND_CONFIRM; Cmsend z] ++ [Cmsdt CM_DEALLOCATE_FLUSH; Cmdeal])) 8 lines)).
Proof.
  intros z inc start.
  assert (forall j, readable 64 demo_clock j \/ (8 <= j)%nat) as Hr.
  { intros j. destruct (decide (j < 8)%nat); [left|right; lia]. unfold readable, demo_clock. cbn [fst snd]. change (LONG_MAX 64) with 9223372036854775807. lia. }
  split.
  - edestruct (aping_echoed 64 demo_clock 0 (demo_settings 2) 1 2 10 [Cminit (str "APING   ")]) as (_ & E).
    1: lia. 1: vm_compute; split; [reflexivity|discriminate]. 1: reflexivity. 1: reflexivity. 1: by right. 1: by vm_compute. 1: by vm_compute.
    1: intros j Hj; destruct (Hr j); [done|lia]. 1: intros [|[|j]] Hj; [by right|by right|lia]. 1: lia. 1: vm_compute; reflexivity.
    eexists. exact E.
  - edestruct (aping_echoed 64 demo_clock 0 (demo_settings 1) 1 2 10 [Cminit (str "APING   ")]) as (_ & E).
    1: lia. 1: vm_compute; split; [reflexivity|discriminate]. 1: reflexivity. 1: reflexivity. 1: by left. 1: by vm_compute. 1: by vm_compute.
    1: intros j Hj; destruct (Hr j); [done|lia]. 1: intros [|[|j]] Hj; [by right|by right|lia]. 1: lia. 1: vm_compute; reflexivity.
    eexists. exact E.
Defined.
