(* ===== verification/Getopt.v ===== *)
(** * getopt of the C library, as the programs of the suite use it

    The scan of a command line for options.  When [POSIXLY_CORRECT] is not in the
    environment, the GNU library moves the words that are no options behind the others
    ([permute]); otherwise it stops at the first of them.  The pattern has letters, each
    with a colon behind it when it takes an argument. *)
From S2P Require Import Prelude.

(** The words, the index of the next, what is left of the word that is scanned, and the
    range of the words passed over. *)
Record getopt_data : Type := MkGetopt { argv : list (list Z); optind : nat; nextchar : list Z; first_nonopt : nat; last_nonopt : nat }.

Definition getopt_start (argv : list (list Z)) : getopt_data := MkGetopt argv 1 [] 1 1.

(** Of no option is a word that does not start with ['-'], and ["-"]. *)
Definition nonoption (w : list Z) : bool := match w with c :: _ :: _ => bool_decide (c <> 45) | _ => true end.

Definition set_optind (i : nat) (d : getopt_data) : getopt_data := MkGetopt (argv d) i (nextchar d) (first_nonopt d) (last_nonopt d).

(** The words passed over change places with those behind them up to [optind]. *)
Definition exchange (d : getopt_data) : getopt_data :=
  let options := take (optind d - last_nonopt d) (drop (last_nonopt d) (argv d)) in
  let others := take (last_nonopt d - first_nonopt d) (drop (first_nonopt d) (argv d)) in
  MkGetopt (take (first_nonopt d) (argv d) ++ options ++ others ++ drop (optind d) (argv d)) (optind d) (nextchar d)
    (first_nonopt d + (optind d - last_nonopt d)) (optind d).

Fixpoint count_nonoptions (ws : list (list Z)) : nat :=
  match ws with
  | w :: ws => if nonoption w then S (count_nonoptions ws) else O
  | [] => O
  end.

(** The range is brought within what the caller left. *)
Definition clip (d : getopt_data) : getopt_data :=
  MkGetopt (argv d) (optind d) (nextchar d) (first_nonopt d `min` optind d) (last_nonopt d `min` optind d).

(** Options passed since then are exchanged with the range, and words passed over are
    added to it. *)
Definition pass_over (d : getopt_data) : getopt_data :=
  let d := if decide (first_nonopt d <> last_nonopt d /\ last_nonopt d <> optind d) then exchange d
           else if decide (last_nonopt d <> optind d) then MkGetopt (argv d) (optind d) (nextchar d) (optind d) (last_nonopt d) else d in
  let i := (optind d + count_nonoptions (drop (optind d) (argv d)))%nat in
  MkGetopt (argv d) i (nextchar d) (first_nonopt d) i.

(** Behind ["--"] there are no options. *)
Definition no_more (d : getopt_data) : getopt_data :=
  let d := set_optind (S (optind d)) d in
  let d := if decide (first_nonopt d <> last_nonopt d /\ last_nonopt d <> optind d) then exchange d
           else if decide (first_nonopt d = last_nonopt d) then MkGetopt (argv d) (optind d) (nextchar d) (optind d) (last_nonopt d) else d in
  MkGetopt (argv d) (length (argv d)) (nextchar d) (first_nonopt d) (length (argv d)).

(** To the next word: its characters behind ['-'], or none at the end of the scan. *)
Definition next_word (permute : bool) (d : getopt_data) : bool * getopt_data :=
  let d := if permute then pass_over (clip d) else clip d in
  let d := if decide (argv d !! optind d = Some (str "--")) then no_more d else d in
  match argv d !! optind d with
  | None => (false, if decide (first_nonopt d <> last_nonopt d) then set_optind (first_nonopt d) d else d)
  | Some w =>
      if nonoption w then (false, d)
      else (true, MkGetopt (argv d) (optind d) (drop 1 w) (first_nonopt d) (last_nonopt d))
  end.

(** Is the letter in the pattern, and does it take an argument? *)
Fixpoint in_pattern (pattern : list Z) (c : Z) : option bool :=
  match pattern with
  | [] => None
  | x :: pattern => if decide (x = c) then Some (bool_decide (head pattern = Some 58)) else in_pattern pattern c
  end.

(** What is returned ([-1] at the end, ['?'] for what is no option or lacks its
    argument), [optarg], and the state behind it. *)
Definition getopt (permute : bool) (pattern : list Z) (d : getopt_data) : Z * option (list Z) * getopt_data :=
  let '(found, d) := if decide (nextchar d = []) then next_word permute d else (true, d) in
  match found, nextchar d with
  | true, c :: rest =>
      let d := MkGetopt (argv d) (if decide (rest = []) then S (optind d) else optind d) rest (first_nonopt d) (last_nonopt d) in
      match (if decide (c = 58 \/ c = 59) then None else in_pattern pattern c) with
      | None => (63, None, d)
      | Some false => (c, None, d)
      | Some true =>
          let at_word i := MkGetopt (argv d) i [] (first_nonopt d) (last_nonopt d) in
          if decide (rest <> []) then (c, Some rest, at_word (S (optind d)))
          else match argv d !! optind d with
               | None => (63, None, at_word (optind d))
               | Some w => (c, Some w, at_word (S (optind d)))
               end
      end
  | _, _ => (-1, None, d)
  end.

(** *** Scans without options *)

Lemma count_nonoptions_all ws : Forall (fun w => nonoption w = true) ws -> count_nonoptions ws = length ws.
Proof. induction 1 as [|w ws Hw _ IH]; [done|]. cbn. rewrite Hw. by f_equal. Qed.

Lemma count_nonoptions_stop pre w post : Forall (fun w => nonoption w = true) pre -> nonoption w = false -> count_nonoptions (pre ++ w :: post) = length pre.
Proof. intros Hp Hw. induction Hp as [|v pre Hv _ IH]; cbn; [by rewrite Hw|]. rewrite Hv. by f_equal. Qed.

Lemma nonoption_dashes w : nonoption w = true -> w <> str "--".
Proof. by intros Hw ->. Qed.

Lemma getopt_next permute pattern d : nextchar d = [] ->
  getopt permute pattern d =
  (let '(found, d) := next_word permute d in
   match found, nextchar d with
   | true, c :: rest =>
      let d := MkGetopt (argv d) (if decide (rest = []) then S (optind d) else optind d) rest (first_nonopt d) (last_nonopt d) in
      match (if decide (c = 58 \/ c = 59) then None else in_pattern pattern c) with
      | None => (63, None, d)
      | Some false => (c, None, d)
      | Some true =>
          let at_word i := MkGetopt (argv d) i [] (first_nonopt d) (last_nonopt d) in
          if decide (rest <> []) then (c, Some rest, at_word (S (optind d)))
          else match argv d !! optind d with
               | None => (63, None, at_word (optind d))
               | Some w => (c, Some w, at_word (S (optind d)))
               end
      end
   | _, _ => (-1, None, d)
   end).
Proof. intros Hn. unfold getopt. by rewrite decide_True. Qed.

(** In order, the scan stops at a word that is no option. *)
Lemma getopt_in_order pattern ws i w f l : ws !! i = Some w -> nonoption w = true ->
  getopt false pattern (MkGetopt ws i [] f l) = (-1, None, MkGetopt ws i [] (f `min` i) (l `min` i)).
Proof.
  intros Hw Hn. rewrite getopt_next by done. set (d := MkGetopt ws i [] (f `min` i) (l `min` i)).
  assert (next_word false (MkGetopt ws i [] f l) = (false, d)) as E; [|by rewrite E].
  unfold next_word. change (clip _) with d. change (argv d !! optind d) with (ws !! i). rewrite Hw.
  rewrite decide_False by (intros [=Hx]; by apply (nonoption_dashes w)). change (argv d !! optind d) with (ws !! i). by rewrite Hw, Hn.
Qed.

(** Words passed over when none has been exchanged. *)
Lemma pass_over_all ws i f : (f <= i)%nat -> (i <= length ws)%nat -> Forall (fun w => nonoption w = true) (drop i ws) ->
  pass_over (clip (MkGetopt ws i [] f i)) = MkGetopt ws (length ws) [] f (length ws).
Proof.
  intros Hf Hi Hn. unfold clip. cbn [argv optind nextchar first_nonopt last_nonopt]. rewrite (Nat.min_l f i), Nat.min_id by lia.
  unfold pass_over. cbn [argv optind nextchar first_nonopt last_nonopt]. rewrite (decide_False (P := f <> i /\ i <> i)) by (by intros [_ ?]).
  rewrite (decide_False (P := i <> i)) by (by intros ?). cbn [argv optind nextchar first_nonopt last_nonopt].
  rewrite count_nonoptions_all, length_drop by done. by replace (i + (length ws - i))%nat with (length ws) by lia.
Qed.

(** With words moved, and no option from here on: the index goes back to the first word
    that was ever passed over, whatever the program did to it in between. *)
Lemma getopt_no_options pattern ws i f l : (f < i \/ f = i)%nat -> (i < length ws)%nat -> (i <= l)%nat ->
  Forall (fun w => nonoption w = true) (drop i ws) ->
  getopt true pattern (MkGetopt ws i [] f l) = (-1, None, MkGetopt ws f [] f (length ws)).
Proof.
  intros Hf Hi Hl Hn. rewrite getopt_next by done.
  assert (next_word true (MkGetopt ws i [] f l) = (false, MkGetopt ws f [] f (length ws))) as E; [|by rewrite E].
  unfold next_word. assert (clip (MkGetopt ws i [] f l) = clip (MkGetopt ws i [] f i)) as ->.
  { unfold clip. cbn [argv optind nextchar first_nonopt last_nonopt]. by rewrite (Nat.min_r l i), Nat.min_id by lia. }
  rewrite pass_over_all by (done || lia). set (d := MkGetopt ws (length ws) [] f (length ws)).
  assert (argv d !! optind d = None) as Hd by (by apply lookup_ge_None_2).
  rewrite Hd. rewrite decide_False by done. rewrite Hd. rewrite decide_True; [done|]. unfold d. cbn [first_nonopt last_nonopt]. lia.
Qed.

(** The first call, when a letter that is not in the pattern comes before any option that
    is. *)
Lemma getopt_unknown pattern prog pre c w post : Forall (fun w => nonoption w = true) pre ->
  45 :: c :: w <> str "--" -> in_pattern pattern c = None \/ c = 58 ->
  exists d, getopt true pattern (getopt_start (prog :: pre ++ (45 :: c :: w) :: post)) = (63, None, d).
Proof.
  intros Hp Hd Hc. set (ws := prog :: pre ++ (45 :: c :: w) :: post). rewrite getopt_next by done.
  assert (ws !! S (length pre) = Some (45 :: c :: w)) as Hl.
  { change (ws !! S (length pre)) with ((pre ++ (45 :: c :: w) :: post) !! length pre). by rewrite list_lookup_middle. }
  assert (next_word true (getopt_start ws) = (true, MkGetopt ws (S (length pre)) (c :: w) 1 (S (length pre)))) as E.
  { unfold next_word. set (d := MkGetopt ws (S (length pre)) [] 1 (S (length pre))).
    assert (pass_over (clip (getopt_start ws)) = d) as ->.
    { unfold pass_over, clip, getopt_start, d. cbn [argv optind nextchar first_nonopt last_nonopt]. rewrite Nat.min_id.
      rewrite (decide_False (P := 1%nat <> 1%nat /\ _)) by (by intros []). rewrite (decide_False (P := 1%nat <> 1%nat)) by (by intros ?).
      cbn [argv optind nextchar first_nonopt last_nonopt]. assert (count_nonoptions (drop 1 ws) = length pre) as -> by (by apply count_nonoptions_stop). done. }
    change (argv d !! optind d) with (ws !! S (length pre)). rewrite Hl, decide_False by (intros Hx%(inj Some); by apply Hd).
    change (argv d !! optind d) with (ws !! S (length pre)). by rewrite Hl. }
  rewrite E. cbn [nextchar argv optind]. case_decide as Hx; [by eexists|]. destruct Hc as [Hc| ->]; [|destruct Hx; by left]. rewrite Hc. by eexists.
Qed.
