(* ===== verification/Arexec.v ===== *)
(** * asuite/arexec.c and asuite/arexecd.c: a command at a distance

    The program that sends a command and prints what comes back, and the server that
    has it executed and sends its output, over the CPI-C interface.  The command line is
    scanned by [getopt], with or without the words moved.  What a command prints is a
    parameter; a loop that receives or that scans has fuel, a turn for each call.  What
    is said on the standard error and in the log is left out. *)
From S2P Require Import Prelude Cpic CpicSession Getopt.

Definition MAX_COMMAND_LEN := 500.
Definition AREXEC_MAJOR := 2.
Definition AREXEC_MINOR := 37.
Definition MAX_FQPLU_NAME : nat := 18.

(** ** The program *)

(** What the arguments are read into. *)
Record settings : Type := MkSettings { set_destination : bool; command : list Z; command_len : Z; arexecsession : cpic_session }.

Definition on_session {A} (m : M cpic_session A) : M settings A :=
  zoom arexecsession (fun x s => MkSettings (set_destination s) (command s) (command_len s) x) m.

Definition usage {A S} : M S A := c_exit EXIT_FAILURE.

(** The rest of the line is the command: a blank behind each word, as long as it fits. *)
Fixpoint add_words (ws : list (list Z)) : M settings unit :=
  match ws with
  | [] => mret tt
  | w :: ws =>
      s ← get_st;
      let len := command_len s + Z.of_nat (length w) + 1 in
      put_st (MkSettings (set_destination s) (command s) len (arexecsession s));;
      if decide (len < MAX_COMMAND_LEN) then
        put_st (MkSettings (set_destination s) (command s ++ w ++ [32]) len (arexecsession s));;
        add_words ws
      else c_exit EXIT_FAILURE
  end.

Definition OPTIONS : list Z := str "t:m:u:p:nv".

(** The loop over the words, as long as [optind] is not [argc]: the first end of the
    scan gives the destination, the second the command. *)
Fixpoint read_arguments (permute : bool) (fuel : nat) (d : getopt_data) : M settings unit :=
  match fuel with
  | O => no_fuel
  | S fuel =>
      if decide (optind d = length (argv d)) then mret tt else
      let '(c, optarg, d) := getopt permute OPTIONS d in
      if decide (c = -1) then
        s ← get_st;
        if set_destination s then
          put_st (MkSettings true [] (command_len s) (arexecsession s));;
          add_words (drop (optind d) (argv d));;
          read_arguments permute fuel (set_optind (length (argv d)) d)
        else
          put_st (MkSettings true (command s) (command_len s) (arexecsession s));;
          optarg ← of_opt (argv d !! optind d);
          if decide (head optarg = Some 63) then c_exit EXIT_FAILURE else
          on_session (cpic_session_set_destination optarg);;
          read_arguments permute fuel (set_optind (S (optind d)) d)
      else
        (if decide (c = 118) then c_exit 0
         else if decide (c = 109) then o ← of_opt optarg; on_session (cpic_session_set_mode_name o);; mret tt
         else if decide (c = 116) then o ← of_opt optarg; on_session (cpic_session_set_tp_name o);; mret tt
         else if decide (c = 117) then o ← of_opt optarg; on_session (cpic_session_set_userid o);; mret tt
         else if decide (c = 112) then o ← of_opt optarg; on_session (cpic_session_set_password o);; mret tt
         else if decide (c = 110) then on_session (cpic_session_set_security_type CM_SECURITY_NONE)
         else usage);;
        read_arguments permute fuel d
  end.

Definition process_arguments (permute : bool) (fuel : nat) (argv : list (list Z)) : M settings unit :=
  modify (fun s => MkSettings (set_destination s) [] 0 (arexecsession s));;
  read_arguments permute fuel (getopt_start argv);;
  s ← get_st;
  if negb (set_destination s && bool_decide (command_len s <> 0)) then usage else mret tt.

Section Program.
Context {K : Type} `{Cpic K, CpicTypes K}.

(** The conversation and what was printed. *)
Record arexec : Type := MkArexec { kern : K; printed : list Z }.

Definition call {A} (m : M K A) : M arexec A := zoom kern (fun k s => MkArexec k (printed s)) m.
Definition fwrite (bs : list Z) : M arexec unit := modify (fun s => MkArexec (kern s) (printed s ++ bs)).

(** What comes with the end of a conversation is looked at as well. *)
Fixpoint receive_output (fuel : nat) : M arexec Z :=
  match fuel with
  | O => no_fuel
  | S fuel =>
      r ← call (verb (cmrcv MAX_COMMAND_LEN));
      (if decide (data_received r <> CM_NO_DATA_RECEIVED /\ (rcv_rc r = CM_OK \/ rcv_rc r = CM_DEALLOCATED_NORMAL))
       then fwrite (rcv_data r) else mret tt);;
      if decide (rcv_rc r = CM_OK) then receive_output fuel else mret (rcv_rc r)
  end.

(** The line about the partner, before the output. *)
Definition connected_to (os : list Z) : list Z := 10 :: str "Connected to an arexec TP running on: " ++ os ++ [10].

(** Behind the arguments. *)
Definition execute (fuel : nat) (s : settings) : M arexec Z :=
  call (cpic_session_init (arexecsession s));;
  call (verb (cmssl CM_CONFIRM));;
  cm_rc ← call (verb cmallc);
  if decide (cm_rc <> CM_OK) then c_exit EXIT_FAILURE else
  '(_, v) ← call (get_server_version AREXEC_MAJOR AREXEC_MINOR (Some 64));
  os ← of_opt (os_name v);
  (if decide (os <> []) then fwrite (connected_to os) else mret tt);;
  cm_rc ← call (verb (cmsend (command s)));
  if decide (cm_rc <> CM_OK) then c_exit EXIT_FAILURE else
  cm_rc ← receive_output fuel;
  if decide (cm_rc <> CM_DEALLOCATED_NORMAL) then c_exit EXIT_FAILURE else mret EXIT_SUCCESS.

(** Before the arguments are read the session is given the names of the server. *)
Definition server_names : M cpic_session Z :=
  cpic_session_set_tp_name (str "AREXECD");; cpic_session_set_mode_name (str "#INTER");; cpic_session_set_symbolic_name (str "AREXECD").

Definition main (permute : bool) (fuel : nat) (argv : list (list Z)) : M arexec Z := fun p =>
  match cpic_session_new false with
  | None => Undef p
  | Some x =>
      match (on_session server_names;; process_arguments permute fuel argv) (MkSettings false [] 0 x) with
      | Ret _ s => execute fuel s p
      | Exit code _ => Exit code p
      | Abort _ => Abort p
      | Undef _ => Undef p
      | NoFuel _ => NoFuel p
      end
  end.
End Program.
Arguments arexec K : clear implicits.

(** ** The server *)

Section Server.
Context {K : Type} `{Cpic K, CpicServer K, CpicTypes K}.

(** What a command prints; [None] if it cannot be started.  What [strlen] makes of an
    array that was never assigned. *)
Context (popen : list Z -> option (list Z)) (garbage : Z).

(** The loop that reads and sends. *)
Fixpoint send_output (fuel : nat) (output : list Z) : M K unit :=
  match fuel with
  | O => no_fuel
  | S fuel =>
      let buffer := take 800 output in
      if decide (buffer = []) then mret tt else
      cm_rc ← verb (cmsend buffer);
      if decide (cm_rc <> CM_OK) then c_exit EXIT_FAILURE else send_output fuel (drop 800 output)
  end.

(** Without a stream an error is sent, and [fclose] is given a null pointer. *)
Definition execute_and_send_output (command : list Z) : M K unit :=
  match popen command with
  | None =>
      cm_rc ← verb (cmsend (str "AREXECD ERROR: The command failed to execute." ++ [10; 0]));
      if decide (cm_rc <> CM_OK) then c_exit EXIT_FAILURE else undef
  | Some output => send_output (S (length output)) output
  end.

(** The length is seventeen unless [cmepln] assigns it. *)
Definition arexecd : M K Z :=
  cm_rc ← verb cmaccp;
  if decide (cm_rc <> CM_OK) then c_exit EXIT_FAILURE else
  '(name, cm_rc) ← verb cmepln;
  (if decide (cm_rc = CM_OK /\ (MAX_FQPLU_NAME <= length name)%nat) then undef else mret tt);;
  get_client_version AREXEC_MAJOR AREXEC_MINOR (Some garbage);;
  verb (cmsst CM_SEND_AND_FLUSH);;
  r ← verb (cmrcv (MAX_COMMAND_LEN - 1));
  if decide (rcv_rc r <> CM_OK) then c_exit EXIT_FAILURE else
  execute_and_send_output (c_str (rcv_data r));;
  verb (cmsdt CM_DEALLOCATE_FLUSH);;
  cm_rc ← verb cmdeal;
  if decide (cm_rc <> CM_OK) then c_exit EXIT_FAILURE else mret EXIT_SUCCESS.
End Server.

(** ** The two together *)

(** A command line as it is sent. *)
Definition command_text (args : list (list Z)) : list Z := mjoin ((fun w => w ++ [32]) <$> args).

(** A call that receives this. *)
Definition piece (p : list Z) : received := MkReceived p CM_COMPLETE_DATA_RECEIVED CM_NO_STATUS_RECEIVED CM_OK.

(** A partner that ends the conversation, perhaps with data. *)
Definition ends_with (p : list Z) : received :=
  MkReceived p (if decide (p = []) then CM_NO_DATA_RECEIVED else CM_COMPLETE_DATA_RECEIVED) CM_NO_STATUS_RECEIVED CM_DEALLOCATED_NORMAL.

Definition piece_ok (p : list Z) : Prop := is_bytes p /\ Z.of_nat (length p) <= MAX_COMMAND_LEN.

Lemma command_text_cons w args : command_text (w :: args) = w ++ 32 :: command_text args.
Proof. unfold command_text. cbn [fmap list_fmap mjoin list_join]. by rewrite <- app_assoc. Qed.

Lemma add_words_fit args s : command_len s + Z.of_nat (length (command_text args)) < MAX_COMMAND_LEN ->
  add_words args s = Ret tt (MkSettings (set_destination s) (command s ++ command_text args) (command_len s + Z.of_nat (length (command_text args))) (arexecsession s)).
Proof.
  revert s. induction args as [|w args IH]; intros s Hl.
  - cbn. rewrite app_nil_r, Z.add_0_r. by destruct s.
  - rewrite command_text_cons, length_app in Hl |- *. cbn [length] in Hl.
    cbn [add_words]. rewrite get_st_bind, put_st_bind, decide_True, put_st_bind by lia. rewrite IH by (cbn [command_len]; lia).
    cbn [set_destination command command_len arexecsession length]. rewrite <- !app_assoc. do 2 f_equal; (done || lia).
Qed.

(** The words the command is made of, given those behind the destination: when words are
    moved, the scan starts again at the first that was passed over. *)
Definition command_words (permute : bool) (dest : list Z) (args : list (list Z)) : list (list Z) :=
  if permute then dest :: args else args.

(** No option stands where the scan looks for one: anywhere, or before the second word. *)
Definition no_options (permute : bool) (dest : list Z) (args : list (list Z)) : Prop :=
  Forall (fun w => nonoption w = true) (dest :: if permute then args else take 1 args).

(** The first call ends the scan at the destination. *)
Lemma first_scan permute prog dest args : args <> [] -> no_options permute dest args ->
  exists l, getopt permute OPTIONS (getopt_start (prog :: dest :: args)) = (-1, None, MkGetopt (prog :: dest :: args) 1 [] 1 l) /\ (permute = true -> (2 <= l)%nat).
Proof.
  intros Hne Hn. destruct permute.
  - exists (length (prog :: dest :: args)). split; [|intros _; cbn; lia].
    apply (getopt_no_options OPTIONS (prog :: dest :: args) 1 1 1); [by right|cbn; lia|done|exact Hn].
  - exists 1%nat. split; [|done]. apply (getopt_in_order OPTIONS (prog :: dest :: args) 1 dest 1 1); [done|]. by apply Forall_cons in Hn as [].
Qed.

(** The second call ends it at the first word of the command, or where words are moved
    at the destination. *)
Lemma second_scan permute prog dest args l : args <> [] -> no_options permute dest args -> (permute = true -> (2 <= l)%nat) ->
  exists d, getopt permute OPTIONS (MkGetopt (prog :: dest :: args) 2 [] 1 l) = (-1, None, d) /\ argv d = prog :: dest :: args /\
    drop (optind d) (argv d) = command_words permute dest args.
Proof.
  intros Hne Hn Hl. destruct permute.
  - eexists. split; [apply getopt_no_options; [left; lia|destruct args; [done|cbn; lia]|auto|by apply Forall_cons in Hn as []]|by split].
  - destruct args as [|w args]; [done|]. apply Forall_cons in Hn as [_ Hn]. apply Forall_cons in Hn as [Hn _].
    eexists. split; [by apply (getopt_in_order OPTIONS (prog :: dest :: w :: args) 2 w)|by split].
Qed.

Lemma read_command permute fuel prog dest args x r x' :
  let line := command_text (command_words permute dest args) in
  args <> [] -> no_options permute dest args -> head dest <> Some 63 -> Z.of_nat (length line) < MAX_COMMAND_LEN -> (3 <= fuel)%nat ->
  cpic_session_set_destination dest x = Ret r x' ->
  process_arguments permute fuel (prog :: dest :: args) (MkSettings false [] 0 x) =
  Ret tt (MkSettings true line (Z.of_nat (length line)) x').
Proof.
  intros line Hne Hn Hd Hl Hf Hx. unfold process_arguments. rewrite modify_bind. cbn [set_destination arexecsession].
  assert (read_arguments permute fuel (getopt_start (prog :: dest :: args)) (MkSettings false [] 0 x) =
    Ret tt (MkSettings true line (Z.of_nat (length line)) x')) as E.
  { destruct fuel as [|[|[|fuel]]]; try lia. destruct (first_scan permute prog dest args Hne Hn) as (l & E1 & Hl1).
    destruct (second_scan permute prog dest args l Hne Hn Hl1) as (d & E2 & Hargv & Hdrop). set (words := prog :: dest :: args) in *.
    assert (length words = S (S (length args)) /\ length args <> O) as [Hlen Hargs] by (by destruct args).
    cbn [read_arguments]. rewrite (decide_False (P := optind (getopt_start words) = _)) by (cbn [optind getopt_start argv]; lia).
    rewrite E1, decide_True by done. rewrite get_st_bind. cbn [set_destination]. rewrite put_st_bind. cbn [argv optind].
    change (words !! 1%nat) with (Some dest). rewrite of_opt_Some_bind, decide_False by done.
    rewrite (M_bind_Ret (on_session _) _ _ r (MkSettings true [] 0 x')) by (unfold on_session, zoom; cbn [arexecsession]; by rewrite Hx).
    unfold set_optind. cbn [argv optind nextchar first_nonopt last_nonopt]. rewrite (decide_False (P := 2%nat = _)) by (cbn [length]; lia).
    rewrite E2, decide_True by done. rewrite get_st_bind. cbn [set_destination]. rewrite put_st_bind, Hdrop.
    rewrite (M_bind_Ret _ _ _ _ _ (add_words_fit (command_words permute dest args) (MkSettings true [] 0 x') Hl)).
    cbn [set_destination command command_len arexecsession app optind argv set_optind]. by rewrite decide_True. }
  rewrite (M_bind_Ret _ _ _ _ _ E), get_st_bind. cbn [set_destination command_len]. rewrite bool_decide_true; [done|].
  unfold line, command_words. destruct permute, args as [|w args]; try done; rewrite command_text_cons, length_app; cbn [length]; lia.
Qed.

(** A word that is no option of the program, where words are moved. *)
Lemma unknown_option fuel prog pre c w post x : Forall (fun w => nonoption w = true) pre -> 45 :: c :: w <> str "--" -> c ∉ str "tmupnv" ->
  (1 <= fuel)%nat ->
  process_arguments true fuel (prog :: pre ++ (45 :: c :: w) :: post) (MkSettings false [] 0 x) = Exit EXIT_FAILURE (MkSettings false [] 0 x).
Proof.
  intros Hp Hd Hc Hf. destruct fuel as [|fuel]; [lia|]. unfold process_arguments. rewrite modify_bind. cbn [set_destination arexecsession].
  assert (in_pattern OPTIONS c = None \/ c = 58) as Hin.
  { destruct (decide (c = 58)) as [|Hne]; [by right|left]. cbn [OPTIONS str in_pattern]. revert Hc. unfold OPTIONS. cbn. intros Hc.
    rewrite !not_elem_of_cons in Hc. repeat (rewrite decide_False by (intros <-; naive_solver)). done. }
  destruct (getopt_unknown OPTIONS prog pre c w post Hp Hd) as (d & E); [exact Hin|].
  unfold mbind, M_bind. cbn [read_arguments]. rewrite decide_False.
  2: { unfold getopt_start. cbn [optind argv length]. rewrite length_app. cbn [length]. lia. }
  rewrite E. done.
Qed.

(** *** The server *)

Lemma send_output_script fuel output inc cls : (length output < fuel)%nat ->
  exists ms, mjoin ms = output /\ Forall (fun m => m <> [] /\ (length m <= 800)%nat) ms /\
    send_output fuel output (MkScript inc cls) = Ret tt (MkScript inc (cls ++ (Cmsend <$> ms))).
Proof.
  revert output cls. induction fuel as [|fuel IH]; intros output cls Hf; [lia|]. cbn [send_output]. destruct output as [|b output].
  - exists []. cbn. by rewrite app_nil_r.
  - change (take 800 (b :: output)) with (b :: take 799 output). rewrite decide_False by done. verb_ok.
    change (drop 800 (b :: output)) with (drop 799 output).
    destruct (IH (drop 799 output) (cls ++ [Cmsend (b :: take 799 output)])) as (ms & Hj & Hm & E); [rewrite length_drop; cbn in Hf; lia|].
    exists ((b :: take 799 output) :: ms). split; [|split].
    + change (mjoin ((b :: take 799 output) :: ms)) with ((b :: take 799 output) ++ mjoin ms). rewrite Hj. cbn. by rewrite take_drop.
    + constructor; [|done]. split; [done|]. cbn. rewrite length_take. lia.
    + rewrite E. by rewrite <- app_assoc.
Qed.

(** The calls of a server that sends these records. *)
Definition executes (ms : list (list Z)) : list cpic_call :=
  [Cmaccp; Cmepln] ++ answers_version (version_reply AREXEC_MAJOR AREXEC_MINOR) ++
  [Cmsst CM_SEND_AND_FLUSH; Cmrcv (MAX_COMMAND_LEN - 1)] ++ (Cmsend <$> ms) ++ [Cmsdt CM_DEALLOCATE_FLUSH; Cmdeal].

Lemma arexecd_sends popen garbage cmd output st : is_bytes cmd -> no_nul cmd -> Z.of_nat (length cmd) < MAX_COMMAND_LEN -> popen cmd = Some output ->
  exists ms, mjoin ms = output /\ Forall (fun m => m <> [] /\ (length m <= 800)%nat) ms /\
    arexecd popen garbage (MkScript [MkReceived (version_request AREXEC_MAJOR AREXEC_MINOR) CM_COMPLETE_DATA_RECEIVED CM_SEND_RECEIVED CM_OK;
                                     MkReceived cmd CM_COMPLETE_DATA_RECEIVED st CM_OK] []) =
    Ret EXIT_SUCCESS (MkScript [] (executes ms)).
Proof.
  intros Hb Hn Hl Hp.
  destruct (send_output_script (S (length output)) output []
    ([Cmaccp; Cmepln] ++ answers_version (version_reply AREXEC_MAJOR AREXEC_MINOR) ++ [Cmsst CM_SEND_AND_FLUSH; Cmrcv (MAX_COMMAND_LEN - 1)]) (le_n _)) as (ms & Hj & Hm & E).
  exists ms. split; [done|]. split; [done|]. unfold arexecd. verb_ok. verb_step.
  rewrite decide_False by (intros [_ Hx]; vm_compute in Hx; lia). rewrite M_ret_bind. cbn [app].
  destruct (get_client_version_script AREXEC_MAJOR AREXEC_MINOR AREXEC_MAJOR AREXEC_MINOR garbage CM_COMPLETE_DATA_RECEIVED
    [MkReceived cmd CM_COMPLETE_DATA_RECEIVED st CM_OK] [Cmaccp; Cmepln]) as (v & Ev & _). rewrite (M_bind_Ret _ _ _ _ _ Ev). verb_step.
  rewrite (M_bind_Ret _ _ _ _ _ (script_rcv_next (MAX_COMMAND_LEN - 1) _ _ _ _ _ _ Hb ltac:(lia))). cbn [rcv_rc rcv_data].
  rewrite decide_False by (intros Hx; by apply Hx). unfold execute_and_send_output. rewrite c_str_whole, Hp by done.
  rewrite (M_bind_Ret _ _ _ _ _ E). verb_step. verb_ok. unfold mret, M_ret, executes. join_calls. done.
Qed.

(** *** The program *)

Lemma call_script_rcv n p ds ss rc inc cls out : is_bytes p -> Z.of_nat (length p) <= n ->
  call (verb (cmrcv n)) (MkArexec (MkScript (MkReceived p ds ss rc :: inc) cls) out) =
  Ret (MkReceived p ds ss rc) (MkArexec (MkScript inc (cls ++ [Cmrcv n])) out).
Proof. intros Hb Hl. unfold call, zoom. cbn [kern]. by rewrite (script_rcv_next n p ds ss rc inc cls Hb Hl). Qed.

Lemma receive_pieces fuel ps last cls out : Forall piece_ok ps -> piece_ok last -> (length ps < fuel)%nat ->
  receive_output fuel (MkArexec (MkScript ((piece <$> ps) ++ [ends_with last]) cls) out) =
  Ret CM_DEALLOCATED_NORMAL (MkArexec (MkScript [] (cls ++ replicate (S (length ps)) (Cmrcv MAX_COMMAND_LEN))) (out ++ mjoin ps ++ last)).
Proof.
  intros Hps [Hb Hl]. revert fuel cls out. induction Hps as [|p ps [Hpb Hpl] _ IH]; intros [|fuel] cls out Hf; try (cbn in Hf; lia); cbn [receive_output fmap list_fmap app].
  - unfold ends_with. rewrite (M_bind_Ret _ _ _ _ _ (call_script_rcv _ _ _ _ _ _ _ _ Hb Hl)). cbn [data_received rcv_rc rcv_data mjoin list_join app].
    destruct last as [|b last].
    + by rewrite app_nil_r.
    + rewrite (decide_False (P := b :: last = [])) by done. rewrite (decide_True (P := _ /\ _)) by (split; [done|by right]). unfold fwrite. by rewrite modify_bind.
  - unfold piece at 1. rewrite (M_bind_Ret _ _ _ _ _ (call_script_rcv _ _ _ _ _ _ _ _ Hpb Hpl)). cbn [data_received rcv_rc rcv_data].
    rewrite (decide_True (P := _ /\ _)) by (split; [done|by left]). unfold fwrite. rewrite modify_bind. cbn [kern printed]. rewrite decide_True by done.
    rewrite IH by (cbn in Hf; lia). cbn [mjoin list_join length]. by rewrite <- !app_assoc.
Qed.

Lemma command_text_chars args : Forall (fun w => no_nul w /\ is_bytes w) args -> no_nul (command_text args) /\ is_bytes (command_text args).
Proof.
  induction 1 as [|w args [Hn Hb] _ [IHn IHb]]; [split; constructor|]. rewrite command_text_cons. unfold no_nul.
  split; apply Forall_app; (split; [done|]); constructor; (done || unfold is_byte; lia).
Qed.

Lemma arexec_call_Ret {A} (m : M script A) k a k' out : m k = Ret a k' -> call m (MkArexec k out) = Ret a (MkArexec k' out).
Proof. intros E. unfold call, zoom. cbn [kern]. by rewrite E. Qed.

Ltac call_step := erewrite (M_bind_Ret (call (verb _))) by reflexivity; unfold note; cbn [incoming calls kern printed].
Ltac call_ok := call_step; rewrite (decide_False (P := _ <> CM_OK)) by (intros Hx; by apply Hx).

(** The calls of the program behind those that start the conversation, when it receives
    [n] times. *)
Definition asks (line : list Z) (n : nat) : list cpic_call :=
  [Cmssl CM_CONFIRM; Cmallc] ++ asks_version (version_request AREXEC_MAJOR AREXEC_MINOR) ++ [Cmsend line] ++ replicate n (Cmrcv MAX_COMMAND_LEN).

Lemma execute_prints fuel s ps last cls : Forall piece_ok ps -> piece_ok last -> (length ps < fuel)%nat ->
  let inc := MkReceived (version_reply AREXEC_MAJOR AREXEC_MINOR) CM_COMPLETE_DATA_RECEIVED CM_SEND_RECEIVED CM_OK :: (piece <$> ps) ++ [ends_with last] in
  cpic_session_init (arexecsession s) (MkScript inc []) = Ret CM_OK (MkScript inc cls) ->
  execute fuel s (MkArexec (MkScript inc []) []) =
  Ret EXIT_SUCCESS (MkArexec (MkScript [] (cls ++ asks (command s) (S (length ps)))) (connected_to (take 63 OS_NAME) ++ mjoin ps ++ last)).
Proof.
  intros Hps Hlast Hf inc Hinit. unfold execute. rewrite (M_bind_Ret _ _ _ _ _ (arexec_call_Ret _ _ _ _ _ Hinit)). call_step. call_ok.
  pose proof (get_server_version_script AREXEC_MAJOR AREXEC_MINOR AREXEC_MAJOR AREXEC_MINOR 64 CM_COMPLETE_DATA_RECEIVED ((piece <$> ps) ++ [ends_with last])
    ((cls ++ [Cmssl CM_CONFIRM]) ++ [Cmallc]) ltac:(lia) ltac:(done)) as Hv.
  rewrite (M_bind_Ret _ _ _ _ _ (arexec_call_Ret _ _ _ _ _ Hv)). cbn [os_name]. rewrite of_opt_Some_bind. rewrite (decide_True (P := take _ _ <> [])) by done.
  unfold fwrite at 1. rewrite modify_bind. cbn [kern printed app]. call_ok.
  rewrite (M_bind_Ret _ _ _ _ _ (receive_pieces fuel ps last _ _ Hps Hlast Hf)).
  rewrite decide_False by (intros Hx; by apply Hx). unfold mret, M_ret, asks. join_calls. done.
Qed.

(** C38 (functional).  A command that is executed at a distance prints what it prints.
    The command sent is the words behind the destination, each with a blank behind it,
    when [getopt] leaves the words in their order; when it moves them, as the GNU library
    does unless told otherwise, the destination comes first in it, since the second scan
    goes back to the first word passed over.  Given words without options where the scan
    looks for them, and a line that fits, the program starts the conversation, sends the
    version and this line, and receives; the server, given these, has exactly that line
    executed, answers with its version and the output in records of at most eight
    hundred bytes, and ends the conversation; and however those records come in, in
    pieces of at most five hundred bytes, the last with the end of the conversation or
    before it, the program prints where it is connected to and the output, and succeeds.
    Every call of either side is listed.  Where words are moved, a word of the command
    that starts with ['-'] and a letter the program does not know makes it give its usage
    and fail before any call. *)
Theorem arexec_prints popen garbage (permute : bool) prog (dest : list Z) (args : list (list Z)) output pieces last fuel x0 x1 x r1 r st cls :
  let line := command_text (if permute then dest :: args else args) in
  let client := (piece <$> pieces) ++ [ends_with last] in
  let version := MkReceived (version_reply AREXEC_MAJOR AREXEC_MINOR) CM_COMPLETE_DATA_RECEIVED CM_SEND_RECEIVED CM_OK in
  args <> [] -> no_options permute dest args -> Forall (fun w => no_nul w /\ is_bytes w) (dest :: args) ->
  head dest <> Some 63 -> Z.of_nat (length line) < MAX_COMMAND_LEN ->
  cpic_session_new false = Some x0 ->
  server_names x0 = Ret r1 x1 -> cpic_session_set_destination dest x1 = Ret r x ->
  cpic_session_init x (MkScript (version :: client) []) = Ret CM_OK (MkScript (version :: client) cls) ->
  popen line = Some output -> Forall piece_ok pieces -> piece_ok last -> mjoin pieces ++ last = output -> (length pieces + 3 <= fuel)%nat ->
  (exists ms, mjoin ms = output /\ Forall (fun m => (length m <= 800)%nat) ms /\
    arexecd popen garbage (MkScript [MkReceived (version_request AREXEC_MAJOR AREXEC_MINOR) CM_COMPLETE_DATA_RECEIVED CM_SEND_RECEIVED CM_OK;
                                     MkReceived line CM_COMPLETE_DATA_RECEIVED st CM_OK] []) =
    Ret EXIT_SUCCESS (MkScript [] ([Cmaccp; Cmepln; Cmsptr CM_PREP_TO_RECEIVE_FLUSH; Cmsst CM_BUFFER_DATA; Cmrcv EXCHANGE_BUFFER_SIZE;
      Cmsend (version_reply AREXEC_MAJOR AREXEC_MINOR); Cmptr; Cmsst CM_SEND_AND_FLUSH; Cmrcv 499] ++ (Cmsend <$> ms) ++ [Cmsdt CM_DEALLOCATE_FLUSH; Cmdeal]))) /\
  main permute fuel (prog :: dest :: args) (MkArexec (MkScript (version :: client) []) []) =
    Ret EXIT_SUCCESS (MkArexec (MkScript [] (cls ++ [Cmssl CM_CONFIRM; Cmallc; Cmsptr CM_PREP_TO_RECEIVE_FLUSH; Cmsst CM_BUFFER_DATA;
      Cmsend (version_request AREXEC_MAJOR AREXEC_MINOR); Cmrcv EXCHANGE_BUFFER_SIZE; Cmsend line] ++ replicate (S (length pieces)) (Cmrcv 500)))
      (connected_to (take 63 OS_NAME) ++ output)) /\
  (forall pre c w post p, Forall (fun w => nonoption w = true) pre -> 45 :: c :: w <> str "--" -> c ∉ str "tmupnv" ->
    main (K := script) true fuel (prog :: pre ++ (45 :: c :: w) :: post) p = Exit EXIT_FAILURE p).
Proof.
  intros line client version Hne Hno Hw Hd Hl Hnew Hnames Hdest Hinit Hpop Hps Hlast Hout Hf.
  assert (no_nul line /\ is_bytes line) as [Hn Hb] by (apply command_text_chars; destruct permute; [done|by apply Forall_cons in Hw as []]).
  split_and!.
  - destruct (arexecd_sends popen garbage line output st) as (ms & Hj & Hm & E); [done..|]. exists ms. split; [done|]. split; [|done].
    eapply Forall_impl; [exact Hm|]. by intros m [].
  - unfold main. rewrite Hnew.
    rewrite (M_bind_Ret (on_session server_names) _ _ r1 (MkSettings false [] 0 x1)) by (unfold on_session, zoom; cbn [arexecsession]; by rewrite Hnames).
    rewrite (read_command permute fuel prog dest args x1 r x) by (done || lia). rewrite <- Hout.
    by apply (execute_prints fuel (MkSettings true line (Z.of_nat (length line)) x) pieces last cls); [..|lia|].
  - intros pre c w post p Hp Hdd Hc. unfold main. rewrite Hnew.
    rewrite (M_bind_Ret (on_session server_names) _ _ r1 (MkSettings false [] 0 x1)) by (unfold on_session, zoom; cbn [arexecsession]; by rewrite Hnames).
    by rewrite unknown_option by (done || lia).
Qed.

Definition demo_popen (line : list Z) : option (list Z) :=
  if decide (line = str "ls -l " \/ line = str "net.lu1 ls ") then Some (str "total 0" ++ [10]) else None.

(** With the words in their order, and with the words moved. *)
Lemma arexec_prints_witness : exists cls,
  main false 5 [str "arexec"; str "net.lu1"; str "ls"; str "-l"]
    (MkArexec (MkScript (MkReceived (version_reply AREXEC_MAJOR AREXEC_MINOR) CM_COMPLETE_DATA_RECEIVED CM_SEND_RECEIVED CM_OK ::
       (piece <$> [str "tot"; str "al 0"]) ++ [ends_with [10]]) []) []) =
    Ret EXIT_SUCCESS (MkArexec (MkScript [] (cls ++ [Cmssl CM_CONFIRM; Cmallc; Cmsptr CM_PREP_TO_RECEIVE_FLUSH; Cmsst CM_BUFFER_DATA;
      Cmsend (version_request AREXEC_MAJOR AREXEC_MINOR); Cmrcv EXCHANGE_BUFFER_SIZE; Cmsend (str "ls -l ")] ++ replicate 3 (Cmrcv 500)))
      (connected_to (take 63 OS_NAME) ++ str "total 0" ++ [10])) /\
  main true 5 [str "arexec"; str "net.lu1"; str "ls"]
    (MkArexec (MkScript (MkReceived (version_reply AREXEC_MAJOR AREXEC_MINOR) CM_COMPLETE_DATA_RECEIVED CM_SEND_RECEIVED CM_OK ::
       (piece <$> [str "tot"; str "al 0"]) ++ [ends_with [10]]) []) []) =
    Ret EXIT_SUCCESS (MkArexec (MkScript [] (cls ++ [Cmssl CM_CONFIRM; Cmallc; Cmsptr CM_PREP_TO_RECEIVE_FLUSH; Cmsst CM_BUFFER_DATA;
      Cmsend (version_request AREXEC_MAJOR AREXEC_MINOR); Cmrcv EXCHANGE_BUFFER_SIZE; Cmsend (str "net.lu1 ls ")] ++ replicate 3 (Cmrcv 500)))
      (connected_to (take 63 OS_NAME) ++ str "total 0" ++ [10])).
Proof.
  destruct (cpic_session_new false) as [x0|] eqn:E0; [|done].
  exists [Cminit (replicate 8 32); Cmspln (str "NET.LU1"); Cmstpn (str "AREXECD"); Cmsmn (str "#INTER")].
  destruct (server_names x0) as [r1 x1|?|?|?|?] eqn:E1; [|exfalso; injection E0 as <-; vm_compute in E1; discriminate E1..].
  destruct (cpic_session_set_destination (str "net.lu1") x1) as [r x|?|?|?|?] eqn:E2;
    [|exfalso; injection E0 as <-; vm_compute in E1; injection E1 as <- <-; vm_compute in E2; discriminate E2..].
  assert (forall inc, cpic_session_init x (MkScript inc []) =
    Ret CM_OK (MkScript inc [Cminit (replicate 8 32); Cmspln (str "NET.LU1"); Cmstpn (str "AREXECD"); Cmsmn (str "#INTER")])) as Hinit.
  { injection E0 as <-. vm_compute in E1. injection E1 as <- <-. vm_compute in E2. injection E2 as <- <-. reflexivity. }
  split.
  - edestruct (arexec_prints demo_popen 0 false (str "arexec") (str "net.lu1") [str "ls"; str "-l"] (str "total 0" ++ [10]) [str "tot"; str "al 0"] [10] 5 x0 x1 x r1 r CM_SEND_RECEIVED) as (_ & E & _);
      [done|apply (bool_decide_unpack _); by vm_compute|apply (bool_decide_unpack _); by vm_compute|done|by vm_compute|exact E0|exact E1|exact E2|apply Hinit
      |reflexivity|apply (bool_decide_unpack _); by vm_compute|apply (bool_decide_unpack _); by vm_compute|reflexivity|cbn; lia|exact E].
  - edestruct (arexec_prints demo_popen 0 true (str "arexec") (str "net.lu1") [str "ls"] (str "total 0" ++ [10]) [str "tot"; str "al 0"] [10] 5 x0 x1 x r1 r CM_SEND_RECEIVED) as (_ & E & _);
      [done|apply (bool_decide_unpack _); by vm_compute|apply (bool_decide_unpack _); by vm_compute|done|by vm_compute|exact E0|exact E1|exact E2|apply Hinit
      |reflexivity|apply (bool_decide_unpack _); by vm_compute|apply (bool_decide_unpack _); by vm_compute|reflexivity|cbn; lia|exact E].
Defined.
