(* ===== verification/Atell.v ===== *)
(** * asuite/atell.c and asuite/atelld.c: messages to a user

    The program that sends a message and the server that shows it on a terminal, over the
    CPI-C interface.  Static arrays start with zeros; a pointer has four bytes.  The users
    who are logged in, the terminals that can be opened and the time are parameters; what
    a terminal shows is the text written to it.  A loop that receives has fuel, a turn for
    each call.  What is said on the standard output and in the log is left out, and a
    version the partner did not say is taken for zero. *)
From S2P Require Import Prelude Cpic CpicSession.

Definition MAX_MESSAGE_LEN : nat := 301.
Definition MAX_DEST_USERID : nat := 11.
Definition MAX_FQPLU_NAME : nat := 18.
Definition ATELL_MAJOR := 2.
Definition ATELL_MINOR := 37.
Definition USERID_MAJOR := 2.
Definition USERID_MINOR := 2.

(** ** The program *)

(** [dest_userid] is the string of its array. *)
Record settings : Type := MkSettings { message : list Z; message_length : Z; dest_userid : list Z; atellsession : cpic_session }.

Definition on_session {A} (m : M cpic_session A) : M settings A :=
  zoom atellsession (fun x s => MkSettings (message s) (message_length s) (dest_userid s) x) m.

Definition usage {A S} : M S A := c_exit EXIT_FAILURE.

Fixpoint read_options (options : list (Z * list Z)) : M settings unit :=
  match options with
  | [] => mret tt
  | (c, optarg) :: options =>
      (if decide (c = 109) then on_session (cpic_session_set_mode_name optarg);; mret tt
       else if decide (c = 116) then on_session (cpic_session_set_tp_name optarg);; mret tt
       else if decide (c = 117) then on_session (cpic_session_set_userid optarg);; mret tt
       else if decide (c = 112) then on_session (cpic_session_set_password optarg);; mret tt
       else if decide (c = 110) then on_session (cpic_session_set_security_type CM_SECURITY_NONE)
       else if decide (c = 118) then c_exit 0
       else usage);;
      read_options options
  end.

Definition set_partner (s : list Z) : M settings unit :=
  on_session (if bool_decide (46 ∈ s) then cpic_session_set_destination s else cpic_session_set_symbolic_name s);; mret tt.

(** What stands before the first ['@'] is the user. *)
Definition set_address (s : list Z) : M settings unit :=
  match split_at 64 s with
  | None => set_partner s
  | Some (user, partner) =>
      (if decide (length user < MAX_DEST_USERID)%nat then
         modify (fun s => MkSettings (message s) (message_length s) user (atellsession s));;
         on_session (cpic_session_set_userid user);; mret tt
       else mret tt);;
      set_partner partner
  end.

(** The array with a string at its start; a message that is too long leaves the first
    four of its characters there ([sizeof(message-1)]), and its length. *)
Definition message_array (s : list Z) : list Z := s ++ replicate (MAX_MESSAGE_LEN - length s) 0.

Definition set_message (text : list Z) : M settings unit :=
  let len := Z.of_nat (length text) + 1 in
  modify (fun s => MkSettings (message_array (if decide (len < Z.of_nat MAX_MESSAGE_LEN) then text else take 4 text)) len (dest_userid s) (atellsession s)).

(** [optind] words are taken by options, the name of the program among them; [argv] are
    the others.  The message is looked for at [argv[optind]], behind those already passed
    over. *)
Definition process_arguments (options : list (Z * list Z)) (optind : nat) (argv : list (list Z)) : M settings unit :=
  read_options options;;
  match argv with
  | [address; _] =>
      set_address address;;
      text ← of_opt (argv !! optind);
      set_message text
  | _ => usage
  end.

Section Program.
Context {K : Type} `{Cpic K, CpicTypes K}.

(** A [char] has a sign. *)
Definition signed_char (v : Z) : Z := if decide (v < 128) then v else v - 256.

(** Behind the arguments, until the conversation has ended. *)
Definition tell (s : settings) : M K unit :=
  cpic_session_init (atellsession s);;
  verb (cmssl CM_CONFIRM);;
  rc ← verb cmallc;
  if decide (rc <> CM_OK) then c_exit EXIT_FAILURE else
  '(_, v) ← get_server_version ATELL_MAJOR ATELL_MINOR (Some 64);
  os ← of_opt (os_name v);
  let tp_major := signed_char (major v) in
  let tp_minor := signed_char (minor v) in
  (if decide (Z.of_nat MAX_MESSAGE_LEN < message_length s) then undef else mret tt);;
  rc ← verb (cmsend (take (Z.to_nat (message_length s)) (message s)));
  if decide (rc <> CM_OK) then c_exit EXIT_FAILURE else
  (if decide (dest_userid s <> [] /\ (USERID_MAJOR < tp_major \/ (tp_major = USERID_MAJOR /\ USERID_MINOR <= tp_minor))) then
     rc ← verb (cmsend (dest_userid s));
     if decide (rc <> CM_OK) then c_exit EXIT_FAILURE else mret tt
   else mret tt);;
  rc ← verb (cmsdt CM_DEALLOCATE_SYNC_LEVEL);
  if decide (rc <> CM_OK) then c_exit EXIT_FAILURE else
  rc ← verb cmdeal;
  if decide (rc <> CM_OK) then c_exit EXIT_FAILURE else mret tt.

(** Before the arguments are read the session is given the names of the server. *)
Definition server_names : M cpic_session Z :=
  cpic_session_set_tp_name (str "ATELLD");; cpic_session_set_mode_name (str "#INTER");; cpic_session_set_symbolic_name (str "ATELLD").

(** When all is done the name of the destination is printed, from the session that has
    been freed. *)
Definition main (options : list (Z * list Z)) (optind : nat) (argv : list (list Z)) : M K Z := fun k =>
  match cpic_session_new false with
  | None => Undef k
  | Some x =>
      match (on_session server_names;; process_arguments options optind argv) (MkSettings (replicate MAX_MESSAGE_LEN 0) 0 [] x) with
      | Ret _ s => (tell s;; undef) k
      | Exit code _ => Exit code k
      | Abort _ => Abort k
      | Undef _ => Undef k
      | NoFuel _ => NoFuel k
      end
  end.
End Program.

(** ** The server *)

Section Server.
Context {K : Type} `{Cpic K, CpicServer K}.

(** The users and terminals [who] lists, if it can be run; which terminals can be
    opened; the time as [asctime] writes it, without the newline; what [strlen] makes of
    an array that was never assigned. *)
Context (who : option (list (list Z * list Z))) (opens : list Z -> bool) (timestamp : list Z) (garbage : Z).

Inductive screen : Type := Tty (name : list Z) | Stderr.

(** The conversation, and what was shown where. *)
Record atelld : Type := MkAtelld { kern : K; shown : list (screen * list Z) }.

Definition call {A} (m : M K A) : M atelld A := zoom kern (fun k s => MkAtelld k (shown s)) m.

(** The terminal of the first line with the user. *)
Fixpoint find_tty (user : list Z) (l : list (list Z * list Z)) : list Z :=
  match l with
  | [] => []
  | (u, tty) :: l => if decide (u = user) then str "/dev/" ++ tty else find_tty user l
  end.

Definition display_message (origin dest_userid message : list Z) : M atelld unit :=
  let tty_name := if decide (dest_userid <> []) then match who with None => [] | Some l => find_tty dest_userid l end else str "/dev/pts/1" in
  let ttyhandle := if decide (tty_name <> [] /\ opens tty_name = true) then Tty tty_name else Stderr in
  let text := [10; 10] ++ str "ATELLD msg from " ++ origin ++ [10] ++
    (if decide (dest_userid <> []) then str "to user " ++ dest_userid ++ [32] else []) ++
    str "on " ++ timestamp ++ [58] ++ [10; 10] ++ str "     " ++ message ++ [10; 10] in
  modify (fun s => MkAtelld (kern s) (shown s ++ [(ttyhandle, text)])).

(** The loop: the first text is the message, the second the user. *)
Fixpoint receive_texts (fuel : nat) (origin message dest_userid : list Z) : M atelld unit :=
  match fuel with
  | O => no_fuel
  | S fuel =>
      r ← call (verb (cmrcv (Z.of_nat MAX_MESSAGE_LEN)));
      if decide (rcv_rc r <> CM_OK) then c_exit EXIT_FAILURE else
      '(message, dest_userid) ← (if decide (data_received r <> CM_NO_DATA_RECEIVED) then
          if decide (MAX_MESSAGE_LEN <= length (rcv_data r))%nat then undef else
          let buffer := c_str (rcv_data r) in
          mret (if decide (message = []) then (take (MAX_MESSAGE_LEN - 1) buffer, dest_userid)
                else if decide (dest_userid = []) then (message, take (MAX_DEST_USERID - 1) buffer)
                else (message, dest_userid))
        else mret (message, dest_userid));
      if decide (status_received r = CM_CONFIRM_DEALLOC_RECEIVED) then display_message origin dest_userid message
      else receive_texts fuel origin message dest_userid
  end.

Definition receive_message (fuel : nat) : M atelld unit :=
  rc ← call (verb cmaccp);
  if decide (rc <> CM_OK) then c_exit EXIT_FAILURE else
  call (get_client_version ATELL_MAJOR ATELL_MINOR (Some garbage));;
  '(origin, rc) ← call (verb cmepln);
  if decide (rc <> CM_OK) then c_exit EXIT_FAILURE else
  (if decide (MAX_FQPLU_NAME <= length origin)%nat then undef else mret tt);;
  receive_texts fuel origin [] [];;
  rc ← call (verb cmcfmd);
  if decide (rc <> CM_OK) then c_exit EXIT_FAILURE else mret tt.

Definition atelld_main (fuel : nat) : M atelld Z := receive_message fuel;; mret EXIT_SUCCESS.
End Server.
Arguments atelld K : clear implicits.

(** ** The two together *)

(** The texts as calls receive them; the partner's wish to end comes with the last or
    after it. *)
Definition texts_arrive (apart : bool) (message user : list Z) : list received :=
  let last m st := MkReceived m CM_COMPLETE_DATA_RECEIVED st CM_OK in
  last message CM_NO_STATUS_RECEIVED ::
  (if apart then [last user CM_NO_STATUS_RECEIVED; MkReceived [] CM_NO_DATA_RECEIVED CM_CONFIRM_DEALLOC_RECEIVED CM_OK]
   else [last user CM_CONFIRM_DEALLOC_RECEIVED]).

Lemma message_sent text : (length text + 1 < MAX_MESSAGE_LEN)%nat -> take (Z.to_nat (Z.of_nat (length text) + 1)) (message_array text) = text ++ [0].
Proof.
  intros Hl. unfold message_array. replace (MAX_MESSAGE_LEN - length text)%nat with (S (MAX_MESSAGE_LEN - S (length text))) by lia. cbn [replicate].
  replace (Z.to_nat (Z.of_nat (length text) + 1)) with (length (text ++ [0])) by (rewrite length_app; cbn; lia).
  generalize (replicate (MAX_MESSAGE_LEN - S (length text)) 0). intros l. change (0 :: l) with ([0] ++ l). rewrite (app_assoc text). by rewrite take_app_length.
Qed.

(** The setting of a partner. *)
Definition partner_set (partner : list Z) : M cpic_session Z :=
  if bool_decide (46 ∈ partner) then cpic_session_set_destination partner else cpic_session_set_symbolic_name partner.

Lemma address_read user partner text x x1 x2 r1 r2 s :
  64 ∉ user -> (length user < MAX_DEST_USERID)%nat -> Z.of_nat (length text) + 1 < Z.of_nat MAX_MESSAGE_LEN -> atellsession s = x ->
  cpic_session_set_userid user x = Ret r1 x1 -> partner_set partner x1 = Ret r2 x2 ->
  process_arguments [] 1 [user ++ 64 :: partner; text] s = Ret tt (MkSettings (message_array text) (Z.of_nat (length text) + 1) user x2).
Proof.
  intros Ha Hu Ht <- E1 E2. unfold process_arguments. rewrite (M_bind_Ret (read_options []) _ s tt s) by reflexivity.
  assert (set_address (user ++ 64 :: partner) s = Ret tt (MkSettings (message s) (message_length s) user x2)) as Es.
  { unfold set_address. rewrite split_at_app, decide_True by done. rewrite M_bind_assoc, modify_bind, M_bind_assoc. cbn [message message_length atellsession].
    rewrite (M_bind_Ret (on_session _) _ _ r1 (MkSettings (message s) (message_length s) user x1)) by (unfold on_session, zoom; cbn [atellsession]; by rewrite E1).
    rewrite M_ret_bind. unfold set_partner. fold (partner_set partner).
    rewrite (M_bind_Ret (on_session _) _ _ r2 (MkSettings (message s) (message_length s) user x2)) by (unfold on_session, zoom; cbn [atellsession]; by rewrite E2).
    done. }
  rewrite (M_bind_Ret _ _ _ _ _ Es). cbn [lookup list_lookup]. rewrite of_opt_Some_bind. unfold set_message, modify. cbn [dest_userid atellsession].
  by rewrite decide_True.
Qed.

(** The calls of a program that sends a text to a user, behind those that start the
    conversation; those of the server, which receives [n] times. *)
Definition tells (text user : list Z) : list cpic_call :=
  [Cmssl CM_CONFIRM; Cmallc] ++ asks_version (version_request ATELL_MAJOR ATELL_MINOR) ++
  [Cmsend (text ++ [0]); Cmsend user; Cmsdt CM_DEALLOCATE_SYNC_LEVEL; Cmdeal].
Definition is_told (n : nat) : list cpic_call :=
  [Cmaccp] ++ answers_version (version_reply ATELL_MAJOR ATELL_MINOR) ++ [Cmepln] ++ replicate n (Cmrcv (Z.of_nat MAX_MESSAGE_LEN)) ++ [Cmcfmd].

Lemma tell_sends s text user cls :
  let inc := [MkReceived (version_reply ATELL_MAJOR ATELL_MINOR) CM_COMPLETE_DATA_RECEIVED CM_SEND_RECEIVED CM_OK] in
  message s = message_array text -> message_length s = Z.of_nat (length text) + 1 -> (length text + 1 < MAX_MESSAGE_LEN)%nat -> dest_userid s = user -> user <> [] ->
  cpic_session_init (atellsession s) (MkScript inc []) = Ret CM_OK (MkScript inc cls) ->
  tell s (MkScript inc []) = Ret tt (MkScript [] (cls ++ tells text user)).
Proof.
  intros inc Hm Hl Ht Hu Hne Hinit. unfold tell. rewrite (M_bind_Ret _ _ _ _ _ Hinit). verb_step. verb_ok.
  rewrite (M_bind_Ret _ _ _ _ _ (get_server_version_script ATELL_MAJOR ATELL_MINOR ATELL_MAJOR ATELL_MINOR 64 CM_COMPLETE_DATA_RECEIVED [] _ ltac:(lia) ltac:(done))).
  cbn [os_name major minor]. rewrite of_opt_Some_bind.
  rewrite Hl, (decide_False (P := _ < _)) by (unfold MAX_MESSAGE_LEN in *; lia). rewrite M_ret_bind, Hm, message_sent by done.
  verb_ok. rewrite Hu, decide_True by (split; [done|right; by vm_compute]). rewrite M_bind_assoc. verb_ok. rewrite M_ret_bind.
  do 2 verb_ok. unfold mret, M_ret, tells. join_calls. done.
Qed.

(** What a terminal shows. *)
Definition shown_text (origin user timestamp text : list Z) : list Z :=
  [10; 10] ++ str "ATELLD msg from " ++ origin ++ [10] ++ (str "to user " ++ user ++ [32]) ++
  str "on " ++ timestamp ++ [58] ++ [10; 10] ++ str "     " ++ text ++ [10; 10].

Definition screen_of (who : option (list (list Z * list Z))) (opens : list Z -> bool) (user : list Z) : screen :=
  let tty := match who with None => [] | Some l => find_tty user l end in
  if decide (tty <> [] /\ opens tty = true) then Tty tty else Stderr.

Lemma atelld_call_Ret {A} (m : M script A) k a k' out : m k = Ret a k' -> call m (MkAtelld k out) = Ret a (MkAtelld k' out).
Proof. intros E. unfold call, zoom. cbn [kern]. by rewrite E. Qed.

Ltac call_step := erewrite (M_bind_Ret (call (verb _))) by reflexivity; unfold note; cbn [incoming calls app].
Ltac call_ok := call_step; rewrite (decide_False (P := _ <> CM_OK)) by (intros Hx; by apply Hx).

Lemma call_rcv_next m ds ss rc inc cls out : is_bytes m -> (length m <= MAX_MESSAGE_LEN)%nat ->
  call (verb (cmrcv (Z.of_nat MAX_MESSAGE_LEN))) (MkAtelld (MkScript (MkReceived m ds ss rc :: inc) cls) out) =
  Ret (MkReceived m ds ss rc) (MkAtelld (MkScript inc (cls ++ [Cmrcv (Z.of_nat MAX_MESSAGE_LEN)])) out).
Proof. intros Hb Hl. unfold call, zoom. cbn [kern]. by rewrite (script_rcv_next (Z.of_nat MAX_MESSAGE_LEN) m ds ss rc inc cls Hb ltac:(lia)). Qed.

(** The number of calls that receive. *)
Definition receptions (apart : bool) : nat := if apart then 3%nat else 2%nat.

Lemma texts_shown who opens timestamp fuel origin text user apart cls out :
  no_nul text -> is_bytes text -> text <> [] -> (length text + 1 < MAX_MESSAGE_LEN)%nat -> no_nul user -> is_bytes user -> user <> [] -> (length user < MAX_DEST_USERID)%nat ->
  (3 <= fuel)%nat ->
  receive_texts who opens timestamp fuel origin [] [] (MkAtelld (MkScript (texts_arrive apart (text ++ [0]) user) cls) out) =
  Ret tt (MkAtelld (MkScript [] (cls ++ replicate (receptions apart) (Cmrcv (Z.of_nat MAX_MESSAGE_LEN)))) (out ++ [(screen_of who opens user, shown_text origin user timestamp text)])).
Proof.
  intros Hn Hb Hne Hl Hun Hub Hune Hul Hf. destruct fuel as [|[|[|fuel]]]; try lia. unfold texts_arrive. cbn [receive_texts].
  assert (is_bytes (text ++ [0])) as Hb' by (apply Forall_app; split; [done|]; constructor; [unfold is_byte; lia|constructor]).
  rewrite (M_bind_Ret _ _ _ _ _ (call_rcv_next _ _ _ _ _ _ _ Hb' ltac:(rewrite length_app; cbn; lia))). cbn [rcv_rc rcv_data data_received status_received].
  rewrite decide_False by (intros Hx; by apply Hx). rewrite (decide_True (P := _ <> CM_NO_DATA_RECEIVED)) by done.
  rewrite (decide_False (P := (_ <= _)%nat)) by (rewrite length_app; cbn; lia). rewrite M_ret_bind. rewrite (decide_True (P := [] = [])) by done.
  rewrite c_str_string, take_ge by (done || (unfold MAX_MESSAGE_LEN in *; lia)). rewrite (decide_False (P := CM_NO_STATUS_RECEIVED = _)) by done.
  (** the user's name, and what comes with it or behind it *)
  set (l := if apart then _ else _). assert (exists st rest, l = MkReceived user CM_COMPLETE_DATA_RECEIVED st CM_OK :: rest /\
    (st = CM_CONFIRM_DEALLOC_RECEIVED /\ rest = [] /\ receptions apart = 2%nat \/
     st = CM_NO_STATUS_RECEIVED /\ rest = [MkReceived [] CM_NO_DATA_RECEIVED CM_CONFIRM_DEALLOC_RECEIVED CM_OK] /\ receptions apart = 3%nat))
    as (st & rest & -> & Hst) by (unfold l; destruct apart; do 2 eexists; (split; [reflexivity|]); [by right|by left]).
  rewrite (M_bind_Ret _ _ _ _ _ (call_rcv_next user _ _ _ _ _ _ Hub ltac:(unfold MAX_MESSAGE_LEN, MAX_DEST_USERID in *; lia))).
  cbn [rcv_rc rcv_data data_received status_received].
  rewrite decide_False by (intros Hx; by apply Hx). rewrite (decide_True (P := _ <> CM_NO_DATA_RECEIVED)) by done.
  rewrite (decide_False (P := (_ <= _)%nat)) by (unfold MAX_MESSAGE_LEN, MAX_DEST_USERID in *; lia). rewrite M_ret_bind, (decide_False (P := text = [])) by done.
  rewrite (decide_True (P := [] = [])) by done. rewrite c_str_whole, take_ge by (done || (unfold MAX_DEST_USERID in *; lia)).
  assert (forall k : script, display_message who opens timestamp origin user text (MkAtelld k out) =
    Ret tt (MkAtelld k (out ++ [(screen_of who opens user, shown_text origin user timestamp text)]))) as Hd.
  { intros k. unfold display_message, modify, screen_of, shown_text. cbn [kern shown]. by rewrite !(decide_True (P := user <> [])). }
  destruct Hst as [(-> & -> & ->)|(-> & -> & ->)].
  - rewrite decide_True by done. rewrite Hd. join_calls. done.
  - rewrite decide_False by done. rewrite (M_bind_Ret _ _ _ _ _ (call_rcv_next [] _ _ _ _ _ _ (Forall_nil_2 _) ltac:(cbn; lia))).
    cbn [rcv_rc rcv_data data_received status_received]. rewrite decide_False by (intros Hx; by apply Hx).
    rewrite (decide_False (P := _ <> CM_NO_DATA_RECEIVED)) by (intros Hx; by apply Hx). rewrite M_ret_bind, decide_True by done. rewrite Hd. join_calls. done.
Qed.

(** Behind the two arguments there is none. *)
Lemma option_loses options optind address text s : (2 <= optind)%nat ->
  match process_arguments options optind [address; text] s with Ret _ _ => False | _ => True end.
Proof.
  intros Ho. unfold process_arguments, mbind, M_bind. destruct (read_options options s) as [a s1|?|?|?|?]; [|done..].
  destruct (set_address address s1) as [a' s2|?|?|?|?]; [|done..]. by rewrite (lookup_ge_None_2 [address; text]) by (cbn; lia).
Qed.

(** C39 (functional).  A message reaches the user.  To an address with a user, the program
    called without options starts the conversation, with confirmation, asks for the
    version, sends the message with its terminator and then the user's name, and ends the
    conversation in the way that asks for a confirmation; given these, the ending with the
    name or after it, the server answers with its version, shows the message, with where
    it comes from, for whom, and the time, on the terminal of the first line of [who] with
    that name (on the standard error when there is none that can be opened), confirms and
    succeeds.  Every call of either side is listed.  Behind that the program reads the
    name of the session it freed.  Called with any option, the program looks for the
    message behind its arguments and no call is made. *)
Theorem atell_tells user partner text x0 x1 x2 x r1 r2 r3 cls who opens timestamp garbage apart fuel :
  let version := MkReceived (version_reply ATELL_MAJOR ATELL_MINOR) CM_COMPLETE_DATA_RECEIVED CM_SEND_RECEIVED CM_OK in
  no_nul text -> is_bytes text -> text <> [] -> (length text + 1 < MAX_MESSAGE_LEN)%nat ->
  no_nul user -> is_bytes user -> user <> [] -> 64 ∉ user -> (length user < MAX_DEST_USERID)%nat ->
  cpic_session_new false = Some x0 -> server_names x0 = Ret r1 x1 -> cpic_session_set_userid user x1 = Ret r2 x2 -> partner_set partner x2 = Ret r3 x ->
  cpic_session_init x (MkScript [version] []) = Ret CM_OK (MkScript [version] cls) -> (3 <= fuel)%nat ->
  main [] 1 [user ++ 64 :: partner; text] (MkScript [version] []) =
    Undef (MkScript [] (cls ++ [Cmssl CM_CONFIRM; Cmallc; Cmsptr CM_PREP_TO_RECEIVE_FLUSH; Cmsst CM_BUFFER_DATA;
      Cmsend (version_request ATELL_MAJOR ATELL_MINOR); Cmrcv EXCHANGE_BUFFER_SIZE;
      Cmsend (text ++ [0]); Cmsend user; Cmsdt CM_DEALLOCATE_SYNC_LEVEL; Cmdeal])) /\
  atelld_main who opens timestamp garbage fuel
    (MkAtelld (MkScript (MkReceived (version_request ATELL_MAJOR ATELL_MINOR) CM_COMPLETE_DATA_RECEIVED CM_SEND_RECEIVED CM_OK ::
      texts_arrive apart (text ++ [0]) user) []) []) =
    Ret EXIT_SUCCESS (MkAtelld
      (MkScript [] ([Cmaccp; Cmsptr CM_PREP_TO_RECEIVE_FLUSH; Cmsst CM_BUFFER_DATA; Cmrcv EXCHANGE_BUFFER_SIZE;
        Cmsend (version_reply ATELL_MAJOR ATELL_MINOR); Cmptr; Cmepln] ++ replicate (if apart then 3 else 2) (Cmrcv (Z.of_nat MAX_MESSAGE_LEN)) ++ [Cmcfmd]))
      [(screen_of who opens user, shown_text (str "NET.LUA") user timestamp text)]) /\
  (forall options optind address, (2 <= optind)%nat ->
    match main options optind [address; text] (MkScript [version] []) with
    | Ret _ _ => False
    | Exit _ k | Abort k | Undef k | NoFuel k => k = MkScript [version] []
    end).
Proof.
  intros version Hn Hb Hne Hl Hun Hub Hune Ha Hul Hnew Hnames Hu Hp Hinit Hf. split_and!.
  - unfold main. rewrite Hnew. rewrite (M_bind_Ret (on_session server_names) _ _ r1 (MkSettings (replicate MAX_MESSAGE_LEN 0) 0 [] x1))
      by (unfold on_session, zoom; cbn [atellsession]; by rewrite Hnames).
    rewrite (address_read user partner text x1 x2 x r2 r3) by (done || (unfold MAX_MESSAGE_LEN in *; lia)).
    by rewrite (M_bind_Ret _ _ _ _ _ (tell_sends (MkSettings (message_array text) (Z.of_nat (length text) + 1) user x) text user cls eq_refl eq_refl Hl eq_refl Hune Hinit)).
  - unfold atelld_main, receive_message. rewrite !M_bind_assoc. call_ok. rewrite M_bind_assoc.
    destruct (get_client_version_script ATELL_MAJOR ATELL_MINOR ATELL_MAJOR ATELL_MINOR garbage CM_COMPLETE_DATA_RECEIVED (texts_arrive apart (text ++ [0]) user) [Cmaccp])
      as (v & Ev & _). rewrite (M_bind_Ret _ _ _ _ _ (atelld_call_Ret _ _ _ _ _ Ev)). rewrite M_bind_assoc. call_step.
    rewrite decide_False by (intros Hx; by apply Hx). rewrite M_bind_assoc, decide_False by (vm_compute; lia). rewrite M_ret_bind, M_bind_assoc.
    rewrite (M_bind_Ret _ _ _ _ _ (texts_shown who opens timestamp fuel (str "NET.LUA") text user apart _ [] Hn Hb Hne Hl Hun Hub Hune Hul Hf)).
    rewrite M_bind_assoc. call_ok. rewrite M_ret_bind. unfold mret, M_ret, answers_version. join_calls. done.
  - intros options optind address Ho. unfold main. rewrite Hnew. pose proof (option_loses options optind address text (MkSettings (replicate MAX_MESSAGE_LEN 0) 0 [] x1) Ho) as Hx.
    rewrite (M_bind_Ret (on_session server_names) _ _ r1 (MkSettings (replicate MAX_MESSAGE_LEN 0) 0 [] x1)) by (unfold on_session, zoom; cbn [atellsession]; by rewrite Hnames).
    by destruct (process_arguments _ _ _ _).
Qed.

Definition demo_who : list (list Z * list Z) := [(str "root", str "tty1"); (str "jay", str "pts/3"); (str "jay", str "pts/4")].

Lemma atell_tells_witness :
  let version := MkReceived (version_reply ATELL_MAJOR ATELL_MINOR) CM_COMPLETE_DATA_RECEIVED CM_SEND_RECEIVED CM_OK in
  main [] 1 [str "jay@net.lu1"; str "hello"] (MkScript [version] []) =
    Undef (MkScript [] [Cminit (replicate 8 32); Cmspln (str "NET.LU1"); Cmstpn (str "ATELLD"); Cmsmn (str "#INTER");
      Cmssl CM_CONFIRM; Cmallc; Cmsptr CM_PREP_TO_RECEIVE_FLUSH; Cmsst CM_BUFFER_DATA; Cmsend (version_request ATELL_MAJOR ATELL_MINOR); Cmrcv EXCHANGE_BUFFER_SIZE;
      Cmsend (str "hello" ++ [0]); Cmsend (str "jay"); Cmsdt CM_DEALLOCATE_SYNC_LEVEL; Cmdeal]) /\
  atelld_main (Some demo_who) (fun _ => true) (str "Sat Jul 13 11:56:13 2002") 0 3
    (MkAtelld (MkScript (MkReceived (version_request ATELL_MAJOR ATELL_MINOR) CM_COMPLETE_DATA_RECEIVED CM_SEND_RECEIVED CM_OK ::
      texts_arrive true (str "hello" ++ [0]) (str "jay")) []) []) =
    Ret EXIT_SUCCESS (MkAtelld (MkScript [] [Cmaccp; Cmsptr CM_PREP_TO_RECEIVE_FLUSH; Cmsst CM_BUFFER_DATA; Cmrcv EXCHANGE_BUFFER_SIZE;
        Cmsend (version_reply ATELL_MAJOR ATELL_MINOR); Cmptr; Cmepln; Cmrcv 301; Cmrcv 301; Cmrcv 301; Cmcfmd])
      [(Tty (str "/dev/pts/3"), shown_text (str "NET.LUA") (str "jay") (str "Sat Jul 13 11:56:13 2002") (str "hello"))]).
Proof.
  intros version. destruct (cpic_session_new false) as [x0|] eqn:E0; [|done].
  destruct (server_names x0) as [r1 x1|?|?|?|?] eqn:E1; [|exfalso; injection E0 as <-; vm_compute in E1; discriminate E1..].
  destruct (cpic_session_set_userid (str "jay") x1) as [r2 x2|?|?|?|?] eqn:E2;
    [|exfalso; injection E0 as <-; vm_compute in E1; injection E1 as <- <-; vm_compute in E2; discriminate E2..].
  destruct (partner_set (str "net.lu1") x2) as [r3 x|?|?|?|?] eqn:E3;
    [|exfalso; injection E0 as <-; vm_compute in E1; injection E1 as <- <-; vm_compute in E2; injection E2 as <- <-; vm_compute in E3; discriminate E3..].
  destruct (atell_tells (str "jay") (str "net.lu1") (str "hello") x0 x1 x2 x r1 r2 r3
    [Cminit (replicate 8 32); Cmspln (str "NET.LU1"); Cmstpn (str "ATELLD"); Cmsmn (str "#INTER")]
    (Some demo_who) (fun _ => true) (str "Sat Jul 13 11:56:13 2002") 0 true 3) as (E & F & _).
  - apply (bool_decide_unpack _). by vm_compute.
  - apply (bool_decide_unpack _). by vm_compute.
  - done.
  - vm_compute. lia.
  - apply (bool_decide_unpack _). by vm_compute.
  - apply (bool_decide_unpack _). by vm_compute.
  - done.
  - apply (bool_decide_unpack _). by vm_compute.
  - vm_compute. lia.
  - exact E0.
  - exact E1.
  - exact E2.
  - exact E3.
  - injection E0 as <-. vm_compute in E1. injection E1 as <- <-. vm_compute in E2. injection E2 as <- <-. vm_compute in E3. injection E3 as <- <-. vm_compute. reflexivity.
  - lia.
  - split; [exact E|exact F].
Defined.
