(* ===== verification/Libcpic.v ===== *)
(** * libsna/libcpic.c: the calls of CPI-C

    The seventy-four functions of the library.  Each packs the pointers it is given into a
    block, makes one system call and frees the block.  The other side of the call, the
    dispatcher that patch-o-matic/net-fun.patch adds to the kernel ([sys_cpicall] and
    [sna_cpic_cpicall]), is modelled too, so that the theorem says which function of the
    kernel a function of the library reaches, and with what; those functions themselves
    are a parameter.  Pointers are numbers, and zero is [NULL]; a block of nine pointers
    has fields that were never assigned. *)
From stdpp Require Import strings.
From S2P Require Import Prelude.

(** ** The numbers of the calls *)

Definition CM_CMACCI := 1.
Definition CM_CMACCP := 2.
Definition CM_CMALLC := 3.
Definition CM_CMCANC := 4.
Definition CM_CMCFM := 5.
Definition CM_CMCFMD := 6.
Definition CM_CMCNVI := 7.
Definition CM_CMCNVO := 8.
Definition CM_CMDEAL := 9.
Definition CM_CMDFDE := 10.
Definition CM_CMEACN := 11.
Definition CM_CMEAEQ := 12.
Definition CM_CMEAPT := 13.
Definition CM_CMECS := 14.
Definition CM_CMECT := 15.
Definition CM_CMECTX := 16.
Definition CM_CMEID := 17.
Definition CM_CMEMBS := 18.
Definition CM_CMEMN := 19.
Definition CM_CMEPID := 20.
Definition CM_CMEPLN := 21.
Definition CM_CMESI := 22.
Definition CM_CMESL := 23.
Definition CM_CMESRM := 24.
Definition CM_CMESUI := 25.
Definition CM_CMETC := 26.
Definition CM_CMETPN := 27.
Definition CM_CMFLUS := 28.
Definition CM_CMINCL := 29.
Definition CM_CMINIC := 30.
Definition CM_CMINIT := 31.
Definition CM_CMPREP := 32.
Definition CM_CMPTR := 33.
Definition CM_CMRCV := 34.
Definition CM_CMRCVX := 35.
Definition CM_CMRLTP := 36.
Definition CM_CMRTS := 37.
Definition CM_CMSAC := 38.
Definition CM_CMSACN := 39.
Definition CM_CMSAEQ := 40.
Definition CM_CMSAPT := 41.
Definition CM_CMSBT := 42.
Definition CM_CMSCSP := 43.
Definition CM_CMSCST := 44.
Definition CM_CMSCSU := 45.
Definition CM_CMSCT := 46.
Definition CM_CMSCU := 47.
Definition CM_CMSDT := 48.
Definition CM_CMSED := 49.
Definition CM_CMSEND := 50.
Definition CM_CMSERR := 51.
Definition CM_CMSF := 52.
Definition CM_CMSID := 53.
Definition CM_CMSLD := 54.
Definition CM_CMSLTP := 55.
Definition CM_CMSMN := 56.
Definition CM_CMSNDX := 57.
Definition CM_CMSPDP := 58.
Definition CM_CMSPID := 59.
Definition CM_CMSPLN := 60.
Definition CM_CMSPM := 61.
Definition CM_CMSPTR := 62.
Definition CM_CMSQCF := 63.
Definition CM_CMSQPM := 64.
Definition CM_CMSRC := 65.
Definition CM_CMSRT := 66.
Definition CM_CMSSL := 67.
Definition CM_CMSSRM := 68.
Definition CM_CMSST := 69.
Definition CM_CMSTC := 70.
Definition CM_CMSTPN := 71.
Definition CM_CMTRTS := 72.
Definition CM_CMWAIT := 73.
Definition CM_CMWCMP := 74.

Definition CM_OK := 0.
Definition CM_PRODUCT_SPECIFIC_ERROR := 20.
Definition CM_PROGRAM_PARAMETER_CHECK := 24.

(** ** The system call *)

Definition cpic_args : Type := list (option Z).

(** The number of the fields of the structure. *)
Definition cpic_args_fields : nat := 9.

(** What a function of the kernel works on: the conversation of a file, the place where
    the number of a new one is to be stored, or neither. *)
Inductive subject : Type := Cpic (cpic : Z) | Conversation_id (conversation_id : Z) | NoSubject.

(** The kernel: whether the SNA module is there; whether [kmalloc] succeeds; the number of
    the file at an address of the program; the conversation of a file, if it is one, which
    is then in use until it is put back; and the functions, by their names. *)
Class CpicKernel (K : Type) : Type := {
  registered : K -> bool;
  room : K -> bool;
  get_index_from_user : Z -> K -> Z;
  cpic_lookup_fd : Z -> K -> option Z * K;
  cpic_put_fd : Z -> K -> K;
  operation : string -> subject -> list (option Z) -> K -> Z * K
}.

(** The allocator of the program. *)
Class Malloc : Type := malloc : gmap Z cpic_args -> option Z.
Class MallocLaws `{Malloc} : Prop := malloc_fresh : forall h p, malloc h = Some p -> h !! p = None /\ p <> 0.

(** The blocks of the program, its variables that take return codes, the blocks the
    kernel has allocated for arguments, and all else. *)
Record machine (K : Type) : Type := MkMachine { heap : gmap Z cpic_args; codes : gmap Z Z; blocks : nat; kern : K }.
Arguments MkMachine {K} heap codes blocks kern.
Arguments heap {K} _.
Arguments codes {K} _.
Arguments blocks {K} _.
Arguments kern {K} _.

Definition on_heap {K} (f : gmap Z cpic_args -> gmap Z cpic_args) : M (machine K) unit :=
  modify (fun s => MkMachine (f (heap s)) (codes s) (blocks s) (kern s)).

(** A case of the switch: it gives the function the conversation, and puts it back or
    not, or the pointer, or neither; the last drops the result. *)
Inductive gives : Type := Conversation (put : bool) | User | Alone | Dropped.

(** The cases, with the number of the arguments that are passed on. *)
Definition cases : list (Z * (string * gives * nat)) := [
  (CM_CMACCI, ("sna_cpic_cmacci", Conversation true, 0%nat)); (CM_CMACCP, ("sna_cpic_cmaccp", User, 1%nat));
  (CM_CMALLC, ("sna_cpic_cmallc", Conversation true, 0%nat)); (CM_CMCANC, ("sna_cpic_cmcanc", Conversation true, 0%nat));
  (CM_CMCFM, ("sna_cpic_cmcfm", Conversation true, 1%nat)); (CM_CMCFMD, ("sna_cpic_cmcfmd", Conversation true, 0%nat));
  (CM_CMCNVI, ("sna_cpic_cmcnvi", Alone, 2%nat)); (CM_CMCNVO, ("sna_cpic_cmcnvo", Alone, 2%nat));
  (CM_CMDEAL, ("sna_cpic_cmdeal", Conversation false, 0%nat)); (CM_CMDFDE, ("sna_cpic_cmdfde", Conversation true, 0%nat));
  (CM_CMEACN, ("sna_cpic_cmeacn", Conversation true, 2%nat)); (CM_CMEAEQ, ("sna_cpic_cmeaeq", Conversation true, 3%nat));
  (CM_CMEAPT, ("sna_cpic_cmeapt", Conversation true, 3%nat)); (CM_CMECS, ("sna_cpic_cmecs", Conversation true, 1%nat));
  (CM_CMECT, ("sna_cpic_cmect", Conversation true, 1%nat)); (CM_CMECTX, ("sna_cpic_cmectx", Conversation true, 2%nat));
  (CM_CMEID, ("sna_cpic_cmeid", Conversation true, 3%nat)); (CM_CMEMBS, ("sna_cpic_cmembs", Alone, 1%nat));
  (CM_CMEMN, ("sna_cpic_cmemn", Conversation true, 2%nat)); (CM_CMEPID, ("sna_cpic_cmepid", Conversation true, 7%nat));
  (CM_CMEPLN, ("sna_cpic_cmepln", Conversation true, 2%nat)); (CM_CMESI, ("sna_cpic_cmesi", Conversation true, 4%nat));
  (CM_CMESL, ("sna_cpic_cmesl", Conversation true, 1%nat)); (CM_CMESRM, ("sna_cpic_cmesrm", Conversation true, 1%nat));
  (CM_CMESUI, ("sna_cpic_cmesui", Conversation true, 2%nat)); (CM_CMETC, ("sna_cpic_cmetc", Conversation true, 1%nat));
  (CM_CMETPN, ("sna_cpic_cmetpn", Conversation true, 2%nat)); (CM_CMFLUS, ("sna_cpic_cmflus", Conversation true, 0%nat));
  (CM_CMINCL, ("sna_cpic_cmincl", Conversation true, 0%nat)); (CM_CMINIC, ("sna_cpic_cminic", Conversation true, 0%nat));
  (CM_CMINIT, ("sna_cpic_cminit", User, 1%nat)); (CM_CMPREP, ("sna_cpic_cmprep", Conversation true, 0%nat));
  (CM_CMPTR, ("sna_cpic_cmptr", Conversation true, 0%nat)); (CM_CMRCV, ("sna_cpic_cmrcv", Conversation true, 6%nat));
  (CM_CMRCVX, ("sna_cpic_cmrcvx", Conversation true, 5%nat)); (CM_CMRLTP, ("sna_cpic_cmrltp", Alone, 2%nat));
  (CM_CMRTS, ("sna_cpic_cmrts", Conversation true, 0%nat)); (CM_CMSAC, ("sna_cpic_cmsac", Conversation true, 1%nat));
  (CM_CMSACN, ("sna_cpic_cmsacn", Conversation true, 2%nat)); (CM_CMSAEQ, ("sna_cpic_cmsaeq", Conversation true, 3%nat));
  (CM_CMSAPT, ("sna_cpic_cmsapt", Conversation true, 3%nat)); (CM_CMSBT, ("sna_cpic_cmsbt", Conversation true, 1%nat));
  (CM_CMSCSP, ("sna_cpic_cmscsp", Conversation true, 2%nat)); (CM_CMSCST, ("sna_cpic_cmscst", Conversation true, 1%nat));
  (CM_CMSCSU, ("sna_cpic_cmscsu", Conversation true, 2%nat)); (CM_CMSCT, ("sna_cpic_cmsct", Conversation true, 1%nat));
  (CM_CMSCU, ("sna_cpic_cmscu", Conversation true, 1%nat)); (CM_CMSDT, ("sna_cpic_cmsdt", Conversation true, 1%nat));
  (CM_CMSED, ("sna_cpic_cmsed", Conversation true, 1%nat)); (CM_CMSEND, ("sna_cpic_cmsend", Conversation true, 3%nat));
  (CM_CMSERR, ("sna_cpic_cmserr", Conversation true, 1%nat)); (CM_CMSF, ("sna_cpic_cmsf", Conversation true, 1%nat));
  (CM_CMSID, ("sna_cpic_cmsid", Conversation true, 2%nat)); (CM_CMSLD, ("sna_cpic_cmsld", Conversation true, 2%nat));
  (CM_CMSLTP, ("sna_cpic_cmsltp", Alone, 2%nat)); (CM_CMSMN, ("sna_cpic_cmsmn", Conversation true, 2%nat));
  (CM_CMSNDX, ("sna_cpic_cmsndx", Conversation true, 3%nat)); (CM_CMSPDP, ("sna_cpic_cmspdp", Conversation true, 1%nat));
  (CM_CMSPID, ("sna_cpic_cmspid", Conversation true, 6%nat)); (CM_CMSPLN, ("sna_cpic_cmspln", Conversation true, 2%nat));
  (CM_CMSPM, ("sna_cpic_cmspm", Conversation true, 1%nat)); (CM_CMSPTR, ("sna_cpic_cmsptr", Conversation true, 1%nat));
  (CM_CMSQCF, ("sna_cpic_cmsqcf", Conversation true, 4%nat)); (CM_CMSQPM, ("sna_cpic_cmsqpm", Conversation true, 4%nat));
  (CM_CMSRC, ("sna_cpic_cmsrc", Conversation true, 1%nat)); (CM_CMSRT, ("sna_cpic_cmsrt", Conversation true, 1%nat));
  (CM_CMSSL, ("sna_cpic_cmssl", Conversation true, 1%nat)); (CM_CMSSRM, ("sna_cpic_cmssrm", Conversation true, 1%nat));
  (CM_CMSST, ("sna_cpic_cmsst", Conversation true, 1%nat)); (CM_CMSTC, ("sna_cpic_cmstc", Conversation true, 1%nat));
  (CM_CMSTPN, ("sna_cpic_cmstpn", Conversation true, 2%nat)); (CM_CMTRTS, ("sna_cpic_cmtrts", Conversation true, 1%nat));
  (CM_CMWAIT, ("sna_cpic_cmwait", Conversation true, 1%nat)); (CM_CMWCMP, ("sna_cpic_cmwcmp", Dropped, 0%nat))].

(** The calls that may come without arguments, and those that have no conversation yet. *)
Definition without_args : list Z := [
  CM_CMACCI; CM_CMALLC; CM_CMCANC; CM_CMCFMD; CM_CMDEAL; CM_CMDFDE; CM_CMFLUS; CM_CMINCL; CM_CMINIC; CM_CMPREP; CM_CMPTR; CM_CMRTS].

Definition without_cpic : list Z := [
  CM_CMINIT; CM_CMCNVI; CM_CMCNVO; CM_CMEMBS; CM_CMRLTP; CM_CMSLTP; CM_CMWCMP; CM_CMACCP].

(** The case of a number. *)
Definition case (opcode : Z) : option (string * gives * nat) :=
  match list_find (fun c => c.1 = opcode) cases with Some (_, (_, c)) => Some c | None => None end.

Section Kernel.
Context {K : Type} `{CpicKernel K}.

Definition on_kern {A} (f : K -> A * K) : M (machine K) A := fun s =>
  let '(a, k) := f (kern s) in Ret a (MkMachine (heap s) (codes s) (blocks s) k).

(** A copy to an address that is none of the program's is lost. *)
Definition sna_cpic_error (return_code rc : Z) : M (machine K) unit :=
  modify (fun s => MkMachine (heap s) (alter (fun _ => rc) return_code (codes s)) (blocks s) (kern s)).

(** The arguments, if there are any; [None] if they cannot be copied.  The kernel's block
    is not freed. *)
Definition copy_args (uaddr : Z) : M (machine K) (option (option cpic_args)) :=
  if decide (uaddr = 0) then mret (Some None) else
  s ← get_st;
  if negb (room (kern s)) then mret None else
  put_st (MkMachine (heap s) (codes s) (S (blocks s)) (kern s));;
  mret (Some <$> heap s !! uaddr).

(** The conversation; [None] if there is none. *)
Definition find_cpic (conversation_id : Z) : M (machine K) (option Z) :=
  s ← get_st;
  let cv_index := get_index_from_user conversation_id (kern s) in
  if decide (cv_index = 0) then mret None else on_kern (cpic_lookup_fd cv_index).

(** The case that is taken.  A conversation that is missing, or arguments, would be
    looked at through a null pointer. *)
Definition process (opcode conversation_id : Z) (cpic : option Z) (args : option cpic_args) : M (machine K) Z :=
  match case opcode with
  | None => mret CM_PROGRAM_PARAMETER_CHECK
  | Some (name, how, n) =>
      a ← (if decide (n = O) then mret [] else args ← of_opt args; mret (take n args));
      match how with
      | Conversation put =>
          cpic ← of_opt cpic;
          rc ← on_kern (operation name (Cpic cpic) a);
          (if put : bool then on_kern (fun k => (tt, cpic_put_fd cpic k)) else mret tt);;
          mret rc
      | User => on_kern (operation name (Conversation_id conversation_id) a)
      | Alone => on_kern (operation name NoSubject a)
      | Dropped => on_kern (operation name NoSubject a);; mret CM_PROGRAM_PARAMETER_CHECK
      end
  end.

Definition sna_cpic_cpicall (conversation_id opcode uaddr return_code : Z) : M (machine K) unit :=
  args ← copy_args uaddr;
  rc ← match args with
       | None => mret CM_PRODUCT_SPECIFIC_ERROR
       | Some args =>
           if decide (opcode ∉ without_args /\ args = None) then mret CM_PROGRAM_PARAMETER_CHECK else
           if decide (opcode ∈ without_cpic) then process opcode conversation_id None args else
           cpic ← find_cpic conversation_id;
           match cpic with
           | None => mret CM_PROGRAM_PARAMETER_CHECK
           | Some _ => process opcode conversation_id cpic args
           end
       end;
  sna_cpic_error return_code rc.

(** Without the module the code is written to the arguments. *)
Definition sys_cpicall (conversation_id opcode uaddr return_code : Z) : M (machine K) unit :=
  s ← get_st;
  if registered (kern s) then sna_cpic_cpicall conversation_id (opcode mod 2 ^ 16) uaddr return_code
  else on_heap (alter (<[O := Some CM_PRODUCT_SPECIFIC_ERROR]>) uaddr).
End Kernel.

(** ** The library *)

Section Library.
Context {K : Type} `{CpicKernel K, Malloc}.

(** [cargo1] to [cargo7]: the result of [malloc] is not looked at. *)
Definition cargo (vs : list Z) : M (machine K) Z :=
  s ← get_st;
  a ← of_opt (malloc (heap s));
  on_heap (<[a := (Some <$> vs) ++ replicate (cpic_args_fields - length vs) None]>);;
  mret a.

Definition free (a : Z) : M (machine K) unit :=
  s ← get_st;
  of_opt (heap s !! a);;
  on_heap (delete a).

Definition syscall (conversation_id opcode args return_code : Z) : M (machine K) unit := sys_cpicall conversation_id opcode args return_code.

Definition cmacci (conversation_id return_code : Z) : M (machine K) unit :=
  syscall conversation_id CM_CMACCI 0 return_code.

(** [pid] is the address of a variable with the number of the process. *)
Definition cmaccp (pid conversation_id return_code : Z) : M (machine K) unit :=
  args ← cargo [pid];
  syscall conversation_id CM_CMACCP args return_code;;
  free args.

Definition cmallc (conversation_id return_code : Z) : M (machine K) unit :=
  syscall conversation_id CM_CMALLC 0 return_code.

Definition cmcanc (conversation_id return_code : Z) : M (machine K) unit :=
  syscall conversation_id CM_CMCANC 0 return_code.

Definition cmcfm (conversation_id control_information_received return_code : Z) : M (machine K) unit :=
  args ← cargo [control_information_received];
  syscall conversation_id CM_CMCFM args return_code;;
  free args.

Definition cmcfmd (conversation_id return_code : Z) : M (machine K) unit :=
  syscall conversation_id CM_CMCFMD 0 return_code.

Definition cmcnvi (buffer buffer_length return_code : Z) : M (machine K) unit :=
  args ← cargo [buffer; buffer_length];
  syscall 0 CM_CMCNVI args return_code;;
  free args.

Definition cmcnvo (buffer buffer_length return_code : Z) : M (machine K) unit :=
  args ← cargo [buffer; buffer_length];
  syscall 0 CM_CMCNVO args return_code;;
  free args.

Definition cmdeal (conversation_id return_code : Z) : M (machine K) unit :=
  syscall conversation_id CM_CMDEAL 0 return_code.

Definition cmdfde (conversation_id return_code : Z) : M (machine K) unit :=
  syscall conversation_id CM_CMDFDE 0 return_code.

Definition cmeaeq (conversation_id ae_qualifier ae_qualifier_length ap_title_format return_code : Z) : M (machine K) unit :=
  args ← cargo [ae_qualifier; ae_qualifier_length; ap_title_format];
  syscall conversation_id CM_CMEAEQ args return_code;;
  free args.

Definition cmeapt (conversation_id ap_title ap_title_length ap_title_format return_code : Z) : M (machine K) unit :=
  args ← cargo [ap_title; ap_title_length; ap_title_format];
  syscall conversation_id CM_CMEAPT args return_code;;
  free args.

Definition cmeacn (conversation_id application_context_name appl_context_name_length return_code : Z) : M (machine K) unit :=
  args ← cargo [application_context_name; appl_context_name_length];
  syscall conversation_id CM_CMEACN args return_code;;
  free args.

Definition cmecs (conversation_id conversation_state return_code : Z) : M (machine K) unit :=
  args ← cargo [conversation_state];
  syscall conversation_id CM_CMECS args return_code;;
  free args.

Definition cmect (conversation_id conversation_type return_code : Z) : M (machine K) unit :=
  args ← cargo [conversation_type];
  syscall conversation_id CM_CMECT args return_code;;
  free args.

Definition cmectx (conversation_id context_id context_id_length return_code : Z) : M (machine K) unit :=
  args ← cargo [context_id; context_id_length];
  syscall conversation_id CM_CMECTX args return_code;;
  free args.

Definition cmeid (conversation_id initialization_data requested_length initialization_data_length return_code : Z) : M (machine K) unit :=
  args ← cargo [initialization_data; requested_length; initialization_data_length];
  syscall conversation_id CM_CMEID args return_code;;
  free args.

Definition cmembs (maximum_buffer_size return_code : Z) : M (machine K) unit :=
  args ← cargo [maximum_buffer_size];
  syscall 0 CM_CMEMBS args return_code;;
  free args.

Definition cmemn (conversation_id mode_name mode_name_length return_code : Z) : M (machine K) unit :=
  args ← cargo [mode_name; mode_name_length];
  syscall conversation_id CM_CMEMN args return_code;;
  free args.

Definition cmepid (conversation_id partner_id_type partner_id requested_length partner_id_length partner_id_scope directory_syntax directory_encoding return_code : Z) : M (machine K) unit :=
  args ← cargo [partner_id_type; partner_id; requested_length; partner_id_length; partner_id_scope; directory_syntax; directory_encoding];
  syscall conversation_id CM_CMEPID args return_code;;
  free args.

Definition cmepln (conversation_id partner_lu_name partner_lu_name_length return_code : Z) : M (machine K) unit :=
  args ← cargo [partner_lu_name; partner_lu_name_length];
  syscall conversation_id CM_CMEPLN args return_code;;
  free args.

Definition cmesi (conversation_id call_id buffer requested_length data_received return_code : Z) : M (machine K) unit :=
  args ← cargo [call_id; buffer; requested_length; data_received];
  syscall conversation_id CM_CMESI args return_code;;
  free args.

Definition cmesl (conversation_id sync_level return_code : Z) : M (machine K) unit :=
  args ← cargo [sync_level];
  syscall conversation_id CM_CMESL args return_code;;
  free args.

Definition cmesrm (conversation_id send_receive_mode return_code : Z) : M (machine K) unit :=
  args ← cargo [send_receive_mode];
  syscall conversation_id CM_CMESRM args return_code;;
  free args.

Definition cmesui (conversation_id user_id user_id_length return_code : Z) : M (machine K) unit :=
  args ← cargo [user_id; user_id_length];
  syscall conversation_id CM_CMESUI args return_code;;
  free args.

Definition cmetc (conversation_id transaction_control return_code : Z) : M (machine K) unit :=
  args ← cargo [transaction_control];
  syscall conversation_id CM_CMETC args return_code;;
  free args.

Definition cmetpn (conversation_id tp_name tp_name_length return_code : Z) : M (machine K) unit :=
  args ← cargo [tp_name; tp_name_length];
  syscall conversation_id CM_CMETPN args return_code;;
  free args.

Definition cmflus (conversation_id return_code : Z) : M (machine K) unit :=
  syscall conversation_id CM_CMFLUS 0 return_code.

Definition cmincl (conversation_id return_code : Z) : M (machine K) unit :=
  syscall conversation_id CM_CMINCL 0 return_code.

Definition cminic (conversation_id return_code : Z) : M (machine K) unit :=
  syscall conversation_id CM_CMINIC 0 return_code.

Definition cminit (conversation_id sym_dest_name return_code : Z) : M (machine K) unit :=
  args ← cargo [sym_dest_name];
  syscall conversation_id CM_CMINIT args return_code;;
  free args.

Definition cmprep (conversation_id return_code : Z) : M (machine K) unit :=
  syscall conversation_id CM_CMPREP 0 return_code.

Definition cmptr (conversation_id return_code : Z) : M (machine K) unit :=
  syscall conversation_id CM_CMPTR 0 return_code.

Definition cmrcv (conversation_id buffer requested_length data_received received_length status_received control_information_received return_code : Z) : M (machine K) unit :=
  args ← cargo [buffer; requested_length; data_received; received_length; status_received; control_information_received];
  syscall conversation_id CM_CMRCV args return_code;;
  free args.

Definition cmrcvx (conversation_id buffer requested_length received_length control_information_received expedited_receive_type return_code : Z) : M (machine K) unit :=
  args ← cargo [buffer; requested_length; received_length; control_information_received; expedited_receive_type];
  syscall conversation_id CM_CMRCVX args return_code;;
  free args.

Definition cmrltp (tp_name tp_name_length return_code : Z) : M (machine K) unit :=
  args ← cargo [tp_name; tp_name_length];
  syscall 0 CM_CMRLTP args return_code;;
  free args.

Definition cmrts (conversation_id return_code : Z) : M (machine K) unit :=
  syscall conversation_id CM_CMRTS 0 return_code.

Definition cmsaeq (conversation_id ae_qualifier ae_qualifier_length ap_title_format return_code : Z) : M (machine K) unit :=
  args ← cargo [ae_qualifier; ae_qualifier_length; ap_title_format];
  syscall conversation_id CM_CMSAEQ args return_code;;
  free args.

Definition cmsac (conversation_id allocate_confirm return_code : Z) : M (machine K) unit :=
  args ← cargo [allocate_confirm];
  syscall conversation_id CM_CMSAC args return_code;;
  free args.

Definition cmsacn (conversation_id application_context_name appl_context_name_length return_code : Z) : M (machine K) unit :=
  args ← cargo [application_context_name; appl_context_name_length];
  syscall conversation_id CM_CMSACN args return_code;;
  free args.

Definition cmsapt (conversation_id ap_title ap_title_length ap_title_format return_code : Z) : M (machine K) unit :=
  args ← cargo [ap_title; ap_title_length; ap_title_format];
  syscall conversation_id CM_CMSAPT args return_code;;
  free args.

Definition cmsbt (conversation_id begin_transaction return_code : Z) : M (machine K) unit :=
  args ← cargo [begin_transaction];
  syscall conversation_id CM_CMSBT args return_code;;
  free args.

Definition cmscsp (conversation_id password password_length return_code : Z) : M (machine K) unit :=
  args ← cargo [password; password_length];
  syscall conversation_id CM_CMSCSP args return_code;;
  free args.

Definition cmscst (conversation_id conv_security_type return_code : Z) : M (machine K) unit :=
  args ← cargo [conv_security_type];
  syscall conversation_id CM_CMSCST args return_code;;
  free args.

Definition cmscsu (conversation_id user_id user_id_length return_code : Z) : M (machine K) unit :=
  args ← cargo [user_id; user_id_length];
  syscall conversation_id CM_CMSCSU args return_code;;
  free args.

Definition cmsct (conversation_id conversation_type return_code : Z) : M (machine K) unit :=
  args ← cargo [conversation_type];
  syscall conversation_id CM_CMSCT args return_code;;
  free args.

Definition cmscu (conversation_id confirmation_urgency return_code : Z) : M (machine K) unit :=
  args ← cargo [confirmation_urgency];
  syscall conversation_id CM_CMSCU args return_code;;
  free args.

Definition cmsdt (conversation_id deallocate_type return_code : Z) : M (machine K) unit :=
  args ← cargo [deallocate_type];
  syscall conversation_id CM_CMSDT args return_code;;
  free args.

Definition cmsed (conversation_id error_direction return_code : Z) : M (machine K) unit :=
  args ← cargo [error_direction];
  syscall conversation_id CM_CMSED args return_code;;
  free args.

Definition cmsend (conversation_id buffer send_length control_information_received return_code : Z) : M (machine K) unit :=
  args ← cargo [buffer; send_length; control_information_received];
  syscall conversation_id CM_CMSEND args return_code;;
  free args.

Definition cmserr (conversation_id control_information_received return_code : Z) : M (machine K) unit :=
  args ← cargo [control_information_received];
  syscall conversation_id CM_CMSERR args return_code;;
  free args.

Definition cmsf (conversation_id fill return_code : Z) : M (machine K) unit :=
  args ← cargo [fill];
  syscall conversation_id CM_CMSF args return_code;;
  free args.

Definition cmsid (conversation_id initialization_data init_data_length return_code : Z) : M (machine K) unit :=
  args ← cargo [initialization_data; init_data_length];
  syscall conversation_id CM_CMSID args return_code;;
  free args.

Definition cmsld (conversation_id log_data log_data_length return_code : Z) : M (machine K) unit :=
  args ← cargo [log_data; log_data_length];
  syscall conversation_id CM_CMSLD args return_code;;
  free args.

Definition cmsltp (tp_name tp_name_length return_code : Z) : M (machine K) unit :=
  args ← cargo [tp_name; tp_name_length];
  syscall 0 CM_CMSLTP args return_code;;
  free args.

Definition cmsmn (conversation_id mode_name mode_name_length return_code : Z) : M (machine K) unit :=
  args ← cargo [mode_name; mode_name_length];
  syscall conversation_id CM_CMSMN args return_code;;
  free args.

Definition cmsndx (conversation_id buffer send_length control_information_received return_code : Z) : M (machine K) unit :=
  args ← cargo [buffer; send_length; control_information_received];
  syscall conversation_id CM_CMSNDX args return_code;;
  free args.

Definition cmspdp (conversation_id prepare_data_permitted return_code : Z) : M (machine K) unit :=
  args ← cargo [prepare_data_permitted];
  syscall conversation_id CM_CMSPDP args return_code;;
  free args.

Definition cmspid (conversation_id partner_id_type partner_id partner_id_length partner_id_scope directory_syntax directory_encoding return_code : Z) : M (machine K) unit :=
  args ← cargo [partner_id_type; partner_id; partner_id_length; partner_id_scope; directory_syntax; directory_encoding];
  syscall conversation_id CM_CMSPID args return_code;;
  free args.

Definition cmspln (conversation_id partner_lu_name partner_lu_name_length return_code : Z) : M (machine K) unit :=
  args ← cargo [partner_lu_name; partner_lu_name_length];
  syscall conversation_id CM_CMSPLN args return_code;;
  free args.

Definition cmspm (conversation_id processing_mode return_code : Z) : M (machine K) unit :=
  args ← cargo [processing_mode];
  syscall conversation_id CM_CMSPM args return_code;;
  free args.

Definition cmsptr (conversation_id prepare_to_receive_type return_code : Z) : M (machine K) unit :=
  args ← cargo [prepare_to_receive_type];
  syscall conversation_id CM_CMSPTR args return_code;;
  free args.

Definition cmsqcf (conversation_id conversation_queue callback_function callback_info user_field return_code : Z) : M (machine K) unit :=
  args ← cargo [conversation_queue; callback_function; callback_info; user_field];
  syscall conversation_id CM_CMSQCF args return_code;;
  free args.

Definition cmsqpm (conversation_id conversation_queue queue_processing_mode user_field ooid return_code : Z) : M (machine K) unit :=
  args ← cargo [conversation_queue; queue_processing_mode; user_field; ooid];
  syscall conversation_id CM_CMSQPM args return_code;;
  free args.

Definition cmsrc (conversation_id return_control return_code : Z) : M (machine K) unit :=
  args ← cargo [return_control];
  syscall conversation_id CM_CMSRC args return_code;;
  free args.

Definition cmsrt (conversation_id receive_type return_code : Z) : M (machine K) unit :=
  args ← cargo [receive_type];
  syscall conversation_id CM_CMSRT args return_code;;
  free args.

Definition cmssl (conversation_id sync_level return_code : Z) : M (machine K) unit :=
  args ← cargo [sync_level];
  syscall conversation_id CM_CMSSL args return_code;;
  free args.

Definition cmssrm (conversation_id send_receive_mode return_code : Z) : M (machine K) unit :=
  args ← cargo [send_receive_mode];
  syscall conversation_id CM_CMSSRM args return_code;;
  free args.

Definition cmsst (conversation_id send_type return_code : Z) : M (machine K) unit :=
  args ← cargo [send_type];
  syscall conversation_id CM_CMSST args return_code;;
  free args.

Definition cmstc (conversation_id transaction_control return_code : Z) : M (machine K) unit :=
  args ← cargo [transaction_control];
  syscall conversation_id CM_CMSTC args return_code;;
  free args.

Definition cmstpn (conversation_id tp_name tp_name_length return_code : Z) : M (machine K) unit :=
  args ← cargo [tp_name; tp_name_length];
  syscall conversation_id CM_CMSTPN args return_code;;
  free args.

Definition cmtrts (conversation_id control_information_received return_code : Z) : M (machine K) unit :=
  args ← cargo [control_information_received];
  syscall conversation_id CM_CMTRTS args return_code;;
  free args.

Definition cmwait (conversation_id conversation_ret_code return_code : Z) : M (machine K) unit :=
  args ← cargo [conversation_ret_code];
  syscall conversation_id CM_CMWAIT args return_code;;
  free args.

Definition cmwcmp (ooid_list ooid_list_count timeout completed_op_index_list completed_op_count user_field_list return_code : Z) : M (machine K) unit :=
  args ← cargo [ooid_list; ooid_list_count; timeout; completed_op_index_list; completed_op_count; user_field_list];
  syscall 0 CM_CMWCMP args return_code;;
  free args.

End Library.

(** ** What the library promises

    A function by its name, with what it works on, the number of its other arguments and
    how it is called: the conversation, the arguments and where the code goes. *)
Inductive working_on : Type := OnConversation | OnUser | OnNothing.

Record verb (K : Type) : Type := MkVerb { name : string; works_on : working_on; arity : nat; call : Z -> list Z -> Z -> M (machine K) unit }.
Arguments MkVerb {K} name works_on arity call.
Arguments name {K} _.
Arguments works_on {K} _.
Arguments arity {K} _.
Arguments call {K} _ _ _ _.

Definition args1 {R} (f : Z -> R) (no : R) (l : list Z) : R := match l with [v1] => f v1 | _ => no end.
Definition args2 {R} (f : Z -> Z -> R) (no : R) (l : list Z) : R := match l with [v1; v2] => f v1 v2 | _ => no end.
Definition args3 {R} (f : Z -> Z -> Z -> R) (no : R) (l : list Z) : R := match l with [v1; v2; v3] => f v1 v2 v3 | _ => no end.
Definition args4 {R} (f : Z -> Z -> Z -> Z -> R) (no : R) (l : list Z) : R := match l with [v1; v2; v3; v4] => f v1 v2 v3 v4 | _ => no end.
Definition args5 {R} (f : Z -> Z -> Z -> Z -> Z -> R) (no : R) (l : list Z) : R := match l with [v1; v2; v3; v4; v5] => f v1 v2 v3 v4 v5 | _ => no end.
Definition args6 {R} (f : Z -> Z -> Z -> Z -> Z -> Z -> R) (no : R) (l : list Z) : R := match l with [v1; v2; v3; v4; v5; v6] => f v1 v2 v3 v4 v5 v6 | _ => no end.
Definition args7 {R} (f : Z -> Z -> Z -> Z -> Z -> Z -> Z -> R) (no : R) (l : list Z) : R := match l with [v1; v2; v3; v4; v5; v6; v7] => f v1 v2 v3 v4 v5 v6 v7 | _ => no end.

Section Verbs.
Context {K : Type} `{CpicKernel K, Malloc}.

Definition verbs : list (verb K) := [
  MkVerb "cmacci" OnConversation 0 (fun c _ r => cmacci c r);
  MkVerb "cmaccp" OnUser 1 (fun c l r => args1 (fun v1 => cmaccp v1 c r) undef l);
  MkVerb "cmallc" OnConversation 0 (fun c _ r => cmallc c r);
  MkVerb "cmcanc" OnConversation 0 (fun c _ r => cmcanc c r);
  MkVerb "cmcfm" OnConversation 1 (fun c l r => args1 (fun v1 => cmcfm c v1 r) undef l);
  MkVerb "cmcfmd" OnConversation 0 (fun c _ r => cmcfmd c r);
  MkVerb "cmcnvi" OnNothing 2 (fun c l r => args2 (fun v1 v2 => cmcnvi v1 v2 r) undef l);
  MkVerb "cmcnvo" OnNothing 2 (fun c l r => args2 (fun v1 v2 => cmcnvo v1 v2 r) undef l);
  MkVerb "cmdeal" OnConversation 0 (fun c _ r => cmdeal c r);
  MkVerb "cmdfde" OnConversation 0 (fun c _ r => cmdfde c r);
  MkVerb "cmeaeq" OnConversation 3 (fun c l r => args3 (fun v1 v2 v3 => cmeaeq c v1 v2 v3 r) undef l);
  MkVerb "cmeapt" OnConversation 3 (fun c l r => args3 (fun v1 v2 v3 => cmeapt c v1 v2 v3 r) undef l);
  MkVerb "cmeacn" OnConversation 2 (fun c l r => args2 (fun v1 v2 => cmeacn c v1 v2 r) undef l);
  MkVerb "cmecs" OnConversation 1 (fun c l r => args1 (fun v1 => cmecs c v1 r) undef l);
  MkVerb "cmect" OnConversation 1 (fun c l r => args1 (fun v1 => cmect c v1 r) undef l);
  MkVerb "cmectx" OnConversation 2 (fun c l r => args2 (fun v1 v2 => cmectx c v1 v2 r) undef l);
  MkVerb "cmeid" OnConversation 3 (fun c l r => args3 (fun v1 v2 v3 => cmeid c v1 v2 v3 r) undef l);
  MkVerb "cmembs" OnNothing 1 (fun c l r => args1 (fun v1 => cmembs v1 r) undef l);
  MkVerb "cmemn" OnConversation 2 (fun c l r => args2 (fun v1 v2 => cmemn c v1 v2 r) undef l);
  MkVerb "cmepid" OnConversation 7 (fun c l r => args7 (fun v1 v2 v3 v4 v5 v6 v7 => cmepid c v1 v2 v3 v4 v5 v6 v7 r) undef l);
  MkVerb "cmepln" OnConversation 2 (fun c l r => args2 (fun v1 v2 => cmepln c v1 v2 r) undef l);
  MkVerb "cmesi" OnConversation 4 (fun c l r => args4 (fun v1 v2 v3 v4 => cmesi c v1 v2 v3 v4 r) undef l);
  MkVerb "cmesl" OnConversation 1 (fun c l r => args1 (fun v1 => cmesl c v1 r) undef l);
  MkVerb "cmesrm" OnConversation 1 (fun c l r => args1 (fun v1 => cmesrm c v1 r) undef l);
  MkVerb "cmesui" OnConversation 2 (fun c l r => args2 (fun v1 v2 => cmesui c v1 v2 r) undef l);
  MkVerb "cmetc" OnConversation 1 (fun c l r => args1 (fun v1 => cmetc c v1 r) undef l);
  MkVerb "cmetpn" OnConversation 2 (fun c l r => args2 (fun v1 v2 => cmetpn c v1 v2 r) undef l);
  MkVerb "cmflus" OnConversation 0 (fun c _ r => cmflus c r);
  MkVerb "cmincl" OnConversation 0 (fun c _ r => cmincl c r);
  MkVerb "cminic" OnConversation 0 (fun c _ r => cminic c r);
  MkVerb "cminit" OnUser 1 (fun c l r => args1 (fun v1 => cminit c v1 r) undef l);
  MkVerb "cmprep" OnConversation 0 (fun c _ r => cmprep c r);
  MkVerb "cmptr" OnConversation 0 (fun c _ r => cmptr c r);
  MkVerb "cmrcv" OnConversation 6 (fun c l r => args6 (fun v1 v2 v3 v4 v5 v6 => cmrcv c v1 v2 v3 v4 v5 v6 r) undef l);
  MkVerb "cmrcvx" OnConversation 5 (fun c l r => args5 (fun v1 v2 v3 v4 v5 => cmrcvx c v1 v2 v3 v4 v5 r) undef l);
  MkVerb "cmrltp" OnNothing 2 (fun c l r => args2 (fun v1 v2 => cmrltp v1 v2 r) undef l);
  MkVerb "cmrts" OnConversation 0 (fun c _ r => cmrts c r);
  MkVerb "cmsaeq" OnConversation 3 (fun c l r => args3 (fun v1 v2 v3 => cmsaeq c v1 v2 v3 r) undef l);
  MkVerb "cmsac" OnConversation 1 (fun c l r => args1 (fun v1 => cmsac c v1 r) undef l);
  MkVerb "cmsacn" OnConversation 2 (fun c l r => args2 (fun v1 v2 => cmsacn c v1 v2 r) undef l);
  MkVerb "cmsapt" OnConversation 3 (fun c l r => args3 (fun v1 v2 v3 => cmsapt c v1 v2 v3 r) undef l);
  MkVerb "cmsbt" OnConversation 1 (fun c l r => args1 (fun v1 => cmsbt c v1 r) undef l);
  MkVerb "cmscsp" OnConversation 2 (fun c l r => args2 (fun v1 v2 => cmscsp c v1 v2 r) undef l);
  MkVerb "cmscst" OnConversation 1 (fun c l r => args1 (fun v1 => cmscst c v1 r) undef l);
  MkVerb "cmscsu" OnConversation 2 (fun c l r => args2 (fun v1 v2 => cmscsu c v1 v2 r) undef l);
  MkVerb "cmsct" OnConversation 1 (fun c l r => args1 (fun v1 => cmsct c v1 r) undef l);
  MkVerb "cmscu" OnConversation 1 (fun c l r => args1 (fun v1 => cmscu c v1 r) undef l);
  MkVerb "cmsdt" OnConversation 1 (fun c l r => args1 (fun v1 => cmsdt c v1 r) undef l);
  MkVerb "cmsed" OnConversation 1 (fun c l r => args1 (fun v1 => cmsed c v1 r) undef l);
  MkVerb "cmsend" OnConversation 3 (fun c l r => args3 (fun v1 v2 v3 => cmsend c v1 v2 v3 r) undef l);
  MkVerb "cmserr" OnConversation 1 (fun c l r => args1 (fun v1 => cmserr c v1 r) undef l);
  MkVerb "cmsf" OnConversation 1 (fun c l r => args1 (fun v1 => cmsf c v1 r) undef l);
  MkVerb "cmsid" OnConversation 2 (fun c l r => args2 (fun v1 v2 => cmsid c v1 v2 r) undef l);
  MkVerb "cmsld" OnConversation 2 (fun c l r => args2 (fun v1 v2 => cmsld c v1 v2 r) undef l);
  MkVerb "cmsltp" OnNothing 2 (fun c l r => args2 (fun v1 v2 => cmsltp v1 v2 r) undef l);
  MkVerb "cmsmn" OnConversation 2 (fun c l r => args2 (fun v1 v2 => cmsmn c v1 v2 r) undef l);
  MkVerb "cmsndx" OnConversation 3 (fun c l r => args3 (fun v1 v2 v3 => cmsndx c v1 v2 v3 r) undef l);
  MkVerb "cmspdp" OnConversation 1 (fun c l r => args1 (fun v1 => cmspdp c v1 r) undef l);
  MkVerb "cmspid" OnConversation 6 (fun c l r => args6 (fun v1 v2 v3 v4 v5 v6 => cmspid c v1 v2 v3 v4 v5 v6 r) undef l);
  MkVerb "cmspln" OnConversation 2 (fun c l r => args2 (fun v1 v2 => cmspln c v1 v2 r) undef l);
  MkVerb "cmspm" OnConversation 1 (fun c l r => args1 (fun v1 => cmspm c v1 r) undef l);
  MkVerb "cmsptr" OnConversation 1 (fun c l r => args1 (fun v1 => cmsptr c v1 r) undef l);
  MkVerb "cmsqcf" OnConversation 4 (fun c l r => args4 (fun v1 v2 v3 v4 => cmsqcf c v1 v2 v3 v4 r) undef l);
  MkVerb "cmsqpm" OnConversation 4 (fun c l r => args4 (fun v1 v2 v3 v4 => cmsqpm c v1 v2 v3 v4 r) undef l);
  MkVerb "cmsrc" OnConversation 1 (fun c l r => args1 (fun v1 => cmsrc c v1 r) undef l);
  MkVerb "cmsrt" OnConversation 1 (fun c l r => args1 (fun v1 => cmsrt c v1 r) undef l);
  MkVerb "cmssl" OnConversation 1 (fun c l r => args1 (fun v1 => cmssl c v1 r) undef l);
  MkVerb "cmssrm" OnConversation 1 (fun c l r => args1 (fun v1 => cmssrm c v1 r) undef l);
  MkVerb "cmsst" OnConversation 1 (fun c l r => args1 (fun v1 => cmsst c v1 r) undef l);
  MkVerb "cmstc" OnConversation 1 (fun c l r => args1 (fun v1 => cmstc c v1 r) undef l);
  MkVerb "cmstpn" OnConversation 2 (fun c l r => args2 (fun v1 v2 => cmstpn c v1 v2 r) undef l);
  MkVerb "cmtrts" OnConversation 1 (fun c l r => args1 (fun v1 => cmtrts c v1 r) undef l);
  MkVerb "cmwait" OnConversation 1 (fun c l r => args1 (fun v1 => cmwait c v1 r) undef l);
  MkVerb "cmwcmp" OnNothing 6 (fun c l r => args6 (fun v1 v2 v3 v4 v5 v6 => cmwcmp v1 v2 v3 v4 v5 v6 r) undef l)].

(** The system call with its block, as the functions make it. *)
Definition call_with (opcode conversation_id : Z) (vs : list Z) (return_code : Z) : M (machine K) unit :=
  match vs with
  | [] => syscall conversation_id opcode 0 return_code
  | _ => args ← cargo vs; syscall conversation_id opcode args return_code;; free args
  end.

Definition working_on_case (w : working_on) (n : string) : gives :=
  match w with OnConversation => Conversation (bool_decide (n <> "cmdeal")) | OnUser => User | OnNothing => if decide (n = "cmwcmp") then Dropped else Alone end.

(** The call of a function has the case in the kernel that is named after it and passes on
    as many arguments, and the kernel expects of it what it brings. *)
Definition agrees (v : verb K) (opcode : Z) : Prop :=
  (forall c vs r, length vs = arity v -> call v c vs r = call_with opcode (if works_on v is OnNothing then 0 else c) vs r) /\
  opcode mod 2 ^ 16 = opcode /\
  case opcode = Some ("sna_cpic_" ++ name v, working_on_case (works_on v) (name v), if decide (name v = "cmwcmp") then O else arity v)%string /\
  bool_decide (opcode ∈ without_args) = bool_decide (arity v = O) /\
  bool_decide (opcode ∈ without_cpic) = (if works_on v is OnConversation then false else true) /\
  (if works_on v is OnNothing then false else bool_decide (name v = "cmwcmp")) = false.
End Verbs.

(** By the length of the list a function is the call; the rest is computed. *)
Ltac verb_agrees :=
  eexists; split;
  [intros ? vs ? Hl; cbn in Hl; repeat (destruct vs as [|? vs]; try discriminate Hl); reflexivity
  |split_and!; vm_compute; reflexivity].

Section Agree.
Context {K : Type} `{CpicKernel K, Malloc}.

Lemma verbs_agree : Forall (fun v : verb K => exists opcode, agrees v opcode) verbs.
Proof. unfold verbs. repeat apply Forall_cons_2; try apply Forall_nil_2; unfold agrees; cbn [name works_on arity call]; verb_agrees. Qed.
End Agree.

Section Promise.
Context {K : Type} `{CpicKernel K, MallocLaws}.
Implicit Type v : verb K.

(** What a call works on, and the kernel once it has been found. *)
Definition found v (conversation_id : Z) (k : K) : option subject * K :=
  match works_on v with
  | OnUser => (Some (Conversation_id conversation_id), k)
  | OnNothing => (Some NoSubject, k)
  | OnConversation =>
      let cv_index := get_index_from_user conversation_id k in
      if decide (cv_index = 0) then (None, k) else let '(c, k) := cpic_lookup_fd cv_index k in (Cpic <$> c, k)
  end.

(** A conversation is put back, but for the one that was ended. *)
Definition put_back v (x : subject) (k : K) : K :=
  match x with Cpic c => if decide (name v = "cmdeal") then k else cpic_put_fd c k | _ => k end.

(** The function of the kernel with the name runs on it with the arguments; for the last
    of them without, and its code is lost. *)
Definition carried_out v (x : subject) (vs : list Z) (k : K) : Z * K :=
  let waits := bool_decide (name v = "cmwcmp") in
  let '(rc, k) := operation ("sna_cpic_" ++ name v)%string x (if waits then [] else Some <$> vs) k in
  (if waits then CM_PROGRAM_PARAMETER_CHECK else rc, put_back v x k).

Definition promised v (conversation_id : Z) (vs : list Z) (return_code : Z) (s : machine K) : machine K :=
  let '(x, k) := found v conversation_id (kern s) in
  let '(rc, k) := match x with None => (CM_PROGRAM_PARAMETER_CHECK, k) | Some x => carried_out v x vs k end in
  MkMachine (heap s) (alter (fun _ => rc) return_code (codes s)) (if decide (arity v = O) then blocks s else S (blocks s)) k.

(** The block as [cargo] leaves it. *)
Definition packed (vs : list Z) : cpic_args := (Some <$> vs) ++ replicate (cpic_args_fields - length vs) None.

Lemma packed_take vs : take (length vs) (packed vs) = Some <$> vs.
Proof. unfold packed. by rewrite take_app_length' by (by rewrite length_fmap). Qed.

(** A case that is named after the call. *)
Lemma process_carried v opcode conversation_id c args x vs (s : machine K) : agrees v opcode -> length vs = arity v ->
  args = (if decide (arity v = O) then None else Some (packed vs)) ->
  match x with Cpic i => works_on v = OnConversation /\ c = Some i | Conversation_id i => works_on v = OnUser /\ i = conversation_id | NoSubject => works_on v = OnNothing end ->
  process opcode conversation_id c args s =
  let '(rc, k) := carried_out v x vs (kern s) in Ret rc (MkMachine (heap s) (codes s) (blocks s) k).
Proof.
  intros (_ & _ & Hc & _ & _ & Hw) Hl -> Hx. unfold process. rewrite Hc. unfold carried_out.
  set (waits := bool_decide (name v = "cmwcmp")). set (a := if waits then [] else Some <$> vs).
  assert (forall B (k : list (option Z) -> M (machine K) B), ((a ← (if decide ((if decide (name v = "cmwcmp") then O else arity v) = O) then mret [] else
    args ← of_opt (if decide (arity v = O) then None else Some (packed vs)); mret (take (if decide (name v = "cmwcmp") then O else arity v) args)); k a) s) = k a s) as E.
  { intros B k. unfold a, waits. destruct (decide (name v = "cmwcmp")) as [Hn|Hn].
    - by rewrite bool_decide_true by done.
    - rewrite bool_decide_false by done. destruct (decide (arity v = 0%nat)) as [Ha|Ha].
      + rewrite Ha in Hl. by destruct vs.
      + rewrite of_opt_Some_bind. by rewrite <- Hl, packed_take. }
  rewrite E. clear E. unfold working_on_case, put_back. unfold on_kern, mbind, M_bind, of_opt, mret, M_ret.
  destruct x as [i|i|].
  - destruct Hx as [Hx ->]. rewrite Hx in Hw |- *. unfold a, waits. rewrite Hw.
    destruct (operation _ _ _ _) as [rc k]. destruct (decide (name v = "cmdeal")) as [Hd|Hd].
    + by rewrite bool_decide_false by (intros Hx'; by apply Hx').
    + by rewrite bool_decide_true.
  - destruct Hx as [Hx ->]. rewrite Hx in Hw |- *. unfold a, waits. rewrite Hw. by destruct (operation _ _ _ _) as [rc k].
  - rewrite Hx. unfold a, waits. case_decide.
    + rewrite bool_decide_true by done. by destruct (operation _ _ _ _) as [rc k].
    + rewrite bool_decide_false by done. by destruct (operation _ _ _ _) as [rc k].
Qed.

(** The kernel's block. *)
Definition with_block v (s : machine K) : machine K :=
  MkMachine (heap s) (codes s) (if decide (arity v = O) then blocks s else S (blocks s)) (kern s).

(** What the kernel finds at the address. *)
Definition args_of v (vs : list Z) : option cpic_args := if decide (arity v = O) then None else Some (packed vs).

Lemma cpicall_promised v opcode conversation_id vs uaddr return_code (s : machine K) : agrees v opcode -> length vs = arity v ->
  copy_args uaddr s = Ret (Some (args_of v vs)) (with_block v s) ->
  sna_cpic_cpicall (if works_on v is OnNothing then 0 else conversation_id) opcode uaddr return_code s = Ret tt (promised v conversation_id vs return_code s).
Proof.
  intros Hv Hl Hcopy. pose proof Hv as (_ & _ & _ & Hargs & Hcpic & _). unfold sna_cpic_cpicall. rewrite (M_bind_Ret _ _ _ _ _ Hcopy).
  rewrite decide_False.
  2: { intros [Hx Hy]. unfold args_of in Hy. case_decide as Ha; [|done]. rewrite (bool_decide_true (arity v = 0%nat)) in Hargs by done. by apply bool_decide_eq_true in Hargs. }
  unfold promised, found. destruct (works_on v) eqn:Hw.
  - rewrite decide_False by (by apply bool_decide_eq_false in Hcpic). unfold find_cpic. rewrite !M_bind_assoc, get_st_bind. cbn [kern with_block].
    destruct (decide (get_index_from_user conversation_id (kern s) = 0)) as [Hi|Hi]; [by rewrite M_ret_bind|].
    unfold on_kern at 1. unfold mbind, M_bind. cbn [kern with_block].
    destruct (cpic_lookup_fd _ _) as [[c|] k1] eqn:Ec; [|done]. cbn [heap codes blocks].
    rewrite (process_carried v opcode conversation_id (Some c) _ (Cpic c) vs) by done. cbn [kern fmap option_fmap option_map].
    by destruct (carried_out v (Cpic c) vs k1) as [rc k2].
  - rewrite decide_True by (by apply bool_decide_eq_true in Hcpic). unfold mbind, M_bind.
    rewrite (process_carried v opcode conversation_id None _ (Conversation_id conversation_id) vs) by done. cbn [kern with_block].
    by destruct (carried_out v (Conversation_id conversation_id) vs (kern s)) as [rc k2].
  - rewrite decide_True by (by apply bool_decide_eq_true in Hcpic). unfold mbind, M_bind.
    rewrite (process_carried v opcode 0 None _ NoSubject vs) by done. cbn [kern with_block].
    by destruct (carried_out v NoSubject vs (kern s)) as [rc k2].
Qed.

Definition with_heap (h : gmap Z cpic_args) (s : machine K) : machine K := MkMachine h (codes s) (blocks s) (kern s).

Lemma promised_heap v conversation_id vs return_code h s :
  promised v conversation_id vs return_code (with_heap h s) = with_heap h (promised v conversation_id vs return_code s).
Proof. unfold promised. cbn [with_heap kern heap codes blocks]. destruct (found _ _ _) as [[x|] k]; [|done]. by destruct (carried_out _ _ _ _). Qed.

Lemma free_block p a h cs n (k : K) : h !! p = None -> free p (MkMachine (<[p := a]> h) cs n k) = Ret tt (MkMachine h cs n k).
Proof.
  intros Hp. unfold free. rewrite get_st_bind. cbn [heap]. rewrite lookup_insert_eq, of_opt_Some_bind. unfold on_heap, modify.
  cbn [heap codes blocks kern]. by rewrite delete_insert_id.
Qed.

(** C37 (refinement).  The library is the interface of CPI-C.  Each of the seventy-four
    functions has the function of the kernel that is named after it executed once, on the
    conversation it is given, with its arguments in their order, and stores its code where
    it should go; a number that is no conversation has the code of a wrong parameter and
    reaches no function.  The conversation is put back unless it was ended.  The program's
    blocks are as before; the kernel keeps one for each call with arguments.  The wait for
    a completion runs without its arguments and always reports a wrong parameter.  When
    the kernel has no room, the code says so; when the module is not there, no code is
    stored at all; and when the program has no room the block is written through a null
    pointer. *)
Theorem libcpic_calls v conversation_id vs return_code (s : machine K) : v ∈ verbs -> length vs = arity v -> heap s !! 0 = None ->
  call v conversation_id vs return_code s =
  if decide (arity v <> O /\ malloc (heap s) = None) then Undef s
  else if negb (registered (kern s)) then Ret tt s
  else if decide (arity v <> O /\ room (kern s) = false) then
    Ret tt (MkMachine (heap s) (alter (fun _ => CM_PRODUCT_SPECIFIC_ERROR) return_code (codes s)) (blocks s) (kern s))
  else Ret tt (promised v conversation_id vs return_code s).
Proof.
  intros Hin Hl H0'. destruct (proj1 (Forall_forall _ _) verbs_agree v Hin) as (opcode & Hv). pose proof Hv as (Hc & Hmod & _). rewrite Hc by done. clear Hc.
  destruct vs as [|v1 vs']; cbn [call_with].
  - cbn in Hl. rewrite !(decide_False (P := _ /\ _)) by (by rewrite <- Hl; intros [? _]). unfold syscall, sys_cpicall. rewrite get_st_bind, Hmod.
    destruct (registered (kern s)); cbn [negb].
    + apply cpicall_promised; [done..|]. unfold copy_args, args_of, with_block. by rewrite <- Hl; destruct s.
    + unfold on_heap, modify. rewrite alter_id by (intros x Hx; by rewrite H0' in Hx). by destruct s.
  - set (vs := v1 :: vs') in *. assert (arity v <> O) as Ha by (by rewrite <- Hl).
    unfold cargo. rewrite !M_bind_assoc, get_st_bind. destruct (malloc (heap s)) as [p|] eqn:Ep.
    2: by rewrite decide_True.
    rewrite decide_False by (intros [_ ?]; done). destruct (malloc_fresh _ _ Ep) as [Hfresh Hp]. rewrite of_opt_Some_bind. unfold on_heap at 1.
    rewrite M_bind_assoc, modify_bind, M_ret_bind. fold (packed vs).
    change (MkMachine _ _ _ _) with (with_heap (<[p := packed vs]> (heap s)) s) at 1.
    set (s1 := with_heap (<[p := packed vs]> (heap s)) s). assert (s = with_heap (heap s) s) as Es by (by destruct s).
    unfold syscall, sys_cpicall. rewrite M_bind_assoc, get_st_bind, Hmod. change (kern s1) with (kern s). destruct (registered (kern s)); cbn [negb].
    + assert (copy_args p s1 = if room (kern s) then Ret (Some (args_of v vs)) (with_block v s1) else Ret None s1) as Ecopy.
      { unfold copy_args. rewrite decide_False, get_st_bind by done. change (kern s1) with (kern s). destruct (room (kern s)); cbn [negb]; [|done].
        rewrite put_st_bind. cbn [s1 with_heap heap]. rewrite lookup_insert_eq. unfold args_of, with_block. by rewrite !decide_False. }
      destruct (room (kern s)) eqn:Er.
      * rewrite decide_False by (by intros [_ ?]). rewrite (M_bind_Ret _ _ _ _ _ (cpicall_promised v opcode conversation_id vs p return_code s1 Hv Hl Ecopy)).
        unfold s1. rewrite promised_heap. unfold with_heap at 1. rewrite free_block by done.
        fold (with_heap (heap s) (promised v conversation_id vs return_code s)). by rewrite <- promised_heap, <- Es.
      * rewrite decide_True by done. unfold sna_cpic_cpicall. rewrite M_bind_assoc, (M_bind_Ret _ _ _ _ _ Ecopy), M_bind_assoc, M_ret_bind.
        unfold sna_cpic_error. rewrite modify_bind. unfold s1, with_heap. cbn [heap codes blocks kern]. by apply free_block.
    + unfold on_heap at 1. rewrite modify_bind. unfold s1, with_heap. cbn [heap codes blocks kern]. rewrite alter_insert_eq, free_block by done. by destruct s.
Qed.
End Promise.

(** ** A kernel that writes down what it is asked

    It has one conversation, of the file 3, whose number is at the address 1000. *)
Record written : Type := MkWritten { asked : list (string * subject * list (option Z)); in_use : nat }.

#[export] Instance written_kernel : CpicKernel written := {
  registered _ := true;
  room _ := true;
  get_index_from_user a _ := if decide (a = 1000) then 3 else 0;
  cpic_lookup_fd fd k := if decide (fd = 3) then (Some fd, MkWritten (asked k) (S (in_use k))) else (None, k);
  cpic_put_fd _ k := MkWritten (asked k) (pred (in_use k));
  operation n x a k := (CM_OK, MkWritten (asked k ++ [(n, x, a)]) (in_use k))
}.

#[export] Instance next_malloc : Malloc := fun h => Some (fresh ({[0]} ∪ dom h : gset Z)).

#[export] Instance next_malloc_laws : MallocLaws.
Proof.
  intros h p Hp. injection Hp as <-. pose proof (is_fresh ({[0]} ∪ dom h : gset Z)) as Hf. set (f := fresh _) in *.
  apply not_elem_of_union in Hf as [Hf Hd]. split; [by apply not_elem_of_dom|set_solver].
Qed.

Definition demo_machine : machine written := MkMachine ∅ {[3000 := 99]} 0 (MkWritten [] 0).

Lemma libcpic_calls_witness : exists v : verb written, name v = "cmrcv"%string /\
  call v 1000 [2001; 2002; 2003; 2004; 2005; 2006] 3000 demo_machine =
  Ret tt (MkMachine ∅ {[3000 := CM_OK]} 1 (MkWritten [("sna_cpic_cmrcv"%string, Cpic 3, Some <$> [2001; 2002; 2003; 2004; 2005; 2006])] 0)).
Proof.
  exists (MkVerb "cmrcv" OnConversation 6 (fun c l r => args6 (fun v1 v2 v3 v4 v5 v6 => cmrcv c v1 v2 v3 v4 v5 v6 r) undef l)). split; [done|].
  rewrite libcpic_calls; [vm_compute; reflexivity|by apply (list_elem_of_lookup_2 _ 33)|done|done].
Defined.
