(* ===== verification/Acopy.v ===== *)
(** * asuite/acopy.c: one file to or from another host

    The program that copies a file with the file transfer client, [Aftp].  Option letters
    come as [getopt] gives them; what is printed is left out.  The variables of the
    program start with zeros, the return code among them. *)
From S2P Require Import Prelude Cpic CpicSession AsuiteRecord Posix Aftp Aftpd AftpTransfer.

Definition AFTP_EBCDIC := 2.

(** ** The arguments

    A name that was given, or [None] while its flag is not set. *)
Record arguments : Type := MkArguments {
  transfer_mode : Z; mode_name : option (list Z); tp_name : option (list Z);
  sending : bool; dest_lu : list Z; source_filespec : list Z; dest_filespec : list Z
}.

Definition no_arguments : arguments := MkArguments AFTP_ASCII None None false [] [] [].

Definition usage {A S} : M S A := c_exit EXIT_FAILURE.

(** The first letter of the argument of [M]. *)
Definition mode_of (optarg : list Z) : option Z :=
  match optarg with
  | 97 :: _ => Some AFTP_ASCII
  | 98 :: _ => Some AFTP_BINARY
  | 101 :: _ => Some AFTP_EBCDIC
  | _ => None
  end.

Fixpoint read_options (options : list (Z * list Z)) : M arguments unit :=
  match options with
  | [] => mret tt
  | (c, optarg) :: options =>
      (if decide (c = 77) then
         match mode_of optarg with
         | Some m => modify (fun a => MkArguments m (mode_name a) (tp_name a) (sending a) (dest_lu a) (source_filespec a) (dest_filespec a))
         | None => usage
         end
       else if decide (c = 118) then c_exit 0
       else if decide (c = 109) then
         if decide (CM_MN_SIZE < length optarg)%nat then c_exit EXIT_FAILURE
         else modify (fun a => MkArguments (transfer_mode a) (Some optarg) (tp_name a) (sending a) (dest_lu a) (source_filespec a) (dest_filespec a))
       else if decide (c = 116) then
         if decide (CM_TPN_SIZE < length optarg)%nat then c_exit EXIT_FAILURE
         else modify (fun a => MkArguments (transfer_mode a) (mode_name a) (Some optarg) (sending a) (dest_lu a) (source_filespec a) (dest_filespec a))
       else usage);;
      read_options options
  end.

Definition set_files (sending : bool) (lu source dest : list Z) : M arguments unit :=
  modify (fun a => MkArguments (transfer_mode a) (mode_name a) (tp_name a) sending lu source dest).

(** A colon stands behind the name of a host, in one of the two words. *)
Definition process_arguments (options : list (Z * list Z)) (argv : list (list Z)) : M arguments unit :=
  read_options options;;
  match argv with
  | [from; to] =>
      match split_at 58 from, split_at 58 to with
      | Some _, Some _ => usage
      | Some (lu, source), None => set_files false lu source to
      | None, Some (lu, dest) => set_files true lu from dest
      | None, None => usage
      end
  | _ => usage
  end.

(** ** The program *)

Record acopy {K F : Type} : Type := MkAcopy { ftprc : Z; session : Z; lib : aftp K F }.
Arguments acopy : clear implicits.
Arguments MkAcopy {K F} _ _ _.

Section Program.
Context (big_endian : bool) {K F : Type} `{Cpic K} `{Posix F}.

(** A function of the library, and the code it leaves: one that assigns none leaves the
    one before. *)
Definition call (f : Z -> M (aftp K F) (option Z)) : M (acopy K F) Z :=
  s ← get_st;
  rc ← zoom lib (fun l s => MkAcopy (ftprc s) (session s) l) (f (session s));
  modify (fun s => MkAcopy (default (ftprc s) rc) (session s) (lib s));;
  s ← get_st;
  mret (ftprc s).

(** With anything but success the program ends. *)
Definition must (f : Z -> M (aftp K F) (option Z)) : M (acopy K F) unit :=
  rc ← call f;
  if decide (rc <> AFTP_RC_OK) then c_exit EXIT_FAILURE else mret tt.

Definition create (no_session no_record : bool) : M (acopy K F) unit :=
  '(i, rc) ← zoom lib (fun l s => MkAcopy (ftprc s) (session s) l) (aftp_create no_session no_record);
  modify (fun s => MkAcopy (default (ftprc s) rc) (default (session s) i) (lib s));;
  s ← get_st;
  if decide (ftprc s <> AFTP_RC_OK) then c_exit EXIT_FAILURE else mret tt.

Definition with_name (f : Z -> list Z -> Z -> M (aftp K F) (option Z)) (name : list Z) : Z -> M (aftp K F) (option Z) :=
  fun i => f i name (Z.of_nat (length name)).

(** Until the conversation stands. *)
Definition connect (no_session no_record : bool) (conv_id : K) (a : arguments) : M (acopy K F) unit :=
  create no_session no_record;;
  must (with_name aftp_set_destination (dest_lu a));;
  match tp_name a with Some n => must (with_name aftp_set_tp_name n) | None => mret tt end;;
  match mode_name a with Some n => must (with_name aftp_set_mode_name n) | None => mret tt end;;
  must (fun i => aftp_connect big_endian i conv_id);;
  must (fun i => aftp_set_data_type i (transfer_mode a)).

(** A file that does not come is complained of only. *)
Definition copy (fuel : nat) (a : arguments) : M (acopy K F) unit :=
  if sending a then
    must (fun i => aftp_send_file big_endian i (source_filespec a) (Z.of_nat (length (source_filespec a)))
      (dest_filespec a) (Z.of_nat (length (dest_filespec a))) fuel)
  else
    call (fun i => aftp_receive_file big_endian i (dest_filespec a) (Z.of_nat (length (dest_filespec a)))
      (source_filespec a) (Z.of_nat (length (source_filespec a))) fuel);;
    mret tt.

Definition finish : M (acopy K F) Z := must (aftp_close big_endian);; must aftp_destroy;; mret 0.

Definition acopy_start (f : F) : acopy K F := MkAcopy 0 0 (aftp_start f).

Definition main (no_session no_record : bool) (conv_id : K) (fuel : nat) (options : list (Z * list Z)) (argv : list (list Z)) :
    M (acopy K F) Z := fun s =>
  match process_arguments options argv no_arguments with
  | Ret _ a => (connect no_session no_record conv_id a;; copy fuel a;; finish) s
  | Exit code _ => Exit code s
  | Abort _ => Abort s
  | Undef _ => Undef s
  | NoFuel _ => NoFuel s
  end.
End Program.

(** ** What is copied *)

(** The words of a copy to a host. *)
Lemma send_arguments options local lu remote a : 58 ∉ local -> 58 ∉ lu -> read_options options no_arguments = Ret tt a ->
  process_arguments options [local; lu ++ 58 :: remote] no_arguments =
  Ret tt (MkArguments (transfer_mode a) (mode_name a) (tp_name a) true lu local remote).
Proof. intros Hl Hh E. unfold process_arguments. rewrite (M_bind_Ret _ _ _ _ _ E). rewrite (split_at_none 58 local), split_at_app by done. done. Qed.

Lemma receive_arguments options local lu remote a : 58 ∉ local -> 58 ∉ lu -> read_options options no_arguments = Ret tt a ->
  process_arguments options [lu ++ 58 :: remote; local] no_arguments =
  Ret tt (MkArguments (transfer_mode a) (mode_name a) (tp_name a) false lu remote local).
Proof. intros Hl Hh E. unfold process_arguments. rewrite (M_bind_Ret _ _ _ _ _ E). rewrite (split_at_none 58 local), split_at_app by done. done. Qed.

Section Copy.
Context {K F : Type} `{HC : Cpic K} `{HD : !Delivers K} `{HP : Posix F} `{HL : !PosixLaws F}.

Lemma call_ret f rc0 i (l l' : aftp K F) rc : f i l = Ret rc l' -> call f (MkAcopy rc0 i l) = Ret (default rc0 rc) (MkAcopy (default rc0 rc) i l').
Proof.
  intros E. unfold call. rewrite get_st_bind. cbn [session].
  rewrite (M_bind_Ret (zoom _ _ _) _ _ rc (MkAcopy rc0 i l')) by (unfold zoom; cbn [lib]; by rewrite E). by rewrite modify_bind.
Qed.

Lemma must_ret f rc0 i (l l' : aftp K F) rc : f i l = Ret (Some rc) l' ->
  must f (MkAcopy rc0 i l) = if decide (rc <> AFTP_RC_OK) then Exit EXIT_FAILURE (MkAcopy rc i l') else Ret tt (MkAcopy rc i l').
Proof. intros E. unfold must. rewrite (M_bind_Ret _ _ _ _ _ (call_ret _ rc0 _ _ _ _ E)). cbn [default from_option id]. by destruct (decide (rc <> AFTP_RC_OK)). Qed.

Definition close_message : list Z := message false AFTP_CLOSE [].

Lemma client_conv_Ret {X} i (st0 : aftp K F) s0 (g : K -> X * K) r k a f x k' : (Z.to_nat i < length (sessions st0))%nat ->
  g k = (x, k') -> Aftp.on_conv i g (live_state i st0 s0 r k a f) = Ret x (live_state i st0 s0 r k' a f).
Proof.
  intros Hi E. unfold Aftp.on_conv. rewrite (the_session_bind i st0 s0 Hi). cbn [conversation_ID live_session]. rewrite of_opt_Some_bind, E.
  unfold set_session. rewrite modify_bind. unfold put_slot. cbn. by rewrite list_insert_insert_eq.
Qed.

(** Closing sends a last message and ends the conversation, whose code decides. *)
Lemma close_sends i (st0 : aftp K F) s0 r k a f : (Z.to_nat i < length (sessions st0))%nat ->
  exists r' k', outbox k' = outbox k ++ [close_message] /\ inbox k' = inbox k /\
    aftp_close false i (live_state i st0 s0 r k a f) =
    Ret (Some (if decide ((cmdeal k').1 <> CM_OK) then AFTP_RC_FAIL_FATAL else AFTP_RC_OK)) (live_state i st0 s0 r' (cmdeal k').2 a f).
Proof.
  intros Hi. unfold aftp_close. rewrite (guarded_live i st0 s0 Hi). destruct (start_message false AFTP_CLOSE r) as (r1 & E1 & H1).
  rewrite (M_bind_Ret _ _ _ _ _ (client_rec_Ret i st0 s0 Hi _ r k a f _ _ E1)).
  destruct (send_delivers r1 _ k H1) as (k1 & E2 & Hout & Hin).
  rewrite (M_bind_Ret _ _ _ _ _ (client_msg_Ret i st0 s0 Hi _ r1 k a f _ _ _ E2)). rewrite (decide_False (P := ASUITE_RC_OK <> AFTP_RC_OK)) by (by intros []).
  exists r1, k1. split; [done|]. split; [done|].
  rewrite (M_bind_Ret _ _ _ _ _ (client_conv_Ret i st0 s0 _ r1 k1 a f _ _ Hi (surjective_pairing _))). done.
Qed.

Lemma destroy_ok i (st0 : aftp K F) s0 r k a f : (Z.to_nat i < length (sessions st0))%nat ->
  exists l, aftp_destroy i (live_state i st0 s0 r k a f) = Ret (Some AFTP_RC_OK) l /\ files l = f.
Proof.
  intros Hi. eexists. unfold aftp_destroy. rewrite (guarded_live i st0 s0 Hi), (the_session_bind i st0 s0 Hi), modify_bind. by split.
Qed.

(** The end of the program, of a conversation that stands. *)
Lemma finish_ends rc i (st0 : aftp K F) s0 r k a f : (Z.to_nat i < length (sessions st0))%nat ->
  exists k' l, outbox k' = outbox k ++ [close_message] /\ inbox k' = inbox k /\ files l = f /\
    finish false (MkAcopy rc i (live_state i st0 s0 r k a f)) =
    if decide ((cmdeal k').1 <> CM_OK) then Exit EXIT_FAILURE (MkAcopy AFTP_RC_FAIL_FATAL i l) else Ret 0 (MkAcopy AFTP_RC_OK i l).
Proof.
  intros Hi. destruct (close_sends i st0 s0 r k a f Hi) as (r' & k' & Hout & Hin & E). exists k'. unfold finish, mbind at 1, M_bind at 1.
  rewrite (must_ret _ rc i _ _ _ E). destruct (decide ((cmdeal k').1 <> CM_OK)) as [Hc|Hc].
  - eexists. split; [exact Hout|]. split; [exact Hin|]. split; [|rewrite decide_True by done; reflexivity]. done.
  - rewrite decide_False by (by intros []). destruct (destroy_ok i st0 s0 r' (cmdeal k').2 a f Hi) as (l & El & Hf). exists l. split_and!; [done..|].
    unfold mbind, M_bind. rewrite (must_ret _ AFTP_RC_OK i _ _ _ El). by rewrite decide_False by (by intros []).
Qed.
End Copy.

(** What a program leaves whose conversation has the code at its end. *)
Definition ended {K F} `{Cpic K} (k : K) (i : Z) (l : aftp K F) : outcome (acopy K F) Z :=
  if decide ((cmdeal k).1 <> CM_OK) then Exit EXIT_FAILURE (MkAcopy AFTP_RC_FAIL_FATAL i l) else Ret 0 (MkAcopy AFTP_RC_OK i l).

Definition to_host (a : arguments) (sending : bool) (lu source dest : list Z) : arguments :=
  MkArguments (transfer_mode a) (mode_name a) (tp_name a) sending lu source dest.

(** C40 (refinement).  A file is copied.  Given a file and a name on a host, once the
    conversation stands, the program sends the request, the contents and the end of the
    conversation, which decides how it ends; a server that receives these messages has
    stored the contents under the name the file has here, over what it held, and has
    answered.  Given a file on a host and a name here, the program ends in the same way
    whatever the transfer reported: a file that did not come is no failure. *)
Theorem acopy_copies {K F K' F'} `{HC : Cpic K} `{HD : !Delivers K} `{HP : Posix F} `{HL : !PosixLaws F}
    `{HC' : Cpic K'} `{HD' : !Delivers K'} `{HP' : Posix F'} `{HL' : !PosixLaws F'} (sys : system)
    options a local lu remote no_session no_record conv_id fuel (s : acopy K F) i st x k :
  58 ∉ local -> 58 ∉ lu -> read_options options no_arguments = Ret tt a ->
  sessions st !! Z.to_nat i = Some (Live x) -> conversation_ID x = Some k -> plain (sets x) -> c_string local -> c_string remote ->
  Z.of_nat (length local + length remote) <= 32000 ->
  (forall c fd f1 t ps rest, connect false no_session no_record conv_id (to_host a true lu local remote) s = Ret tt (MkAcopy AFTP_RC_OK i st) ->
    open local O_RDONLY (files st) = (inl fd, f1) -> file local (files st) = Some c -> is_bytes c ->
    answer_ok t ps -> inbox k = message false t ps :: rest -> (length c < fuel)%nat ->
    exists k' l ms, main false no_session no_record conv_id fuel options [local; lu ++ 58 :: remote] s = ended k' i l /\
      outbox k' = outbox k ++ ms ++ [close_message] /\ inbox k' = rest /\
      forall ks later r p n d fs fd' fs1 fuel' turns, inbox ks = ms ++ later -> open local O_CREAT_WRONLY fs = (inl fd', fs1) ->
        exists r' ks' p' n' fs',
          aftpd_session (K := K') (F := F') false false false sys fuel' (length ms + turns) (MkAftpd (Some r) ks p n d fs) =
            aftpd_session false false false sys fuel' turns (MkAftpd (Some r') ks' p' n' fd' fs') /\
          inbox ks' = later /\ outbox ks' = outbox ks ++ [status_ok] /\
          file local fs' = Some (c ++ drop (length c) (default [] (file local fs))) /\ forall q, q <> local -> file q fs' = file q fs) /\
  (forall rc st' x' k1, connect false no_session no_record conv_id (to_host a false lu remote local) s = Ret tt (MkAcopy AFTP_RC_OK i st) ->
    aftp_receive_file false i local (Z.of_nat (length local)) remote (Z.of_nat (length remote)) fuel st = Ret rc st' ->
    sessions st' !! Z.to_nat i = Some (Live x') -> conversation_ID x' = Some k1 ->
    exists k' l, main false no_session no_record conv_id fuel options [lu ++ 58 :: remote; local] s = ended k' i l /\
      outbox k' = outbox k1 ++ [close_message] /\ inbox k' = inbox k1 /\ files l = files st').
Proof.
  intros Hlocal Hlu Ha Hx Hk Hp Hl Hr Hlen. split.
  - intros c fd f1 t ps rest Hconn Ho Hf Hc Hans Hin Hfuel. destruct (live_state_intro i st x k Hx Hk) as [Est Hi].
    destruct (client_put i st x Hi (record x) k (ans x) (files st) local remote fd c f1 t ps rest fuel Ho Hf Hc Hl Hr Hlen Hp Hans Hin Hfuel)
      as (chunks & r' & k1 & f' & E & Hout & Hin1 & Hj & Hpc & _). rewrite <- Est in E.
    destruct (finish_ends AFTP_RC_OK i st x r' k1 (ans x) f' Hi) as (k' & l & Hout' & Hin' & _ & Efin).
    exists k', l, (put_request local remote (data_type (sets x)) (date_mode (sets x)) :: file_messages chunks). split_and!.
    + unfold main. rewrite (send_arguments _ _ _ _ _ Hlocal Hlu Ha). fold (to_host a true lu local remote). rewrite (M_bind_Ret _ _ _ _ _ Hconn).
      unfold copy. cbn [sending to_host source_filespec dest_filespec].
      rewrite (M_bind_Ret (must _) _ _ tt (MkAcopy AFTP_RC_OK i (live_state i st x r' k1 (ans x) f'))).
      * exact Efin.
      * rewrite (must_ret _ AFTP_RC_OK i _ _ _ E). by rewrite decide_False by (by intros []).
    + by rewrite Hout', Hout, <- app_assoc.
    + by rewrite Hin'.
    + intros ks later r p n d fs fd' fs1 fuel' turns Hink Hopen.
      destruct (server_put sys local remote (data_type (sets x)) (date_mode (sets x)) chunks fuel' turns later r ks p n d fs fd' fs1 Hl Hr Hlen Hpc)
        as (r2 & k2 & p2 & n2 & f2 & E2 & Hin2 & Hout2 & Hf2 & Hoth); [by rewrite Hj|exact Hink|done|].
      exists r2, k2, p2, n2, f2. rewrite Hf2, Hj. split_and!; try done.
      unfold file_messages. cbn [length]. rewrite length_app, length_fmap. cbn [length].
      replace (S (length chunks + 1) + turns)%nat with (2 + length chunks + turns)%nat by lia. exact E2.
  - intros rc st' x' k1 Hconn E Hx' Hk'. destruct (live_state_intro i st' x' k1 Hx' Hk') as [Est Hi].
    destruct (finish_ends (default AFTP_RC_OK rc) i st' x' (record x') k1 (ans x') (files st') Hi) as (k' & l & Hout' & Hin' & Hfl & Efin).
    exists k', l. split_and!; try done. unfold main. rewrite (receive_arguments _ _ _ _ _ Hlocal Hlu Ha). fold (to_host a false lu remote local).
    rewrite (M_bind_Ret _ _ _ _ _ Hconn). unfold copy. cbn [sending to_host source_filespec dest_filespec].
    rewrite M_bind_assoc, (M_bind_Ret _ _ _ _ _ (call_ret _ AFTP_RC_OK i _ _ _ E)), M_ret_bind. rewrite <- Est in Efin. exact Efin.
Qed.

(** A binary copy of "f" to "g" on a host whose server says its two messages. *)
Definition demo_options : list (Z * list Z) := [(77, str "b")].
Definition demo_binary : arguments := MkArguments AFTP_BINARY None None false [] [] [].
Definition demo_partner : script := arriving [message false AFTP_TOWER_RESPONSE []; status_ok].
Definition demo_start : acopy script (disk (Some 2%nat)) := acopy_start (MkDisk {[str "f" := [1; 2; 3; 4; 5]]} [] (str "/") []).
Definition demo_lib : aftp script (disk (Some 2%nat)) :=
  match connect false false false demo_partner (to_host demo_binary true (str "HOST") (str "f") (str "g")) demo_start with
  | Ret _ s => lib s
  | _ => lib demo_start
  end.
Definition demo_live : ftpsession script :=
  match sessions demo_lib !! 0%nat with Some (Live x) => x | _ => new_session (MkRecord 2 ∅) [] end.
Definition demo_conversation : script := default demo_partner (conversation_ID demo_live).

Lemma acopy_copies_witness :
  let fs : disk (Some 1%nat) := MkDisk {[str "f" := [9; 9; 9; 9; 9; 9; 9]]} [] (str "/") [] in
  exists k' l ms, main false false false demo_partner 6 demo_options [str "f"; str "HOST:g"] demo_start = ended k' 0 l /\
    outbox k' = outbox demo_conversation ++ ms ++ [close_message] /\
    exists r' ks' p' n' fd' fs',
      aftpd_session false false false demo_system 0 (length ms + 1) (MkAftpd (Some (MkRecord 2 ∅)) (arriving ms) 0 0 0 fs) =
        aftpd_session false false false demo_system 0 1 (MkAftpd (Some r') ks' p' n' fd' fs') /\
      file (str "f") fs' = Some [1; 2; 3; 4; 5; 9; 9] /\ outbox ks' = [status_ok].
Proof.
  intros fs.
  assert (c_string (str "f") /\ c_string (str "g")) as [Hf Hg] by (apply (bool_decide_unpack _); vm_compute; exact I).
  assert (answer_ok 1 (status_params false 0 0 0)) as Ha by (unfold answer_ok; apply (bool_decide_unpack _); vm_compute; exact I).
  assert (is_bytes [1; 2; 3; 4; 5]) as Hc by (apply (bool_decide_unpack _); vm_compute; exact I).
  assert (plain (sets demo_live)) as Hp by (split; [|split]; vm_compute; discriminate).
  destruct (acopy_copies (K' := script) (F' := disk (Some 1%nat)) demo_system demo_options demo_binary (str "f") (str "HOST") (str "g") false false
    demo_partner 6 demo_start 0 demo_lib demo_live demo_conversation) as [Hput _].
  - apply (bool_decide_unpack _). by vm_compute.
  - apply (bool_decide_unpack _). by vm_compute.
  - reflexivity.
  - vm_compute. reflexivity.
  - vm_compute. reflexivity.
  - exact Hp.
  - exact Hf.
  - exact Hg.
  - by vm_compute.
  - destruct (Hput [1; 2; 3; 4; 5] 0 (MkDisk {[str "f" := [1; 2; 3; 4; 5]]} [] (str "/") [(str "f", O)]) 1 (status_params false 0 0 0) [])
      as (k' & l & ms & E & Hout & _ & Hserver).
    + vm_compute. reflexivity.
    + vm_compute. reflexivity.
    + vm_compute. reflexivity.
    + exact Hc.
    + exact Ha.
    + vm_compute. reflexivity.
    + cbn. lia.
    + exists k', l, ms. split; [exact E|]. split; [exact Hout|].
      destruct (Hserver (arriving ms) [] (MkRecord 2 ∅) 0 0 0 fs 0 (MkDisk (d_files fs) [] (str "/") [(str "f", O)]) 0%nat 1%nat)
        as (r' & ks' & p' & n' & fs' & Es & _ & Hout' & Hfile & _); [rewrite inbox_arriving; symmetry; apply app_nil_r|vm_compute; reflexivity|].
      exists r', ks', p', n', 0, fs'. split; [exact Es|]. split; [exact Hfile|exact Hout'].
Defined.
