(* ===== verification/AftpListing.v ===== *)
(** * Directory listings

    The command [ls] of the client, the request it sends, the records the server of
    [Aftpd] answers with, and what is printed. *)
From Stdlib Require Import Sorted.
From S2P Require Import Prelude Wildcard Cpic CpicSession AsuiteRecord Posix Aftp Aftpd AftpTransfer AftpRequests AftpClient.

(** ** The messages *)

Definition list_request (filespec : list Z) (filetype infolevel : Z) : list Z :=
  message false AFTP_LIST_REQUEST [(AFTP_FILESPEC, filespec ++ [0]); (AFTP_FILE_TYPE, [u8 (u8 filetype)]); (AFTP_INFO_LEVEL, [u8 (u8 infolevel)])].

Definition list_reply (directory : list Z) : list Z :=
  message false AFTP_SIMPLE_RESPONSE [(AFTP_STATUS_RETURN_CODE, [u8 0]); (AFTP_FILESPEC, directory ++ [0])].

Definition entry_message (name : list Z) : list Z := message false AFTP_LIST_ENTRY [(AFTP_FILESPEC, name ++ [0])].

Definition complete_message : list Z := message false AFTP_LIST_COMPLETE [].

Definition listing_messages (directory : list Z) (names : list (list Z)) : list (list Z) :=
  list_reply directory :: (entry_message <$> names) ++ [complete_message].

(** What the caller of [strncpy] and [strlen] has of a string: nothing, when its array
    is not longer. *)
Definition copied (size : nat) (s : list Z) : option (list Z) := if decide (length s < size)%nat then Some s else None.

(** [strncpy] of a string that is shorter than the array. *)
Lemma peek_strncpy_string s : forall n r pre post, rep r (pre ++ (Some <$> s ++ [0]) ++ post) -> no_nul s -> (length s < n)%nat ->
  peek_strncpy (Z.of_nat (length pre)) n (Some r) = Ret (s ++ replicate (n - length s) 0) (Some r).
Proof.
  induction s as [|c s IH]; intros [|n] r pre post Hr Hs Hn; try (cbn in Hn; lia); cbn [peek_strncpy].
  - assert (peek (Z.of_nat (length pre)) (Some r) = Ret 0 (Some r)) as E.
    { eapply peek_rep; [exact Hr|]. by rewrite lookup_app_r, Nat.sub_diag by lia. }
    rewrite (M_bind_Ret _ _ _ _ _ E), decide_True by done. done.
  - apply Forall_cons in Hs as [Hc Hs]. assert (peek (Z.of_nat (length pre)) (Some r) = Ret c (Some r)) as E.
    { eapply peek_rep; [exact Hr|]. by rewrite lookup_app_r, Nat.sub_diag by lia. }
    rewrite (M_bind_Ret _ _ _ _ _ E), decide_False by done.
    assert (peek_strncpy (Z.of_nat (length pre) + 1) n (Some r) = Ret (s ++ replicate (n - length s) 0) (Some r)) as E'.
    { replace (Z.of_nat (length pre) + 1) with (Z.of_nat (length (pre ++ [Some c]))) by (rewrite length_app; cbn; lia).
      apply (IH n r _ post); [by rewrite <- app_assoc|done|cbn in Hn; lia]. }
    by rewrite (M_bind_Ret _ _ _ _ _ E').
Qed.

(** Of one that is not, the array has no terminator. *)
Lemma peek_strncpy_long s : forall n r pre post, rep r (pre ++ (Some <$> s ++ [0]) ++ post) -> no_nul s -> (n <= length s)%nat ->
  peek_strncpy (Z.of_nat (length pre)) n (Some r) = Ret (take n s) (Some r).
Proof.
  induction s as [|c s IH]; intros [|n] r pre post Hr Hs Hn; try done; try (cbn in Hn; lia); cbn [peek_strncpy].
  apply Forall_cons in Hs as [Hc Hs]. assert (peek (Z.of_nat (length pre)) (Some r) = Ret c (Some r)) as E.
  { eapply peek_rep; [exact Hr|]. by rewrite lookup_app_r, Nat.sub_diag by lia. }
  rewrite (M_bind_Ret _ _ _ _ _ E), decide_False by done.
  assert (peek_strncpy (Z.of_nat (length pre) + 1) n (Some r) = Ret (take n s) (Some r)) as E'.
  { replace (Z.of_nat (length pre) + 1) with (Z.of_nat (length (pre ++ [Some c]))) by (rewrite length_app; cbn; lia).
    apply (IH n r _ post); [by rewrite <- app_assoc|done|cbn in Hn; lia]. }
  by rewrite (M_bind_Ret _ _ _ _ _ E').
Qed.

Lemma mem_string_unended s : no_nul s -> mem_string (Some <$> s) = None.
Proof. induction 1 as [|c s Hc _ IH]; [done|]. cbn. rewrite decide_False by done. change (cons c <$> mem_string (Some <$> s) = None). by rewrite IH. Qed.

(** ** The client *)
Section Client.
Context {K F : Type} `{HC : Cpic K} `{HD : !Delivers K} `{HP : Posix F}.
Context (i : Z) (st0 : aftp K F) (s0 : ftpsession K) (Hi : (Z.to_nat i < length (sessions st0))%nat).

Abbreviation C := (live_state i st0 s0).

Lemma copy_out_string r pre key s post size k a f : rep r (pre ++ (Some <$> param_bytes false (key, s ++ [0])) ++ post) -> no_nul s ->
  copy_out i (Z.of_nat (length pre)) size (C r k a f) = of_opt (copied size s) (C r k a f).
Proof.
  intros Hr Hs. destruct (param_data r pre key _ post Hr) as (pre' & Hp & Hr'). unfold copy_out, copied. rewrite <- Hp. case_decide as Hl.
  - rewrite (M_bind_Ret _ _ _ _ _ (client_rec_Ret i st0 s0 Hi _ r k a f _ _ (peek_strncpy_string s size r pre' post Hr' Hs Hl))).
    replace (size - length s)%nat with (S (size - S (length s))) by lia. cbn [replicate]. rewrite fmap_app. cbn [fmap list_fmap].
    by rewrite mem_string_cells.
  - rewrite (M_bind_Ret _ _ _ _ _ (client_rec_Ret i st0 s0 Hi _ r k a f _ _ (peek_strncpy_long s size r pre' post Hr' Hs ltac:(lia)))).
    by rewrite mem_string_unended by (by apply Forall_take).
Qed.

Lemma list_record filespec filetype infolevel r : c_string filespec -> Z.of_nat (length filespec) <= 32000 ->
  exists r', (asuiterecord_clear;;
    asuiterecord_settype false AFTP_LIST_REQUEST;;
    asuiterecord_append false AFTP_FILESPEC (filespec ++ [0]) (Z.of_nat (length filespec) + 1);;
    asuiterecord_append_char false AFTP_FILE_TYPE (u8 filetype);;
    asuiterecord_append_char false AFTP_INFO_LEVEL (u8 infolevel)) (Some r) = Ret 0 (Some r') /\
    rep r' (Some <$> list_request filespec filetype infolevel).
Proof.
  intros [Hn Hb] Hl. destruct (start_message false AFTP_LIST_REQUEST r) as (r1 & E1 & H1).
  destruct (append_string false r1 _ [] AFTP_FILESPEC filespec (Z.of_nat (length filespec) + 1) H1) as (r2 & E2 & H2); [byte|done..|msg_len|].
  destruct (append_char false r2 _ _ AFTP_FILE_TYPE (u8 filetype) H2) as (r3 & E3 & H3); [byte|cbn [app]; msg_len|].
  destruct (append_char false r3 _ _ AFTP_INFO_LEVEL (u8 infolevel) H3) as (r4 & E4 & H4); [byte|cbn [app]; msg_len|].
  exists r4. rewrite <- M_bind_assoc, (M_bind_Ret _ _ _ _ _ E1), (M_bind_Ret _ _ _ _ _ E2), (M_bind_Ret _ _ _ _ _ E3). by split.
Qed.

Lemma open_status r pre c post size x k a f : rep r (pre ++ (Some <$> param_bytes false (AFTP_STATUS_RETURN_CODE, [c])) ++ post) ->
  dir_open_param false i size AFTP_STATUS_RETURN_CODE (Z.of_nat (length pre)) x (C r k a f) =
  Ret x (C r k (MkAnswer (Some c) (primary_msg a) (msg_category a) (msg_index a)) f).
Proof.
  intros Hr. unfold dir_open_param. rewrite decide_True by done. unfold set_status.
  destruct (param_data _ _ _ _ _ Hr) as (pre' & Hp & Hr'). rewrite <- Hp.
  assert (peek (Z.of_nat (length pre')) (Some r) = Ret c (Some r)) as E by (eapply peek_rep; [exact Hr'|]; by rewrite lookup_app_r, Nat.sub_diag by lia).
  rewrite M_bind_assoc, (M_bind_Ret _ _ _ _ _ (client_rec_Ret i st0 s0 Hi _ r k a f _ _ E)).
  by rewrite (M_bind_Ret _ _ _ tt (C r k (MkAnswer (Some c) (primary_msg a) (msg_category a) (msg_index a)) f)) by (by apply (on_answer_Ret i st0 s0 Hi)).
Qed.

Lemma open_directory r pre s post size x k a f : rep r (pre ++ (Some <$> param_bytes false (AFTP_FILESPEC, s ++ [0])) ++ post) -> no_nul s ->
  dir_open_param false i size AFTP_FILESPEC (Z.of_nat (length pre)) x (C r k a f) = (path ← of_opt (copied size s); mret (x.1, Some path)) (C r k a f).
Proof.
  intros Hr Hs. unfold dir_open_param. rewrite decide_False, decide_True by done.
  unfold mbind, M_bind. by rewrite (copy_out_string r pre _ s post size k a f Hr Hs).
Qed.

(** The answer to a request, as it is taken. *)
Lemma dir_open_asked filespec filetype infolevel size m t rest r k a f : c_string filespec -> Z.of_nat (length filespec) <= 32000 ->
  inbox k = m :: rest -> is_bytes m -> Z.of_nat (length m) <= MAX_BUFFER_SIZE -> m !! 1%nat = Some t ->
  exists r' k', aftp_dir_open false i filespec (Z.of_nat (length filespec)) filetype infolevel size (C r k a f) =
      ('(rc, path) ← (if decide (t = AFTP_SIMPLE_RESPONSE)
         then response_params false i (position r') (dir_open_param false i size) (S (Z.to_nat (position r'))) 2 (AFTP_RC_OK, None)
         else mret (AFTP_RC_OK, None)); mret (Some rc, path)) (C r' k' a f) /\
    rep r' (Some <$> m) /\ inbox k' = rest /\ outbox k' = outbox k ++ [list_request filespec filetype infolevel].
Proof.
  intros Hf Hlf Hin Hb Hl Ht. destruct (list_record filespec filetype infolevel r Hf Hlf) as (r1 & E1 & H1).
  destruct (send_delivers r1 _ k H1) as (k1 & E2 & Hout1 & Hin1).
  destruct (client_receives i st0 s0 Hi t m rest r1 k1 a f ltac:(by rewrite Hin1) Hb Hl Ht) as (r2 & k2 & E3 & Em & H2 & Hin2 & Hout2).
  exists r2, k2. split; [|split; [done|split; [done|by rewrite Hout2, Hout1]]].
  unfold aftp_dir_open, valid_handle. rewrite !M_bind_assoc, get_st_bind, (live_lookup i st0 s0 Hi), M_ret_bind. cbn [negb].
  rewrite (M_bind_Ret _ _ _ _ _ (client_rec_Ret i st0 s0 Hi _ r k a f _ _ E1)). unfold exchange. rewrite M_bind_assoc.
  rewrite (M_bind_Ret _ _ _ _ _ (client_msg_Ret i st0 s0 Hi _ r1 k a f _ _ _ E2)). rewrite (decide_False (P := ASUITE_RC_OK <> AFTP_RC_OK)) by (by intros []).
  rewrite (M_bind_Ret _ _ _ _ _ E3). rewrite (decide_False (P := AFTP_RC_OK <> AFTP_RC_OK)) by (by intros []).
  rewrite (M_bind_Ret _ _ _ _ _ (received_len_live i st0 s0 Hi r2 k2 a f)). unfold response.
  by rewrite !M_bind_assoc, (M_bind_Ret _ _ _ _ _ Em).
Qed.

Lemma reply_bytes dir : c_string dir -> Z.of_nat (length dir) <= 32000 -> is_bytes (list_reply dir) /\ Z.of_nat (length (list_reply dir)) <= MAX_BUFFER_SIZE.
Proof.
  intros [Hn Hb] Hl. assert (Z.of_nat (length (list_reply dir)) <= MAX_BUFFER_SIZE) as H by (unfold list_reply; msg_len). split; [|done].
  apply message_bytes_ok; [unfold AFTP_SIMPLE_RESPONSE; lia| |done].
  repeat apply Forall_cons_2; try apply Forall_nil_2; cbn [fst snd]; (split; [byte|]); [byte|]. apply Forall_app_2; [done|byte].
Qed.

(** The reply with the directory is taken as it is, when there is room for it. *)
Lemma dir_open_replied filespec filetype infolevel size dir rest r k a f : c_string filespec -> Z.of_nat (length filespec) <= 32000 ->
  c_string dir -> Z.of_nat (length dir) <= 32000 -> inbox k = list_reply dir :: rest ->
  exists r' k' a', aftp_dir_open false i filespec (Z.of_nat (length filespec)) filetype infolevel size (C r k a f) =
      (path ← of_opt (copied size dir); mret (Some AFTP_RC_OK, Some path)) (C r' k' a' f) /\
    inbox k' = rest /\ outbox k' = outbox k ++ [list_request filespec filetype infolevel].
Proof.
  intros Hf Hlf [Hn Hb] Hld Hin. destruct (reply_bytes dir (conj Hn Hb) Hld) as [Hmb Hml].
  destruct (dir_open_asked filespec filetype infolevel size _ AFTP_SIMPLE_RESPONSE rest r k a f Hf Hlf Hin Hmb Hml) as (r2 & k2 & E & H2 & Hin2 & Hout2).
  { unfold list_reply. rewrite <- (app_nil_r (message _ _ _)). apply message_major. unfold AFTP_SIMPLE_RESPONSE. lia. }
  exists r2, k2, (MkAnswer (Some 0) (primary_msg a) (msg_category a) (msg_index a)). split; [|done]. rewrite E, decide_True by done.
  pose proof H2 as (Hpos & _). unfold list_reply in H2, Hpos. rewrite length_fmap, length_message, !length_params_cons, length_params_nil in Hpos. cbn [fst snd length] in Hpos. rewrite length_app in Hpos. cbn [length] in Hpos.
  unfold message in H2. rewrite !params_bytes_cons in H2. set (hd := wire16 false (u16 AFTP_SIMPLE_RESPONSE)) in *.
  assert (length hd = 2%nat) as Hhd by (unfold hd; by rewrite length_wire16).
  set (p1 := param_bytes false (AFTP_STATUS_RETURN_CODE, [u8 0])) in *.
  assert (params_bytes false ([] : list (Z * list Z)) = []) as Hnil by done. rewrite Hnil, app_nil_r in H2.
  rewrite !fmap_app in H2. change 2 with (Z.of_nat 2). rewrite <- Hhd, <- (length_fmap Some).
  replace (S (Z.to_nat (position r2))) with (S (S (Z.to_nat (position r2) - 1))) by lia.
  set (a' := MkAnswer _ _ _ _).
  assert (response_params false i (position r2) (dir_open_param false i size) (S (S (Z.to_nat (position r2) - 1))) (Z.of_nat (length (Some <$> hd))) (AFTP_RC_OK, None) (C r2 k2 a f) =
    (path ← of_opt (copied size dir); mret (AFTP_RC_OK, Some path)) (C r2 k2 a' f)) as Er.
  { rewrite (response_step false i st0 s0 Hi (position r2) _ _ _ AFTP_STATUS_RETURN_CODE [u8 0] _ (AFTP_RC_OK, None) r2 k2 a f H2).
    rewrite (M_bind_Ret _ _ _ _ _ (open_status r2 _ _ _ size _ k2 a f H2)). fold a'.
    rewrite app_assoc in H2. rewrite (length_fmap Some hd), Hhd. cbn [length].
    rewrite decide_True by lia.
    replace (Z.of_nat (2 + 1 + 3)) with (Z.of_nat (length ((Some <$> hd) ++ (Some <$> p1)))) by (rewrite length_app, !length_fmap, Hhd; unfold p1; rewrite length_param; done).
    rewrite <- (app_nil_r (Some <$> param_bytes false (AFTP_FILESPEC, dir ++ [0]))) in H2.
    rewrite (response_step false i st0 s0 Hi (position r2) _ _ _ AFTP_FILESPEC (dir ++ [0]) _ (AFTP_RC_OK, None) r2 k2 a' f H2).
    unfold mbind at 1, M_bind at 1. rewrite (open_directory r2 _ dir _ size _ k2 a' f H2 Hn).
    destruct (copied size dir) as [path|]; [|reflexivity]. cbn [of_opt fst]. rewrite !M_ret_bind. unfold mret at 1, M_ret at 1.
    rewrite decide_False; [done|]. rewrite !length_app, !length_fmap, Hhd. unfold p1. rewrite length_param. cbn [snd length]. lia. }
  unfold mbind at 1, M_bind at 1. rewrite Er. by destruct (copied size dir).
Qed.

Lemma open_category r pre index post size x k a f : 0 <= index < 65536 ->
  rep r (pre ++ (Some <$> param_bytes false (AFTP_STATUS_CATEGORY_INDEX, twobytes false [0; index])) ++ post) ->
  dir_open_param false i size AFTP_STATUS_CATEGORY_INDEX (Z.of_nat (length pre)) x (C r k a f) =
  Ret (AFTP_RC_FAIL_FATAL, x.2) (C r k (MkAnswer (status a) (primary_msg a) (Some 0) (Some index)) f).
Proof.
  intros Hx Hr. unfold dir_open_param. do 2 rewrite decide_False by done. rewrite decide_True by done.
  by rewrite (M_bind_Ret _ _ _ _ _ (set_category_ok i st0 s0 Hi r k a f pre _ 0 index post _ ltac:(lia) Hx Hr eq_refl)).
Qed.

Lemma open_message r pre s post size x k a f : msg_room a -> rep r (pre ++ (Some <$> param_bytes false (AFTP_STATUS_PRIMARY_MSG, s ++ [0])) ++ post) ->
  exists a', dir_open_param false i size AFTP_STATUS_PRIMARY_MSG (Z.of_nat (length pre)) x (C r k a f) = Ret x (C r k a' f).
Proof.
  intros Ha Hr. unfold dir_open_param. do 3 rewrite decide_False by done. rewrite decide_True by done.
  destruct (param_data _ _ _ _ _ Hr) as (pre' & Hp & Hr').
  destruct (set_primary_msg_ok i st0 s0 Hi r k a f (s ++ [0]) pre' post (Z.of_nat (length pre)) Hr') as (m & E & _); [set_solver|done|exact Hp|].
  eexists. by rewrite (M_bind_Ret _ _ _ _ _ E).
Qed.

(** A failure that is answered. *)
Definition list_failure (index : Z) : list Z := status_message AFTP_RC_FAIL_INPUT_ERROR 0 index.

(** Its parameters: the code, the category with the index, and the text. *)
Lemma failure_taken index size r k a f : 0 <= index < 65536 -> msg_room a -> rep r (Some <$> list_failure index) ->
  exists a', response_params false i (position r) (dir_open_param false i size) (S (Z.to_nat (position r))) 2 (AFTP_RC_OK, None) (C r k a f) =
    Ret (AFTP_RC_FAIL_FATAL, None) (C r k a' f).
Proof.
  intros Hx Ha H2. pose proof H2 as (Hpos & _). unfold list_failure in *. rewrite length_fmap, length_status in Hpos by done.
  rewrite Hpos. unfold status_message, status_params, message in H2. rewrite decide_True in H2 by done.
  set (hd := wire16 false (u16 ASUITE_STATUS_RECORD)) in *. assert (length hd = 2%nat) as Hw by apply length_wire16.
  set (p1 := (ASUITE_STATUS_RETURN_CODE, [u8 AFTP_RC_FAIL_INPUT_ERROR])) in *.
  set (p2 := (ASUITE_STATUS_CATEGORY_INDEX, twobytes false [0; index])) in *.
  set (p3 := (ASUITE_STATUS_PRIMARY_MSG, str "ERROR" ++ [0])) in *.
  assert (length (param_bytes false p1) = 4%nat) as Hl1 by (by rewrite length_param).
  assert (length (param_bytes false p2) = 7%nat) as Hl2 by (rewrite length_param; unfold p2; cbn [snd]; by rewrite length_twobytes).
  change (params_bytes false [p1; p2; p3]) with (param_bytes false p1 ++ param_bytes false p2 ++ param_bytes false p3 ++ []) in H2.
  rewrite !fmap_app in H2. change (S (Z.to_nat (Z.of_nat 22))) with 23%nat.
  assert (2 = Z.of_nat (length (Some <$> hd))) as -> by (rewrite length_fmap, Hw; done).
  rewrite (response_step false i st0 s0 Hi _ _ _ _ _ _ _ _ r k a f H2). rewrite (M_bind_Ret _ _ _ _ _ (open_status r _ _ _ size _ k a f H2)).
  rewrite length_fmap, Hw. rewrite decide_True by (cbn; lia).
  rewrite app_assoc in H2. set (pre2 := (Some <$> hd) ++ (Some <$> param_bytes false p1)) in H2.
  assert (Z.of_nat (2 + length [u8 AFTP_RC_FAIL_INPUT_ERROR] + 3) = Z.of_nat (length pre2)) as -> by (unfold pre2; rewrite length_app, !length_fmap, Hw, Hl1; done).
  rewrite (response_step false i st0 s0 Hi _ _ _ _ _ _ _ _ r k _ f H2). rewrite (M_bind_Ret _ _ _ _ _ (open_category r pre2 index _ size _ k _ f Hx H2)).
  assert (length pre2 = 6%nat) as Hp2 by (unfold pre2; rewrite length_app, !length_fmap, Hw, Hl1; done).
  rewrite length_twobytes, Hp2, decide_True by (cbn; lia).
  rewrite app_assoc in H2. set (pre3 := pre2 ++ _) in H2.
  assert (Z.of_nat (6 + 2 * length [0; index] + 3) = Z.of_nat (length pre3)) as -> by (unfold pre3; rewrite length_app, length_fmap, Hl2, Hp2; done).
  rewrite (response_step false i st0 s0 Hi _ _ _ _ _ _ _ _ r k _ f H2).
  destruct (open_message r pre3 (str "ERROR") _ size (AFTP_RC_FAIL_FATAL, None) k (MkAnswer (Some (u8 AFTP_RC_FAIL_INPUT_ERROR)) (primary_msg a) (Some 0) (Some index)) f Ha H2) as (a' & E).
  exists a'. rewrite (M_bind_Ret _ _ _ _ _ E). rewrite decide_False; [done|]. unfold pre3. rewrite length_app, length_fmap, Hl2, Hp2. cbn. lia.
Qed.

Definition no_files : list Z := list_failure A_ERR_NO_FILES_FOUND.

Lemma dir_open_failed filespec filetype infolevel size index rest r k a f : c_string filespec -> Z.of_nat (length filespec) <= 32000 ->
  0 <= index < 65536 -> msg_room a -> inbox k = list_failure index :: rest ->
  exists r' k' a', aftp_dir_open false i filespec (Z.of_nat (length filespec)) filetype infolevel size (C r k a f) = Ret (Some AFTP_RC_FAIL_FATAL, None) (C r' k' a' f) /\
    inbox k' = rest /\ outbox k' = outbox k ++ [list_request filespec filetype infolevel].
Proof.
  intros Hf Hlf Hx Ha Hin. destruct (status_ok_bytes i st0 Hi AFTP_RC_FAIL_INPUT_ERROR 0 index ltac:(lia) Hx) as [Hb Hl].
  destruct (dir_open_asked filespec filetype infolevel size _ ASUITE_STATUS_RECORD rest r k a f Hf Hlf Hin Hb Hl) as (r2 & k2 & E & H2 & Hin2 & Hout2).
  { unfold list_failure, status_message. rewrite <- (app_nil_r (message _ _ _)). apply message_major. unfold ASUITE_STATUS_RECORD. lia. }
  destruct (failure_taken index size r2 k2 a f Hx Ha H2) as (a2 & E2). exists r2, k2, a2. split; [|done]. rewrite E, decide_True by done.
  by rewrite (M_bind_Ret _ _ _ _ _ E2).
Qed.

(** An entry that arrives, and the end of them. *)
Lemma entry_bytes name : c_string name -> Z.of_nat (length name) <= 32000 -> is_bytes (entry_message name) /\ Z.of_nat (length (entry_message name)) <= MAX_BUFFER_SIZE.
Proof.
  intros [Hn Hb] Hl. assert (Z.of_nat (length (entry_message name)) <= MAX_BUFFER_SIZE) as H by (unfold entry_message; msg_len). split; [|done].
  apply message_bytes_ok; [unfold AFTP_LIST_ENTRY; lia| |done]. constructor; [|constructor]. cbn [fst snd]. split; [byte|]. apply Forall_app_2; [done|byte].
Qed.

Lemma dir_read_entry name size rest r k a f : c_string name -> Z.of_nat (length name) <= 32000 -> inbox k = entry_message name :: rest ->
  exists r' k', aftp_dir_read false i size (C r k a f) =
    (entry ← of_opt (copied size name); mret (Some AFTP_RC_OK, Some entry, Some 0)) (C r' k' a f) /\ inbox k' = rest /\ outbox k' = outbox k.
Proof.
  intros Hs Hmax Hin. destruct (entry_bytes name Hs Hmax) as [Hb Hl].
  destruct (client_receives i st0 s0 Hi AFTP_LIST_ENTRY _ rest r k a f Hin Hb Hl) as (r' & k' & E & Em & Hr & Hin' & Hout).
  { unfold entry_message. rewrite <- (app_nil_r (message _ _ _)). apply message_major. unfold AFTP_LIST_ENTRY. lia. }
  exists r', k'. split; [|done]. unfold aftp_dir_read, valid_handle. rewrite !M_bind_assoc, get_st_bind, (live_lookup i st0 s0 Hi), M_ret_bind. cbn [negb].
  rewrite (M_bind_Ret _ _ _ _ _ E). rewrite (decide_False (P := AFTP_RC_OK <> AFTP_RC_OK)) by (by intros []).
  rewrite (M_bind_Ret _ _ _ _ _ (received_len_live i st0 s0 Hi r' k' a f)), (M_bind_Ret _ _ _ _ _ Em). rewrite (decide_True (P := AFTP_LIST_ENTRY = _)) by done.
  pose proof Hr as (Hpos & _). rewrite length_fmap in Hpos. unfold entry_message in Hr, Hpos. unfold message in Hr. rewrite params_bytes_cons in Hr.
  assert (params_bytes false ([] : list (Z * list Z)) = []) as Hnil by done. rewrite Hnil, app_nil_r in Hr.
  set (hd := wire16 false (u16 AFTP_LIST_ENTRY)) in *. assert (length hd = 2%nat) as Hhd by (unfold hd; by rewrite length_wire16).
  rewrite length_message, length_params_cons, length_params_nil in Hpos. cbn [fst snd] in Hpos. rewrite length_app in Hpos. cbn [length] in Hpos.
  rewrite fmap_app in Hr. rewrite <- (app_nil_r (Some <$> param_bytes _ _)) in Hr.
  change 2 with (Z.of_nat 2). rewrite <- Hhd, <- (length_fmap Some).
  assert (response_params false i (position r') (dir_read_param false i size) (S (Z.to_nat (position r'))) (Z.of_nat (length (Some <$> hd))) (AFTP_RC_OK, None) (C r' k' a f) =
    (entry ← of_opt (copied size name); mret (AFTP_RC_OK, Some entry)) (C r' k' a f)) as Er.
  { rewrite (response_step false i st0 s0 Hi (position r') _ _ _ AFTP_FILESPEC (name ++ [0]) [] (AFTP_RC_OK, None) r' k' a f Hr).
    unfold dir_read_param. rewrite (decide_True (P := AFTP_FILESPEC = _)), M_bind_assoc by done.
    unfold mbind at 1, M_bind at 1. rewrite (copy_out_string r' _ _ name _ size k' a f Hr (proj1 Hs)).
    destruct (copied size name) as [entry|]; [|reflexivity]. cbn [of_opt fst]. rewrite M_ret_bind. unfold mret at 1, M_ret at 1. rewrite M_ret_bind.
    rewrite decide_False; [done|]. rewrite length_fmap, Hhd, length_app. cbn [length]. lia. }
  unfold mbind at 1, M_bind at 1. rewrite Er. by destruct (copied size name).
Qed.

Lemma dir_read_complete size rest r k a f : inbox k = complete_message :: rest ->
  exists r' k', aftp_dir_read false i size (C r k a f) = Ret (Some AFTP_RC_OK, None, Some 1) (C r' k' a f) /\ inbox k' = rest /\ outbox k' = outbox k.
Proof.
  intros Hin. destruct (client_receives i st0 s0 Hi AFTP_LIST_COMPLETE _ rest r k a f Hin) as (r' & k' & E & Em & Hr & Hin' & Hout); [byte|by vm_compute|done|].
  exists r', k'. split; [|done]. unfold aftp_dir_read, valid_handle. rewrite !M_bind_assoc, get_st_bind, (live_lookup i st0 s0 Hi), M_ret_bind. cbn [negb].
  rewrite (M_bind_Ret _ _ _ _ _ E). rewrite (decide_False (P := AFTP_RC_OK <> AFTP_RC_OK)) by (by intros []).
  by rewrite (M_bind_Ret _ _ _ _ _ (received_len_live i st0 s0 Hi r' k' a f)), (M_bind_Ret _ _ _ _ _ Em).
Qed.

(** *** The command *)

Definition with_lib (c : client K F) (l : aftp K F) (out : list Z) : client K F :=
  MkClient l (session c) (connected c) (prompting c) (opens c) (input c) out.

Lemma call_lib {X} (m : Z -> M (aftp K F) X) c l l' out x : m (session c) l = Ret x l' ->
  call m (with_lib c l out) = Ret x (with_lib c l' out).
Proof. intros E. unfold call. rewrite get_st_bind. cbn [session with_lib]. unfold on_lib, zoom. cbn [lib with_lib]. by rewrite E. Qed.

Lemma call_lib_undefined {X} (m : Z -> M (aftp K F) X) c l out : undefined (m (session c) l) -> undefined (call m (with_lib c l out)).
Proof. intros H. unfold call. rewrite get_st_bind. cbn [session with_lib]. unfold on_lib. by apply undefined_zoom. Qed.

Lemma puts_bind {X} t (g : unit -> M (client K F) X) c l out : (puts t ≫= g) (with_lib c l out) = g tt (with_lib c l (out ++ t ++ [10])).
Proof. done. Qed.

Definition lines (ls : list (list Z)) : list Z := mjoin ((fun l => l ++ [10]) <$> ls).

Lemma lines_cons l ls : lines (l :: ls) = (l ++ [10]) ++ lines ls.
Proof. done. Qed.

(** The names are printed up to one the command has no room for. *)
Lemma read_lines names c rest a f : session c = i -> Forall (fun n => c_string n /\ Z.of_nat (length n) <= 32000) names -> forall turns entry no_more r k out,
  inbox k = (entry_message <$> names) ++ complete_message :: rest -> (length names < turns)%nat ->
  let run := read_entries false (fun e _ => puts e) turns entry no_more tt (with_lib c (C r k a f) out) in
  if decide (Forall (fun n => length n < 80)%nat names)
  then exists entry' r' k', run = Ret (entry', tt) (with_lib c (C r' k' a f) (out ++ lines names)) /\ inbox k' = rest /\ outbox k' = outbox k
  else undefined run.
Proof.
  intros Hc Hnames. induction Hnames as [|name names [Hname Hlen] _ IH]; intros [|turns] entry no_more r k out Hin Ht; try (cbn in Ht; lia); cbn [read_entries].
  - rewrite decide_True by done. destruct (dir_read_complete 80 rest r k a f Hin) as (r' & k' & E & Hin' & Hout). rewrite <- Hc in E at 1.
    rewrite (M_bind_Ret _ _ _ _ _ (call_lib _ c _ _ out _ E)), of_opt_Some_bind, (decide_True (P := AFTP_RC_OK = AFTP_RC_OK)), of_opt_Some_bind by done.
    rewrite decide_False by done. exists entry, r', k'. cbn. by rewrite app_nil_r.
  - destruct (dir_read_entry name 80 _ r k a f Hname Hlen Hin) as (r1 & k1 & E & Hin1 & Hout1).
    rewrite <- Hc in E at 1. unfold copied in E. destruct (decide (length name < 80)%nat) as [Hl|Hl].
    2: { rewrite decide_False by (intros Hx; by apply Forall_cons in Hx as [? _]). apply undefined_bind, call_lib_undefined. eexists. exact E. }
    cbn [of_opt] in E. rewrite M_ret_bind in E. unfold mret, M_ret in E. rewrite (M_bind_Ret _ _ _ _ _ (call_lib _ c _ _ out _ E)), of_opt_Some_bind, (decide_True (P := AFTP_RC_OK = AFTP_RC_OK)), of_opt_Some_bind by done.
    rewrite (decide_True (P := 0 = 0)), of_opt_Some_bind, puts_bind by done.
    specialize (IH turns (Some name) (Some 0) r1 k1 (out ++ name ++ [10]) Hin1 ltac:(cbn in Ht; lia)). cbn zeta in IH.
    destruct (decide (Forall (fun n => length n < 80)%nat names)) as [Hall|Hall].
    + rewrite decide_True by (by constructor). destruct IH as (entry' & r' & k' & E' & Hin' & Hout').
      exists entry', r', k'. rewrite E', lines_cons, <- !app_assoc. split; [done|]. split; [done|]. by rewrite Hout', Hout1.
    + rewrite decide_False by (intros Hx; by apply Forall_cons in Hx as [_ ?]). done.
Qed.

Definition shown_listing (directory : list Z) (names : list (list Z)) : list Z :=
  lines ([str "Directory for " ++ directory ++ str "."] ++ names ++ [[10] ++ str "Directory listing complete."]).

Lemma lines_app a b : lines (a ++ b) = lines a ++ lines b.
Proof. unfold lines. by rewrite fmap_app, join_app. Qed.

Lemma lines_one l : lines [l] = l ++ [10].
Proof. unfold lines. cbn [fmap list_fmap mjoin list_join]. apply app_nil_r. Qed.

Lemma ls_opens cmd filespec c r k a f fuel : connected c = true -> lib c = C r k a f ->
  a_ls false fuel [cmd; filespec] A_LS false c =
  ('(rc, path) ← open_listing false filespec AFTP_ALL_FILES AFTP_NATIVE_FILENAMES;
   if decide (rc <> AFTP_RC_OK) then puts (str "Directory listing failed") else
   path ← of_opt path;
   puts (str "Directory for " ++ path ++ str ".");;
   read_entries false (fun e _ => puts e) fuel None None tt;;
   puts ([10] ++ str "Directory listing complete.");;
   rc ← call_rc aftp_dir_close;
   if decide (rc <> AFTP_RC_OK) then puts (str "Error closing directory") else mret tt) (with_lib c (C r k a f) (output c)).
Proof.
  intros Hconn Hlib. assert (c = with_lib c (C r k a f) (output c)) as Ec by (destruct c; cbn in *; by subst).
  unfold a_ls. rewrite get_st_bind, Hconn. cbn [negb]. rewrite (decide_True (P := A_LS = A_LS)) by done. by rewrite Ec at 1.
Qed.

(** The command on a listing: it is printed, when there is room for each name. *)
Definition ls_room (directory : list Z) (names : list (list Z)) : Prop := (length directory < 512)%nat /\ Forall (fun n => length n < 80)%nat names.

#[export] Instance ls_room_dec directory names : Decision (ls_room directory names).
Proof. unfold ls_room. apply _. Defined.

Lemma ls_prints cmd filespec directory names rest c r k a f fuel : session c = i -> connected c = true ->
  lib c = C r k a f -> c_string filespec -> Z.of_nat (length filespec) <= 32000 -> c_string directory -> Z.of_nat (length directory) <= 32000 ->
  Forall (fun n => c_string n /\ Z.of_nat (length n) <= 32000) names ->
  inbox k = listing_messages directory names ++ rest -> (length names < fuel)%nat ->
  if decide (ls_room directory names)
  then exists r' k' a', a_ls false fuel [cmd; filespec] A_LS false c = Ret tt (with_lib c (C r' k' a' f) (output c ++ shown_listing directory names)) /\
    inbox k' = rest /\ outbox k' = outbox k ++ [list_request filespec AFTP_ALL_FILES AFTP_NATIVE_FILENAMES]
  else undefined (a_ls false fuel [cmd; filespec] A_LS false c).
Proof.
  intros Hc Hconn Hlib Hf Hlf Hd Hld Hnames Hin Hfuel. unfold listing_messages in Hin. rewrite <- app_comm_cons, <- app_assoc in Hin.
  destruct (dir_open_replied filespec AFTP_ALL_FILES AFTP_NATIVE_FILENAMES 512 directory _ r k a f Hf Hlf Hd Hld Hin) as (r1 & k1 & a1 & E1 & Hin1 & Hout1).
  rewrite (ls_opens cmd filespec c r k a f fuel Hconn Hlib). rewrite <- Hc in E1 at 1. unfold open_listing, copied in *.
  destruct (decide (length directory < 512)%nat) as [Hl|Hl].
  2: { rewrite decide_False by (by intros []). do 2 apply undefined_bind. apply call_lib_undefined. eexists. exact E1. }
  cbn [of_opt] in E1. rewrite M_ret_bind in E1. unfold mret, M_ret in E1. rewrite M_bind_assoc, (M_bind_Ret _ _ _ _ _ (call_lib _ c _ _ _ _ E1)), of_opt_Some_bind, M_ret_bind.
  rewrite (decide_False (P := AFTP_RC_OK <> AFTP_RC_OK)) by (by intros []). rewrite of_opt_Some_bind, puts_bind.
  pose proof (read_lines names c rest a1 f Hc Hnames fuel None None r1 k1 ((output c) ++ (str "Directory for " ++ directory ++ str ".") ++ [10]) Hin1 Hfuel) as Hr.
  cbn zeta in Hr. destruct (decide (Forall (fun n => length n < 80)%nat names)) as [Hall|Hall].
  2: { rewrite decide_False by (by intros []). by apply undefined_bind. }
  rewrite decide_True by done. destruct Hr as (entry' & r2 & k2 & E2 & Hin2 & Hout2).
  exists r2, k2, a1. split; [|split; [done|by rewrite Hout2, Hout1]]. rewrite (M_bind_Ret _ _ _ _ _ E2), puts_bind.
  rewrite (M_bind_Ret (call_rc aftp_dir_close) _ _ AFTP_RC_OK (with_lib c (C r2 k2 a1 f) ((((output c) ++ (str "Directory for " ++ directory ++ str ".") ++ [10]) ++ lines names) ++ ([10] ++ str "Directory listing complete.") ++ [10]))).
  - rewrite decide_False by (by intros []). unfold shown_listing. rewrite !lines_app, !lines_one, <- !app_assoc. done.
  - unfold call_rc. by rewrite (M_bind_Ret (call _) _ _ (Some AFTP_RC_OK) (with_lib c (C r2 k2 a1 f) ((((output c) ++ (str "Directory for " ++ directory ++ str ".") ++ [10]) ++ lines names) ++ ([10] ++ str "Directory listing complete.") ++ [10]))).
Qed.

Lemma ls_fails cmd filespec index rest c r k a f fuel : session c = i -> connected c = true ->
  lib c = C r k a f -> c_string filespec -> Z.of_nat (length filespec) <= 32000 -> 0 <= index < 65536 -> msg_room a -> inbox k = list_failure index :: rest ->
  exists r' k' a', a_ls false fuel [cmd; filespec] A_LS false c = Ret tt (with_lib c (C r' k' a' f) (output c ++ str "Directory listing failed" ++ [10])) /\
    inbox k' = rest /\ outbox k' = outbox k ++ [list_request filespec AFTP_ALL_FILES AFTP_NATIVE_FILENAMES].
Proof.
  intros Hc Hconn Hlib Hf Hlf Hx Ha Hin.
  destruct (dir_open_failed filespec AFTP_ALL_FILES AFTP_NATIVE_FILENAMES 512 index rest r k a f Hf Hlf Hx Ha Hin) as (r1 & k1 & a1 & E1 & Hin1 & Hout1).
  exists r1, k1, a1. split; [|done]. rewrite (ls_opens cmd filespec c r k a f fuel Hconn Hlib). rewrite <- Hc in E1 at 1. unfold open_listing.
  rewrite M_bind_assoc, (M_bind_Ret _ _ _ _ _ (call_lib _ c _ _ _ _ E1)), of_opt_Some_bind, M_ret_bind.
  by rewrite (decide_True (P := AFTP_RC_FAIL_FATAL <> AFTP_RC_OK)) by done.
Qed.
End Client.

(** ** The server *)
Section Server.
Context {K F : Type} `{HC : Cpic K} `{HD : !Delivers K} `{HP : Posix F}.
Context (sys : system).

Abbreviation V r k p n d f := (MkAftpd (Some r) k p n d f).

(** Where the server looks: the directory it reports, and the one it reads, with the
    pattern. *)
Definition directory_of (filespec : list Z) (f : F) : option (list Z) :=
  if decide (g_dirname sys filespec = str ".") then default None (safe_get_cwd 2 (cwd f)) else Some (g_dirname sys filespec).

Definition listing_of (filespec directory : list Z) (f : F) : option (list Z * list Z * stat) :=
  match lstat_of filespec f with
  | None => d ← lstat_of directory f; if Aftpd.is_dir d then Some (directory, g_basename sys filespec, d) else None
  | Some s => if Aftpd.is_dir s then Some (filespec, str "*", s) else Some (directory, g_basename sys filespec, s)
  end.

Definition list_step (p : param) (x : option (list Z) * Z * option Z) : option (list Z) * Z * option Z :=
  if decide (p.1 = AFTP_FILESPEC) then (Some (c_str p.2), x.1.2, x.2)
  else if decide (p.1 = AFTP_FILE_TYPE) then (x.1.1, default 0 (head p.2), x.2)
  else if decide (p.1 = AFTP_INFO_LEVEL) then (x.1.1, x.1.2, head p.2) else x.

Lemma peek_param r pre key c post (k : K) n d (f : F) : rep r (pre ++ (Some <$> param_bytes false (key, [c])) ++ post) ->
  Aftpd.on_rec (peek (Z.of_nat (length pre) + 3)) (V r k (Z.of_nat (length pre)) n d f) = Ret c (V r k (Z.of_nat (length pre)) n d f).
Proof.
  intros Hr. destruct (param_data _ _ _ _ _ Hr) as (pre' & Hp & Hr'). rewrite <- Hp.
  apply server_rec_Ret. eapply peek_rep; [exact Hr'|]. by rewrite lookup_app_r, Nat.sub_diag by lia.
Qed.

Lemma with_list_request filespec filetype infolevel (cont : option (list Z) * Z * option Z -> M (aftpd K F) unit) r k d f : c_string filespec ->
  let n := Z.of_nat (length (list_request filespec filetype infolevel)) in
  rep r (Some <$> list_request filespec filetype infolevel) ->
  with_params false (list_param false) (None, AFTP_ALL_FILES, None) cont (V r k 2 n d f) =
    cont (Some filespec, u8 (u8 filetype), Some (u8 (u8 infolevel))) (V r k n n d f).
Proof.
  intros [Hn _] n H0. unfold n, list_request. rewrite (with_message _ list_step _ _ _ AFTP_LIST_REQUEST r k d f H0 ltac:(done)).
  { cbn [foldl]. unfold list_step. cbn. by rewrite c_str_string. }
  intros key data pre post [[x1 x2] x3] Hin Hr. unfold list_param, list_step.
  repeat (apply elem_of_cons in Hin as [[= -> ->]|Hin]); [| | |by apply elem_of_nil in Hin]; cbn [fst snd]; rewrite get_st_bind.
  - rewrite !(decide_True (P := AFTP_FILESPEC = _)) by done. rewrite (M_bind_Ret _ _ _ _ _ (param_string_ok false filespec _ r pre post k _ d f Hr Hn)).
    by rewrite c_str_string.
  - do 2 rewrite (decide_False (P := AFTP_FILE_TYPE = AFTP_FILESPEC)) by done. do 2 rewrite (decide_True (P := AFTP_FILE_TYPE = _)) by done.
    cbn [curpos]. by rewrite (M_bind_Ret _ _ _ _ _ (peek_param r pre _ _ post k _ d f Hr)).
  - do 2 rewrite (decide_False (P := AFTP_INFO_LEVEL = AFTP_FILESPEC)) by done. do 2 rewrite (decide_False (P := AFTP_INFO_LEVEL = AFTP_FILE_TYPE)) by done.
    do 2 rewrite (decide_True (P := AFTP_INFO_LEVEL = _)) by done.
    cbn [curpos]. by rewrite (M_bind_Ret _ _ _ _ _ (peek_param r pre _ _ post k _ d f Hr)).
Qed.

Lemma entry_sent name s r k p n d (f : F) : c_string name -> Z.of_nat (length name) <= 32000 ->
  exists s' r' k', list_entry false sys AFTP_ALL_FILES AFTP_NATIVE_FILENAMES name s (V r k p n d f) = Ret s' (V r' k' p n d f) /\
    outbox k' = outbox k ++ [entry_message name] /\ inbox k' = inbox k.
Proof.
  intros [Hn Hb] Hl. destruct (start_message false AFTP_LIST_ENTRY r) as (r1 & E1 & H1).
  destruct (append_string false r1 _ [] AFTP_FILESPEC name (Z.of_nat (length name) + 1) H1) as (r2 & E2 & H2); [byte|done..|msg_len|].
  destruct (send_delivers r2 _ k H2) as (k1 & E3 & Hout & Hin).
  eexists _, r2, k1. split; [|done]. unfold list_entry. rewrite (M_bind_Ret _ _ _ _ _ (server_rec_Ret _ r k p n d f _ _ E1)), get_st_bind. cbn [fs].
  rewrite (decide_False (P := AFTP_NATIVE_FILENAMES = _)), M_ret_bind by done.
  assert (forall x, wanted AFTP_ALL_FILES x = true) as Hw by done. rewrite Hw, (M_bind_Ret _ _ _ _ _ (server_rec_Ret _ r1 k p n d f _ _ E2)).
  unfold send. by rewrite (M_bind_Ret _ _ _ _ _ (server_msg_Ret _ r2 k p n d f _ _ _ E3)).
Qed.

Lemma entries_sent names : Forall (fun x => c_string x /\ Z.of_nat (length x) <= 32000) names -> forall s r k p n d (f : F),
  exists r' k', list_entries false sys AFTP_ALL_FILES AFTP_NATIVE_FILENAMES names s (V r k p n d f) = Ret tt (V r' k' p n d f) /\
    outbox k' = outbox k ++ (entry_message <$> names) /\ inbox k' = inbox k.
Proof.
  induction 1 as [|name names [Hc Hl] _ IH]; intros s r k p n d f; cbn [list_entries].
  - exists r, k. cbn. by rewrite app_nil_r.
  - destruct (entry_sent name s r k p n d f Hc Hl) as (s' & r1 & k1 & E & Hout & Hin). rewrite (M_bind_Ret _ _ _ _ _ E).
    destruct (IH s' r1 k1 p n d f) as (r' & k' & E' & Hout' & Hin'). exists r', k'. split; [done|]. rewrite Hout', Hout, Hin', Hin. cbn. by rewrite <- app_assoc.
Qed.

(** The list of names, when the matcher decides each. *)
Lemma names_listed filespec directory dir pattern st entries r k p n d (f : F) :
  listing_of filespec directory f = Some (dir, pattern, st) -> readdir_all dir f = Some entries -> Forall (decided pattern) entries ->
  exists names, file_list false false sys filespec directory (V r k p n d f) = Ret (Some (names, st)) (V r k p n d f) /\
    Sorted name_le names /\ names ≡ₚ taken pattern entries.
Proof.
  intros Hl Hr Hd. destruct (file_list_loop_spec pattern entries [] Hd) as (names & E & Hs & Hperm); [constructor|].
  exists names. split; [|by split].
  assert (list_of (K := K) dir pattern st (V r k p n d f) = Ret (Some (names, st)) (V r k p n d f)) as El.
  { unfold list_of. rewrite get_st_bind. cbn [fs]. rewrite Hr. unfold get_local_file_list. by rewrite E. }
  unfold file_list. rewrite get_st_bind. cbn [fs]. unfold listing_of in Hl.
  destruct (lstat_of filespec f) as [x|].
  - destruct (Aftpd.is_dir x); injection Hl; intros; subst; exact El.
  - destruct (lstat_of directory f) as [x|]; [|done]. cbn in Hl. destruct (Aftpd.is_dir x); [|done]. injection Hl; intros; subst; exact El.
Qed.

(** A directory that cannot be read leaves the list unassigned; a name that the matcher
    does not decide is read past its end. *)
Lemma names_unlisted filespec directory dir pattern st r k p n d (f : F) :
  listing_of filespec directory f = Some (dir, pattern, st) -> (forall entries, readdir_all dir f = Some entries -> ~ Forall (decided pattern) entries) ->
  undefined (file_list false false sys filespec directory (V r k p n d f)).
Proof.
  intros Hl Hr.
  assert (undefined (list_of (K := K) dir pattern st (V r k p n d f))) as El.
  { unfold list_of. rewrite get_st_bind. cbn [fs]. unfold get_local_file_list. destruct (readdir_all dir f) as [entries|]; [|by eexists].
    rewrite file_list_loop_undecided by (by apply Hr). by eexists. }
  unfold file_list. rewrite get_st_bind. cbn [fs]. unfold listing_of in Hl.
  destruct (lstat_of filespec f) as [x|].
  - destruct (Aftpd.is_dir x); injection Hl; intros; subst; exact El.
  - destruct (lstat_of directory f) as [x|]; [|done]. cbn in Hl. destruct (Aftpd.is_dir x); [|done]. injection Hl; intros; subst; exact El.
Qed.

Lemma reply_sent directory r : c_string directory -> Z.of_nat (length directory) <= 32000 ->
  exists r', (asuiterecord_clear;;
          asuiterecord_settype false AFTP_SIMPLE_RESPONSE;;
          asuiterecord_append_char false AFTP_STATUS_RETURN_CODE 0;;
          asuiterecord_append false AFTP_FILESPEC (directory ++ [0]) (Z.of_nat (length directory) + 1)) (Some r) = Ret 0 (Some r') /\
    rep r' (Some <$> list_reply directory).
Proof.
  intros [Hn Hb] Hl. destruct (start_message false AFTP_SIMPLE_RESPONSE r) as (r1 & E1 & H1).
  destruct (append_char false r1 _ [] AFTP_STATUS_RETURN_CODE 0 H1) as (r2 & E2 & H2); [byte|msg_len|].
  destruct (append_string false r2 _ _ AFTP_FILESPEC directory (Z.of_nat (length directory) + 1) H2) as (r3 & E3 & H3); [byte|done..|cbn [app]; msg_len|].
  exists r3. rewrite <- M_bind_assoc, (M_bind_Ret _ _ _ _ _ E1), (M_bind_Ret _ _ _ _ _ E2). by split.
Qed.

Lemma names_refused filespec directory r k p n d (f : F) : listing_of filespec directory f = None ->
  file_list false false sys filespec directory (V r k p n d f) = Ret None (V r (cmsend (list_failure A_ERR_INVALID_PATH) k).2 p n d f).
Proof.
  intros Hl. assert (invalid_path (X := list (list Z) * stat) false false (V r k p n d f) = Ret None (V r (cmsend (list_failure A_ERR_INVALID_PATH) k).2 p n d f)) as E.
  { unfold invalid_path. by rewrite (M_bind_Ret _ _ _ _ _ (respond_Ret false _ _ _ r k p n d f)). }
  unfold file_list. rewrite get_st_bind. cbn [fs]. unfold listing_of in Hl.
  destruct (lstat_of filespec f) as [x|]; [destruct (Aftpd.is_dir x); discriminate Hl|].
  destruct (lstat_of directory f) as [x|]; [|exact E]. cbn [mbind option_bind] in Hl. destruct (Aftpd.is_dir x); [discriminate Hl|exact E].
Qed.

Lemma directory_found filespec directory {X} (g : list Z -> M (aftpd K F) X) r k p n d (f : F) : directory_of filespec f = Some directory ->
  ((if decide (g_dirname sys filespec = str ".") then d ← current_dir; of_opt d else mret (g_dirname sys filespec)) ≫= g) (V r k p n d f) = g directory (V r k p n d f).
Proof.
  unfold directory_of. intros Hd. case_decide.
  - unfold current_dir. rewrite !M_bind_assoc, get_st_bind. cbn [fs]. destruct (safe_get_cwd 2 (cwd f)) as [[x|]|]; [|done..]. cbn in Hd. injection Hd as ->.
    by rewrite M_ret_bind, of_opt_Some_bind.
  - injection Hd as <-. by rewrite M_ret_bind.
Qed.

Lemma request_bytes filespec : c_string filespec -> Z.of_nat (length filespec) <= 32000 ->
  is_bytes (list_request filespec AFTP_ALL_FILES AFTP_NATIVE_FILENAMES) /\
  Z.of_nat (length (list_request filespec AFTP_ALL_FILES AFTP_NATIVE_FILENAMES)) <= MAX_BUFFER_SIZE.
Proof.
  intros [_ Hf] Hlf. assert (Z.of_nat (length (list_request filespec AFTP_ALL_FILES AFTP_NATIVE_FILENAMES)) <= MAX_BUFFER_SIZE) as H by (unfold list_request; msg_len).
  split; [|done]. apply message_bytes_ok; [unfold AFTP_LIST_REQUEST; lia| |done].
  repeat apply Forall_cons_2; try apply Forall_nil_2; cbn [fst snd]; (split; [byte|]); [apply Forall_app_2; [done|byte]|byte|byte].
Qed.

(** What the handler does with the list of names. *)
Definition list_answer (directory : list Z) (l : option (list (list Z) * stat)) : M (aftpd K F) unit :=
  match l with
  | None => mret tt
  | Some ([], _) => respond false false AFTP_RC_FAIL_INPUT_ERROR 0 A_ERR_NO_FILES_FOUND
  | Some (filelist, filestats) =>
      Aftpd.on_rec (asuiterecord_clear;;
        asuiterecord_settype false AFTP_SIMPLE_RESPONSE;;
        asuiterecord_append_char false AFTP_STATUS_RETURN_CODE 0;;
        asuiterecord_append false AFTP_FILESPEC (directory ++ [0]) (Z.of_nat (length directory) + 1));;
      Aftpd.send;;
      list_entries false sys AFTP_ALL_FILES AFTP_NATIVE_FILENAMES filelist filestats;;
      Aftpd.on_rec (asuiterecord_clear;; asuiterecord_settype false AFTP_LIST_COMPLETE);;
      Aftpd.send;; mret tt
  end.

(** The server's turn, when the request arrives. *)
Lemma listing_turn filespec directory fuel later r k p n d (f : F) :
  c_string filespec -> Z.of_nat (length filespec) <= 32000 -> directory_of filespec f = Some directory ->
  inbox k = list_request filespec AFTP_ALL_FILES AFTP_NATIVE_FILENAMES :: later ->
  exists r0 k0 m, aftpd_turn false false false sys fuel (V r k p n d f) =
      (l ← file_list false false sys filespec directory; list_answer directory l;; mret false) (V r0 k0 m m d f) /\
    outbox k0 = outbox k /\ inbox k0 = later.
Proof.
  intros Hf Hlf Hdir Hin. destruct (request_bytes filespec Hf Hlf) as [Hb Hmax].
  destruct (turn_dispatch sys AFTP_LIST_REQUEST _ later fuel r k p n d f Hin Hb Hmax) as (r0 & k0 & E0 & H0 & Hout0 & Hin0).
  { unfold list_request. rewrite <- (app_nil_r (message _ _ _)). apply message_major. unfold AFTP_LIST_REQUEST. lia. }
  exists r0, k0, (Z.of_nat (length (list_request filespec AFTP_ALL_FILES AFTP_NATIVE_FILENAMES))). split; [|done]. rewrite E0.
  change (dispatch false false false sys fuel AFTP_LIST_REQUEST) with (a_list_request (K := K) (F := F) false false false sys;; mret false).
  assert (forall (g : option (list Z) * Z * option Z -> M (aftpd K F) unit), with_params false (list_param false) (None, AFTP_ALL_FILES, None) g
    (V r0 k0 2 (Z.of_nat (length (list_request filespec AFTP_ALL_FILES AFTP_NATIVE_FILENAMES))) d f) =
    g (Some filespec, AFTP_ALL_FILES, Some AFTP_NATIVE_FILENAMES)
      (V r0 k0 (Z.of_nat (length (list_request filespec AFTP_ALL_FILES AFTP_NATIVE_FILENAMES))) (Z.of_nat (length (list_request filespec AFTP_ALL_FILES AFTP_NATIVE_FILENAMES))) d f)) as Ew.
  { intros g. exact (with_list_request filespec AFTP_ALL_FILES AFTP_NATIVE_FILENAMES g r0 k0 d f Hf H0). }
  set (m := Z.of_nat (length (list_request filespec AFTP_ALL_FILES AFTP_NATIVE_FILENAMES))) in *. unfold a_list_request. unfold mbind at 1, M_bind at 1. rewrite Ew, of_opt_Some_bind, (directory_found filespec directory _ r0 k0 m m d f Hdir).
  symmetry. unfold mbind at 1, M_bind at 1. symmetry. unfold mbind at 1 2, M_bind at 1 2.
  by destruct (file_list false false sys filespec directory (V r0 k0 m m d f)) as [[[[|name names] st]|] s'| | | |].
Qed.

Lemma listing_served filespec directory dir pattern st entries fuel later r k p n d (f : F) :
  c_string filespec -> Z.of_nat (length filespec) <= 32000 -> c_string directory -> Z.of_nat (length directory) <= 32000 ->
  directory_of filespec f = Some directory -> listing_of filespec directory f = Some (dir, pattern, st) -> readdir_all dir f = Some entries ->
  Forall (fun e => c_string e /\ Z.of_nat (length e) <= 32000) entries -> Forall (decided pattern) entries ->
  inbox k = list_request filespec AFTP_ALL_FILES AFTP_NATIVE_FILENAMES :: later ->
  exists names r' k' p' n', aftpd_turn false false false sys fuel (V r k p n d f) = Ret false (V r' k' p' n' d f) /\ inbox k' = later /\
    Sorted name_le names /\ names ≡ₚ taken pattern entries /\
    outbox k' = outbox k ++ (if decide (names = []) then [no_files] else listing_messages directory names).
Proof.
  intros Hf Hlf Hd Hld Hdir Hlist Hread Hent Hdec Hin.
  destruct (listing_turn filespec directory fuel later r k p n d f Hf Hlf Hdir Hin) as (r0 & k0 & m & E0 & Hout0 & Hin0).
  destruct (names_listed filespec directory dir pattern st entries r0 k0 m m d f Hlist Hread Hdec) as (names & E1 & Hs & Hperm).
  exists names. rewrite E0, (M_bind_Ret _ _ _ _ _ E1).
  destruct (decide (names = [])) as [->|Hne].
  - eexists r0, (cmsend no_files k0).2, m, m. split_and!; [|by rewrite cmsend_inbox|done|done|by rewrite cmsend_outbox, Hout0].
    unfold list_answer. by rewrite (M_bind_Ret _ _ _ _ _ (respond_Ret false _ _ _ r0 k0 m m d f)).
  - destruct (reply_sent directory r0 Hd Hld) as (r1 & Er & H1). destruct (send_delivers r1 _ k0 H1) as (k1 & E2 & Hout1 & Hin1).
    assert (Forall (fun x => c_string x /\ Z.of_nat (length x) <= 32000) names) as Hn.
    { rewrite Hperm. apply Forall_forall. intros e [_ He]%list_elem_of_filter. rewrite Forall_forall in Hent. by apply Hent. }
    destruct (entries_sent names Hn st r1 k1 m m d f) as (r2 & k2 & E3 & Hout2 & Hin2).
    destruct (start_message false AFTP_LIST_COMPLETE r2) as (r3 & E4 & H3). destruct (send_delivers r3 _ k2 H3) as (k3 & E5 & Hout3 & Hin3).
    exists r3, k3, m, m. split_and!; [|by rewrite Hin3, Hin2, Hin1|done|done|].
    2: { rewrite Hout3, Hout2, Hout1, Hout0, <- !app_assoc. done. }
    rewrite (M_bind_Ret _ _ _ tt (V r3 k3 m m d f)); [done|]. unfold list_answer.
    destruct names as [|name names]; [done|].
    rewrite (M_bind_Ret _ _ _ _ _ (server_rec_Ret _ r0 k0 m m d f _ _ Er)). unfold send at 1.
    rewrite (M_bind_Ret _ _ _ _ _ (server_msg_Ret _ r1 k0 m m d f _ _ _ E2)), (M_bind_Ret _ _ _ _ _ E3).
    rewrite (M_bind_Ret _ _ _ _ _ (server_rec_Ret _ r2 k2 m m d f _ _ E4)). unfold send.
    by rewrite (M_bind_Ret _ _ _ _ _ (server_msg_Ret _ r3 k2 m m d f _ _ _ E5)).
Qed.
End Server.

(** ** A listing that is shown *)

Lemma short_tail_question pattern e : short_tail pattern e -> QUESTION ∈ pattern.
Proof. intros (p' & k & k' & -> & _). cbn. set_solver. Qed.

(** What the names that are taken are, by the meaning of the pattern. *)
Lemma taken_means pattern entries e : no_nul pattern -> good_pattern pattern = true -> Forall no_nul entries -> e ∈ entries ->
  (glob pattern e -> Forall (decided pattern) entries -> e ∈ taken pattern entries) /\
  (e ∈ taken pattern entries -> glob pattern e \/ short_tail pattern e /\ QUESTION ∈ pattern).
Proof.
  intros Hp Hg Hn He. unfold taken. rewrite list_elem_of_filter. rewrite Forall_forall in Hn.
  pose proof (wc_match_agrees pattern e Hp Hg (Hn e He)) as Ha. split.
  - intros Hm Hd. rewrite Forall_forall in Hd. destruct (Hd e He) as [m E]. rewrite E in *. destruct m; [done|]. by destruct Ha.
  - intros [E _]. rewrite E in Ha. destruct Ha as [?|Hs]; [by left|right]. split; [done|by eapply short_tail_question].
Qed.

(** C5 (refinement).  The command [ls] shows the files the server has.  A server that
    receives the request for a pattern, for any pattern of any directory, answers with
    the directory, a record for each of the names and one for the end: the names of the
    entries that [wc_match] takes, each as often as it is there, in the order of
    [strcmp].  Without such an entry it answers that there is none, and for a path that
    is not there that it is invalid.  By the meaning of a pattern whose escapes are
    complete and that has no two stars in a row, no name it means is missing, and the
    others are those of the exception of [wc_match], which needs a ['?'].  When
    the directory cannot be read, or the matcher runs past the end of a name (of a
    well-formed pattern only with a ['?']), the behaviour is undefined.  A connected
    client that gets a listing has sent this request, and prints the directory, the
    names, each on a line, and the end, when the directory's name has less than 512
    characters and every other one less than 80; for a longer one its behaviour is
    undefined, since the buffer it fills has no terminator.  When the answer tells of a
    failure it prints that the listing failed.  The records have room for what is sent (up to 32000
    characters, which no name of a file and no directory's has), and the server's own
    directory, when it is listed, has a name that [getcwd] returns. *)
Theorem aftp_listing_shown {K F K' F'} `{HC : Cpic K} `{HD : !Delivers K} `{HP : Posix F}
    `{HC' : Cpic K'} `{HD' : !Delivers K'} `{HP' : Posix F'} (sys : system) filespec directory fuel later r ks p n d (fs : F') :
  c_string filespec -> Z.of_nat (length filespec) <= 32000 -> c_string directory -> Z.of_nat (length directory) <= 32000 ->
  directory_of sys filespec fs = Some directory ->
  (forall dir entries, readdir_all dir fs = Some entries -> Forall (fun e => c_string e /\ Z.of_nat (length e) <= 32000) entries) ->
  inbox ks = list_request filespec AFTP_ALL_FILES AFTP_NATIVE_FILENAMES :: later ->
  (let turn := aftpd_turn (K := K') (F := F') false false false sys fuel (MkAftpd (Some r) ks p n d fs) in
   let answers ms := exists r' ks' p' n', turn = Ret false (MkAftpd (Some r') ks' p' n' d fs) /\ inbox ks' = later /\ outbox ks' = outbox ks ++ ms in
   match listing_of sys filespec directory fs with
   | None => answers [list_failure A_ERR_INVALID_PATH]
   | Some (dir, pattern, _) =>
       match readdir_all dir fs with
       | None => undefined turn
       | Some entries =>
           if decide (Forall (decided pattern) entries) then
             exists names, answers (if decide (names = []) then [no_files] else listing_messages directory names) /\
               Sorted name_le names /\ names ≡ₚ taken pattern entries /\
               (no_nul pattern -> good_pattern pattern = true -> forall e, e ∈ entries ->
                (glob pattern e -> e ∈ names) /\ (e ∈ names -> glob pattern e \/ short_tail pattern e /\ QUESTION ∈ pattern))
           else undefined turn /\ (no_nul pattern -> good_pattern pattern = true -> QUESTION ∈ pattern)
       end
   end) /\
  (forall cmd (c : client K F) s k rest fuel', sessions (lib c) !! Z.to_nat (session c) = Some (Live s) -> conversation_ID s = Some k -> connected c = true ->
   (forall names, Forall (fun n => c_string n /\ Z.of_nat (length n) <= 32000) names ->
    inbox k = listing_messages directory names ++ rest -> (length names < fuel')%nat ->
    if decide (ls_room directory names) then
      exists c' s' k', a_ls false fuel' [cmd; filespec] A_LS false c = Ret tt c' /\ output c' = output c ++ shown_listing directory names /\
        sessions (lib c') !! Z.to_nat (session c') = Some (Live s') /\ conversation_ID s' = Some k' /\ inbox k' = rest /\
        outbox k' = outbox k ++ [list_request filespec AFTP_ALL_FILES AFTP_NATIVE_FILENAMES]
    else undefined (a_ls false fuel' [cmd; filespec] A_LS false c)) /\
   (forall index, 0 <= index < 65536 -> msg_room (ans s) -> inbox k = list_failure index :: rest ->
    exists c' s' k', a_ls false fuel' [cmd; filespec] A_LS false c = Ret tt c' /\ output c' = output c ++ str "Directory listing failed" ++ [10] /\
      sessions (lib c') !! Z.to_nat (session c') = Some (Live s') /\ conversation_ID s' = Some k' /\ inbox k' = rest)).
Proof.
  intros Hf Hlf Hd Hld Hdir Hent Hin. split.
  - cbn zeta. destruct (listing_turn sys filespec directory fuel later r ks p n d fs Hf Hlf Hdir Hin) as (r0 & k0 & m & E0 & Hout0 & Hin0).
    destruct (listing_of sys filespec directory fs) as [[[dir pattern] st]|] eqn:Hlist.
    + assert ((forall entries, readdir_all dir fs = Some entries -> ~ Forall (decided pattern) entries) ->
        undefined (aftpd_turn (K := K') (F := F') false false false sys fuel (MkAftpd (Some r) ks p n d fs))) as Hundef.
      { intros Hu. rewrite E0. by apply undefined_bind, (names_unlisted sys filespec directory dir pattern st). }
      destruct (readdir_all dir fs) as [entries|] eqn:Hread; [|by apply Hundef].
      pose proof (Hent dir entries Hread) as He.
      assert (Forall no_nul entries) as Hnn by (eapply Forall_impl; [exact He|]; by intros e [[] _]).
      destruct (decide (Forall (decided pattern) entries)) as [Hdec|Hdec].
      * destruct (listing_served sys filespec directory dir pattern st entries fuel later r ks p n d fs Hf Hlf Hd Hld Hdir Hlist Hread He Hdec Hin)
          as (names & r' & ks' & p' & n' & E & Hin' & Hs & Hperm & Hout).
        exists names. split; [by exists r', ks', p', n'|]. split; [done|]. split; [done|]. intros Hp Hg e Hee. rewrite Hperm.
        destruct (taken_means pattern entries e Hp Hg Hnn Hee) as [H1 H2]. split; [|exact H2]. intros Hgl. by apply H1.
      * split; [apply Hundef; by intros ? [= <-]|]. intros Hp Hg. destruct (decide (QUESTION ∈ pattern)) as [|Hq]; [done|]. destruct Hdec. by apply decided_without_question.
    + eexists r0, _, m, m. rewrite E0. split.
      { by rewrite (M_bind_Ret _ _ _ _ _ (names_refused sys filespec directory r0 k0 m m d fs Hlist)). }
      by rewrite cmsend_inbox, cmsend_outbox, Hout0.
  - intros cmd c s k rest fuel' Hsess Hk Hconn. destruct (live_state_intro (session c) (lib c) s k Hsess Hk) as [Est Hi]. split.
    + intros names Hnames Hink Hfuel.
      pose proof (ls_prints (session c) (lib c) s Hi cmd filespec directory names rest c (record s) k (ans s) (files (lib c)) fuel'
        eq_refl Hconn Est Hf Hlf Hd Hld Hnames Hink Hfuel) as Hl.
      destruct (decide (ls_room directory names)); [|exact Hl]. destruct Hl as (r2 & k2 & a2 & E2 & Hin2 & Hout2).
      eexists _, _, k2. split; [exact E2|]. split; [done|]. split; [by apply live_lookup|]. by split_and!.
    + intros index Hx Ha Hink.
      destruct (ls_fails (session c) (lib c) s Hi cmd filespec index rest c (record s) k (ans s) (files (lib c)) fuel' eq_refl Hconn Est Hf Hlf Hx Ha Hink)
        as (r2 & k2 & a2 & E2 & Hin2 & _).
      eexists _, _, k2. split; [exact E2|]. split; [done|]. split; [by apply live_lookup|]. done.
Qed.

(** A server with three files of which two are asked for, and a client of it. *)
Definition listing_disk : disk None := MkDisk {[str "b.txt" := []; str "a.txt" := [1]; str "c.log" := []]} [str "/pub/"] (str "/pub") [].
Definition listing_system : system := MkSystem 0 (fun _ => None) (fun _ => None) (fun _ _ => None) id (fun _ => str ".").
Definition listing_client (messages : list (list Z)) : client script (disk None) :=
  MkClient (MkAftp 1 (Live (with_conversation demo_session (arriving messages)) :: replicate 19 Null) 0 [] listing_disk) 0 true false 0 [] [].
Definition listing_pattern (p : String.string) : list (list Z) := [list_request (str p) AFTP_ALL_FILES AFTP_NATIVE_FILENAMES].

Lemma demo_entries dir entries : readdir_all dir listing_disk = Some entries -> Forall (fun e => c_string e /\ Z.of_nat (length e) <= 32000) entries.
Proof.
  change (readdir_all dir listing_disk) with (if decide (dir ∈ d_dirs listing_disk) then Some (fst <$> map_to_list (d_files listing_disk)) else None).
  assert (Forall (fun e => c_string e /\ Z.of_nat (length e) <= 32000) (fst <$> map_to_list (d_files listing_disk))) as H by (apply (bool_decide_unpack _); by vm_compute).
  set (l := fst <$> _) in *. clearbody l. destruct (decide (dir ∈ d_dirs listing_disk)); [|discriminate]. by intros [= <-].
Qed.

Definition demo_turn (p : String.string) : outcome (aftpd script (disk None)) bool :=
  aftpd_turn false false false listing_system 0 (MkAftpd (Some (MkRecord 2 ∅)) (arriving (listing_pattern p)) 0 0 0 listing_disk).

Lemma aftp_listing_shown_witness :
  (exists names s, demo_turn "*.txt"%string = Ret false s /\ outbox (Aftpd.conv s) = listing_messages (str "/pub/") names /\ names ≡ₚ [str "a.txt"; str "b.txt"]) /\
  undefined (demo_turn "a.txt?"%string) /\
  (exists c', a_ls false 9 [str "ls"; str "*.txt"] A_LS false (listing_client (listing_messages (str "/pub/") [str "a.txt"; str "b.txt"])) = Ret tt c' /\
     output c' = shown_listing (str "/pub/") [str "a.txt"; str "b.txt"]) /\
  undefined (a_ls false 9 [str "ls"; str "*.txt"] A_LS false (listing_client (listing_messages (str "/pub/") [replicate 80 97]))).
Proof.
  split_and!.
  - destruct (aftp_listing_shown (K := script) (F := disk None) listing_system (str "*.txt") (str "/pub/") 0 [] (MkRecord 2 ∅)
      (arriving (listing_pattern "*.txt"%string)) 0 0 0 listing_disk) as [Hserver _];
      [apply (bool_decide_unpack _); by vm_compute|by vm_compute|apply (bool_decide_unpack _); by vm_compute|by vm_compute|by vm_compute|exact demo_entries|by vm_compute|].
    cbn zeta in Hserver. assert (exists st, listing_of listing_system (str "*.txt") (str "/pub/") listing_disk = Some (str "/pub/", str "*.txt", st)) as [st E]
      by (eexists; by vm_compute). rewrite E in Hserver.
    assert (readdir_all (str "/pub/") listing_disk = Some (default [] (readdir_all (str "/pub/") listing_disk))) as Er by (by vm_compute). rewrite Er in Hserver.
    rewrite decide_True in Hserver by (apply (bool_decide_unpack _); by vm_compute).
    destruct Hserver as (names & (r' & ks' & p' & n' & Et & _ & Ho) & _ & Hperm & _).
    assert (names ≡ₚ [str "a.txt"; str "b.txt"]) as Hn by (rewrite Hperm; apply (bool_decide_unpack _); by vm_compute).
    exists names. eexists. split; [exact Et|]. split; [|exact Hn]. cbn [Aftpd.conv]. rewrite Ho. rewrite decide_False; [done|]. intros ->. by apply Permutation_nil_l in Hn.
  - destruct (aftp_listing_shown (K := script) (F := disk None) listing_system (str "a.txt?") (str "/pub/") 0 [] (MkRecord 2 ∅)
      (arriving (listing_pattern "a.txt?"%string)) 0 0 0 listing_disk) as [Hserver _];
      [apply (bool_decide_unpack _); by vm_compute|by vm_compute|apply (bool_decide_unpack _); by vm_compute|by vm_compute|by vm_compute|exact demo_entries|by vm_compute|].
    cbn zeta in Hserver. assert (exists st, listing_of listing_system (str "a.txt?") (str "/pub/") listing_disk = Some (str "/pub/", str "a.txt?", st)) as [st E]
      by (eexists; by vm_compute). rewrite E in Hserver.
    assert (readdir_all (str "/pub/") listing_disk = Some (default [] (readdir_all (str "/pub/") listing_disk))) as Er by (by vm_compute). rewrite Er in Hserver.
    rewrite decide_False in Hserver by (apply (bool_decide_unpack _); by vm_compute). apply Hserver.
  - destruct (aftp_listing_shown (K := script) (F := disk None) listing_system (str "*.txt") (str "/pub/") 0 [] (MkRecord 2 ∅)
      (arriving (listing_pattern "*.txt"%string)) 0 0 0 listing_disk) as [_ Hclient];
      [apply (bool_decide_unpack _); by vm_compute|by vm_compute|apply (bool_decide_unpack _); by vm_compute|by vm_compute|by vm_compute|exact demo_entries|by vm_compute|].
    destruct (Hclient (str "ls") (listing_client (listing_messages (str "/pub/") [str "a.txt"; str "b.txt"])) _
      (arriving (listing_messages (str "/pub/") [str "a.txt"; str "b.txt"])) [] 9%nat eq_refl eq_refl eq_refl) as [Hl _].
    specialize (Hl [str "a.txt"; str "b.txt"]). rewrite decide_True in Hl by (apply (bool_decide_unpack _); by vm_compute).
    destruct Hl as (c' & s' & k' & E & Ho & _); [apply (bool_decide_unpack _); by vm_compute|rewrite inbox_arriving; symmetry; apply app_nil_r|cbn; lia|].
    exists c'. split; [exact E|exact Ho].
  - destruct (aftp_listing_shown (K := script) (F := disk None) listing_system (str "*.txt") (str "/pub/") 0 [] (MkRecord 2 ∅)
      (arriving (listing_pattern "*.txt"%string)) 0 0 0 listing_disk) as [_ Hclient];
      [apply (bool_decide_unpack _); by vm_compute|by vm_compute|apply (bool_decide_unpack _); by vm_compute|by vm_compute|by vm_compute|exact demo_entries|by vm_compute|].
    destruct (Hclient (str "ls") (listing_client (listing_messages (str "/pub/") [replicate 80 97])) _
      (arriving (listing_messages (str "/pub/") [replicate 80 97])) [] 9%nat eq_refl eq_refl eq_refl) as [Hl _].
    specialize (Hl [replicate 80 97]). rewrite decide_False in Hl by (apply (bool_decide_unpack _); by vm_compute).
    apply Hl; [apply (bool_decide_unpack _); by vm_compute|rewrite inbox_arriving; symmetry; apply app_nil_r|cbn; lia].
Defined.
